(* ===== verification/_CoqProject ===== *)
-Q . S2P
Prelude.v
Pmm.v
Paging.v
PagingSpec.v
PagingOps.v
Heap.v
HeapSpec.v
HeapOps.v
Sched.v
SchedSpec.v
SchedOps.v
SchedThm.v
Sync.v
Event.v
KString.v
Bytes.v
Kfs.v
KfsSpec.v
KfsInv.v
KfsOps.v
KfsData.v
KfsThm.v
KfsBoot.v
Vfs.v
VfsThm.v
Usercopy.v
Display.v
Kwm.v
KwmOrder.v
KwmInv.v
KwmThm.v
Uheap.v
UserPages.v
UheapThm.v
Elf.v
ElfThm.v
Compositor.v
CompositorThm.v
Syscall.v
SyscallThm.v
SyscallRun.v
SyscallIo.v
SyscallSpawn.v
Ring.v
Keyboard.v
Mouse.v
Tty.v
NetSocket.v
Timer.v
Ghal.v
Software.v
SoftwareThm.v
HalFlush.v
Virtqueue.v
VirtioDev.v
VirtioGpu.v
E1000.v
E1000Thm.v
Netif.v
Ping.v
NetInit.v
Spinlock.v
Ata.v
Tables.v
Smp.v
Login.v
Zen.v
Libgui.v
Userlib.v
Boot.v
Panic.v
