(* ===== verification/Prelude.v ===== *)
(** * Kyuzen OS: a verification library

    Kyuzen OS is a 64-bit x86 kernel in C: frame and page-table management, a
    kernel heap, a preemptive multi-processor scheduler, blocking primitives,
    a FAT-style file system with a descriptor layer on top, per-process user
    heaps behind a checked system-call boundary, a window system that
    composites into a back buffer and shows it through a graphics layer with a
    software and a virtio-gpu backend, input drivers, a terminal, a timer, a disk
    driver, and sockets over lwIP and an e1000 network card; on top of it run a
    login, a shell, and applications behind a small system-call library.  This
    library models those parts as executable functions of explicit states and
    proves what each of them promises to its callers.

    ** How the parts fit together, and where each is modelled

    Memory.
    - [Pmm] (src/kernel/pmm.c): the bitmap of 4 KiB frames.  It states the
      interface [FrameAllocator] and discharges it.
    - [Paging], [PagingSpec], [PagingOps] (src/kernel/paging.c): four-level page
      tables over any [FrameAllocator].  [Paging] has the operations,
      [PagingSpec] the invariant (the tables of all address spaces form a
      forest of used frames) and the abstract view [translate], [PagingOps] the
      theorems.
    - [Heap], [HeapSpec], [HeapOps] (src/kernel/heap.c): the first-fit kernel
      heap over the interface [KernelMapper], which the virtual memory manager
      discharges.  [HeapSpec] refines the headers to a list of blocks that
      tiles the heap.
    - [Uheap], [UheapThm] (src/kernel/uheap.c): the regions of a user process, on
      the page tables of [Paging] and on a kernel heap reached through [KAlloc].
    - [Elf], [ElfThm] (src/kernel/elf.c): the program loader, which reads a file
      of [Kfs] into a [ByteHeap] buffer and builds the image in an address space
      of [Paging].
    - [UserPages]: what both need of a user address space, its pages as distinct
      frames and its bytes at user addresses.
    - [Usercopy] (src/kernel/usercopy.c, smap.h): the copies between kernel and
      user memory, on the page tables of [Paging].
    - [KString] (src/kernel/string.c): memory and string routines.

    Tasks.
    - [Sched], [SchedSpec], [SchedOps], [SchedThm] (src/kernel/sched/*.c and the
      per-CPU records of src/kernel/smp/smp.c): each function is one critical
      section; [SchedSpec] is the step relation that interleaves the sections
      of all CPUs.
    - [Sync] (src/kernel/wait.c, sync.c): wait queues, mutexes, semaphores and
      condition variables over the scheduler state.
    - [Event] (src/kernel/event.c): the event ring of each task.

    Files.
    - [Kfs], [KfsSpec], [KfsInv], [KfsOps], [KfsData], [KfsThm], [KfsBoot]
      (src/kernel/kyuzenfs.c): the file system on a disk of byte sectors.
    - [Vfs], [VfsThm] (src/kernel/vfs_fd.c): descriptors with buffered contents
      over [Kfs] and the interface [ByteHeap].

    Screen.
    - [Display] (src/kernel/display.c): buffers, dirty regions, the viewport; it
      states the interface [KAlloc] (operations) and [KAllocOk] (laws) of the
      kernel heap that the screen and the user heap rely on.
    - [Kwm], [KwmOrder], [KwmInv], [KwmThm] (src/kernel/gfx/kwm.c): windows,
      stacking, focus, dragging and input routing into the event rings.
    - [Compositor], [CompositorThm] (src/kernel/gfx/compositor.c, fb.c,
      aa_math.h): drawing primitives and the composition of damaged rectangles.
    - [Ghal] (src/graphics/ghal.c): the registry and the dispatch to a backend.
    - [Software], [SoftwareThm] (src/graphics/backend/software.c): the backend
      that draws into the framebuffer.
    - [HalFlush]: the calls of the compositor run through the HAL and the
      software backend.
    - [Virtqueue] (src/graphics/memory/gpu_alloc.c, src/drivers/graphics/hw/
      virtqueue.c): device pages, descriptor chains and rings.
    - [VirtioDev], [VirtioGpu] (src/drivers/graphics/hw/virtio_gpu_dev.c,
      virtio_gpu_cmd.c, src/graphics/backend/virtio_gpu.c): discovery, command
      delivery and the second backend.

    System calls.
    - [Syscall] (src/kernel/syscall.c): every handler and the dispatcher, as
      programs that call the rest of the kernel; [SyscallThm] follows such a
      program against any answers.  [SyscallRun] answers the calls with the
      models of the other files, [SyscallIo] and [SyscallSpawn] prove what a
      process sees of descriptors and of program start.

    Input, terminal and time.
    - [Ring]: circular buffers, shared by the drivers.
    - [Keyboard] (src/drivers/keyboard.c): scan codes, modifiers, the buffer.
    - [Mouse] (src/drivers/mouse.c): packets, the cursor.
    - [Tty] (src/drivers/tty.c, src/fs/vfs.c): screen, scrollback, line input.
    - [Timer] (src/drivers/timer.c, rtc.c, src/kernel/timer_callbacks.c): ticks,
      callbacks, the clock.

    Network.
    - [NetSocket] (src/kernel/net_socket.c): TCP sockets; lwIP is the
      environment whose callbacks are steps of the model.
    - [E1000], [E1000Thm] (src/drivers/net/e1000/e1000.c): the network card, its
      descriptor rings and the controller that works on them.
    - [Netif] (the lwIP port): frames between the card and lwIP, which is the
      interface [Lwip].
    - [Ping], [NetInit] (src/kernel/net_ping.c, net_init.c): the ICMP client and
      the start of the network with DHCP.

    Machine.
    - [Bytes]: little-endian fields and bit fields, shared by the drivers.
    - [Spinlock] (src/include/spinlock.h): the lock word, a step per access.
    - [Ata] (src/drivers/ata.c): the disk driver as port accesses, and the disk
      that the ATA standard describes.
    - [Tables] (src/arch/x86/gdt.c, idt.c and the interrupt stubs of the .asm
      files): modules [Gdt] and [Idt].
    - [Smp] (src/arch/x86/lapic.c, src/kernel/smp/smp.c, src/kernel/cpu.c):
      modules [Lapic], [Smp] and [Cpu].
    - [Boot] (src/kernel/kernel.c): the modules of the boot loader and the order
      of initialisation.
    - [Panic] (src/kernel/panic.c, src/drivers/serial.c): the panic reports.

    User side.
    - [Login] (src/apps/login.c, shell.c): accounts, line input, numbers and
      program names.
    - [Zen] (src/apps/zen.c): the text editor.
    - [Libgui] (src/apps/libgui.c): the drawing library.
    - [Userlib] (src/apps/userlib.c): the system-call wrappers, against the
      handler of [Syscall].

    This file has the integers, memory cells, loops, tactics and list lemmas
    the other files share.

    ** Conventions

    A C integer is a [Z] reduced to its width where the code can leave it
    ([wrap], [sx]); signed overflow, which C leaves undefined, is taken to wrap
    around as the generated code does.  Memory that is only reached through a
    pointer is a finite map of cells.  A lock that is held for a whole function
    makes that function one atomic step; where the code drops the lock, the
    model has one step for each critical section and the interleavings are part
    of the statement ([SchedSpec], [Sync], [Heap.kmalloc_among], the parts of
    [kwm_process_mouse] in [KwmThm]); [Spinlock] shows that sections under
    one lock do not overlap.  Third-party code (lwIP), the behaviour of devices
    and inputs of the hardware (the tick count, the index of the executing CPU,
    register reads) are arguments.

    Loops with a counter are [for_loop]; other loops take fuel, and each
    theorem that uses one proves that the fuel is enough:
    - heap lists: one more than the number of headers ([Heap.fuel_of]); the
      headers of a well-formed heap are pairwise different;
    - FAT chains: one more than the number of sectors ([Kfs.walk_fuel]); the
      chains of a well-formed disk do not repeat a sector;
    - [Usercopy.RANGE_FUEL]: 16385 pages, the most a range of 64 MiB touches;
    - the page loop of an ELF64 segment: the theorems ask for three more turns
      than the segment has whole pages;
    - strings: the lemmas of [KString] state the bound for each routine;
    - waits for a device: the code's own limit of polls, so the fuel is that
      limit ([Virtqueue], [VirtioDev], the disk waits of [Ata]); a walk along a
      capability list is given 255 steps, and a list that needs more is endless;
    - [E1000.poll_loop]: sixteen turns more than those in which frames arrive;
    - the waits of [Ping] and [NetInit]: the theorems show that some number of
      turns is enough if the clock goes on and, for the spin of [Ping] on its
      lock, if the holder releases it;
    - digits and fields: one turn more than the digits of the width or the
      characters that are left ([Login], [Panic], [Boot]).

    ** What the theorems show

    - Frames: initialisation establishes the invariant that ties the free
      counter to the bitmap; allocation returns the next free frame and never
      one below 72 MiB; free is specified on every branch.
    - Pages: mapping, unmapping, creating and destroying change exactly the
      addressed page or half of the addressed address space, or nothing on
      failure; address spaces are isolated.
    - Kernel heap: [kmalloc], [kfree] and [krealloc] end without panic on a
      well-formed heap, return disjoint aligned blocks and keep all others, also
      when other callers use the heap between two tries of a [kmalloc].
    - User heap: [uheap_alloc] hands out zeroed pages followed by an unmapped
      guard page and rolls a partial mapping back; [uheap_free] accepts exactly
      the bases of the task; [uheap_realloc] keeps the contents.
    - Programs: an ELF64 file with segments in the user half, off the stack and
      with no more bytes in the file than in memory is loaded byte for byte, on
      the pages of its segments and no others, or rejected, without page fault;
      the headers cannot make the loader read behind its buffer; the
      bytes around a segment are those the frames held before.
    - User boundary: [user_range_ok] ends and, from ring 3, accepts exactly the
      ranges whose pages are mapped for it; the copies touch nothing else and only
      inside the SMAP window; bounded strings are copied exactly.
    - Scheduler: in every reachable interleaving no task runs on two CPUs and
      every waiting task has one place and a saved frame; the run queue serves
      the highest effective priority; with priorities up to [PRIO_MAX] aging
      bounds the wait of every queued task; creation and exit are specified whole.
    - Blocking: mutual exclusion among tasks that unlock only what they hold,
      no lost wakeup, the count of a semaphore; any task can unlock a mutex.
    - Events: the ring refines a bounded queue that drops the oldest event.
    - Files: create/read and close/open round trips with the cases in which a
      close loses the contents, deletion, formatting and
      remounting, each with what happens to every other path; descriptors of
      different tasks are isolated.
    - Windows: an invariant of all reachable states, the order kept by
      renumbering, exact destruction of a task's windows, canvases written by
      their owner within their block; the compositor writes only inside the
      damaged rectangle and draws each numbered window once in order, and the
      situation in which a new window is never drawn.

    - System calls: whatever the callees answer, a handler called from ring 3
      touches user memory only through ranges it has checked, releases what it
      allocates and ends with the SMAP window closed; what is written through
      a descriptor is read back by the same task; and the CR3 that a failed
      [sys_spawn] leaves behind.
    - Screen path: after a frame the back buffer, the surface and the
      framebuffer agree wherever something was damaged; a command reaches the
      virtio device byte for byte and its chain is given back.
    - Input: the keyboard interrupt refines a queue of decoded characters; the
      cursor stays on the screen under every packet.
    - Terminal: the scrollback holds the last lines that were printed.
    - Time: ticks, seconds and the registered callbacks agree.
    - Sockets: callbacks reach only the socket they were registered for; what
      is sent is a prefix of what was asked; received bytes are delivered in
      order as long as the ring does not overrun.
    - Network card: the receive ring refines a queue of frames, frames are sent
      unchanged and in order, and the situation in which the transmit ring
      stops; good frames reach lwIP in order and no buffer is lost.
    - Ping and start-up: the waits end, except for the spin on a lock whose
      holder does not run; the network lock is never held over a
      halt, and the packets on which the callback breaks its contract.
    - Locks: sections under a spinlock are serial in every interleaving.
    - Disk: on a disk that follows the ATA protocol the driver is the map of
      sectors [Kfs] assumes; the cache flush that a busy disk does not hear.
    - Processor: the interrupt table is well typed and every vector leads to
      the stub that pushes its number and calls its handler; each processor
      finds its own record.
    - Start-up and panic: modules are stored where the shell looks for them;
      panic reports stay inside the framebuffer and are readable.
    - Accounts: a login succeeds exactly for the accounts that were added, for
      names and passwords that the file format can hold.
    - User libraries: every wrapper passes what the kernel reads and nothing
      else has an influence; drawing stays inside the canvas.

    Each theorem with hypotheses is applied to a concrete state at the end of
    its file, with the parameters instantiated by the models of this library or
    by a small allocator.

    ** Not modelled

    Third-party code (lwIP, Limine, stb_image); the first switch to an idle task
    and the instructions that load processor tables (assembly); the listing of PCI
    devices, power-off and reboot (port I/O without further state); debugging
    output that is not compiled in and the dump of the task table; the widget
    library, which is C++, and the applications built on it; the commands of the
    shell that print or make a single call; the tests.  TLB maintenance, cache
    effects and the memory model of the processor below the level of an access
    to a lock word are not represented. *)

From stdpp Require Import base numbers list gmap.
From Stdlib Require Import ZArith Lia.

#[local] Open Scope Z_scope.

(** ** Machine integers

    A C integer is a [Z]; [wrap w] is the conversion to an unsigned type of
    width [w], [sx w] the conversion to a signed one (two's complement). *)

Definition wrap (w x : Z) : Z := x mod 2 ^ w.
Abbreviation u8 := (wrap 8).
Abbreviation u16 := (wrap 16).
Abbreviation u32 := (wrap 32).
Abbreviation u64 := (wrap 64).

Definition sx (w x : Z) : Z :=
  let y := wrap w x in if y <? 2 ^ (w - 1) then y else y - 2 ^ w.
Abbreviation i8 := (sx 8).
Abbreviation i32 := (sx 32).
Abbreviation i64 := (sx 64).

(** Signed division of C truncates towards zero. *)
Definition cdiv (a b : Z) : Z := Z.quot a b.

(** ** Memory cells

    [ld m a] reads cell [a] of a finite map of integers; a cell that was never
    written reads as [0].  [st m a v] writes it. *)

Definition ld (m : gmap Z Z) (a : Z) : Z := default 0 (m !! a).
Definition st (m : gmap Z Z) (a v : Z) : gmap Z Z := <[a := v]> m.

(** ** Loops

    [zrange lo hi] lists [lo, lo + 1, ..., hi - 1];
    [for (i = lo; i < hi; i++) s = body(i, s)] is [for_loop lo hi body s]. *)

Fixpoint zseq (lo : Z) (n : nat) : list Z :=
  match n with
  | O => []
  | S n => lo :: zseq (lo + 1) n
  end.

Definition zrange (lo hi : Z) : list Z := zseq lo (Z.to_nat (hi - lo)).

Definition for_loop {S : Type} (lo hi : Z) (body : Z -> S -> S) (s : S) : S :=
  foldl (fun s i => body i s) s (zrange lo hi).

(** [for (i = lo; i < hi; i++) if (p(i)) return i;] *)
Definition find_loop (lo hi : Z) (p : Z -> bool) : option Z :=
  List.find p (zrange lo hi).

(** Number of indices of [[lo, hi)] that satisfy [p]. *)
Definition count_loop (lo hi : Z) (p : Z -> bool) : Z :=
  Z.of_nat (length (List.filter p (zrange lo hi))).

#[global] Arguments wrap : simpl never.
#[global] Arguments sx : simpl never.
#[global] Arguments ld : simpl never.
#[global] Arguments st : simpl never.
#[global] Arguments for_loop : simpl never.
#[global] Arguments find_loop : simpl never.
#[global] Arguments count_loop : simpl never.

(** ** Tactics *)

(** Case analysis on the first integer comparison of the goal. *)
Ltac zcase :=
  match goal with
  | |- context [Z.ltb ?a ?b] => destruct (Z.ltb_spec a b)
  | |- context [Z.leb ?a ?b] => destruct (Z.leb_spec a b)
  | |- context [Z.eqb ?a ?b] => destruct (Z.eqb_spec a b)
  end.
Ltac zcases := repeat (zcase; try lia).

(** Turns boolean comparisons in the hypotheses into propositions. *)
Ltac zprop :=
  repeat match goal with
  | H : andb _ _ = true |- _ => apply andb_true_iff in H; destruct H
  | H : orb _ _ = false |- _ => apply orb_false_iff in H; destruct H
  | H : negb _ = true |- _ => apply negb_true_iff in H
  | H : negb _ = false |- _ => apply negb_false_iff in H
  | H : Z.ltb _ _ = true |- _ => apply Z.ltb_lt in H
  | H : Z.ltb _ _ = false |- _ => apply Z.ltb_ge in H
  | H : Z.leb _ _ = true |- _ => apply Z.leb_le in H
  | H : Z.leb _ _ = false |- _ => apply Z.leb_gt in H
  | H : Z.eqb _ _ = true |- _ => apply Z.eqb_eq in H
  | H : Z.eqb _ _ = false |- _ => apply Z.eqb_neq in H
  end.

(** Linear arithmetic with division and remainder by constants. *)
Ltac divlia := Z.to_euclidean_division_equations; lia.

(** Splits conjunctions of the goal and closes the parts that are linear
    arithmetic or assumptions. *)
Ltac splits := repeat match goal with |- _ /\ _ => split end; try done; try lia.

(** ** Lemmas on machine integers *)

Create HintDb kyuzen.
Create Rewrite HintDb kyuzen.

Lemma wrap_small w x : 0 <= x < 2 ^ w -> wrap w x = x.
Proof. intros; unfold wrap; by apply Z.mod_small. Qed.

Lemma wrap_bound w x : 0 <= w -> 0 <= wrap w x < 2 ^ w.
Proof. intros; unfold wrap; apply Z.mod_pos_bound; by apply Z.pow_pos_nonneg. Qed.

Lemma wrap_wrap w x : 0 <= w -> wrap w (wrap w x) = wrap w x.
Proof. intros; apply wrap_small; by apply wrap_bound. Qed.

Lemma sx_small w x : 0 < w -> - 2 ^ (w - 1) <= x < 2 ^ (w - 1) -> sx w x = x.
Proof.
  intros Hw Hx; unfold sx, wrap.
  assert (2 ^ w = 2 * 2 ^ (w - 1)) as E.
  { rewrite <- Z.pow_succ_r by lia; f_equal; lia. }
  destruct (Z.le_gt_cases 0 x).
  - rewrite Z.mod_small by lia; zcase; lia.
  - replace (x mod 2 ^ w) with (x + 2 ^ w).
    + zcase; lia.
    + rewrite <- (Z_mod_plus_full x 1), Z.mul_1_l; rewrite Z.mod_small; lia.
Qed.

(** ** Lemmas on memory cells *)

Lemma ld_st_eq m a v : ld (st m a v) a = v.
Proof. unfold ld, st; by rewrite lookup_insert_eq. Qed.

Lemma ld_st_ne m a b v : a <> b -> ld (st m a v) b = ld m b.
Proof. intros; unfold ld, st; by rewrite lookup_insert_ne. Qed.

Lemma ld_st m a b v : ld (st m a v) b = if a =? b then v else ld m b.
Proof.
  destruct (Z.eqb_spec a b) as [->|]; [apply ld_st_eq | by apply ld_st_ne].
Qed.

Lemma ld_empty a : ld ∅ a = 0.
Proof. reflexivity. Qed.

#[export] Hint Rewrite ld_st_eq ld_empty : kyuzen.
#[export] Hint Rewrite ld_st_ne using done : kyuzen.

(** ** Lemmas on loops *)

Lemma zseq_seqZ n lo : zseq lo n = seqZ lo (Z.of_nat n).
Proof.
  revert lo. induction n as [|n IH]; intros lo; [done|].
  rewrite seqZ_cons by lia. simpl. rewrite IH. f_equal. f_equal; lia.
Qed.

Lemma zrange_seqZ lo hi : zrange lo hi = seqZ lo (hi - lo).
Proof.
  unfold zrange. rewrite zseq_seqZ. destruct (Z.le_gt_cases lo hi).
  - by rewrite Z2Nat.id by lia.
  - rewrite !seqZ_nil; [done|lia|lia].
Qed.

Lemma elem_of_zrange lo hi i : i ∈ zrange lo hi <-> lo <= i < hi.
Proof. rewrite zrange_seqZ, elem_of_seqZ. lia. Qed.

Lemma NoDup_zrange lo hi : NoDup (zrange lo hi).
Proof. rewrite zrange_seqZ. apply NoDup_seqZ. Qed.

Lemma zrange_nil lo hi : hi <= lo -> zrange lo hi = [].
Proof. intros. rewrite zrange_seqZ. apply seqZ_nil. lia. Qed.

Lemma zrange_snoc lo hi : lo <= hi -> zrange lo (hi + 1) = zrange lo hi ++ [hi].
Proof.
  intros. rewrite !zrange_seqZ. replace (hi + 1 - lo) with (hi - lo + 1) by lia.
  rewrite seqZ_app by lia. f_equal.
  rewrite (seqZ_cons (lo + (hi - lo)) 1), seqZ_nil by lia. f_equal. lia.
Qed.

Lemma zrange_cons lo hi : lo < hi -> zrange lo hi = lo :: zrange (lo + 1) hi.
Proof.
  intros. rewrite !zrange_seqZ, seqZ_cons by lia. f_equal. f_equal; lia.
Qed.

Lemma length_zrange lo hi : Z.of_nat (length (zrange lo hi)) = Z.max 0 (hi - lo).
Proof. rewrite zrange_seqZ, length_seqZ. lia. Qed.

Section loops.
Context {S : Type}.
Implicit Types (body : Z -> S -> S) (s : S).

Lemma for_loop_nil lo hi body s : hi <= lo -> for_loop lo hi body s = s.
Proof. intros; unfold for_loop; by rewrite zrange_nil. Qed.

Lemma for_loop_cons lo hi body s :
  lo < hi -> for_loop lo hi body s = for_loop (lo + 1) hi body (body lo s).
Proof.
  intros; unfold for_loop. by rewrite zrange_cons.
Qed.

Lemma for_loop_snoc lo hi body s :
  lo <= hi -> for_loop lo (hi + 1) body s = body hi (for_loop lo hi body s).
Proof.
  intros; unfold for_loop. by rewrite zrange_snoc, foldl_app.
Qed.

Lemma for_loop_ext lo hi body body' s :
  (forall i s, lo <= i < hi -> body i s = body' i s) -> for_loop lo hi body s = for_loop lo hi body' s.
Proof.
  intros He. unfold for_loop. revert s.
  assert (forall i, i ∈ zrange lo hi -> lo <= i < hi) as Hm by (intros i; apply elem_of_zrange).
  induction (zrange lo hi) as [|i l IH]; intros s; [done|]. cbn [foldl].
  rewrite He by (apply Hm; by left). apply IH. intros j Hj. apply Hm. by right.
Qed.

(** Invariant rule of the counting loop. *)
Lemma for_loop_inv (I : Z -> S -> Prop) lo hi body s :
  lo <= hi -> I lo s ->
  (forall i s, lo <= i < hi -> I i s -> I (i + 1) (body i s)) ->
  I hi (for_loop lo hi body s).
Proof.
  intros Hle H0 Hstep.
  assert (forall n, 0 <= n -> lo + n <= hi -> I (lo + n) (for_loop lo (lo + n) body s)) as H.
  { refine (natlike_ind _ _ _).
    - intros _. rewrite for_loop_nil by lia. by rewrite Z.add_0_r.
    - intros n Hn IH Hhi. replace (lo + Z.succ n) with (lo + n + 1) by lia.
      rewrite for_loop_snoc by lia. apply Hstep; [lia|]. apply IH; lia. }
  specialize (H (hi - lo)). replace (lo + (hi - lo)) with hi in H by lia. apply H; lia.
Qed.

(** The same rule for an invariant that does not mention the index. *)
Lemma for_loop_pres (I : S -> Prop) lo hi body s :
  I s -> (forall i s, lo <= i < hi -> I s -> I (body i s)) -> I (for_loop lo hi body s).
Proof.
  intros H0 Hstep. destruct (Z.le_gt_cases lo hi).
  - by apply (for_loop_inv (fun _ s => I s)); [done..|]; intros; apply Hstep.
  - rewrite for_loop_nil by lia; done.
Qed.
End loops.

Lemma find_seqZ_Some p n lo i :
  List.find p (seqZ lo n) = Some i <->
  lo <= i < lo + n /\ p i = true /\ (forall j, lo <= j < i -> p j = false).
Proof.
  destruct (Z.le_gt_cases n 0) as [Hn|Hn].
  { rewrite seqZ_nil by lia; simpl; split; [done|lia]. }
  revert lo. pattern n. apply Zlt_lower_bound_ind with (z := 1); [|lia].
  clear n Hn. intros n IH Hn lo. rewrite seqZ_cons by lia; simpl.
  destruct (p lo) eqn:Hp.
  - split.
    + intros [= ->]. splits; intros; lia.
    + intros (? & ? & Hmin). f_equal.
      destruct (Z.eq_dec i lo); [done|]. rewrite Hmin in Hp by lia; done.
  - destruct (Z.eq_dec n 1) as [->|].
    { rewrite seqZ_nil by lia; simpl. split; [done|].
      intros (? & Hpi & ?). assert (i = lo) by lia; congruence. }
    replace (Z.pred n) with (n - 1) by lia. replace (Z.succ lo) with (lo + 1) by lia.
    rewrite IH by lia. split; intros (Hr & Hpi & Hmin); splits.
    + intros j Hj. destruct (Z.eq_dec j lo); [by subst|]. apply Hmin; lia.
    + destruct (Z.eq_dec i lo); [congruence|lia].
    + intros j Hj; apply Hmin; lia.
Qed.

Lemma find_loop_Some lo hi p i :
  find_loop lo hi p = Some i <->
  lo <= i < hi /\ p i = true /\ (forall j, lo <= j < i -> p j = false).
Proof.
  unfold find_loop; rewrite zrange_seqZ, find_seqZ_Some.
  replace (lo + (hi - lo)) with hi by lia; done.
Qed.

Lemma find_loop_None lo hi p :
  find_loop lo hi p = None <-> forall j, lo <= j < hi -> p j = false.
Proof.
  unfold find_loop. split.
  - intros H j Hj. eapply List.find_none; [exact H|].
    apply list_elem_of_In, elem_of_zrange; lia.
  - intros H. rewrite zrange_seqZ. destruct (List.find _ _) as [i|] eqn:E; [|done].
    apply find_seqZ_Some in E as (? & Hp & _). rewrite H in Hp by lia; done.
Qed.

Lemma count_loop_bound lo hi p : lo <= hi -> 0 <= count_loop lo hi p <= hi - lo.
Proof.
  intros; unfold count_loop. pose proof (List.filter_length_le p (zrange lo hi)).
  pose proof (length_zrange lo hi). lia.
Qed.

Lemma count_loop_snoc lo hi p :
  lo <= hi -> count_loop lo (hi + 1) p = count_loop lo hi p + (if p hi then 1 else 0).
Proof.
  intros; unfold count_loop. rewrite zrange_snoc, List.filter_app, length_app by done.
  simpl. destruct (p hi); simpl; lia.
Qed.

Lemma count_loop_nil lo hi p : hi <= lo -> count_loop lo hi p = 0.
Proof. intros; unfold count_loop; by rewrite zrange_nil. Qed.

Lemma count_loop_ext lo hi p q :
  (forall i, lo <= i < hi -> p i = q i) -> count_loop lo hi p = count_loop lo hi q.
Proof.
  intros H; unfold count_loop. do 2 f_equal. apply List.filter_ext_in.
  intros i Hi%list_elem_of_In%elem_of_zrange. by apply H.
Qed.

(** Changing the predicate at one index changes the count by one. *)
Lemma count_loop_update lo hi p q k :
  lo <= k < hi -> (forall i, lo <= i < hi -> i <> k -> p i = q i) ->
  count_loop lo hi q + (if p k then 1 else 0) = count_loop lo hi p + (if q k then 1 else 0).
Proof.
  intros Hk Heq.
  assert (forall n, 0 <= n -> lo + n <= hi ->
    count_loop lo (lo + n) q + (if p k && (k <? lo + n) then 1 else 0)
    = count_loop lo (lo + n) p + (if q k && (k <? lo + n) then 1 else 0)) as H.
  { refine (natlike_ind _ _ _).
    - intros _. rewrite !count_loop_nil by lia.
      destruct (Z.ltb_spec k (lo + 0)); [lia|]. by rewrite !andb_false_r.
    - intros n Hn IH Hhi. specialize (IH ltac:(lia)).
      replace (lo + Z.succ n) with (lo + n + 1) by lia.
      rewrite !count_loop_snoc by lia.
      destruct (Z.eq_dec (lo + n) k) as [Ek|Hne].
      + rewrite Ek in *. revert IH.
        destruct (Z.ltb_spec k k), (Z.ltb_spec k (k + 1)); try lia.
        rewrite ?andb_false_r, ?andb_true_r; lia.
      + rewrite (Heq (lo + n)) by lia. revert IH.
        destruct (Z.ltb_spec k (lo + n)), (Z.ltb_spec k (lo + n + 1)); try lia;
          rewrite ?andb_false_r, ?andb_true_r; lia. }
  specialize (H (hi - lo) ltac:(lia) ltac:(lia)).
  replace (lo + (hi - lo)) with hi in H by lia.
  destruct (Z.ltb_spec k hi); [|lia]. by rewrite !andb_true_r in H.
Qed.
