(* ===== verification/Pmm.v ===== *)
(** * Physical memory manager (src/kernel/pmm.c)

    The bitmap allocator of 4 KiB frames: the state the file keeps in static
    variables, its operations, the invariant that ties the O(1) counter to the
    bitmap, and the interface [FrameAllocator] the virtual memory manager relies
    on.  Each operation takes [pmm_lock] for its whole body, so it is one atomic
    function of the state; the boot-time initialisation runs before SMP. *)

From stdpp Require Import base numbers list gmap.
From Stdlib Require Import ZArith Lia.
From S2P Require Import Prelude.

#[local] Open Scope Z_scope.

Definition PAGE_SIZE : Z := 4096.
Definition PHYS_NULL : Z := 0.
(** Everything below 72 MiB belongs to the kernel image, the boot loader and
    the frame buffer. *)
Definition LOW_RESERVED : Z := 0x4800000.

(** ** The interface of a frame allocator *)

(** What the clients of the allocator rely on.  [fa_owns] is the test of
    [pmm_owns_page]: the address is a tracked, allocated frame; [fa_avail] says
    that an allocation may still hand the frame out. *)
Class FrameAllocator (A : Type) := {
  fa_alloc : A -> A * Z;
  fa_free : A -> Z -> A;
  fa_owns : A -> Z -> bool;
  fa_avail : A -> Z -> bool;
  fa_inv : A -> Prop;
  fa_alloc_spec : forall s s' pa,
    fa_inv s -> fa_alloc s = (s', pa) ->
    fa_inv s' /\
    (pa = 0 /\ s' = s \/
     (0 < pa < 2 ^ 63 /\ pa mod PAGE_SIZE = 0 /\ fa_avail s pa = true /\
      (forall x, fa_avail s' x = negb (x =? pa) && fa_avail s x) /\
      (forall x, fa_owns s' x = (x =? pa) || fa_owns s x)));
  fa_free_spec : forall s pa,
    fa_inv s ->
    fa_inv (fa_free s pa) /\
    (forall x, x <> pa -> fa_avail (fa_free s pa) x = fa_avail s x /\
                          fa_owns (fa_free s pa) x = fa_owns s x) /\
    (fa_owns s pa = true -> LOW_RESERVED <= pa -> fa_avail (fa_free s pa) pa = true);
  fa_owns_avail : forall s pa, fa_inv s -> fa_owns s pa = true -> fa_avail s pa = false;
}.

Module Pmm.

(** ** State *)

(** [pmm_bitmap] is the (virtual) pointer, 0 standing for NULL; [bm] the bytes
    it points to. *)
Record pmm := mk_pmm {
  pmm_bitmap : Z;
  bm : gmap Z Z;
  bitmap_bytes : Z;
  bitmap_pages : Z;
  real_total_ram : Z;
  total_pages : Z;
  used_pages : Z;
  next_free_hint : Z;
}.

Definition pmm_boot : pmm := mk_pmm 0 ∅ 0 0 0 0 0 0.

Definition set_bm (s : pmm) (b : gmap Z Z) : pmm :=
  mk_pmm s.(pmm_bitmap) b s.(bitmap_bytes) s.(bitmap_pages) s.(real_total_ram)
    s.(total_pages) s.(used_pages) s.(next_free_hint).

(** ** Bitmap helpers *)

Definition bitmap_set (b : gmap Z Z) (bit : Z) : gmap Z Z :=
  st b (Z.shiftr bit 3)
    (Z.lor (ld b (Z.shiftr bit 3)) (u8 (Z.shiftl 1 (Z.land bit 7)))).

Definition bitmap_clear_bit (b : gmap Z Z) (bit : Z) : gmap Z Z :=
  st b (Z.shiftr bit 3)
    (Z.land (ld b (Z.shiftr bit 3)) (u8 (Z.lnot (Z.shiftl 1 (Z.land bit 7))))).

Definition bitmap_test (b : gmap Z Z) (bit : Z) : bool :=
  negb (Z.land (ld b (Z.shiftr bit 3)) (Z.shiftl 1 (Z.land bit 7)) =? 0).

(** ** Allocation *)

(** The body both scans share: claim page [i], bump the counter and the hint. *)
Definition take_page (s : pmm) (i : Z) : pmm * Z :=
  (mk_pmm s.(pmm_bitmap) (bitmap_set s.(bm) i) s.(bitmap_bytes) s.(bitmap_pages)
     s.(real_total_ram) s.(total_pages) (u64 (s.(used_pages) + 1)) (u64 (i + 1)),
   u64 (i * PAGE_SIZE)).

Definition pmm_alloc_page (s : pmm) : pmm * Z :=
  if s.(pmm_bitmap) =? 0 then (s, PHYS_NULL)
  else
    let max := s.(total_pages) in
    let is_free i := negb (bitmap_test s.(bm) i) in
    match find_loop s.(next_free_hint) max is_free with
    | Some i => take_page s i
    | None =>
        let wrap_end := if s.(next_free_hint) <? max then s.(next_free_hint) else max in
        match find_loop 0 wrap_end is_free with
        | Some i => take_page s i
        | None => (s, PHYS_NULL)
        end
    end.

(** ** Freeing *)

(** The outcome of a free, one constructor per warning of the source. *)
Inductive free_result :=
  | Freed | FreeNull | FreeUnaligned | FreeOutOfRange | FreeLowReserved | DoubleFree.

Definition pmm_free_page (s : pmm) (addr : Z) : pmm * free_result :=
  if addr =? PHYS_NULL then (s, FreeNull)
  else if negb (Z.land addr (PAGE_SIZE - 1) =? 0) then (s, FreeUnaligned)
  else
    let bit := addr / PAGE_SIZE in
    if (s.(pmm_bitmap) =? 0) || (s.(bitmap_pages) <=? bit) then (s, FreeOutOfRange)
    else if addr <? LOW_RESERVED then (s, FreeLowReserved)
    else if negb (bitmap_test s.(bm) bit) then (s, DoubleFree)
    else
      (mk_pmm s.(pmm_bitmap) (bitmap_clear_bit s.(bm) bit) s.(bitmap_bytes)
         s.(bitmap_pages) s.(real_total_ram) s.(total_pages)
         (if 0 <? s.(used_pages) then s.(used_pages) - 1 else s.(used_pages))
         (if bit <? s.(next_free_hint) then bit else s.(next_free_hint)), Freed).

Definition pmm_owns_page (s : pmm) (addr : Z) : bool :=
  if (addr =? PHYS_NULL) || negb (Z.land addr (PAGE_SIZE - 1) =? 0) then false
  else if s.(pmm_bitmap) =? 0 then false
  else
    let bit := addr / PAGE_SIZE in
    if s.(bitmap_pages) <=? bit then false else bitmap_test s.(bm) bit.

(** ** Statistics *)

Definition pmm_get_used_pages (s : pmm) : Z := s.(used_pages).
Definition pmm_get_total_pages (s : pmm) : Z := s.(total_pages).
Definition pmm_get_used_ram (s : pmm) : Z := u64 (pmm_get_used_pages s * PAGE_SIZE).
Definition pmm_get_total_ram (s : pmm) : Z := s.(real_total_ram).
Definition pmm_get_free_ram (s : pmm) : Z :=
  let total := pmm_get_total_ram s in
  let used := pmm_get_used_ram s in
  if used <? total then total - used else 0.

Definition pmm_set_total_ram (s : pmm) (size : Z) : pmm :=
  let tp := size / PAGE_SIZE in
  mk_pmm s.(pmm_bitmap) s.(bm) s.(bitmap_bytes) s.(bitmap_pages) size
    (if s.(bitmap_pages) <? tp then s.(bitmap_pages) else tp)
    s.(used_pages) s.(next_free_hint).

(** ** Initialisation from the boot loader's memory map *)

Record memmap_entry := mk_entry { e_base : Z; e_length : Z; e_type : Z }.
Definition LIMINE_MEMMAP_USABLE : Z := 0.

Definition usable (e : memmap_entry) : bool := e.(e_type) =? LIMINE_MEMMAP_USABLE.
Definition page_up (x : Z) : Z :=
  u64 (Z.land (x + PAGE_SIZE - 1) (Z.lnot (PAGE_SIZE - 1))).
Definition align_base (base : Z) : Z :=
  if Z.land base (PAGE_SIZE - 1) =? 0 then base else page_up base.

(** Phase 1: the highest usable address. *)
Definition highest_usable (es : list memmap_entry) : Z :=
  foldl (fun hi e => let e_end := u64 (e.(e_base) + e.(e_length)) in
           if usable e && (hi <? e_end) then e_end else hi) 0 es.

(** Phase 2: where the bitmap can live in region [e]. *)
Definition bitmap_home (alloc_bytes : Z) (e : memmap_entry) : option Z :=
  if negb (usable e) then None
  else
    let e_end := u64 (e.(e_base) + e.(e_length)) in
    let b := align_base e.(e_base) in
    let b := if b <? LOW_RESERVED then LOW_RESERVED else b in
    if e_end <=? b then None
    else if alloc_bytes <=? e_end - b then Some b else None.

Definition find_bitmap_home (alloc_bytes : Z) (es : list memmap_entry) : option Z :=
  foldl (fun found e => match found with Some _ => found | None => bitmap_home alloc_bytes e end)
    None es.

(** Phase 3, step B: release the pages of one usable region. *)
Definition free_region (pages : Z) (b : gmap Z Z) (e : memmap_entry) : gmap Z Z :=
  if negb (usable e) then b
  else
    let start := align_base e.(e_base) in
    let e_end := u64 (e.(e_base) + e.(e_length)) in
    for_loop 0 ((e_end - start + PAGE_SIZE - 1) / PAGE_SIZE)
      (fun k b => let page := (start + k * PAGE_SIZE) / PAGE_SIZE in
                  if page <? pages then bitmap_clear_bit b page else b) b.

(** [None] is the panic of the source, which halts the machine. *)
Definition pmm_init_dynamic (hhdm_offset : Z) (es : list memmap_entry) : option pmm :=
  let highest_addr := highest_usable es in
  if highest_addr =? 0 then None
  else
    let pages_needed := highest_addr / PAGE_SIZE in
    let needed_bytes := (pages_needed + 7) / 8 in
    let alloc_bytes := page_up needed_bytes in
    let alloc_pages := alloc_bytes / PAGE_SIZE in
    match find_bitmap_home alloc_bytes es with
    | None => None
    | Some bitmap_phys =>
        let b0 := for_loop 0 alloc_bytes (fun i b => st b i 0) ∅ in
        (* step A: lock everything *)
        let bA := for_loop 0 alloc_bytes (fun i b => st b i 0xFF) b0 in
        (* step B: free the usable regions *)
        let bB := foldl (free_region pages_needed) bA es in
        (* step C: re-lock the first 72 MiB *)
        let kernel_lock_pages := LOW_RESERVED / PAGE_SIZE in
        let bC := for_loop 0 (Z.min kernel_lock_pages pages_needed)
                    (fun i b => bitmap_set b i) bB in
        (* step D: lock the bitmap itself *)
        let bmap_start_page := bitmap_phys / PAGE_SIZE in
        let bD := for_loop 0 (Z.min alloc_pages (pages_needed - bmap_start_page))
                    (fun i b => bitmap_set b (bmap_start_page + i)) bC in
        (* phase 4: the totals *)
        let tp := highest_addr / PAGE_SIZE in
        let tp := if pages_needed <? tp then pages_needed else tp in
        Some (mk_pmm (u64 (bitmap_phys + hhdm_offset)) bD alloc_bytes pages_needed
                highest_addr tp (count_loop 0 tp (bitmap_test bD)) kernel_lock_pages)
    end.

(** ** Lemmas on the bitmap *)

Lemma land_pow2 x k :
  0 <= k -> Z.land x (Z.shiftl 1 k) = if Z.testbit x k then 2 ^ k else 0.
Proof.
  intros Hk. rewrite Z.shiftl_1_l. apply Z.bits_inj'. intros n Hn.
  rewrite Z.land_spec, Z.pow2_bits_eqb by lia.
  destruct (Z.eqb_spec k n) as [->|Hne].
  - destruct (Z.testbit x n) eqn:E; rewrite ?Z.testbit_0_l, ?Z.pow2_bits_true by lia; done.
  - rewrite andb_false_r. destruct (Z.testbit x k).
    + by rewrite Z.pow2_bits_false by done.
    + by rewrite Z.testbit_0_l.
Qed.

Lemma bitmap_test_testbit b i :
  bitmap_test b i = Z.testbit (ld b (i / 8)) (i mod 8).
Proof.
  unfold bitmap_test. rewrite Z.shiftr_div_pow2 by lia.
  replace (Z.land i 7) with (i mod 8) by (symmetry; apply (Z.land_ones i 3); lia).
  change (2 ^ 3) with 8. pose proof (Z.mod_pos_bound i 8).
  rewrite land_pow2 by lia. destruct (Z.testbit _ _) eqn:E; [|done].
  pose proof (Z.pow_pos_nonneg 2 (i mod 8)). zcases; done.
Qed.

Lemma shiftr3 i : Z.shiftr i 3 = i / 8.
Proof. by rewrite Z.shiftr_div_pow2. Qed.

Lemma land7 i : Z.land i 7 = i mod 8.
Proof. apply (Z.land_ones i 3); lia. Qed.

Lemma u8_bit k j : 0 <= j < 8 -> Z.testbit (u8 k) j = Z.testbit k j.
Proof. intros; unfold wrap; apply Z.mod_pow2_bits_low; lia. Qed.

Lemma same_bit i j : i / 8 = j / 8 -> i mod 8 = j mod 8 -> i = j.
Proof. intros; divlia. Qed.

Lemma bitmap_test_set b i j :
  bitmap_test (bitmap_set b i) j = (i =? j) || bitmap_test b j.
Proof.
  rewrite !bitmap_test_testbit. unfold bitmap_set. rewrite shiftr3, land7, ld_st.
  pose proof (Z.mod_pos_bound i 8). pose proof (Z.mod_pos_bound j 8).
  destruct (Z.eqb_spec (i / 8) (j / 8)) as [E|].
  - rewrite Z.lor_spec, u8_bit, E by lia. rewrite Z.shiftl_1_l, Z.pow2_bits_eqb by lia.
    destruct (Z.eqb_spec (i mod 8) (j mod 8)), (Z.eqb_spec i j); subst; try done.
    all: try (exfalso; by eauto using same_bit).
    all: by rewrite ?orb_true_r, ?orb_false_r.
  - destruct (Z.eqb_spec i j); [congruence|done].
Qed.

Lemma bitmap_test_clear b i j :
  bitmap_test (bitmap_clear_bit b i) j = negb (i =? j) && bitmap_test b j.
Proof.
  rewrite !bitmap_test_testbit. unfold bitmap_clear_bit. rewrite shiftr3, land7, ld_st.
  pose proof (Z.mod_pos_bound i 8). pose proof (Z.mod_pos_bound j 8).
  destruct (Z.eqb_spec (i / 8) (j / 8)) as [E|].
  - rewrite Z.land_spec, u8_bit, E, Z.lnot_spec, Z.shiftl_1_l, Z.pow2_bits_eqb by lia.
    destruct (Z.eqb_spec (i mod 8) (j mod 8)), (Z.eqb_spec i j); subst; try done.
    all: try (exfalso; by eauto using same_bit).
    all: by rewrite ?andb_true_r, ?andb_false_r.
  - destruct (Z.eqb_spec i j); [congruence|done].
Qed.

#[local] Hint Rewrite bitmap_test_set bitmap_test_clear : kyuzen.

Lemma land_page_mask a : Z.land a (PAGE_SIZE - 1) = a mod PAGE_SIZE.
Proof. apply (Z.land_ones a 12); lia. Qed.

(** ** The invariant *)

(** Page [i] is tracked and marked used. *)
Definition page_used (s : pmm) (i : Z) : bool := bitmap_test s.(bm) i.

Definition page_free (s : pmm) (i : Z) : Prop :=
  0 <= i < s.(total_pages) /\ page_used s i = false.

Record pmm_inv (s : pmm) : Prop := {
  inv_ptr : s.(pmm_bitmap) <> 0;
  inv_total : s.(total_pages) = s.(bitmap_pages);
  inv_pages : 0 <= s.(bitmap_pages) < 2 ^ 51;
  inv_bytes : s.(bitmap_pages) <= 8 * s.(bitmap_bytes);
  inv_count : s.(used_pages) = count_loop 0 s.(total_pages) (page_used s);
  inv_low : forall i, 0 <= i < LOW_RESERVED / PAGE_SIZE -> i < s.(bitmap_pages) ->
            page_used s i = true;
  inv_hint : 0 <= s.(next_free_hint);
}.

(** Where an allocation looks: at or after the hint, else from page 0. *)
Definition alloc_candidate (s : pmm) (i : Z) : Prop :=
  page_free s i /\
  ((s.(next_free_hint) <= i /\ forall j, s.(next_free_hint) <= j < i -> page_used s j = true)
   \/ ((forall j, s.(next_free_hint) <= j < s.(total_pages) -> page_used s j = true) /\
       forall j, 0 <= j < i -> page_used s j = true)).

(** The allocator decides: either it takes the candidate or every page is used. *)
Lemma alloc_page_cases s :
  pmm_inv s ->
  (exists i, alloc_candidate s i /\ pmm_alloc_page s = take_page s i) \/
  ((forall i, 0 <= i < s.(total_pages) -> page_used s i = true) /\
   pmm_alloc_page s = (s, PHYS_NULL)).
Proof.
  intros Hi. unfold pmm_alloc_page. destruct (Z.eqb_spec (pmm_bitmap s) 0) as [E|_].
  { destruct (inv_ptr s Hi E). }
  pose proof (inv_hint s Hi) as Hh. pose proof (inv_total s Hi). pose proof (inv_pages s Hi).
  destruct (find_loop (next_free_hint s) _ _) as [i|] eqn:E1.
  - apply find_loop_Some in E1 as (Hr & Hp & Hmin). zprop.
    left; exists i; split; [|done]. split; [split; [lia|done]|]. left. split; [lia|].
    intros j Hj. apply Hmin in Hj. by zprop.
  - assert (forall j, next_free_hint s <= j < total_pages s -> page_used s j = true) as Hup.
    { intros j Hj. eapply find_loop_None in E1; [|exact Hj]. by zprop. }
    destruct (find_loop 0 _ _) as [i|] eqn:E2.
    + apply find_loop_Some in E2 as (Hr & Hp & Hmin). zprop.
      left; exists i; split; [|done]. split.
      { split; [|done]. revert Hr. zcase; lia. }
      right. split; [done|]. intros j Hj. apply Hmin in Hj. by zprop.
    + right. split; [|done]. intros i Hr.
      destruct (Z.le_gt_cases (next_free_hint s) i); [by apply Hup; lia|].
      eapply find_loop_None in E2; [by zprop; exact E2|]. revert H2. zcase; lia.
Qed.

Lemma take_page_used s i j :
  page_used (take_page s i).1 j = (i =? j) || page_used s j.
Proof. apply bitmap_test_set. Qed.

Lemma take_page_inv s i : pmm_inv s -> page_free s i -> pmm_inv (take_page s i).1.
Proof.
  intros Hi [Hr Hf]. pose proof (inv_total s Hi) as Ht. pose proof (inv_pages s Hi) as Hp.
  pose proof (inv_count s Hi) as Hc.
  pose proof (count_loop_bound 0 (total_pages s) (page_used s) ltac:(lia)).
  assert (count_loop 0 (total_pages s) (page_used (take_page s i).1)
          = count_loop 0 (total_pages s) (page_used s) + 1) as Hu.
  { pose proof (count_loop_update 0 (total_pages s) (page_used s)
      (page_used (take_page s i).1) i Hr) as Hu.
    rewrite take_page_used, Hf, Z.eqb_refl, Z.add_0_r in Hu. apply Hu.
    intros j ? ?; rewrite take_page_used; zcases; done. }
  split; cbn [take_page fst pmm_bitmap bm bitmap_bytes bitmap_pages total_pages used_pages
    next_free_hint]; try apply Hi.
  - rewrite wrap_small by lia. etransitivity; [|symmetry; exact Hu]. lia.
  - intros j Hj Hb. pose proof (take_page_used s i j) as E.
    rewrite (inv_low s Hi j Hj Hb), orb_true_r in E. exact E.
  - apply wrap_bound; lia.
Qed.

(** The pages the allocator hands out are never reserved and never page 0. *)
Lemma candidate_high s i :
  pmm_inv s -> page_free s i -> LOW_RESERVED / PAGE_SIZE <= i.
Proof.
  intros Hi [Hr Hf]. destruct (Z.le_gt_cases (LOW_RESERVED / PAGE_SIZE) i); [done|].
  rewrite (inv_low s Hi) in Hf; [done| lia |]. pose proof (inv_total s Hi). lia.
Qed.

(** ** Behaviour of the operations *)

Definition pmm_alloc_post (s s' : pmm) (pa : Z) : Prop :=
  (exists i, alloc_candidate s i /\ pa = i * PAGE_SIZE /\ LOW_RESERVED <= pa /\
     page_used s' i = true /\ s'.(used_pages) = s.(used_pages) + 1 /\
     forall j, j <> i -> page_used s' j = page_used s j) \/
  (pa = PHYS_NULL /\ s' = s /\ s.(used_pages) = s.(total_pages)).

Lemma all_used_count s :
  (forall i, 0 <= i < s.(total_pages) -> page_used s i = true) -> 0 <= s.(total_pages) ->
  count_loop 0 s.(total_pages) (page_used s) = s.(total_pages).
Proof.
  intros H Hp. rewrite (count_loop_ext _ _ _ (fun _ => true)) by done.
  unfold count_loop.
  rewrite (List.forallb_filter_id (fun _ => true)).
  - rewrite length_zrange. lia.
  - by apply List.forallb_forall.
Qed.

Lemma alloc_post s :
  pmm_inv s ->
  pmm_inv (pmm_alloc_page s).1 /\
  pmm_alloc_post s (pmm_alloc_page s).1 (pmm_alloc_page s).2.
Proof.
  intros Hi. pose proof (inv_total s Hi). pose proof (inv_pages s Hi).
  destruct (alloc_page_cases s Hi) as [(i & Hc & ->)|[Hall ->]].
  - destruct Hc as [Hf Hw]. split; [by apply take_page_inv|].
    left; exists i. pose proof (candidate_high s i Hi Hf) as Hh.
    change (LOW_RESERVED / PAGE_SIZE) with 18432 in Hh. destruct Hf as [Hr Hf].
    assert ((take_page s i).2 = i * PAGE_SIZE) as E.
    { cbn. apply wrap_small. unfold PAGE_SIZE. lia. }
    rewrite E. pose proof (take_page_used s i) as Hu. splits.
    + unfold LOW_RESERVED, PAGE_SIZE. lia.
    + by rewrite Hu, Z.eqb_refl.
    + cbn. apply wrap_small. rewrite (inv_count s Hi).
      pose proof (count_loop_bound 0 (total_pages s) (page_used s)). lia.
    + intros j Hj. rewrite Hu. by zcases.
  - split; [done|]. right. splits. rewrite (inv_count s Hi). apply all_used_count; [done|lia].
Qed.

(** The decision table of [pmm_free_page]. *)
Definition free_classify (s : pmm) (addr : Z) : free_result :=
  if addr =? 0 then FreeNull
  else if negb (addr mod PAGE_SIZE =? 0) then FreeUnaligned
  else if s.(bitmap_pages) <=? addr / PAGE_SIZE then FreeOutOfRange
  else if addr <? LOW_RESERVED then FreeLowReserved
  else if page_used s (addr / PAGE_SIZE) then Freed else DoubleFree.

Lemma free_page_classify s addr :
  pmm_inv s -> (pmm_free_page s addr).2 = free_classify s addr.
Proof.
  intros Hi. unfold pmm_free_page, free_classify. rewrite land_page_mask.
  unfold PHYS_NULL, page_used. destruct (Z.eqb_spec (pmm_bitmap s) 0) as [E|_].
  { destruct (inv_ptr s Hi E). }
  simpl orb. repeat (zcase; try done; simpl negb; cbv iota).
  all: by destruct (bitmap_test _ _).
Qed.

Lemma free_page_rejected s addr :
  (pmm_free_page s addr).2 <> Freed -> (pmm_free_page s addr).1 = s.
Proof.
  unfold pmm_free_page. repeat (case_match; try done).
Qed.

Lemma free_page_freed s addr :
  pmm_inv s -> 0 <= addr -> (pmm_free_page s addr).2 = Freed ->
  let s' := (pmm_free_page s addr).1 in
  pmm_inv s' /\ s'.(used_pages) = s.(used_pages) - 1 /\
  forall j, page_used s' j = negb (addr / PAGE_SIZE =? j) && page_used s j.
Proof.
  intros Hi Ha Hc. pose proof Hc as Hc'. rewrite free_page_classify in Hc' by done.
  unfold free_classify in Hc'.
  destruct (Z.eqb_spec addr 0); [done|].
  destruct (Z.eqb_spec (addr mod PAGE_SIZE) 0) as [Hal|]; [|done].
  destruct (Z.leb_spec (bitmap_pages s) (addr / PAGE_SIZE)); [done|].
  destruct (Z.ltb_spec addr LOW_RESERVED); [done|].
  destruct (page_used s (addr / PAGE_SIZE)) eqn:Hu; [|done]. simpl in Hc'.
  set (bit := addr / PAGE_SIZE) in *.
  assert (0 <= bit) as Hb0 by (apply Z.div_pos; unfold PAGE_SIZE; lia).
  assert (0 < s.(used_pages)) as Hpos.
  { rewrite (inv_count s Hi). pose proof (inv_total s Hi).
    pose proof (count_loop_update 0 (total_pages s) (fun j => negb (bit =? j) && page_used s j)
      (page_used s) bit ltac:(lia)) as E. rewrite Hu, Z.eqb_refl in E. simpl in E.
    rewrite Z.add_0_r in E. rewrite E by (intros; zcases; done).
    pose proof (count_loop_bound 0 (total_pages s) (fun j => negb (bit =? j) && page_used s j)).
    lia. }
  assert ((pmm_free_page s addr).1 =
    mk_pmm s.(pmm_bitmap) (bitmap_clear_bit s.(bm) bit) s.(bitmap_bytes)
      s.(bitmap_pages) s.(real_total_ram) s.(total_pages) (s.(used_pages) - 1)
      (if bit <? s.(next_free_hint) then bit else s.(next_free_hint))) as ->.
  { revert Hc. unfold pmm_free_page. destruct (Z.ltb_spec 0 (used_pages s)); [|lia].
    repeat (case_match; try done). }
  pose proof (inv_total s Hi) as Ht.
  assert (forall j, page_used (set_bm s (bitmap_clear_bit (bm s) bit)) j
    = negb (bit =? j) && page_used s j) as Htest by (intros; apply bitmap_test_clear).
  split; [|split; [done|exact Htest]].
  split; cbn [pmm_bitmap bm bitmap_bytes bitmap_pages total_pages used_pages next_free_hint];
    try apply Hi.
  - pose proof (count_loop_update 0 (total_pages s) (page_used s)
      (page_used (set_bm s (bitmap_clear_bit (bm s) bit))) bit ltac:(lia)) as E.
    rewrite Htest, Hu, Z.eqb_refl, Z.add_0_r in E.
    rewrite (inv_count s Hi), <- E by (intros; rewrite Htest; zcases; done).
    rewrite Z.add_simpl_r. apply count_loop_ext. done.
  - intros i Hil Hib. etransitivity; [apply Htest|].
    rewrite (inv_low s Hi) by done.
    destruct (Z.eqb_spec bit i); [|done].
    exfalso. subst i. unfold bit, LOW_RESERVED, PAGE_SIZE in *. divlia.
  - pose proof (inv_hint s Hi). zcase; lia.
Qed.

Lemma owns_page_used s pa :
  pmm_inv s -> pmm_owns_page s pa = true <->
  pa <> 0 /\ pa mod PAGE_SIZE = 0 /\ pa / PAGE_SIZE < s.(bitmap_pages) /\
  page_used s (pa / PAGE_SIZE) = true.
Proof.
  intros Hi. unfold pmm_owns_page. rewrite land_page_mask. unfold PHYS_NULL, page_used.
  pose proof (inv_ptr s Hi). zcases; simpl; intuition (done || lia).
Qed.

(** ** Initialisation *)

(** What the boot protocol documents of the memory map: no region wraps or
    leaves the 46-bit physical space, and usable regions are page aligned. *)
Definition entry_ok (e : memmap_entry) : Prop :=
  0 <= e.(e_base) /\ 0 <= e.(e_length) /\ e.(e_base) + e.(e_length) < 2 ^ 46 /\
  (usable e = true -> e.(e_base) mod PAGE_SIZE = 0 /\ e.(e_length) mod PAGE_SIZE = 0).

Definition page_in (e : memmap_entry) (p : Z) : bool :=
  usable e && (e.(e_base) <=? p * PAGE_SIZE) && (p * PAGE_SIZE <? e.(e_base) + e.(e_length)).

Definition in_usable (es : list memmap_entry) (p : Z) : bool :=
  List.existsb (fun e => page_in e p) es.

Lemma lnot_page_mask x : Z.land x (Z.lnot (PAGE_SIZE - 1)) = x - x mod PAGE_SIZE.
Proof.
  rewrite <- (land_page_mask x).
  change (Z.lnot (PAGE_SIZE - 1)) with (Z.lnot (Z.ones 12)).
  change (PAGE_SIZE - 1) with (Z.ones 12).
  rewrite <- Z.ldiff_land, Z.ldiff_ones_r, Z.land_ones by lia.
  rewrite Z.shiftl_mul_pow2, Z.shiftr_div_pow2 by lia.
  pose proof (Z.div_mod x (2 ^ 12)). lia.
Qed.

Lemma page_up_spec x : 0 <= x < 2 ^ 60 ->
  x <= page_up x < x + PAGE_SIZE /\ page_up x mod PAGE_SIZE = 0.
Proof.
  intros Hx. unfold page_up. rewrite lnot_page_mask. unfold PAGE_SIZE.
  rewrite wrap_small by divlia. split; divlia.
Qed.

Lemma align_base_id b : b mod PAGE_SIZE = 0 -> align_base b = b.
Proof. intros H. unfold align_base. rewrite land_page_mask, H. done. Qed.

Lemma test_set_range b f n j : 0 <= n ->
  bitmap_test (for_loop 0 n (fun i b => bitmap_set b (f + i)) b) j
  = ((f <=? j) && (j <? f + n)) || bitmap_test b j.
Proof.
  intros Hn.
  apply (for_loop_inv (fun n b' => bitmap_test b' j
    = ((f <=? j) && (j <? f + n)) || bitmap_test b j)); [done| |].
  - zcases; done.
  - intros i b' Hi IH. rewrite bitmap_test_set, IH. zcases; done.
Qed.

Lemma test_clear_range b start n pages j :
  0 <= n -> start mod PAGE_SIZE = 0 ->
  bitmap_test (for_loop 0 n (fun k b =>
     let page := (start + k * PAGE_SIZE) / PAGE_SIZE in
     if page <? pages then bitmap_clear_bit b page else b) b) j
  = negb ((start / PAGE_SIZE <=? j) && (j <? start / PAGE_SIZE + n) && (j <? pages))
    && bitmap_test b j.
Proof.
  intros Hn Hal.
  apply (for_loop_inv (fun n b' => bitmap_test b' j
    = negb ((start / PAGE_SIZE <=? j) && (j <? start / PAGE_SIZE + n) && (j <? pages))
      && bitmap_test b j)); [done| |].
  - zcases; done.
  - intros i b' Hi IH. cbv zeta. rewrite Z.div_add by done.
    destruct (Z.ltb_spec (start / PAGE_SIZE + i) pages).
    + rewrite bitmap_test_clear, IH. zcases; done.
    + rewrite IH. zcases; done.
Qed.

Lemma free_region_test pages b e j :
  entry_ok e ->
  bitmap_test (free_region pages b e) j
  = negb (page_in e j && (j <? pages)) && bitmap_test b j.
Proof.
  intros (Hb & Hl & Hend & Hal). unfold free_region, page_in.
  destruct (usable e); simpl negb; cbv iota; [|done].
  destruct (Hal eq_refl) as [Hab Hal']. rewrite align_base_id by done.
  unfold PAGE_SIZE in *. rewrite (wrap_small 64) by lia.
  rewrite test_clear_range by (unfold PAGE_SIZE; divlia). unfold PAGE_SIZE.
  do 3 f_equal. simpl andb.
  apply eq_iff_eq_true. rewrite !andb_true_iff, !Z.leb_le, !Z.ltb_lt. divlia.
Qed.

Lemma free_regions_test pages es b j :
  Forall entry_ok es ->
  bitmap_test (foldl (free_region pages) b es) j
  = negb (in_usable es j && (j <? pages)) && bitmap_test b j.
Proof.
  intros Hok. revert b. induction Hok as [|e es He Hes IH]; intros b; simpl.
  { done. }
  rewrite IH, free_region_test by done.
  destruct (in_usable es j), (page_in e j), (j <? pages); simpl; done.
Qed.

Lemma lock_all_test n b j : 0 <= j < 8 * n ->
  bitmap_test (for_loop 0 n (fun i b => st b i 0xFF) b) j = true.
Proof.
  intros Hj. rewrite bitmap_test_testbit.
  assert (ld (for_loop 0 n (fun i b => st b i 0xFF) b) (j / 8) = 0xFF) as ->.
  { apply (for_loop_inv (fun n b' => j / 8 < n -> ld b' (j / 8) = 0xFF)); [lia|divlia| |divlia].
    intros i b' Hi IH Hlt. rewrite ld_st. zcases. }
  pose proof (Z.mod_pos_bound j 8 ltac:(lia)). change 0xFF with (Z.ones 8).
  apply Z.ones_spec_low; lia.
Qed.

Lemma highest_usable_bound es : Forall entry_ok es -> 0 <= highest_usable es < 2 ^ 46.
Proof.
  intros Hok. unfold highest_usable.
  assert (forall hi, 0 <= hi < 2 ^ 46 -> 0 <= foldl (fun hi e =>
     let e_end := u64 (e.(e_base) + e.(e_length)) in
     if usable e && (hi <? e_end) then e_end else hi) hi es < 2 ^ 46) as H; [|apply H; lia].
  induction Hok as [|e es He Hes IH]; intros hi Hhi; simpl; [done|]. apply IH.
  destruct He as (? & ? & ? & _). rewrite (wrap_small 64) by lia.
  destruct (usable e); simpl; [zcase; lia|lia].
Qed.

(** Where the bitmap was placed. *)
Lemma bitmap_home_spec n es a :
  Forall entry_ok es -> 0 <= n -> find_bitmap_home n es = Some a ->
  LOW_RESERVED <= a /\ a mod PAGE_SIZE = 0 /\
  exists e, In e es /\ usable e = true /\ e.(e_base) <= a /\ a + n <= e.(e_base) + e.(e_length).
Proof.
  intros Hok Hn. unfold find_bitmap_home.
  assert (forall found, (forall a, found = Some a -> False) \/
     (foldl (fun found e => match found with Some _ => found | None => bitmap_home n e end)
        found es = found)) as Hstop.
  { intros [x|]; [|left; done]. right. clear. induction es; simpl; auto. }
  assert (bitmap_home n <$> [] = []) as _ by done.
  induction Hok as [|e es He Hes IH]; simpl; [done|].
  destruct (bitmap_home n e) as [x|] eqn:E.
  - destruct (Hstop (Some x)) as [Hbad|Hfold]; [destruct (Hbad x eq_refl)|].
    intros Heq.
    assert (x = a) as <-.
    { clear -Heq. induction es; simpl in Heq; [congruence|auto]. }
    unfold bitmap_home in E. destruct (usable e) eqn:Hu; [|done].
    destruct He as (Hb & Hl & Hend & Hal). destruct (Hal Hu) as [Hal1 Hal2].
    simpl in E. rewrite align_base_id, (wrap_small 64) in E by (done || lia).
    destruct (Z.ltb_spec (e_base e) LOW_RESERVED) as [Hlow|];
      destruct (Z.leb_spec (e_base e + e_length e) LOW_RESERVED);
      destruct (Z.leb_spec (e_base e + e_length e) (e_base e));
      destruct (Z.leb_spec n (e_base e + e_length e - LOW_RESERVED));
      destruct (Z.leb_spec n (e_base e + e_length e - e_base e)); simplify_eq;
      (split; [lia|split; [done|]]; exists e; split; [by left|splits]).
  - intros Heq. destruct IH as (? & ? & e' & ? & ?).
    + intros [x|]; [right|left; done]. clear. induction es; simpl; auto.
    + done.
    + splits. exists e'. split; [by right|done].
Qed.

Section init.
Context (hhdm_offset : Z) (es : list memmap_entry) (s : pmm).
Hypothesis Hhhdm : 0 < hhdm_offset /\ hhdm_offset + 2 ^ 46 < 2 ^ 64.
Hypothesis Hok : Forall entry_ok es.
Hypothesis Hinit : pmm_init_dynamic hhdm_offset es = Some s.

(** The frames that hold the bitmap. *)
Definition bitmap_frame (p : Z) : Prop :=
  let first := (s.(pmm_bitmap) - hhdm_offset) / PAGE_SIZE in
  first <= p < first + s.(bitmap_bytes) / PAGE_SIZE.

Lemma init_facts :
  pmm_inv s /\ s.(real_total_ram) = highest_usable es /\
  s.(total_pages) = highest_usable es / PAGE_SIZE /\
  forall p, 0 <= p < s.(total_pages) ->
    page_used s p = false <->
    in_usable es p = true /\ LOW_RESERVED <= p * PAGE_SIZE /\ ~ bitmap_frame p.
Proof using Hhhdm Hok Hinit.
  pose proof (highest_usable_bound es Hok) as Hhb. unfold bitmap_frame.
  revert Hinit. unfold pmm_init_dynamic.
  set (hi := highest_usable es) in *. set (pages := hi / PAGE_SIZE).
  destruct (Z.eqb_spec hi 0) as [|Hnz]; [done|].
  set (bytes := page_up ((pages + 7) / 8)).
  assert (0 <= pages < 2 ^ 34) as Hpages by (unfold pages, PAGE_SIZE; divlia).
  pose proof (page_up_spec ((pages + 7) / 8) ltac:(divlia)) as [Hbytes Hbal]. fold bytes in Hbytes, Hbal.
  assert (pages <= 8 * bytes) as Hcover by divlia.
  destruct (find_bitmap_home bytes es) as [home|] eqn:Hhome; [|done].
  apply bitmap_home_spec in Hhome as (Hlow & Hhal & e & He & Hue & Heb & Hee); [|done|divlia].
  assert (home < 2 ^ 46) as Hh51.
  { rewrite Forall_forall in Hok. apply list_elem_of_In in He.
    specialize (Hok e He) as (? & ? & ? & _). divlia. }
  rewrite Z.ltb_irrefl. intros [= <-]. cbn [pmm_bitmap bitmap_bytes total_pages real_total_ram].
  rewrite (wrap_small 64), Z.add_simpl_r by (unfold LOW_RESERVED in *; lia).
  set (bA := for_loop 0 bytes _ _). set (bB := foldl _ bA es).
  set (bC := for_loop 0 (Z.min _ _) _ bB). set (bD := for_loop 0 _ _ bC).
  assert (forall p, 0 <= p < pages -> bitmap_test bD p =
    (home / PAGE_SIZE <=? p) && (p <? home / PAGE_SIZE + bytes / PAGE_SIZE)
    || ((p <? LOW_RESERVED / PAGE_SIZE) || negb (in_usable es p))) as HD.
  { intros p Hp. unfold bD.
    destruct (Z.le_gt_cases 0 (Z.min (bytes / PAGE_SIZE) (pages - home / PAGE_SIZE))) as [Hm|Hm].
    - rewrite test_set_range by done. unfold bC. rewrite (test_set_range _ 0) by (unfold LOW_RESERVED, PAGE_SIZE; divlia).
      unfold bB. rewrite free_regions_test by done. unfold bA.
      rewrite lock_all_test by lia. unfold PAGE_SIZE, LOW_RESERVED in *.
      destruct (in_usable es p); zcases; done.
    - rewrite for_loop_nil by lia. unfold bC. rewrite (test_set_range _ 0) by (unfold LOW_RESERVED, PAGE_SIZE; divlia).
      unfold bB. rewrite free_regions_test by done. unfold bA.
      rewrite lock_all_test by lia. unfold PAGE_SIZE, LOW_RESERVED in *.
      destruct (in_usable es p); zcases; done. }
  split; [|split; [done|split; [done|]]].
  - split; cbn [pmm_bitmap bm bitmap_bytes bitmap_pages total_pages used_pages next_free_hint];
      try done; try lia.
    + unfold LOW_RESERVED in *; lia.
    + intros i Hil Hib. unfold page_used; cbn [bm]. rewrite HD by lia.
      replace (i <? LOW_RESERVED / PAGE_SIZE) with true by (symmetry; apply Z.ltb_lt; lia).
      apply orb_true_r.
  - intros p Hp. unfold page_used; cbn [bm]. rewrite HD by lia.
    unfold LOW_RESERVED, PAGE_SIZE in *. change (0x4800000 / 4096) with 18432.
    destruct (in_usable es p); zcases; simpl; intuition (done || lia).
Qed.
End init.

(** ** The interface, discharged *)

(** A frame the allocator may still hand out. *)
Definition page_avail (s : pmm) (pa : Z) : bool :=
  (0 <? pa) && (pa mod PAGE_SIZE =? 0) && (pa / PAGE_SIZE <? s.(bitmap_pages)) &&
  negb (page_used s (pa / PAGE_SIZE)).

Definition page_owned (s : pmm) (pa : Z) : bool := (0 <=? pa) && pmm_owns_page s pa.

Lemma page_avail_true s pa :
  page_avail s pa = true <->
  0 < pa /\ pa mod PAGE_SIZE = 0 /\ pa / PAGE_SIZE < s.(bitmap_pages) /\
  page_used s (pa / PAGE_SIZE) = false.
Proof.
  unfold page_avail. rewrite !andb_true_iff, !Z.ltb_lt, Z.eqb_eq, negb_true_iff. tauto.
Qed.

Lemma page_owned_true s pa :
  pmm_inv s -> page_owned s pa = true <->
  0 < pa /\ pa mod PAGE_SIZE = 0 /\ pa / PAGE_SIZE < s.(bitmap_pages) /\
  page_used s (pa / PAGE_SIZE) = true.
Proof.
  intros Hi. unfold page_owned. rewrite andb_true_iff, Z.leb_le, owns_page_used by done.
  intuition lia.
Qed.

Lemma alloc_keeps_size s : (pmm_alloc_page s).1.(bitmap_pages) = s.(bitmap_pages).
Proof. unfold pmm_alloc_page. repeat (case_match; try done). Qed.

Lemma free_keeps_size s pa : (pmm_free_page s pa).1.(bitmap_pages) = s.(bitmap_pages).
Proof. unfold pmm_free_page. repeat (case_match; try done). Qed.

(** Two page-aligned addresses with the same frame number are equal. *)
Lemma aligned_inj x y :
  x mod PAGE_SIZE = 0 -> y mod PAGE_SIZE = 0 -> x / PAGE_SIZE = y / PAGE_SIZE -> x = y.
Proof. unfold PAGE_SIZE. intros. divlia. Qed.

Lemma alloc_interface s s' pa :
  pmm_inv s -> pmm_alloc_page s = (s', pa) ->
  pmm_inv s' /\
  (pa = 0 /\ s' = s \/
   (0 < pa < 2 ^ 63 /\ pa mod PAGE_SIZE = 0 /\ page_avail s pa = true /\
    (forall x, page_avail s' x = negb (x =? pa) && page_avail s x) /\
    (forall x, page_owned s' x = (x =? pa) || page_owned s x))).
Proof.
  intros Hi Ha. pose proof (alloc_post s Hi) as [Hi' Hpost].
  pose proof (alloc_keeps_size s) as Hsz. rewrite Ha in *. cbn [fst snd] in *.
  split; [done|]. pose proof (inv_total s Hi). pose proof (inv_pages s Hi).
  destruct Hpost as [(i & [Hf _] & -> & Hlow & Hu & _ & Hother)|(-> & -> & _)]; [right|by left].
  destruct Hf as [Hr Hf].
  assert (i * PAGE_SIZE / PAGE_SIZE = i) as Hdiv by (apply Z.div_mul; done).
  assert (i * PAGE_SIZE mod PAGE_SIZE = 0) as Hmod by (by apply Z.mod_mul).
  assert (0 < i * PAGE_SIZE) by (unfold LOW_RESERVED in *; lia).
  split; [unfold PAGE_SIZE in *; lia|]. split; [done|]. split.
  { apply page_avail_true. rewrite Hdiv. splits. }
  split; intros x; apply eq_iff_eq_true; destruct (Z.eqb_spec x (i * PAGE_SIZE)) as [->|Hx].
  - rewrite page_avail_true, Hdiv, Hu. simpl. intuition done.
  - simpl. rewrite !page_avail_true, Hsz. destruct (Z.eq_dec (x mod PAGE_SIZE) 0); [|tauto].
    rewrite Hother; [tauto|]. intros Heq. apply Hx, aligned_inj; congruence.
  - rewrite page_owned_true, Hdiv, Hu by done. simpl. intuition lia.
  - simpl. rewrite !page_owned_true, Hsz by done. destruct (Z.eq_dec (x mod PAGE_SIZE) 0); [|tauto].
    rewrite Hother; [tauto|]. intros Heq. apply Hx, aligned_inj; congruence.
Qed.

Lemma freed_owned s pa :
  pmm_inv s -> 0 <= pa -> (pmm_free_page s pa).2 = Freed ->
  pa mod PAGE_SIZE = 0 /\ page_owned s pa = true.
Proof.
  intros Hi Hpa. rewrite free_page_classify, page_owned_true by done. unfold free_classify.
  zcases; simpl; try done. destruct (page_used _ _); [|done]. splits.
Qed.

Lemma free_interface s pa :
  pmm_inv s -> 0 <= pa ->
  let s' := (pmm_free_page s pa).1 in
  pmm_inv s' /\
  (forall x, x <> pa -> page_avail s' x = page_avail s x /\ page_owned s' x = page_owned s x) /\
  (page_owned s pa = true -> LOW_RESERVED <= pa -> page_avail s' pa = true).
Proof.
  intros Hi Hpa. cbv zeta. pose proof (free_keeps_size s pa) as Hsz.
  assert ((pmm_free_page s pa).2 = Freed \/ (pmm_free_page s pa).2 <> Freed) as [Hfr|Hnf]
    by (destruct (pmm_free_page s pa).2; by (left + right)).
  - destruct (freed_owned s pa Hi Hpa Hfr) as [Hal Ho].
    destruct (free_page_freed s pa Hi Hpa Hfr) as (Hi' & _ & Hused).
    split; [done|]. split.
    + intros x Hx.
      assert (x mod PAGE_SIZE = 0 -> (pa / PAGE_SIZE =? x / PAGE_SIZE) = false) as Hne.
      { intros Hxal. apply Z.eqb_neq. intros E. apply Hx, aligned_inj; congruence. }
      split; apply eq_iff_eq_true; rewrite ?page_avail_true, ?page_owned_true, Hsz, Hused by done;
        (destruct (Z.eq_dec (x mod PAGE_SIZE) 0) as [Hxal|]; [rewrite (Hne Hxal); tauto|tauto]).
    + intros _ _. apply page_owned_true in Ho; [|done].
      rewrite page_avail_true, Hsz, Hused, Z.eqb_refl. simpl. tauto.
  - rewrite free_page_rejected by done. splits. intros Ho Hh. exfalso. apply Hnf.
    apply page_owned_true in Ho as (? & Hal & ? & Hu); [|done].
    rewrite free_page_classify by done. unfold free_classify. rewrite Hu, Hal. by zcases.
Qed.

Lemma owned_not_avail s pa :
  pmm_inv s -> page_owned s pa = true -> page_avail s pa = false.
Proof.
  intros Hi. rewrite page_owned_true by done. intros (? & ? & ? & Hu).
  apply not_true_is_false. rewrite page_avail_true, Hu. intuition done.
Qed.

#[export] Program Instance pmm_allocator : FrameAllocator pmm := {|
  fa_alloc := pmm_alloc_page;
  fa_free := fun s pa => if pa <? 0 then s else (pmm_free_page s pa).1;
  fa_owns := page_owned;
  fa_avail := page_avail;
  fa_inv := pmm_inv;
  fa_alloc_spec := alloc_interface;
  fa_owns_avail := owned_not_avail;
|}.
Next Obligation.
  intros s pa Hi. cbv beta. destruct (Z.ltb_spec pa 0).
  - splits. rewrite page_owned_true by done. lia.
  - apply free_interface; [done|lia].
Qed.

(** ** Properties *)

(** C1. From a consistent state [pmm_alloc_page] returns the first free frame at
    or after the hint, else the first free frame from page 0; the frame is at or
    above 72 MiB (so never [PHYS_NULL]), is marked used, no other bit changes,
    and the O(1) counter grows by one.  It returns [PHYS_NULL] and changes
    nothing exactly when every tracked frame is in use.  The invariant (counter
    equals the number of set bits, low 72 MiB locked) is preserved. *)
Theorem pmm_alloc_correct s :
  pmm_inv s ->
  pmm_inv (pmm_alloc_page s).1 /\
  pmm_alloc_post s (pmm_alloc_page s).1 (pmm_alloc_page s).2.
Proof. exact (alloc_post s). Qed.

(** [pmm_free_page] on every input: the outcome is the one of the decision
    table (null, unaligned, out of range, reserved low memory, double free,
    freed); a rejected free leaves the state untouched, and an accepted one
    clears exactly the bit of the frame, decrements the counter by one and
    preserves the invariant. *)
Theorem pmm_free_correct s addr :
  pmm_inv s -> 0 <= addr ->
  let r := pmm_free_page s addr in
  r.2 = free_classify s addr /\
  (r.2 <> Freed -> r.1 = s) /\
  (r.2 = Freed -> pmm_inv r.1 /\ r.1.(used_pages) = s.(used_pages) - 1 /\
     forall j, page_used r.1 j = negb (addr / PAGE_SIZE =? j) && page_used s j).
Proof.
  intros Hi Ha. split; [by apply free_page_classify|].
  split; [apply free_page_rejected|]. by apply free_page_freed.
Qed.

(** Allocating a frame and freeing it again succeeds and restores the
    allocator: same counter, same bitmap contents. *)
Theorem pmm_alloc_free_roundtrip s s' pa :
  pmm_inv s -> pmm_alloc_page s = (s', pa) -> pa <> PHYS_NULL ->
  let r := pmm_free_page s' pa in
  r.2 = Freed /\ r.1.(used_pages) = s.(used_pages) /\
  forall j, page_used r.1 j = page_used s j.
Proof.
  intros Hi Ha Hnz. pose proof (alloc_post s Hi) as [Hi' Hpost]. rewrite Ha in *. cbn in *.
  destruct Hpost as [(i & [[Hr Hf] _] & -> & Hlow & Hu & Hcnt & Hother)|(? & _)]; [|done].
  assert (i * PAGE_SIZE / PAGE_SIZE = i) as Hdiv by (apply Z.div_mul; done).
  assert (s'.(bitmap_pages) = s.(bitmap_pages)) as Hbp.
  { destruct (alloc_page_cases s Hi) as [(k & _ & E)|[_ E]]; rewrite E in Ha;
      injection Ha as <- _; done. }
  pose proof (inv_total s Hi). unfold LOW_RESERVED in *.
  assert ((pmm_free_page s' (i * PAGE_SIZE)).2 = Freed) as Hfr.
  { rewrite free_page_classify by done. unfold free_classify, LOW_RESERVED.
    rewrite Hdiv, Hbp, Hu, Z.mod_mul by done. by zcases. }
  destruct (free_page_freed s' (i * PAGE_SIZE) Hi' ltac:(lia) Hfr) as (_ & -> & Hused).
  splits. intros j. rewrite Hused, Hdiv. zcases; subst; [done|]. by apply Hother.
Qed.

(** C2. [pmm_init_dynamic] establishes the invariant, and after it a frame is
    free exactly when it lies in a usable region of the memory map, at or above
    72 MiB, and does not hold the bitmap itself. *)
Theorem pmm_init_correct hhdm_offset es s :
  0 < hhdm_offset /\ hhdm_offset + 2 ^ 46 < 2 ^ 64 -> Forall entry_ok es ->
  pmm_init_dynamic hhdm_offset es = Some s ->
  pmm_inv s /\ s.(total_pages) = highest_usable es / PAGE_SIZE /\
  forall p, 0 <= p < s.(total_pages) ->
    page_used s p = false <->
    in_usable es p = true /\ LOW_RESERVED <= p * PAGE_SIZE /\ ~ bitmap_frame hhdm_offset s p.
Proof.
  intros H1 H2 H3. destruct (init_facts hhdm_offset es s H1 H2 H3) as (? & _ & ? & ?); done.
Qed.

(** *** Witnesses *)

(** A machine with 640 KiB of low memory and 1 MiB of RAM from 72 MiB. *)
Definition demo_map : list memmap_entry :=
  [mk_entry 0 0xA0000 0; mk_entry 0xA0000 0x60000 1; mk_entry 0x4800000 0x100000 0].
Definition demo_pmm : pmm := default pmm_boot (pmm_init_dynamic 0xFFFF800000000000 demo_map).

Lemma demo_map_ok : Forall entry_ok demo_map.
Proof. repeat constructor; cbn; try lia; try done. Qed.

Lemma demo_init : pmm_init_dynamic 0xFFFF800000000000 demo_map = Some demo_pmm.
Proof.
  assert (is_Some (pmm_init_dynamic 0xFFFF800000000000 demo_map)) as [s Hs].
  { apply (bool_decide_unpack _). vm_compute. exact I. }
  unfold demo_pmm. by rewrite Hs.
Qed.

Lemma demo_inv : pmm_inv demo_pmm.
Proof.
  apply (init_facts 0xFFFF800000000000 demo_map); [lia|apply demo_map_ok|apply demo_init].
Qed.

Lemma demo_alloc : pmm_alloc_page demo_pmm = ((pmm_alloc_page demo_pmm).1, 0x4801000).
Proof.
  apply injective_projections; [reflexivity|]. vm_compute. reflexivity.
Qed.

Lemma pmm_alloc_correct_witness :
  pmm_inv demo_pmm /\ (pmm_alloc_page demo_pmm).2 = 0x4801000 /\
  pmm_alloc_post demo_pmm (pmm_alloc_page demo_pmm).1 (pmm_alloc_page demo_pmm).2.
Proof.
  split; [exact demo_inv|]. split; [by rewrite demo_alloc|].
  exact (proj2 (pmm_alloc_correct demo_pmm demo_inv)).
Defined.

Lemma pmm_free_correct_witness :
  (pmm_free_page demo_pmm 0x4800000).2 = free_classify demo_pmm 0x4800000 /\
  free_classify demo_pmm 0x4800000 = Freed /\ free_classify demo_pmm 0x4801000 = DoubleFree.
Proof.
  split; [exact (proj1 (pmm_free_correct demo_pmm 0x4800000 demo_inv ltac:(lia)))|].
  split; vm_compute; reflexivity.
Defined.

Lemma pmm_alloc_free_roundtrip_witness :
  (pmm_free_page (pmm_alloc_page demo_pmm).1 0x4801000).2 = Freed.
Proof.
  exact (proj1 (pmm_alloc_free_roundtrip demo_pmm _ _ demo_inv demo_alloc ltac:(done))).
Defined.

Lemma pmm_init_correct_witness :
  pmm_init_dynamic 0xFFFF800000000000 demo_map = Some demo_pmm /\
  demo_pmm.(total_pages) = highest_usable demo_map / PAGE_SIZE.
Proof.
  split; [exact demo_init|].
  exact (proj1 (proj2 (pmm_init_correct 0xFFFF800000000000 demo_map demo_pmm ltac:(lia)
    demo_map_ok demo_init))).
Defined.
End Pmm.
