(* ===== verification/Paging.v ===== *)
(** * Virtual memory manager (src/kernel/paging.c)

    Four-level page tables kept in physical memory, one PML4 per address space.
    Every operation of the source runs under [paging_lock], so each is one
    function of the state.  The state is a section parameter [A] for the frame
    allocator (any [FrameAllocator]) next to the memory cells.

    A table pointer [PHYS_TO_VIRT(p)] of the source is represented by the
    physical address [p]; [mem] holds the 64-bit cell at each physical address.
    TLB maintenance ([invlpg], CR3 reload) has no effect on this state. *)

From stdpp Require Import base numbers list gmap.
From Stdlib Require Import ZArith Lia.
From S2P Require Import Prelude Pmm.

#[local] Open Scope Z_scope.

Module Paging.

(** ** Entries and indices *)

Definition PML4_IDX (va : Z) : Z := Z.land (Z.shiftr va 39) 0x1FF.
Definition PDPT_IDX (va : Z) : Z := Z.land (Z.shiftr va 30) 0x1FF.
Definition PD_IDX (va : Z) : Z := Z.land (Z.shiftr va 21) 0x1FF.
Definition PT_IDX (va : Z) : Z := Z.land (Z.shiftr va 12) 0x1FF.
Definition PAGE_MASK : Z := 0xFFFFFFFFFFFFF000.

Definition present (e : Z) : bool := negb (Z.land e 1 =? 0).
Definition huge (e : Z) : bool := negb (Z.land e (Z.shiftl 1 7) =? 0).
Definition frame_of (e : Z) : Z := Z.land e PAGE_MASK.

(** The cell of entry [i] of the table at [t]. *)
Definition slot (t i : Z) : Z := t + 8 * i.

(** ** State *)

(** [current_pml4] is the table pointer the source calls the same, 0 before
    [init_paging]; [cr3] and [percpu_cr3] are the executing CPU's CR3 and its
    software copy. *)
Record vm (A : Type) := mk_vm {
  frames : A;
  mem : gmap Z Z;
  current_pml4 : Z;
  kernel_pml4_phys : Z;
  cr3 : Z;
  percpu_cr3 : Z;
}.
Arguments mk_vm {A}.
Arguments frames {A}.
Arguments mem {A}.
Arguments current_pml4 {A}.
Arguments kernel_pml4_phys {A}.
Arguments cr3 {A}.
Arguments percpu_cr3 {A}.

Section paging.
Context {A : Type} `{FrameAllocator A}.
Implicit Types (v : vm A) (va r : Z).

Definition set_mem (v : vm A) (m : gmap Z Z) : vm A :=
  mk_vm v.(frames) m v.(current_pml4) v.(kernel_pml4_phys) v.(cr3) v.(percpu_cr3).
Definition set_frames (v : vm A) (f : A) : vm A :=
  mk_vm f v.(mem) v.(current_pml4) v.(kernel_pml4_phys) v.(cr3) v.(percpu_cr3).
Definition set_cr3 (v : vm A) (c : Z) : vm A :=
  mk_vm v.(frames) v.(mem) v.(current_pml4) v.(kernel_pml4_phys) c c.

(** ** Helpers *)

(** [memset(virt, 0, 4096)] on a frame. *)
Definition zero_page (m : gmap Z Z) (p : Z) : gmap Z Z :=
  for_loop 0 512 (fun i m => st m (slot p i) 0) m.

(** Returns 0 on failure. *)
Definition alloc_page_virt (v : vm A) : vm A * Z :=
  let (f, phys) := fa_alloc v.(frames) in
  if phys =? PHYS_NULL then (set_frames v f, 0)
  else (mk_vm f (zero_page v.(mem) phys) v.(current_pml4) v.(kernel_pml4_phys)
          v.(cr3) v.(percpu_cr3), phys).

Definition vmm_read_cr3 (v : vm A) : Z := Z.land v.(cr3) PAGE_MASK.

(** One level of the walk that maps: if the entry at cell [c] is absent, install
    a fresh zeroed table with flags 7. *)
Definition ensure_table (v : vm A) (c : Z) : vm A * bool :=
  if present (ld v.(mem) c) then (v, true)
  else
    let (v1, t) := alloc_page_virt v in
    if t =? 0 then (v1, false)
    else (set_mem v1 (st v1.(mem) c (Z.lor t 7)), true).

(** The walk of [vmm_map_page_into] and [vmm_map_page] from table [pml4]. *)
Definition map_walk (v : vm A) (pml4 va pa flags : Z) : vm A * bool :=
  let c4 := slot pml4 (PML4_IDX va) in
  let (v, ok) := ensure_table v c4 in
  if negb ok then (v, false)
  else
    let pdpt := frame_of (ld v.(mem) c4) in
    let c3 := slot pdpt (PDPT_IDX va) in
    if huge (ld v.(mem) c3) then (v, false)
    else
      let (v, ok) := ensure_table v c3 in
      if negb ok then (v, false)
      else
        let pd := frame_of (ld v.(mem) c3) in
        let c2 := slot pd (PD_IDX va) in
        if huge (ld v.(mem) c2) then (v, false)
        else
          let (v, ok) := ensure_table v c2 in
          if negb ok then (v, false)
          else
            let pt := frame_of (ld v.(mem) c2) in
            (set_mem v (st v.(mem) (slot pt (PT_IDX va)) (Z.lor (Z.land pa PAGE_MASK) flags)),
             true).

Definition vmm_map_page_into (v : vm A) (va pa flags target_pml4_phys : Z) : vm A * bool :=
  if target_pml4_phys =? PHYS_NULL then (v, false)
  else map_walk v target_pml4_phys va pa flags.

Definition vmm_map_page (v : vm A) (va pa flags : Z) : vm A * bool :=
  if v.(current_pml4) =? 0 then (v, false)
  else map_walk v v.(current_pml4) va pa flags.

(** ** Lookup *)

(** Where a read-only walk ends: an absent entry, a huge page, or the cell of
    the last-level entry. *)
Inductive walk_result := Absent | HugePage | Leaf (c : Z).

Definition walk (m : gmap Z Z) (pml4 va : Z) : walk_result :=
  let e4 := ld m (slot pml4 (PML4_IDX va)) in
  if negb (present e4) then Absent
  else
    let e3 := ld m (slot (frame_of e4) (PDPT_IDX va)) in
    if negb (present e3) then Absent
    else if huge e3 then HugePage
    else
      let e2 := ld m (slot (frame_of e3) (PD_IDX va)) in
      if negb (present e2) then Absent
      else if huge e2 then HugePage
      else Leaf (slot (frame_of e2) (PT_IDX va)).

Definition vmm_unmap_page (v : vm A) (va : Z) : vm A * bool :=
  if v.(current_pml4) =? 0 then (v, false)
  else
    match walk v.(mem) v.(current_pml4) va with
    | Leaf c => if negb (present (ld v.(mem) c)) then (v, false)
                else (set_mem v (st v.(mem) c 0), true)
    | _ => (v, false)
    end.

(** The table a lookup starts from: [PHYS_NULL] selects the kernel PML4. *)
Definition select_pml4 (v : vm A) (pml4_phys : Z) : Z :=
  if negb (pml4_phys =? PHYS_NULL) then pml4_phys else v.(current_pml4).

Definition vmm_unmap_page_from (v : vm A) (va target_pml4_phys : Z) : vm A * Z :=
  let pml4 := select_pml4 v target_pml4_phys in
  if pml4 =? 0 then (v, PHYS_NULL)
  else
    match walk v.(mem) pml4 va with
    | Leaf c =>
        if negb (present (ld v.(mem) c)) then (v, PHYS_NULL)
        else (set_mem v (st v.(mem) c 0), frame_of (ld v.(mem) c))
    | _ => (v, PHYS_NULL)
    end.

Definition paging_is_mapped_into (v : vm A) (va pml4_phys : Z) : bool :=
  let pml4 := select_pml4 v pml4_phys in
  if pml4 =? 0 then false
  else
    match walk v.(mem) pml4 va with
    | Absent => false
    | HugePage => true
    | Leaf c => present (ld v.(mem) c)
    end.

Definition paging_is_mapped (v : vm A) (va : Z) : bool := paging_is_mapped_into v va PHYS_NULL.

(** ** Allocating and mapping in one call *)

Definition vmm_alloc_page_into (v : vm A) (va flags target_pml4 : Z) : vm A * bool :=
  let (f, pa) := fa_alloc v.(frames) in
  let v := set_frames v f in
  if pa =? PHYS_NULL then (v, false)
  else
    let (v, ok) := if negb (target_pml4 =? PHYS_NULL)
                   then vmm_map_page_into v va pa flags target_pml4
                   else vmm_map_page v va pa flags in
    if negb ok then (set_frames v (fa_free v.(frames) pa), false) else (v, true).

Definition vmm_alloc_page (v : vm A) (va flags : Z) : vm A * bool :=
  vmm_alloc_page_into v va flags PHYS_NULL.

Definition paging_map_region (v : vm A) (va : Z) : vm A * bool := vmm_alloc_page v va 7.

Definition vmm_map_page_kernel (v : vm A) (va pa flags : Z) : vm A * bool :=
  vmm_map_page_into v va pa flags v.(kernel_pml4_phys).

Definition vmm_alloc_page_kernel (v : vm A) (va flags : Z) : vm A * bool :=
  let (f, pa) := fa_alloc v.(frames) in
  let v := set_frames v f in
  if pa =? PHYS_NULL then (v, false)
  else
    let (v, ok) := vmm_map_page_kernel v va pa flags in
    if negb ok then (set_frames v (fa_free v.(frames) pa), false) else (v, true).

(** ** Address spaces *)

Definition vmm_create_address_space (v : vm A) : vm A * Z :=
  if v.(current_pml4) =? 0 then (v, PHYS_NULL)
  else
    let (v, new_pml4) := alloc_page_virt v in
    if new_pml4 =? 0 then (v, PHYS_NULL)
    else
      (set_mem v (for_loop 256 512 (fun i m =>
         st m (slot new_pml4 i) (ld m (slot v.(current_pml4) i))) v.(mem)), new_pml4).

(** [if (pmm_owns_page(p)) pmm_free_page(p);] *)
Definition release_frame (v : vm A) (p : Z) : vm A :=
  if fa_owns v.(frames) p then set_frames v (fa_free v.(frames) p) else v.

Definition clear_cell (v : vm A) (c : Z) : vm A := set_mem v (st v.(mem) c 0).

(** The nested loops of [vmm_destroy_address_space], innermost first. *)
Definition destroy_pt (pt : Z) (v : vm A) : vm A :=
  for_loop 0 512 (fun p1 v =>
    let e := ld v.(mem) (slot pt p1) in
    if negb (present e) then v
    else clear_cell (release_frame v (frame_of e)) (slot pt p1)) v.

(** One level above: skip absent entries, only clear huge ones, else destroy
    the table below, release it and clear the entry. *)
Definition destroy_level (n : Z) (below : Z -> vm A -> vm A) (t : Z) (v : vm A) : vm A :=
  for_loop 0 n (fun i v =>
    let e := ld v.(mem) (slot t i) in
    if negb (present e) then v
    else if huge e then clear_cell v (slot t i)
    else clear_cell (release_frame (below (frame_of e) v) (frame_of e)) (slot t i)) v.

Definition destroy_pd : Z -> vm A -> vm A := destroy_level 512 destroy_pt.
Definition destroy_pdpt : Z -> vm A -> vm A := destroy_level 512 destroy_pd.

Definition vmm_destroy_address_space (v : vm A) (pml4_phys : Z) (free_pml4 : bool) : vm A :=
  if pml4_phys =? PHYS_NULL then v
  else
    let v := destroy_level 256 destroy_pdpt pml4_phys v in
    if free_pml4 then release_frame v pml4_phys else v.

Definition vmm_switch_pml4 (v : vm A) (pml4_phys : Z) : vm A :=
  if pml4_phys =? PHYS_NULL then v else set_cr3 v pml4_phys.

Definition vmm_switch_to_kernel_as (v : vm A) : vm A :=
  if v.(kernel_pml4_phys) =? PHYS_NULL then v else set_cr3 v v.(kernel_pml4_phys).

Definition vmm_get_kernel_pml4_phys (v : vm A) : Z := v.(kernel_pml4_phys).

Definition vmm_destroy_task_as (v : vm A) (pml4_phys : Z) : vm A :=
  if pml4_phys =? PHYS_NULL then v
  else vmm_destroy_address_space (vmm_switch_to_kernel_as v) pml4_phys true.

(** Boot: adopt the loader's PML4 and give every absent higher-half entry its
    own empty PDPT.  [None] is the kernel panic on exhaustion. *)
Definition init_paging (v : vm A) : option (vm A) :=
  let phys_pml4 := Z.land v.(cr3) PAGE_MASK in
  let v := mk_vm v.(frames) v.(mem) phys_pml4 phys_pml4 v.(cr3) v.(percpu_cr3) in
  for_loop 256 512 (fun i ov =>
    match ov with
    | None => None
    | Some v =>
        if present (ld v.(mem) (slot v.(current_pml4) i)) then Some v
        else
          let (v, pdpt) := alloc_page_virt v in
          if pdpt =? 0 then None
          else Some (set_mem v (st v.(mem) (slot v.(current_pml4) i) (Z.lor pdpt 7)))
    end) (Some v).

End paging.
End Paging.
