(* ===== verification/PagingSpec.v ===== *)
(** * Page tables as a forest, and the contract of the virtual memory manager

    The invariant: the tables reachable from the PML4s in use form a forest in
    which the higher half may be shared, no table is a frame the allocator could
    hand out, and PML4 entries never carry the page-size bit.  From it follow
    the functional behaviour of mapping and unmapping and the isolation of
    address spaces from each other. *)

From stdpp Require Import base numbers list gmap sets.
From Stdlib Require Import ZArith Lia.
From S2P Require Import Prelude Pmm Paging.

#[local] Open Scope Z_scope.

Module PagingSpec.
Import Paging.

(** ** Entries *)

Definition aligned (t : Z) : Prop := t mod PAGE_SIZE = 0.
Definition wf_frame (t : Z) : Prop := 0 < t < 2 ^ 63 /\ aligned t.
Definition idx_ok (i : Z) : Prop := 0 <= i < 512.

Lemma present_testbit e : present e = Z.testbit e 0.
Proof.
  unfold present. change 1 with (Z.shiftl 1 0). rewrite Pmm.land_pow2 by lia.
  by destruct (Z.testbit e 0).
Qed.

Lemma huge_testbit e : huge e = Z.testbit e 7.
Proof. unfold huge. rewrite Pmm.land_pow2 by lia. by destruct (Z.testbit e 7). Qed.

Lemma aligned_low_bits t k : aligned t -> 0 <= k < 12 -> Z.testbit t k = false.
Proof.
  unfold aligned. intros Ht Hk. change PAGE_SIZE with (2 ^ 12) in Ht.
  rewrite <- (Z.mod_pow2_bits_low t 12 k) by lia. by rewrite Ht, Z.testbit_0_l.
Qed.

Lemma small_high_bits x n k : 0 <= x < 2 ^ n -> 0 <= n <= k -> Z.testbit x k = false.
Proof.
  intros Hx Hk. rewrite <- (Z.mod_small x (2 ^ n)) by done.
  apply Z.mod_pow2_bits_high. lia.
Qed.

Lemma mask_bits k : 0 <= k -> Z.testbit PAGE_MASK k = (12 <=? k) && (k <? 64).
Proof.
  intros Hk. change PAGE_MASK with (Z.shiftl (Z.ones 52) 12).
  rewrite Z.shiftl_spec by lia. destruct (Z.leb_spec 12 k); simpl.
  - destruct (Z.ltb_spec k 64).
    + by rewrite Z.ones_spec_low by lia.
    + by rewrite Z.ones_spec_high by lia.
  - by rewrite Z.testbit_neg_r by lia.
Qed.

(** A table entry built by the code points back to the table. *)
Lemma frame_of_lor t fl : aligned t -> 0 <= t < 2 ^ 64 -> 0 <= fl < 4096 ->
  frame_of (Z.lor t fl) = t.
Proof.
  intros Ha Ht Hfl. unfold frame_of. apply Z.bits_inj'. intros k Hk.
  rewrite Z.land_spec, Z.lor_spec, mask_bits by lia.
  destruct (Z.leb_spec 12 k); simpl.
  - rewrite (small_high_bits fl 12 k) by lia. rewrite orb_false_r.
    destruct (Z.ltb_spec k 64); [apply andb_true_r|].
    rewrite andb_false_r. symmetry. apply (small_high_bits t 64); lia.
  - rewrite andb_false_r. symmetry. by apply aligned_low_bits.
Qed.

Lemma frame_of_aligned e : aligned (frame_of e).
Proof.
  unfold aligned, frame_of. change PAGE_SIZE with (2 ^ 12). rewrite <- Z.land_ones by lia.
  apply Z.bits_inj'. intros k Hk. rewrite !Z.land_spec, mask_bits, Z.testbit_0_l by lia.
  zcases; simpl; rewrite ?andb_false_r; try done.
  rewrite Z.ones_spec_high by lia. apply andb_false_r.
Qed.

Lemma table_entry_bits t : aligned t ->
  present (Z.lor t 7) = true /\ huge (Z.lor t 7) = false.
Proof.
  intros Ha. rewrite present_testbit, huge_testbit, !Z.lor_spec.
  rewrite (aligned_low_bits t 0), (aligned_low_bits t 7) by (lia || exact Ha). done.
Qed.

Lemma slot_inj t i t' i' :
  aligned t -> aligned t' -> idx_ok i -> idx_ok i' -> slot t i = slot t' i' ->
  t = t' /\ i = i'.
Proof. unfold aligned, idx_ok, slot, PAGE_SIZE. intros. divlia. Qed.

(** ** Indices of an address *)

Definition idxs (va : Z) : list Z := [PML4_IDX va; PDPT_IDX va; PD_IDX va; PT_IDX va].
Definition table_path (va : Z) : list Z := [PML4_IDX va; PDPT_IDX va; PD_IDX va].

Lemma idx_range va k : idx_ok (Z.land (Z.shiftr va k) 0x1FF).
Proof.
  unfold idx_ok. change 0x1FF with (Z.ones 9). rewrite Z.land_ones by lia.
  apply Z.mod_pos_bound. lia.
Qed.

Lemma idx_div va k : 0 <= k -> Z.land (Z.shiftr va k) 0x1FF = va / 2 ^ k mod 512.
Proof.
  intros. change 0x1FF with (Z.ones 9). rewrite Z.land_ones, Z.shiftr_div_pow2 by lia. done.
Qed.

Lemma idxs_ok va : Forall idx_ok (idxs va).
Proof. repeat constructor; apply idx_range. Qed.

(** In the 48-bit space the indices identify the page. *)
Lemma idxs_page va va' :
  0 <= va < 2 ^ 48 -> 0 <= va' < 2 ^ 48 ->
  idxs va = idxs va' <-> va / PAGE_SIZE = va' / PAGE_SIZE.
Proof.
  intros H1 H2. unfold idxs, PML4_IDX, PDPT_IDX, PD_IDX, PT_IDX, PAGE_SIZE.
  rewrite !idx_div by lia.
  change (2 ^ 39) with (4096 * 512 * 512 * 512). change (2 ^ 30) with (4096 * 512 * 512).
  change (2 ^ 21) with (4096 * 512). change (2 ^ 12) with 4096.
  rewrite <- !Z.div_div by lia. split.
  - intros [= E4 E3 E2 E1]. divlia.
  - by intros ->.
Qed.

(** ** Walking tables *)

Definition child (m : gmap Z Z) (t i : Z) : option Z :=
  let e := ld m (slot t i) in
  if present e && negb (huge e) then Some (frame_of e) else None.

Fixpoint tbl (m : gmap Z Z) (t : Z) (p : list Z) : option Z :=
  match p with
  | [] => Some t
  | i :: q => match child m t i with Some t' => tbl m t' q | None => None end
  end.

(** What an address translates to. *)
Inductive xlation := Unmapped | Big | Page (e : Z).

Definition translate (m : gmap Z Z) (r va : Z) : xlation :=
  match walk m r va with
  | Absent => Unmapped
  | HugePage => Big
  | Leaf c => if present (ld m c) then Page (ld m c) else Unmapped
  end.

Fixpoint xl (m : gmap Z Z) (t : Z) (p : list Z) : xlation :=
  match p with
  | [] => Unmapped
  | [i] => let e := ld m (slot t i) in if present e then Page e else Unmapped
  | i :: q =>
      let e := ld m (slot t i) in
      if negb (present e) then Unmapped else if huge e then Big else xl m (frame_of e) q
  end.

(** The walk along [p] from [x] reads entry [j] of table [y], [q] remaining. *)
Inductive visits (m : gmap Z Z) : Z -> list Z -> Z -> Z -> list Z -> Prop :=
  | visits_here x j q : visits m x (j :: q) x j q
  | visits_next x i x' q y j q' :
      child m x i = Some x' -> visits m x' q y j q' -> visits m x (i :: q) y j q'.

Lemma visits_tbl m x p y j q :
  visits m x p y j q -> exists p1, p = p1 ++ j :: q /\ tbl m x p1 = Some y.
Proof.
  induction 1 as [x j q|x i x' q y j q' Hc _ (p1 & -> & Ht)].
  - by exists [].
  - exists (i :: p1). simpl. by rewrite Hc.
Qed.

Lemma child_entry m x i x' :
  child m x i = Some x' ->
  present (ld m (slot x i)) = true /\ huge (ld m (slot x i)) = false /\
  x' = frame_of (ld m (slot x i)).
Proof.
  unfold child. destruct (present _), (huge _); simpl; by intros [= <-].
Qed.

Lemma child_aligned m x i x' : child m x i = Some x' -> aligned x'.
Proof. intros (_ & _ & ->)%child_entry. apply frame_of_aligned. Qed.

(** Two memories that agree on the cells read give the same walk. *)
Lemma tbl_ext m m' x p :
  (forall y j q, visits m x p y j q -> ld m' (slot y j) = ld m (slot y j)) ->
  tbl m' x p = tbl m x p.
Proof.
  revert x. induction p as [|i p IH]; intros x Hv; [done|]. simpl.
  assert (child m' x i = child m x i) as ->.
  { unfold child. by rewrite (Hv x i p) by constructor. }
  destruct (child m x i) as [x'|] eqn:E; [|done]. apply IH.
  intros y j q Hy. apply (Hv y j q). by econstructor.
Qed.

Lemma xl_cons m x i j q :
  xl m x (i :: j :: q) =
  match child m x i with
  | Some x' => xl m x' (j :: q)
  | None => if present (ld m (slot x i)) then Big else Unmapped
  end.
Proof.
  unfold child. simpl xl at 1. destruct (present _), (huge _); done.
Qed.

Lemma xl_ext m m' x p :
  (forall y j q, visits m x p y j q -> ld m' (slot y j) = ld m (slot y j)) ->
  xl m' x p = xl m x p.
Proof.
  revert x. induction p as [|i [|j p] IH]; intros x Hv; [done| |].
  - simpl. by rewrite (Hv x i []) by constructor.
  - rewrite !xl_cons.
    assert (ld m' (slot x i) = ld m (slot x i)) as E by (apply (Hv x i (j :: p)); constructor).
    assert (child m' x i = child m x i) as -> by (unfold child; by rewrite E).
    destruct (child m x i) as [x'|] eqn:Ec; [|by rewrite E]. apply IH.
    intros y k q Hy. apply (Hv y k q). by econstructor.
Qed.

(** ** Effect of the two primitive updates on a walk *)

Lemma zero_page_ld m p c :
  ld (zero_page m p) c =
  if (p <=? c) && (c <? p + 4096) && ((c - p) mod 8 =? 0) then 0 else ld m c.
Proof.
  unfold zero_page.
  assert (ld (for_loop 0 512 (fun i m => st m (slot p i) 0) m) c =
    if (p <=? c) && (c <? p + 8 * 512) && ((c - p) mod 8 =? 0) then 0 else ld m c) as E; [|exact E].
  apply (for_loop_inv (fun n m' => ld m' c =
    if (p <=? c) && (c <? p + 8 * n) && ((c - p) mod 8 =? 0) then 0 else ld m c)); [lia| |].
  - zcases; done.
  - intros i m' Hi IH. rewrite ld_st, IH. unfold slot.
    destruct (Z.eqb_spec (p + 8 * i) c) as [<-|Hne].
    + replace (p + 8 * i - p) with (i * 8) by lia. rewrite Z.mod_mul by lia. zcases; done.
    + destruct (Z.eqb_spec ((c - p) mod 8) 0); [|by rewrite !andb_false_r].
      rewrite !andb_true_r. zcases; simpl; try done. exfalso. divlia.
Qed.

Lemma zero_page_same m p i : idx_ok i -> ld (zero_page m p) (slot p i) = 0.
Proof.
  intros Hi. rewrite zero_page_ld. unfold slot, idx_ok in *.
  replace (p + 8 * i - p) with (i * 8) by lia. rewrite Z.mod_mul by lia. zcases; done.
Qed.

Lemma zero_page_other m p t i :
  aligned p -> aligned t -> idx_ok i -> t <> p ->
  ld (zero_page m p) (slot t i) = ld m (slot t i).
Proof.
  intros Hp Ht Hi Hne. rewrite zero_page_ld. unfold aligned, PAGE_SIZE, slot, idx_ok in *.
  zcases; simpl; try done. exfalso. divlia.
Qed.

(** ** The forest invariant *)

(** The PML4 slots of the higher half are copied between address spaces. *)
Definition shared (p : list Z) : Prop :=
  match p with [] => False | i :: _ => 256 <= i end.

(** Table [t] is reached from root [r] along [p]. *)
Definition node (R : Z -> Prop) (m : gmap Z Z) (r : Z) (p : list Z) (t : Z) : Prop :=
  R r /\ Forall idx_ok p /\ (length p <= 3)%nat /\ tbl m r p = Some t.

Record forest (R : Z -> Prop) (avail : Z -> bool) (m : gmap Z Z) : Prop := {
  forest_frame : forall r p t, node R m r p t -> wf_frame t /\ avail t = false;
  forest_inj : forall r p r' p' t, node R m r p t -> node R m r' p' t ->
    p = p' /\ (r = r' \/ shared p);
  forest_pml4 : forall r i, R r -> idx_ok i -> present (ld m (slot r i)) = true ->
    huge (ld m (slot r i)) = false;
}.
Arguments forest_frame {R avail m}.
Arguments forest_inj {R avail m}.
Arguments forest_pml4 {R avail m}.

Lemma tbl_app m x p q : tbl m x (p ++ q) = match tbl m x p with Some y => tbl m y q | None => None end.
Proof.
  revert x; induction p as [|i p IH]; intros x; [done|]. simpl. by destruct (child m x i).
Qed.

Lemma node_child R m r p y j z :
  node R m r p y -> (length p <= 2)%nat -> idx_ok j -> child m y j = Some z ->
  node R m r (p ++ [j]) z.
Proof.
  intros (Hr & Hp & _ & Ht) Hl Hj Hc. split; [done|]. split.
  - apply Forall_app; auto.
  - split; [rewrite length_app; simpl; lia|]. rewrite tbl_app, Ht. simpl. by rewrite Hc.
Qed.

Lemma node_root R m r : R r -> node R m r [] r.
Proof. intros; split; [done|]. split; [constructor|]. split; [simpl; lia|done]. Qed.

(** Under the invariant the walk of the code follows [xl]. *)
Lemma translate_xl R av m r va : forest R av m -> R r -> translate m r va = xl m r (idxs va).
Proof.
  intros F Hr. unfold translate, walk, idxs.
  pose proof (forest_pml4 F r (PML4_IDX va) Hr (idx_range _ _)) as Hp.
  rewrite (xl_cons m r). unfold child. destruct (present (ld m (slot r _))); [|done].
  rewrite Hp by done. simpl.
  set (e3 := ld m (slot (frame_of (ld m (slot r (PML4_IDX va)))) (PDPT_IDX va))).
  set (e2 := ld m (slot (frame_of e3) (PD_IDX va))).
  by destruct (present e3), (huge e3), (present e2), (huge e2).
Qed.

Lemma xl_app m x p y q : tbl m x p = Some y -> q <> [] -> xl m x (p ++ q) = xl m y q.
Proof.
  revert x; induction p as [|i p IH]; intros x Ht Hq; [by injection Ht as ->|].
  simpl in Ht. destruct (child m x i) as [x'|] eqn:E; [|done].
  replace ((i :: p) ++ q) with (i :: (p ++ q)) by done.
  destruct (p ++ q) as [|j l] eqn:El; [by destruct p, q|].
  rewrite xl_cons, E. by apply IH.
Qed.

Lemma visits_node R m r p y j q :
  R r -> Forall idx_ok p -> (length p <= 4)%nat -> visits m r p y j q ->
  exists p1, p = p1 ++ j :: q /\ node R m r p1 y /\ idx_ok j.
Proof.
  intros Hr Hp Hl (p1 & -> & Ht)%visits_tbl. exists p1. split; [done|].
  apply Forall_app in Hp as [Hp1 Hp2]. apply Forall_cons in Hp2 as [Hj _].
  rewrite length_app in Hl; simpl in Hl. split; [|done]. split; [done|]. split; [done|].
  split; [lia|done].
Qed.

(** ** Installing a fresh table *)

#[local] Opaque zero_page.

Section install.
Context (R : Z -> Prop) (av av' : Z -> bool) (m : gmap Z Z) (r0 : Z) (p0 : list Z) (y j t : Z).
Hypothesis F : forest R av m.
Hypothesis Hy : node R m r0 p0 y.
Hypothesis Hlen : (length p0 <= 2)%nat.
Hypothesis Hj : idx_ok j.
Hypothesis Habs : present (ld m (slot y j)) = false.
Hypothesis Ht : wf_frame t.
Hypothesis Hfresh : av t = true.
Hypothesis Hav : forall x, av' x = negb (x =? t) && av x.

Definition install : gmap Z Z := st (zero_page m t) (slot y j) (Z.lor t 7).

Lemma node_ne r p x : node R m r p x -> x <> t /\ aligned x.
Proof.
  intros Hn. destruct (forest_frame F r p x Hn) as [[_ Ha] Hf].
  split; [|done]. intros ->. congruence.
Qed.

Lemma install_new : child install y j = Some t /\ (forall i, idx_ok i -> ld install (slot t i) = 0).
Proof.
  destruct Ht as [Hr Ha]. destruct (node_ne _ _ _ Hy) as [Hyt Hya]. split.
  - unfold child, install. rewrite ld_st_eq. destruct (table_entry_bits t Ha) as [-> ->]. simpl.
    rewrite frame_of_lor; [reflexivity|exact Ha|lia|lia].
  - intros i Hi. unfold install. rewrite ld_st_ne; [by apply zero_page_same|].
    intros E. by apply slot_inj in E as [? _].
Qed.

Lemma install_other x i : aligned x -> x <> t -> idx_ok i -> ~ (x = y /\ i = j) ->
  ld install (slot x i) = ld m (slot x i).
Proof.
  intros Hx Hxt Hi Hne. destruct Ht as [_ Ha]. destruct (node_ne _ _ _ Hy) as [_ Hya].
  unfold install. rewrite ld_st_ne, zero_page_other; try done.
  intros E. apply slot_inj in E as [-> ->]; try done. by apply Hne.
Qed.

(** A walk in the new memory: the old walk, or one step into the new table. *)
Lemma install_tbl r p x z : node R m r p x ->
  forall q, Forall idx_ok q -> (length p + length q <= 3)%nat ->
  tbl install x q = Some z ->
  tbl m x q = Some z \/ z = t /\ exists q1, q = q1 ++ [j] /\ tbl m x q1 = Some y.
Proof.
  intros Hn q. revert p x Hn. induction q as [|i q IH]; intros p x Hn Hq Hl;
    cbn [tbl]; [intros; left; assumption|].
  apply Forall_cons in Hq as [Hi Hq]. simpl in Hl. destruct (node_ne _ _ _ Hn) as [Hxt Hxa].
  destruct (decide (x = y /\ i = j)) as [[-> ->]|Hne].
  - rewrite (proj1 install_new). destruct q as [|k q]; cbn [tbl].
    + intros [= <-]. right. split; [done|]. by exists [].
    + unfold child at 1. apply Forall_cons in Hq as [Hk _].
      by rewrite (proj2 install_new k Hk).
  - unfold child at 1 2. rewrite install_other by done. fold (child m x i).
    destruct (child m x i) as [x'|] eqn:E; [|done]. intros Hz.
    assert (node R m r (p ++ [i]) x') as Hn' by (eapply node_child; [exact Hn|lia|done|done]).
    destruct (IH _ _ Hn' Hq ltac:(rewrite length_app; simpl; lia) Hz) as [|(-> & q1 & -> & ?)];
      [by left|]. right. split; [done|]. exists (i :: q1). simpl. by rewrite E.
Qed.

Lemma install_keeps r p x z : node R m r p x ->
  forall q, Forall idx_ok q -> (length p + length q <= 3)%nat ->
  tbl m x q = Some z -> tbl install x q = Some z.
Proof.
  intros Hn q. revert p x Hn. induction q as [|i q IH]; intros p x Hn Hq Hl;
    cbn [tbl]; [trivial|].
  apply Forall_cons in Hq as [Hi Hq]. simpl in Hl. destruct (node_ne _ _ _ Hn) as [Hxt Hxa].
  destruct (child m x i) as [x'|] eqn:E; [|done].
  assert (~ (x = y /\ i = j)).
  { intros [-> ->]. apply child_entry in E as [E _]. congruence. }
  unfold child at 1. rewrite install_other by done. fold (child m x i). rewrite E.
  apply (IH (p ++ [i])); [eapply node_child; [exact Hn|lia|done|done]|done|].
  rewrite length_app; simpl; lia.
Qed.

Lemma node_install r p z :
  node R install r p z ->
  node R m r p z \/ z = t /\ exists p1, p = p1 ++ [j] /\ node R m r p1 y.
Proof.
  intros (Hr & Hp & Hl & Hz).
  destruct (install_tbl r [] r z (node_root R m r Hr) p Hp Hl Hz) as [Ho|(-> & q & -> & Hq)].
  - left. split; [done|]. done.
  - right. split; [done|]. exists q. split; [done|]. apply Forall_app in Hp as [Hp _].
    rewrite length_app in Hl; simpl in Hl. split; [done|]. split; [done|]. split; [lia|done].
Qed.

Lemma node_install_old r p z : node R m r p z -> node R install r p z.
Proof.
  intros (Hr & Hp & Hl & Hz). split; [done|]. split; [done|]. split; [done|].
  by apply (install_keeps r [] r z (node_root R m r Hr)).
Qed.

Lemma install_forest : forest R av' install.
Proof.
  split.
  - intros r p z [Hn|(-> & p1 & -> & Hn)]%node_install.
    + destruct (forest_frame F r p z Hn) as [Hw Ha]. split; [done|].
      rewrite Hav, Ha. apply andb_false_r.
    + split; [done|]. by rewrite Hav, Z.eqb_refl.
  - intros r p r' p' z Hn Hn'.
    apply node_install in Hn as [Hn|(-> & p1 & -> & Hn)];
      apply node_install in Hn' as [Hn'|(Ez & p2 & -> & Hn')].
    + by apply (forest_inj F r p r' p' z).
    + subst z. by destruct (node_ne _ _ _ Hn).
    + by destruct (node_ne _ _ _ Hn').
    + destruct (forest_inj F _ _ _ _ _ Hn Hn') as [-> Hs]. split; [done|].
      destruct Hs as [->|Hs]; [by left|]. right. by destruct p2.
  - intros r i Hr Hi Hp. destruct (decide (r = y /\ i = j)) as [[-> ->]|Hne].
    + destruct (child_entry _ _ _ _ (proj1 install_new)) as (_ & ? & _). done.
    + destruct (node_ne _ _ _ (node_root R m r Hr)) as [? ?].
      revert Hp. rewrite install_other by done. by apply (forest_pml4 F).
Qed.

(** Nothing was mapped through the absent entry, and nothing is now. *)
Lemma install_xl r p x : node R m r p x ->
  forall q, Forall idx_ok q -> (length p + length q = 4)%nat ->
  xl install x q = xl m x q.
Proof.
  intros Hn q. revert p x Hn. induction q as [|i [|k q] IH]; intros p x Hn Hq Hl; [done| |].
  - apply Forall_cons in Hq as [Hi _]. destruct (node_ne _ _ _ Hn) as [? ?]. simpl in *.
    rewrite install_other; try done. intros [-> ->].
    destruct (forest_inj F _ _ _ _ _ Hn Hy) as [-> _]. lia.
  - apply Forall_cons in Hq as [Hi Hq]. destruct (node_ne _ _ _ Hn) as [Hxt Hxa].
    rewrite !xl_cons. destruct (decide (x = y /\ i = j)) as [[-> ->]|Hne].
    + rewrite (proj1 install_new). unfold child. rewrite Habs. simpl andb.
      apply Forall_cons in Hq as [Hk _]. destruct q as [|l q].
      * simpl. by rewrite (proj2 install_new k Hk).
      * rewrite xl_cons. unfold child. by rewrite (proj2 install_new k Hk).
    + unfold child. rewrite install_other by done. fold (child m x i).
      destruct (child m x i) as [x'|] eqn:E; [|done]. simpl in Hl.
      apply (IH (p ++ [i])); [eapply node_child; [exact Hn|lia|done|done]|done|].
      rewrite length_app. simpl. lia.
Qed.

Lemma install_translate r va : R r -> translate install r va = translate m r va.
Proof.
  intros Hr. rewrite (translate_xl R av' install), (translate_xl R av m) by
    (done || apply install_forest).
  apply (install_xl r []); [by apply node_root|apply idxs_ok|done].
Qed.
End install.

(** ** Writing a last-level entry *)

Section leaf.
Context (R : Z -> Prop) (av : Z -> bool) (m : gmap Z Z) (r0 : Z) (p0 : list Z) (y j e : Z).
Hypothesis F : forest R av m.
Hypothesis Hy : node R m r0 p0 y.
Hypothesis Hlen : length p0 = 3%nat.
Hypothesis Hj : idx_ok j.

Lemma leaf_other r p x i : node R m r p x -> idx_ok i -> (x = y -> i <> j) ->
  ld (st m (slot y j) e) (slot x i) = ld m (slot x i).
Proof.
  intros Hn Hi Hne. destruct (forest_frame F _ _ _ Hn) as [[_ Ha] _].
  destruct (forest_frame F _ _ _ Hy) as [[_ Ha'] _].
  rewrite ld_st_ne; [done|]. intros E. apply slot_inj in E as [-> ->]; try done. by apply Hne.
Qed.

Lemma leaf_tbl r p : R r -> Forall idx_ok p -> (length p <= 3)%nat ->
  tbl (st m (slot y j) e) r p = tbl m r p.
Proof.
  intros Hr Hp Hl. apply tbl_ext. intros x i q Hv.
  destruct (visits_node R m r p x i q Hr Hp ltac:(lia) Hv) as (p1 & -> & Hn & Hi).
  apply (leaf_other r p1); try done. intros ->.
  destruct (forest_inj F _ _ _ _ _ Hn Hy) as [-> _]. rewrite length_app in Hl. simpl in Hl. lia.
Qed.

Lemma leaf_node r p t : node R (st m (slot y j) e) r p t <-> node R m r p t.
Proof.
  unfold node. split; intros (? & ? & ? & Ht); (split; [done|]; split; [done|]; split; [done|]);
    by rewrite leaf_tbl in *.
Qed.

Lemma leaf_forest : forest R av (st m (slot y j) e).
Proof.
  split.
  - intros r p t Hn%leaf_node. by apply (forest_frame F r p).
  - intros r p r' p' t Hn%leaf_node Hn'%leaf_node. by apply (forest_inj F r p r' p' t).
  - intros r i Hr Hi. rewrite (leaf_other r []); try done.
    + by apply (forest_pml4 F).
    + by apply node_root.
    + intros ->. destruct (forest_inj F _ _ _ _ _ (node_root R m y Hr) Hy) as [<- _]. done.
Qed.

Lemma leaf_xl_other r p : R r -> Forall idx_ok p -> length p = 4%nat ->
  p <> p0 ++ [j] \/ (r <> r0 /\ ~ shared p0) ->
  xl (st m (slot y j) e) r p = xl m r p.
Proof.
  intros Hr Hp Hl Hne. apply xl_ext. intros x i q Hv.
  destruct (visits_node R m r p x i q Hr Hp ltac:(lia) Hv) as (p1 & -> & Hn & Hi).
  apply (leaf_other r p1); try done. intros -> ->.
  destruct (forest_inj F _ _ _ _ _ Hn Hy) as [-> Hs].
  rewrite length_app in Hl; simpl in Hl. destruct q; [|simpl in Hl; lia].
  destruct Hne as [|[? ?]]; [done|]. by destruct Hs.
Qed.

Lemma leaf_xl_same : xl (st m (slot y j) e) r0 (p0 ++ [j]) = if present e then Page e else Unmapped.
Proof.
  destruct Hy as (Hr & Hp & Hl & Ht). rewrite (xl_app _ _ _ y); [|by rewrite leaf_tbl by (done || lia)|done].
  simpl. by rewrite ld_st_eq.
Qed.
End leaf.

(** ** The operations *)

Section ops.
Context {A : Type} `{FrameAllocator A} (R : Z -> Prop).
Implicit Types v : vm A.

Definition vm_ok (v : vm A) : Prop :=
  fa_inv v.(frames) /\ forest R (fa_avail v.(frames)) v.(mem).

Definition same_regs (v v' : vm A) : Prop :=
  v'.(current_pml4) = v.(current_pml4) /\ v'.(kernel_pml4_phys) = v.(kernel_pml4_phys) /\
  v'.(cr3) = v.(cr3) /\ v'.(percpu_cr3) = v.(percpu_cr3).

(** What growing the tables leaves alone: translations, existing tables, and
    frames that were already allocated. *)
Record grows (v v' : vm A) : Prop := {
  grows_ok : vm_ok v';
  grows_regs : same_regs v v';
  grows_xl : forall r va, R r -> translate v'.(mem) r va = translate v.(mem) r va;
  grows_node : forall r p t, node R v.(mem) r p t -> node R v'.(mem) r p t;
  grows_new : forall r p t, node R v'.(mem) r p t ->
    node R v.(mem) r p t \/ fa_avail v.(frames) t = true;
  grows_avail : forall t, fa_avail v.(frames) t = false -> fa_avail v'.(frames) t = false;
}.

Lemma grows_refl v : vm_ok v -> grows v v.
Proof. intros Hv. split; auto. by repeat split. Qed.

Lemma grows_trans v1 v2 v3 : grows v1 v2 -> grows v2 v3 -> grows v1 v3.
Proof.
  intros [O1 R1 X1 N1 W1 A1] [O2 R2 X2 N2 W2 A2]. split; auto.
  - unfold same_regs in *. intuition congruence.
  - intros r va Hr. by rewrite X2, X1.
  - intros r p t Hn. destruct (W2 r p t Hn) as [?|Ha]; [auto|]. right.
    destruct (fa_avail v1.(frames) t) eqn:E; [done|]. by rewrite A1 in Ha.
Qed.

Lemma alloc_page_virt_spec v v' t :
  fa_inv v.(frames) -> alloc_page_virt v = (v', t) ->
  fa_inv v'.(frames) /\ same_regs v v' /\
  (t = 0 /\ v' = v \/
   wf_frame t /\ fa_avail v.(frames) t = true /\
   (forall x, fa_avail v'.(frames) x = negb (x =? t) && fa_avail v.(frames) x) /\
   v'.(mem) = zero_page v.(mem) t).
Proof.
  intros Hi. unfold alloc_page_virt. destruct (fa_alloc v.(frames)) as [f pa] eqn:Ea.
  destruct (fa_alloc_spec _ _ _ Hi Ea) as [Hf [[-> ->]|(Hr & Ha & Hav & Hup & _)]].
  - change (0 =? PHYS_NULL) with true. intros [= <- <-].
    split; [done|]. split; [by repeat split|]. left. split; [done|]. by destruct v.
  - unfold PHYS_NULL. destruct (Z.eqb_spec pa 0); [lia|]. intros [= <- <-].
    split; [done|]. split; [by repeat split|]. right. split; [done|]. by split; [|split].
Qed.

Lemma ensure_table_spec v v' ok r p y j :
  vm_ok v -> node R v.(mem) r p y -> (length p <= 2)%nat -> idx_ok j ->
  (present (ld v.(mem) (slot y j)) = true -> huge (ld v.(mem) (slot y j)) = false) ->
  ensure_table v (slot y j) = (v', ok) ->
  grows v v' /\
  (ok = true -> node R v'.(mem) r (p ++ [j]) (frame_of (ld v'.(mem) (slot y j)))).
Proof.
  intros [Hi F] Hn Hl Hj Hh. unfold ensure_table.
  destruct (present (ld _ _)) eqn:Hp.
  - intros [= <- <-]. split; [by apply grows_refl|]. intros _.
    eapply node_child; try done. unfold child. by rewrite Hp, Hh.
  - destruct (alloc_page_virt v) as [v1 t] eqn:Ea.
    destruct (alloc_page_virt_spec _ _ _ Hi Ea)
      as (Hi1 & Hr1 & [[-> ->]|(Hw & Hav & Hup & Hm)]).
    { change (0 =? 0) with true. intros [= <- <-]. split; [by apply grows_refl|done]. }
    destruct (Z.eqb_spec t 0) as [->|_]; [by destruct Hw as [[? ?] _]|].
    rewrite Hm. change (st (zero_page v.(mem) t) (slot y j) (Z.lor t 7)) with (install v.(mem) y j t).
    intros [= <- <-].
    pose proof (install_new R _ _ r p y j t F Hn Hl Hj Hw Hav) as [Hc _].
    pose proof (node_install_old R _ _ r p y j t F Hn Hl Hj Hp Hw Hav) as Hk.
    split.
    + split.
      * split; [done|]. apply (install_forest R _ _ _ r p y j t F Hn Hl Hj Hp Hw Hav Hup).
      * done.
      * intros r' va Hr'. by apply (install_translate R _ _ _ r p y j t F Hn Hl Hj Hp Hw Hav Hup).
      * done.
      * intros r' p' x [Hx|(-> & _)]%(node_install R _ _ r p y j t F Hn Hl Hj Hp Hw Hav); [by left|by right].
      * intros x Hx. simpl. rewrite Hup, Hx. apply andb_false_r.
    + intros _. cbn [mem set_mem].
      eapply node_child; [by apply Hk|done|done|]. rewrite Hc.
      f_equal. by apply child_entry in Hc as (_ & _ & Ht).
Qed.

(** Every page but the mapped one, and in other address spaces that one too
    unless it lies in the shared half. *)
Definition elsewhere (r va r' va' : Z) : Prop :=
  idxs va' <> idxs va \/ (r' <> r /\ PML4_IDX va < 256).

Lemma set_leaf_spec v r va e pt :
  vm_ok v -> node R v.(mem) r (table_path va) pt ->
  let v' := set_mem v (st v.(mem) (slot pt (PT_IDX va)) e) in
  vm_ok v' /\ (forall r p t, node R v'.(mem) r p t <-> node R v.(mem) r p t) /\
  translate v'.(mem) r va = (if present e then Page e else Unmapped) /\
  (forall r' va', R r' -> elsewhere r va r' va' ->
     translate v'.(mem) r' va' = translate v.(mem) r' va').
Proof.
  intros [Hi F] Hn v'. pose proof (idx_range va 12 : idx_ok (PT_IDX va)) as Hj.
  pose proof (leaf_forest R _ _ r _ pt _ e F Hn eq_refl Hj) as F'. subst v'. cbn [mem set_mem frames].
  split; [done|]. split; [|split].
  - intros. by apply (leaf_node R _ _ r (table_path va) _ _ e F).
  - rewrite (translate_xl R _ _ r va F' (proj1 Hn)).
    exact (leaf_xl_same R _ _ r (table_path va) pt _ e F Hn eq_refl Hj).
  - intros r' va' Hr' He. rewrite (translate_xl R _ _ r' va' F' Hr'), (translate_xl R _ _ r' va' F Hr').
    apply (leaf_xl_other R (fa_avail v.(frames)) _ r (table_path va)); try done; [apply idxs_ok|].
    destruct He as [He|[? Hlo]]; [by left|]. right. split; [done|]. simpl. lia.
Qed.

(** Outcome of mapping entry [e] at [va] in [r]. *)
Definition map_post (v v' : vm A) (r va e : Z) (ok : bool) : Prop :=
  vm_ok v' /\ same_regs v v' /\
  (forall t, fa_avail v.(frames) t = false -> fa_avail v'.(frames) t = false) /\
  (forall r p t, node R v'.(mem) r p t -> node R v.(mem) r p t \/ fa_avail v.(frames) t = true) /\
  if ok then
    translate v'.(mem) r va = (if present e then Page e else Unmapped) /\
    (forall r' va', R r' -> elsewhere r va r' va' ->
       translate v'.(mem) r' va' = translate v.(mem) r' va')
  else forall r' va', R r' -> translate v'.(mem) r' va' = translate v.(mem) r' va'.

Lemma map_post_fail v w v' r va e ok :
  grows v w -> (w, false) = (v', ok) -> map_post v v' r va e ok.
Proof. by intros [? ? ? ? ? ?] [= <- <-]. Qed.

(** The whole mapping walk. *)
Lemma map_walk_spec v v' ok r va pa flags :
  vm_ok v -> R r -> map_walk v r va pa flags = (v', ok) ->
  map_post v v' r va (Z.lor (Z.land pa PAGE_MASK) flags) ok.
Proof.
  intros Hv Hr. unfold map_walk.
  assert (idx_ok (PML4_IDX va)) as I4 by apply idx_range.
  assert (idx_ok (PDPT_IDX va)) as I3 by apply idx_range.
  assert (idx_ok (PD_IDX va)) as I2 by apply idx_range.
  destruct (ensure_table v _) as [v1 ok1] eqn:E1.
  destruct (ensure_table_spec v v1 ok1 r [] r _ Hv (node_root R _ r Hr) ltac:(simpl; lia)
    I4 (forest_pml4 (proj2 Hv) r _ Hr I4) E1) as [G1 N1].
  destruct ok1; [|by apply map_post_fail]. cbn [negb]. specialize (N1 eq_refl).
  set (pdpt := frame_of (ld v1.(mem) (slot r (PML4_IDX va)))) in *.
  destruct (huge (ld v1.(mem) (slot pdpt (PDPT_IDX va)))) eqn:Hh1; [by apply map_post_fail|].
  destruct (ensure_table v1 _) as [v2 ok2] eqn:E2.
  destruct (ensure_table_spec v1 v2 ok2 r _ pdpt _ (grows_ok _ _ G1) N1 ltac:(simpl; lia)
    I3 ltac:(done) E2) as [G2 N2].
  pose proof (grows_trans _ _ _ G1 G2) as G12.
  destruct ok2; [|by apply map_post_fail]. cbn [negb]. specialize (N2 eq_refl).
  set (pd := frame_of (ld v2.(mem) (slot pdpt (PDPT_IDX va)))) in *.
  destruct (huge (ld v2.(mem) (slot pd (PD_IDX va)))) eqn:Hh2; [by apply map_post_fail|].
  destruct (ensure_table v2 _) as [v3 ok3] eqn:E3.
  destruct (ensure_table_spec v2 v3 ok3 r _ pd _ (grows_ok _ _ G2) N2 ltac:(simpl; lia)
    I2 ltac:(done) E3) as [G3 N3].
  pose proof (grows_trans _ _ _ G12 G3) as G.
  destruct ok3; [|by apply map_post_fail]. cbn [negb]. specialize (N3 eq_refl).
  set (pt := frame_of (ld v3.(mem) (slot pd (PD_IDX va)))) in *. intros [= <- <-].
  destruct (set_leaf_spec v3 r va (Z.lor (Z.land pa PAGE_MASK) flags) pt (grows_ok _ _ G) N3)
    as (Hok & Hnd & Hx & Ho).
  split; [done|]. split; [exact (grows_regs _ _ G)|]. split; [exact (grows_avail _ _ G)|].
  split; [intros r' p t Hn%Hnd; exact (grows_new _ _ G r' p t Hn)|]. split; [done|].
  intros r' va' Hr' He. rewrite Ho by done. by apply (grows_xl _ _ G).
Qed.

End ops.
End PagingSpec.
