(* ===== verification/PagingOps.v ===== *)
(** * What the virtual memory manager promises

    Theorems on the operations of [Paging], stated with [PagingSpec.translate]
    (the entry an address translates to) for the set [R] of PML4s in use:
    mapping, unmapping, allocating, creating and destroying address spaces. *)

From stdpp Require Import base numbers list gmap sets.
From Stdlib Require Import ZArith Lia.
From S2P Require Import Prelude Pmm Paging PagingSpec.

#[local] Open Scope Z_scope.

Module PagingOps.
Import Paging PagingSpec.

#[local] Opaque zero_page.

Section ops.
Context {A : Type} `{FrameAllocator A} (R : Z -> Prop).
Implicit Types v : vm A.

(** The invariant only needs the tables to be unavailable. *)
Lemma forest_avail (av av' : Z -> bool) m :
  forest R av m -> (forall r p t, node R m r p t -> av' t = false) -> forest R av' m.
Proof.
  intros F Ha. split.
  - intros r p t Hn. split; [apply (forest_frame F r p t Hn)|by eapply Ha].
  - exact (forest_inj F).
  - exact (forest_pml4 F).
Qed.

Lemma root_nonzero v r : vm_ok R v -> R r -> r <> 0.
Proof.
  intros [_ F] Hr. destruct (forest_frame F r [] r (node_root R _ r Hr)) as [[[? ?] _] _]. lia.
Qed.

Lemma map_into_spec v v' ok r va pa flags :
  vm_ok R v -> R r -> vmm_map_page_into v va pa flags r = (v', ok) ->
  map_post R v v' r va (Z.lor (Z.land pa PAGE_MASK) flags) ok.
Proof.
  intros Hv Hr. unfold vmm_map_page_into, PHYS_NULL.
  destruct (Z.eqb_spec r 0) as [->|]; [by destruct (root_nonzero v 0 Hv Hr)|].
  by apply map_walk_spec.
Qed.

(** A mapped page has a last-level table. *)
Lemma translate_leaf v r va e :
  vm_ok R v -> R r -> translate v.(mem) r va = Page e ->
  exists pt, node R v.(mem) r (table_path va) pt /\
    walk v.(mem) r va = Leaf (slot pt (PT_IDX va)) /\
    ld v.(mem) (slot pt (PT_IDX va)) = e /\ present e = true.
Proof.
  intros [_ F] Hr. unfold translate, walk. set (m := v.(mem)) in *.
  pose proof (forest_pml4 F r (PML4_IDX va) Hr (idx_range _ _)) as Hp.
  set (e4 := ld m (slot r (PML4_IDX va))) in *.
  set (e3 := ld m (slot (frame_of e4) (PDPT_IDX va))).
  set (e2 := ld m (slot (frame_of e3) (PD_IDX va))).
  destruct (present e4) eqn:P4; [|done]. specialize (Hp eq_refl).
  destruct (present e3) eqn:P3; [|done]. destruct (huge e3) eqn:H3; [done|].
  destruct (present e2) eqn:P2; [|done]. destruct (huge e2) eqn:H2; [done|]. cbn [negb].
  destruct (present (ld m _)) eqn:P1; [|done]. intros [= <-].
  exists (frame_of e2). split; [|done]. split; [done|].
  split; [repeat constructor; apply idx_range|]. split; [simpl; lia|].
  unfold table_path. simpl. unfold child. fold e4. rewrite P4, Hp. cbn [andb negb].
  fold e3. rewrite P3, H3. cbn [andb negb]. fold e2. by rewrite P2, H2.
Qed.

Lemma unmap_leaf_spec v r va e :
  vm_ok R v -> R r -> translate v.(mem) r va = Page e ->
  exists c, walk v.(mem) r va = Leaf c /\ ld v.(mem) c = e /\ present e = true /\
    let v' := set_mem v (st v.(mem) c 0) in
    vm_ok R v' /\ translate v'.(mem) r va = Unmapped /\
    (forall r' va', R r' -> elsewhere r va r' va' ->
       translate v'.(mem) r' va' = translate v.(mem) r' va').
Proof.
  intros Hv Hr He. destruct (translate_leaf v r va e Hv Hr He) as (pt & Hn & Hw & Hl & Hp).
  exists (slot pt (PT_IDX va)). split; [done|]. split; [done|]. split; [done|].
  destruct (set_leaf_spec R v r va 0 pt Hv Hn) as (Hok & _ & Hx & Ho). done.
Qed.

Lemma translate_present v r va c :
  walk v.(mem) r va = Leaf c -> present (ld v.(mem) c) = true ->
  translate v.(mem) r va = Page (ld v.(mem) c).
Proof. unfold translate. by intros -> ->. Qed.

(** ** Creating an address space *)

(** The copy of the higher half into a zeroed page. *)
Lemma clone_ld m k t x i :
  aligned t -> aligned k -> k <> t -> aligned x -> idx_ok i ->
  ld (for_loop 256 512 (fun i m => st m (slot t i) (ld m (slot k i))) (zero_page m t)) (slot x i) =
  if x =? t then (if 256 <=? i then ld m (slot k i) else 0) else ld m (slot x i).
Proof.
  intros Ht Hk Hkt Hx Hi.
  assert (forall n, 256 <= n <= 512 -> forall x i, aligned x -> idx_ok i ->
    ld (for_loop 256 n (fun i m => st m (slot t i) (ld m (slot k i))) (zero_page m t)) (slot x i) =
    if x =? t then (if (256 <=? i) && (i <? n) then ld m (slot k i) else 0) else ld m (slot x i)) as E.
  { clear x i Hx Hi. intros n Hn.
    apply (for_loop_inv (fun n m' => forall x i, aligned x -> idx_ok i -> ld m' (slot x i) =
      if x =? t then (if (256 <=? i) && (i <? n) then ld m (slot k i) else 0) else ld m (slot x i)));
      [lia| |].
    - intros x i Hx Hi. destruct (Z.eqb_spec x t) as [->|].
      + rewrite zero_page_same by done. by zcases.
      + by apply zero_page_other.
    - intros j m' Hj IH x i Hx Hi. rewrite ld_st. unfold idx_ok in *.
      destruct (Z.eqb_spec (slot t j) (slot x i)) as [Es|Hs].
      + apply slot_inj in Es as [<- <-]; try done; [|unfold idx_ok; lia].
        rewrite Z.eqb_refl, IH by done. destruct (Z.eqb_spec k t); [done|]. by zcases.
      + rewrite IH by done. destruct (Z.eqb_spec x t) as [->|]; [|done].
        assert (i <> j) by (intros ->; done). by zcases. }
  rewrite E by (done || lia). destruct (x =? t); [|done].
  unfold idx_ok in Hi. by zcases.
Qed.

Section create.
Context (av av' : Z -> bool) (m m' : gmap Z Z) (k t : Z).
Hypothesis F : forest R av m.
Hypothesis Hk : R k.
Hypothesis Ht : wf_frame t.
Hypothesis Hfresh : av t = true.
Hypothesis Hav : forall x, av' x = negb (x =? t) && av x.
Hypothesis Hcell : forall x i, aligned x -> idx_ok i -> ld m' (slot x i) =
  if x =? t then (if 256 <=? i then ld m (slot k i) else 0) else ld m (slot x i).

Definition with_root (x : Z) : Prop := R x \/ x = t.

Lemma create_old_cell r p x i : node R m r p x -> idx_ok i -> ld m' (slot x i) = ld m (slot x i).
Proof.
  intros Hn Hi. destruct (forest_frame F r p x Hn) as [[_ Ha] Hx].
  rewrite Hcell by done. destruct (Z.eqb_spec x t) as [->|]; [congruence|done].
Qed.

Lemma create_tbl r p : R r -> Forall idx_ok p -> (length p <= 3)%nat -> tbl m' r p = tbl m r p.
Proof.
  intros Hr Hp Hl. apply tbl_ext. intros x i q Hv.
  destruct (visits_node R m r p x i q Hr Hp ltac:(lia) Hv) as (p1 & -> & Hn & Hi).
  by apply (create_old_cell r p1).
Qed.

Lemma create_xl r p : R r -> Forall idx_ok p -> (length p <= 4)%nat -> xl m' r p = xl m r p.
Proof.
  intros Hr Hp Hl. apply xl_ext. intros x i q Hv.
  destruct (visits_node R m r p x i q Hr Hp ltac:(lia) Hv) as (p1 & -> & Hn & Hi).
  by apply (create_old_cell r p1).
Qed.

Lemma create_child i : idx_ok i -> child m' t i = if 256 <=? i then child m' k i else None.
Proof.
  intros Hi. unfold child. rewrite (create_old_cell k [] k) by (done || by apply node_root).
  rewrite Hcell by (done || apply Ht). rewrite Z.eqb_refl. by destruct (256 <=? i).
Qed.

Lemma create_node r p z : node with_root m' r p z ->
  node R m r p z \/ (r = t /\ p = [] /\ z = t) \/ (r = t /\ shared p /\ node R m k p z).
Proof.
  intros ([Hr| ->] & Hp & Hl & Hz).
  - left. rewrite create_tbl in Hz by done. done.
  - right. destruct p as [|i p]; [left; by injection Hz|]. right. split; [done|].
    apply Forall_cons in Hp as Hp'. destruct Hp' as [Hi _].
    simpl in Hz. rewrite create_child in Hz by done. destruct (Z.leb_spec 256 i); [|done].
    split; [simpl; lia|]. split; [done|]. split; [done|]. split; [done|].
    rewrite <- create_tbl by done. done.
Qed.

Lemma create_forest : forest with_root av' m'.
Proof.
  split.
  - intros r p z [Hn|[(-> & -> & ->)|(-> & _ & Hn)]]%create_node.
    + destruct (forest_frame F r p z Hn) as [? E]. split; [done|]. rewrite Hav, E. apply andb_false_r.
    + split; [done|]. by rewrite Hav, Z.eqb_refl.
    + destruct (forest_frame F k p z Hn) as [? E]. split; [done|]. rewrite Hav, E. apply andb_false_r.
  - assert (forall r p, node R m r p t -> False) as Hno.
    { intros r p Hn. destruct (forest_frame F r p t Hn). congruence. }
    intros r p r' p' z
      [Hn|[(-> & -> & ->)|(-> & Hs & Hn)]]%create_node
      [Hn'|[(-> & -> & Ez)|(-> & Hs' & Hn')]]%create_node;
      subst; try (by exfalso; eapply Hno); try (by auto);
      destruct (forest_inj F _ _ _ _ _ Hn Hn') as [-> ?]; auto.
  - intros r i [Hr| ->] Hi.
    + rewrite (create_old_cell r [] r) by (done || by apply node_root). by apply (forest_pml4 F).
    + rewrite Hcell by (done || apply Ht). rewrite Z.eqb_refl. destruct (256 <=? i); [|done].
      by apply (forest_pml4 F).
Qed.

Lemma create_translate r va : R r -> translate m' r va = translate m r va.
Proof.
  intros Hr. rewrite (translate_xl with_root av' m'), (translate_xl R av m);
    try done; [|apply create_forest|by left].
  apply create_xl; [done|apply idxs_ok|simpl; lia].
Qed.

Lemma create_translate_new va :
  translate m' t va = if PML4_IDX va <? 256 then Unmapped else translate m k va.
Proof.
  rewrite <- (create_translate k va Hk).
  rewrite (translate_xl with_root av' m' t va create_forest (or_intror eq_refl)).
  rewrite (translate_xl with_root av' m' k va create_forest (or_introl Hk)).
  assert (idx_ok (PML4_IDX va)) as Hi by apply idx_range.
  unfold idxs. rewrite !xl_cons, create_child by done.
  rewrite (create_old_cell k [] k) by (done || by apply node_root).
  rewrite (Hcell t) by (done || apply Ht). rewrite Z.eqb_refl. by zcases.
Qed.
End create.

(** ** Destroying an address space *)

(** Cells of the tables up to [d] levels below [t], and the frames hanging off
    them, for first indices below [n]. *)
Definition sub_cell (n : Z) (d : nat) (m : gmap Z Z) (t c : Z) : Prop :=
  exists p i x, (length p <= d)%nat /\ Forall idx_ok (p ++ [i]) /\ hd 0 (p ++ [i]) < n /\
    tbl m t p = Some x /\ c = slot x i.

Definition sub_frame (n : Z) (d : nat) (m : gmap Z Z) (t f : Z) : Prop :=
  exists p i x, (length p <= d)%nat /\ Forall idx_ok (p ++ [i]) /\ hd 0 (p ++ [i]) < n /\
    tbl m t p = Some x /\ present (ld m (slot x i)) = true /\
    (length p = d \/ huge (ld m (slot x i)) = false) /\ f = frame_of (ld m (slot x i)).

(** Destruction only writes zeros, in [C], and only releases frames of [Fr]. *)
Record erases (C Fr : Z -> Prop) (v v' : vm A) : Prop := {
  erases_mem : forall c, ld v'.(mem) c = ld v.(mem) c \/ (ld v'.(mem) c = 0 /\ C c);
  erases_inv : fa_inv v.(frames) -> fa_inv v'.(frames);
  erases_avail : fa_inv v.(frames) -> forall x, ~ Fr x ->
    fa_avail v'.(frames) x = fa_avail v.(frames) x;
  erases_regs : same_regs v v';
}.

Lemma erases_refl C Fr v : erases C Fr v v.
Proof. split; auto. by repeat split. Qed.

Lemma erases_trans C Fr v1 v2 v3 : erases C Fr v1 v2 -> erases C Fr v2 v3 -> erases C Fr v1 v3.
Proof.
  intros [M1 I1 A1 R1] [M2 I2 A2 R2]. split; auto.
  - intros c. destruct (M1 c) as [<-|[E ?]]; [apply M2|].
    right. split; [|done]. destruct (M2 c) as [->|[? _]]; done.
  - intros Hi x Hx. rewrite A2, A1 by auto. done.
  - unfold same_regs in *. intuition congruence.
Qed.

Lemma erases_weaken (C C' Fr Fr' : Z -> Prop) v v' :
  (forall c, C c -> C' c) -> (forall f, Fr f -> Fr' f) -> erases C Fr v v' -> erases C' Fr' v v'.
Proof.
  intros HC HF [M I Av Rg]. split; auto. intros c. destruct (M c) as [?|[? ?]]; auto.
Qed.

Lemma erases_release C Fr v f : Fr f -> erases C Fr v (release_frame v f).
Proof.
  intros Hf. unfold release_frame. destruct (fa_owns _ _); [|apply erases_refl].
  split; [by left| | |by repeat split]; intros Hi;
    destruct (fa_free_spec v.(frames) f Hi) as (? & Ho & _); [done|].
  intros x Hx. apply Ho. by intros ->.
Qed.

Lemma erases_clear C Fr v c : C c -> erases C Fr v (clear_cell v c).
Proof.
  intros Hc. split; [|done|done|by repeat split]. intros c'. unfold clear_cell. cbn [mem set_mem].
  rewrite ld_st. destruct (Z.eqb_spec c c') as [<-|]; auto.
Qed.

(** Erasing never creates entries. *)
Lemma erased_entry C Fr v v' c : erases C Fr v v' -> present (ld v'.(mem) c) = true ->
  ld v'.(mem) c = ld v.(mem) c.
Proof. intros [M _ _ _]. destruct (M c) as [?|[-> _]]; done. Qed.

Lemma erased_child C Fr v v' x i z : erases C Fr v v' -> child v'.(mem) x i = Some z ->
  child v.(mem) x i = Some z.
Proof.
  intros He Hc. destruct (child_entry _ _ _ _ Hc) as (Hp & _).
  unfold child in *. by rewrite <- (erased_entry _ _ _ _ _ He Hp).
Qed.

Lemma erased_tbl C Fr v v' x p z : erases C Fr v v' -> tbl v'.(mem) x p = Some z ->
  tbl v.(mem) x p = Some z.
Proof.
  intros He. revert x. induction p as [|i p IH]; intros x; cbn [tbl]; [done|].
  destruct (child v'.(mem) x i) as [x'|] eqn:E; [|done].
  rewrite (erased_child _ _ _ _ _ _ _ He E). apply IH.
Qed.

Lemma erased_sub_cell C Fr v v' n d t c : erases C Fr v v' ->
  sub_cell n d v'.(mem) t c -> sub_cell n d v.(mem) t c.
Proof.
  intros He (p & i & x & ? & ? & ? & Ht & ->). exists p, i, x. split; [done|].
  split; [done|]. split; [done|]. split; [|done]. by eapply erased_tbl.
Qed.

Lemma erased_sub_frame C Fr v v' n d t f : erases C Fr v v' ->
  sub_frame n d v'.(mem) t f -> sub_frame n d v.(mem) t f.
Proof.
  intros He (p & i & x & ? & ? & ? & Ht & Hp & Hh & ->).
  pose proof (erased_entry _ _ _ _ _ He Hp) as E. rewrite E in *. exists p, i, x.
  split_and!; try done. by eapply erased_tbl.
Qed.

Definition erases_sub (n : Z) (d : nat) (t : Z) (v v' : vm A) : Prop :=
  erases (sub_cell n d v.(mem) t) (sub_frame n d v.(mem) t) v v'.

Lemma sub_here n d m t i : idx_ok i -> i < n -> sub_cell n d m t (slot t i).
Proof.
  intros Hi Hn. exists [], i, t. split_and!; try done; [simpl; lia|]. by apply Forall_singleton.
Qed.

Lemma sub_cell_down n d m t i x c : idx_ok i -> i < n -> child m t i = Some x ->
  sub_cell 512 d m x c -> sub_cell n (S d) m t c.
Proof.
  intros Hi Hn Hc (p & j & y & ? & ? & ? & ? & ->). exists (i :: p), j, y.
  split; [simpl; lia|]. split; [by constructor|]. split; [done|].
  split; [|done]. simpl. by rewrite Hc.
Qed.

Lemma sub_frame_down n d m t i x f : idx_ok i -> i < n -> child m t i = Some x ->
  sub_frame 512 d m x f -> sub_frame n (S d) m t f.
Proof.
  intros Hi Hn Hc (p & j & y & ? & ? & ? & ? & ? & Ho & ->). exists (i :: p), j, y.
  split; [simpl; lia|]. split; [by constructor|]. split; [done|].
  split; [simpl; by rewrite Hc|]. split; [done|]. split; [|done].
  destruct Ho as [Ho|?]; [left; simpl; by rewrite Ho|by right].
Qed.

Lemma sub_frame_here n d m t i : idx_ok i -> i < n -> present (ld m (slot t i)) = true ->
  (d = 0%nat \/ huge (ld m (slot t i)) = false) -> sub_frame n d m t (frame_of (ld m (slot t i))).
Proof.
  intros Hi Hn Hp Hd. exists [], i, t. split; [simpl; lia|]. split; [by apply Forall_singleton|].
  split; [done|]. split; [done|]. split; [done|]. split; [|done].
  destruct Hd as [->|?]; [by left|by right].
Qed.

(** A loop of steps that each erase below [t] erases below [t] and leaves every
    entry it passed absent. *)
Lemma erasing_loop n d t (body : Z -> vm A -> vm A) v :
  0 <= n <= 512 ->
  (forall i w, 0 <= i < n -> erases_sub n d t w (body i w) /\
     present (ld (mem (body i w)) (slot t i)) = false) ->
  erases_sub n d t v (for_loop 0 n body v) /\
  forall i, 0 <= i < n -> present (ld (mem (for_loop 0 n body v)) (slot t i)) = false.
Proof.
  intros Hn Hb.
  apply (for_loop_inv (fun k w => erases_sub n d t v w /\
    forall i, 0 <= i < k -> present (ld w.(mem) (slot t i)) = false)); [lia| |].
  - split; [apply erases_refl|lia].
  - intros i w Hi [He Hc]. destruct (Hb i w ltac:(lia)) as [Hs Hp]. split.
    + eapply erases_trans; [exact He|].
      eapply erases_weaken; [..|exact Hs]; intros ?;
        [by eapply erased_sub_cell|by eapply erased_sub_frame].
    + intros j Hj. destruct (decide (j = i)) as [->|]; [done|].
      destruct (present (ld (mem (body i w)) (slot t j))) eqn:E; [|done].
      by rewrite (erased_entry _ _ _ _ _ Hs E), Hc in E by lia.
Qed.

Lemma destroy_pt_spec t v : erases_sub 512 0 t v (destroy_pt t v).
Proof.
  apply erasing_loop; [lia|]. intros i w Hi. cbn zeta.
  destruct (present (ld w.(mem) (slot t i))) eqn:Hp; cbn [negb]; [|split; [apply erases_refl|done]].
  split; [|unfold clear_cell; cbn [mem set_mem]; by rewrite ld_st_eq].
  eapply erases_trans; [apply erases_release|apply erases_clear; apply sub_here; [done|lia]].
  apply sub_frame_here; try done; [lia|by left].
Qed.

Lemma destroy_level_spec n d below t v :
  0 <= n <= 512 -> (forall x w, erases_sub 512 d x w (below x w)) ->
  erases_sub n (S d) t v (destroy_level n below t v) /\
  forall i, 0 <= i < n -> present (ld (mem (destroy_level n below t v)) (slot t i)) = false.
Proof.
  intros Hn Hb. apply erasing_loop; [done|]. intros i w Hi. cbn zeta.
  assert (idx_ok i) as Hio by (unfold idx_ok; lia).
  destruct (present (ld w.(mem) (slot t i))) eqn:Hp; cbn [negb]; [|split; [apply erases_refl|done]].
  destruct (huge (ld w.(mem) (slot t i))) eqn:Hh;
    (split; [|unfold clear_cell; cbn [mem set_mem]; by rewrite ld_st_eq]).
  - apply erases_clear. apply sub_here; [done|lia].
  - assert (child w.(mem) t i = Some (frame_of (ld w.(mem) (slot t i)))) as Hc.
    { unfold child. by rewrite Hp, Hh. }
    eapply erases_trans; [eapply erases_trans|apply erases_clear; apply sub_here; [done|lia]].
    + eapply erases_weaken; [..|apply Hb].
      * intros c. apply (sub_cell_down n d _ t i); [done|lia|done].
      * intros f. apply (sub_frame_down n d _ t i); [done|lia|done].
    + apply erases_release. apply sub_frame_here; [done|lia|done|by right].
Qed.

Lemma destroy_user_half t v :
  let v' := destroy_level 256 destroy_pdpt t v in
  erases_sub 256 3 t v v' /\
  forall i, 0 <= i < 256 -> present (ld v'.(mem) (slot t i)) = false.
Proof.
  apply destroy_level_spec; [lia|]. intros x w. apply destroy_level_spec; [lia|].
  intros y u. apply destroy_level_spec; [lia|]. intros; apply destroy_pt_spec.
Qed.

Lemma sub_cell_other v r r' p1 x i :
  vm_ok R v -> R r -> node R v.(mem) r' p1 x -> idx_ok i ->
  r' <> r \/ 256 <= hd 0 (p1 ++ [i]) -> ~ sub_cell 256 3 v.(mem) r (slot x i).
Proof.
  intros [_ F] Hr Hn Hi Ho (p & j & y & Hl & Hp & Hh & Ht & Ec).
  assert (node R v.(mem) r p y) as Hy.
  { apply Forall_app in Hp as [Hp _]. done. }
  apply Forall_app in Hp as [_ Hj%Forall_cons].
  destruct (forest_frame F _ _ _ Hn) as [[_ ?] _], (forest_frame F _ _ _ Hy) as [[_ ?] _].
  apply slot_inj in Ec as [<- <-]; try done; [|apply Hj].
  destruct (forest_inj F _ _ _ _ _ Hn Hy) as [-> Hs].
  destruct Ho as [Ho|Ho]; [|lia]. destruct Hs as [?|Hs]; [done|].
  destruct p; simpl in *; [done|lia].
Qed.

Lemma destroy_xl v v' r r' p :
  vm_ok R v -> R r -> R r' -> erases_sub 256 3 r v v' -> Forall idx_ok p -> (length p <= 4)%nat ->
  r' <> r \/ 256 <= hd 0 p -> xl v'.(mem) r' p = xl v.(mem) r' p.
Proof.
  intros Hv Hr Hr' He Hp Hl Ho. apply xl_ext. intros x i q Hvis.
  destruct (visits_node R _ r' p x i q Hr' Hp Hl Hvis) as (p1 & -> & Hn & Hi).
  destruct (erases_mem _ _ _ _ He (slot x i)) as [?|[_ Hc]]; [done|].
  destruct (sub_cell_other v r r' p1 x i Hv Hr Hn Hi); [|done].
  destruct Ho as [?|Ho]; [by left|right]. by destruct p1.
Qed.

Lemma destroy_translate v v' r r' va :
  vm_ok R v -> R r -> R r' -> erases_sub 256 3 r v v' ->
  r' <> r \/ 256 <= PML4_IDX va -> translate v'.(mem) r' va = translate v.(mem) r' va.
Proof.
  intros Hv Hr Hr' He Ho. rewrite (translate_xl R _ _ r' va (proj2 Hv) Hr').
  rewrite <- (destroy_xl v v' r r' (idxs va) Hv Hr Hr' He (idxs_ok va) ltac:(simpl; lia) Ho).
  assert (forest R (fun _ => false) v'.(mem)) as F'; [|by apply (translate_xl R _ _ r' va F')].
  split.
  - intros r1 p t (? & ? & ? & Ht). split; [|done]. eapply (forest_frame (proj2 Hv) r1 p t).
    repeat split; try done. by eapply erased_tbl.
  - intros r1 p r2 p' t (? & ? & ? & Ht) (? & ? & ? & Ht').
    apply (forest_inj (proj2 Hv) r1 p r2 p' t); repeat split; try done; by eapply erased_tbl.
  - intros r1 i Hr1 Hi Hpr. pose proof (erased_entry _ _ _ _ _ He Hpr) as E. rewrite E in *.
    by apply (forest_pml4 (proj2 Hv)).
Qed.

(** No page of the user half of [r] is itself one of the page tables. *)
Definition private (m : gmap Z Z) (r : Z) : Prop :=
  forall p e, Forall idx_ok p -> length p = 4%nat -> ~ shared p -> xl m r p = Page e ->
  forall r' p' t, node R m r' p' t -> frame_of e <> t.

Lemma sub_frame_node v r r' q t :
  vm_ok R v -> R r -> private v.(mem) r -> node R v.(mem) r' q t -> r' <> r ->
  ~ sub_frame 256 3 v.(mem) r t.
Proof.
  intros [_ F] Hr Hpriv Hn Hne (p & i & x & Hl & Hp & Hh & Ht & Hpr & Hd & Ef).
  apply Forall_app in Hp as Hp'. destruct Hp' as [Hp1 Hi%Forall_cons].
  destruct (decide (length p = 3%nat)) as [L3|L3].
  - apply (Hpriv (p ++ [i]) (ld v.(mem) (slot x i))) with r' q t; try done.
    + rewrite length_app. simpl. lia.
    + destruct p; simpl in *; [done|lia].
    + rewrite (xl_app _ _ _ x) by done. simpl. by rewrite Hpr.
  - destruct Hd as [?|Hnh]; [done|]. 
    assert (node R v.(mem) r (p ++ [i]) t) as Ht2.
    { apply (node_child R _ r p x); [done|lia|apply Hi|]. unfold child. by rewrite Hpr, Hnh, Ef. }
    destruct (forest_inj F _ _ _ _ _ Hn Ht2) as [-> [?|Hs]]; [done|].
    destruct p; simpl in *; lia.
Qed.

(** C3. Mapping into a PML4 in use: on success the page translates to the given
    frame and flags, and no other page of any address space changes (in other
    address spaces also the same page, when it lies in the user half); on
    failure no translation changes at all.  The table invariant is kept. *)
Theorem vmm_map_page_into_correct v v' ok r va pa flags :
  vm_ok R v -> R r -> present flags = true ->
  vmm_map_page_into v va pa flags r = (v', ok) ->
  vm_ok R v' /\
  (ok = true ->
     translate v'.(mem) r va = Page (Z.lor (Z.land pa PAGE_MASK) flags) /\
     forall r' va', R r' -> elsewhere r va r' va' ->
       translate v'.(mem) r' va' = translate v.(mem) r' va') /\
  (ok = false -> forall r' va', R r' ->
     translate v'.(mem) r' va' = translate v.(mem) r' va').
Proof.
  intros Hv Hr Hf Hm. destruct (map_into_spec _ _ _ _ _ _ _ Hv Hr Hm) as (Hok & _ & _ & _ & Hc).
  split; [done|]. destruct ok; split; try done. intros _.
  destruct Hc as [Hx Ho]. split; [|done]. rewrite Hx.
  rewrite present_testbit, Z.lor_spec, <- (present_testbit flags), Hf, orb_true_r. done.
Qed.

Lemma is_mapped_translate (v : vm A) r va :
  r <> 0 -> paging_is_mapped_into v va r = match translate v.(mem) r va with Unmapped => false | _ => true end.
Proof.
  intros Hr. unfold paging_is_mapped_into, select_pml4, translate, PHYS_NULL.
  destruct (Z.eqb_spec r 0); [done|]. cbn [negb]. destruct (Z.eqb_spec r 0); [done|].
  destruct (walk v.(mem) r va); try done. by destruct (present _).
Qed.

(** [vmm_unmap_page_from] and [paging_is_mapped_into] agree with the
    translation: a mapped 4 KiB page is reported as mapped, unmapping returns
    its frame, removes exactly this page and keeps the table invariant; a page
    that is not mapped by a last-level entry is left alone and [PHYS_NULL] is
    returned. *)
Theorem vmm_unmap_page_from_correct v r va :
  vm_ok R v -> R r ->
  let v' := (vmm_unmap_page_from v va r).1 in
  paging_is_mapped_into v va r =
    match translate v.(mem) r va with Unmapped => false | _ => true end /\
  match translate v.(mem) r va with
  | Page e =>
      (vmm_unmap_page_from v va r).2 = frame_of e /\ vm_ok R v' /\
      translate v'.(mem) r va = Unmapped /\ paging_is_mapped_into v' va r = false /\
      (forall r' va', R r' -> elsewhere r va r' va' ->
         translate v'.(mem) r' va' = translate v.(mem) r' va')
  | _ => v' = v /\ (vmm_unmap_page_from v va r).2 = PHYS_NULL
  end.
Proof.
  intros Hv Hr v'. pose proof (root_nonzero v r Hv Hr) as Hnz.
  pose proof (fun w => is_mapped_translate w r va (root_nonzero v r Hv Hr)) as Hmap.
  split; [apply Hmap|]. rewrite Hmap. subst v'.
  unfold vmm_unmap_page_from, select_pml4, PHYS_NULL.
  destruct (Z.eqb_spec r 0); [done|]. cbn [negb]. destruct (Z.eqb_spec r 0); [done|].
  destruct (translate v.(mem) r va) as [| |e] eqn:Ht.
  - revert Ht. unfold translate. destruct (walk v.(mem) r va) as [| |c]; try done.
    by destruct (present (ld v.(mem) c)).
  - revert Ht. unfold translate. destruct (walk v.(mem) r va) as [| |c]; try done.
    by destruct (present (ld v.(mem) c)).
  - destruct (unmap_leaf_spec v r va e Hv Hr Ht) as (c & Hw & Hl & Hp & Hok & Hx & Ho).
    rewrite Hw, Hl, Hp. cbn [negb fst snd]. by rewrite Hx.
Qed.

(** Allocating a frame and mapping it at [va], for either entry point. *)
Definition alloc_map_post (v v' : vm A) (r va flags : Z) (ok : bool) : Prop :=
  vm_ok R v' /\ same_regs v v' /\
  (forall t, fa_avail v.(frames) t = false -> fa_avail v'.(frames) t = false) /\
  (ok = true -> exists pa,
     wf_frame pa /\ fa_avail v.(frames) pa = true /\ fa_avail v'.(frames) pa = false /\
     (forall r p t, node R v'.(mem) r p t -> t <> pa) /\
     translate v'.(mem) r va =
       (if present (Z.lor (Z.land pa PAGE_MASK) flags)
        then Page (Z.lor (Z.land pa PAGE_MASK) flags) else Unmapped) /\
     forall r' va', R r' -> elsewhere r va r' va' ->
       translate v'.(mem) r' va' = translate v.(mem) r' va') /\
  (forall r p t, node R v'.(mem) r p t -> node R v.(mem) r p t \/ fa_avail v.(frames) t = true) /\
  (ok = false -> forall r' va', R r' ->
     translate v'.(mem) r' va' = translate v.(mem) r' va').

Lemma alloc_map_spec v r va flags f pa v2 ok2 v' ok :
  vm_ok R v -> R r -> fa_alloc v.(frames) = (f, pa) ->
  vmm_map_page_into (set_frames v f) va pa flags r = (v2, ok2) ->
  (if pa =? PHYS_NULL then (set_frames v f, false)
   else if negb ok2 then (set_frames v2 (fa_free v2.(frames) pa), false) else (v2, true)) = (v', ok) ->
  alloc_map_post v v' r va flags ok.
Proof.
  intros Hv Hr Ea Em.
  destruct (fa_alloc_spec _ _ _ (proj1 Hv) Ea) as [Hfi [[-> ->]|(Hpr & Hpa & Hav & Hup & _)]].
  { change (0 =? PHYS_NULL) with true. intros [= <- <-]. replace (set_frames v v.(frames)) with v by
      by destruct v. split_and!; try done; auto. }
  unfold PHYS_NULL. destruct (Z.eqb_spec pa 0); [lia|].
  assert (vm_ok R (set_frames v f)) as Hv1.
  { split; [done|]. apply (forest_avail _ _ _ (proj2 Hv)). intros r' p t Hn. simpl.
    rewrite Hup, (proj2 (forest_frame (proj2 Hv) r' p t Hn)). apply andb_false_r. }
  assert (fa_avail (frames (set_frames v f)) pa = false) as Hpf by (simpl; by rewrite Hup, Z.eqb_refl).
  assert (forall t, fa_avail v.(frames) t = false -> fa_avail (frames (set_frames v f)) t = false) as Hk0.
  { intros t Ht. simpl. rewrite Hup, Ht. apply andb_false_r. }
  destruct (map_into_spec _ _ _ _ _ _ _ Hv1 Hr Em) as (Hok & Hrg & Hkeep & Hnew & Hc).
  assert (forall r' p t, node R v2.(mem) r' p t -> t <> pa) as Hnpa.
  { intros r' p t Hn ->. destruct (Hnew r' p pa Hn) as [Hold|Habs]; [|congruence].
    destruct (forest_frame (proj2 Hv) r' p pa Hold) as [_ ?]. congruence. }
  assert (forall r' p t, node R v2.(mem) r' p t ->
    node R v.(mem) r' p t \/ fa_avail v.(frames) t = true) as Hnew'.
  { intros r' p t Hn. destruct (Hnew r' p t Hn) as [?|Ha]; [by left|]. right.
    destruct (fa_avail v.(frames) t) eqn:E; [done|]. by rewrite Hk0 in Ha. }
  destruct ok2; cbn [negb]; intros [= <- <-].
  - split; [done|]. split; [done|]. split; [auto|]. split; [|done]. intros _. exists pa.
    destruct Hc as [Hx Ho]. by split_and!; try done; apply Hkeep.
  - destruct (fa_free_spec v2.(frames) pa (proj1 Hok)) as (Hfi2 & Hoth & _).
    split.
    { split; [done|]. apply (forest_avail _ _ _ (proj2 Hok)). intros r' p t Hn. simpl.
      rewrite (proj1 (Hoth t (Hnpa r' p t Hn))). apply (forest_frame (proj2 Hok) r' p t Hn). }
    split; [done|]. split; [|by split_and!].
    intros t Ht. simpl. assert (t <> pa) by congruence. rewrite (proj1 (Hoth t ltac:(done))). auto.
Qed.

Lemma alloc_into_spec v v' ok r va flags :
  vm_ok R v -> R r -> vmm_alloc_page_into v va flags r = (v', ok) -> alloc_map_post v v' r va flags ok.
Proof.
  intros Hv Hr. unfold vmm_alloc_page_into. destruct (fa_alloc v.(frames)) as [f pa] eqn:Ea.
  pose proof (root_nonzero v r Hv Hr). unfold PHYS_NULL at 2.
  destruct (Z.eqb_spec r 0); [done|]. cbn [negb].
  destruct (vmm_map_page_into _ _ _ _ _) as [v2 ok2] eqn:Em. by eapply alloc_map_spec.
Qed.

(** [vmm_alloc_page_into]: on success the page is backed by a frame that was
    free before and no longer is; on failure the data frame is handed back, no
    translation changes, and the table invariant is kept either way. *)
Theorem vmm_alloc_page_into_correct v v' ok r va flags :
  vm_ok R v -> R r -> present flags = true ->
  vmm_alloc_page_into v va flags r = (v', ok) ->
  vm_ok R v' /\
  (ok = true -> exists pa,
     fa_avail v.(frames) pa = true /\ fa_avail v'.(frames) pa = false /\
     translate v'.(mem) r va = Page (Z.lor (Z.land pa PAGE_MASK) flags) /\
     forall r' va', R r' -> elsewhere r va r' va' ->
       translate v'.(mem) r' va' = translate v.(mem) r' va') /\
  (ok = false -> forall r' va', R r' ->
     translate v'.(mem) r' va' = translate v.(mem) r' va').
Proof.
  intros Hv Hr Hf Hm.
  destruct (alloc_into_spec v v' ok r va flags Hv Hr Hm) as (Hok & _ & _ & Ht & _ & Hx).
  split; [done|]. split; [|done]. intros Hk. destruct (Ht Hk) as (pa & _ & Ha & Ha' & _ & E & Ho).
  exists pa. split_and!; try done. rewrite E.
  by rewrite present_testbit, Z.lor_spec, <- (present_testbit flags), Hf, orb_true_r.
Qed.

(** [vmm_create_address_space]: the new PML4 is a frame that was free; its
    user half is empty, its higher half translates like the kernel's, no
    existing address space changes, and the tables of all of them together with
    the new one satisfy the invariant.  On exhaustion nothing changes. *)
Theorem vmm_create_address_space_correct v v' t :
  vm_ok R v -> R v.(current_pml4) -> vmm_create_address_space v = (v', t) ->
  (t = PHYS_NULL /\ v' = v) \/
  (fa_avail v.(frames) t = true /\ ~ R t /\ vm_ok (with_root t) v' /\
   (forall va, translate v'.(mem) t va =
      if PML4_IDX va <? 256 then Unmapped else translate v.(mem) v.(current_pml4) va) /\
   (forall r va, R r -> translate v'.(mem) r va = translate v.(mem) r va)).
Proof.
  intros Hv Hk. unfold vmm_create_address_space.
  pose proof (root_nonzero v _ Hv Hk). destruct (Z.eqb_spec v.(current_pml4) 0); [done|].
  destruct (alloc_page_virt v) as [v1 t1] eqn:Ea. destruct Hv as [Hi F].
  destruct (alloc_page_virt_spec _ _ _ Hi Ea) as (Hi1 & (Hc1 & _) & [[-> ->]|(Hw & Hav & Hup & Hm)]).
  { change (0 =? 0) with true. intros [= <- <-]. by left. }
  destruct (Z.eqb_spec t1 0) as [->|_]; [by destruct Hw as [[? ?] _]|].
  intros [= <- <-]. right. rewrite Hm. cbn [mem set_mem frames current_pml4].
  destruct (forest_frame F _ [] _ (node_root R _ _ Hk)) as [[_ Hka] Hkf].
  assert (v.(current_pml4) <> t1) by (intros E; congruence).
  pose proof (fun x i => clone_ld v.(mem) v.(current_pml4) t1 x i (proj2 Hw) Hka ltac:(done)) as Hcell.
  rewrite Hc1 in *. split; [done|]. split.
  { intros Hr. destruct (forest_frame F _ [] _ (node_root R _ _ Hr)). congruence. }
  split; [split; [done|]|split].
  - by apply (create_forest _ _ _ _ _ t1 F Hk Hw Hav Hup).
  - intros va. by apply (create_translate_new _ _ _ _ _ t1 F Hk Hw Hav Hup).
  - intros r va Hr. by apply (create_translate _ _ _ _ _ t1 F Hk Hw Hav Hup).
Qed.

(** C4. [vmm_destroy_address_space] on a PML4 [r] in use: afterwards no user
    address translates in [r], its higher half and every other address space
    translate as before, and if no user page of [r] is a page table, the frames
    given back are none of the remaining address spaces' tables: they keep the
    table invariant.  With [free_pml4] the PML4 itself is given back too. *)
Theorem vmm_destroy_address_space_correct v r (free_pml4 : bool) :
  vm_ok R v -> R r -> private v.(mem) r ->
  let v' := vmm_destroy_address_space v r free_pml4 in
  (forall va, PML4_IDX va < 256 -> translate v'.(mem) r va = Unmapped) /\
  (forall r' va, R r' -> r' <> r \/ 256 <= PML4_IDX va ->
     translate v'.(mem) r' va = translate v.(mem) r' va) /\
  vm_ok (fun x => R x /\ x <> r) v'.
Proof.
  intros Hv Hr Hpriv v'. subst v'. unfold vmm_destroy_address_space, PHYS_NULL.
  destruct (Z.eqb_spec r 0) as [->|_]; [by destruct (root_nonzero v 0 Hv Hr)|].
  destruct (destroy_user_half r v) as [He Hc].
  set (w := destroy_level 256 destroy_pdpt r v) in *.
  set (w' := if free_pml4 then release_frame w r else w).
  assert (w'.(mem) = w.(mem)) as Em.
  { unfold w', release_frame. destruct free_pml4; [|done]. by destruct (fa_owns _ _). }
  assert (erases (fun _ => False) (fun x => x = r) w w') as Hw.
  { unfold w'. destruct free_pml4; [by apply erases_release|apply erases_refl]. }
  split; [|split].
  - intros va Hva. unfold translate, walk. rewrite Em.
    assert (idx_ok (PML4_IDX va)) as Hi by apply idx_range.
    by rewrite (Hc (PML4_IDX va)) by (destruct Hi; lia).
  - intros r' va Hr' Ho. rewrite Em. by apply (destroy_translate v w r).
  - pose proof (erases_inv _ _ _ _ He (proj1 Hv)) as Hiw.
    split; [by apply (erases_inv _ _ _ _ Hw)|]. rewrite Em.
    assert (forall r' p t, node (fun x => R x /\ x <> r) w.(mem) r' p t ->
      node R v.(mem) r' p t /\ r' <> r) as Hnode.
    { intros r' p t ([? ?] & ? & ? & Ht). split; [|done]. repeat split; try done.
      by eapply erased_tbl. }
    split.
    + intros r' p t [Hn Hne]%Hnode. destruct (forest_frame (proj2 Hv) r' p t Hn) as [? Hav].
      split; [done|]. rewrite (erases_avail _ _ _ _ Hw Hiw).
      * rewrite (erases_avail _ _ _ _ He (proj1 Hv)); [done|].
        by apply (sub_frame_node v r r' p t).
      * intros ->. destruct (forest_inj (proj2 Hv) _ _ _ _ _ Hn (node_root R _ r Hr)) as [-> [?|?]]; done.
    + intros r1 p r2 p' t [Hn _]%Hnode [Hn' _]%Hnode. by apply (forest_inj (proj2 Hv) r1 p r2 p' t).
    + intros r1 i [Hr1 _] Hi Hpr. pose proof (erased_entry _ _ _ _ _ He Hpr) as E. rewrite E in *.
      by apply (forest_pml4 (proj2 Hv)).
Qed.
End ops.

(** ** Witnesses *)

#[local] Existing Instance Pmm.pmm_allocator.

(** The boot state of [Pmm.demo_pmm] with one empty PML4 in reserved memory. *)
Definition demo_vm : vm Pmm.pmm := mk_vm Pmm.demo_pmm ∅ 0x1000 0x1000 0x1000 0x1000.

Lemma demo_node r p t : node (eq 0x1000) ∅ r p t -> p = [] /\ t = 0x1000 /\ r = 0x1000.
Proof.
  intros (<- & _ & _ & Ht). destruct p; [by injection Ht|].
  simpl in Ht. unfold child in Ht. by rewrite ld_empty in Ht.
Qed.

Lemma demo_vm_ok : vm_ok (eq 0x1000) demo_vm.
Proof.
  split; [exact Pmm.demo_inv|]. split.
  - intros r p t (_ & -> & _)%demo_node. split; [split; [lia|done]|by vm_compute].
  - intros r p r' p' t (-> & _ & ->)%demo_node (-> & _ & ->)%demo_node. auto.
  - done.
Qed.

Lemma vmm_map_page_into_correct_witness :
  translate (mem (vmm_map_page_into demo_vm 0x400123 0x5678 7 0x1000).1) 0x1000 0x400123
    = Page 0x5007.
Proof.
  refine (proj1 (proj1 (proj2 (vmm_map_page_into_correct (eq 0x1000) demo_vm _
    (vmm_map_page_into demo_vm 0x400123 0x5678 7 0x1000).2 0x1000 0x400123 0x5678 7
    demo_vm_ok eq_refl eq_refl _)) _)).
  - apply surjective_pairing.
  - vm_compute. reflexivity.
Defined.

Lemma vmm_unmap_page_from_correct_witness :
  paging_is_mapped_into demo_vm 0x400000 0x1000 = false.
Proof.
  exact (proj1 (vmm_unmap_page_from_correct (eq 0x1000) demo_vm 0x1000 0x400000 demo_vm_ok eq_refl)).
Defined.

Lemma vmm_alloc_page_into_correct_witness :
  exists pa, Pmm.page_avail Pmm.demo_pmm pa = true /\
    translate (mem (vmm_alloc_page_into demo_vm 0x400000 7 0x1000).1) 0x1000 0x400000
    = Page (Z.lor (Z.land pa PAGE_MASK) 7).
Proof.
  destruct (vmm_alloc_page_into_correct (eq 0x1000) demo_vm _
    (vmm_alloc_page_into demo_vm 0x400000 7 0x1000).2 0x1000 0x400000 7
    demo_vm_ok eq_refl eq_refl (surjective_pairing _)) as (_ & Hok & _).
  destruct (Hok ltac:(vm_compute; reflexivity)) as (pa & Ha & _ & Ht & _).
  exists pa. exact (conj Ha Ht).
Defined.

Lemma vmm_create_address_space_correct_witness :
  let r := vmm_create_address_space demo_vm in
  r.2 <> PHYS_NULL /\ translate (mem (r.1)) (r.2) 0x400000 = Unmapped.
Proof.
  intros r. assert ((r.2 =? PHYS_NULL) = false) as Hnz by (vm_compute; reflexivity).
  apply Z.eqb_neq in Hnz. split; [exact Hnz|].
  destruct (vmm_create_address_space_correct (eq 0x1000) demo_vm r.1 r.2
    demo_vm_ok eq_refl (surjective_pairing _)) as [[? _]|(_ & _ & _ & Ht & _)]; [contradiction|].
  exact (Ht 0x400000).
Defined.

Lemma vmm_destroy_address_space_correct_witness :
  translate (mem (vmm_destroy_address_space demo_vm 0x1000 true)) 0x1000 0x400000 = Unmapped.
Proof.
  refine (proj1 (vmm_destroy_address_space_correct (eq 0x1000) demo_vm 0x1000 true
    demo_vm_ok eq_refl _) 0x400000 _); [|reflexivity].
  intros p e _ Hl _ Hx. exfalso. destruct p as [|? [|? ?]]; by vm_compute in Hx.
Defined.
End PagingOps.
