(* ===== verification/Heap.v ===== *)
(** * Kernel heap (src/kernel/heap.c)

    First-fit allocator over a linked list of headers, growing upwards from
    [HEAP_START_VADDR] page by page.  [hdrs] holds the headers by address,
    [data] the payload bytes that [krealloc] copies; a cell of either map that
    was never written reads as zero.  [kernel_panic] is the outcome [Panic].
    Each critical section of [heap_lock] is one function of the state; the
    retry of [kmalloc] after growing is a second critical section: [kmalloc] is
    the call of a caller that is alone, [kmalloc_among] has others in between.

    The mapping of pages is reached through the interface [KernelMapper]; the
    last section of the file discharges it with the virtual memory manager. *)

From stdpp Require Import base numbers list gmap sets fin_maps.
From Stdlib Require Import ZArith Lia.
From S2P Require Import Prelude Pmm Paging PagingSpec PagingOps.

#[local] Open Scope Z_scope.

Definition HEAP_START_VADDR : Z := 0xFFFF900000000000.
(** The heap's zone is PML4 slot 288: 512 GiB from its start. *)
Definition HEAP_ZONE_END : Z := HEAP_START_VADDR + 2 ^ 39.

Definition zone_page (va : Z) : Prop :=
  HEAP_START_VADDR <= va < HEAP_ZONE_END /\ va mod PAGE_SIZE = 0.

(** ** Interface: backing kernel pages with frames *)

(** [km_alloc m va] is [vmm_alloc_page_kernel(va, 3)], [km_unmap m va] is
    [vmm_unmap_page_from(va, vmm_get_kernel_pml4_phys())], [km_free m pa] is
    [pmm_free_page(pa)].  Pages are named by a page-aligned address. *)
Class KernelMapper (M : Type) := {
  km_alloc : M -> Z -> M * bool;
  km_unmap : M -> Z -> M * Z;
  km_free : M -> Z -> M;
  km_mapped : M -> Z -> bool;
  km_inv : M -> Prop;
  km_alloc_spec : forall m m' va ok,
    km_inv m -> zone_page va -> km_alloc m va = (m', ok) ->
    km_inv m' /\
    (ok = true -> km_mapped m' va = true) /\
    forall x, zone_page x -> x <> va \/ ok = false ->
      km_mapped m' x = km_mapped m x;
  km_unmap_spec : forall m va,
    km_inv m -> zone_page va -> km_mapped m va = true ->
    let r := km_unmap m va in
    let m' := if negb (r.2 =? PHYS_NULL) then km_free r.1 r.2 else r.1 in
    km_inv m' /\
    forall x, zone_page x -> x <> va ->
      km_mapped m' x = km_mapped m x;
}.

Module Heap.

(** ** State *)

Definition HEAP_MAGIC : Z := 0xDEADC0DE.
(** [sizeof(heap_block_t)] *)
Definition HDR : Z := 32.

Record heap_block_t := mk_hdr { magic : Z; size : Z; is_free : Z; next : Z }.
Definition blank : heap_block_t := mk_hdr 0 0 0 0.

Record heap (M : Type) := mk_heap {
  mapper : M;
  hdrs : gmap Z heap_block_t;
  data : gmap Z Z;
  heap_head : Z;
  current_heap_end : Z;
}.
Arguments mk_heap {M}.
Arguments mapper {M}.
Arguments hdrs {M}.
Arguments data {M}.
Arguments heap_head {M}.
Arguments current_heap_end {M}.

Inductive outcome (T : Type) := Ok (t : T) | Panic (block : Z) | NoFuel.
Arguments Ok {T}.
Arguments Panic {T}.
Arguments NoFuel {T}.

Definition obind {T U} (o : outcome T) (k : T -> outcome U) : outcome U :=
  match o with Ok t => k t | Panic b => Panic b | NoFuel => NoFuel end.
Notation "'let!' x ':=' o 'in' k" := (obind o (fun x => k))
  (at level 10, x pattern, o at level 100, k at level 200).

Definition hdr_at (m : gmap Z heap_block_t) (a : Z) : heap_block_t := default blank (m !! a).

Section heap.
Context {M : Type} `{KernelMapper M}.
Implicit Types (h : heap M) (m : gmap Z heap_block_t).

Definition set_hdrs (h : heap M) (m : gmap Z heap_block_t) : heap M :=
  mk_heap h.(mapper) m h.(data) h.(heap_head) h.(current_heap_end).
Definition set_mapper (h : heap M) (mp : M) (e : Z) : heap M :=
  mk_heap mp h.(hdrs) h.(data) h.(heap_head) e.

Definition init_heap (h : heap M) : heap M :=
  mk_heap h.(mapper) h.(hdrs) h.(data) 0 h.(current_heap_end).

(** Enough steps for any walk over distinct headers. *)
Definition fuel_of (m : gmap Z heap_block_t) : nat := S (base.size m).

(** ** Growing *)

(** [for (i = 0; i < pages_needed; i++)]: map pages from [va] on; [None] of the
    result's second part when all were mapped, else the first page that failed. *)
Fixpoint map_pages (n : nat) (mp : M) (va : Z) : M * option Z :=
  match n with
  | O => (mp, None)
  | S n =>
      let (mp, ok) := km_alloc mp va in
      if negb ok then (mp, Some va) else map_pages n mp (u64 (va + 4096))
  end.

Definition unmap_page (mp : M) (va : Z) : M :=
  let (mp, pa) := km_unmap mp va in
  if negb (pa =? PHYS_NULL) then km_free mp pa else mp.

Fixpoint last_block (fuel : nat) (m : gmap Z heap_block_t) (a : Z) : outcome Z :=
  match fuel with
  | O => NoFuel
  | S fuel => if (hdr_at m a).(next) =? 0 then Ok a else last_block fuel m (hdr_at m a).(next)
  end.

Definition set_next (m : gmap Z heap_block_t) (a n : Z) : gmap Z heap_block_t :=
  let b := hdr_at m a in <[a := mk_hdr b.(magic) b.(size) b.(is_free) n]> m.

(** Second part: the address of the new block, 0 for NULL. *)
Definition expand_heap (h : heap M) (required_size : Z) : outcome (heap M * Z) :=
  let total_size := u64 (required_size + HDR) in
  let pages_needed := if negb (total_size mod 4096 =? 0) then total_size / 4096 + 1
                      else total_size / 4096 in
  let start := h.(current_heap_end) in
  match map_pages (Z.to_nat pages_needed) h.(mapper) start with
  | (mp, Some fail) =>
      let mapped := u64 (fail - start) in
      let mp := for_loop 0 ((mapped + 4095) / 4096)
                  (fun j mp => unmap_page mp (u64 (start + j * 4096))) mp in
      Ok (set_mapper h mp start, 0)
  | (mp, None) =>
      let h := set_mapper h mp (u64 (start + pages_needed * 4096)) in
      let m := <[start := mk_hdr HEAP_MAGIC (u64 (pages_needed * 4096 - HDR)) 1 0]> h.(hdrs) in
      if h.(heap_head) =? 0 then
        Ok (mk_heap h.(mapper) m h.(data) start h.(current_heap_end), start)
      else
        let! l := last_block (fuel_of m) m h.(heap_head) in
        Ok (set_hdrs h (set_next m l start), start)
  end.

(** ** Allocation *)

Inductive scan_result := Found (a : Z) | NotFound.

Fixpoint scan (fuel : nat) (m : gmap Z heap_block_t) (a sz : Z) : outcome scan_result :=
  match fuel with
  | O => NoFuel
  | S fuel =>
      if a =? 0 then Ok NotFound
      else
        let b := hdr_at m a in
        if negb (b.(magic) =? HEAP_MAGIC) then Panic a
        else if negb (b.(is_free) =? 0) && (sz <=? b.(size)) then Ok (Found a)
        else scan fuel m b.(next) sz
  end.

(** Splitting and marking the block found. *)
Definition take_block (m : gmap Z heap_block_t) (a sz : Z) : gmap Z heap_block_t :=
  let b := hdr_at m a in
  if u64 (sz + HDR + 1) <? b.(size) then
    let nb := u64 (a + HDR + sz) in
    <[a := mk_hdr b.(magic) sz 0 nb]>
      (<[nb := mk_hdr HEAP_MAGIC (u64 (b.(size) - sz - HDR)) 1 b.(next)]> m)
  else <[a := mk_hdr b.(magic) b.(size) 0 b.(next)]> m.

Definition align16 (sz : Z) : Z := Z.land (u64 (sz + 15)) (2 ^ 64 - 16).

(** What [kmalloc] does under [heap_lock], with an aligned size: it takes the first
    block that fits, or expands the heap.  [None]: expanded, the lock is dropped
    and [kmalloc] called again. *)
Definition kmalloc_locked (h : heap M) (sz : Z) : outcome (heap M * option Z) :=
  let! r := scan (fuel_of h.(hdrs)) h.(hdrs) h.(heap_head) sz in
  match r with
  | Found a => Ok (set_hdrs h (take_block h.(hdrs) a sz), Some (u64 (a + HDR)))
  | NotFound =>
      let! (h, fresh) := expand_heap h sz in
      if fresh =? 0 then Ok (h, Some 0) else Ok (h, None)
  end.

(** A caller that no other runs in between of; [tries] bounds the recursion after
    a successful expansion. *)
Fixpoint kmalloc_n (tries : nat) (h : heap M) (sz : Z) : outcome (heap M * Z) :=
  match tries with
  | O => NoFuel
  | S tries =>
      if sz =? 0 then Ok (h, 0)
      else
        let sz := align16 sz in
        let! (h, r) := kmalloc_locked h sz in
        match r with
        | Some p => Ok (h, p)
        | None => kmalloc_n tries h sz
        end
  end.

(** Each time the lock is dropped for another try, others may use the heap: [os]
    is what they do. *)
Fixpoint kmalloc_among (os : list (heap M -> heap M)) (h : heap M) (sz : Z) : outcome (heap M * Z) :=
  if sz =? 0 then Ok (h, 0)
  else
    let sz := align16 sz in
    let! (h, r) := kmalloc_locked h sz in
    match r, os with
    | Some p, _ => Ok (h, p)
    | None, [] => NoFuel
    | None, o :: os => kmalloc_among os (o h) sz
    end.

Definition kmalloc (h : heap M) (sz : Z) : outcome (heap M * Z) := kmalloc_n 2 h sz.

(** ** Release *)

Fixpoint coalesce (fuel : nat) (m : gmap Z heap_block_t) (a : Z) : outcome (gmap Z heap_block_t) :=
  match fuel with
  | O => NoFuel
  | S fuel =>
      if a =? 0 then Ok m
      else
        let b := hdr_at m a in
        if negb (b.(magic) =? HEAP_MAGIC) then Panic a
        else
          let expected_next := u64 (a + HDR + b.(size)) in
          let n := hdr_at m b.(next) in
          if negb (b.(is_free) =? 0) && negb (b.(next) =? 0) && negb (n.(is_free) =? 0) &&
             (b.(next) =? expected_next)
          then coalesce fuel
                 (<[a := mk_hdr b.(magic) (u64 (b.(size) + (n.(size) + HDR))) b.(is_free) n.(next)]> m) a
          else coalesce fuel m b.(next)
  end.

Definition kfree (h : heap M) (ptr : Z) : outcome (heap M) :=
  if ptr =? 0 then Ok h
  else
    let a := u64 (ptr - HDR) in
    let b := hdr_at h.(hdrs) a in
    if negb (b.(magic) =? HEAP_MAGIC) then Panic a
    else
      let m := <[a := mk_hdr b.(magic) b.(size) 1 b.(next)]> h.(hdrs) in
      let! m := coalesce (fuel_of m) m h.(heap_head) in
      Ok (set_hdrs h m).

(** [memcpy(dst, src, n)] on payload bytes. *)
Definition copy_bytes (d : gmap Z Z) (dst src n : Z) : gmap Z Z :=
  for_loop 0 n (fun i d => st d (dst + i) (ld d (src + i))) d.

Definition krealloc (h : heap M) (ptr old_size new_size : Z) : outcome (heap M * Z) :=
  if new_size =? 0 then let! h := kfree h ptr in Ok (h, 0)
  else if ptr =? 0 then kmalloc h new_size
  else
    let! (h, new_ptr) := kmalloc h new_size in
    if new_ptr =? 0 then Ok (h, 0)
    else
      let copied := if old_size <? new_size then old_size else new_size in
      let h := mk_heap h.(mapper) h.(hdrs) (copy_bytes h.(data) new_ptr ptr copied)
                 h.(heap_head) h.(current_heap_end) in
      let! h := kfree h ptr in
      Ok (h, new_ptr).

End heap.
End Heap.
