(* ===== verification/HeapSpec.v ===== *)
(** * Contract of the kernel heap

    The headers refine a list of blocks that tiles the heap's address range
    without gaps; [kmalloc], [kfree] and [krealloc] are functions on that list. *)

From stdpp Require Import base numbers list gmap sets fin_maps.
From Stdlib Require Import ZArith Lia.
From S2P Require Import Prelude Pmm Heap.

#[local] Open Scope Z_scope.

Module HeapSpec.
Import Heap.

(** ** Blocks *)

Record blk := mk_blk { b_addr : Z; b_size : Z; b_free : bool }.

Definition haddr (l : list blk) : Z := match l with [] => 0 | b :: _ => b.(b_addr) end.

Definition hdr_of (b : blk) (nx : Z) : heap_block_t :=
  mk_hdr HEAP_MAGIC b.(b_size) (if b.(b_free) then 1 else 0) nx.

(** The headers of [l], linked in this order. *)
Fixpoint chain (m : gmap Z heap_block_t) (l : list blk) : Prop :=
  match l with
  | [] => True
  | b :: l' => 0 < b.(b_addr) /\ m !! b.(b_addr) = Some (hdr_of b (haddr l')) /\ chain m l'
  end.

Definition b_end (b : blk) : Z := b.(b_addr) + HDR + b.(b_size).

(** The blocks of [l] tile [[s, e)]. *)
Fixpoint tiled (s : Z) (l : list blk) (e : Z) : Prop :=
  match l with
  | [] => s = e
  | b :: l' => b.(b_addr) = s /\ 0 < b.(b_size) /\ b.(b_size) mod 16 = 0 /\ tiled (b_end b) l' e
  end.

Definition allocated (l : list blk) : list blk := filter (fun b => b.(b_free) = false) l.

(** ** Specification of the operations on blocks *)

Definition fits (sz : Z) (b : blk) : bool := b.(b_free) && (sz <=? b.(b_size)).

Definition take_list (b : blk) (sz : Z) : list blk :=
  if sz + HDR + 1 <? b.(b_size)
  then [mk_blk b.(b_addr) sz false;
        mk_blk (b.(b_addr) + HDR + sz) (b.(b_size) - sz - HDR) true]
  else [mk_blk b.(b_addr) b.(b_size) false].

Definition merge (b c : blk) : blk :=
  mk_blk b.(b_addr) (b.(b_size) + (c.(b_size) + HDR)) b.(b_free).

Fixpoint coal_from (b : blk) (l : list blk) : list blk :=
  match l with
  | [] => [b]
  | c :: l' => if b.(b_free) && c.(b_free) then coal_from (merge b c) l' else b :: coal_from c l'
  end.

Definition coal (l : list blk) : list blk :=
  match l with [] => [] | b :: l' => coal_from b l' end.

Definition release (b : blk) : blk := mk_blk b.(b_addr) b.(b_size) true.

(** No two neighbours are both free. *)
Fixpoint separated (l : list blk) : Prop :=
  match l with
  | [] => True
  | b :: l' => match l' with c :: _ => b.(b_free) && c.(b_free) = false | [] => True end /\
               separated l'
  end.

(** ** Tilings *)

Lemma tiled_le s l e : tiled s l e -> s <= e.
Proof.
  revert s; induction l as [|b l IH]; intros s; simpl; [lia|].
  intros (? & ? & _ & Ht%IH). unfold b_end, HDR in Ht. lia.
Qed.

Lemma tiled_from s s' l e : s = s' -> tiled s l e -> tiled s' l e.
Proof. by intros ->. Qed.

Lemma tiled_app s l1 l2 e : tiled s (l1 ++ l2) e <-> exists k, tiled s l1 k /\ tiled k l2 e.
Proof.
  revert s; induction l1 as [|b l IH]; intros s; simpl.
  - split; [by eexists|]. by intros (? & -> & ?).
  - split.
    + intros (? & ? & ? & (k & ? & ?)%IH). by exists k.
    + intros (k & (? & ? & ? & ?) & ?). split_and!; try done. apply IH. by exists k.
Qed.

Lemma tiled_elem s l e b : tiled s l e -> b ∈ l ->
  s <= b.(b_addr) /\ b_end b <= e /\ 0 < b.(b_size) /\ b.(b_size) mod 16 = 0.
Proof.
  intros Ht (l1 & l2 & ->)%list_elem_of_split.
  apply tiled_app in Ht as (k & H1 & <- & Hs & Hm & H2). apply tiled_le in H1, H2. auto.
Qed.

(** Blocks before and after a block of a tiling. *)
Lemma tiled_before s l1 b l2 e c : tiled s (l1 ++ b :: l2) e -> c ∈ l1 -> b_end c <= b.(b_addr).
Proof.
  intros (k & H1 & <- & _)%tiled_app Hc. by apply (tiled_elem _ _ _ _ H1).
Qed.

Lemma tiled_after s l1 b l2 e c : tiled s (l1 ++ b :: l2) e -> c ∈ l2 -> b_end b <= c.(b_addr).
Proof.
  intros (k & _ & _ & _ & _ & H2)%tiled_app Hc. by apply (tiled_elem _ _ _ _ H2).
Qed.

Lemma tiled_haddr s l e : tiled s l e -> l <> [] -> haddr l = s.
Proof. destruct l; [done|]. by intros [? _]. Qed.

Lemma tiled_NoDup s l e : tiled s l e -> NoDup (map b_addr l).
Proof.
  revert s; induction l as [|b l IH]; intros s Ht; simpl; [constructor|].
  constructor; [|destruct Ht as (_ & _ & _ & Ht); by eapply IH].
  intros (c & Hc & Hin)%list_elem_of_fmap. destruct Ht as (<- & ? & _ & Ht).
  apply (tiled_elem _ _ _ _ Ht) in Hin as (? & _). unfold b_end, HDR in *. lia.
Qed.

(** Addresses stay aligned along a tiling. *)
Lemma tiled_align s l e b : tiled s l e -> s mod 16 = 0 -> b ∈ l -> b.(b_addr) mod 16 = 0.
Proof.
  revert s; induction l as [|c l IH]; intros s Ht Hs Hb; [by apply elem_of_nil in Hb|].
  destruct Ht as (<- & _ & Hm & Ht). apply elem_of_cons in Hb as [->|Hb]; [done|].
  apply (IH _ Ht); [|done]. unfold b_end, HDR. divlia.
Qed.

(** ** Chains *)

Lemma chain_insert m l a x : (forall b, b ∈ l -> b.(b_addr) <> a) -> chain m l -> chain (<[a:=x]> m) l.
Proof.
  induction l as [|b l IH]; intros Hne; simpl; [done|]. intros (Hp & Hl & Hc).
  split; [done|]. split.
  - rewrite lookup_insert_ne; [done|]. intros ->. by apply (Hne b); [left|].
  - apply IH; [|done]. intros c Hin. apply Hne. by right.
Qed.

Lemma chain_suffix m l1 l2 : chain m (l1 ++ l2) -> chain m l2.
Proof. induction l1 as [|b l1 IH]; [done|]. intros (_ & _ & ?). by apply IH. Qed.

Lemma chain_lookup m l1 b l2 : chain m (l1 ++ b :: l2) ->
  0 < b.(b_addr) /\ hdr_at m b.(b_addr) = hdr_of b (haddr l2).
Proof. intros (? & E & _)%chain_suffix. unfold hdr_at. by rewrite E. Qed.

Lemma chain_swap m m' l1 b l2 l2' :
  chain m (l1 ++ b :: l2) -> (forall c, c ∈ l1 -> m' !! c.(b_addr) = m !! c.(b_addr)) ->
  haddr l2' = b.(b_addr) -> chain m' l2' -> chain m' (l1 ++ l2').
Proof.
  intros Hc Ha Hh Hc2. induction l1 as [|c l1 IH]; [done|].
  destruct Hc as (Hp & Hl & Hc). simpl. split; [done|]. split.
  - rewrite Ha by (by left). rewrite Hl. do 2 f_equal.
    destruct l1; simpl; [done|]. done.
  - apply IH; [done|]. intros d Hd. apply Ha. by right.
Qed.

Lemma chain_length m l : chain m l -> NoDup (map b_addr l) -> (length l <= base.size m)%nat.
Proof.
  intros Hc Hn. rewrite <- (length_map b_addr), <- size_dom.
  rewrite <- (size_list_to_set (C := gset Z) (map b_addr l)) by done.
  apply subseteq_size. intros a (b & -> & Hb)%elem_of_list_to_set%list_elem_of_fmap.
  apply list_elem_of_split in Hb as (l1 & l2 & ->).
  apply chain_suffix in Hc as (_ & E & _). apply elem_of_dom. by eexists.
Qed.

Lemma chain_fuel m s l e : chain m l -> tiled s l e -> (length l < fuel_of m)%nat.
Proof.
  intros Hc Ht. apply tiled_NoDup in Ht. pose proof (chain_length _ _ Hc Ht). unfold fuel_of. lia.
Qed.

(** ** The walks *)

Lemma scan_spec m sz l fuel : chain m l -> (length l < fuel)%nat ->
  scan fuel m (haddr l) sz =
    Ok match List.find (fits sz) l with Some b => Found b.(b_addr) | None => NotFound end.
Proof.
  revert fuel; induction l as [|b l IH]; intros [|fuel] Hc Hf; simpl in Hf; try lia; [done|].
  destruct (chain_lookup m [] b l Hc) as [Hp E]. simpl. rewrite E.
  destruct (Z.eqb_spec b.(b_addr) 0); [lia|]. simpl.
  unfold fits at 1. destruct (b_free b); simpl.
  - destruct (sz <=? b_size b); simpl; [done|]. apply IH; [apply Hc|lia].
  - apply IH; [apply Hc|lia].
Qed.

Lemma last_block_spec m l b fuel : chain m (l ++ [b]) -> (length l < fuel)%nat ->
  last_block fuel m (haddr (l ++ [b])) = Ok b.(b_addr).
Proof.
  revert fuel; induction l as [|c l IH]; intros [|fuel] Hc Hf; simpl in Hf; try lia.
  - destruct (chain_lookup m [] b [] Hc) as [_ E]. simpl. rewrite E. done.
  - destruct (chain_lookup m [] c (l ++ [b]) Hc) as [_ E]. simpl. rewrite E. simpl.
    assert (haddr (l ++ [b]) <> 0).
    { destruct Hc as (_ & _ & Hc). destruct l; destruct Hc as (? & _); simpl; lia. }
    destruct (Z.eqb_spec (haddr (l ++ [b])) 0); [done|]. apply IH; [apply Hc|lia].
Qed.

(** ** Taking a block *)

Lemma u64_id x : 0 <= x < 2 ^ 64 -> u64 x = x.
Proof. apply wrap_small. Qed.

Lemma chain_tail m l1 b l2 : chain m (l1 ++ b :: l2) -> chain m l2.
Proof. intros (_ & _ & ?)%chain_suffix. done. Qed.

Lemma take_list_tiled s l1 b l2 e sz :
  tiled s (l1 ++ b :: l2) e -> 0 < sz -> sz mod 16 = 0 -> sz <= b.(b_size) ->
  tiled s (l1 ++ take_list b sz ++ l2) e.
Proof.
  intros (k & H1 & Hk & Hs & Hm & H2)%tiled_app Hz Hzm Hle. apply tiled_app. exists k.
  split; [done|]. unfold take_list, b_end, HDR in *. zcases; simpl; unfold b_end, HDR; simpl.
  - split_and!; try done; try lia; [divlia|]. eapply tiled_from; [|exact H2]. lia.
  - by split_and!.
Qed.

(** Facts about a block in the middle of the heap. *)
Lemma block_facts m s l1 b l2 e :
  chain m (l1 ++ b :: l2) -> tiled s (l1 ++ b :: l2) e ->
  (forall c, c ∈ l1 -> c.(b_addr) < b.(b_addr)) /\
  (forall c, c ∈ l2 -> b_end b <= c.(b_addr)) /\
  0 < b.(b_addr) /\ 0 < b.(b_size) /\ b_end b <= e /\
  hdr_at m b.(b_addr) = hdr_of b (haddr l2).
Proof.
  intros Hc Ht. destruct (chain_lookup m l1 b l2 Hc) as [Hp E].
  destruct (tiled_elem _ _ _ b Ht) as (_ & Hbe & Hbs & _); [set_solver|].
  split_and!; try done.
  - intros c Hin. pose proof (tiled_before _ _ _ _ _ c Ht Hin).
    destruct (tiled_elem _ _ _ c Ht) as (_ & _ & ? & _); [set_solver|].
    unfold b_end, HDR in *. lia.
  - intros c. by apply tiled_after with s l1 e.
Qed.

Lemma take_block_chain m s l1 b l2 e sz :
  chain m (l1 ++ b :: l2) -> tiled s (l1 ++ b :: l2) e -> 1 < s -> e <= 2 ^ 64 ->
  0 < sz -> sz <= b.(b_size) ->
  chain (take_block m b.(b_addr) sz) (l1 ++ take_list b sz ++ l2).
Proof.
  intros Hc Ht Hs1 He Hz Hle. destruct (tiled_elem _ _ _ b Ht) as (Hsb & _); [set_solver|].
  destruct (block_facts m s l1 b l2 e Hc Ht) as (Hbef & Haft & Hp & Hs & Hbe & E).
  pose proof (chain_tail _ _ _ _ Hc) as Hc2.
  unfold take_block, take_list, b_end, HDR in *. rewrite E. cbn [hdr_of magic size next is_free].
  rewrite u64_id by lia. destruct (Z.ltb_spec (sz + 32 + 1) b.(b_size)).
  - rewrite !u64_id by lia. apply (chain_swap m _ l1 b l2); [done| |done|].
    + intros c Hin%Hbef. rewrite !lookup_insert_ne by lia. done.
    + cbn [app chain haddr b_addr]. split; [done|]. rewrite lookup_insert_eq. split; [done|].
      split; [lia|]. rewrite lookup_insert_ne, lookup_insert_eq by lia. split; [done|].
      apply chain_insert; [intros c Hin%Haft; lia|].
      apply chain_insert; [intros c Hin%Haft; lia|done].
  - apply (chain_swap m _ l1 b l2); [done| |done|].
    + intros c Hin%Hbef. rewrite lookup_insert_ne by lia. done.
    + cbn [app chain haddr b_addr]. split; [done|]. rewrite lookup_insert_eq. split; [done|].
      apply chain_insert; [intros c Hin%Haft; lia|done].
Qed.

(** ** Merging free neighbours *)

Lemma coal_from_tiled b l s e : tiled s (b :: l) e -> tiled s (coal_from b l) e.
Proof.
  revert b s; induction l as [|c l IH]; intros b s Ht; [done|].
  simpl. destruct (b_free b && b_free c).
  - apply IH. destruct Ht as (? & ? & ? & Ec & ? & ? & Ht). unfold b_end, HDR in *. simpl.
    unfold b_end, merge, HDR. simpl. split_and!; try done; try lia; [divlia|].
    eapply tiled_from; [|exact Ht]. lia.
  - destruct Ht as (? & ? & ? & Ht). split_and!; try done. by apply IH.
Qed.

Lemma coal_tiled l s e : tiled s l e -> tiled s (coal l) e.
Proof. destruct l; [done|apply coal_from_tiled]. Qed.

Lemma allocated_cons b l :
  allocated (b :: l) = if b.(b_free) then allocated l else b :: allocated l.
Proof.
  unfold allocated. destruct (b_free b) eqn:E.
  - rewrite filter_cons_False; [done|congruence].
  - by rewrite filter_cons_True.
Qed.

Lemma allocated_app l1 l2 : allocated (l1 ++ l2) = allocated l1 ++ allocated l2.
Proof. apply filter_app. Qed.

Lemma coal_from_allocated b l : allocated (coal_from b l) = allocated (b :: l).
Proof.
  revert b; induction l as [|c l IH]; intros b; [done|].
  simpl. destruct (b_free b && b_free c) eqn:E; rewrite ?allocated_cons, !IH, !allocated_cons; [|done].
  apply andb_true_iff in E as [Eb Ec]. simpl. by rewrite Eb, Ec.
Qed.

Lemma coal_allocated l : allocated (coal l) = allocated l.
Proof. destruct l; [done|apply coal_from_allocated]. Qed.

Lemma coal_from_head b l : exists n l', coal_from b l = mk_blk b.(b_addr) n b.(b_free) :: l'.
Proof.
  revert b; induction l as [|c l IH]; intros b; simpl; [exists b.(b_size), []; by destruct b|].
  destruct (b_free b && b_free c); [apply (IH (merge b c))|].
  exists b.(b_size), (coal_from c l). by destruct b.
Qed.

Lemma coal_from_separated b l : separated (coal_from b l).
Proof.
  revert b; induction l as [|c l IH]; intros b; simpl; [done|].
  destruct (b_free b && b_free c) eqn:E; [apply IH|]. simpl. split; [|apply IH].
  destruct (coal_from_head c l) as (n & l' & ->). done.
Qed.

Lemma coal_separated l : separated (coal l).
Proof. destruct l; [done|apply coal_from_separated]. Qed.

Lemma coal_from_addrs b l c : c ∈ coal_from b l -> c.(b_addr) ∈ map b_addr (b :: l).
Proof.
  revert b; induction l as [|d l IH]; intros b; simpl.
  - intros ->%list_elem_of_singleton. by left.
  - destruct (b_free b && b_free d).
    + intros Hin%IH. simpl in Hin. apply elem_of_cons in Hin as [->|Hin]; [by left|].
      by right; right.
    + intros [->|Hin%IH]%elem_of_cons; [by left|by right].
Qed.

Lemma coal_separated_id l : separated l -> coal l = l.
Proof.
  destruct l as [|b l]; [done|]. simpl. revert b; induction l as [|c l IH]; intros b; [done|].
  simpl. intros [-> Hs]. f_equal. by apply IH.
Qed.

(** The merging loop of the code computes [coal] in place. *)
Lemma coalesce_spec l fuel m s e :
  chain m l -> tiled s l e -> 0 < s -> e <= 2 ^ 64 -> (length l < fuel)%nat ->
  exists m', coalesce fuel m (haddr l) = Ok m' /\ chain m' (coal l) /\
    forall a, a ∉ map b_addr l -> m' !! a = m !! a.
Proof.
  revert l m s. induction fuel as [|fuel IH]; intros l m s Hc Ht Hs He Hf; [lia|].
  destruct l as [|b l]; [by exists m|].
  destruct (block_facts m s [] b l e Hc Ht) as (_ & Haft & Hp & Hbs & Hbe & E).
  cbn [coalesce haddr]. destruct (Z.eqb_spec b.(b_addr) 0); [lia|].
  rewrite E. cbn [hdr_of magic size next is_free]. rewrite Z.eqb_refl. cbn [negb].
  destruct Ht as (<- & _ & Hbm & Ht). destruct Hc as (_ & Hl & Hc). simpl in Hf.
  unfold b_end, HDR in *.
  destruct l as [|c l].
  { cbn [haddr]. rewrite andb_false_r. cbn [andb].
    destruct (IH [] m (b.(b_addr) + 32 + b.(b_size)) Hc Ht ltac:(lia) He ltac:(simpl; lia))
      as (m' & Em & _ & Ha).
    exists m'. simpl in *. split; [done|]. split.
    - split; [done|]. split; [|done]. rewrite Ha; [done|]. apply not_elem_of_nil.
    - intros a Hn. apply Ha. apply not_elem_of_nil. }
  destruct (chain_lookup m [] c l Hc) as [Hcp Ec].
  pose proof Ht as (Hca & Hcs & Hcm & Htl). unfold b_end, HDR in *.
  cbn [haddr]. rewrite Ec. cbn [hdr_of is_free size next].
  destruct (Z.eqb_spec c.(b_addr) 0); [lia|].
  pose proof (tiled_le _ _ _ Htl) as Hle.
  rewrite u64_id by lia. rewrite Hca, Z.eqb_refl, andb_true_r. cbn [coal coal_from].
  assert (forall f : bool, negb ((if f then 1 else 0) =? 0) = f) as Hb by by intros [].
  rewrite !Hb. cbn [negb]. rewrite andb_true_r.
  destruct (b_free b && b_free c) eqn:Efree.
  - rewrite u64_id by lia. apply andb_true_iff in Efree as [Eb Ecf].
    set (m1 := <[_ := _]> m).
    assert (chain m1 (merge b c :: l)) as Hc1.
    { split; [done|]. split; [unfold m1; cbn [b_addr merge]; by rewrite lookup_insert_eq|].
      apply chain_insert; [|apply Hc]. intros d Hd. pose proof (Haft d ltac:(by right)). lia. }
    destruct (IH (merge b c :: l) m1 b.(b_addr) Hc1) as (m' & Em & Hch & Ha); try done.
    + simpl. unfold b_end, merge, HDR. simpl. split_and!; try done; try lia; [divlia|].
      eapply tiled_from; [|exact Htl]. lia.
    + simpl in *. lia.
    + exists m'. split; [exact Em|]. split; [exact Hch|].
      intros a Hn. simpl in Hn. rewrite !not_elem_of_cons in Hn. destruct Hn as (Hab & _ & Hal).
      rewrite Ha by (simpl; by rewrite not_elem_of_cons).
      unfold m1. rewrite lookup_insert_ne; done.
  - rewrite <- Hca. destruct (IH (c :: l) m (b.(b_addr) + 32 + b.(b_size)) Hc Ht)
      as (m' & Em & Hch & Ha); try done; [lia|simpl in *; lia|].
    exists m'. split; [exact Em|]. split.
    + split; [done|]. split; [|exact Hch]. rewrite Ha.
      * rewrite Hl. do 2 f_equal. destruct (coal_from_head c l) as (? & ? & ->). done.
      * intros (d & Hd & Hin)%list_elem_of_fmap. pose proof (Haft d Hin). lia.
    + intros a Hn. apply Ha. simpl in Hn. rewrite not_elem_of_cons in Hn. apply Hn.
Qed.

(** ** The invariant *)

Section ops.
Context {M : Type} `{KernelMapper M}.
Implicit Types h : heap M.

Record heap_ok (h : heap M) (l : list blk) : Prop := {
  ok_head : h.(heap_head) = haddr l;
  ok_chain : chain h.(hdrs) l;
  ok_tiled : tiled HEAP_START_VADDR l h.(current_heap_end);
  ok_page : h.(current_heap_end) mod PAGE_SIZE = 0;
  ok_limit : h.(current_heap_end) <= HEAP_ZONE_END;
  ok_mapper : km_inv h.(mapper);
  ok_mapped : forall x, zone_page x -> x < h.(current_heap_end) -> km_mapped h.(mapper) x = true;
}.

Lemma zone_end_64 : HEAP_ZONE_END <= 2 ^ 64.
Proof. done. Qed.

Lemma heap_start_le h l : heap_ok h l -> HEAP_START_VADDR <= h.(current_heap_end).
Proof. intros Hh. apply (tiled_le _ _ _ (ok_tiled _ _ Hh)). Qed.

(** ** Growing *)

Lemma map_pages_spec n mp va mp' r :
  km_inv mp -> zone_page va -> va + 4096 * Z.of_nat n < HEAP_ZONE_END ->
  map_pages n mp va = (mp', r) ->
  km_inv mp' /\
  (forall x, zone_page x -> x < va -> km_mapped mp' x = km_mapped mp x) /\
  let last := match r with Some f => f | None => va + 4096 * Z.of_nat n end in
  va <= last <= va + 4096 * Z.of_nat n /\ (last - va) mod 4096 = 0 /\
  forall x, zone_page x -> va <= x < last -> km_mapped mp' x = true.
Proof.
  revert mp va. induction n as [|n IH]; intros mp va Hi Hz Hb; cbn [map_pages].
  { intros [= <- <-]. replace (va + 4096 * Z.of_nat 0) with va by lia. rewrite Z.sub_diag.
    split_and!; try done; lia. }
  destruct (km_alloc mp va) as [mp1 ok] eqn:Ea.
  destruct (km_alloc_spec mp mp1 va ok Hi Hz Ea) as (Hi1 & Hm & Ho).
  destruct ok; cbn [negb].
  - destruct Hz as [Hz1 Hz2]. unfold PAGE_SIZE in *.
    rewrite u64_id by (pose proof zone_end_64; unfold HEAP_START_VADDR in *; lia). intros Em.
    assert (zone_page (va + 4096)) as Hz' by (unfold zone_page, PAGE_SIZE; divlia).
    destruct (IH mp1 (va + 4096) Hi1 Hz' ltac:(lia) Em) as (Hi2 & Hp & Hl & Hd & Hr).
    split; [done|]. split.
    { intros x Hx Hlt. rewrite Hp by (done || lia). apply Ho; [done|]. left. lia. }
    replace (va + 4096 * Z.of_nat (S n)) with (va + 4096 + 4096 * Z.of_nat n) by lia.
    cbn zeta in *. set (last := match r with Some f => f | None => _ end) in *.
    split; [lia|]. split; [divlia|]. intros x Hx Hr'.
    destruct (Z.le_gt_cases (va + 4096) x) as [|Hlt]; [apply Hr; [done|lia]|].
    assert (x = va) as -> by (destruct Hx as [_ Hx2]; unfold PAGE_SIZE in *; divlia).
    rewrite Hp by (done || lia). by apply Hm.
  - intros [= <- <-]. cbn zeta. rewrite Z.sub_diag. split_and!; try done; try lia.
    intros x Hx _. apply Ho; [done|by right].
Qed.

Lemma unmap_page_spec mp va :
  km_inv mp -> zone_page va -> km_mapped mp va = true ->
  km_inv (unmap_page mp va) /\
  forall x, zone_page x -> x <> va -> km_mapped (unmap_page mp va) x = km_mapped mp x.
Proof.
  intros Hi Hz Hm. pose proof (km_unmap_spec mp va Hi Hz Hm) as Hs. unfold unmap_page.
  destruct (km_unmap mp va) as [mp1 pa]. exact Hs.
Qed.

(** The pages mapped before a failure are all given back. *)
Lemma rollback_spec mp start k :
  km_inv mp -> zone_page start -> 0 <= k -> start + 4096 * k < HEAP_ZONE_END ->
  (forall x, zone_page x -> start <= x < start + 4096 * k -> km_mapped mp x = true) ->
  let mp' := for_loop 0 k (fun j mp => unmap_page mp (u64 (start + j * 4096))) mp in
  km_inv mp' /\ forall x, zone_page x -> x < start -> km_mapped mp' x = km_mapped mp x.
Proof.
  intros Hi [Hz1 Hz2] Hk Hb Hm. pose proof zone_end_64. unfold PAGE_SIZE in *. cbn zeta.
  assert (let mp' := for_loop 0 k (fun j mp => unmap_page mp (u64 (start + j * 4096))) mp in
    km_inv mp' /\ (forall x, zone_page x -> x < start -> km_mapped mp' x = km_mapped mp x) /\
    forall x, zone_page x -> start + 4096 * k <= x < start + 4096 * k -> km_mapped mp' x = true)
    as (? & ? & _); [|done].
  apply (for_loop_inv (fun j mp' => km_inv mp' /\
    (forall x, zone_page x -> x < start -> km_mapped mp' x = km_mapped mp x) /\
    forall x, zone_page x -> start + 4096 * j <= x < start + 4096 * k -> km_mapped mp' x = true));
    [done| |].
  - split; [done|]. split; [done|]. intros x Hx Hr. apply Hm; [done|lia].
  - intros j mp' Hj (Hi' & Hlow & Hup).
    assert (zone_page (start + j * 4096)) as Hzj by (unfold zone_page, PAGE_SIZE; divlia).
    rewrite u64_id by (unfold HEAP_START_VADDR in *; lia).
    destruct (unmap_page_spec mp' _ Hi' Hzj) as [Hi2 Ho]; [apply Hup; [done|lia]|].
    split; [done|]. split; intros x Hx Hr; rewrite Ho by (done || lia); [by apply Hlow|].
    apply Hup; [done|lia].
Qed.

Lemma chain_snoc m l c :
  chain m (l ++ [c]) -> forall n, 0 < n.(b_addr) ->
  (forall b, b ∈ l ++ [c] -> b.(b_addr) < n.(b_addr)) ->
  NoDup (map b_addr (l ++ [c])) ->
  chain (set_next (<[n.(b_addr) := hdr_of n 0]> m) c.(b_addr) n.(b_addr)) ((l ++ [c]) ++ [n]).
Proof.
  intros Hc n Hn Hlt Hnd. rewrite <- app_assoc.
  destruct (chain_lookup _ _ _ _ Hc) as [Hcp Ec].
  pose proof (Hlt c ltac:(set_solver)) as Hcn.
  apply (chain_swap m _ l c []); [done| |done|].
  - intros b Hb. unfold set_next. rewrite map_app in Hnd. apply NoDup_app in Hnd as (_ & Hd & _).
    rewrite !lookup_insert_ne; [done| |].
    + pose proof (Hlt b ltac:(set_solver)). lia.
    + intros E. apply (Hd (b_addr b)); [by apply list_elem_of_fmap_2|]. rewrite <- E. by left.
  - simpl. unfold set_next, hdr_at. split; [done|].
    rewrite lookup_insert_eq, (lookup_insert_ne _ n.(b_addr) c.(b_addr)) by lia.
    unfold hdr_at in Ec. rewrite Ec. split; [done|].
    split; [done|]. by rewrite lookup_insert_ne, lookup_insert_eq by lia.
Qed.

Lemma expand_spec h l sz :
  heap_ok h l -> 0 < sz -> sz mod 16 = 0 -> h.(current_heap_end) + sz + 8192 <= HEAP_ZONE_END ->
  exists h' a, expand_heap h sz = Ok (h', a) /\ h'.(data) = h.(data) /\
    (a = 0 /\ heap_ok h' l \/
     a <> 0 /\ exists n, heap_ok h' (l ++ [n]) /\ n.(b_free) = true /\ sz <= n.(b_size)).
Proof.
  intros Hh Hs Hm Hb. pose proof (heap_start_le _ _ Hh) as Hle. pose proof zone_end_64 as H64.
  destruct Hh as [Ehd Hc Ht Hp Hlim Hi Hmap]. unfold expand_heap, HDR, PAGE_SIZE in *.
  rewrite u64_id by (unfold HEAP_START_VADDR in *; lia).
  set (pages := if negb _ then _ else _).
  assert (sz + 32 <= 4096 * pages /\ 4096 * pages < sz + 32 + 4096) as [Hp1 Hp2].
  { unfold pages. destruct (Z.eqb_spec ((sz + 32) mod 4096) 0); cbn [negb]; divlia. }
  clearbody pages. set (start := h.(current_heap_end)) in *.
  assert (zone_page start) as Hz by (unfold zone_page, PAGE_SIZE; lia).
  destruct (map_pages (Z.to_nat pages) h.(mapper) start) as [mp r] eqn:Em.
  destruct (map_pages_spec (Z.to_nat pages) _ start _ _ Hi Hz ltac:(lia) Em) as (Hi1 & Hlow & Hl & Hd & Hr).
  rewrite Z2Nat.id in * by lia. destruct r as [f|]; cbn zeta in *.
  - rewrite u64_id by (unfold HEAP_START_VADDR in *; lia).
    destruct (rollback_spec mp start ((f - start) / 4096) Hi1 Hz) as [Hi2 Hlow2].
    { divlia. } { divlia. } { intros x Hx Hr'. apply Hr; [done|divlia]. }
    replace ((f - start + 4095) / 4096) with ((f - start) / 4096) by divlia.
    eexists _, 0. split; [done|]. split; [done|]. left. split; [done|].
    split; try done. cbn [mapper set_mapper current_heap_end].
    intros x Hx Hlt. rewrite Hlow2, Hlow by done. by apply Hmap.
  - rewrite !u64_id by (unfold HEAP_START_VADDR in *; lia).
    set (n := mk_blk start (pages * 4096 - 32) true).
    assert (forall b, b ∈ l -> b.(b_addr) < start) as Hlt.
    { intros b Hb'. destruct (tiled_elem _ _ _ _ Ht Hb') as (_ & ? & ? & _).
      unfold b_end, HDR in *. lia. }
    assert (tiled HEAP_START_VADDR (l ++ [n]) (start + pages * 4096)) as Ht'.
    { apply tiled_app. exists start. split; [done|]. simpl. unfold b_end, HDR. simpl.
      split_and!; try lia. divlia. }
    assert (forall x, zone_page x -> x < start + pages * 4096 -> km_mapped mp x = true) as Hmap'.
    { intros x Hx Hlt'. destruct (Z.lt_ge_cases x start); [rewrite Hlow by done; by apply Hmap|].
      apply Hr; [done|lia]. }
    change (mk_hdr HEAP_MAGIC (pages * 4096 - 32) 1 0) with (hdr_of n 0).
    cbn [set_mapper heap_head hdrs mapper data current_heap_end].
    destruct (Z.eqb_spec h.(heap_head) 0) as [E0|Hne].
    + assert (l = []) as ->.
      { destruct l as [|b l]; [done|]. destruct Hc as [Hpos _]. rewrite Ehd in E0. simpl in E0. lia. }
      eexists _, start. split; [done|]. split; [done|]. right.
      split; [unfold HEAP_START_VADDR in *; lia|]. exists n. split; [|split; [done|simpl; lia]].
      split; try done; cbn [current_heap_end hdrs]; unfold PAGE_SIZE; [|divlia|lia].
      split; [simpl; unfold HEAP_START_VADDR in *; lia|]. by rewrite lookup_insert_eq.
    + destruct (exists_last (l := l)) as (l1 & c & ->); [intros ->; by rewrite Ehd in Hne|].
      assert (chain (<[start := hdr_of n 0]> h.(hdrs)) (l1 ++ [c])) as Hc'.
      { apply chain_insert; [|done]. intros b Hb'. pose proof (Hlt b Hb'). lia. }
      pose proof (tiled_NoDup _ _ _ Ht) as Hnd.
      pose proof (chain_length _ _ Hc' Hnd) as Hlen. rewrite length_app in Hlen. simpl in Hlen.
      rewrite Ehd, (last_block_spec _ l1 c) by (done || (unfold fuel_of; lia)). cbn [obind].
      eexists _, start. split; [done|]. split; [done|]. right.
      split; [unfold HEAP_START_VADDR in *; lia|]. exists n. split; [|split; [done|simpl; lia]].
      split; cbn [current_heap_end hdrs set_hdrs set_mapper mapper heap_head];
        unfold PAGE_SIZE; try done; try divlia.
      * rewrite Ehd. by destruct l1.
      * apply (chain_snoc _ _ _ Hc n); [unfold HEAP_START_VADDR in *; simpl; lia|done|done].
Qed.

(** ** Allocation *)

Lemma land_not15 x : 0 <= x < 2 ^ 64 -> Z.land x (2 ^ 64 - 16) = x / 16 * 16.
Proof.
  intros Hx. change 16 with (2 ^ 4). rewrite <- Z.shiftr_div_pow2, <- Z.shiftl_mul_pow2 by lia.
  apply Z.bits_inj'. intros k Hk.
  change (2 ^ 64 - 2 ^ 4) with (Z.shiftl (Z.ones 60) 4).
  rewrite Z.land_spec, !Z.shiftl_spec by lia. destruct (Z.le_gt_cases 4 k).
  - rewrite Z.shiftr_spec by lia. replace (k - 4 + 4) with k by lia.
    destruct (Z.lt_ge_cases k 64); [rewrite Z.ones_spec_low by lia; apply andb_true_r|].
    rewrite Z.ones_spec_high by lia. rewrite andb_false_r. symmetry.
    rewrite <- (Z.mod_small x (2 ^ 64)) by done. apply Z.mod_pow2_bits_high. lia.
  - rewrite (Z.testbit_neg_r _ (k - 4)), (Z.testbit_neg_r (Z.shiftr x 4) (k - 4)) by lia.
    apply andb_false_r.
Qed.

Lemma align16_spec sz : 0 < sz -> sz + 15 < 2 ^ 64 ->
  sz <= align16 sz < sz + 16 /\ align16 sz mod 16 = 0.
Proof.
  intros H0 H1. unfold align16. rewrite u64_id, land_not15 by lia. divlia.
Qed.

Lemma align16_wraps sz : 2 ^ 64 - 15 <= sz < 2 ^ 64 -> align16 sz = 0.
Proof.
  intros Hs. unfold align16, wrap. replace ((sz + 15) mod 2 ^ 64) with (sz + 15 - 2 ^ 64) by divlia.
  rewrite land_not15 by lia. divlia.
Qed.

Lemma align16_idem sz : 0 < sz -> sz mod 16 = 0 -> sz + 15 < 2 ^ 64 -> align16 sz = sz.
Proof. intros H0 Hm H1. destruct (align16_spec sz H0 H1) as [? ?]. divlia. Qed.

Lemma find_split (p : blk -> bool) l b : List.find p l = Some b ->
  exists l1 l2, l = l1 ++ b :: l2 /\ p b = true /\ forall c, c ∈ l1 -> p c = false.
Proof.
  induction l as [|c l IH]; [done|]. simpl. destruct (p c) eqn:E.
  - intros [= <-]. exists [], l. split_and!; try done. intros d Hd. by apply elem_of_nil in Hd.
  - intros (l1 & l2 & -> & Hp & Hn)%IH. exists (c :: l1), l2. split_and!; try done.
    intros d [->|Hd]%elem_of_cons; auto.
Qed.

Lemma take_list_allocated b sz l1 l2 : b.(b_free) = true ->
  exists n, n.(b_addr) = b.(b_addr) /\ (sz <= b.(b_size) -> sz <= n.(b_size)) /\
    n.(b_free) = false /\ n ∈ take_list b sz /\
    allocated (l1 ++ take_list b sz ++ l2) ≡ₚ n :: allocated (l1 ++ b :: l2).
Proof.
  intros Hf. unfold take_list. exists (hd b (take_list b sz)). unfold take_list.
  rewrite !allocated_app, (allocated_cons b), Hf.
  destruct (sz + HDR + 1 <? b_size b); cbn [hd b_addr b_size b_free].
  all: rewrite !allocated_cons; cbn [b_free allocated]; split_and!; try done; try (by left).
  all: by rewrite Permutation_middle.
Qed.

(** First fit: the block taken is the first free one that is large enough. *)
Lemma kmalloc_fit h l l1 b l2 sz n :
  heap_ok h l -> 0 < sz -> sz + 15 < 2 ^ 64 -> l = l1 ++ b :: l2 ->
  fits (align16 sz) b = true -> (forall c, c ∈ l1 -> fits (align16 sz) c = false) ->
  let h' := set_hdrs h (take_block h.(hdrs) b.(b_addr) (align16 sz)) in
  kmalloc_n (S n) h sz = Ok (h', b.(b_addr) + HDR) /\
  heap_ok h' (l1 ++ take_list b (align16 sz) ++ l2).
Proof.
  intros Hh Hs Hs64 -> Hfit Hfirst h'. destruct (align16_spec sz Hs Hs64) as [Hal Ham].
  pose proof (ok_chain _ _ Hh) as Hc. pose proof (ok_tiled _ _ Hh) as Ht.
  pose proof zone_end_64 as H64. pose proof (ok_limit _ _ Hh) as Hlim.
  destruct (block_facts _ _ _ _ _ _ Hc Ht) as (_ & _ & Hp & Hbs & Hbe & _).
  pose proof Hfit as [Hfree Hle%Z.leb_le]%andb_true_iff.
  split.
  - cbn [kmalloc_n]. destruct (Z.eqb_spec sz 0); [lia|]. unfold kmalloc_locked.
    rewrite (ok_head _ _ Hh), (scan_spec _ _ (l1 ++ b :: l2)) by (done || by eapply chain_fuel).
    assert (List.find (fits (align16 sz)) (l1 ++ b :: l2) = Some b) as ->.
    { clear -Hfit Hfirst. induction l1 as [|c l1 IH]; simpl; [by rewrite Hfit|].
      rewrite Hfirst by (by left). apply IH. intros d Hd. apply Hfirst. by right. }
    cbn [obind]. rewrite u64_id by (unfold b_end, HDR in *; lia). done.
  - destruct Hh as [Ehd _ _ Hpg _ Hi Hmap]. split; try done.
    + unfold h'. cbn [heap_head set_hdrs]. rewrite Ehd. destruct l1; [|done].
      unfold take_list. simpl. by destruct (_ <? _).
    + unfold h'. cbn [hdrs set_hdrs]. by eapply take_block_chain; try done; lia.
    + apply take_list_tiled; try done; lia.
Qed.

Lemma tiled_disjoint s l e b c : tiled s l e -> b ∈ l -> c ∈ l -> b <> c ->
  b_end b <= c.(b_addr) \/ b_end c <= b.(b_addr).
Proof.
  intros Ht (l1 & l2 & ->)%list_elem_of_split Hc Hne.
  apply elem_of_app in Hc as [Hc|Hc]; [right; by eapply tiled_before|].
  apply elem_of_cons in Hc as [->|Hc]; [done|]. left. by eapply tiled_after.
Qed.

Lemma elem_allocated b l : b ∈ allocated l <-> b.(b_free) = false /\ b ∈ l.
Proof. unfold allocated. by rewrite list_elem_of_filter. Qed.

(** A newly allocated block overlaps none of the older ones. *)
Lemma allocated_fresh s l' e b old : tiled s l' e -> allocated l' ≡ₚ b :: old ->
  forall c, c ∈ old -> b_end b <= c.(b_addr) \/ b_end c <= b.(b_addr).
Proof.
  intros Ht Hp c Hc.
  assert (forall d, d ∈ b :: old -> d ∈ l') as Hin.
  { intros d Hd. rewrite <- Hp in Hd. by apply elem_allocated in Hd as [_ ?]. }
  apply (tiled_disjoint _ _ _ b c Ht); [apply Hin; by left|apply Hin; by right|].
  intros ->. assert (NoDup (c :: old)) as Hn.
  { rewrite <- Hp. apply NoDup_filter. by eapply NoDup_fmap_1, tiled_NoDup. }
  by apply NoDup_cons in Hn as [? _].
Qed.

(** What a caller of [kmalloc] gets. *)
Definition kmalloc_post (h : heap M) (l : list blk) (sz : Z) (h' : heap M) (p : Z) : Prop :=
  h'.(data) = h.(data) /\
  exists l', heap_ok h' l' /\
    (p = 0 /\ l' = l \/
     exists b, p = b.(b_addr) + HDR /\ sz <= b.(b_size) /\ p mod 16 = 0 /\
       allocated l' ≡ₚ b :: allocated l /\
       (forall c, c ∈ allocated l -> b_end b <= c.(b_addr) \/ b_end c <= b.(b_addr)) /\
       (forall x, zone_page x -> x < b_end b -> km_mapped h'.(mapper) x = true)).

Lemma kmalloc_fit_post h l l1 b l2 sz n :
  heap_ok h l -> 0 < sz -> sz + 15 < 2 ^ 64 -> l = l1 ++ b :: l2 ->
  fits (align16 sz) b = true -> (forall c, c ∈ l1 -> fits (align16 sz) c = false) ->
  exists h' p, kmalloc_n (S n) h sz = Ok (h', p) /\
    h'.(data) = h.(data) /\ exists l', heap_ok h' l' /\
     exists b, p = b.(b_addr) + HDR /\ sz <= b.(b_size) /\ p mod 16 = 0 /\
       allocated l' ≡ₚ b :: allocated l /\
       (forall c, c ∈ allocated l -> b_end b <= c.(b_addr) \/ b_end c <= b.(b_addr)) /\
       (forall x, zone_page x -> x < b_end b -> km_mapped h'.(mapper) x = true).
Proof.
  intros Hh Hs H64 -> Hfit Hfirst.
  destruct (kmalloc_fit h _ l1 b l2 sz n Hh Hs H64 eq_refl Hfit Hfirst) as [E Hok].
  destruct (align16_spec sz Hs H64) as [Hal _].
  apply andb_true_iff in Hfit as [Hfree Hle%Z.leb_le].
  destruct (take_list_allocated b (align16 sz) l1 l2 Hfree) as (nb & Ea & Hsz & Hnf & Hin & Hperm).
  eexists _, _. split; [exact E|]. split; [done|]. eexists. split; [exact Hok|].
  exists nb. split; [by rewrite Ea|]. split; [specialize (Hsz Hle); lia|].
  pose proof (ok_tiled _ _ Hok) as Ht.
  assert (nb ∈ l1 ++ take_list b (align16 sz) ++ l2) as Hnb by (rewrite !elem_of_app; auto).
  split.
  { rewrite <- Ea. pose proof (tiled_align _ _ _ nb Ht eq_refl Hnb). unfold HDR. divlia. }
  split; [done|]. split; [by eapply allocated_fresh|].
  intros x Hx Hlt. apply (ok_mapped _ _ Hok x Hx).
  destruct (tiled_elem _ _ _ _ Ht Hnb) as (_ & ? & _). lia.
Qed.

Lemma find_app_fresh sz l n : List.find (fits sz) l = None -> fits sz n = true ->
  List.find (fits sz) (l ++ [n]) = Some n.
Proof.
  intros Hn Hf. induction l as [|c l IH]; simpl in *; [by rewrite Hf|].
  destruct (fits sz c); [done|]. by apply IH.
Qed.

Lemma allocated_snoc_free l n : n.(b_free) = true -> allocated (l ++ [n]) = allocated l.
Proof. intros Hf. rewrite allocated_app, allocated_cons, Hf. apply app_nil_r. Qed.

Lemma kmalloc_spec h l sz :
  heap_ok h l -> 0 < sz -> h.(current_heap_end) + sz + 16 + 8192 <= HEAP_ZONE_END ->
  exists h' p, kmalloc h sz = Ok (h', p) /\ kmalloc_post h l sz h' p.
Proof.
  intros Hh Hs Hb. pose proof zone_end_64 as H64. pose proof (heap_start_le _ _ Hh) as Hst.
  assert (sz + 31 < 2 ^ 64) as Hs64 by (unfold HEAP_START_VADDR in *; lia).
  destruct (align16_spec sz Hs ltac:(lia)) as [Hal Ham].
  unfold kmalloc. destruct (List.find (fits (align16 sz)) l) as [b|] eqn:Ef.
  - destruct (find_split _ _ _ Ef) as (l1 & l2 & El & Hfit & Hfirst).
    destruct (kmalloc_fit_post h l l1 b l2 sz 1 Hh Hs ltac:(lia) El Hfit Hfirst)
      as (h' & p & E & Hd & l' & Hok & Hpost).
    exists h', p. split; [done|]. split; [done|]. exists l'. auto.
  - cbn [kmalloc_n]. destruct (Z.eqb_spec sz 0); [lia|]. unfold kmalloc_locked.
    rewrite (ok_head _ _ Hh), (scan_spec _ _ l) by
      (apply Hh || (eapply chain_fuel; apply Hh)).
    rewrite Ef. cbn [obind].
    destruct (expand_spec h l (align16 sz) Hh ltac:(lia) Ham ltac:(lia))
      as (h1 & a & -> & Hd1 & [[-> Hok]|(Ha & nb & Hok & Hnf & Hnsz)]); cbn [obind].
    + eexists _, _. split; [done|]. split; [done|]. exists l. auto.
    + destruct (Z.eqb_spec a 0); [done|].
      assert (fits (align16 sz) nb = true) as Hfit.
      { unfold fits. rewrite Hnf. by apply Z.leb_le. }
      pose proof (find_app_fresh _ _ _ Ef Hfit) as Ef'.
      destruct (find_split _ _ _ Ef') as (l1 & l2 & El & _ & Hfirst).
      rewrite <- (align16_idem (align16 sz)) in Hfit, Hfirst by lia.
      destruct (kmalloc_fit_post h1 _ l1 nb l2 (align16 sz) 0 Hok ltac:(lia) ltac:(lia) El Hfit Hfirst)
        as (h' & p & E & Hd & l' & Hok' & b & Hp & Hsz & Hpm & Hperm & Hdis & Hmap).
      exists h', p. split; [exact E|]. split; [congruence|]. exists l'. split; [done|]. right.
      rewrite allocated_snoc_free in Hperm, Hdis by done.
      exists b. split_and!; try done. lia.
Qed.

(** ** Release *)

Lemma kfree_spec h l1 b l2 :
  heap_ok h (l1 ++ b :: l2) ->
  exists h', kfree h (b.(b_addr) + HDR) = Ok h' /\
    heap_ok h' (coal (l1 ++ release b :: l2)) /\
    h'.(data) = h.(data) /\ h'.(mapper) = h.(mapper) /\
    h'.(current_heap_end) = h.(current_heap_end).
Proof.
  intros Hh. pose proof (ok_chain _ _ Hh) as Hc. pose proof (ok_tiled _ _ Hh) as Ht.
  pose proof zone_end_64 as H64. pose proof (ok_limit _ _ Hh) as Hlim.
  destruct (block_facts _ _ _ _ _ _ Hc Ht) as (Hbef & Haft & Hp & Hbs & Hbe & E).
  unfold kfree, b_end, HDR in *. destruct (Z.eqb_spec (b.(b_addr) + 32) 0); [lia|].
  replace (b.(b_addr) + 32 - 32) with b.(b_addr) by lia. rewrite u64_id by lia.
  rewrite E. cbn [hdr_of magic size next]. rewrite Z.eqb_refl. cbn [negb].
  change (mk_hdr HEAP_MAGIC b.(b_size) 1 (haddr l2)) with (hdr_of (release b) (haddr l2)).
  set (m := <[_ := _]> h.(hdrs)).
  assert (chain m (l1 ++ release b :: l2)) as Hc'.
  { apply (chain_swap h.(hdrs) m l1 b l2); try done.
    - intros c Hin%Hbef. unfold m. by rewrite lookup_insert_ne by lia.
    - split; [done|]. split; [unfold m; by rewrite lookup_insert_eq|].
      apply chain_insert; [|by eapply chain_tail]. intros c Hin%Haft. lia. }
  assert (tiled HEAP_START_VADDR (l1 ++ release b :: l2) h.(current_heap_end)) as Ht'.
  { by apply tiled_app in Ht as (k & ? & ?); apply tiled_app; exists k. }
  destruct (coalesce_spec _ (fuel_of m) m _ _ Hc' Ht' eq_refl ltac:(lia)
    ltac:(by eapply chain_fuel)) as (m' & Em & Hcc & _).
  assert (h.(heap_head) = haddr (l1 ++ release b :: l2)) as Ehd.
  { rewrite (ok_head _ _ Hh). by destruct l1. }
  rewrite Ehd, Em. cbn [obind]. eexists. split; [done|]. split; [|done].
  destruct Hh as [_ _ _ Hpg _ Hi Hmap]. split; try done.
  - cbn [heap_head set_hdrs]. rewrite Ehd. destruct (l1 ++ release b :: l2) as [|c l]; [done|].
    simpl. destruct (coal_from_head c l) as (? & ? & ->). done.
  - by apply coal_tiled.
Qed.

Lemma release_allocated l1 b l2 : b.(b_free) = false ->
  b :: allocated (coal (l1 ++ release b :: l2)) ≡ₚ allocated (l1 ++ b :: l2).
Proof.
  intros Hf. rewrite coal_allocated, !allocated_app, !allocated_cons, Hf. simpl.
  by rewrite Permutation_middle.
Qed.

(** Splitting a block of a separated heap and merging again is the identity. *)
Lemma coal_split l1 b x y l2 : merge x y = b -> x.(b_free) = true -> y.(b_free) = true ->
  separated (l1 ++ b :: l2) -> coal (l1 ++ x :: y :: l2) = l1 ++ b :: l2.
Proof.
  intros Hm Hx Hy. revert l1.
  assert (forall c l1, separated (c :: l1 ++ b :: l2) ->
    coal_from c (l1 ++ x :: y :: l2) = c :: l1 ++ b :: l2) as Hgen.
  { intros c l1; revert c. induction l1 as [|d l1 IH]; intros c; simpl.
    - intros [Hcb Hs]. rewrite Hx. subst b. cbn [b_free merge] in Hcb. rewrite Hx in Hcb.
      rewrite Hcb, Hy. simpl. f_equal. by apply (coal_separated_id (merge x y :: l2)).
    - intros [-> Hs]. f_equal. by apply IH. }
  intros [|c l1]; simpl; [|apply Hgen]. intros Hs. rewrite Hx, Hy. cbn [andb]. rewrite Hm.
  by apply (coal_separated_id (b :: l2)).
Qed.

(** ** Copying *)

Lemma copy_bytes_ld d dst src n a : 0 <= n -> dst + n <= src \/ src + n <= dst ->
  ld (copy_bytes d dst src n) a =
  if (dst <=? a) && (a <? dst + n) then ld d (src + (a - dst)) else ld d a.
Proof.
  intros Hn Hdis. unfold copy_bytes. revert a.
  apply (for_loop_inv (fun k d' => forall a, ld d' a =
    if (dst <=? a) && (a <? dst + k) then ld d (src + (a - dst)) else ld d a)); [done| |].
  - intros a. zcases; done.
  - intros i d' Hi IH a. rewrite ld_st. destruct (Z.eqb_spec (dst + i) a) as [<-|Hne].
    + rewrite IH. replace (dst + i - dst) with i by lia. zcases; done.
    + rewrite IH. zcases; done.
Qed.
End ops.
End HeapSpec.
