(* ===== verification/HeapOps.v ===== *)
(** * Theorems on the kernel heap

    The behaviour of [kmalloc], [kfree] and [krealloc] for any [KernelMapper],
    and the instance of that interface by the virtual memory manager. *)

From stdpp Require Import base numbers list gmap sets.
From Stdlib Require Import ZArith Lia.
From S2P Require Import Prelude Pmm Paging PagingSpec PagingOps Heap HeapSpec.

#[local] Open Scope Z_scope.

Module HeapOps.
Import Heap HeapSpec.

(** ** The virtual memory manager backs the heap *)

Section mapper.
Import Paging PagingSpec PagingOps.
Context {A : Type} `{FrameAllocator A}.
Implicit Types v : vm A.

(** Frames behind the heap's zone are allocated, distinct, and no page tables. *)
Definition zone_private (R : Z -> Prop) (v : vm A) : Prop :=
  forall x e, zone_page x -> translate v.(mem) v.(kernel_pml4_phys) x = Page e ->
    fa_avail v.(frames) (frame_of e) = false /\
    (forall r p t, node R v.(mem) r p t -> t <> frame_of e) /\
    (forall y e', zone_page y -> y <> x ->
       translate v.(mem) v.(kernel_pml4_phys) y = Page e' -> frame_of e' <> frame_of e).

Definition vm_mapped (v : vm A) (x : Z) : bool :=
  match translate v.(mem) v.(kernel_pml4_phys) x with Unmapped => false | _ => true end.

Definition vm_inv (v : vm A) : Prop :=
  exists R, vm_ok R v /\ R v.(kernel_pml4_phys) /\ zone_private R v.

Lemma zone_idxs x y : zone_page x -> zone_page y -> x <> y -> idxs x <> idxs y.
Proof.
  unfold zone_page, HEAP_ZONE_END, HEAP_START_VADDR, PAGE_SIZE.
  intros [Hx Hxp] [Hy Hyp] Hne. unfold idxs, PML4_IDX, PDPT_IDX, PD_IDX, PT_IDX.
  rewrite !idx_div by lia.
  change (2 ^ 39) with (4096 * 512 * 512 * 512). change (2 ^ 30) with (4096 * 512 * 512).
  change (2 ^ 21) with (4096 * 512). change (2 ^ 12) with 4096.
  rewrite <- !Z.div_div by lia. intros [= E4 E3 E2 E1]. apply Hne. divlia.
Qed.

Lemma zone_elsewhere r x y : zone_page x -> zone_page y -> x <> y -> elsewhere r y r x.
Proof. intros Hx Hy Hne. left. by apply zone_idxs. Qed.

Lemma frame_of_page pa fl : wf_frame pa -> 0 <= fl < 4096 ->
  frame_of (Z.lor (Z.land pa PAGE_MASK) fl) = pa.
Proof.
  intros [Hr Ha] Hfl. fold (frame_of pa).
  assert (frame_of pa = pa) as ->.
  { rewrite <- (Z.lor_0_r pa) at 1. apply frame_of_lor; [done|lia|lia]. }
  apply frame_of_lor; [done|lia|lia].
Qed.

Lemma vm_alloc_kernel_spec v v' va ok :
  vm_inv v -> zone_page va -> vmm_alloc_page_kernel v va 3 = (v', ok) ->
  vm_inv v' /\ (ok = true -> vm_mapped v' va = true) /\
  forall x, zone_page x -> x <> va \/ ok = false -> vm_mapped v' x = vm_mapped v x.
Proof.
  intros (R & Hv & Hk & Hz) Hva Hm.
  assert (alloc_map_post R v v' v.(kernel_pml4_phys) va 3 ok)
    as (Hok & (_ & Ek & _) & Hav & Ht & Hnew & Hx).
  { revert Hm. unfold vmm_alloc_page_kernel, vmm_map_page_kernel.
    destruct (fa_alloc v.(frames)) as [f pa] eqn:Ea.
    destruct (vmm_map_page_into _ _ _ _ _) as [v2 ok2] eqn:Em. by eapply alloc_map_spec. }
  assert (forall x e, zone_page x -> translate v'.(mem) v.(kernel_pml4_phys) x = Page e ->
    (ok = true /\ x = va) \/ translate v.(mem) v.(kernel_pml4_phys) x = Page e) as Hold.
  { intros x e Hxz Hxe. destruct ok.
    - destruct (decide (x = va)) as [->|Hne]; [by left|right].
      destruct (Ht eq_refl) as (pa & _ & _ & _ & _ & _ & Ho).
      rewrite <- Ho; [done|done|by apply zone_elsewhere].
    - right. by rewrite <- Hx. }
  split; [|split].
  - exists R. split; [done|]. rewrite Ek. split; [done|]. intros x e Hxz Hxe. rewrite Ek in *.
    assert (forall y e', zone_page y -> translate v.(mem) v.(kernel_pml4_phys) y = Page e' ->
      fa_avail v'.(frames) (frame_of e') = false /\
      (forall r p t, node R v'.(mem) r p t -> t <> frame_of e')) as Hk2.
    { intros y e' Hy Hye. destruct (Hz y e' Hy Hye) as (Ha & Hn & _). split; [by apply Hav|].
      intros r p t Hnode ->. destruct (Hnew r p _ Hnode) as [Hn'|?]; [by apply (Hn r p) in Hn'|congruence]. }
    assert (forall pa, ok = true -> wf_frame pa ->
      translate v'.(mem) v.(kernel_pml4_phys) va =
        (if present (Z.lor (Z.land pa PAGE_MASK) 3)
         then Page (Z.lor (Z.land pa PAGE_MASK) 3) else Unmapped) ->
      forall e, translate v'.(mem) v.(kernel_pml4_phys) va = Page e -> frame_of e = pa) as Hfr.
    { intros pa _ Hw E e1 E1. rewrite E1 in E. destruct (present _); [|done]. injection E as ->.
      apply frame_of_page; [done|lia]. }
    destruct (Hold x e Hxz Hxe) as [[-> ->]|Hxo].
    + destruct (Ht eq_refl) as (pa & Hw & Hpa & Hpa' & Hnp & E & Ho).
      rewrite (Hfr pa eq_refl Hw E e Hxe). split; [done|]. split; [done|].
      intros y e' Hy Hne Hye. destruct (Hold y e' Hy Hye) as [[_ ->]|Hyo]; [done|].
      destruct (Hz y e' Hy Hyo) as (? & _). congruence.
    + destruct (Hk2 x e Hxz Hxo) as [Ha Hn]. split; [done|]. split; [done|].
      intros y e' Hy Hne Hye. destruct (Hold y e' Hy Hye) as [[-> ->]|Hyo].
      * destruct (Ht eq_refl) as (pa & Hw & Hpa & _ & _ & E & _).
        rewrite (Hfr pa eq_refl Hw E e' Hye). destruct (Hz x e Hxz Hxo) as (? & _). congruence.
      * by apply (Hz x e Hxz Hxo) with y.
  - intros ->. unfold vm_mapped. rewrite Ek.
    destruct (Ht eq_refl) as (pa & _ & _ & _ & _ & -> & _).
    by rewrite present_testbit, Z.lor_spec, orb_true_r.
  - intros x Hxz Hc. unfold vm_mapped. rewrite Ek. destruct Hc as [Hne| ->]; [|by rewrite Hx].
    destruct ok; [|by rewrite Hx]. destruct (Ht eq_refl) as (pa & _ & _ & _ & _ & _ & Ho).
    rewrite Ho; [done|done|by apply zone_elsewhere].
Qed.

Definition vm_unmap_kernel (v : vm A) (va : Z) : vm A * Z :=
  vmm_unmap_page_from v va (vmm_get_kernel_pml4_phys v).
Definition vm_free (v : vm A) (pa : Z) : vm A := set_frames v (fa_free v.(frames) pa).

Lemma vm_unmap_kernel_spec v va :
  vm_inv v -> zone_page va -> vm_mapped v va = true ->
  let r := vm_unmap_kernel v va in
  let v' := if negb (r.2 =? PHYS_NULL) then vm_free r.1 r.2 else r.1 in
  vm_inv v' /\ forall x, zone_page x -> x <> va -> vm_mapped v' x = vm_mapped v x.
Proof.
  intros (R & Hv & Hk & Hz) Hva Hm. set (k := v.(kernel_pml4_phys)) in *.
  assert (k <> 0) as Hk0 by by apply (root_nonzero R v).
  unfold vm_unmap_kernel, vmm_get_kernel_pml4_phys, vmm_unmap_page_from, select_pml4, PHYS_NULL.
  fold k. destruct (Z.eqb_spec k 0); [done|]. cbn [negb]. destruct (Z.eqb_spec k 0); [done|].
  destruct (translate v.(mem) k va) as [| |e] eqn:Ht.
  { unfold vm_mapped in Hm. fold k in Hm. by rewrite Ht in Hm. }
  { revert Ht. unfold translate. destruct (walk v.(mem) k va) as [| |c]; try done.
    - intros _. cbn. split; [by exists R|done].
    - by destruct (present _). }
  destruct (unmap_leaf_spec R v k va e Hv Hk Ht) as (c & Hw & Hl & Hp & Hok & Hx & Ho).
  rewrite Hw, Hl, Hp. cbn [negb fst snd].
  set (w := set_mem v (st v.(mem) c 0)) in *. destruct (Hz va e Hva Ht) as (Ha & Hn & Hd).
  assert (forall x, zone_page x -> x <> va -> translate w.(mem) k x = translate v.(mem) k x) as Ho'.
  { intros x Hxz Hne. apply Ho; [done|by apply zone_elsewhere]. }
  assert (forall r p t, node R w.(mem) r p t -> node R v.(mem) r p t) as Hnode.
  { destruct (translate_leaf R v k va e Hv Hk Ht) as (pt & Hpt & Hw2 & _).
    rewrite Hw in Hw2. injection Hw2 as Ec. subst c w.
    destruct (set_leaf_spec R v k va 0 pt Hv Hpt) as (_ & Hnd & _). intros r p t. apply Hnd. }
  assert (forall x e', zone_page x -> translate w.(mem) k x = Page e' ->
    x <> va /\ translate v.(mem) k x = Page e') as Hxw.
  { intros x e' Hxz Hxe. destruct (decide (x = va)) as [->|Hne]; [by rewrite Hx in Hxe|].
    by rewrite <- Ho'. }
  destruct (fa_free_spec v.(frames) (frame_of e) (proj1 Hv)) as (Hfi & Hoth & _).
  set (w' := if negb (frame_of e =? 0) then vm_free w (frame_of e) else w).
  assert (w'.(mem) = w.(mem) /\ w'.(kernel_pml4_phys) = k /\ fa_inv w'.(frames) /\
    forall t, t <> frame_of e -> fa_avail w'.(frames) t = fa_avail v.(frames) t) as (Em & Ek & Hfw & Hfa).
  { unfold w'. destruct (negb _); cbn; split_and!; try done; try apply Hok.
    intros t Hne. by apply Hoth. }
  split.
  - exists R. rewrite Ek. split; [|split; [done|]].
    + split; [done|]. rewrite Em. apply (forest_avail R _ _ _ (proj2 Hok)).
      intros r p t Hn'%Hnode. rewrite Hfa by (by apply (Hn r p)).
      apply (forest_frame (proj2 Hv) r p t Hn').
    + intros x e' Hxz Hxe. rewrite Ek, Em in *. apply Hxw in Hxe as [Hne Hxe]; [|done].
      destruct (Hz x e' Hxz Hxe) as (Ha' & Hn2 & Hd'). split; [|split].
      * rewrite Hfa; [done|]. by apply (Hd x e').
      * intros r p t Ht'%Hnode. by apply (Hn2 r p).
      * intros y e2 Hy Hyne Hye. apply Hxw in Hye as [_ Hye]; [|done]. by apply (Hd' y).
  - intros x Hxz Hne. unfold vm_mapped. fold w'. rewrite Ek, Em. fold k. by rewrite Ho'.
Qed.

#[export] Program Instance vm_kernel_mapper : KernelMapper (vm A) := {|
  km_alloc := fun v va => vmm_alloc_page_kernel v va 3;
  km_unmap := vm_unmap_kernel;
  km_free := vm_free;
  km_mapped := vm_mapped;
  km_inv := vm_inv;
  km_unmap_spec := vm_unmap_kernel_spec;
|}.
Next Obligation. intros m m' va ok Hi Hz E. by apply vm_alloc_kernel_spec. Qed.
End mapper.

(** ** Theorems *)

Section theorems.
Context {M : Type} `{KernelMapper M}.
Implicit Types (h : heap M) (l : list blk).


(** ** Other callers between the tries *)

Definition room (h : heap M) (sz : Z) : Prop := h.(current_heap_end) + sz + 16 + 8192 <= HEAP_ZONE_END.

Lemma kmalloc_post_le h l sz sz' h' p : sz <= sz' -> kmalloc_post h l sz' h' p -> kmalloc_post h l sz h' p.
Proof.
  intros Hle (Hd & l' & Hok & Hp). split; [done|]. exists l'. split; [done|]. destruct Hp as [?|(b & E & Hs & Hp)]; [by left|right].
  exists b. split; [done|]. split; [lia|done].
Qed.

(** One section under the lock: the answer of [kmalloc], or a heap with a new free
    block that is large enough. *)
Lemma kmalloc_locked_spec h l sz :
  heap_ok h l -> 0 < sz -> room h sz ->
  exists h' r, kmalloc_locked h (align16 sz) = Ok (h', r) /\
    match r with
    | Some p => kmalloc_post h l sz h' p
    | None => exists b, heap_ok h' (l ++ [b]) /\ fits (align16 sz) b = true
    end.
Proof.
  intros Hh Hs Hb. unfold room in Hb. pose proof zone_end_64 as H64. pose proof (heap_start_le _ _ Hh) as Hst.
  assert (sz + 31 < 2 ^ 64) as Hs64 by (unfold HEAP_START_VADDR in *; lia).
  destruct (align16_spec sz Hs ltac:(lia)) as [Hal Ham].
  destruct (List.find (fits (align16 sz)) l) as [b|] eqn:Ef.
  - destruct (find_split _ _ _ Ef) as (l1 & l2 & El & Hfit & Hfirst).
    destruct (kmalloc_fit_post h l l1 b l2 sz 0 Hh Hs ltac:(lia) El Hfit Hfirst) as (h' & p & E & Hd & l' & Hok & Hpost).
    cbn [kmalloc_n] in E. destruct (Z.eqb_spec sz 0); [lia|].
    destruct (kmalloc_locked h (align16 sz)) as [[h1 [p1|]]| |] eqn:El'; try discriminate E.
    injection E as -> ->. exists h', (Some p). split; [done|]. split; [done|]. exists l'. auto.
  - unfold kmalloc_locked. rewrite (ok_head _ _ Hh), (scan_spec _ _ l) by (apply Hh || (eapply chain_fuel; apply Hh)).
    rewrite Ef. cbn [obind].
    destruct (expand_spec h l (align16 sz) Hh ltac:(lia) Ham ltac:(lia))
      as (h1 & a & -> & Hd1 & [[-> Hok]|(Ha & nb & Hok & Hnf & Hnsz)]); cbn [obind].
    + eexists _, (Some 0). split; [done|]. split; [done|]. exists l. auto.
    + rewrite (proj2 (Z.eqb_neq _ _) Ha). eexists _, None. split; [done|]. exists nb. split; [done|].
      unfold fits. rewrite Hnf. by apply Z.leb_le.
Qed.

(** [kmalloc] with other callers between its tries, who keep the heap well formed
    and leave room in its zone: it does not panic, and when it returns, its last
    try has served it from the heap that the others left, as [kmalloc] serves a
    caller that is alone. *)
Theorem kmalloc_among_safe os h l sz :
  heap_ok h l -> 0 < sz -> room h sz ->
  Forall (fun o : heap M -> heap M => forall h l, heap_ok h l -> exists l', heap_ok (o h) l' /\ room (o h) (align16 sz)) os ->
  match kmalloc_among os h sz with
  | Ok (h', p) => exists hb lb, (hb = h \/ exists o h0, o ∈ os /\ hb = o h0) /\ heap_ok hb lb /\ kmalloc_post hb lb sz h' p
  | NoFuel => True
  | _ => False
  end.
Proof.
  revert h l sz. induction os as [|o os IH]; intros h l sz Hh Hs Hb Hos; cbn [kmalloc_among];
    (destruct (Z.eqb_spec sz 0); [lia|]);
    destruct (kmalloc_locked_spec h l sz Hh Hs Hb) as (h' & [p|] & -> & Hp); cbn [obind]; try done.
  - exists h, l. auto.
  - exists h, l. auto.
  - destruct Hp as (nb & Hok & _). apply Forall_cons in Hos as [Ho Hos].
    destruct (Ho _ _ Hok) as (l2 & Hok2 & Hr2).
    pose proof zone_end_64 as H64. pose proof (heap_start_le _ _ Hh) as Hst. unfold room in Hb.
    assert (sz + 31 < 2 ^ 64) as Hs64 by (unfold HEAP_START_VADDR in *; lia).
    destruct (align16_spec sz Hs ltac:(lia)) as [Hal Ham].
    specialize (IH (o h') l2 (align16 sz) Hok2 ltac:(lia) Hr2). rewrite align16_idem in IH by lia. specialize (IH Hos).
    destruct (kmalloc_among os (o h') (align16 sz)) as [[h2 p2]| |]; [|done|done].
    destruct IH as (hb & lb & Hfrom & Hokb & Hpost). exists hb, lb. split.
    { right. destruct Hfrom as [->|(o' & h0 & Hin & ->)]; [exists o, h'; split; [by left|done]|exists o', h0; split; [by right|done]]. }
    split; [done|]. by apply (kmalloc_post_le _ _ _ (align16 sz)); [lia|].
Qed.

(** C6. [kfree] of an allocated block never panics, frees exactly that block,
    keeps every other allocation, and leaves no two free neighbours: the heap is
    fully coalesced. *)
Theorem kfree_correct h l b :
  heap_ok h l -> b ∈ allocated l ->
  exists h' l', kfree h (b.(b_addr) + HDR) = Ok h' /\ heap_ok h' l' /\
    b :: allocated l' ≡ₚ allocated l /\ separated l' /\
    h'.(data) = h.(data) /\ h'.(mapper) = h.(mapper).
Proof.
  intros Hh [Hf (l1 & l2 & ->)%list_elem_of_split]%elem_allocated.
  destruct (kfree_spec h l1 b l2 Hh) as (h' & E & Hok & Hd & Hm & _).
  exists h', (coal (l1 ++ release b :: l2)). split_and!; try done.
  - by apply release_allocated.
  - apply coal_separated.
Qed.

(** On a coalesced heap an allocation served from a free block, followed by
    the release of the pointer it returned, gives back the same block list:
    splitting and merging are inverse. *)
Theorem kmalloc_kfree_roundtrip h l b sz :
  heap_ok h l -> separated l -> 0 < sz -> sz + 15 < 2 ^ 64 ->
  List.find (fits (align16 sz)) l = Some b ->
  exists h1 p h2, kmalloc h sz = Ok (h1, p) /\ kfree h1 p = Ok h2 /\ heap_ok h2 l.
Proof.
  intros Hh Hsep Hs H64 Hf. destruct (find_split _ _ _ Hf) as (l1 & l2 & -> & Hfit & Hfirst).
  destruct (kmalloc_fit h _ l1 b l2 sz 1 Hh Hs H64 eq_refl Hfit Hfirst) as [E Hok].
  set (h1 := set_hdrs _ _) in *. apply andb_true_iff in Hfit as [Hfree _].
  unfold take_list in Hok. destruct (align16 sz + HDR + 1 <? b.(b_size)).
  - destruct (kfree_spec h1 l1 _ _ Hok) as (h2 & E2 & Hok2 & _).
    exists h1, (b.(b_addr) + HDR), h2. split; [done|]. split; [done|].
    rewrite (coal_split l1 b) in Hok2; try done.
    unfold merge, release. simpl. destruct b; simpl in *. f_equal; [lia|done].
  - destruct (kfree_spec h1 l1 _ _ Hok) as (h2 & E2 & Hok2 & _).
    exists h1, (b.(b_addr) + HDR), h2. split; [done|]. split; [done|].
    assert (release (mk_blk b.(b_addr) b.(b_size) false) = b) as Er.
    { unfold release. simpl. destruct b. simpl in *. by rewrite Hfree. }
    rewrite Er, coal_separated_id in Hok2; done.
Qed.

(** [krealloc] of an allocated block to a non-zero size: NULL leaves the
    block list and the bytes as they were; otherwise the new block replaces the
    old one among the allocations, holds the first [min(old_size, new_size)]
    bytes of the old one, and the bytes of every other allocation are
    untouched. *)
Theorem krealloc_correct h l b old_size new_size :
  heap_ok h l -> b ∈ allocated l -> 0 <= old_size <= b.(b_size) -> 0 < new_size ->
  h.(current_heap_end) + new_size + 16 + 8192 <= HEAP_ZONE_END ->
  exists h' l' p, krealloc h (b.(b_addr) + HDR) old_size new_size = Ok (h', p) /\ heap_ok h' l' /\
    (p = 0 /\ l' = l /\ h'.(data) = h.(data) \/
     exists n, p = n.(b_addr) + HDR /\ new_size <= n.(b_size) /\
       b :: allocated l' ≡ₚ n :: allocated l /\
       (forall i, 0 <= i < Z.min old_size new_size ->
          ld h'.(data) (p + i) = ld h.(data) (b.(b_addr) + HDR + i)) /\
       (forall c i, c ∈ allocated l -> 0 <= i < c.(b_size) ->
          ld h'.(data) (c.(b_addr) + HDR + i) = ld h.(data) (c.(b_addr) + HDR + i))).
Proof.
  intros Hh Hb Ho Hn Hlim. unfold krealloc.
  destruct (Z.eqb_spec new_size 0); [lia|].
  pose proof (proj1 (elem_allocated b l) Hb) as [Hbf Hbl].
  pose proof (tiled_elem _ _ _ _ (ok_tiled _ _ Hh) Hbl) as (Hba & _).
  unfold HDR, HEAP_START_VADDR in *. destruct (Z.eqb_spec (b.(b_addr) + 32) 0); [lia|].
  destruct (kmalloc_spec h l new_size Hh Hn Hlim) as (h1 & p & -> & Hd & l1 & Hok1 & Hcase).
  cbn [obind]. destruct Hcase as [[-> ->]|(nb & Hp & Hsz & _ & Hperm & Hdis & _)].
  { exists h1, l, 0. split; [done|]. split; [done|]. by left. }
  assert (forall c, c ∈ nb :: allocated l -> c ∈ l1) as Hin.
  { intros c Hc. rewrite <- Hperm in Hc. by apply elem_allocated in Hc as [_ ?]. }
  pose proof (tiled_elem _ _ _ _ (ok_tiled _ _ Hok1) (Hin nb ltac:(by left))) as (Hna & _).
  unfold HDR, HEAP_START_VADDR in *. destruct (Z.eqb_spec p 0); [lia|].
  set (h2 := mk_heap _ _ _ _ _).
  assert (heap_ok h2 l1) as Hok2 by (destruct Hok1; split; done).
  pose proof (Hin b ltac:(by right)) as (a1 & a2 & ->)%list_elem_of_split.
  destruct (kfree_spec h2 a1 b a2 Hok2) as (h3 & E3 & Hok3 & Hd3 & _).
  unfold HDR in E3. rewrite E3. cbn [obind]. eexists h3, _, p. split; [done|]. split; [exact Hok3|].
  right. exists nb. split; [done|]. split; [done|]. split.
  { by rewrite (release_allocated a1 b a2 Hbf). }
  rewrite Hd3. cbn [data h2]. rewrite Hd. fold (Z.min old_size new_size).
  assert ((if old_size <? new_size then old_size else new_size) = Z.min old_size new_size) as ->
    by zcases.
  assert (forall c, c ∈ allocated l -> 0 < b_size c /\
    (p + b_size nb <= c.(b_addr) \/ c.(b_addr) + 32 + c.(b_size) <= p)) as Hsep.
  { intros c Hc. destruct (tiled_elem _ _ _ _ (ok_tiled _ _ Hok1) (Hin c ltac:(by right))) as (_ & _ & ? & _).
    specialize (Hdis c Hc). unfold b_end, HDR in Hdis. lia. }
  destruct (Hsep b Hb) as [_ Hsb]. split.
  - intros i Hi. rewrite copy_bytes_ld by lia. replace (p + i - p) with i by lia. by zcases.
  - intros c i Hc Hi. destruct (Hsep c Hc) as [_ Hsc]. rewrite copy_bytes_ld by lia. by zcases.
Qed.

(** A request within 15 bytes of [2^64] wraps in the round-up to 0: whenever
    a free block exists, the call succeeds and the block returned has size 0
    (or the whole of a block too small to split), far less than requested. *)
Theorem kmalloc_huge_wraps h l b sz :
  heap_ok h l -> 2 ^ 64 - 15 <= sz < 2 ^ 64 -> List.find (fits 0) l = Some b ->
  exists h', kmalloc h sz = Ok (h', b.(b_addr) + HDR) /\
    size (hdr_at h'.(hdrs) b.(b_addr)) = if HDR + 1 <? b.(b_size) then 0 else b.(b_size).
Proof.
  intros Hh Hs Hf. destruct (find_split _ _ _ Hf) as (l1 & l2 & El & _).
  pose proof (ok_chain _ _ Hh) as Hc. pose proof (ok_tiled _ _ Hh) as Ht.
  pose proof zone_end_64 as H64. pose proof (ok_limit _ _ Hh) as Hlim.
  unfold kmalloc. cbn [kmalloc_n]. destruct (Z.eqb_spec sz 0); [lia|]. unfold kmalloc_locked.
  rewrite (align16_wraps sz Hs), (ok_head _ _ Hh), (scan_spec _ _ l) by (done || by eapply chain_fuel).
  rewrite Hf. cbn [obind]. rewrite El in Hc, Ht.
  destruct (block_facts _ _ _ _ _ _ Hc Ht) as (_ & _ & Hp & Hbs & Hbe & E).
  unfold b_end, HDR in *. rewrite u64_id by lia. eexists. split; [done|].
  cbn [hdrs set_hdrs]. unfold take_block. rewrite E. cbn [hdr_of size magic next].
  change (u64 (0 + HDR + 1)) with 33. unfold hdr_at.
  destruct (Z.ltb_spec 33 b.(b_size)), (Z.ltb_spec (32 + 1) b.(b_size)); try lia;
    by rewrite lookup_insert_eq.
Qed.
End theorems.

(** ** Witnesses *)

#[local] Existing Instance Pmm.pmm_allocator.

Definition demo_heap : heap (Paging.vm Pmm.pmm) := mk_heap PagingOps.demo_vm ∅ ∅ 0 HEAP_START_VADDR.

Lemma demo_heap_ok : heap_ok demo_heap [].
Proof.
  split; try done.
  - exists (eq 0x1000). split; [exact PagingOps.demo_vm_ok|]. split; [done|].
    intros x e _ Hx. exfalso. revert Hx. by vm_compute.
  - intros x [? _] ?. simpl in *. lia.
Qed.

(** The heap after a first allocation of 100 bytes: one used and one free block. *)
Definition demo_heap1 : heap (Paging.vm Pmm.pmm) :=
  match kmalloc demo_heap 100 with Ok (h, _) => h | _ => demo_heap end.
Definition demo_used : blk := mk_blk HEAP_START_VADDR 112 false.
Definition demo_rest : blk := mk_blk (HEAP_START_VADDR + 144) 3920 true.


Lemma demo_heap1_ok : heap_ok demo_heap1 [demo_used; demo_rest].
Proof.
  destruct (kmalloc_spec demo_heap [] 100 demo_heap_ok ltac:(lia) ltac:(by vm_compute))
    as (h' & p & E & _ & l' & Hok & _).
  assert (demo_heap1 = h') as E1 by (unfold demo_heap1; by rewrite E). rewrite <- E1 in Hok.
  destruct Hok as [_ _ _ Hpg Hlim Hi Hm].
  assert (demo_heap1.(current_heap_end) = HEAP_START_VADDR + 4096) as Eend by (vm_compute; reflexivity).
  split; [| | |exact Hpg|exact Hlim|exact Hi|exact Hm].
  - vm_compute; reflexivity.
  - split; [reflexivity|split; [vm_compute; reflexivity|]].
    split; [reflexivity|split; [vm_compute; reflexivity|exact I]].
  - rewrite Eend. clear. cbn [tiled]. split_and!; reflexivity.
Qed.

Lemma kfree_correct_witness :
  exists h' l', kfree demo_heap1 (HEAP_START_VADDR + HDR) = Ok h' /\ heap_ok h' l' /\
    demo_used :: allocated l' ≡ₚ [demo_used].
Proof.
  destruct (kfree_correct demo_heap1 _ demo_used demo_heap1_ok
    ltac:(apply elem_allocated; split; [reflexivity|left])) as (h' & l' & E & Hok & Hp & _).
  exists h', l'. exact (conj E (conj Hok Hp)).
Defined.

Lemma kmalloc_kfree_roundtrip_witness :
  exists h1 p h2, kmalloc demo_heap1 200 = Ok (h1, p) /\ kfree h1 p = Ok h2 /\
    heap_ok h2 [demo_used; demo_rest].
Proof.
  exact (kmalloc_kfree_roundtrip demo_heap1 [demo_used; demo_rest] demo_rest 200 demo_heap1_ok
    (conj eq_refl (conj I I)) ltac:(lia) ltac:(lia) eq_refl).
Defined.

Lemma krealloc_correct_witness :
  exists h' l' p, krealloc demo_heap1 (HEAP_START_VADDR + HDR) 100 300 = Ok (h', p) /\ heap_ok h' l'.
Proof.
  destruct (krealloc_correct demo_heap1 _ demo_used 100 300 demo_heap1_ok
    ltac:(apply elem_allocated; split; [reflexivity|left]) ltac:(done) ltac:(lia)
    ltac:(by vm_compute)) as (h' & l' & p & E & Hok & _).
  exists h', l', p. exact (conj E Hok).
Defined.

Lemma kmalloc_huge_wraps_witness :
  exists h', kmalloc demo_heap1 (2 ^ 64 - 8) = Ok (h', HEAP_START_VADDR + 144 + HDR) /\
    size (hdr_at h'.(hdrs) (HEAP_START_VADDR + 144)) = 0.
Proof.
  exact (kmalloc_huge_wraps demo_heap1 [demo_used; demo_rest] demo_rest (2 ^ 64 - 8) demo_heap1_ok
    ltac:(lia) eq_refl).
Defined.
End HeapOps.
