(* ===== verification/Sched.v ===== *)
(** * Scheduler (src/kernel/sched/{runqueue,core,block,lifecycle}.c, src/kernel/smp/smp.c)

    Per-CPU run queues with priorities and aging, work stealing, the context
    switch of [schedule_on_cpu], blocking, sleeping, task creation and exit.

    Each function below is one critical section of [scheduler_lock] (or of a
    queue lock) as the source has it; functions that release the lock in the
    middle ([unblock_task], [create_task_prio]) are composed of such sections,
    and the step relation of [SchedSpec] interleaves them.  [now_ms] is
    [timer_get_ms()], the results of [kmalloc] and [smp_current_cpu_index] are
    arguments, and calls into other components that do not change this state
    (releasing memory, flushing event queues, IPIs, TSS and CR3 loads) are
    appended to [log] in the order the source makes them. *)

From stdpp Require Import base numbers list gmap.
From Stdlib Require Import ZArith Lia.
From S2P Require Import Prelude.

#[local] Open Scope Z_scope.

Module Sched.

(** ** Data *)

Definition MAX_TASKS : Z := 16.
Definition SMP_MAX_CPUS : Z := 16.
Definition TASK_STACK_SIZE : Z := 16384.
Definition SYSCALL_STACK_SIZE : Z := 16384.
Definition RUNQ_CAPACITY : Z := MAX_TASKS.
Definition AGE_STEP_MS : Z := 100.
Definition AGE_MAX_BONUS : Z := 8.
Definition PRIO_NORMAL : Z := 1.
Definition PRIO_MAX : Z := 3.
Definition NULL : Z := 0.

Inductive tstate := READY | RUNNING | SLEEPING | DEAD | BLOCKED.
#[export] Instance tstate_eq_dec : EqDecision tstate.
Proof. solve_decision. Defined.

Inductive tkind := KIND_KERNEL | KIND_SPAWNED.

Record task_t := mk_task {
  id : Z; rsp : Z; stack_base : Z; state : tstate; name : list Z;
  pml4_phys : Z; cookie : Z; wake_at_ms : Z; priority : Z; enqueue_ms : Z;
  kind : tkind;
}.
Definition task0 : task_t := mk_task 0 0 0 DEAD [] 0 0 0 PRIO_NORMAL 0 KIND_KERNEL.

Record percpu_t := mk_percpu {
  processor_id : Z; lapic_id : Z; online : Z; reschedule_pending : Z;
  idle_ticks : Z; scheduler_ticks : Z; current_cr3 : Z;
}.
Definition percpu0 : percpu_t := mk_percpu 0 0 0 0 0 0 0.

Inductive effect :=
  | KFree (p : Z)
  | UheapReset (t : Z)
  | FlushEvents (t : Z)
  | VfsCloseAll (t : Z)
  | SwitchToKernelAS
  | DestroyAS (pml4 : Z)
  | SendReschedule (cpu : Z)
  | SetRsp0 (cpu top : Z)
  | LoadCr3 (cpu v : Z)
  | EnterIdleStack (top old : Z)
  | Yield.

Record sched := mk_sched {
  tasks : gmap Z task_t;
  task_count : Z;
  current_task : Z;
  cpu_current_task : gmap Z Z;
  cpu_runqueues : gmap Z (list Z);
  smp_percpu : gmap Z percpu_t;
  smp_cpu_online_count : Z;
  idle_stack_tops : gmap Z Z;
  syscall_stack_tops : gmap Z Z;
  kmem : gmap Z Z;
  now_ms : Z;
  kernel_pml4_phys : Z;
  log : list effect;
}.

Definition task (s : sched) (t : Z) : task_t := default task0 (s.(tasks) !! t).
Definition cur (s : sched) (c : Z) : Z := default (-1) (s.(cpu_current_task) !! c).
Definition rq (s : sched) (c : Z) : list Z := default [] (s.(cpu_runqueues) !! c).
Definition percpu (s : sched) (c : Z) : percpu_t := default percpu0 (s.(smp_percpu) !! c).

Definition set_task (s : sched) (t : Z) (x : task_t) : sched :=
  mk_sched (<[t := x]> s.(tasks)) s.(task_count) s.(current_task) s.(cpu_current_task)
    s.(cpu_runqueues) s.(smp_percpu) s.(smp_cpu_online_count) s.(idle_stack_tops)
    s.(syscall_stack_tops) s.(kmem) s.(now_ms) s.(kernel_pml4_phys) s.(log).
Definition set_count (s : sched) (n : Z) : sched :=
  mk_sched s.(tasks) n s.(current_task) s.(cpu_current_task)
    s.(cpu_runqueues) s.(smp_percpu) s.(smp_cpu_online_count) s.(idle_stack_tops)
    s.(syscall_stack_tops) s.(kmem) s.(now_ms) s.(kernel_pml4_phys) s.(log).
Definition set_current_task (s : sched) (t : Z) : sched :=
  mk_sched s.(tasks) s.(task_count) t s.(cpu_current_task)
    s.(cpu_runqueues) s.(smp_percpu) s.(smp_cpu_online_count) s.(idle_stack_tops)
    s.(syscall_stack_tops) s.(kmem) s.(now_ms) s.(kernel_pml4_phys) s.(log).
Definition set_cur (s : sched) (c t : Z) : sched :=
  mk_sched s.(tasks) s.(task_count) s.(current_task) (<[c := t]> s.(cpu_current_task))
    s.(cpu_runqueues) s.(smp_percpu) s.(smp_cpu_online_count) s.(idle_stack_tops)
    s.(syscall_stack_tops) s.(kmem) s.(now_ms) s.(kernel_pml4_phys) s.(log).
Definition set_rq (s : sched) (c : Z) (l : list Z) : sched :=
  mk_sched s.(tasks) s.(task_count) s.(current_task) s.(cpu_current_task)
    (<[c := l]> s.(cpu_runqueues)) s.(smp_percpu) s.(smp_cpu_online_count) s.(idle_stack_tops)
    s.(syscall_stack_tops) s.(kmem) s.(now_ms) s.(kernel_pml4_phys) s.(log).
Definition set_percpu (s : sched) (c : Z) (x : percpu_t) : sched :=
  mk_sched s.(tasks) s.(task_count) s.(current_task) s.(cpu_current_task)
    s.(cpu_runqueues) (<[c := x]> s.(smp_percpu)) s.(smp_cpu_online_count) s.(idle_stack_tops)
    s.(syscall_stack_tops) s.(kmem) s.(now_ms) s.(kernel_pml4_phys) s.(log).
Definition set_kmem (s : sched) (m : gmap Z Z) : sched :=
  mk_sched s.(tasks) s.(task_count) s.(current_task) s.(cpu_current_task)
    s.(cpu_runqueues) s.(smp_percpu) s.(smp_cpu_online_count) s.(idle_stack_tops)
    s.(syscall_stack_tops) m s.(now_ms) s.(kernel_pml4_phys) s.(log).
Definition emit (s : sched) (e : effect) : sched :=
  mk_sched s.(tasks) s.(task_count) s.(current_task) s.(cpu_current_task)
    s.(cpu_runqueues) s.(smp_percpu) s.(smp_cpu_online_count) s.(idle_stack_tops)
    s.(syscall_stack_tops) s.(kmem) s.(now_ms) s.(kernel_pml4_phys) (s.(log) ++ [e]).

Definition upd_task (s : sched) (t : Z) (f : task_t -> task_t) : sched := set_task s t (f (task s t)).

Definition with_rsp (r : Z) (x : task_t) : task_t :=
  mk_task x.(id) r x.(stack_base) x.(state) x.(name) x.(pml4_phys) x.(cookie) x.(wake_at_ms)
    x.(priority) x.(enqueue_ms) x.(kind).
Definition with_state (st : tstate) (x : task_t) : task_t :=
  mk_task x.(id) x.(rsp) x.(stack_base) st x.(name) x.(pml4_phys) x.(cookie) x.(wake_at_ms)
    x.(priority) x.(enqueue_ms) x.(kind).
Definition with_stack (b : Z) (x : task_t) : task_t :=
  mk_task x.(id) x.(rsp) b x.(state) x.(name) x.(pml4_phys) x.(cookie) x.(wake_at_ms)
    x.(priority) x.(enqueue_ms) x.(kind).
Definition with_pml4 (p : Z) (x : task_t) : task_t :=
  mk_task x.(id) x.(rsp) x.(stack_base) x.(state) x.(name) p x.(cookie) x.(wake_at_ms)
    x.(priority) x.(enqueue_ms) x.(kind).
Definition with_wake (w : Z) (x : task_t) : task_t :=
  mk_task x.(id) x.(rsp) x.(stack_base) x.(state) x.(name) x.(pml4_phys) x.(cookie) w
    x.(priority) x.(enqueue_ms) x.(kind).
Definition with_enqueue (e : Z) (x : task_t) : task_t :=
  mk_task x.(id) x.(rsp) x.(stack_base) x.(state) x.(name) x.(pml4_phys) x.(cookie) x.(wake_at_ms)
    x.(priority) e x.(kind).

(** ** Per-CPU bookkeeping (smp.c) *)

Definition upd_percpu (s : sched) (c : Z) (f : percpu_t -> percpu_t) : sched :=
  if SMP_MAX_CPUS <=? c then s else set_percpu s c (f (percpu s c)).

Definition smp_register_cpu (s : sched) (c proc lapic onl : Z) : sched :=
  upd_percpu s c (fun _ => mk_percpu proc lapic onl 0 0 0 0).

Definition smp_set_cpu_online (s : sched) (c : Z) : sched :=
  if SMP_MAX_CPUS <=? c then s
  else if (percpu s c).(online) =? 0 then
    let x := percpu s c in
    let s := set_percpu s c (mk_percpu x.(processor_id) x.(lapic_id) 1 x.(reschedule_pending)
               x.(idle_ticks) x.(scheduler_ticks) x.(current_cr3)) in
    mk_sched s.(tasks) s.(task_count) s.(current_task) s.(cpu_current_task)
      s.(cpu_runqueues) s.(smp_percpu) (u32 (s.(smp_cpu_online_count) + 1)) s.(idle_stack_tops)
      s.(syscall_stack_tops) s.(kmem) s.(now_ms) s.(kernel_pml4_phys) s.(log)
  else s.

Definition smp_note_idle_tick (s : sched) (c : Z) : sched :=
  upd_percpu s c (fun x => mk_percpu x.(processor_id) x.(lapic_id) x.(online)
    x.(reschedule_pending) (u64 (x.(idle_ticks) + 1)) x.(scheduler_ticks) x.(current_cr3)).
Definition smp_note_scheduler_tick (s : sched) (c : Z) : sched :=
  upd_percpu s c (fun x => mk_percpu x.(processor_id) x.(lapic_id) x.(online)
    x.(reschedule_pending) x.(idle_ticks) (u64 (x.(scheduler_ticks) + 1)) x.(current_cr3)).
Definition smp_mark_reschedule (s : sched) (c : Z) : sched :=
  upd_percpu s c (fun x => mk_percpu x.(processor_id) x.(lapic_id) x.(online) 1
    x.(idle_ticks) x.(scheduler_ticks) x.(current_cr3)).
Definition smp_clear_reschedule (s : sched) (c : Z) : sched :=
  upd_percpu s c (fun x => mk_percpu x.(processor_id) x.(lapic_id) x.(online) 0
    x.(idle_ticks) x.(scheduler_ticks) x.(current_cr3)).
Definition smp_reschedule_pending (s : sched) (c : Z) : bool :=
  if SMP_MAX_CPUS <=? c then false else negb ((percpu s c).(reschedule_pending) =? 0).
Definition set_cr3 (s : sched) (c v : Z) : sched :=
  upd_percpu s c (fun x => mk_percpu x.(processor_id) x.(lapic_id) x.(online)
    x.(reschedule_pending) x.(idle_ticks) x.(scheduler_ticks) v).

(** [lapic] is the id read from the local APIC of the executing CPU. *)
Definition smp_current_cpu_index (s : sched) (lapic : Z) : Z :=
  default 0 (find_loop 0 SMP_MAX_CPUS (fun i =>
    negb ((percpu s i).(online) =? 0) && ((percpu s i).(lapic_id) =? lapic))).

Definition smp_online_cpu_count (s : sched) : Z := s.(smp_cpu_online_count).

(** Wakes a CPU: mark it and send the IPI. *)
Definition kick (s : sched) (c : Z) : sched := emit (smp_mark_reschedule s c) (SendReschedule c).

(** ** Run queues (runqueue.c) *)

Definition effective_prio (s : sched) (t now : Z) : Z :=
  let base := (task s t).(priority) in
  let enq := (task s t).(enqueue_ms) in
  let waited := if enq <? now then now - enq else 0 in
  let bonus := u32 (waited / AGE_STEP_MS) in
  let bonus := if AGE_MAX_BONUS <? bonus then AGE_MAX_BONUS else bonus in
  u32 (base + bonus).

Definition runq_init (s : sched) : sched :=
  for_loop 0 SMP_MAX_CPUS (fun i s => set_rq s i []) s.

Definition runq_len (s : sched) (c : Z) : Z :=
  if SMP_MAX_CPUS <=? c then 0 else Z.of_nat (length (rq s c)).

Definition runq_push (s : sched) (c t : Z) : sched * bool :=
  if RUNQ_CAPACITY <=? Z.of_nat (length (rq s c)) then (s, false)
  else
    let s := upd_task s t (with_enqueue s.(now_ms)) in
    (set_rq s c (rq s c ++ [t]), true).

Definition entry (l : list Z) (i : Z) : Z := default 0 (l !! Z.to_nat i).

(** The scan for the best entry: index and effective priority. *)
Definition best_entry (s : sched) (l : list Z) : Z * Z :=
  let now := s.(now_ms) in
  for_loop 1 (Z.of_nat (length l)) (fun i b =>
    let p := effective_prio s (entry l i) now in
    if (b.2 <? p) ||
       ((p =? b.2) && ((task s (entry l i)).(enqueue_ms) <? (task s (entry l b.1)).(enqueue_ms)))
    then (i, p) else b) (0, effective_prio s (entry l 0) now).

(** [entries[i] = entries[--count]] *)
Definition swap_remove (l : list Z) (i : Z) : list Z :=
  let n := Z.of_nat (length l) in
  take (Z.to_nat (n - 1)) (<[Z.to_nat i := entry l (n - 1)]> l).

Definition runq_pop (s : sched) (c : Z) : sched * Z :=
  let l := rq s c in
  if Z.of_nat (length l) =? 0 then (s, -1)
  else
    let i := (best_entry s l).1 in
    (set_rq s c (swap_remove l i), entry l i).

Definition online_cpus (s : sched) : Z :=
  let n := smp_online_cpu_count s in if SMP_MAX_CPUS <? n then SMP_MAX_CPUS else n.

Definition cpu_load (s : sched) (i : Z) : Z :=
  Z.of_nat (length (rq s i)) + (if 0 <=? cur s i then 1 else 0).

Definition pick_target_cpu (s : sched) : Z :=
  let n := online_cpus s in
  if n =? 0 then 0
  else
    match find_loop 0 n (fun i => (cur s i <? 0) && (Z.of_nat (length (rq s i)) =? 0)) with
    | Some i => i
    | None =>
        (for_loop 0 n (fun i b => if cpu_load s i <? b.2 then (i, cpu_load s i) else b)
           (0, 0xFFFFFFFF)).1
    end.

Definition steal_task (s : sched) (self_cpu : Z) : sched * Z :=
  let v := for_loop 0 (online_cpus s) (fun i b =>
             if i =? self_cpu then b
             else if b.2 <? Z.of_nat (length (rq s i)) then (i, Z.of_nat (length (rq s i))) else b)
             (-1, 0) in
  if v.1 <? 0 then (s, -1) else runq_pop s v.1.

(** ** Context switch (core.c) *)

Definition task_syscall_stack_top (s : sched) (c : Z) : Z :=
  ld s.(syscall_stack_tops) (if SMP_MAX_CPUS <=? c then 0 else c).
Definition task_idle_stack_top (s : sched) (c : Z) : Z :=
  ld s.(idle_stack_tops) (if SMP_MAX_CPUS <=? c then 0 else c).

Definition scheduler_idle_pass (s : sched) (c : Z) : sched :=
  let s := if c <? SMP_MAX_CPUS then set_cur s c (-1) else s in
  smp_note_idle_tick s c.

(** The CR3 switch at the end of [schedule_on_cpu]. *)
Definition load_address_space (s : sched) (c next : Z) : sched :=
  let target := if negb ((task s next).(pml4_phys) =? NULL) then (task s next).(pml4_phys)
                else s.(kernel_pml4_phys) in
  if negb (target =? NULL) && negb ((percpu s c).(current_cr3) =? target)
  then set_cr3 (emit s (LoadCr3 c target)) c target
  else s.

(** Installs [next] on CPU [c]: state, current task, RSP0, CR3. *)
Definition install (s : sched) (c next : Z) : sched :=
  let s := upd_task s next (with_state RUNNING) in
  let s := set_cur s c next in
  let s := if c =? 0 then set_current_task s next else s in
  let top := if negb ((task s next).(stack_base) =? 0)
             then (task s next).(stack_base) + TASK_STACK_SIZE
             else task_syscall_stack_top s c in
  load_address_space (emit s (SetRsp0 c top)) c next.

(** [regs] is the interrupted frame; the result is the frame to resume. *)
Definition schedule_on_cpu (s : sched) (c regs : Z) : sched * Z :=
  if (SMP_MAX_CPUS <=? c) || (regs =? NULL) then (s, regs)
  else
    let s := smp_clear_reschedule (smp_note_scheduler_tick s c) c in
    if s.(task_count) <=? 0 then (s, regs)
    else
      let me := cur s c in
      let live := (0 <=? me) && (me <? s.(task_count)) in
      let st := if live then (task s me).(state) else DEAD in
      let running := live && bool_decide (st = RUNNING) in
      let blocked := live && (bool_decide (st = SLEEPING) || bool_decide (st = BLOCKED)) in
      let s := if negb running && negb blocked then set_cur s c (-1) else s in
      let (s, next) := runq_pop s c in
      let (s, next) := if next <? 0 then steal_task s c else (s, next) in
      if next <? 0 then
        (if blocked then upd_task s me (with_rsp regs) else s, regs)
      else if (s.(task_count) <=? next) || negb (bool_decide ((task s next).(state) = READY)) ||
              ((task s next).(rsp) =? 0)
      then (s, regs)
      else
        let s := if blocked then upd_task s me (with_rsp regs) else s in
        if running then
          let s := upd_task (upd_task s me (with_rsp regs)) me (with_state READY) in
          let (s, ok) := runq_push s c me in
          if negb ok then
            ((runq_push (upd_task s me (with_state RUNNING)) c next).1, regs)
          else let s := install s c next in (s, (task s next).(rsp))
        else let s := install s c next in (s, (task s next).(rsp)).

Definition schedule (s : sched) (regs : Z) : sched * Z := schedule_on_cpu s 0 regs.

(** [c] is the index of the executing CPU. *)
Definition smp_current_task_id (s : sched) (c : Z) : Z :=
  if SMP_MAX_CPUS <=? c then -1 else cur s c.

(** ** Blocking and sleeping (block.c) *)

Definition is_blocked (st : tstate) : bool :=
  bool_decide (st = SLEEPING) || bool_decide (st = BLOCKED).

Definition block_prepare (s : sched) (c : Z) (new_state : tstate) : sched * Z :=
  if negb (is_blocked new_state) then (s, -1)
  else
    let self := if c <? SMP_MAX_CPUS then cur s c else -1 in
    if (self <? 0) || (s.(task_count) <=? self) then (s, -1)
    else if negb (bool_decide ((task s self).(state) = RUNNING)) then (s, -1)
    else (upd_task s self (with_state new_state), self).

(** One iteration of the loop of [block_park]; [None] when the loop exits. *)
Definition block_park_pass (s : sched) (c self : Z) : option sched :=
  if (self <? 0) || (MAX_TASKS <=? self) then None
  else if bool_decide ((task s self).(state) = RUNNING) then None
  else Some (kick s c).

(** First critical section of [unblock_task]: what is left to do afterwards. *)
Inductive unblock_rest := Unblocked | KickCpu (c : Z) | Enqueue (t : Z).

Definition unblock_mark (s : sched) (t : Z) : sched * unblock_rest :=
  if (t <? 0) || (MAX_TASKS <=? t) then (s, Unblocked)
  else if negb (is_blocked (task s t).(state)) then (s, Unblocked)
  else
    let on_cpu := find_loop 0 SMP_MAX_CPUS (fun i => cur s i =? t) in
    let s := upd_task s t (with_wake 0) in
    match on_cpu with
    | Some i => (upd_task s t (with_state RUNNING), KickCpu i)
    | None => (upd_task s t (with_state READY), Enqueue t)
    end.

(** The rest of [unblock_task] for a task left READY: [self_cpu] executes. *)
Definition unblock_place (s : sched) (t target self_cpu : Z) : sched :=
  let (s, ok) := runq_push s target t in
  if negb ok then
    if bool_decide ((task s t).(state) = READY) then upd_task s t (with_state BLOCKED) else s
  else if negb (target =? self_cpu) then kick s target else s.

Definition unblock_task (s : sched) (t self_cpu : Z) : sched :=
  match unblock_mark s t with
  | (s, Unblocked) => s
  | (s, KickCpu i) => kick s i
  | (s, Enqueue t) => unblock_place s t (pick_target_cpu s) self_cpu
  end.

(** [task_sleep_ms] up to the park; the second part is the task to park. *)
Definition task_sleep_ms (s : sched) (c ms : Z) : sched * Z :=
  if ms =? 0 then (emit s Yield, -1)
  else
    let target := u64 (s.(now_ms) + ms) in
    let self := if c <? SMP_MAX_CPUS then cur s c else -1 in
    if (self <? 0) || (s.(task_count) <=? self) then (s, -1)
    else block_prepare (upd_task s self (with_wake target)) c SLEEPING.

Definition due (s : sched) (now t : Z) : bool :=
  bool_decide ((task s t).(state) = SLEEPING) && negb ((task s t).(wake_at_ms) =? 0) &&
  ((task s t).(wake_at_ms) <=? now).

Definition sleepq_check_wakeups (s : sched) (now self_cpu : Z) : sched :=
  let wake := List.filter (due s now) (zrange 0 (Z.min MAX_TASKS s.(task_count))) in
  foldl (fun s t => unblock_task s t self_cpu) s wake.

(** ** Lifecycle (lifecycle.c) *)

(** [task_strncpy(dst, src, 16)]: at most 15 bytes, up to the terminator. *)
Fixpoint task_strncpy (n : nat) (src : list Z) : list Z :=
  match n, src with
  | S n, c :: src => if c =? 0 then [] else c :: task_strncpy n src
  | _, _ => []
  end.

Definition boot_task : task_t :=
  mk_task 0 0 0 RUNNING (task_strncpy 15 [107; 109; 97; 105; 110]) 0 0 0 PRIO_NORMAL 0 KIND_KERNEL.

(** [sched_stacks_init]: [allocs] are the results of the successive [kmalloc]
    calls, [None] the panic on failure. *)
Fixpoint stack_tops (allocs : list Z) (i : Z) (n : nat) (sz : Z) (m : gmap Z Z)
    : option (gmap Z Z * list Z) :=
  match n with
  | O => Some (m, allocs)
  | S n =>
      match allocs with
      | [] => None
      | a :: allocs =>
          if a =? 0 then None
          else stack_tops allocs (i + 1) n sz (st m i (Z.land (u64 (a + sz)) (2 ^ 64 - 16)))
      end
  end.

Definition sched_stacks_init (s : sched) (allocs : list Z) : option sched :=
  match stack_tops allocs 0 16 TASK_STACK_SIZE s.(idle_stack_tops) with
  | None => None
  | Some (idle, allocs) =>
      match stack_tops allocs 0 16 SYSCALL_STACK_SIZE s.(syscall_stack_tops) with
      | None => None
      | Some (sys, _) =>
          let s := mk_sched s.(tasks) s.(task_count) s.(current_task) s.(cpu_current_task)
            s.(cpu_runqueues) s.(smp_percpu) s.(smp_cpu_online_count) idle sys
            s.(kmem) s.(now_ms) s.(kernel_pml4_phys) s.(log) in
          Some (emit s (SetRsp0 0 (ld sys 0)))
      end
  end.

Definition reset_task (x : task_t) : task_t :=
  mk_task x.(id) 0 x.(stack_base) DEAD x.(name) NULL 0 0 PRIO_NORMAL 0 KIND_KERNEL.

(** [boot_cr3] is [vmm_read_cr3()]. *)
Definition tasking_init (s : sched) (allocs : list Z) (boot_cr3 : Z) : option sched :=
  let s := for_loop 0 MAX_TASKS (fun i s => upd_task s i reset_task) s in
  let s := for_loop 0 SMP_MAX_CPUS (fun i s => set_cur s i (-1)) s in
  match sched_stacks_init (runq_init s) allocs with
  | None => None
  | Some s =>
      let s := set_task s 0 boot_task in
      let s := set_cur (set_count (set_current_task s 0) 1) 0 0 in
      Some (set_cr3 s 0 boot_cr3)
  end.

(** One push on the new stack: [*(--p) = v]. *)
Definition push (pm : Z * gmap Z Z) (v : Z) : Z * gmap Z Z := (pm.1 - 8, st pm.2 (pm.1 - 8) v).

Definition kernel_frame (stack_top func trampoline : Z) : list Z :=
  [0x10; stack_top; 0x202; 0x08; trampoline; 0; 0;
   0; 0; 0; 0; 0; 0; func; 0; 0; 0; 0; 0; 0; 0; 0].

Definition user_frame (entry_rip user_rsp : Z) : list Z :=
  [0x23; user_rsp; 0x202; 0x1B; entry_rip; 0; 0;
   0; 0; 0; 0; 0; 0; 0; 0; 0; 0; 0; 0; 0; 0; 0].

(** Zeroes the stack and writes the frame; the frame pointer comes back. *)
Definition build_frame (m : gmap Z Z) (stack : Z) (vals : list Z) : Z * gmap Z Z :=
  let m := for_loop 0 (TASK_STACK_SIZE / 8) (fun i m => st m (stack + 8 * i) 0) m in
  foldl push (stack + TASK_STACK_SIZE, m) vals.

Definition find_slot (s : sched) : option Z :=
  match find_loop 1 s.(task_count) (fun i => bool_decide ((task s i).(state) = DEAD)) with
  | Some i => Some i
  | None => if s.(task_count) <? MAX_TASKS then Some s.(task_count) else None
  end.

(** Critical section of task creation: take a slot and fill the TCB.  [None]
    when no slot is left. *)
Definition create_slot (s : sched) (x : Z -> task_t) : sched * option Z :=
  match find_slot s with
  | None => (s, None)
  | Some slot =>
      let s := if slot =? s.(task_count) then set_count s (s.(task_count) + 1) else s in
      let s := if negb ((task s slot).(stack_base) =? 0)
               then emit s (KFree (task s slot).(stack_base)) else s in
      let s := emit (emit s (UheapReset slot)) (FlushEvents slot) in
      (set_task s slot (x slot), Some slot)
  end.

(** Rest of the creation: place the task, or give its slot and stack back.
    [zero_base] says whether the failure path clears [stack_base]. *)
Definition create_place (s : sched) (slot stack target self_cpu : Z) (zero_base : bool) : sched * bool :=
  let (s, ok) := runq_push s target slot in
  if negb ok then
    let s := upd_task (upd_task s slot (with_state DEAD)) slot (with_rsp 0) in
    let s := if zero_base then upd_task s slot (with_stack 0) else s in
    (emit s (KFree stack), false)
  else (if negb (target =? self_cpu) then kick s target else s, true).

Definition create_task_prio (s : sched) (stack func trampoline : Z) (nm : option (list Z))
    (prio self_cpu : Z) : sched :=
  if stack =? 0 then s
  else
    let (p, m) := build_frame s.(kmem) stack
                    (kernel_frame (stack + TASK_STACK_SIZE) func trampoline) in
    let s := set_kmem s m in
    let x slot := mk_task slot p stack READY
                    (task_strncpy 15 (default [116; 97; 115; 107] nm)) NULL 0 0 prio
                    (task s slot).(enqueue_ms) KIND_KERNEL in
    match create_slot s x with
    | (s, None) => emit s (KFree stack)
    | (s, Some slot) => (create_place s slot stack (pick_target_cpu s) self_cpu false).1
    end.

Definition create_task (s : sched) (stack func trampoline : Z) (nm : option (list Z)) (self_cpu : Z) : sched :=
  create_task_prio s stack func trampoline nm PRIO_NORMAL self_cpu.

Definition create_user_task (s : sched) (stack entry_rip user_rsp pml4 ck : Z)
    (nm : option (list Z)) (self_cpu : Z) : sched * Z :=
  if stack =? 0 then (s, -1)
  else
    let (p, m) := build_frame s.(kmem) stack (user_frame entry_rip user_rsp) in
    let s := set_kmem s m in
    let x slot := mk_task slot p stack READY
                    (task_strncpy 15 (default [97; 112; 112] nm)) pml4 ck 0 PRIO_NORMAL
                    (task s slot).(enqueue_ms) KIND_SPAWNED in
    match create_slot s x with
    | (s, None) => (emit s (KFree stack), -1)
    | (s, Some slot) =>
        let (s, ok) := create_place s slot stack (pick_target_cpu s) self_cpu true in
        (s, if ok then slot else -1)
    end.

(** [vmm_switch_to_kernel_as] as this component sees it: CR3 and its copy. *)
Definition switch_to_kernel_as (s : sched) (c : Z) : sched :=
  let s := emit s SwitchToKernelAS in
  if s.(kernel_pml4_phys) =? NULL then s else set_cr3 s c s.(kernel_pml4_phys).

(** The critical section of [task_exit]: the stack and the address space the
    caller still has to release. *)
Definition exit_section (s : sched) (c : Z) : sched * Z * Z :=
  if c <? SMP_MAX_CPUS then
    let me := cur s c in
    let '(s, old, dead) :=
      if (0 <? me) && (me <? s.(task_count)) then
        let old := (task s me).(stack_base) in
        let s := upd_task s me (with_stack 0) in
        let '(s, dead) :=
          if negb ((task s me).(pml4_phys) =? NULL) then
            let dead := (task s me).(pml4_phys) in
            (upd_task (switch_to_kernel_as s c) me (with_pml4 NULL), dead)
          else (s, NULL) in
        let s := emit s (UheapReset me) in
        (upd_task (upd_task s me (with_state DEAD)) me (with_rsp 0), old, dead)
      else (s, NULL, NULL) in
    (set_cur s c (-1), old, dead)
  else (s, NULL, NULL).

Definition task_exit (s : sched) (c : Z) : sched :=
  let me := smp_current_task_id s c in
  let s := emit (emit s (VfsCloseAll me)) (FlushEvents me) in
  let '(s, old, dead) := exit_section s c in
  let s := if negb (dead =? NULL) then emit s (DestroyAS dead) else s in
  emit s (EnterIdleStack (task_idle_stack_top s c) old).

(** [task_exit_finish_on_idle], reached on the idle stack. *)
Definition task_exit_finish_on_idle (s : sched) (c old : Z) : sched :=
  let s := if negb (old =? NULL) then emit s (KFree old) else s in
  scheduler_idle_pass s c.

End Sched.
