(* ===== verification/SchedSpec.v ===== *)
(** * Safety of the scheduler under every interleaving

    The step relation interleaves the critical sections of all CPUs; its
    invariant says that a READY task waits in exactly one place, that no task
    is current on two CPUs, and that every task that is not running has a saved
    frame to resume. *)

From stdpp Require Import base numbers list gmap.
From Stdlib Require Import ZArith Lia.
From S2P Require Import Prelude Sched.

#[local] Open Scope Z_scope.

Module SchedSpec.
Import Sched.

(** ** The invariant, on the parts of the state it speaks about *)

Definition parked (st : tstate) : Prop := st = SLEEPING \/ st = BLOCKED.

(** [n] tasks, their states and saved frames, the current task of each CPU, and
    all waiting task ids (run queues and tasks about to be queued). *)
Record inv_core (n : Z) (st : Z -> tstate) (rs : Z -> Z) (cu : Z -> Z) (q : list Z) : Prop := {
  ic_count : 0 <= n <= MAX_TASKS;
  ic_dead : forall t, ~ 0 <= t < n -> st t = DEAD;
  ic_nodup : NoDup q;
  ic_ready : forall t, t ∈ q <-> st t = READY;
  ic_cur : forall c, 0 <= c < SMP_MAX_CPUS -> 0 <= cu c -> st (cu c) = RUNNING \/ parked (st (cu c));
  ic_inj : forall c d, 0 <= c < SMP_MAX_CPUS -> 0 <= d < SMP_MAX_CPUS -> 0 <= cu c -> cu c = cu d -> c = d;
  ic_running : forall t, st t = RUNNING -> t <> 0 -> exists c, 0 <= c < SMP_MAX_CPUS /\ cu c = t;
  ic_frame : forall t, st t = READY \/ (parked (st t) /\ forall c, 0 <= c < SMP_MAX_CPUS -> cu c <> t) ->
    rs t <> 0;
}.

Definition upd {T} (f : Z -> T) (k : Z) (v : T) (x : Z) : T := if x =? k then v else f x.

Lemma upd_eq {T} (f : Z -> T) k v : upd f k v k = v.
Proof. unfold upd. by rewrite Z.eqb_refl. Qed.
Lemma upd_ne {T} (f : Z -> T) k v x : x <> k -> upd f k v x = f x.
Proof. unfold upd. by destruct (Z.eqb_spec x k). Qed.

Lemma inv_core_ext n st rs cu q st' rs' cu' q' :
  inv_core n st rs cu q -> (forall t, st' t = st t) -> (forall t, rs' t = rs t) ->
  (forall c, 0 <= c < SMP_MAX_CPUS -> cu' c = cu c) -> q' ≡ₚ q -> inv_core n st' rs' cu' q'.
Proof.
  intros [H1 H2 H3 H4 H5 H6 H7 H8] Es Er Ec Eq. split.
  - done.
  - intros t. rewrite Es. apply H2.
  - by rewrite Eq.
  - intros t. by rewrite Es, Eq.
  - intros c Hc. rewrite Ec, Es by done. by apply H5.
  - intros c d Hc Hd. rewrite !Ec by done. by apply H6.
  - intros t. rewrite Es. intros Ht H0. destruct (H7 t Ht H0) as (c & Hc & <-).
    exists c. by rewrite Ec.
  - intros t. rewrite Es, Er. intros Ht. apply H8. destruct Ht as [?|[? Hf]]; [by left|right].
    split; [done|]. intros c Hc. rewrite <- Ec by done. by apply Hf.
Qed.

(** A waiting task is within range, not current anywhere, and has a frame. *)
Lemma waiting_facts n st rs cu q t : inv_core n st rs cu q -> t ∈ q ->
  0 <= t < n /\ st t = READY /\ rs t <> 0 /\ forall c, 0 <= c < SMP_MAX_CPUS -> cu c <> t.
Proof.
  intros I Ht. assert (st t = READY) as Hr by by apply (ic_ready _ _ _ _ _ I).
  assert (0 <= t < n) as Hn.
  { destruct (decide (0 <= t < n)) as [?|Hd]; [done|]. rewrite (ic_dead _ _ _ _ _ I) in Hr; done. }
  split; [done|]. split; [done|]. split; [apply (ic_frame _ _ _ _ _ I); by left|].
  intros c Hc E. destruct (ic_cur _ _ _ _ _ I c Hc) as [H|[H|H]]; [lia|..]; rewrite E in H; congruence.
Qed.

(** Fewer than [MAX_TASKS] tasks wait while some task does not. *)
Lemma waiting_length n st rs cu q x : inv_core n st rs cu q -> 0 <= x < n -> x ∉ q ->
  (length q < 16)%nat.
Proof.
  intros I Hx Hnq.
  assert (length (x :: q) <= length (zrange 0 n))%nat as Hl.
  { apply submseteq_length, NoDup_submseteq; [by constructor; [|apply I]|].
    intros t [->|Ht]%elem_of_cons; apply elem_of_zrange; [done|].
    by apply (waiting_facts _ _ _ _ _ _ I). }
  pose proof (length_zrange 0 n) as El. pose proof (ic_count _ _ _ _ _ I) as Hc.
  unfold MAX_TASKS in Hc. simpl in Hl. lia.
Qed.

(** ** Transitions of the core *)

Section trans.
Context (n : Z) (st : Z -> tstate) (rs cu : Z -> Z) (q : list Z).
Hypothesis I : inv_core n st rs cu q.

(** CPU [c] drops its task for [next]; [st'] and [q'] say what became of the
    old one. *)
Lemma core_switch c next q0 st1 rs1 q1 :
  0 <= c < SMP_MAX_CPUS -> q ≡ₚ next :: q0 ->
  (forall t, t <> cu c -> st1 t = st t /\ rs1 t = rs t) ->
  (0 <= cu c ->
     (st (cu c) = RUNNING /\ st1 (cu c) = READY /\ q1 ≡ₚ cu c :: q0 /\ rs1 (cu c) <> 0) \/
     (parked (st (cu c)) /\ st1 (cu c) = st (cu c) /\ q1 ≡ₚ q0 /\ rs1 (cu c) <> 0)) ->
  (cu c < 0 -> st1 (cu c) = st (cu c) /\ rs1 (cu c) = rs (cu c) /\ q1 ≡ₚ q0) ->
  inv_core n (upd st1 next RUNNING) rs1 (upd cu c next) q1.
Proof.
  intros Hc Eq Hoth Hcur Hneg.
  assert (next ∈ q) as Hnq by (rewrite Eq; by left).
  destruct (waiting_facts _ _ _ _ _ next I Hnq) as (Hnn & Hnr & Hnf & Hnc).
  pose proof (ic_nodup _ _ _ _ _ I) as Hnd. rewrite Eq in Hnd. apply NoDup_cons in Hnd as [Hn0 Hnd0].
  assert (cu c <> next) as Hcn by by apply Hnc.
  assert (forall t, t ∈ q0 <-> st t = READY /\ t <> next) as Hq0.
  { intros t. rewrite <- (ic_ready _ _ _ _ _ I), Eq, elem_of_cons. split.
    - intros Ht. split; [by right|]. intros ->. done.
    - intros [[->|?] ?]; done. }
  assert (forall t, t <> next -> upd st1 next RUNNING t = st1 t) as Hu by (intros; by apply upd_ne).
  assert (forall t, 0 <= t < n \/ st1 t = st t) as Hrange.
  { intros t. destruct (decide (0 <= t < n)); [by left|]. right.
    destruct (decide (t = cu c)) as [->|]; [|by apply Hoth].
    destruct (Z.le_gt_cases 0 (cu c)) as [Hp|]; [|by apply Hneg].
    exfalso. pose proof (ic_dead _ _ _ _ _ I _ n0) as Hd.
    destruct (ic_cur _ _ _ _ _ I c Hc Hp) as [E|[E|E]]; congruence. }
  split.
  - apply I.
  - intros t Ht. destruct (decide (t = next)) as [->|]; [done|]. rewrite Hu by done.
    destruct (Hrange t) as [?| ->]; [done|]. by apply (ic_dead _ _ _ _ _ I).
  - destruct (Z.le_gt_cases 0 (cu c)) as [Hp|Hp]; [|by rewrite (proj2 (proj2 (Hneg Hp)))].
    destruct (Hcur Hp) as [(Hr & _ & -> & _)|(_ & _ & -> & _)]; [|done].
    constructor; [|done]. intros [Hrd _]%Hq0. congruence.
  - intros t. destruct (decide (t = next)) as [->|Hne].
    { rewrite upd_eq. split; [|done]. intros Ht. exfalso.
      destruct (Z.le_gt_cases 0 (cu c)) as [Hp|Hp]; [|rewrite (proj2 (proj2 (Hneg Hp))) in Ht; done].
      destruct (Hcur Hp) as [(_ & _ & E & _)|(_ & _ & E & _)]; rewrite E in Ht; [|done].
      apply elem_of_cons in Ht as [?|?]; congruence. }
    rewrite Hu by done. destruct (decide (t = cu c)) as [->|Htc].
    + destruct (Z.le_gt_cases 0 (cu c)) as [Hp|Hp].
      * destruct (Hcur Hp) as [(_ & E1 & E & _)|(Hpk & E1 & E & _)]; rewrite E, E1.
        { split; [done|]. by left. }
        rewrite Hq0. split; [by intros [? _]|]. destruct Hpk; congruence.
      * destruct (Hneg Hp) as (E1 & _ & E). rewrite E, E1, Hq0. intuition.
    + rewrite (proj1 (Hoth t Htc)).
      destruct (Z.le_gt_cases 0 (cu c)) as [Hp|Hp].
      * destruct (Hcur Hp) as [(_ & _ & E & _)|(_ & _ & E & _)]; rewrite E, ?elem_of_cons, Hq0; intuition.
      * rewrite (proj2 (proj2 (Hneg Hp))), Hq0. intuition.
  - intros d Hd. destruct (decide (d = c)) as [->|Hdc].
    { rewrite !upd_eq. by left. }
    rewrite (upd_ne cu) by done. intros Hp. assert (cu d <> next) by by apply Hnc. rewrite Hu by done.
    assert (cu d <> cu c) as Hne.
    { intros E. apply Hdc. apply (ic_inj _ _ _ _ _ I); try done. }
    rewrite (proj1 (Hoth _ Hne)). by apply (ic_cur _ _ _ _ _ I).
  - intros d e Hd He. unfold upd. destruct (Z.eqb_spec d c) as [->|], (Z.eqb_spec e c) as [->|]; try done.
    + intros _ E. symmetry in E. by destruct (Hnc e He).
    + intros _ E. by destruct (Hnc d Hd).
    + by apply (ic_inj _ _ _ _ _ I).
  - intros t Ht Ht0. destruct (decide (t = next)) as [->|Hne].
    { exists c. rewrite upd_eq. done. }
    rewrite Hu in Ht by done. destruct (decide (t = cu c)) as [->|Htc].
    + exfalso. destruct (Z.le_gt_cases 0 (cu c)) as [Hp|Hp].
      * destruct (Hcur Hp) as [(_ & E1 & _)|([?|?] & E1 & _)]; congruence.
      * destruct (Hneg Hp) as (E1 & _). rewrite E1, (ic_dead _ _ _ _ _ I) in Ht by lia. done.
    + rewrite (proj1 (Hoth t Htc)) in Ht. destruct (ic_running _ _ _ _ _ I t Ht Ht0) as (d & Hd & E).
      exists d. split; [done|]. rewrite upd_ne; [done|]. intros ->. done.
  - intros t Ht. destruct (decide (t = next)) as [->|Hne].
    { rewrite upd_eq in Ht. destruct Ht as [?|[[?|?] _]]; done. }
    rewrite Hu in Ht by done. destruct (decide (t = cu c)) as [->|Htc].
    + destruct (Z.le_gt_cases 0 (cu c)) as [Hp|Hp].
      * destruct (Hcur Hp) as [(_ & _ & _ & ?)|(_ & _ & _ & ?)]; done.
      * destruct (Hneg Hp) as (E1 & _). rewrite E1, (ic_dead _ _ _ _ _ I) in Ht by lia.
        destruct Ht as [?|[[?|?] _]]; done.
    + destruct (Hoth t Htc) as [E1 E2]. rewrite E1 in Ht. rewrite E2. apply (ic_frame _ _ _ _ _ I).
      destruct Ht as [?|[Hpk Hf]]; [by left|right]. split; [done|]. intros d Hd.
      destruct (decide (d = c)) as [->|Hdc]; [done|]. specialize (Hf d Hd). by rewrite upd_ne in Hf.
Qed.

(** A task on a CPU changes between RUNNING and parked. *)
Lemma core_flip c st' :
  0 <= c < SMP_MAX_CPUS -> 0 <= cu c -> st' = RUNNING \/ parked st' ->
  inv_core n (upd st (cu c) st') rs cu q.
Proof.
  intros Hc Hp Hst. pose proof (ic_cur _ _ _ _ _ I c Hc Hp) as Hcs.
  split; try apply I.
  - intros t Ht. destruct (decide (t = cu c)) as [->|]; [|rewrite upd_ne by done; by apply I].
    exfalso. rewrite (ic_dead _ _ _ _ _ I _ Ht) in Hcs. by destruct Hcs as [?|[?|?]].
  - intros t. destruct (decide (t = cu c)) as [->|]; [|rewrite upd_ne by done; apply I].
    rewrite upd_eq, (ic_ready _ _ _ _ _ I). split; intros E.
    + destruct Hcs as [?|[?|?]]; congruence.
    + destruct Hst as [?|[?|?]]; congruence.
  - intros d Hd Hdp. destruct (decide (cu d = cu c)) as [->|]; [by rewrite upd_eq|].
    rewrite upd_ne by done. by apply I.
  - intros t Ht H0. destruct (decide (t = cu c)) as [->|]; [by exists c|].
    rewrite upd_ne in Ht by done. by apply (ic_running _ _ _ _ _ I).
  - intros t Ht. destruct (decide (t = cu c)) as [->|Hne].
    + exfalso. rewrite upd_eq in Ht. destruct Ht as [?|[_ Hf]]; [|by apply (Hf c)].
      destruct Hst as [?|[?|?]]; congruence.
    + rewrite upd_ne in Ht by done. by apply (ic_frame _ _ _ _ _ I).
Qed.

(** A parked task that is on no CPU becomes READY and waits. *)
Lemma core_wake t :
  parked (st t) -> (forall c, 0 <= c < SMP_MAX_CPUS -> cu c <> t) ->
  inv_core n (upd st t READY) rs cu (q ++ [t]).
Proof.
  intros Hpk Hoff.
  assert (0 <= t < n) as Ht.
  { destruct (decide (0 <= t < n)) as [?|Hd]; [done|]. rewrite (ic_dead _ _ _ _ _ I _ Hd) in Hpk.
    by destruct Hpk. }
  split; try apply I.
  - intros x Hx. rewrite upd_ne by (intros ->; lia). by apply I.
  - apply NoDup_app. split; [apply I|]. split; [|apply NoDup_singleton].
    intros x Hx ->%list_elem_of_singleton. apply (ic_ready _ _ _ _ _ I) in Hx.
    destruct Hpk; congruence.
  - intros x. rewrite elem_of_app, list_elem_of_singleton.
    destruct (decide (x = t)) as [->|]; [rewrite upd_eq; tauto|].
    rewrite upd_ne, <- (ic_ready _ _ _ _ _ I) by done. tauto.
  - intros d Hd Hp. rewrite upd_ne by by apply Hoff. by apply I.
  - intros x Hx H0. destruct (decide (x = t)) as [->|]; [by rewrite upd_eq in Hx|].
    rewrite upd_ne in Hx by done. by apply (ic_running _ _ _ _ _ I).
  - intros x Hx. destruct (decide (x = t)) as [->|]; [apply (ic_frame _ _ _ _ _ I); by right|].
    rewrite upd_ne in Hx by done. by apply (ic_frame _ _ _ _ _ I).
Qed.

(** A free slot becomes a READY task. *)
Lemma core_create t n' p :
  0 <= t < n' -> n <= n' <= MAX_TASKS -> st t = DEAD -> p <> 0 ->
  inv_core n' (upd st t READY) (upd rs t p) cu (q ++ [t]).
Proof.
  intros Ht Hn Hd Hp.
  assert (forall c, 0 <= c < SMP_MAX_CPUS -> 0 <= cu c -> cu c <> t) as Hoff.
  { intros c Hc Hcp E. destruct (ic_cur _ _ _ _ _ I c Hc Hcp) as [H|[H|H]]; rewrite E in H; congruence. }
  pose proof (ic_count _ _ _ _ _ I). split.
  - lia.
  - intros x Hx. rewrite upd_ne by (intros ->; lia). apply (ic_dead _ _ _ _ _ I). lia.
  - apply NoDup_app. split; [apply I|]. split; [|apply NoDup_singleton].
    intros x Hx ->%list_elem_of_singleton. apply (ic_ready _ _ _ _ _ I) in Hx. congruence.
  - intros x. rewrite elem_of_app, list_elem_of_singleton.
    destruct (decide (x = t)) as [->|]; [rewrite upd_eq; tauto|].
    rewrite upd_ne, <- (ic_ready _ _ _ _ _ I) by done. tauto.
  - intros d Hd' Hcp. rewrite upd_ne by by apply Hoff. by apply I.
  - apply I.
  - intros x Hx H0. destruct (decide (x = t)) as [->|]; [by rewrite upd_eq in Hx|].
    rewrite upd_ne in Hx by done. by apply (ic_running _ _ _ _ _ I).
  - intros x Hx. destruct (decide (x = t)) as [->|]; [by rewrite upd_eq|].
    rewrite (upd_ne rs) by done. rewrite upd_ne in Hx by done. by apply (ic_frame _ _ _ _ _ I).
Qed.

(** CPU [c] gives up its task, which dies (task 0 is merely left). *)
Lemma core_exit c st1 rs1 :
  0 <= c < SMP_MAX_CPUS ->
  (0 < cu c -> st1 = upd st (cu c) DEAD /\ rs1 = upd rs (cu c) 0) ->
  (cu c <= 0 -> st1 = st /\ rs1 = rs) -> (cu c = 0 -> st 0 = RUNNING) ->
  inv_core n st1 rs1 (upd cu c (-1)) q.
Proof.
  intros Hc Hpos Hneg H0.
  assert (forall d, 0 <= d < SMP_MAX_CPUS -> 0 <= upd cu c (-1) d -> d <> c /\ upd cu c (-1) d = cu d) as Hcu.
  { intros d Hd. unfold upd. destruct (Z.eqb_spec d c); [lia|done]. }
  assert (forall t, t <> cu c \/ cu c <= 0 -> st1 t = st t /\ rs1 t = rs t) as Hoth.
  { intros t Ht. destruct (Z.le_gt_cases (cu c) 0) as [Hle|Hlt].
    - by destruct (Hneg Hle) as [-> ->].
    - destruct (Hpos Hlt) as [-> ->]. destruct Ht as [?|?]; [|lia]. by rewrite !upd_ne. }
  assert (0 < cu c -> st1 (cu c) = DEAD) as Hdead.
  { intros Hlt. destruct (Hpos Hlt) as [-> _]. by rewrite upd_eq. }
  assert (forall t, st1 t <> DEAD -> st1 t = st t /\ rs1 t = rs t /\ (t = cu c -> cu c <= 0)) as Hlive.
  { intros t Ht. destruct (decide (t = cu c)) as [->|Hne].
    - destruct (Z.le_gt_cases (cu c) 0) as [Hle|Hlt]; [|by destruct Ht; apply Hdead].
      destruct (Hoth (cu c)) as [? ?]; auto.
    - destruct (Hoth t) as [? ?]; [by left|]. by split_and!. }
  split; try apply I.
  - intros t Ht. destruct (decide (t = cu c /\ 0 < cu c)) as [[-> ?]|Hne]; [by apply Hdead|].
    rewrite (proj1 (Hoth t ltac:(destruct (decide (t = cu c)); [right; lia|by left]))). by apply I.
  - intros t. rewrite (ic_ready _ _ _ _ _ I). split; intros Ht.
    + destruct (decide (t = cu c /\ 0 < cu c)) as [[-> Hlt]|Hne].
      * destruct (ic_cur _ _ _ _ _ I c Hc ltac:(lia)) as [?|[?|?]]; congruence.
      * by rewrite (proj1 (Hoth t ltac:(destruct (decide (t = cu c)); [right; lia|by left]))).
    + destruct (Hlive t) as [<- _]; [congruence|done].
  - intros d Hd Hp. destruct (Hcu d Hd Hp) as [Hdc E]. rewrite E in Hp |- *.
    assert (cu d <> cu c) by (intros E'; by apply Hdc, (ic_inj _ _ _ _ _ I d c)).
    rewrite (proj1 (Hoth (cu d) ltac:(by left))). by apply I.
  - intros d e Hd He Hp E. destruct (Hcu d Hd Hp) as [_ Ed]. pose proof Hp as Hp'.
    rewrite E in Hp'. destruct (Hcu e He Hp') as [_ Ee].
    apply (ic_inj _ _ _ _ _ I); congruence || done.
  - intros t Ht Ht0. destruct (Hlive t) as (E & _ & Htc); [congruence|]. rewrite E in Ht.
    destruct (ic_running _ _ _ _ _ I t Ht Ht0) as (d & Hd & Ed). exists d. split; [done|].
    rewrite upd_ne; [done|]. intros ->. specialize (Htc ltac:(done)). subst t.
    destruct (decide (0 <= cu c < n)) as [?|Hd']; [lia|].
    rewrite (ic_dead _ _ _ _ _ I _ Hd') in Ht. done.
  - intros t Ht. assert (st1 t <> DEAD) as Hnd by (destruct Ht as [?|[[?|?] _]]; congruence).
    destruct (Hlive t Hnd) as (E & -> & Htc). rewrite E in Ht. apply (ic_frame _ _ _ _ _ I).
    destruct Ht as [?|[Hpk Hf]]; [by left|right]. split; [done|]. intros d Hd Ed.
    destruct (decide (d = c)) as [->|Hdc]; [|apply (Hf d Hd); by rewrite upd_ne].
    specialize (Htc ltac:(done)). subst t.
    destruct (decide (cu c = 0)) as [E0|].
    + rewrite E0, (H0 E0) in Hpk. by destruct Hpk.
    + rewrite (ic_dead _ _ _ _ _ I) in Hpk by lia. by destruct Hpk.
Qed.

(** Saving the frame of a parked current task. *)
Lemma core_save c r : 0 <= c < SMP_MAX_CPUS -> 0 <= cu c -> r <> 0 ->
  inv_core n st (upd rs (cu c) r) cu q.
Proof.
  intros Hc Hp Hr. split; try apply I. intros t Ht.
  destruct (decide (t = cu c)) as [->|]; [by rewrite upd_eq|].
  rewrite upd_ne by done. by apply (ic_frame _ _ _ _ _ I).
Qed.
End trans.
End SchedSpec.
