(* ===== verification/SchedOps.v ===== *)
(** * Theorems on the scheduler

    The run queue operations, the invariant of all reachable states, and its
    consequences. *)

From stdpp Require Import base numbers list gmap.
From Stdlib Require Import ZArith Lia.
From S2P Require Import Prelude Sched SchedSpec.

#[local] Open Scope Z_scope.

Module SchedOps.
Import Sched SchedSpec.

(** ** Views of the state *)

Definition tstates (s : sched) (t : Z) : tstate := (task s t).(state).
Definition frames (s : sched) (t : Z) : Z := (task s t).(rsp).
Definition all_q (s : sched) : list Z := concat (map (rq s) (zrange 0 SMP_MAX_CPUS)).

(** [pend] are tasks made READY whose run queue insertion is still to come. *)
Definition sched_inv (s : sched) (pend : list Z) : Prop :=
  inv_core s.(task_count) (tstates s) (frames s) (cur s) (all_q s ++ pend).

Definition cpu_ok (c : Z) : Prop := 0 <= c < SMP_MAX_CPUS.

Lemma task_set s t x t' : task (set_task s t x) t' = if t' =? t then x else task s t'.
Proof.
  unfold task, set_task. simpl. destruct (Z.eqb_spec t' t) as [->|].
  - by rewrite lookup_insert_eq.
  - by rewrite lookup_insert_ne.
Qed.

Lemma cur_set s c t c' : cur (set_cur s c t) c' = if c' =? c then t else cur s c'.
Proof.
  unfold cur, set_cur. simpl. destruct (Z.eqb_spec c' c) as [->|].
  - by rewrite lookup_insert_eq.
  - by rewrite lookup_insert_ne.
Qed.

Lemma rq_set s c l c' : rq (set_rq s c l) c' = if c' =? c then l else rq s c'.
Proof.
  unfold rq, set_rq. simpl. destruct (Z.eqb_spec c' c) as [->|].
  - by rewrite lookup_insert_eq.
  - by rewrite lookup_insert_ne.
Qed.

(** The queues around queue [c]. *)
Lemma all_q_split s c : cpu_ok c -> exists l1 l2, all_q s = l1 ++ rq s c ++ l2 /\
  forall s', (forall d, d <> c -> rq s' d = rq s d) -> all_q s' = l1 ++ rq s' c ++ l2.
Proof.
  intros Hc. assert (c ∈ zrange 0 SMP_MAX_CPUS) as Hin by by apply elem_of_zrange.
  pose proof (NoDup_zrange 0 SMP_MAX_CPUS) as Hnd. unfold all_q.
  apply list_elem_of_split in Hin as (a & b & E). rewrite E in *.
  apply NoDup_app in Hnd as (_ & Hab & [Hb _]%NoDup_cons).
  exists (concat (map (rq s) a)), (concat (map (rq s) b)).
  split; [by rewrite map_app, concat_app|]. intros s' Hs'.
  rewrite map_app, concat_app. simpl. f_equal; [|f_equal]; f_equal; apply map_ext_in; intros d Hd.
  - apply Hs'. intros ->. apply list_elem_of_In in Hd. apply (Hab c Hd). by left.
  - apply Hs'. intros ->. by apply list_elem_of_In in Hd.
Qed.

Lemma elem_all_q s c t : cpu_ok c -> t ∈ rq s c -> t ∈ all_q s.
Proof.
  intros Hc Ht. destruct (all_q_split s c Hc) as (l1 & l2 & -> & _). set_solver.
Qed.

(** What an operation may change without the invariant noticing. *)
Record same_view (s s' : sched) : Prop := {
  sv_count : s'.(task_count) = s.(task_count);
  sv_state : forall t, tstates s' t = tstates s t;
  sv_frame : forall t, frames s' t = frames s t;
  sv_cur : forall c, cur s' c = cur s c;
}.

Lemma same_view_refl s : same_view s s.
Proof. by split. Qed.

Lemma same_view_trans s1 s2 s3 : same_view s1 s2 -> same_view s2 s3 -> same_view s1 s3.
Proof. intros [] []. split; intros; congruence || etrans; eauto. Qed.

Lemma inv_view s s' pend pend' : sched_inv s pend -> same_view s s' ->
  all_q s' ++ pend' ≡ₚ all_q s ++ pend -> sched_inv s' pend'.
Proof.
  intros I [Ec Es Ef Eu] Hq. unfold sched_inv. rewrite Ec. by eapply inv_core_ext.
Qed.

Lemma upd_percpu_view s c f : same_view s (upd_percpu s c f) /\ all_q (upd_percpu s c f) = all_q s.
Proof. unfold upd_percpu. by destruct (SMP_MAX_CPUS <=? c). Qed.

Lemma emit_view s e : same_view s (emit s e) /\ all_q (emit s e) = all_q s.
Proof. done. Qed.

Lemma kick_view s c : same_view s (kick s c) /\ all_q (kick s c) = all_q s.
Proof. unfold kick, smp_mark_reschedule, upd_percpu. by destruct (SMP_MAX_CPUS <=? c). Qed.

(** ** Run queues *)

Lemma entry_lookup l i : 0 <= i < Z.of_nat (length l) -> l !! Z.to_nat i = Some (entry l i).
Proof.
  intros Hi. unfold entry. destruct (lookup_lt_is_Some_2 l (Z.to_nat i)) as [x ->]; [lia|done].
Qed.

Lemma swap_remove_perm l i : 0 <= i < Z.of_nat (length l) -> entry l i :: swap_remove l i ≡ₚ l.
Proof.
  intros Hi. pose proof (entry_lookup l i Hi) as Ei.
  destruct (exists_last (l := l)) as (l' & z & ->); [intros ->; simpl in *; lia|].
  unfold swap_remove. rewrite length_app in *. simpl in *.
  replace (Z.of_nat (length l' + 1) - 1) with (Z.of_nat (length l')) by lia. rewrite Nat2Z.id.
  assert (entry (l' ++ [z]) (Z.of_nat (length l')) = z) as ->.
  { unfold entry. by rewrite Nat2Z.id, list_lookup_middle. }
  set (x := entry (l' ++ [z]) i) in *. clearbody x.
  destruct (decide (Z.to_nat i = length l')) as [E|Hne].
  - rewrite E in *. rewrite list_lookup_middle in Ei by done. injection Ei as ->.
    rewrite insert_app_r_alt, Nat.sub_diag by lia. simpl.
    rewrite take_app_length. by rewrite Permutation_cons_append.
  - rewrite insert_app_l by lia. rewrite take_app_length' by (by rewrite length_insert).
    rewrite lookup_app_l in Ei by lia.
    rewrite <- (take_drop_middle _ _ _ Ei) at 2. rewrite insert_take_drop by lia.
    rewrite <- app_assoc. simpl. rewrite <- !Permutation_middle. apply perm_skip.
    by rewrite app_nil_r.
Qed.

(** The scan keeps an index that is maximal for [f], minimal for [e] among
    equals. *)
Lemma scan_best (f e : Z -> Z) n : 1 <= n ->
  let r := for_loop 1 n (fun i b =>
    if (b.2 <? f i) || ((f i =? b.2) && (e i <? e b.1)) then (i, f i) else b) (0, f 0) in
  0 <= r.1 < n /\ r.2 = f r.1 /\
  forall i, 0 <= i < n -> f i <= f r.1 /\ (f i = f r.1 -> e r.1 <= e i).
Proof.
  intros Hn. cbn zeta.
  apply (for_loop_inv (fun k (b : Z * Z) => (0 <= b.1 < k) /\ b.2 = f b.1 /\
    forall i, 0 <= i < k -> f i <= f b.1 /\ (f i = f b.1 -> e b.1 <= e i))); [done| |].
  - simpl. split; [lia|]. split; [done|]. intros i Hi. assert (i = 0) as -> by lia. lia.
  - intros i [b p] Hi (Hb & Ep & Hm). cbn [fst snd] in *. subst p.
    destruct (Z.ltb_spec (f b) (f i)), (Z.eqb_spec (f i) (f b)), (Z.ltb_spec (e i) (e b));
      cbn [orb andb fst snd]; try lia; (split; [lia|]; split; [done|]);
      intros j Hj; (destruct (Z.eq_dec j i) as [->|]; [lia|]); specialize (Hm j ltac:(lia)); lia.
Qed.

(** The scan of [runq_pop] returns an index of a maximal entry, the oldest among
    equals. *)
Lemma best_entry_spec s l : l <> [] ->
  let b := (best_entry s l).1 in
  0 <= b < Z.of_nat (length l) /\
  forall i, 0 <= i < Z.of_nat (length l) ->
    effective_prio s (entry l i) s.(now_ms) <= effective_prio s (entry l b) s.(now_ms) /\
    (effective_prio s (entry l i) s.(now_ms) = effective_prio s (entry l b) s.(now_ms) ->
     (task s (entry l b)).(enqueue_ms) <= (task s (entry l i)).(enqueue_ms)).
Proof.
  intros Hl. assert (1 <= Z.of_nat (length l)) as Hn by (destruct l; simpl; [done|lia]).
  destruct (scan_best (fun i => effective_prio s (entry l i) s.(now_ms))
    (fun i => (task s (entry l i)).(enqueue_ms)) _ Hn) as (Hb & _ & Hm). exact (conj Hb Hm).
Qed.

Lemma runq_pop_spec s c s' t : cpu_ok c -> runq_pop s c = (s', t) ->
  (s' = s /\ t = -1 /\ rq s c = []) \/
  (same_view s s' /\ s'.(tasks) = s.(tasks) /\ t ∈ rq s c /\ all_q s ≡ₚ t :: all_q s').
Proof.
  intros Hc. unfold runq_pop. destruct (Z.eqb_spec (Z.of_nat (length (rq s c))) 0) as [E|E].
  { intros [= <- <-]. left. split_and!; try done. apply nil_length_inv. lia. }
  intros [= <- <-]. right.
  assert (rq s c <> []) as Hne by (intros E'; apply E; by rewrite E').
  destruct (best_entry_spec s (rq s c) Hne) as (Hb & _). set (i := (best_entry s (rq s c)).1) in *.
  split; [by split|]. split; [done|]. split; [by eapply list_elem_of_lookup_2, entry_lookup|].
  destruct (all_q_split s c Hc) as (l1 & l2 & E1 & E2).
  rewrite (E2 (set_rq s c (swap_remove (rq s c) i))).
  - rewrite rq_set, Z.eqb_refl, E1.
    transitivity (l1 ++ (entry (rq s c) i :: swap_remove (rq s c) i) ++ l2).
    + by rewrite (swap_remove_perm (rq s c) i Hb).
    + symmetry. apply (Permutation_middle l1 (swap_remove (rq s c) i ++ l2)).
  - intros d Hd. rewrite rq_set. by destruct (Z.eqb_spec d c).
Qed.

Lemma steal_spec s c s' t : steal_task s c = (s', t) ->
  (s' = s /\ t < 0) \/
  (exists v, cpu_ok v /\ v <> c /\ t ∈ rq s v) /\
  (same_view s s' /\ s'.(tasks) = s.(tasks) /\ all_q s ≡ₚ t :: all_q s').
Proof.
  unfold steal_task. set (v := for_loop _ _ _ _).
  assert (v.1 = -1 \/ (cpu_ok v.1 /\ v.1 <> c)) as Hv.
  { apply (for_loop_pres (fun b : Z * Z => b.1 = -1 \/ (cpu_ok b.1 /\ b.1 <> c))); [by left|].
    intros i b Hi Hb. unfold online_cpus in Hi.
    destruct (Z.eqb_spec i c); [done|]. destruct (b.2 <? _); [|done]. right. simpl.
    unfold cpu_ok. destruct (Z.ltb_spec SMP_MAX_CPUS (smp_online_cpu_count s)); lia. }
  destruct (Z.ltb_spec v.1 0); [intros [= <- <-]; by left|].
  destruct Hv as [?|[Hv Hne]]; [lia|]. intros E.
  destruct (runq_pop_spec s v.1 s' t Hv E) as [(-> & -> & _)|(? & ? & ? & ?)]; [by left|].
  right. split; [by exists v.1|]. done.
Qed.

Lemma runq_push_spec s c t : cpu_ok c -> (length (rq s c) < 16)%nat ->
  exists s', runq_push s c t = (s', true) /\ same_view s s' /\ all_q s' ≡ₚ t :: all_q s.
Proof.
  intros Hc Hl. unfold runq_push. destruct (Z.leb_spec RUNQ_CAPACITY (Z.of_nat (length (rq s c)))) as [Hx|_].
  { unfold RUNQ_CAPACITY, MAX_TASKS in Hx. lia. }
  eexists. split; [done|]. set (s1 := upd_task s t (with_enqueue s.(now_ms))).
  assert (same_view s s1) as Hv.
  { split; try done; intros x; unfold s1, upd_task, tstates, frames; rewrite task_set;
      by destruct (Z.eqb_spec x t) as [->|]. }
  split; [eapply same_view_trans; [exact Hv|by split]|].
  destruct (all_q_split s c Hc) as (l1 & l2 & E1 & E2).
  rewrite (E2 (set_rq s1 c (rq s1 c ++ [t]))).
  - rewrite rq_set, Z.eqb_refl, E1. change (rq s1 c) with (rq s c).
    rewrite <- app_assoc. simpl. by rewrite <- !Permutation_middle.
  - intros d Hd. rewrite rq_set. destruct (Z.eqb_spec d c); done.
Qed.

Lemma rq_length s c : cpu_ok c -> (length (rq s c) <= length (all_q s))%nat.
Proof. intros Hc. destruct (all_q_split s c Hc) as (l1 & l2 & -> & _). rewrite !length_app. lia. Qed.

(** ** The context switch *)

Lemma tstates_upd s t f x :
  tstates (upd_task s t f) x = upd (tstates s) t (f (task s t)).(state) x.
Proof. unfold tstates, upd_task, upd. rewrite task_set. by destruct (x =? t). Qed.

Lemma frames_upd s t f x :
  frames (upd_task s t f) x = upd (frames s) t (f (task s t)).(rsp) x.
Proof. unfold frames, upd_task, upd. rewrite task_set. by destruct (x =? t). Qed.

Lemma load_as_view s c next :
  same_view s (load_address_space s c next) /\ all_q (load_address_space s c next) = all_q s.
Proof.
  unfold load_address_space, set_cr3, upd_percpu. destruct (negb _ && negb _); [|by split; [split|]].
  destruct (SMP_MAX_CPUS <=? c); by split; [split|].
Qed.

Lemma install_view s c next :
  (install s c next).(task_count) = s.(task_count) /\
  (forall t, tstates (install s c next) t = upd (tstates s) next RUNNING t) /\
  (forall t, frames (install s c next) t = frames s t) /\
  (forall d, cur (install s c next) d = upd (cur s) c next d) /\
  all_q (install s c next) = all_q s.
Proof.
  unfold install. set (s1 := set_cur (upd_task s next (with_state RUNNING)) c next).
  assert (forall s2, same_view s1 s2 /\ all_q s2 = all_q s1 ->
    s2.(task_count) = s.(task_count) /\
    (forall t, tstates s2 t = upd (tstates s) next RUNNING t) /\
    (forall t, frames s2 t = frames s t) /\
    (forall d, cur s2 d = upd (cur s) c next d) /\ all_q s2 = all_q s) as Hgen.
  { intros s2 [[Ec Es Ef Eu] Eq]. split_and!; try done.
    - intros t. rewrite Es. apply tstates_upd.
    - intros t. rewrite Ef. etrans; [apply (frames_upd s next (with_state RUNNING))|].
      unfold upd. by destruct (Z.eqb_spec t next) as [->|].
    - intros d. rewrite Eu. unfold s1. by rewrite cur_set. }
  apply Hgen. set (s2 := if c =? 0 then _ else _).
  assert (same_view s1 s2 /\ all_q s2 = all_q s1) as [Hv Hq].
  { unfold s2. destruct (c =? 0); split; done || by split. }
  match goal with |- context [emit s2 ?e] =>
    destruct (load_as_view (emit s2 e) c next) as [Hv2 Hq2] end.
  split; [|by rewrite Hq2]. eapply same_view_trans; [exact Hv|].
  eapply same_view_trans; [|exact Hv2]. by split.
Qed.

Lemma pop_or_steal s c pend s1 next s2 next2 :
  sched_inv s pend -> cpu_ok c -> runq_pop s c = (s1, next) ->
  (if next <? 0 then steal_task s1 c else (s1, next)) = (s2, next2) ->
  (next2 < 0 /\ s2 = s) \/
  (0 <= next2 /\ same_view s s2 /\ s2.(tasks) = s.(tasks) /\ all_q s ≡ₚ next2 :: all_q s2).
Proof.
  intros I Hc Hp Hn.
  assert (forall t, t ∈ all_q s -> 0 <= t) as Hpos.
  { intros t Ht. apply (waiting_facts _ _ _ _ _ t I). apply elem_of_app. by left. }
  destruct (runq_pop_spec s c s1 next Hc Hp) as [(-> & -> & _)|(Hv & Ht & Hin & Hq)].
  - change (-1 <? 0) with true in Hn.
    destruct (steal_spec s c s2 next2 Hn) as [[-> ?]|[(v & Hv & _ & Hin) (Hsv & Ht & Hq)]]; [by left|].
    right. split_and!; try done. by apply Hpos, (elem_all_q s v).
  - assert (0 <= next) by by apply Hpos, (elem_all_q s c).
    destruct (Z.ltb_spec next 0); [lia|]. injection Hn as <- <-. right. done.
Qed.

(** Switching to a waiting task, the old one treated as [schedule_on_cpu] does. *)
Lemma switch_inv s s2 s3 c next pend :
  sched_inv s pend -> cpu_ok c -> same_view s s2 -> all_q s ≡ₚ next :: all_q s2 ->
  s3.(task_count) = s.(task_count) -> (forall d, cur s3 d = cur s d) ->
  (forall t, t <> cur s c -> tstates s3 t = tstates s t /\ frames s3 t = frames s t) ->
  (0 <= cur s c ->
     (tstates s (cur s c) = RUNNING /\ tstates s3 (cur s c) = READY /\
        all_q s3 ≡ₚ cur s c :: all_q s2 /\ frames s3 (cur s c) <> 0) \/
     (parked (tstates s (cur s c)) /\ tstates s3 (cur s c) = tstates s (cur s c) /\
        all_q s3 ≡ₚ all_q s2 /\ frames s3 (cur s c) <> 0)) ->
  (cur s c < 0 -> tstates s3 (cur s c) = tstates s (cur s c) /\
     frames s3 (cur s c) = frames s (cur s c) /\ all_q s3 ≡ₚ all_q s2) ->
  sched_inv (install s3 c next) pend.
Proof.
  intros I Hc Hv Hq Hn Hcu Hoth Hpos Hneg.
  destruct (install_view s3 c next) as (E1 & E2 & E3 & E4 & E5).
  unfold sched_inv. rewrite E1, Hn.
  eapply inv_core_ext; [|exact E2|exact E3| |rewrite E5; reflexivity].
  - eapply (core_switch s.(task_count) (tstates s) (frames s) (cur s) (all_q s ++ pend) I c next
      (all_q s2 ++ pend)); try done.
    + rewrite Hq. done.
    + intros Hp. destruct (Hpos Hp) as [(? & ? & E & ?)|(? & ? & E & ?)]; [left|right];
        split_and!; try done; by rewrite E.
    + intros Hlt. destruct (Hneg Hlt) as (? & ? & E). split_and!; try done. by rewrite E.
  - intros d Hd. rewrite E4. unfold upd. by rewrite Hcu.
Qed.

Lemma cur_range s pend c : sched_inv s pend -> cpu_ok c -> 0 <= cur s c ->
  0 <= cur s c < s.(task_count) /\
  (tstates s (cur s c) = RUNNING \/ parked (tstates s (cur s c))).
Proof.
  intros I Hc Hp. pose proof (ic_cur _ _ _ _ _ I c Hc Hp) as Hs. split; [|done].
  destruct (decide (0 <= cur s c < s.(task_count))) as [?|Hd]; [done|].
  rewrite (ic_dead _ _ _ _ _ I _ Hd) in Hs. by destruct Hs as [?|[?|?]].
Qed.

Lemma drop_inv s pend c : sched_inv s pend -> cpu_ok c -> cur s c < 0 ->
  sched_inv (set_cur s c (-1)) pend.
Proof.
  intros I Hc Hlt. unfold sched_inv.
  eapply inv_core_ext; [eapply (core_exit _ _ _ _ _ I c (tstates s) (frames s) Hc); [lia|done|lia]|..];
    try done. intros d _. rewrite cur_set. done.
Qed.

Lemma bool_decide_ne (a b : tstate) : a <> b -> bool_decide (a = b) = false.
Proof. intros. by apply bool_decide_eq_false. Qed.

(** The part of [schedule_on_cpu] after the pop, for the task found. *)
Lemma sched_found s s2 c next me regs pend :
  sched_inv s pend -> cpu_ok c -> regs <> 0 -> cur s c = me ->
  same_view s s2 -> all_q s ≡ₚ next :: all_q s2 -> 0 <= me ->
  forall running blocked,
  (running = true /\ blocked = false /\ tstates s me = RUNNING) \/
  (running = false /\ blocked = true /\ parked (tstates s me)) ->
  let s3 := if blocked then upd_task s2 me (with_rsp regs) else s2 in
  exists s4, (if running then
      let s5 := upd_task (upd_task s3 me (with_rsp regs)) me (with_state READY) in
      runq_push s5 c me = (s4, true)
    else s4 = s3) /\ sched_inv (install s4 c next) pend.
Proof.
  intros I Hc Hr Hme Hv Hq Hp running blocked Hcase s3.
  destruct (cur_range s pend c I Hc ltac:(lia)) as [Hrange _]. rewrite Hme in Hrange.
  destruct Hcase as [(-> & -> & Hst)|(-> & -> & Hst)].
  - set (s5 := upd_task _ _ _).
    assert (forall t, tstates s5 t = upd (tstates s2) me READY t) as Es.
    { intros t. unfold s5. rewrite tstates_upd. unfold upd. destruct (Z.eqb_spec t me); [done|].
      rewrite tstates_upd, upd_ne by done. done. }
    assert (forall t, frames s5 t = upd (frames s2) me regs t) as Ef.
    { intros t. unfold s5. rewrite frames_upd. unfold upd. destruct (Z.eqb_spec t me).
      - change (rsp (with_state READY ?x)) with (rsp x). fold (frames (upd_task s3 me (with_rsp regs)) me).
        rewrite frames_upd, upd_eq. done.
      - rewrite frames_upd, upd_ne by done. done. }
    assert (length (rq s5 c) < 16)%nat as Hlen.
    { assert (me ∉ all_q s ++ pend) as Hni.
      { intros Hin%(ic_ready _ _ _ _ _ I). congruence. }
      pose proof (waiting_length _ _ _ _ _ me I Hrange Hni) as Hl.
      rewrite length_app in Hl. rewrite Hq in Hl. simpl in Hl.
      pose proof (rq_length s2 c Hc). change (rq s5 c) with (rq s2 c). lia. }
    destruct (runq_push_spec s5 c me Hc Hlen) as (s4 & E & Hv4 & Hq4). exists s4. split; [done|].
    apply (switch_inv s s2 s4 c next pend I Hc Hv Hq).
    + rewrite (sv_count _ _ Hv4). apply (sv_count _ _ Hv).
    + intros d. rewrite (sv_cur _ _ Hv4). apply (sv_cur _ _ Hv).
    + intros t Ht. rewrite Hme in Ht. rewrite (sv_state _ _ Hv4), (sv_frame _ _ Hv4), Es, Ef.
      rewrite !upd_ne by done. split; [apply (sv_state _ _ Hv)|apply (sv_frame _ _ Hv)].
    + intros _. left. rewrite Hme, (sv_state _ _ Hv4), (sv_frame _ _ Hv4), Es, Ef, !upd_eq. done.
    + lia.
  - exists s3. split; [done|]. apply (switch_inv s s2 s3 c next pend I Hc Hv Hq).
    + apply (sv_count _ _ Hv).
    + apply (sv_cur _ _ Hv).
    + intros t Ht. rewrite Hme in Ht. unfold s3. rewrite tstates_upd, frames_upd, !upd_ne by done.
      split; [apply (sv_state _ _ Hv)|apply (sv_frame _ _ Hv)].
    + intros _. right. rewrite Hme. unfold s3. rewrite tstates_upd, frames_upd, !upd_eq.
      split_and!; try done. apply (sv_state _ _ Hv).
    + lia.
Qed.

Lemma valid_next s s2 next pend : sched_inv s pend -> same_view s s2 ->
  all_q s ≡ₚ next :: all_q s2 ->
  (s2.(task_count) <=? next) || negb (bool_decide ((task s2 next).(state) = READY)) ||
  ((task s2 next).(rsp) =? 0) = false.
Proof.
  intros I Hv Hq.
  destruct (waiting_facts _ _ _ _ _ next I) as (Hr & Hs & Hf & _).
  { apply elem_of_app. left. rewrite Hq. by left. }
  fold (tstates s2 next) (frames s2 next).
  rewrite (sv_count _ _ Hv), (sv_state _ _ Hv), (sv_frame _ _ Hv), Hs.
  destruct (Z.leb_spec s.(task_count) next); [lia|]. rewrite bool_decide_true by done.
  destruct (Z.eqb_spec (frames s next) 0); done.
Qed.

Lemma save_inv s c regs pend : sched_inv s pend -> cpu_ok c -> 0 <= cur s c -> regs <> 0 ->
  sched_inv (upd_task s (cur s c) (with_rsp regs)) pend.
Proof.
  intros I Hc Hp Hr. unfold sched_inv.
  eapply inv_core_ext; [eapply (core_save _ _ _ _ _ I c regs Hc Hp Hr)|..]; try done.
  - intros t. rewrite tstates_upd. unfold upd. by destruct (Z.eqb_spec t (cur s c)) as [->|].
  - intros t. by rewrite frames_upd.
Qed.

Lemma schedule_inv s c regs pend :
  sched_inv s pend -> cpu_ok c -> sched_inv (schedule_on_cpu s c regs).1 pend.
Proof.
  intros I Hc. unfold schedule_on_cpu, NULL.
  destruct (Z.leb_spec SMP_MAX_CPUS c); [unfold cpu_ok in Hc; lia|].
  destruct (Z.eqb_spec regs 0) as [|Hr]; [done|]. cbn [orb].
  set (s0 := smp_clear_reschedule _ c).
  assert (sched_inv s0 pend) as I0.
  { destruct (upd_percpu_view s c (fun x => mk_percpu x.(processor_id) x.(lapic_id) x.(online)
      x.(reschedule_pending) x.(idle_ticks) (u64 (x.(scheduler_ticks) + 1)) x.(current_cr3))) as [V1 Q1].
    destruct (upd_percpu_view (smp_note_scheduler_tick s c) c
      (fun x => mk_percpu x.(processor_id) x.(lapic_id) x.(online) 0
       x.(idle_ticks) x.(scheduler_ticks) x.(current_cr3))) as [V2 Q2].
    apply (inv_view s s0 pend pend I); [by eapply same_view_trans|].
    unfold s0, smp_clear_reschedule. rewrite Q2. unfold smp_note_scheduler_tick. by rewrite Q1. }
  clearbody s0. clear I. destruct (Z.leb_spec s0.(task_count) 0); [done|].
  set (me := cur s0 c). destruct (Z.le_gt_cases 0 me) as [Hp|Hn].
  - destruct (cur_range s0 pend c I0 Hc Hp) as [Hr0 Hst]. fold me in Hr0, Hst.
    destruct (Z.leb_spec 0 me); [|lia]. destruct (Z.ltb_spec me s0.(task_count)); [|lia]. cbn [andb].
    fold (tstates s0 me). set (running := bool_decide (tstates s0 me = RUNNING)).
    set (blocked := bool_decide (tstates s0 me = SLEEPING) || bool_decide (tstates s0 me = BLOCKED)).
    assert ((running = true /\ blocked = false /\ tstates s0 me = RUNNING) \/
            (running = false /\ blocked = true /\ parked (tstates s0 me))) as Hcase.
    { unfold running, blocked. destruct Hst as [E|[E|E]]; rewrite E; [left|right|right]; by split_and!; try (by left); try (by right). }
    replace (negb running && negb blocked) with false by (destruct Hcase as [(-> & -> & _)|(-> & -> & _)]; done).
    destruct (runq_pop s0 c) as [s1 next1] eqn:Ep.
    destruct (if next1 <? 0 then _ else _) as [s2 next] eqn:Es.
    destruct (pop_or_steal s0 c pend s1 next1 s2 next I0 Hc Ep Es) as [[Hlt ->]|(Hge & Hv & Ht & Hq)].
    + destruct (Z.ltb_spec next 0); [|lia]. destruct blocked; [by apply save_inv|done].
    + destruct (Z.ltb_spec next 0); [lia|]. rewrite (valid_next s0 s2 next pend I0 Hv Hq).
      destruct (sched_found s0 s2 c next me regs pend I0 Hc Hr eq_refl Hv Hq Hp running blocked Hcase)
        as (s4 & E4 & Hok).
      destruct running; [rewrite E4|rewrite <- E4]; done.
  - destruct (Z.leb_spec 0 me); [lia|]. cbn [andb negb].
    pose proof (drop_inv s0 pend c I0 Hc Hn) as I1. set (s0' := set_cur s0 c (-1)) in *.
    destruct (runq_pop s0' c) as [s1 next1] eqn:Ep.
    destruct (if next1 <? 0 then _ else _) as [s2 next] eqn:Es.
    destruct (pop_or_steal s0' c pend s1 next1 s2 next I1 Hc Ep Es) as [[Hlt ->]|(Hge & Hv & Ht & Hq)].
    + destruct (Z.ltb_spec next 0); [done|lia].
    + destruct (Z.ltb_spec next 0); [lia|]. rewrite (valid_next s0' s2 next pend I1 Hv Hq).
      cbn [fst]. assert (cur s0' c = -1) as Hcur by (unfold s0'; by rewrite cur_set, Z.eqb_refl).
      apply (switch_inv s0' s2 s2 c next pend I1 Hc Hv Hq); try apply Hv.
      * intros t _. split; [apply (sv_state _ _ Hv)|apply (sv_frame _ _ Hv)].
      * lia.
      * intros _. split; [apply (sv_state _ _ Hv)|]. split; [apply (sv_frame _ _ Hv)|done].
Qed.

(** ** The other critical sections *)

Lemma is_blocked_parked st : is_blocked st = true <-> parked st.
Proof.
  unfold is_blocked, parked. rewrite orb_true_iff, !bool_decide_eq_true. done.
Qed.

(** A state change of the current task of a CPU. *)
Lemma flip_inv s c st pend f : sched_inv s pend -> cpu_ok c -> 0 <= cur s c ->
  st = RUNNING \/ parked st -> (forall x, (f x).(state) = st /\ (f x).(rsp) = x.(rsp)) ->
  sched_inv (upd_task s (cur s c) f) pend.
Proof.
  intros I Hc Hp Hst Hf. unfold sched_inv.
  eapply inv_core_ext; [eapply (core_flip _ _ _ _ _ I c st Hc Hp Hst)|..]; try done.
  - intros t. rewrite tstates_upd. by rewrite (proj1 (Hf _)).
  - intros t. rewrite frames_upd. unfold upd. destruct (Z.eqb_spec t (cur s c)) as [->|]; [|done].
    apply Hf.
Qed.

Lemma block_prepare_inv s c st pend : sched_inv s pend -> cpu_ok c ->
  sched_inv (block_prepare s c st).1 pend.
Proof.
  intros I Hc. unfold block_prepare.
  destruct (is_blocked st) eqn:Eb; [|done]. cbn [negb].
  destruct (Z.ltb_spec c SMP_MAX_CPUS); [|done].
  destruct (Z.ltb_spec (cur s c) 0); [done|].
  destruct (s.(task_count) <=? cur s c); [done|]. cbn [orb].
  destruct (bool_decide _) eqn:Er; [|done]. cbn [negb fst].
  apply (flip_inv s c st); try done. right. by apply is_blocked_parked.
Qed.

(** What [unblock_mark] leaves to do becomes part of the state. *)
Lemma unblock_mark_inv s t pend : sched_inv s pend ->
  match unblock_mark s t with
  | (s', Enqueue u) => u = t /\ sched_inv s' (pend ++ [t])
  | (s', KickCpu c) => cpu_ok c /\ cur s' c = t /\ tstates s' t = RUNNING /\ sched_inv s' pend
  | (s', Unblocked) => s' = s
  end.
Proof.
  intros I. unfold unblock_mark. destruct ((t <? 0) || (MAX_TASKS <=? t)) eqn:Er; [done|].
  apply orb_false_iff in Er as [Ht%Z.ltb_ge _].
  destruct (is_blocked _) eqn:Eb; [|done]. cbn [negb]. apply is_blocked_parked in Eb.
  destruct (find_loop 0 SMP_MAX_CPUS _) as [c|] eqn:Ef.
  - apply find_loop_Some in Ef as (Hc & Hcur%Z.eqb_eq & _).
    split; [done|]. split; [done|]. split; [by rewrite tstates_upd, upd_eq|].
    rewrite <- Hcur in Ht |- *. unfold sched_inv.
    eapply inv_core_ext; [eapply (core_flip _ _ _ _ _ I c RUNNING Hc Ht ltac:(by left))|..]; try done.
    + intros x. rewrite tstates_upd. unfold upd. destruct (Z.eqb_spec x (cur s c)); [done|].
      by rewrite tstates_upd, upd_ne.
    + intros x. rewrite frames_upd. unfold upd. destruct (Z.eqb_spec x (cur s c)) as [->|].
      * cbn [rsp with_state]. fold (frames (upd_task s (cur s c) (with_wake 0)) (cur s c)).
        by rewrite frames_upd, upd_eq.
      * by rewrite frames_upd, upd_ne.
  - split; [done|].
    assert (forall c, cpu_ok c -> cur s c <> t) as Hoff.
    { intros c Hc E. pose proof (proj1 (find_loop_None _ _ _) Ef c Hc) as Hn.
      by apply Z.eqb_neq in Hn. }
    unfold sched_inv. rewrite app_assoc.
    eapply inv_core_ext; [eapply (core_wake _ _ _ _ _ I t Eb Hoff)|..]; try done.
    + intros x. rewrite tstates_upd. unfold upd. destruct (Z.eqb_spec x t); [done|].
      by rewrite tstates_upd, upd_ne.
    + intros x. rewrite frames_upd. unfold upd. destruct (Z.eqb_spec x t) as [->|].
      * cbn [rsp with_state]. fold (frames (upd_task s t (with_wake 0)) t).
        by rewrite frames_upd, upd_eq.
      * by rewrite frames_upd, upd_ne.
Qed.

(** A pending task always fits into the run queue it is pushed on. *)
Lemma pending_push s p1 t p2 target : sched_inv s (p1 ++ t :: p2) -> cpu_ok target ->
  exists s', runq_push s target t = (s', true) /\ same_view s s' /\
    all_q s' ≡ₚ t :: all_q s /\ sched_inv s' (p1 ++ p2).
Proof.
  intros I Hc.
  assert (t ∈ all_q s ++ p1 ++ t :: p2) as Hin by (rewrite !elem_of_app; right; right; by left).
  destruct (waiting_facts _ _ _ _ _ t I Hin) as (Hr & _).
  assert (length (rq s target) < 16)%nat as Hlen.
  { assert (length (t :: all_q s) <= length (zrange 0 s.(task_count)))%nat as Hl.
    { apply submseteq_length, NoDup_submseteq.
      - pose proof (ic_nodup _ _ _ _ _ I) as Hnd. apply NoDup_app in Hnd as (Hq & Hd & _).
        constructor; [|done]. intros Ht. apply (Hd t Ht). apply elem_of_app. right. by left.
      - intros x Hx. apply elem_of_zrange. apply elem_of_cons in Hx as [->|Hx]; [done|].
        apply (waiting_facts _ _ _ _ _ x I). apply elem_of_app. by left. }
    pose proof (length_zrange 0 s.(task_count)) as El. pose proof (ic_count _ _ _ _ _ I) as Hn.
    pose proof (rq_length s target Hc). unfold MAX_TASKS in Hn. simpl in Hl. lia. }
  destruct (runq_push_spec s target t Hc Hlen) as (s' & E & Hv & Hq).
  exists s'. split_and!; try done. apply (inv_view s s' (p1 ++ t :: p2)); try done.
  rewrite Hq. simpl. by rewrite <- (Permutation_middle p1 p2 t), <- Permutation_middle.
Qed.

Lemma unblock_place_inv s p1 t p2 target self : sched_inv s (p1 ++ t :: p2) -> cpu_ok target ->
  sched_inv (unblock_place s t target self) (p1 ++ p2).
Proof.
  intros I Hc. destruct (pending_push s p1 t p2 target I Hc) as (s' & E & _ & _ & I').
  unfold unblock_place. rewrite E. cbn [negb]. destruct (negb _); [|done].
  destruct (kick_view s' target) as [Hv Hq]. apply (inv_view s' _ (p1 ++ p2)); try done. by rewrite Hq.
Qed.

Lemma create_place_inv s p1 t p2 stack target self z : sched_inv s (p1 ++ t :: p2) -> cpu_ok target ->
  (create_place s t stack target self z).2 = true /\
  sched_inv (create_place s t stack target self z).1 (p1 ++ p2).
Proof.
  intros I Hc. destruct (pending_push s p1 t p2 target I Hc) as (s' & E & _ & _ & I').
  unfold create_place. rewrite E. cbn [negb fst snd]. split; [done|]. destruct (negb _); [|done].
  destruct (kick_view s' target) as [Hv Hq]. apply (inv_view s' _ (p1 ++ p2)); try done. by rewrite Hq.
Qed.

Lemma create_slot_inv s x s' slot pend : sched_inv s pend ->
  create_slot s x = (s', Some slot) -> (x slot).(state) = READY -> (x slot).(rsp) <> 0 ->
  tstates s slot = DEAD /\ sched_inv s' (pend ++ [slot]).
Proof.
  intros I Hcr Hst Hrs. unfold create_slot in Hcr. pose proof (ic_count _ _ _ _ _ I) as Hn.
  destruct (find_slot s) as [sl|] eqn:Ef; [|done].
  assert (tstates s sl = DEAD /\ 0 <= sl /\
    (sl < s.(task_count) \/ sl = s.(task_count) /\ s.(task_count) < MAX_TASKS)) as (Hd & Hs0 & Hsl).
  { unfold find_slot in Ef. destruct (find_loop _ _ _) as [i|] eqn:El.
    - injection Ef as <-. apply find_loop_Some in El as (Hi & Hb%bool_decide_eq_true & _).
      split; [done|]. lia.
    - destruct (Z.ltb_spec s.(task_count) MAX_TASKS); [|done]. injection Ef as <-.
      split; [|lia]. apply (ic_dead _ _ _ _ _ I). lia. }
  set (n' := if sl =? s.(task_count) then s.(task_count) + 1 else s.(task_count)).
  assert (s'.(task_count) = n' /\ slot = sl /\
    (forall t, task s' t = if t =? sl then x sl else task s t) /\
    (forall c, cur s' c = cur s c) /\ all_q s' = all_q s) as (En & -> & Et & Ec & Eq).
  { revert Hcr. unfold n'. destruct (sl =? s.(task_count)), (negb _); intros [= <- <-];
      (split_and!; try done; intros t; rewrite task_set; done). }
  split; [done|]. unfold sched_inv. rewrite En, Eq, app_assoc.
  eapply inv_core_ext; [eapply (core_create _ _ _ _ _ I sl n' (x sl).(rsp))|..]; try done.
  - unfold n'. destruct (Z.eqb_spec sl s.(task_count)); lia.
  - unfold n'. destruct (Z.eqb_spec sl s.(task_count)); lia.
  - intros t. unfold tstates, upd. rewrite Et. by destruct (t =? sl).
  - intros t. unfold frames, upd. rewrite Et. by destruct (t =? sl).
Qed.

Lemma exit_inv s c pend : sched_inv s pend -> cpu_ok c ->
  (cur s c = 0 -> tstates s 0 = RUNNING) -> sched_inv (exit_section s c).1.1 pend.
Proof.
  intros I Hc H0. unfold exit_section. destruct (Z.ltb_spec c SMP_MAX_CPUS); [|done].
  set (me := cur s c).
  set (body := if (0 <? me) && _ then _ else _).
  assert (sched_inv (set_cur body.1.1 c (-1)) pend) as Hb.
  { assert (body.1.1.(task_count) = s.(task_count) /\ (forall d, cur body.1.1 d = cur s d) /\
      all_q body.1.1 = all_q s /\
      (0 < me -> forall t, tstates body.1.1 t = upd (tstates s) me DEAD t /\
                           frames body.1.1 t = upd (frames s) me 0 t) /\
      (me <= 0 -> forall t, tstates body.1.1 t = tstates s t /\ frames body.1.1 t = frames s t))
      as (En & Ec & Eq & Hpos & Hneg).
    { unfold body. destruct (Z.ltb_spec 0 me) as [Hlt|Hle].
      - destruct (cur_range s pend c I Hc ltac:(fold me; lia)) as [Hr _]. fold me in Hr.
        destruct (Z.ltb_spec me s.(task_count)); [|lia]. cbn [andb].
        set (s1 := upd_task s me (with_stack 0)). set (pr := if negb _ then _ else _).
        assert (same_view s pr.1 /\ all_q pr.1 = all_q s) as [Hv Hq].
        { assert (same_view s s1) as Hv1.
          { split; try done; intros t; unfold s1; rewrite ?tstates_upd, ?frames_upd; unfold upd;
              by destruct (Z.eqb_spec t me) as [->|]. }
          unfold pr. destruct (negb _); [|done]. cbn [fst].
          set (s2 := switch_to_kernel_as s1 c).
          assert (same_view s1 s2 /\ all_q s2 = all_q s1) as [Hv2 Hq2].
          { unfold s2, switch_to_kernel_as. destruct (_ =? _); [by split; [split|]|].
            unfold set_cr3, upd_percpu. destruct (_ <=? _); by split; [split|]. }
          split; [|exact Hq2]. eapply same_view_trans; [exact Hv1|].
          eapply same_view_trans; [exact Hv2|].
          split; try done; intros t; rewrite ?tstates_upd, ?frames_upd; unfold upd;
            by destruct (Z.eqb_spec t me) as [->|]. }
        destruct pr as [s2 dead]. cbn [fst] in *.
        split_and!; [apply Hv|apply Hv|exact Hq| |lia]. intros _ t.
        set (s3 := emit s2 (UheapReset me)).
        rewrite tstates_upd, frames_upd. unfold upd. destruct (Z.eqb_spec t me) as [->|Hne].
        + cbn [state rsp with_rsp]. fold (tstates (upd_task s3 me (with_state DEAD)) me).
          by rewrite tstates_upd, upd_eq.
        + rewrite tstates_upd, frames_upd, !upd_ne by done.
          split; [apply (sv_state _ _ Hv)|apply (sv_frame _ _ Hv)].
      - cbn [andb fst]. split_and!; try done. lia. }
    unfold sched_inv. cbn [task_count set_cur]. rewrite En.
    eapply inv_core_ext; [eapply (core_exit _ _ _ _ _ I c
      (if 0 <? me then upd (tstates s) me DEAD else tstates s)
      (if 0 <? me then upd (frames s) me 0 else frames s) Hc)|..].
    - intros Hlt. fold me in Hlt. by destruct (Z.ltb_spec 0 me); [|lia].
    - intros Hle. fold me in Hle. by destruct (Z.ltb_spec 0 me); [lia|].
    - done.
    - intros t. change (tstates (set_cur body.1.1 c (-1)) t) with (tstates body.1.1 t).
      destruct (Z.ltb_spec 0 me); [by apply Hpos|by apply Hneg].
    - intros t. change (frames (set_cur body.1.1 c (-1)) t) with (frames body.1.1 t).
      destruct (Z.ltb_spec 0 me); [by apply Hpos|by apply Hneg].
    - intros d _. rewrite cur_set. unfold upd. by rewrite Ec.
    - change (all_q (set_cur body.1.1 c (-1))) with (all_q body.1.1). by rewrite Eq. }
  destruct body as [[s1 old] dead]. exact Hb.
Qed.

(** ** Interleavings *)

Inductive step : sched * list Z -> sched * list Z -> Prop :=
  | step_tick s p c regs : cpu_ok c -> step (s, p) ((schedule_on_cpu s c regs).1, p)
  | step_block s p c st : cpu_ok c -> step (s, p) ((block_prepare s c st).1, p)
  | step_set_wake s p t w : step (s, p) (upd_task s t (with_wake w), p)
  | step_unblock s p t s' r : unblock_mark s t = (s', r) ->
      step (s, p) (match r with Enqueue u => (s', p ++ [u]) | _ => (s', p) end)
  | step_kick s p c : step (s, p) (kick s c, p)
  | step_unblock_place s p1 t p2 target self : cpu_ok target ->
      step (s, p1 ++ t :: p2) (unblock_place s t target self, p1 ++ p2)
  | step_create s p x s' slot : create_slot s x = (s', Some slot) ->
      (x slot).(state) = READY -> (x slot).(rsp) <> 0 -> step (s, p) (s', p ++ [slot])
  | step_create_place s p1 t p2 stack target self z : cpu_ok target ->
      step (s, p1 ++ t :: p2) ((create_place s t stack target self z).1, p1 ++ p2)
  | step_exit s p c : cpu_ok c -> (cur s c = 0 -> (task s 0).(state) = RUNNING) ->
      step (s, p) ((exit_section s c).1.1, p)
  | step_idle s p c : cpu_ok c -> cur s c < 0 -> step (s, p) (scheduler_idle_pass s c, p)
  | step_time s p now : step (s, p)
      (mk_sched s.(tasks) s.(task_count) s.(current_task) s.(cpu_current_task)
        s.(cpu_runqueues) s.(smp_percpu) s.(smp_cpu_online_count) s.(idle_stack_tops)
        s.(syscall_stack_tops) s.(kmem) now s.(kernel_pml4_phys) s.(log), p).

Lemma step_inv s p s' p' : step (s, p) (s', p') -> sched_inv s p -> sched_inv s' p'.
Proof.
  intros Hst I. inversion Hst; subst; clear Hst.
  - by apply schedule_inv.
  - by apply block_prepare_inv.
  - apply (inv_view s _ p'); try done. split; try done; intros x; rewrite ?tstates_upd, ?frames_upd;
      unfold upd; by destruct (Z.eqb_spec x t) as [->|].
  - match goal with E : unblock_mark s t = (?s1, ?r1) |- _ =>
      pose proof (unblock_mark_inv s t p I) as Hu; rewrite E in Hu; destruct r1 end;
      match goal with E : _ = (s', p') |- _ => injection E as <- <- end.
    + by subst.
    + apply Hu.
    + by destruct Hu as [-> ?].
  - destruct (kick_view s c) as [Hv Hq]. apply (inv_view s _ p'); try done. by rewrite Hq.
  - by apply unblock_place_inv.
  - by eapply create_slot_inv.
  - by apply create_place_inv.
  - by apply exit_inv.
  - unfold scheduler_idle_pass. destruct (Z.ltb_spec c SMP_MAX_CPUS).
    + destruct (upd_percpu_view (set_cur s c (-1)) c (fun x => mk_percpu x.(processor_id) x.(lapic_id)
        x.(online) x.(reschedule_pending) (u64 (x.(idle_ticks) + 1)) x.(scheduler_ticks)
        x.(current_cr3))) as [Hv Hq].
      apply (inv_view (set_cur s c (-1)) _ p'); [by apply drop_inv|exact Hv|].
      unfold smp_note_idle_tick. by rewrite Hq.
    + unfold cpu_ok in *. lia.
  - by apply (inv_view s _ p').
Qed.

Lemma reachable_inv a b : rtc step a b -> sched_inv a.1 a.2 -> sched_inv b.1 b.2.
Proof.
  induction 1 as [|[s p] [s1 p1] ? Hs _ IH]; [done|]. intros I. apply IH. by apply (step_inv s p).
Qed.
End SchedOps.
