(* ===== verification/SchedThm.v ===== *)
(** * Properties of the scheduler *)

From stdpp Require Import base numbers list gmap.
From Stdlib Require Import ZArith Lia.
From S2P Require Import Prelude Sched SchedSpec SchedOps.

#[local] Open Scope Z_scope.

Module SchedThm.
Import Sched SchedSpec SchedOps.

(** ** Boot *)

Lemma init_tasks_spec s :
  (forall t, ~ 0 <= t < MAX_TASKS -> tstates s t = DEAD) ->
  forall t, tstates (for_loop 0 MAX_TASKS (fun i s => upd_task s i reset_task) s) t = DEAD.
Proof.
  intros Hout t. destruct (decide (0 <= t < MAX_TASKS)) as [Ht|Ht].
  - apply (for_loop_inv (fun i s' => forall x, 0 <= x < i -> tstates s' x = DEAD)
      0 MAX_TASKS (fun i s => upd_task s i reset_task) s); [done|intros; lia| |done].
    intros i s' Hi IH x Hx. rewrite tstates_upd. unfold upd.
    destruct (Z.eqb_spec x i); [done|]. apply IH. lia.
  - apply (for_loop_pres (fun s' => tstates s' t = DEAD)); [by apply Hout|].
    intros i s' Hi IH. rewrite tstates_upd, upd_ne by lia. done.
Qed.

Lemma init_cur_spec s :
  let s' := for_loop 0 SMP_MAX_CPUS (fun i s => set_cur s i (-1)) s in
  (forall c, cpu_ok c -> cur s' c = -1) /\ forall t, tstates s' t = tstates s t.
Proof.
  cbn zeta. split.
  - apply (for_loop_inv (fun i s' => forall c, 0 <= c < i -> cur s' c = -1)); [done|intros; lia|].
    intros i s' Hi IH c Hc. rewrite cur_set. destruct (Z.eqb_spec c i); [done|]. apply IH. lia.
  - apply (for_loop_pres (fun s' => forall t, tstates s' t = tstates s t)); [done|].
    intros i s' _ IH. exact IH.
Qed.

Lemma runq_init_spec s :
  (forall c, cpu_ok c -> rq (runq_init s) c = []) /\
  (forall t, tstates (runq_init s) t = tstates s t) /\ (forall c, cur (runq_init s) c = cur s c).
Proof.
  unfold runq_init. split_and!.
  - apply (for_loop_inv (fun i s' => forall c, 0 <= c < i -> rq s' c = [])); [done|intros; lia|].
    intros i s' Hi IH c Hc. rewrite rq_set. destruct (Z.eqb_spec c i); [done|]. apply IH. lia.
  - apply (for_loop_pres (fun s' => forall t, tstates s' t = tstates s t)); [done|].
    intros i s' _ IH. exact IH.
  - apply (for_loop_pres (fun s' => forall c, cur s' c = cur s c)); [done|].
    intros i s' _ IH. exact IH.
Qed.

Lemma all_q_nil s : (forall c, cpu_ok c -> rq s c = []) -> all_q s = [].
Proof.
  intros Hr. unfold all_q. assert (forall l, (forall c, c ∈ l -> cpu_ok c) -> concat (map (rq s) l) = []) as Hg.
  { induction l as [|c l IH]; intros Hc; [done|]. simpl. rewrite Hr by (apply Hc; by left).
    apply IH. intros d Hd. apply Hc. by right. }
  apply Hg. intros c. apply elem_of_zrange.
Qed.

Lemma stacks_init_spec s allocs s' : sched_stacks_init s allocs = Some s' ->
  tasks s' = tasks s /\ cpu_current_task s' = cpu_current_task s /\
  cpu_runqueues s' = cpu_runqueues s.
Proof.
  unfold sched_stacks_init. destruct (stack_tops _ _ _ _ _) as [[? ?]|]; [|done].
  destruct (stack_tops _ _ _ _ _) as [[? ?]|]; [|done]. by intros [= <-].
Qed.

(** The end of [tasking_init], on cleared tables. *)
Definition adopt_boot_task (s : sched) (boot_cr3 : Z) : sched :=
  set_cr3 (set_cur (set_count (set_current_task (set_task s 0 boot_task) 0) 1) 0 0) 0 boot_cr3.

Lemma adopt_inv s cr3 :
  (forall t, tstates s t = DEAD) -> (forall c, cpu_ok c -> cur s c = -1) ->
  (forall c, cpu_ok c -> rq s c = []) -> sched_inv (adopt_boot_task s cr3) [].
Proof.
  intros Hd Hc0 Hq0. unfold adopt_boot_task. set (s5 := set_cur _ 0 0). unfold set_cr3.
  match goal with |- sched_inv (upd_percpu s5 0 ?f) _ => destruct (upd_percpu_view s5 0 f) as [Hv Hq];
    apply (inv_view s5 _ []); [|exact Hv|by rewrite Hq] end.
  assert (forall t, tstates s5 t = if t =? 0 then RUNNING else DEAD) as Hst.
  { intros t. change (tstates s5 t) with ((task (set_task s 0 boot_task) t).(state)).
    rewrite task_set. destruct (t =? 0); [done|]. apply Hd. }
  assert (forall c, cpu_ok c -> cur s5 c = if c =? 0 then 0 else -1) as Hcu.
  { intros c Hc. unfold s5. rewrite cur_set. destruct (c =? 0); [done|]. by apply Hc0. }
  assert (all_q s5 = []) as Hq5 by by apply all_q_nil.
  unfold sched_inv. rewrite Hq5. change (task_count s5) with 1. clearbody s5. split.
  - done.
  - intros t Ht. rewrite Hst. destruct (Z.eqb_spec t 0); [lia|done].
  - constructor.
  - intros t. rewrite Hst. split; [by intros ?%elem_of_nil|]. by destruct (t =? 0).
  - intros c Hc. rewrite Hcu by done. destruct (Z.eqb_spec c 0); [|lia]. rewrite Hst. by left.
  - intros c d Hc Hd'. rewrite !Hcu by done. destruct (Z.eqb_spec c 0), (Z.eqb_spec d 0); lia.
  - intros t. rewrite Hst. by destruct (Z.eqb_spec t 0).
  - intros t. rewrite Hst. destruct (Z.eqb_spec t 0); intros [?|[[?|?] _]]; done.
Qed.

Lemma tasking_init_unfold s allocs cr3 :
  tasking_init s allocs cr3 =
  match sched_stacks_init (runq_init (for_loop 0 SMP_MAX_CPUS (fun i s => set_cur s i (-1))
          (for_loop 0 MAX_TASKS (fun i s => upd_task s i reset_task) s))) allocs with
  | None => None
  | Some s => Some (adopt_boot_task s cr3)
  end.
Proof. reflexivity. Qed.

(** [tasking_init] establishes the invariant with task 0 running on CPU 0. *)
Lemma tasking_init_inv s allocs cr3 s' :
  (forall t, ~ 0 <= t < MAX_TASKS -> tstates s t = DEAD) ->
  tasking_init s allocs cr3 = Some s' -> sched_inv s' [].
Proof.
  intros Hout. rewrite tasking_init_unfold. pose proof (init_tasks_spec s Hout) as H1.
  generalize dependent (for_loop 0 MAX_TASKS (fun i s => upd_task s i reset_task) s).
  intros s1 H1. destruct (init_cur_spec s1) as [Hc2 Ht2]. cbn zeta in *.
  generalize dependent (for_loop 0 SMP_MAX_CPUS (fun i s => set_cur s i (-1)) s1).
  intros s2 Hc2 Ht2. destruct (runq_init_spec s2) as (Hq3 & Ht3 & Hc3).
  destruct (sched_stacks_init (runq_init s2) allocs) as [s4|] eqn:E4; [|done]. intros [= <-].
  destruct (stacks_init_spec _ _ _ E4) as (Et & Ec & Eq).
  generalize dependent (runq_init s2). intros s3 Hq3 Ht3 Hc3 _ Et Ec Eq.
  apply adopt_inv.
  - intros t. unfold tstates, task. rewrite Et. change (tstates s3 t = DEAD). by rewrite Ht3, Ht2.
  - intros c Hc. unfold cur. rewrite Ec. change (cur s3 c = -1). rewrite Hc3. by apply Hc2.
  - intros c Hc. unfold rq. rewrite Eq. by apply Hq3.
Qed.

(** ** Placement *)

Lemma pick_target_ok s : 0 <= s.(smp_cpu_online_count) -> cpu_ok (pick_target_cpu s).
Proof.
  intros Hn. unfold pick_target_cpu, online_cpus, smp_online_cpu_count, cpu_ok, SMP_MAX_CPUS.
  set (n := if 16 <? _ then 16 else _).
  assert (0 <= n <= 16) as Hr by (unfold n; destruct (Z.ltb_spec 16 s.(smp_cpu_online_count)); lia).
  clearbody n. destruct (Z.eqb_spec n 0); [lia|].
  destruct (find_loop _ _ _) as [i|] eqn:Ef; [apply find_loop_Some in Ef as [? _]; lia|].
  apply (for_loop_pres (fun b : Z * Z => 0 <= b.1 < 16)); [simpl; lia|].
  intros i b Hi Hb. destruct (_ <? _); [simpl; lia|done].
Qed.

(** An idle CPU wins; otherwise no online CPU is less loaded. *)
Lemma pick_target_spec s : 0 < s.(smp_cpu_online_count) -> (forall c, (length (rq s c) <= 16)%nat) ->
  let t := pick_target_cpu s in
  (cur s t < 0 /\ rq s t = []) \/
  (forall i, 0 <= i < online_cpus s -> cpu_load s t <= cpu_load s i).
Proof.
  intros Hn Hl. cbn zeta. unfold pick_target_cpu. set (n := online_cpus s).
  assert (0 < n) as Hn0.
  { unfold n, online_cpus, smp_online_cpu_count, SMP_MAX_CPUS.
    destruct (Z.ltb_spec 16 s.(smp_cpu_online_count)); lia. }
  destruct (Z.eqb_spec n 0); [lia|].
  destruct (find_loop _ _ _) as [i|] eqn:Ef.
  { left. apply find_loop_Some in Ef as (_ & [Hc%Z.ltb_lt Hz%Z.eqb_eq]%andb_true_iff & _).
    split; [done|]. apply nil_length_inv. lia. }
  right. set (body := fun i b => _).
  assert (let r := for_loop 0 n body (0, 0xFFFFFFFF) in
    (n = 0 /\ r.2 = 0xFFFFFFFF \/ 0 < n /\ r.2 = cpu_load s r.1) /\
    forall i, 0 <= i < n -> r.2 <= cpu_load s i) as [Hb Hm].
  { apply (for_loop_inv (fun k (r : Z * Z) => (k = 0 /\ r.2 = 0xFFFFFFFF \/ 0 < k /\ r.2 = cpu_load s r.1) /\
      forall i, 0 <= i < k -> r.2 <= cpu_load s i)); [lia|split; [by left|intros; lia]|].
    intros i [b p] Hi [Hb Hm]. unfold body. cbn [fst snd] in *.
    assert (forall j, cpu_load s j < 0xFFFFFFFF) as Hsmall.
    { intros j. specialize (Hl j). unfold cpu_load. destruct (0 <=? cur s j); lia. }
    destruct (Z.ltb_spec (cpu_load s i) p) as [Hlt|Hge]; cbn [fst snd].
    - split; [right; split; [lia|done]|]. intros j Hj. destruct (Z.eq_dec j i) as [->|]; [lia|].
      specialize (Hm j ltac:(lia)). lia.
    - split.
      + destruct Hb as [[-> ->]|Hb]; [specialize (Hsmall 0); lia|]. right. lia.
      + intros j Hj. destruct (Z.eq_dec j i) as [->|]; [lia|]. apply Hm. lia. }
  intros i Hi. destruct Hb as [[? _]|[_ Hb]]; [lia|]. rewrite <- Hb. by apply Hm.
Qed.

(** ** Waking *)

Lemma unblock_off_range s t self : ~ 0 <= t < MAX_TASKS -> unblock_task s t self = s.
Proof.
  intros Ht. unfold unblock_task, unblock_mark.
  destruct (Z.ltb_spec t 0); [done|]. destruct (Z.leb_spec MAX_TASKS t); [done|]. lia.
Qed.

(** Waking a parked task, with the run queue choice of the code. *)
Lemma unblock_task_spec s t self pend :
  sched_inv s pend -> 0 <= s.(smp_cpu_online_count) -> parked (tstates s t) ->
  let s' := unblock_task s t self in
  sched_inv s' pend /\ s'.(smp_cpu_online_count) = s.(smp_cpu_online_count) /\
  (forall x, x <> t -> tstates s' x = tstates s x) /\
  ((exists c, cpu_ok c /\ cur s c = t /\ cur s' c = t /\ tstates s' t = RUNNING /\
      smp_reschedule_pending s' c = true) \/
   (tstates s' t = READY /\ t ∈ all_q s')).
Proof.
  intros I Hon Hpk. cbn zeta. unfold unblock_task.
  assert (0 <= t < s.(task_count)) as Ht.
  { destruct (decide (0 <= t < s.(task_count))) as [?|Hd]; [done|].
    rewrite (ic_dead _ _ _ _ _ I _ Hd) in Hpk. by destruct Hpk. }
  pose proof (ic_count _ _ _ _ _ I) as Hn.
  pose proof (unblock_mark_inv s t pend I) as Hm. revert Hm. unfold unblock_mark.
  destruct (Z.ltb_spec t 0); [lia|]. destruct (Z.leb_spec MAX_TASKS t); [lia|]. cbn [orb].
  assert (is_blocked (task s t).(state) = true) as -> by by apply is_blocked_parked. cbn [negb].
  destruct (find_loop _ _ _) as [c|] eqn:Ef.
  - set (s1 := upd_task _ _ (with_state RUNNING)). intros (Hc & Hcur & Hst & I1).
    assert (forall x, x <> t -> tstates s1 x = tstates s x) as Hoth.
    { intros x Hx. unfold s1. by rewrite !tstates_upd, !upd_ne, !tstates_upd, !upd_ne. }
    assert (s1.(smp_cpu_online_count) = s.(smp_cpu_online_count)) as Hon1 by done.
    assert (cur s c = t) as Hcs by done. clearbody s1.
    destruct (kick_view s1 c) as [Hv Hq]. split.
    { apply (inv_view s1 _ pend pend I1 Hv). by rewrite Hq. }
    split; [unfold kick, smp_mark_reschedule, upd_percpu; by destruct (_ <=? _)|].
    split; [intros x Hx; rewrite (sv_state _ _ Hv); by apply Hoth|]. left. exists c.
    rewrite (sv_cur _ _ Hv), (sv_state _ _ Hv). split_and!; try done.
    unfold smp_reschedule_pending, kick, smp_mark_reschedule, upd_percpu, cpu_ok in *.
    destruct (Z.leb_spec SMP_MAX_CPUS c); [lia|].
    unfold percpu. cbn [emit smp_percpu set_percpu]. by rewrite lookup_insert_eq.
  - set (s1 := upd_task _ _ (with_state READY)). intros [_ I1].
    assert (forall x, x <> t -> tstates s1 x = tstates s x) as Hoth.
    { intros x Hx. unfold s1. by rewrite !tstates_upd, !upd_ne, !tstates_upd, !upd_ne. }
    assert (tstates s1 t = READY) as Hrd by (unfold s1; by rewrite tstates_upd, upd_eq).
    assert (s1.(smp_cpu_online_count) = s.(smp_cpu_online_count)) as Hon1 by done. clearbody s1.
    pose proof (pick_target_ok s1 ltac:(lia)) as Htg.
    destruct (pending_push s1 pend t [] (pick_target_cpu s1) I1 Htg) as (s2 & E & Hv & Hq & I2).
    rewrite app_nil_r in I2. unfold unblock_place. rewrite E. cbn [negb].
    assert (s2.(smp_cpu_online_count) = s.(smp_cpu_online_count)) as Hon2.
    { revert E. unfold runq_push. destruct (_ <=? _); intros [= <-]; done. }
    set (s3 := if negb _ then _ else _).
    assert (same_view s2 s3 /\ all_q s3 = all_q s2 /\
      s3.(smp_cpu_online_count) = s2.(smp_cpu_online_count)) as (Hv3 & Hq3 & Hon3).
    { unfold s3. destruct (negb _); [|done]. destruct (kick_view s2 (pick_target_cpu s1)) as [? ?].
      split_and!; try done. unfold kick, smp_mark_reschedule, upd_percpu. by destruct (_ <=? _). }
    split; [apply (inv_view s2 _ pend pend I2 Hv3); by rewrite Hq3|]. split; [congruence|].
    split; [intros x Hx; rewrite (sv_state _ _ Hv3), (sv_state _ _ Hv); by apply Hoth|]. right.
    rewrite (sv_state _ _ Hv3), (sv_state _ _ Hv), Hq3. split; [done|]. rewrite Hq. by left.
Qed.

(** ** Stacks and frames *)

Lemma push_spec vals p m :
  let r := foldl push (p, m) vals in
  r.1 = p - 8 * Z.of_nat (length vals) /\
  (forall a, p <= a -> ld r.2 a = ld m a) /\
  (forall k v, vals !! k = Some v -> ld r.2 (p - 8 * (Z.of_nat k + 1)) = v).
Proof.
  revert p m. induction vals as [|v vals IH]; intros p m; cbn [foldl].
  { split; [simpl; lia|]. split; [done|]. intros k v Hk. by rewrite lookup_nil in Hk. }
  unfold push at 2. cbn [fst snd]. destruct (IH (p - 8) (st m (p - 8) v)) as (E1 & E2 & E3).
  split; [rewrite E1; simpl; lia|]. split.
  - intros a Ha. rewrite E2 by lia. apply ld_st_ne. lia.
  - intros [|k] x Hk; simpl in Hk.
    + injection Hk as <-. rewrite E2 by lia. by rewrite ld_st_eq.
    + rewrite <- (E3 k x Hk). f_equal. lia.
Qed.

(** Offsets of the fields of [registers_t]. *)
Definition RDI : Z := 64.
Definition RIP : Z := 136.
Definition CS : Z := 144.
Definition RFLAGS : Z := 152.
Definition RSP : Z := 160.
Definition SS : Z := 168.

(** The frame [m] holds at [p] resumes at [rip] with the given registers. *)
Definition resumes (m : gmap Z Z) (p rip cs rsp ss rdi : Z) : Prop :=
  ld m (p + RIP) = rip /\ ld m (p + CS) = cs /\ ld m (p + RSP) = rsp /\ ld m (p + SS) = ss /\
  ld m (p + RDI) = rdi /\ ld m (p + RFLAGS) = 0x202.

Lemma build_frame_spec m stack vals : length vals = 22%nat ->
  let r := build_frame m stack vals in
  r.1 = stack + TASK_STACK_SIZE - 176 /\
  forall k v, vals !! k = Some v -> ld r.2 (r.1 + 8 * (21 - Z.of_nat k)) = v.
Proof.
  intros Hl. unfold build_frame.
  destruct (push_spec vals (stack + TASK_STACK_SIZE)
    (for_loop 0 (TASK_STACK_SIZE / 8) (fun i m => st m (stack + 8 * i) 0) m)) as (E1 & _ & E3).
  cbn zeta. rewrite Hl in E1. split; [rewrite E1; lia|]. intros k v Hk. rewrite <- (E3 k v Hk).
  f_equal. rewrite E1. lia.
Qed.

Lemma user_frame_resumes m stack entry_rip user_rsp :
  let r := build_frame m stack (user_frame entry_rip user_rsp) in
  r.1 = stack + TASK_STACK_SIZE - 176 /\ resumes r.2 r.1 entry_rip 0x1B user_rsp 0x23 0.
Proof.
  destruct (build_frame_spec m stack (user_frame entry_rip user_rsp) eq_refl) as [E H].
  split; [done|]. split_and!.
  - exact (H 4%nat _ eq_refl).
  - exact (H 3%nat _ eq_refl).
  - exact (H 1%nat _ eq_refl).
  - exact (H 0%nat _ eq_refl).
  - exact (H 13%nat _ eq_refl).
  - exact (H 2%nat _ eq_refl).
Qed.

Lemma kernel_frame_resumes m stack func trampoline :
  let r := build_frame m stack (kernel_frame (stack + TASK_STACK_SIZE) func trampoline) in
  r.1 = stack + TASK_STACK_SIZE - 176 /\
  resumes r.2 r.1 trampoline 0x08 (stack + TASK_STACK_SIZE) 0x10 func.
Proof.
  destruct (build_frame_spec m stack (kernel_frame (stack + TASK_STACK_SIZE) func trampoline) eq_refl)
    as [E H].
  split; [done|]. split_and!.
  - exact (H 4%nat _ eq_refl).
  - exact (H 3%nat _ eq_refl).
  - exact (H 1%nat _ eq_refl).
  - exact (H 0%nat _ eq_refl).
  - exact (H 13%nat _ eq_refl).
  - exact (H 2%nat _ eq_refl).
Qed.

(** ** Theorems *)

(** C7. In every state reachable from [tasking_init] by any interleaving of timer
    ticks, blocking, waking, creation and exit on all CPUs: no task is current
    on two CPUs; a queued task is READY, has a saved frame and is current
    nowhere; no task id occurs twice among the queues and the tasks about to be
    queued; and every READY task is in one of them, so none is lost. *)
Theorem sched_reachable_safe s0 allocs cr3 s1 s pend :
  (forall t, ~ 0 <= t < MAX_TASKS -> (task s0 t).(state) = DEAD) ->
  tasking_init s0 allocs cr3 = Some s1 -> rtc step (s1, []) (s, pend) ->
  (forall c d, cpu_ok c -> cpu_ok d -> 0 <= cur s c -> cur s c = cur s d -> c = d) /\
  (forall c t, cpu_ok c -> t ∈ rq s c ->
     0 <= t < s.(task_count) /\ (task s t).(state) = READY /\ (task s t).(rsp) <> 0 /\
     forall d, cpu_ok d -> cur s d <> t) /\
  NoDup (all_q s ++ pend) /\
  (forall t, (task s t).(state) = READY -> t ∈ all_q s ++ pend).
Proof.
  intros Hout Hi Hr. pose proof (reachable_inv _ _ Hr (tasking_init_inv _ _ _ _ Hout Hi)) as I.
  split_and!.
  - intros c d Hc Hd. apply (ic_inj _ _ _ _ _ I c d Hc Hd).
  - intros c t Hc Ht. apply (waiting_facts _ _ _ _ _ t I). apply elem_of_app. left.
    by apply (elem_all_q s c).
  - apply I.
  - intros t Ht. by apply (ic_ready _ _ _ _ _ I).
Qed.

(** [runq_pop] of a non-empty queue returns a task of the queue whose
    effective priority is maximal, the one queued longest ago among equals, and
    removes exactly that task. *)
Theorem runq_pop_highest s c :
  rq s c <> [] ->
  let (s', t) := runq_pop s c in
  t ∈ rq s c /\ t :: rq s' c ≡ₚ rq s c /\ s'.(tasks) = s.(tasks) /\
  forall u, u ∈ rq s c ->
    effective_prio s u s.(now_ms) <= effective_prio s t s.(now_ms) /\
    (effective_prio s u s.(now_ms) = effective_prio s t s.(now_ms) ->
     (task s t).(enqueue_ms) <= (task s u).(enqueue_ms)).
Proof.
  intros Hne. unfold runq_pop. destruct (Z.eqb_spec (Z.of_nat (length (rq s c))) 0) as [E|_].
  { destruct Hne. apply nil_length_inv. lia. }
  destruct (best_entry_spec s (rq s c) Hne) as [Hb Hm].
  split; [by eapply list_elem_of_lookup_2, entry_lookup|].
  split; [rewrite rq_set, Z.eqb_refl; by apply swap_remove_perm|]. split; [done|].
  intros u (k & Hk)%list_elem_of_lookup. pose proof (lookup_lt_Some _ _ _ Hk).
  specialize (Hm (Z.of_nat k) ltac:(lia)).
  assert (entry (rq s c) (Z.of_nat k) = u) as Eu by (unfold entry; by rewrite Nat2Z.id, Hk).
  rewrite Eu in Hm. exact Hm.
Qed.

(** ** Aging

    The events of the run queue of CPU [c]: [runq_push] of a task that is not in
    it, [runq_pop] (by this CPU or by one that steals), and everything else that
    happens, in which time passes and the tasks of the queue keep priority and
    stamp.  The list collects the tasks that were popped. *)
Inductive queue_run (c : Z) : sched -> list Z -> sched -> Prop :=
| qr_start s : queue_run c s [] s
| qr_other s popped s1 s2 : queue_run c s popped s1 ->
    rq s2 c = rq s1 c -> s1.(now_ms) <= s2.(now_ms) ->
    (forall u, u ∈ rq s1 c -> (task s2 u).(priority) = (task s1 u).(priority) /\
                              (task s2 u).(enqueue_ms) = (task s1 u).(enqueue_ms)) ->
    queue_run c s popped s2
| qr_push s popped s1 s2 u : queue_run c s popped s1 ->
    u ∉ rq s1 c -> 0 <= (task s1 u).(priority) <= PRIO_MAX ->
    runq_push s1 c u = (s2, true) -> queue_run c s popped s2
| qr_pop s popped s1 s2 u : queue_run c s popped s1 ->
    rq s1 c <> [] -> runq_pop s1 c = (s2, u) -> queue_run c s (popped ++ [u]) s2.

(** A task that has waited 800 ms outranks every task that has waited less than
    500 ms, if both priorities are levels of task.h and the wait, in steps of
    100 ms, fits 32 bits. *)
Lemma aged_outranks s t u :
  0 <= (task s t).(priority) <= PRIO_MAX -> 0 <= (task s u).(priority) <= PRIO_MAX ->
  0 <= (task s t).(enqueue_ms) -> s.(now_ms) < 2 ^ 32 * AGE_STEP_MS ->
  (task s t).(enqueue_ms) + 800 <= s.(now_ms) -> s.(now_ms) < (task s u).(enqueue_ms) + 500 ->
  effective_prio s u s.(now_ms) < effective_prio s t s.(now_ms).
Proof.
  unfold PRIO_MAX. intros Ht Hu He Hn Hw Hv. unfold effective_prio, AGE_STEP_MS, AGE_MAX_BONUS in *.
  destruct (Z.ltb_spec (task s t).(enqueue_ms) s.(now_ms)); [|lia].
  set (wt := s.(now_ms) - (task s t).(enqueue_ms)).
  set (wu := if (task s u).(enqueue_ms) <? s.(now_ms) then _ else 0).
  assert (0 <= wu < 500) by (unfold wu; destruct (Z.ltb_spec (task s u).(enqueue_ms) s.(now_ms)); lia).
  assert (800 <= wt < 2 ^ 32 * 100) by (unfold wt; lia). clearbody wt wu.
  rewrite (wrap_small 32 (wt / 100)), (wrap_small 32 (wu / 100)) by (split; divlia).
  destruct (Z.ltb_spec 8 (wt / 100)), (Z.ltb_spec 8 (wu / 100)); rewrite !wrap_small by divlia; divlia.
Qed.

(** The queue during a run from [s]: what is left of the old one, with its stamps,
    and the tasks that were pushed since. *)
Definition queue_split (c t : Z) (s : sched) (popped : list Z) (s1 : sched) : Prop :=
  exists old new, rq s1 c ≡ₚ old ++ new /\ (length old + length popped = length (rq s c))%nat /\ t ∈ old /\
    (forall u, u ∈ old ++ new -> 0 <= (task s1 u).(priority) <= PRIO_MAX) /\
    (task s1 t).(enqueue_ms) = (task s t).(enqueue_ms) /\
    (forall u, u ∈ new -> s.(now_ms) <= (task s1 u).(enqueue_ms)) /\ s.(now_ms) <= s1.(now_ms).

Lemma runq_push_tasks s c u s' : runq_push s c u = (s', true) ->
  rq s' c = rq s c ++ [u] /\ s'.(now_ms) = s.(now_ms) /\ task s' u = with_enqueue s.(now_ms) (task s u) /\
  forall v, v <> u -> task s' v = task s v.
Proof.
  unfold runq_push. destruct (_ <=? _); [done|]. intros [= <-]. rewrite rq_set, Z.eqb_refl. split; [done|]. split; [done|].
  assert (forall v, task (set_rq (upd_task s u (with_enqueue (now_ms s))) c (rq s c ++ [u])) v =
    if v =? u then with_enqueue s.(now_ms) (task s u) else task s v) as E by (intros v; apply task_set).
  split; [by rewrite E, Z.eqb_refl|]. intros v Hv. rewrite E. by destruct (Z.eqb_spec v u).
Qed.

Lemma queue_run_split c t s popped s' : queue_run c s popped s' ->
  t ∈ rq s c -> (forall u, u ∈ rq s c -> 0 <= (task s u).(priority) <= PRIO_MAX) ->
  0 <= (task s t).(enqueue_ms) -> (task s t).(enqueue_ms) + 800 <= s.(now_ms) ->
  s'.(now_ms) < s.(now_ms) + 500 -> s'.(now_ms) < 2 ^ 32 * AGE_STEP_MS -> t ∉ popped ->
  queue_split c t s popped s'.
Proof.
  intros Hr Ht Hp He Hw. induction Hr as [s|s popped s1 s2 Hr IH Hrq Hnow Hsame|s popped s1 s2 u Hr IH Hu Hpu Hpush|s popped s1 s2 u Hr IH Hne Hpop];
    intros Hwin Hage Hnot.
  - exists (rq s c), []. rewrite app_nil_r. split_and!; try done; cbn; try lia. intros u Hu. by apply elem_of_nil in Hu.
  - destruct (IH Ht Hp He Hw ltac:(lia) ltac:(lia) Hnot) as (old & new & Hq & Hl & Hto & Hpr & Hen & Hnew & Hle).
    assert (forall u, u ∈ old ++ new -> u ∈ rq s1 c) as Hin by (intros u Hu; by rewrite Hq).
    exists old, new. rewrite Hrq. split_and!; try done.
    + intros u Hu. rewrite (proj1 (Hsame u (Hin u Hu))). by apply Hpr.
    + rewrite (proj2 (Hsame t (Hin t ltac:(apply elem_of_app; by left)))). done.
    + intros u Hu. rewrite (proj2 (Hsame u (Hin u ltac:(apply elem_of_app; by right)))). by apply Hnew.
    + lia.
  - destruct (runq_push_tasks s1 c u s2 Hpush) as (Eq & En & Eu & Eo). rewrite En in Hwin, Hage.
    destruct (IH Ht Hp He Hw Hwin Hage Hnot) as (old & new & Hq & Hl & Hto & Hpr & Hen & Hnew & Hle).
    assert (forall v, v ∈ old ++ new -> v <> u) as Hne by (intros v Hv ->; apply Hu; by rewrite Hq).
    exists old, (new ++ [u]). rewrite Eq, Hq, app_assoc, En. split_and!; try done.
    + intros v Hv. apply elem_of_app in Hv as [Hv|Hv].
      * rewrite Eo by (by apply Hne). by apply Hpr.
      * apply list_elem_of_singleton in Hv as ->. by rewrite Eu.
    + rewrite Eo by (apply Hne, elem_of_app; by left). done.
    + intros v Hv. apply elem_of_app in Hv as [Hv|Hv].
      * rewrite Eo by (apply Hne, elem_of_app; by right). by apply Hnew.
      * apply list_elem_of_singleton in Hv as ->. by rewrite Eu.
  - pose proof (runq_pop_highest s1 c Hne) as Hh. rewrite Hpop in Hh. destruct Hh as (Hin & Hperm & Htasks & Hmax).
    assert (s2.(now_ms) = s1.(now_ms)) as En.
    { revert Hpop. unfold runq_pop. destruct (_ =? 0); by intros [= <- _]. }
    rewrite En in Hwin, Hage. assert (t <> u /\ t ∉ popped) as [Htu Hnp] by (split; intros H; apply Hnot; rewrite elem_of_app, list_elem_of_singleton; tauto).
    destruct (IH Ht Hp He Hw Hwin Hage Hnp) as (old & new & Hq & Hl & Hto & Hpr & Hen & Hnew & Hle).
    assert (forall v, task s2 v = task s1 v) as Et by (intros v; unfold task; by rewrite Htasks).
    assert (u ∈ old) as Huo.
    { rewrite Hq, elem_of_app in Hin. destruct Hin as [|Hun]; [done|exfalso].
      pose proof (proj1 (Hmax t ltac:(rewrite Hq; apply elem_of_app; by left))).
      pose proof (aged_outranks s1 t u (Hpr t ltac:(apply elem_of_app; by left)) (Hpr u ltac:(apply elem_of_app; by right))
        ltac:(lia) ltac:(lia) ltac:(lia) ltac:(specialize (Hnew u Hun); lia)). lia. }
    apply list_elem_of_split in Huo as (o1 & o2 & ->).
    exists (o1 ++ o2), new. rewrite !Et, En. split_and!; try done.
    + apply (Permutation_cons_inv (a := u)). rewrite Hperm, Hq, <- !app_assoc. cbn [app]. symmetry. apply Permutation_middle.
    + rewrite !length_app in *. cbn in *. lia.
    + rewrite elem_of_app in Hto |- *. rewrite elem_of_cons in Hto. tauto.
    + intros v Hv. rewrite Et. apply Hpr. rewrite !elem_of_app, elem_of_cons in *. tauto.
    + intros v Hv. rewrite Et. by apply Hnew.
Qed.

(** C8. Aging bounds the wait: once a READY task has waited 800 ms in a run
    queue whose tasks have priorities up to [PRIO_MAX], fewer tasks than the
    queue holds are popped before it in the next 500 ms, whatever is pushed
    meanwhile; so it is served by as many pops as the queue is long (at most 16).
    The uptime is taken to be below 2^32 * 100 ms, where the bonus would wrap. *)
Theorem aging_no_starvation c s popped s' t :
  queue_run c s popped s' -> t ∈ rq s c ->
  (forall u, u ∈ rq s c -> 0 <= (task s u).(priority) <= PRIO_MAX) ->
  0 <= (task s t).(enqueue_ms) -> (task s t).(enqueue_ms) + 800 <= s.(now_ms) ->
  s'.(now_ms) < s.(now_ms) + 500 -> s'.(now_ms) < 2 ^ 32 * AGE_STEP_MS ->
  (length (rq s c) <= length popped)%nat -> t ∈ popped.
Proof.
  intros Hr Ht Hp He Hw Hwin Hage Hlen. destruct (decide (t ∈ popped)) as [|Hn]; [done|exfalso].
  destruct (queue_run_split c t s popped s' Hr Ht Hp He Hw Hwin Hage Hn) as (old & new & _ & Hl & Hto & _).
  destruct old; [by apply elem_of_nil in Hto|]. cbn in Hl. lia.
Qed.

(** Above [PRIO_MAX], which [create_task_prio] accepts, there is no such bound: a
    task of priority 20 that was just queued is popped before one of priority 0
    however long that one has waited. *)
Theorem aging_needs_prio_max s t u : 20 <= (task s u).(priority) <= 255 -> (task s t).(priority) = 0 ->
  effective_prio s t s.(now_ms) < effective_prio s u s.(now_ms).
Proof.
  intros Hu Ht. unfold effective_prio. rewrite Ht. unfold AGE_MAX_BONUS.
  set (bt := u32 ((if enqueue_ms (task s t) <? _ then _ else 0) / _)). set (bu := u32 ((if enqueue_ms (task s u) <? _ then _ else 0) / _)).
  pose proof (wrap_bound 32 ((if enqueue_ms (task s t) <? now_ms s then now_ms s - enqueue_ms (task s t) else 0) / AGE_STEP_MS) ltac:(lia)).
  pose proof (wrap_bound 32 ((if enqueue_ms (task s u) <? now_ms s then now_ms s - enqueue_ms (task s u) else 0) / AGE_STEP_MS) ltac:(lia)).
  fold bt in H. fold bu in H0. clearbody bt bu. destruct (Z.ltb_spec 8 bt), (Z.ltb_spec 8 bu); rewrite !wrap_small by lia; lia.
Qed.

(** Waking a parked task in a well-formed state: if it is still parked on a
    CPU it is RUNNING there again and that CPU is told to reschedule, otherwise
    it is READY in a run queue; no other task changes state. *)
Theorem unblock_task_correct s t self :
  sched_inv s [] -> 0 <= s.(smp_cpu_online_count) -> is_blocked (task s t).(state) = true ->
  let s' := unblock_task s t self in
  sched_inv s' [] /\
  (forall x, x <> t -> (task s' x).(state) = (task s x).(state)) /\
  ((exists c, cpu_ok c /\ cur s' c = t /\ (task s' t).(state) = RUNNING /\
      smp_reschedule_pending s' c = true) \/
   ((task s' t).(state) = READY /\ t ∈ all_q s')).
Proof.
  intros I Hon Hb. apply is_blocked_parked in Hb.
  destruct (unblock_task_spec s t self [] I Hon Hb) as (I' & _ & Ho & Hcase).
  split; [done|]. split; [exact Ho|].
  destruct Hcase as [(c & ? & ? & ? & ? & ?)|?]; [left; by exists c|by right].
Qed.

Lemma wake_fold W s self :
  NoDup W -> sched_inv s [] -> 0 <= s.(smp_cpu_online_count) ->
  (forall t, t ∈ W -> tstates s t = SLEEPING) ->
  let s' := foldl (fun s t => unblock_task s t self) s W in
  sched_inv s' [] /\
  (forall t, t ∈ W -> tstates s' t = READY \/ tstates s' t = RUNNING) /\
  (forall t, t ∉ W -> tstates s' t = tstates s t).
Proof.
  revert s. induction W as [|w W IH]; intros s Hnd I Hon HW; cbn [foldl].
  { split_and!; try done. by intros t ?%elem_of_nil. }
  apply NoDup_cons in Hnd as [Hw Hnd].
  destruct (unblock_task_spec s w self [] I Hon) as (I1 & Hon1 & Ho & Hc).
  { left. apply HW. by left. }
  set (s1 := unblock_task s w self) in *. clearbody s1.
  destruct (IH s1 Hnd I1 ltac:(lia)) as (I2 & Hin & Hout).
  { intros t Ht. rewrite Ho by (by intros ->). apply HW. by right. }
  split; [done|]. split.
  - intros t [->|Ht]%elem_of_cons; [|by apply Hin]. rewrite Hout by done.
    destruct Hc as [(c & _ & _ & _ & ? & _)|[? _]]; auto.
  - intros t Ht. apply not_elem_of_cons in Ht as [Htw Ht]. rewrite Hout by done. by apply Ho.
Qed.

(** [sleepq_check_wakeups] wakes exactly the sleepers whose time has come:
    each of them is READY or RUNNING afterwards, and every other task keeps its
    state. *)
Theorem sleepq_check_wakeups_correct s now self :
  sched_inv s [] -> 0 <= s.(smp_cpu_online_count) ->
  let s' := sleepq_check_wakeups s now self in
  sched_inv s' [] /\
  forall t, 0 <= t < s.(task_count) ->
    if due s now t then (task s' t).(state) = READY \/ (task s' t).(state) = RUNNING
    else (task s' t).(state) = (task s t).(state).
Proof.
  intros I Hon. cbn zeta. unfold sleepq_check_wakeups.
  pose proof (ic_count _ _ _ _ _ I) as Hn. rewrite Z.min_r by lia.
  set (W := List.filter (due s now) (zrange 0 s.(task_count))).
  assert (forall t, t ∈ W <-> 0 <= t < s.(task_count) /\ due s now t = true) as HW.
  { intros t. unfold W. rewrite list_elem_of_In, List.filter_In, <- list_elem_of_In, elem_of_zrange. done. }
  destruct (wake_fold W s self) as (I' & Hin & Hout); try done.
  - unfold W. apply NoDup_ListNoDup, List.NoDup_filter, NoDup_ListNoDup, NoDup_zrange.
  - intros t [_ Hd]%HW. unfold due in Hd. zprop. by apply bool_decide_eq_true in H.
  - split; [done|]. intros t Ht. destruct (due s now t) eqn:Hd.
    + apply Hin, HW. done.
    + apply Hout. intros [_ ?]%HW. congruence.
Qed.

Lemma create_user_task_spec s stack entry_rip user_rsp pml4 ck nm self :
  sched_inv s [] -> 0 <= s.(smp_cpu_online_count) -> 0 < stack ->
  let r := create_user_task s stack entry_rip user_rsp pml4 ck nm self in
  (find_slot s = None -> r.2 = -1 /\ r.1.(log) = s.(log) ++ [KFree stack] /\ sched_inv r.1 []) /\
  (forall slot, find_slot s = Some slot ->
     r.2 = slot /\ (task s slot).(state) = DEAD /\ sched_inv r.1 [] /\ slot ∈ all_q r.1 /\
     (task r.1 slot).(state) = READY /\ (task r.1 slot).(pml4_phys) = pml4 /\
     (task r.1 slot).(stack_base) = stack /\
     resumes r.1.(kmem) (task r.1 slot).(rsp) entry_rip 0x1B user_rsp 0x23 0).
Proof.
  intros I Hon Hst. cbn zeta. unfold create_user_task. destruct (Z.eqb_spec stack 0); [lia|].
  destruct (user_frame_resumes s.(kmem) stack entry_rip user_rsp) as [Ep Hres].
  destruct (build_frame _ _ _) as [p m]. cbn [fst snd] in *.
  set (s1 := set_kmem s m). assert (sched_inv s1 []) as I1 by by apply (inv_view s s1 [] []).
  assert (find_slot s1 = find_slot s) as Ef by done.
  set (x := fun slot : Z => _).
  split.
  - intros Hnone. unfold create_slot. rewrite Ef, Hnone. cbn [fst snd]. by split_and!.
  - intros slot Hslot. destruct (create_slot s1 x) as [s2 o] eqn:Ec.
    assert (o = Some slot /\ task s2 slot = x slot /\
      s2.(smp_cpu_online_count) = s.(smp_cpu_online_count) /\ s2.(kmem) = m) as (-> & Et & Hon2 & Hk2).
    { revert Ec. unfold create_slot. rewrite Ef, Hslot.
      destruct (slot =? s1.(task_count)), (negb _); intros [= <- <-];
        (split_and!; try done; by rewrite task_set, Z.eqb_refl). }
    destruct (create_slot_inv s1 x s2 slot [] I1 Ec) as [Hd I2]; [done| |].
    { unfold x. simpl. unfold TASK_STACK_SIZE in *. lia. }
    pose proof (pick_target_ok s2 ltac:(lia)) as Htg.
    destruct (pending_push s2 [] slot [] (pick_target_cpu s2) I2 Htg) as (s3 & E3 & Hv & Hq & I3).
    destruct (create_place_inv s2 [] slot [] stack (pick_target_cpu s2) self true I2 Htg) as [Hok I4].
    destruct (create_place s2 slot stack (pick_target_cpu s2) self true) as [s4 ok] eqn:E4.
    cbn [fst snd] in *. subst ok. split; [done|]. split; [done|]. split; [done|].
    revert E4. unfold create_place. rewrite E3. cbn [negb].
    set (s5 := if negb _ then _ else _). intros [= <-].
    assert (all_q s5 = all_q s3 /\ s5.(tasks) = s3.(tasks) /\ s5.(kmem) = s3.(kmem)) as (Hq5 & Et5 & Hk5).
    { unfold s5. destruct (negb _); [|done]. unfold kick, smp_mark_reschedule, upd_percpu.
      by destruct (_ <=? _). }
    assert (task s3 slot = with_enqueue s2.(now_ms) (x slot) /\ s3.(kmem) = m) as [Et3 Hk3].
    { revert E3. unfold runq_push. destruct (_ <=? _); [done|]. intros [= <-]. split; [|done].
      change (task (set_rq ?a ?b ?c) slot) with (task a slot). unfold upd_task.
      by rewrite task_set, Z.eqb_refl, Et. }
    split; [rewrite Hq5, Hq; by left|].
    assert (task s5 slot = with_enqueue s2.(now_ms) (x slot)) as ->.
    { unfold task. rewrite Et5. exact Et3. }
    by rewrite Hk5, Hk3.
Qed.

(** [create_user_task] in a well-formed state: it fails exactly when no slot
    is free, giving the stack back; otherwise it returns a slot that was DEAD,
    now a READY task waiting in a run queue with the given address space, whose
    frame resumes in ring 3 at the entry point on the user stack. *)
Theorem create_user_task_correct s stack entry_rip user_rsp pml4 ck nm self :
  sched_inv s [] -> 0 <= s.(smp_cpu_online_count) -> 0 < stack ->
  let r := create_user_task s stack entry_rip user_rsp pml4 ck nm self in
  (find_slot s = None -> r.2 = -1 /\ r.1.(log) = s.(log) ++ [KFree stack] /\ sched_inv r.1 []) /\
  (forall slot, find_slot s = Some slot ->
     r.2 = slot /\ (task s slot).(state) = DEAD /\ sched_inv r.1 [] /\ slot ∈ all_q r.1 /\
     (task r.1 slot).(state) = READY /\ (task r.1 slot).(pml4_phys) = pml4 /\
     (task r.1 slot).(stack_base) = stack /\
     resumes r.1.(kmem) (task r.1 slot).(rsp) entry_rip 0x1B user_rsp 0x23 0).
Proof. exact (create_user_task_spec s stack entry_rip user_rsp pml4 ck nm self). Qed.

Lemma task_emit s e t : task (emit s e) t = task s t.
Proof. done. Qed.
Lemma task_set_percpu s c x t : task (set_percpu s c x) t = task s t.
Proof. done. Qed.

(** [task_exit] of a task other than 0: the slot is DEAD and owns neither
    stack nor address space, the CPU has no task, the state stays well formed,
    and the task's resources are released in order: files, events, user heap,
    address space, and last, on the idle stack, its stack. *)
Theorem task_exit_correct s c :
  sched_inv s [] -> cpu_ok c -> 0 < cur s c ->
  let me := cur s c in
  let s' := task_exit s c in
  sched_inv s' [] /\ cur s' c = -1 /\ (task s' me).(state) = DEAD /\
  (task s' me).(stack_base) = 0 /\ (task s' me).(pml4_phys) = 0 /\
  s'.(log) = s.(log) ++ [VfsCloseAll me; FlushEvents me] ++
    (if (task s me).(pml4_phys) =? 0 then [UheapReset me]
     else [SwitchToKernelAS; UheapReset me; DestroyAS (task s me).(pml4_phys)]) ++
    [EnterIdleStack (task_idle_stack_top s c) (task s me).(stack_base)].
Proof.
  intros I Hc Hlt me. cbn zeta. unfold task_exit.
  assert (smp_current_task_id s c = me) as ->.
  { unfold smp_current_task_id, cpu_ok in *. by destruct (Z.leb_spec SMP_MAX_CPUS c); [lia|]. }
  set (s1 := emit (emit s _) _).
  assert (sched_inv s1 []) as I1 by by apply (inv_view s s1 [] []).
  destruct (cur_range s1 [] c I1 Hc ltac:(change (cur s1 c) with (cur s c); lia)) as [Hr _].
  change (cur s1 c) with me in Hr.
  pose proof (exit_inv s1 c [] I1 Hc ltac:(change (cur s1 c) with (cur s c); lia)) as I2.
  destruct (exit_section s1 c) as [[s2 old] dead] eqn:E2. cbn [fst] in I2.
  assert (cur s2 c = -1 /\ (task s2 me).(state) = DEAD /\ (task s2 me).(stack_base) = 0 /\
    (task s2 me).(pml4_phys) = 0 /\ old = (task s me).(stack_base) /\ dead = (task s me).(pml4_phys) /\
    s2.(idle_stack_tops) = s.(idle_stack_tops) /\
    s2.(log) = s1.(log) ++ (if (task s me).(pml4_phys) =? 0 then [] else [SwitchToKernelAS]) ++ [UheapReset me])
    as (E3 & E4 & E5 & E6 & -> & -> & E9 & E10).
  { revert E2. unfold exit_section. destruct (Z.ltb_spec c SMP_MAX_CPUS) as [_|]; [|unfold cpu_ok in *; lia].
    change (cur s1 c) with me. destruct (Z.ltb_spec 0 me); [|lia].
    destruct (Z.ltb_spec me s1.(task_count)); [|lia]. cbn [andb].
    assert (task (upd_task s1 me (with_stack 0)) me = with_stack 0 (task s me)) as Et1.
    { unfold upd_task. by rewrite task_set, Z.eqb_refl. }
    rewrite Et1. cbn [pml4_phys with_stack]. unfold NULL.
    destruct (Z.eqb_spec (task s me).(pml4_phys) 0) as [E0|Hne]; cbn [negb].
    - intros [= <- <- <-].
      assert (forall w, task (upd_task (upd_task (emit (upd_task s1 me (with_stack 0)) (UheapReset me)) me
        (with_state DEAD)) me w) me = w (with_state DEAD (with_stack 0 (task s me)))) as Et2.
      { intros w. unfold upd_task. rewrite !task_set, !Z.eqb_refl, !task_emit, !task_set, !Z.eqb_refl. done. }
      split; [by rewrite cur_set, Z.eqb_refl|].
      change (task (set_cur ?a c (-1)) me) with (task a me). rewrite Et2. by split_and!.
    - unfold switch_to_kernel_as, set_cr3, upd_percpu.
      destruct (_ =? NULL); [|destruct (_ <=? c)]; intros [= <- <- <-];
        (split; [by rewrite cur_set, Z.eqb_refl|]);
        change (task (set_cur ?a c (-1)) me) with (task a me); unfold upd_task;
        repeat (rewrite ?task_set, ?Z.eqb_refl, ?task_emit, ?task_set_percpu);
        (split_and!; try done; symmetry; apply (app_assoc (log s1) [SwitchToKernelAS])). }
  unfold task_idle_stack_top. set (top := ld _ _).
  assert (top = task_idle_stack_top s c) as Etop.
  { unfold top, task_idle_stack_top, NULL. destruct (negb _); cbn [emit idle_stack_tops]; by rewrite E9. }
  unfold NULL in *. destruct (Z.eqb_spec (task s me).(pml4_phys) 0) as [E0|Hne]; cbn [negb] in *.
  - split; [by apply (inv_view s2 _ [] [])|]. split_and!; try done.
    cbn [log emit]. rewrite E10, Etop. cbn [log emit s1]. by rewrite <- !app_assoc.
  - split; [by apply (inv_view s2 _ [] [])|]. split_and!; try done.
    cbn [log emit]. rewrite E10, Etop. cbn [log emit s1]. by rewrite <- !app_assoc.
Qed.

(** ** Witnesses: boot on two CPUs, one user task created and run on CPU 1 *)

Definition demo0 : sched := mk_sched ∅ 0 0 ∅ ∅ ∅ 2 ∅ ∅ ∅ 1000 0x1000 [].
Definition demo_allocs : list Z := map (fun i => 0x100000 + 0x8000 * i) (zrange 0 32).
Definition demo_boot : sched := default demo0 (tasking_init demo0 demo_allocs 0x1000).
Definition demo_new : sched := (create_user_task demo_boot 0x900000 0x4000000 0x8000000 0x7000 1 None 0).1.
Definition demo_run : sched := (schedule_on_cpu demo_new 1 0x5000).1.
Definition demo_nap : sched := (block_prepare (upd_task demo_run 1 (with_wake 1500)) 1 SLEEPING).1.

Lemma demo_out t : ~ 0 <= t < MAX_TASKS -> (task demo0 t).(state) = DEAD.
Proof. reflexivity. Qed.

Lemma demo_boot_eq : tasking_init demo0 demo_allocs 0x1000 = Some demo_boot.
Proof.
  unfold demo_boot. destruct (tasking_init demo0 demo_allocs 0x1000) eqn:E; [reflexivity|].
  exfalso. assert (is_Some (tasking_init demo0 demo_allocs 0x1000)) as [? Hs].
  - vm_compute. eexists. reflexivity.
  - rewrite E in Hs. discriminate.
Qed.

Lemma demo_boot_inv : sched_inv demo_boot [].
Proof. exact (tasking_init_inv _ _ _ _ demo_out demo_boot_eq). Qed.

Lemma sched_reachable_safe_witness :
  NoDup (all_q (schedule_on_cpu demo_boot 0 0x5000).1 ++ []).
Proof.
  exact (proj1 (proj2 (proj2 (sched_reachable_safe demo0 demo_allocs 0x1000 demo_boot _ []
    demo_out demo_boot_eq (rtc_once _ _ (step_tick demo_boot [] 0 0x5000 (conj (Z.le_refl 0) eq_refl))))))).
Defined.

Definition demo_queue : sched :=
  set_rq (set_task (set_task demo0 3 (mk_task 3 8 0 READY [] 0 0 0 1 100 KIND_KERNEL))
    5 (mk_task 5 8 0 READY [] 0 0 0 2 900 KIND_KERNEL)) 0 [5; 3].

Lemma runq_pop_highest_witness :
  (runq_pop demo_queue 0).2 = 3 /\ 3 :: rq (runq_pop demo_queue 0).1 0 ≡ₚ [5; 3].
Proof.
  pose proof (runq_pop_highest demo_queue 0 ltac:(discriminate)) as H.
  split; [reflexivity|]. exact (proj1 (proj2 H)).
Defined.

(** Task 3 has waited 900 ms in a queue of two with task 5 of a higher priority:
    two pops serve it. *)
Lemma aging_no_starvation_witness :
  3 ∈ [(runq_pop demo_queue 0).2; (runq_pop (runq_pop demo_queue 0).1 0).2].
Proof.
  apply (aging_no_starvation 0 demo_queue _ (runq_pop (runq_pop demo_queue 0).1 0).1 3).
  - change [(runq_pop demo_queue 0).2; (runq_pop (runq_pop demo_queue 0).1 0).2]
      with (([] ++ [(runq_pop demo_queue 0).2]) ++ [(runq_pop (runq_pop demo_queue 0).1 0).2]).
    eapply qr_pop; [eapply qr_pop; [apply qr_start|discriminate|reflexivity]|discriminate|reflexivity].
  - vm_compute. right. left.
  - intros u Hu. change (u ∈ [5; 3]) in Hu. rewrite !elem_of_cons, elem_of_nil in Hu.
    destruct Hu as [->|[->|[]]]; vm_compute; split; discriminate.
  - vm_compute. discriminate.
  - vm_compute. discriminate.
  - vm_compute. reflexivity.
  - vm_compute. reflexivity.
  - vm_compute. lia.
Defined.

Lemma create_user_task_correct_witness :
  (create_user_task demo_boot 0x900000 0x4000000 0x8000000 0x7000 1 None 0).2 = 1 /\
  (task demo_new 1).(state) = READY.
Proof.
  pose proof (proj2 (create_user_task_correct demo_boot 0x900000 0x4000000 0x8000000 0x7000 1 None 0
    demo_boot_inv ltac:(by vm_compute) ltac:(lia)) 1 ltac:(by vm_compute)) as H.
  exact (conj (proj1 H) (proj1 (proj2 (proj2 (proj2 (proj2 H)))))).
Defined.

Lemma demo_new_inv : sched_inv demo_new [].
Proof.
  exact (proj1 (proj2 (proj2 (proj2 (create_user_task_spec demo_boot 0x900000 0x4000000 0x8000000
    0x7000 1 None 0 demo_boot_inv ltac:(by vm_compute) ltac:(lia)) 1 ltac:(by vm_compute))))).
Qed.

Lemma demo_run_inv : sched_inv demo_run [].
Proof. apply schedule_inv; [exact demo_new_inv|done]. Qed.

Lemma demo_nap_inv : sched_inv demo_nap [].
Proof.
  apply block_prepare_inv; [|done].
  exact (step_inv _ _ _ _ (step_set_wake demo_run [] 1 1500) demo_run_inv).
Qed.

Lemma unblock_task_correct_witness :
  sched_inv (unblock_task demo_nap 1 0) [].
Proof.
  exact (proj1 (unblock_task_correct demo_nap 1 0 demo_nap_inv ltac:(by vm_compute) ltac:(by vm_compute))).
Defined.

Lemma sleepq_check_wakeups_correct_witness :
  (task (sleepq_check_wakeups demo_nap 1500 0) 1).(state) = READY \/
  (task (sleepq_check_wakeups demo_nap 1500 0) 1).(state) = RUNNING.
Proof.
  pose proof (proj2 (sleepq_check_wakeups_correct demo_nap 1500 0 demo_nap_inv ltac:(by vm_compute)) 1
    ltac:(by vm_compute)) as H.
  assert (due demo_nap 1500 1 = true) as E by by vm_compute.
  rewrite E in H. exact H.
Defined.

Lemma task_exit_correct_witness :
  cur demo_run 1 = 1 /\ (task (task_exit demo_run 1) 1).(state) = DEAD.
Proof.
  assert (cur demo_run 1 = 1) as E by by vm_compute. split; [exact E|].
  assert (0 < cur demo_run 1) as Hlt by (rewrite E; lia).
  pose proof (task_exit_correct demo_run 1 demo_run_inv (conj (Z.le_0_1) eq_refl) Hlt) as H.
  cbv zeta in H. destruct H as (_ & _ & H & _). rewrite E in H. exact H.
Defined.
End SchedThm.
