(* ===== verification/Sync.v ===== *)
(** * Wait queues, mutexes, semaphores, condition variables
      (src/kernel/wait.c, src/kernel/sync.c)

    The lock of a wait queue guards the object it belongs to, so everything
    between [wait_queue_lock] and [wait_queue_unlock] is one function of the
    object and of the scheduler state.  A blocking call is a sequence of such
    passes: [wait_block_locked] ends one pass when it parks, and the woken task
    starts the next one by re-checking its condition. *)

From stdpp Require Import base numbers list gmap.
From Stdlib Require Import ZArith Lia.
From S2P Require Import Prelude Sched SchedSpec SchedOps SchedThm.

#[local] Open Scope Z_scope.

Module Sync.
Import Sched SchedSpec SchedOps SchedThm.

(** ** Wait queues *)

Definition WAIT_QUEUE_CAPACITY : Z := MAX_TASKS.

(** The first [count] entries of [waiters]. *)
Definition wait_queue_t : Type := list Z.

Definition wait_queue_init : wait_queue_t := [].

Definition wait_enqueue (wq : wait_queue_t) (t : Z) : option wait_queue_t :=
  if WAIT_QUEUE_CAPACITY <=? Z.of_nat (length wq) then None else Some (wq ++ [t]).

(** The task at the head, [-1] when empty. *)
Definition wait_dequeue (wq : wait_queue_t) : wait_queue_t * Z :=
  match wq with [] => ([], -1) | t :: wq' => (wq', t) end.

Fixpoint wait_remove (wq : wait_queue_t) (t : Z) : wait_queue_t * bool :=
  match wq with
  | [] => ([], false)
  | x :: wq' => if x =? t then (wq', true)
                else let (r, b) := wait_remove wq' t in (x :: r, b)
  end.

(** [wait_block_locked] up to the park: the parked task, or [None] when the
    caller keeps the lock and re-checks at once. *)
Definition wait_block_locked (wq : wait_queue_t) (s : sched) (c : Z)
    : wait_queue_t * sched * option Z :=
  let (s, self) := block_prepare s c BLOCKED in
  if self <? 0 then (wq, s, None)
  else
    match wait_enqueue wq self with
    | None => (wq, unblock_task s self c, None)
    | Some wq => (wq, s, Some self)
    end.

Definition wait_wake_one (wq : wait_queue_t) (s : sched) (c : Z) : wait_queue_t * sched :=
  let (wq, t) := wait_dequeue wq in
  (wq, if 0 <=? t then unblock_task s t c else s).

(** The loop of [wait_wake_all] stops at an empty queue or a negative entry. *)
Fixpoint wait_wake_all (wq : wait_queue_t) (s : sched) (c : Z) : wait_queue_t * sched :=
  match wq with
  | [] => ([], s)
  | t :: wq' => if 0 <=? t then wait_wake_all wq' (unblock_task s t c) c else (wq', s)
  end.

Definition wait_abort (wq : wait_queue_t) (s : sched) (t c : Z) : wait_queue_t * sched :=
  let (wq, _) := wait_remove wq t in (wq, unblock_task s t c).

(** ** Mutex *)

Record mutex_t := mk_mutex { m_wq : wait_queue_t; owner : Z; locked : Z }.

Definition mutex_init : mutex_t := mk_mutex wait_queue_init (-1) 0.

(** How a pass of a blocking call ends. *)
Inductive pass := Acquired | Parked (t : Z) | Again.

Definition end_of_block (r : option Z) : pass := match r with Some t => Parked t | None => Again end.

Definition mutex_lock (m : mutex_t) (s : sched) (c : Z) : mutex_t * sched * pass :=
  if negb (m.(locked) =? 0) then
    let '(wq, s, r) := wait_block_locked m.(m_wq) s c in
    (mk_mutex wq m.(owner) m.(locked), s, end_of_block r)
  else (mk_mutex m.(m_wq) (smp_current_task_id s c) 1, s, Acquired).

Definition mutex_trylock (m : mutex_t) (s : sched) (c : Z) : mutex_t * bool :=
  if m.(locked) =? 0 then (mk_mutex m.(m_wq) (smp_current_task_id s c) 1, true) else (m, false).

Definition mutex_unlock (m : mutex_t) (s : sched) (c : Z) : mutex_t * sched :=
  let (wq, s) := wait_wake_one m.(m_wq) s c in (mk_mutex wq (-1) 0, s).

(** ** Semaphore *)

Record semaphore_t := mk_sem { s_wq : wait_queue_t; count : Z }.

Definition semaphore_init (initial : Z) : semaphore_t := mk_sem wait_queue_init initial.

Definition semaphore_wait (x : semaphore_t) (s : sched) (c : Z) : semaphore_t * sched * pass :=
  if x.(count) <=? 0 then
    let '(wq, s, r) := wait_block_locked x.(s_wq) s c in
    (mk_sem wq x.(count), s, end_of_block r)
  else (mk_sem x.(s_wq) (i32 (x.(count) - 1)), s, Acquired).

Definition semaphore_trywait (x : semaphore_t) : semaphore_t * bool :=
  if 0 <? x.(count) then (mk_sem x.(s_wq) (i32 (x.(count) - 1)), true) else (x, false).

Definition semaphore_post (x : semaphore_t) (s : sched) (c : Z) : semaphore_t * sched :=
  let (wq, s) := wait_wake_one x.(s_wq) s c in (mk_sem wq (i32 (x.(count) + 1)), s).

(** ** Condition variable *)

Record condvar_t := mk_cv { c_wq : wait_queue_t }.

Definition condvar_init : condvar_t := mk_cv wait_queue_init.

(** Up to the park: release the mutex and block, under the lock of [cv].  The
    woken task then runs [mutex_lock]. *)
Definition condvar_wait (cv : condvar_t) (m : mutex_t) (s : sched) (c : Z)
    : condvar_t * mutex_t * sched * option Z :=
  let (m, s) := mutex_unlock m s c in
  let '(wq, s, r) := wait_block_locked cv.(c_wq) s c in
  (mk_cv wq, m, s, r).

Definition condvar_signal (cv : condvar_t) (s : sched) (c : Z) : condvar_t * sched :=
  let (wq, s) := wait_wake_one cv.(c_wq) s c in (mk_cv wq, s).

Definition condvar_broadcast (cv : condvar_t) (s : sched) (c : Z) : condvar_t * sched :=
  let (wq, s) := wait_wake_all cv.(c_wq) s c in (mk_cv wq, s).

(** ** Waking really wakes *)

(** A scheduler state that can be reached ([SchedThm.sched_reachable_safe]), with
    any tasks on their way into a run queue. *)
Definition sched_ok (s : sched) : Prop := (exists pend, sched_inv s pend) /\ 0 <= s.(smp_cpu_online_count).

Lemma unblock_wakes s t c : sched_ok s ->
  sched_ok (unblock_task s t c) /\ is_blocked (task (unblock_task s t c) t).(state) = false.
Proof.
  intros [[pend I] Hon]. destruct (is_blocked (task s t).(state)) eqn:Eb.
  - destruct (unblock_task_spec s t c pend I Hon ltac:(by apply is_blocked_parked)) as (I' & Hon' & _ & Hst).
    split; [split; [by exists pend|lia]|]. change (is_blocked (tstates (unblock_task s t c) t) = false).
    by destruct Hst as [(d & _ & _ & _ & -> & _)|[-> _]].
  - assert (unblock_task s t c = s) as ->; [|split; [split; [by exists pend|done]|done]].
    unfold unblock_task, unblock_mark. rewrite Eb. by destruct (_ || _).
Qed.

Lemma block_locked_ok wq s c wq' s' r : sched_ok s -> cpu_ok c -> wait_block_locked wq s c = (wq', s', r) -> sched_ok s'.
Proof.
  intros [[pend I] Hon] Hc. unfold wait_block_locked. pose proof (block_prepare_inv s c BLOCKED pend I Hc) as Hb.
  assert ((block_prepare s c BLOCKED).1.(smp_cpu_online_count) = s.(smp_cpu_online_count)) as Ho
    by (unfold block_prepare; repeat case_match; done).
  destruct (block_prepare s c BLOCKED) as [s1 self]. cbn [fst] in *. assert (sched_ok s1) as H1 by (split; [by exists pend|lia]).
  destruct (self <? 0); [by intros [= <- <- <-]|]. destruct (wait_enqueue wq self); intros [= <- <- <-]; [done|].
  by apply unblock_wakes.
Qed.

(** The waiters that a section took off the head of the queue and that can run in
    the state it leaves. *)
Definition released (wq wq' : wait_queue_t) (s' : sched) : list Z :=
  filter (fun t => is_blocked (task s' t).(state) = false) (take (length wq - length wq') wq).

Lemma wake_one_releases wq s c wq' s' : sched_ok s -> wait_wake_one wq s c = (wq', s') ->
  sched_ok s' /\ released wq wq' s' = take 1 wq /\ wq' = drop 1 wq.
Proof.
  intros Hs. unfold wait_wake_one, wait_dequeue, released. destruct wq as [|t wq]; intros [= <- <-]; [done|].
  assert (sched_ok (if 0 <=? t then unblock_task s t c else s) /\
    is_blocked (task (if 0 <=? t then unblock_task s t c else s) t).(state) = false) as [H1 H2].
  { destruct (Z.leb_spec 0 t); [by apply unblock_wakes|]. split; [done|]. destruct Hs as [[pend I] _].
    pose proof (ic_dead _ _ _ _ _ I t ltac:(lia)) as Hd. unfold tstates in Hd. by rewrite Hd. }
  split; [done|]. replace (length (t :: wq) - length wq)%nat with 1%nat by (cbn; lia). cbn [take drop].
  rewrite filter_cons_True by done. done.
Qed.

(** ** Runs of a mutex

    [holders]: tasks that acquired and have not released; [woken]: waiters taken
    off the queue and made runnable that have not re-checked yet.  The callers
    are tasks, and a task unlocks only what it holds, which the code leaves to
    its callers ([foreign_unlock]).  Between two passes the scheduler may do
    anything that keeps it well formed. *)

Record mutex_run := mk_run {
  mtx : mutex_t; sch : sched; holders : list Z; woken : list Z;
}.

(** The task that executes on CPU [c]. *)
Definition caller (s : sched) (c t : Z) : Prop := cpu_ok c /\ 0 <= t /\ smp_current_task_id s c = t.

Inductive mutex_step : mutex_run -> mutex_run -> Prop :=
  | ms_sched m s h w s' : sched_ok s' -> mutex_step (mk_run m s h w) (mk_run m s' h w)
  | ms_lock m s h w c t m' s' r : caller s c t -> mutex_lock m s c = (m', s', r) ->
      mutex_step (mk_run m s h w)
        (mk_run m' s' (match r with Acquired => t :: h | _ => h end)
                      (match r with Again => w | _ => (wait_remove w t).1 end))
  | ms_trylock m s h w c t m' b : caller s c t -> mutex_trylock m s c = (m', b) ->
      mutex_step (mk_run m s h w) (mk_run m' s (if b then t :: h else h) w)
  | ms_unlock m s h1 t h2 w c m' s' : caller s c t -> mutex_unlock m s c = (m', s') ->
      mutex_step (mk_run m s (h1 ++ t :: h2) w)
        (mk_run m' s' (h1 ++ h2) (w ++ released m.(m_wq) m'.(m_wq) s'))
  | ms_abort m s h w t c wq s' : wait_abort m.(m_wq) s t c = (wq, s') ->
      mutex_step (mk_run m s h w) (mk_run (mk_mutex wq m.(owner) m.(locked)) s' h w).

Definition mutex_ok (r : mutex_run) : Prop :=
  sched_ok r.(sch) /\
  (r.(mtx).(locked) = 0 /\ r.(holders) = [] \/
   r.(mtx).(locked) = 1 /\ r.(holders) = [r.(mtx).(owner)]) /\
  (r.(mtx).(locked) = 0 -> r.(mtx).(m_wq) <> [] -> r.(woken) <> []).

Lemma mutex_step_ok r r' : mutex_step r r' -> mutex_ok r -> mutex_ok r'.
Proof.
  intros Hst (Hs & Hh & Hw). destruct Hst as [m s h w s' Hs'|m s h w c t m' s' r (Hc & Ht & Hid) E|m s h w c t m' b (Hc & Ht & Hid) E
    |m s h1 t h2 w c m' s' (Hc & Ht & Hid) E|m s h w t c wq s' E]; unfold mutex_ok in *; cbn [mtx sch holders woken] in *.
  - done.
  - unfold mutex_lock in E. destruct (Z.eqb_spec m.(locked) 0) as [El|El]; cbn [negb] in E.
    + injection E as <- <- <-. cbn. destruct Hh as [[_ ->]|[? _]]; [|lia]. rewrite Hid. split; [done|]. split; [by right|done].
    + destruct (wait_block_locked _ _ _) as [[wq s1] o] eqn:Eb. injection E as <- <- <-. cbn.
      destruct Hh as [[? _]|[El1 Hh]]; [done|]. split; [by eapply block_locked_ok|]. destruct o; cbn; split; try (by right); lia.
  - unfold mutex_trylock in E. destruct (Z.eqb_spec m.(locked) 0) as [El|El]; injection E as <- <-; [|done]. cbn.
    destruct Hh as [[_ ->]|[? _]]; [|lia]. rewrite Hid. split; [done|]. split; [by right|done].
  - unfold mutex_unlock in E. destruct (wait_wake_one _ _ _) as [wq s1] eqn:Ew. injection E as <- <-. cbn.
    destruct (wake_one_releases _ _ _ _ _ Hs Ew) as (Hs1 & Hrel & ->). rewrite Hrel.
    assert (h1 ++ h2 = []) as ->.
    { destruct Hh as [[_ Hh]|[_ Hh]]; apply (f_equal length) in Hh; rewrite length_app in Hh;
        simpl in Hh; [lia|]. destruct h1, h2; simpl in *; try done; lia. }
    split; [done|]. split; [by left|]. intros _ Hne Happ. apply app_eq_nil in Happ as [_ Hn]. by destruct m.(m_wq).
  - unfold wait_abort in E. destruct (wait_remove (m_wq m) t) as [wq0 b] eqn:Er. injection E as <- <-.
    split; [by apply unblock_wakes|]. split; [done|]. cbn. intros Hl Hne. apply Hw; [done|]. intros Hq. rewrite Hq in Er. cbn in Er. congruence.
Qed.

(** C12. A mutex used by any number of tasks, each of which unlocks it only while
    it holds it: in every reachable state at most one task holds it, [locked]
    and [owner] say which, and no wakeup is lost: when it is free and tasks
    wait, some waiter has been taken off the queue, made runnable by the
    scheduler, and has not re-checked the mutex yet. *)
Theorem mutex_exclusion s0 r :
  sched_ok s0 -> rtc mutex_step (mk_run mutex_init s0 [] []) r ->
  (r.(mtx).(locked) = 0 /\ r.(holders) = [] \/
   r.(mtx).(locked) = 1 /\ r.(holders) = [r.(mtx).(owner)]) /\
  (r.(mtx).(locked) = 0 -> r.(mtx).(m_wq) <> [] -> r.(woken) <> []).
Proof.
  intros Hs0 Hr. assert (mutex_ok r) as (_ & ? & ?); [|done].
  assert (mutex_ok (mk_run mutex_init s0 [] [])) as H0 by (split; [done|]; split; [by left|done]).
  remember (mk_run mutex_init s0 [] []) as r0. clear Heqr0.
  induction Hr as [|x y z Hst _ IH]; [done|]. apply IH. by eapply mutex_step_ok.
Qed.

(** [mutex_unlock] does not look at [owner]: called by another task it frees the
    mutex, and that task gets it while the first one is still inside. *)
Theorem foreign_unlock m s c t : smp_current_task_id s c = t -> t <> m.(owner) ->
  let (m', s') := mutex_unlock m s c in
  smp_current_task_id s' c = t -> mutex_trylock m' s' c = (mk_mutex m'.(m_wq) t 1, true).
Proof.
  intros Ht Hne. unfold mutex_unlock. destruct (wait_wake_one _ _ _) as [wq s']. intros Ht'. unfold mutex_trylock. cbn. by rewrite Ht'.
Qed.

(** ** Runs of a semaphore *)

Record sem_run := mk_srun { sem : semaphore_t; ssch : sched; swoken : list Z; taken : Z; posted : Z }.

Inductive sem_step : sem_run -> sem_run -> Prop :=
  | ss_sched x s w a p s' : sched_ok s' -> sem_step (mk_srun x s w a p) (mk_srun x s' w a p)
  | ss_wait x s w a p c t x' s' r : caller s c t -> semaphore_wait x s c = (x', s', r) ->
      sem_step (mk_srun x s w a p)
        (mk_srun x' s' (match r with Again => w | _ => (wait_remove w t).1 end)
           (match r with Acquired => a + 1 | _ => a end) p)
  | ss_trywait x s w a p x' b : semaphore_trywait x = (x', b) ->
      sem_step (mk_srun x s w a p) (mk_srun x' s w (if b then a + 1 else a) p)
  | ss_post x s w a p c x' s' : x.(count) < 2 ^ 31 - 1 -> semaphore_post x s c = (x', s') ->
      sem_step (mk_srun x s w a p) (mk_srun x' s' (w ++ released x.(s_wq) x'.(s_wq) s') a (p + 1)).

Definition sem_ok (n : Z) (r : sem_run) : Prop :=
  sched_ok r.(ssch) /\
  0 <= r.(sem).(count) < 2 ^ 31 /\ r.(sem).(count) = n + r.(posted) - r.(taken) /\
  (r.(sem).(s_wq) <> [] -> r.(sem).(count) <= Z.of_nat (length r.(swoken))).

Lemma removed_length (w : list Z) t : Z.of_nat (length w) <= Z.of_nat (length (wait_remove w t).1) + 1.
Proof.
  induction w as [|x w IH]; [done|]. cbn [wait_remove]. destruct (x =? t); [cbn; lia|].
  destruct (wait_remove w t). cbn in *. lia.
Qed.

Lemma sem_step_ok n r r' : sem_step r r' -> sem_ok n r -> sem_ok n r'.
Proof.
  intros Hst (Hs & Hc & He & Hw). destruct Hst as [x s w a p s' Hs'|x s w a p c t x' s' r (Hcp & Ht & Hid) E|x s w a p x' b E
    |x s w a p c x' s' Hmax E]; unfold sem_ok in *; cbn [sem ssch swoken taken posted] in *.
  - done.
  - pose proof (removed_length w t). unfold semaphore_wait in E. destruct (Z.leb_spec x.(count) 0) as [El|El].
    + destruct (wait_block_locked _ _ _) as [[wq s1] o] eqn:Eb. injection E as <- <- <-.
      split; [by eapply block_locked_ok|]. destruct o; cbn; split_and!; lia || (intros; lia).
    + injection E as <- <- <-. cbn. split; [done|]. rewrite sx_small by lia. split_and!; try lia. intros Hne. specialize (Hw Hne). lia.
  - unfold semaphore_trywait in E. destruct (Z.ltb_spec 0 x.(count)); injection E as <- <-; [|done]. cbn.
    split; [done|]. rewrite sx_small by lia. split_and!; try lia. intros Hne. specialize (Hw Hne). lia.
  - unfold semaphore_post in E. destruct (wait_wake_one _ _ _) as [wq s1] eqn:Ew. injection E as <- <-. cbn.
    destruct (wake_one_releases _ _ _ _ _ Hs Ew) as (Hs1 & Hrel & ->). rewrite Hrel. split; [done|].
    rewrite sx_small by lia. split_and!; try lia. intros Hne. rewrite length_app.
    destruct x.(s_wq) as [|y wq0]; [done|]. cbn. specialize (Hw ltac:(done)). lia.
Qed.

(** A semaphore initialised to [n]: in every reachable state the count is the
    initial value plus the posts minus the completed waits and never negative,
    and no wakeup is lost: while tasks wait, at least as many woken tasks are
    about to re-check as there are units available. *)
Theorem semaphore_counts n s0 r :
  0 <= n < 2 ^ 31 -> sched_ok s0 -> rtc sem_step (mk_srun (semaphore_init n) s0 [] 0 0) r ->
  0 <= r.(sem).(count) /\ r.(sem).(count) = n + r.(posted) - r.(taken) /\
  (r.(sem).(s_wq) <> [] -> r.(sem).(count) <= Z.of_nat (length r.(swoken))).
Proof.
  intros Hn Hs0 Hr. assert (sem_ok n r) as (_ & ? & ? & ?); [|by split_and!; try lia].
  assert (sem_ok n (mk_srun (semaphore_init n) s0 [] 0 0)) as H0.
  { unfold sem_ok, semaphore_init. simpl. split_and!; try lia; done. }
  remember (mk_srun (semaphore_init n) s0 [] 0 0) as r0. clear Heqr0.
  induction Hr as [|x y z Hs _ IH]; [done|]. apply IH. by eapply sem_step_ok.
Qed.

(** ** Witnesses *)

(** Three tasks, one on each of three CPUs, and a mutex they contend for. *)
Definition sync_task (t : Z) : task_t := mk_task t 8 0 RUNNING [] 0 0 0 PRIO_NORMAL 0 KIND_KERNEL.
Definition sync_demo : sched :=
  mk_sched {[0 := sync_task 0; 1 := sync_task 1; 2 := sync_task 2]} 3 0 {[0 := 0; 1 := 1; 2 := 2]} ∅ ∅ 3 ∅ ∅ ∅ 0 0 [].

Lemma sync_demo_states t : tstates sync_demo t = if (0 <=? t) && (t <? 3) then RUNNING else DEAD.
Proof.
  destruct (decide (0 <= t < 3)) as [Ht|Ht].
  - assert (t = 0 \/ t = 1 \/ t = 2) as [-> | [-> | ->]] by lia; reflexivity.
  - destruct (Z.leb_spec 0 t), (Z.ltb_spec t 3); cbn [andb]; try lia;
      unfold tstates, task, sync_demo; cbn [tasks]; by rewrite !lookup_insert_ne, lookup_singleton_ne by lia.
Qed.
Lemma sync_demo_cur c : cur sync_demo c = if (0 <=? c) && (c <? 3) then c else -1.
Proof.
  destruct (decide (0 <= c < 3)) as [Ht|Ht].
  - assert (c = 0 \/ c = 1 \/ c = 2) as [-> | [-> | ->]] by lia; reflexivity.
  - destruct (Z.leb_spec 0 c), (Z.ltb_spec c 3); cbn [andb]; try lia;
      unfold cur, sync_demo; cbn [cpu_current_task]; by rewrite !lookup_insert_ne, lookup_singleton_ne by lia.
Qed.

Lemma sync_demo_ok : sched_ok sync_demo.
Proof.
  split; [exists []|cbn; lia]. change (inv_core 3 (tstates sync_demo) (frames sync_demo) (cur sync_demo) []). split.
  - unfold MAX_TASKS. lia.
  - intros t Ht. rewrite sync_demo_states. destruct (Z.leb_spec 0 t), (Z.ltb_spec t 3); try done; lia.
  - constructor.
  - intros t. rewrite elem_of_nil, sync_demo_states. by destruct (_ && _).
  - intros c _. rewrite sync_demo_cur, sync_demo_states. destruct (Z.leb_spec 0 c), (Z.ltb_spec c 3); cbn [andb]; try lia.
    destruct (Z.leb_spec 0 c), (Z.ltb_spec c 3); try lia. by left.
  - intros c d _ _. rewrite !sync_demo_cur.
    destruct (Z.leb_spec 0 c), (Z.ltb_spec c 3), (Z.leb_spec 0 d), (Z.ltb_spec d 3); cbn [andb]; lia.
  - intros t. rewrite sync_demo_states. destruct (Z.leb_spec 0 t), (Z.ltb_spec t 3); try done. intros _ _. exists t.
    rewrite sync_demo_cur. destruct (Z.leb_spec 0 t), (Z.ltb_spec t 3); try lia. unfold SMP_MAX_CPUS. cbn [andb]. lia.
  - intros t. rewrite sync_demo_states. unfold parked. destruct (_ && _); [|by intros [?|[[?|?] _]]]. by intros [?|[[?|?] _]].
Qed.

(** Task 0 takes the mutex, tasks 1 and 2 park, task 0 unlocks: the mutex is
    free, task 2 still waits, and task 1 has been woken. *)
Definition demo_taken : mutex_t * sched * pass := mutex_lock mutex_init sync_demo 0.
Definition demo_parked1 : mutex_t * sched * pass := mutex_lock demo_taken.1.1 demo_taken.1.2 1.
Definition demo_parked2 : mutex_t * sched * pass := mutex_lock demo_parked1.1.1 demo_parked1.1.2 2.
Definition demo_free : mutex_t * sched := mutex_unlock demo_parked2.1.1 demo_parked2.1.2 0.

Lemma mutex_exclusion_witness :
  let r := mk_run demo_free.1 demo_free.2 [] [1] in
  r.(mtx).(locked) = 0 /\ r.(mtx).(m_wq) = [2] /\ r.(woken) <> [].
Proof.
  assert (rtc mutex_step (mk_run mutex_init sync_demo [] []) (mk_run demo_free.1 demo_free.2 [] [1])) as Hr.
  { eapply rtc_l; [apply (ms_lock _ _ [] [] 0 0 demo_taken.1.1 demo_taken.1.2 Acquired); [by repeat split|by vm_compute]|].
    eapply rtc_l; [apply (ms_lock _ _ [0] [] 1 1 demo_parked1.1.1 demo_parked1.1.2 (Parked 1)); [by repeat split|by vm_compute]|].
    eapply rtc_l; [apply (ms_lock _ _ [0] [] 2 2 demo_parked2.1.1 demo_parked2.1.2 (Parked 2)); [by repeat split|by vm_compute]|].
    apply rtc_once. apply (ms_unlock demo_parked2.1.1 demo_parked2.1.2 [] 0 [] [] 0 demo_free.1 demo_free.2); [by repeat split|by vm_compute]. }
  assert (locked demo_free.1 = 0 /\ m_wq demo_free.1 = [2]) as [El Eq] by (vm_compute; done).
  split; [done|]. split; [done|]. apply (mutex_exclusion sync_demo _ sync_demo_ok Hr); [done|]. cbn [mtx]. rewrite Eq. discriminate.
Defined.

Lemma semaphore_counts_witness :
  let r := mk_srun (mk_sem [] 4) sync_demo [] 0 1 in r.(sem).(count) = 3 + r.(posted) - r.(taken).
Proof.
  exact (proj1 (proj2 (semaphore_counts 3 sync_demo _ ltac:(lia) sync_demo_ok
    (rtc_once _ _ (ss_post (semaphore_init 3) sync_demo [] 0 0 0 (mk_sem [] 4) sync_demo
       eq_refl eq_refl))))).
Defined.
End Sync.
