(* ===== verification/Event.v ===== *)
(** * Per-task event queues (src/kernel/event.c)

    A circular buffer of 64 events per task; pushing into a full buffer drops
    the oldest event.  Each operation holds [event_lock]. *)

From stdpp Require Import base numbers list gmap.
From Stdlib Require Import ZArith Lia.
From S2P Require Import Prelude Sched.

#[local] Open Scope Z_scope.

Module Event.

Definition MAX_TASKS : Z := Sched.MAX_TASKS.
Definition EVENT_QUEUE_SIZE : Z := 64.

Record kyuzen_event_t := mk_event {
  type : Z; param1 : Z; param2 : Z; param3 : Z; win_id : Z;
}.
Definition no_event : kyuzen_event_t := mk_event 0 0 0 0 0.

(** One task's queue: its 64 slots and the two indices. *)
Record queue := mk_queue { slots : gmap Z kyuzen_event_t; eq_head : Z; eq_tail : Z }.
Definition queue0 : queue := mk_queue ∅ 0 0.

Abbreviation events := (gmap Z queue).

Definition queue_of (e : events) (t : Z) : queue := default queue0 (e !! t).
Definition slot_of (q : queue) (i : Z) : kyuzen_event_t := default no_event (q.(slots) !! i).

Definition push_event_to (e : events) (task_id ty p1 p2 p3 win : Z) : events :=
  if (task_id <? 0) || (MAX_TASKS <=? task_id) then e
  else
    let q := queue_of e task_id in
    let next_head := u32 (q.(eq_head) + 1) mod EVENT_QUEUE_SIZE in
    let tail := if next_head =? q.(eq_tail) then u32 (q.(eq_tail) + 1) mod EVENT_QUEUE_SIZE
                else q.(eq_tail) in
    <[task_id := mk_queue (<[q.(eq_head) := mk_event ty p1 p2 p3 win]> q.(slots)) next_head tail]> e.

Definition pop_event (e : events) (task_id : Z) : events * option kyuzen_event_t :=
  if (task_id <? 0) || (MAX_TASKS <=? task_id) then (e, None)
  else
    let q := queue_of e task_id in
    if q.(eq_head) =? q.(eq_tail) then (e, None)
    else (<[task_id := mk_queue q.(slots) q.(eq_head) (u32 (q.(eq_tail) + 1) mod EVENT_QUEUE_SIZE)]> e,
          Some (slot_of q q.(eq_tail))).

Definition flush_event_queue (e : events) (task_id : Z) : events :=
  if (task_id <? 0) || (MAX_TASKS <=? task_id) then e
  else <[task_id := mk_queue (queue_of e task_id).(slots) 0 0]> e.

(** ** Abstract queue *)

(** At most 63 events, the oldest first; a push into a full queue drops it. *)
Definition spec_push (l : list kyuzen_event_t) (x : kyuzen_event_t) : list kyuzen_event_t :=
  (if (63 <=? length l)%nat then tail l else l) ++ [x].

Definition qlen (q : queue) : Z := (q.(eq_head) - q.(eq_tail)) mod EVENT_QUEUE_SIZE.

(** The queued events, oldest first. *)
Definition contents (q : queue) : list kyuzen_event_t :=
  map (fun i => slot_of q ((q.(eq_tail) + i) mod EVENT_QUEUE_SIZE)) (zrange 0 (qlen q)).

Definition queue_ok (q : queue) : Prop := 0 <= q.(eq_head) < 64 /\ 0 <= q.(eq_tail) < 64.
Definition events_ok (e : events) : Prop := forall t, queue_ok (queue_of e t).

Lemma queue_of_insert e t q t' : queue_of (<[t := q]> e) t' = if t' =? t then q else queue_of e t'.
Proof.
  unfold queue_of. destruct (Z.eqb_spec t' t) as [->|]; [by rewrite lookup_insert_eq|].
  by rewrite lookup_insert_ne.
Qed.

Lemma index_step i : 0 <= i < 64 -> u32 (i + 1) mod EVENT_QUEUE_SIZE = (i + 1) mod 64.
Proof. intros Hi. unfold EVENT_QUEUE_SIZE. by rewrite wrap_small by lia. Qed.

Lemma qlen_range q : 0 <= qlen q < 64.
Proof. unfold qlen, EVENT_QUEUE_SIZE. divlia. Qed.

Lemma contents_length q : Z.of_nat (length (contents q)) = qlen q.
Proof.
  unfold contents. rewrite length_map. pose proof (length_zrange 0 (qlen q)) as E.
  pose proof (qlen_range q). lia.
Qed.

Lemma contents_lookup q (k : nat) :
  contents q !! k =
  if Z.of_nat k <? qlen q then Some (slot_of q ((q.(eq_tail) + Z.of_nat k) mod 64)) else None.
Proof.
  unfold contents, EVENT_QUEUE_SIZE. rewrite zrange_seqZ.
  rewrite (list_lookup_fmap (A := Z)). destruct (Z.ltb_spec (Z.of_nat k) (qlen q)).
  - rewrite lookup_seqZ_lt by lia. done.
  - rewrite lookup_seqZ_ge by lia. done.
Qed.

Definition pushed (q : queue) (x : kyuzen_event_t) : queue :=
  let next_head := (q.(eq_head) + 1) mod 64 in
  mk_queue (<[q.(eq_head) := x]> q.(slots)) next_head
    (if next_head =? q.(eq_tail) then (q.(eq_tail) + 1) mod 64 else q.(eq_tail)).

Lemma slot_pushed q x i : slot_of (pushed q x) i = if i =? q.(eq_head) then x else slot_of q i.
Proof.
  unfold slot_of, pushed. simpl. destruct (Z.eqb_spec i q.(eq_head)) as [->|].
  - by rewrite lookup_insert_eq.
  - by rewrite lookup_insert_ne.
Qed.

Lemma pushed_contents q x : queue_ok q -> contents (pushed q x) = spec_push (contents q) x.
Proof.
  intros [Hh Ht]. apply list_eq. intros k. pose proof (contents_length q) as Hl.
  pose proof (qlen_range q) as Hq. rewrite contents_lookup, slot_pushed. unfold spec_push.
  destruct (Nat.leb_spec 63 (length (contents q))) as [Hfull|Hroom].
  - assert ((q.(eq_head) + 1) mod 64 = q.(eq_tail)) as En by (unfold qlen, EVENT_QUEUE_SIZE in *; divlia).
    assert (qlen (pushed q x) = 63 /\ (pushed q x).(eq_tail) = (q.(eq_tail) + 1) mod 64) as [-> ->].
    { unfold qlen, pushed, EVENT_QUEUE_SIZE. cbn [eq_head eq_tail]. rewrite En, Z.eqb_refl. divlia. }
    assert (length (tail (contents q)) = 62%nat) as Htl by (destruct (contents q); simpl in *; lia).
    destruct (decide (k < 62)%nat) as [Hk|Hk].
    + rewrite lookup_app_l by lia. rewrite lookup_tail, contents_lookup.
      destruct (Z.ltb_spec (Z.of_nat k) 63); [|lia].
      destruct (Z.ltb_spec (Z.of_nat (S k)) (qlen q)); [|lia].
      assert (((q.(eq_tail) + 1) mod 64 + Z.of_nat k) mod 64 = (q.(eq_tail) + Z.of_nat (S k)) mod 64)
        as -> by divlia.
      destruct (Z.eqb_spec ((q.(eq_tail) + Z.of_nat (S k)) mod 64) q.(eq_head)); [|done].
      exfalso. divlia.
    + rewrite lookup_app_r, Htl by lia. destruct (decide (k = 62%nat)) as [->|].
      * change (Z.of_nat 62) with 62. change (62 <? 63) with true.
        destruct (Z.eqb_spec (((q.(eq_tail) + 1) mod 64 + 62) mod 64) q.(eq_head)); [done|].
        exfalso. divlia.
      * destruct (Z.ltb_spec (Z.of_nat k) 63); [lia|].
        symmetry. apply lookup_ge_None_2. simpl. lia.
  - assert ((q.(eq_head) + 1) mod 64 <> q.(eq_tail)) as En by (unfold qlen, EVENT_QUEUE_SIZE in *; divlia).
    assert (qlen (pushed q x) = qlen q + 1 /\ (pushed q x).(eq_tail) = q.(eq_tail)) as [-> ->].
    { unfold qlen, pushed, EVENT_QUEUE_SIZE in *. cbn [eq_head eq_tail].
      destruct (Z.eqb_spec ((q.(eq_head) + 1) mod 64) q.(eq_tail)); [done|]. divlia. }
    destruct (decide (Z.of_nat k < qlen q)) as [Hk|Hk].
    + rewrite lookup_app_l by lia. rewrite contents_lookup.
      destruct (Z.ltb_spec (Z.of_nat k) (qlen q + 1)); [|lia].
      destruct (Z.ltb_spec (Z.of_nat k) (qlen q)); [|lia].
      destruct (Z.eqb_spec ((q.(eq_tail) + Z.of_nat k) mod 64) q.(eq_head)); [|done].
      exfalso. unfold qlen, EVENT_QUEUE_SIZE in *. divlia.
    + rewrite lookup_app_r by lia. destruct (Z.ltb_spec (Z.of_nat k) (qlen q + 1)).
      * replace (k - length (contents q))%nat with 0%nat by lia. simpl.
        destruct (Z.eqb_spec ((q.(eq_tail) + Z.of_nat k) mod 64) q.(eq_head)); [done|].
        exfalso. unfold qlen, EVENT_QUEUE_SIZE in *. divlia.
      * symmetry. apply lookup_ge_None_2. simpl. lia.
Qed.

Lemma popped_contents q : queue_ok q -> q.(eq_head) <> q.(eq_tail) ->
  contents q = slot_of q q.(eq_tail) ::
    contents (mk_queue q.(slots) q.(eq_head) ((q.(eq_tail) + 1) mod 64)).
Proof.
  intros [Hh Ht] Hne. apply list_eq. intros [|k]; cbn [lookup list_lookup].
  - change (contents q !! 0%nat = Some (slot_of q (eq_tail q))).
    rewrite contents_lookup. unfold qlen, EVENT_QUEUE_SIZE. change (Z.of_nat 0) with 0.
    destruct (Z.ltb_spec 0 ((q.(eq_head) - q.(eq_tail)) mod 64)); [|exfalso; divlia].
    rewrite Z.add_0_r, Z.mod_small by lia. done.
  - change (contents q !! S k = contents (mk_queue (slots q) (eq_head q) ((eq_tail q + 1) mod 64)) !! k).
    rewrite !contents_lookup. unfold qlen, EVENT_QUEUE_SIZE. cbn [eq_head eq_tail].
    assert ((q.(eq_head) - (q.(eq_tail) + 1) mod 64) mod 64 = (q.(eq_head) - q.(eq_tail)) mod 64 - 1)
      as -> by divlia.
    assert (((q.(eq_tail) + 1) mod 64 + Z.of_nat k) mod 64 = (q.(eq_tail) + Z.of_nat (S k)) mod 64)
      as -> by divlia.
    set (n := (q.(eq_head) - q.(eq_tail)) mod 64).
    destruct (Z.ltb_spec (Z.of_nat (S k)) n), (Z.ltb_spec (Z.of_nat k) (n - 1)); done || lia.
Qed.

Definition valid_task (t : Z) : Prop := 0 <= t < MAX_TASKS.

Lemma task_guard t : valid_task t -> (t <? 0) || (MAX_TASKS <=? t) = false.
Proof. intros [? ?]. destruct (Z.ltb_spec t 0), (Z.leb_spec MAX_TASKS t); done || lia. Qed.

Lemma push_queue e t x : valid_task t -> events_ok e ->
  push_event_to e t x.(type) x.(param1) x.(param2) x.(param3) x.(win_id)
  = <[t := pushed (queue_of e t) x]> e.
Proof.
  intros Ht He. unfold push_event_to. rewrite task_guard by done. destruct (He t) as [Hh Hl].
  rewrite !index_step by done. by destruct x.
Qed.

(** C13. Each task's circular buffer implements a bounded FIFO of 63 events that
    drops its oldest event when full: pushing appends, popping returns the
    oldest event or nothing when empty, flushing empties; the indices stay in
    range and no other task's queue changes. *)
Theorem event_queue_refines e t x :
  events_ok e -> valid_task t ->
  let pushed_e := push_event_to e t x.(type) x.(param1) x.(param2) x.(param3) x.(win_id) in
  let popped := pop_event e t in
  let flushed := flush_event_queue e t in
  (events_ok pushed_e /\ contents (queue_of pushed_e t) = spec_push (contents (queue_of e t)) x) /\
  (events_ok popped.1 /\
   match contents (queue_of e t) with
   | [] => popped = (e, None)
   | y :: l => popped.2 = Some y /\ contents (queue_of popped.1 t) = l
   end) /\
  (events_ok flushed /\ contents (queue_of flushed t) = []) /\
  (forall u, u <> t -> queue_of pushed_e u = queue_of e u /\
     queue_of popped.1 u = queue_of e u /\ queue_of flushed u = queue_of e u).
Proof.
  intros He Ht. cbn zeta. rewrite push_queue by done. destruct (He t) as [Hh Hl].
  unfold pop_event, flush_event_queue. rewrite task_guard by done.
  assert (forall q, queue_ok q -> events_ok (<[t := q]> e)) as Hins.
  { intros q Hq u. rewrite queue_of_insert. by destruct (u =? t). }
  split; [|split; [|split]].
  - split; [apply Hins|rewrite queue_of_insert, Z.eqb_refl; by apply pushed_contents].
    unfold queue_ok, pushed. cbn [eq_head eq_tail]. split; [divlia|]. destruct (_ =? _); divlia.
  - destruct (Z.eqb_spec (queue_of e t).(eq_head) (queue_of e t).(eq_tail)) as [E|E].
    + split; [done|]. assert (contents (queue_of e t) = []) as ->; [|done].
      apply nil_length_inv. pose proof (contents_length (queue_of e t)) as Hc.
      unfold qlen in Hc. rewrite E, Z.sub_diag in Hc. change (0 mod EVENT_QUEUE_SIZE) with 0 in Hc. lia.
    + rewrite index_step by done. split; [apply Hins; split; simpl; divlia|].
      rewrite popped_contents by (done || by split). cbn [fst snd].
      by rewrite queue_of_insert, Z.eqb_refl.
  - split; [apply Hins; by split; simpl|]. rewrite queue_of_insert, Z.eqb_refl. done.
  - intros u Hu. rewrite !queue_of_insert. destruct (Z.eqb_spec u t); [done|].
    destruct (_ =? _); cbn [fst]; rewrite ?queue_of_insert; destruct (Z.eqb_spec u t); done.
Qed.

Definition demo_events : events := push_event_to ∅ 3 1 97 0 0 2.

Lemma event_queue_refines_witness :
  contents (queue_of (push_event_to demo_events 3 2 5 6 0 2) 3) =
  [mk_event 1 97 0 0 2; mk_event 2 5 6 0 2].
Proof.
  assert (events_ok demo_events) as He.
  { intros t. unfold demo_events, push_event_to. simpl. rewrite queue_of_insert. by destruct (t =? 3). }
  exact (proj2 (proj1 (event_queue_refines demo_events 3 (mk_event 2 5 6 0 2) He ltac:(done)))).
Defined.
End Event.
