(* ===== verification/KString.v ===== *)
(** * Memory and string routines (src/kernel/string.c)

    Memory is a finite map of bytes.  The comparison routines read their
    arguments through a byte source [Z -> Z] (an address range of memory, or the
    bytes of a value), so that clients that keep a string as a list use the
    same definitions.  Loops that look for a terminator take fuel; the lemmas
    state how much is enough. *)

From S2P Require Import Prelude.
From stdpp Require Import base numbers list gmap.
From Stdlib Require Import ZArith Lia.

#[local] Open Scope Z_scope.

Module KString.

(** ** Definitions *)

Definition memcpy (m : gmap Z Z) (dest src n : Z) : gmap Z Z :=
  for_loop 0 n (fun i m => st m (dest + i) (ld m (src + i))) m.

Definition memmove (m : gmap Z Z) (d s n : Z) : gmap Z Z :=
  if (d =? s) || (n =? 0) then m
  else if (d <? s) || (s + n <=? d) then
    for_loop 0 n (fun i m => st m (d + i) (ld m (s + i))) m
  else
    for_loop 0 n (fun k m => let i := n - k in st m (d + (i - 1)) (ld m (s + (i - 1)))) m.

Definition memset (m : gmap Z Z) (s c n : Z) : gmap Z Z :=
  for_loop 0 n (fun i m => st m (s + i) (u8 c)) m.

Definition memcmp (p1 p2 : Z -> Z) (n : Z) : Z :=
  match find_loop 0 n (fun i => negb (p1 i =? p2 i)) with
  | Some i => p1 i - p2 i
  | None => 0
  end.

(** [strlen fuel s len] is the loop entered with counter [len]. *)
Fixpoint strlen (fuel : nat) (s : Z -> Z) (len : Z) : option Z :=
  match fuel with
  | O => None
  | S fuel => if s len =? 0 then Some len else strlen fuel s (len + 1)
  end.

(** [strcmp fuel s1 s2 i] is the loop with both pointers advanced by [i]. *)
Fixpoint strcmp (fuel : nat) (s1 s2 : Z -> Z) (i : Z) : option Z :=
  match fuel with
  | O => None
  | S fuel =>
      if negb (s1 i =? 0) && (s1 i =? s2 i) then strcmp fuel s1 s2 (i + 1)
      else Some (s1 i - s2 i)
  end.

Fixpoint strncmp_loop (fuel : nat) (s1 s2 : Z -> Z) (i n : Z) : Z * Z :=
  match fuel with
  | O => (i, n)
  | S fuel =>
      if (0 <? n) && (negb (s1 i =? 0) && (s1 i =? s2 i)) then strncmp_loop fuel s1 s2 (i + 1) (n - 1)
      else (i, n)
  end.

Definition strncmp (s1 s2 : Z -> Z) (n : Z) : Z :=
  let '(i, n) := strncmp_loop (Z.to_nat n) s1 s2 0 n in
  if n =? 0 then 0 else s1 i - s2 i.

Fixpoint strncpy_loop (fuel : nat) (m : gmap Z Z) (dest src i n : Z) : Z * gmap Z Z :=
  match fuel with
  | O => (i, m)
  | S fuel =>
      if (i <? n) && negb (ld m (src + i) =? 0)
      then strncpy_loop fuel (st m (dest + i) (ld m (src + i))) dest src (i + 1) n
      else (i, m)
  end.

Definition strncpy (m : gmap Z Z) (dest src n : Z) : gmap Z Z :=
  let '(i, m) := strncpy_loop (Z.to_nat n) m dest src 0 n in
  for_loop i n (fun j m => st m (dest + j) 0) m.

(** ** Block copies *)

(** A loop that stores [f] of the original memory at [d + i], with every source
    byte read before it is overwritten. *)
Lemma copy_up m d s n a :
  0 <= n -> d <= s \/ s + n <= d ->
  ld (for_loop 0 n (fun i m => st m (d + i) (ld m (s + i))) m) a
  = if (d <=? a) && (a <? d + n) then ld m (s + (a - d)) else ld m a.
Proof.
  intros Hn Hd.
  apply (for_loop_inv (fun k m' => forall a,
    ld m' a = if (d <=? a) && (a <? d + k) then ld m (s + (a - d)) else ld m a)); [lia| |].
  - intros b. destruct (Z.leb_spec d b), (Z.ltb_spec b (d + 0)); simpl; try lia; done.
  - intros i m' Hi IH b. rewrite ld_st, !IH.
    destruct (Z.eqb_spec (d + i) b) as [<-|Hne].
    + replace (s + (d + i - d)) with (s + i) by lia.
      destruct (Z.leb_spec d (d + i)), (Z.ltb_spec (d + i) (d + (i + 1))),
        (Z.leb_spec d (s + i)), (Z.ltb_spec (s + i) (d + i)); simpl; try lia; done.
    + destruct (Z.leb_spec d b), (Z.ltb_spec b (d + i)), (Z.ltb_spec b (d + (i + 1)));
        simpl; try lia; done.
Qed.

Lemma copy_down m d s n a :
  0 <= n -> s <= d ->
  ld (for_loop 0 n (fun k m => let i := n - k in st m (d + (i - 1)) (ld m (s + (i - 1)))) m) a
  = if (d <=? a) && (a <? d + n) then ld m (s + (a - d)) else ld m a.
Proof.
  intros Hn Hd.
  pose proof (for_loop_inv (fun k m' => forall a,
    ld m' a = if (d + n - k <=? a) && (a <? d + n) then ld m (s + (a - d)) else ld m a)
    0 n (fun k m => let i := n - k in st m (d + (i - 1)) (ld m (s + (i - 1)))) m) as H.
  cbv beta zeta in H. cbv zeta. rewrite H; [| lia | |].
  - by replace (d + n - n) with d by lia.
  - intros b. destruct (Z.leb_spec (d + n - 0) b), (Z.ltb_spec b (d + n)); simpl; try lia; done.
  - intros k m' Hk IH b. rewrite ld_st, !IH.
    destruct (Z.eqb_spec (d + (n - k - 1)) b) as [<-|Hne].
    + replace (s + (d + (n - k - 1) - d)) with (s + (n - k - 1)) by lia.
      destruct (Z.leb_spec (d + n - (k + 1)) (d + (n - k - 1))),
        (Z.ltb_spec (d + (n - k - 1)) (d + n)),
        (Z.leb_spec (d + n - k) (s + (n - k - 1))), (Z.ltb_spec (s + (n - k - 1)) (d + n));
        simpl; try lia; done.
    + destruct (Z.leb_spec (d + n - k) b), (Z.ltb_spec b (d + n)),
        (Z.leb_spec (d + n - (k + 1)) b); simpl; try lia; done.
Qed.

(** [memmove] copies the [n] bytes at [s] to [d] as they were before the
    call, whether or not the two regions overlap and in whichever order, and
    changes no other byte; on regions that do not overlap [memcpy] gives the
    same memory contents. *)
Theorem memmove_correct m d s n :
  0 <= n ->
  (forall a, ld (memmove m d s n) a
     = if (d <=? a) && (a <? d + n) then ld m (s + (a - d)) else ld m a) /\
  (d + n <= s \/ s + n <= d ->
   forall a, ld (memcpy m d s n) a = ld (memmove m d s n) a).
Proof.
  intros Hn.
  assert (forall a, ld (memmove m d s n) a
    = if (d <=? a) && (a <? d + n) then ld m (s + (a - d)) else ld m a) as H.
  { intros a. unfold memmove.
    destruct (Z.eqb_spec d s) as [->|]; simpl.
    { destruct (_ && _); [|done]. f_equal. lia. }
    destruct (Z.eqb_spec n 0) as [->|]; simpl.
    { destruct (Z.leb_spec d a), (Z.ltb_spec a (d + 0)); simpl; try lia; done. }
    destruct (Z.ltb_spec d s), (Z.leb_spec (s + n) d); simpl;
      first [apply copy_up; lia | apply copy_down; lia]. }
  split; [exact H|]. intros Hd a. rewrite H. unfold memcpy. apply copy_up; lia.
Qed.

(** An overlapping move one byte up, of [1 2 3] at 10. *)
Lemma memmove_correct_witness :
  let m := st (st (st ∅ 10 1) 11 2) 12 3 in
  ld (memmove m 11 10 3) 11 = 1 /\ ld (memmove m 11 10 3) 12 = 2 /\
  ld (memmove m 11 10 3) 13 = 3 /\ ld (memmove m 11 10 3) 10 = 1.
Proof.
  intros m. destruct (memmove_correct m 11 10 3 ltac:(lia)) as [H _].
  rewrite !H. split; [reflexivity|]. split; [reflexivity|]. split; reflexivity.
Defined.

(** ** Strings held as lists *)

(** The byte source of a list of bytes followed by a terminator. *)
Definition str (l : list Z) (i : Z) : Z := default 0 (l !! Z.to_nat i).

(** A string without embedded terminator. *)
Definition no_nul (l : list Z) : Prop := Forall (fun c => c <> 0) l.

Lemma str_app_l l l' i : 0 <= i < Z.of_nat (length l) -> str (l ++ l') i = str l i.
Proof. intros. unfold str. rewrite lookup_app_l by lia. done. Qed.

Lemma str_end l i : Z.of_nat (length l) <= i -> str l i = 0.
Proof. intros. unfold str. rewrite lookup_ge_None_2 by lia. done. Qed.

Lemma str_nz l i : no_nul l -> 0 <= i < Z.of_nat (length l) -> str l i <> 0.
Proof.
  intros H Hi. unfold str. destruct (l !! Z.to_nat i) as [c|] eqn:E.
  - simpl. exact (Forall_lookup_1 _ _ _ _ H E).
  - apply lookup_ge_None_1 in E. lia.
Qed.

Lemma str_zero_iff l i : no_nul l -> 0 <= i -> (str l i = 0 <-> Z.of_nat (length l) <= i).
Proof.
  intros H Hi. split; intros H1; [|by apply str_end].
  destruct (Z.le_gt_cases (Z.of_nat (length l)) i); [done|].
  exfalso. by apply (str_nz l i); [|lia|].
Qed.

(** [strlen] on a terminated string. *)
Lemma strlen_ok l k fuel :
  no_nul l -> 0 <= k <= Z.of_nat (length l) -> (Z.to_nat (Z.of_nat (length l) - k) < fuel)%nat ->
  strlen fuel (str l) k = Some (Z.of_nat (length l)).
Proof.
  intros Hn. revert k. induction fuel as [|fuel IH]; intros k Hk Hf; [lia|]. simpl.
  destruct (Z.eqb_spec (str l k) 0) as [E|E].
  - apply str_zero_iff in E; [|done|lia]. f_equal. lia.
  - destruct (Z.eq_dec k (Z.of_nat (length l))); [exfalso; apply E, str_end; lia|].
    apply IH; lia.
Qed.

(** [strcmp] of two terminated strings that agree up to [k]. *)
Lemma strcmp_ok l1 l2 k fuel :
  no_nul l1 -> no_nul l2 -> 0 <= k <= Z.of_nat (length l1) -> k <= Z.of_nat (length l2) ->
  take (Z.to_nat k) l1 = take (Z.to_nat k) l2 ->
  (Z.to_nat (Z.of_nat (length l1) - k) < fuel)%nat ->
  exists r, strcmp fuel (str l1) (str l2) k = Some r /\ (r = 0 <-> l1 = l2).
Proof.
  intros H1 H2. revert k. induction fuel as [|fuel IH]; intros k Hk Hk2 Ht Hf; [lia|]. simpl.
  destruct (Z.eqb_spec (str l1 k) 0) as [E|E]; simpl.
  - eexists; split; [done|]. rewrite E. apply str_zero_iff in E; [|done|lia].
    assert (take (Z.to_nat k) l1 = l1) as T1 by (apply take_ge; lia). rewrite T1 in Ht.
    split; intros Hr.
    + assert (str l2 k = 0) as E2 by lia. apply str_zero_iff in E2; [|done|lia].
      rewrite Ht. apply take_ge. lia.
    + subst l2. rewrite str_end by lia. lia.
  - destruct (Z.eqb_spec (str l1 k) (str l2 k)) as [Eq|Ne].
    + assert (k < Z.of_nat (length l1)).
      { destruct (Z.lt_ge_cases k (Z.of_nat (length l1))); [done|]. exfalso; apply E, str_end; lia. }
      assert (k < Z.of_nat (length l2)).
      { destruct (Z.lt_ge_cases k (Z.of_nat (length l2))); [done|].
        exfalso; apply E; rewrite Eq; apply str_end; lia. }
      apply IH; try lia.
      replace (Z.to_nat (k + 1)) with (S (Z.to_nat k)) by lia.
      destruct (lookup_lt_is_Some_2 l1 (Z.to_nat k)) as [c1 L1]; [lia|].
      destruct (lookup_lt_is_Some_2 l2 (Z.to_nat k)) as [c2 L2]; [lia|].
      rewrite (take_S_r _ _ _ L1), (take_S_r _ _ _ L2), Ht.
      unfold str in Eq. rewrite L1, L2 in Eq. simpl in Eq. by rewrite Eq.
    + eexists; split; [done|]. split; [lia|]. intros ->. done.
Qed.

(** A result of [strcmp] does not depend on the fuel. *)
Lemma strcmp_mono fuel fuel' s1 s2 k r :
  strcmp fuel s1 s2 k = Some r -> (fuel <= fuel')%nat -> strcmp fuel' s1 s2 k = Some r.
Proof.
  revert fuel' k. induction fuel as [|fuel IH]; intros fuel' k H Hle; [done|].
  destruct fuel' as [|fuel']; [lia|]. simpl in *.
  destruct (_ && _); [|done]. apply IH; [done|lia].
Qed.

End KString.
