(* ===== verification/Bytes.v ===== *)
(** * Bytes in memory

    Reading and writing lists of bytes in a map of byte cells, as [memcpy]
    between a buffer and a list of known contents does; little-endian fields. *)

From S2P Require Import Prelude KString.
From stdpp Require Import base numbers list gmap.
From Stdlib Require Import ZArith Lia.

#[local] Open Scope list_scope.
#[local] Open Scope Z_scope.

Module Bytes.
Import KString.

Definition store_bytes (m : gmap Z Z) (a : Z) (l : list Z) : gmap Z Z :=
  for_loop 0 (Z.of_nat (length l)) (fun i m => st m (a + i) (KString.str l i)) m.
Definition load_bytes (m : gmap Z Z) (a n : Z) : list Z := map (fun i => ld m (a + i)) (zrange 0 n).

Lemma ld_store_bytes m a l b :
  ld (store_bytes m a l) b = if (a <=? b) && (b <? a + Z.of_nat (length l)) then str l (b - a) else ld m b.
Proof.
  unfold store_bytes.
  apply (for_loop_inv (fun k m' => forall b, ld m' b = if (a <=? b) && (b <? a + k) then str l (b - a) else ld m b)).
  - lia.
  - intros b'. zcase; zcase; simpl; try done; lia.
  - intros i m' Hi IH b'. rewrite ld_st. destruct (Z.eqb_spec (a + i) b') as [<-|].
    + replace (a + i - a) with i by lia. zcase; zcase; simpl; try done; lia.
    + rewrite IH. zcase; zcase; zcase; simpl; try done; lia.
Qed.

Lemma length_load_bytes m a n : 0 <= n -> Z.of_nat (length (load_bytes m a n)) = n.
Proof. intros. unfold load_bytes. rewrite length_map, length_zrange. lia. Qed.

Lemma str_load_bytes m a n i : 0 <= i < n -> str (load_bytes m a n) i = ld m (a + i).
Proof. intros. unfold load_bytes. unfold str. rewrite list_lookup_fmap, zrange_seqZ, lookup_seqZ_lt by lia. simpl. do 2 f_equal. lia. Qed.

Lemma load_bytes_ext m m' a a' n :
  (forall i, 0 <= i < n -> ld m (a + i) = ld m' (a' + i)) -> load_bytes m a n = load_bytes m' a' n.
Proof. intros He. apply map_ext_in. intros i Hi%list_elem_of_In%elem_of_zrange. by apply He. Qed.

Lemma list_eq_str (l k : list Z) :
  length l = length k -> (forall i, 0 <= i < Z.of_nat (length l) -> str l i = str k i) -> l = k.
Proof.
  intros El Hi. apply list_eq_same_length with (length l); [done|done|]. intros i x y Hlt Hx Hy.
  specialize (Hi (Z.of_nat i) ltac:(lia)). unfold str in Hi. rewrite Nat2Z.id, Hx, Hy in Hi. done.
Qed.

Lemma load_store_bytes m a l : load_bytes (store_bytes m a l) a (Z.of_nat (length l)) = l.
Proof.
  apply list_eq_str.
  - apply Nat2Z.inj. apply length_load_bytes. lia.
  - rewrite length_load_bytes by lia. intros i Hi. rewrite str_load_bytes, ld_store_bytes by lia.
    rewrite (proj2 (Z.leb_le _ _)), (proj2 (Z.ltb_lt _ _)) by lia. cbn [andb]. f_equal. lia.
Qed.

Lemma store_bytes_other m a l b :
  b < a \/ a + Z.of_nat (length l) <= b -> ld (store_bytes m a l) b = ld m b.
Proof. intros Hb. rewrite ld_store_bytes. zcase; zcase; cbn [andb]; try done; lia. Qed.

(** ** Little-endian fields *)

(** Fields put together with shifts and [|], and taken apart again. *)
Lemma lor_shiftl_add a b n : 0 <= n -> 0 <= a < 2 ^ n -> Z.lor a (Z.shiftl b n) = a + b * 2 ^ n.
Proof.
  intros Hn Ha. rewrite <- Z.shiftl_mul_pow2 by done. symmetry. apply Z.add_nocarry_lor.
  apply Z.bits_inj'. intros i Hi. rewrite Z.land_spec, Z.bits_0, Z.shiftl_spec by done.
  destruct (Z.lt_ge_cases i n).
  - by rewrite (Z.testbit_neg_r b), andb_false_r by lia.
  - replace (Z.testbit a i) with false; [done|]. symmetry. rewrite <- (Z.mod_small a (2 ^ n)) by done.
    by apply Z.mod_pow2_bits_high.
Qed.

Lemma land_ones_mod a n : 0 <= n -> Z.land a (2 ^ n - 1) = a mod 2 ^ n.
Proof. intros. rewrite <- Z.land_ones by done. f_equal. rewrite Z.ones_equiv. lia. Qed.

Definition le_bytes (n : nat) (v : Z) : list Z := (fun i => Z.shiftr v (8 * Z.of_nat i) mod 256) <$> seq 0 n.
Definition b32 : Z -> list Z := le_bytes 4.
Definition b64 : Z -> list Z := le_bytes 8.

(** The value of the [n] bytes at offset [o]. *)
Definition le_value (l : list Z) : Z := foldr (fun b v => b + 256 * v) 0 l.
Definition field (n : nat) (l : list Z) (o : nat) : Z := le_value (take n (drop o l)).

Lemma length_le_bytes n v : length (le_bytes n v) = n.
Proof. unfold le_bytes. by rewrite length_fmap, length_seq. Qed.

Lemma le_bytes_S n v : le_bytes (S n) v = v mod 256 :: le_bytes n (v / 256).
Proof.
  unfold le_bytes. cbn [seq fmap list_fmap]. rewrite Z.shiftr_0_r. f_equal.
  rewrite <- seq_shift, <- list_fmap_compose. apply list_fmap_ext. intros i j _. cbn.
  replace (8 * Z.of_nat (S j)) with (8 + 8 * Z.of_nat j) by lia.
  rewrite <- Z.shiftr_shiftr by lia. by rewrite (Z.shiftr_div_pow2 v 8) by lia.
Qed.

Lemma le_value_bytes n v : 0 <= v < 256 ^ Z.of_nat n -> le_value (le_bytes n v) = v.
Proof.
  revert v. induction n as [|n IH]; intros v Hv; [cbn in *; lia|].
  rewrite le_bytes_S. cbn [le_value foldr]. change (foldr _ 0 ?l) with (le_value l).
  replace (Z.of_nat (S n)) with (Z.succ (Z.of_nat n)) in Hv by lia. rewrite Z.pow_succ_r in Hv by lia.
  rewrite IH; [pose proof (Z.div_mod v 256); lia|]. split; [apply Z.div_pos; lia|].
  apply Z.div_lt_upper_bound; lia.
Qed.

(** A field that was written at its offset is read back. *)
Lemma field_app n v pre post :
  0 <= v < 256 ^ Z.of_nat n -> field n (pre ++ le_bytes n v ++ post) (length pre) = v.
Proof.
  intros Hv. unfold field. rewrite drop_app_length.
  rewrite <- (length_le_bytes n v) at 1. rewrite take_app_length. by apply le_value_bytes.
Qed.
End Bytes.
