(* ===== verification/Kfs.v ===== *)
(** * KyuzenFS: the file system (src/kernel/kyuzenfs.c)

    The disk is a map from sector numbers to the 512 bytes of the sector (what
    [ata_read_sector] and [ata_write_sector] transfer when the drive reports no
    error).  Directory sectors, the FAT and the header keep their byte layout:
    entries are 32 packed bytes, FAT cells and the fields of the header are
    little-endian words.  The in-memory FAT is a map of cells whose contents
    before the first format are arbitrary, as those of the block it is
    allocated from.

    Every public function takes [fs_lock] for its whole body, so each is one
    atomic step.  Loops that follow a FAT chain take as fuel the number of
    sectors plus one, and return [None] when it runs out: a well-formed file
    system never does.  512-byte work buffers are values; their allocation is
    taken to succeed, as the code assumes. *)

From S2P Require Import Prelude KString.
From Stdlib Require Import String Ascii.
From stdpp Require Import base numbers list gmap.
From Stdlib Require Import ZArith Lia.

#[local] Open Scope list_scope.
#[local] Open Scope Z_scope.

Module Kfs.
Import KString.

(** ** Data *)

Definition FAT_FREE : Z := 0.
Definition FAT_EOF : Z := 4294967295.
Definition FLAG_EMPTY : Z := 0.
Definition FLAG_FILE : Z := 1.
Definition FLAG_FOLDER : Z := 2.
Definition SLASH : Z := 47.

Record kfs_file_entry_t := mk_entry {
  filename : list Z;
  flags : Z;
  start_sector : Z;
  size_bytes : Z
}.

Record kfs_header_t := mk_header {
  magic : list Z;
  root_dir_sector : Z;
  total_files : Z;
  padding : list Z
}.

(** [fat_ready] is [fat_table != 0]; [ata_total] is the sector count that the
    drive reports to [ata_get_total_sectors]; [tty] is what [kprint] wrote,
    and [tty_ready] whether the console has a write function. *)
Record kfs := mk_kfs {
  disk : gmap Z (list Z);
  current_fs : kfs_header_t;
  fat_ready : bool;
  fat_table : gmap Z Z;
  total_disk_sectors : Z;
  fat_sectors_needed : Z;
  ata_total : Z;
  tty_ready : bool;
  tty : list (list Z)
}.

Definition set_disk (d : gmap Z (list Z)) (st : kfs) : kfs :=
  mk_kfs d (current_fs st) (fat_ready st) (fat_table st) (total_disk_sectors st)
    (fat_sectors_needed st) (ata_total st) (tty_ready st) (tty st).
Definition set_current_fs (h : kfs_header_t) (st : kfs) : kfs :=
  mk_kfs (disk st) h (fat_ready st) (fat_table st) (total_disk_sectors st)
    (fat_sectors_needed st) (ata_total st) (tty_ready st) (tty st).
Definition set_fat_table (f : gmap Z Z) (st : kfs) : kfs :=
  mk_kfs (disk st) (current_fs st) (fat_ready st) f (total_disk_sectors st)
    (fat_sectors_needed st) (ata_total st) (tty_ready st) (tty st).
Definition set_geometry (total fsn : Z) (st : kfs) : kfs :=
  mk_kfs (disk st) (current_fs st) true (fat_table st) total fsn
    (ata_total st) (tty_ready st) (tty st).
Definition set_tty (t : list (list Z)) (st : kfs) : kfs :=
  mk_kfs (disk st) (current_fs st) (fat_ready st) (fat_table st) (total_disk_sectors st)
    (fat_sectors_needed st) (ata_total st) (tty_ready st) t.

(** ** Bytes *)

Definition bytes32 (v : Z) : list Z :=
  [v mod 256; v / 256 mod 256; v / 65536 mod 256; v / 16777216 mod 256].
Definition le32 (b : list Z) (o : Z) : Z :=
  str b o + 256 * str b (o + 1) + 65536 * str b (o + 2) + 16777216 * str b (o + 3).

(** [memcpy(buf + o, l, length l)] *)
Definition put_bytes (buf : list Z) (o : Z) (l : list Z) : list Z :=
  take (Z.to_nat o) buf ++ l ++ drop (Z.to_nat o + length l) buf.

Definition zero_sector : list Z := replicate 512 0.

Definition header_bytes (h : kfs_header_t) : list Z :=
  magic h ++ bytes32 (root_dir_sector h) ++ bytes32 (total_files h) ++ padding h.
Definition header_of_bytes (b : list Z) : kfs_header_t :=
  mk_header (take 4 b) (le32 b 4) (le32 b 8) (drop 12 b).

(** [((kfs_file_entry_t* )buf)[i]], read and written. *)
Definition get_entry (buf : list Z) (i : Z) : kfs_file_entry_t :=
  mk_entry (take 23 (drop (Z.to_nat (32 * i)) buf)) (str buf (32 * i + 23))
    (le32 buf (32 * i + 24)) (le32 buf (32 * i + 28)).
Definition entry_bytes (e : kfs_file_entry_t) : list Z :=
  filename e ++ [flags e] ++ bytes32 (start_sector e) ++ bytes32 (size_bytes e).
Definition put_entry (buf : list Z) (i : Z) (e : kfs_file_entry_t) : list Z :=
  put_bytes buf (32 * i) (entry_bytes e).

(** ** Device *)

Definition ata_read (st : kfs) (s : Z) : list Z := default zero_sector (disk st !! s).
Definition ata_write (s : Z) (buf : list Z) (st : kfs) : kfs := set_disk (<[s := buf]> (disk st)) st.

Definition bytes_of (s : string) : list Z :=
  map (fun c => Z.of_N (N_of_ascii c)) (list_ascii_of_string s).
(** A message that ends the line. *)
Definition line (s : string) : list Z := bytes_of s ++ [10].
Definition kprint (s : list Z) (st : kfs) : kfs :=
  if tty_ready st then set_tty (tty st ++ [s]) st else st.

(** ** FAT *)

(** The 512 bytes of the FAT at [fat_bytes + 512 * k]. *)
Definition fat_sector (fat : gmap Z Z) (k : Z) : list Z :=
  concat (map (fun j => bytes32 (ld fat (128 * k + j))) (zrange 0 128)).

Definition kfs_sync_fat (fat_index : Z) (st : kfs) : kfs :=
  if total_disk_sectors st <=? fat_index then st
  else let sector_offset := fat_index / 128 in
       ata_write (1 + sector_offset) (fat_sector (fat_table st) sector_offset) st.

Definition fat_set (i v : Z) (st : kfs) : kfs := set_fat_table (Prelude.st (fat_table st) i v) st.
Definition fat_get (st : kfs) (i : Z) : Z := ld (fat_table st) i.

Definition find_free_sector (st : kfs) : Z :=
  match find_loop (u32 (root_dir_sector (current_fs st) + 1)) (total_disk_sectors st)
          (fun i => fat_get st i =? FAT_FREE) with
  | Some i => i
  | None => 0
  end.

Definition chain_end (s : Z) : bool := (s =? FAT_EOF) || (s =? FAT_FREE).

(** Enough for a chain that visits every sector at most once. *)
Definition walk_fuel (st : kfs) : nat := S (Z.to_nat (total_disk_sectors st)).

(** ** Directories *)

(** [strcmp(entries[i].filename, name) == 0]: the comparison reads the buffer
    from the name field on. *)
Definition name_matches (buf : list Z) (i : Z) (name : list Z) : bool :=
  match strcmp (S (length buf + length name)) (fun j => str buf (32 * i + j)) (str name) 0 with
  | Some r => r =? 0
  | None => false
  end.

Definition entry_matches (buf name : list Z) (i : Z) : bool :=
  negb (flags (get_entry buf i) =? FLAG_EMPTY) && name_matches buf i name.

Fixpoint find_walk (fuel : nat) (st : kfs) (curr_sec : Z) (name : list Z)
  : option (option (kfs_file_entry_t * Z * Z)) :=
  match fuel with
  | O => None
  | S fuel =>
      if chain_end curr_sec then Some None
      else let buffer := ata_read st curr_sec in
           match find_loop 0 16 (entry_matches buffer name) with
           | Some i => Some (Some (get_entry buffer i, curr_sec, i))
           | None => find_walk fuel st (fat_get st curr_sec) name
           end
  end.

(** The outer option is termination, the inner one the result of the search:
    the entry, its sector and its index. *)
Definition find_entry_in (st : kfs) (dir_sector : Z) (name : list Z)
  : option (option (kfs_file_entry_t * Z * Z)) :=
  if dir_sector <? 2 then Some None else find_walk (walk_fuel st) st dir_sector name.

(** The search of a free slot: the last sector visited, and the sector and
    index of the slot if there is one. *)
Fixpoint slot_walk (fuel : nat) (st : kfs) (last_sec dir_sec : Z) : option (Z * option (Z * Z)) :=
  match fuel with
  | O => None
  | S fuel =>
      if chain_end dir_sec then Some (last_sec, None)
      else let buffer := ata_read st dir_sec in
           match find_loop 0 16 (fun i => flags (get_entry buffer i) =? FLAG_EMPTY) with
           | Some i => Some (last_sec, Some (dir_sec, i))
           | None => slot_walk fuel st dir_sec (fat_get st dir_sec)
           end
  end.

(** [entries[idx] = *new_entry; entries[idx].filename[22] = 0; write the sector] *)
Definition write_entry (dir_sec : Z) (buffer : list Z) (idx : Z) (new_entry : kfs_file_entry_t)
    (st : kfs) : kfs :=
  ata_write dir_sec (put_bytes (put_entry buffer idx new_entry) (32 * idx + 22) [0]) st.

Definition insert_dir_entry (st : kfs) (dir_sec : Z) (new_entry : kfs_file_entry_t)
  : option (kfs * Z) :=
  match slot_walk (walk_fuel st) st dir_sec dir_sec with
  | None => None
  | Some (_, Some (sec, idx)) => Some (write_entry sec (ata_read st sec) idx new_entry st, 1)
  | Some (last_sec, None) =>
      let new_sec := find_free_sector st in
      if new_sec =? 0 then Some (st, 0)
      else
        let st := fat_set last_sec new_sec st in
        let st := fat_set new_sec FAT_EOF st in
        let st := kfs_sync_fat new_sec (kfs_sync_fat last_sec st) in
        Some (write_entry new_sec (replicate 512 FLAG_EMPTY) 0 new_entry st, 1)
  end.

(** ** Paths: byte lists without terminator *)

Fixpoint skip_slashes (p : list Z) : list Z :=
  match p with
  | c :: q => if c =? SLASH then skip_slashes q else p
  | [] => []
  end.

Fixpoint take_comp (p : list Z) : list Z * list Z :=
  match p with
  | [] => ([], [])
  | c :: q => if c =? SLASH then ([], p)
              else let '(comp, rest) := take_comp q in (c :: comp, rest)
  end.

Fixpoint resolve_walk (fuel : nat) (st : kfs) (path : list Z) (dir_sec : Z) : option (option Z) :=
  match fuel with
  | O => None
  | S fuel =>
      match path with
      | [] => Some (Some dir_sec)
      | _ =>
          match skip_slashes path with
          | [] => Some (Some dir_sec)
          | path =>
              let '(comp, rest) := take_comp path in
              if (22 <? length comp)%nat then Some None
              else match find_entry_in st dir_sec comp with
                   | None => None
                   | Some None => Some None
                   | Some (Some (e, _, _)) =>
                       if negb (flags e =? FLAG_FOLDER) then Some None
                       else resolve_walk fuel st rest (start_sector e)
                   end
          end
      end
  end.

Definition resolve_dir_nolock (st : kfs) (path : list Z) : option (option Z) :=
  resolve_walk (S (length path)) st path (root_dir_sector (current_fs st)).

(** Offset of the last component: one past the last slash. *)
Definition name_offset (path : list Z) : Z :=
  for_loop 0 (Z.of_nat (length path)) (fun i name => if str path i =? SLASH then i + 1 else name) 0.

Definition split_last_nolock (st : kfs) (path : list Z) : option (option (Z * list Z)) :=
  let off := name_offset path in
  let name := drop (Z.to_nat off) path in
  match name with
  | [] => Some None
  | _ =>
      let plen := if 0 <? off then off - 1 else off in
      let plen := if 127 <? plen then 127 else plen in
      match resolve_dir_nolock st (take (Z.to_nat plen) path) with
      | None => None
      | Some None => Some None
      | Some (Some sec) => Some (Some (sec, name))
      end
  end.

(** The look-up shared by the read-only operations: split, then find. *)
Definition lookup_path (st : kfs) (path : list Z) : option (option (kfs_file_entry_t * Z * Z)) :=
  match split_last_nolock st path with
  | None => None
  | Some None => Some None
  | Some (Some (parent_sec, name)) => find_entry_in st parent_sec name
  end.

(** ** Formatting and mounting *)

Definition disk_size (st : kfs) : Z := if ata_total st =? 0 then 204800 else ata_total st.
Definition fat_sectors (total : Z) : Z := u32 (u32 (total * 4) + 511) / 512.
Definition KZFS : list Z := [75; 90; 70; 83].

Definition write_header (st : kfs) : kfs := ata_write 0 (header_bytes (current_fs st)) st.

Definition kfs_format_nolock (st : kfs) : kfs :=
  let total := disk_size st in
  let fsn := fat_sectors total in
  let st := set_geometry total fsn st in
  let st := set_current_fs (mk_header KZFS (u32 (1 + fsn)) 0 (padding (current_fs st))) st in
  let root := root_dir_sector (current_fs st) in
  let st := for_loop 0 total (fun i => fat_set i FAT_FREE) st in
  let st := fat_set 0 FAT_EOF st in
  let st := for_loop 1 (fsn + 1) (fun i => fat_set i FAT_EOF) st in
  let st := fat_set root FAT_EOF st in
  let st := write_header st in
  let st := for_loop 0 fsn (fun i st => ata_write (1 + i) (fat_sector (fat_table st) i) st) st in
  let st := ata_write root (replicate 512 FLAG_EMPTY) st in
  kprint (line "[OK] Disk diformat ke KyuzenFS V3 (32-Bit Dinamis)!") st.

Definition kfs_format (st : kfs) : kfs := kfs_format_nolock st.

(** [ata_read_sector(1 + k, fat_bytes + 512 * k)] *)
Definition load_fat_sector (k : Z) (st : kfs) : kfs :=
  for_loop 0 128 (fun j st' => fat_set (128 * k + j) (le32 (ata_read st (1 + k)) (4 * j)) st') st.

Definition kfs_init (st : kfs) : kfs :=
  let st := set_current_fs (header_of_bytes (ata_read st 0)) st in
  if negb (str (magic (current_fs st)) 0 =? 75) || negb (str (magic (current_fs st)) 1 =? 90)
  then kfs_format_nolock st
  else
    let total := disk_size st in
    let fsn := fat_sectors total in
    let st := set_geometry total fsn st in
    for_loop 0 fsn load_fat_sector st.

(** ** Files *)

(** The allocation loop of [kfs_create_file]: [n] sectors to go, the first and
    the previous sector of the chain (0 before the first), and the data still
    to be written.  The second component is [None] when the disk is full. *)
Fixpoint create_loop (n : nat) (st : kfs) (start prev : Z) (data : list Z) : kfs * option Z :=
  match n with
  | O => (st, Some start)
  | S n =>
      let free_sec := find_free_sector st in
      if free_sec =? 0 then (kprint (line "Error: Disk Penuh!") st, None)
      else
        let st := fat_set free_sec FAT_EOF st in
        let '(st, start) :=
          if start =? 0 then (st, free_sec)
          else (kfs_sync_fat prev (fat_set prev free_sec st), start) in
        let st := kfs_sync_fat free_sec st in
        let st := ata_write free_sec (put_bytes zero_sector 0 (take 512 data)) st in
        create_loop n st start free_sec (drop 512 data)
  end.

(** [(total_size == 0) ? 1 : (total_size + 511) / 512], on 32 bits *)
Definition sectors_for (size : Z) : Z := if size =? 0 then 1 else u32 (size + 511) / 512.

Definition set_total_files (n : Z) (st : kfs) : kfs :=
  set_current_fs (mk_header (magic (current_fs st)) (root_dir_sector (current_fs st)) (u32 n)
                    (padding (current_fs st))) st.

Section entries.
(** Contents of the stack bytes that the code leaves uninitialised. *)
Context (junk : Z -> Z).

(** The name loop: at most 22 characters, stopping after the terminator. *)
Definition entry_name (name : list Z) : list Z :=
  map (fun j => if j =? 22 then 0
                else if j <=? Z.of_nat (length name) then str name j else u8 (junk j)) (zrange 0 23).

(** The tail of both creations: insert the entry, count it, write the header. *)
Definition kfs_create_file (st : kfs) (path data : list Z) : option (kfs * Z) :=
  let size := Z.of_nat (length data) in
  let st := if root_dir_sector (current_fs st) <? 2 then kfs_format_nolock st else st in
  match split_last_nolock st path with
  | None => None
  | Some None => Some (st, 0)
  | Some (Some (parent_sec, name)) =>
      match find_entry_in st parent_sec name with
      | None => None
      | Some (Some _) => Some (kprint (line "Error: File sudah ada!") st, 0)
      | Some None =>
          match create_loop (Z.to_nat (sectors_for size)) st 0 0 data with
          | (st, None) => Some (st, 0)
          | (st, Some start) =>
              match insert_dir_entry st parent_sec (mk_entry (entry_name name) FLAG_FILE start size) with
              | None => None
              | Some (st, r) =>
                  if r =? 0 then Some (st, 0)
                  else Some (write_header (set_total_files (total_files (current_fs st) + 1) st), 1)
              end
          end
      end
  end.

Definition kfs_create_folder (st : kfs) (path : list Z) : option (kfs * Z) :=
  match split_last_nolock st path with
  | None => None
  | Some None => Some (st, 0)
  | Some (Some (parent_sec, name)) =>
      match find_entry_in st parent_sec name with
      | None => None
      | Some (Some _) => Some (kprint (line "Error: Folder sudah ada!") st, 0)
      | Some None =>
          let new_sec := find_free_sector st in
          if new_sec =? 0 then Some (kprint (line "Error: Disk Penuh!") st, 0)
          else
            let st := kfs_sync_fat new_sec (fat_set new_sec FAT_EOF st) in
            let st := ata_write new_sec (replicate 512 FLAG_EMPTY) st in
            match insert_dir_entry st parent_sec (mk_entry (entry_name name) FLAG_FOLDER new_sec 0) with
            | None => None
            | Some (st, r) =>
                if r =? 0 then Some (fat_set new_sec FAT_FREE st, 0)
                else Some (write_header (set_total_files (total_files (current_fs st) + 1) st), 1)
            end
      end
  end.
End entries.

Fixpoint free_walk (fuel : nat) (st : kfs) (curr : Z) : option kfs :=
  match fuel with
  | O => None
  | S fuel =>
      if chain_end curr then Some st
      else let next := fat_get st curr in
           free_walk fuel (kfs_sync_fat curr (fat_set curr FAT_FREE st)) next
  end.

Definition kfs_delete_file (st : kfs) (path : list Z) : option kfs :=
  match lookup_path st path with
  | None => None
  | Some None =>
      match split_last_nolock st path with
      | Some (Some _) => Some (kprint (line "Error: File tidak ada!") st)
      | _ => Some st
      end
  | Some (Some (entry, dir_sec, dir_idx)) =>
      if flags entry =? FLAG_FOLDER then Some (kprint (line "Error: Folder tidak bisa dihapus!") st)
      else
        match free_walk (walk_fuel st) st (start_sector entry) with
        | None => None
        | Some st =>
            let st := ata_write dir_sec
                        (put_bytes (ata_read st dir_sec) (32 * dir_idx + 23) [FLAG_EMPTY]) st in
            let st := write_header (set_total_files (total_files (current_fs st) - 1) st) in
            Some (kprint (line "[OK] File dihapus!") st)
        end
  end.

Definition kfs_exists (st : kfs) (path : list Z) : option Z :=
  match lookup_path st path with
  | None => None
  | Some None => Some 0
  | Some (Some _) => Some 1
  end.

Definition kfs_get_file_size (st : kfs) (path : list Z) : option Z :=
  match lookup_path st path with
  | None => None
  | Some None => Some 0
  | Some (Some (entry, _, _)) => Some (size_bytes entry)
  end.

(** The bytes copied to the buffer, from its first byte on. *)
Fixpoint read_walk (fuel : nat) (st : kfs) (curr remaining : Z) : option (list Z) :=
  match fuel with
  | O => None
  | S fuel =>
      if chain_end curr || (remaining <=? 0) then Some []
      else let chunk := if 512 <? remaining then 512 else remaining in
           match read_walk fuel st (fat_get st curr) (remaining - chunk) with
           | None => None
           | Some rest => Some (take (Z.to_nat chunk) (ata_read st curr) ++ rest)
           end
  end.

(** The return code and the bytes stored in the caller's buffer. *)
Definition kfs_read_to_buffer (st : kfs) (path : list Z) (buffer_capacity : Z)
  : option (Z * list Z) :=
  match lookup_path st path with
  | None => None
  | Some None => Some (0, [])
  | Some (Some (entry, _, _)) =>
      if buffer_capacity <? size_bytes entry then Some (0, [])
      else match read_walk (walk_fuel st) st (start_sector entry) (size_bytes entry) with
           | None => None
           | Some bytes => Some (1, bytes)
           end
  end.

Definition kfs_read_to_buffer_nolock (st : kfs) (path : list Z) : option (Z * list Z) :=
  match lookup_path st path with
  | None => None
  | Some None => Some (0, [])
  | Some (Some (entry, _, _)) =>
      match read_walk (walk_fuel st) st (start_sector entry) (size_bytes entry) with
      | None => None
      | Some bytes => Some (1, bytes)
      end
  end.

Definition kfs_get_total_space (st : kfs) : Z := u32 (total_disk_sectors st * 512).

Definition kfs_get_used_space (st : kfs) : Z :=
  let free_sec := count_loop (u32 (root_dir_sector (current_fs st) + 1)) (total_disk_sectors st)
                    (fun i => fat_get st i =? FAT_FREE) in
  u32 (u32 (total_disk_sectors st - free_sec) * 512).

(** The characters of a name up to its terminator. *)
Fixpoint c_string (l : list Z) : list Z :=
  match l with
  | c :: q => if c =? 0 then [] else c :: c_string q
  | [] => []
  end.

Fixpoint list_walk (fuel : nat) (st : kfs) (curr_sec : Z) : option kfs :=
  match fuel with
  | O => None
  | S fuel =>
      if chain_end curr_sec then Some st
      else
        let buffer := ata_read st curr_sec in
        let st := for_loop 0 16 (fun i st =>
          if negb (flags (get_entry buffer i) =? FLAG_EMPTY)
          then kprint (line "")
                 (kprint (c_string (filename (get_entry buffer i))) (kprint (bytes_of "- ") st))
          else st) st in
        list_walk fuel st (fat_get st curr_sec)
  end.

Definition kfs_list_files (st : kfs) : option kfs :=
  if negb (str (magic (current_fs st)) 0 =? 75) then Some (kprint (line "Disk belum diformat!") st)
  else
    let st := kprint (line "--- Isi Hard Disk ---") st in
    if total_files (current_fs st) =? 0 then Some (kprint (line "(Kosong)") st)
    else list_walk (walk_fuel st) st (root_dir_sector (current_fs st)).

Definition kfs_read_file (st : kfs) (name : list Z) : option kfs :=
  match kfs_get_file_size st name with
  | None => None
  | Some size =>
      if size =? 0 then Some (kprint (line "File tidak ada / kosong.") st)
      else match kfs_read_to_buffer_nolock st name with
           | None => None
           | Some (r, bytes) =>
               if negb (r =? 0)
               then Some (kprint (line "") (kprint (c_string bytes) st))
               else Some (kprint (line "Gagal membaca file.") st)
           end
  end.

Definition kfs_resolve_dir (st : kfs) (path : list Z) : option (option Z) := resolve_dir_nolock st path.

Record file_info_t := mk_info { fi_name : list Z; fi_size : Z; fi_is_folder : bool }.

Definition info_of (e : kfs_file_entry_t) : file_info_t :=
  mk_info (c_string (take 22 (filename e))) (size_bytes e) (flags e =? FLAG_FOLDER).

(** The inner loop over the entries of one sector, with its early exit. *)
Definition list_sector (buffer : list Z) (max_entries : Z) (acc : list file_info_t) : list file_info_t :=
  for_loop 0 16 (fun i acc =>
    if Z.of_nat (length acc) <? max_entries
    then if negb (flags (get_entry buffer i) =? FLAG_EMPTY) then acc ++ [info_of (get_entry buffer i)]
         else acc
    else acc) acc.

Fixpoint file_list_walk (fuel : nat) (st : kfs) (curr_sec max_entries : Z) (acc : list file_info_t)
  : option (list file_info_t) :=
  match fuel with
  | O => None
  | S fuel =>
      if chain_end curr_sec || (max_entries <=? Z.of_nat (length acc)) then Some acc
      else file_list_walk fuel st (fat_get st curr_sec) max_entries
             (list_sector (ata_read st curr_sec) max_entries acc)
  end.

(** The count returned is the length of the list stored in the buffer. *)
Definition kfs_get_file_list (st : kfs) (path : list Z) (max_entries : Z)
  : option (list file_info_t) :=
  match resolve_dir_nolock st path with
  | None => None
  | Some None => Some []
  | Some (Some dir_sec) => file_list_walk (walk_fuel st) st dir_sec max_entries []
  end.

#[global] Arguments zero_sector : simpl never.
#[global] Arguments fat_sector : simpl never.
#[global] Arguments put_bytes : simpl never.
#[global] Arguments le32 : simpl never.

End Kfs.
