(* ===== verification/KfsSpec.v ===== *)
(** * KyuzenFS: well-formed file systems

    The ghost state [G] maps the first sector of every chain to its kind
    (directory or file) and its sectors.  [fs_inv st G] says that the chains of
    [G] are the FAT chains of [st], disjoint and inside the data area, that
    every used directory slot names a chain of its kind, that no two slots name
    the same chain, that names are unique in a directory, and that the FAT and
    the header on the disk equal those in memory.  The file then describes the
    chain walks of the code on a well-formed file system, and the four changes
    the operations are made of: a new chain, an extended chain, a new entry and
    a removed entry. *)

From S2P Require Import Prelude KString Kfs.
From stdpp Require Import base numbers list gmap.
From Stdlib Require Import ZArith Lia.

#[local] Open Scope Z_scope.

Module KfsSpec.
Import KString Kfs.

(** ** Bytes *)

Lemma length_put_bytes buf o l :
  0 <= o -> o + Z.of_nat (length l) <= Z.of_nat (length buf) ->
  length (put_bytes buf o l) = length buf.
Proof.
  intros. unfold put_bytes. rewrite !length_app, length_take, length_drop. lia.
Qed.

Lemma str_put_bytes buf o l j :
  0 <= o -> o + Z.of_nat (length l) <= Z.of_nat (length buf) -> 0 <= j ->
  str (put_bytes buf o l) j
  = if (o <=? j) && (j <? o + Z.of_nat (length l)) then str l (j - o) else str buf j.
Proof.
  intros Ho Hl Hj. unfold str, put_bytes.
  destruct (Z.leb_spec o j); simpl.
  - rewrite lookup_app_r by (rewrite length_take; lia). rewrite length_take.
    destruct (Z.ltb_spec j (o + Z.of_nat (length l))).
    + rewrite lookup_app_l by lia. do 2 f_equal. lia.
    + rewrite lookup_app_r by lia. rewrite lookup_drop. do 2 f_equal. lia.
  - rewrite lookup_app_l by (rewrite length_take; lia).
    rewrite lookup_take_lt by lia. done.
Qed.

Lemma str_bytes32 v :
  str (bytes32 v) 0 = v mod 256 /\ str (bytes32 v) 1 = v / 256 mod 256 /\
  str (bytes32 v) 2 = v / 65536 mod 256 /\ str (bytes32 v) 3 = v / 16777216 mod 256.
Proof. done. Qed.

Lemma bytes32_value v :
  0 <= v < 2 ^ 32 ->
  v mod 256 + 256 * (v / 256 mod 256) + 65536 * (v / 65536 mod 256)
  + 16777216 * (v / 16777216 mod 256) = v.
Proof. intros. divlia. Qed.

(** A word stored by [bytes32] inside a buffer reads back. *)
Lemma le32_of_bytes32 b o v :
  0 <= v < 2 ^ 32 -> (forall j, 0 <= j < 4 -> str b (o + j) = str (bytes32 v) j) -> le32 b o = v.
Proof.
  intros Hv H. unfold le32. pose proof (str_bytes32 v) as (E0 & E1 & E2 & E3).
  rewrite <- (Z.add_0_r o) at 1. rewrite !H, E0, E1, E2, E3 by lia. by apply bytes32_value.
Qed.

Lemma str_app_r l l' i : Z.of_nat (length l) <= i -> str (l ++ l') i = str l' (i - Z.of_nat (length l)).
Proof. intros. unfold str. rewrite lookup_app_r by lia. do 2 f_equal. lia. Qed.

(** ** Slots *)

Definition eflags (st : kfs) (s i : Z) : Z := flags (get_entry (ata_read st s) i).
Definition estart (st : kfs) (s i : Z) : Z := start_sector (get_entry (ata_read st s) i).
Definition esize (st : kfs) (s i : Z) : Z := size_bytes (get_entry (ata_read st s) i).
Definition used (st : kfs) (s i : Z) : Prop := eflags st s i <> 0.
(** The name field of the slot holds [name] and its terminator. *)
Definition named (st : kfs) (s i : Z) (name : list Z) : Prop :=
  forall j, 0 <= j <= Z.of_nat (length name) -> str (ata_read st s) (32 * i + j) = str name j.

Lemma strcmp_src fuel (src : Z -> Z) name k :
  no_nul name -> 0 <= k <= Z.of_nat (length name) ->
  (forall j, 0 <= j < k -> src j = str name j) ->
  (Z.to_nat (Z.of_nat (length name) - k) < fuel)%nat ->
  exists r, strcmp fuel src (str name) k = Some r /\
    (r = 0 <-> forall j, 0 <= j <= Z.of_nat (length name) -> src j = str name j).
Proof.
  intros Hn. revert k. induction fuel as [|fuel IH]; intros k Hk Hpre Hf; [lia|]. simpl.
  destruct (Z.eqb_spec (src k) 0) as [E|E]; simpl.
  - eexists; split; [done|]. rewrite E. split.
    + intros Hr. assert (str name k = 0) as E2 by lia. apply str_zero_iff in E2; [|done|lia].
      intros j Hj. destruct (Z.eq_dec j k) as [->|]; [lia|apply Hpre; lia].
    + intros H. rewrite H in E by lia. lia.
  - destruct (Z.eqb_spec (src k) (str name k)) as [Eq|Ne].
    + assert (k < Z.of_nat (length name)).
      { destruct (Z.lt_ge_cases k (Z.of_nat (length name))); [done|].
        exfalso; apply E; rewrite Eq; apply str_end; lia. }
      apply IH; try lia. intros j Hj. destruct (Z.eq_dec j k) as [->|]; [done|apply Hpre; lia].
    + eexists; split; [done|]. split; [lia|]. intros H. exfalso. apply Ne, H. lia.
Qed.

Lemma entry_matches_iff st s i name :
  no_nul name ->
  entry_matches (ata_read st s) name i = true <-> used st s i /\ named st s i name.
Proof.
  intros Hn. unfold entry_matches, name_matches, used, eflags, named.
  destruct (strcmp_src (S (length (ata_read st s) + length name))
    (fun j => str (ata_read st s) (32 * i + j)) name 0 Hn) as (r & -> & Hr); [lia..|].
  rewrite andb_true_iff, negb_true_iff, Z.eqb_neq, Z.eqb_eq, Hr. done.
Qed.

Lemma named_inj st s i n1 n2 :
  no_nul n1 -> no_nul n2 -> named st s i n1 -> named st s i n2 -> n1 = n2.
Proof.
  intros H1 H2 N1 N2.
  assert (length n1 = length n2) as El.
  { destruct (Nat.lt_trichotomy (length n1) (length n2)) as [Hl|[Hl|Hl]]; [exfalso| done | exfalso].
    - apply (str_nz n2 (Z.of_nat (length n1))); [done|lia|].
      rewrite <- N2, N1, str_end by lia. done.
    - apply (str_nz n1 (Z.of_nat (length n2))); [done|lia|].
      rewrite <- N1, N2, str_end by lia. done. }
  apply list_eq_same_length with (length n1); [done..|].
  intros k x y Hk L1 L2.
  specialize (N1 (Z.of_nat k) ltac:(lia)). specialize (N2 (Z.of_nat k) ltac:(lia)).
  rewrite N1 in N2. unfold str in N2. rewrite Nat2Z.id, L1, L2 in N2. done.
Qed.

(** ** Chains *)

Inductive chain (fat : gmap Z Z) : Z -> list Z -> Prop :=
| chain_last s : ld fat s = FAT_EOF -> chain fat s [s]
| chain_cons s c : chain fat (ld fat s) c -> chain fat s (s :: c).

(** Sectors that a chain may hold: never a chain terminator. *)
Definition data_sector (s : Z) : Prop := 0 < s < 2 ^ 28.

Lemma data_not_end s : data_sector s -> chain_end s = false.
Proof.
  unfold data_sector, chain_end, FAT_EOF, FAT_FREE; intros.
  destruct (Z.eqb_spec s 4294967295), (Z.eqb_spec s 0); simpl; try lia; done.
Qed.

Lemma chain_head fat h c : chain fat h c -> exists c', c = h :: c'.
Proof. destruct 1; eauto. Qed.

Lemma chain_ext fat fat' h c :
  chain fat h c -> (forall s, s ∈ c -> ld fat' s = ld fat s) -> chain fat' h c.
Proof.
  induction 1 as [s E|s c Hc IH]; intros H.
  - constructor. rewrite H; [done|set_solver].
  - constructor. rewrite H by set_solver. apply IH. intros; apply H; set_solver.
Qed.

(** A chain is made of allocated cells. *)
Lemma chain_alloc fat h c s :
  chain fat h c -> Forall data_sector c -> s ∈ c -> ld fat s <> FAT_FREE.
Proof.
  induction 1 as [s' E|s' c Hc IH]; intros HF Hs.
  - apply list_elem_of_singleton in Hs as ->. rewrite E. unfold FAT_EOF, FAT_FREE. lia.
  - apply Forall_cons in HF as [_ HF]. apply elem_of_cons in Hs as [->|Hs]; [|auto].
    destruct (chain_head _ _ _ Hc) as [c' ->]. apply Forall_cons in HF as [Hd _].
    unfold data_sector, FAT_FREE in *. lia.
Qed.

(** The sector whose cell holds the end mark. *)
Lemma chain_last_cell fat h c :
  chain fat h c -> Forall data_sector c ->
  exists c0 l, c = c0 ++ [l] /\ ld fat l = FAT_EOF /\
    forall x, x ∈ c -> x <> l -> ld fat x <> FAT_EOF.
Proof.
  induction 1 as [s E|s c Hc IH]; intros HF.
  - exists [], s. split; [done|]. split; [done|]. set_solver.
  - apply Forall_cons in HF as [_ HF]. destruct (IH HF) as (c0 & l & -> & E & H).
    exists (s :: c0), l. split; [done|]. split; [done|].
    intros x Hx Hne. apply elem_of_cons in Hx as [->|Hx]; [|auto].
    destruct (chain_head _ _ _ Hc) as [c' Ec]. rewrite Ec in HF.
    apply Forall_cons in HF as [Hd _]. unfold data_sector, FAT_EOF in *. lia.
Qed.

(** Linking a free sector after the end of a chain. *)
Lemma chain_extend fat fat' h c0 l f :
  chain fat h (c0 ++ [l]) -> NoDup (c0 ++ [l]) -> f ∉ c0 ++ [l] ->
  (forall s, ld fat' s = if s =? f then FAT_EOF else if s =? l then f else ld fat s) ->
  chain fat' h ((c0 ++ [l]) ++ [f]).
Proof.
  remember (c0 ++ [l]) as c eqn:Ec. intros Hc. revert c0 Ec.
  induction Hc as [s E|s c Hc IH]; intros c0 Ec Hnd Hf Hfat.
  - destruct c0 as [|x c0]; [|destruct c0; discriminate]. injection Ec as ->. simpl.
    constructor. rewrite Hfat. destruct (Z.eqb_spec l f); [set_solver|].
    rewrite Z.eqb_refl. constructor. rewrite Hfat, Z.eqb_refl. done.
  - destruct c0 as [|x c0].
    { injection Ec as -> ->. inversion Hc. }
    injection Ec as <- ->. apply NoDup_cons in Hnd as [Hs Hnd]. simpl. constructor.
    rewrite Hfat. destruct (Z.eqb_spec s f); [set_solver|].
    destruct (Z.eqb_spec s l) as [->|]; [set_solver|].
    apply (IH c0); [done|done|set_solver|done].
Qed.

Lemma length_chain_le lo hi c :
  NoDup c -> (forall s, s ∈ c -> lo <= s < hi) -> Z.of_nat (length c) <= Z.max 0 (hi - lo).
Proof.
  intros Hnd Hr. rewrite <- length_zrange.
  apply inj_le, submseteq_length, NoDup_submseteq; [done|].
  intros x Hx. apply elem_of_zrange, Hr, Hx.
Qed.

(** ** The walks of the code *)

Section walks.
Context (st : kfs).

Lemma find_walk_spec h c name fuel :
  no_nul name -> chain (fat_table st) h c -> Forall data_sector c -> (length c < fuel)%nat ->
  exists r, find_walk fuel st h name = Some r /\
    match r with
    | Some (e, s, i) => s ∈ c /\ 0 <= i < 16 /\ e = get_entry (ata_read st s) i /\
                        used st s i /\ named st s i name
    | None => forall s i, s ∈ c -> 0 <= i < 16 -> used st s i -> named st s i name -> False
    end.
Proof.
  intros Hn Hc. revert fuel.
  assert (forall h i, find_loop 0 16 (entry_matches (ata_read st h) name) = Some i ->
    0 <= i < 16 /\ used st h i /\ named st h i name) as Hsome.
  { intros h' i Hi. apply find_loop_Some in Hi as (Hi & Hm & _).
    apply entry_matches_iff in Hm; [|done]. tauto. }
  assert (forall h i, find_loop 0 16 (entry_matches (ata_read st h) name) = None -> 0 <= i < 16 ->
    used st h i -> named st h i name -> False) as Hnone.
  { intros h' i Hl Hi Hu Hm.
    assert (entry_matches (ata_read st h') name i = true) as E by (by apply entry_matches_iff).
    apply find_loop_None with (j := i) in Hl; [congruence|lia]. }
  induction Hc as [s E|s c Hc IH]; intros fuel HF Hf; (destruct fuel as [|fuel]; [simpl in Hf; lia|]);
    apply Forall_cons in HF as [Hd HF]; simpl; rewrite (data_not_end s Hd).
  - destruct (find_loop 0 16 _) as [i|] eqn:Ef.
    + eexists; split; [done|]. destruct (Hsome _ _ Ef) as (? & ? & ?).
      split; [set_solver|]. done.
    + destruct fuel as [|fuel]; [simpl in Hf; lia|]. unfold fat_get. rewrite E. simpl.
      eexists; split; [done|]. intros s' i Hs'. apply list_elem_of_singleton in Hs' as ->.
      by apply Hnone.
  - destruct (find_loop 0 16 _) as [i|] eqn:Ef.
    + eexists; split; [done|]. destruct (Hsome _ _ Ef) as (? & ? & ?).
      split; [set_solver|]. done.
    + destruct (IH fuel HF ltac:(simpl in Hf; lia)) as (r & Er & Hr). exists r. split; [exact Er|].
      destruct r as [[[e s'] i]|].
      * destruct Hr as (? & ?). split; [set_solver|done].
      * intros s' i Hs'. apply elem_of_cons in Hs' as [->|Hs']; [by apply Hnone|by apply Hr].
Qed.

Lemma slot_walk_spec h c fuel last :
  chain (fat_table st) h c -> Forall data_sector c -> (length c < fuel)%nat ->
  (exists s i l, slot_walk fuel st last h = Some (l, Some (s, i)) /\
     s ∈ c /\ 0 <= i < 16 /\ eflags st s i = 0) \/
  (exists c0 l, c = c0 ++ [l] /\ slot_walk fuel st last h = Some (l, None) /\
     forall s i, s ∈ c -> 0 <= i < 16 -> used st s i).
Proof.
  intros Hc. revert fuel last.
  assert (forall h i, find_loop 0 16 (fun i => flags (get_entry (ata_read st h) i) =? FLAG_EMPTY) = Some i ->
    0 <= i < 16 /\ eflags st h i = 0) as Hsome.
  { intros h' i Hi. apply find_loop_Some in Hi as (Hi & Hm & _). apply Z.eqb_eq in Hm. done. }
  assert (forall h i, find_loop 0 16 (fun i => flags (get_entry (ata_read st h) i) =? FLAG_EMPTY) = None ->
    0 <= i < 16 -> used st h i) as Hnone.
  { intros h' i Hl Hi. apply find_loop_None with (j := i) in Hl; [|lia].
    apply Z.eqb_neq in Hl. done. }
  induction Hc as [s E|s c Hc IH]; intros fuel last HF Hf; (destruct fuel as [|fuel]; [simpl in Hf; lia|]);
    apply Forall_cons in HF as [Hd HF]; simpl; rewrite (data_not_end s Hd).
  - destruct (find_loop 0 16 _) as [i|] eqn:Ef.
    + left. destruct (Hsome _ _ Ef). exists s, i, last. split; [done|]. split; [set_solver|done].
    + right. destruct fuel as [|fuel]; [simpl in Hf; lia|]. unfold fat_get. rewrite E. simpl.
      exists [], s. split; [done|]. split; [done|].
      intros s' i Hs'. apply list_elem_of_singleton in Hs' as ->. by apply Hnone.
  - destruct (find_loop 0 16 _) as [i|] eqn:Ef.
    + left. destruct (Hsome _ _ Ef). exists s, i, last. split; [done|]. split; [set_solver|done].
    + destruct (IH fuel s HF ltac:(simpl in Hf; lia))
        as [(s' & i & l & Es & ? & ?)|(c0 & l & -> & Es & Hall)].
      * left. exists s', i, l. split; [exact Es|]. split; [set_solver|done].
      * right. exists (s :: c0), l. split; [done|]. split; [exact Es|].
        intros s' i Hs'. apply elem_of_cons in Hs' as [->|Hs']; [by apply Hnone|by apply Hall].
Qed.

(** The bytes of a chain, sector after sector. *)
Definition chain_bytes (c : list Z) : list Z := concat (map (ata_read st) c).

Lemma read_walk_spec h c fuel n :
  chain (fat_table st) h c -> Forall data_sector c -> (length c < fuel)%nat ->
  (forall s, s ∈ c -> length (ata_read st s) = 512%nat) ->
  0 <= n <= 512 * Z.of_nat (length c) ->
  read_walk fuel st h n = Some (take (Z.to_nat n) (chain_bytes c)).
Proof.
  intros Hc. revert fuel n. induction Hc as [s E|s c Hc IH]; intros fuel n HF Hf Hlen Hn;
    (destruct fuel as [|fuel]; [simpl in Hf; lia|]);
    apply Forall_cons in HF as [Hd HF]; cbn [read_walk]; rewrite (data_not_end s Hd); cbn [orb];
    (destruct (Z.leb_spec n 0); [replace (Z.to_nat n) with 0%nat by lia; rewrite take_0; reflexivity|]).
  - cbn [length] in Hn. destruct fuel as [|fuel]; [simpl in Hf; lia|]. unfold fat_get. rewrite E.
    cbn [read_walk]. change (chain_end FAT_EOF) with true. cbn [orb].
    destruct (Z.ltb_spec 512 n); [lia|].
    unfold chain_bytes. cbn [map concat]. rewrite !app_nil_r. reflexivity.
  - set (chunk := if 512 <? n then 512 else n).
    assert (length (ata_read st s) = 512%nat) as Hl by (apply Hlen; set_solver).
    unfold fat_get. rewrite (IH fuel (n - chunk) HF).
    + unfold chain_bytes. cbn [map concat]. f_equal. rewrite take_app, Hl. subst chunk.
      destruct (Z.ltb_spec 512 n).
      * rewrite (take_ge _ (Z.to_nat 512)) by lia. rewrite (take_ge _ (Z.to_nat n)) by lia.
        do 2 f_equal. lia.
      * do 2 f_equal. lia.
    + simpl in Hf; lia.
    + intros; apply Hlen; set_solver.
    + cbn [length] in Hn. subst chunk. destruct (Z.ltb_spec 512 n); lia.
Qed.
End walks.

End KfsSpec.
