(* ===== verification/KfsInv.v ===== *)
(** * KyuzenFS: the invariant and the changes the operations are made of

    [fs_inv st G] has three parts: the geometry of the disk, the agreement of
    the disk with the FAT and the header in memory, and the graph of chains and
    directory entries.  The lemmas say how each elementary change of the code
    (a cell, a sector of the FAT, a data sector) affects each part. *)

From S2P Require Import Prelude KString Kfs KfsSpec.
From stdpp Require Import base numbers list gmap.
From Stdlib Require Import ZArith Lia.

#[local] Open Scope Z_scope.

Module KfsInv.
Import KString Kfs KfsSpec.

Abbreviation ghost := (gmap Z (bool * list Z)).

Definition root (st : kfs) : Z := root_dir_sector (current_fs st).

Record geometry (st : kfs) : Prop := {
  geo_ready : fat_ready st = true;
  geo_total : total_disk_sectors st < 2 ^ 28;
  geo_fsn : fat_sectors_needed st = (total_disk_sectors st * 4 + 511) / 512;
  geo_root : root st = 1 + fat_sectors_needed st;
  geo_room : root st < total_disk_sectors st;
  geo_ata : total_disk_sectors st = disk_size st;
  geo_magic : magic (current_fs st) = KZFS;
  geo_padding : length (padding (current_fs st)) = 500%nat;
  geo_files : 0 <= total_files (current_fs st) < 2 ^ 32
}.

(** FAT sectors outside [P] are on the disk what they are in memory. *)
Definition fat_sync (st : kfs) (P : Z -> Prop) : Prop :=
  forall k, 0 <= k < fat_sectors_needed st -> ~ P k ->
    ata_read st (1 + k) = fat_sector (fat_table st) k.

Definition fat_words (st : kfs) : Prop :=
  forall i, 0 <= i < 128 * fat_sectors_needed st -> 0 <= fat_get st i < 2 ^ 32.

Definition header_sync (st : kfs) : Prop := ata_read st 0 = header_bytes (current_fs st).

Definition dirslot (G : ghost) (s i : Z) : Prop :=
  exists h c, G !! h = Some (true, c) /\ s ∈ c /\ 0 <= i < 16.

Definition flag_of (d : bool) : Z := if d then FLAG_FOLDER else FLAG_FILE.

(** A folder has size 0, a file fits in its chain. *)
Definition sized (d : bool) (n : Z) (c : list Z) : Prop :=
  if d then n = 0 else 0 <= n < 2 ^ 32 /\ n <= 512 * Z.of_nat (length c).

Lemma sized_mono d n c c' : (length c <= length c')%nat -> sized d n c -> sized d n c'.
Proof. unfold sized. destruct d; lia. Qed.

Record graph (st : kfs) (G : ghost) : Prop := {
  g_len : forall s, root st <= s -> length (ata_read st s) = 512%nat;
  g_chain : forall h d c, G !! h = Some (d, c) -> chain (fat_table st) h c;
  g_range : forall h d c s, G !! h = Some (d, c) -> s ∈ c -> root st <= s < total_disk_sectors st;
  g_nodup : forall h d c, G !! h = Some (d, c) -> NoDup c;
  g_disj : forall h d c h' d' c' s, G !! h = Some (d, c) -> G !! h' = Some (d', c') ->
    s ∈ c -> s ∈ c' -> h = h';
  g_root : exists c, G !! root st = Some (true, c);
  g_ent : forall s i, dirslot G s i -> used st s i ->
    exists d c, G !! estart st s i = Some (d, c) /\ estart st s i <> root st /\
      eflags st s i = flag_of d /\ str (ata_read st s) (32 * i + 22) = 0 /\
      sized d (esize st s i) c;
  g_inj : forall s i s' i', dirslot G s i -> dirslot G s' i' -> used st s i -> used st s' i' ->
    estart st s i = estart st s' i' -> s = s' /\ i = i';
  g_uniq : forall h c name s i s' i', G !! h = Some (true, c) -> no_nul name ->
    s ∈ c -> s' ∈ c -> 0 <= i < 16 -> 0 <= i' < 16 -> used st s i -> used st s' i' ->
    named st s i name -> named st s' i' name -> s = s' /\ i = i'
}.

Record fs_inv (st : kfs) (G : ghost) : Prop := {
  inv_geo : geometry st;
  inv_sync : fat_sync st (fun _ => False);
  inv_words : fat_words st;
  inv_header : header_sync st;
  inv_graph : graph st G
}.

(** ** Elementary changes *)

Lemma ata_read_write s b st s' :
  ata_read (ata_write s b st) s' = if s =? s' then b else ata_read st s'.
Proof.
  unfold ata_read, ata_write, set_disk; simpl. destruct (Z.eqb_spec s s') as [->|].
  - by rewrite lookup_insert_eq.
  - by rewrite lookup_insert_ne.
Qed.

Lemma ata_read_write_eq s b st : ata_read (ata_write s b st) s = b.
Proof. rewrite ata_read_write, Z.eqb_refl. done. Qed.

Lemma ata_read_write_ne s b st s' : s <> s' -> ata_read (ata_write s b st) s' = ata_read st s'.
Proof. intros. rewrite ata_read_write. destruct (Z.eqb_spec s s'); [lia|done]. Qed.

Lemma ata_read_fat_set i v st s : ata_read (fat_set i v st) s = ata_read st s.
Proof. done. Qed.

Lemma fat_get_set i v st j : fat_get (fat_set i v st) j = if i =? j then v else fat_get st j.
Proof. unfold fat_get, fat_set; simpl. apply ld_st. Qed.

Lemma fat_get_write s b st j : fat_get (ata_write s b st) j = fat_get st j.
Proof. done. Qed.

(** [kfs_sync_fat] keeps everything but one FAT sector of the disk. *)
Lemma sync_fields i st :
  fat_table (kfs_sync_fat i st) = fat_table st /\ current_fs (kfs_sync_fat i st) = current_fs st /\
  fat_ready (kfs_sync_fat i st) = fat_ready st /\
  total_disk_sectors (kfs_sync_fat i st) = total_disk_sectors st /\
  fat_sectors_needed (kfs_sync_fat i st) = fat_sectors_needed st /\
  ata_total (kfs_sync_fat i st) = ata_total st.
Proof. unfold kfs_sync_fat. destruct (_ <=? _); done. Qed.

(** The fields [geometry] depends on. *)
Definition same_geo (st st' : kfs) : Prop :=
  fat_ready st' = fat_ready st /\ total_disk_sectors st' = total_disk_sectors st /\
  fat_sectors_needed st' = fat_sectors_needed st /\ ata_total st' = ata_total st /\
  current_fs st' = current_fs st.

Lemma same_geo_refl st : same_geo st st.
Proof. done. Qed.

Lemma same_geo_trans st1 st2 st3 : same_geo st1 st2 -> same_geo st2 st3 -> same_geo st1 st3.
Proof. unfold same_geo. intros (-> & -> & -> & -> & ->). done. Qed.

#[global] Instance same_geo_preorder : PreOrder same_geo.
Proof. split; [exact same_geo_refl | exact same_geo_trans]. Qed.

Lemma geo_fat_set i v st : same_geo st (fat_set i v st).
Proof. done. Qed.
Lemma geo_write s b st : same_geo st (ata_write s b st).
Proof. done. Qed.
Lemma geo_sync i st : same_geo st (kfs_sync_fat i st).
Proof. destruct (sync_fields i st) as (_ & ? & ? & ? & ? & ?). done. Qed.
Lemma geo_kprint m st : same_geo st (kprint m st).
Proof. unfold kprint. destruct (tty_ready st); done. Qed.
#[export] Hint Resolve geo_fat_set geo_write geo_sync geo_kprint same_geo_refl : kyuzen.

Lemma geometry_same st st' : same_geo st st' -> geometry st -> geometry st'.
Proof.
  intros (E1 & E2 & E3 & E4 & E5) [].
  split; unfold root, disk_size in *; rewrite ?E1, ?E2, ?E3, ?E4, ?E5; done.
Qed.

Lemma same_geo_root st st' : same_geo st st' -> root st' = root st.
Proof. intros (_ & _ & _ & _ & E). unfold root. by rewrite E. Qed.
Lemma same_geo_total st st' : same_geo st st' -> total_disk_sectors st' = total_disk_sectors st.
Proof. intros (_ & E & _). done. Qed.

(** ** Geometry *)

Lemma geo_bounds st :
  geometry st ->
  1 <= fat_sectors_needed st /\ total_disk_sectors st <= 128 * fat_sectors_needed st /\
  2 <= root st < total_disk_sectors st /\ root st + 1 < 2 ^ 32.
Proof. intros []. splits; divlia. Qed.

Lemma fat_index_sector st i :
  geometry st -> 0 <= i < total_disk_sectors st ->
  0 <= i / 128 < fat_sectors_needed st /\ 1 <= 1 + i / 128 < root st.
Proof. intros Hg Hi. destruct (geo_bounds st Hg) as (? & ? & ? & ?). destruct Hg. divlia. Qed.

Lemma ata_read_sync i st s :
  geometry st -> 0 <= i < total_disk_sectors st -> s = 0 \/ root st <= s ->
  ata_read (kfs_sync_fat i st) s = ata_read st s.
Proof.
  intros Hg Hi Hs. unfold kfs_sync_fat. destruct (Z.leb_spec (total_disk_sectors st) i); [lia|].
  destruct (fat_index_sector st i Hg Hi). rewrite ata_read_write_ne; [done|lia].
Qed.

Lemma data_sector_range st s : geometry st -> root st <= s < total_disk_sectors st -> data_sector s.
Proof. intros Hg Hs. destruct (geo_bounds st Hg) as (? & ? & ? & ?). destruct Hg. unfold data_sector. lia. Qed.

(** ** Agreement of the disk and the memory *)

Lemma fat_sector_ext fat fat' k :
  (forall j, 128 * k <= j < 128 * k + 128 -> ld fat' j = ld fat j) -> fat_sector fat' k = fat_sector fat k.
Proof.
  intros H. unfold fat_sector. f_equal. apply map_ext_in.
  intros j Hj%list_elem_of_In%elem_of_zrange. rewrite H; [done|lia].
Qed.

Lemma fat_sync_set st P i v :
  fat_sync st P -> fat_sync (fat_set i v st) (fun k => P k \/ k = i / 128).
Proof.
  intros H k Hk HP. rewrite ata_read_fat_set, H; [|exact Hk|tauto]. symmetry.
  apply fat_sector_ext. intros j Hj. apply ld_st_ne.
  intros ->. apply HP. right. divlia.
Qed.

Lemma fat_sync_sync st P i :
  geometry st -> 0 <= i < total_disk_sectors st ->
  fat_sync st P -> fat_sync (kfs_sync_fat i st) (fun k => P k /\ k <> i / 128).
Proof.
  intros Hg Hi H k Hk HP. destruct (sync_fields i st) as (-> & _ & _ & _ & Ef & _).
  rewrite Ef in Hk. unfold kfs_sync_fat. destruct (Z.leb_spec (total_disk_sectors st) i); [lia|].
  rewrite ata_read_write. destruct (Z.eqb_spec (1 + i / 128) (1 + k)) as [E|E].
  - by replace (i / 128) with k by lia.
  - apply H; [done|]. intros HPk. apply HP. split; [done|lia].
Qed.

Lemma fat_sync_write st P s b :
  geometry st -> s = 0 \/ root st <= s -> fat_sync st P -> fat_sync (ata_write s b st) P.
Proof.
  intros Hg Hs H k Hk HP. destruct (geo_root st Hg).
  rewrite ata_read_write_ne; [by apply H|]. simpl in Hk. pose proof (geo_root st Hg). lia.
Qed.

Lemma fat_sync_weaken st (P Q : Z -> Prop) :
  (forall k, P k -> Q k) -> fat_sync st P -> fat_sync st Q.
Proof. intros H HP k Hk HQ. apply HP; [done|]. intros ?. by apply HQ, H. Qed.

Lemma fat_words_set st i v :
  0 <= v < 2 ^ 32 -> fat_words st -> fat_words (fat_set i v st).
Proof. intros Hv H j Hj. rewrite fat_get_set. destruct (i =? j); [done|by apply H]. Qed.

Lemma fat_words_ext st st' :
  fat_sectors_needed st' = fat_sectors_needed st -> fat_table st' = fat_table st ->
  fat_words st -> fat_words st'.
Proof. unfold fat_words, fat_get. intros -> ->. done. Qed.

(** Setting a cell and flushing its sector keeps the FAT in agreement. *)
Lemma set_and_sync st P i v :
  geometry st -> 0 <= i < total_disk_sectors st ->
  fat_sync st P -> fat_sync (kfs_sync_fat i (fat_set i v st)) P.
Proof.
  intros Hg Hi H.
  apply (fat_sync_weaken _ (fun k => (P k \/ k = i / 128) /\ k <> i / 128)); [|apply fat_sync_sync].
  - intros k [[HP | ->] Hne]; [exact HP|lia].
  - exact (geometry_same _ _ (geo_fat_set i v st) Hg).
  - exact Hi.
  - by apply fat_sync_set.
Qed.

(** ** The graph *)

(** The graph only depends on the cells and the sectors of its chains. *)
Lemma graph_chains_ext st st' G :
  graph st G -> root st' = root st -> total_disk_sectors st' = total_disk_sectors st ->
  (forall s, root st <= s -> length (ata_read st' s) = 512%nat) ->
  (forall h d c s, G !! h = Some (d, c) -> s ∈ c -> fat_get st' s = fat_get st s) ->
  (forall h c s, G !! h = Some (true, c) -> s ∈ c -> ata_read st' s = ata_read st s) -> graph st' G.
Proof.
  intros Hg Er Et Hl Hf Hr.
  assert (forall s i, dirslot G s i -> ata_read st' s = ata_read st s) as Hd.
  { intros s i (h & c & Hh & Hc & _). by eapply Hr. }
  split; unfold used, eflags, estart, esize, named in *; rewrite ?Er, ?Et.
  - exact Hl.
  - intros h d c H. eapply chain_ext; [by eapply g_chain|]. intros x Hx. by eapply Hf.
  - apply Hg.
  - apply Hg.
  - apply Hg.
  - apply Hg.
  - intros s i H Hu. rewrite (Hd s i H) in *. by apply Hg.
  - intros s i s' i' H H' Hu Hu'. rewrite (Hd s i H) in *. rewrite (Hd s' i' H') in *. by apply Hg.
  - intros h c name s i s' i' Hh Hn Hc Hc' Hi Hi' Hu Hu' N N'.
    assert (dirslot G s i) as D by (exists h, c; done).
    assert (dirslot G s' i') as D' by (exists h, c; done).
    rewrite (Hd s i D) in *. rewrite (Hd s' i' D') in *. by eapply (g_uniq _ _ Hg h c name).
Qed.

Lemma graph_ext st st' G :
  graph st G -> root st' = root st -> total_disk_sectors st' = total_disk_sectors st ->
  (forall i, root st <= i < total_disk_sectors st -> fat_get st' i = fat_get st i) ->
  (forall s, root st <= s -> ata_read st' s = ata_read st s) -> graph st' G.
Proof.
  intros Hg Er Et Hf Hr. apply (graph_chains_ext st); try done.
  - intros s Hs. rewrite Hr by done. by apply Hg.
  - intros h d c s H Hs. apply Hf. by eapply g_range.
  - intros h c s H Hs. apply Hr. pose proof (g_range _ _ Hg _ _ _ _ H Hs). lia.
Qed.

Lemma free_not_in st G f h d c :
  geometry st -> graph st G -> fat_get st f = FAT_FREE -> G !! h = Some (d, c) -> f ∉ c.
Proof.
  intros Hgeo Hg Hf Hh Hc. eapply chain_alloc; [by eapply (g_chain _ _ Hg)| |exact Hc|exact Hf].
  apply Forall_forall. intros x Hx. eapply data_sector_range; [done|]. by eapply g_range.
Qed.

Lemma chain_data st G h d c :
  geometry st -> graph st G -> G !! h = Some (d, c) -> Forall data_sector c.
Proof.
  intros Hgeo Hg Hh. apply Forall_forall. intros x Hx.
  eapply data_sector_range; [done|]. by eapply g_range.
Qed.

Lemma chain_walk_fuel st G h d c :
  geometry st -> graph st G -> G !! h = Some (d, c) -> (length c < walk_fuel st)%nat.
Proof.
  intros Hgeo Hg Hh. destruct (geo_bounds st Hgeo) as (? & ? & ? & ?).
  pose proof (length_chain_le (root st) (total_disk_sectors st) c) as L. unfold walk_fuel.
  assert (Z.of_nat (length c) <= Z.max 0 (total_disk_sectors st - root st)).
  { apply L; [by eapply g_nodup|]. intros s. by eapply g_range. }
  lia.
Qed.

Lemma head_in st G h d c : graph st G -> G !! h = Some (d, c) -> h ∈ c.
Proof.
  intros Hg Hh. destruct (chain_head _ _ _ (g_chain _ _ Hg _ _ _ Hh)) as [c' ->]. set_solver.
Qed.

Section grow.
Context (st st' : kfs) (G : ghost) (f : Z).
Context (Hgeo : geometry st) (Hg : graph st G) (Hs : same_geo st st').
Context (Hf : root st < f < total_disk_sectors st) (Hfree : fat_get st f = FAT_FREE).
Context (Hread : forall s, root st <= s -> s <> f -> ata_read st' s = ata_read st s).
Context (Hlen : length (ata_read st' f) = 512%nat).

(** What a change of one chain keeps: [G'] has the chains of [G] except that
    chain [h0] may have gained [f], with empty slots if it is a directory. *)
Lemma graph_grow (h0 : Z) (d0 : bool) (c0 : list Z) :
  (G !! h0 = Some (d0, c0) \/ (G !! h0 = None /\ c0 = [] /\ h0 = f)) ->
  chain (fat_table st') h0 (c0 ++ [f]) ->
  (forall x, x ∉ c0 -> x <> f -> fat_get st' x = fat_get st x) ->
  (d0 = true -> forall i, 0 <= i < 16 -> eflags st' f i = 0) ->
  graph st' (<[h0 := (d0, c0 ++ [f])]> G).
Proof.
  intros Hold Hch Hfat Hempty.
  pose proof (same_geo_root _ _ Hs) as Er. pose proof (same_geo_total _ _ Hs) as Et.
  pose proof (fun h d c => free_not_in st G f h d c Hgeo Hg Hfree) as Hnf.
  set (G' := <[h0 := (d0, c0 ++ [f])]> G).
  assert (forall h d c, G' !! h = Some (d, c) ->
    (h = h0 /\ d = d0 /\ c = c0 ++ [f]) \/ (h <> h0 /\ G !! h = Some (d, c))) as HG.
  { intros h d c. unfold G'. destruct (decide (h = h0)) as [->|]; simplify_map_eq; naive_solver. }
  assert (forall h d c s, G' !! h = Some (d, c) -> s ∈ c -> s <> f ->
    exists c1, G !! h = Some (d, c1) /\ s ∈ c1) as Hin.
  { intros h d c s H Hc Hne. destruct (HG _ _ _ H) as [(-> & -> & ->)|(? & ?)]; [|eauto].
    destruct Hold as [Ho|(_ & -> & _)]; [|set_solver]. exists c0. set_solver. }
  assert (forall h d c, G' !! h = Some (d, c) -> f ∈ c -> h = h0) as Hfin.
  { intros h d c H Hc. destruct (HG _ _ _ H) as [(-> & _)|(? & H')]; [done|].
    exfalso. by eapply Hnf. }
  assert (forall s i, dirslot G' s i -> used st' s i -> dirslot G s i /\ ata_read st' s = ata_read st s) as Hslot.
  { intros s i (h & c & H & Hc & Hi) Hu. destruct (decide (s = f)) as [->|Hne].
    - pose proof (Hfin _ _ _ H Hc) as ->. destruct (HG _ _ _ H) as [(_ & <- & _)|(? & _)]; [|done].
      exfalso. by apply Hu, Hempty.
    - destruct (Hin _ _ _ _ H Hc Hne) as (c1 & H1 & Hc1). split; [by exists h, c1|].
      apply Hread; [|done]. pose proof (g_range _ _ Hg _ _ _ _ H1 Hc1). lia. }
  assert (forall h d c, G !! h = Some (d, c) -> exists c', G' !! h = Some (d, c') /\ (length c <= length c')%nat) as Hup.
  { intros h d c H. unfold G'. destruct (decide (h = h0)) as [->|]; simplify_map_eq; [|eauto].
    destruct Hold as [Ho|(Ho & _)]; [|congruence]. rewrite Ho in H. injection H as -> ->.
    eexists; split; [done|]. rewrite length_app. lia. }
  split; rewrite ?Er, ?Et.
  - intros s H. destruct (decide (s = f)) as [->|]; [done|]. rewrite Hread by done. by apply Hg.
  - intros h d c H. destruct (HG _ _ _ H) as [(-> & -> & ->)|(Hne & H')]; [done|].
    eapply chain_ext; [by eapply g_chain|]. intros x Hx. apply Hfat.
    + intros Hx0. destruct Hold as [Ho|(_ & -> & _)]; [|set_solver].
      by apply Hne, (g_disj _ _ Hg _ _ _ _ _ _ x H' Ho).
    + intros ->. by eapply Hnf.
  - intros h d c s H Hc. destruct (decide (s = f)) as [->|Hne]; [lia|].
    destruct (Hin _ _ _ _ H Hc Hne) as (c1 & H1 & Hc1). by eapply g_range.
  - intros h d c H. destruct (HG _ _ _ H) as [(-> & -> & ->)|(Hne & H')]; [|by eapply g_nodup].
    destruct Hold as [Ho|(_ & -> & _)]; [|apply NoDup_singleton].
    apply NoDup_app. split; [by eapply g_nodup|]. split; [|apply NoDup_singleton].
    intros x Hx ->%list_elem_of_singleton. by eapply Hnf.
  - intros h d c h' d' c' s H H' Hc Hc'. destruct (decide (s = f)) as [->|Hne].
    + by rewrite (Hfin _ _ _ H Hc), (Hfin _ _ _ H' Hc').
    + destruct (Hin _ _ _ _ H Hc Hne) as (c1 & H1 & Hc1), (Hin _ _ _ _ H' Hc' Hne) as (c2 & H2 & Hc2).
      by eapply (g_disj _ _ Hg _ _ _ _ _ _ s).
  - destruct (g_root _ _ Hg) as [c Hc]. destruct (Hup _ _ _ Hc) as (c' & ? & _). eauto.
  - intros s i D Hu. destruct (Hslot s i D Hu) as [D0 E].
    unfold used, eflags, estart, esize in *. rewrite E in *.
    destruct (g_ent _ _ Hg s i D0 Hu) as (d & c & H & Hr & Hfl & Ht & Hsz).
    destruct (Hup _ _ _ H) as (c' & H' & Hl). exists d, c'. splits.
    by eapply sized_mono.
  - intros s i s' i' D D' Hu Hu'. destruct (Hslot s i D Hu) as [D0 E], (Hslot s' i' D' Hu') as [D1 E'].
    unfold used, eflags, estart in *. rewrite E, E' in *. by apply Hg.
  - intros h c name s i s' i' H Hn Hc Hc' Hi Hi' Hu Hu' N N'.
    destruct (decide (s = f)) as [->|Hne].
    { exfalso. pose proof (Hfin _ _ _ H Hc) as ->. destruct (HG _ _ _ H) as [(_ & <- & _)|(? & _)]; [|done].
      by apply Hu, Hempty. }
    destruct (decide (s' = f)) as [->|Hne'].
    { exfalso. pose proof (Hfin _ _ _ H Hc') as ->. destruct (HG _ _ _ H) as [(_ & <- & _)|(? & _)]; [|done].
      by apply Hu', Hempty. }
    destruct (Hin _ _ _ _ H Hc Hne) as (c1 & H1 & Hc1), (Hin _ _ _ _ H Hc' Hne') as (c2 & H2 & Hc2).
    rewrite H1 in H2. injection H2 as <-.
    pose proof (g_range _ _ Hg _ _ _ _ H1 Hc1). pose proof (g_range _ _ Hg _ _ _ _ H1 Hc2).
    unfold used, eflags, named in *. rewrite !Hread in * by (done || lia).
    by eapply (g_uniq _ _ Hg h c1 name).
Qed.

(** A new chain of one sector. *)
Lemma graph_new d :
  (forall a, fat_get st' a = if a =? f then FAT_EOF else fat_get st a) ->
  (d = true -> forall i, 0 <= i < 16 -> eflags st' f i = 0) ->
  graph st' (<[f := (d, [f])]> G).
Proof.
  intros Hfat He. change [f] with ([] ++ [f]). apply graph_grow.
  - right. split; [|done]. destruct (G !! f) as [[d' c']|] eqn:E; [|done]. exfalso.
    eapply (free_not_in st G f); [done..|]. by eapply head_in.
  - simpl. constructor. fold (fat_get st' f). rewrite Hfat, Z.eqb_refl. done.
  - intros x _ Hx. rewrite Hfat. destruct (Z.eqb_spec x f); [lia|done].
  - done.
Qed.

(** A chain extended by one sector. *)
Lemma graph_extend h d c0 l :
  G !! h = Some (d, c0 ++ [l]) ->
  (forall a, fat_get st' a = if a =? f then FAT_EOF else if a =? l then f else fat_get st a) ->
  (d = true -> forall i, 0 <= i < 16 -> eflags st' f i = 0) ->
  graph st' (<[h := (d, (c0 ++ [l]) ++ [f])]> G).
Proof.
  intros Hh Hfat He. apply graph_grow; [by left| | |done].
  - eapply chain_extend; [by eapply g_chain|by eapply g_nodup| |exact Hfat].
    by eapply (free_not_in st G f).
  - intros x Hx Hxf. rewrite Hfat. destruct (Z.eqb_spec x f); [lia|].
    destruct (Z.eqb_spec x l) as [->|]; [set_solver|done].
Qed.
End grow.

(** ** Entries *)

(** The 32 bytes of the slot are the same in both states. *)
Definition slot_same (st st' : kfs) (s i : Z) : Prop :=
  forall j, 0 <= j < 32 -> str (ata_read st' s) (32 * i + j) = str (ata_read st s) (32 * i + j).

Lemma slot_same_read st st' s i : ata_read st' s = ata_read st s -> slot_same st st' s i.
Proof. intros E j _. by rewrite E. Qed.

Lemma slot_same_fields st st' s i :
  slot_same st st' s i ->
  eflags st' s i = eflags st s i /\ estart st' s i = estart st s i /\ esize st' s i = esize st s i /\
  str (ata_read st' s) (32 * i + 22) = str (ata_read st s) (32 * i + 22).
Proof.
  intros H. unfold eflags, estart, esize, get_entry, le32; simpl.
  rewrite <- !Z.add_assoc. simpl. rewrite !H by lia. done.
Qed.

Lemma named_length st s i name :
  no_nul name -> str (ata_read st s) (32 * i + 22) = 0 -> named st s i name -> (length name <= 22)%nat.
Proof.
  intros Hn Ht H. destruct (Nat.le_gt_cases (length name) 22) as [|Hl]; [done|]. exfalso.
  apply (str_nz name 22); [done|lia|]. rewrite <- H by lia. done.
Qed.

Lemma slot_same_named st st' s i name :
  slot_same st st' s i -> (length name <= 22)%nat -> named st' s i name <-> named st s i name.
Proof.
  intros H Hl. unfold named. split; intros Hn j Hj; [rewrite <- H by lia|rewrite H by lia]; by apply Hn.
Qed.

(** Names of used slots, in two states that agree on the slot. *)
Lemma slot_same_used_named st st' G s i name :
  graph st G -> dirslot G s i -> used st s i -> slot_same st st' s i -> no_nul name ->
  named st' s i name <-> named st s i name.
Proof.
  intros Hg D Hu Hs Hn. destruct (g_ent _ _ Hg s i D Hu) as (d & c & _ & _ & _ & Ht & _).
  destruct (slot_same_fields _ _ _ _ Hs) as (_ & _ & _ & Et).
  split; intros N.
  - apply (slot_same_named st st'); [done| |done]. eapply (named_length st'); [done| |done]. congruence.
  - apply (slot_same_named st st'); [done| |done]. by eapply (named_length st).
Qed.

Lemma chain_unique st G h d c h' d' c' s :
  graph st G -> G !! h = Some (d, c) -> G !! h' = Some (d', c') -> s ∈ c -> s ∈ c' ->
  h = h' /\ d = d' /\ c = c'.
Proof.
  intros Hg H H' Hc Hc'. pose proof (g_disj _ _ Hg _ _ _ _ _ _ s H H' Hc Hc') as <-. naive_solver.
Qed.

Section one_slot.
Context (st st' : kfs) (G : ghost) (h s i : Z) (c : list Z).
Context (Hg : graph st G) (Hs : same_geo st st').
Context (Hh : G !! h = Some (true, c)) (Hsc : s ∈ c) (Hi : 0 <= i < 16).
Context (Hread : forall s', root st <= s' -> s' <> s -> ata_read st' s' = ata_read st s').
Context (Hlen : length (ata_read st' s) = 512%nat).
Context (Hother : forall i', 0 <= i' < 16 -> i' <> i -> slot_same st st' s i').

Lemma other_slot s' i' : dirslot G s' i' -> (s', i') <> (s, i) -> slot_same st st' s' i'.
Proof.
  intros (h' & c' & H & Hc & Hi') Hne. destruct (decide (s' = s)) as [->|].
  - apply Hother; [done|]. congruence.
  - apply slot_same_read, Hread; [|done]. pose proof (g_range _ _ Hg _ _ _ _ H Hc). lia.
Qed.

(** A new entry in an empty slot. *)
Lemma graph_entry d h2 c2 name :
  (forall a, fat_get st' a = fat_get st a) ->
  eflags st s i = 0 ->
  eflags st' s i = flag_of d -> estart st' s i = h2 -> named st' s i name -> no_nul name ->
  str (ata_read st' s) (32 * i + 22) = 0 ->
  G !! h2 = Some (d, c2) -> h2 <> root st ->
  sized d (esize st' s i) c2 ->
  (forall s' i', dirslot G s' i' -> used st s' i' -> estart st s' i' <> h2) ->
  (forall s' i', s' ∈ c -> 0 <= i' < 16 -> used st s' i' -> ~ named st s' i' name) ->
  graph st' G.
Proof.
  intros Hfat He Hfl Hst Hnm Hnn Ht H2 Hr Hsz Href Huq.
  pose proof (same_geo_root _ _ Hs) as Er. pose proof (same_geo_total _ _ Hs) as Et.
  assert (dirslot G s i) as D0 by (exists h, c; done).
  assert (forall s' i', dirslot G s' i' -> used st' s' i' -> (s', i') <> (s, i) -> used st s' i') as Hu'.
  { intros s' i' D Hu Hne. unfold used in *.
    by rewrite <- (proj1 (slot_same_fields _ _ _ _ (other_slot s' i' D Hne))). }
  split; rewrite ?Er, ?Et.
  - intros s' H. destruct (decide (s' = s)) as [->|]; [done|]. rewrite Hread by done. by apply Hg.
  - intros h' d' c' H. eapply chain_ext; [by eapply g_chain|]. intros; apply Hfat.
  - apply Hg.
  - apply Hg.
  - apply Hg.
  - apply Hg.
  - intros s' i' D Hu. destruct (decide ((s', i') = (s, i))) as [[= -> ->]|Hne].
    + exists d, c2. rewrite Hst. splits.
    + destruct (slot_same_fields _ _ _ _ (other_slot s' i' D Hne)) as (_ & -> & -> & ->).
      rewrite (proj1 (slot_same_fields _ _ _ _ (other_slot s' i' D Hne))). by apply Hg; [|apply Hu'].
  - intros s1 i1 s2 i2 D1 D2 U1 U2 E.
    destruct (decide ((s1, i1) = (s, i))) as [E1|N1], (decide ((s2, i2) = (s, i))) as [E2|N2];
      [split; congruence|exfalso..|].
    + injection E1 as -> ->. rewrite Hst in E.
      destruct (slot_same_fields _ _ _ _ (other_slot _ _ D2 N2)) as (_ & E3 & _). rewrite E3 in E.
      by apply (Href s2 i2 D2 (Hu' _ _ D2 U2 N2)).
    + injection E2 as -> ->. rewrite Hst in E.
      destruct (slot_same_fields _ _ _ _ (other_slot _ _ D1 N1)) as (_ & E3 & _). rewrite E3 in E.
      by apply (Href s1 i1 D1 (Hu' _ _ D1 U1 N1)).
    + destruct (slot_same_fields _ _ _ _ (other_slot _ _ D1 N1)) as (_ & E3 & _).
      destruct (slot_same_fields _ _ _ _ (other_slot _ _ D2 N2)) as (_ & E4 & _).
      rewrite E3, E4 in E. apply (g_inj _ _ Hg); [done|done|by apply Hu'|by apply Hu'|done].
  - intros h' c' nm s1 i1 s2 i2 H Hn C1 C2 I1 I2 U1 U2 M1 M2.
    assert (dirslot G s1 i1) as D1 by (exists h', c'; done).
    assert (dirslot G s2 i2) as D2 by (exists h', c'; done).
    assert (forall s' i', s' ∈ c' -> 0 <= i' < 16 -> used st' s' i' -> (s', i') <> (s, i) -> s ∈ c' ->
      named st' s' i' nm -> named st' s i nm -> False) as Hclash.
    { intros s' i' C' I' U' N' Cs M' M.
      pose proof (named_inj _ _ _ _ _ Hn Hnn M Hnm) as ->.
      destruct (chain_unique _ _ _ _ _ _ _ _ s Hg H Hh Cs Hsc) as (-> & _ & ->).
      assert (dirslot G s' i') as D' by (exists h, c; done).
      apply (Huq s' i' C' I' (Hu' _ _ D' U' N')).
      apply (slot_same_used_named _ st' G); [done|done|by apply Hu'|by apply other_slot|done|done]. }
    destruct (decide ((s1, i1) = (s, i))) as [E1|N1], (decide ((s2, i2) = (s, i))) as [E2|N2];
      [split; congruence|exfalso..|].
    + injection E1 as -> ->. by apply (Hclash s2 i2).
    + injection E2 as -> ->. by apply (Hclash s1 i1).
    + apply (g_uniq _ _ Hg h' c' nm); try done; try (by apply Hu').
      * apply (slot_same_used_named _ st' G); [done|done|by apply Hu'|by apply other_slot|done|done].
      * apply (slot_same_used_named _ st' G); [done|done|by apply Hu'|by apply other_slot|done|done].
Qed.

(** A file removed: its slot is emptied and its chain freed. *)
Lemma graph_remove x cx :
  used st s i -> estart st s i = x -> G !! x = Some (false, cx) ->
  (forall a, fat_get st' a = if bool_decide (a ∈ cx) then FAT_FREE else fat_get st a) ->
  eflags st' s i = 0 ->
  graph st' (delete x G).
Proof.
  intros Hu Hx HGx Hfat He.
  pose proof (same_geo_root _ _ Hs) as Er. pose proof (same_geo_total _ _ Hs) as Et.
  assert (dirslot G s i) as D0 by (exists h, c; done).
  assert (forall k d' c', delete x G !! k = Some (d', c') -> k <> x /\ G !! k = Some (d', c')) as HD.
  { intros k d' c' H. apply lookup_delete_Some in H as [? ?]. done. }
  assert (forall s' i', dirslot (delete x G) s' i' -> dirslot G s' i') as Hds.
  { intros s' i' (h' & c' & H & ?). apply HD in H as [_ H]. by exists h', c'. }
  assert (forall s' i', dirslot (delete x G) s' i' -> used st' s' i' ->
    (s', i') <> (s, i) /\ used st s' i' /\ slot_same st st' s' i') as Hu'.
  { intros s' i' D U. assert ((s', i') <> (s, i)) as Hne by (intros [= -> ->]; by apply U).
    pose proof (other_slot s' i' (Hds _ _ D) Hne) as HS. split; [done|]. split; [|done].
    unfold used in *. by rewrite <- (proj1 (slot_same_fields _ _ _ _ HS)). }
  split; rewrite ?Er, ?Et.
  - intros s' H. destruct (decide (s' = s)) as [->|]; [done|]. rewrite Hread by done. by apply Hg.
  - intros h' d' c' H. apply HD in H as [Hne H].
    eapply chain_ext; [by eapply g_chain|]. intros y Hy. fold (fat_get st' y). rewrite Hfat.
    case_bool_decide as Hyx; [|done]. exfalso. by apply Hne, (g_disj _ _ Hg _ _ _ _ _ _ y H HGx).
  - intros h' d' c' s' H. apply HD in H as [_ H]. by eapply g_range.
  - intros h' d' c' H. apply HD in H as [_ H]. by eapply g_nodup.
  - intros h1 d1 c1 h2 d2 c2 y H1 H2. apply HD in H1 as [_ H1], H2 as [_ H2].
    by eapply (g_disj _ _ Hg).
  - destruct (g_root _ _ Hg) as [cr Hr]. exists cr. apply lookup_delete_Some. split; [|done].
    intros ->. congruence.
  - intros s' i' D U. destruct (Hu' _ _ D U) as (Hne & U0 & HS).
    destruct (slot_same_fields _ _ _ _ HS) as (-> & -> & -> & ->).
    destruct (g_ent _ _ Hg s' i' (Hds _ _ D) U0) as (d & c' & H & ?). exists d, c'. split; [|done].
    apply lookup_delete_Some. split; [|done]. intros E. apply Hne.
    destruct (g_inj _ _ Hg s' i' s i (Hds _ _ D) D0 U0 Hu) as [-> ->]; [congruence|done].
  - intros s1 i1 s2 i2 D1 D2 U1 U2 E.
    destruct (Hu' _ _ D1 U1) as (_ & V1 & S1), (Hu' _ _ D2 U2) as (_ & V2 & S2).
    destruct (slot_same_fields _ _ _ _ S1) as (_ & E1 & _), (slot_same_fields _ _ _ _ S2) as (_ & E2 & _).
    rewrite E1, E2 in E. apply (g_inj _ _ Hg); auto.
  - intros h' c' nm s1 i1 s2 i2 H Hn C1 C2 I1 I2 U1 U2 M1 M2.
    assert (dirslot (delete x G) s1 i1) as D1 by (exists h', c'; done).
    assert (dirslot (delete x G) s2 i2) as D2 by (exists h', c'; done).
    destruct (Hu' _ _ D1 U1) as (_ & V1 & S1), (Hu' _ _ D2 U2) as (_ & V2 & S2).
    apply HD in H as [_ H]. apply (g_uniq _ _ Hg h' c' nm); try done.
    + apply (slot_same_used_named _ st' G); auto.
    + apply (slot_same_used_named _ st' G); auto.
Qed.
End one_slot.

End KfsInv.
