(* ===== verification/KfsOps.v ===== *)
(** * KyuzenFS: the internal operations on a well-formed file system

    Directory look-up, path resolution, allocation, insertion of an entry, the
    data loop of [kfs_create_file] and the release of a chain.  Each lemma says
    what the operation returns and how the abstract contents, the entries of
    each directory and the bytes of each file, change. *)

From S2P Require Import Prelude KString Kfs KfsSpec KfsInv.
From stdpp Require Import base numbers list gmap.
From Stdlib Require Import ZArith Lia.

#[local] Open Scope Z_scope.

Module KfsOps.
Import KString Kfs KfsSpec KfsInv.

(** ** Abstract contents *)

(** Directory [h] has an entry [name] with flags, first sector and size [x]. *)
Definition has_entry (st : kfs) (G : ghost) (h : Z) (name : list Z) (x : Z * Z * Z) : Prop :=
  exists c s i, G !! h = Some (true, c) /\ s ∈ c /\ 0 <= i < 16 /\ used st s i /\
    named st s i name /\ x = (eflags st s i, estart st s i, esize st s i).

Definition view (r : kfs_file_entry_t * Z * Z) : Z * Z * Z :=
  let '(e, _, _) := r in (flags e, start_sector e, size_bytes e).

Lemma has_entry_fun st G h name x y :
  graph st G -> no_nul name -> has_entry st G h name x -> has_entry st G h name y -> x = y.
Proof.
  intros Hg Hn (c & s & i & Hh & Hs & Hi & Hu & Hm & ->) (c' & s' & i' & Hh' & Hs' & Hi' & Hu' & Hm' & ->).
  rewrite Hh in Hh'. injection Hh' as <-.
  destruct (g_uniq _ _ Hg h c name s i s' i') as [-> ->]; done.
Qed.

Lemma find_entry_spec st G h c name :
  geometry st -> graph st G -> G !! h = Some (true, c) -> no_nul name ->
  exists r, find_entry_in st h name = Some r /\
    match r with
    | Some (e, s, i) => s ∈ c /\ 0 <= i < 16 /\ e = get_entry (ata_read st s) i /\
                        used st s i /\ named st s i name
    | None => forall s i, s ∈ c -> 0 <= i < 16 -> used st s i -> named st s i name -> False
    end.
Proof.
  intros Hgeo Hg Hh Hn. unfold find_entry_in.
  destruct (geo_bounds st Hgeo) as (_ & _ & ? & _).
  pose proof (g_range _ _ Hg _ _ _ _ Hh (head_in _ _ _ _ _ Hg Hh)).
  destruct (Z.ltb_spec h 2); [lia|].
  apply find_walk_spec; [done|by eapply g_chain|by eapply chain_data|by eapply chain_walk_fuel].
Qed.

Lemma find_view st G h c name :
  geometry st -> graph st G -> G !! h = Some (true, c) -> no_nul name ->
  exists r, find_entry_in st h name = Some r /\
    forall x, view <$> r = Some x <-> has_entry st G h name x.
Proof.
  intros Hgeo Hg Hh Hn. destruct (find_entry_spec st G h c name Hgeo Hg Hh Hn) as (r & Er & Hr).
  exists r. split; [done|]. intros x. destruct r as [[[e s] i]|]; simpl.
  - destruct Hr as (Hs & Hi & -> & Hu & Hm).
    assert (has_entry st G h name (eflags st s i, estart st s i, esize st s i)) as HE by (by exists c, s, i).
    split; [by intros [= <-]|]. intros Hx. by rewrite (has_entry_fun _ _ _ _ _ _ Hg Hn Hx HE).
  - split; [done|]. intros (c' & s & i & Hh' & Hs & Hi & Hu & Hm & _).
    rewrite Hh in Hh'. injection Hh' as <-. exfalso. by eapply Hr.
Qed.

(** Two states in which the directory has the same entry of that name. *)
Lemma find_frame st st' G G' h c c' name :
  geometry st -> graph st G -> geometry st' -> graph st' G' ->
  G !! h = Some (true, c) -> G' !! h = Some (true, c') -> no_nul name ->
  (forall x, has_entry st' G' h name x <-> has_entry st G h name x) ->
  exists r r', find_entry_in st h name = Some r /\ find_entry_in st' h name = Some r' /\
    view <$> r' = view <$> r.
Proof.
  intros Hgeo Hg Hgeo' Hg' Hh Hh' Hn HE.
  destruct (find_view st G h c name) as (r & Er & Hr); [done..|].
  destruct (find_view st' G' h c' name) as (r' & Er' & Hr'); [done..|].
  exists r, r'. splits. destruct (view <$> r') as [x|] eqn:E.
  - symmetry. apply Hr, HE, Hr'. done.
  - destruct (view <$> r) as [x|] eqn:E2; [|done].
    assert (has_entry st G h name x) as H by (by apply Hr). apply HE, Hr' in H. congruence.
Qed.

(** An entry that is a folder leads to a directory. *)
Lemma folder_entry st G h name s z :
  graph st G -> has_entry st G h name (FLAG_FOLDER, s, z) -> z = 0 /\ exists c, G !! s = Some (true, c).
Proof.
  intros Hg (c & s' & i & Hh & Hs & Hi & Hu & Hm & [= E1 E2 E3]).
  destruct (g_ent _ _ Hg s' i) as (d & c' & H & _ & Hfl & _ & Hz); [by exists h, c|done|].
  rewrite Hfl in E1. subst s z. destruct d; [eauto|discriminate].
Qed.

(** An entry that is not a folder leads to a file that holds its size. *)
Lemma file_entry st G h name x :
  graph st G -> has_entry st G h name x -> x.1.1 <> FLAG_FOLDER ->
  x.1.1 = FLAG_FILE /\
  exists c, G !! x.1.2 = Some (false, c) /\ 0 <= x.2 < 2 ^ 32 /\ x.2 <= 512 * Z.of_nat (length c).
Proof.
  intros Hg (c & s' & i & Hh & Hs & Hi & Hu & Hm & ->) Hne. simpl in *.
  destruct (g_ent _ _ Hg s' i) as (d & c' & H & _ & Hfl & _ & Hsz); [by exists h, c|done|].
  rewrite Hfl in *. destruct d; [done|]. split; [done|]. by exists c'.
Qed.

(** ** Paths *)

Lemma skip_slashes_suffix p : exists q, p = q ++ skip_slashes p.
Proof.
  induction p as [|a p IH]; simpl; [by exists []|]. destruct (a =? SLASH); [|by exists []].
  destruct IH as [q E]. exists (a :: q). simpl. by rewrite <- E.
Qed.

Lemma take_comp_app p comp rest : take_comp p = (comp, rest) -> p = comp ++ rest.
Proof.
  revert comp rest. induction p as [|a p IH]; simpl; intros comp rest; [by intros [= <- <-]|].
  destruct (a =? SLASH); [by intros [= <- <-]|].
  destruct (take_comp p) as [c r]. intros [= <- <-]. simpl. by rewrite <- (IH c r).
Qed.

Lemma skip_slashes_head a p q : skip_slashes p = a :: q -> a <> SLASH.
Proof.
  induction p as [|b p IH]; simpl; [done|]. destruct (Z.eqb_spec b SLASH); [done|].
  by intros [= <- _].
Qed.

(** One step of the resolution: the first component and what follows it. *)
Lemma path_step a p comp rest :
  skip_slashes (a :: p) <> [] -> take_comp (skip_slashes (a :: p)) = (comp, rest) ->
  no_nul (a :: p) -> no_nul comp /\ no_nul rest /\ (length rest < length (a :: p))%nat.
Proof.
  intros Hne Ht Hn. destruct (skip_slashes_suffix (a :: p)) as [q E].
  pose proof (take_comp_app _ _ _ Ht) as E2.
  assert (comp <> []) as Hc.
  { destruct (skip_slashes (a :: p)) as [|b l] eqn:Es; [done|].
    apply skip_slashes_head in Es. simpl in Ht. apply Z.eqb_neq in Es. rewrite Es in Ht.
    destruct (take_comp l). by injection Ht as <- <-. }
  rewrite E2 in E. rewrite E in Hn |- *. apply Forall_app in Hn as [_ Hn].
  apply Forall_app in Hn as [H1 H2]. split; [done|]. split; [done|].
  rewrite !length_app. destruct comp; [done|]. simpl. lia.
Qed.

Lemma resolve_walk_cons fuel st a p dir :
  resolve_walk (S fuel) st (a :: p) dir =
  match skip_slashes (a :: p) with
  | [] => Some (Some dir)
  | path =>
      let '(comp, rest) := take_comp path in
      if (22 <? length comp)%nat then Some None
      else match find_entry_in st dir comp with
           | None => None
           | Some None => Some None
           | Some (Some (e, _, _)) =>
               if negb (flags e =? FLAG_FOLDER) then Some None
               else resolve_walk fuel st rest (start_sector e)
           end
  end.
Proof. reflexivity. Qed.

(** Resolution terminates, and yields a directory. *)
Lemma resolve_walk_ok st G fuel path dir c :
  geometry st -> graph st G -> G !! dir = Some (true, c) -> no_nul path -> (length path < fuel)%nat ->
  exists r, resolve_walk fuel st path dir = Some r /\
    forall h, r = Some h -> exists c, G !! h = Some (true, c).
Proof.
  intros Hgeo Hg. revert path dir c. induction fuel as [|fuel IH]; intros path dir c Hd Hn Hf; [lia|].
  destruct path as [|a p].
  { exists (Some dir). split; [done|]. intros h [= <-]. eauto. }
  rewrite resolve_walk_cons. destruct (skip_slashes (a :: p)) as [|b l] eqn:Es.
  { exists (Some dir). split; [done|]. intros h [= <-]. eauto. }
  destruct (take_comp (b :: l)) as [comp rest] eqn:Et. rewrite <- Es in Et.
  destruct (path_step a p comp rest) as (Hc & Hr & Hl); [by rewrite Es|done..|].
  destruct (22 <? length comp)%nat; [by exists None|].
  destruct (find_view st G dir c comp) as (r & -> & Hv); [done..|].
  destruct r as [[[e s] i]|]; [|by exists None].
  destruct (Z.eqb_spec (flags e) FLAG_FOLDER) as [Ef|]; simpl; [|by exists None].
  assert (has_entry st G dir comp (FLAG_FOLDER, start_sector e, size_bytes e)) as HE.
  { apply Hv. simpl. by rewrite Ef. }
  destruct (folder_entry _ _ _ _ _ _ Hg HE) as [_ [c' Hc']]. eapply IH; [done|done|]. simpl in *. lia.
Qed.

Section frames.
Context (st st' : kfs) (G G' : ghost).
Context (Hgeo : geometry st) (Hg : graph st G) (Hgeo' : geometry st') (Hg' : graph st' G').
Context (Hroot : root st' = root st).
Context (Hdirs : forall h c, G !! h = Some (true, c) -> exists c', G' !! h = Some (true, c')).

(** If the folders of every directory stay, resolution does not change. *)
Lemma resolve_walk_frame fuel path dir c :
  (forall h c name x, G !! h = Some (true, c) -> no_nul name -> x.1.1 = FLAG_FOLDER ->
     has_entry st' G' h name x <-> has_entry st G h name x) ->
  G !! dir = Some (true, c) -> no_nul path ->
  resolve_walk fuel st' path dir = resolve_walk fuel st path dir.
Proof.
  intros HE. revert path dir c. induction fuel as [|fuel IH]; intros path dir c Hd Hn; [done|].
  destruct path as [|a p]; [done|]. rewrite !resolve_walk_cons.
  destruct (skip_slashes (a :: p)) as [|b l] eqn:Es; [done|].
  destruct (take_comp (b :: l)) as [comp rest] eqn:Et. rewrite <- Es in Et.
  destruct (path_step a p comp rest) as (Hc & Hr & Hl); [by rewrite Es|done..|].
  destruct (22 <? length comp)%nat; [done|].
  destruct (Hdirs dir c Hd) as [c' Hd'].
  destruct (find_view st G dir c comp) as (r & -> & Hv); [done..|].
  destruct (find_view st' G' dir c' comp) as (r' & -> & Hv'); [done..|].
  assert (forall e s i, r = Some (e, s, i) -> flags e = FLAG_FOLDER ->
    exists c1, G !! start_sector e = Some (true, c1)) as Hdir.
  { intros e s i -> Ef. apply (folder_entry st G dir comp _ (size_bytes e)); [done|].
    apply Hv. simpl. by rewrite Ef. }
  destruct r as [[[e s] i]|], r' as [[[e' s'] i']|]; simpl in Hv, Hv'.
  - destruct (Z.eqb_spec (flags e) FLAG_FOLDER) as [Ef|Nf].
    + assert (has_entry st' G' dir comp (FLAG_FOLDER, start_sector e, size_bytes e)) as H.
      { apply (HE dir c); [done..|]. apply Hv. by rewrite Ef. }
      apply Hv' in H. injection H as E1 E2 E3. rewrite E1, E2. simpl.
      destruct (Hdir e s i eq_refl Ef) as [c1 Hc1]. by eapply IH.
    + destruct (Z.eqb_spec (flags e') FLAG_FOLDER) as [Ef'|Nf']; simpl; [|done]. exfalso. apply Nf.
      assert (has_entry st G dir comp (FLAG_FOLDER, start_sector e', size_bytes e')) as H.
      { apply (HE dir c); [done..|]. apply Hv'. by rewrite Ef'. }
      apply Hv in H. by injection H.
  - destruct (Z.eqb_spec (flags e) FLAG_FOLDER) as [Ef|Nf]; simpl; [|done]. exfalso.
    assert (has_entry st' G' dir comp (FLAG_FOLDER, start_sector e, size_bytes e)) as H.
    { apply (HE dir c); [done..|]. apply Hv. by rewrite Ef. }
    by apply Hv' in H.
  - destruct (Z.eqb_spec (flags e') FLAG_FOLDER) as [Ef|Nf]; simpl; [|done]. exfalso.
    assert (has_entry st G dir comp (FLAG_FOLDER, start_sector e', size_bytes e')) as H.
    { apply (HE dir c); [done..|]. apply Hv'. by rewrite Ef. }
    by apply Hv in H.
  - done.
Qed.

Lemma no_nul_take n p : no_nul p -> no_nul (take n p).
Proof. apply Forall_take. Qed.
Lemma no_nul_drop n p : no_nul p -> no_nul (drop n p).
Proof. apply Forall_drop. Qed.

Lemma split_frame path :
  (forall h c name x, G !! h = Some (true, c) -> no_nul name -> x.1.1 = FLAG_FOLDER ->
     has_entry st' G' h name x <-> has_entry st G h name x) ->
  no_nul path -> split_last_nolock st' path = split_last_nolock st path.
Proof.
  intros HE Hn. unfold split_last_nolock. destruct (drop _ path); [done|].
  unfold resolve_dir_nolock. fold (root st) (root st'). rewrite Hroot.
  destruct (g_root _ _ Hg) as [c Hc].
  by rewrite (resolve_walk_frame _ _ _ c HE Hc (no_nul_take _ _ Hn)).
Qed.
End frames.

(** The split of a path: it terminates, the parent is a directory and the name
    is not empty. *)
Lemma split_ok st G path :
  geometry st -> graph st G -> no_nul path ->
  exists r, split_last_nolock st path = Some r /\
    forall h name, r = Some (h, name) -> no_nul name /\ exists c, G !! h = Some (true, c).
Proof.
  intros Hgeo Hg Hn. unfold split_last_nolock.
  destruct (drop (Z.to_nat (name_offset path)) path) as [|b l] eqn:Ed; [by exists None|].
  assert (no_nul (b :: l)) as Hnm by (rewrite <- Ed; by apply no_nul_drop).
  cbv zeta. set (par := take _ path). destruct (g_root _ _ Hg) as [c Hc].
  destruct (resolve_walk_ok st G (S (length par)) par (root st) c) as (r & Er & Hr);
    [done|done|done|by apply no_nul_take|lia|].
  unfold resolve_dir_nolock. fold (root st). rewrite Er. destruct r as [h|].
  - exists (Some (h, b :: l)). split; [done|]. intros h' nm [= <- <-]. split; [done|]. by apply Hr.
  - by exists None.
Qed.

(** ** Allocation *)

Lemma find_free_spec st :
  geometry st ->
  (find_free_sector st = 0 /\
   forall i, root st < i < total_disk_sectors st -> fat_get st i <> FAT_FREE) \/
  (root st < find_free_sector st < total_disk_sectors st /\
   fat_get st (find_free_sector st) = FAT_FREE).
Proof.
  intros Hgeo. destruct (geo_bounds st Hgeo) as (_ & _ & ? & ?).
  unfold find_free_sector. fold (root st). rewrite wrap_small by lia.
  destruct (find_loop _ _ _) as [i|] eqn:E.
  - right. apply find_loop_Some in E as (? & Hi & _). apply Z.eqb_eq in Hi. split; [lia|done].
  - left. split; [done|]. intros i Hi. apply find_loop_None with (j := i) in E; [|lia].
    by apply Z.eqb_neq in E.
Qed.

Lemma ata_write_write s b b' st : ata_write s b (ata_write s b' st) = ata_write s b st.
Proof. unfold ata_write, set_disk; simpl. by rewrite insert_insert_eq. Qed.

Lemma fat_set_comm i v j w st :
  i <> j -> fat_set i v (fat_set j w st) = fat_set j w (fat_set i v st).
Proof. intros. unfold fat_set, set_fat_table, Prelude.st; simpl. by rewrite insert_insert_ne. Qed.

Lemma eof_word : 0 <= FAT_EOF < 2 ^ 32.
Proof. unfold FAT_EOF. lia. Qed.

Lemma zero_slots st s i :
  ata_read st s = replicate 512 FLAG_EMPTY -> 0 <= i < 16 -> eflags st s i = 0.
Proof.
  intros E Hi. unfold eflags, get_entry, str; simpl. rewrite E, lookup_replicate_2 by lia. done.
Qed.

(** The steps shared by the data loop and the creation of a folder: a free
    sector becomes a chain of its own. *)
Definition take_sector (f : Z) (buf : list Z) (st : kfs) : kfs :=
  ata_write f buf (kfs_sync_fat f (fat_set f FAT_EOF st)).

(** The steps shared by the data loop and the insertion of an entry: a free
    sector is linked after sector [l]. *)
Definition link_sector (l f : Z) (buf : list Z) (st : kfs) : kfs :=
  ata_write f buf (kfs_sync_fat f (kfs_sync_fat l (fat_set l f (fat_set f FAT_EOF st)))).

Section alloc.
Context (st : kfs) (G : ghost) (f : Z) (buf : list Z).
Context (Hinv : fs_inv st G) (Hf : root st < f < total_disk_sectors st).
Context (Hfree : fat_get st f = FAT_FREE) (Hbuf : length buf = 512%nat).

Lemma take_sector_geo : same_geo st (take_sector f buf st).
Proof.
  unfold take_sector. etrans; [|apply geo_write]. etrans; [|apply geo_sync]. apply geo_fat_set.
Qed.

Lemma take_sector_fat a :
  fat_get (take_sector f buf st) a = if a =? f then FAT_EOF else fat_get st a.
Proof.
  unfold take_sector, fat_get. simpl.
  destruct (sync_fields f (fat_set f FAT_EOF st)) as (-> & _). simpl. rewrite ld_st, Z.eqb_sym. done.
Qed.

Lemma take_sector_read s :
  s = 0 \/ root st <= s -> ata_read (take_sector f buf st) s = if f =? s then buf else ata_read st s.
Proof.
  intros Hs. pose proof (inv_geo _ _ Hinv) as Hgeo. destruct (geo_bounds st Hgeo) as (_ & _ & ? & _).
  unfold take_sector. rewrite ata_read_write. destruct (f =? s); [done|].
  rewrite ata_read_sync; [done| |simpl; lia|done].
  exact (geometry_same _ _ (geo_fat_set _ _ _) Hgeo).
Qed.

Lemma take_sector_inv d :
  (d = true -> buf = replicate 512 FLAG_EMPTY) ->
  fs_inv (take_sector f buf st) (<[f := (d, [f])]> G).
Proof.
  intros Hd. destruct Hinv as [Hgeo Hsync Hwords Hhdr Hg].
  destruct (geo_bounds st Hgeo) as (_ & _ & ? & _).
  assert (geometry (fat_set f FAT_EOF st)) as Hgeo1 by exact (geometry_same _ _ (geo_fat_set _ _ _) Hgeo).
  split.
  - exact (geometry_same _ _ take_sector_geo Hgeo).
  - apply fat_sync_write.
    + exact (geometry_same _ _ (geo_sync _ _) Hgeo1).
    + right. rewrite (same_geo_root _ _ (geo_sync _ _)). unfold root in *; simpl. lia.
    + apply set_and_sync; [done|lia|done].
  - eapply fat_words_ext; [..|apply fat_words_set; [exact eof_word|exact Hwords]].
    + apply (sync_fields f (fat_set f FAT_EOF st)).
    + apply (sync_fields f (fat_set f FAT_EOF st)).
  - unfold header_sync. rewrite take_sector_read by lia.
    destruct (Z.eqb_spec f 0); [lia|]. destruct take_sector_geo as (_ & _ & _ & _ & ->). done.
  - apply (graph_new st); try done.
    + exact take_sector_geo.
    + intros s Hs Hne. rewrite take_sector_read by lia. destruct (Z.eqb_spec f s); [lia|done].
    + rewrite take_sector_read by lia. by rewrite Z.eqb_refl.
    + exact take_sector_fat.
    + intros Ed i Hi. apply zero_slots; [|done]. rewrite take_sector_read, Z.eqb_refl by lia. by apply Hd.
Qed.

Section link.
Context (h l : Z) (d : bool) (c0 : list Z) (Hh : G !! h = Some (d, c0 ++ [l])).

Lemma link_range : root st <= l < total_disk_sectors st /\ l <> f.
Proof.
  destruct Hinv as [Hgeo _ _ _ Hg]. split.
  - apply (g_range _ _ Hg _ _ _ _ Hh). set_solver.
  - intros ->. eapply (free_not_in st G f); [done..|]. set_solver.
Qed.

Lemma link_sector_geo : same_geo st (link_sector l f buf st).
Proof.
  unfold link_sector. etrans; [|apply geo_write]. etrans; [|apply geo_sync]. etrans; [|apply geo_sync].
  etrans; apply geo_fat_set.
Qed.

Lemma link_sector_fat a :
  fat_get (link_sector l f buf st) a
  = if a =? f then FAT_EOF else if a =? l then f else fat_get st a.
Proof.
  destruct link_range as [_ Hne]. unfold link_sector, fat_get. simpl.
  set (st1 := fat_set l f (fat_set f FAT_EOF st)).
  destruct (sync_fields f (kfs_sync_fat l st1)) as (-> & _).
  destruct (sync_fields l st1) as (-> & _). subst st1; simpl. rewrite !ld_st, !(Z.eqb_sym _ a).
  destruct (Z.eqb_spec a l), (Z.eqb_spec a f); try lia; done.
Qed.

Lemma link_sector_read s :
  s = 0 \/ root st <= s -> ata_read (link_sector l f buf st) s = if f =? s then buf else ata_read st s.
Proof.
  intros Hs. pose proof (inv_geo _ _ Hinv) as Hgeo. destruct (geo_bounds st Hgeo) as (_ & _ & ? & _).
  destruct link_range as [Hl _].
  unfold link_sector. rewrite ata_read_write. destruct (f =? s); [done|].
  set (st1 := fat_set l f (fat_set f FAT_EOF st)).
  assert (geometry st1) as Hgeo1.
  { apply (geometry_same st); [|done]. etrans; apply geo_fat_set. }
  pose proof (geometry_same _ _ (geo_sync l st1) Hgeo1) as Hgeo2.
  rewrite ata_read_sync; [|exact Hgeo2| |].
  - rewrite ata_read_sync; [done|exact Hgeo1|subst st1; simpl; lia|done].
  - rewrite (same_geo_total _ _ (geo_sync l st1)). subst st1; simpl; lia.
  - rewrite (same_geo_root _ _ (geo_sync l st1)). done.
Qed.

Lemma link_sector_inv :
  (d = true -> buf = replicate 512 FLAG_EMPTY) ->
  fs_inv (link_sector l f buf st) (<[h := (d, (c0 ++ [l]) ++ [f])]> G).
Proof.
  intros Hd. destruct link_range as [Hl Hne].
  pose proof link_sector_read as Hread. pose proof link_sector_fat as Hfat.
  destruct Hinv as [Hgeo Hsync Hwords Hhdr Hg].
  destruct (geo_bounds st Hgeo) as (_ & _ & ? & _).
  set (st1 := fat_set l f (fat_set f FAT_EOF st)).
  assert (geometry st1) as Hgeo1.
  { apply (geometry_same st); [|done]. etrans; apply geo_fat_set. }
  pose proof (geometry_same _ _ (geo_sync l st1) Hgeo1) as Hgeo2.
  assert (total_disk_sectors st1 = total_disk_sectors st) as Et by done.
  split.
  - exact (geometry_same _ _ link_sector_geo Hgeo).
  - apply fat_sync_write.
    + exact (geometry_same _ _ (geo_sync _ _) Hgeo2).
    + right. rewrite (same_geo_root _ _ (geo_sync _ _)), (same_geo_root _ _ (geo_sync _ _)).
      unfold root in *; simpl. lia.
    + apply (fat_sync_weaken _ (fun k => (((False \/ k = f / 128) \/ k = l / 128) /\ k <> l / 128) /\ k <> f / 128)).
      { intros k ?. tauto. }
      apply fat_sync_sync; [exact Hgeo2|rewrite (same_geo_total _ _ (geo_sync _ _)); simpl; lia|].
      apply fat_sync_sync; [exact Hgeo1|simpl; lia|].
      apply fat_sync_set. by apply fat_sync_set.
  - destruct (sync_fields f (kfs_sync_fat l st1)) as (E1 & _ & _ & _ & E2 & _).
    destruct (sync_fields l st1) as (E3 & _ & _ & _ & E4 & _).
    apply (fat_words_ext st1); [exact (eq_trans E2 E4)|exact (eq_trans E1 E3)|].
    apply fat_words_set; [pose proof (geo_total _ Hgeo); lia|]. by apply fat_words_set; [exact eof_word|].
  - unfold header_sync. rewrite Hread by lia.
    destruct (Z.eqb_spec f 0); [lia|]. destruct link_sector_geo as (_ & _ & _ & _ & ->). done.
  - apply (graph_extend st); try done.
    + exact link_sector_geo.
    + intros s Hs Hsf. rewrite Hread by lia. destruct (Z.eqb_spec f s); [lia|done].
    + rewrite Hread by lia. by rewrite Z.eqb_refl.
    + intros Ed i Hi. apply zero_slots; [|done]. rewrite Hread, Z.eqb_refl by lia. by apply Hd.
Qed.
End link.
End alloc.

End KfsOps.
