(* ===== verification/KfsData.v ===== *)
(** * KyuzenFS: entries, data chains and their release

    [insert_dir_entry], the data loop of [kfs_create_file] and the chain walk
    of [kfs_delete_file] on a well-formed file system, with what they keep: the
    other entries of every directory and the bytes of every other file. *)

From S2P Require Import Prelude KString Kfs KfsSpec KfsInv KfsOps.
From Stdlib Require Import String.
From stdpp Require Import base numbers list gmap.
From Stdlib Require Import ZArith Lia.

#[local] Open Scope list_scope.
#[local] Open Scope Z_scope.

Module KfsData.
Import KString Kfs KfsSpec KfsInv KfsOps.

(** ** The bytes of an entry *)

Lemma length_entry_name junk name : length (entry_name junk name) = 23%nat.
Proof. reflexivity. Qed.

Lemma str_map_zrange (g : Z -> Z) n j : 0 <= j < n -> str (map g (zrange 0 n)) j = g j.
Proof.
  intros Hj. unfold str. rewrite list_lookup_fmap, zrange_seqZ, lookup_seqZ_lt by lia.
  simpl. f_equal. lia.
Qed.

Lemma str_entry_name junk name j :
  0 <= j <= Z.of_nat (length name) -> j <= 22 -> (length name <= 22)%nat ->
  str (entry_name junk name) j = str name j.
Proof.
  intros Hj H22 Hl. unfold entry_name. rewrite str_map_zrange by lia.
  destruct (Z.eqb_spec j 22); [rewrite str_end by lia; done|].
  destruct (Z.leb_spec j (Z.of_nat (length name))); [done|lia].
Qed.

Section entry.
Context (buf : list Z) (i : Z) (e : kfs_file_entry_t).
Context (Hbuf : length buf = 512%nat) (Hi : 0 <= i < 16) (Hnm : length (filename e) = 23%nat).

Definition stored_entry : list Z := put_bytes (put_entry buf i e) (32 * i + 22) [0].

Lemma length_entry_bytes : length (entry_bytes e) = 32%nat.
Proof. unfold entry_bytes. rewrite !length_app, Hnm. done. Qed.

Lemma length_put_entry : length (put_entry buf i e) = 512%nat.
Proof. unfold put_entry. rewrite length_put_bytes; rewrite ?length_entry_bytes; lia. Qed.

Lemma length_stored_entry : length stored_entry = 512%nat.
Proof.
  unfold stored_entry. rewrite length_put_bytes; rewrite ?length_put_entry; simpl; lia.
Qed.

Lemma str_stored_entry j :
  0 <= j ->
  str stored_entry j = if j =? 32 * i + 22 then 0
                       else if (32 * i <=? j) && (j <? 32 * i + 32) then str (entry_bytes e) (j - 32 * i)
                       else str buf j.
Proof.
  intros Hj. unfold stored_entry. rewrite str_put_bytes by (rewrite ?length_put_entry; simpl; lia).
  change (Z.of_nat (length [0])) with 1.
  destruct (Z.eqb_spec j (32 * i + 22)) as [->|].
  - destruct (Z.leb_spec (32 * i + 22) (32 * i + 22)), (Z.ltb_spec (32 * i + 22) (32 * i + 22 + 1));
      simpl; try lia. by replace (32 * i + 22 - (32 * i + 22)) with 0 by lia.
  - unfold put_entry. rewrite str_put_bytes by (rewrite ?length_entry_bytes; lia).
    rewrite length_entry_bytes. change (Z.of_nat 32) with 32.
    destruct (Z.leb_spec (32 * i + 22) j), (Z.ltb_spec j (32 * i + 22 + 1)); simpl; try lia; done.
Qed.

Lemma str_entry_bytes j :
  0 <= j < 32 ->
  str (entry_bytes e) j =
  if j <? 23 then str (filename e) j else if j =? 23 then flags e
  else if j <? 28 then str (bytes32 (start_sector e)) (j - 24) else str (bytes32 (size_bytes e)) (j - 28).
Proof.
  intros Hj. unfold entry_bytes. destruct (Z.ltb_spec j 23); [by apply str_app_l; lia|].
  rewrite str_app_r, Hnm by lia. change (Z.of_nat 23) with 23.
  destruct (Z.eqb_spec j 23) as [->|]; [done|].
  rewrite str_app_r by (simpl; lia). change (Z.of_nat (length [flags e])) with 1.
  destruct (Z.ltb_spec j 28).
  - rewrite str_app_l by (simpl; lia). f_equal. lia.
  - rewrite str_app_r by (simpl; lia). f_equal. simpl. lia.
Qed.

Lemma stored_entry_fields :
  0 <= start_sector e < 2 ^ 32 -> 0 <= size_bytes e < 2 ^ 32 ->
  flags (get_entry stored_entry i) = flags e /\
  start_sector (get_entry stored_entry i) = start_sector e /\
  size_bytes (get_entry stored_entry i) = size_bytes e.
Proof.
  intros Hst Hsz.
  assert (forall j, 0 <= j < 32 -> j <> 22 -> str stored_entry (32 * i + j) = str (entry_bytes e) j) as H.
  { intros j Hj Hne. rewrite str_stored_entry by lia.
    destruct (Z.eqb_spec (32 * i + j) (32 * i + 22)); [lia|].
    destruct (Z.leb_spec (32 * i) (32 * i + j)), (Z.ltb_spec (32 * i + j) (32 * i + 32)); simpl; try lia.
    f_equal. lia. }
  unfold get_entry; simpl. splits.
  - rewrite H, str_entry_bytes by lia. done.
  - apply le32_of_bytes32; [done|]. intros j Hj. rewrite <- Z.add_assoc, H, str_entry_bytes by lia.
    destruct (Z.ltb_spec (24 + j) 23), (Z.eqb_spec (24 + j) 23), (Z.ltb_spec (24 + j) 28); try lia.
    f_equal. lia.
  - apply le32_of_bytes32; [done|]. intros j Hj. rewrite <- Z.add_assoc, H, str_entry_bytes by lia.
    destruct (Z.ltb_spec (28 + j) 23), (Z.eqb_spec (28 + j) 23), (Z.ltb_spec (28 + j) 28); try lia.
    f_equal. lia.
Qed.

Lemma stored_entry_other i' j :
  0 <= i' < 16 -> i' <> i -> 0 <= j < 32 -> str stored_entry (32 * i' + j) = str buf (32 * i' + j).
Proof.
  intros Hi' Hne Hj. rewrite str_stored_entry by lia.
  destruct (Z.eqb_spec (32 * i' + j) (32 * i + 22)); [lia|].
  destruct (Z.leb_spec (32 * i) (32 * i' + j)), (Z.ltb_spec (32 * i' + j) (32 * i + 32)); simpl; try lia; done.
Qed.

Lemma stored_entry_name j :
  0 <= j < 23 -> str stored_entry (32 * i + j) = if j =? 22 then 0 else str (filename e) j.
Proof.
  intros Hj. rewrite str_stored_entry by lia.
  destruct (Z.eqb_spec (32 * i + j) (32 * i + 22)), (Z.eqb_spec j 22); try lia.
  destruct (Z.leb_spec (32 * i) (32 * i + j)), (Z.ltb_spec (32 * i + j) (32 * i + 32)); simpl; try lia.
  rewrite str_entry_bytes by lia. destruct (Z.ltb_spec (32 * i + j - 32 * i) 23); [|lia]. f_equal. lia.
Qed.
End entry.

(** ** What an operation keeps *)

(** Directories stay directories; files other than [X] keep their chain and
    their bytes. *)
Record keeps (X : Z) (st st' : kfs) (G G' : ghost) : Prop := {
  k_root : root st' = root st;
  k_dir : forall h c, G !! h = Some (true, c) -> exists c', G' !! h = Some (true, c');
  k_file : forall y c, y <> X -> G !! y = Some (false, c) ->
    G' !! y = Some (false, c) /\ forall s, s ∈ c -> ata_read st' s = ata_read st s
}.

Definition unreferenced (st : kfs) (G : ghost) (x : Z) : Prop :=
  forall s i, dirslot G s i -> used st s i -> estart st s i <> x.

Definition same_entries (st st' : kfs) (G G' : ghost) : Prop :=
  forall h name x, no_nul name -> has_entry st' G' h name x <-> has_entry st G h name x.

Lemma keeps_trans X Y st1 st2 st3 G1 G2 G3 :
  Y = X \/ G1 !! Y = None ->
  keeps X st1 st2 G1 G2 -> keeps Y st2 st3 G2 G3 -> keeps X st1 st3 G1 G3.
Proof.
  intros HY [E1 D1 F1] [E2 D2 F2]. split.
  - congruence.
  - intros h c H. destruct (D1 _ _ H) as [c' H']. by eapply D2.
  - intros y c Hy H. destruct (F1 _ _ Hy H) as [H2 R1].
    destruct (F2 y c) as [H3 R2]; [destruct HY as [->|HY]; congruence|done|].
    split; [done|]. intros s Hs. by rewrite R2, R1.
Qed.

Lemma keeps_refl X st G : keeps X st st G G.
Proof. split; [done|eauto|done]. Qed.

Lemma same_entries_trans st1 st2 st3 G1 G2 G3 :
  same_entries st1 st2 G1 G2 -> same_entries st2 st3 G2 G3 -> same_entries st1 st3 G1 G3.
Proof. intros H1 H2 h nm x Hn. by rewrite (H2 h nm x Hn), (H1 h nm x Hn). Qed.

Lemma same_entries_refl st G : same_entries st st G G.
Proof. done. Qed.

(** Printing on the console. *)
Lemma kprint_read m st s : ata_read (kprint m st) s = ata_read st s.
Proof. unfold kprint. by destruct (tty_ready st). Qed.

Lemma kprint_inv m st G : fs_inv st G -> fs_inv (kprint m st) G.
Proof.
  intros [Hgeo Hs Hw Hh Hg]. unfold kprint. destruct (tty_ready st); [|done].
  split; [by eapply geometry_same; [|exact Hgeo]|done..|].
  by apply (graph_ext st).
Qed.

Lemma kprint_same_entries m st G : same_entries st (kprint m st) G G.
Proof. unfold kprint. by destruct (tty_ready st). Qed.

Lemma kprint_keeps X m st G : keeps X st (kprint m st) G G.
Proof.
  split; [apply same_geo_root, geo_kprint|eauto|]. intros y c _ H. split; [done|]. intros; apply kprint_read.
Qed.

(** A chain that gained the free sector [f], empty if it is a directory. *)
Lemma grow_frame st st' G f h d c0 :
  geometry st -> graph st G -> same_geo st st' -> fat_get st f = FAT_FREE ->
  (forall s, root st <= s -> s <> f -> ata_read st' s = ata_read st s) ->
  (d = true -> forall i, 0 <= i < 16 -> eflags st' f i = 0) ->
  (G !! h = Some (d, c0) \/ (G !! h = None /\ c0 = [])) ->
  let G' := <[h := (d, c0 ++ [f])]> G in
  (forall X, d = true \/ X = h \/ G !! h = None -> keeps X st st' G G') /\ same_entries st st' G G' /\
  (forall x, unreferenced st G x -> unreferenced st' G' x).
Proof.
  intros Hgeo Hg Hs Hfree Hread Hempty Hold G'.
  assert (forall k d' c' s, G !! k = Some (d', c') -> s ∈ c' ->
    s <> f /\ ata_read st' s = ata_read st s) as Hin.
  { intros k d' c' s Hk Hc. assert (s <> f) as Hne.
    { intros ->. by eapply (free_not_in st G f). }
    split; [done|]. apply Hread; [|done]. pose proof (g_range _ _ Hg _ _ _ _ Hk Hc). lia. }
  assert (forall s i, dirslot G' s i -> used st' s i ->
    exists k c, G !! k = Some (true, c) /\ s ∈ c /\ 0 <= i < 16 /\ (exists c', G' !! k = Some (true, c') /\ s ∈ c')) as Hslot.
  { intros s i (k & c & Hk & Hc & Hi) Hu. unfold G' in Hk.
    destruct (decide (k = h)) as [->|Hne]; simplify_map_eq.
    - apply elem_of_app in Hc as [Hc|Hc%list_elem_of_singleton].
      + destruct Hold as [Ho|[_ ->]]; [|set_solver]. exists h, c0.
        splits. exists (c0 ++ [f]). unfold G'. split; [by simplify_map_eq|set_solver].
      + subst s. exfalso. by apply Hu, Hempty.
    - exists k, c. splits. exists c. unfold G'. by simplify_map_eq. }
  splits.
  - intros X HX. split; [by apply same_geo_root| |].
    + intros k c Hk. unfold G'. destruct (decide (k = h)) as [->|]; simplify_map_eq; [|eauto].
      destruct Hold as [Ho|[Ho _]]; [|congruence]. rewrite Ho in Hk. injection Hk as -> ->. eauto.
    + intros y c Hy HG. split; [|intros s Hsc; by eapply Hin].
      unfold G'. destruct (decide (y = h)) as [->|]; simplify_map_eq; [|done].
      exfalso. destruct Hold as [Ho|[Ho _]]; [|congruence]. rewrite Ho in HG. injection HG as -> ->.
      destruct HX as [?|[?|?]]; congruence.
  - intros k nm x Hn. split.
    + intros (c & s & i & Hk & Hc & Hi & Hu & Hm & ->).
      destruct (Hslot s i) as (k' & c' & Hk' & Hc' & _ & (c'' & Hk'' & Hc'')); [by exists k, c|done|].
      assert (k' = k) as ->.
      { unfold G' in Hk, Hk''. destruct (Hin _ _ _ _ Hk' Hc') as [Hne _].
        destruct (decide (k = h)) as [->|], (decide (k' = h)) as [->|]; simplify_map_eq; try done.
        - apply elem_of_app in Hc as [Hc|Hc%list_elem_of_singleton]; [|done].
          destruct Hold as [Ho|[_ ->]]; [|set_solver]. by apply (g_disj _ _ Hg _ _ _ _ _ _ s Hk' Ho).
        - apply elem_of_app in Hc'' as [Hc''|Hc''%list_elem_of_singleton]; [|done].
          destruct Hold as [Ho|[_ ->]]; [|set_solver]. by apply (g_disj _ _ Hg _ _ _ _ _ _ s Ho Hk).
        - by apply (g_disj _ _ Hg _ _ _ _ _ _ s Hk' Hk). }
      destruct (Hin _ _ _ _ Hk' Hc') as [_ Er].
      exists c', s, i. unfold used, eflags, estart, esize, named in *. rewrite Er in *. done.
    + intros (c & s & i & Hk & Hc & Hi & Hu & Hm & ->).
      destruct (Hin _ _ _ _ Hk Hc) as [_ Er].
      assert (exists c', G' !! k = Some (true, c') /\ s ∈ c') as (c' & Hk' & Hc').
      { unfold G'. destruct (decide (k = h)) as [->|]; simplify_map_eq; [|eauto].
        destruct Hold as [Ho|[Ho _]]; [|congruence]. rewrite Ho in Hk. injection Hk as -> ->.
        eexists; split; [done|]. set_solver. }
      exists c', s, i. unfold used, eflags, estart, esize, named in *. rewrite Er in *. done.
  - intros x Hx s i D Hu. destruct (Hslot s i D Hu) as (k & c & Hk & Hc & Hi & _).
    destruct (Hin _ _ _ _ Hk Hc) as [_ Er]. unfold used, eflags, estart in *. rewrite Er in *.
    apply (Hx s i); [by exists k, c|done].
Qed.

(** ** Insertion *)

Section insert.
Context (junk : Z -> Z) (st : kfs) (G : ghost) (p h2 n : Z) (d : bool) (c c2 name : list Z).
Context (Hinv : fs_inv st G) (Hp : G !! p = Some (true, c)).
Context (Hh2 : G !! h2 = Some (d, c2)) (Hr2 : h2 <> root st) (Href : unreferenced st G h2).
Context (Hn : 0 <= n < 2 ^ 32) (Hsz : sized d n c2).
Context (Hnn : no_nul name) (Hnl : (length name <= 22)%nat).
Context (Hnew : forall x, ~ has_entry st G p name x).

Definition the_entry : kfs_file_entry_t := mk_entry (entry_name junk name) (flag_of d) h2 n.

(** Writing the entry in an empty slot of the directory. *)
Lemma insert_slot s i :
  s ∈ c -> 0 <= i < 16 -> eflags st s i = 0 ->
  let st' := write_entry s (ata_read st s) i the_entry st in
  fs_inv st' G /\ (forall X, keeps X st st' G G) /\
  forall h nm x, no_nul nm ->
    has_entry st' G h nm x <->
    has_entry st G h nm x \/ (h = p /\ nm = name /\ x = (flag_of d, h2, n)).
Proof.
  intros Hs Hi He st'. destruct Hinv as [Hgeo Hsync Hwords Hhdr Hg].
  destruct (geo_bounds st Hgeo) as (_ & _ & ? & _).
  pose proof (g_range _ _ Hg _ _ _ _ Hp Hs) as Hsr.
  pose proof (g_range _ _ Hg _ _ _ _ Hh2 (head_in _ _ _ _ _ Hg Hh2)) as H2r.
  pose proof (geo_total _ Hgeo) as Htot.
  pose proof (g_len _ _ Hg s (proj1 Hsr)) as Hlen.
  set (b := stored_entry (ata_read st s) i the_entry).
  assert (ata_read st' s = b) as Eb by apply ata_read_write_eq.
  assert (forall s', s' <> s -> ata_read st' s' = ata_read st s') as Hread
    by (intros; by apply ata_read_write_ne).
  assert (forall i', 0 <= i' < 16 -> i' <> i -> slot_same st st' s i') as Hother.
  { intros i' Hi' Hne j Hj. rewrite Eb. by apply stored_entry_other. }
  destruct (stored_entry_fields (ata_read st s) i the_entry Hlen Hi eq_refl)
    as (F1 & F2 & F3); [simpl; lia..|].
  fold b in F1, F2, F3. rewrite <- Eb in F1, F2, F3.
  fold (eflags st' s i) in F1. fold (estart st' s i) in F2. fold (esize st' s i) in F3.
  simpl in F1, F2, F3.
  assert (forall j, 0 <= j < 23 -> str (ata_read st' s) (32 * i + j)
    = if j =? 22 then 0 else str (entry_name junk name) j) as Hbytes.
  { intros j Hj. rewrite Eb. unfold b. by rewrite stored_entry_name. }
  assert (named st' s i name) as Hnm.
  { intros j Hj. rewrite Hbytes by lia. destruct (Z.eqb_spec j 22).
    - rewrite str_end by lia. done.
    - rewrite str_entry_name by lia. done. }
  assert (str (ata_read st' s) (32 * i + 22) = 0) as Ht by (by rewrite Hbytes by lia).
  assert (graph st' G) as Hg'.
  { apply (graph_entry st st' G p s i c Hg (geo_write _ _ _) Hp Hs Hi) with (d := d) (h2 := h2) (c2 := c2) (name := name);
      try done.
    - intros; by apply Hread.
    - rewrite Eb. by apply length_stored_entry.
    - by rewrite F3.
    - intros s' i' Hs' Hi' Hu Hm. eapply Hnew. by exists c, s', i'. }
  split; [|split].
  - split; [exact (geometry_same _ _ (geo_write _ _ _) Hgeo)| | | |exact Hg'].
    + apply fat_sync_write; [done|lia|done].
    + done.
    + unfold header_sync. rewrite Hread by lia. done.
  - intros X. split; [done|eauto|]. intros y cy _ Hy. split; [done|]. intros s' Hs'. apply Hread.
    intros ->. destruct (chain_unique _ _ _ _ _ _ _ _ s Hg Hy Hp Hs' Hs) as (_ & ? & _). done.
  - assert (dirslot G s i) as D0 by (by exists p, c).
    assert (forall s' i' nm, dirslot G s' i' -> (s', i') <> (s, i) -> no_nul nm ->
      (used st' s' i' /\ named st' s' i' nm <-> used st s' i' /\ named st s' i' nm) /\
      (eflags st' s' i', estart st' s' i', esize st' s' i') = (eflags st s' i', estart st s' i', esize st s' i')) as Hold.
    { intros s' i' nm D Hne Hnm'.
      assert (slot_same st st' s' i') as HS.
      { eapply (other_slot st st' G s i); try done;
          first [by intros; apply Hread | by rewrite Eb; apply length_stored_entry]. }
      destruct (slot_same_fields _ _ _ _ HS) as (E1 & E2 & E3 & _). unfold used. rewrite E1, E2, E3.
      split; [|done]. split; intros [U N]; (split; [done|]).
      - by apply (slot_same_used_named st st' G).
      - by apply (slot_same_used_named st st' G). }
    intros h nm x Hnm'. split.
    + intros (c' & s' & i' & Hh & Hs' & Hi' & Hu & Hm & ->).
      destruct (decide ((s', i') = (s, i))) as [[= -> ->]|Hne].
      * right. destruct (chain_unique _ _ _ _ _ _ _ _ s Hg Hh Hp Hs' Hs) as (-> & _ & _).
        split; [done|]. split; [by eapply named_inj|]. by rewrite F1, F2, F3.
      * left. assert (dirslot G s' i') as D by (by exists h, c').
        destruct (Hold s' i' nm D Hne Hnm') as [HU EX]. destruct (proj1 HU (conj Hu Hm)).
        rewrite EX. by exists c', s', i'.
    + intros [(c' & s' & i' & Hh & Hs' & Hi' & Hu & Hm & ->)|(-> & -> & ->)].
      * assert (dirslot G s' i') as D by (by exists h, c').
        assert ((s', i') <> (s, i)) as Hne by (intros [= -> ->]; by apply Hu).
        destruct (Hold s' i' nm D Hne Hnm') as [HU EX]. destruct (proj2 HU (conj Hu Hm)).
        rewrite <- EX. by exists c', s', i'.
      * exists c, s, i. unfold used. rewrite F1, F2, F3. splits. by destruct d.
Qed.
End insert.

Lemma insert_dir_entry_spec junk st G p h2 n d c c2 name :
  fs_inv st G -> G !! p = Some (true, c) ->
  G !! h2 = Some (d, c2) -> h2 <> root st -> unreferenced st G h2 ->
  0 <= n < 2 ^ 32 -> sized d n c2 ->
  no_nul name -> (length name <= 22)%nat -> (forall x, ~ has_entry st G p name x) ->
  (insert_dir_entry st p (the_entry junk h2 n d name) = Some (st, 0) /\
   forall i, root st < i < total_disk_sectors st -> fat_get st i <> FAT_FREE) \/
  exists st' G', insert_dir_entry st p (the_entry junk h2 n d name) = Some (st', 1) /\
    fs_inv st' G' /\ (forall X, keeps X st st' G G') /\
    forall h nm x, no_nul nm ->
      has_entry st' G' h nm x <->
      has_entry st G h nm x \/ (h = p /\ nm = name /\ x = (flag_of d, h2, n)).
Proof.
  intros Hinv Hp Hh2 Hr2 Href Hn Hsz Hnn Hnl Hnew. pose proof Hinv as [Hgeo _ _ _ Hg].
  unfold insert_dir_entry.
  destruct (slot_walk_spec st p c (walk_fuel st) p) as [(s & i & l & -> & Hs & Hi & He)|(c0 & l & -> & -> & _)];
    [by eapply g_chain|by eapply chain_data|by eapply chain_walk_fuel| |].
  { right. exists (write_entry s (ata_read st s) i (the_entry junk h2 n d name) st), G.
    split; [done|]. by apply (insert_slot junk st G p h2 n d c c2 name). }
  destruct (find_free_spec st Hgeo) as [[-> Hfull]|[Hf Hfree]]; [by left|].
  set (f := find_free_sector st) in *. right.
  destruct (geo_bounds st Hgeo) as (_ & _ & ? & _). destruct (Z.eqb_spec f 0); [lia|]. cbv zeta.
  set (st2 := link_sector l f (replicate 512 FLAG_EMPTY) st).
  set (G2 := <[p := (true, (c0 ++ [l]) ++ [f])]> G).
  assert (length (replicate 512 FLAG_EMPTY) = 512%nat) as Hz by apply length_replicate.
  destruct (link_range st G f (replicate 512 FLAG_EMPTY) Hinv Hf Hfree Hz p l true c0 Hp) as [Hl Hlf].
  rewrite (fat_set_comm f FAT_EOF l f) by done.
  assert (fs_inv st2 G2) as Hinv2 by (by apply link_sector_inv).
  assert (ata_read st2 f = replicate 512 FLAG_EMPTY) as Ef by apply ata_read_write_eq.
  assert (write_entry f (replicate 512 FLAG_EMPTY) 0 (the_entry junk h2 n d name)
      (kfs_sync_fat f (kfs_sync_fat l (fat_set l f (fat_set f FAT_EOF st))))
    = write_entry f (ata_read st2 f) 0 (the_entry junk h2 n d name) st2) as ->.
  { rewrite Ef. unfold write_entry, st2, link_sector. by rewrite ata_write_write. }
  destruct (grow_frame st st2 G f p true (c0 ++ [l]) Hgeo Hg ltac:(apply link_sector_geo) Hfree)
    as (K & E & U); [| |by left|].
  { intros s Hs Hne. unfold st2. rewrite (link_sector_read st G f _ Hinv Hf Hfree Hz p l true c0 Hp) by lia.
    destruct (Z.eqb_spec f s); [lia|done]. }
  { intros _ i Hi. by apply zero_slots. }
  fold G2 in K, E, U.
  assert (exists c2', G2 !! h2 = Some (d, c2') /\ (length c2 <= length c2')%nat) as (c2' & Hh2' & Hl2).
  { unfold G2. destruct (decide (h2 = p)) as [->|]; simplify_map_eq; [|eauto].
    eexists; split; [done|]. rewrite !length_app. lia. }
  destruct (insert_slot junk st2 G2 p h2 n d ((c0 ++ [l]) ++ [f]) c2' name) with (s := f) (i := 0)
    as (I3 & K3 & E3); try done.
  - unfold G2. by simplify_map_eq.
  - unfold st2. rewrite (same_geo_root st); [done|apply link_sector_geo].
  - by apply U.
  - by eapply sized_mono.
  - intros x Hx. apply E in Hx; [|done]. by eapply Hnew.
  - set_solver.
  - by apply zero_slots.
  - exists (write_entry f (ata_read st2 f) 0 (the_entry junk h2 n d name) st2), G2. splits.
    + intros X. eapply (keeps_trans X X); [by left|apply K; by left|apply K3].
    + intros h nm x Hnm. rewrite E3 by done. by rewrite (E h nm x Hnm).
Qed.

(** ** The data loop *)

(** The sectors written for [data]: 512 bytes each, the last padded with 0. *)
Fixpoint padded (n : nat) (data : list Z) : list Z :=
  match n with
  | O => []
  | S n => put_bytes zero_sector 0 (take 512 data) ++ padded n (drop 512 data)
  end.

Lemma length_zero_sector : length zero_sector = 512%nat.
Proof. apply length_replicate. Qed.

Lemma length_data_sector data : length (put_bytes zero_sector 0 (take 512 data)) = 512%nat.
Proof.
  rewrite length_put_bytes; [apply length_zero_sector|lia|].
  rewrite length_zero_sector, length_take. lia.
Qed.

Lemma padded_take n data :
  (length data <= 512 * n)%nat -> take (length data) (padded n data) = data.
Proof.
  revert data. induction n as [|n IH]; intros data Hl.
  { destruct data; [done|simpl in Hl; lia]. }
  cbn [padded]. unfold put_bytes. change (Z.to_nat 0) with 0%nat. rewrite take_0. cbn [app].
  rewrite <- app_assoc.
  assert (length (take 512 data) = Nat.min 512 (length data)) as Lt by apply length_take.
  destruct (Nat.le_gt_cases (length data) 512).
  - rewrite take_app_le by lia. rewrite (take_ge data 512) by lia. by rewrite take_ge.
  - rewrite Lt, Nat.min_l by lia.
    rewrite (drop_ge zero_sector) by (rewrite length_zero_sector; lia). cbn [app].
    rewrite take_app, Lt, Nat.min_l by lia.
    rewrite (take_ge (take 512 data)) by lia.
    replace (length data - 512)%nat with (length (drop 512 data)) by (rewrite length_drop; lia).
    rewrite IH by (rewrite length_drop; lia). apply take_drop.
Qed.

Lemma chain_bytes_app st c c' : chain_bytes st (c ++ c') = chain_bytes st c ++ chain_bytes st c'.
Proof. unfold chain_bytes. by rewrite map_app, concat_app. Qed.

Lemma chain_bytes_ext st st' c :
  (forall s, s ∈ c -> ata_read st' s = ata_read st s) -> chain_bytes st' c = chain_bytes st c.
Proof.
  intros H. unfold chain_bytes. f_equal. apply map_ext_in. intros s Hs%list_elem_of_In. by apply H.
Qed.

(** The chain built so far: none, or an unreferenced file that ends at [prev]. *)
Definition building (st : kfs) (G : ghost) (start prev : Z) (c : list Z) : Prop :=
  (start = 0 /\ c = []) \/
  (start <> 0 /\ start <> root st /\ unreferenced st G start /\ G !! start = Some (false, c) /\
   exists c1, c = c1 ++ [prev]).

Definition disk_full (st : kfs) : Prop :=
  forall i, root st < i < total_disk_sectors st -> fat_get st i <> FAT_FREE.

Lemma zero_not_head st G : geometry st -> graph st G -> G !! 0 = None.
Proof.
  intros Hgeo Hg. destruct (G !! 0) as [[d c]|] eqn:E; [|done]. exfalso.
  pose proof (g_range _ _ Hg _ _ _ _ E (head_in _ _ _ _ _ Hg E)).
  destruct (geo_bounds st Hgeo) as (_ & _ & ? & _). lia.
Qed.

Lemma unreferenced_new st G f :
  geometry st -> graph st G -> fat_get st f = FAT_FREE -> unreferenced st G f.
Proof.
  intros Hgeo Hg Hf s i D Hu E. destruct (g_ent _ _ Hg s i D Hu) as (d & c & H & _).
  rewrite E in H. eapply (free_not_in st G f); [done..|]. by eapply head_in.
Qed.

(** One iteration of the loop. *)
Lemma create_step st G start prev c f buf :
  fs_inv st G -> building st G start prev c ->
  root st < f < total_disk_sectors st -> fat_get st f = FAT_FREE -> length buf = 512%nat ->
  let st1 := if start =? 0 then take_sector f buf st else link_sector prev f buf st in
  let start1 := if start =? 0 then f else start in
  exists G1, fs_inv st1 G1 /\ keeps start st st1 G G1 /\ same_entries st st1 G G1 /\
    building st1 G1 start1 f (c ++ [f]) /\ (start1 = start \/ G !! start1 = None) /\
    chain_bytes st1 (c ++ [f]) = chain_bytes st c ++ buf.
Proof.
  intros Hinv HB Hf Hfree Hbuf. pose proof Hinv as [Hgeo _ _ _ Hg].
  destruct (geo_bounds st Hgeo) as (_ & _ & ? & _).
  destruct HB as [[-> ->]|(Hnz & Hnr & Hun & HG & c1 & ->)].
  - simpl. set (st1 := take_sector f buf st).
    assert (G !! f = None) as Hf0.
    { destruct (G !! f) as [[d c]|] eqn:E; [|done]. exfalso.
      eapply (free_not_in st G f); [done..|]. by eapply head_in. }
    assert (forall s, root st <= s -> ata_read st1 s = if f =? s then buf else ata_read st s) as Hread.
    { intros s Hs. apply (take_sector_read st G); auto. }
    destruct (grow_frame st st1 G f f false [] Hgeo Hg ltac:(apply take_sector_geo) Hfree) as (K & E & U).
    { intros s Hs Hne. rewrite Hread by done. destruct (Z.eqb_spec f s); [lia|done]. }
    { done. }
    { by right. }
    simpl in K, E, U. exists (<[f := (false, [f])]> G). splits.
    + apply take_sector_inv; auto; done.
    + apply K. auto.
    + right. split; [lia|]. assert (root st1 = root st) as -> by (apply same_geo_root, take_sector_geo).
      split; [lia|]. split; [by apply U, unreferenced_new|]. split; [by simplify_map_eq|]. by exists [].
    + by right.
    + unfold chain_bytes; simpl. rewrite Hread, Z.eqb_refl by lia. apply app_nil_r.
  - destruct (Z.eqb_spec start 0); [lia|]. simpl. set (st1 := link_sector prev f buf st).
    assert (forall s, root st <= s -> ata_read st1 s = if f =? s then buf else ata_read st s) as Hread.
    { intros s Hs. apply (link_sector_read st G f buf Hinv Hf Hfree Hbuf start prev false c1 HG); auto. }
    destruct (grow_frame st st1 G f start false (c1 ++ [prev]) Hgeo Hg ltac:(apply link_sector_geo) Hfree)
      as (K & E & U).
    { intros s Hs Hne. rewrite Hread by done. destruct (Z.eqb_spec f s); [lia|done]. }
    { done. }
    { by left. }
    simpl in K, E, U. exists (<[start := (false, (c1 ++ [prev]) ++ [f])]> G). splits.
    + apply link_sector_inv; auto; done.
    + apply K. auto.
    + right. split; [lia|]. assert (root st1 = root st) as -> by (apply same_geo_root, link_sector_geo).
      split; [lia|]. split; [by apply U|]. split; [by simplify_map_eq|]. by exists (c1 ++ [prev]).
    + rewrite chain_bytes_app. unfold chain_bytes at 2; simpl. rewrite Hread, Z.eqb_refl, app_nil_r by lia.
      f_equal. apply chain_bytes_ext. intros s Hs.
      pose proof (g_range _ _ Hg _ _ _ _ HG Hs). rewrite Hread by lia.
      destruct (Z.eqb_spec f s) as [->|]; [|done]. exfalso. by eapply (free_not_in st G s).
Qed.

Lemma create_loop_S n st start prev data :
  create_loop (S n) st start prev data =
  let f := find_free_sector st in
  if f =? 0 then (kprint (line "Error: Disk Penuh!") st, None)
  else let buf := put_bytes zero_sector 0 (take 512 data) in
       create_loop n (if start =? 0 then take_sector f buf st else link_sector prev f buf st)
         (if start =? 0 then f else start) f (drop 512 data).
Proof. cbn [create_loop]. destruct (_ =? 0); [done|]. by destruct (start =? 0). Qed.

Lemma create_loop_spec n st G start prev data c :
  fs_inv st G -> building st G start prev c -> (0 < n)%nat \/ start <> 0 ->
  exists st' G' r, create_loop n st start prev data = (st', r) /\
    fs_inv st' G' /\ keeps start st st' G G' /\ same_entries st st' G G' /\
    match r with
    | None => disk_full st'
    | Some start' => exists c', start' <> root st' /\ unreferenced st' G' start' /\
        G' !! start' = Some (false, c') /\ length c' = (length c + n)%nat /\
        chain_bytes st' c' = chain_bytes st c ++ padded n data
    end.
Proof.
  revert st G start prev data c. induction n as [|n IH]; intros st G start prev data c Hinv HB Hn.
  - destruct HB as [[-> _]|(Hnz & Hnr & Hun & HG & _)]; [lia|].
    exists st, G, (Some start). splits; [apply keeps_refl|].
    exists c. rewrite app_nil_r. splits.
  - pose proof Hinv as [Hgeo _ _ _ Hg]. rewrite create_loop_S. cbv zeta.
    destruct (find_free_spec st Hgeo) as [[-> Hfull]|[Hf Hfree]].
    { exists (kprint (line "Error: Disk Penuh!") st), G, None.
      split; [done|]. split; [by apply kprint_inv|]. split; [apply kprint_keeps|].
      split; [apply kprint_same_entries|]. unfold kprint. by destruct (tty_ready st). }
    set (f := find_free_sector st) in *.
    destruct (geo_bounds st Hgeo) as (_ & _ & ? & _). destruct (Z.eqb_spec f 0); [lia|].
    set (buf := put_bytes zero_sector 0 (take 512 data)).
    destruct (create_step st G start prev c f buf Hinv HB Hf Hfree (length_data_sector data))
      as (G1 & I1 & K1 & E1 & B1 & S1 & C1).
    set (st1 := if start =? 0 then take_sector f buf st else link_sector prev f buf st) in *.
    set (start1 := if start =? 0 then f else start) in *.
    destruct (IH st1 G1 start1 f (drop 512 data) (c ++ [f]) I1 B1) as (st' & G' & r & -> & I' & K' & E' & P').
    { right. unfold start1. destruct (Z.eqb_spec start 0); lia. }
    exists st', G', r. splits; [|by eapply same_entries_trans|].
    + by eapply keeps_trans.
    + destruct r as [start'|]; [|done]. destruct P' as (c' & Hr & Hu & Hc & Hl & Hb).
      exists c'. splits.
      * rewrite Hl, length_app. simpl. lia.
      * rewrite Hb, C1. cbn [padded]. by rewrite <- app_assoc.
Qed.

(** ** Releasing a chain *)

(** One step of the walk. *)
Lemma free_step st s P :
  geometry st -> root st <= s < total_disk_sectors st -> fat_sync st P -> fat_words st ->
  let st1 := kfs_sync_fat s (fat_set s FAT_FREE st) in
  same_geo st st1 /\ (forall a, fat_get st1 a = if s =? a then FAT_FREE else fat_get st a) /\
  (forall s', s' = 0 \/ root st <= s' -> ata_read st1 s' = ata_read st s') /\
  fat_sync st1 P /\ fat_words st1.
Proof.
  intros Hgeo Hs Hsync Hw st1. destruct (geo_bounds st Hgeo) as (_ & _ & ? & _).
  pose proof (geometry_same _ _ (geo_fat_set s FAT_FREE st) Hgeo) as Hg0.
  destruct (sync_fields s (fat_set s FAT_FREE st)) as (Ef & _ & _ & _ & En & _).
  splits.
  - etrans; [apply geo_fat_set|apply geo_sync].
  - intros a. unfold fat_get. unfold st1. rewrite Ef. apply ld_st.
  - intros s' Hs'. unfold st1. rewrite ata_read_sync; [done|exact Hg0|simpl; lia|exact Hs'].
  - apply set_and_sync; [done|lia|done].
  - apply (fat_words_ext (fat_set s FAT_FREE st)); [done..|].
    apply fat_words_set; [unfold FAT_FREE; lia|done].
Qed.

Lemma free_walk_spec c st h fuel P :
  geometry st -> chain (fat_table st) h c -> NoDup c ->
  (forall s, s ∈ c -> root st <= s < total_disk_sectors st) -> (length c < fuel)%nat ->
  fat_sync st P -> fat_words st ->
  exists st', free_walk fuel st h = Some st' /\ same_geo st st' /\
    (forall a, fat_get st' a = if bool_decide (a ∈ c) then FAT_FREE else fat_get st a) /\
    (forall s, s = 0 \/ root st <= s -> ata_read st' s = ata_read st s) /\
    fat_sync st' P /\ fat_words st'.
Proof.
  revert st h fuel. induction c as [|x c IH]; intros st h fuel Hgeo Hc Hnd Hr Hf Hsync Hw.
  { inversion Hc. }
  destruct fuel as [|fuel]; [simpl in Hf; lia|].
  assert (h = x) as -> by (by inversion Hc).
  assert (root st <= x < total_disk_sectors st) as Hx by (apply Hr; set_solver).
  cbn [free_walk]. rewrite (data_not_end x (data_sector_range st x Hgeo Hx)).
  destruct (free_step st x P Hgeo Hx Hsync Hw) as (G1 & F1 & R1 & Y1 & W1).
  set (st1 := kfs_sync_fat x (fat_set x FAT_FREE st)) in *.
  apply NoDup_cons in Hnd as [Hxc Hnd].
  inversion Hc as [? E|? ? Hc']; subst.
  - destruct fuel as [|fuel]; [simpl in Hf; lia|]. unfold fat_get at 1. rewrite E.
    exists st1. splits. intros a. rewrite F1.
    destruct (Z.eqb_spec x a) as [->|]; case_bool_decide; set_solver.
  - destruct (IH st1 (fat_get st x) fuel) as (st' & Ew & G2 & F2 & R2 & Y2 & W2).
    + exact (geometry_same _ _ G1 Hgeo).
    + eapply chain_ext; [exact Hc'|]. intros s Hs. fold (fat_get st1 s). rewrite F1.
      destruct (Z.eqb_spec x s) as [->|]; [done|done].
    + done.
    + intros s Hs. rewrite (same_geo_root _ _ G1), (same_geo_total _ _ G1). apply Hr. set_solver.
    + simpl in Hf. lia.
    + done.
    + done.
    + exists st'. split; [exact Ew|]. split; [by etrans|]. split; [|split; [|done]].
      * intros a. rewrite F2, F1. destruct (Z.eqb_spec x a) as [->|]; repeat case_bool_decide; set_solver.
      * intros s Hs. rewrite R2, R1; [done|done|]. by rewrite (same_geo_root _ _ G1).
Qed.

End KfsData.
