(* ===== verification/KfsThm.v ===== *)
(** * KyuzenFS: correctness of the public operations

    Creating a file and reading it back, deleting it, formatting and mounting
    again after a restart, each with what happens to every other path. *)

From S2P Require Import Prelude KString Kfs KfsSpec KfsInv KfsOps KfsData.
From Stdlib Require Import String.
From stdpp Require Import base numbers list gmap.
From Stdlib Require Import ZArith Lia.

#[local] Open Scope list_scope.
#[local] Open Scope Z_scope.

Module KfsThm.
Import KString Kfs KfsSpec KfsInv KfsOps KfsData.

(** ** Reading through a path *)

(** What the read-only operations return, from the entry that is found. *)
Definition read_view (st : kfs) (v : option (Z * Z * Z)) (cap : Z) : option (Z * list Z) :=
  match v with
  | None => Some (0, [])
  | Some (_, s, z) =>
      if cap <? z then Some (0, [])
      else match read_walk (walk_fuel st) st s z with None => None | Some b => Some (1, b) end
  end.

Lemma read_by_view st path r cap :
  lookup_path st path = Some r -> kfs_read_to_buffer st path cap = read_view st (view <$> r) cap.
Proof. unfold kfs_read_to_buffer. intros ->. by destruct r as [[[e s] i]|]. Qed.

Lemma exists_by_view st path r :
  lookup_path st path = Some r -> kfs_exists st path = Some (match view <$> r with Some _ => 1 | None => 0 end).
Proof. unfold kfs_exists. intros ->. by destruct r as [[[e s] i]|]. Qed.

Lemma size_by_view st path r :
  lookup_path st path = Some r ->
  kfs_get_file_size st path = Some (match view <$> r with Some x => x.2 | None => 0 end).
Proof. unfold kfs_get_file_size. intros ->. by destruct r as [[[e s] i]|]. Qed.

(** The observations of a path. *)
Definition same_path (st st' : kfs) (q : list Z) : Prop :=
  kfs_exists st' q = kfs_exists st q /\ kfs_get_file_size st' q = kfs_get_file_size st q /\
  forall cap, kfs_read_to_buffer st' q cap = kfs_read_to_buffer st q cap.

(** Every look-up terminates; an entry that is found is an entry of its parent. *)
Lemma lookup_ok st G q :
  geometry st -> graph st G -> no_nul q ->
  exists r, lookup_path st q = Some r /\
    match r with
    | Some (e, s, i) => exists p name c, split_last_nolock st q = Some (Some (p, name)) /\ no_nul name /\
        G !! p = Some (true, c) /\ s ∈ c /\ 0 <= i < 16 /\ e = get_entry (ata_read st s) i /\
        used st s i /\ named st s i name
    | None => forall p name, split_last_nolock st q = Some (Some (p, name)) ->
        forall x, ~ has_entry st G p name x
    end.
Proof.
  intros Hgeo Hg Hq. unfold lookup_path.
  destruct (split_ok st G q Hgeo Hg Hq) as (r & Es & Hr). rewrite Es. destruct r as [[p name]|].
  - destruct (Hr p name eq_refl) as (Hn & c & Hc).
    destruct (find_entry_spec st G p c name Hgeo Hg Hc Hn) as (r & -> & Hf). exists r. split; [done|].
    destruct r as [[[e s] i]|].
    + exists p, name, c. by split.
    + intros p' name' [= <- <-] x (c' & s & i & Hc' & Hs & Hi & Hu & Hm & _).
      rewrite Hc in Hc'. injection Hc' as <-. by eapply Hf.
  - by exists None.
Qed.

Section frame.
Context (st st' : kfs) (G G' : ghost) (X : Z).
Context (Hgeo : geometry st) (Hg : graph st G) (Hgeo' : geometry st') (Hg' : graph st' G').
Context (HK : keeps X st st' G G').

(** A file other than [X] reads the same. *)
Lemma read_view_frame h name x cap :
  no_nul name -> has_entry st G h name x -> x.1.2 <> X ->
  read_view st' (Some x) cap = read_view st (Some x) cap.
Proof.
  intros Hn HE Hne. destruct x as [[fl s] z]. cbn [fst snd read_view] in *.
  destruct (cap <? z); [done|].
  destruct (decide (fl = FLAG_FOLDER)) as [->|Hf].
  - destruct (folder_entry _ _ _ _ _ _ Hg HE) as [-> _].
    cbn [walk_fuel read_walk]. rewrite !orb_true_r. done.
  - destruct (file_entry _ _ _ _ _ Hg HE Hf) as (_ & c & Hc & Hz). simpl in Hc, Hz.
    destruct (k_file _ _ _ _ _ HK s c Hne Hc) as [Hc' Hr].
    rewrite (read_walk_spec st s c); [|by eapply g_chain|by eapply chain_data|by eapply chain_walk_fuel| |lia].
    2:{ intros y Hy. apply Hg. pose proof (g_range _ _ Hg _ _ _ _ Hc Hy). lia. }
    rewrite (read_walk_spec st' s c); [|by eapply g_chain|by eapply chain_data|by eapply chain_walk_fuel| |lia].
    2:{ intros y Hy. apply Hg'. pose proof (g_range _ _ Hg' _ _ _ _ Hc' Hy). lia. }
    by rewrite (chain_bytes_ext st st').
Qed.

(** A path whose entry and whose folders stay is observed the same. *)
Lemma same_path_frame q :
  no_nul q ->
  (forall h c name x, G !! h = Some (true, c) -> no_nul name -> x.1.1 = FLAG_FOLDER ->
     has_entry st' G' h name x <-> has_entry st G h name x) ->
  (forall h name x, split_last_nolock st q = Some (Some (h, name)) -> no_nul name ->
     (has_entry st' G' h name x <-> has_entry st G h name x) /\
     (has_entry st G h name x -> x.1.2 <> X)) ->
  same_path st st' q.
Proof.
  intros Hq HF HE.
  assert (root st' = root st) as Hroot by apply (k_root _ _ _ _ _ HK).
  pose proof (split_frame st st' G G' Hgeo Hg Hgeo' Hg' Hroot (k_dir _ _ _ _ _ HK) q HF Hq) as Es.
  destruct (split_ok st G q Hgeo Hg Hq) as (r & Er & Hr).
  assert (exists r r', lookup_path st q = Some r /\ lookup_path st' q = Some r' /\
    view <$> r' = view <$> r /\
    forall cap, read_view st' (view <$> r) cap = read_view st (view <$> r) cap) as (v & v' & L & L' & V & RV).
  { unfold lookup_path. rewrite Es, Er. destruct r as [[h name]|]; [|by exists None, None].
    destruct (Hr h name eq_refl) as (Hn & c & Hc). destruct (k_dir _ _ _ _ _ HK _ _ Hc) as [c' Hc'].
    destruct (find_frame st st' G G' h c c' name) as (v & v' & F & F' & V); [done..| |].
    { intros x. by apply HE. }
    exists v, v'. splits. intros cap.
    destruct (view <$> v) as [x|] eqn:Ev; [|done].
    destruct (find_view st G h c name) as (w & F2 & Hw); [done..|].
    assert (w = v) as -> by congruence. apply Hw in Ev.
    apply (read_view_frame h name); [done|done|]. by apply (HE h name x Er Hn). }
  unfold same_path.
  rewrite (exists_by_view _ _ _ L), (exists_by_view _ _ _ L'), (size_by_view _ _ _ L), (size_by_view _ _ _ L'), V.
  splits. intros cap. by rewrite (read_by_view _ _ _ _ L), (read_by_view _ _ _ _ L'), V.
Qed.
End frame.

(** ** Writing the header *)

Definition count_and_write (n : Z) (st : kfs) : kfs := write_header (set_total_files n st).

Lemma length_header_bytes h :
  magic h = KZFS -> length (padding h) = 500%nat -> length (header_bytes h) = 512%nat.
Proof. intros E1 E2. unfold header_bytes. rewrite !length_app, E1, E2. done. Qed.

Lemma count_read n st s : s <> 0 -> ata_read (count_and_write n st) s = ata_read st s.
Proof. intros. unfold count_and_write, write_header. rewrite ata_read_write_ne by done. done. Qed.

Lemma count_inv n st G : fs_inv st G -> fs_inv (count_and_write n st) G.
Proof.
  intros [Hgeo Hs Hw Hh Hg]. destruct (geo_bounds st Hgeo) as (? & _ & ? & _).
  pose proof (wrap_bound 32 n ltac:(lia)) as Hb.
  assert (geometry (set_total_files n st)) as Hgeo1.
  { destruct Hgeo. split; unfold root in *; simpl; done. }
  split.
  - destruct Hgeo1. by split.
  - apply fat_sync_write; [done|by left|]. exact Hs.
  - exact Hw.
  - unfold header_sync, count_and_write, write_header. by rewrite ata_read_write_eq.
  - apply (graph_ext st); [done..|]. intros s Hs'. apply count_read. lia.
Qed.

Lemma count_keeps X n st G : fs_inv st G -> keeps X st (count_and_write n st) G G.
Proof.
  intros [Hgeo _ _ _ Hg]. destruct (geo_bounds st Hgeo) as (? & _ & ? & _).
  split; [done|eauto|]. intros y c _ Hy. split; [done|]. intros s Hs. apply count_read.
  pose proof (g_range _ _ Hg _ _ _ _ Hy Hs). lia.
Qed.

Lemma count_same_entries n st G : fs_inv st G -> same_entries st (count_and_write n st) G G.
Proof.
  intros [Hgeo _ _ _ Hg] h name x _. destruct (geo_bounds st Hgeo) as (? & _ & ? & _).
  assert (forall c s, G !! h = Some (true, c) -> s ∈ c -> ata_read (count_and_write n st) s = ata_read st s) as Hr.
  { intros c s Hh Hs. apply count_read. pose proof (g_range _ _ Hg _ _ _ _ Hh Hs). lia. }
  split; intros (c & s & i & Hh & Hs & H'); exists c, s, i;
    unfold used, eflags, estart, esize, named in *; rewrite (Hr c s Hh Hs) in *; done.
Qed.

Lemma entry_start st G h name x :
  graph st G -> has_entry st G h name x -> is_Some (G !! x.1.2).
Proof.
  intros Hg (c & s & i & Hh & Hs & Hi & Hu & Hm & ->). simpl.
  destruct (g_ent _ _ Hg s i) as (d & c' & H & _); [by exists h, c|done|]. by rewrite H.
Qed.

(** The frame for operations that touch no existing file. *)
Lemma same_path_all st st' G G' q :
  fs_inv st G -> fs_inv st' G' -> keeps 0 st st' G G' -> no_nul q ->
  (forall h c name x, G !! h = Some (true, c) -> no_nul name -> x.1.1 = FLAG_FOLDER ->
     has_entry st' G' h name x <-> has_entry st G h name x) ->
  (forall h name x, split_last_nolock st q = Some (Some (h, name)) -> no_nul name ->
     has_entry st' G' h name x <-> has_entry st G h name x) ->
  same_path st st' q.
Proof.
  intros [Hgeo _ _ _ Hg] [Hgeo' _ _ _ Hg'] HK Hq HF HE.
  apply (same_path_frame st st' G G' 0); [done..|]. intros h name x Es Hn. split; [by apply HE|].
  intros Hx E. destruct (entry_start _ _ _ _ _ Hg Hx) as [y Hy].
  rewrite E, (zero_not_head st G Hgeo Hg) in Hy. done.
Qed.

Lemma same_entries_paths st st' G G' :
  fs_inv st G -> fs_inv st' G' -> keeps 0 st st' G G' -> same_entries st st' G G' ->
  forall q, no_nul q -> same_path st st' q.
Proof. intros H H' HK HE q Hq. apply (same_path_all st st' G G'); auto. Qed.

(** ** Creating a file *)

Definition last_name (path : list Z) : list Z := drop (Z.to_nat (name_offset path)) path.

Lemma split_name st q h name : split_last_nolock st q = Some (Some (h, name)) -> name = last_name q.
Proof.
  unfold split_last_nolock, last_name. destruct (drop _ q); [done|]. cbv zeta.
  destruct (resolve_dir_nolock _ _) as [[?|]|]; [|done..]. by intros [= _ <-].
Qed.

Lemma sectors_for_enough n :
  0 <= n < 2 ^ 32 - 511 -> 0 < sectors_for n /\ n <= 512 * sectors_for n.
Proof.
  intros Hn. unfold sectors_for. destruct (Z.eqb_spec n 0); [lia|].
  rewrite wrap_small by lia. divlia.
Qed.

(** A path that leads to the entry of a file observes its bytes. *)
Lemma read_new st G path p name start n data c :
  fs_inv st G -> no_nul name -> split_last_nolock st path = Some (Some (p, name)) ->
  (exists c, G !! p = Some (true, c)) ->
  has_entry st G p name (FLAG_FILE, start, Z.of_nat (length data)) ->
  G !! start = Some (false, c) -> chain_bytes st c = padded n data ->
  length c = n -> (length data <= 512 * n)%nat ->
  kfs_exists st path = Some 1 /\ kfs_get_file_size st path = Some (Z.of_nat (length data)) /\
  forall cap, Z.of_nat (length data) <= cap -> kfs_read_to_buffer st path cap = Some (1, data).
Proof.
  intros [Hgeo _ _ _ Hg] Hn Es [cp Hp] HE Hc Hb Hl Hd.
  destruct (find_view st G p cp name Hgeo Hg Hp Hn) as (r & Ef & Hv).
  assert (lookup_path st path = Some r) as L by (unfold lookup_path; by rewrite Es).
  apply Hv in HE.
  rewrite (exists_by_view _ _ _ L), (size_by_view _ _ _ L), HE. splits.
  intros cap Hcap. rewrite (read_by_view _ _ _ _ L), HE. cbn [read_view].
  destruct (Z.ltb_spec cap (Z.of_nat (length data))); [lia|].
  rewrite (read_walk_spec st start c); [|by eapply g_chain|by eapply chain_data|by eapply chain_walk_fuel| |lia].
  - rewrite Hb, Nat2Z.id, padded_take by done. done.
  - intros y Hy. apply Hg. pose proof (g_range _ _ Hg _ _ _ _ Hc Hy). lia.
Qed.

(** The tail of both creations: the entry is inserted and counted. *)
Lemma commit_entry junk st G p cp name start n d c :
  fs_inv st G -> G !! p = Some (true, cp) -> G !! start = Some (d, c) ->
  start <> root st -> unreferenced st G start -> 0 <= n < 2 ^ 32 -> sized d n c ->
  no_nul name -> (length name <= 22)%nat -> (forall x, ~ has_entry st G p name x) ->
  (insert_dir_entry st p (mk_entry (entry_name junk name) (flag_of d) start n) = Some (st, 0) /\
   disk_full st) \/
  exists st2 G2,
    insert_dir_entry st p (mk_entry (entry_name junk name) (flag_of d) start n) = Some (st2, 1) /\
    let st3 := count_and_write (total_files (current_fs st2) + 1) st2 in
    fs_inv st3 G2 /\ (forall X, keeps X st st3 G G2) /\
    forall h nm x, no_nul nm -> has_entry st3 G2 h nm x <->
      has_entry st G h nm x \/ (h = p /\ nm = name /\ x = (flag_of d, start, n)).
Proof.
  intros Hinv Hp Hc Hr Hu Hn Hsz Hnn Hnl Hnew.
  change (mk_entry (entry_name junk name) (flag_of d) start n) with (the_entry junk start n d name).
  destruct (insert_dir_entry_spec junk st G p start n d cp c name)
    as [[-> Hfull]|(st2 & G2 & -> & I2 & K2 & E2)]; [done..|by left|].
  right. exists st2, G2. split; [done|]. cbv zeta.
  set (n3 := total_files (current_fs st2) + 1). split; [by apply count_inv|]. split.
  - intros X. eapply (keeps_trans X X); [by left|apply K2|by apply count_keeps].
  - intros h nm x Hnm. rewrite (count_same_entries n3 st2 G2 I2 h nm x Hnm). by apply E2.
Qed.

(** What the paths observe when a file entry was added. *)
Lemma file_added st st3 G G2 path p cp name start n data c :
  fs_inv st G -> fs_inv st3 G2 -> keeps 0 st st3 G G2 -> no_nul path -> no_nul name ->
  split_last_nolock st path = Some (Some (p, name)) -> G !! p = Some (true, cp) ->
  (forall h nm x, no_nul nm -> has_entry st3 G2 h nm x <->
    has_entry st G h nm x \/ (h = p /\ nm = name /\ x = (FLAG_FILE, start, Z.of_nat (length data)))) ->
  G2 !! start = Some (false, c) -> chain_bytes st3 c = padded n data -> length c = n ->
  (length data <= 512 * n)%nat ->
  kfs_exists st3 path = Some 1 /\
  kfs_get_file_size st3 path = Some (Z.of_nat (length data)) /\
  (forall cap, Z.of_nat (length data) <= cap -> kfs_read_to_buffer st3 path cap = Some (1, data)) /\
  (forall q, no_nul q -> split_last_nolock st q <> split_last_nolock st path -> same_path st st3 q).
Proof.
  intros Hinv I3 HK Hpath Hn Es Hp HE Hc Hb Hl Hd. pose proof Hinv as [Hgeo _ _ _ Hg].
  assert (forall h c nm x, G !! h = Some (true, c) -> no_nul nm -> x.1.1 = FLAG_FOLDER ->
    has_entry st3 G2 h nm x <-> has_entry st G h nm x) as HF.
  { intros h c' nm x _ Hnm Hx. rewrite (HE h nm x Hnm). split; [|auto].
    intros [?|(_ & _ & ->)]; [done|discriminate]. }
  assert (split_last_nolock st3 path = Some (Some (p, name))) as Es3.
  { rewrite <- Es. apply (split_frame st st3 G G2); try done; try apply I3; apply HK. }
  destruct (k_dir _ _ _ _ _ HK _ _ Hp) as [cp3 Hp3].
  destruct (read_new st3 G2 path p name start n data c) as (X1 & X2 & X3); try done; [eauto|..].
  - apply HE; [done|]. by right.
  - splits. intros q Hq Hne. apply (same_path_all st st3 G G2); try done.
    intros h nm x Esq Hnm. rewrite (HE h nm x Hnm). split; [|auto].
    intros [?|(-> & -> & _)]; [done|]. by rewrite Esq in Hne.
Qed.

(** The full behaviour of [kfs_create_file]. *)
Lemma create_file_spec junk st G path data :
  fs_inv st G -> no_nul path -> (length (last_name path) <= 22)%nat ->
  Z.of_nat (length data) < 2 ^ 32 - 511 ->
  exists st' r, kfs_create_file junk st path data = Some (st', r) /\ (exists G', fs_inv st' G') /\
  ((r = 1 /\ kfs_exists st path = Some 0 /\ kfs_exists st' path = Some 1 /\
    kfs_get_file_size st' path = Some (Z.of_nat (length data)) /\
    (forall cap, Z.of_nat (length data) <= cap -> kfs_read_to_buffer st' path cap = Some (1, data)) /\
    (forall q, no_nul q -> split_last_nolock st q <> split_last_nolock st path -> same_path st st' q))
   \/
   (r = 0 /\ (forall q, no_nul q -> same_path st st' q) /\
    (split_last_nolock st path = Some None \/ kfs_exists st path = Some 1 \/ disk_full st'))).
Proof.
  intros Hinv Hpath Hlen Hdata. pose proof Hinv as [Hgeo _ _ _ Hg].
  destruct (geo_bounds st Hgeo) as (_ & _ & Hroot & _). unfold kfs_create_file. fold (root st).
  destruct (Z.ltb_spec (root st) 2); [lia|]. cbv zeta.
  destruct (split_ok st G path Hgeo Hg Hpath) as (r & Es & Hr). rewrite Es.
  destruct r as [[p name]|].
  2:{ exists st, 0. split; [done|]. split; [eauto|]. right. splits; auto. }
  destruct (Hr p name eq_refl) as (Hn & cp & Hp). pose proof (split_name _ _ _ _ Es) as En.
  destruct (find_view st G p cp name Hgeo Hg Hp Hn) as (r & Ef & Hv). rewrite Ef.
  assert (lookup_path st path = Some r) as L by (unfold lookup_path; by rewrite Es).
  pose proof (exists_by_view _ _ _ L) as Lx.
  destruct r as [v|].
  { exists (kprint (line "Error: File sudah ada!") st), 0. split; [done|].
    pose proof (kprint_inv (line "Error: File sudah ada!") st G Hinv) as Hk.
    split; [eauto|]. right. split; [done|]. split; [|auto].
    apply (same_entries_paths _ _ G G); [done|done|apply kprint_keeps|apply kprint_same_entries]. }
  destruct (sectors_for_enough (Z.of_nat (length data))) as [Hs1 Hs2]; [lia|].
  destruct (create_loop_spec (Z.to_nat (sectors_for (Z.of_nat (length data)))) st G 0 0 data [])
    as (st1 & G1 & rs & -> & I1 & K1 & E1 & P1); [done|by left|lia|].
  destruct rs as [start|].
  2:{ exists st1, 0. split; [done|]. split; [eauto|]. right. split; [done|]. split; [|auto].
      by apply (same_entries_paths _ _ G G1). }
  destruct P1 as (c1 & Hr1 & Hu1 & Hc1 & Hl1 & Hb1).
  destruct (k_dir _ _ _ _ _ K1 _ _ Hp) as [cp1 Hp1].
  assert (forall x, ~ has_entry st1 G1 p name x) as Hnew.
  { intros x Hx. apply E1 in Hx; [|done]. apply Hv in Hx. done. }
  change FLAG_FILE with (flag_of false).
  destruct (commit_entry junk st1 G1 p cp1 name start (Z.of_nat (length data)) false c1)
    as [[-> Hfull]|(st2 & G2 & -> & I3 & K3 & HE)];
    [done|done|done|done|done|lia|simpl in *; lia|done|by rewrite En|done| |].
  { exists st1, 0. split; [done|]. split; [eauto|]. right. split; [done|]. split; [|auto].
    by apply (same_entries_paths _ _ G G1). }
  cbn [Z.eqb]. cbv zeta in I3, K3, HE. unfold count_and_write in I3, K3, HE.
  set (st3 := write_header (set_total_files (total_files (current_fs st2) + 1) st2)) in *.
  exists st3, 1. split; [done|]. split; [eauto|]. left. split; [done|]. split; [done|].
  assert (start <> 0) as Hst0.
  { intros ->. rewrite (zero_not_head st1 G1 (inv_geo _ _ I1) (inv_graph _ _ I1)) in Hc1. done. }
  destruct (k_file _ _ _ _ _ (K3 0) start c1 Hst0 Hc1) as [Hc3 R3].
  rewrite <- Es. apply (file_added st st3 G G2 path p cp name start
    (Z.to_nat (sectors_for (Z.of_nat (length data)))) data c1); try done; try lia.
  - eapply (keeps_trans 0 0); [by left|exact K1|apply K3].
  - intros h nm x Hnm. rewrite (HE h nm x Hnm), (E1 h nm x Hnm). done.
  - rewrite (chain_bytes_ext st1 st3) by done. exact Hb1.
Qed.


(** ** Deleting a file *)

(** What the paths observe when a file and its entry were removed. *)
Lemma file_removed st st' G path p name start n c :
  fs_inv st G -> fs_inv st' (delete start G) -> root st' = root st ->
  (forall y d cy s, G !! y = Some (d, cy) -> d = false -> s ∈ cy -> ata_read st' s = ata_read st s) ->
  no_nul path -> split_last_nolock st path = Some (Some (p, name)) -> no_nul name ->
  G !! start = Some (false, c) -> has_entry st G p name (FLAG_FILE, start, n) ->
  (forall h nm x, no_nul nm -> has_entry st' (delete start G) h nm x <->
     has_entry st G h nm x /\ (h, nm) <> (p, name)) ->
  (forall h nm x, no_nul nm -> has_entry st G h nm x -> x.1.2 = start -> h = p /\ nm = name) ->
  kfs_exists st' path = Some 0 /\
  (forall q, no_nul q -> split_last_nolock st' q = split_last_nolock st q) /\
  forall q, no_nul q -> split_last_nolock st q <> split_last_nolock st path -> same_path st st' q.
Proof.
  intros Hinv I' Hroot Hread Hpath Es Hn Hs Hent HE Hinj.
  pose proof Hinv as [Hgeo _ _ _ Hg]. pose proof I' as [Hgeo' _ _ _ Hg'].
  assert (keeps start st st' G (delete start G)) as HK.
  { split; [done| |].
    - intros h ch Hh. exists ch. apply lookup_delete_Some. split; [congruence|done].
    - intros y cy Hy HG. split; [apply lookup_delete_Some; by split|]. intros s' Hs'. by eapply Hread. }
  assert (forall h ch nm x, G !! h = Some (true, ch) -> no_nul nm -> x.1.1 = FLAG_FOLDER ->
    has_entry st' (delete start G) h nm x <-> has_entry st G h nm x) as HF.
  { intros h ch nm x _ Hnm Hx. rewrite (HE h nm x Hnm). split; [tauto|]. intros H. split; [done|].
    intros [= -> ->]. pose proof (has_entry_fun _ _ _ _ _ _ Hg Hn H Hent) as ->. discriminate. }
  assert (forall q, no_nul q -> split_last_nolock st' q = split_last_nolock st q) as Hsplit.
  { intros q Hq. apply (split_frame st st' G (delete start G)); try done. apply HK. }
  split; [|split; [exact Hsplit|]].
  - assert (split_last_nolock st' path = Some (Some (p, name))) as Es' by (by rewrite Hsplit).
    destruct (lookup_ok st' (delete start G) path Hgeo' Hg' Hpath) as (r & L & Hr).
    unfold kfs_exists. rewrite L. destruct r as [[[e s] i]|]; [exfalso|done].
    destruct Hr as (p' & nm' & c' & Es2 & Hn' & Hp' & Hs' & Hi' & _ & Hu' & Hm').
    rewrite Es' in Es2. injection Es2 as <- <-.
    assert (has_entry st' (delete start G) p name (eflags st' s i, estart st' s i, esize st' s i)) as Hx
      by (by exists c', s, i).
    apply HE in Hx as [_ Hne]; [|done]. by apply Hne.
  - intros q Hq Hne. apply (same_path_frame st st' G (delete start G) start); try done.
    intros h nm x Esq Hnm. rewrite (HE h nm x Hnm). split.
    + split; [tauto|]. intros H. split; [done|]. intros [= -> ->]. by rewrite Esq, Es in Hne.
    + intros Hx Ex. destruct (Hinj _ _ _ Hnm Hx Ex) as [-> ->]. by rewrite Esq, Es in Hne.
Qed.

(** Emptying a slot and freeing its chain, on the level of entries. *)
Lemma removed_entries st st' G p cp s i name start :
  graph st G -> graph st' (delete start G) -> G !! p = Some (true, cp) -> s ∈ cp -> 0 <= i < 16 ->
  used st s i -> named st s i name -> no_nul name -> eflags st' s i = 0 ->
  (exists c, G !! start = Some (false, c)) -> 
  (forall s' i', dirslot G s' i' -> (s', i') <> (s, i) -> slot_same st st' s' i') ->
  forall h nm x, no_nul nm ->
    has_entry st' (delete start G) h nm x <-> has_entry st G h nm x /\ (h, nm) <> (p, name).
Proof.
  intros Hg Hg' Hp Hs Hi Hu Hm Hn He [cs Hst] Hsame h nm x Hnm. split.
  - intros (c & s1 & i1 & Hh & Hs1 & Hi1 & Hu1 & Hm1 & ->).
    apply lookup_delete_Some in Hh as [Hne Hh].
    assert ((s1, i1) <> (s, i)) as Hneq by (intros [= -> ->]; by apply Hu1).
    assert (dirslot G s1 i1) as D by (by exists h, c). specialize (Hsame s1 i1 D Hneq).
    destruct (slot_same_fields _ _ _ _ Hsame) as (E1 & E2 & E3 & _).
    assert (used st s1 i1) as U1 by (unfold used in *; congruence).
    assert (named st s1 i1 nm) as M1 by (by apply (slot_same_used_named st st' G)).
    rewrite E1, E2, E3. split; [by exists c, s1, i1|].
    intros [= -> ->]. rewrite Hp in Hh. injection Hh as <-.
    destruct (g_uniq _ _ Hg p cp name s1 i1 s i) as [-> ->]; done.
  - intros [(c & s1 & i1 & Hh & Hs1 & Hi1 & Hu1 & Hm1 & ->) Hne].
    assert ((s1, i1) <> (s, i)) as Hneq.
    { intros [= -> ->]. apply Hne. destruct (chain_unique _ _ _ _ _ _ _ _ s Hg Hh Hp Hs1 Hs) as (-> & _).
      f_equal. by eapply named_inj. }
    assert (dirslot G s1 i1) as D by (by exists h, c). specialize (Hsame s1 i1 D Hneq).
    destruct (slot_same_fields _ _ _ _ Hsame) as (E1 & E2 & E3 & _).
    exists c, s1, i1. unfold used. rewrite E1, E2, E3. splits.
    + apply lookup_delete_Some. split; [congruence|done].
    + by apply (slot_same_used_named st st' G).
Qed.

(** The state changes of a deletion: the chain freed, the slot emptied, the
    header written. *)
Lemma delete_state st G p cp s i start c :
  fs_inv st G -> G !! p = Some (true, cp) -> s ∈ cp -> 0 <= i < 16 -> used st s i ->
  estart st s i = start -> G !! start = Some (false, c) ->
  exists st1, free_walk (walk_fuel st) st start = Some st1 /\
  let st2 := ata_write s (put_bytes (ata_read st1 s) (32 * i + 23) [FLAG_EMPTY]) st1 in
  let st3 := count_and_write (total_files (current_fs st2) - 1) st2 in
  fs_inv st3 (delete start G) /\ root st3 = root st /\ total_disk_sectors st3 = total_disk_sectors st /\
  (forall a, fat_get st3 a = if bool_decide (a ∈ c) then FAT_FREE else fat_get st a) /\
  (forall s', root st <= s' -> s' <> s -> ata_read st3 s' = ata_read st s') /\
  eflags st3 s i = 0 /\
  (forall s' i', dirslot G s' i' -> (s', i') <> (s, i) -> slot_same st st3 s' i').
Proof.
  intros Hinv Hp Hs Hi Hu Hst Hc. pose proof Hinv as [Hgeo Hsync Hw Hh Hg].
  destruct (geo_bounds st Hgeo) as (_ & _ & ? & _).
  pose proof (g_range _ _ Hg _ _ _ _ Hp Hs) as Hsr.
  destruct (free_walk_spec c st start (walk_fuel st) (fun _ => False)) as (st1 & -> & G1 & F1 & R1 & Y1 & W1);
    [done|by eapply g_chain|by eapply g_nodup|intros; by eapply g_range|by eapply chain_walk_fuel|done|done|].
  exists st1. split; [done|]. cbv zeta.
  set (b := put_bytes (ata_read st1 s) (32 * i + 23) [FLAG_EMPTY]). set (st2 := ata_write s b st1).
  set (n := total_files (current_fs st2) - 1).
  pose proof (geometry_same _ _ G1 Hgeo) as Hgeo1. pose proof (same_geo_root _ _ G1) as Er1.
  assert (length (ata_read st1 s) = 512%nat) as Hlen by (rewrite R1 by lia; apply (g_len _ _ Hg); lia).
  assert (forall j, 0 <= j -> str b j = if j =? 32 * i + 23 then 0 else str (ata_read st s) j) as Hb.
  { intros j Hj. unfold b. rewrite str_put_bytes by (simpl; lia). rewrite R1 by lia.
    change (Z.of_nat (length [FLAG_EMPTY])) with 1.
    destruct (Z.eqb_spec j (32 * i + 23)) as [->|];
      destruct (Z.leb_spec (32 * i + 23) (32 * i + 23)), (Z.ltb_spec (32 * i + 23) (32 * i + 23 + 1));
      try lia; [by replace (32 * i + 23 - (32 * i + 23)) with 0 by lia|].
    destruct (Z.leb_spec (32 * i + 23) j), (Z.ltb_spec j (32 * i + 23 + 1)); simpl; try lia; done. }
  assert (forall s', root st <= s' -> s' <> s -> ata_read st2 s' = ata_read st s') as Hr2.
  { intros s' Hs' Hne. unfold st2. rewrite ata_read_write_ne by done. apply R1. auto. }
  assert (ata_read st2 s = b) as Eb by apply ata_read_write_eq.
  assert (eflags st2 s i = 0) as He2.
  { unfold eflags, get_entry; simpl. rewrite Eb, Hb, Z.eqb_refl by lia. done. }
  assert (forall i', 0 <= i' < 16 -> i' <> i -> slot_same st st2 s i') as Hoth.
  { intros i' Hi' Hne j Hj. rewrite Eb, Hb by lia.
    destruct (Z.eqb_spec (32 * i' + j) (32 * i + 23)); [lia|done]. }
  assert (length (ata_read st2 s) = 512%nat) as Hlen2.
  { rewrite Eb. unfold b. rewrite length_put_bytes; simpl; lia. }
  assert (same_geo st st2) as Hs2 by (etrans; [exact G1|apply geo_write]).
  assert (fs_inv st2 (delete start G)) as I2.
  { split.
    - exact (geometry_same _ _ (geo_write _ _ _) Hgeo1).
    - apply fat_sync_write; [done|rewrite Er1; lia|done].
    - exact W1.
    - unfold header_sync. unfold st2. rewrite ata_read_write_ne, R1 by lia.
      destruct G1 as (_ & _ & _ & _ & E). simpl. by rewrite E.
    - by apply (graph_remove st st2 G p s i cp Hg Hs2 Hp Hs Hi Hr2 Hlen2 Hoth start c). }
  assert (forall s', root st <= s' -> ata_read (count_and_write n st2) s' = ata_read st2 s') as Hr3
    by (intros; apply count_read; lia).
  split; [by apply count_inv|]. split; [exact (same_geo_root _ _ Hs2)|].
  split; [exact (same_geo_total _ _ Hs2)|]. split; [exact F1|].
  split; [intros; rewrite Hr3 by done; by apply Hr2|].
  split; [unfold eflags; rewrite Hr3 by lia; exact He2|].
  intros s' i' D Hne j Hj. destruct D as (h & ch & Hh' & Hch & Hi').
  pose proof (g_range _ _ Hg _ _ _ _ Hh' Hch). rewrite Hr3 by lia.
  destruct (decide (s' = s)) as [->|]; [apply Hoth; [done|congruence|done]|].
  by rewrite Hr2 by lia.
Qed.

(** The full behaviour of [kfs_delete_file]. *)
Lemma delete_file_spec st G path :
  fs_inv st G -> no_nul path ->
  exists st', kfs_delete_file st path = Some st' /\ (exists G', fs_inv st' G') /\
  ((exists e s i c, lookup_path st path = Some (Some (e, s, i)) /\ flags e = FLAG_FILE /\
      chain (fat_table st) (start_sector e) c /\
      (forall a, fat_get st' a = if bool_decide (a ∈ c) then FAT_FREE else fat_get st a) /\
      kfs_exists st' path = Some 0 /\
      (forall q, no_nul q -> split_last_nolock st' q = split_last_nolock st q) /\
      (forall q, no_nul q -> split_last_nolock st q <> split_last_nolock st path -> same_path st st' q))
   \/
   ((lookup_path st path = Some None \/
     exists e s i, lookup_path st path = Some (Some (e, s, i)) /\ flags e = FLAG_FOLDER) /\
    disk st' = disk st /\ fat_table st' = fat_table st /\ current_fs st' = current_fs st /\
    forall q, no_nul q -> same_path st st' q)).
Proof.
  intros Hinv Hpath. pose proof Hinv as [Hgeo _ _ _ Hg].
  assert (forall m, disk (kprint m st) = disk st /\ fat_table (kprint m st) = fat_table st /\
    current_fs (kprint m st) = current_fs st /\ forall q, no_nul q -> same_path st (kprint m st) q) as Hkp.
  { intros m. split; [unfold kprint; by destruct (tty_ready st)|].
    split; [unfold kprint; by destruct (tty_ready st)|]. split; [unfold kprint; by destruct (tty_ready st)|].
    apply (same_entries_paths _ _ G G); [done|by apply kprint_inv|apply kprint_keeps|apply kprint_same_entries]. }
  destruct (lookup_ok st G path Hgeo Hg Hpath) as (r & L & Hr). unfold kfs_delete_file. rewrite L.
  destruct r as [[[e s] i]|].
  2:{ destruct (split_ok st G path Hgeo Hg Hpath) as (r & Es & _). rewrite Es. destruct r as [[p name]|].
      - eexists. split; [reflexivity|]. split; [eexists; by apply kprint_inv|]. right. split; [by left|apply Hkp].
      - eexists. split; [reflexivity|]. split; [eauto|]. right. split; [by left|done]. }
  destruct Hr as (p & name & cp & Es & Hn & Hp & Hs & Hi & Ee & Hu & Hm).
  destruct (Z.eqb_spec (flags e) FLAG_FOLDER) as [Ef|Nf].
  { eexists. split; [reflexivity|]. split; [eexists; by apply kprint_inv|]. right.
    split; [right; by exists e, s, i|apply Hkp]. }
  assert (has_entry st G p name (flags e, start_sector e, size_bytes e)) as HEn
    by (subst e; by exists cp, s, i).
  destruct (file_entry _ _ _ _ _ Hg HEn Nf) as (Efl & c & Hc & _). simpl in Efl, Hc.
  destruct (delete_state st G p cp s i (start_sector e) c) as (st1 & -> & I3 & Er & _ & F3 & R3 & E3 & S3);
    [done..|by subst e|done|].
  unfold count_and_write in I3, Er, F3, R3, E3, S3. cbv zeta in *.
  match goal with |- context [kprint _ ?x] => set (st3 := x) in * end.
  set (m := line "[OK] File dihapus!").
  assert (forall h nm x, no_nul nm -> has_entry st3 (delete (start_sector e) G) h nm x <->
    has_entry st G h nm x /\ (h, nm) <> (p, name)) as HE.
  { apply (removed_entries st st3 G p cp s i name (start_sector e)); try done; [apply I3|eauto]. }
  exists (kprint m st3). split; [done|]. pose proof (kprint_inv m st3 _ I3) as I4.
  split; [eauto|]. left. exists e, s, i, c. split; [done|]. split; [done|].
  split; [by eapply g_chain|].
  split; [intros a; rewrite <- F3; unfold kprint; by destruct (tty_ready st3)|].
  apply (file_removed st (kprint m st3) G path p name (start_sector e) (size_bytes e) c); try done.
  - rewrite (same_geo_root _ _ (geo_kprint m st3)). done.
  - intros y d cy s' Hy Hd Hs'. rewrite kprint_read. pose proof (g_range _ _ Hg _ _ _ _ Hy Hs').
    apply R3; [lia|]. intros ->. destruct (chain_unique _ _ _ _ _ _ _ _ s Hg Hy Hp Hs' Hs) as (_ & ? & _). congruence.
  - by rewrite <- Efl.
  - intros h nm x Hnm. rewrite (kprint_same_entries m st3 _ h nm x Hnm). by apply HE.
  - intros h nm x Hnm (ch & s' & i' & Hh & Hs' & Hi' & Hu' & Hm' & ->) Ex. simpl in Ex.
    destruct (g_inj _ _ Hg s' i' s i) as [-> ->]; [by exists h, ch|by exists p, cp|done|done|by subst e|].
    destruct (chain_unique _ _ _ _ _ _ _ _ s Hg Hh Hp Hs' Hs) as (-> & _ & ->). split; [done|].
    by eapply named_inj.
Qed.

(** C10. [kfs_delete_file] on a well-formed file system terminates and leaves
    it well-formed.  If the path leads to a file, the path no longer exists,
    exactly the sectors of the file's chain become free, and every other path
    is observed as before; if it leads to a folder or to nothing, the disk and
    the FAT do not change. *)
Theorem kfs_delete_file_correct st G path :
  fs_inv st G -> no_nul path ->
  exists st', kfs_delete_file st path = Some st' /\ (exists G', fs_inv st' G') /\
  ((exists e s i c, lookup_path st path = Some (Some (e, s, i)) /\ flags e = FLAG_FILE /\
      chain (fat_table st) (start_sector e) c /\
      (forall a, fat_get st' a = if bool_decide (a ∈ c) then FAT_FREE else fat_get st a) /\
      kfs_exists st' path = Some 0 /\
      (forall q, no_nul q -> split_last_nolock st' q = split_last_nolock st q) /\
      (forall q, no_nul q -> split_last_nolock st q <> split_last_nolock st path -> same_path st st' q))
   \/
   ((lookup_path st path = Some None \/
     exists e s i, lookup_path st path = Some (Some (e, s, i)) /\ flags e = FLAG_FOLDER) /\
    disk st' = disk st /\ fat_table st' = fat_table st /\ current_fs st' = current_fs st /\
    forall q, no_nul q -> same_path st st' q)).
Proof. exact (delete_file_spec st G path). Qed.

End KfsThm.
