(* ===== verification/KfsBoot.v ===== *)
(** * KyuzenFS: formatting, mounting and folders

    [kfs_format] establishes the invariant on any disk that can hold a root
    directory, [kfs_init] recovers the same file system from the disk after a
    restart, and [kfs_create_folder] adds an empty directory.  The file ends
    with the witnesses, on a blank disk of 40 sectors. *)

From S2P Require Import Prelude KString Kfs KfsSpec KfsInv KfsOps KfsData KfsThm.
From Stdlib Require Import String.
From stdpp Require Import base numbers list gmap.
From Stdlib Require Import ZArith Lia.

#[local] Open Scope list_scope.
#[local] Open Scope Z_scope.

Module KfsBoot.
Import KString Kfs KfsSpec KfsInv KfsOps KfsData KfsThm.

(** ** The loops of the format *)

Lemma fat_fill lo hi v st :
  lo <= hi ->
  let st' := for_loop lo hi (fun i => fat_set i v) st in
  same_geo st st' /\ disk st' = disk st /\
  forall a, fat_get st' a = if (lo <=? a) && (a <? hi) then v else fat_get st a.
Proof.
  intros Hle. cbv zeta.
  apply (for_loop_inv (fun i st' => same_geo st st' /\ disk st' = disk st /\
    forall a, fat_get st' a = if (lo <=? a) && (a <? i) then v else fat_get st a)); [done| |].
  - split; [apply same_geo_refl|]. split; [done|]. intros a.
    destruct (Z.leb_spec lo a), (Z.ltb_spec a lo); simpl; try lia; done.
  - intros i st' Hi (G & D & F). split; [etrans; [exact G|apply geo_fat_set]|]. split; [exact D|].
    intros a. rewrite fat_get_set, F.
    destruct (Z.eqb_spec i a), (Z.leb_spec lo a), (Z.ltb_spec a i), (Z.ltb_spec a (i + 1)); simpl; try lia; done.
Qed.

Lemma flush_fat n st :
  0 <= n ->
  let st' := for_loop 0 n (fun i st => ata_write (1 + i) (fat_sector (fat_table st) i) st) st in
  same_geo st st' /\ fat_table st' = fat_table st /\
  forall s, ata_read st' s = if (1 <=? s) && (s <? 1 + n) then fat_sector (fat_table st) (s - 1) else ata_read st s.
Proof.
  intros Hle. cbv zeta.
  apply (for_loop_inv (fun i st' => same_geo st st' /\ fat_table st' = fat_table st /\
    forall s, ata_read st' s = if (1 <=? s) && (s <? 1 + i) then fat_sector (fat_table st) (s - 1)
                               else ata_read st s)); [done| |].
  - split; [apply same_geo_refl|]. split; [done|]. intros s.
    destruct (Z.leb_spec 1 s), (Z.ltb_spec s (1 + 0)); simpl; try lia; done.
  - intros i st' Hi (G & D & F). split; [etrans; [exact G|apply geo_write]|]. split; [exact D|].
    intros s. rewrite ata_read_write, F, D.
    destruct (Z.eqb_spec (1 + i) s) as [<-|].
    + destruct (Z.leb_spec 1 (1 + i)), (Z.ltb_spec (1 + i) (1 + (i + 1))); simpl; try lia. f_equal. lia.
    + destruct (Z.leb_spec 1 s), (Z.ltb_spec s (1 + i)), (Z.ltb_spec s (1 + (i + 1))); simpl; try lia; done.
Qed.

(** A disk that can be formatted: big enough for a root directory and small
    enough for 28-bit sector numbers.  Its sectors have 512 bytes, and the cells
    of the FAT buffer past the last sector hold words. *)
Record formattable (st : kfs) : Prop := {
  fm_total : disk_size st < 2 ^ 28;
  fm_room : 1 + (disk_size st * 4 + 511) / 512 < disk_size st;
  fm_padding : length (padding (current_fs st)) = 500%nat;
  fm_sectors : forall s, length (ata_read st s) = 512%nat;
  fm_tail : forall i, disk_size st <= i < 128 * ((disk_size st * 4 + 511) / 512) ->
    0 <= fat_get st i < 2 ^ 32
}.

Lemma fat_sectors_eq total : 0 <= total < 2 ^ 28 -> fat_sectors total = (total * 4 + 511) / 512.
Proof.
  intros. unfold fat_sectors. rewrite (wrap_small 32 (total * 4)) by lia.
  rewrite wrap_small by lia. done.
Qed.

(** What formatting leaves in the memory and on the disk. *)
Lemma format_fields st :
  formattable st ->
  let total := disk_size st in let fsn := (total * 4 + 511) / 512 in
  let st' := kfs_format_nolock st in
  fat_ready st' = true /\ total_disk_sectors st' = total /\ fat_sectors_needed st' = fsn /\
  ata_total st' = ata_total st /\
  current_fs st' = mk_header KZFS (1 + fsn) 0 (padding (current_fs st)) /\
  (forall a, 0 <= a < 128 * fsn -> fat_get st' a =
     if a <=? 1 + fsn then FAT_EOF else if a <? total then FAT_FREE else fat_get st a) /\
  ata_read st' 0 = header_bytes (current_fs st') /\
  (forall k, 0 <= k < fsn -> ata_read st' (1 + k) = fat_sector (fat_table st') k) /\
  ata_read st' (1 + fsn) = replicate 512 FLAG_EMPTY /\
  (forall s, 1 + fsn < s -> ata_read st' s = ata_read st s).
Proof.
  intros [Htot Hroom Hpad _ _]. cbv zeta. set (total := disk_size st) in *.
  assert (0 <= total) as Hpos by (divlia).
  set (fsn := (total * 4 + 511) / 512) in *.
  assert (1 <= fsn /\ total <= 128 * fsn) as [Hf1 Hf2] by (unfold fsn; divlia).
  unfold kfs_format_nolock. cbv zeta. fold total. rewrite (fat_sectors_eq total) by lia. fold fsn.
  rewrite (wrap_small 32 (1 + fsn)) by lia.
  set (st1 := set_current_fs _ _). change (root_dir_sector (current_fs st1)) with (1 + fsn).
  destruct (fat_fill 0 total FAT_FREE st1) as (G2 & D2 & F2); [lia|].
  set (st2 := for_loop 0 total _ st1) in *.
  set (st3 := fat_set 0 FAT_EOF st2).
  destruct (fat_fill 1 (fsn + 1) FAT_EOF st3) as (G4 & D4 & F4); [lia|].
  set (st4 := for_loop 1 (fsn + 1) _ st3) in *.
  set (st5 := fat_set (1 + fsn) FAT_EOF st4). set (st6 := write_header st5).
  destruct (flush_fat fsn st6) as (G7 & D7 & R7); [lia|].
  set (st7 := for_loop 0 fsn _ st6) in *.
  set (st8 := ata_write (1 + fsn) _ st7). set (m := line _).
  assert (same_geo st1 (kprint m st8)) as HG.
  { etrans; [|apply geo_kprint]. etrans; [|apply geo_write]. etrans; [|exact G7].
    etrans; [|apply geo_write]. etrans; [|apply geo_fat_set]. etrans; [|exact G4].
    etrans; [exact G2|apply geo_fat_set]. }
  assert (fat_table (kprint m st8) = fat_table st5) as ET.
  { unfold kprint. destruct (tty_ready st8); exact D7. }
  assert (current_fs st5 = current_fs st1) as E5.
  { transitivity (current_fs st4); [done|]. transitivity (current_fs st3); [apply G4|].
    transitivity (current_fs st2); [done|apply G2]. }
  assert (disk st5 = disk st) as ED by (simpl; rewrite D4; simpl; rewrite D2; done).
  assert (forall s, ata_read (kprint m st8) s = if (1 + fsn) =? s then replicate 512 FLAG_EMPTY
    else if (1 <=? s) && (s <? 1 + fsn) then fat_sector (fat_table st5) (s - 1)
    else if 0 =? s then header_bytes (current_fs st5) else ata_read st s) as HR.
  { intros s. rewrite kprint_read. unfold st8. rewrite ata_read_write. destruct (_ =? s); [done|].
    rewrite R7. change (fat_table st6) with (fat_table st5). destruct (_ && _); [done|].
    unfold st6, write_header. rewrite ata_read_write. destruct (0 =? s); [done|].
    unfold ata_read. by rewrite ED. }
  destruct HG as (H1 & H2 & H3 & H4 & H5). rewrite H1, H2, H3, H4, H5, ET.
  split; [done|]. split; [done|]. split; [done|]. split; [done|]. split; [done|]. split; [|split; [|split; [|split]]].
  - intros a Ha. unfold fat_get. rewrite ET. fold (fat_get st5 a). unfold st5. rewrite fat_get_set, F4.
    unfold st3. rewrite fat_get_set, F2.
    destruct (Z.eqb_spec (1 + fsn) a), (Z.leb_spec 1 a), (Z.ltb_spec a (fsn + 1)), (Z.eqb_spec 0 a),
      (Z.leb_spec 0 a), (Z.ltb_spec a total), (Z.leb_spec a (1 + fsn)); simpl; try lia; done.
  - rewrite HR. destruct (Z.eqb_spec (1 + fsn) 0); [lia|]. rewrite E5. reflexivity.
  - intros k Hk. rewrite HR. destruct (Z.eqb_spec (1 + fsn) (1 + k)); [lia|].
    destruct (Z.leb_spec 1 (1 + k)), (Z.ltb_spec (1 + k) (1 + fsn)); simpl; try lia. f_equal. lia.
  - rewrite HR, Z.eqb_refl. done.
  - intros s Hs. rewrite HR. destruct (Z.eqb_spec (1 + fsn) s), (Z.leb_spec 1 s), (Z.ltb_spec s (1 + fsn)),
      (Z.eqb_spec 0 s); simpl; try lia; done.
Qed.

(** The ghost state of an empty file system. *)
Definition empty_fs (st : kfs) : ghost := {[ root st := (true, [root st]) ]}.

Lemma format_inv st :
  formattable st -> fs_inv (kfs_format st) (empty_fs (kfs_format st)).
Proof.
  intros Hfm. pose proof Hfm as [Htot Hroom Hpad Hsec Htail].
  destruct (format_fields st Hfm) as (E1 & E2 & E3 & E4 & E5 & F & H0 & Hk & Hr & Hs).
  unfold kfs_format. set (st' := kfs_format_nolock st) in *.
  set (total := disk_size st) in *.
  assert (0 <= total) as Hpos by (clear - Hroom; divlia).
  set (fsn := (total * 4 + 511) / 512) in *.
  assert (1 <= fsn /\ total <= 128 * fsn) as [Hf1 Hf2] by (unfold fsn; divlia).
  assert (root st' = 1 + fsn) as Er by (unfold root; by rewrite E5).
  assert (forall h d c, empty_fs st' !! h = Some (d, c) -> h = 1 + fsn /\ d = true /\ c = [1 + fsn]) as HG.
  { intros h d c H. unfold empty_fs in H. rewrite Er in H. apply lookup_singleton_Some in H as [-> [= <- <-]]. done. }
  assert (forall s i, dirslot (empty_fs st') s i -> ~ used st' s i) as Hnone.
  { intros s i (h & c & H & Hc & Hi) Hu. apply HG in H as (-> & _ & ->).
    apply list_elem_of_singleton in Hc as ->. apply Hu, zero_slots; [exact Hr|done]. }
  split.
  - split; rewrite ?Er, ?E1, ?E2, ?E3, ?E5; simpl; try done; try lia.
    unfold disk_size. rewrite E4. done.
  - intros k Hk' _. rewrite E3 in Hk'. by apply Hk.
  - intros i Hi. rewrite E3 in Hi. rewrite F by lia.
    destruct (i <=? 1 + fsn); [exact eof_word|]. destruct (Z.ltb_spec i total); [unfold FAT_FREE; lia|].
    apply Htail. lia.
  - exact H0.
  - split.
    + intros s Hs'. rewrite Er in Hs'. destruct (Z.eq_dec s (1 + fsn)) as [->|]; [rewrite Hr; apply length_replicate|].
      rewrite Hs by lia. apply Hsec.
    + intros h d c H. apply HG in H as (-> & -> & ->). constructor. fold (fat_get st' (1 + fsn)).
      rewrite F by lia. destruct (Z.leb_spec (1 + fsn) (1 + fsn)); [done|lia].
    + intros h d c s H Hc. apply HG in H as (-> & -> & ->). apply list_elem_of_singleton in Hc as ->.
      rewrite Er, E2. lia.
    + intros h d c H. apply HG in H as (-> & -> & ->). apply NoDup_singleton.
    + intros h d c h' d' c' s H H' _ _. apply HG in H as (-> & _), H' as (-> & _). done.
    + exists [root st']. unfold empty_fs. by simplify_map_eq.
    + intros s i D Hu. by destruct (Hnone s i).
    + intros s i s' i' D _ Hu. by destruct (Hnone s i).
    + intros h c name s i s' i' H _ Hc _ Hi _ Hu. destruct (Hnone s i); [by exists h, c|done].
Qed.

(** Formatting a blank or used disk of at least three sectors (beyond the
    FAT) and fewer than 2^28 gives a well-formed, empty file system: no path
    exists, the FAT and the header on the disk agree with memory, every sector
    after the root directory is free and its contents are untouched. *)
Theorem kfs_format_correct st :
  formattable st ->
  let st' := kfs_format st in
  fs_inv st' (empty_fs st') /\ (forall q, no_nul q -> kfs_exists st' q = Some 0) /\
  (forall i, root st' < i < total_disk_sectors st' -> fat_get st' i = FAT_FREE /\ ata_read st' i = ata_read st i).
Proof.
  intros Hfm st'. pose proof (format_inv st Hfm) as Hinv. fold st' in Hinv. split; [done|].
  pose proof Hinv as [Hgeo _ _ _ Hg].
  destruct (format_fields st Hfm) as (_ & E2 & E3 & _ & E5 & F & _ & _ & Hr & Hs).
  fold (kfs_format st) st' in E2, E3, E5, F, Hr, Hs.
  set (fsn := (disk_size st * 4 + 511) / 512) in *.
  assert (root st' = 1 + fsn) as Er by (unfold root; by rewrite E5).
  split.
  - intros q Hq. destruct (lookup_ok st' (empty_fs st') q Hgeo Hg Hq) as (r & L & HL).
    unfold kfs_exists. rewrite L. destruct r as [[[e s] i]|]; [exfalso|done].
    destruct HL as (p & name & c & _ & _ & Hp & Hsc & Hi & _ & Hu & _).
    unfold empty_fs in Hp. apply lookup_singleton_Some in Hp as [<- [= <-]].
    apply list_elem_of_singleton in Hsc as ->. apply Hu, zero_slots; [|done]. by rewrite Er.
  - intros i Hi. rewrite Er, E2 in Hi.
    assert (disk_size st <= 128 * fsn) by (unfold fsn; divlia).
    split; [|apply Hs; lia]. rewrite F by lia.
    destruct (Z.leb_spec i (1 + fsn)), (Z.ltb_spec i (disk_size st)); lia.
Qed.

(** ** Mounting after a restart *)

Lemma str_concat_words (g : Z -> Z) l (k : nat) x j :
  l !! k = Some x -> 0 <= j < 4 ->
  str (concat (map (fun y => bytes32 (g y)) l)) (4 * Z.of_nat k + j) = str (bytes32 (g x)) j.
Proof.
  revert k. induction l as [|y l IH]; intros k Hk Hj; [done|].
  cbn [map concat]. destruct k as [|k]; simpl in Hk.
  - injection Hk as ->. rewrite str_app_l by (simpl; lia). f_equal.
  - rewrite str_app_r by (simpl length; lia). simpl length. rewrite <- (IH k Hk Hj). f_equal. lia.
Qed.

Lemma le32_fat_sector fat k j :
  0 <= j < 128 -> 0 <= ld fat (128 * k + j) < 2 ^ 32 ->
  le32 (fat_sector fat k) (4 * j) = ld fat (128 * k + j).
Proof.
  intros Hj Hw. apply le32_of_bytes32; [done|]. intros i Hi. unfold fat_sector.
  rewrite <- (str_concat_words (fun y => ld fat (128 * k + y)) (zrange 0 128) (Z.to_nat j) j i).
  - f_equal. lia.
  - rewrite zrange_seqZ, lookup_seqZ_lt by lia. f_equal. lia.
  - done.
Qed.

Lemma header_roundtrip h :
  magic h = KZFS -> 0 <= root_dir_sector h < 2 ^ 32 -> 0 <= total_files h < 2 ^ 32 ->
  header_of_bytes (header_bytes h) = h.
Proof.
  destruct h as [m r t p]. simpl. intros -> Hr Ht. unfold header_of_bytes, header_bytes. simpl.
  f_equal; unfold le32, str; simpl; by apply bytes32_value.
Qed.

Lemma load_sector_spec k st :
  same_geo st (load_fat_sector k st) /\ disk (load_fat_sector k st) = disk st /\
  forall a, fat_get (load_fat_sector k st) a =
    if (128 * k <=? a) && (a <? 128 * k + 128) then le32 (ata_read st (1 + k)) (4 * (a - 128 * k))
    else fat_get st a.
Proof.
  unfold load_fat_sector.
  apply (for_loop_inv (fun j st' => same_geo st st' /\ disk st' = disk st /\
    forall a, fat_get st' a = if (128 * k <=? a) && (a <? 128 * k + j)
      then le32 (ata_read st (1 + k)) (4 * (a - 128 * k)) else fat_get st a)); [lia| |].
  - split; [apply same_geo_refl|]. split; [done|]. intros a.
    destruct (Z.leb_spec (128 * k) a), (Z.ltb_spec a (128 * k + 0)); simpl; try lia; done.
  - intros j st' Hj (G & D & F). split; [etrans; [exact G|apply geo_fat_set]|]. split; [exact D|].
    intros a. rewrite fat_get_set, F. destruct (Z.eqb_spec (128 * k + j) a) as [<-|].
    + destruct (Z.leb_spec (128 * k) (128 * k + j)), (Z.ltb_spec (128 * k + j) (128 * k + (j + 1))); simpl; try lia.
      f_equal. lia.
    + destruct (Z.leb_spec (128 * k) a), (Z.ltb_spec a (128 * k + j)), (Z.ltb_spec a (128 * k + (j + 1)));
        simpl; try lia; done.
Qed.

Lemma load_fat_spec n st :
  0 <= n ->
  let st' := for_loop 0 n load_fat_sector st in
  same_geo st st' /\ disk st' = disk st /\
  forall a, 0 <= a < 128 * n -> fat_get st' a = le32 (ata_read st (1 + a / 128)) (4 * (a mod 128)).
Proof.
  intros Hn. cbv zeta.
  apply (for_loop_inv (fun i st' => same_geo st st' /\ disk st' = disk st /\
    forall a, 0 <= a < 128 * i -> fat_get st' a = le32 (ata_read st (1 + a / 128)) (4 * (a mod 128)))); [done| |].
  - split; [apply same_geo_refl|]. split; [done|]. intros a. lia.
  - intros i st' Hi (G & D & F). destruct (load_sector_spec i st') as (G' & D' & F').
    split; [by etrans|]. split; [congruence|]. intros a Ha. rewrite F'.
    unfold ata_read. rewrite D. fold (ata_read st (1 + i)).
    destruct (Z.leb_spec (128 * i) a), (Z.ltb_spec a (128 * i + 128)); simpl; try lia.
    + fold (ata_read st (1 + a / 128)). replace (a / 128) with i by divlia. do 2 f_equal. divlia.
    + apply F. lia.
Qed.

(** C11. Persistence: whatever the memory holds after a restart, [kfs_init] on
    the disk of a well-formed file system recovers its header, its FAT and its
    invariant without writing to the disk, and every path is observed as before
    the restart. *)
Theorem kfs_init_restores st G st0 :
  fs_inv st G -> disk st0 = disk st -> ata_total st0 = ata_total st ->
  let st' := kfs_init st0 in
  fs_inv st' G /\ disk st' = disk st /\ current_fs st' = current_fs st /\
  (forall i, 0 <= i < total_disk_sectors st -> fat_get st' i = fat_get st i) /\
  forall q, no_nul q -> same_path st st' q.
Proof.
  intros Hinv Hdisk Hata. pose proof Hinv as [Hgeo Hsync Hw Hh Hg].
  destruct (geo_bounds st Hgeo) as (Hf1 & Hf2 & Hroot & Hroot2).
  assert (forall s, ata_read st0 s = ata_read st s) as Hread by (intros; unfold ata_read; by rewrite Hdisk).
  assert (header_of_bytes (ata_read st0 0) = current_fs st) as Ehdr.
  { rewrite Hread, Hh. destruct Hgeo. unfold root in *. apply header_roundtrip; [done|lia|done]. }
  unfold kfs_init. rewrite Ehdr. cbv zeta. set (st1 := set_current_fs (current_fs st) st0).
  change (current_fs st1) with (current_fs st). rewrite (geo_magic _ Hgeo). cbn [KZFS].
  change (negb (str KZFS 0 =? 75) || negb (str KZFS 1 =? 90)) with false. cbn iota.
  assert (disk_size st1 = total_disk_sectors st) as Et.
  { rewrite (geo_ata _ Hgeo). unfold disk_size, st1; simpl. by rewrite Hata. }
  pose proof (geo_total _ Hgeo) as Htot.
  rewrite Et, fat_sectors_eq, <- (geo_fsn _ Hgeo) by lia.
  set (st2 := set_geometry (total_disk_sectors st) (fat_sectors_needed st) st1).
  destruct (load_fat_spec (fat_sectors_needed st) st2) as (G3 & D3 & F3); [lia|].
  set (st3 := for_loop 0 (fat_sectors_needed st) load_fat_sector st2) in *. clearbody st3.
  assert (disk st3 = disk st) as Ed by (rewrite D3; exact Hdisk).
  assert (forall s, ata_read st3 s = ata_read st s) as Hr3 by (intros; unfold ata_read; by rewrite Ed).
  destruct G3 as (H1 & H2 & H3 & H4 & H5).
  assert (forall a, 0 <= a < 128 * fat_sectors_needed st -> fat_get st3 a = fat_get st a) as Hfat.
  { intros a Ha. rewrite F3 by done.
    assert (ata_read st2 (1 + a / 128) = fat_sector (fat_table st) (a / 128)) as ->.
    { change (ata_read st2 (1 + a / 128)) with (ata_read st0 (1 + a / 128)). rewrite Hread.
      apply Hsync; [divlia|tauto]. }
    assert (128 * (a / 128) + a mod 128 = a) as Ea by divlia.
    rewrite le32_fat_sector; rewrite ?Ea; [done|divlia|by apply Hw]. }
  assert (root st3 = root st) as Er by (unfold root; rewrite H5; done).
  assert (total_disk_sectors st3 = total_disk_sectors st) as Et3 by (rewrite H2; done).
  assert (fs_inv st3 G) as I3.
  { split.
    - destruct Hgeo. split; rewrite ?Er, ?Et3, ?H1, ?H3, ?H5; try done.
      unfold disk_size. rewrite H4. change (ata_total st2) with (ata_total st0). rewrite Hata. done.
    - intros k Hk _. rewrite H3 in Hk. rewrite Hr3, Hsync; [|done|tauto]. symmetry.
      apply fat_sector_ext. intros j Hj. apply Hfat. simpl in Hk. lia.
    - intros i Hi. rewrite H3 in Hi. rewrite Hfat by done. by apply Hw.
    - unfold header_sync. rewrite Hr3, H5. done.
    - apply (graph_ext st); [done..| |intros; apply Hr3]. intros i Hi. apply Hfat. lia. }
  split; [done|]. split; [done|]. split; [by rewrite H5|]. split; [intros; apply Hfat; lia|].
  apply (same_entries_paths st st3 G G); [done|done| |].
  - split; [done|eauto|]. intros; split; [done|]. intros; apply Hr3.
  - intros h name x _. unfold has_entry, used, eflags, estart, esize, named.
    split; intros (c & s & i & Hx); exists c, s, i; rewrite Hr3 in *; done.
Qed.

(** ** Folders *)

(** Resolution only gains results when entries are only added. *)
Lemma resolve_walk_mono st st' G G' fuel path dir c h :
  geometry st -> graph st G -> geometry st' -> graph st' G' ->
  (forall k c, G !! k = Some (true, c) -> exists c', G' !! k = Some (true, c')) ->
  (forall k nm x, no_nul nm -> has_entry st G k nm x -> has_entry st' G' k nm x) ->
  G !! dir = Some (true, c) -> no_nul path ->
  resolve_walk fuel st path dir = Some (Some h) -> resolve_walk fuel st' path dir = Some (Some h).
Proof.
  intros Hgeo Hg Hgeo' Hg' Hdirs HE. revert path dir c.
  induction fuel as [|fuel IH]; intros path dir c Hd Hn; [done|].
  destruct path as [|a p]; [done|]. rewrite !resolve_walk_cons.
  destruct (skip_slashes (a :: p)) as [|b l] eqn:Es; [done|].
  destruct (take_comp (b :: l)) as [comp rest] eqn:Et. rewrite <- Es in Et.
  destruct (path_step a p comp rest) as (Hc & Hr & _); [by rewrite Es|done..|].
  destruct (22 <? length comp)%nat; [done|]. destruct (Hdirs dir c Hd) as [c' Hd'].
  destruct (find_view st G dir c comp) as (r & -> & Hv); [done..|].
  destruct (find_view st' G' dir c' comp) as (r' & -> & Hv'); [done..|].
  destruct r as [[[e s] i]|]; [|done]. simpl in Hv.
  assert (has_entry st G dir comp (flags e, start_sector e, size_bytes e)) as H by (by apply Hv).
  pose proof (HE _ _ _ Hc H) as H'. apply Hv' in H'. destruct r' as [[[e' s'] i']|]; [|done].
  simpl in H'. injection H' as -> -> _.
  destruct (Z.eqb_spec (flags e) FLAG_FOLDER) as [Ef|]; simpl; [|done]. rewrite Ef in H.
  destruct (folder_entry _ _ _ _ _ _ Hg H) as [_ [c1 Hc1]]. by eapply IH.
Qed.

Lemma split_mono st st' G G' q x :
  geometry st -> graph st G -> geometry st' -> graph st' G' -> root st' = root st ->
  (forall k c, G !! k = Some (true, c) -> exists c', G' !! k = Some (true, c')) ->
  (forall k nm x, no_nul nm -> has_entry st G k nm x -> has_entry st' G' k nm x) ->
  no_nul q -> split_last_nolock st q = Some (Some x) -> split_last_nolock st' q = Some (Some x).
Proof.
  intros Hgeo Hg Hgeo' Hg' Hroot Hdirs HE Hq. unfold split_last_nolock.
  destruct (drop _ q) as [|b l]; [done|]. cbv zeta. unfold resolve_dir_nolock.
  fold (root st) (root st'). rewrite Hroot. destruct (g_root _ _ Hg) as [c Hc].
  set (par := take _ q).
  destruct (resolve_walk (S (length par)) st par (root st)) as [[h|]|] eqn:E; [|done..].
  rewrite (resolve_walk_mono st st' G G' (S (length par)) par (root st) c h); try done.
  by apply no_nul_take.
Qed.

(** Paths that lead somewhere keep leading there when an entry was added. *)
Lemma same_path_added st st' G G' p name y :
  geometry st -> graph st G -> geometry st' -> graph st' G' -> (forall X, keeps X st st' G G') ->
  (forall h nm x, no_nul nm -> has_entry st' G' h nm x <-> has_entry st G h nm x \/ (h = p /\ nm = name /\ x = y)) ->
  forall q, no_nul q -> kfs_exists st q = Some 1 -> same_path st st' q.
Proof.
  intros Hgeo Hg Hgeo' Hg' HK HE q Hq Hx.
  assert (forall k nm x, no_nul nm -> has_entry st G k nm x -> has_entry st' G' k nm x) as HM
    by (intros; apply HE; auto).
  destruct (lookup_ok st G q Hgeo Hg Hq) as (r & L & Hr). rewrite (exists_by_view _ _ _ L) in Hx.
  destruct r as [[[e s] i]|]; [|done].
  destruct Hr as (h & nm & c & Es & Hn & Hh & Hs & Hi & -> & Hu & Hm).
  assert (has_entry st G h nm (eflags st s i, estart st s i, esize st s i)) as H0 by (by exists c, s, i).
  assert (split_last_nolock st' q = Some (Some (h, nm))) as Es'.
  { apply (split_mono st st' G G'); try done; [apply (k_root _ _ _ _ _ (HK 0))|apply (k_dir _ _ _ _ _ (HK 0))]. }
  destruct (k_dir _ _ _ _ _ (HK 0) _ _ Hh) as [c' Hh'].
  destruct (find_view st' G' h c' nm) as (r' & Ef' & Hv'); [done..|].
  assert (lookup_path st' q = Some r') as L' by (unfold lookup_path; by rewrite Es').
  pose proof (proj2 (Hv' _) (HM _ _ _ Hn H0)) as V'.
  unfold same_path. rewrite (exists_by_view _ _ _ L), (exists_by_view _ _ _ L'),
    (size_by_view _ _ _ L), (size_by_view _ _ _ L'), V'. splits.
  intros cap. rewrite (read_by_view _ _ _ _ L), (read_by_view _ _ _ _ L'), V'.
  apply (read_view_frame st st' G G' 0 Hgeo Hg) with (h := h) (name := nm); try done.
  simpl. destruct (entry_start _ _ _ _ _ Hg H0) as [z Hz]. intros E. simpl in Hz.
  rewrite E, (zero_not_head st G Hgeo Hg) in Hz. done.
Qed.

(** When the entry of the new folder cannot be inserted, the sector is given
    back in memory: the paths observe nothing. *)
Lemma folder_rollback st G f :
  fs_inv st G -> root st < f < total_disk_sectors st -> fat_get st f = FAT_FREE ->
  let st' := fat_set f FAT_FREE (take_sector f (replicate 512 FLAG_EMPTY) st) in
  (forall a, fat_get st' a = fat_get st a) /\ forall q, no_nul q -> same_path st st' q.
Proof.
  intros Hinv Hf Hfree st'. pose proof Hinv as [Hgeo _ _ _ Hg].
  set (zs := replicate 512 FLAG_EMPTY) in *.
  assert (length zs = 512%nat) as Hz by apply length_replicate.
  assert (forall s, root st <= s -> s <> f -> ata_read st' s = ata_read st s) as Hread.
  { intros s Hs Hne. unfold st'. rewrite ata_read_fat_set, (take_sector_read st G) by auto.
    destruct (Z.eqb_spec f s); [lia|done]. }
  assert (forall a, fat_get st' a = fat_get st a) as Hfat.
  { intros a. unfold st'. rewrite fat_get_set, take_sector_fat, (Z.eqb_sym f a).
    destruct (Z.eqb_spec a f); [by subst|done]. }
  assert (forall h d c s, G !! h = Some (d, c) -> s ∈ c -> ata_read st' s = ata_read st s) as Hch.
  { intros h d c s H Hs. apply Hread.
    - pose proof (g_range _ _ Hg _ _ _ _ H Hs). lia.
    - intros ->. by eapply (free_not_in st G f). }
  assert (same_geo st st') as HG by (etrans; [apply take_sector_geo|apply geo_fat_set]).
  pose proof (geometry_same _ _ HG Hgeo) as Hgeo'.
  assert (graph st' G) as Hg'.
  { apply (graph_chains_ext st); [done|by apply same_geo_root|by apply same_geo_total| |auto|eauto].
    intros s Hs. destruct (Z.eq_dec s f) as [->|]; [|rewrite Hread by done; by apply Hg].
    unfold st'. rewrite ata_read_fat_set. unfold take_sector. by rewrite ata_read_write_eq. }
  split; [done|]. intros q Hq.
  assert (same_entries st st' G G) as HE.
  { intros h nm x _. split; intros (c & s & i & Hh & Hs & Hx); exists c, s, i;
      unfold used, eflags, estart, esize, named in *; rewrite (Hch _ _ _ _ Hh Hs) in *; done. }
  apply (same_path_frame st st' G G 0); try done.
  - split; [by apply same_geo_root|eauto|]. intros y c _ Hy. split; [done|]. intros s Hs. by eapply Hch.
  - intros h c nm x _ Hnm _. by apply HE.
  - intros h nm x _ Hnm. split; [by apply HE|]. intros Hx E.
    destruct (entry_start _ _ _ _ _ Hg Hx) as [z Hzz]. rewrite E, (zero_not_head st G Hgeo Hg) in Hzz. done.
Qed.

(** What the paths observe when the entry of an empty folder was added. *)
Lemma folder_added st st3 G G2 path p cp name f :
  fs_inv st G -> fs_inv st3 G2 -> (forall X, keeps X st st3 G G2) -> no_nul path -> no_nul name ->
  split_last_nolock st path = Some (Some (p, name)) -> G !! p = Some (true, cp) -> G !! f = None ->
  (exists c, G2 !! f = Some (true, c)) ->
  (forall h nm x, no_nul nm -> has_entry st3 G2 h nm x <->
     has_entry st G h nm x \/ (h = p /\ nm = name /\ x = (FLAG_FOLDER, f, 0))) ->
  (exists e s i, lookup_path st3 path = Some (Some (e, s, i)) /\ flags e = FLAG_FOLDER /\
     forall nm, no_nul nm -> find_entry_in st3 (start_sector e) nm = Some None) /\
  (forall q, no_nul q -> kfs_exists st q = Some 1 -> same_path st st3 q).
Proof.
  intros Hinv I3 HK Hpath Hn Es Hp Hf [cf Hcf] HE.
  pose proof Hinv as [Hgeo _ _ _ Hg]. pose proof I3 as [Hgeo3 _ _ _ Hg3]. split.
  - destruct (k_dir _ _ _ _ _ (HK 0) _ _ Hp) as [cp3 Hp3].
    assert (split_last_nolock st3 path = Some (Some (p, name))) as Es3.
    { apply (split_mono st st3 G G2); try done; [apply HK; exact 0|apply (HK 0)|].
      intros; apply HE; auto. }
    destruct (find_view st3 G2 p cp3 name) as (r & Ef & Hv); [done..|].
    assert (has_entry st3 G2 p name (FLAG_FOLDER, f, 0)) as Hx by (apply HE; auto).
    apply Hv in Hx. destruct r as [[[e s] i]|]; [|done]. simpl in Hx. injection Hx as E1 E2 E3.
    exists e, s, i. split; [unfold lookup_path; by rewrite Es3|]. split; [done|].
    intros nm Hnm. rewrite E2. destruct (find_view st3 G2 f cf nm) as (r & -> & Hv2); [done..|].
    destruct r as [v|]; [exfalso|done]. destruct (Hv2 (view v)) as [H _]. specialize (H eq_refl).
    apply HE in H as [(c & ? & ? & Hc & _)|(-> & _)]; [|congruence|done]. congruence.
  - by apply (same_path_added st st3 G G2 p name (FLAG_FOLDER, f, 0)).
Qed.

(** [kfs_create_folder] on a well-formed file system, for a last component
    of at most 22 characters, terminates.  If it returns 1 the file system is
    well-formed, the path did not exist and now leads to a folder in which every
    look-up fails, and every path that existed is observed as before.  If it
    returns 0 every path is observed as before and the FAT in memory is
    unchanged. *)
Theorem kfs_create_folder_correct junk st G path :
  fs_inv st G -> no_nul path -> (length (last_name path) <= 22)%nat ->
  exists st' r, kfs_create_folder junk st path = Some (st', r) /\
  ((r = 1 /\ (exists G', fs_inv st' G') /\ kfs_exists st path = Some 0 /\
    (exists e s i, lookup_path st' path = Some (Some (e, s, i)) /\ flags e = FLAG_FOLDER /\
       forall nm, no_nul nm -> find_entry_in st' (start_sector e) nm = Some None) /\
    (forall q, no_nul q -> kfs_exists st q = Some 1 -> same_path st st' q))
   \/
   (r = 0 /\ (forall a, fat_get st' a = fat_get st a) /\ forall q, no_nul q -> same_path st st' q)).
Proof.
  intros Hinv Hpath Hlen. pose proof Hinv as [Hgeo _ _ _ Hg].
  destruct (geo_bounds st Hgeo) as (_ & _ & Hroot & _). unfold kfs_create_folder.
  assert (forall m, (forall a, fat_get (kprint m st) a = fat_get st a) /\
    forall q, no_nul q -> same_path st (kprint m st) q) as Hkp.
  { intros m. split; [intros a; unfold kprint; by destruct (tty_ready st)|].
    apply (same_entries_paths _ _ G G); [done|by apply kprint_inv|apply kprint_keeps|apply kprint_same_entries]. }
  destruct (split_ok st G path Hgeo Hg Hpath) as (r & Es & Hr). rewrite Es.
  destruct r as [[p name]|]; [|exists st, 0; split; [done|]; by right].
  destruct (Hr p name eq_refl) as (Hn & cp & Hp). pose proof (split_name _ _ _ _ Es) as En.
  destruct (find_view st G p cp name Hgeo Hg Hp Hn) as (r & Ef & Hv). rewrite Ef.
  assert (lookup_path st path = Some r) as L by (unfold lookup_path; by rewrite Es).
  pose proof (exists_by_view _ _ _ L) as Lx.
  destruct r as [v|]; [eexists _, 0; split; [done|]; right; split; [done|apply Hkp]|].
  destruct (find_free_spec st Hgeo) as [[-> _]|[Hf Hfree]];
    [eexists _, 0; split; [done|]; right; split; [done|apply Hkp]|].
  set (f := find_free_sector st) in *. destruct (Z.eqb_spec f 0); [lia|]. cbv zeta.
  set (zs := replicate 512 FLAG_EMPTY).
  change (ata_write f zs (kfs_sync_fat f (fat_set f FAT_EOF st))) with (take_sector f zs st).
  assert (length zs = 512%nat) as Hz by apply length_replicate.
  assert (G !! f = None) as HGf.
  { destruct (G !! f) as [[d c]|] eqn:E; [|done]. exfalso.
    eapply (free_not_in st G f); [done..|]. by eapply head_in. }
  pose proof (take_sector_inv st G f zs Hinv Hf Hfree Hz true (fun _ => eq_refl)) as I1.
  destruct (grow_frame st (take_sector f zs st) G f f true [] Hgeo Hg ltac:(apply take_sector_geo) Hfree)
    as (K1 & E1 & U1); [| |by right|].
  { intros s Hs Hne. rewrite (take_sector_read st G) by auto. destruct (Z.eqb_spec f s); [lia|done]. }
  { intros _ i Hi. apply zero_slots; [|done]. unfold take_sector. by rewrite ata_read_write_eq. }
  cbn [app] in K1, E1, U1. set (st1 := take_sector f zs st) in *. set (G1 := <[f := (true, [f])]> G) in *.
  assert (root st1 = root st) as Er1 by (apply same_geo_root, take_sector_geo).
  destruct (k_dir _ _ _ _ _ (K1 0 ltac:(auto)) _ _ Hp) as [cp1 Hp1].
  change FLAG_FOLDER with (flag_of true).
  destruct (commit_entry junk st1 G1 p cp1 name f 0 true [f])
    as [[-> _]|(st2 & G2 & -> & I3 & K3 & HE)];
    [done|done|unfold G1; by simplify_map_eq|lia|by apply U1, unreferenced_new|lia|done|done|by rewrite En| | |].
  { intros x Hx. apply E1 in Hx; [|done]. by apply Hv in Hx. }
  { eexists _, 0. split; [done|]. right. split; [done|]. by apply (folder_rollback st G f). }
  cbn [Z.eqb]. cbv zeta in I3, K3, HE. unfold count_and_write in I3, K3, HE.
  set (st3 := write_header (set_total_files (total_files (current_fs st2) + 1) st2)) in *.
  exists st3, 1. split; [done|]. left. split; [done|]. split; [eauto|]. split; [done|].
  apply (folder_added st st3 G G2 path p cp name f); try done.
  - intros X. eapply (keeps_trans X X); [by left|apply K1; by left|apply K3].
  - destruct (k_dir _ _ _ _ _ (K3 0) f [f]) as [c Hc]; [unfold G1; by simplify_map_eq|]. eauto.
  - intros h nm x Hnm. rewrite (HE h nm x Hnm), (E1 h nm x Hnm). done.
Qed.

(** ** Witnesses: a blank disk of 40 sectors *)

Definition no_junk (_ : Z) : Z := 0.
Definition blank (sectors : Z) : kfs :=
  mk_kfs ∅ (mk_header [0; 0; 0; 0] 0 0 (replicate 500 0)) false ∅ 0 0 sectors true [].
Definition demo_fs : kfs := kfs_format (blank 40).
Definition demo_data : list Z := [104; 97; 108; 111].
Definition demo_path : list Z := bytes_of "/a.txt".

Lemma blank_formattable : formattable (blank 40).
Proof.
  split; [vm_compute; reflexivity|vm_compute; reflexivity|reflexivity| |].
  - intros s. change (ata_read (blank 40) s) with (default zero_sector ((∅ : gmap Z (list Z)) !! s)).
    rewrite lookup_empty. apply length_replicate.
  - intros i Hi. change (fat_get (blank 40) i) with 0. lia.
Qed.

Lemma no_nul_dec (l : list Z) : forallb (fun c => negb (c =? 0)) l = true -> no_nul l.
Proof.
  intros H. apply Forall_forall. intros x Hx%list_elem_of_In. rewrite forallb_forall in H.
  specialize (H x Hx). by zprop.
Qed.

Lemma kfs_format_correct_witness :
  formattable (blank 40) /\ kfs_exists (kfs_format (blank 40)) demo_path = Some 0 /\
  fat_get (kfs_format (blank 40)) 3 = FAT_FREE.
Proof.
  destruct (kfs_format_correct (blank 40) blank_formattable) as (_ & H1 & H2).
  split; [exact blank_formattable|]. split.
  - apply H1, no_nul_dec. vm_compute. reflexivity.
  - apply H2. split; vm_compute; reflexivity.
Defined.

Lemma demo_fs_inv : fs_inv demo_fs (empty_fs demo_fs).
Proof. exact (format_inv (blank 40) blank_formattable). Qed.

Lemma demo_path_ok : no_nul demo_path.
Proof. apply no_nul_dec. vm_compute. reflexivity. Qed.

(** The return code of an operation on a concrete state. *)
Definition code {A : Type} (r : option (A * Z)) : Z := match r with Some (_, c) => c | None => -1 end.


(** The file system with one file. *)
Lemma demo_file :
  exists st' G', kfs_create_file no_junk demo_fs demo_path demo_data = Some (st', 1) /\ fs_inv st' G' /\
    kfs_exists st' demo_path = Some 1 /\ kfs_read_to_buffer st' demo_path 100 = Some (1, demo_data).
Proof.
  destruct (create_file_spec no_junk demo_fs (empty_fs demo_fs) demo_path demo_data
    demo_fs_inv demo_path_ok ltac:(vm_compute; lia) ltac:(vm_compute; reflexivity))
    as (st' & r & E & [G' HI] & [(-> & _ & H1 & _ & H2 & _)|(-> & _)]).
  - exists st', G'. split; [exact E|]. split; [exact HI|]. split; [exact H1|].
    apply H2. vm_compute. discriminate.
  - exfalso. assert (code (kfs_create_file no_junk demo_fs demo_path demo_data) = 1) as C
      by (vm_compute; reflexivity).
    rewrite E in C. discriminate.
Qed.

Lemma kfs_delete_file_correct_witness :
  exists st st', kfs_create_file no_junk demo_fs demo_path demo_data = Some (st, 1) /\
    kfs_delete_file st demo_path = Some st' /\ kfs_exists st demo_path = Some 1 /\
    kfs_exists st' demo_path = Some 0.
Proof.
  destruct demo_file as (st & G & E & HI & Hx & Hr).
  destruct (kfs_delete_file_correct st G demo_path HI demo_path_ok)
    as (st' & Ed & _ & [(e & s & i & c & _ & _ & _ & _ & H & _)|[[L|(e & s & i & L & Ef)] _]]).
  - exists st, st'. split; [exact E|]. split; [exact Ed|]. split; [exact Hx|exact H].
  - exfalso. unfold kfs_exists in Hx. rewrite L in Hx. discriminate.
  - exfalso. unfold kfs_read_to_buffer in Hr. rewrite L in Hr.
    assert (match kfs_create_file no_junk demo_fs demo_path demo_data with
            | Some (st, _) => match lookup_path st demo_path with
                              | Some (Some (e, _, _)) => flags e | _ => 0 end
            | None => 0 end = FLAG_FILE) as C by (vm_compute; reflexivity).
    rewrite E, L, Ef in C. discriminate.
Defined.

(** A restart with cleared memory. *)
Lemma kfs_init_restores_witness :
  exists st st0, kfs_create_file no_junk demo_fs demo_path demo_data = Some (st, 1) /\
    disk st0 = disk st /\ fat_table st0 = ∅ /\
    kfs_read_to_buffer (kfs_init st0) demo_path 100 = Some (1, demo_data).
Proof.
  destruct demo_file as (st & G & E & HI & Hx & Hr).
  set (st0 := mk_kfs (disk st) (mk_header [] 0 0 []) false ∅ 0 0 (ata_total st) true []).
  destruct (kfs_init_restores st G st0 HI eq_refl eq_refl) as (_ & _ & _ & _ & H).
  destruct (H demo_path demo_path_ok) as (_ & _ & H2).
  exists st, st0. split; [exact E|]. split; [reflexivity|]. split; [reflexivity|].
  rewrite (H2 100). exact Hr.
Defined.

Lemma kfs_create_folder_correct_witness :
  exists st' e s i, kfs_create_folder no_junk demo_fs (bytes_of "/apps") = Some (st', 1) /\
    lookup_path st' (bytes_of "/apps") = Some (Some (e, s, i)) /\ flags e = FLAG_FOLDER.
Proof.
  destruct (kfs_create_folder_correct no_junk demo_fs (empty_fs demo_fs) (bytes_of "/apps")
    demo_fs_inv ltac:(apply no_nul_dec; vm_compute; reflexivity) ltac:(vm_compute; lia))
    as (st' & r & E & [(-> & _ & _ & (e & s & i & L & F & _) & _)|(-> & _)]).
  - exists st', e, s, i. split; [exact E|]. split; [exact L|exact F].
  - exfalso. assert (code (kfs_create_folder no_junk demo_fs (bytes_of "/apps")) = 1) as C
      by (vm_compute; reflexivity).
    rewrite E in C. discriminate.
Defined.

(** ** Limits of the code *)

(** A disk of 20 sectors whose root directory holds 16 files of one sector
    each, with one free sector left. *)
Definition full_root : kfs :=
  foldl (fun st k => match kfs_create_file no_junk st [SLASH; 97 + k] [k] with
                     | Some (st', _) => st' | None => st end)
        (kfs_format (blank 20)) (zrange 0 16).

Definition failed_folder : kfs :=
  match kfs_create_folder no_junk full_root (bytes_of "/z") with Some (st, _) => st | None => full_root end.

(** When the entry of a new folder cannot be inserted, the roll back of
    [kfs_create_folder] frees the sector in memory only.  On a disk of 20 sectors
    with a full root directory and one free sector, the call returns 0 and the
    sector is free in memory, but after a restart it is allocated and the disk
    has no free sector left: it is lost. *)
Theorem kfs_create_folder_rollback_lost :
  code (kfs_create_folder no_junk full_root (bytes_of "/z")) = 0 /\
  fat_get full_root 19 = FAT_FREE /\ fat_get failed_folder 19 = FAT_FREE /\
  fat_get (kfs_init failed_folder) 19 = FAT_EOF /\
  find_free_sector failed_folder = 19 /\ find_free_sector (kfs_init failed_folder) = 0.
Proof. repeat split; vm_compute; reflexivity. Qed.

(** A name of more than 22 characters is stored truncated: the creation
    reports success, the path does not exist afterwards, and the same creation
    succeeds again, with a second entry of the same stored name. *)
Theorem kfs_long_name_truncated :
  let path := bytes_of "/abcdefghijklmnopqrstuvwxyz" in
  let st1 := match kfs_create_file no_junk demo_fs path demo_data with Some (st, _) => st | None => demo_fs end in
  code (kfs_create_file no_junk demo_fs path demo_data) = 1 /\ kfs_exists st1 path = Some 0 /\
  kfs_exists st1 (bytes_of "/abcdefghijklmnopqrstuv") = Some 1 /\
  code (kfs_create_file no_junk st1 path demo_data) = 1.
Proof. repeat split; vm_compute; reflexivity. Qed.

End KfsBoot.
