(* ===== verification/Vfs.v ===== *)
(** * File descriptors (src/kernel/vfs_fd.c)

    Every task owns a window of 16 descriptors in one pool.  An open file is
    buffered: opening loads it from KyuzenFS, reading, writing and seeking work
    on the buffer, closing writes it back when it is dirty.

    The kernel heap is used through the class [ByteHeap]: what the layer needs
    of [kmalloc], [kfree] and [krealloc] is a buffer of the requested length
    with unspecified contents, or a failure, and a reallocation that keeps the
    old bytes.  KyuzenFS is the model of [Kfs].  [vfs_lock] is held for the
    table accesses of each call; calls are modelled as atomic. *)

From S2P Require Import Prelude Sched KString Kfs.
From Stdlib Require Import String.
From stdpp Require Import base numbers list gmap.
From Stdlib Require Import ZArith Lia.

#[local] Open Scope list_scope.
#[local] Open Scope Z_scope.

(** The heap as this layer sees it. *)
Class ByteHeap (H : Type) := {
  bh_kmalloc : Z -> H -> H * option (list Z);
  bh_kfree : list Z -> H -> H;
  bh_krealloc : list Z -> Z -> Z -> H -> H * option (list Z)
}.

(** A block has the requested length; a reallocation keeps the common prefix. *)
Class ByteHeapOk (H : Type) `{ByteHeap H} : Prop := {
  bh_malloc_len : forall n h b, 0 <= n -> (bh_kmalloc n h).2 = Some b -> length b = Z.to_nat n;
  bh_realloc_len : forall b o n h b', 0 <= n -> (bh_krealloc b o n h).2 = Some b' -> length b' = Z.to_nat n;
  bh_realloc_keeps : forall b o n h b' i, (bh_krealloc b o n h).2 = Some b' ->
    0 <= i < o -> i < n -> KString.str b' i = KString.str b i
}.

Module Vfs.
Import KString Kfs.

Definition MAX_TASKS : Z := Sched.MAX_TASKS.
Definition VFS_MAX_FDS : Z := 16.
Definition VFS_MAX_PATH : Z := 23.
Definition VFS_O_WRONLY : Z := 1.
Definition VFS_O_RDWR : Z := 2.
Definition VFS_O_CREAT : Z := 4.
Definition VFS_O_TRUNC : Z := 8.
Definition VFS_O_APPEND : Z := 16.
Definition VFS_SEEK_CUR : Z := 1.
Definition VFS_SEEK_END : Z := 2.
Definition UINT32_MAX : Z := 4294967295.

(** [buf = None] is the null pointer. *)
Record vfs_file_t := mk_file {
  used : bool; owner : Z; path : list Z; buf : option (list Z);
  size : Z; cap : Z; pos : Z; flags : Z; dirty : bool
}.
Definition no_file : vfs_file_t := mk_file false 0 [] None 0 0 0 0 false.

Section vfs.
Context {H : Type} `{ByteHeap H} (junk : Z -> Z).

Record vfs := mk_vfs { fds : gmap Z vfs_file_t; vkfs : kfs; vheap : H }.

Definition fd_at (st : vfs) (s : Z) : vfs_file_t := default no_file (fds st !! s).
Definition set_fd (s : Z) (vf : vfs_file_t) (st : vfs) : vfs :=
  mk_vfs (<[s := vf]> (fds st)) (vkfs st) (vheap st).
Definition set_kfs (k : kfs) (st : vfs) : vfs := mk_vfs (fds st) k (vheap st).
Definition set_heap (h : H) (st : vfs) : vfs := mk_vfs (fds st) (vkfs st) h.

Definition set_pos (p : Z) (vf : vfs_file_t) : vfs_file_t :=
  mk_file (used vf) (owner vf) (path vf) (buf vf) (size vf) (cap vf) p (flags vf) (dirty vf).

Definition has_flag (fl bit : Z) : bool := negb (Z.land fl bit =? 0).

Definition vfs_init (st : vfs) : vfs :=
  for_loop 0 (MAX_TASKS * VFS_MAX_FDS) (fun i st =>
    let vf := fd_at st i in
    set_fd i (mk_file false (owner vf) (path vf) None (size vf) (cap vf) (pos vf) (flags vf) (dirty vf)) st) st.

Definition path_copy (src : list Z) : list Z := take (Z.to_nat (VFS_MAX_PATH - 1)) src.

Definition slot_of (task_id fd : Z) : Z :=
  if (task_id <? 0) || (MAX_TASKS <=? task_id) then -1
  else if (fd <? 0) || (VFS_MAX_FDS <=? fd) then -1
  else task_id * VFS_MAX_FDS + fd.

(** The slot of the descriptor and its file; [tid] is [smp_current_task_id()]. *)
Definition resolve (st : vfs) (tid fd : Z) : option (Z * vfs_file_t) :=
  let s := slot_of tid fd in
  if s <? 0 then None
  else let vf := fd_at st s in
       if negb (used vf) || negb (owner vf =? tid) then None else Some (s, vf).

(** The part of [vfs_open] after the buffer was allocated and filled. *)
Definition install_fd (st : vfs) (tid : Z) (p : list Z) (fl : Z) (ex : bool) (b : list Z) (fsize cp : Z)
  : vfs * Z :=
  let base := tid * VFS_MAX_FDS in
  match find_loop 0 VFS_MAX_FDS (fun i => negb (used (fd_at st (base + i)))) with
  | None => (set_heap (bh_kfree b (vheap st)) st, -1)
  | Some fd =>
      (set_fd (base + fd)
         (mk_file true tid (path_copy p) (Some b) fsize cp
            (if has_flag fl VFS_O_APPEND then fsize else 0) fl (negb ex || has_flag fl VFS_O_TRUNC)) st, fd)
  end.

(** [None] is a call of KyuzenFS that does not return. *)
Definition vfs_open (st : vfs) (tid : Z) (p : list Z) (fl : Z) : option (vfs * Z) :=
  match p with
  | [] => Some (st, -1)
  | _ =>
      if (tid <? 0) || (MAX_TASKS <=? tid) then Some (st, -1)
      else
        match kfs_exists (vkfs st) p, kfs_get_file_size (vkfs st) p with
        | Some e, Some sz =>
            let ex := negb (e =? 0) in
            if negb ex && negb (has_flag fl VFS_O_CREAT) then Some (st, -1)
            else
              let fsize := if ex then sz else 0 in
              let cp := if fsize <? 64 then 64 else fsize in
              let '(h, ob) := bh_kmalloc cp (vheap st) in
              let st := set_heap h st in
              match ob with
              | None => Some (st, -1)
              | Some b =>
                  if ex && negb (has_flag fl VFS_O_TRUNC) && (0 <? fsize) then
                    match kfs_read_to_buffer (vkfs st) p cp with
                    | None => None
                    | Some (r, bytes) =>
                        if r =? 0 then Some (set_heap (bh_kfree b (vheap st)) st, -1)
                        else Some (install_fd st tid p fl ex (put_bytes b 0 bytes) fsize cp)
                    end
                  else Some (install_fd st tid p fl ex b 0 cp)
              end
        | _, _ => None
        end
  end.

(** The bytes copied to the caller, and the return value. *)
Definition vfs_read (st : vfs) (tid fd count : Z) : vfs * Z * list Z :=
  match resolve st tid fd with
  | None => (st, -1, [])
  | Some (s, vf) =>
      if has_flag (flags vf) VFS_O_WRONLY then (st, -1, [])
      else
        let avail := if pos vf <? size vf then size vf - pos vf else 0 in
        let n := if count <? avail then count else avail in
        let bytes := map (fun i => str (default [] (buf vf)) (pos vf + i)) (zrange 0 n) in
        (set_fd s (set_pos (u32 (pos vf + n)) vf) st, i32 n, bytes)
  end.

(** The doubling loop; at most 33 rounds. *)
Fixpoint grow_cap (fuel : nat) (newcap need : Z) : option Z :=
  match fuel with
  | O => None
  | S fuel =>
      if newcap <? need then
        let next := u32 (newcap * 2) in
        if next <=? newcap then None else grow_cap fuel next need
      else Some newcap
  end.

(** [None] is the return value -1. *)
Definition ensure_cap (h : H) (vf : vfs_file_t) (need : Z) : H * option vfs_file_t :=
  if need <=? cap vf then (h, Some vf)
  else if UINT32_MAX <? need then (h, None)
  else
    match grow_cap 33 (if cap vf =? 0 then 64 else cap vf) need with
    | None => (h, None)
    | Some newcap =>
        let '(h, ob) := bh_krealloc (default [] (buf vf)) (cap vf) newcap h in
        match ob with
        | None => (h, None)
        | Some nb => (h, Some (mk_file (used vf) (owner vf) (path vf) (Some nb) (size vf) newcap
                                 (pos vf) (flags vf) (dirty vf)))
        end
    end.

Definition vfs_write (st : vfs) (tid fd : Z) (data : list Z) : vfs * Z :=
  match resolve st tid fd with
  | None => (st, -1)
  | Some (s, vf) =>
      if Z.land (flags vf) (Z.lor VFS_O_WRONLY VFS_O_RDWR) =? 0 then (st, -1)
      else
        let count := Z.of_nat (length data) in
        let vf := if has_flag (flags vf) VFS_O_APPEND then set_pos (size vf) vf else vf in
        match ensure_cap (vheap st) vf (pos vf + count) with
        | (h, None) => (set_fd s vf (set_heap h st), -1)
        | (h, Some vf) =>
            let p := u32 (pos vf + count) in
            (set_fd s (mk_file (used vf) (owner vf) (path vf)
                         (Some (put_bytes (default [] (buf vf)) (pos vf) data))
                         (if size vf <? p then p else size vf) (cap vf) p (flags vf) true)
               (set_heap h st), i32 count)
        end
  end.

Definition vfs_lseek (st : vfs) (tid fd offset whence : Z) : vfs * Z :=
  match resolve st tid fd with
  | None => (st, -1)
  | Some (s, vf) =>
      let base := if whence =? VFS_SEEK_CUR then pos vf
                  else if whence =? VFS_SEEK_END then size vf else 0 in
      let np := base + offset in
      if (np <? 0) || (UINT32_MAX <? np) then (st, -1)
      else (set_fd s (set_pos np vf) st, i32 np)
  end.

Definition flush_locked (k : kfs) (vf : vfs_file_t) : option kfs :=
  if dirty vf then
    match kfs_exists k (path vf) with
    | None => None
    | Some e =>
        match (if negb (e =? 0) then kfs_delete_file k (path vf) else Some k) with
        | None => None
        | Some k =>
            match kfs_create_file junk k (path vf) (take (Z.to_nat (size vf)) (default [] (buf vf))) with
            | None => None
            | Some (k, _) => Some k
            end
        end
    end
  else Some k.

(** [flush_locked(vf); kfree(vf->buf); vf->buf = NULL; vf->used = 0;] *)
Definition close_slot (st : vfs) (s : Z) : option vfs :=
  let vf := fd_at st s in
  match flush_locked (vkfs st) vf with
  | None => None
  | Some k =>
      Some (set_fd s (mk_file false (owner vf) (path vf) None (size vf) (cap vf) (pos vf) (flags vf) false)
              (set_heap (bh_kfree (default [] (buf vf)) (vheap st)) (set_kfs k st)))
  end.

Definition vfs_close (st : vfs) (tid fd : Z) : option (vfs * Z) :=
  match resolve st tid fd with
  | None => Some (st, -1)
  | Some (s, _) => match close_slot st s with None => None | Some st => Some (st, 0) end
  end.

Definition vfs_close_all (st : vfs) (task_id : Z) : option vfs :=
  if (task_id <? 0) || (MAX_TASKS <=? task_id) then Some st
  else
    for_loop 0 VFS_MAX_FDS (fun i ost =>
      match ost with
      | None => None
      | Some st =>
          let s := task_id * VFS_MAX_FDS + i in
          if used (fd_at st s) then close_slot st s else Some st
      end) (Some st).
End vfs.
#[global] Arguments vfs : clear implicits.

End Vfs.
