(* ===== verification/VfsThm.v ===== *)
(** * File descriptors: correctness

    An open file is a byte array with a position; descriptors of different
    tasks do not interfere; closing a dirty descriptor makes its contents the
    contents of the file.  The theorems hold for every heap that satisfies
    [ByteHeapOk]. *)

From S2P Require Import Prelude KString Kfs KfsSpec KfsInv KfsOps KfsData KfsThm KfsBoot Vfs.
From Stdlib Require Import String.
From stdpp Require Import base numbers list gmap.
From Stdlib Require Import ZArith Lia.

#[local] Open Scope list_scope.
#[local] Open Scope Z_scope.

Module VfsThm.
Import KString KfsThm Vfs.

(** ** The table *)

(** An open file has a buffer of [cap] bytes, of which [size] are valid, and a
    path that fits in its field. *)
Definition file_ok (vf : vfs_file_t) : Prop :=
  used vf = true ->
  exists b, buf vf = Some b /\ length b = Z.to_nat (cap vf) /\ 0 <= size vf <= cap vf /\
    cap vf < 2 ^ 32 /\ 0 <= pos vf < 2 ^ 32 /\ (length (path vf) <= 22)%nat /\ no_nul (path vf).

(** The valid bytes of an open file. *)
Definition contents (vf : vfs_file_t) : list Z := take (Z.to_nat (size vf)) (default [] (buf vf)).

Section thm.
Context {H : Type} `{ByteHeapOk H}.
Implicit Types st : vfs H.

Definition table_ok (st : vfs H) : Prop :=
  forall s, file_ok (fd_at st s) /\ (used (fd_at st s) = true -> owner (fd_at st s) = s / VFS_MAX_FDS).

Lemma fd_at_set s vf st s' : fd_at (set_fd s vf st) s' = if s =? s' then vf else fd_at st s'.
Proof.
  unfold fd_at, set_fd; simpl. destruct (Z.eqb_spec s s') as [->|].
  - by rewrite lookup_insert_eq.
  - by rewrite lookup_insert_ne.
Qed.

Lemma fd_at_heap h st s : fd_at (set_heap h st) s = fd_at st s.
Proof. done. Qed.

(** A descriptor resolves to a slot of the task's window. *)
Lemma resolve_spec st tid fd s vf :
  resolve st tid fd = Some (s, vf) ->
  0 <= tid < MAX_TASKS /\ 0 <= fd < VFS_MAX_FDS /\ s = tid * VFS_MAX_FDS + fd /\ s / VFS_MAX_FDS = tid /\
  vf = fd_at st s /\ used vf = true /\ owner vf = tid.
Proof.
  unfold resolve, slot_of.
  destruct (Z.ltb_spec tid 0), (Z.leb_spec MAX_TASKS tid); cbn [orb Z.ltb]; try done.
  destruct (Z.ltb_spec fd 0), (Z.leb_spec VFS_MAX_FDS fd); cbn [orb Z.ltb]; try done.
  destruct (Z.ltb_spec (tid * VFS_MAX_FDS + fd) 0); [done|].
  destruct (used (fd_at st (tid * VFS_MAX_FDS + fd))) eqn:Eu; simpl; [|done].
  destruct (Z.eqb_spec (owner (fd_at st (tid * VFS_MAX_FDS + fd))) tid); simpl; [|done].
  intros [= <- <-]. splits. unfold VFS_MAX_FDS in *. divlia.
Qed.

Lemma table_ok_set st s vf :
  table_ok st -> file_ok vf -> (used vf = true -> owner vf = s / VFS_MAX_FDS) -> table_ok (set_fd s vf st).
Proof.
  intros Ht Hf Ho s'. rewrite fd_at_set. destruct (Z.eqb_spec s s') as [<-|]; [done|apply Ht].
Qed.

Lemma table_ok_heap st h : table_ok st -> table_ok (set_heap h st).
Proof. done. Qed.

Lemma file_ok_pos vf p : 0 <= p < 2 ^ 32 -> file_ok vf -> file_ok (set_pos p vf).
Proof.
  intros Hp Hf Hu. destruct (Hf Hu) as (b & E & Hl & Hs & Hc & _ & Hn). by exists b.
Qed.

(** ** Growing the buffer *)

(** The doubling loop returns a capacity that fits on 32 bits. *)
Lemma grow_cap_spec fuel c need n :
  0 < c < 2 ^ 32 -> grow_cap fuel c need = Some n -> need <= n /\ c <= n < 2 ^ 32.
Proof.
  revert c. induction fuel as [|fuel IH]; intros c Hc; simpl; [done|].
  destruct (Z.ltb_spec c need); [|intros [= <-]; lia].
  destruct (Z.leb_spec (u32 (c * 2)) c); [done|].
  pose proof (wrap_bound 32 (c * 2) ltac:(lia)). intros E.
  destruct (IH (u32 (c * 2))) as [? ?]; [lia|done|]. lia.
Qed.

(** 33 rounds are enough: the value doubles from at least 1. *)
Lemma grow_cap_enough k c need fuel :
  0 < c < 2 ^ 32 -> 2 ^ 32 <= c * 2 ^ Z.of_nat k -> (k < fuel)%nat ->
  grow_cap fuel c need = grow_cap (S k) c need.
Proof.
  revert c fuel. induction k as [|k IH]; intros c fuel Hc Hk Hf.
  { simpl in Hk. lia. }
  destruct fuel as [|fuel]; [lia|]. cbn [grow_cap].
  destruct (c <? need); [|done]. destruct (Z.leb_spec (u32 (c * 2)) c) as [|Hn]; [done|].
  assert (u32 (c * 2) = c * 2) as E.
  { unfold wrap in *. destruct (Z.lt_ge_cases (c * 2) (2 ^ 32)); [by rewrite Z.mod_small by lia|].
    rewrite (Z.mod_eq (c * 2)) in Hn by lia.
    assert (c * 2 / 2 ^ 32 = 1) by divlia. lia. }
  rewrite E. apply IH; [rewrite <- E; pose proof (wrap_bound 32 (c * 2) ltac:(lia)); lia| |lia].
  rewrite Nat2Z.inj_succ, Z.pow_succ_r in Hk by lia. lia.
Qed.

Lemma ensure_cap_spec h vf need h' vf' :
  file_ok vf -> used vf = true -> 0 <= need -> ensure_cap h vf need = (h', Some vf') ->
  file_ok vf' /\ need <= cap vf' /\ need < 2 ^ 32 /\
  used vf' = used vf /\ owner vf' = owner vf /\ path vf' = path vf /\ size vf' = size vf /\
  pos vf' = pos vf /\ flags vf' = flags vf /\
  forall i, 0 <= i < cap vf -> str (default [] (buf vf')) i = str (default [] (buf vf)) i.
Proof.
  intros Hf Hu Hn. destruct (Hf Hu) as (b & Eb & Hl & Hs & Hc & Hp & Hpl & Hpn). unfold ensure_cap.
  destruct (Z.leb_spec need (cap vf)).
  { intros [= <- <-]. splits. }
  unfold UINT32_MAX. destruct (Z.ltb_spec 4294967295 need); [done|].
  destruct (grow_cap 33 _ need) as [n|] eqn:Eg; [|done].
  assert (need <= n /\ cap vf <= n < 2 ^ 32) as [Hn1 Hn2].
  { revert Eg. destruct (Z.eqb_spec (cap vf) 0); intros Eg; apply grow_cap_spec in Eg; lia. }
  destruct (bh_krealloc _ _ _ _) as [h1 [nb|]] eqn:Er; [|done]. intros [= <- <-]. simpl.
  assert ((bh_krealloc (default [] (buf vf)) (cap vf) n h).2 = Some nb) as Er2 by (by rewrite Er).
  splits.
  - intros _. exists nb. simpl. splits. apply (bh_realloc_len (default [] (buf vf)) (cap vf) n h nb ltac:(lia) Er2).
  - intros i Hi. apply (bh_realloc_keeps _ _ _ _ _ i Er2); lia.
Qed.

(** ** Writing *)

(** The position at which a write starts. *)
Definition write_pos (vf : vfs_file_t) : Z := if has_flag (flags vf) VFS_O_APPEND then size vf else pos vf.

Lemma write_spec st tid fd data s vf :
  table_ok st -> resolve st tid fd = Some (s, vf) -> Z.land (flags vf) 3 <> 0 ->
  let p := write_pos vf in let n := Z.of_nat (length data) in
  exists st' r, vfs_write st tid fd data = (st', r) /\ table_ok st' /\ vkfs st' = vkfs st /\
    (forall s', s' <> s -> fd_at st' s' = fd_at st s') /\
    let vf' := fd_at st' s in
    path vf' = path vf /\ flags vf' = flags vf /\ owner vf' = owner vf /\ used vf' = true /\
    ((r = -1 /\ vf' = set_pos p vf) \/
     (r = i32 n /\ p + n < 2 ^ 32 /\ size vf' = Z.max (size vf) (p + n) /\ pos vf' = p + n /\ dirty vf' = true /\
      (forall i, 0 <= i < n -> str (contents vf') (p + i) = str data i) /\
      (forall i, 0 <= i < size vf -> i < p \/ p + n <= i -> str (contents vf') i = str (contents vf) i))).
Proof.
  intros Ht Hr Hfl p n. destruct (resolve_spec _ _ _ _ _ Hr) as (_ & _ & _ & Hs & Evf & Hu & Ho).
  destruct (Ht s) as [Hf _]. rewrite <- Evf in Hf. unfold vfs_write. rewrite Hr.
  change (Z.lor VFS_O_WRONLY VFS_O_RDWR) with 3. destruct (Z.eqb_spec (Z.land (flags vf) 3) 0); [done|].
  cbv zeta. fold n. set (vf1 := if has_flag (flags vf) VFS_O_APPEND then set_pos (size vf) vf else vf).
  destruct (Hf Hu) as (b & Eb & Hl & Hsz & Hc & Hpos & Hpl & Hpn).
  assert (vf1 = set_pos p vf) as E1.
  { unfold vf1, p, write_pos. destruct (has_flag _ _); [done|]. by destruct vf. }
  assert (0 <= p < 2 ^ 32) as Hp by (unfold p, write_pos; destruct (has_flag _ _); lia).
  pose proof (file_ok_pos vf p Hp Hf) as Hf1. rewrite E1. clear E1 vf1.
  assert (pos (set_pos p vf) = p) as -> by done.
  destruct (ensure_cap (vheap st) (set_pos p vf) (p + n)) as [h' [vf2|]] eqn:Ec.
  2:{ eexists _, (-1). split; [done|].
      split; [apply table_ok_set; [by apply table_ok_heap|done|simpl; congruence]|].
      split; [done|]. split; [intros s' Hs'; rewrite fd_at_set; destruct (Z.eqb_spec s s'); [lia|done]|].
      rewrite fd_at_set, Z.eqb_refl. splits. by left. }
  destruct (ensure_cap_spec (vheap st) (set_pos p vf) (p + n) h' vf2 Hf1 Hu ltac:(lia) Ec)
    as (Hf2 & Hn2 & Hn32 & U2 & O2 & P2 & S2 & Q2 & F2 & B2). simpl in U2, O2, P2, S2, Q2, F2, B2.
  destruct (Hf2 ltac:(congruence)) as (b2 & Eb2 & Hl2 & Hsz2 & Hc2 & _).
  rewrite Q2, wrap_small by lia. rewrite Eb2 in B2 |- *. simpl in B2 |- *. rewrite Eb in B2. simpl in B2.
  set (b3 := Kfs.put_bytes b2 p data).
  assert (length b3 = length b2) as L3 by (apply KfsSpec.length_put_bytes; lia).
  set (sz' := if size vf2 <? p + n then p + n else size vf2).
  assert (sz' = Z.max (size vf) (p + n)) as Esz by (unfold sz'; rewrite S2; destruct (Z.ltb_spec (size vf) (p + n)); lia).
  eexists _, (i32 n). split; [done|].
  split.
  { apply table_ok_set; [by apply table_ok_heap| |simpl; congruence].
    intros _. exists b3. simpl. splits; by rewrite P2. }
  split; [done|]. split; [intros s' Hs'; rewrite fd_at_set; destruct (Z.eqb_spec s s'); [lia|done]|].
  rewrite fd_at_set, Z.eqb_refl. simpl. splits; [congruence|]. right. splits.
  - intros i Hi. unfold contents; simpl. unfold str at 1. rewrite lookup_take_lt by lia. fold (str b3 (p + i)).
    unfold b3. rewrite KfsSpec.str_put_bytes by lia.
    destruct (Z.leb_spec p (p + i)), (Z.ltb_spec (p + i) (p + Z.of_nat (length data))); simpl; try lia.
    f_equal. lia.
  - intros i Hi Hout. unfold contents; simpl. rewrite Eb; simpl.
    unfold str at 1 2. rewrite !lookup_take_lt by lia. fold (str b3 i) (str b i).
    rewrite <- B2 by lia. unfold b3. rewrite KfsSpec.str_put_bytes by lia.
    destruct (Z.leb_spec p i), (Z.ltb_spec i (p + Z.of_nat (length data))); simpl; try lia; done.
Qed.

(** [vfs_write] on an open, writable descriptor.  It fails with -1, the
    contents unchanged, only if the end of the write does not fit on 32 bits or
    the buffer cannot grow; otherwise it stores the data at the position (at
    the end in append mode), advances the position, extends the size if needed,
    marks the file dirty, and changes no other byte, no other descriptor and
    nothing on the disk. *)
Theorem vfs_write_correct st tid fd data s vf :
  table_ok st -> resolve st tid fd = Some (s, vf) -> Z.land (flags vf) 3 <> 0 ->
  let p := write_pos vf in let n := Z.of_nat (length data) in
  exists st' r, vfs_write st tid fd data = (st', r) /\ table_ok st' /\ vkfs st' = vkfs st /\
    (forall s', s' <> s -> fd_at st' s' = fd_at st s') /\
    let vf' := fd_at st' s in
    path vf' = path vf /\ flags vf' = flags vf /\ owner vf' = owner vf /\ used vf' = true /\
    ((r = -1 /\ vf' = set_pos p vf) \/
     (r = i32 n /\ p + n < 2 ^ 32 /\ size vf' = Z.max (size vf) (p + n) /\ pos vf' = p + n /\ dirty vf' = true /\
      (forall i, 0 <= i < n -> str (contents vf') (p + i) = str data i) /\
      (forall i, 0 <= i < size vf -> i < p \/ p + n <= i -> str (contents vf') i = str (contents vf) i))).
Proof. exact (write_spec st tid fd data s vf). Qed.

(** ** Reading and seeking *)

Lemma resolve_set st tid fd s vf vf' :
  resolve st tid fd = Some (s, vf) -> used vf' = true -> owner vf' = owner vf ->
  resolve (set_fd s vf' st) tid fd = Some (s, vf').
Proof.
  intros Hr Hu Ho. pose proof (resolve_spec _ _ _ _ _ Hr) as (Ht & Hf & -> & _ & _ & _ & Ho').
  unfold resolve, slot_of.
  destruct (Z.ltb_spec tid 0), (Z.leb_spec MAX_TASKS tid), (Z.ltb_spec fd 0), (Z.leb_spec VFS_MAX_FDS fd);
    simpl; try lia.
  destruct (Z.ltb_spec (tid * VFS_MAX_FDS + fd) 0); [unfold VFS_MAX_FDS in *; lia|].
  rewrite fd_at_set, Z.eqb_refl, Hu, Ho, Ho', Z.eqb_refl. done.
Qed.

Lemma read_spec st tid fd count s vf :
  table_ok st -> resolve st tid fd = Some (s, vf) -> has_flag (flags vf) VFS_O_WRONLY = false -> 0 <= count ->
  let n := Z.min count (Z.max 0 (size vf - pos vf)) in
  vfs_read st tid fd count =
    (set_fd s (set_pos (pos vf + n) vf) st, i32 n,
     map (fun i => str (contents vf) (pos vf + i)) (zrange 0 n)).
Proof.
  intros Ht Hr Hw Hc n. destruct (resolve_spec _ _ _ _ _ Hr) as (_ & _ & _ & _ & Evf & Hu & _).
  destruct (Ht s) as [Hf _]. rewrite <- Evf in Hf. destruct (Hf Hu) as (b & Eb & Hl & Hs & Hcap & Hp & _).
  unfold vfs_read. rewrite Hr, Hw. cbv zeta.
  set (avail := if pos vf <? size vf then size vf - pos vf else 0).
  assert ((if count <? avail then count else avail) = n) as ->.
  { unfold avail, n. destruct (Z.ltb_spec (pos vf) (size vf)).
    - destruct (Z.ltb_spec count (size vf - pos vf)); lia.
    - destruct (Z.ltb_spec count 0); lia. }
  rewrite wrap_small by lia. f_equal. apply map_ext_in. intros i Hi%list_elem_of_In%elem_of_zrange.
  unfold contents, str. rewrite lookup_take_lt by lia. done.
Qed.

Lemma lseek_spec st tid fd offset s vf :
  resolve st tid fd = Some (s, vf) -> 0 <= offset < 2 ^ 31 ->
  vfs_lseek st tid fd offset 0 = (set_fd s (set_pos offset vf) st, offset).
Proof.
  intros Hr Ho. unfold vfs_lseek. rewrite Hr. change (0 =? VFS_SEEK_CUR) with false.
  change (0 =? VFS_SEEK_END) with false. cbv iota zeta. rewrite Z.add_0_l. unfold UINT32_MAX.
  destruct (Z.ltb_spec offset 0), (Z.ltb_spec 4294967295 offset); simpl; try lia.
  rewrite sx_small by lia. done.
Qed.

(** Writing to a descriptor opened for reading and writing, seeking back to
    where the write started and reading as many bytes returns exactly the bytes
    that were written. *)
Theorem vfs_write_read_roundtrip st tid fd data s vf st1 r st2 r2 st3 n bytes :
  table_ok st -> resolve st tid fd = Some (s, vf) ->
  Z.land (flags vf) 3 <> 0 -> has_flag (flags vf) VFS_O_WRONLY = false ->
  write_pos vf + Z.of_nat (length data) < 2 ^ 31 ->
  vfs_write st tid fd data = (st1, r) -> r <> -1 ->
  vfs_lseek st1 tid fd (write_pos vf) 0 = (st2, r2) ->
  vfs_read st2 tid fd (Z.of_nat (length data)) = (st3, n, bytes) ->
  r = Z.of_nat (length data) /\ r2 = write_pos vf /\ n = Z.of_nat (length data) /\ bytes = data.
Proof.
  intros Ht Hr Hfl Hw Hlen E1 Hne E2 E3.
  destruct (resolve_spec _ _ _ _ _ Hr) as (Htid & Hfd & Es & Hs16 & Evf & Hu & Ho).
  destruct (Ht s) as [Hf _]. rewrite <- Evf in Hf.
  assert (0 <= write_pos vf) as Hp.
  { destruct (Hf Hu) as (b & _ & _ & ? & _ & ? & _). unfold write_pos. destruct (has_flag (flags vf) VFS_O_APPEND); lia. }
  destruct (write_spec st tid fd data s vf Ht Hr Hfl) as (st' & r' & E & Ht1 & _ & _ & _ & Hfl1 & Ho1 & Hu1 & Hcase).
  rewrite E1 in E. injection E as <- <-.
  destruct Hcase as [[? _]|(Hr1 & _ & Hsz & _ & _ & Hdata & _)]; [done|].
  set (vf1 := fd_at st1 s) in *. set (p := write_pos vf) in *. set (m := Z.of_nat (length data)) in *.
  assert (resolve st1 tid fd = Some (s, vf1)) as Hr'.
  { unfold resolve, slot_of.
    destruct (Z.ltb_spec tid 0), (Z.leb_spec MAX_TASKS tid), (Z.ltb_spec fd 0), (Z.leb_spec VFS_MAX_FDS fd);
      simpl; try lia. rewrite <- Es. fold vf1.
    destruct (Z.ltb_spec s 0); [unfold VFS_MAX_FDS in *; lia|]. rewrite Hu1, Ho1, Ho, Z.eqb_refl. done. }
  rewrite (lseek_spec st1 tid fd p s vf1 Hr') in E2 by lia. injection E2 as <- <-.
  assert (file_ok vf1) as Hf1 by apply (Ht1 s).
  rewrite (read_spec _ tid fd m s (set_pos p vf1)) in E3.
  - simpl in E3. replace (Z.min m (Z.max 0 (size vf1 - p))) with m in E3 by lia. injection E3 as _ <- <-.
    rewrite sx_small in Hr1 |- * by lia. splits.
    apply list_eq_same_length with (length data); [done| |].
    { rewrite length_map. pose proof (length_zrange 0 m). lia. }
    intros k x y Hk Hx Hy. rewrite list_lookup_fmap, zrange_seqZ, lookup_seqZ_lt in Hx by lia.
    simpl in Hx. injection Hx as <-.
    replace (p + (0 + Z.of_nat k)) with (p + Z.of_nat k) by lia. fold (contents vf1) in Hdata |- *.
    assert (contents (set_pos p vf1) = contents vf1) as -> by done.
    rewrite Hdata by lia. unfold str. by rewrite Nat2Z.id, Hy.
  - apply table_ok_set; [done|apply file_ok_pos; [lia|done]|]. intros _. simpl. congruence.
  - by apply (resolve_set st1 tid fd s vf1).
  - simpl. by rewrite Hfl1.
  - lia.
Qed.

(** ** Opening *)

Lemma read_walk_length fuel k s n b :
  Kfs.read_walk fuel k s n = Some b -> Z.of_nat (length b) <= Z.max 0 n.
Proof.
  revert s n b. induction fuel as [|fuel IH]; intros s n b; cbn [Kfs.read_walk]; [done|].
  destruct (Z.leb_spec n 0); [rewrite orb_true_r; intros [= <-]; simpl; lia|].
  destruct (Kfs.chain_end s); cbn [orb]; [intros [= <-]; simpl; lia|].
  set (chunk := if 512 <? n then 512 else n).
  assert (0 < chunk <= n) by (unfold chunk; destruct (Z.ltb_spec 512 n); lia).
  destruct (Kfs.read_walk fuel _ _ _) as [rest|] eqn:E; [|done]. intros [= <-].
  apply IH in E. rewrite length_app, length_take. lia.
Qed.

Lemma kfs_read_length k p c r b :
  Kfs.kfs_read_to_buffer k p c = Some (r, b) -> 0 <= c -> Z.of_nat (length b) <= c.
Proof.
  unfold Kfs.kfs_read_to_buffer. destruct (Kfs.lookup_path k p) as [[[[e s] i]|]|]; [|intros [= _ <-]; simpl; lia|done].
  destruct (Z.ltb_spec c (Kfs.size_bytes e)); [intros [= _ <-]; simpl; lia|].
  destruct (Kfs.read_walk _ _ _ _) eqn:E; [|done]. intros [= _ <-] Hc.
  apply read_walk_length in E. lia.
Qed.

Lemma kfs_size_bound k G p n :
  KfsInv.fs_inv k G -> no_nul p -> Kfs.kfs_get_file_size k p = Some n -> 0 <= n < 2 ^ 32.
Proof.
  intros [Hgeo _ _ _ Hg] Hp. destruct (KfsThm.lookup_ok k G p Hgeo Hg Hp) as (r & L & Hr).
  unfold Kfs.kfs_get_file_size. rewrite L. destruct r as [[[e s] i]|]; [|by intros [= <-]].
  destruct Hr as (h & nm & c & _ & _ & Hh & Hs & Hi & -> & Hu & _). intros [= <-].
  destruct (KfsInv.g_ent _ _ Hg s i) as (d & c' & _ & _ & _ & _ & Hz); [by exists h, c|done|].
  change (0 <= KfsSpec.esize k s i < 2 ^ 32). unfold KfsInv.sized in Hz. destruct d; lia.
Qed.

(** Installing a loaded file in the window of its task. *)
Lemma install_ok st tid p fl ex b fsize cp st' r :
  table_ok st -> 0 <= tid < MAX_TASKS -> no_nul p -> length b = Z.to_nat cp -> 0 <= fsize <= cp -> cp < 2 ^ 32 ->
  install_fd st tid p fl ex b fsize cp = (st', r) ->
  table_ok st' /\ forall s, s / VFS_MAX_FDS <> tid -> fd_at st' s = fd_at st s.
Proof.
  intros Ht Htid Hp Hb Hs Hc. unfold install_fd. destruct (find_loop _ _ _) as [fd|] eqn:Ef.
  - intros [= <- <-]. apply find_loop_Some in Ef as (Hfd & _ & _).
    assert ((tid * VFS_MAX_FDS + fd) / VFS_MAX_FDS = tid) as E by (unfold VFS_MAX_FDS in *; divlia).
    split.
    + apply table_ok_set; [done| |by intros _; rewrite E].
      intros _. exists b. simpl. splits.
      * destruct (has_flag fl VFS_O_APPEND); lia.
      * destruct (has_flag fl VFS_O_APPEND); lia.
      * unfold path_copy. rewrite length_take. unfold VFS_MAX_PATH. lia.
      * by apply Forall_take.
    + intros s Hs'. rewrite fd_at_set. destruct (Z.eqb_spec (tid * VFS_MAX_FDS + fd) s) as [<-|]; [done|done].
  - intros [= <- <-]. by split.
Qed.

Lemma open_ok st G tid p fl st' r :
  table_ok st -> KfsInv.fs_inv (vkfs st) G -> no_nul p -> vfs_open st tid p fl = Some (st', r) ->
  table_ok st' /\ forall s, s / VFS_MAX_FDS <> tid -> fd_at st' s = fd_at st s.
Proof.
  intros Ht Hinv Hp. unfold vfs_open. destruct p as [|a p0] eqn:Ep; [by intros [= <- <-]|].
  rewrite <- Ep in *. clear Ep a p0.
  destruct (Z.ltb_spec tid 0), (Z.leb_spec MAX_TASKS tid); cbn [orb]; try (intros [= <- <-]; by split).
  destruct (Kfs.kfs_exists (vkfs st) p) as [e|]; [|done].
  destruct (Kfs.kfs_get_file_size (vkfs st) p) as [sz|] eqn:Esz; [|done].
  pose proof (kfs_size_bound _ _ _ _ Hinv Hp Esz) as Hsz. cbv zeta.
  destruct (negb (negb (e =? 0)) && negb (has_flag fl VFS_O_CREAT)); [intros [= <- <-]; by split|].
  set (ex := negb (e =? 0)). set (fsize := if ex then sz else 0).
  set (cp := if fsize <? 64 then 64 else fsize).
  assert (0 <= fsize < 2 ^ 32) as Hfs by (unfold fsize; destruct ex; lia).
  assert (fsize <= cp < 2 ^ 32 /\ 0 < cp) as [Hcp Hcp0] by (unfold cp; destruct (Z.ltb_spec fsize 64); lia).
  clearbody cp. destruct (bh_kmalloc cp (vheap st)) as [h ob] eqn:Em.
  destruct ob as [b|]; [|intros [= <- <-]; by split].
  assert (length b = Z.to_nat cp) as Hb by (apply (bh_malloc_len cp (vheap st)); [lia|by rewrite Em]).
  destruct (ex && negb (has_flag fl VFS_O_TRUNC) && (0 <? fsize)).
  - destruct (Kfs.kfs_read_to_buffer _ p cp) as [[rr bytes]|] eqn:Er; [|done].
    apply kfs_read_length in Er; [|lia].
    destruct (rr =? 0); [intros [= <- <-]; by split|intros [= E]].
    eapply (install_ok (set_heap h st)); [done|lia|done| |..|exact E]; [|lia|lia].
    rewrite KfsSpec.length_put_bytes; lia.
  - intros [= E]. eapply (install_ok (set_heap h st)); [done|lia|done|done|..|exact E]; lia.
Qed.

(** ** Closing *)

(** Uninitialised stack bytes of [kfs_create_file]. *)
Context (junk : Z -> Z).

Lemma same_path_trans k1 k2 k3 q : same_path k1 k2 q -> same_path k2 k3 q -> same_path k1 k3 q.
Proof.
  intros (A1 & A2 & A3) (B1 & B2 & B3). unfold same_path. rewrite B1, B2, A1, A2. splits.
  intros cap'. by rewrite B3, A3.
Qed.

Lemma same_path_refl k q : same_path k k q.
Proof. done. Qed.

(** The path of the file leads to a folder. *)
Definition is_folder (k : Kfs.kfs) (p : list Z) : Prop :=
  exists e s i, Kfs.lookup_path k p = Some (Some (e, s, i)) /\ Kfs.flags e = Kfs.FLAG_FOLDER.

Lemma last_name_length p : (length (last_name p) <= length p)%nat.
Proof. unfold last_name. rewrite length_drop. lia. Qed.

(** The ways a flush leaves the contents unwritten: nothing can be stored at the
    path, because its parent does not resolve or it is a folder, and it is observed
    as before; or the disk is full and no file is left at the path, since the old
    one is deleted before the new one is created. *)
Definition flush_lost (k k' : Kfs.kfs) (p : list Z) : Prop :=
  ((Kfs.split_last_nolock k p = Some None \/ is_folder k p) /\ same_path k k' p) \/
  (KfsData.disk_full k' /\ Kfs.kfs_exists k' p = Some 0).

(** Replacing a file: delete it if it exists, then create it. *)
Lemma flush_spec k G vf :
  KfsInv.fs_inv k G -> no_nul (path vf) -> (length (path vf) <= 22)%nat ->
  Z.of_nat (length (contents vf)) < 2 ^ 32 - 511 -> dirty vf = true ->
  exists k', flush_locked junk k vf = Some k' /\ (exists G', KfsInv.fs_inv k' G') /\
    (forall q, no_nul q -> Kfs.split_last_nolock k q <> Kfs.split_last_nolock k (path vf) -> same_path k k' q) /\
    ((forall c, Z.of_nat (length (contents vf)) <= c ->
        Kfs.kfs_read_to_buffer k' (path vf) c = Some (1, contents vf)) \/
     flush_lost k k' (path vf)).
Proof.
  intros Hinv Hn Hl Hsz Hd. unfold flush_locked. rewrite Hd. fold (contents vf).
  assert ((length (last_name (path vf)) <= 22)%nat) as Hnm by (pose proof (last_name_length (path vf)); lia).
  pose proof Hinv as [Hgeo _ _ _ Hg].
  destruct (KfsThm.lookup_ok k G (path vf) Hgeo Hg Hn) as (r & L & Hr).
  unfold Kfs.kfs_exists. rewrite L. destruct r as [[[e s] i]|].
  2:{ change (negb (0 =? 0)) with false. cbv iota.
      destruct (create_file_spec junk k G (path vf) (contents vf) Hinv Hn Hnm Hsz)
        as (k2 & r & -> & HI & [(-> & _ & _ & _ & HR & HF)|(-> & HF & [HS|[HX|HX]])]);
        exists k2; (split; [done|]); (split; [done|]).
      - split; [done|]. by left.
      - split; [intros; by apply HF|]. right; left. split; [by left|by apply HF].
      - unfold Kfs.kfs_exists in HX. rewrite L in HX. done.
      - split; [intros; by apply HF|]. right; right. split; [done|].
        destruct (HF (path vf) Hn) as [-> _]. unfold Kfs.kfs_exists. by rewrite L. }
  change (negb (1 =? 0)) with true. cbv iota.
  destruct (delete_file_spec k G (path vf) Hinv Hn) as (k1 & -> & [G1 I1] & Hcase).
  destruct Hcase as [(e' & s' & i' & c & _ & _ & _ & _ & HX & HS & HF)|[[L'|HF] (HD & HT & _ & HC)]].
  - destruct (create_file_spec junk k1 G1 (path vf) (contents vf) I1 Hn Hnm Hsz)
      as (k2 & r & -> & HI & Hc2). exists k2. split; [done|]. split; [done|].
    destruct Hc2 as [(-> & _ & _ & _ & HR & HF2)|(-> & HF2 & [HS2|[HX2|HX2]])].
    + split; [|by left]. intros q Hq Hne. eapply same_path_trans; [by apply HF|]. apply HF2; [done|].
      by rewrite !HS.
    + split; [intros q Hq Hne; eapply same_path_trans; [by apply HF|by apply HF2]|].
      exfalso. rewrite (HS _ Hn) in HS2. unfold Kfs.lookup_path in L. by rewrite HS2 in L.
    + congruence.
    + split; [intros q Hq Hne; eapply same_path_trans; [by apply HF|by apply HF2]|]. right; right.
      split; [done|]. destruct (HF2 (path vf) Hn) as [-> _]. done.
  - congruence.
  - destruct (create_file_spec junk k1 G1 (path vf) (contents vf) I1 Hn Hnm Hsz)
      as (k2 & r & -> & HI & Hc2). exists k2. split; [done|]. split; [done|].
    destruct Hc2 as [(_ & HX & _)|(_ & HF2 & _)].
    + exfalso. destruct (HC (path vf) Hn) as [Hx _]. rewrite Hx in HX.
      unfold Kfs.kfs_exists in HX. rewrite L in HX. done.
    + split; [intros q Hq _; eapply same_path_trans; [by apply HC|by apply HF2]|].
      right; left. split; [by right|]. eapply same_path_trans; [by apply HC|by apply HF2].
Qed.

(** C14. Closing a dirty descriptor whose contents are shorter than [2^32 - 511]
    bytes returns 0, frees its slot, keeps every other descriptor, and leaves a
    well-formed file system in which paths with another location are observed as
    before and the path of the descriptor reads as the contents of the buffer. The
    contents are lost in two cases only, although 0 is returned in them too: the
    parent does not resolve or the path is a folder, and the path is then observed
    as before; or the disk is full, and then no file is left at the path, the
    previous version of it included. *)
Theorem vfs_close_persists st G tid fd s vf :
  table_ok st -> KfsInv.fs_inv (vkfs st) G -> resolve st tid fd = Some (s, vf) -> dirty vf = true ->
  size vf < 2 ^ 32 - 511 ->
  exists st', vfs_close junk st tid fd = Some (st', 0) /\ table_ok st' /\
    (exists G', KfsInv.fs_inv (vkfs st') G') /\ resolve st' tid fd = None /\
    (forall s', s' <> s -> fd_at st' s' = fd_at st s') /\
    (forall q, no_nul q ->
       Kfs.split_last_nolock (vkfs st) q <> Kfs.split_last_nolock (vkfs st) (path vf) ->
       same_path (vkfs st) (vkfs st') q) /\
    ((forall c, size vf <= c -> Kfs.kfs_read_to_buffer (vkfs st') (path vf) c = Some (1, contents vf)) \/
     flush_lost (vkfs st) (vkfs st') (path vf)).
Proof.
  intros Ht Hinv Hr Hd Hsz.
  destruct (resolve_spec _ _ _ _ _ Hr) as (Htid & Hfd & Es & Hs16 & Evf & Hu & Ho).
  destruct (Ht s) as [Hf _]. rewrite <- Evf in Hf.
  destruct (Hf Hu) as (b & Eb & Hl & Hs & Hc & _ & Hpl & Hpn).
  assert (Z.of_nat (length (contents vf)) = size vf) as Hlen.
  { unfold contents. rewrite Eb, length_take. simpl. lia. }
  destruct (flush_spec (vkfs st) G vf Hinv Hpn Hpl ltac:(lia) Hd) as (k' & Ek & HI & HQ & HR).
  unfold vfs_close. rewrite Hr. unfold close_slot. rewrite <- Evf, Ek.
  eexists. split; [done|]. split; [|split; [exact HI|split; [|split; [|split; [exact HQ|]]]]].
  - apply table_ok_set; [exact Ht|done|done].
  - unfold resolve, slot_of.
    destruct (Z.ltb_spec tid 0), (Z.leb_spec MAX_TASKS tid), (Z.ltb_spec fd 0), (Z.leb_spec VFS_MAX_FDS fd);
      simpl; try lia. rewrite <- Es. destruct (s <? 0); [done|]. rewrite fd_at_set, Z.eqb_refl. done.
  - intros s' Hs'. rewrite fd_at_set. destruct (Z.eqb_spec s s'); [lia|done].
  - destruct HR as [HR|HR]; [left|by right]. intros c Hcap. apply HR. lia.
Qed.

(** ** Isolation *)

(** The calls that a task makes. *)
Inductive vstep (tid : Z) (st st' : vfs H) : Prop :=
| v_open p fl r : no_nul p -> vfs_open st tid p fl = Some (st', r) -> vstep tid st st'
| v_read fd count r bytes : 0 <= count < 2 ^ 32 -> vfs_read st tid fd count = (st', r, bytes) -> vstep tid st st'
| v_write fd data r : vfs_write st tid fd data = (st', r) -> vstep tid st st'
| v_lseek fd off whence r : vfs_lseek st tid fd off whence = (st', r) -> vstep tid st st'
| v_close fd r : vfs_close junk st tid fd = Some (st', r) -> vstep tid st st'
| v_close_all : vfs_close_all junk st tid = Some st' -> vstep tid st st'.

Lemma close_slot_ok st s st' :
  table_ok st -> close_slot junk st s = Some st' ->
  table_ok st' /\ forall s', s' <> s -> fd_at st' s' = fd_at st s'.
Proof.
  intros Ht. unfold close_slot. destruct (flush_locked _ _ _) as [k|]; [|done]. intros [= <-]. split.
  - by apply table_ok_set.
  - intros s' Hs'. rewrite fd_at_set. destruct (Z.eqb_spec s s'); [lia|done].
Qed.

Lemma close_all_ok st tid st' :
  table_ok st -> vfs_close_all junk st tid = Some st' ->
  table_ok st' /\ forall s, s / VFS_MAX_FDS <> tid -> fd_at st' s = fd_at st s.
Proof.
  intros Ht. unfold vfs_close_all. destruct (_ || _); [by intros [= <-]|].
  match goal with |- for_loop ?lo ?hi ?body ?s0 = _ -> _ =>
    pose proof (for_loop_pres (fun ost => forall x, ost = Some x ->
      table_ok x /\ forall s, s / VFS_MAX_FDS <> tid -> fd_at x s = fd_at st s) lo hi body s0) as HL end.
  intros E. apply HL; [by intros x [= <-]| |exact E].
  intros i [st1|] Hi IH; [|done]. destruct (IH st1 eq_refl) as [T1 F1].
  destruct (used _); [|done]. intros x Hx. destruct (close_slot_ok _ _ _ T1 Hx) as [T2 F2].
  split; [done|]. intros s Hs. rewrite F2; [by apply F1|].
  intros ->. apply Hs. unfold VFS_MAX_FDS in *. divlia.
Qed.

(** C15. Isolation: a call of a task keeps the descriptor table well-formed
    (buffers of the right length, sizes within capacities, owners matching
    their windows) and never changes a descriptor of another task. *)
Theorem vfs_isolation st G tid st' :
  table_ok st -> KfsInv.fs_inv (vkfs st) G -> vstep tid st st' ->
  table_ok st' /\ forall s, s / VFS_MAX_FDS <> tid -> fd_at st' s = fd_at st s.
Proof.
  intros Ht Hinv [p fl r Hp E|fd count r bytes Hc E|fd data r E|fd off whence r E|fd r E|E].
  - by eapply open_ok.
  - unfold vfs_read in E. destruct (resolve st tid fd) as [[s vf]|] eqn:Hr; [|injection E as <- _ _; by split].
    destruct (resolve_spec _ _ _ _ _ Hr) as (_ & _ & _ & Hs & Evf & Hu & Ho).
    destruct (has_flag _ _); [injection E as <- _ _; by split|].
    injection E as <- _ _. split.
    + apply table_ok_set; [done| |simpl; congruence]. apply file_ok_pos; [by apply wrap_bound|].
      rewrite Evf. apply Ht.
    + intros s' Hs'. rewrite fd_at_set. destruct (Z.eqb_spec s s'); [congruence|done].
  - destruct (resolve st tid fd) as [[s vf]|] eqn:Hr.
    2:{ unfold vfs_write in E. rewrite Hr in E. injection E as <- _. by split. }
    destruct (resolve_spec _ _ _ _ _ Hr) as (_ & _ & _ & Hs & _).
    destruct (decide (Z.land (flags vf) 3 = 0)) as [E0|N0].
    { unfold vfs_write in E. rewrite Hr in E. change (Z.lor VFS_O_WRONLY VFS_O_RDWR) with 3 in E.
      rewrite E0 in E. injection E as <- _. by split. }
    destruct (write_spec st tid fd data s vf Ht Hr N0) as (st1 & r1 & E1 & T1 & _ & F1 & _).
    rewrite E1 in E. injection E as -> _. split; [done|]. intros s' Hs'. apply F1. congruence.
  - unfold vfs_lseek in E. destruct (resolve st tid fd) as [[s vf]|] eqn:Hr; [|injection E as <- _; by split].
    destruct (resolve_spec _ _ _ _ _ Hr) as (_ & _ & _ & Hs & Evf & Hu & Ho). cbv zeta in E.
    match type of E with context [(?x <? 0) || _] => destruct (Z.ltb_spec x 0), (Z.ltb_spec UINT32_MAX x) end;
      cbn [orb] in E; injection E as <- _; try (by split).
    split.
    + apply table_ok_set; [done| |simpl; congruence]. apply file_ok_pos; [unfold UINT32_MAX in *; lia|].
      rewrite Evf. apply Ht.
    + intros s' Hs'. rewrite fd_at_set. destruct (Z.eqb_spec s s'); [congruence|done].
  - unfold vfs_close in E. destruct (resolve st tid fd) as [[s vf]|] eqn:Hr; [|injection E as <- _; by split].
    destruct (resolve_spec _ _ _ _ _ Hr) as (_ & _ & _ & Hs & _).
    destruct (close_slot junk st s) as [st1|] eqn:Ec; [|done]. injection E as <- _.
    destruct (close_slot_ok _ _ _ Ht Ec) as [T1 F1]. split; [done|]. intros s' Hs'. apply F1. congruence.
  - by eapply close_all_ok.
Qed.

End thm.
(** ** Witnesses: a heap whose blocks hold old data, and a small disk *)

Definition old_byte : Z := 7.

#[global] Instance demo_heap : ByteHeap unit := {
  bh_kmalloc n h := (h, Some (replicate (Z.to_nat n) old_byte));
  bh_kfree _ h := h;
  bh_krealloc b o n h :=
    (h, Some (map (fun i => if i <? o then str b i else old_byte) (zrange 0 n)))
}.

#[global] Instance demo_heap_ok : ByteHeapOk unit.
Proof.
  split; simpl.
  - intros n h b _ [= <-]. apply length_replicate.
  - intros b o n h b' _ [= <-]. rewrite length_map, zrange_seqZ, length_seqZ. f_equal. lia.
  - intros b o n h b' i [= <-] Hi Hn. rewrite KfsData.str_map_zrange by lia.
    destruct (Z.ltb_spec i o); [done|lia].
Qed.

Definition demo_vfs : vfs unit := mk_vfs ∅ KfsBoot.demo_fs tt.

(** Task 1 opens a new file for reading and writing: descriptor 0. *)
Definition demo_open : vfs unit :=
  match vfs_open demo_vfs 1 KfsBoot.demo_path 6 with Some (st, _) => st | None => demo_vfs end.

Lemma demo_vfs_ok : table_ok demo_vfs.
Proof. by intros s. Qed.

Lemma demo_open_eq : vfs_open demo_vfs 1 KfsBoot.demo_path 6 = Some (demo_open, 0).
Proof.
  unfold demo_open.
  assert (KfsBoot.code (vfs_open demo_vfs 1 KfsBoot.demo_path 6) = 0) as C by (vm_compute; reflexivity).
  destruct (vfs_open demo_vfs 1 KfsBoot.demo_path 6) as [[st r]|]; simpl in C; [by subst r|discriminate].
Qed.

Lemma demo_open_ok : table_ok demo_open.
Proof.
  apply (open_ok demo_vfs _ 1 KfsBoot.demo_path 6 demo_open 0 demo_vfs_ok KfsBoot.demo_fs_inv
    KfsBoot.demo_path_ok demo_open_eq).
Qed.

Lemma resolve_intro {H : Type} (st : vfs H) tid fd :
  0 <= tid < MAX_TASKS -> 0 <= fd < VFS_MAX_FDS ->
  used (fd_at st (tid * VFS_MAX_FDS + fd)) = true -> owner (fd_at st (tid * VFS_MAX_FDS + fd)) = tid ->
  resolve st tid fd = Some (tid * VFS_MAX_FDS + fd, fd_at st (tid * VFS_MAX_FDS + fd)).
Proof.
  intros Ht Hf Hu Ho. unfold resolve, slot_of.
  destruct (Z.ltb_spec tid 0), (Z.leb_spec MAX_TASKS tid), (Z.ltb_spec fd 0), (Z.leb_spec VFS_MAX_FDS fd);
    simpl; try lia.
  destruct (Z.ltb_spec (tid * VFS_MAX_FDS + fd) 0); [unfold VFS_MAX_FDS in *; lia|].
  rewrite Hu, Ho, Z.eqb_refl. done.
Qed.

Lemma demo_resolve : resolve demo_open 1 0 = Some (16, fd_at demo_open 16).
Proof.
  apply (resolve_intro demo_open 1 0).
  - vm_compute. split; congruence.
  - vm_compute. split; congruence.
  - vm_compute. reflexivity.
  - vm_compute. reflexivity.
Qed.

Lemma demo_writable : Z.land (flags (fd_at demo_open 16)) 3 <> 0.
Proof. vm_compute. discriminate. Qed.

Definition demo_written : vfs unit := (vfs_write demo_open 1 0 KfsBoot.demo_data).1.

Lemma demo_write_eq : vfs_write demo_open 1 0 KfsBoot.demo_data = (demo_written, 4).
Proof.
  unfold demo_written.
  assert ((vfs_write demo_open 1 0 KfsBoot.demo_data).2 = 4) as C by (vm_compute; reflexivity).
  destruct (vfs_write demo_open 1 0 KfsBoot.demo_data) as [st r]. simpl in *. by subst r.
Qed.

Lemma vfs_write_correct_witness :
  table_ok demo_written /\ size (fd_at demo_written 16) = 4 /\
  str (contents (fd_at demo_written 16)) 2 = 108.
Proof.
  destruct (vfs_write_correct demo_open 1 0 KfsBoot.demo_data 16 (fd_at demo_open 16)
    demo_open_ok demo_resolve demo_writable) as (st' & r & E & T & _ & _ & _ & _ & _ & _ & Hc).
  rewrite demo_write_eq in E. apply pair_equal_spec in E as [<- <-].
  destruct Hc as [[Hr _]|(_ & _ & Hs & _ & _ & Hd & _)]; [discriminate Hr|].
  split; [exact T|]. split.
  - rewrite Hs. vm_compute. reflexivity.
  - assert (write_pos (fd_at demo_open 16) = 0) as E0 by (vm_compute; reflexivity).
    specialize (Hd 2). rewrite E0 in Hd. apply Hd. vm_compute. split; congruence.
Defined.

Lemma vfs_write_read_roundtrip_witness :
  (vfs_read (vfs_lseek demo_written 1 0 0 0).1 1 0 4).2 = KfsBoot.demo_data.
Proof.
  assert (write_pos (fd_at demo_open 16) = 0) as E0 by (vm_compute; reflexivity).
  destruct (vfs_lseek demo_written 1 0 0 0) as [st2 r2] eqn:E2.
  destruct (vfs_read st2 1 0 4) as [[st3 n] bytes] eqn:E3.
  destruct (vfs_write_read_roundtrip demo_open 1 0 KfsBoot.demo_data 16 (fd_at demo_open 16)
    demo_written 4 st2 r2 st3 n bytes demo_open_ok demo_resolve demo_writable) as (_ & _ & _ & Hb).
  - vm_compute. reflexivity.
  - rewrite E0. vm_compute. reflexivity.
  - exact demo_write_eq.
  - discriminate.
  - rewrite E0. exact E2.
  - exact E3.
  - simpl. rewrite E3. exact Hb.
Defined.

Lemma demo_written_resolve : resolve demo_written 1 0 = Some (16, fd_at demo_written 16).
Proof.
  apply (resolve_intro demo_written 1 0).
  - vm_compute. split; congruence.
  - vm_compute. split; congruence.
  - vm_compute. reflexivity.
  - vm_compute. reflexivity.
Qed.

Lemma demo_written_facts :
  table_ok demo_written /\ vkfs demo_written = KfsBoot.demo_fs.
Proof.
  destruct (write_spec demo_open 1 0 KfsBoot.demo_data 16 (fd_at demo_open 16)
    demo_open_ok demo_resolve demo_writable) as (st' & r & E & T & K & _).
  rewrite demo_write_eq in E. apply pair_equal_spec in E as [<- <-]. split; [exact T|]. rewrite K.
  unfold demo_open, vfs_open. vm_compute. reflexivity.
Qed.

Lemma demo_written_fd :
  path (fd_at demo_written 16) = KfsBoot.demo_path /\ contents (fd_at demo_written 16) = KfsBoot.demo_data /\
  size (fd_at demo_written 16) <= 100 /\ dirty (fd_at demo_written 16) = true /\
  size (fd_at demo_written 16) < 2 ^ 32 - 511.
Proof. split_and!; vm_compute; try reflexivity; discriminate. Qed.

Lemma demo_not_there : Kfs.kfs_exists (vkfs demo_written) KfsBoot.demo_path = Some 0.
Proof. destruct demo_written_facts as [_ ->]. vm_compute. reflexivity. Qed.

Lemma demo_closed_exists :
  match vfs_close KfsBoot.no_junk demo_written 1 0 with
  | Some (st', _) => Kfs.kfs_exists (vkfs st') KfsBoot.demo_path
  | None => None
  end = Some 1.
Proof. vm_compute. reflexivity. Qed.

Lemma demo_not_lost st' :
  vfs_close KfsBoot.no_junk demo_written 1 0 = Some (st', 0) ->
  ~ flush_lost (vkfs demo_written) (vkfs st') KfsBoot.demo_path.
Proof.
  intros E. pose proof demo_closed_exists as X. rewrite E in X. intros [[_ [Hx _]]|[_ Hx]].
  - rewrite Hx, demo_not_there in X. discriminate X.
  - rewrite X in Hx. discriminate Hx.
Qed.

Lemma vfs_close_persists_witness :
  exists st', vfs_close KfsBoot.no_junk demo_written 1 0 = Some (st', 0) /\ table_ok st' /\
    resolve st' 1 0 = None /\
    Kfs.kfs_exists (vkfs demo_written) KfsBoot.demo_path = Some 0 /\
    Kfs.kfs_read_to_buffer (vkfs st') KfsBoot.demo_path 100 = Some (1, KfsBoot.demo_data).
Proof.
  destruct demo_written_facts as [T K], demo_written_fd as (Ep & Ec & Hs & Hd & Hs').
  assert (KfsInv.fs_inv (vkfs demo_written) (KfsBoot.empty_fs KfsBoot.demo_fs)) as I
    by (rewrite K; exact KfsBoot.demo_fs_inv).
  destruct (vfs_close_persists KfsBoot.no_junk demo_written _ 1 0 16 (fd_at demo_written 16) T I
    demo_written_resolve Hd Hs') as (st' & E & T' & _ & R & _ & _ & Hc).
  rewrite Ep, Ec in Hc. exists st'. split; [exact E|]. split; [exact T'|]. split; [exact R|].
  split; [exact demo_not_there|].
  destruct Hc as [Hc|Hc]; [exact (Hc _ Hs)|destruct (demo_not_lost st' E Hc)].
Defined.

Lemma vfs_isolation_witness :
  table_ok demo_open /\ fd_at demo_open 5 = fd_at demo_vfs 5 /\ used (fd_at demo_open 16) = true.
Proof.
  destruct (vfs_isolation KfsBoot.no_junk demo_vfs _ 1 demo_open demo_vfs_ok KfsBoot.demo_fs_inv
    (v_open KfsBoot.no_junk 1 demo_vfs demo_open KfsBoot.demo_path 6 0 KfsBoot.demo_path_ok demo_open_eq))
    as [T F].
  split; [exact T|]. split; [apply F; vm_compute; discriminate|vm_compute; reflexivity].
Defined.

(** Seeking past the end of a file and writing exposes heap memory: on a
    heap whose blocks hold old data, a new file in which one byte is written at
    offset 3 reads back three bytes of that old data before it, and they are
    what closing stores on the disk. *)
Theorem vfs_gap_exposes_heap :
  let st1 := (vfs_lseek demo_open 1 0 3 0).1 in
  let st2 := (vfs_write st1 1 0 [1]).1 in
  let st3 := (vfs_lseek st2 1 0 0 0).1 in
  (vfs_read st3 1 0 4).2 = [old_byte; old_byte; old_byte; 1] /\
  match vfs_close KfsBoot.no_junk st2 1 0 with
  | Some (st4, _) => Kfs.kfs_read_to_buffer (vkfs st4) KfsBoot.demo_path 100
  | None => None
  end = Some (1, [old_byte; old_byte; old_byte; 1]).
Proof. split; vm_compute; reflexivity. Qed.

End VfsThm.
