(* ===== verification/Usercopy.v ===== *)
(** * User-memory boundary (src/kernel/usercopy.c, src/include/usercopy.h, smap.h)

    The helpers every system call uses to touch memory named by a pointer of
    ring 3.  [cpu] is the executing CPU as these helpers see it: the bytes of
    its virtual address space ([vmem]), the EFLAGS.AC bit that SMAP consults
    ([ac]), whether SMAP is on, and a trace of the user addresses
    dereferenced, each with the AC bit at that moment.  The page tables are
    those of [Paging]. *)

From S2P Require Import Prelude Pmm Paging PagingOps KString Sched.
From stdpp Require Import base numbers list gmap.
From Stdlib Require Import ZArith Lia.

#[local] Open Scope Z_scope.

Module Usercopy.
Import Pmm Paging.

Definition UC_USER_VA_MAX : Z := 0x0000800000000000.
Definition UC_MAX_RANGE : Z := 64 * 1024 * 1024.

(** ** The CPU's view of memory *)

Record cpu := mk_cpu {
  vmem : gmap Z Z;
  ac : bool;
  g_smap_enabled : bool;
  trace : list (Z * bool);
}.

Definition set_ac (c : cpu) (b : bool) : cpu := mk_cpu c.(vmem) b c.(g_smap_enabled) c.(trace).
Definition set_vmem (c : cpu) (m : gmap Z Z) : cpu := mk_cpu m c.(ac) c.(g_smap_enabled) c.(trace).

Definition user_access_begin (c : cpu) : cpu := if c.(g_smap_enabled) then set_ac c true else c.
Definition user_access_end (c : cpu) : cpu := if c.(g_smap_enabled) then set_ac c false else c.

(** Records the dereference of the [n] user bytes at [a]. *)
Definition touch (c : cpu) (a n : Z) : cpu :=
  mk_cpu c.(vmem) c.(ac) c.(g_smap_enabled)
    (c.(trace) ++ ((fun i => (a + i, c.(ac))) <$> zrange 0 n)).

(** ** Call context *)

Record ucopy_ctx_t := mk_ctx { from_user : bool; pml4 : Z }.

(** [cs] is the saved code selector; [k] the executing CPU. *)
Definition ucopy_ctx_init (s : Sched.sched) (k cs : Z) : ucopy_ctx_t :=
  let task_id := Sched.smp_current_task_id s k in
  mk_ctx (Z.land cs 3 =? 3)
    (if (0 <=? task_id) && (task_id <? s.(Sched.task_count))
     then (Sched.task s task_id).(Sched.pml4_phys) else PHYS_NULL).

(** ** Operations *)

Definition page_of (a : Z) : Z := Z.land a 0xFFFFFFFFFFFFF000.

Section usercopy.
Context {A : Type} `{FrameAllocator A}.
Implicit Types (v : vm A) (ctx : ucopy_ctx_t).

(** The page loop of [user_range_ok]; [None] is a loop that has not ended. *)
Fixpoint range_loop (fuel : nat) v (as_ p last : Z) : option bool :=
  match fuel with
  | O => None
  | S fuel =>
      if negb (paging_is_mapped_into v p as_) then Some false
      else if p =? last then Some true
      else range_loop fuel v as_ (u64 (p + 0x1000)) last
  end.

(** A range of at most [UC_MAX_RANGE] bytes has at most this many pages. *)
Definition RANGE_FUEL : nat := Z.to_nat 16385.

Definition user_range_ok v ctx (uaddr len : Z) : option bool :=
  if uaddr =? 0 then Some false
  else if len =? 0 then Some true
  else if UC_MAX_RANGE <? len then Some false
  else if u64 (uaddr + len) <? uaddr then Some false
  else if negb ctx.(from_user) then Some true
  else if (UC_USER_VA_MAX <=? uaddr) || (UC_USER_VA_MAX - uaddr <? len) then Some false
  else range_loop RANGE_FUEL v ctx.(pml4) (page_of uaddr) (page_of (uaddr + len - 1)).

Definition range_ok v ctx (uaddr len : Z) : bool := default false (user_range_ok v ctx uaddr len).

Definition copy_from_user v ctx (c : cpu) (kdst usrc len : Z) : cpu * Z :=
  if negb (range_ok v ctx usrc len) then (c, -1)
  else
    let c := if ctx.(from_user) then user_access_begin c else c in
    let c := touch c usrc len in
    let c := set_vmem c (KString.memcpy c.(vmem) kdst usrc len) in
    (if ctx.(from_user) then user_access_end c else c, 0).

Definition copy_to_user v ctx (c : cpu) (udst ksrc len : Z) : cpu * Z :=
  if negb (range_ok v ctx udst len) then (c, -1)
  else
    let c := if ctx.(from_user) then user_access_begin c else c in
    let c := touch c udst len in
    let c := set_vmem c (KString.memcpy c.(vmem) udst ksrc len) in
    (if ctx.(from_user) then user_access_end c else c, 0).

(** Ring 0: [while (i < cap - 1 && s[i] != 0) kdst[i] = s[i]]. *)
Fixpoint kstr_loop (fuel : nat) (c : cpu) (kdst usrc i cap : Z) : cpu * Z :=
  match fuel with
  | O => (c, i)
  | S fuel =>
      if (i <? cap - 1) && negb (ld c.(vmem) (usrc + i) =? 0)
      then kstr_loop fuel (set_vmem c (st c.(vmem) (kdst + i) (ld c.(vmem) (usrc + i))))
             kdst usrc (i + 1) cap
      else (c, i)
  end.

(** Ring 3: the loop entered with index [i] and [checked_page] [cp]; the last
    component of the result is [fail]. *)
Fixpoint ustr_loop (fuel : nat) v (as_ : Z) (c : cpu) (kdst usrc i cap cp : Z) : cpu * Z * bool :=
  match fuel with
  | O => (c, i, false)
  | S fuel =>
      if negb (i <? cap - 1) then (c, i, false)
      else
        let addr := u64 (usrc + i) in
        if addr <? usrc then (c, i, true)
        else
          let page := page_of addr in
          if negb (page =? cp) && ((UC_USER_VA_MAX <=? page) || negb (paging_is_mapped_into v page as_))
          then (c, i, true)
          else
            let c := touch c addr 1 in
            let ch := ld c.(vmem) addr in
            if ch =? 0 then (c, i, false)
            else ustr_loop fuel v as_ (set_vmem c (st c.(vmem) (kdst + i) ch))
                   kdst usrc (i + 1) cap page
  end.

Definition strncpy_from_user v ctx (c : cpu) (kdst usrc cap : Z) : cpu * Z :=
  if (usrc =? 0) || (cap =? 0) then (c, -1)
  else if negb ctx.(from_user) then
    let '(c, i) := kstr_loop (Z.to_nat cap) c kdst usrc 0 cap in
    (set_vmem c (st c.(vmem) (kdst + i) 0), i)
  else
    let c := user_access_begin c in
    let '(c, i, fail) := ustr_loop (Z.to_nat cap) v ctx.(pml4) c kdst usrc 0 cap 1 in
    let c := user_access_end c in
    if fail then (c, -1) else (set_vmem c (st c.(vmem) (kdst + i) 0), i).

(** ** Specification *)

(** A byte ring 3 may name: below the user limit, in a page that is mapped in
    the caller's address space. *)
Definition user_byte v (as_ a : Z) : bool :=
  (a <? UC_USER_VA_MAX) && paging_is_mapped_into v (page_of a) as_.

(** A traced dereference SMAP and the page tables permit. *)
Definition allowed v (as_ : Z) (smap : bool) (t : Z * bool) : Prop :=
  user_byte v as_ t.1 = true /\ (smap = true -> t.2 = true).

(** [c'] continues [c] with permitted dereferences only. *)
Definition extends v (as_ : Z) (c c' : cpu) : Prop :=
  c'.(g_smap_enabled) = c.(g_smap_enabled) /\
  exists t, c'.(trace) = c.(trace) ++ t /\ Forall (allowed v as_ c.(g_smap_enabled)) t.

(** ** Pages *)

Lemma page_of_div a : 0 <= a < 2 ^ 64 -> page_of a = a / 4096 * 4096.
Proof.
  intros Ha. unfold page_of.
  replace 0xFFFFFFFFFFFFF000 with (Z.shiftl (Z.ones 52) 12) by reflexivity.
  apply Z.bits_inj'. intros n Hn. change 4096 with (2 ^ 12).
  rewrite <- (Z.shiftl_mul_pow2 (a / 2 ^ 12) 12), <- Z.shiftr_div_pow2 by lia.
  rewrite Z.land_spec, !Z.shiftl_spec by lia.
  destruct (Z.ltb_spec n 12).
  - rewrite !(Z.testbit_neg_r _ (n - 12)) by lia. by rewrite andb_false_r.
  - rewrite Z.shiftr_spec by lia. replace (n - 12 + 12) with n by lia.
    destruct (Z.ltb_spec n 64).
    + rewrite Z.ones_spec_low by lia. by rewrite andb_true_r.
    + rewrite Z.ones_spec_high by lia. rewrite andb_false_r. symmetry.
      apply (proj1 (Z.bounded_iff_bits_nonneg' 64 a ltac:(lia) ltac:(lia))); lia.
Qed.

(** The loop visits the pages [k, k + 1, ..., k + n]. *)
Lemma range_loop_spec v as_ n fuel k :
  (n < fuel)%nat -> 0 <= k -> (k + Z.of_nat n) * 4096 < 2 ^ 64 ->
  exists b, range_loop fuel v as_ (k * 4096) ((k + Z.of_nat n) * 4096) = Some b /\
    (b = true <-> forall q, k <= q <= k + Z.of_nat n ->
                  paging_is_mapped_into v (q * 4096) as_ = true).
Proof.
  revert fuel k. induction n as [|n IH]; intros [|fuel] k Hf Hk Hw; [lia| |lia|]; cbn [range_loop].
  - destruct (paging_is_mapped_into v (k * 4096) as_) eqn:E; cbn [negb].
    + rewrite (proj2 (Z.eqb_eq _ _)) by lia. exists true. split; [done|]. split; [|done].
      intros _ q Hq. by replace q with k by lia.
    + exists false. split; [done|]. split; [done|]. intros Hm. rewrite Hm in E by lia. done.
  - destruct (paging_is_mapped_into v (k * 4096) as_) eqn:E; cbn [negb].
    + rewrite (proj2 (Z.eqb_neq _ _)) by lia. rewrite wrap_small by lia.
      destruct (IH fuel (k + 1) ltac:(lia) ltac:(lia) ltac:(lia)) as (b & Hb & Hm).
      replace (k * 4096 + 4096) with ((k + 1) * 4096) by lia.
      replace (k + Z.of_nat (S n)) with (k + 1 + Z.of_nat n) by lia.
      exists b. split; [done|]. rewrite Hm. split; intros H1 q Hq.
      * destruct (Z.eq_dec q k) as [->|]; [done|]. apply H1; lia.
      * apply H1; lia.
    + exists false. split; [done|]. split; [done|]. intros Hm. rewrite Hm in E by lia. done.
Qed.

(** What [user_range_ok] accepts. *)
Definition range_spec v ctx (uaddr len : Z) : Prop :=
  uaddr <> 0 /\
  (len = 0 \/
   len <= UC_MAX_RANGE /\ uaddr + len < 2 ^ 64 /\
   (from_user ctx = true -> forall a, uaddr <= a < uaddr + len -> user_byte v (pml4 ctx) a = true)).

Lemma pages_bytes v as_ u len :
  0 <= u -> 0 < len -> u + len <= UC_USER_VA_MAX ->
  (forall q, u / 4096 <= q <= (u + len - 1) / 4096 -> paging_is_mapped_into v (q * 4096) as_ = true)
  <-> (forall a, u <= a < u + len -> user_byte v as_ a = true).
Proof.
  intros Hu Hl Hm. unfold UC_USER_VA_MAX in Hm. split; intros HQ.
  - intros a Ha. unfold user_byte, UC_USER_VA_MAX.
    rewrite (proj2 (Z.ltb_lt _ _)) by lia. cbn [andb]. rewrite page_of_div by lia.
    apply HQ. split; apply Z.div_le_mono; lia.
  - intros q Hq.
    assert (exists a, u <= a < u + len /\ a / 4096 = q) as (a & Ha & <-).
    { exists (Z.max u (q * 4096)). divlia. }
    specialize (HQ a Ha). unfold user_byte in HQ. apply andb_true_iff in HQ as [_ HQ].
    by rewrite page_of_div in HQ by lia.
Qed.

Lemma user_range_ok_spec v ctx uaddr len :
  0 <= uaddr < 2 ^ 64 -> 0 <= len < 2 ^ 64 ->
  exists b, user_range_ok v ctx uaddr len = Some b /\ (b = true <-> range_spec v ctx uaddr len).
Proof.
  intros Hu Hl. unfold user_range_ok, range_spec.
  destruct (Z.eqb_spec uaddr 0); [exists false; naive_solver|].
  destruct (Z.eqb_spec len 0); [exists true; naive_solver|].
  destruct (Z.ltb_spec UC_MAX_RANGE len); [exists false; split; [done|]; split; [done|]; intros (_ & [?|(? & ? & _)]); lia|].
  assert (u64 (uaddr + len) < uaddr <-> 2 ^ 64 <= uaddr + len) as Hw.
  { unfold wrap, UC_MAX_RANGE in *. divlia. }
  destruct (Z.ltb_spec (u64 (uaddr + len)) uaddr).
  { exists false. split; [done|]. split; [done|]. intros (_ & [?|(_ & ? & _)]); lia. }
  destruct (from_user ctx) eqn:Ef; cbn [negb].
  2:{ exists true. split; [done|]. split; [|done]. intros _. split; [done|]. right. splits. }
  assert (uaddr + len <= UC_USER_VA_MAX \/
          (UC_USER_VA_MAX <= uaddr \/ UC_USER_VA_MAX - uaddr < len)) as [Hin|Hout] by lia.
  2:{ exists false. split.
      { destruct (Z.leb_spec UC_USER_VA_MAX uaddr), (Z.ltb_spec (UC_USER_VA_MAX - uaddr) len);
          try done; lia. }
      split; [done|]. intros (_ & [?|(_ & _ & Hb)]); [lia|].
      specialize (Hb eq_refl (uaddr + len - 1) ltac:(lia)). unfold user_byte in Hb. zprop. lia. }
  rewrite (proj2 (Z.leb_gt _ _)), (proj2 (Z.ltb_ge _ _)) by lia. cbn [orb].
  unfold UC_USER_VA_MAX, UC_MAX_RANGE in *. rewrite !page_of_div by lia.
  set (k := uaddr / 4096). set (e := (uaddr + len - 1) / 4096).
  assert (k <= e <= k + 16384 /\ 0 <= k /\ e * 4096 < 2 ^ 64) as (Hke & Hk & He) by (unfold k, e; divlia).
  destruct (range_loop_spec v (pml4 ctx) (Z.to_nat (e - k)) RANGE_FUEL k) as (b & Hb & Hm);
    [unfold RANGE_FUEL; lia|lia|replace (k + Z.of_nat (Z.to_nat (e - k))) with e by lia; lia|].
  replace (k + Z.of_nat (Z.to_nat (e - k))) with e in Hb, Hm by lia.
  exists b. split; [done|]. rewrite Hm.
  pose proof (pages_bytes v (pml4 ctx) uaddr len ltac:(lia) ltac:(lia)) as HP.
  specialize (HP ltac:(unfold UC_USER_VA_MAX; lia)). fold k e in HP. rewrite HP.
  split; [intros HQ; splits; right; splits|intros (_ & [?|(_ & _ & HQ)]); [lia|by apply HQ]].
Qed.

Lemma range_ok_spec v ctx uaddr len :
  0 <= uaddr < 2 ^ 64 -> 0 <= len < 2 ^ 64 ->
  range_ok v ctx uaddr len = true <-> range_spec v ctx uaddr len.
Proof.
  intros Hu Hl. unfold range_ok.
  by destruct (user_range_ok_spec v ctx uaddr len Hu Hl) as (b & -> & Hb).
Qed.

(** C29. [user_range_ok] ends for every address and length, and accepts a range
    exactly when the address is not null and either the length is zero or the
    range has at most 64 MiB, does not wrap, and, for a caller in ring 3, every
    one of its bytes is below the user limit in a page mapped in the caller's
    address space.  For a caller in ring 0 the mapping is not checked, but the
    limit and the wrap are. *)
Theorem user_range_ok_exact v ctx uaddr len :
  0 <= uaddr < 2 ^ 64 -> 0 <= len < 2 ^ 64 ->
  exists b, user_range_ok v ctx uaddr len = Some b /\ (b = true <-> range_spec v ctx uaddr len).
Proof. apply user_range_ok_spec. Qed.

(** ** Dereferences *)

Lemma extends_refl v as_ c : extends v as_ c c.
Proof. split; [done|]. exists []. by rewrite app_nil_r. Qed.

Lemma extends_trans v as_ c1 c2 c3 : extends v as_ c1 c2 -> extends v as_ c2 c3 -> extends v as_ c1 c3.
Proof.
  intros [E1 (t1 & T1 & F1)] [E2 (t2 & T2 & F2)]. split; [congruence|].
  exists (t1 ++ t2). rewrite T2, T1, app_assoc. split; [done|].
  apply Forall_app. split; [done|]. by rewrite <- E1.
Qed.

(** Changes that leave the trace alone. *)
Lemma extends_same v as_ c c' :
  g_smap_enabled c' = g_smap_enabled c -> trace c' = trace c -> extends v as_ c c'.
Proof. intros E T. split; [done|]. exists []. by rewrite app_nil_r. Qed.

Lemma begin_same v as_ c : extends v as_ c (user_access_begin c).
Proof. unfold user_access_begin. destruct (g_smap_enabled c) eqn:E; by apply extends_same. Qed.

Lemma end_same v as_ c : extends v as_ c (user_access_end c).
Proof. unfold user_access_end. destruct (g_smap_enabled c) eqn:E; by apply extends_same. Qed.

Lemma begin_vmem c : vmem (user_access_begin c) = vmem c.
Proof. unfold user_access_begin. by destruct (g_smap_enabled c). Qed.

Lemma end_vmem c : vmem (user_access_end c) = vmem c.
Proof. unfold user_access_end. by destruct (g_smap_enabled c). Qed.

(** The window is open between [user_access_begin] and [user_access_end]. *)
Definition window (c : cpu) : Prop := g_smap_enabled c = true -> ac c = true.

Lemma begin_window c : window (user_access_begin c).
Proof. unfold window, user_access_begin. by destruct (g_smap_enabled c) eqn:E; simpl; rewrite ?E. Qed.

Lemma end_closed c : g_smap_enabled c = true -> ac (user_access_end c) = false.
Proof. unfold user_access_end. by intros ->. Qed.

Lemma touch_extends v as_ c a n :
  window c -> (forall b, a <= b < a + n -> user_byte v as_ b = true) -> extends v as_ c (touch c a n).
Proof.
  intros Hw Hb. split; [done|]. eexists. split; [done|]. apply Forall_fmap, Forall_forall.
  intros i Hi%elem_of_zrange. split; [apply (Hb (a + i)); lia|exact Hw].
Qed.

#[local] Hint Resolve extends_refl begin_same end_same begin_window : core.
#[local] Arguments user_access_begin : simpl never.
#[local] Arguments user_access_end : simpl never.

(** The common shape of the two copies, for a caller in ring 3 whose user range
    is [[u, u + len)]. *)
Lemma copy_shape v ctx c u d s len :
  range_spec v ctx u len -> from_user ctx = true -> 0 <= len ->
  let c1 := touch (user_access_begin c) u len in
  let c2 := user_access_end (set_vmem c1 (KString.memcpy (vmem c1) d s len)) in
  extends v (pml4 ctx) c c2 /\ vmem c2 = KString.memcpy (vmem c) d s len /\
  (g_smap_enabled c = true -> ac c2 = false).
Proof.
  intros (_ & Hr) Hf Hlen c1 c2. splits.
  - eapply extends_trans; [apply begin_same|].
    eapply extends_trans; [|apply (extends_trans _ _ _ (set_vmem c1 (KString.memcpy (vmem c1) d s len)));
      [by apply extends_same|apply end_same]].
    apply touch_extends; [done|]. intros b Hb.
    destruct Hr as [E0|(_ & _ & Hr)]; [lia|by apply Hr].
  - unfold c2, c1. rewrite end_vmem. cbn [set_vmem vmem touch]. by rewrite begin_vmem.
  - intros E. unfold c2, c1. apply end_closed. cbn [set_vmem touch g_smap_enabled].
    unfold user_access_begin. by rewrite E.
Qed.

(** The two copies, for a caller in ring 3. *)
Lemma user_copies_spec v ctx c u k len :
  0 <= u < 2 ^ 64 -> 0 <= len < 2 ^ 64 -> from_user ctx = true -> UC_USER_VA_MAX <= k ->
  (forall c' r, copy_from_user v ctx c k u len = (c', r) ->
     (r = 0 /\ range_spec v ctx u len /\
      (forall a, ld (vmem c') a
         = if (k <=? a) && (a <? k + len) then ld (vmem c) (u + (a - k)) else ld (vmem c) a) /\
      extends v (pml4 ctx) c c' /\ (g_smap_enabled c = true -> ac c' = false)) \/
     (r = -1 /\ ~ range_spec v ctx u len /\ c' = c)) /\
  (forall c' r, copy_to_user v ctx c u k len = (c', r) ->
     (r = 0 /\ range_spec v ctx u len /\
      (forall a, ld (vmem c') a
         = if (u <=? a) && (a <? u + len) then ld (vmem c) (k + (a - u)) else ld (vmem c) a) /\
      extends v (pml4 ctx) c c' /\ (g_smap_enabled c = true -> ac c' = false)) \/
     (r = -1 /\ ~ range_spec v ctx u len /\ c' = c)).
Proof.
  intros Hu Hl Hf Hk. pose proof (range_ok_spec v ctx u len Hu Hl) as Hr.
  assert (range_spec v ctx u len -> len = 0 \/ u + len <= UC_USER_VA_MAX) as Hd.
  { intros (_ & [?|(_ & _ & HB)]); [by left|]. destruct (Z.eq_dec len 0); [by left|right].
    specialize (HB Hf (u + len - 1) ltac:(lia)). unfold user_byte in HB. zprop. lia. }
  unfold copy_from_user, copy_to_user.
  destruct (range_ok v ctx u len) eqn:E; cbn [negb].
  2:{ assert (~ range_spec v ctx u len) by (intros HH; by apply Hr in HH).
      split; intros c' r [= <- <-]; right; splits. }
  destruct Hr as [Hr _]. specialize (Hr eq_refl). rewrite Hf. cbv zeta.
  split; intros c' r Eq; apply pair_equal_spec in Eq as [<- <-]; left.
  - destruct (copy_shape v ctx c u k u len Hr Hf) as (He & Hm & Ha); [lia|]. splits.
    intros a. rewrite Hm. unfold KString.memcpy. apply KString.copy_up; [lia|].
    destruct (Hd Hr) as [->|]; lia.
  - destruct (copy_shape v ctx c u u k len Hr Hf) as (He & Hm & Ha); [lia|]. splits.
    intros a. rewrite Hm. unfold KString.memcpy. apply KString.copy_up; [lia|].
    destruct (Hd Hr) as [->|]; lia.
Qed.

(** C30. The two copies across the boundary, for a caller in ring 3: each succeeds
    exactly on a range [user_range_ok] accepts; a failed call changes nothing;
    a successful one copies the [len] bytes and changes no other byte;
    every user address dereferenced is a mapped user byte and is dereferenced
    with the SMAP window open; the window is closed again on return. *)
Theorem user_copies_correct v ctx c u k len :
  0 <= u < 2 ^ 64 -> 0 <= len < 2 ^ 64 -> from_user ctx = true -> UC_USER_VA_MAX <= k ->
  (forall c' r, copy_from_user v ctx c k u len = (c', r) ->
     (r = 0 /\ range_spec v ctx u len /\
      (forall a, ld (vmem c') a
         = if (k <=? a) && (a <? k + len) then ld (vmem c) (u + (a - k)) else ld (vmem c) a) /\
      extends v (pml4 ctx) c c' /\ (g_smap_enabled c = true -> ac c' = false)) \/
     (r = -1 /\ ~ range_spec v ctx u len /\ c' = c)) /\
  (forall c' r, copy_to_user v ctx c u k len = (c', r) ->
     (r = 0 /\ range_spec v ctx u len /\
      (forall a, ld (vmem c') a
         = if (u <=? a) && (a <? u + len) then ld (vmem c) (k + (a - u)) else ld (vmem c) a) /\
      extends v (pml4 ctx) c c' /\ (g_smap_enabled c = true -> ac c' = false)) \/
     (r = -1 /\ ~ range_spec v ctx u len /\ c' = c)).
Proof. apply user_copies_spec. Qed.

(** ** Strings *)

(** Every address of the cached page is a user byte. *)
Definition cached v (as_ cp : Z) : Prop :=
  forall a, 0 <= a < 2 ^ 64 -> page_of a = cp -> user_byte v as_ a = true.

Lemma cached_start v as_ : cached v as_ 1.
Proof. intros a Ha E. rewrite page_of_div in E by lia. divlia. Qed.

(** The test the loop makes on the page of [addr]. *)
Lemma page_test v as_ cp addr :
  0 <= addr < 2 ^ 64 -> cached v as_ cp ->
  negb (page_of addr =? cp) &&
    ((UC_USER_VA_MAX <=? page_of addr) || negb (paging_is_mapped_into v (page_of addr) as_))
  = negb (user_byte v as_ addr).
Proof.
  intros Ha Hc. destruct (Z.eqb_spec (page_of addr) cp) as [E|_]; cbn [negb andb].
  - by rewrite (Hc addr Ha E).
  - unfold user_byte. rewrite negb_andb. f_equal.
    rewrite page_of_div by lia. unfold UC_USER_VA_MAX. zcase; zcase; simpl; try done; divlia.
Qed.

Lemma user_byte_cached v as_ addr :
  0 <= addr < 2 ^ 64 -> user_byte v as_ addr = true -> cached v as_ (page_of addr).
Proof.
  intros Ha Hb a Ha' E. unfold user_byte in *. rewrite E. apply andb_true_iff in Hb as [Hb Hmp].
  zprop. rewrite Hmp, andb_true_r. apply Z.ltb_lt. rewrite !page_of_div in E by lia.
  unfold UC_USER_VA_MAX in *. divlia.
Qed.

(** What the loop has done when it leaves at index [j], started at index [i]. *)
Record loop_post v (as_ : Z) (m0 : gmap Z Z) (c c' : cpu) (kdst usrc i j cap : Z) (fail : bool) : Prop := {
  lp_range : i <= j <= cap - 1;
  lp_prefix : forall x, i <= x < j ->
    user_byte v as_ (usrc + x) = true /\ ld m0 (usrc + x) <> 0;
  lp_end : if fail then j < cap - 1 /\ user_byte v as_ (usrc + j) = false
           else j = cap - 1 \/ (j < cap - 1 /\ user_byte v as_ (usrc + j) = true /\ ld m0 (usrc + j) = 0);
  lp_mem : forall a, ld (vmem c') a
    = if (kdst + i <=? a) && (a <? kdst + j) then ld m0 (usrc + (a - kdst)) else ld (vmem c) a;
  lp_trace : extends v as_ c c';
}.

(** Leaving at once. *)
Lemma loop_post_here v as_ m0 c c' kdst usrc i cap (fail : bool) :
  i <= cap - 1 -> vmem c' = vmem c -> extends v as_ c c' ->
  (if fail then i < cap - 1 /\ user_byte v as_ (usrc + i) = false
   else i = cap - 1 \/ (i < cap - 1 /\ user_byte v as_ (usrc + i) = true /\ ld m0 (usrc + i) = 0)) ->
  loop_post v as_ m0 c c' kdst usrc i i cap fail.
Proof.
  intros Hi E Hx Hend. split; [lia|intros; lia|done| |done].
  intros a. rewrite E. zcase; zcase; simpl; try lia; done.
Qed.

Lemma ustr_loop_spec v as_ m0 fuel c kdst usrc i cap cp :
  0 <= i < cap -> (Z.to_nat (cap - i) <= fuel)%nat -> cap < 2 ^ 64 -> 0 < usrc < 2 ^ 64 ->
  UC_USER_VA_MAX <= kdst -> cached v as_ cp -> window c ->
  (forall a, a < UC_USER_VA_MAX -> ld (vmem c) a = ld m0 a) ->
  exists c' j fail, ustr_loop fuel v as_ c kdst usrc i cap cp = (c', j, fail) /\
    loop_post v as_ m0 c c' kdst usrc i j cap fail.
Proof.
  revert c i cp. induction fuel as [|fuel IH]; intros c i cp Hi Hf Hcap Hu Hk Hc Hw Hm; [lia|].
  cbn [ustr_loop]. destruct (Z.ltb_spec i (cap - 1)); cbn [negb].
  2:{ eexists _, _, _. split; [done|]. apply loop_post_here; auto; lia. }
  assert (u64 (usrc + i) < usrc <-> 2 ^ 64 <= usrc + i) as Hwrap by (unfold wrap; divlia).
  destruct (Z.ltb_spec (u64 (usrc + i)) usrc).
  { eexists _, _, _. split; [done|]. apply loop_post_here; auto; [lia|]. split; [lia|].
    unfold user_byte, UC_USER_VA_MAX. rewrite (proj2 (Z.ltb_ge _ _)) by lia. done. }
  rewrite (wrap_small 64 (usrc + i)) by lia. rewrite page_test by (done || lia).
  destruct (user_byte v as_ (usrc + i)) eqn:Eb; cbn [negb].
  2:{ eexists _, _, _. split; [done|]. apply loop_post_here; auto; lia. }
  assert (extends v as_ c (touch c (usrc + i) 1)) as Ht.
  { apply touch_extends; [done|]. intros b Hb. by replace b with (usrc + i) by lia. }
  change (vmem (touch c (usrc + i) 1)) with (vmem c).
  assert (usrc + i < UC_USER_VA_MAX) as Hlt by (unfold user_byte in Eb; zprop; done).
  destruct (Z.eqb_spec (ld (vmem c) (usrc + i)) 0) as [E0|E0].
  { eexists _, _, _. split; [done|]. apply loop_post_here; auto; [lia|]. right.
    rewrite <- Hm by done. splits. }
  set (c1 := set_vmem (touch c (usrc + i) 1) (st (vmem c) (kdst + i) (ld (vmem c) (usrc + i)))).
  destruct (IH c1 (i + 1) (page_of (usrc + i))) as (c' & j & fail & -> & [P1 P2 P3 P4 P5]); try lia; try done.
  { apply user_byte_cached; [lia|done]. }
  { intros a Ha. unfold c1. cbn [vmem set_vmem]. rewrite ld_st_ne by lia. by apply Hm. }
  eexists _, _, _. split; [done|]. split; [lia| |done| |].
  - intros x Hx. destruct (Z.eq_dec x i) as [->|]; [|apply P2; lia]. by rewrite <- Hm.
  - intros a. rewrite P4. unfold c1. cbn [vmem set_vmem]. rewrite ld_st, Hm by done.
    destruct (Z.eqb_spec (kdst + i) a) as [<-|].
    + replace (usrc + (kdst + i - kdst)) with (usrc + i) by lia.
      zcase; zcase; zcase; simpl; try lia; done.
    + zcase; zcase; zcase; simpl; try lia; done.
  - eapply extends_trans; [exact Ht|]. eapply extends_trans; [|exact P5]. by apply extends_same.
Qed.

(** The first index at which copying stops: a terminator or a byte ring 3 may
    not name. *)
Definition stop_at v (as_ : Z) (m : gmap Z Z) (usrc i : Z) : bool :=
  negb (user_byte v as_ (usrc + i)) || (ld m (usrc + i) =? 0).

(** The length [strncpy_from_user] returns. *)
Definition strncpy_result v (as_ : Z) (m : gmap Z Z) (usrc cap : Z) : Z :=
  match find_loop 0 (cap - 1) (stop_at v as_ m usrc) with
  | None => cap - 1
  | Some k => if user_byte v as_ (usrc + k) then k else -1
  end.

Lemma loop_result v as_ m c c' kdst usrc j cap fail :
  loop_post v as_ m c c' kdst usrc 0 j cap fail ->
  strncpy_result v as_ m usrc cap = if fail then -1 else j.
Proof.
  intros [P1 P2 P3 _ _]. unfold strncpy_result.
  assert (forall x, 0 <= x < j -> stop_at v as_ m usrc x = false) as Hpre.
  { intros x Hx. destruct (P2 x Hx) as [E1 E2]. unfold stop_at.
    rewrite E1. simpl. by apply Z.eqb_neq. }
  assert (j < cap - 1 -> stop_at v as_ m usrc j = true ->
          find_loop 0 (cap - 1) (stop_at v as_ m usrc) = Some j) as Hat.
  { intros. apply find_loop_Some. splits. }
  unfold stop_at in Hat at 1. destruct fail.
  - destruct P3 as [? E]. rewrite Hat; [by rewrite E|lia|by rewrite E].
  - destruct P3 as [->|(? & E1 & E2)].
    + by rewrite (proj2 (find_loop_None _ _ _) Hpre).
    + rewrite Hat; [by rewrite E1|lia|by rewrite E1, E2].
Qed.

(** [strncpy_from_user] for a caller in ring 3: it returns the index of the
    first terminator among the first [cap - 1] bytes, or [cap - 1] when there
    is none, or [-1] when a byte that ring 3 may not name comes first.  On
    success the kernel buffer holds the copied bytes and a terminator and
    nothing else is changed; on failure only the buffer can have changed.
    Only mapped user bytes are dereferenced, with the SMAP window open, and the
    window is closed again on return. *)
Theorem strncpy_from_user_correct v ctx c kdst usrc cap c' r :
  from_user ctx = true -> 0 < usrc < 2 ^ 64 -> 0 < cap < 2 ^ 64 -> UC_USER_VA_MAX <= kdst ->
  strncpy_from_user v ctx c kdst usrc cap = (c', r) ->
  r = strncpy_result v (pml4 ctx) (vmem c) usrc cap /\
  (0 <= r -> r < cap /\
     forall a, ld (vmem c') a
       = if (kdst <=? a) && (a <? kdst + r) then ld (vmem c) (usrc + (a - kdst))
         else if a =? kdst + r then 0 else ld (vmem c) a) /\
  (r < 0 -> forall a, ~ (kdst <= a < kdst + (cap - 1)) -> ld (vmem c') a = ld (vmem c) a) /\
  extends v (pml4 ctx) c c' /\ (g_smap_enabled c = true -> ac c' = false).
Proof.
  intros Hf Hu Hcap Hk. unfold strncpy_from_user.
  rewrite (proj2 (Z.eqb_neq _ _)), (proj2 (Z.eqb_neq _ _)), Hf by lia. cbn [orb negb].
  destruct (ustr_loop_spec v (pml4 ctx) (vmem c) (Z.to_nat cap) (user_access_begin c) kdst usrc 0 cap 1)
    as (c1 & j & fail & -> & HP); try lia; auto using cached_start.
  { intros a _. by rewrite begin_vmem. }
  pose proof (loop_result _ _ _ _ _ _ _ _ _ _ HP) as Hres. destruct HP as [P1 _ _ P4 P5].
  rewrite begin_vmem in P4.
  assert (extends v (pml4 ctx) c (user_access_end c1)) as Hext.
  { eapply extends_trans; [apply begin_same|]. eapply extends_trans; [exact P5|]. apply end_same. }
  assert (g_smap_enabled c = true -> ac (user_access_end c1) = false) as Hac.
  { intros E. apply end_closed. destruct (extends_trans _ _ _ _ _ (begin_same v (pml4 ctx) c) P5) as [E' _].
    congruence. }
  destruct fail; intros Eq; apply pair_equal_spec in Eq as [<- <-]; rewrite Hres.
  - splits. intros _ a Ha. rewrite end_vmem, P4. zcase; zcase; simpl; try lia; done.
  - splits.
    intros _. split; [lia|]. intros a. cbn [vmem set_vmem]. rewrite ld_st, end_vmem, P4.
    rewrite Z.add_0_r, (Z.eqb_sym (kdst + j)). zcase; zcase; zcase; simpl; try lia; done.
Qed.
End usercopy.

(** ** Witnesses *)

#[local] Existing Instance Pmm.pmm_allocator.

(** An address space with one user page at [0x400000]. *)
Definition demo_as : vm Pmm.pmm := (vmm_map_page_into PagingOps.demo_vm 0x400000 0x5000 7 0x1000).1.
Definition demo_ctx : ucopy_ctx_t := mk_ctx true 0x1000.
Definition KBUF : Z := 0xFFFF800000010000.

(** [7 8 0] at the end of the page, and three bytes without terminator. *)
Definition demo_cpu : cpu :=
  mk_cpu (list_to_map [(0x400FF0, 7); (0x400FF1, 8); (0x400FFE, 1); (0x400FFF, 2); (0x401000, 3)])
    false true [].

Lemma user_range_ok_exact_witness :
  (exists b, user_range_ok demo_as demo_ctx 0x400F00 0x100 = Some b) /\
  range_ok demo_as demo_ctx 0x400F00 0x100 = true /\ range_ok demo_as demo_ctx 0x400F00 0x101 = false.
Proof.
  split.
  - destruct (user_range_ok_exact demo_as demo_ctx 0x400F00 0x100 ltac:(lia) ltac:(lia)) as (b & Hb & _).
    exists b. exact Hb.
  - split; vm_compute; reflexivity.
Defined.

Lemma user_copies_correct_witness :
  ld (vmem (copy_from_user demo_as demo_ctx demo_cpu KBUF 0x400FF0 2).1) (KBUF + 1) = 8.
Proof.
  destruct (user_copies_correct demo_as demo_ctx demo_cpu 0x400FF0 KBUF 2 ltac:(lia) ltac:(lia)
              eq_refl ltac:(vm_compute; discriminate)) as [H _].
  destruct (H _ _ (surjective_pairing _)) as [(_ & _ & Hm & _)|(_ & Hn & _)].
  - rewrite Hm. vm_compute. reflexivity.
  - exfalso. apply Hn. apply range_ok_spec; [lia|lia|]. vm_compute. reflexivity.
Defined.

(** A string that ends inside the page, and one that runs into the unmapped page. *)
Lemma strncpy_from_user_correct_witness :
  (strncpy_from_user demo_as demo_ctx demo_cpu KBUF 0x400FF0 64).2 = 2 /\
  (strncpy_from_user demo_as demo_ctx demo_cpu KBUF 0x400FFE 64).2 = -1.
Proof.
  split.
  - rewrite (proj1 (strncpy_from_user_correct demo_as demo_ctx demo_cpu KBUF 0x400FF0 64 _ _ eq_refl
      ltac:(lia) ltac:(lia) ltac:(vm_compute; discriminate) (surjective_pairing _))).
    vm_compute. reflexivity.
  - rewrite (proj1 (strncpy_from_user_correct demo_as demo_ctx demo_cpu KBUF 0x400FFE 64 _ _ eq_refl
      ltac:(lia) ltac:(lia) ltac:(vm_compute; discriminate) (surjective_pairing _))).
    vm_compute. reflexivity.
Defined.
End Usercopy.
