(* ===== verification/Display.v ===== *)
(** * Display buffers (src/kernel/display.c, src/include/display.h)

    Pixel buffers, rectangles, the dirty-region list and the viewport blit.

    Pixel memory is a map of 32-bit cells; the cell of pixel [i] of a buffer is
    [pixels / 4 + i], so a [memcpy] of [4 n] bytes between pixel rows is a copy
    of [n] cells.  Buffers and dirty lists are reached through pointers ([0] is
    [NULL]) and live in [bufs] and [dlists].  The kernel heap is used through
    the class [KAlloc]. *)

From S2P Require Import Prelude KString.
From stdpp Require Import base numbers list gmap.
From Stdlib Require Import ZArith Lia.

#[local] Open Scope Z_scope.

(** The heap as this layer sees it: [kmalloc] returns [0] on failure. *)
Class KAlloc (H : Type) := {
  ka_kmalloc : Z -> H -> H * Z;
  ka_kfree : Z -> H -> H;
}.

(** What clients rely on: blocks handed out are fresh, have the requested size,
    and stay live until freed. *)
Class KAllocOk (H : Type) `{KAlloc H} := {
  ka_live : H -> Z -> Prop;
  ka_size : H -> Z -> Z;
  ka_nonnull : forall h, ~ ka_live h 0;
  ka_fresh : forall n h, (ka_kmalloc n h).2 <> 0 -> ~ ka_live h (ka_kmalloc n h).2;
  ka_malloc_live : forall n h p, ka_live (ka_kmalloc n h).1 p <->
    ka_live h p \/ ((ka_kmalloc n h).2 <> 0 /\ p = (ka_kmalloc n h).2);
  ka_malloc_size : forall n h, (ka_kmalloc n h).2 <> 0 ->
    ka_size (ka_kmalloc n h).1 (ka_kmalloc n h).2 = n;
  ka_malloc_keeps : forall n h p, ka_live h p -> ka_size (ka_kmalloc n h).1 p = ka_size h p;
  ka_free_live : forall q h p, ka_live (ka_kfree q h) p <-> ka_live h p /\ p <> q;
  ka_free_keeps : forall q h p, p <> q -> ka_size (ka_kfree q h) p = ka_size h p;
}.

Module Display.

(** ** Data *)

Record Rect := mk_rect { x : Z; y : Z; width : Z; height : Z }.

Record DisplayBuffer := mk_db {
  db_width : Z; db_height : Z; stride : Z; format : Z; pixels : Z; owns_pixels : bool; dirty : Z;
}.

Definition MAX_DIRTY_REGIONS : Z := 64.

Record DirtyRegionList := mk_dirty { regions : gmap Z Rect; count : Z; collapsed : bool }.

Record Viewport := mk_vp { bounds : Rect; scroll_x : Z; scroll_y : Z; source : Z }.

Definition rect0 : Rect := mk_rect 0 0 0 0.
Definition db0 : DisplayBuffer := mk_db 0 0 0 0 0 false 0.
Definition dirty0 : DirtyRegionList := mk_dirty ∅ 0 false.
Definition COLOR_FORMAT_XRGB8888 : Z := 0.
Definition SIZE_MAX : Z := 2 ^ 64 - 1.
(** [sizeof(DisplayBuffer)]. *)
Definition SIZEOF_DB : Z := 40.

Definition region (l : DirtyRegionList) (i : Z) : Rect := default rect0 (l.(regions) !! i).

(** The cell of pixel [i]. *)
Definition cell (b : DisplayBuffer) (i : Z) : Z := b.(pixels) / 4 + i.

(** ** Rectangles *)

Definition rect_clip_to_buffer (b : DisplayBuffer) (a : Rect) : option Rect :=
  let x0 := a.(x) in
  let y0 := a.(y) in
  let x1 := x0 + a.(width) in
  let y1 := y0 + a.(height) in
  let x0 := if x0 <? 0 then 0 else x0 in
  let y0 := if y0 <? 0 then 0 else y0 in
  let x1 := if b.(db_width) <? x1 then b.(db_width) else x1 in
  let y1 := if b.(db_height) <? y1 then b.(db_height) else y1 in
  if (x1 <=? x0) || (y1 <=? y0) then None
  else Some (mk_rect (i32 x0) (i32 y0) (u32 (x1 - x0)) (u32 (y1 - y0))).

Definition rect_intersect (a b : Rect) : option Rect :=
  let x0 := if b.(x) <? a.(x) then a.(x) else b.(x) in
  let y0 := if b.(y) <? a.(y) then a.(y) else b.(y) in
  let ax1 := a.(x) + a.(width) in
  let ay1 := a.(y) + a.(height) in
  let bx1 := b.(x) + b.(width) in
  let by1 := b.(y) + b.(height) in
  let x1 := if ax1 <? bx1 then ax1 else bx1 in
  let y1 := if ay1 <? by1 then ay1 else by1 in
  if (x1 <=? x0) || (y1 <=? y0) then None
  else Some (mk_rect (i32 x0) (i32 y0) (u32 (x1 - x0)) (u32 (y1 - y0))).

Definition rect_union (a b : Rect) : Rect :=
  let x0 := if a.(x) <? b.(x) then a.(x) else b.(x) in
  let y0 := if a.(y) <? b.(y) then a.(y) else b.(y) in
  let ax1 := a.(x) + a.(width) in
  let ay1 := a.(y) + a.(height) in
  let bx1 := b.(x) + b.(width) in
  let by1 := b.(y) + b.(height) in
  let x1 := if bx1 <? ax1 then ax1 else bx1 in
  let y1 := if by1 <? ay1 then ay1 else by1 in
  mk_rect (i32 x0) (i32 y0) (u32 (x1 - x0)) (u32 (y1 - y0)).

(** ** Dirty regions *)

Definition dirty_region_clear (l : DirtyRegionList) : DirtyRegionList := mk_dirty l.(regions) 0 false.

Definition dirty_region_mark (l : DirtyRegionList) (r : Rect) : DirtyRegionList :=
  if (r.(width) =? 0) || (r.(height) =? 0) then l
  else if l.(collapsed) then mk_dirty (<[0 := rect_union (region l 0) r]> l.(regions)) l.(count) true
  else if MAX_DIRTY_REGIONS <=? l.(count) then
    let box := for_loop 1 l.(count) (fun i box => rect_union box (region l i)) (region l 0) in
    let box := rect_union box r in
    mk_dirty (<[0 := box]> l.(regions)) 1 true
  else mk_dirty (<[l.(count) := r]> l.(regions)) (l.(count) + 1) l.(collapsed).

(** ** Buffers *)

Section display.
Context {H : Type} `{KAlloc H}.

Record gfx := mk_gfx {
  pix : gmap Z Z; bufs : gmap Z DisplayBuffer; dlists : gmap Z DirtyRegionList; gheap : H;
}.

Definition set_pix (g : gfx) (m : gmap Z Z) : gfx := mk_gfx m g.(bufs) g.(dlists) g.(gheap).
Definition set_gheap (g : gfx) (h : H) : gfx := mk_gfx g.(pix) g.(bufs) g.(dlists) h.
Definition set_bufs (g : gfx) (b : gmap Z DisplayBuffer) : gfx := mk_gfx g.(pix) b g.(dlists) g.(gheap).

Definition gkmalloc (g : gfx) (n : Z) : gfx * Z :=
  let '(h, p) := ka_kmalloc n g.(gheap) in (set_gheap g h, p).
Definition gkfree (g : gfx) (p : Z) : gfx := set_gheap g (ka_kfree p g.(gheap)).

Definition db_at (g : gfx) (p : Z) : DisplayBuffer := default db0 (g.(bufs) !! p).

Definition mark (g : gfx) (d : Z) (r : Rect) : gfx :=
  if d =? 0 then g
  else mk_gfx g.(pix) g.(bufs)
         (<[d := dirty_region_mark (default dirty0 (g.(dlists) !! d)) r]> g.(dlists)) g.(gheap).

Definition display_buffer_create (g : gfx) (w h fmt : Z) : gfx * Z :=
  if (w =? 0) || (h =? 0) then (g, 0)
  else
    let '(g, buffer) := gkmalloc g SIZEOF_DB in
    if buffer =? 0 then (g, 0)
    else
      let bytes := u64 (w * h * 4) in
      if negb (w =? 0) && negb (bytes / w / 4 =? h) then (gkfree g buffer, 0)
      else if SIZE_MAX <? bytes then (gkfree g buffer, 0)
      else
        let '(g, p) := gkmalloc g bytes in
        if p =? 0 then (gkfree g buffer, 0)
        else (set_bufs g (<[buffer := mk_db w h w fmt p true 0]> g.(bufs)), buffer).

Definition display_buffer_wrap (g : gfx) (p w h str fmt : Z) : gfx * Z :=
  if (p =? 0) || (w =? 0) || (h =? 0) || (str <? w) then (g, 0)
  else
    let '(g, buffer) := gkmalloc g SIZEOF_DB in
    if buffer =? 0 then (g, 0)
    else (set_bufs g (<[buffer := mk_db w h str fmt p false 0]> g.(bufs)), buffer).

Definition display_buffer_destroy (g : gfx) (buffer : Z) : gfx :=
  if buffer =? 0 then g
  else
    let b := db_at g buffer in
    let g := if b.(owns_pixels) then gkfree g b.(pixels) else g in
    let g := gkfree g buffer in
    set_bufs g (delete buffer g.(bufs)).

Definition display_buffer_write_pixel (g : gfx) (buffer px py color : Z) : gfx :=
  if buffer =? 0 then g
  else
    let b := db_at g buffer in
    if (px <? 0) || (py <? 0) || (b.(db_width) <=? u32 px) || (b.(db_height) <=? u32 py) then g
    else
      let g := set_pix g (st g.(pix) (cell b (u32 (u32 (u32 py * b.(stride)) + u32 px))) color) in
      mark g b.(dirty) (mk_rect px py 1 1).

Definition display_buffer_fill_rect (g : gfx) (buffer : Z) (area : Rect) (color : Z) : gfx :=
  if buffer =? 0 then g
  else
    let b := db_at g buffer in
    match rect_clip_to_buffer b area with
    | None => g
    | Some area =>
        let m := for_loop 0 area.(height) (fun row m =>
          let line := cell b (u32 (u32 (u32 (u32 area.(y) + row) * b.(stride)) + u32 area.(x))) in
          for_loop 0 area.(width) (fun col m => st m (line + col) color) m) g.(pix) in
        mark (set_pix g m) b.(dirty) area
    end.

(** ** Viewports *)

Definition viewport_scroll (vp : Viewport) (dx dy : Z) : Viewport :=
  let sx := i32 (vp.(scroll_x) + dx) in
  let sy := i32 (vp.(scroll_y) + dy) in
  mk_vp vp.(bounds) (if sx <? 0 then 0 else sx) (if sy <? 0 then 0 else sy) vp.(source).

(** The clipped range of columns (or rows): extent [n] of the bounds at [b],
    scroll [s], source extent [sn], target extent [tn]. *)
Definition clip_range (n b s sn tn : Z) : Z * Z :=
  let c0 := 0 in
  let c1 := n in
  let c0 := if c0 <? - s then - s else c0 in
  let c1 := if sn - s <? c1 then sn - s else c1 in
  let c0 := if c0 <? - b then - b else c0 in
  let c1 := if tn - b <? c1 then tn - b else c1 in
  (c0, c1).

Definition viewport_render (g : gfx) (vp : Viewport) (target : Z) : gfx :=
  if (target =? 0) || (vp.(source) =? 0) then g
  else
    let src := db_at g vp.(source) in
    let tgt := db_at g target in
    let '(c0, c1) := clip_range vp.(bounds).(width) vp.(bounds).(x) vp.(scroll_x)
                       src.(db_width) tgt.(db_width) in
    if c1 <=? c0 then g
    else
      let '(r0, r1) := clip_range vp.(bounds).(height) vp.(bounds).(y) vp.(scroll_y)
                         src.(db_height) tgt.(db_height) in
      if r1 <=? r0 then g
      else
        set_pix g (for_loop r0 r1 (fun row m =>
          let s := cell src (u64 (u64 (vp.(scroll_y) + row) * src.(stride)) + u64 (vp.(scroll_x) + c0)) in
          let d := cell tgt (u64 (u64 (vp.(bounds).(y) + row) * tgt.(stride)) + u64 (vp.(bounds).(x) + c0)) in
          KString.memcpy m d s (c1 - c0)) g.(pix)).

(** ** Pixels of a rectangle *)

Definition in_rect (r : Rect) (px py : Z) : Prop :=
  r.(x) <= px < r.(x) + r.(width) /\ r.(y) <= py < r.(y) + r.(height).

(** Machine ranges of the fields. *)
Definition rect_ok (r : Rect) : Prop :=
  - 2 ^ 31 <= r.(x) < 2 ^ 31 /\ - 2 ^ 31 <= r.(y) < 2 ^ 31 /\
  0 <= r.(width) < 2 ^ 32 /\ 0 <= r.(height) < 2 ^ 32.

(** A non-empty rectangle in the part of the plane where no extent can wrap. *)
Definition rect_near (r : Rect) : Prop :=
  - 2 ^ 30 <= r.(x) /\ r.(x) + r.(width) <= 2 ^ 31 /\ 0 < r.(width) /\
  - 2 ^ 30 <= r.(y) /\ r.(y) + r.(height) <= 2 ^ 31 /\ 0 < r.(height).

(** The intersection is exact on all rectangles of the machine ranges. *)
Lemma rect_intersect_spec a b :
  rect_ok a -> rect_ok b ->
  match rect_intersect a b with
  | Some r => rect_ok r /\ 0 < width r /\ 0 < height r /\
              (forall px py, in_rect r px py <-> in_rect a px py /\ in_rect b px py)
  | None => forall px py, ~ (in_rect a px py /\ in_rect b px py)
  end.
Proof.
  intros (A1 & A2 & A3 & A4) (B1 & B2 & B3 & B4). unfold rect_intersect, in_rect.
  set (x0 := if x b <? x a then _ else _). set (y0 := if y b <? y a then _ else _).
  set (x1 := if x a + width a <? _ then _ else _). set (y1 := if y a + height a <? _ then _ else _).
  assert (x0 = Z.max (x a) (x b)) as Ex0 by (unfold x0; zcases).
  assert (y0 = Z.max (y a) (y b)) as Ey0 by (unfold y0; zcases).
  assert (x1 = Z.min (x a + width a) (x b + width b)) as Ex1 by (unfold x1; zcases).
  assert (y1 = Z.min (y a + height a) (y b + height b)) as Ey1 by (unfold y1; zcases).
  clearbody x0 y0 x1 y1.
  destruct (Z.leb_spec x1 x0), (Z.leb_spec y1 y0); cbn [orb]; try (intros; lia).
  rewrite !sx_small, !wrap_small by lia. cbn [x y width height].
  unfold rect_ok. cbn [x y width height]. splits; intros; lia.
Qed.

Lemma rect_union_spec a b :
  rect_near a -> rect_near b ->
  rect_near (rect_union a b) /\
  (forall px py, in_rect a px py \/ in_rect b px py -> in_rect (rect_union a b) px py).
Proof.
  intros (A1 & A2 & A3 & A4 & A5 & A6) (B1 & B2 & B3 & B4 & B5 & B6). unfold rect_union, in_rect, rect_near.
  set (x0 := if x a <? x b then _ else _). set (y0 := if y a <? y b then _ else _).
  set (x1 := if x b + width b <? _ then _ else _). set (y1 := if y b + height b <? _ then _ else _).
  assert (x0 = Z.min (x a) (x b)) as Ex0 by (unfold x0; zcases).
  assert (y0 = Z.min (y a) (y b)) as Ey0 by (unfold y0; zcases).
  assert (x1 = Z.max (x a + width a) (x b + width b)) as Ex1 by (unfold x1; zcases).
  assert (y1 = Z.max (y a + height a) (y b + height b)) as Ey1 by (unfold y1; zcases).
  clearbody x0 y0 x1 y1. cbn [x y width height].
  rewrite !sx_small, !wrap_small by lia. splits; intros; lia.
Qed.

(** ** The dirty list covers what was marked *)

Definition covered (l : DirtyRegionList) (px py : Z) : Prop :=
  exists i, 0 <= i < l.(count) /\ in_rect (region l i) px py.

Definition dirty_ok (l : DirtyRegionList) : Prop :=
  0 <= l.(count) <= MAX_DIRTY_REGIONS /\ (l.(collapsed) = true -> l.(count) = 1) /\
  (forall i, 0 <= i < l.(count) -> rect_near (region l i)).

Lemma region_insert l i r c b j :
  region (mk_dirty (<[i := r]> (regions l)) c b) j = if j =? i then r else region l j.
Proof.
  unfold region. cbn [regions]. destruct (Z.eqb_spec j i) as [->|].
  - by rewrite lookup_insert_eq.
  - by rewrite lookup_insert_ne.
Qed.

(** The bounding box of the list covers every region. *)
Lemma box_spec l n :
  1 <= n -> (forall i, 0 <= i < n -> rect_near (region l i)) ->
  let box := for_loop 1 n (fun i box => rect_union box (region l i)) (region l 0) in
  rect_near box /\ (forall i px py, 0 <= i < n -> in_rect (region l i) px py -> in_rect box px py).
Proof.
  intros Hn Hr. cbv zeta.
  apply (for_loop_inv (fun k box => rect_near box /\
    forall i px py, 0 <= i < k -> in_rect (region l i) px py -> in_rect box px py)); [done| |].
  - split; [apply Hr; lia|]. intros i px py Hi. by replace i with 0 by lia.
  - intros i box Hi [Hb Hc]. destruct (rect_union_spec box (region l i) Hb) as [U1 U2]; [apply Hr; lia|].
    split; [done|]. intros j px py Hj Hin. apply U2.
    destruct (Z.eq_dec j i) as [->|]; [by right|left]. apply (Hc j); [lia|done].
Qed.

Lemma dirty_region_mark_spec l r :
  dirty_ok l -> rect_near r ->
  dirty_ok (dirty_region_mark l r) /\
  (forall px py, covered l px py \/ in_rect r px py -> covered (dirty_region_mark l r) px py).
Proof.
  intros (Hc & Hcol & Hreg) Hr. unfold dirty_region_mark.
  assert (0 < width r /\ 0 < height r) as [? ?] by (destruct Hr as (? & ? & ? & ? & ? & ?); lia).
  rewrite (proj2 (Z.eqb_neq (width r) 0)), (proj2 (Z.eqb_neq (height r) 0)) by lia. cbn [orb].
  destruct (collapsed l) eqn:Ecol; [|destruct (Z.leb_spec MAX_DIRTY_REGIONS (count l))].
  - specialize (Hcol eq_refl).
    destruct (rect_union_spec (region l 0) r) as [U1 U2]; [apply Hreg; lia|done|].
    split; [split; [done|split; [done|]]|].
    + intros i Hi. cbn [count] in Hi. rewrite region_insert. by replace i with 0 by lia.
    + intros px py Hp. exists 0. cbn [count]. rewrite region_insert. split; [lia|]. apply U2.
      destruct Hp as [(i & Hi & ?)|?]; [left; by replace 0 with i by lia|by right].
  - destruct (box_spec l (count l)) as [B1 B2]; [unfold MAX_DIRTY_REGIONS in *; lia|done|].
    set (box := for_loop 1 _ _ _) in *. clearbody box.
    destruct (rect_union_spec box r B1 Hr) as [U1 U2].
    split; [split; [done|split; [done|]]|].
    + intros i Hi. cbn [count] in Hi. rewrite region_insert. by replace i with 0 by lia.
    + intros px py Hp. exists 0. cbn [count]. rewrite region_insert. split; [lia|]. apply U2.
      destruct Hp as [(i & Hi & ?)|?]; [left; by apply (B2 i)|by right].
  - split; [split; [unfold MAX_DIRTY_REGIONS in *; cbn [count]; lia|split; [done|]]|].
    + intros i Hi. cbn [count] in Hi. rewrite region_insert.
      destruct (Z.eqb_spec i (count l)); [done|]. apply Hreg; lia.
    + intros px py [(i & Hi & Hin)|Hin].
      * exists i. cbn [count]. rewrite region_insert, (proj2 (Z.eqb_neq i (count l))) by lia. split; [lia|done].
      * exists (count l). cbn [count]. rewrite region_insert, Z.eqb_refl. split; [lia|done].
Qed.

(** The dirty list never loses damage: after any sequence of marks on a
    cleared list, every pixel of every marked rectangle lies in one of the
    listed regions, and the list never has more than 64 of them, whether or not
    it was collapsed to its bounding box on the way. *)
Theorem dirty_region_superset l rs :
  Forall rect_near rs ->
  let l' := foldl dirty_region_mark (dirty_region_clear l) rs in
  0 <= l'.(count) <= MAX_DIRTY_REGIONS /\
  (forall r px py, r ∈ rs -> in_rect r px py -> covered l' px py).
Proof.
  intros Hrs. cbv zeta.
  assert (forall l0, dirty_ok l0 -> dirty_ok (foldl dirty_region_mark l0 rs) /\
    (forall px py, covered l0 px py \/ (exists r, r ∈ rs /\ in_rect r px py) ->
       covered (foldl dirty_region_mark l0 rs) px py)) as HH.
  { induction Hrs as [|r rs Hr Hrs IH]; intros l0 Hl0.
    - split; [done|]. intros px py [?|(r & Hr & _)]; [done|]. by apply not_elem_of_nil in Hr.
    - cbn [foldl]. destruct (dirty_region_mark_spec l0 r Hl0 Hr) as [H1 H2].
      destruct (IH _ H1) as [H3 H4]. split; [done|].
      intros px py [?|(r' & [->|Hr']%elem_of_cons & Hin)]; apply H4; eauto. }
  destruct (HH (dirty_region_clear l)) as [(Hc & _) Hcov].
  { split; [done|]. split; [done|]. cbn [count dirty_region_clear]. intros; lia. }
  split; [exact Hc|]. intros r px py Hr Hin. apply Hcov. right. eauto.
Qed.

(** ** The viewport blit *)

Definition db_ok (b : DisplayBuffer) : Prop :=
  0 <= b.(db_width) <= b.(stride) /\ b.(stride) < 2 ^ 32 /\ 0 <= b.(db_height) < 2 ^ 32.

(** The cell of the pixel at column [px] of row [py]. *)
Definition pixel (b : DisplayBuffer) (px py : Z) : Z := cell b (py * b.(stride) + px).

(** The pixel memories of the two buffers do not overlap. *)
Definition db_disjoint (a b : DisplayBuffer) : Prop :=
  cell a (db_height a * stride a) <= cell b 0 \/ cell b (db_height b * stride b) <= cell a 0.

Lemma grid_inj s r1 c1 r2 c2 :
  0 <= c1 < s -> 0 <= c2 < s -> r1 * s + c1 = r2 * s + c2 -> r1 = r2 /\ c1 = c2.
Proof. intros. assert (r1 = r2) by nia. subst. lia. Qed.

Lemma u64_mul a b : 0 <= a < 2 ^ 32 -> 0 <= b < 2 ^ 32 -> u64 (a * b) = a * b.
Proof.
  intros. apply wrap_small. split; [nia|]. change (2 ^ 64) with (2 ^ 32 * 2 ^ 32).
  apply Z.mul_lt_mono_nonneg; lia.
Qed.

Lemma grid_in s h r c : 0 <= r < h -> 0 <= c < s -> 0 <= r * s + c < h * s.
Proof. intros. nia. Qed.

Lemma pixel_ne a b px py qx qy :
  db_ok a -> db_ok b -> db_disjoint a b ->
  0 <= px < db_width a -> 0 <= py < db_height a -> 0 <= qx < db_width b -> 0 <= qy < db_height b ->
  pixel a px py <> pixel b qx qy.
Proof.
  intros (A1 & _ & A2) (B1 & _ & B2) Hd Hp Hp' Hq Hq'. unfold pixel, db_disjoint, cell in *.
  pose proof (grid_in (stride a) (db_height a) py px). pose proof (grid_in (stride b) (db_height b) qy qx). lia.
Qed.

(** One row: [n] pixels from column [sx] of row [sy] of [a] to column [tx] of row
    [ty] of [b]. *)
Lemma copy_row a b m sx sy tx ty n :
  db_ok a -> db_ok b -> db_disjoint a b -> 0 <= n ->
  0 <= sx -> sx + n <= db_width a -> 0 <= sy < db_height a ->
  0 <= tx -> tx + n <= db_width b -> 0 <= ty < db_height b ->
  let m' := KString.memcpy m (pixel b tx ty) (pixel a sx sy) n in
  (forall k, 0 <= k < n -> ld m' (pixel b (tx + k) ty) = ld m (pixel a (sx + k) sy)) /\
  (forall c, (forall k, 0 <= k < n -> c <> pixel b (tx + k) ty) -> ld m' c = ld m c).
Proof.
  intros Ha Hb Hd Hn Hs Hs' Hsy Ht Ht' Hty m'.
  assert (forall c, ld m' c = if (pixel b tx ty <=? c) && (c <? pixel b tx ty + n)
            then ld m (pixel a sx sy + (c - pixel b tx ty)) else ld m c) as E.
  { intros c. apply KString.copy_up; [done|].
    destruct Ha as (A1 & _ & A2), Hb as (B1 & _ & B2). unfold pixel, db_disjoint, cell in *.
    destruct (Z.eq_dec n 0) as [->|]; [lia|].
    pose proof (grid_in (stride a) (db_height a) sy sx). pose proof (grid_in (stride b) (db_height b) ty tx).
    pose proof (grid_in (stride a) (db_height a) sy (sx + n - 1)).
    pose proof (grid_in (stride b) (db_height b) ty (tx + n - 1)). lia. }
  split.
  - intros k Hk. rewrite E. replace (pixel b (tx + k) ty) with (pixel b tx ty + k) by (unfold pixel, cell; lia).
    rewrite (proj2 (Z.leb_le _ _)), (proj2 (Z.ltb_lt _ _)) by lia. cbn [andb]. f_equal.
    unfold pixel, cell; lia.
  - intros c Hc. rewrite E. zcase; zcase; cbn [andb]; try done.
    exfalso. apply (Hc (c - pixel b tx ty)); [lia|]. unfold pixel, cell in *; lia.
Qed.

(** The target pixel [(px, py)] is inside the viewport and shows a source pixel. *)
Definition shows (vp : Viewport) (src : DisplayBuffer) (px py : Z) : bool :=
  let c := px - vp.(bounds).(x) in
  let r := py - vp.(bounds).(y) in
  (0 <=? c) && (c <? vp.(bounds).(width)) && (0 <=? r) && (r <? vp.(bounds).(height)) &&
  (0 <=? c + vp.(scroll_x)) && (c + vp.(scroll_x) <? src.(db_width)) &&
  (0 <=? r + vp.(scroll_y)) && (r + vp.(scroll_y) <? src.(db_height)).

Lemma shows_iff vp src px py :
  shows vp src px py = true <->
  0 <= px - x (bounds vp) < width (bounds vp) /\ 0 <= py - y (bounds vp) < height (bounds vp) /\
  0 <= px - x (bounds vp) + scroll_x vp < db_width src /\ 0 <= py - y (bounds vp) + scroll_y vp < db_height src.
Proof. unfold shows. rewrite !andb_true_iff, !Z.leb_le, !Z.ltb_lt. lia. Qed.

Lemma clip_range_spec n b s sn tn c0 c1 :
  clip_range n b s sn tn = (c0, c1) ->
  forall c, c0 <= c < c1 <-> 0 <= c < n /\ 0 <= s + c < sn /\ 0 <= b + c < tn.
Proof.
  unfold clip_range. intros [= <- <-] c.
  destruct (Z.ltb_spec 0 (- s)), (Z.ltb_spec (sn - s) n);
    repeat match goal with |- context [Z.ltb ?p ?q] => destruct (Z.ltb_spec p q) end; lia.
Qed.

(** What the row loop leaves behind. *)
Lemma render_loop vp src tgt m0 c0 c1 r0 r1 :
  db_ok src -> db_ok tgt -> db_disjoint src tgt -> c0 <= c1 -> r0 <= r1 ->
  0 <= scroll_x vp + c0 -> scroll_x vp + c1 <= db_width src ->
  0 <= scroll_y vp + r0 -> scroll_y vp + r1 <= db_height src ->
  0 <= x (bounds vp) + c0 -> x (bounds vp) + c1 <= db_width tgt ->
  0 <= y (bounds vp) + r0 -> y (bounds vp) + r1 <= db_height tgt ->
  let D r c := pixel tgt (x (bounds vp) + c) (y (bounds vp) + r) in
  let m := for_loop r0 r1 (fun row m => KString.memcpy m (D row c0)
             (pixel src (scroll_x vp + c0) (scroll_y vp + row)) (c1 - c0)) m0 in
  (forall r c, r0 <= r < r1 -> c0 <= c < c1 ->
     ld m (D r c) = ld m0 (pixel src (scroll_x vp + c) (scroll_y vp + r))) /\
  (forall a, (forall r c, r0 <= r < r1 -> c0 <= c < c1 -> a <> D r c) -> ld m a = ld m0 a).
Proof.
  intros Hs Ht Hd Hc Hr S1 S2 S3 S4 T1 T2 T3 T4 D m. unfold m.
  apply (for_loop_inv (fun k m =>
    (forall r c, r0 <= r < k -> c0 <= c < c1 ->
       ld m (D r c) = ld m0 (pixel src (scroll_x vp + c) (scroll_y vp + r))) /\
    (forall a, (forall r c, r0 <= r < k -> c0 <= c < c1 -> a <> D r c) -> ld m a = ld m0 a))); [lia| |].
  { split; [intros; lia|done]. }
  intros k m1 Hk [I1 I2].
  destruct (copy_row src tgt m1 (scroll_x vp + c0) (scroll_y vp + k) (x (bounds vp) + c0) (y (bounds vp) + k)
              (c1 - c0)) as [R1 R2]; try done; try lia. fold (D k c0) in R1, R2.
  set (m2 := KString.memcpy _ _ _ _) in *. clearbody m2.
  assert (forall j, x (bounds vp) + c0 + (j - c0) = x (bounds vp) + j) as Ex by (intros; lia).
  split.
  - intros r c Hr' Hc'. destruct (Z.eq_dec r k) as [->|].
    + specialize (R1 (c - c0) ltac:(lia)). rewrite Ex in R1. unfold D. rewrite R1.
      replace (scroll_x vp + c0 + (c - c0)) with (scroll_x vp + c) by lia.
      apply I2. intros r' c' Hr'' Hc''. apply pixel_ne; try done; lia.
    + rewrite R2; [apply I1; lia|]. intros j Hj E. unfold D, pixel, cell in E.
      destruct Ht as (B1 & _ & _).
      destruct (grid_inj (stride tgt) (y (bounds vp) + r) (x (bounds vp) + c)
                  (y (bounds vp) + k) (x (bounds vp) + c0 + j)); lia.
  - intros a Ha. rewrite R2; [apply I2; intros; apply Ha; lia|].
    intros j Hj E. apply (Ha k (c0 + j)); [lia|lia|]. rewrite E. unfold D. f_equal. lia.
Qed.

(** The clipped row blit of [viewport_render] is the pixel-by-pixel blit: a
    target pixel inside the viewport whose scrolled position is inside the
    source takes the value of that source pixel, every other target pixel and
    every cell outside the target image keeps its value. *)
Theorem viewport_render_equiv g vp target :
  target <> 0 -> source vp <> 0 ->
  db_ok (db_at g (source vp)) -> db_ok (db_at g target) ->
  db_disjoint (db_at g (source vp)) (db_at g target) ->
  let src := db_at g (source vp) in
  let tgt := db_at g target in
  let m := pix (viewport_render g vp target) in
  (forall px py, 0 <= px < db_width tgt -> 0 <= py < db_height tgt ->
     ld m (pixel tgt px py) =
     if shows vp src px py
     then ld (pix g) (pixel src (px - x (bounds vp) + scroll_x vp) (py - y (bounds vp) + scroll_y vp))
     else ld (pix g) (pixel tgt px py)) /\
  (forall a, (forall px py, 0 <= px < db_width tgt -> 0 <= py < db_height tgt -> a <> pixel tgt px py) ->
     ld m a = ld (pix g) a).
Proof.
  intros Hn1 Hn2 Hs Ht Hd src tgt m. unfold m, viewport_render. fold src tgt.
  rewrite (proj2 (Z.eqb_neq _ _) Hn1), (proj2 (Z.eqb_neq _ _) Hn2). cbn [orb].
  destruct (clip_range (width _) _ _ _ _) as [c0 c1] eqn:Ec. pose proof (clip_range_spec _ _ _ _ _ _ _ Ec) as Hc.
  destruct (clip_range (height _) _ _ _ _) as [r0 r1] eqn:Er. pose proof (clip_range_spec _ _ _ _ _ _ _ Er) as Hr.
  assert (forall px py, 0 <= px < db_width tgt -> 0 <= py < db_height tgt ->
    shows vp src px py = true <-> c0 <= px - x (bounds vp) < c1 /\ r0 <= py - y (bounds vp) < r1) as Hsh.
  { intros px py Hx Hy. rewrite shows_iff, Hc, Hr. lia. }
  destruct (Z.leb_spec c1 c0); [|destruct (Z.leb_spec r1 r0)].
  1,2: split; [|done]; intros px py Hx Hy; destruct (shows vp src px py) eqn:E; [|done];
    apply Hsh in E; lia.
  pose proof (Hc c0) as C0. pose proof (Hc (c1 - 1)) as C1.
  pose proof (Hr r0) as R0. pose proof (Hr (r1 - 1)) as R1.
  destruct (render_loop vp src tgt (pix g) c0 c1 r0 r1) as [L1 L2]; try done; try lia.
  cbn [pix set_pix].
  match goal with |- context [for_loop r0 r1 ?f _] => set (body := f) end.
  assert (for_loop r0 r1 body (pix g) =
    for_loop r0 r1 (fun row m => KString.memcpy m
      (pixel tgt (x (bounds vp) + c0) (y (bounds vp) + row))
      (pixel src (scroll_x vp + c0) (scroll_y vp + row)) (c1 - c0)) (pix g)) as E.
  { apply for_loop_ext. intros row m1 Hrow. unfold body, pixel. cbv zeta.
    destruct Hs as (A1 & A2 & A3), Ht as (B1 & B2 & B3). fold src tgt in A1, A2, A3, B1, B2, B3.
    assert (0 <= scroll_y vp + row < db_height src /\ 0 <= y (bounds vp) + row < db_height tgt) as [? ?] by lia.
    rewrite !(wrap_small 64 (_ + _)) by lia. by rewrite !u64_mul by lia. }
  rewrite E. split.
  - intros px py Hx Hy. destruct (shows vp src px py) eqn:Eq.
    + apply Hsh in Eq as [? ?]; [|done..].
      specialize (L1 (py - y (bounds vp)) (px - x (bounds vp)) ltac:(done) ltac:(done)).
      replace (x (bounds vp) + (px - x (bounds vp))) with px in L1 by lia.
      replace (y (bounds vp) + (py - y (bounds vp))) with py in L1 by lia. rewrite L1.
      by rewrite (Z.add_comm (scroll_x vp)), (Z.add_comm (scroll_y vp)).
    + apply L2. intros r c Hr' Hc' Ep. destruct Ht as (B1 & _ & _). fold tgt in B1. unfold pixel, cell in Ep.
      assert (0 <= x (bounds vp) + c < db_width tgt) by (specialize (Hc c); lia).
      destruct (grid_inj (stride tgt) py px (y (bounds vp) + r) (x (bounds vp) + c)); [lia..|].
      rewrite (proj2 (Hsh px py Hx Hy)) in Eq; [done|lia].
  - intros a Ha. apply L2. intros r c Hr' Hc'. specialize (Hc c). specialize (Hr r). apply Ha; lia.
Qed.
End display.

(** The bounding box is computed in 32 bits.  On a collapsed list, marking one
    pixel at column [- 2 ^ 31] and one at column [2 ^ 31 - 1] (what [draw_pixel]
    marks for columns [0x80000000] and [0x7FFFFFFF]) wraps the width of the box
    to zero, and nothing that was marked before is listed any more. *)
Lemma dirty_box_wraps l y0 y1 :
  dirty_ok l -> collapsed l = true -> x (region l 0) + width (region l 0) < 2 ^ 31 ->
  forall px py, ~ covered (dirty_region_mark (dirty_region_mark l (mk_rect (- 2 ^ 31) y0 1 1))
                             (mk_rect (2 ^ 31 - 1) y1 1 1)) px py.
Proof.
  intros (_ & Hcol & Hreg) Ecol Hx px py. specialize (Hcol Ecol).
  destruct (Hreg 0 ltac:(lia)) as (N1 & N2 & N3 & _).
  unfold dirty_region_mark at 2. cbn [width height Z.eqb orb]. rewrite Ecol.
  unfold dirty_region_mark. cbn [width height Z.eqb orb collapsed]. rewrite region_insert. cbn [Z.eqb].
  intros (i & Hi & Hin). cbn [count] in Hi. replace i with 0 in Hin by lia.
  rewrite region_insert in Hin. cbn [Z.eqb] in Hin. destruct Hin as [Hin _]. revert Hin.
  set (box := rect_union (region l 0) _).
  assert (x box = - 2 ^ 31 /\ width box = x (region l 0) + width (region l 0) + 2 ^ 31) as [E1 E2].
  { unfold box, rect_union. cbn [x width]. rewrite (proj2 (Z.ltb_ge _ _)), (proj2 (Z.ltb_lt _ _)) by lia.
    rewrite sx_small, wrap_small by lia. lia. }
  clearbody box. unfold rect_union. cbn [x width]. rewrite E1, E2.
  rewrite (proj2 (Z.ltb_lt (- 2 ^ 31) _)), (proj2 (Z.ltb_ge _ (- 2 ^ 31 + _))) by lia.
  change (u32 (2 ^ 31 - 1 + 1 - - 2 ^ 31)) with 0. lia.
Qed.

(** ** Witnesses *)

Lemma dirty_region_superset_witness :
  covered (foldl dirty_region_mark (dirty_region_clear dirty0)
             (replicate 64 (mk_rect 5 6 2 2) ++ [mk_rect 100 100 8 16])) 101 115.
Proof.
  refine (proj2 (dirty_region_superset dirty0 (replicate 64 (mk_rect 5 6 2 2) ++ [mk_rect 100 100 8 16]) _)
            (mk_rect 100 100 8 16) 101 115 _ _).
  - apply Forall_app. split; [apply Forall_replicate|apply Forall_singleton]; unfold rect_near; simpl; lia.
  - apply list_elem_of_In, in_or_app. right. left. reflexivity.
  - unfold in_rect. simpl. lia.
Defined.

#[local] Instance unit_alloc : KAlloc unit := { ka_kmalloc _ h := (h, 0); ka_kfree _ h := h }.

(** A 4x4 source and a 3x3 target; the viewport shows the source from (1, 1). *)
Definition demo_gfx : gfx (H := unit) :=
  mk_gfx (list_to_map [(5, 77); (6, 78)])
    {[1 := mk_db 4 4 4 0 0 false 0; 2 := mk_db 3 3 5 0 400 false 0]} ∅ tt.

Lemma viewport_render_equiv_witness :
  ld (pix (viewport_render demo_gfx (mk_vp (mk_rect 1 1 8 8) 1 1 1) 2))
     (pixel (db_at demo_gfx 2) 2 1) = 78.
Proof.
  destruct (viewport_render_equiv demo_gfx (mk_vp (mk_rect 1 1 8 8) 1 1 1) 2
    ltac:(lia) ltac:(simpl; lia) ltac:(unfold db_ok; vm_compute; repeat split; discriminate)
    ltac:(unfold db_ok; vm_compute; repeat split; discriminate)
    ltac:(left; vm_compute; discriminate)) as [H _].
  rewrite H by (vm_compute; split; congruence). vm_compute. reflexivity.
Defined.
End Display.
