(* ===== verification/Kwm.v ===== *)
(** * Window manager (src/kernel/gfx/kwm.c, kwm_internal.h)

    Sixteen window slots with stacking order, focus, dragging and input
    routing.  Every function holds [kwm_lock] while it touches the slots, so
    each is one function of the state; [kwm_process_mouse] takes the lock twice,
    and its sections [mouse_drag] and [press] are functions of their own.  The state holds the display buffers of
    [Display] (a window's canvas is one of them), the screen's dirty list
    (marked through [screen_mark_dirty] of compositor.c) and the event queues
    of [Event].

    [tid] is [smp_current_task_id()] of the caller.  A title is the list of its
    characters up to the terminator. *)

From S2P Require Import Prelude KString Display Sched Event.
From stdpp Require Import base numbers list gmap.
From Stdlib Require Import ZArith Lia.

#[local] Open Scope Z_scope.

Module Kwm.
Import Display.

(** ** Data *)

Definition KWM_MAX_DIMENSION : Z := 4096.
Definition KWM_MAX_CANVAS_BYTES : Z := 16 * 1024 * 1024.
Definition EVENT_WIN_CLOSE : Z := 6.
Definition MAX_WINDOWS : Z := 16.
Definition KWM_TITLEBAR_H : Z := 24.
Definition KWM_CLOSE_BTN_W : Z := 40.
Definition KWM_SHADOW_MARGIN : Z := 6.
Definition KWM_WIN_DESKTOP : Z := 1.
Definition KEY_MOD_ALT : Z := 4.
Definition KBD_SCAN_TAB : Z := 15.

Record kwm_window_t := mk_win {
  active : bool; wx : Z; wy : Z; wwidth : Z; wheight : Z; canvas : Z;
  z_index : Z; owner_task : Z; wflags : Z; title : list Z;
}.
Definition no_win : kwm_window_t := mk_win false 0 0 0 0 0 0 0 0 [].

Record kwm_window_info_t := mk_info {
  i_win_id : Z; i_active : bool; i_focused : bool; i_x : Z; i_y : Z;
  i_width : Z; i_height : Z; i_z_index : Z; i_owner_task : Z; i_flags : Z; i_title : list Z;
}.

Section kwm.
Context {H : Type} `{KAlloc H}.

Record kwm := mk_kwm {
  kwm_windows : gmap Z kwm_window_t;
  next_z_index : Z;
  dragged_win_id : Z; drag_offset_x : Z; drag_offset_y : Z;
  focused_win_id : Z;
  alt_tab_active : bool;
  gs : gfx (H := H);
  fb_width : Z; fb_height : Z;
  g_screen_dirty : DirtyRegionList;
  evs : Event.events;
}.

Definition win (k : kwm) (i : Z) : kwm_window_t := default no_win (k.(kwm_windows) !! i).

Definition set_windows (k : kwm) (ws : gmap Z kwm_window_t) : kwm :=
  mk_kwm ws k.(next_z_index) k.(dragged_win_id) k.(drag_offset_x) k.(drag_offset_y)
    k.(focused_win_id) k.(alt_tab_active) k.(gs) k.(fb_width) k.(fb_height) k.(g_screen_dirty) k.(evs).
Definition set_win (k : kwm) (i : Z) (w : kwm_window_t) : kwm :=
  set_windows k (<[i := w]> k.(kwm_windows)).
Definition set_next_z (k : kwm) (z : Z) : kwm :=
  mk_kwm k.(kwm_windows) z k.(dragged_win_id) k.(drag_offset_x) k.(drag_offset_y)
    k.(focused_win_id) k.(alt_tab_active) k.(gs) k.(fb_width) k.(fb_height) k.(g_screen_dirty) k.(evs).
Definition set_drag (k : kwm) (i ox oy : Z) : kwm :=
  mk_kwm k.(kwm_windows) k.(next_z_index) i ox oy
    k.(focused_win_id) k.(alt_tab_active) k.(gs) k.(fb_width) k.(fb_height) k.(g_screen_dirty) k.(evs).
Definition set_focus (k : kwm) (i : Z) : kwm :=
  mk_kwm k.(kwm_windows) k.(next_z_index) k.(dragged_win_id) k.(drag_offset_x) k.(drag_offset_y)
    i k.(alt_tab_active) k.(gs) k.(fb_width) k.(fb_height) k.(g_screen_dirty) k.(evs).
Definition set_alt_tab (k : kwm) (b : bool) : kwm :=
  mk_kwm k.(kwm_windows) k.(next_z_index) k.(dragged_win_id) k.(drag_offset_x) k.(drag_offset_y)
    k.(focused_win_id) b k.(gs) k.(fb_width) k.(fb_height) k.(g_screen_dirty) k.(evs).
Definition set_gs (k : kwm) (g : gfx) : kwm :=
  mk_kwm k.(kwm_windows) k.(next_z_index) k.(dragged_win_id) k.(drag_offset_x) k.(drag_offset_y)
    k.(focused_win_id) k.(alt_tab_active) g k.(fb_width) k.(fb_height) k.(g_screen_dirty) k.(evs).
Definition set_evs (k : kwm) (e : Event.events) : kwm :=
  mk_kwm k.(kwm_windows) k.(next_z_index) k.(dragged_win_id) k.(drag_offset_x) k.(drag_offset_y)
    k.(focused_win_id) k.(alt_tab_active) k.(gs) k.(fb_width) k.(fb_height) k.(g_screen_dirty) e.

Definition with_z (z : Z) (w : kwm_window_t) : kwm_window_t :=
  mk_win w.(active) w.(wx) w.(wy) w.(wwidth) w.(wheight) w.(canvas) z w.(owner_task) w.(wflags) w.(title).
Definition with_pos (px py : Z) (w : kwm_window_t) : kwm_window_t :=
  mk_win w.(active) px py w.(wwidth) w.(wheight) w.(canvas) w.(z_index) w.(owner_task) w.(wflags) w.(title).
Definition with_title (t : list Z) (w : kwm_window_t) : kwm_window_t :=
  mk_win w.(active) w.(wx) w.(wy) w.(wwidth) w.(wheight) w.(canvas) w.(z_index) w.(owner_task) w.(wflags) t.

Definition upd_win (k : kwm) (i : Z) (f : kwm_window_t -> kwm_window_t) : kwm := set_win k i (f (win k i)).

Definition is_desktop (w : kwm_window_t) : bool := negb (Z.land w.(wflags) KWM_WIN_DESKTOP =? 0).

(** An active window that takes part in stacking and focus. *)
Definition normal (w : kwm_window_t) : bool := w.(active) && negb (is_desktop w).

(** ** Dirty marks *)

Definition screen_mark_dirty (k : kwm) (px py w h : Z) : kwm :=
  mk_kwm k.(kwm_windows) k.(next_z_index) k.(dragged_win_id) k.(drag_offset_x) k.(drag_offset_y)
    k.(focused_win_id) k.(alt_tab_active) k.(gs) k.(fb_width) k.(fb_height)
    (dirty_region_mark k.(g_screen_dirty) (mk_rect px py w h)) k.(evs).

Definition frame_dirty_area (k : kwm) (px py w h : Z) : kwm :=
  let m := KWM_SHADOW_MARGIN in
  screen_mark_dirty k (i32 (px - m)) (i32 (py - m)) (u32 (w + 2 * m)) (u32 (h + 2 * m)).

(** The height of the titlebar of a window: a desktop window has none. *)
Definition tb_height (w : kwm_window_t) : Z := if is_desktop w then 0 else KWM_TITLEBAR_H.

Definition kwm_frame_dirty (k : kwm) (i : Z) : kwm :=
  if (i <? 0) || (MAX_WINDOWS <=? i) then k
  else
    let w := win k i in
    if negb w.(active) then k
    else frame_dirty_area k w.(wx) w.(wy) w.(wwidth) (u32 (w.(wheight) + tb_height w)).

(** ** Stacking order *)

(** The slots of the windows to be ordered, in [order[0 .. n - 1]]. *)
Definition order_collect (k : kwm) : gmap Z Z * Z :=
  for_loop 0 MAX_WINDOWS (fun w '(order, n) =>
    if normal (win k w) then (st order n w, n + 1) else (order, n)) (∅, 0).

(** [while (j >= 0 && z(order[j]) > z) { order[j + 1] = order[j]; j--; }] *)
Fixpoint order_shift (fuel : nat) (k : kwm) (order : gmap Z Z) (z j : Z) : gmap Z Z * Z :=
  match fuel with
  | O => (order, j)
  | S fuel =>
      if (0 <=? j) && (z <? (win k (ld order j)).(z_index))
      then order_shift fuel k (st order (j + 1) (ld order j)) z (j - 1)
      else (order, j)
  end.

Definition order_insert (k : kwm) (i : Z) (order : gmap Z Z) : gmap Z Z :=
  let w := ld order i in
  let z := (win k w).(z_index) in
  let '(order, j) := order_shift (Z.to_nat i) k order z (i - 1) in
  st order (j + 1) w.

Definition kwm_normalize_zindex_locked (k : kwm) : kwm :=
  let '(order, n) := order_collect k in
  let order := for_loop 1 n (order_insert k) order in
  let k := for_loop 0 n (fun i k => upd_win k (ld order i) (with_z (u32 (i + 1)))) k in
  set_next_z k (u32 (n + 1)).

(** [z_index = next_z_index++] *)
Definition kwm_raise (k : kwm) (i : Z) : kwm :=
  let k := upd_win k i (with_z k.(next_z_index)) in
  set_next_z k (u32 (k.(next_z_index) + 1)).

(** [if (next_z_index > MAX_WINDOWS) kwm_normalize_zindex_locked();] *)
Definition maybe_normalize (k : kwm) : kwm :=
  if MAX_WINDOWS <? k.(next_z_index) then kwm_normalize_zindex_locked k else k.

(** The frame of a window contains the point. *)
Definition frame_hit (w : kwm_window_t) (px py : Z) : bool :=
  let ww := i32 w.(wwidth) in
  let wh := i32 (i32 w.(wheight) + tb_height w) in
  (w.(wx) <=? px) && (px <? i32 (w.(wx) + ww)) && (w.(wy) <=? py) && (py <? i32 (w.(wy) + wh)).

(** The state of the scan is [(highest_z, target)]. *)
Definition kwm_hit_test_locked (k : kwm) (px py : Z) : Z :=
  (for_loop 0 MAX_WINDOWS (fun i '(highest_z, target) =>
     let w := win k i in
     if w.(active) && frame_hit w px py && (highest_z <? i32 w.(z_index))
     then (i32 w.(z_index), i) else (highest_z, target)) (-1, -1)).2.

Definition kwm_refocus_locked (k : kwm) : kwm :=
  set_focus k (for_loop 0 MAX_WINDOWS (fun i '(best_z, best) =>
     let w := win k i in
     if normal w && (best_z <? w.(z_index)) then (w.(z_index), i) else (best_z, best)) (0, -1)).2.

(** ** Slots *)

Definition kwm_free_slot (k : kwm) (i : Z) : kwm :=
  let w := win k i in
  let k := if negb (w.(canvas) =? 0) then set_gs k (display_buffer_destroy k.(gs) w.(canvas)) else k in
  let k := set_win k i (mk_win false w.(wx) w.(wy) w.(wwidth) w.(wheight) 0 w.(z_index) (-1) 0 []) in
  if k.(dragged_win_id) =? i then set_drag k (-1) k.(drag_offset_x) k.(drag_offset_y) else k.

Definition free_slot (k : kwm) : option Z := find_loop 0 MAX_WINDOWS (fun i => negb (win k i).(active)).

Definition kwm_create_window (k : kwm) (tid px py w h : Z) : kwm * Z :=
  if (w =? 0) || (h =? 0) || (KWM_MAX_DIMENSION <? w) || (KWM_MAX_DIMENSION <? h) then (k, -1)
  else if KWM_MAX_CANVAS_BYTES <? u64 (w * h * 4) then (k, -1)
  else
    match free_slot k with
    | None => (k, -1)
    | Some i =>
        let '(g, cv) := display_buffer_create k.(gs) w h COLOR_FORMAT_XRGB8888 in
        let k := set_gs k g in
        if cv =? 0 then (k, -1)
        else
          let o := win k i in
          let k := set_win k i (mk_win o.(active) px py w h cv o.(z_index) tid o.(wflags) o.(title)) in
          let k := maybe_normalize (kwm_raise k i) in
          let o := win k i in
          let k := set_win k i (mk_win true o.(wx) o.(wy) o.(wwidth) o.(wheight) o.(canvas)
                                  o.(z_index) o.(owner_task) 0 []) in
          let prev_focus := k.(focused_win_id) in
          let k := set_focus k i in
          let k := kwm_frame_dirty k i in
          let k := if (0 <=? prev_focus) && negb (prev_focus =? i) then kwm_frame_dirty k prev_focus else k in
          (k, i)
    end.

Definition kwm_create_desktop (k : kwm) (tid : Z) : kwm * Z :=
  match find_loop 0 MAX_WINDOWS (fun i => (win k i).(active) && is_desktop (win k i)) with
  | Some _ => (k, -1)
  | None =>
      if (k.(fb_width) =? 0) || (k.(fb_height) =? 0) then (k, -1)
      else
        match free_slot k with
        | None => (k, -1)
        | Some i =>
            let '(g, cv) := display_buffer_create k.(gs) k.(fb_width) k.(fb_height) COLOR_FORMAT_XRGB8888 in
            let k := set_gs k g in
            if cv =? 0 then (k, -1)
            else
              let k := set_win k i (mk_win true 0 0 k.(fb_width) k.(fb_height) cv 0 tid KWM_WIN_DESKTOP []) in
              (screen_mark_dirty k 0 0 k.(fb_width) k.(fb_height), i)
        end
  end.

(** [t = None] is the null pointer. *)
Definition kwm_set_title (k : kwm) (tid win_id : Z) (t : option (list Z)) : kwm * Z :=
  match t with
  | None => (k, -1)
  | Some t =>
      if (win_id <? 0) || (MAX_WINDOWS <=? win_id) then (k, -1)
      else if negb (win k win_id).(active) || negb ((win k win_id).(owner_task) =? tid) then (k, -1)
      else (kwm_frame_dirty (upd_win k win_id (with_title (take 31 t))) win_id, 0)
  end.

(** The entries written to the caller's buffer; [None] is the null buffer. *)
Definition kwm_get_windows (k : kwm) (max : Z) : option (list kwm_window_info_t) :=
  if max <=? 0 then None
  else Some (for_loop 0 MAX_WINDOWS (fun i buf =>
    if (Z.of_nat (length buf) <? max) && (win k i).(active) then
      let w := win k i in
      buf ++ [mk_info (u32 (i + 1)) true (i =? k.(focused_win_id)) w.(wx) w.(wy) w.(wwidth) w.(wheight)
                w.(z_index) w.(owner_task) w.(wflags) w.(title)]
    else buf) []).

Definition kwm_activate_window (k : kwm) (win_id : Z) : kwm * Z :=
  if (win_id <? 0) || (MAX_WINDOWS <=? win_id) then (k, -1)
  else if negb (win k win_id).(active) || is_desktop (win k win_id) then (k, -1)
  else
    let old_focus := k.(focused_win_id) in
    let k := maybe_normalize (maybe_normalize (kwm_raise k win_id)) in
    let k := set_focus k win_id in
    let k := kwm_frame_dirty k win_id in
    (if (0 <=? old_focus) && negb (old_focus =? win_id) then kwm_frame_dirty k old_focus else k, 0).

Definition kwm_window_canvas_bytes (k : kwm) (win_id : Z) : Z :=
  if (win_id <? 0) || (MAX_WINDOWS <=? win_id) then 0
  else if (win k win_id).(active) then u64 ((win k win_id).(wwidth) * (win k win_id).(wheight) * 4) else 0.

Definition kwm_window_owner (k : kwm) (win_id : Z) : Z :=
  if (win_id <? 0) || (MAX_WINDOWS <=? win_id) then -1
  else if (win k win_id).(active) then (win k win_id).(owner_task) else -1.

(** [app] is the pixels at [app_buffer], [None] the null pointer; [rep movsl]
    stores the first [size] of them. *)
Definition kwm_update_window (k : kwm) (tid win_id : Z) (app : option (Z -> Z)) : kwm :=
  if (win_id <? 0) || (MAX_WINDOWS <=? win_id) then k
  else
    let w := win k win_id in
    match app with
    | None => k
    | Some app =>
        if negb w.(active) || (w.(canvas) =? 0) then k
        else if negb (w.(owner_task) =? tid) then k
        else
          let size := u32 (w.(wwidth) * w.(wheight)) in
          let b := db_at k.(gs) w.(canvas) in
          let k := set_gs k (set_pix k.(gs)
            (for_loop 0 size (fun i m => st m (cell b i) (app i)) k.(gs).(pix))) in
          screen_mark_dirty k w.(wx) (i32 (w.(wy) + tb_height w)) w.(wwidth) w.(wheight)
    end.

Definition kwm_destroy_window (k : kwm) (win_id : Z) : kwm :=
  if (win_id <? 0) || (MAX_WINDOWS <=? win_id) then k
  else
    let w := win k win_id in
    if negb w.(active) then k
    else
      let was_focused := k.(focused_win_id) =? win_id in
      let k := kwm_free_slot k win_id in
      let k := if was_focused then kwm_refocus_locked k else k in
      let new_focus := k.(focused_win_id) in
      let k := frame_dirty_area k w.(wx) w.(wy) w.(wwidth) (u32 (w.(wheight) + KWM_TITLEBAR_H)) in
      if was_focused && (0 <=? new_focus) then kwm_frame_dirty k new_focus else k.

(** The loop of [kwm_destroy_windows_of]; the flag is [focus_destroyed]. *)
Definition destroy_owned (k : kwm) (t : Z) : kwm * bool :=
  for_loop 0 MAX_WINDOWS (fun i '(k, fd) =>
    if (win k i).(active) && ((win k i).(owner_task) =? t)
    then (kwm_free_slot k i, fd || (k.(focused_win_id) =? i)) else (k, fd)) (k, false).

Definition kwm_destroy_windows_of (k : kwm) (t : Z) : kwm :=
  let '(k, focus_destroyed) := destroy_owned k t in
  let k := if focus_destroyed then kwm_refocus_locked k else k in
  screen_mark_dirty k 0 0 k.(fb_width) k.(fb_height).

Definition kwm_destroy_all_windows (k : kwm) : kwm :=
  let k := for_loop 0 MAX_WINDOWS (fun i k => if (win k i).(active) then kwm_free_slot k i else k) k in
  let k := set_focus k (-1) in
  screen_mark_dirty k 0 0 k.(fb_width) k.(fb_height).

Definition kwm_bring_to_front (k : kwm) (win_id : Z) : kwm :=
  if (win_id <? 0) || (MAX_WINDOWS <=? win_id) then k else kwm_raise k win_id.

(** ** Mouse *)

(** The position of a dragged frame of extent [f] on a screen of extent [s]. *)
Definition drag_clamp (p f s : Z) : Z :=
  let p := if p <? 0 then 0 else p in
  if i32 s <? i32 (p + i32 f) then i32 (i32 s - i32 f) else p.

Definition drag_move (k : kwm) (d px py : Z) : kwm :=
  let w := win k d in
  let fw := w.(wwidth) in
  let fh := u32 (w.(wheight) + KWM_TITLEBAR_H) in
  let new_x := drag_clamp (i32 (px - k.(drag_offset_x))) fw k.(fb_width) in
  let new_y := drag_clamp (i32 (py - k.(drag_offset_y))) fh k.(fb_height) in
  let k := upd_win k d (with_pos new_x new_y) in
  frame_dirty_area (frame_dirty_area k w.(wx) w.(wy) fw fh) new_x new_y fw fh.

(** The critical section of a button press: the new state, the target, the
    owner to notify ([close_owner]) and [start_drag]. *)
Definition press (k : kwm) (px py : Z) : kwm * Z * Z * bool :=
  let t := kwm_hit_test_locked k px py in
  if (0 <=? t) && is_desktop (win k t) then (k, t, -1, false)
  else
    let k := set_focus k t in
    if t =? -1 then (k, t, -1, false)
    else
      let k := kwm_bring_to_front k t in
      let w := win k t in
      if (w.(wy) <=? py) && (py <? i32 (w.(wy) + KWM_TITLEBAR_H)) then
        if i32 (i32 (w.(wx) + i32 w.(wwidth)) - KWM_CLOSE_BTN_W) <=? px then (k, t, w.(owner_task), false)
        else (set_drag k t (i32 (px - w.(wx))) (i32 (py - w.(wy))), t, -1, true)
      else (k, t, -1, false).

(** The section that moves a dragged window, and whether there is one. *)
Definition mouse_drag (k : kwm) (px py : Z) : kwm * bool :=
  let d := k.(dragged_win_id) in
  if (0 <=? d) && (d <? MAX_WINDOWS) && (win k d).(active) then (drag_move k d px py, true) else (k, false).

(** After the section of a press: the close event or the repainting. *)
Definition press_notify (k : kwm) (old_focus t close_owner : Z) (start_drag : bool) : kwm * Z :=
  if 0 <=? close_owner then
    (set_evs k (Event.push_event_to k.(evs) close_owner EVENT_WIN_CLOSE 0 0 0 (t + 1)), 1)
  else
    let k := if 0 <=? t then kwm_frame_dirty k t else k in
    let k := if negb (old_focus =? t) && (0 <=? old_focus) then kwm_frame_dirty k old_focus else k in
    (k, if start_drag then 1 else 0).

(** The call when nothing runs between its sections. *)
Definition kwm_process_mouse (k : kwm) (px py : Z) (left_down left_up : bool) : kwm * Z :=
  if left_up then (set_drag k (-1) k.(drag_offset_x) k.(drag_offset_y), 0)
  else
    let '(k, dragged) := mouse_drag k px py in
    if dragged then (k, 1)
    else if left_down then
      let old_focus := k.(focused_win_id) in
      let '(k, t, close_owner, start_drag) := press k px py in
      press_notify k old_focus t close_owner start_drag
    else (k, 0).

(** ** Input routing *)

(** The owner and the encoded window. *)
Definition kwm_route_keyboard (k : kwm) : Z * Z :=
  let f := k.(focused_win_id) in
  if (0 <=? f) && (f <? MAX_WINDOWS) && (win k f).(active) then ((win k f).(owner_task), f + 1)
  else (-1, 0).

(** The owner, the encoded window and the local coordinates when written. *)
Definition kwm_route_mouse (k : kwm) (sx sy : Z) : Z * Z * option (Z * Z) :=
  let w := kwm_hit_test_locked k sx sy in
  if 0 <=? w then
    ((win k w).(owner_task), w + 1,
     Some (i32 (sx - (win k w).(wx)), i32 (sy - i32 ((win k w).(wy) + tb_height (win k w)))))
  else (-1, 0, None).

(** ** Alt-Tab *)

(** The scan of [kwm_cycle_focus_locked]: [(next_z, target, lowest_z, lowest_win)]. *)
Definition cycle_scan (k : kwm) (cur_z : Z) : Z * Z * Z * Z :=
  for_loop 0 MAX_WINDOWS (fun i '(next_z, target, lowest_z, lowest_win) =>
    let w := win k i in
    if normal w then
      let z := i32 w.(z_index) in
      let '(lowest_z, lowest_win) := if z <? lowest_z then (z, i) else (lowest_z, lowest_win) in
      let '(next_z, target) :=
        if (0 <=? cur_z) && (cur_z <? z) && (z <? next_z) then (z, i) else (next_z, target) in
      (next_z, target, lowest_z, lowest_win)
    else (next_z, target, lowest_z, lowest_win))
    (i32 k.(next_z_index), -1, i32 k.(next_z_index), -1).

(** The window with the highest [z]. *)
Definition topmost (k : kwm) : Z :=
  (for_loop 0 MAX_WINDOWS (fun i '(hi, target) =>
     let w := win k i in
     if normal w && (hi <? i32 w.(z_index)) then (i32 w.(z_index), i) else (hi, target)) (-1, -1)).2.

Definition kwm_cycle_focus_locked (k : kwm) : kwm :=
  let cur := k.(focused_win_id) in
  let cur_z := if (0 <=? cur) && (cur <? MAX_WINDOWS) && (win k cur).(active)
               then i32 (win k cur).(z_index) else -1 in
  let '(_, target, _, lowest_win) := cycle_scan k cur_z in
  let target := if cur_z <? 0 then topmost k else if target <? 0 then lowest_win else target in
  if 0 <=? target then set_focus (maybe_normalize (kwm_raise k target)) target
  else set_focus k (-1).

Definition kwm_handle_shortcut (k : kwm) (mods : Z) (released : bool) (key_id : Z) : kwm * Z :=
  let alt := negb (Z.land mods KEY_MOD_ALT =? 0) in
  if k.(alt_tab_active) && negb alt then (set_alt_tab k false, 1)
  else if alt && (key_id =? KBD_SCAN_TAB) then
    if negb released then
      let old_focus := k.(focused_win_id) in
      let k := kwm_cycle_focus_locked k in
      let new_focus := k.(focused_win_id) in
      let k := if 0 <=? new_focus then kwm_frame_dirty k new_focus else k in
      let k := if (0 <=? old_focus) && negb (old_focus =? new_focus) then kwm_frame_dirty k old_focus else k in
      (set_alt_tab k true, 1)
    else (k, 1)
  else (k, 0).
End kwm.
End Kwm.
