(* ===== verification/KwmOrder.v ===== *)
(** * Stacking order of the window manager

    [kwm_normalize_zindex_locked] sorts the windows by insertion and renumbers
    them; [kwm_hit_test_locked] and [kwm_refocus_locked] scan for the topmost
    window.  This file proves what these loops compute. *)

From S2P Require Import Prelude KString Display Sched Event Kwm.
From stdpp Require Import base numbers list gmap.
From Stdlib Require Import ZArith Lia.

#[local] Open Scope Z_scope.

Module KwmOrder.
Import Display Kwm.

Section order.
Context {H : Type} `{KAlloc H}.
Implicit Types (k : kwm (H := H)) (order : gmap Z Z).

Lemma win_set k i w j : win (set_win k i w) j = if j =? i then w else win k j.
Proof.
  unfold win, set_win. cbn [kwm_windows set_windows]. destruct (Z.eqb_spec j i) as [->|].
  - by rewrite lookup_insert_eq.
  - by rewrite lookup_insert_ne.
Qed.

Lemma win_upd k i f j : win (upd_win k i f) j = if j =? i then f (win k i) else win k j.
Proof. apply win_set. Qed.

Lemma normal_iff (w : kwm_window_t) : normal w = true <-> active w = true /\ is_desktop w = false.
Proof. unfold normal. rewrite andb_true_iff, negb_true_iff. done. Qed.

(** ** Insertion sort *)

(** Position [x] of the array takes the entry of position [sigma j i x] when the
    entry of position [i] is inserted after position [j]. *)
Definition sigma (j i x : Z) : Z :=
  if x <=? j then x else if x =? j + 1 then i else if x <=? i then x - 1 else x.

Lemma sigma_inj j i x y : -1 <= j < i -> sigma j i x = sigma j i y -> x = y.
Proof. unfold sigma. intros Hj. repeat zcase; lia. Qed.

Lemma sigma_range j i n x : -1 <= j < i -> i < n -> 0 <= x < n -> 0 <= sigma j i x < n.
Proof. unfold sigma. intros Hj Hi Hx. repeat zcase; lia. Qed.

Lemma sigma_onto j i n y : -1 <= j < i -> i < n -> 0 <= y < n -> exists x, 0 <= x < n /\ sigma j i x = y.
Proof.
  intros Hj Hi Hy. unfold sigma.
  exists (if y <=? j then y else if y =? i then j + 1 else if y <=? i then y + 1 else y).
  repeat zcase; lia.
Qed.

Abbreviation zof k w := (z_index (win k w)).

Lemma order_shift_spec k fuel order z j :
  -1 <= j -> (Z.to_nat (j + 1) <= fuel)%nat ->
  exists order' j', order_shift fuel k order z j = (order', j') /\ -1 <= j' <= j /\
    (forall x, x <= j' + 1 \/ j + 1 < x -> ld order' x = ld order x) /\
    (forall x, j' + 2 <= x <= j + 1 -> ld order' x = ld order (x - 1)) /\
    (0 <= j' -> zof k (ld order j') <= z) /\
    (forall x, j' < x <= j -> z < zof k (ld order x)).
Proof.
  revert order j. induction fuel as [|fuel IH]; intros order j Hj Hf; cbn [order_shift].
  { exists order, j. splits; intros; lia. }
  destruct (Z.leb_spec 0 j); cbn [andb]; [|exists order, j; splits; intros; lia].
  destruct (Z.ltb_spec z (zof k (ld order j))).
  2:{ exists order, j. splits; intros; lia. }
  destruct (IH (st order (j + 1) (ld order j)) (j - 1) ltac:(lia) ltac:(lia))
    as (o' & j' & -> & Hj' & F1 & F2 & F3 & F4).
  exists o', j'. splits.
  - intros x Hx. rewrite F1 by lia. by rewrite ld_st_ne by lia.
  - intros x Hx. destruct (Z.eq_dec x (j + 1)) as [->|].
    + rewrite F1 by lia. rewrite ld_st_eq. f_equal. lia.
    + rewrite F2 by lia. by rewrite ld_st_ne by lia.
  - intros Hge. specialize (F3 Hge). by rewrite ld_st_ne in F3 by lia.
  - intros x Hx. destruct (Z.eq_dec x j) as [->|]; [lia|].
    specialize (F4 x ltac:(lia)). by rewrite ld_st_ne in F4 by lia.
Qed.

Lemma order_insert_spec k i order :
  1 <= i ->
  exists j, -1 <= j < i /\ (forall x, ld (order_insert k i order) x = ld order (sigma j i x)) /\
    (0 <= j -> zof k (ld order j) <= zof k (ld order i)) /\
    (forall x, j < x < i -> zof k (ld order i) < zof k (ld order x)).
Proof.
  intros Hi. unfold order_insert. cbv zeta.
  destruct (order_shift_spec k (Z.to_nat i) order (zof k (ld order i)) (i - 1))
    as (o' & j & -> & Hj & F1 & F2 & F3 & F4); [lia|lia|].
  exists j. splits; [|intros x Hx; apply F4; lia].
  intros x. rewrite ld_st. unfold sigma.
  destruct (Z.eqb_spec (j + 1) x) as [<-|].
  { rewrite (proj2 (Z.leb_gt _ _)), Z.eqb_refl by lia. done. }
  destruct (Z.leb_spec x j); [apply F1; lia|].
  rewrite (proj2 (Z.eqb_neq _ _)) by lia.
  destruct (Z.leb_spec x i); [apply F2; lia|apply F1; lia].
Qed.

(** [order[0 .. n - 1]] lists each ordered window once; its first [i] entries
    are sorted. *)
Record ordered k order (n i : Z) : Prop := {
  o_inj : forall a b, 0 <= a < n -> 0 <= b < n -> ld order a = ld order b -> a = b;
  o_mem : forall w, (0 <= w < MAX_WINDOWS /\ normal (win k w) = true) <-> exists a, 0 <= a < n /\ ld order a = w;
  o_sorted : forall a b, 0 <= a <= b -> b < i -> zof k (ld order a) <= zof k (ld order b);
}.

Lemma order_insert_ordered k order n i :
  1 <= i < n -> ordered k order n i -> ordered k (order_insert k i order) n (i + 1).
Proof.
  intros Hi [Hinj Hmem Hsort].
  destruct (order_insert_spec k i order ltac:(lia)) as (j & Hj & E & Hle & Hlt). split.
  - intros a b Ha Hb. rewrite !E. intros Eq. apply (sigma_inj j i); [lia|].
    apply Hinj; [by apply sigma_range; lia..|done].
  - intros w. rewrite Hmem. split.
    + intros (y & Hy & <-). destruct (sigma_onto j i n y) as (a & Ha & <-); [lia..|]. exists a. by rewrite E.
    + intros (a & Ha & <-). exists (sigma j i a). rewrite E. split; [apply sigma_range; lia|done].
  - intros a b Hab Hb. rewrite !E. unfold sigma.
    assert (forall x, 0 <= x <= j -> zof k (ld order x) <= zof k (ld order i)) as Hle'.
    { intros x Hx. etransitivity; [apply (Hsort x j); lia|apply Hle; lia]. }
    destruct (Z.leb_spec a j), (Z.leb_spec b j); try lia.
    + apply Hsort; lia.
    + destruct (Z.eqb_spec b (j + 1)); [apply Hle'; lia|].
      rewrite (proj2 (Z.leb_le b i)) by lia. apply Hsort; lia.
    + destruct (Z.eqb_spec a (j + 1)), (Z.eqb_spec b (j + 1)); try lia.
      * rewrite (proj2 (Z.leb_le b i)) by lia. apply Z.lt_le_incl, Hlt. lia.
      * rewrite (proj2 (Z.leb_le a i)), (proj2 (Z.leb_le b i)) by lia. apply Hsort; lia.
Qed.

(** Collecting the slots. *)
Lemma order_collect_spec k :
  exists order n, order_collect k = (order, n) /\ 0 <= n <= MAX_WINDOWS /\ ordered k order n 1.
Proof.
  set (P := fun hi (on : gmap Z Z * Z) => 0 <= on.2 <= hi /\
    (forall a b, 0 <= a < on.2 -> 0 <= b < on.2 -> ld on.1 a = ld on.1 b -> a = b) /\
    (forall w, (0 <= w < hi /\ normal (win k w) = true) <-> exists a, 0 <= a < on.2 /\ ld on.1 a = w)).
  assert (P MAX_WINDOWS (order_collect k)) as HP.
  { unfold order_collect. apply (for_loop_inv P); [done| |].
    - split; [done|]. split; [cbn; intros; lia|]. intros w. split; [lia|intros (a & ? & _); cbn in *; lia].
    - intros i [o n] Hi (Hn & Hinj & Hmem). cbn [fst snd] in *. destruct (normal (win k i)) eqn:En.
      + assert (forall a, 0 <= a < n -> ld o a <> i) as Hnew.
        { intros a Ha E. assert (0 <= i < i /\ normal (win k i) = true) by (apply Hmem; eauto). lia. }
        split; [cbn; lia|]. cbn [fst snd]. split.
        * intros a b Ha Hb. rewrite !ld_st.
          destruct (Z.eqb_spec n a), (Z.eqb_spec n b); try lia; intros E.
          -- exfalso. apply (Hnew b); [lia|done].
          -- exfalso. apply (Hnew a); [lia|done].
          -- apply Hinj; lia || done.
        * intros w. split.
          -- intros [Hw Hnw]. destruct (Z.eq_dec w i) as [->|].
             { exists n. rewrite ld_st_eq. split; [lia|done]. }
             destruct (proj1 (Hmem w)) as (a & Ha & <-); [split; [lia|done]|].
             exists a. rewrite ld_st_ne by lia. split; [lia|done].
          -- intros (a & Ha & E). rewrite ld_st in E. destruct (Z.eqb_spec n a); [subst w; split; [lia|done]|].
             destruct (proj2 (Hmem w)) as [? ?]; [exists a; split; [lia|done]|]. split; [lia|done].
      + split; [cbn; lia|]. split; [done|]. intros w. rewrite <- Hmem. split; intros [Hw Hnw].
        * split; [|done]. destruct (Z.eq_dec w i) as [->|]; [congruence|lia].
        * split; [lia|done]. }
  destruct (order_collect k) as [order n] eqn:E. exists order, n.
  destruct HP as (Hn & Hinj & Hmem). split; [done|]. split; [exact Hn|]. split; [exact Hinj|exact Hmem|].
  intros a b Ha Hb. by replace b with a by lia.
Qed.

(** Sorting the collected slots. *)
Lemma order_sorted k order n :
  0 <= n -> ordered k order n 1 -> ordered k (for_loop 1 n (order_insert k) order) n n.
Proof.
  intros Hn Ho. destruct (Z.le_gt_cases 1 n).
  - apply (for_loop_inv (fun i o => ordered k o n i)); [done|done|].
    intros i o Hi. by apply order_insert_ordered.
  - rewrite for_loop_nil by lia. destruct Ho as [A B C]. split; [done|done|]. intros; lia.
Qed.

(** ** Renumbering *)

(** States that differ in the stacking order only. *)
Definition restacked k k' : Prop :=
  exists ws z, k' = set_next_z (set_windows k ws) z.

Lemma restacked_trans k1 k2 k3 : restacked k1 k2 -> restacked k2 k3 -> restacked k1 k3.
Proof. intros (ws & z & ->) (ws' & z' & ->). exists ws', z'. done. Qed.

Lemma renumber_spec k order n :
  (forall a b, 0 <= a < n -> 0 <= b < n -> ld order a = ld order b -> a = b) -> 0 <= n < 2 ^ 32 - 1 ->
  let k' := for_loop 0 n (fun i k => upd_win k (ld order i) (with_z (u32 (i + 1)))) k in
  (exists ws, k' = set_windows k ws) /\
  (forall a, 0 <= a < n -> win k' (ld order a) = with_z (a + 1) (win k (ld order a))) /\
  (forall w, (forall a, 0 <= a < n -> ld order a <> w) -> win k' w = win k w).
Proof.
  intros Hinj Hn. cbv zeta.
  apply (for_loop_inv (fun i k' =>
    (exists ws, k' = set_windows k ws) /\
    (forall a, 0 <= a < i -> win k' (ld order a) = with_z (a + 1) (win k (ld order a))) /\
    (forall w, (forall a, 0 <= a < i -> ld order a <> w) -> win k' w = win k w))); [lia| |].
  { split; [by exists (kwm_windows k); destruct k|]. split; [intros; lia|done]. }
  intros i k1 Hi ((ws & ->) & H1 & H2). split; [by eexists|]. split.
  - intros a Ha. rewrite win_upd. destruct (Z.eqb_spec (ld order a) (ld order i)) as [E|E].
    + assert (a = i) as -> by (apply Hinj; lia || done). rewrite wrap_small by lia.
      rewrite H2; [done|]. intros b Hb Eb. apply Hinj in Eb; lia.
    + apply H1. destruct (Z.eq_dec a i) as [->|]; [done|lia].
  - intros w Hw. rewrite win_upd. destruct (Z.eqb_spec w (ld order i)) as [E|E].
    + by destruct (Hw i); [lia|].
    + apply H2. intros a Ha. apply Hw; lia.
Qed.

(** What normalising does: slot [order a] gets the number [a + 1]. *)
Lemma normalize_spec k :
  exists order n, 0 <= n <= MAX_WINDOWS /\ ordered k order n n /\
    restacked k (kwm_normalize_zindex_locked k) /\
    next_z_index (kwm_normalize_zindex_locked k) = n + 1 /\
    (forall a, 0 <= a < n -> win (kwm_normalize_zindex_locked k) (ld order a)
       = with_z (a + 1) (win k (ld order a))) /\
    (forall w, normal (win k w) = false \/ ~ (0 <= w < MAX_WINDOWS) ->
       win (kwm_normalize_zindex_locked k) w = win k w).
Proof.
  unfold kwm_normalize_zindex_locked.
  destruct (order_collect_spec k) as (o & n & -> & Hn & Ho). unfold MAX_WINDOWS in Hn.
  apply order_sorted in Ho; [|lia]. set (order := for_loop 1 n _ _) in *. clearbody order.
  exists order, n. split; [done|]. split; [done|].
  destruct (renumber_spec k order n (o_inj _ _ _ _ Ho)) as ((ws & E) & H1 & H2); [lia|].
  cbv zeta. set (k' := for_loop 0 n _ k) in *. clearbody k'. subst k'.
  assert (forall w, win (set_next_z (set_windows k ws) (u32 (n + 1))) w = win (set_windows k ws) w)
    as Ew by done.
  split; [by exists ws, (u32 (n + 1))|]. split; [cbn [next_z_index set_next_z]; apply wrap_small; lia|].
  split; [by intros a Ha; rewrite Ew; apply H1|].
  intros w Hw. rewrite Ew. apply H2. intros a Ha E.
  destruct (proj2 (o_mem _ _ _ _ Ho w)) as [? ?]; [by exists a|]. destruct Hw; [congruence|tauto].
Qed.

(** [kwm_normalize_zindex_locked] renumbers without restacking: afterwards the
    active windows other than the desktop have the numbers [1 .. n], each exactly
    once, [next_z_index] is [n + 1], a window that was strictly below another
    still is, and nothing but these numbers has changed. *)
Theorem kwm_normalize_order k :
  let k' := kwm_normalize_zindex_locked k in
  exists n, 0 <= n <= MAX_WINDOWS /\ next_z_index k' = n + 1 /\ restacked k k' /\
    (forall w, exists z, win k' w = with_z z (win k w)) /\
    (forall w, 0 <= w < MAX_WINDOWS -> normal (win k w) = true -> 1 <= zof k' w <= n) /\
    (forall z, 1 <= z <= n -> exists w, 0 <= w < MAX_WINDOWS /\ normal (win k w) = true /\ zof k' w = z) /\
    (forall w v, 0 <= w < MAX_WINDOWS -> normal (win k w) = true ->
       0 <= v < MAX_WINDOWS -> normal (win k v) = true ->
       (zof k' w = zof k' v -> w = v) /\ (zof k w < zof k v -> zof k' w < zof k' v)) /\
    (forall w, normal (win k w) = false -> win k' w = win k w).
Proof.
  cbv zeta. destruct (normalize_spec k) as (order & n & Hn & Ho & Hr & Hz & H1 & H2).
  set (k' := kwm_normalize_zindex_locked k) in *. clearbody k'.
  assert (forall w, 0 <= w < MAX_WINDOWS -> normal (win k w) = true ->
    exists a, 0 <= a < n /\ ld order a = w /\ zof k' w = a + 1) as Hnum.
  { intros w Hw Hnw. destruct (proj1 (o_mem _ _ _ _ Ho w)) as (a & Ha & <-); [done|].
    exists a. by rewrite H1. }
  exists n. split; [done|]. split; [done|]. split; [done|]. splits.
  - intros w. destruct (normal (win k w)) eqn:En; [destruct (decide (0 <= w < MAX_WINDOWS)) as [Hrg|Hrg]|].
    + destruct (proj1 (o_mem _ _ _ _ Ho w)) as (a & Ha & <-); [done|]. exists (a + 1). by apply H1.
    + exists (zof k w). rewrite H2 by tauto. by destruct (win k w).
    + exists (zof k w). rewrite H2 by tauto. by destruct (win k w).
  - intros w Hw Hnw. destruct (Hnum w Hw Hnw) as (a & Ha & _ & ->). lia.
  - intros z Hz'. exists (ld order (z - 1)).
    destruct (proj2 (o_mem _ _ _ _ Ho (ld order (z - 1)))) as [Hw Hnw]; [exists (z - 1); split; [lia|done]|].
    split; [done|]. split; [done|]. rewrite H1 by lia. cbn [z_index with_z]. lia.
  - intros w v Hw Hnw Hv Hnv. destruct (Hnum w Hw Hnw) as (a & Ha & Ea & ->).
    destruct (Hnum v Hv Hnv) as (b & Hb & Eb & ->). subst. split; intros Hc.
    + f_equal. lia.
    + destruct (Z.le_gt_cases b a); [|lia].
      pose proof (o_sorted _ _ _ _ Ho b a). lia.
  - intros w Hnw. apply H2. by left.
Qed.

(** ** Scanning for the topmost window *)

(** The scans keep the candidate with the largest key so far. *)
Definition wscan (p : Z -> bool) (key : Z -> Z) (z0 n : Z) : Z * Z :=
  for_loop 0 n (fun i '(hi, b) => if p i && (hi <? key i) then (key i, i) else (hi, b)) (z0, -1).

Lemma wscan_spec p key z0 n :
  0 <= n ->
  exists hi b, wscan p key z0 n = (hi, b) /\
  ((b = -1 /\ hi = z0 /\ forall i, 0 <= i < n -> p i = true -> key i <= z0) \/
   (0 <= b < n /\ p b = true /\ hi = key b /\ z0 < hi /\
    (forall i, 0 <= i < n -> p i = true -> key i <= hi) /\
    (forall i, 0 <= i < b -> p i = true -> key i < hi))).
Proof.
  intros Hn. unfold wscan.
  apply (for_loop_inv (fun n (r : Z * Z) => exists hi b, r = (hi, b) /\
    ((b = -1 /\ hi = z0 /\ forall i, 0 <= i < n -> p i = true -> key i <= z0) \/
     (0 <= b < n /\ p b = true /\ hi = key b /\ z0 < hi /\
      (forall i, 0 <= i < n -> p i = true -> key i <= hi) /\
      (forall i, 0 <= i < b -> p i = true -> key i < hi))))); [done| |].
  { exists z0, (-1)%Z. split; [done|]. left. splits; intros; lia. }
  intros i r Hi (hi & b & -> & HP).
  destruct (p i) eqn:Ep; cbn [andb]; [destruct (Z.ltb_spec hi (key i))|].
  - exists (key i), i. split; [done|]. right.
    assert (forall j, 0 <= j < i -> p j = true -> key j <= hi) as Hlt.
    { destruct HP as [(_ & -> & HP)|(_ & _ & _ & _ & HP & _)]; exact HP. }
    assert (z0 <= hi) by (destruct HP as [(_ & -> & _)|(_ & _ & _ & ? & _)]; lia).
    splits; intros j Hj Hp.
    + destruct (Z.eq_dec j i) as [->|]; [lia|]. specialize (Hlt j ltac:(lia) Hp). lia.
    + specialize (Hlt j ltac:(lia) Hp). lia.
  - exists hi, b. split; [done|].
    destruct HP as [(-> & -> & HP)|(Hb & Hpb & E & Hz & HP & HP')]; [left|right].
    + splits; intros j Hj Hp. destruct (Z.eq_dec j i) as [->|]; [lia|]. apply HP; lia || done.
    + split; [lia|]. splits; intros j Hj Hp. destruct (Z.eq_dec j i) as [->|]; [lia|]. apply HP; lia || done.
  - exists hi, b. split; [done|].
    destruct HP as [(-> & -> & HP)|(Hb & Hpb & E & Hz & HP & HP')]; [left|right].
    + splits; intros j Hj Hp. destruct (Z.eq_dec j i) as [->|]; [congruence|]. apply HP; lia || done.
    + split; [lia|]. splits; intros j Hj Hp. destruct (Z.eq_dec j i) as [->|]; [congruence|]. apply HP; lia || done.
Qed.

Definition hits k (px py i : Z) : bool := (win k i).(active) && frame_hit (win k i) px py.

Lemma hit_scan k px py :
  kwm_hit_test_locked k px py = (wscan (hits k px py) (fun i => i32 (zof k i)) (-1) MAX_WINDOWS).2.
Proof. done. Qed.

Lemma refocus_scan k :
  kwm_refocus_locked k = set_focus k (wscan (fun i => normal (win k i)) (fun i => zof k i) 0 MAX_WINDOWS).2.
Proof. done. Qed.

Lemma topmost_scan k :
  topmost k = (wscan (fun i => normal (win k i)) (fun i => i32 (zof k i)) (-1) MAX_WINDOWS).2.
Proof. done. Qed.

(** A window found by hit-testing is active. *)
Lemma hit_test_active k px py :
  let t := kwm_hit_test_locked k px py in
  t = -1 \/ (0 <= t < MAX_WINDOWS /\ active (win k t) = true).
Proof.
  cbv zeta. rewrite hit_scan.
  destruct (wscan_spec (hits k px py) (fun i => i32 (zof k i)) (-1) MAX_WINDOWS) as (hi & b & -> & Hs); [done|].
  cbn [snd]. destruct Hs as [(-> & _)|(Hb & Hp & _)]; [by left|right].
  split; [done|]. unfold hits in Hp. by apply andb_true_iff in Hp as [? _].
Qed.

(** ** Frames *)

(** Positions and sizes for which the frame does not leave the coordinate range. *)
Definition geom_ok (w : kwm_window_t) : Prop :=
  - 2 ^ 30 <= wx w <= 2 ^ 30 /\ - 2 ^ 30 <= wy w <= 2 ^ 30 /\
  0 <= wwidth w <= 2 ^ 20 /\ 0 <= wheight w <= 2 ^ 20 /\ 0 <= z_index w < 2 ^ 31.

(** The frame: the content with the titlebar above it. *)
Definition in_frame (w : kwm_window_t) (px py : Z) : Prop :=
  wx w <= px < wx w + wwidth w /\ wy w <= py < wy w + tb_height w + wheight w.

Lemma tb_height_range w : 0 <= tb_height w <= 24.
Proof. unfold tb_height, KWM_TITLEBAR_H. destruct (is_desktop w); lia. Qed.

Lemma frame_hit_iff w px py : geom_ok w -> frame_hit w px py = true <-> in_frame w px py.
Proof.
  intros (G1 & G2 & G3 & G4 & _). pose proof (tb_height_range w). unfold frame_hit, in_frame. cbv zeta.
  rewrite (sx_small 32 (wwidth w)) by lia. rewrite (sx_small 32 (wheight w)) by lia.
  rewrite !(sx_small 32 (_ + _)) by (rewrite ?(sx_small 32 (_ + _)) by lia; lia).
  rewrite !andb_true_iff, !Z.leb_le, !Z.ltb_lt. lia.
Qed.

(** Mouse input goes to the topmost window under the cursor: if no active
    window's frame contains the point the event has no target; otherwise the
    target is an active window whose frame contains the point, no window with a
    frame there is stacked above it, and the event carries its owner, its slot
    and the position of the point relative to its content, which is negative
    in the vertical exactly on the titlebar. *)
Theorem kwm_route_mouse_topmost k sx sy :
  (forall i, 0 <= i < MAX_WINDOWS -> active (win k i) = true -> geom_ok (win k i)) ->
  - 2 ^ 30 <= sx <= 2 ^ 30 -> - 2 ^ 30 <= sy <= 2 ^ 30 ->
  (kwm_route_mouse k sx sy = (-1, 0, None) /\
   forall i, 0 <= i < MAX_WINDOWS -> active (win k i) = true -> ~ in_frame (win k i) sx sy) \/
  (exists t lx ly, 0 <= t < MAX_WINDOWS /\ active (win k t) = true /\ in_frame (win k t) sx sy /\
     kwm_route_mouse k sx sy = (owner_task (win k t), t + 1, Some (lx, ly)) /\
     lx = sx - wx (win k t) /\ ly = sy - (wy (win k t) + tb_height (win k t)) /\
     0 <= lx < wwidth (win k t) /\ - tb_height (win k t) <= ly < wheight (win k t) /\
     (forall i, 0 <= i < MAX_WINDOWS -> active (win k i) = true -> in_frame (win k i) sx sy ->
        zof k i <= zof k t)).
Proof.
  intros Hg Hsx Hsy. unfold kwm_route_mouse. rewrite hit_scan.
  destruct (wscan_spec (hits k sx sy) (fun i => i32 (zof k i)) (-1) MAX_WINDOWS) as (hi & b & -> & Hs); [done|].
  assert (forall i, 0 <= i < MAX_WINDOWS -> hits k sx sy i = true <->
    active (win k i) = true /\ in_frame (win k i) sx sy) as Hhit.
  { intros i Hi. unfold hits. rewrite andb_true_iff. split; intros [Ha Hf]; (split; [done|]).
    - apply frame_hit_iff; [by apply Hg|done].
    - apply frame_hit_iff; [by apply Hg|done]. }
  assert (forall i, 0 <= i < MAX_WINDOWS -> active (win k i) = true -> i32 (zof k i) = zof k i /\ 0 <= zof k i) as Hz.
  { intros i Hi Ha. destruct (Hg i Hi Ha) as (_ & _ & _ & _ & Hz). split; [apply sx_small; lia|lia]. }
  cbn [snd]. destruct Hs as [(-> & -> & Hs)|(Hb & Hp & -> & _ & Hs & _)].
  - left. split; [done|]. intros i Hi Ha Hf.
    specialize (Hs i Hi (proj2 (Hhit i Hi) (conj Ha Hf))). destruct (Hz i Hi Ha). lia.
  - right. apply Hhit in Hp as [Ha Hf]; [|done]. exists b. pose proof Hf as [F1 F2].
    destruct (Hg b Hb Ha) as (G1 & G2 & G3 & G4 & _). pose proof (tb_height_range (win k b)).
    do 2 eexists. split; [done|]. split; [done|]. split; [done|].
    rewrite (proj2 (Z.leb_le 0 b)) by lia. split; [done|].
    rewrite !(sx_small 32) by (rewrite ?(sx_small 32) by lia; lia). splits.
    intros i Hi Hai Hfi. specialize (Hs i Hi (proj2 (Hhit i Hi) (conj Hai Hfi))).
    destruct (Hz i Hi Hai), (Hz b Hb Ha). lia.
Qed.
End order.
End KwmOrder.
