(* ===== verification/KwmInv.v ===== *)
(** * The invariant of the window manager

    Focus and drag name live windows, there is at most one desktop and it stays
    at the bottom, and every active window has a canvas of its own: a live
    display buffer of the window's size whose pixel block is large enough.
    Each operation preserves it. *)

From S2P Require Import Prelude KString Display Sched Event Kwm KwmOrder.
From stdpp Require Import base numbers list gmap.
From Stdlib Require Import ZArith Lia.

#[local] Open Scope Z_scope.

Module KwmInv.
Import Display Kwm KwmOrder.

(** ** Creating and destroying display buffers *)

Section buffers.
Context {H : Type} `{KA : KAlloc H} `{KO : !KAllocOk H}.
Implicit Types (g : gfx (H := H)).

Abbreviation live g p := (ka_live (gheap g) p).
Abbreviation size g p := (ka_size (gheap g) p).

(** A buffer [c] made by [display_buffer_create] for [w * h] pixels. *)
Record canvas_ok g (c w h : Z) : Prop := {
  c_live : live g c;
  c_buf : exists b, bufs g !! c = Some b /\ db_width b = w /\ db_height b = h /\ stride b = w /\
            owns_pixels b = true;
  c_pixels : live g (pixels (db_at g c));
  c_ne : c <> pixels (db_at g c);
  c_size : 4 * (w * h) <= size g (pixels (db_at g c));
}.

(** The heap blocks of a buffer. *)
Definition block_of g (c p : Z) : Prop := p = c \/ p = pixels (db_at g c).


Lemma kmalloc_cases g n g' p :
  gkmalloc g n = (g', p) ->
  bufs g' = bufs g /\ pix g' = pix g /\ dlists g' = dlists g /\
  (forall q, live g' q <-> live g q \/ (p <> 0 /\ q = p)) /\ (p <> 0 -> ~ live g p /\ size g' p = n) /\
  (forall q, live g q -> size g' q = size g q).
Proof.
  unfold gkmalloc. pose proof (ka_malloc_live n (gheap g)) as Hl. pose proof (ka_fresh n (gheap g)) as Hf.
  pose proof (ka_malloc_size n (gheap g)) as Hz. pose proof (ka_malloc_keeps n (gheap g)) as Hk.
  destruct (ka_kmalloc n (gheap g)) as [h q]. intros [= <- <-]. cbn [fst snd gheap set_gheap bufs pix dlists] in *.
  splits; auto.
Qed.

Lemma bytes_fit w h : 0 < w -> 0 < h -> u64 (w * h * 4) / w / 4 = h -> 4 * (w * h) <= u64 (w * h * 4).
Proof.
  intros Hw Hh E. pose proof (wrap_bound 64 (w * h * 4) ltac:(lia)).
  assert (h * 4 <= u64 (w * h * 4) / w) as H1 by (rewrite <- E at 1; divlia).
  assert (u64 (w * h * 4) / w * w <= u64 (w * h * 4)) as H2.
  { rewrite Z.mul_comm. apply Z.mul_div_le. lia. }
  nia.
Qed.

Lemma display_buffer_create_spec g w h fmt g' c :
  0 <= w -> 0 <= h -> display_buffer_create g w h fmt = (g', c) ->
  (c = 0 -> bufs g' = bufs g) /\ (c <> 0 -> bufs g' = <[c := db_at g' c]> (bufs g)) /\
  pix g' = pix g /\
  (forall q, live g q -> live g' q /\ size g' q = size g q) /\
  (c <> 0 -> canvas_ok g' c w h /\ forall p, block_of g' c p -> ~ live g p).
Proof.
  intros Hw Hh. unfold display_buffer_create.
  destruct (Z.eqb_spec w 0); cbn [orb]; [intros [= <- <-]; by splits|].
  destruct (Z.eqb_spec h 0); [intros [= <- <-]; by splits|].
  destruct (gkmalloc g SIZEOF_DB) as [g1 b] eqn:E1.
  destruct (kmalloc_cases _ _ _ _ E1) as (B1 & P1 & _ & L1 & F1 & S1).
  destruct (Z.eqb_spec b 0) as [->|Hb].
  { intros [= <- <-]. splits. intros q Hq. split; [rewrite L1; by left|auto]. }
  destruct (F1 Hb) as [Fb Sb].
  assert (forall g2, bufs g2 = bufs g -> pix g2 = pix g ->
    (forall q, live g q -> live g2 q /\ size g2 q = size g q) -> (gkfree g2 b, 0) = (g', c) ->
    (c = 0 -> bufs g' = bufs g) /\ (c <> 0 -> bufs g' = <[c := db_at g' c]> (bufs g)) /\ pix g' = pix g /\
    (forall q, live g q -> live g' q /\ size g' q = size g q) /\
    (c <> 0 -> canvas_ok g' c w h /\ forall p, block_of g' c p -> ~ live g p)) as Hfail.
  { intros g2 B2 P2 L2 [= <- <-]. splits. intros q Hq. destruct (L2 q Hq) as [L3 S3].
    assert (q <> b) by (intros ->; done).
    unfold gkfree. cbn [gheap set_gheap]. rewrite ka_free_live, ka_free_keeps by done. done. }
  assert (forall q, live g q -> live g1 q /\ size g1 q = size g q) as L1'.
  { intros q Hq. split; [rewrite L1; by left|auto]. }
  cbn [negb andb]. destruct (Z.eqb_spec (u64 (w * h * 4) / w / 4) h) as [Eov|]; cbn [negb]; [|by apply Hfail].
  destruct (SIZE_MAX <? u64 (w * h * 4)); [by apply Hfail|].
  destruct (gkmalloc g1 (u64 (w * h * 4))) as [g2 p] eqn:E2.
  destruct (kmalloc_cases _ _ _ _ E2) as (B2 & P2 & _ & L2 & F2 & S2).
  destruct (Z.eqb_spec p 0) as [->|Hp].
  { apply Hfail; [congruence..|]. intros q Hq. destruct (L1' q Hq) as [? E]. split; [rewrite L2; by left|].
    rewrite S2 by done. done. }
  destruct (F2 Hp) as [Fp Sp].
  intros [= <- <-]. set (db := mk_db w h w fmt p true 0).
  assert (db_at (set_bufs g2 (<[b := db]> (bufs g2))) b = db) as Edb.
  { unfold db_at. cbn [bufs set_bufs]. by rewrite lookup_insert_eq. }
  split; [done|]. split.
  { intros _. rewrite Edb. cbn [bufs set_bufs]. by rewrite B2, B1. }
  split; [cbn [pix set_bufs]; congruence|]. split.
  { intros q Hq. destruct (L1' q Hq) as [? E]. cbn [gheap set_bufs]. split; [rewrite L2; by left|].
    rewrite S2 by done. done. }
  assert (b <> p) as Hne.
  { intros <-. apply Fp, L1. by right. }
  intros _. split; [split|].
  - cbn [gheap set_bufs]. rewrite L2, L1. tauto.
  - exists db. cbn [bufs set_bufs]. by rewrite lookup_insert_eq.
  - rewrite Edb. cbn [pixels db gheap set_bufs]. rewrite L2. tauto.
  - by rewrite Edb.
  - rewrite Edb. cbn [pixels db gheap set_bufs]. rewrite Sp. apply bytes_fit; lia.
  - intros q [->| ->]; [done|]. rewrite Edb. cbn [pixels db]. intros Hq. apply Fp, L1. by left.
Qed.

(** Destroying a canvas leaves every other canvas alone. *)
Lemma canvas_other g c d w h w' h' :
  canvas_ok g c w h -> canvas_ok g d w' h' ->
  (forall p, block_of g c p -> block_of g d p -> False) ->
  canvas_ok (display_buffer_destroy g c) d w' h' /\
  (forall p, block_of (display_buffer_destroy g c) d p <-> block_of g d p).
Proof.
  intros [Lc (bc & Ec & _ & _ & _ & Oc) Pc Nc Zc] [Ld Bd Pd Nd Zd] Hdis.
  assert (c <> 0) as Hc0 by (intros ->; by apply (ka_nonnull (gheap g))).
  assert (c <> d) as Hcd. { intros ->. apply (Hdis d); by left. }
  unfold display_buffer_destroy. rewrite (proj2 (Z.eqb_neq _ _) Hc0).
  assert (owns_pixels (db_at g c) = true) as -> by (unfold db_at; by rewrite Ec).
  set (pc := pixels (db_at g c)) in *. unfold gkfree. cbn [gheap set_gheap bufs].
  set (g' := set_bufs _ _).
  assert (db_at g' d = db_at g d) as Edb.
  { unfold g', db_at. cbn [bufs set_bufs set_gheap]. by rewrite lookup_delete_ne. }
  assert (forall q, live g q -> q <> c -> q <> pc -> live g' q /\ size g' q = size g q) as Hq.
  { intros q Hl H1 H2. unfold g'. cbn [gheap set_bufs set_gheap]. rewrite !ka_free_live, !ka_free_keeps by done. done. }
  assert (d <> pc) as N1. { intros ->. apply (Hdis pc); [by right|by left]. }
  assert (pixels (db_at g d) <> c) as N2. { intros E. apply (Hdis c); [by left|by right]. }
  assert (pixels (db_at g d) <> pc) as N3. { intros E. apply (Hdis pc); [by right|right; done]. }
  split; [|intros p; unfold block_of; by rewrite Edb].
  split; rewrite ?Edb; try done.
  - by apply Hq.
  - destruct Bd as (b & Eb & Hb). exists b. split; [|done]. unfold g'. cbn [bufs set_bufs set_gheap].
    by rewrite lookup_delete_ne.
  - by apply Hq.
  - destruct (Hq _ Pd N2 N3) as [_ ->]. done.
Qed.

(** Only the buffer table and the heap matter. *)
Lemma canvas_same g g' c w h :
  bufs g' = bufs g -> gheap g' = gheap g -> canvas_ok g c w h -> canvas_ok g' c w h.
Proof.
  intros Eb Eh [A B C D E]. assert (db_at g' c = db_at g c) as Edb by (unfold db_at; by rewrite Eb).
  split; rewrite ?Edb, ?Eh, ?Eb; done.
Qed.

Lemma block_same g g' c p : bufs g' = bufs g -> block_of g' c p <-> block_of g c p.
Proof. intros Eb. unfold block_of, db_at. by rewrite Eb. Qed.
End buffers.

(** ** The invariant *)

Section inv.
Context {H : Type} `{KA : KAlloc H} `{KO : !KAllocOk H}.
Implicit Types (k : kwm (H := H)).

(** No window, or an active one that is not the desktop. *)
Definition slot_ok k (i : Z) : Prop :=
  i = -1 \/ (0 <= i < MAX_WINDOWS /\ normal (win k i) = true).

Record kwm_inv k : Prop := {
  ki_out : forall i, active (win k i) = true -> 0 <= i < MAX_WINDOWS;
  ki_free : forall i, active (win k i) = false -> canvas (win k i) = 0 /\ is_desktop (win k i) = false;
  ki_canvas : forall i, active (win k i) = true ->
    canvas_ok (gs k) (canvas (win k i)) (wwidth (win k i)) (wheight (win k i));
  ki_uniq : forall i j p, active (win k i) = true -> active (win k j) = true ->
    block_of (gs k) (canvas (win k i)) p -> block_of (gs k) (canvas (win k j)) p -> i = j;
  ki_dims : forall i, normal (win k i) = true ->
    1 <= wwidth (win k i) <= KWM_MAX_DIMENSION /\ 1 <= wheight (win k i) <= KWM_MAX_DIMENSION /\
    wwidth (win k i) * wheight (win k i) * 4 <= KWM_MAX_CANVAS_BYTES;
  ki_desktop : forall i, active (win k i) = true -> is_desktop (win k i) = true ->
    wx (win k i) = 0 /\ wy (win k i) = 0 /\ z_index (win k i) = 0 /\
    wwidth (win k i) = fb_width k /\ wheight (win k i) = fb_height k;
  ki_one : forall i j, active (win k i) = true -> is_desktop (win k i) = true ->
    active (win k j) = true -> is_desktop (win k j) = true -> i = j;
  ki_focus : slot_ok k (focused_win_id k);
  ki_drag : slot_ok k (dragged_win_id k);
  ki_fb : 0 <= fb_width k < 2 ^ 32 /\ 0 <= fb_height k < 2 ^ 32;
}.

(** [w'] may differ from [w] in position, number and title, the desktop's title only. *)
Definition shape_eq (w w' : kwm_window_t) : Prop :=
  active w' = active w /\ wwidth w' = wwidth w /\ wheight w' = wheight w /\ canvas w' = canvas w /\
  wflags w' = wflags w /\ owner_task w' = owner_task w /\
  (is_desktop w = true -> wx w' = wx w /\ wy w' = wy w /\ z_index w' = z_index w).

Lemma shape_refl w : shape_eq w w.
Proof. unfold shape_eq. by splits. Qed.

Lemma shape_trans w1 w2 w3 : shape_eq w1 w2 -> shape_eq w2 w3 -> shape_eq w1 w3.
Proof.
  intros (A1 & A2 & A3 & A4 & A5 & A6 & A7) (B1 & B2 & B3 & B4 & B5 & B6 & B7).
  assert (is_desktop w2 = is_desktop w1) as Ed by (unfold is_desktop; congruence).
  unfold shape_eq. splits; try congruence. intros Hd. rewrite Ed in B7.
  destruct (A7 Hd) as (? & ? & ?), (B7 Hd) as (? & ? & ?). splits; congruence.
Qed.

Lemma shape_desktop w w' : shape_eq w w' -> is_desktop w' = is_desktop w.
Proof. intros (_ & _ & _ & _ & E & _). unfold is_desktop. by rewrite E. Qed.

Lemma shape_normal w w' : shape_eq w w' -> normal w' = normal w.
Proof. intros Hs. unfold normal. rewrite (shape_desktop _ _ Hs). by destruct Hs as (-> & _). Qed.

(** The invariant of a state whose windows have the same shapes. *)
Lemma inv_shape k k' :
  kwm_inv k -> (forall i, shape_eq (win k i) (win k' i)) ->
  bufs (gs k') = bufs (gs k) -> gheap (gs k') = gheap (gs k) ->
  fb_width k' = fb_width k -> fb_height k' = fb_height k ->
  slot_ok k (focused_win_id k') -> slot_ok k (dragged_win_id k') -> kwm_inv k'.
Proof.
  intros [A B C D E F G I J K] Hs Eb Eh Ew Eh' Hf Hd.
  assert (forall i, slot_ok k i -> slot_ok k' i) as Hok.
  { intros i [->|[? ?]]; [by left|right]. by rewrite (shape_normal _ _ (Hs i)). }
  split.
  - intros i. destruct (Hs i) as (-> & _). apply A.
  - intros i. rewrite (shape_desktop _ _ (Hs i)). destruct (Hs i) as (-> & _ & _ & -> & _). apply B.
  - intros i. destruct (Hs i) as (-> & -> & -> & -> & _). intros Ha. eapply canvas_same; eauto.
  - intros i j p. destruct (Hs i) as (-> & _ & _ & -> & _), (Hs j) as (-> & _ & _ & -> & _).
    rewrite !(block_same _ _ _ _ Eb). apply D.
  - intros i. rewrite (shape_normal _ _ (Hs i)). destruct (Hs i) as (_ & -> & -> & _). apply E.
  - intros i. rewrite (shape_desktop _ _ (Hs i)). destruct (Hs i) as (-> & -> & -> & _ & _ & _ & Hi).
    intros Ha Hdk. destruct (Hi Hdk) as (-> & -> & ->). rewrite Ew, Eh'. by apply F.
  - intros i j. rewrite (shape_desktop _ _ (Hs i)), (shape_desktop _ _ (Hs j)).
    destruct (Hs i) as (-> & _), (Hs j) as (-> & _). apply G.
  - by apply Hok.
  - by apply Hok.
  - by rewrite Ew, Eh'.
Qed.

(** ** Restacking *)

Lemma with_z_shape z w : is_desktop w = false -> shape_eq w (with_z z w).
Proof. intros Hd. unfold shape_eq. splits. congruence. Qed.

Lemma normalize_shape k i : shape_eq (win k i) (win (kwm_normalize_zindex_locked k) i).
Proof.
  destruct (normalize_spec k) as (order & n & _ & Ho & _ & _ & H1 & H2).
  destruct (normal (win k i)) eqn:En; [destruct (decide (0 <= i < MAX_WINDOWS)) as [Hi|Hi]|].
  - destruct (proj1 (o_mem _ _ _ _ Ho i)) as (a & Ha & <-); [done|]. rewrite H1 by done.
    apply with_z_shape. by apply normal_iff in En as [_ ?].
  - rewrite H2 by tauto. apply shape_refl.
  - rewrite H2 by tauto. apply shape_refl.
Qed.

(** A restacking that keeps every shape. *)
Definition restack k k' : Prop := restacked k k' /\ forall i, shape_eq (win k i) (win k' i).

Lemma restack_refl k : restack k k.
Proof. split; [exists (kwm_windows k), (next_z_index k); by destruct k|]. intros. apply shape_refl. Qed.

Lemma restack_trans k1 k2 k3 : restack k1 k2 -> restack k2 k3 -> restack k1 k3.
Proof.
  intros [A B] [C D]. split; [by eapply restacked_trans|]. intros i. by eapply shape_trans.
Qed.

Lemma maybe_normalize_restack k : restack k (maybe_normalize k).
Proof.
  unfold maybe_normalize. destruct (_ <? _); [|apply restack_refl]. split.
  - by destruct (normalize_spec k) as (_ & _ & _ & _ & Hr & _).
  - apply normalize_shape.
Qed.

Lemma raise_restack k i : is_desktop (win k i) = false -> restack k (kwm_raise k i).
Proof.
  intros Hd. split; [by do 2 eexists|]. intros j. unfold kwm_raise.
  change (win (set_next_z ?a ?b) j) with (win a j). rewrite win_upd.
  destruct (Z.eqb_spec j i) as [->|]; [by apply with_z_shape|apply shape_refl].
Qed.

Lemma restack_fields k k' :
  restack k k' -> gs k' = gs k /\ fb_width k' = fb_width k /\ fb_height k' = fb_height k /\
  focused_win_id k' = focused_win_id k /\ dragged_win_id k' = dragged_win_id k.
Proof. by intros [(ws & z & ->) _]. Qed.

Lemma restack_inv k k' : restack k k' -> kwm_inv k -> kwm_inv k'.
Proof.
  intros Hr Hi. destruct (restack_fields _ _ Hr) as (E1 & E2 & E3 & E4 & E5).
  apply (inv_shape k); rewrite ?E1, ?E4, ?E5; try done; [apply Hr|apply Hi|apply Hi].
Qed.

(** ** Marks, focus and drag *)

(** States with the same windows, canvases and screen. *)
Definition same_windows k k' : Prop :=
  kwm_windows k' = kwm_windows k /\ gs k' = gs k /\ fb_width k' = fb_width k /\ fb_height k' = fb_height k.

Lemma same_win k k' i : same_windows k k' -> win k' i = win k i.
Proof. intros (E & _). unfold win. by rewrite E. Qed.

Lemma same_inv k k' :
  same_windows k k' -> kwm_inv k -> slot_ok k (focused_win_id k') -> slot_ok k (dragged_win_id k') ->
  kwm_inv k'.
Proof.
  intros Hs Hi Hf Hd. pose proof Hs as (_ & E2 & E3 & E4).
  apply (inv_shape k); rewrite ?E2; try done.
  intros i. rewrite (same_win _ _ i Hs). apply shape_refl.
Qed.

Lemma mark_inv k px py w h : kwm_inv k -> kwm_inv (screen_mark_dirty k px py w h).
Proof. intros Hi. apply (same_inv k); [by splits|done|apply Hi|apply Hi]. Qed.

Lemma frame_dirty_inv k i : kwm_inv k -> kwm_inv (kwm_frame_dirty k i).
Proof.
  intros Hi. unfold kwm_frame_dirty. destruct (_ || _); [done|].
  destruct (negb _); [done|]. by apply mark_inv.
Qed.

Lemma focus_inv k f : kwm_inv k -> slot_ok k f -> kwm_inv (set_focus k f).
Proof. intros Hi Hf. apply (same_inv k); [by splits|done|done|apply Hi]. Qed.

Lemma drag_inv k d ox oy : kwm_inv k -> slot_ok k d -> kwm_inv (set_drag k d ox oy).
Proof. intros Hi Hd. apply (same_inv k); [by splits|done|apply Hi|done]. Qed.

Lemma slot_none k : slot_ok k (-1).
Proof. by left. Qed.

(** The invariant but for the focus. *)
Definition pre_inv k : Prop := kwm_inv (set_focus k (-1)).

Lemma inv_pre k : kwm_inv k -> pre_inv k.
Proof. intros Hi. apply focus_inv; [done|apply slot_none]. Qed.

Lemma pre_focus k f : pre_inv k -> slot_ok k f -> kwm_inv (set_focus k f).
Proof. intros Hp Hf. by apply (focus_inv (set_focus k (-1)) f). Qed.

Lemma pre_self k : pre_inv k -> slot_ok k (focused_win_id k) -> kwm_inv k.
Proof. intros Hp Hf. pose proof (pre_focus k _ Hp Hf) as Hi. by destruct k. Qed.

Lemma refocus_inv k : pre_inv k -> kwm_inv (kwm_refocus_locked k).
Proof.
  intros Hp. rewrite refocus_scan. apply pre_focus; [done|].
  destruct (wscan_spec (fun i => normal (win k i)) (fun i => z_index (win k i)) 0 MAX_WINDOWS)
    as (hi & b & -> & [(-> & _)|(Hb & Hn & _)]); [done|by left|by right].
Qed.

#[local] Hint Resolve mark_inv frame_dirty_inv slot_none : core.

(** ** Freeing a slot *)

Definition cleared (w : kwm_window_t) : kwm_window_t :=
  mk_win false (wx w) (wy w) (wwidth w) (wheight w) 0 (z_index w) (-1) 0 [].

Lemma free_slot_win k i j :
  win (kwm_free_slot k i) j = if j =? i then cleared (win k i) else win k j.
Proof.
  unfold kwm_free_slot. destruct (negb _); destruct (_ =? i);
    change (win (set_drag ?a ?b ?c ?d) j) with (win a j); rewrite win_set; done.
Qed.

Lemma free_slot_fields k i :
  canvas (win k i) <> 0 ->
  gs (kwm_free_slot k i) = display_buffer_destroy (gs k) (canvas (win k i)) /\
  fb_width (kwm_free_slot k i) = fb_width k /\ fb_height (kwm_free_slot k i) = fb_height k /\
  focused_win_id (kwm_free_slot k i) = focused_win_id k /\
  dragged_win_id (kwm_free_slot k i) = (if dragged_win_id k =? i then -1 else dragged_win_id k).
Proof.
  intros Hc. unfold kwm_free_slot. rewrite (proj2 (Z.eqb_neq _ _) Hc). cbn [negb].
  cbn [dragged_win_id set_win set_windows set_gs]. by destruct (_ =? i).
Qed.

Lemma free_slot_pre k i : pre_inv k -> active (win k i) = true -> pre_inv (kwm_free_slot k i).
Proof.
  intros [A B C D E F G _ J K] Ha.
  change (forall i, active (win k i) = true -> 0 <= i < MAX_WINDOWS) in A.
  assert (canvas (win k i) <> 0) as Hc.
  { intros E0. pose proof (c_live _ _ _ _ (C i Ha)) as HL. change (win (set_focus k (-1)) i) with (win k i) in HL.
    rewrite E0 in HL. by apply (ka_nonnull (gheap (gs k))). }
  destruct (free_slot_fields k i Hc) as (E1 & E2 & E3 & _ & E5).
  assert (forall j, j <> i -> active (win k j) = true ->
    canvas_ok (gs (kwm_free_slot k i)) (canvas (win k j)) (wwidth (win k j)) (wheight (win k j)) /\
    forall p, block_of (gs (kwm_free_slot k i)) (canvas (win k j)) p <-> block_of (gs k) (canvas (win k j)) p) as Hj.
  { intros j Hne Haj. rewrite E1. eapply canvas_other; [exact (C i Ha)|exact (C j Haj)|].
    intros p Hp Hp'. apply Hne. exact (D j i p Haj Ha Hp' Hp). }
  unfold pre_inv. split; cbn [focused_win_id set_focus]; try apply slot_none.
  all: change (gs (set_focus ?a (-1))) with (gs a); change (fb_width (set_focus ?a (-1))) with (fb_width a);
    change (fb_height (set_focus ?a (-1))) with (fb_height a).
  - intros j. change (win (set_focus ?a (-1)) j) with (win a j). rewrite free_slot_win.
    destruct (Z.eqb_spec j i) as [->|]; [done|apply A].
  - intros j. change (win (set_focus ?a (-1)) j) with (win a j). rewrite free_slot_win.
    destruct (Z.eqb_spec j i) as [->|]; [done|apply (B j)].
  - intros j. change (win (set_focus ?a (-1)) j) with (win a j). rewrite free_slot_win.
    destruct (Z.eqb_spec j i) as [->|Hne]; [done|]. intros Haj. by apply Hj.
  - intros j j' p. change (win (set_focus ?a (-1)) ?x) with (win a x). rewrite !free_slot_win.
    destruct (Z.eqb_spec j i) as [->|Hne], (Z.eqb_spec j' i) as [->|Hne']; try done.
    intros Haj Haj'. rewrite (proj2 (Hj j Hne Haj)), (proj2 (Hj j' Hne' Haj')). apply (D j j' p Haj Haj').
  - intros j. change (win (set_focus ?a (-1)) j) with (win a j). rewrite free_slot_win.
    destruct (Z.eqb_spec j i) as [->|]; [done|apply (E j)].
  - intros j. change (win (set_focus ?a (-1)) j) with (win a j). rewrite free_slot_win, E2, E3.
    destruct (Z.eqb_spec j i) as [->|]; [done|apply (F j)].
  - intros j j'. change (win (set_focus ?a (-1)) ?x) with (win a x). rewrite !free_slot_win.
    destruct (Z.eqb_spec j i) as [->|], (Z.eqb_spec j' i) as [->|]; try done. apply (G j j').
  - cbn [dragged_win_id set_focus]. rewrite E5. destruct (Z.eqb_spec (dragged_win_id k) i) as [_|Hne]; [by left|].
    destruct J as [J|[J1 J2]]; [by left|right]. split; [done|].
    change (win (set_focus ?a (-1)) ?x) with (win a x) in *. cbn [dragged_win_id set_focus] in *.
    rewrite free_slot_win. by rewrite (proj2 (Z.eqb_neq _ _) Hne).
  - by rewrite E2, E3.
Qed.
End inv.
End KwmInv.
