(* ===== verification/KwmThm.v ===== *)
(** * Properties of the window manager

    Every sequence of window-manager calls keeps the invariant of [KwmInv];
    destroying a task's windows destroys exactly those; a window's canvas is
    written by its owner only, within its pixel block. *)

From S2P Require Import Prelude KString Display Sched Event Kwm KwmOrder KwmInv.
From stdpp Require Import base numbers list gmap relations.
From Stdlib Require Import ZArith Lia.

#[local] Open Scope Z_scope.

Module KwmThm.
Import Display Kwm KwmOrder KwmInv.

Section ops.
Context {H : Type} `{KA : KAlloc H} `{KO : !KAllocOk H}.
Implicit Types (k : kwm (H := H)) (g : gfx (H := H)).

#[local] Hint Resolve mark_inv frame_dirty_inv slot_none : core.

(** ** New windows *)

(** A canvas survives the creation of another buffer. *)
Lemma canvas_keep g g' c d w h :
  canvas_ok g d w h -> c <> 0 -> bufs g' = <[c := db_at g' c]> (bufs g) ->
  (forall q, ka_live (gheap g) q -> ka_live (gheap g') q /\ ka_size (gheap g') q = ka_size (gheap g) q) ->
  ~ ka_live (gheap g) c ->
  canvas_ok g' d w h /\ forall p, block_of g' d p <-> block_of g d p.
Proof.
  intros [A B C D E] Hc Eb Hl Hf. assert (c <> d) as Hne by (intros ->; done).
  assert (db_at g' d = db_at g d) as Edb.
  { unfold db_at at 1. rewrite Eb, lookup_insert_ne by done. done. }
  split; [|intros p; unfold block_of; by rewrite Edb].
  split; rewrite ?Edb; try done.
  - by apply Hl.
  - destruct B as (b & Hb & ?). exists b. rewrite Eb, lookup_insert_ne by done. done.
  - by apply Hl.
  - destruct (Hl _ C) as [_ ->]. done.
Qed.

(** The state after a window was put in the free slot [i]. *)
Lemma inv_new k k' i g c w h fmt :
  kwm_inv k -> 0 <= i < MAX_WINDOWS -> active (win k i) = false -> 0 <= w -> 0 <= h ->
  display_buffer_create (gs k) w h fmt = (g, c) -> c <> 0 ->
  gs k' = g -> fb_width k' = fb_width k -> fb_height k' = fb_height k ->
  (forall j, j <> i -> shape_eq (win k j) (win k' j)) ->
  active (win k' i) = true -> canvas (win k' i) = c -> wwidth (win k' i) = w -> wheight (win k' i) = h ->
  (if is_desktop (win k' i)
   then (wx (win k' i) = 0 /\ wy (win k' i) = 0 /\ z_index (win k' i) = 0 /\ w = fb_width k /\ h = fb_height k) /\
        (forall j, active (win k j) = true -> is_desktop (win k j) = false)
   else 1 <= w <= KWM_MAX_DIMENSION /\ 1 <= h <= KWM_MAX_DIMENSION /\ w * h * 4 <= KWM_MAX_CANVAS_BYTES) ->
  slot_ok k' (focused_win_id k') -> dragged_win_id k' = dragged_win_id k -> kwm_inv k'.
Proof.
  intros [A B C D E F G _ J K] Hi Hai Hw Hh Ec Hc0 Eg Efw Efh Hs Ha' Hc' Hw' Hh' Hd Hfoc Edr.
  destruct (display_buffer_create_spec _ _ _ _ _ _ Hw Hh Ec) as (_ & Eb & _ & Hl & Hnew).
  specialize (Eb Hc0). destruct (Hnew Hc0) as [Hcv Hfresh].
  assert (forall j, j <> i -> active (win k j) = true ->
    canvas_ok g (canvas (win k j)) (wwidth (win k j)) (wheight (win k j)) /\
    forall p, block_of g (canvas (win k j)) p <-> block_of (gs k) (canvas (win k j)) p) as Hj.
  { intros j Hne Haj. eapply canvas_keep; eauto. apply Hfresh. by left. }
  assert (forall j p, j <> i -> active (win k j) = true -> block_of g c p ->
    block_of g (canvas (win k j)) p -> False) as Hdis.
  { intros j p Hne Haj Hp Hp'. apply (Hfresh p Hp). apply Hj in Hp'; [|done..].
    destruct (C j Haj) as [L _ P _ _]. by destruct Hp' as [->| ->]. }
  split.
  - intros j Haj. destruct (Z.eq_dec j i) as [->|Hne]; [done|]. apply A. by destruct (Hs j Hne) as (<- & _).
  - intros j Haj. destruct (Z.eq_dec j i) as [->|Hne]; [congruence|].
    rewrite (shape_desktop _ _ (Hs j Hne)). destruct (Hs j Hne) as (Ea & _ & _ & -> & _). apply B. congruence.
  - intros j Haj. rewrite Eg. destruct (Z.eq_dec j i) as [->|Hne]; [by rewrite Hc', Hw', Hh'|].
    destruct (Hs j Hne) as (Ea & -> & -> & -> & _). apply Hj; congruence.
  - intros j j' p Haj Haj'. rewrite Eg.
    destruct (Z.eq_dec j i) as [->|Hne], (Z.eq_dec j' i) as [->|Hne']; [done| | |].
    + destruct (Hs j' Hne') as (Ea & _ & _ & -> & _). rewrite Hc'. intros P1 P2.
      destruct (Hdis j' p Hne'); [congruence|done|done].
    + destruct (Hs j Hne) as (Ea & _ & _ & -> & _). rewrite Hc'. intros P1 P2.
      destruct (Hdis j p Hne); [congruence|done|done].
    + destruct (Hs j Hne) as (Ea & _ & _ & -> & _), (Hs j' Hne') as (Ea' & _ & _ & -> & _).
      rewrite (proj2 (Hj j Hne ltac:(congruence))), (proj2 (Hj j' Hne' ltac:(congruence))). apply D; congruence.
  - intros j Hnj. destruct (Z.eq_dec j i) as [->|Hne].
    + apply normal_iff in Hnj as [_ Hd']. rewrite Hd' in Hd. by rewrite Hw', Hh'.
    + rewrite (shape_normal _ _ (Hs j Hne)) in Hnj. destruct (Hs j Hne) as (_ & -> & -> & _). by apply E.
  - intros j Haj Hdj. destruct (Z.eq_dec j i) as [->|Hne].
    + rewrite Hdj in Hd. rewrite Hw', Hh', Efw, Efh. tauto.
    + rewrite (shape_desktop _ _ (Hs j Hne)) in Hdj. destruct (Hs j Hne) as (Ea & -> & -> & _ & _ & _ & Hp).
      destruct (Hp Hdj) as (-> & -> & ->). rewrite Efw, Efh. apply F; congruence.
  - intros j j' Haj Hdj Haj' Hdj'.
    destruct (Z.eq_dec j i) as [->|Hne], (Z.eq_dec j' i) as [->|Hne']; [done| | |].
    + rewrite Hdj in Hd. destruct Hd as [_ Hd]. rewrite (shape_desktop _ _ (Hs j' Hne')) in Hdj'.
      destruct (Hs j' Hne') as (Ea & _). rewrite Hd in Hdj' by congruence. done.
    + rewrite Hdj' in Hd. destruct Hd as [_ Hd]. rewrite (shape_desktop _ _ (Hs j Hne)) in Hdj.
      destruct (Hs j Hne) as (Ea & _). rewrite Hd in Hdj by congruence. done.
    + rewrite (shape_desktop _ _ (Hs j Hne)) in Hdj. rewrite (shape_desktop _ _ (Hs j' Hne')) in Hdj'.
      destruct (Hs j Hne) as (Ea & _), (Hs j' Hne') as (Ea' & _). apply G; congruence.
  - done.
  - rewrite Edr. destruct J as [->|[J1 J2]]; [by left|right]. split; [done|].
    destruct (Z.eq_dec (dragged_win_id k) i) as [E0|Hne].
    + rewrite E0 in J2. apply normal_iff in J2 as [J2 _]. congruence.
    + by rewrite (shape_normal _ _ (Hs _ Hne)).
  - by rewrite Efw, Efh.
Qed.

(** A failed creation changes nothing the invariant speaks of. *)
Lemma inv_create_fail k g c w h fmt :
  kwm_inv k -> 0 <= w -> 0 <= h -> display_buffer_create (gs k) w h fmt = (g, c) -> c = 0 ->
  kwm_inv (set_gs k g).
Proof.
  intros [A B C D E F G I J K] Hw Hh Ec Hc.
  destruct (display_buffer_create_spec _ _ _ _ _ _ Hw Hh Ec) as (Eb & _ & _ & Hl & _). specialize (Eb Hc).
  assert (forall d w h, canvas_ok (gs k) d w h -> canvas_ok g d w h) as Hk.
  { intros d w' h' [c1 c2 c3 c4 c5]. assert (db_at g d = db_at (gs k) d) as Edb by (unfold db_at; by rewrite Eb).
    split; rewrite ?Edb, ?Eb; try done; [by apply Hl|by apply Hl|]. by rewrite (proj2 (Hl _ c3)). }
  split; try done.
  - intros j Haj. apply Hk. by apply C.
  - intros j j' p Haj Haj'. cbn [gs set_gs]. rewrite !(block_same _ _ _ _ Eb). by apply D.
Qed.

(** The restacking done while a window is created touches no other shape. *)
Lemma create_shape k i (nw : kwm_window_t) :
  active nw = false -> is_desktop nw = false ->
  let k1 := maybe_normalize (kwm_raise (set_win k i nw) i) in
  (forall j, j <> i -> shape_eq (win k j) (win k1 j)) /\
  win k1 i = with_z (next_z_index k) nw /\
  (MAX_WINDOWS < u32 (next_z_index k + 1) -> next_z_index k1 <= MAX_WINDOWS + 1) /\
  gs k1 = gs k /\ fb_width k1 = fb_width k /\ fb_height k1 = fb_height k /\
  focused_win_id k1 = focused_win_id k /\ dragged_win_id k1 = dragged_win_id k.
Proof.
  intros Hna Hnd. cbv zeta. set (k0 := set_win k i nw).
  assert (win k0 i = nw) as E0 by (unfold k0; rewrite win_set; by rewrite Z.eqb_refl).
  assert (restack k0 (maybe_normalize (kwm_raise k0 i))) as Hr.
  { eapply restack_trans; [apply raise_restack; by rewrite E0|apply maybe_normalize_restack]. }
  split.
  { intros j Hne. eapply shape_trans; [|apply Hr]. unfold k0. rewrite win_set.
    rewrite (proj2 (Z.eqb_neq _ _) Hne). apply shape_refl. }
  destruct (restack_fields _ _ Hr) as (-> & -> & -> & -> & ->). unfold maybe_normalize.
  change (next_z_index (kwm_raise k0 i)) with (u32 (next_z_index k + 1)).
  assert (win (kwm_raise k0 i) i = with_z (next_z_index k) nw) as E1.
  { unfold kwm_raise. change (win (set_next_z ?a ?b) i) with (win a i).
    by rewrite win_upd, Z.eqb_refl, E0. }
  destruct (Z.ltb_spec MAX_WINDOWS (u32 (next_z_index k + 1))); [|split; [done|split; [intros; lia|done]]].
  destruct (normalize_spec (kwm_raise k0 i)) as (_ & n & Hn & _ & _ & Ez & _ & H2).
  split; [|split; [rewrite Ez; lia|done]].
  rewrite H2; [done|]. left. rewrite E1. unfold normal. cbn [active with_z]. by rewrite Hna.
Qed.

Lemma free_slot_Some k i : free_slot k = Some i -> 0 <= i < MAX_WINDOWS /\ active (win k i) = false.
Proof.
  unfold free_slot. intros (Hi & Ha & _)%find_loop_Some. by apply negb_true_iff in Ha.
Qed.

Lemma create_window_inv k tid px py w h :
  kwm_inv k -> 0 <= w -> 0 <= h -> kwm_inv (kwm_create_window k tid px py w h).1.
Proof.
  intros Hi Hw Hh. unfold kwm_create_window.
  destruct (Z.eqb_spec w 0), (Z.eqb_spec h 0), (Z.ltb_spec KWM_MAX_DIMENSION w),
    (Z.ltb_spec KWM_MAX_DIMENSION h); cbn [orb]; try done.
  destruct (Z.ltb_spec KWM_MAX_CANVAS_BYTES (u64 (w * h * 4))) as [|Hsz]; [done|].
  assert (u64 (w * h * 4) = w * h * 4) as Ewrap by (apply wrap_small; unfold KWM_MAX_DIMENSION in *; nia).
  rewrite Ewrap in Hsz.
  destruct (free_slot k) as [i|] eqn:Ef; [|done]. apply free_slot_Some in Ef as [Hir Hia].
  destruct (display_buffer_create (gs k) w h COLOR_FORMAT_XRGB8888) as [g c] eqn:Ec.
  destruct (Z.eqb_spec c 0) as [Hc|Hc]; [exact (inv_create_fail k g c w h _ Hi Hw Hh Ec Hc)|].
  change (win (set_gs k g) i) with (win k i). rewrite Hia.
  destruct (ki_free k Hi i Hia) as [_ Hnd].
  set (nw := mk_win false px py w h c _ tid _ _).
  destruct (create_shape (set_gs k g) i nw eq_refl Hnd) as (Hs & Ez & _ & Eg & Efw & Efh & Efo & Edr).
  set (k1 := maybe_normalize _) in *. clearbody k1. rewrite Ez. cbn [wx wy wwidth wheight canvas z_index owner_task with_z nw].
  set (w1 := mk_win true px py w h c _ tid 0 []).
  cbn [fst]. cut (kwm_inv (set_focus (set_win k1 i w1) i)).
  { intros Hn. destruct (_ && _); auto. }
  eapply (inv_new k _ i g c w h); try done; change (win (set_focus ?a i) ?x) with (win a x).
  all: rewrite ?win_set, ?Z.eqb_refl; try done.
  - intros j Hne. rewrite win_set, (proj2 (Z.eqb_neq _ _) Hne). by apply Hs.
  - change (is_desktop w1) with false. cbv iota. lia.
  - right. split; [done|]. change (win (set_focus ?a i) ?x) with (win a x). by rewrite win_set, Z.eqb_refl.
Qed.

Lemma create_desktop_inv k tid : kwm_inv k -> kwm_inv (kwm_create_desktop k tid).1.
Proof.
  intros Hi. unfold kwm_create_desktop.
  destruct (find_loop _ _ _) as [d|] eqn:Ed; [done|].
  destruct (_ || _); [done|].
  destruct (free_slot k) as [i|] eqn:Ef; [|done]. apply free_slot_Some in Ef as [Hir Hia].
  destruct (display_buffer_create _ _ _ _) as [g c] eqn:Ec.
  destruct (ki_fb k Hi) as [? ?].
  destruct (Z.eqb_spec c 0) as [Hc|Hc]; [refine (inv_create_fail k g c _ _ _ Hi _ _ Ec Hc); lia|].
  cbn [fst]. apply mark_inv. change (fb_width (set_gs k g)) with (fb_width k).
  change (fb_height (set_gs k g)) with (fb_height k).
  set (w1 := mk_win true 0 0 (fb_width k) (fb_height k) c 0 tid KWM_WIN_DESKTOP []).
  eapply (inv_new k _ i g c (fb_width k) (fb_height k)); try done; try lia.
  all: rewrite ?win_set, ?Z.eqb_refl; try done.
  - intros j Hne. rewrite win_set, (proj2 (Z.eqb_neq _ _) Hne). apply shape_refl.
  - change (is_desktop w1) with true. cbv iota. split; [by splits|]. intros j Haj.
    pose proof (proj1 (find_loop_None _ _ _) Ed j (ki_out k Hi j Haj)) as E. cbv beta in E. by rewrite Haj in E.
  - cbn [focused_win_id set_win set_windows set_gs]. destruct (ki_focus k Hi) as [->|[Hf Hn]]; [by left|right].
    split; [done|]. rewrite win_set. destruct (Z.eqb_spec (focused_win_id k) i) as [E|]; [|done].
    rewrite E in Hn. apply normal_iff in Hn as [? _]. congruence.
Qed.

(** ** The other operations *)

(** Changing position or title of a window that is not the desktop. *)
Lemma upd_inv k i f :
  kwm_inv k -> shape_eq (win k i) (f (win k i)) -> kwm_inv (upd_win k i f).
Proof.
  intros Hi Hf. apply (inv_shape k); try done; [|apply Hi|apply Hi].
  intros j. rewrite win_upd. destruct (Z.eqb_spec j i) as [->|]; [done|apply shape_refl].
Qed.

Lemma set_title_inv k tid i t : kwm_inv k -> kwm_inv (kwm_set_title k tid i t).1.
Proof.
  intros Hi. unfold kwm_set_title. destruct t as [t|]; [|done].
  destruct (_ || _); [done|]. destruct (_ || _); [done|]. cbn [fst].
  apply frame_dirty_inv, upd_inv; [done|]. unfold shape_eq. by splits.
Qed.

(** Raising a window and giving it the focus. *)
Lemma raise_focus_inv k i k' :
  kwm_inv k -> 0 <= i < MAX_WINDOWS -> normal (win k i) = true ->
  restack (kwm_raise k i) k' -> kwm_inv (set_focus k' i).
Proof.
  intros Hi Hr Hn Hk. pose proof (proj1 (normal_iff _) Hn) as [_ Hd].
  assert (restack k k') as Hs by (eapply restack_trans; [by apply raise_restack|done]).
  apply focus_inv; [by eapply restack_inv|]. right. split; [done|].
  by rewrite (shape_normal _ _ (proj2 Hs i)).
Qed.

Lemma activate_inv k i : kwm_inv k -> kwm_inv (kwm_activate_window k i).1.
Proof.
  intros Hi. unfold kwm_activate_window.
  destruct (Z.ltb_spec i 0), (Z.leb_spec MAX_WINDOWS i); cbn [orb]; try done.
  destruct (active (win k i)) eqn:Ha, (is_desktop (win k i)) eqn:Hd; cbn [negb orb]; try done. cbn [fst].
  assert (kwm_inv (set_focus (maybe_normalize (maybe_normalize (kwm_raise k i))) i)) as Hn.
  { apply (raise_focus_inv k); [done|done|by apply normal_iff|].
    eapply restack_trans; apply maybe_normalize_restack. }
  destruct (_ && _); auto.
Qed.

Lemma update_inv k tid i app : kwm_inv k -> kwm_inv (kwm_update_window k tid i app).
Proof.
  intros Hi. unfold kwm_update_window. destruct (_ || _); [done|]. destruct app as [app|]; [|done].
  destruct (_ || _); [done|]. destruct (negb _); [done|]. apply mark_inv.
  apply (inv_shape k); try done; apply Hi.
Qed.

Lemma slot_ok_free k i f : slot_ok k f -> f <> i -> slot_ok (kwm_free_slot k i) f.
Proof.
  intros [->|[Hf Hn]] Hne; [by left|right]. split; [done|].
  by rewrite free_slot_win, (proj2 (Z.eqb_neq _ _) Hne).
Qed.

Lemma canvas_nonnull k i : pre_inv k -> active (win k i) = true -> canvas (win k i) <> 0.
Proof.
  intros Hp Ha E. pose proof (c_live _ _ _ _ (ki_canvas _ Hp i Ha)) as HL.
  change (win (set_focus k (-1)) i) with (win k i) in HL. rewrite E in HL.
  by apply (ka_nonnull (gheap (gs k))).
Qed.

Lemma destroy_inv k i : kwm_inv k -> kwm_inv (kwm_destroy_window k i).
Proof.
  intros Hi. unfold kwm_destroy_window. destruct (_ || _); [done|].
  destruct (active (win k i)) eqn:Ha; cbn [negb]; [|done].
  pose proof (inv_pre k Hi) as Hp. pose proof (free_slot_pre k i Hp Ha) as Hp'.
  destruct (free_slot_fields k i (canvas_nonnull k i Hp Ha)) as (_ & _ & _ & Ef & _).
  destruct (Z.eqb_spec (focused_win_id k) i) as [E|E]; cbn [andb].
  - assert (kwm_inv (kwm_refocus_locked (kwm_free_slot k i))) by by apply refocus_inv.
    destruct (0 <=? _); unfold frame_dirty_area; auto.
  - unfold frame_dirty_area. apply mark_inv, pre_self; [done|]. rewrite Ef.
    apply slot_ok_free; [apply Hi|done].
Qed.

(** What the loop over a task's windows leaves: [n] slots have been visited. *)
Lemma destroy_owned_spec k t :
  kwm_inv k ->
  exists k' fd, destroy_owned k t = (k', fd) /\ pre_inv k' /\ focused_win_id k' = focused_win_id k /\
    (fd = false -> slot_ok k' (focused_win_id k')) /\
    fd = active (win k (focused_win_id k)) && (owner_task (win k (focused_win_id k)) =? t) /\
    (forall i, win k' i = if active (win k i) && (owner_task (win k i) =? t) then cleared (win k i) else win k i).
Proof.
  intros Hi.
  set (gone n i := active (win k i) && (owner_task (win k i) =? t) && (i <? n)).
  assert (exists k' fd, destroy_owned k t = (k', fd) /\ pre_inv k' /\ focused_win_id k' = focused_win_id k /\
    (fd = false -> slot_ok k' (focused_win_id k')) /\ fd = gone MAX_WINDOWS (focused_win_id k) /\
    (forall i, win k' i = if gone MAX_WINDOWS i then cleared (win k i) else win k i))
    as (k' & fd & E1 & E2 & E3 & E4 & E6 & E5).
  2:{ assert (forall i, gone MAX_WINDOWS i = active (win k i) && (owner_task (win k i) =? t)) as Hg.
      { intros i. unfold gone. destruct (active (win k i)) eqn:Ha; [|done]. pose proof (ki_out k Hi i Ha).
        rewrite (proj2 (Z.ltb_lt i MAX_WINDOWS)) by lia. by rewrite andb_true_r. }
      exists k', fd. splits; [by rewrite E6, Hg|]. intros i. by rewrite E5, Hg. }
  unfold destroy_owned.
  apply (for_loop_inv (fun n (r : kwm * bool) => exists k' fd, r = (k', fd) /\ pre_inv k' /\
    focused_win_id k' = focused_win_id k /\ (fd = false -> slot_ok k' (focused_win_id k')) /\
    fd = gone n (focused_win_id k) /\
    (forall i, win k' i = if gone n i then cleared (win k i) else win k i))); [done| |].
  { assert (forall i, gone 0 i = false) as Hg.
    { intros i. unfold gone. destruct (Z.ltb_spec i 0); [|by rewrite andb_false_r].
      destruct (active (win k i)) eqn:Ha; [|done]. pose proof (ki_out k Hi i Ha). lia. }
    exists k, false. splits; [by apply inv_pre|intros _; apply Hi|]. intros i. by rewrite Hg. }
  intros n r Hn (k' & fd & -> & Hp & Ef & Hfd & Efd & Hw).
  assert (gone n n = false) as Hg by (unfold gone; by rewrite Z.ltb_irrefl, andb_false_r).
  pose proof (Hw n) as Hwn. rewrite Hg in Hwn. rewrite Hwn.
  assert (forall i, i <> n -> gone (n + 1) i = gone n i) as Hother.
  { intros i Hne. unfold gone. f_equal. zcase; zcase; lia || done. }
  destruct (active (win k n) && (owner_task (win k n) =? t)) eqn:Eown.
  - assert (active (win k' n) = true) as Ha by (rewrite Hwn; by apply andb_true_iff in Eown as [? _]).
    destruct (free_slot_fields k' n (canvas_nonnull k' n Hp Ha)) as (_ & _ & _ & Ef' & _).
    eexists _, _. split; [done|]. split; [by apply free_slot_pre|]. split; [congruence|]. split; [|split].
    + intros [Hfd' Hne]%orb_false_iff. zprop. rewrite Ef'. apply slot_ok_free; [by apply Hfd|done].
    + rewrite Efd, Ef. destruct (Z.eqb_spec (focused_win_id k) n) as [->|Hne].
      * rewrite orb_true_r. unfold gone. rewrite Eown. by rewrite (proj2 (Z.ltb_lt _ _)) by lia.
      * by rewrite orb_false_r, Hother.
    + intros i. rewrite free_slot_win. destruct (Z.eqb_spec i n) as [->|Hne].
      * unfold gone. rewrite Eown, Hwn. by rewrite (proj2 (Z.ltb_lt _ _)) by lia.
      * by rewrite Hw, Hother.
  - assert (gone (n + 1) n = false) as Hg' by (unfold gone; by rewrite Eown).
    exists k', fd. splits.
    + rewrite Efd. destruct (Z.eq_dec (focused_win_id k) n) as [->|Hne]; [by rewrite Hg, Hg'|by rewrite Hother].
    + intros i. rewrite Hw. destruct (Z.eq_dec i n) as [->|Hne]; [by rewrite Hg, Hg'|by rewrite Hother].
Qed.

Lemma destroy_windows_of_inv k t : kwm_inv k -> kwm_inv (kwm_destroy_windows_of k t).
Proof.
  intros Hi. unfold kwm_destroy_windows_of.
  destruct (destroy_owned_spec k t Hi) as (k' & fd & -> & Hp & _ & Hf & _ & _). apply mark_inv.
  destruct fd; [by apply refocus_inv|]. apply pre_self; [done|by apply Hf].
Qed.

Lemma destroy_all_inv k : kwm_inv k -> kwm_inv (kwm_destroy_all_windows k).
Proof.
  intros Hi. unfold kwm_destroy_all_windows. apply mark_inv.
  change (pre_inv (for_loop 0 MAX_WINDOWS (fun i k => if active (win k i) then kwm_free_slot k i else k) k)).
  apply for_loop_pres; [by apply inv_pre|]. intros i k' _ Hp.
  destruct (active (win k' i)) eqn:Ha; [by apply free_slot_pre|done].
Qed.

Lemma slot_range k i : slot_ok k i -> (0 <=? i) = true -> 0 <= i < MAX_WINDOWS /\ normal (win k i) = true.
Proof. intros [->|?] Hi; zprop; [lia|done]. Qed.

Lemma press_inv k px py k' t o sd : kwm_inv k -> press k px py = (k', t, o, sd) -> kwm_inv k'.
Proof.
  intros Hi. unfold press. pose proof (hit_test_active k px py) as Ht. cbv zeta in Ht.
  set (h := kwm_hit_test_locked k px py) in *. clearbody h.
  destruct ((0 <=? h) && is_desktop (win k h)) eqn:Ed; [by intros [= <- <- <- <-]|].
  destruct Ht as [->|[Hr Ha]].
  { rewrite Z.eqb_refl. intros [= <- <- <- <-]. by apply focus_inv. }
  rewrite (proj2 (Z.leb_le 0 h)) in Ed by lia. cbn [andb] in Ed.
  assert (slot_ok k h) as Hs by (right; split; [done|by apply normal_iff]).
  rewrite (proj2 (Z.eqb_neq _ _)) by lia. unfold kwm_bring_to_front.
  rewrite (proj2 (Z.ltb_ge h 0)), (proj2 (Z.leb_gt MAX_WINDOWS h)) by lia. cbn [orb].
  assert (restack (set_focus k h) (kwm_raise (set_focus k h) h)) as Hrs by by apply raise_restack.
  assert (kwm_inv (kwm_raise (set_focus k h) h)) as Hi' by (eapply restack_inv; [done|by apply focus_inv]).
  set (k1 := kwm_raise _ _) in *.
  assert (slot_ok k1 h) as Hs'.
  { right. split; [done|]. rewrite (shape_normal _ _ (proj2 Hrs h)). by apply normal_iff. }
  clearbody k1. destruct (_ && _); [destruct (_ <=? _)|]; intros [= <- <- <- <-]; try done.
  by apply drag_inv.
Qed.

Lemma mouse_drag_inv k px py : kwm_inv k -> kwm_inv (mouse_drag k px py).1.
Proof.
  intros Hi. unfold mouse_drag. destruct (_ && _ && _) eqn:Ed; [|done].
  cbn [fst]. unfold drag_move, frame_dirty_area. do 2 apply mark_inv. apply upd_inv; [done|].
  apply andb_true_iff in Ed as [[Ed _]%andb_true_iff _].
  destruct (slot_range k _ (ki_drag k Hi) Ed) as [_ [_ Hnd]%normal_iff].
  unfold shape_eq. splits. congruence.
Qed.

Lemma press_notify_inv k old t o sd : kwm_inv k -> kwm_inv (press_notify k old t o sd).1.
Proof.
  intros Hi. unfold press_notify. destruct (0 <=? o); cbn [fst].
  - apply (same_inv k); [by splits|done|apply Hi|apply Hi].
  - destruct (0 <=? t), (negb _ && _); auto.
Qed.

Lemma process_mouse_inv k px py ld lu : kwm_inv k -> kwm_inv (kwm_process_mouse k px py ld lu).1.
Proof.
  intros Hi. unfold kwm_process_mouse. destruct lu; [by apply drag_inv|].
  pose proof (mouse_drag_inv k px py Hi) as Hd. destruct (mouse_drag k px py) as [k1 [|]]; [done|].
  destruct ld; [|done]. destruct (press k1 px py) as [[[k' t] o] sd] eqn:Ep.
  apply press_notify_inv. by eapply press_inv.
Qed.

(** A candidate of the Alt-Tab scan is a window that can take the focus. *)
Lemma cycle_scan_ok k z nz t lz lw : cycle_scan k z = (nz, t, lz, lw) -> slot_ok k t /\ slot_ok k lw.
Proof.
  intros E.
  assert (slot_ok k (cycle_scan k z).1.1.2 /\ slot_ok k (cycle_scan k z).2) as Hc; [|by rewrite E in Hc].
  apply (for_loop_pres (fun r : Z * Z * Z * Z => slot_ok k r.1.1.2 /\ slot_ok k r.2)); [by split; left|].
  intros i [[[nz' t'] lz'] lw'] Hr [Ht Hl]. cbn [fst snd] in *.
  destruct (normal (win k i)) eqn:En; [|done].
  assert (slot_ok k i) by (right; done).
  destruct (_ <? lz'), (_ && _ && _); done.
Qed.

Lemma topmost_ok k : slot_ok k (topmost k).
Proof.
  rewrite topmost_scan.
  destruct (wscan_spec (fun i => normal (win k i)) (fun i => i32 (z_index (win k i))) (-1) MAX_WINDOWS)
    as (hi & b & -> & [(-> & _)|(Hb & Hn & _)]); [done|by left|by right].
Qed.

Lemma cycle_inv k : kwm_inv k -> kwm_inv (kwm_cycle_focus_locked k).
Proof.
  intros Hi. unfold kwm_cycle_focus_locked. cbv zeta.
  match goal with |- context [cycle_scan k ?x] => set (cz := x) end.
  destruct (cycle_scan k cz) as [[[nz t] lz] lw] eqn:Ec. destruct (cycle_scan_ok _ _ _ _ _ _ Ec) as [Ht Hl].
  match goal with |- context [if 0 <=? ?x then _ else _] => set (tg := x) end.
  assert (slot_ok k tg) as Hs.
  { unfold tg. destruct (_ <? 0); [apply topmost_ok|]. by destruct (_ <? 0). }
  clearbody tg. destruct (0 <=? tg) eqn:E0; [|by apply focus_inv].
  destruct (slot_range k tg Hs E0) as [Hr Hn].
  apply (raise_focus_inv k); [done..|]. apply maybe_normalize_restack.
Qed.

Lemma shortcut_inv k mods rel key : kwm_inv k -> kwm_inv (kwm_handle_shortcut k mods rel key).1.
Proof.
  intros Hi. unfold kwm_handle_shortcut. cbv zeta.
  assert (forall k' b, kwm_inv k' -> kwm_inv (set_alt_tab k' b)) as Hat.
  { intros k' b Hk. apply (same_inv k'); [by splits|done|apply Hk|apply Hk]. }
  destruct (_ && _); [by apply Hat|]. destruct (_ && _); [|done].
  destruct rel; cbn [negb fst]; [done|]. apply Hat.
  pose proof (cycle_inv k Hi). repeat case_match; auto.
Qed.

(** ** Every sequence of calls *)

(** One call of the window manager's interface, by any task or interrupt; of
    [kwm_process_mouse], which drops the lock in between, also each of its parts. *)
Inductive kstep : kwm -> kwm -> Prop :=
  | s_create k tid px py w h : 0 <= w < 2 ^ 32 -> 0 <= h < 2 ^ 32 ->
      kstep k (kwm_create_window k tid px py w h).1
  | s_desktop k tid : kstep k (kwm_create_desktop k tid).1
  | s_title k tid i t : kstep k (kwm_set_title k tid i t).1
  | s_activate k i : kstep k (kwm_activate_window k i).1
  | s_update k tid i app : kstep k (kwm_update_window k tid i app)
  | s_destroy k i : kstep k (kwm_destroy_window k i)
  | s_destroy_of k t : kstep k (kwm_destroy_windows_of k t)
  | s_destroy_all k : kstep k (kwm_destroy_all_windows k)
  | s_mouse k px py down up : kstep k (kwm_process_mouse k px py down up).1
  | s_mouse_drag k px py : kstep k (mouse_drag k px py).1
  | s_mouse_press k px py k' t owner drag : press k px py = (k', t, owner, drag) -> kstep k k'
  | s_mouse_notify k old t owner drag : kstep k (press_notify k old t owner drag).1
  | s_shortcut k mods rel key : kstep k (kwm_handle_shortcut k mods rel key).1.

(** The state the kernel boots with. *)
Definition boot k : Prop :=
  kwm_windows k = ∅ /\ focused_win_id k = -1 /\ dragged_win_id k = -1 /\
  0 <= fb_width k < 2 ^ 32 /\ 0 <= fb_height k < 2 ^ 32.

Lemma boot_inv k : boot k -> kwm_inv k.
Proof.
  intros (Ew & Ef & Ed & Hw & Hh).
  assert (forall i, win k i = no_win) as E by (intros i; unfold win; by rewrite Ew, lookup_empty).
  split; try (intros i; rewrite E; done); try (intros i j; rewrite E; done);
    try (rewrite ?Ef, ?Ed; by left); done.
Qed.

Lemma kstep_inv k k' : kstep k k' -> kwm_inv k -> kwm_inv k'.
Proof.
  destruct 1; intros Hi.
  - by apply create_window_inv; [|lia..].
  - by apply create_desktop_inv.
  - by apply set_title_inv.
  - by apply activate_inv.
  - by apply update_inv.
  - by apply destroy_inv.
  - by apply destroy_windows_of_inv.
  - by apply destroy_all_inv.
  - by apply process_mouse_inv.
  - by apply mouse_drag_inv.
  - by eapply press_inv.
  - by apply press_notify_inv.
  - by apply shortcut_inv.
Qed.

(** C16. In every state reached from boot by any sequence of window-manager calls,
    by any tasks and interrupts: the focused and the dragged window, if any, are
    active and not the desktop; there is at most one desktop, full-screen and
    at the bottom; every active window has a canvas that is a live display
    buffer of its size with a pixel block large enough, and no two windows
    share a heap block; free slots keep no canvas. *)
Theorem kwm_reachable_inv k0 k : boot k0 -> rtc kstep k0 k -> kwm_inv k.
Proof.
  intros Hb Hr. apply boot_inv in Hb. induction Hr as [|k1 k2 k3 Hs _ IH]; [done|].
  apply IH. by eapply kstep_inv.
Qed.

(** ** Ending a task *)

(** [kwm_destroy_windows_of] ends a task's windows and no others: the slots of
    its windows are emptied, every other window is as before, none of the
    remaining windows belongs to the task, the invariant holds (so no other
    canvas was freed), and the focus moves only when the focused window went,
    then to the highest remaining window. *)
Theorem kwm_destroy_windows_of_exact k t :
  kwm_inv k ->
  let k' := kwm_destroy_windows_of k t in
  kwm_inv k' /\
  (forall i, win k' i = if active (win k i) && (owner_task (win k i) =? t) then cleared (win k i) else win k i) /\
  (forall i, active (win k' i) = true -> owner_task (win k' i) <> t) /\
  (active (win k (focused_win_id k)) && (owner_task (win k (focused_win_id k)) =? t) = false ->
     focused_win_id k' = focused_win_id k) /\
  (active (win k (focused_win_id k)) && (owner_task (win k (focused_win_id k)) =? t) = true ->
     forall i, 0 <= i < MAX_WINDOWS -> normal (win k' i) = true -> 0 < z_index (win k' i) ->
       0 <= focused_win_id k' /\ z_index (win k' i) <= z_index (win k' (focused_win_id k'))).
Proof.
  intros Hi k'. split; [by apply destroy_windows_of_inv|]. unfold k', kwm_destroy_windows_of.
  destruct (destroy_owned_spec k t Hi) as (k1 & fd & -> & _ & Ef & _ & Efd & Hw).
  assert (forall i, win (screen_mark_dirty (if fd then kwm_refocus_locked k1 else k1) 0 0
     (fb_width (if fd then kwm_refocus_locked k1 else k1)) (fb_height (if fd then kwm_refocus_locked k1 else k1))) i
     = win k1 i) as E by (by destruct fd).
  split; [intros i; rewrite E; apply Hw|]. split.
  { intros i. rewrite E, Hw. destruct (active (win k i)) eqn:Ha; cbn [andb]; [|congruence].
    destruct (Z.eqb_spec (owner_task (win k i)) t); [done|]. by intros _. }
  rewrite <- Efd. split; intros ->; [exact Ef|].
  intros i Hr Hn Hz. rewrite E in Hn, Hz. rewrite !E.
  change (focused_win_id (screen_mark_dirty ?a _ _ _ _)) with (focused_win_id a).
  rewrite refocus_scan. cbn [focused_win_id set_focus].
  destruct (wscan_spec (fun i => normal (win k1 i)) (fun i => z_index (win k1 i)) 0 MAX_WINDOWS)
    as (hi & b & -> & [(-> & _ & Hs)|(Hb & _ & -> & _ & Hs & _)]); [done| |]; cbn [snd].
  - specialize (Hs i Hr Hn). lia.
  - split; [lia|]. by apply Hs.
Qed.

(** ** Writing a canvas *)

Lemma canvas_area k i :
  kwm_inv k -> fb_width k * fb_height k < 2 ^ 32 -> active (win k i) = true ->
  0 <= wwidth (win k i) * wheight (win k i) < 2 ^ 32.
Proof.
  intros Hi Hfb Ha. destruct (is_desktop (win k i)) eqn:Ed.
  - destruct (ki_desktop k Hi i Ha Ed) as (_ & _ & _ & -> & ->). pose proof (ki_fb k Hi). nia.
  - destruct (ki_dims k Hi i) as (Hw & Hh & Hs); [by apply normal_iff|].
    unfold KWM_MAX_CANVAS_BYTES, KWM_MAX_DIMENSION in *. nia.
Qed.

(** Only the owner writes a window's canvas, and only its canvas: a call by
    another task, or on a slot without window, changes nothing; a call by the
    owner stores the [width * height] pixels of the caller's buffer (exactly the
    range [kwm_window_canvas_bytes] announces) in the canvas, inside its live
    pixel block, and no other pixel of the system changes. *)
Theorem kwm_update_window_confined k tid i app :
  kwm_inv k -> fb_width k * fb_height k < 2 ^ 32 ->
  let k' := kwm_update_window k tid i (Some app) in
  let w := win k i in
  let b := db_at (gs k) (canvas w) in
  let n := wwidth w * wheight w in
  (active w = false \/ owner_task w <> tid -> k' = k) /\
  (active w = true -> owner_task w = tid ->
     kwm_windows k' = kwm_windows k /\
     (forall c, ld (pix (gs k')) c
        = if (cell b 0 <=? c) && (c <? cell b n) then app (c - cell b 0) else ld (pix (gs k)) c) /\
     kwm_window_canvas_bytes k i = 4 * n /\
     ka_live (gheap (gs k)) (pixels b) /\ 4 * n <= ka_size (gheap (gs k)) (pixels b)).
Proof.
  intros Hi Hfb k' w b n. split.
  - intros Hno. unfold k', kwm_update_window. fold w.
    destruct (_ || _); [done|]. destruct (active w) eqn:Ha; cbn [negb orb]; [|done].
    destruct (canvas w =? 0); [done|]. destruct Hno as [?|Hne]; [done|].
    by rewrite (proj2 (Z.eqb_neq _ _) Hne).
  - intros Ha Ho. pose proof (ki_out k Hi i Ha) as Hr. pose proof (canvas_area k i Hi Hfb Ha) as Hn. fold w in Hn.
    destruct (ki_canvas k Hi i Ha) as [_ _ HL _ HS].
    pose proof (canvas_nonnull k i (inv_pre k Hi) Ha) as Hc. fold w in Hc.
    assert ((i <? 0) || (MAX_WINDOWS <=? i) = false) as Er.
    { rewrite (proj2 (Z.ltb_ge i 0)), (proj2 (Z.leb_gt MAX_WINDOWS i)) by lia. done. }
    assert (kwm_window_canvas_bytes k i = 4 * n) as Hcb.
    { unfold kwm_window_canvas_bytes. rewrite Er. fold w. rewrite Ha. fold n.
      rewrite wrap_small by (unfold n; lia). lia. }
    unfold k', kwm_update_window. rewrite Er. fold w. rewrite Ha, (proj2 (Z.eqb_neq _ _) Hc). cbn [negb orb].
    rewrite (proj2 (Z.eqb_eq _ _) Ho). cbn [negb]. fold b n. rewrite (wrap_small 32 n) by done.
    split; [done|]. split; [|by split].
    cbn [gs set_gs screen_mark_dirty pix set_pix].
    apply (for_loop_inv (fun j m => forall c, ld m c
      = if (cell b 0 <=? c) && (c <? cell b j) then app (c - cell b 0) else ld (pix (gs k)) c)); [unfold n in *; lia| |].
    + intros c. zcase; zcase; cbn [andb]; try done. unfold cell in *. lia.
    + intros j m Hj IH c. rewrite ld_st, IH. unfold cell in *.
      destruct (Z.eqb_spec (pixels b / 4 + j) c) as [<-|]; zcase; zcase; try zcase; cbn [andb]; try lia; try done.
      f_equal. lia.
Qed.
End ops.

(** ** Witnesses *)

(** A heap as the map of its live blocks to their sizes. *)
Abbreviation demo_heap := (gmap Z Z).
Definition demo_fresh (m : demo_heap) : Z := fresh ({[0]} ∪ dom m : gset Z).

#[global] Instance demo_alloc : KAlloc demo_heap := {
  ka_kmalloc n m := (<[demo_fresh m := n]> m, demo_fresh m);
  ka_kfree q m := delete q m;
}.

Lemma demo_fresh_ok (m : demo_heap) : demo_fresh m <> 0 /\ m !! demo_fresh m = None.
Proof.
  pose proof (is_fresh ({[0]} ∪ dom m : gset Z)) as Hf. fold (demo_fresh m) in Hf.
  split; [set_solver|]. apply not_elem_of_dom. set_solver.
Qed.

#[global] Instance demo_alloc_ok : KAllocOk demo_heap.
Proof.
  refine {| ka_live (m : demo_heap) p := p <> 0 /\ is_Some (m !! p); ka_size (m : demo_heap) p := default 0 (m !! p) |}.
  - intros h [? _]. done.
  - intros n h Hp [_ [v Hv]]. unfold ka_kmalloc, demo_alloc in Hv; cbn [fst snd] in Hv. destruct (demo_fresh_ok h) as [_ E]. congruence.
  - intros n h p. unfold ka_kmalloc, ka_kfree, demo_alloc; cbn [fst snd]. destruct (demo_fresh_ok h) as [Hne E]. destruct (Z.eq_dec p (demo_fresh h)) as [->|].
    + rewrite lookup_insert_eq. split; [tauto|]. intros _. split; [done|]. by eexists.
    + rewrite lookup_insert_ne by done. tauto.
  - intros n h _. unfold ka_kmalloc, ka_kfree, demo_alloc; cbn [fst snd]. by rewrite lookup_insert_eq.
  - intros n h p [_ [v Hv]]. unfold ka_kmalloc, ka_kfree, demo_alloc; cbn [fst snd]. destruct (demo_fresh_ok h) as [_ E].
    rewrite lookup_insert_ne by congruence. done.
  - intros q h p. unfold ka_kmalloc, ka_kfree, demo_alloc; cbn [fst snd]. destruct (Z.eq_dec p q) as [->|].
    + rewrite lookup_delete_eq. split; [intros [_ [? ?]]; done|tauto].
    + rewrite lookup_delete_ne by done. tauto.
  - intros q h p Hne. unfold ka_kmalloc, ka_kfree, demo_alloc; cbn [fst snd]. by rewrite lookup_delete_ne.
Defined.

(** An empty desktop of 640 by 480 pixels. *)
Definition kwm0 : kwm (H := demo_heap) :=
  mk_kwm ∅ 1 (-1) 0 0 (-1) false (mk_gfx ∅ ∅ ∅ ∅) 640 480 dirty0 ∅.

(** Two windows of task 3 and one of task 4; the first was clicked. *)
Definition kwm1 : kwm (H := demo_heap) := (kwm_create_window kwm0 3 10 10 20 20).1.
Definition kwm2 : kwm (H := demo_heap) := (kwm_create_window kwm1 3 15 15 20 20).1.
Definition kwm3 : kwm (H := demo_heap) := (kwm_create_window kwm2 4 100 100 8 4).1.
Definition kwm4 : kwm (H := demo_heap) := (kwm_process_mouse kwm3 12 12 true false).1.

Lemma kwm0_boot : boot kwm0.
Proof. unfold boot. splits. Qed.

Lemma kwm4_reach : rtc kstep kwm0 kwm4.
Proof.
  apply rtc_l with kwm1; [apply s_create; lia|]. apply rtc_l with kwm2; [apply s_create; lia|].
  apply rtc_l with kwm3; [apply s_create; lia|]. apply rtc_once. apply s_mouse.
Qed.

Lemma kwm4_inv : kwm_inv kwm4.
Proof.
  apply (kstep_inv kwm3), (kstep_inv kwm2), (kstep_inv kwm1), (kstep_inv kwm0), boot_inv, kwm0_boot;
    [apply s_mouse|apply s_create; lia..].
Qed.

Lemma kwm_reachable_inv_witness : kwm_inv kwm4.
Proof. exact (kwm_reachable_inv kwm0 kwm4 kwm0_boot kwm4_reach). Defined.

Lemma kwm_destroy_windows_of_exact_witness :
  active (win (kwm_destroy_windows_of kwm4 3) 2) = true /\
  active (win (kwm_destroy_windows_of kwm4 3) 0) = false.
Proof.
  destruct (kwm_destroy_windows_of_exact kwm4 3 kwm4_inv) as (_ & Hw & _).
  rewrite !Hw. split; vm_compute; reflexivity.
Defined.

Lemma kwm_update_window_confined_witness :
  ld (pix (gs (kwm_update_window kwm4 4 2 (Some (fun i => 7 + i)))))
     (cell (db_at (gs kwm4) (canvas (win kwm4 2))) 5) = 12.
Proof.
  destruct (kwm_update_window_confined kwm4 4 2 (fun i => 7 + i) kwm4_inv ltac:(vm_compute; reflexivity))
    as [_ H].
  destruct (H ltac:(vm_compute; reflexivity) ltac:(vm_compute; reflexivity)) as (_ & Hp & _).
  rewrite Hp. vm_compute. reflexivity.
Defined.

(** The cursor over both windows of task 3: the clicked one gets the event. *)
Lemma kwm_route_mouse_topmost_witness :
  exists lx ly, kwm_route_mouse kwm4 20 20 = (3, 1, Some (lx, ly)).
Proof.
  destruct (kwm_route_mouse_topmost kwm4 20 20) as [[_ Hno]|(t & lx & ly & _ & _ & _ & E & _)].
  - intros i Hi Ha. assert (i = 0 \/ i = 1 \/ i = 2 \/ 3 <= i) as [->|[->|[->|Hge]]] by lia.
    1-3: unfold geom_ok; vm_compute; repeat split; congruence.
    exfalso. assert (forallb (fun i => negb (active (win kwm4 i))) (zrange 3 16) = true) as Hf
      by (vm_compute; reflexivity).
    rewrite forallb_forall in Hf. specialize (Hf i).
    rewrite Ha in Hf. discriminate Hf. apply list_elem_of_In, elem_of_zrange. unfold MAX_WINDOWS in Hi. lia.
  - lia.
  - lia.
  - exfalso. apply (Hno 0); [unfold MAX_WINDOWS; lia|vm_compute; reflexivity|].
    unfold in_frame. vm_compute. repeat split; congruence.
  - exists lx, ly. rewrite E.
    assert ((kwm_route_mouse kwm4 20 20).1 = (3, 1)) as E1 by (vm_compute; reflexivity).
    rewrite E in E1. cbn [fst] in E1. rewrite E1. reflexivity.
Defined.
End KwmThm.
