(* ===== verification/Uheap.v ===== *)
(** * User heap (src/kernel/uheap.c, src/include/uheap.h)

    Page-granular regions in the user half of the calling task's address space.
    [ut] is the part of [task_t] the file uses; the list of regions is the
    linked list, newest first, each with the address of its node in the kernel
    heap ([KAlloc]).  The page tables and the frame allocator are those of
    [Paging]; [udata] holds the bytes of the data frames by physical address
    (the source reaches them through the HHDM, or through the user address under
    the caller's CR3). *)

From S2P Require Import Prelude Pmm Paging PagingSpec PagingOps KString Display.
From stdpp Require Import base numbers list gmap.
From Stdlib Require Import ZArith Lia.

#[local] Open Scope Z_scope.

Module Uheap.
Import Pmm Paging PagingSpec PagingOps.

Definition UHEAP_BASE : Z := 0x10000000.
Definition UHEAP_END : Z := 0x40000000.
Definition UHEAP_MAX_ALLOC : Z := 64 * 1024 * 1024.
(** [sizeof(uheap_region_t)] *)
Definition SIZEOF_REGION : Z := 32.

Record uheap_region_t := mk_region { node_ptr : Z; base : Z; rsize : Z; pages : Z }.

Record ut := mk_ut { upml4 : Z; uheap_brk : Z; uheap_regions : list uheap_region_t }.

Section uheap.
Context {A : Type} `{FrameAllocator A} {K : Type} `{KAlloc K}.

Record us := mk_us { uv : vm A; udata : gmap Z Z; unodes : K }.

Definition set_uv (s : us) (v : vm A) : us := mk_us v s.(udata) s.(unodes).
Definition set_udata (s : us) (m : gmap Z Z) : us := mk_us s.(uv) m s.(unodes).
Definition set_unodes (s : us) (k : K) : us := mk_us s.(uv) s.(udata) k.

(** ** Operations *)

Definition unmap_one (s : us) (as_ va : Z) : us :=
  let '(v, pa) := vmm_unmap_page_from s.(uv) va as_ in
  set_uv s (if negb (pa =? PHYS_NULL) && fa_owns v.(frames) pa
            then set_frames v (fa_free v.(frames) pa) else v).

Definition uheap_unmap_range (s : us) (as_ b n : Z) : us :=
  for_loop 0 n (fun i s => unmap_one s as_ (b + i * 4096)) s.

(** One turn of the loop of [uheap_alloc]. *)
Definition map_one (s : us) (as_ va : Z) : us * bool :=
  let (f, pa) := fa_alloc s.(uv).(frames) in
  let v := set_frames s.(uv) f in
  if pa =? PHYS_NULL then (set_uv s v, false)
  else
    let (v, ok) := vmm_map_page_into v va pa 7 as_ in
    if negb ok then (set_uv s (set_frames v (fa_free v.(frames) pa)), false)
    else (set_udata (set_uv s v) (KString.memset s.(udata) pa 0 4096), true).

(** The loop, with [n] pages left and [i] mapped: on failure the mapped pages
    are given back. *)
Fixpoint map_region_pages (n : nat) (s : us) (as_ brk i : Z) : us * bool :=
  match n with
  | O => (s, true)
  | S n =>
      let '(s, ok) := map_one s as_ (brk + i * 4096) in
      if ok then map_region_pages n s as_ brk (i + 1) else (uheap_unmap_range s as_ brk i, false)
  end.

Definition brk_of (t : ut) : Z := if t.(uheap_brk) =? 0 then UHEAP_BASE else t.(uheap_brk).

Definition uheap_alloc (s : us) (t : ut) (size : Z) : us * ut * Z :=
  if t.(upml4) =? PHYS_NULL then (s, t, 0)
  else if (size =? 0) || (UHEAP_MAX_ALLOC <? size) then (s, t, 0)
  else
    let brk := brk_of t in
    let n := (size + 4095) / 4096 in
    if UHEAP_END <? u64 (brk + n * 4096 + 4096) then (s, t, 0)
    else
      let '(k, nd) := ka_kmalloc SIZEOF_REGION s.(unodes) in
      let s := set_unodes s k in
      if nd =? 0 then (s, t, 0)
      else
        let '(s, ok) := map_region_pages (Z.to_nat n) s t.(upml4) brk 0 in
        if negb ok then (set_unodes s (ka_kfree nd s.(unodes)), t, 0)
        else (s, mk_ut t.(upml4) (brk + n * 4096 + 4096) (mk_region nd brk size n :: t.(uheap_regions)), brk).

(** The search along the list: the first region with this base, and the rest. *)
Fixpoint take_region (l : list uheap_region_t) (a : Z) : option (uheap_region_t * list uheap_region_t) :=
  match l with
  | [] => None
  | n :: l =>
      if n.(base) =? a then Some (n, l)
      else match take_region l a with Some (m, l') => Some (m, n :: l') | None => None end
  end.

Definition uheap_free (s : us) (t : ut) (a : Z) : us * ut * Z :=
  if a =? 0 then (s, t, 0)
  else
    match take_region t.(uheap_regions) a with
    | None => (s, t, 0)
    | Some (n, rest) =>
        let s := uheap_unmap_range s t.(upml4) n.(base) n.(pages) in
        (set_unodes s (ka_kfree n.(node_ptr) s.(unodes)), mk_ut t.(upml4) t.(uheap_brk) rest, 1)
    end.

(** The physical address behind a user address. *)
Definition phys_of (v : vm A) (as_ va : Z) : Z :=
  match walk v.(mem) (select_pml4 v as_) va with
  | Leaf c => frame_of (ld v.(mem) c) + va mod 4096
  | _ => 0
  end.

(** [memcpy] between two user ranges under the caller's CR3. *)
Definition user_memcpy (s : us) (as_ dst src n : Z) : us :=
  set_udata s (for_loop 0 n (fun i m =>
    st m (phys_of s.(uv) as_ (dst + i)) (ld m (phys_of s.(uv) as_ (src + i)))) s.(udata)).

(** [n->size = new_size] on the region with this base. *)
Definition resize_region (l : list uheap_region_t) (a size : Z) : list uheap_region_t :=
  (fix go l := match l with
   | [] => []
   | n :: l => if n.(base) =? a then mk_region n.(node_ptr) n.(base) size n.(pages) :: l else n :: go l
   end) l.

Definition uheap_realloc (s : us) (t : ut) (a new_size : Z) : us * ut * Z :=
  if a =? 0 then uheap_alloc s t new_size
  else if new_size =? 0 then let '(s, t, _) := uheap_free s t a in (s, t, 0)
  else if UHEAP_MAX_ALLOC <? new_size then (s, t, 0)
  else
    match take_region t.(uheap_regions) a with
    | None => (s, t, 0)
    | Some (n, _) =>
        if new_size <=? n.(pages) * 4096
        then (s, mk_ut t.(upml4) t.(uheap_brk) (resize_region t.(uheap_regions) a new_size), n.(base))
        else
          let '(s, t, new_base) := uheap_alloc s t new_size in
          if new_base =? 0 then (s, t, 0)
          else
            let copy := if n.(rsize) <? new_size then n.(rsize) else new_size in
            let s := user_memcpy s t.(upml4) new_base a copy in
            let '(s, t, _) := uheap_free s t a in
            (s, t, new_base)
    end.

Definition uheap_reset (s : us) (t : ut) : us * ut :=
  (set_unodes s (foldl (fun k n => ka_kfree n.(node_ptr) k) s.(unodes) t.(uheap_regions)),
   mk_ut t.(upml4) UHEAP_BASE []).
End uheap.
End Uheap.
