(* ===== verification/UserPages.v ===== *)
(** * Pages of a user address space

    What mapping and unmapping one page, and ranges of pages, do to the set of
    pages of an address space that are mapped to data frames: their frames are
    distinct, a failed mapping loop of the user heap is rolled back, and the
    pages outside the range keep their frame and contents.  The file ends with
    the view of those pages as bytes at user addresses.  The user heap and the
    ELF loader share it. *)

From S2P Require Import Prelude Pmm Paging PagingSpec PagingOps KString Display Uheap.
From stdpp Require Import base numbers list gmap.
From Stdlib Require Import ZArith Lia.

#[local] Open Scope Z_scope.

Module UserPages.
Import Pmm Paging PagingSpec PagingOps Uheap.

Lemma ld_memset m p c n a :
  0 <= n -> ld (KString.memset m p c n) a = if (p <=? a) && (a <? p + n) then u8 c else ld m a.
Proof.
  intros Hn. unfold KString.memset.
  apply (for_loop_inv (fun k m' => ld m' a = if (p <=? a) && (a <? p + k) then u8 c else ld m a)); [done| |].
  - zcases; done.
  - intros i m' Hi IH. rewrite ld_st, IH. zcases; done.
Qed.

#[local] Opaque KString.memset.

Section pages.
Context {A : Type} `{FA : FrameAllocator A} {K : Type} (R : Z -> Prop) (r : Z).
Implicit Types (s : us (A := A) (K := K)) (P : Z -> Prop).

Abbreviation tr s := (translate (mem (uv s))).

(** The page at [va] is backed by the data frame [pa], mapped for ring 3. *)
Record upage s (va pa : Z) : Prop := {
  up_frame : wf_frame pa;
  up_tr : tr s r va = Page (Z.lor (Z.land pa PAGE_MASK) 7);
  up_used : fa_avail (frames (uv s)) pa = false;
  up_data : forall r' p t, node R (mem (uv s)) r' p t -> t <> pa;
}.

(** The address of a page of the user half. *)
Definition user_page (va : Z) : Prop := 0 <= va < 2 ^ 47 /\ va mod 4096 = 0.

(** The pages in [P] are mapped to distinct data frames. *)
Record pages_ok s P : Prop := {
  po_vm : vm_ok R (uv s);
  po_root : R r;
  po_area : forall va, P va -> user_page va;
  po_map : forall va, P va -> exists pa, upage s va pa;
  po_inj : forall va va' pa, P va -> P va' -> upage s va pa -> upage s va' pa -> va = va';
}.

Lemma pages_sub s P Q : pages_ok s P -> (forall va, Q va -> P va) -> pages_ok s Q.
Proof.
  intros [A1 A2 A3 A4 A5] HQ. split; auto. intros va va' pa H1 H2. apply A5; auto.
Qed.

Lemma page_elsewhere va va' : user_page va -> user_page va' -> va <> va' -> elsewhere r va r va'.
Proof using Type.
  clear R.
  unfold user_page. intros [? ?] [? ?] Hne. left. rewrite idxs_page by lia.
  unfold PAGE_SIZE. divlia.
Qed.

(** The entry of a data page determines its frame. *)
Lemma entry_frame pa : wf_frame pa -> frame_of (Z.lor (Z.land pa PAGE_MASK) 7) = pa /\ pa <> 0.
Proof using Type.
  clear R.
  intros [Hpa Ha]. assert (Z.land pa PAGE_MASK = pa) as ->.
  { pose proof (frame_of_lor pa 0 Ha ltac:(lia) ltac:(lia)) as E. by rewrite Z.lor_0_r in E. }
  rewrite frame_of_lor by (done || lia). lia.
Qed.

Lemma upage_fun s va pa pa' : upage s va pa -> upage s va pa' -> pa = pa'.
Proof.
  intros U U'. pose proof (up_tr _ _ _ U) as E. rewrite (up_tr _ _ _ U') in E.
  destruct (entry_frame pa (up_frame _ _ _ U)) as [E1 _], (entry_frame pa' (up_frame _ _ _ U')) as [E2 _].
  injection E as E. by rewrite <- E1, <- E2, E.
Qed.

(** ** One page *)

(** A page of [s] is a page of a state that keeps its translation, its frame and
    adds only tables in frames that were free. *)
Lemma upage_keep s s' x p :
  upage s x p -> tr s' r x = tr s r x ->
  (fa_avail (frames (uv s)) p = false -> fa_avail (frames (uv s')) p = false) ->
  (forall r' q t, node R (mem (uv s')) r' q t ->
     node R (mem (uv s)) r' q t \/ fa_avail (frames (uv s)) t = true) ->
  upage s' x p.
Proof.
  intros [U1 U2 U3 U4] Etr Hav Hnode. split; [done|by rewrite Etr|by apply Hav|].
  intros r' q t Hn. destruct (Hnode r' q t Hn) as [Hn'|Ha]; [by apply (U4 r' q)|congruence].
Qed.

Lemma entry_present pa : present (Z.lor (Z.land pa PAGE_MASK) 7) = true.
Proof using Type. clear R. rewrite present_testbit, Z.lor_spec. by rewrite orb_true_r. Qed.

(** A frame was allocated and mapped at [va], without a change of the contents. *)
Lemma alloc_post_pages s s' P va ok :
  pages_ok s P -> user_page va -> ~ P va -> alloc_map_post R (uv s) (uv s') r va 7 ok ->
  (forall r' va', R r' -> elsewhere r va r' va' -> tr s' r' va' = tr s r' va') /\
  (forall x p, P x -> upage s x p -> upage s' x p) /\
  (ok = true -> pages_ok s' (fun x => P x \/ x = va) /\
     exists pa, upage s' va pa /\ fa_avail (frames (uv s)) pa = true) /\
  (ok = false -> pages_ok s' P /\ forall r' va', R r' -> tr s' r' va' = tr s r' va').
Proof.
  intros HP Hva Hnew Hpost. pose proof HP as [Hv Hr Har Hmap Hinj].
  destruct Hpost as (Hv' & _ & Hav & Hok & Hnode & Hfail).
  assert (forall r' va', R r' -> elsewhere r va r' va' -> tr s' r' va' = tr s r' va') as Hoth.
  { intros r' va' Hr' He. destruct ok; [|by apply Hfail].
    destruct (Hok eq_refl) as (pa' & _ & _ & _ & _ & _ & Ho). by apply Ho. }
  split; [exact Hoth|].
  assert (forall x p, P x -> upage s x p -> upage s' x p) as Hkeep.
  { intros x p Hx U. apply (upage_keep s); [done| |by apply Hav|done].
    apply Hoth; [done|]. apply page_elsewhere; [done|by apply Har|congruence]. }
  split; [exact Hkeep|]. split; intros ->.
  - destruct (Hok eq_refl) as (pa & Hwf & Hav1 & Hav2 & Hnn & Htr & _). rewrite entry_present in Htr.
    assert (upage s' va pa) as Hup by exact (Build_upage _ _ _ Hwf Htr Hav2 Hnn).
    assert (forall x p, P x -> upage s' x p -> upage s x p) as Hback.
    { intros x p Hx U. destruct (Hmap x Hx) as [p' U']. by rewrite (upage_fun s' x p p' U (Hkeep x p' Hx U')). }
    split; [|exists pa; exact (conj Hup Hav1)]. split; [exact Hv'|exact Hr| | |].
    + intros x [Hx| ->]; [by apply Har|exact Hva].
    + intros x [Hx| ->]; [destruct (Hmap x Hx) as [p U]; exists p; by apply Hkeep|exists pa; exact Hup].
    + assert (forall x p, P x -> upage s' x p -> upage s' va p -> False) as Hne.
      { intros x p Hx U U'. apply Hback in U; [|exact Hx]. rewrite (upage_fun s' va p pa U' Hup) in U.
        pose proof (up_used _ _ _ U) as Hu. rewrite Hav1 in Hu. discriminate. }
      intros x x' p [Hx| ->] [Hx'| ->] U U'; [|destruct (Hne x p Hx U U')|destruct (Hne x' p Hx' U' U)|reflexivity].
      apply (Hinj x x' p); auto.
  - split; [|by apply Hfail]. split; [done|done|done| |].
    + intros x Hx. destruct (Hmap x Hx) as [p U]. exists p. by apply Hkeep.
    + intros x x' p Hx Hx' U U'. destruct (Hmap x Hx) as [q V], (Hmap x' Hx') as [q' V'].
      rewrite (upage_fun s' x p q U (Hkeep _ _ Hx V)) in *. rewrite (upage_fun s' x' q q' U' (Hkeep _ _ Hx' V')) in *.
      by apply (Hinj x x' q').
Qed.

(** The frame [map_one] clears is the one it maps. *)
Lemma mapped_frame s va f pa v2 pa' :
  vm_ok R (uv s) -> R r -> fa_alloc (frames (uv s)) = (f, pa) -> pa <> 0 ->
  vmm_map_page_into (set_frames (uv s) f) va pa 7 r = (v2, true) ->
  wf_frame pa' -> translate (mem v2) r va = Page (Z.lor (Z.land pa' PAGE_MASK) 7) -> pa' = pa.
Proof.
  intros Hv Hr Ea Hpa0 Em Hwf Htr.
  destruct (fa_alloc_spec _ _ _ (proj1 Hv) Ea) as [Hfi [[E0 _]|(Hw1 & Hw2 & _ & Hup & _)]]; [by destruct (Hpa0 E0)|].
  assert (vm_ok R (set_frames (uv s) f)) as Hvf.
  { split; [exact Hfi|]. apply (forest_avail R _ _ _ (proj2 Hv)). intros r' q t Hn. cbn [frames set_frames].
    rewrite Hup. destruct (forest_frame (proj2 Hv) r' q t Hn) as [_ ->]. by rewrite andb_false_r. }
  destruct (map_into_spec R _ _ _ _ _ _ _ Hvf Hr Em) as (_ & _ & _ & _ & [Hx _]).
  rewrite entry_present, Htr in Hx. injection Hx as Hx.
  destruct (entry_frame _ Hwf) as [E3 _], (entry_frame pa (conj Hw1 Hw2)) as [E4 _]. by rewrite <- E3, <- E4, Hx.
Qed.

Lemma map_one_spec s P va s' ok :
  pages_ok s P -> user_page va -> ~ P va -> map_one s r va = (s', ok) ->
  (forall r' va', R r' -> elsewhere r va r' va' -> tr s' r' va' = tr s r' va') /\
  unodes s' = unodes s /\
  (forall x p, P x -> upage s x p -> upage s' x p) /\
  (ok = true -> pages_ok s' (fun x => P x \/ x = va) /\
     exists pa, upage s' va pa /\ udata s' = KString.memset (udata s) pa 0 4096) /\
  (ok = false -> pages_ok s' P /\ udata s' = udata s /\ forall r' va', R r' -> tr s' r' va' = tr s r' va').
Proof.
  intros HP Hva Hnew. pose proof (po_vm _ _ HP) as Hv. pose proof (po_root _ _ HP) as Hr. unfold map_one.
  destruct (fa_alloc (frames (uv s))) as [f pa] eqn:Ea.
  destruct (vmm_map_page_into (set_frames (uv s) f) va pa 7 r) as [v2 ok2] eqn:Em.
  set (res := if pa =? PHYS_NULL then (set_frames (uv s) f, false)
              else if negb ok2 then (set_frames v2 (fa_free v2.(frames) pa), false) else (v2, true)).
  intros E. assert (uv s' = res.1 /\ ok = res.2 /\ unodes s' = unodes s /\
    udata s' = (if ok then KString.memset (udata s) pa 0 4096 else udata s) /\
    (ok = true -> uv s' = v2 /\ ok2 = true /\ pa <> 0)) as (Ev & Eok & En & Ed & Ev2).
  { revert E. unfold res. destruct (Z.eqb_spec pa PHYS_NULL) as [|Hz]; [|destruct ok2]; cbn [negb];
      intros E; apply pair_equal_spec in E as [<- <-]; splits; try reflexivity; intros ?; discriminate. }
  pose proof (alloc_map_spec R (uv s) r va 7 f pa v2 ok2 (uv s') ok Hv Hr Ea Em) as Hpost.
  fold res in Hpost. specialize (Hpost ltac:(rewrite Ev, Eok; apply surjective_pairing)). clear E Ev Eok res.
  destruct (alloc_post_pages s s' P va ok HP Hva Hnew Hpost) as (Hoth & Hkeep & Hok & Hfail).
  split; [exact Hoth|]. split; [exact En|]. split; [exact Hkeep|]. split; intros ->.
  - destruct (Hok eq_refl) as (HP' & pa' & U & _). split; [exact HP'|]. exists pa'. split; [exact U|].
    destruct (Ev2 eq_refl) as (E2 & -> & Hpa0).
    assert (pa' = pa) as ->; [|exact Ed].
    apply (mapped_frame s va f pa v2 pa' Hv Hr Ea Hpa0 Em (up_frame _ _ _ U)). rewrite <- E2. apply (up_tr _ _ _ U).
  - destruct (Hfail eq_refl) as [HP' Hsame]. split; [exact HP'|]. split; [exact Ed|exact Hsame].
Qed.

Lemma unmap_one_spec s P va :
  pages_ok s P -> P va ->
  let s' := unmap_one s r va in
  pages_ok s' (fun x => P x /\ x <> va) /\ tr s' r va = Unmapped /\
  udata s' = udata s /\ unodes s' = unodes s /\
  (forall x p, P x -> x <> va -> upage s x p -> upage s' x p) /\
  (forall r' va', R r' -> elsewhere r va r' va' -> tr s' r' va' = tr s r' va').
Proof.
  intros [Hv Hr Har Hmap Hinj] HP s'. destruct (Hmap va HP) as [pa U].
  destruct (entry_frame pa (up_frame _ _ _ U)) as [Efr Hpa0].
  set (e := Z.lor (Z.land pa PAGE_MASK) 7) in *. pose proof (up_tr _ _ _ U) as Etr. fold e in Etr.
  destruct (translate_leaf R (uv s) r va e Hv Hr Etr) as (pt & Hn & Hw & Hl & Hp).
  destruct (set_leaf_spec R (uv s) r va 0 pt Hv Hn) as (Hv1 & Hnode & Hx & Ho).
  set (v1 := set_mem (uv s) (st (mem (uv s)) (slot pt (PT_IDX va)) 0)) in *.
  assert (vmm_unmap_page_from (uv s) va r = (v1, pa)) as Eun.
  { unfold vmm_unmap_page_from, select_pml4, PHYS_NULL. pose proof (root_nonzero R (uv s) r Hv Hr) as Hnz.
    rewrite (proj2 (Z.eqb_neq _ _) Hnz). cbn [negb]. rewrite (proj2 (Z.eqb_neq _ _) Hnz), Hw, Hl, Hp.
    cbn [negb]. by rewrite Efr. }
  assert (exists fr, uv s' = set_frames v1 fr /\ fa_inv fr /\
    (forall x, x <> pa -> fa_avail fr x = fa_avail (frames (uv s)) x)) as (fr & Euv & Hfi & Hfr).
  { unfold s', unmap_one. rewrite Eun. cbn [uv set_uv]. destruct (_ && _).
    - destruct (fa_free_spec (frames v1) pa (proj1 Hv1)) as (? & Hoth & _).
      eexists. split; [done|]. split; [done|]. intros x Hne. by apply Hoth.
    - exists (frames v1). split; [by destruct v1|]. split; [apply Hv1|done]. }
  assert (udata s' = udata s /\ unodes s' = unodes s) as [Ed En] by (unfold s', unmap_one; by rewrite Eun).
  assert (mem (uv s') = mem v1) as Em by by rewrite Euv.
  assert (vm_ok R (uv s')) as Hv'.
  { rewrite Euv. split; [done|]. apply (forest_avail R _ _ _ (proj2 Hv1)). intros r' q t Hnt. cbn [frames set_frames].
    apply Hnode in Hnt. rewrite Hfr by (by apply (up_data _ _ _ U r' q)). apply (forest_frame (proj2 Hv) r' q t Hnt). }
  assert (forall r' va', R r' -> elsewhere r va r' va' -> tr s' r' va' = tr s r' va') as Hoth.
  { intros r' va' Hr' He. rewrite Em. by apply Ho. }
  assert (forall x p, P x -> x <> va -> upage s x p -> upage s' x p) as Hkeep.
  { intros x p Hx' Hne Ux. apply (upage_keep s); [done| | |].
    - apply Hoth; [done|]. apply page_elsewhere; auto.
    - intros Hu. rewrite Euv. cbn [frames set_frames]. rewrite Hfr; [done|].
      intros ->. apply Hne. by apply (Hinj x va pa).
    - intros r' q t Hnt. left. rewrite Em in Hnt. by apply Hnode. }
  split; [|split; [by rewrite Em, Hx|done]].
  split; [done|done| | |].
  - intros x [Hx' _]. by apply Har.
  - intros x [Hx' Hne]. destruct (Hmap x Hx') as [p Ux]. exists p. by apply Hkeep.
  - intros x x' p [Hx1 Hne] [Hx2 Hne'] U1 U2.
    destruct (Hmap x Hx1) as [q V], (Hmap x' Hx2) as [q' V'].
    rewrite (upage_fun s' x p q U1 (Hkeep _ _ Hx1 Hne V)) in *.
    rewrite (upage_fun s' x' q q' U2 (Hkeep _ _ Hx2 Hne' V')) in *. by apply (Hinj x x' q').
Qed.

(** ** Ranges of pages *)

Definition span (b n va : Z) : Prop := exists i, 0 <= i < n /\ va = b + i * 4096.

Lemma span_succ b n x : 0 <= n -> span b (n + 1) x <-> span b n x \/ x = b + n * 4096.
Proof using Type.
  clear R.
  intros Hn. split.
  - intros (i & Hi & ->). destruct (Z.eq_dec i n) as [->|]; [by right|left; exists i; lia].
  - intros [(i & Hi & ->)| ->]; [exists i; lia|exists n; lia].
Qed.

Lemma span_mono b n n' x : n <= n' -> span b n x -> span b n' x.
Proof using Type. clear R. intros Hn (i & Hi & ->). exists i. lia. Qed.

Lemma unmap_range_spec s P b n :
  0 <= n -> pages_ok s P -> (forall va, span b n va -> P va) ->
  let s' := uheap_unmap_range s r b n in
  pages_ok s' (fun x => P x /\ ~ span b n x) /\
  (forall va, span b n va -> tr s' r va = Unmapped) /\
  udata s' = udata s /\ unodes s' = unodes s /\
  (forall x p, P x -> ~ span b n x -> upage s x p -> upage s' x p) /\
  (forall r' va', R r' -> (forall va, span b n va -> elsewhere r va r' va') -> tr s' r' va' = tr s r' va').
Proof.
  intros Hn HP Hsub. unfold uheap_unmap_range.
  apply (for_loop_inv (fun k s' =>
    pages_ok s' (fun x => P x /\ ~ span b k x) /\
    (forall va, span b k va -> tr s' r va = Unmapped) /\
    udata s' = udata s /\ unodes s' = unodes s /\
    (forall x p, P x -> ~ span b k x -> upage s x p -> upage s' x p) /\
    (forall r' va', R r' -> (forall va, span b k va -> elsewhere r va r' va') -> tr s' r' va' = tr s r' va')));
    [done| |].
  { splits. apply (pages_sub s P); [done|]. by intros va [? _]. intros va (i & Hi & _). lia. }
  intros k s' Hk (IP & IU & Id & In & IK & IE).
  pose proof (fun x => span_succ b k x ltac:(lia)) as Hsp.
  assert (P (b + k * 4096) /\ ~ span b k (b + k * 4096)) as Hk'.
  { split; [apply Hsub; by exists k|]. intros (i & Hi & E). lia. }
  pose proof (unmap_one_spec s' _ _ IP Hk') as (A1 & A2 & A3 & A4 & A5 & A6).
  set (s'' := unmap_one s' r (b + k * 4096)) in *. clearbody s''.
  split; [|split; [|split; [congruence|split; [congruence|split]]]].
  - apply (pages_sub _ _ _ A1). intros x [Hx Hnx]. rewrite Hsp in Hnx. tauto.
  - intros va Hva. apply Hsp in Hva. destruct (Z.eq_dec va (b + k * 4096)) as [->|Hne]; [exact A2|].
    destruct Hva as [Hva|]; [|done]. rewrite A6; [by apply IU|by apply (po_root _ _ IP)|].
    apply page_elsewhere; [| |done]; apply (po_area _ _ HP), Hsub.
    + exists k. lia.
    + destruct Hva as (i & Hi & ->). exists i. lia.
  - intros x p Hx Hnx U. rewrite Hsp in Hnx. apply A5; [tauto|tauto|]. apply IK; tauto.
  - intros r' va' Hr' He. rewrite A6; [|done|apply He, Hsp; by right]. apply IE; [done|].
    intros va Hva. apply He, Hsp. by left.
Qed.

Lemma elsewhere_dec va r' va' :
  user_page va -> elsewhere r va r' va' \/ (r' = r /\ idxs va' = idxs va).
Proof using Type.
  clear R.
  intros [Hva _]. unfold elsewhere. destruct (decide (idxs va' = idxs va)) as [E|]; [|by left; left].
  destruct (Z.eq_dec r' r) as [->|]; [by right|]. left. right. split; [done|].
  unfold PML4_IDX. rewrite idx_div by lia. divlia.
Qed.

Lemma tr_same_page s va va' : vm_ok R (uv s) -> R r -> idxs va' = idxs va -> tr s r va' = tr s r va.
Proof. intros [_ Hf] Hr E. rewrite !(translate_xl R _ _ r _ Hf Hr). by rewrite E. Qed.

(** The byte at offset [o] of a page, and a page of zeros. *)
Definition zeroed s (va : Z) : Prop :=
  exists pa, upage s va pa /\ forall o, 0 <= o < 4096 -> ld (udata s) (pa + o) = 0.

(** A page keeps its frame and its contents. *)
Definition kept s s' (va : Z) : Prop :=
  forall pa, upage s va pa ->
    upage s' va pa /\ forall o, 0 <= o < 4096 -> ld (udata s') (pa + o) = ld (udata s) (pa + o).

Lemma kept_trans s1 s2 s3 va : kept s1 s2 va -> kept s2 s3 va -> kept s1 s3 va.
Proof.
  intros H1 H2 pa U. destruct (H1 pa U) as [U2 D2]. destruct (H2 pa U2) as [U3 D3]. split; [exact U3|].
  intros o Ho. by rewrite D3, D2.
Qed.

Lemma kept_zeroed s s' va : kept s s' va -> zeroed s va -> zeroed s' va.
Proof.
  intros Hk (pa & U & Hz). destruct (Hk pa U) as [U' D]. exists pa. split; [exact U'|].
  intros o Ho. rewrite D by exact Ho. by apply Hz.
Qed.

Lemma map_one_kept s P va s' ok :
  pages_ok s P -> user_page va -> ~ P va -> map_one s r va = (s', ok) ->
  (forall x, P x -> kept s s' x) /\ (ok = true -> zeroed s' va).
Proof.
  intros HP Hva Hnew E. destruct (map_one_spec s P va s' ok HP Hva Hnew E) as (_ & _ & Hk & Hok & Hf).
  destruct ok.
  - destruct (Hok eq_refl) as (HP' & pa & U & Ed). split.
    + intros x Hx p Ux. pose proof (Hk x p Hx Ux) as Ux'. split; [exact Ux'|].
      intros o Ho. rewrite Ed, ld_memset by lia.
      assert (p <> pa) as Hne.
      { intros ->. apply Hnew. rewrite <- (po_inj _ _ HP' x va pa (or_introl Hx) (or_intror eq_refl) Ux' U). exact Hx. }
      pose proof (proj2 (up_frame _ _ _ U)) as H1. pose proof (proj2 (up_frame _ _ _ Ux)) as H2.
      unfold aligned, PAGE_SIZE in H1, H2. zcases; [exfalso; divlia|done..].
    + intros _. exists pa. split; [exact U|]. intros o Ho. rewrite Ed, ld_memset by lia. zcases; done.
  - destruct (Hf eq_refl) as (_ & Ed & _). split; [|done].
    intros x Hx p Ux. split; [by apply Hk|]. intros o _. by rewrite Ed.
Qed.


(** What the mapping loop leaves: on success all pages of the range, zeroed; on
    failure the range is unmapped again and nothing else has changed. *)
Definition map_post s s' P (brk i n : Z) (ok : bool) : Prop :=
  unodes s' = unodes s /\
  (forall x, P x \/ (ok = true /\ span brk i x) -> kept s s' x) /\
  (if ok then
     pages_ok s' (fun x => P x \/ span brk (i + n) x) /\
     (forall x, span brk (i + n) x -> span brk i x \/ zeroed s' x) /\
     (forall r' va', R r' -> (forall va, span brk (i + n) va -> elsewhere r va r' va') -> tr s' r' va' = tr s r' va')
   else
     pages_ok s' P /\ (forall x, span brk i x -> tr s' r x = Unmapped) /\
     (forall r' va', R r' -> (forall va, span brk i va -> elsewhere r va r' va') -> tr s' r' va' = tr s r' va')).

Lemma map_region_pages_spec n : forall s P brk i s' ok,
  0 <= i -> pages_ok s (fun x => P x \/ span brk i x) ->
  (forall x, span brk (i + Z.of_nat n) x -> user_page x /\ ~ P x) ->
  (forall j, i <= j < i + Z.of_nat n -> tr s r (brk + j * 4096) = Unmapped) ->
  map_region_pages n s r brk i = (s', ok) -> map_post s s' P brk i (Z.of_nat n) ok.
Proof.
  induction n as [|n IH]; intros s P brk i s' ok Hi HP Har Hun; cbn [map_region_pages].
  { intros E. apply pair_equal_spec in E as [<- <-]. unfold map_post. change (Z.of_nat 0) with 0. rewrite Z.add_0_r.
    split; [done|]. split; [by intros x _ pa U|]. split; [done|]. split; [by left|done]. }
  set (va := brk + i * 4096). destruct (map_one s r va) as [s1 ok1] eqn:E1.
  assert (span brk (i + Z.of_nat (S n)) va) as Hsp by (exists i; lia).
  assert (user_page va) as Hva by by apply Har.
  assert (~ (P va \/ span brk i va)) as Hnew.
  { intros [Hp|(j & Hj & E)]; [by apply (Har va)|lia]. }
  destruct (map_one_spec _ _ _ _ _ HP Hva Hnew E1) as (Ho & En & _ & Hok & Hf).
  destruct (map_one_kept _ _ _ _ _ HP Hva Hnew E1) as (Hk & Hz).
  destruct ok1.
  - intros E. destruct (Hok eq_refl) as (HP1 & _). clear Hok Hf. specialize (Hz eq_refl).
    assert (pages_ok s1 (fun x => P x \/ span brk (i + 1) x)) as HP2.
    { apply (pages_sub _ _ _ HP1). intros x [Hx|Hx]; [tauto|]. apply span_succ in Hx; [tauto|lia]. }
    apply (IH s1 P) in E as (En' & Hk' & Hc); [|lia|exact HP2| |].
    2: { intros x Hx. apply Har. eapply span_mono; [|exact Hx]. lia. }
    2: { intros j Hj. rewrite Ho; [apply Hun; lia|apply (po_root _ _ HP)|].
         apply page_elsewhere; [exact Hva| |unfold va; lia]. apply Har. exists j. lia. }
    replace (i + 1 + Z.of_nat n) with (i + Z.of_nat (S n)) in Hc by lia.
    split; [by rewrite En'|]. split.
    { intros x Hx. apply (kept_trans _ s1); [apply Hk; tauto|]. apply Hk'.
      destruct Hx as [?|[? Hx]]; [by left|right]. split; [done|]. eapply span_mono; [|exact Hx]. lia. }
    destruct ok.
    + destruct Hc as (C1 & C2 & C3). split; [exact C1|]. split.
      * intros x Hx. destruct (C2 x Hx) as [Hx'|Hx']; [|by right].
        apply span_succ in Hx' as [Hx'| ->]; [by left| |lia]. right.
        apply (kept_zeroed s1); [|exact Hz]. apply Hk'. right. split; [done|]. exists i. lia.
      * intros r' va' Hr' He. rewrite C3 by done. apply Ho; [done|]. by apply He.
    + destruct Hc as (C1 & C2 & C3). split; [exact C1|]. split.
      * intros x Hx. apply C2. eapply span_mono; [|exact Hx]. lia.
      * intros r' va' Hr' He. destruct (elsewhere_dec va r' va' Hva) as [He'|[-> Ei]].
        -- rewrite C3; [by apply Ho|done|]. intros x Hx. apply span_succ in Hx as [Hx| ->]; [by apply He|done|lia].
        -- rewrite (tr_same_page s' va va' (po_vm _ _ C1) Hr' Ei), (tr_same_page s va va' (po_vm _ _ HP) Hr' Ei).
           rewrite C2 by (exists i; unfold va; lia). symmetry. apply Hun. lia.
  - intros E. apply pair_equal_spec in E as [<- <-]. destruct (Hf eq_refl) as (HP1 & Ed & Hs). clear Hok Hf Hz.
    pose proof (unmap_range_spec s1 _ brk i Hi HP1 (fun x H => or_intror H)) as (A1 & A2 & A3 & A4 & A5 & A6).
    set (s2 := uheap_unmap_range s1 r brk i) in *. clearbody s2.
    assert (forall x, P x -> ~ span brk i x) as Hdis.
    { intros x Hx Hxs. apply (Har x); [|done]. eapply span_mono; [|exact Hxs]. lia. }
    split; [congruence|]. split.
    { intros x [Hx|[? _]]; [|done]. apply (kept_trans _ s1); [apply Hk; by left|].
      intros pa U. split; [apply A5; [by left|by apply Hdis|exact U]|]. intros o _. by rewrite A3. }
    split; [|split].
    + apply (pages_sub _ _ _ A1). intros x Hx. split; [by left|by apply Hdis].
    + exact A2.
    + intros r' va' Hr' He. rewrite A6 by done. by apply Hs.
Qed.
(** ** Bytes of the user's memory *)

Definition byte s (va : Z) : Z := ld s.(udata) (phys_of s.(uv) r va).
Definition page_of (va : Z) : Z := va - va mod 4096.

Lemma phys_upage s P va pa o :
  pages_ok s P -> user_page va -> upage s va pa -> 0 <= o < 4096 ->
  phys_of s.(uv) r (va + o) = pa + o.
Proof.
  intros HP [Hva Hm] U Ho. 
  assert (idxs (va + o) = idxs va) as Ei. { apply idxs_page; [lia..|]. unfold PAGE_SIZE. divlia. }
  pose proof (up_tr _ _ _ U) as Etr. rewrite <- (tr_same_page s va (va + o) (po_vm _ _ HP) (po_root _ _ HP) Ei) in Etr.
  destruct (translate_leaf R _ r _ _ (po_vm _ _ HP) (po_root _ _ HP) Etr) as (pt & _ & Hw & Hl & _).
  unfold phys_of, select_pml4, PHYS_NULL.
  rewrite (proj2 (Z.eqb_neq _ _) (root_nonzero R s.(uv) r (po_vm _ _ HP) (po_root _ _ HP))).
  cbn [negb]. rewrite Hw, Hl, (proj1 (entry_frame pa (up_frame _ _ _ U))). divlia.
Qed.

Lemma page_of_split va : va = page_of va + va mod 4096 /\ 0 <= va mod 4096 < 4096.
Proof using Type. clear R. unfold page_of. pose proof (Z.mod_pos_bound va 4096). lia. Qed.

(** The physical address of a byte in one of the pages. *)
Lemma phys_of_page s P va :
  pages_ok s P -> P (page_of va) ->
  exists pa, upage s (page_of va) pa /\ phys_of s.(uv) r va = pa + va mod 4096.
Proof.
  intros HP Hp. destruct (po_map _ _ HP _ Hp) as [pa U]. exists pa. split; [exact U|].
  destruct (page_of_split va) as [E Ho]. rewrite E at 1.
  apply (phys_upage s P); [done|by apply (po_area _ _ HP)|done|done].
Qed.

Lemma phys_inj s P va va' :
  pages_ok s P -> P (page_of va) -> P (page_of va') ->
  phys_of s.(uv) r va = phys_of s.(uv) r va' -> va = va'.
Proof.
  intros HP Hp Hp' E. destruct (phys_of_page s P va HP Hp) as (pa & U & E1), (phys_of_page s P va' HP Hp') as (pa' & U' & E2).
  rewrite E1, E2 in E. destruct (page_of_split va) as [Ev Hv], (page_of_split va') as [Ev' Hv'].
  pose proof (proj2 (up_frame _ _ _ U)) as H1. pose proof (proj2 (up_frame _ _ _ U')) as H2.
  unfold aligned, PAGE_SIZE in H1, H2. assert (pa = pa') as -> by divlia.
  pose proof (po_inj _ _ HP _ _ _ Hp Hp' U U'). lia.
Qed.

Lemma byte_kept s s' P P' va :
  pages_ok s P -> pages_ok s' P' -> P (page_of va) -> P' (page_of va) -> kept s s' (page_of va) ->
  byte s' va = byte s va.
Proof.
  intros HP HP' Hp Hp' Hk. destruct (phys_of_page s P va HP Hp) as (pa & U & E).
  destruct (Hk pa U) as [U' D]. destruct (page_of_split va) as [Ev Ho].
  unfold byte. rewrite E. rewrite Ev at 1. rewrite (phys_upage s' P' _ pa); [|done|by apply (po_area _ _ HP')|done|done].
  by rewrite D.
Qed.

Lemma set_udata_pages s m P : pages_ok s P -> pages_ok (set_udata s m) P.
Proof.
  assert (forall va pa, upage (set_udata s m) va pa <-> upage s va pa) as Hu.
  { intros va pa. split; intros [U1 U2 U3 U4]; split; assumption. }
  intros [H1 H2 H3 H4 H5]. split; [exact H1|exact H2|exact H3| |].
  - intros va Hva. destruct (H4 va Hva) as [pa U]. exists pa. by apply Hu.
  - intros va va' pa Hp Hp' U U'. rewrite Hu in U, U'. by apply (H5 va va' pa).
Qed.

Lemma set_unodes_pages s k P : pages_ok s P -> pages_ok (set_unodes s k) P.
Proof.
  assert (forall va pa, upage (set_unodes s k) va pa <-> upage s va pa) as Hu.
  { intros va pa. split; intros [U1 U2 U3 U4]; split; assumption. }
  intros [H1 H2 H3 H4 H5]. split; [exact H1|exact H2|exact H3| |].
  - intros va Hva. destruct (H4 va Hva) as [pa U]. exists pa. by apply Hu.
  - intros va va' pa Hp Hp' U U'. rewrite Hu in U, U'. by apply (H5 va va' pa).
Qed.

Lemma set_unodes_kept s k va : kept s (set_unodes s k) va.
Proof. intros pa [U1 U2 U3 U4]. split; [split; assumption|done]. Qed.

Lemma kept_set_unodes s s' k va : kept s s' va -> kept s (set_unodes s' k) va.
Proof. intros Hk. eapply kept_trans; [exact Hk|apply set_unodes_kept]. Qed.

(** Copying between disjoint ranges of mapped pages. *)
Lemma user_memcpy_spec s P dst src n :
  0 <= n -> pages_ok s P ->
  (forall k, 0 <= k < n -> P (page_of (src + k)) /\ P (page_of (dst + k))) ->
  (src + n <= dst \/ dst + n <= src) ->
  let s' := user_memcpy s r dst src n in
  uv s' = uv s /\ unodes s' = unodes s /\ pages_ok s' P /\
  (forall k, 0 <= k < n -> byte s' (dst + k) = byte s (src + k)) /\
  (forall va, P (page_of va) -> ~ dst <= va < dst + n -> byte s' va = byte s va).
Proof.
  intros Hn HP Hr Hd s'. split; [done|]. split; [done|]. split; [by apply set_udata_pages|].
  set (ph := phys_of s.(uv) r) in *.
  assert (forall va va', P (page_of va) -> P (page_of va') -> ph va = ph va' -> va = va') as Hinj
    by (intros va va'; by apply phys_inj).
  assert (forall k, 0 <= k < n -> ld (udata s') (ph (dst + k)) = ld (udata s) (ph (src + k))) as H1.
  2: split; [exact H1|].
  - unfold s', user_memcpy. cbn [udata set_udata]. fold ph.
    apply (for_loop_inv (fun i m => (forall k, 0 <= k < i -> ld m (ph (dst + k)) = ld (udata s) (ph (src + k))) /\
      (forall k, 0 <= k < n -> ld m (ph (src + k)) = ld (udata s) (ph (src + k))))); [done| |].
    { split; [intros; lia|done]. }
    intros i m Hi [I1 I2]. split; intros k Hk; rewrite ld_st.
    + destruct (Z.eqb_spec (ph (dst + i)) (ph (dst + k))) as [E|E].
      * apply Hinj in E; [|apply Hr; lia..]. replace k with i by lia. by apply I2.
      * apply I1. destruct (Z.eq_dec k i) as [->|]; [done|lia].
    + destruct (Z.eqb_spec (ph (dst + i)) (ph (src + k))) as [E|E]; [|by apply I2].
      apply Hinj in E; [lia|apply Hr; lia..].
  - intros va Hp Hv. unfold byte, s', user_memcpy. cbn [udata set_udata uv]. fold ph.
    apply (for_loop_pres (fun m => ld m (ph va) = ld (udata s) (ph va))); [done|].
    intros i m Hi E. rewrite ld_st. destruct (Z.eqb_spec (ph (dst + i)) (ph va)) as [E'|]; [|done].
    apply Hinj in E'; [lia|apply Hr; lia|done].
Qed.

Lemma page_of_span b n k : b mod 4096 = 0 -> 0 <= k < n * 4096 -> span b n (page_of (b + k)).
Proof using Type.
  clear R.
  intros Hb Hk. exists (k / 4096). unfold page_of.
  rewrite <- (Z.add_mod_idemp_l b k 4096), Hb, Z.add_0_l by lia. divlia.
Qed.

End pages.

#[global] Instance span_dec b n va : Decision (span b n va).
Proof.
  refine (cast_if (decide (0 <= (va - b) / 4096 < n /\ va = b + (va - b) / 4096 * 4096))).
  - by exists ((va - b) / 4096).
  - intros (i & Hi & ->). replace (b + i * 4096 - b) with (i * 4096) in * by lia. rewrite Z.div_mul in * by lia. lia.
Defined.
End UserPages.
