(* ===== verification/UheapThm.v ===== *)
(** * Properties of the user heap

    The regions of a task are mapped, exclusive, zeroed when handed out and
    separated by unmapped guard pages; a failed allocation leaves every
    translation as it was; freeing removes exactly one region. *)

From S2P Require Import Prelude Pmm Paging PagingSpec PagingOps KString Display KwmThm Uheap UserPages.
From stdpp Require Import base numbers list gmap sorting.
From Stdlib Require Import ZArith Lia.

#[local] Open Scope Z_scope.

Module UheapThm.
Import Pmm Paging PagingSpec PagingOps Uheap UserPages.

(** ** The invariant of a task's heap *)

Definition owned (t : ut) (va : Z) : Prop :=
  exists n, n ∈ uheap_regions t /\ span n.(base) n.(pages) va.

(** [n] lies above [m] with a page in between. *)
Definition above (n m : uheap_region_t) : Prop := m.(base) + m.(pages) * 4096 + 4096 <= n.(base).

Definition region_ok (brk : Z) (n : uheap_region_t) : Prop :=
  UHEAP_BASE <= n.(base) /\ n.(base) mod 4096 = 0 /\ 1 <= n.(pages) /\
  n.(base) + n.(pages) * 4096 + 4096 <= brk /\ 1 <= n.(rsize) <= n.(pages) * 4096.

(** The address of a page of the heap area. *)
Definition heap_page (va : Z) : Prop := UHEAP_BASE <= va < UHEAP_END /\ va mod 4096 = 0.

Lemma heap_user va : heap_page va -> user_page va.
Proof. unfold heap_page, user_page, UHEAP_BASE, UHEAP_END. lia. Qed.

Section heap.
Context {A : Type} `{FA : FrameAllocator A} {K : Type} `{KO : KAllocOk K} (R : Z -> Prop) (r : Z).
Implicit Types (s : us (A := A) (K := K)) (t : ut).

Abbreviation tr s := (translate (mem (uv s))).

(** The pages of the regions are mapped to distinct frames and every other page
    of the heap area is unmapped, in particular the guard page after each
    region; the nodes of the list are distinct live blocks of the kernel heap. *)
Record uheap_inv s t : Prop := {
  ui_as : t.(upml4) = r;
  ui_brk : UHEAP_BASE <= brk_of t <= UHEAP_END /\ brk_of t mod 4096 = 0;
  ui_pages : pages_ok R r s (owned t);
  ui_guard : forall va, heap_page va -> ~ owned t va -> tr s r va = Unmapped;
  ui_region : Forall (region_ok (brk_of t)) t.(uheap_regions);
  ui_sorted : StronglySorted above t.(uheap_regions);
  ui_nodup : NoDup (node_ptr <$> t.(uheap_regions));
  ui_live : forall n, n ∈ t.(uheap_regions) -> ka_live s.(unodes) n.(node_ptr);
}.

Lemma owned_below s t va : uheap_inv s t -> owned t va -> UHEAP_BASE <= va < brk_of t - 4096 /\ va mod 4096 = 0.
Proof.
  intros I (n & Hn & i & Hi & ->). pose proof (ui_region _ _ I) as Hr. rewrite Forall_forall in Hr.
  destruct (Hr n Hn) as (H1 & H2 & H3 & H4 & _). split; [lia|]. divlia.
Qed.

Lemma region_pages size :
  1 <= size <= UHEAP_MAX_ALLOC ->
  let n := (size + 4095) / 4096 in 1 <= n <= 16384 /\ size <= n * 4096.
Proof. intros Hs n. unfold n. unfold UHEAP_MAX_ALLOC in Hs. divlia. Qed.

(** The guards of [uheap_alloc] and its two stages. *)
Lemma uheap_alloc_cases s t size s' t' a :
  0 <= size -> uheap_inv s t -> uheap_alloc s t size = (s', t', a) ->
  let n := (size + 4095) / 4096 in
  (s' = s /\ t' = t /\ a = 0) \/
  1 <= size <= UHEAP_MAX_ALLOC /\ brk_of t + n * 4096 + 4096 <= UHEAP_END /\
  let '(k, nd) := ka_kmalloc SIZEOF_REGION s.(unodes) in
  (nd = 0 /\ s' = set_unodes s k /\ t' = t /\ a = 0) \/
  nd <> 0 /\
  let '(s1, ok) := map_region_pages (Z.to_nat n) (set_unodes s k) r (brk_of t) 0 in
  (ok = false /\ s' = set_unodes s1 (ka_kfree nd s1.(unodes)) /\ t' = t /\ a = 0) \/
  (ok = true /\ s' = s1 /\ a = brk_of t /\
   t' = mk_ut r (a + n * 4096 + 4096) (mk_region nd a size n :: t.(uheap_regions))).
Proof.
  intros Hsz I E n. unfold uheap_alloc in E. fold n in E. rewrite (ui_as _ _ I) in E.
  assert (r <> 0) as Hr0. { apply (root_nonzero R (uv s) r); apply (ui_pages _ _ I). }
  unfold PHYS_NULL in E. rewrite (proj2 (Z.eqb_neq _ _) Hr0) in E.
  destruct ((size =? 0) || (UHEAP_MAX_ALLOC <? size)) eqn:Eg.
  { injection E as <- <- <-. by left. }
  zprop. assert (1 <= size <= UHEAP_MAX_ALLOC) as Hs by lia. destruct (region_pages size Hs) as [Hn Hc]. fold n in Hn, Hc.
  pose proof (ui_brk _ _ I) as [Hb _]. unfold UHEAP_BASE, UHEAP_END in Hb.
  rewrite (wrap_small 64) in E by lia.
  destruct (Z.ltb_spec UHEAP_END (brk_of t + n * 4096 + 4096)). { injection E as <- <- <-. by left. }
  right. split; [lia|]. split; [lia|].
  destruct (ka_kmalloc SIZEOF_REGION s.(unodes)) as [k nd] eqn:Ek.
  destruct (Z.eqb_spec nd 0) as [|Hnd]. { left. injection E as <- <- <-. by splits. }
  right. split; [exact Hnd|].
  destruct (map_region_pages (Z.to_nat n) (set_unodes s k) r (brk_of t) 0) as [s1 ok].
  destruct ok; cbn [negb] in E; injection E as <- <- <-; [right|left]; by splits.
Qed.

(** The invariant depends on the page tables and on which blocks are live. *)
Lemma inv_ext s s' t :
  uheap_inv s t -> pages_ok R r s' (owned t) ->
  (forall va, tr s' r va = tr s r va) -> (forall p, ka_live s.(unodes) p -> ka_live s'.(unodes) p) ->
  uheap_inv s' t.
Proof.
  intros [H1 H2 H3 H4 H5 H6 H7 H8] HP Htr Hl. split; try assumption.
  - intros va Hva Hno. rewrite Htr. by apply H4.
  - intros n Hn. by apply Hl, H8.
Qed.

Lemma brk_fresh s t n x :
  uheap_inv s t -> brk_of t + n * 4096 + 4096 <= UHEAP_END -> span (brk_of t) n x -> heap_page x /\ ~ owned t x.
Proof.
  intros I Hend (i & Hi & ->). pose proof (ui_brk _ _ I) as [Hb Hm]. split.
  - split; [lia|]. divlia.
  - intros Ho. destruct (owned_below _ _ _ I Ho). lia.
Qed.

(** What [uheap_alloc] leaves. *)
Definition alloc_post s s' t t' (size a : Z) : Prop :=
  uheap_inv s' t' /\ (forall x, owned t x -> kept R r s s' x) /\
  let n := (size + 4095) / 4096 in
  (a = 0 /\ t' = t /\ (forall r' va, R r' -> tr s' r' va = tr s r' va) /\
   (forall p, ka_live s'.(unodes) p <-> ka_live s.(unodes) p)) \/
  (UHEAP_BASE <= a /\ a = brk_of t /\ 1 <= size <= UHEAP_MAX_ALLOC /\
   (exists nd, t' = mk_ut r (a + n * 4096 + 4096) (mk_region nd a size n :: t.(uheap_regions))) /\
   (forall x, span a n x -> zeroed R r s' x) /\
   (forall r' va', R r' -> (forall va, span a n va -> elsewhere r va r' va') -> tr s' r' va' = tr s r' va')).

(** The state after a successful mapping loop. *)
Lemma alloc_success_inv s s1 t size nd :
  let n := (size + 4095) / 4096 in
  1 <= size <= UHEAP_MAX_ALLOC -> brk_of t + n * 4096 + 4096 <= UHEAP_END ->
  uheap_inv s t -> (forall m, m ∈ t.(uheap_regions) -> ka_live s1.(unodes) m.(node_ptr)) ->
  ka_live s1.(unodes) nd -> nd ∉ node_ptr <$> t.(uheap_regions) ->
  pages_ok R r s1 (fun x => owned t x \/ span (brk_of t) n x) ->
  (forall r' va', R r' -> (forall va, span (brk_of t) n va -> elsewhere r va r' va') -> tr s1 r' va' = tr s r' va') ->
  uheap_inv s1 (mk_ut r (brk_of t + n * 4096 + 4096) (mk_region nd (brk_of t) size n :: t.(uheap_regions))).
Proof.
  intros n Hs Hend I Hlive Hnd Hnew HP Htr. destruct (region_pages size Hs) as [Hn Hc]. fold n in Hn, Hc.
  pose proof (ui_brk _ _ I) as [Hb Hm]. set (t' := mk_ut _ _ _).
  assert (brk_of t' = brk_of t + n * 4096 + 4096) as Eb.
  { unfold brk_of at 1, t'. cbn [uheap_brk]. unfold UHEAP_BASE in Hb. zcases; done. }
  assert (forall x, owned t' x <-> owned t x \/ span (brk_of t) n x) as Hown.
  { intros x. unfold owned, t'. cbn [uheap_regions]. setoid_rewrite elem_of_cons. split.
    - intros (m & [->|Hin] & Hx); [by right|left; by exists m].
    - intros [(m & Hin & Hx)|Hx]; [exists m; auto|eexists; split; [by left|exact Hx]]. }
  split.
  - done.
  - rewrite Eb. split; [lia|]. divlia.
  - apply (pages_sub _ _ _ _ _ HP). intros x Hx. by apply Hown.
  - intros va Hva Hno. rewrite Hown in Hno. rewrite Htr; [apply (ui_guard _ _ I); tauto|apply HP|].
    intros x Hx. apply page_elsewhere; [exact (heap_user _ (proj1 (brk_fresh _ _ _ _ I Hend Hx)))|by apply heap_user|]. intros ->. tauto.
  - rewrite Eb. cbn [uheap_regions t']. constructor.
    + unfold region_ok. cbn [base rsize pages]. lia.
    + eapply Forall_impl; [exact (ui_region _ _ I)|]. unfold region_ok. intros m Hm'. lia.
  - cbn [uheap_regions t']. constructor; [exact (ui_sorted _ _ I)|].
    eapply Forall_impl; [exact (ui_region _ _ I)|]. unfold region_ok, above. cbn [base]. intros m Hm'. lia.
  - cbn [uheap_regions t']. rewrite fmap_cons. constructor; [exact Hnew|exact (ui_nodup _ _ I)].
  - cbn [uheap_regions t']. intros m Hm'. apply elem_of_cons in Hm' as [->|Hm']; [exact Hnd|by apply Hlive].
Qed.

Lemma uheap_alloc_spec s t size s' t' a :
  0 <= size -> uheap_inv s t -> uheap_alloc s t size = (s', t', a) -> alloc_post s s' t t' size a.
Proof.
  intros Hsz I E. destruct (uheap_alloc_cases s t size s' t' a Hsz I E) as [(-> & -> & ->)|(Hs & Hend & Hc)].
  { split; [exact I|]. split; [by intros x _ pa U|]. left. by splits. }
  pose proof (ka_fresh SIZEOF_REGION s.(unodes)) as Hfr. pose proof (ka_malloc_live SIZEOF_REGION s.(unodes)) as Hml.
  set (n := (size + 4095) / 4096) in *. destruct (region_pages size Hs) as [Hn _]. fold n in Hn.
  destruct (ka_kmalloc SIZEOF_REGION s.(unodes)) as [k nd]. cbn [fst snd] in Hfr, Hml.
  destruct Hc as [(-> & -> & -> & ->)|(Hnd & Hc)].
  { assert (forall p, ka_live k p <-> ka_live s.(unodes) p) as Hl by (intros p; rewrite Hml; tauto).
    split; [|split; [intros x _; apply set_unodes_kept|left; by splits]].
    apply (inv_ext s); [exact I|apply set_unodes_pages, I|done|]. intros p Hp. by apply Hl. }
  destruct (map_region_pages _ _ _ _ _) as [s1 ok] eqn:Em.
  apply (map_region_pages_spec R r _ _ (owned t)) in Em as (En & Hk & Hp); [|done| | |].
  2: { apply (pages_sub _ _ (set_unodes s k) (owned t)); [apply set_unodes_pages, I|].
       intros x [Hx|(i & Hi & _)]; [done|lia]. }
  2: { intros x Hx. rewrite Z2Nat.id in Hx by lia. destruct (brk_fresh _ _ n _ I Hend Hx). auto using heap_user. }
  2: { intros j Hj. rewrite Z2Nat.id in Hj by lia. assert (span (brk_of t) n (brk_of t + j * 4096)) as Hx by (exists j; lia).
       destruct (brk_fresh _ _ n _ I Hend Hx) as [Hx1 Hx2]. exact (ui_guard _ _ I _ Hx1 Hx2). }
  rewrite Z2Nat.id, Z.add_0_l in Hp by lia. cbn [unodes set_unodes] in En.
  assert (forall x, owned t x -> kept R r s s1 x) as Hk'.
  { intros x Hx. eapply kept_trans; [apply (set_unodes_kept R r s k)|]. apply Hk. by left. }
  destruct Hc as [(-> & -> & -> & ->)|(-> & -> & -> & ->)].
  - destruct Hp as (P1 & _ & P3).
    assert (forall r' va, R r' -> tr s1 r' va = tr s r' va) as Htr.
    { intros r' va Hr'. rewrite P3; [done|done|]. intros x (i & Hi & _). lia. }
    assert (forall p, ka_live (ka_kfree nd (unodes s1)) p <-> ka_live s.(unodes) p) as Hl.
    { intros p. rewrite ka_free_live, En, Hml. split; [intros [[?|[_ ?]] ?]; done|].
      intros Hp. split; [by left|]. intros ->. by apply Hfr. }
    split; [|split; [intros x Hx; apply kept_set_unodes, Hk', Hx|left; by splits]].
    apply (inv_ext s); [exact I|apply set_unodes_pages, P1| |].
    + intros va. apply Htr, (ui_pages _ _ I).
    + intros p Hp. by apply Hl.
  - destruct Hp as (P1 & P2 & P3).
    assert (forall m, m ∈ t.(uheap_regions) -> ka_live s1.(unodes) m.(node_ptr)) as Hlv.
    { intros m Hm. rewrite En, Hml. left. by apply (ui_live _ _ I). }
    split; [|split; [exact Hk'|right]].
    + apply (alloc_success_inv s); try assumption.
      * rewrite En, Hml. right. done.
      * intros Hin. apply list_elem_of_fmap in Hin as (m & -> & Hm). apply Hfr; [done|]. by apply (ui_live _ _ I).
    + split; [apply (ui_brk _ _ I)|]. split; [done|]. split; [done|]. split; [by exists nd|]. split; [|exact P3].
      intros x Hx. destruct (P2 x Hx) as [(i & Hi & _)|Hz]; [lia|exact Hz].
Qed.

(** *** Free *)

Lemma take_region_Some l a n rest :
  take_region l a = Some (n, rest) ->
  exists l1 l2, l = l1 ++ n :: l2 /\ rest = l1 ++ l2 /\ n.(base) = a.
Proof.
  revert rest. induction l as [|m l IH]; intros rest; [done|]. cbn [take_region].
  destruct (Z.eqb_spec m.(base) a) as [Ha|].
  - intros [= <- <-]. by exists [], l.
  - destruct (take_region l a) as [[m' l']|]; [|done]. intros [= <- <-].
    destruct (IH l' eq_refl) as (l1 & l2 & -> & -> & Hb). by exists (m :: l1), l2.
Qed.

Lemma take_region_None l a : take_region l a = None -> forall n, n ∈ l -> n.(base) <> a.
Proof.
  induction l as [|m l IH]; intros Hn n Hin; [by apply elem_of_nil in Hin|]. cbn [take_region] in Hn.
  destruct (Z.eqb_spec m.(base) a) as [|Ha]; [done|]. destruct (take_region l a) as [[? ?]|] eqn:E; [done|].
  apply elem_of_cons in Hin as [->|Hin]; [exact Ha|by apply IH].
Qed.

(** Removing one region. *)
Section remove.
Variables (s : us (A := A) (K := K)) (t : ut) (l1 l2 : list uheap_region_t) (n : uheap_region_t).
Hypothesis I : uheap_inv s t.
Hypothesis El : t.(uheap_regions) = l1 ++ n :: l2.

Let t' : ut := mk_ut t.(upml4) t.(uheap_brk) (l1 ++ l2).

Lemma rest_apart m : m ∈ l1 ++ l2 -> above m n \/ above n m.
Proof.
  pose proof (ui_sorted _ _ I) as Hs. rewrite El in Hs. intros Hm. apply elem_of_app in Hm.
  apply StronglySorted_app in Hs as (H12 & _ & H2). apply StronglySorted_inv in H2 as [_ H2].
  rewrite Forall_forall in H2. destruct Hm as [Hm|Hm]; [left|right; by apply H2].
  apply H12; [done|]. by left.
Qed.

Lemma rest_owned x : owned t' x <-> owned t x /\ ~ span n.(base) n.(pages) x.
Proof.
  unfold owned, t'. cbn [uheap_regions]. rewrite El.
  assert (Forall (region_ok (brk_of t)) (l1 ++ n :: l2)) as Hr by (rewrite <- El; apply I).
  rewrite Forall_forall in Hr. split.
  - intros (m & Hm & Hx). split; [exists m; split; [set_solver|done]|].
    destruct Hx as (i & Hi & ->). intros (j & Hj & E). destruct (rest_apart m Hm) as [Hab|Hab]; unfold above in Hab; lia.
  - intros [(m & Hm & Hx) Hno]. exists m. split; [|done].
    apply elem_of_app in Hm as [Hm|Hm]; [set_solver|]. apply elem_of_cons in Hm as [->|Hm]; [done|set_solver].
Qed.

Lemma free_inv s' :
  pages_ok R r s' (fun x => owned t x /\ ~ span n.(base) n.(pages) x) ->
  (forall va, span n.(base) n.(pages) va -> tr s' r va = Unmapped) ->
  (forall r' va', R r' -> (forall va, span n.(base) n.(pages) va -> elsewhere r va r' va') -> tr s' r' va' = tr s r' va') ->
  s'.(unodes) = s.(unodes) ->
  uheap_inv (set_unodes s' (ka_kfree n.(node_ptr) s'.(unodes))) t'.
Proof.
  intros HP Hun Htr En.
  assert (forall x, span n.(base) n.(pages) x -> user_page x) as Har.
  { intros x Hx. apply (po_area _ _ _ _ (ui_pages _ _ I)). exists n. split; [rewrite El; set_solver|exact Hx]. }
  pose proof (ui_region _ _ I) as Hreg. pose proof (ui_sorted _ _ I) as Hso. pose proof (ui_nodup _ _ I) as Hnd.
  rewrite El in Hreg, Hso, Hnd. rewrite fmap_app, fmap_cons in Hnd.
  split.
  - exact (ui_as _ _ I).
  - exact (ui_brk _ _ I).
  - apply set_unodes_pages. apply (pages_sub _ _ _ _ _ HP). intros x. apply rest_owned.
  - intros va Hva Hno. rewrite rest_owned in Hno. change (tr s' r va = Unmapped).
    destruct (decide (span n.(base) n.(pages) va)) as [Hx|Hx]; [by apply Hun|].
    rewrite Htr; [apply (ui_guard _ _ I); tauto|apply HP|].
    intros x Hx'. apply page_elsewhere; [by apply Har|by apply heap_user|]. intros ->. by apply Hx.
  - cbn [uheap_regions t']. rewrite Forall_app, Forall_cons in Hreg. apply Forall_app. tauto.
  - cbn [uheap_regions t']. apply StronglySorted_app in Hso as (S1 & S2 & S3).
    apply StronglySorted_inv in S3 as [S3 _]. apply StronglySorted_app. split; [|done].
    intros x y Hx Hy. apply S1; [done|]. by right.
  - cbn [uheap_regions t']. rewrite fmap_app. apply NoDup_app in Hnd as (N1 & N2 & N3).
    apply NoDup_cons in N3 as [_ N3]. apply NoDup_app. split; [done|]. split; [set_solver|done].
  - cbn [uheap_regions t' unodes set_unodes]. intros m Hm. apply ka_free_live. rewrite En. split.
    + apply (ui_live _ _ I). rewrite El. set_solver.
    + apply NoDup_app in Hnd as (_ & N2 & N3). apply NoDup_cons in N3 as [N3 _]. intros E.
      apply elem_of_app in Hm as [Hm|Hm]; apply (list_elem_of_fmap_2 node_ptr) in Hm; rewrite E in Hm; set_solver.
Qed.
End remove.

(** What [uheap_free] leaves. *)
Definition free_post s s' t t' (a res : Z) : Prop :=
  uheap_inv s' t' /\
  (res = 0 /\ s' = s /\ t' = t /\ (forall n, n ∈ t.(uheap_regions) -> n.(base) <> a) \/
   res = 1 /\ exists n l1 l2, t.(uheap_regions) = l1 ++ n :: l2 /\ n.(base) = a /\
     t' = mk_ut t.(upml4) t.(uheap_brk) (l1 ++ l2) /\
     (forall x, span a n.(pages) x -> tr s' r x = Unmapped) /\
     (forall x, owned t' x -> kept R r s s' x) /\
     (forall r' va', R r' -> (forall va, span a n.(pages) va -> elsewhere r va r' va') -> tr s' r' va' = tr s r' va') /\
     udata s' = udata s /\
     (forall p, ka_live s'.(unodes) p <-> ka_live s.(unodes) p /\ p <> n.(node_ptr))).

Lemma uheap_free_spec s t a s' t' res :
  uheap_inv s t -> uheap_free s t a = (s', t', res) -> free_post s s' t t' a res.
Proof.
  intros I. unfold uheap_free. destruct (Z.eqb_spec a 0) as [->|Ha].
  { intros [= <- <- <-]. split; [exact I|]. left. splits. intros n Hn E.
    pose proof (ui_region _ _ I) as Hr. rewrite Forall_forall in Hr. destruct (Hr n Hn) as [Hb _].
    unfold UHEAP_BASE in Hb. lia. }
  destruct (take_region t.(uheap_regions) a) as [[n rest]|] eqn:Et.
  2: { intros [= <- <- <-]. split; [exact I|]. left. splits. by apply take_region_None. }
  apply take_region_Some in Et as (l1 & l2 & El & -> & Hb). rewrite (ui_as _ _ I).
  assert (n ∈ t.(uheap_regions)) as Hn by (rewrite El; set_solver).
  assert (0 <= n.(pages)) as Hp.
  { pose proof (ui_region _ _ I) as Hr. rewrite Forall_forall in Hr. destruct (Hr n Hn) as (_ & _ & ? & _). lia. }
  pose proof (unmap_range_spec R r s _ n.(base) n.(pages) Hp (ui_pages _ _ I) (fun x Hx => ex_intro _ n (conj Hn Hx)))
    as (A1 & A2 & A3 & A4 & A5 & A6).
  set (s1 := uheap_unmap_range s r n.(base) n.(pages)) in *. clearbody s1.
  intros E. apply pair_equal_spec in E as [E <-]. apply pair_equal_spec in E as [<- <-].
  pose proof (free_inv s t l1 l2 n I El s1 A1 A2 A6 A4) as I'. rewrite (ui_as _ _ I) in I'.
  split; [exact I'|]. right. split; [done|]. exists n, l1, l2. rewrite <- Hb, (ui_as _ _ I).
  splits; [|].
  - intros x Hx. apply kept_set_unodes. intros pa U. rewrite <- (ui_as _ _ I) in Hx.
    apply (rest_owned s t l1 l2 n I El) in Hx as [Hx Hnx]. split; [by apply A5|]. intros o _. by rewrite A3.
  - intros p. cbn [unodes set_unodes]. rewrite ka_free_live, A4. done.
Qed.

Lemma region_in s t n : uheap_inv s t -> n ∈ t.(uheap_regions) -> region_ok (brk_of t) n.
Proof. intros I Hn. pose proof (ui_region _ _ I) as Hr. rewrite Forall_forall in Hr. by apply Hr. Qed.

Lemma region_byte s t n k :
  uheap_inv s t -> n ∈ t.(uheap_regions) -> 0 <= k < n.(rsize) -> owned t (page_of (n.(base) + k)).
Proof.
  intros I Hn Hk. destruct (region_in s t n I Hn) as (_ & H2 & _ & _ & H5). exists n. split; [done|].
  apply page_of_span; [done|lia].
Qed.

(** *** Resizing in place *)

Lemma resize_region_spec l a n rest size :
  take_region l a = Some (n, rest) ->
  exists l1 l2, l = l1 ++ n :: l2 /\ n.(base) = a /\
    resize_region l a size = l1 ++ mk_region n.(node_ptr) n.(base) size n.(pages) :: l2.
Proof.
  revert rest. induction l as [|m l IH]; intros rest; [done|]. cbn [take_region].
  unfold resize_region. fold resize_region. destruct (Z.eqb_spec m.(base) a) as [Ha|].
  - intros [= <- <-]. by exists [], l.
  - destruct (take_region l a) as [[m' l']|]; [|done]. intros [= <- <-].
    destruct (IH l' eq_refl) as (l1 & l2 & -> & Hb & E). exists (m :: l1), l2. split; [done|]. split; [done|].
    cbn [app]. f_equal. exact E.
Qed.

Lemma resize_inv s t l1 l2 n n' :
  uheap_inv s t -> t.(uheap_regions) = l1 ++ n :: l2 ->
  n'.(node_ptr) = n.(node_ptr) -> n'.(base) = n.(base) -> n'.(pages) = n.(pages) -> 1 <= n'.(rsize) <= n.(pages) * 4096 ->
  let t' := mk_ut t.(upml4) t.(uheap_brk) (l1 ++ n' :: l2) in
  uheap_inv s t' /\ (forall x, owned t' x <-> owned t x).
Proof.
  intros I El E1 E2 E3 Hs t'.
  assert (forall m, m ∈ l1 ++ n' :: l2 -> exists m', m' ∈ l1 ++ n :: l2 /\ m'.(node_ptr) = m.(node_ptr) /\ m'.(base) = m.(base) /\ m'.(pages) = m.(pages)) as Hto.
  { intros m Hm. apply elem_of_app in Hm as [Hm|Hm]; [exists m; set_solver|].
    apply elem_of_cons in Hm as [->|Hm]; [exists n; set_solver|exists m; set_solver]. }
  assert (forall x, owned t' x <-> owned t x) as Hown.
  { intros x. unfold owned, t'. cbn [uheap_regions]. rewrite El. split.
    - intros (m & Hm & Hx). destruct (Hto m Hm) as (m' & Hm' & _ & Eb & Ep). exists m'. by rewrite Eb, Ep.
    - intros (m & Hm & Hx). apply elem_of_app in Hm as [Hm|Hm]; [exists m; set_solver|].
      apply elem_of_cons in Hm as [->|Hm]; [exists n'; rewrite E2, E3; set_solver|exists m; set_solver]. }
  split; [|exact Hown]. pose proof I as [H1 H2 H3 H4 H5 H6 H7 H8]. rewrite El in H5, H6, H7, H8.
  split; [exact H1|exact H2| | | | | |].
  - apply (pages_sub _ _ _ _ _ H3). intros x. apply Hown.
  - intros va Hva Hno. apply H4; [done|]. by rewrite <- Hown.
  - change (brk_of t') with (brk_of t). cbn [uheap_regions t']. rewrite Forall_app, Forall_cons in *. destruct H5 as (F1 & F2 & F3).
    split; [done|]. split; [|done]. revert F2. unfold region_ok. rewrite E2, E3. intros F2. lia.
  - cbn [uheap_regions t']. apply StronglySorted_app in H6 as (S1 & S2 & S3). apply StronglySorted_inv in S3 as [S3 S4].
    apply StronglySorted_app. split; [|split; [done|constructor; [done|]]].
    + intros x y Hx Hy. apply elem_of_cons in Hy as [->|Hy]; [|apply S1; [done|by right]].
      specialize (S1 x n Hx ltac:(by left)). unfold above in *. by rewrite E2, E3.
    + eapply Forall_impl; [exact S4|]. intros y. unfold above. by rewrite E2.
  - cbn [uheap_regions t']. by rewrite fmap_app, fmap_cons, E1, <- fmap_cons, <- fmap_app.
  - cbn [uheap_regions t']. intros m Hm. destruct (Hto m Hm) as (m' & Hm' & <- & _). by apply H8.
Qed.

(** *** Realloc *)

(** The region's first bytes, up to the smaller size, are at the new address;
    if it moved, the rest of the new region is zero. *)
Definition realloc_moved s s' t t' (a size b : Z) : Prop :=
  exists n n', n ∈ t.(uheap_regions) /\ n.(base) = a /\
    n' ∈ t'.(uheap_regions) /\ n'.(base) = b /\ n'.(rsize) = size /\
    (forall k, 0 <= k < Z.min n.(rsize) size -> byte r s' (b + k) = byte r s (a + k)) /\
    (a <> b -> ~ n ∈ t'.(uheap_regions) /\ forall k, n.(rsize) <= k < size -> byte r s' (b + k) = 0).

(** Copying the old region [n] into the fresh region and freeing it. *)
Lemma move_spec s s1 s' t t1 t' n size b copy res :
  uheap_inv s t -> n ∈ t.(uheap_regions) -> n.(pages) * 4096 < size ->
  alloc_post s s1 t t1 size b -> b <> 0 -> copy = n.(rsize) ->
  uheap_free (user_memcpy s1 r b n.(base) copy) t1 n.(base) = (s', t', res) ->
  uheap_inv s' t' /\
  (forall va, owned t (page_of va) -> owned t' (page_of va) -> byte r s' va = byte r s va) /\
  realloc_moved s s' t t' n.(base) size b.
Proof.
  intros I Hn Hsz (I1 & Hk & [[? _]|(Hb & Eb & Hs & (nd & Et1) & Hz & _)]) Hb0 -> E; [done|].
  set (c := (size + 4095) / 4096) in *. set (nr := mk_region nd b size c) in *.
  destruct (region_in s t n I Hn) as (R1 & R2 & R3 & R4 & R5).
  destruct (region_pages size Hs) as [Hc1 Hc2]. fold c in Hc1, Hc2.
  assert (nr ∈ t1.(uheap_regions)) as Hnr by (rewrite Et1; by left).
  assert (n ∈ t1.(uheap_regions)) as Hn1 by (rewrite Et1; by right).
  assert (forall x, owned t x -> owned t1 x) as Hown1.
  { intros x (m & Hm & Hx). exists m. split; [rewrite Et1; by right|done]. }
  destruct (user_memcpy_spec R r s1 (owned t1) b n.(base) n.(rsize)) as (M1 & M2 & M3 & M4 & M5); [lia|apply I1| |lia|].
  { intros k Hk'. split; [by apply (region_byte s1)|]. apply (region_byte s1 t1 nr); [done|done|]. simpl. lia. }
  set (s2 := user_memcpy s1 r b n.(base) n.(rsize)) in *. clearbody s2.
  assert (uheap_inv s2 t1) as I2.
  { apply (inv_ext s1); [done|done|by intros va; rewrite M1|by rewrite M2]. }
  destruct (uheap_free_spec s2 t1 n.(base) s' t' res I2 E) as [I' [(_ & _ & _ & Hno)|(_ & m & l1 & l2 & El & Em & Et' & _ & Hk' & _)]].
  { by destruct (Hno n Hn1). }
  assert (n = m) as <-.
  { rewrite El in Hn1. apply elem_of_app in Hn1 as [Hi|Hi]; [|apply elem_of_cons in Hi as [->|Hi]; [done|]];
      destruct (rest_apart s2 t1 l1 l2 m I2 El n ltac:(set_solver)) as [Hab|Hab]; unfold above in Hab; 
      assert (m ∈ t1.(uheap_regions)) as Hm by (rewrite El; set_solver);
      destruct (region_in s2 t1 m I2 Hm) as (_ & _ & Hp & _); lia. }
  assert (nr ∈ t'.(uheap_regions)) as Hnr'.
  { rewrite Et'. cbn [uheap_regions]. rewrite El in Hnr. apply elem_of_app in Hnr as [Hi|Hi]; [set_solver|].
    apply elem_of_cons in Hi as [E'|Hi]; [|set_solver]. apply (f_equal base) in E'. simpl in E'. lia. }
  assert (forall x, owned t' x -> owned t1 x) as Hown'.
  { intros x Hx. rewrite Et' in Hx. exact (proj1 (proj1 (rest_owned s2 t1 l1 l2 n I2 El x) Hx)). }
  assert (forall va, owned t' (page_of va) -> byte r s' va = byte r s2 va) as B2.
  { intros va Hva. apply (byte_kept R r s2 s' (owned t1) (owned t')); [done|apply I'|by apply Hown'|done|by apply Hk']. }
  assert (forall va, owned t (page_of va) -> byte r s1 va = byte r s va) as B1.
  { intros va Hva. apply (byte_kept R r s s1 (owned t) (owned t1)); [apply I|apply I1|done|by apply Hown1|by apply Hk]. }
  assert (forall k, 0 <= k < size -> owned t' (page_of (b + k))) as Hnb.
  { intros k Hk2. apply (region_byte s' t' nr); [done|done|exact Hk2]. }
  split; [exact I'|]. split.
  { intros va Hv Hv'. rewrite B2 by exact Hv'. rewrite <- B1 by exact Hv. apply M5; [by apply Hown'|].
    destruct (page_of_split va). destruct (owned_below s t _ I Hv). lia. }
  exists n, nr. splits.
  - intros k Hk2. rewrite B2 by (apply Hnb; lia). rewrite M4 by lia. apply B1. apply (region_byte s); [done|done|lia].
  - intros Hne. split.
    + rewrite Et'. cbn [uheap_regions]. intros Hi.
      destruct (rest_apart s2 t1 l1 l2 n I2 El n Hi) as [Hab|Hab]; unfold above in Hab; lia.
    + intros k Hk2. assert (0 <= k < size) as Hk3 by lia. rewrite B2 by (by apply Hnb).
      rewrite M5; [|by apply Hown', Hnb|lia].
      assert (span b c (page_of (b + k))) as Hsp.
      { apply page_of_span; [rewrite Eb; apply (ui_brk _ _ I)|lia]. }
      destruct (Hz _ Hsp) as (pa & U & Hz0). destruct (page_of_split (b + k)) as [Ev Ho]. unfold byte. rewrite Ev at 1.
      rewrite (phys_upage R r s1 (owned t1) _ pa); [by apply Hz0|apply I1| |done|done].
      apply (po_area _ _ _ _ (ui_pages _ _ I1)), Hown', Hnb. done.
Qed.

(** *** Reset *)

(** [uheap_reset] releases every node and nothing else, and starts an empty list;
    the pages are left to the destruction of the address space. *)
Lemma uheap_reset_nodes s t p :
  let '(s', t') := uheap_reset s t in
  s'.(uv) = s.(uv) /\ t'.(uheap_regions) = [] /\ brk_of t' = UHEAP_BASE /\
  (ka_live s'.(unodes) p <-> ka_live s.(unodes) p /\ p ∉ node_ptr <$> t.(uheap_regions)).
Proof.
  unfold uheap_reset. split; [done|]. split; [done|]. split; [done|]. cbn [unodes set_unodes].
  generalize s.(unodes). induction t.(uheap_regions) as [|n l IH]; intros k; cbn [foldl fmap list_fmap].
  - split; [|tauto]. intros Hp. split; [done|]. by intros ?%elem_of_nil.
  - rewrite IH, ka_free_live, not_elem_of_cons. tauto.
Qed.

(** ** Theorems *)

(** C19. [uheap_alloc]: under the invariant a call either returns 0 and leaves every
    translation, every byte of the task's regions and the set of live kernel
    blocks as they were (the partly mapped range is rolled back), or returns the
    old break, at which [size] bytes rounded up to pages are mapped, zeroed, and
    followed by an unmapped guard page; the invariant holds afterwards. *)
Theorem uheap_alloc_correct s t size s' t' a :
  0 <= size -> uheap_inv s t -> uheap_alloc s t size = (s', t', a) -> alloc_post s s' t t' size a.
Proof. apply uheap_alloc_spec. Qed.

(** [uheap_free] accepts exactly the base addresses of the task's regions: any
    other pointer changes nothing; a region is unmapped as a whole, its node is
    released, and all other pages and their contents stay. *)
Theorem uheap_free_correct s t a s' t' res :
  uheap_inv s t -> uheap_free s t a = (s', t', res) -> free_post s s' t t' a res.
Proof. apply uheap_free_spec. Qed.

(** [uheap_realloc] of a region: the invariant is kept, every byte of the other
    regions is kept, on failure the old region is untouched, and on success the
    region at the new address starts with the old contents up to the smaller of
    the two sizes, the rest being zero when the region moved. *)
Theorem uheap_realloc_correct s t a size s' t' b :
  0 < size -> a <> 0 -> uheap_inv s t -> uheap_realloc s t a size = (s', t', b) ->
  uheap_inv s' t' /\
  (forall va, owned t (page_of va) -> owned t' (page_of va) -> byte r s' va = byte r s va) /\
  (b = 0 -> t' = t) /\
  (b <> 0 -> realloc_moved s s' t t' a size b).
Proof.
  intros Hsz Ha I. unfold uheap_realloc.
  rewrite (proj2 (Z.eqb_neq _ _) Ha), (proj2 (Z.eqb_neq size 0) ltac:(lia)).
  destruct (Z.ltb_spec UHEAP_MAX_ALLOC size). { intros [= <- <- <-]. by splits. }
  destruct (take_region t.(uheap_regions) a) as [[n rest]|] eqn:Et.
  2: { intros [= <- <- <-]. by splits. }
  destruct (Z.leb_spec size (n.(pages) * 4096)).
  - destruct (resize_region_spec _ _ _ _ size Et) as (l1 & l2 & El & Hb & ->).
    intros E. apply pair_equal_spec in E as [E <-]. apply pair_equal_spec in E as [<- <-].
    destruct (resize_inv s t l1 l2 n (mk_region n.(node_ptr) n.(base) size n.(pages)) I El) as [I' Ho]; [done..|simpl; lia|].
    split; [exact I'|]. split; [done|]. split; [lia|].
    intros _. eexists n, _. split; [rewrite El; set_solver|]. split; [done|]. split; [cbn [uheap_regions]; apply elem_of_app; right; by left|].
      split; [done|]. split; [done|]. split; [by rewrite Hb|]. intros Hne. by destruct Hne.
  - apply take_region_Some in Et as (l1 & l2 & El & _ & Hb).
    assert (n ∈ t.(uheap_regions)) as Hn by (rewrite El; set_solver). destruct (region_in s t n I Hn) as (_ & _ & _ & _ & Hr).
    destruct (uheap_alloc s t size) as [[s1 t1] nb] eqn:Ea. apply uheap_alloc_spec in Ea; [|lia|done].
    destruct (Z.eqb_spec nb 0) as [->|Hnb].
    + intros E. apply pair_equal_spec in E as [E <-]. apply pair_equal_spec in E as [<- <-].
      destruct Ea as (I1 & Hk & [(_ & -> & _)|(Hz & _)]); [|by unfold UHEAP_BASE in Hz; lia].
      splits. intros va Hv _. by apply (byte_kept R r s s1 (owned t) (owned t)); [apply I|apply I1| | |apply Hk].
    + rewrite (proj2 (Z.ltb_lt n.(rsize) size)) by lia. rewrite (ui_as _ _ (proj1 Ea)), <- Hb.
      destruct (uheap_free _ t1 n.(base)) as [[s3 t3] res] eqn:Ef. intros E.
      apply pair_equal_spec in E as [E <-]. apply pair_equal_spec in E as [<- <-].
      destruct (move_spec s s1 s3 t t1 t3 n size nb _ res I Hn ltac:(lia) Ea Hnb eq_refl Ef) as (W1 & W2 & W3).
      by splits.
Qed.
End heap.

(** ** Witnesses *)

#[local] Existing Instance Pmm.pmm_allocator.

(** A task with an empty heap in the address space of [demo_vm], and the same task
    after an allocation of 5000 bytes. *)
Definition u0 : us (A := Pmm.pmm) (K := KwmThm.demo_heap) := mk_us demo_vm ∅ ∅.
Definition t0 : ut := mk_ut 0x1000 0 [].
Definition u1 : us (A := Pmm.pmm) (K := KwmThm.demo_heap) := (uheap_alloc u0 t0 5000).1.1.
Definition t1 : ut := (uheap_alloc u0 t0 5000).1.2.

Lemma u0_inv : uheap_inv (eq 0x1000) 0x1000 u0 t0.
Proof.
  assert (forall va, ~ owned t0 va) as Hno by (intros va (n & Hn & _); by apply elem_of_nil in Hn).
  split; [reflexivity| | | | | | |].
  - by vm_compute.
  - split; [exact demo_vm_ok|reflexivity| | |]; intros; exfalso; by eapply Hno.
  - intros va _ _. unfold translate, walk. change (mem (uv u0)) with (∅ : gmap Z Z). by rewrite ld_empty.
  - constructor.
  - constructor.
  - constructor.
  - intros n Hn. by apply elem_of_nil in Hn.
Qed.

Lemma u1_alloc : uheap_alloc u0 t0 5000 = (u1, t1, (uheap_alloc u0 t0 5000).2).
Proof. unfold u1, t1. by destruct (uheap_alloc u0 t0 5000) as [[? ?] ?]. Qed.

Lemma u1_inv : uheap_inv (eq 0x1000) 0x1000 u1 t1.
Proof. exact (proj1 (uheap_alloc_spec _ _ u0 t0 5000 _ _ _ ltac:(lia) u0_inv u1_alloc)). Qed.

Lemma uheap_alloc_correct_witness :
  (uheap_alloc u0 t0 5000).2 = 0x10000000 /\
  alloc_post (eq 0x1000) 0x1000 u0 u1 t0 t1 5000 (uheap_alloc u0 t0 5000).2.
Proof.
  split; [by vm_compute|].
  exact (uheap_alloc_correct (eq 0x1000) 0x1000 u0 t0 5000 u1 t1 _ ltac:(lia) u0_inv u1_alloc).
Defined.

Lemma uheap_free_correct_witness :
  (uheap_free u1 t1 0x10000000).2 = 1 /\
  free_post (eq 0x1000) 0x1000 u1 (uheap_free u1 t1 0x10000000).1.1 t1 (uheap_free u1 t1 0x10000000).1.2
    0x10000000 (uheap_free u1 t1 0x10000000).2.
Proof.
  split; [by vm_compute|]. apply (uheap_free_correct (eq 0x1000) 0x1000); [exact u1_inv|].
  by destruct (uheap_free u1 t1 0x10000000) as [[? ?] ?].
Defined.

Lemma uheap_realloc_correct_witness :
  (uheap_realloc u1 t1 0x10000000 20000).2 = 0x10003000 /\
  ((uheap_realloc u1 t1 0x10000000 20000).2 <> 0 ->
   realloc_moved 0x1000 u1 (uheap_realloc u1 t1 0x10000000 20000).1.1 t1
    (uheap_realloc u1 t1 0x10000000 20000).1.2 0x10000000 20000 (uheap_realloc u1 t1 0x10000000 20000).2).
Proof.
  split; [by vm_compute|].
  refine (proj2 (proj2 (proj2 (uheap_realloc_correct (eq 0x1000) 0x1000 u1 t1 0x10000000 20000 _ _ _ _ _ u1_inv _)))); [lia|lia|].
  by destruct (uheap_realloc u1 t1 0x10000000 20000) as [[? ?] ?].
Defined.
End UheapThm.
