(* ===== verification/Elf.v ===== *)
(** * ELF loader (src/kernel/elf.c, src/include/elf.h)

    [elf_load_file] reads a file of KyuzenFS into a kernel buffer, validates its
    headers and builds the user image in a given address space.

    The user space is the record [us] of [Uheap]: page tables and frames, the
    bytes of the data frames, and the kernel heap, here a [ByteHeap].  The
    stores to user addresses go through the translation of CR3
    ([cpu_translate]), as the processor does them; a store to an address without
    translation is the outcome [PageFault].  The R/W bits of the entries are not
    consulted: the loader maps every page writable.  The SMAP window around the
    stores is part of [Usercopy].

    Bytes read behind the end of the file buffer come from [over], and [freed]
    gives the bytes of the buffer after [kfree]: both are contents of the kernel
    heap the file does not determine.  Loops with a condition take [fuel]. *)

From S2P Require Import Prelude Pmm Paging KString Kfs Vfs Uheap.
From stdpp Require Import base numbers list gmap.
From Stdlib Require Import ZArith Lia.

#[local] Open Scope Z_scope.

Module Elf.
Import Pmm Paging KString Kfs Uheap.

Definition ELFCLASS32 : Z := 1.
Definition ELFCLASS64 : Z := 2.
Definition USER_STACK_SIZE : Z := 256 * 1024.
Definition USER_STACK_TOP : Z := 0x0C000000.
Definition UINT64_MAX : Z := 0xFFFFFFFFFFFFFFFF.
Definition PT_LOAD : Z := 1.

(** A call returns, stops at a page fault of the kernel, or loops. *)
Inductive outcome (X : Type) := Value (x : X) | PageFault | NoFuel.
Arguments Value {X}.
Arguments PageFault {X}.
Arguments NoFuel {X}.

Definition obind {X Y} (o : outcome X) (k : X -> outcome Y) : outcome Y :=
  match o with Value x => k x | PageFault => PageFault | NoFuel => NoFuel end.

(** ** Headers *)

(** Little-endian fields at offset [o] of the buffer [f]. *)
Definition rd16 (f : Z -> Z) (o : Z) : Z := u8 (f o) + 2 ^ 8 * u8 (f (o + 1)).
Definition rd32 (f : Z -> Z) (o : Z) : Z := rd16 f o + 2 ^ 16 * rd16 f (o + 2).
Definition rd64 (f : Z -> Z) (o : Z) : Z := rd32 f o + 2 ^ 32 * rd32 f (o + 4).

(** The fields the loader reads. *)
Record ehdr := mk_ehdr { e_entry : Z; e_phoff : Z; e_phnum : Z }.
Record phdr := mk_phdr { p_type : Z; p_offset : Z; p_vaddr : Z; p_filesz : Z; p_memsz : Z }.

Definition elf64_ehdr_t (f : Z -> Z) : ehdr := mk_ehdr (rd64 f 24) (rd64 f 32) (rd16 f 56).
Definition elf64_phdr_t (f : Z -> Z) (o : Z) : phdr :=
  mk_phdr (rd32 f o) (rd64 f (o + 8)) (rd64 f (o + 16)) (rd64 f (o + 32)) (rd64 f (o + 40)).
Definition elf32_ehdr_t (f : Z -> Z) : ehdr := mk_ehdr (rd32 f 24) (rd32 f 28) (rd16 f 44).
Definition elf32_phdr_t (f : Z -> Z) (o : Z) : phdr :=
  mk_phdr (rd32 f o) (rd32 f (o + 4)) (rd32 f (o + 8)) (rd32 f (o + 16)) (rd32 f (o + 20)).
Definition SIZEOF_PHDR64 : Z := 56.
Definition SIZEOF_PHDR32 : Z := 32.

(** [/apps/<name>] for a name without a leading slash, cut to the 71 characters
    of the buffer. *)
Definition elf_path (filename : list Z) : list Z :=
  if str filename 0 =? 47 then filename else [47; 97; 112; 112; 115; 47] ++ take 65 filename.

(** ** The processor's view of memory *)

Definition canonical (va : Z) : bool := (va <? 2 ^ 47) || (2 ^ 64 - 2 ^ 47 <=? va).

(** The physical address behind [va], with the page sizes of the processor. *)
Definition cpu_translate (m : gmap Z Z) (pml4 va : Z) : option Z :=
  if negb (canonical va) then None
  else
    let e4 := ld m (slot pml4 (PML4_IDX va)) in
    if negb (present e4) then None
    else
      let e3 := ld m (slot (frame_of e4) (PDPT_IDX va)) in
      if negb (present e3) then None
      else if huge e3 then Some (Z.ldiff (frame_of e3) (Z.ones 30) + va mod 2 ^ 30)
      else
        let e2 := ld m (slot (frame_of e3) (PD_IDX va)) in
        if negb (present e2) then None
        else if huge e2 then Some (Z.ldiff (frame_of e2) (Z.ones 21) + va mod 2 ^ 21)
        else
          let e1 := ld m (slot (frame_of e2) (PT_IDX va)) in
          if negb (present e1) then None else Some (frame_of e1 + va mod 4096).

Section elf.
Context {A : Type} `{FA : FrameAllocator A} {H : Type} `{BH : ByteHeap H}.
Abbreviation space := (us (A := A) (K := H)).

Definition cpu_store (s : space) (va b : Z) : outcome space :=
  match cpu_translate s.(uv).(mem) s.(uv).(cr3) va with
  | Some p => Value (set_udata s (st s.(udata) p b))
  | None => PageFault
  end.

(** [memcpy] and [memset] to an address of the current address space. *)
Definition memcpy_to (s : space) (dst : Z) (src : Z -> Z) (n : Z) : outcome space :=
  for_loop 0 n (fun i o => obind o (fun s => cpu_store s (u64 (dst + i)) (src i))) (Value s).

Definition memset_to (s : space) (dst n : Z) : outcome space := memcpy_to s dst (fun _ => 0) n.

(** ** Segments *)

(** The page loop of an ELF64 segment. *)
Fixpoint map_segment (fuel : nat) (s : space) (page seg_end target_pml4 : Z) : outcome (space * bool) :=
  match fuel with
  | O => NoFuel
  | S fuel =>
      if negb (page <? seg_end) then Value (s, true)
      else if negb (paging_is_mapped_into s.(uv) page target_pml4) then
        let (v, ok) := vmm_alloc_page_into s.(uv) page 7 target_pml4 in
        if negb ok then Value (set_uv s v, false)
        else map_segment fuel (set_uv s v) (u64 (page + 4096)) seg_end target_pml4
      else map_segment fuel s (u64 (page + 4096)) seg_end target_pml4
  end.

(** Copying the file part and clearing the rest. *)
Definition fill_segment (s : space) (f : Z -> Z) (ph : phdr) : outcome space :=
  obind (memcpy_to s ph.(p_vaddr) (fun i => f (ph.(p_offset) + i)) (u32 ph.(p_filesz))) (fun s =>
  if ph.(p_filesz) <? ph.(p_memsz)
  then memset_to s (u64 (ph.(p_vaddr) + ph.(p_filesz))) (u32 (ph.(p_memsz) - ph.(p_filesz)))
  else Value s).

(** One turn of the loop over the program headers; [false] rejects the file. *)
Definition load_segment64 (fuel : nat) (s : space) (f : Z -> Z) (file_size target_pml4 : Z) (ph : phdr)
  : outcome (space * bool) :=
  if negb (ph.(p_type) =? PT_LOAD) then Value (s, true)
  else if UINT64_MAX - ph.(p_vaddr) <? ph.(p_memsz) then Value (s, false)
  else
    let seg_end := ph.(p_vaddr) + ph.(p_memsz) in
    if (file_size <? ph.(p_offset)) || (file_size - ph.(p_offset) <? ph.(p_filesz)) then Value (s, false)
    else
      obind (map_segment fuel s (Z.ldiff ph.(p_vaddr) 0xFFF) seg_end target_pml4) (fun '(s, ok) =>
      if negb ok then Value (s, false) else obind (fill_segment s f ph) (fun s => Value (s, true))).

(** The block loop of an ELF32 segment: one page per 4 MiB. *)
Fixpoint map_blocks (fuel : nat) (s : space) (block seg_end target_pml4 : Z) : outcome (space * bool) :=
  match fuel with
  | O => NoFuel
  | S fuel =>
      if negb (block <? seg_end) then Value (s, true)
      else
        let (v, ok) := vmm_alloc_page_into s.(uv) block 7 target_pml4 in
        if negb ok then Value (set_uv s v, false)
        else map_blocks fuel (set_uv s v) (u32 (block + 0x400000)) seg_end target_pml4
  end.

Definition load_segment32 (fuel : nat) (s : space) (f : Z -> Z) (file_size target_pml4 : Z) (ph : phdr)
  : outcome (space * bool) :=
  if negb (ph.(p_type) =? PT_LOAD) then Value (s, true)
  else
    let seg_end := u32 (ph.(p_vaddr) + ph.(p_memsz)) in
    if (file_size <? ph.(p_offset)) || (file_size - ph.(p_offset) <? ph.(p_filesz)) then Value (s, false)
    else
      obind (map_blocks fuel s (Z.land ph.(p_vaddr) 0xFFC00000) seg_end target_pml4) (fun '(s, ok) =>
      if negb ok then Value (s, false) else obind (fill_segment s f ph) (fun s => Value (s, true))).

(** The loop over the program headers, left at the first rejected one. *)
Fixpoint load_segments (load : space -> phdr -> outcome (space * bool)) (s : space) (phs : list phdr)
  : outcome (space * bool) :=
  match phs with
  | [] => Value (s, true)
  | ph :: phs => obind (load s ph) (fun '(s, ok) => if negb ok then Value (s, false) else load_segments load s phs)
  end.

(** The program headers in file order. *)
Definition phdrs64 (f : Z -> Z) (hdr : ehdr) : list phdr :=
  map (fun i => elf64_phdr_t f (hdr.(e_phoff) + i * SIZEOF_PHDR64)) (zrange 0 hdr.(e_phnum)).
Definition phdrs32 (f : Z -> Z) (hdr : ehdr) : list phdr :=
  map (fun i => elf32_phdr_t f (hdr.(e_phoff) + i * SIZEOF_PHDR32)) (zrange 0 hdr.(e_phnum)).

(** Bug 3.2 guard: the program headers lie in the file. *)
Definition phdrs_outside (hdr : ehdr) (file_size size : Z) : bool :=
  (file_size <? hdr.(e_phoff)) || (file_size - hdr.(e_phoff) <? hdr.(e_phnum) * size).

(** The stack pages, with [n] left; the body of the loop is that of
    [uheap_alloc], without a rollback. *)
Fixpoint map_stack (n : nat) (s : space) (page target_pml4 : Z) : space * bool :=
  match n with
  | O => (s, true)
  | S n =>
      let '(s, ok) := map_one s target_pml4 page in
      if negb ok then (s, false) else map_stack n s (page + 4096) target_pml4
  end.

(** ** The loader *)

Context (over : Z -> Z) (freed : list Z -> Z -> Z).

(** The byte at offset [i] of the file buffer. *)
Definition buf_at (b : list Z) (i : Z) : Z :=
  if (0 <=? i) && (i <? Z.of_nat (length b)) then str b i else over i.

Definition free_buffer (s : space) (b : list Z) : space := set_unodes s (bh_kfree b s.(unodes)).

(** The result: the state, the return value and [*out_stack_top]. *)
Definition load_elf64 (fuel : nat) (s : space) (b : list Z) (file_size : Z) (want_stack : bool) (target_pml4 : Z)
  : outcome (space * Z * Z) :=
  if target_pml4 =? PHYS_NULL then Value (free_buffer s b, 0, 0)
  else
    let f := buf_at b in
    let hdr := elf64_ehdr_t f in
    if phdrs_outside hdr file_size SIZEOF_PHDR64 then Value (free_buffer s b, 0, 0)
    else
      obind (load_segments (fun s => load_segment64 fuel s f file_size target_pml4) s (phdrs64 f hdr)) (fun '(s, ok) =>
      if negb ok then Value (free_buffer s b, 0, 0)
      else
        let entry := hdr.(e_entry) in
        let s := free_buffer s b in
        if want_stack then
          let '(s, ok) := map_stack (Z.to_nat (USER_STACK_SIZE / 4096)) s (USER_STACK_TOP - USER_STACK_SIZE) target_pml4 in
          if negb ok then Value (s, 0, 0) else Value (s, entry, USER_STACK_TOP)
        else Value (s, entry, 0)).

Definition load_elf32 (fuel : nat) (s : space) (b : list Z) (file_size target_pml4 : Z) : outcome (space * Z * Z) :=
  if target_pml4 =? PHYS_NULL then Value (free_buffer s b, 0, 0)
  else
    let f := buf_at b in
    let hdr := elf32_ehdr_t f in
    if phdrs_outside hdr file_size SIZEOF_PHDR32 then Value (free_buffer s b, 0, 0)
    else
      obind (load_segments (fun s => load_segment32 fuel s f file_size target_pml4) s (phdrs32 f hdr)) (fun '(s, ok) =>
      if negb ok then Value (free_buffer s b, 0, 0)
      else Value (free_buffer s b, (elf32_ehdr_t (freed b)).(e_entry), 0)).

Definition elf_load_file (fuel : nat) (fs : kfs) (s : space) (filename : list Z) (want_stack : bool) (target_pml4 : Z)
  : outcome (space * Z * Z) :=
  let load := elf_path filename in
  match kfs_get_file_size fs load with
  | None => NoFuel
  | Some file_size =>
      if file_size =? 0 then Value (s, 0, 0)
      else
        let '(h, ob) := bh_kmalloc file_size s.(unodes) in
        let s := set_unodes s h in
        match ob with
        | None => Value (s, 0, 0)
        | Some junk =>
            match kfs_read_to_buffer fs load file_size with
            | None => NoFuel
            | Some (_, bytes) =>
                let b := put_bytes junk 0 bytes in
                let f := buf_at b in
                if negb (f 0 =? 0x7F) || negb (f 1 =? 69) || negb (f 2 =? 76) || negb (f 3 =? 70)
                then Value (free_buffer s b, 0, 0)
                else
                  let elf_class := f 4 in
                  if elf_class =? ELFCLASS64 then load_elf64 fuel s b file_size want_stack target_pml4
                  else if elf_class =? ELFCLASS32 then load_elf32 fuel s b file_size target_pml4
                  else Value (free_buffer s b, 0, 0)
            end
        end
  end.
End elf.
End Elf.
