(* ===== verification/ElfThm.v ===== *)
(** * Properties of the ELF loader

    The headers are checked before they are used: no byte behind the file buffer
    influences the result.  A file whose segments lie in the user half is loaded
    byte for byte into a fresh address space, with a zeroed stack. *)

From S2P Require Import Prelude Pmm Paging PagingSpec PagingOps KString Kfs KfsBoot Vfs VfsThm Uheap UserPages Elf.
From stdpp Require Import base numbers list gmap.
From Stdlib Require Import ZArith Lia.

#[local] Open Scope Z_scope.

Module ElfThm.
Import Pmm Paging PagingSpec PagingOps KString Kfs Uheap UserPages Elf.

(** ** Reads of the file buffer *)

Definition agree (f g : Z -> Z) (n : Z) : Prop := forall i, 0 <= i < n -> f i = g i.

Lemma u8_bound x : 0 <= u8 x < 256.
Proof. apply (wrap_bound 8). lia. Qed.

Lemma rd16_bound f o : 0 <= rd16 f o < 2 ^ 16.
Proof. unfold rd16. pose proof (u8_bound (f o)). pose proof (u8_bound (f (o + 1))). lia. Qed.

Lemma rd32_bound f o : 0 <= rd32 f o < 2 ^ 32.
Proof. unfold rd32. pose proof (rd16_bound f o). pose proof (rd16_bound f (o + 2)). lia. Qed.

Lemma rd64_bound f o : 0 <= rd64 f o < 2 ^ 64.
Proof. unfold rd64. pose proof (rd32_bound f o). pose proof (rd32_bound f (o + 4)). lia. Qed.

Lemma rd16_ext f g n o : agree f g n -> 0 <= o -> o + 2 <= n -> rd16 f o = rd16 g o.
Proof. intros Ha ? ?. unfold rd16. by rewrite !Ha by lia. Qed.

Lemma rd32_ext f g n o : agree f g n -> 0 <= o -> o + 4 <= n -> rd32 f o = rd32 g o.
Proof. intros Ha ? ?. unfold rd32. by rewrite !(rd16_ext f g n) by (done || lia). Qed.

Lemma rd64_ext f g n o : agree f g n -> 0 <= o -> o + 8 <= n -> rd64 f o = rd64 g o.
Proof. intros Ha ? ?. unfold rd64. by rewrite !(rd32_ext f g n) by (done || lia). Qed.

Lemma ehdr64_ext f g n : agree f g n -> 64 <= n -> elf64_ehdr_t f = elf64_ehdr_t g.
Proof.
  intros Ha Hn. unfold elf64_ehdr_t. by rewrite !(rd64_ext f g n), !(rd16_ext f g n) by (done || lia).
Qed.

Lemma ehdr32_ext f g n : agree f g n -> 64 <= n -> elf32_ehdr_t f = elf32_ehdr_t g.
Proof.
  intros Ha Hn. unfold elf32_ehdr_t. by rewrite !(rd32_ext f g n), !(rd16_ext f g n) by (done || lia).
Qed.

(** A header the guard accepts lies in the file. *)
Lemma phdrs_inside (hdr : ehdr) n sz i :
  0 <= hdr.(e_phoff) -> 0 < sz -> phdrs_outside hdr n sz = false -> 0 <= i < hdr.(e_phnum) ->
  0 <= hdr.(e_phoff) + i * sz /\ hdr.(e_phoff) + i * sz + sz <= n.
Proof. unfold phdrs_outside. intros Ho Hs Hg Hi. zprop. nia. Qed.

Lemma phdrs64_ext f g n :
  agree f g n -> phdrs_outside (elf64_ehdr_t f) n SIZEOF_PHDR64 = false ->
  phdrs64 f (elf64_ehdr_t f) = phdrs64 g (elf64_ehdr_t f).
Proof.
  intros Ha Hg. unfold phdrs64. apply map_ext_in. intros i Hi. apply list_elem_of_In, elem_of_zrange in Hi.
  destruct (phdrs_inside (elf64_ehdr_t f) n SIZEOF_PHDR64 i (proj1 (rd64_bound f 32)) ltac:(done) Hg Hi).
  unfold elf64_phdr_t, SIZEOF_PHDR64 in *. by rewrite !(rd64_ext f g n), !(rd32_ext f g n) by (done || lia).
Qed.

Lemma phdrs32_ext f g n :
  agree f g n -> phdrs_outside (elf32_ehdr_t f) n SIZEOF_PHDR32 = false ->
  phdrs32 f (elf32_ehdr_t f) = phdrs32 g (elf32_ehdr_t f).
Proof.
  intros Ha Hg. unfold phdrs32. apply map_ext_in. intros i Hi. apply list_elem_of_In, elem_of_zrange in Hi.
  destruct (phdrs_inside (elf32_ehdr_t f) n SIZEOF_PHDR32 i (proj1 (rd32_bound f 28)) ltac:(done) Hg Hi).
  unfold elf32_phdr_t, SIZEOF_PHDR32 in *. by rewrite !(rd32_ext f g n) by (done || lia).
Qed.

(** Fields of a program header are unsigned. *)
Definition phdr_nonneg (ph : phdr) : Prop := 0 <= ph.(p_offset) /\ 0 <= ph.(p_filesz).

Lemma phdrs64_nonneg f hdr ph : ph ∈ phdrs64 f hdr -> phdr_nonneg ph.
Proof.
  intros Hin. apply list_elem_of_In, in_map_iff in Hin as (i & <- & _).
  unfold phdr_nonneg, elf64_phdr_t. cbn [p_offset p_filesz]. split; apply rd64_bound.
Qed.

Lemma phdrs32_nonneg f hdr ph : ph ∈ phdrs32 f hdr -> phdr_nonneg ph.
Proof.
  intros Hin. apply list_elem_of_In, in_map_iff in Hin as (i & <- & _).
  unfold phdr_nonneg, elf32_phdr_t. cbn [p_offset p_filesz]. split; apply rd32_bound.
Qed.

Section bounds.
Context {A : Type} `{FA : FrameAllocator A} {H : Type} `{BO : ByteHeapOk H}.
Abbreviation space := (us (A := A) (K := H)).

Lemma fill_segment_ext (s : space) f g n ph :
  agree f g n -> phdr_nonneg ph -> ph.(p_offset) <= n -> ph.(p_filesz) <= n - ph.(p_offset) ->
  fill_segment s f ph = fill_segment s g ph.
Proof.
  intros Ha [Ho Hf] H1 H2. unfold fill_segment. f_equal. unfold memcpy_to. apply for_loop_ext.
  intros i o Hi. assert (u32 ph.(p_filesz) <= ph.(p_filesz)) by (apply Z.mod_le; lia). rewrite Ha by lia. done.
Qed.

Lemma load_segment64_ext fuel (s : space) f g n tgt ph :
  agree f g n -> phdr_nonneg ph -> load_segment64 fuel s f n tgt ph = load_segment64 fuel s g n tgt ph.
Proof.
  intros Ha Hp. unfold load_segment64. destruct (negb _); [done|]. destruct (_ <? p_memsz ph); [done|].
  destruct (_ || _) eqn:Eg; [done|]. zprop. destruct (map_segment _ _ _ _ _) as [[s' [|]]| |]; [|done..].
  cbn [obind negb]. by rewrite (fill_segment_ext s' f g n).
Qed.

Lemma load_segment32_ext fuel (s : space) f g n tgt ph :
  agree f g n -> phdr_nonneg ph -> load_segment32 fuel s f n tgt ph = load_segment32 fuel s g n tgt ph.
Proof.
  intros Ha Hp. unfold load_segment32. destruct (negb _); [done|].
  destruct (_ || _) eqn:Eg; [done|]. zprop. destruct (map_blocks _ _ _ _ _) as [[s' [|]]| |]; [|done..].
  cbn [obind negb]. by rewrite (fill_segment_ext s' f g n).
Qed.

Lemma load_segments_ext (l l' : space -> phdr -> outcome (space * bool)) phs :
  (forall s ph, ph ∈ phs -> l s ph = l' s ph) -> forall s, load_segments l s phs = load_segments l' s phs.
Proof.
  induction phs as [|ph phs IH]; intros He s; [done|]. cbn [load_segments]. rewrite He by by left.
  destruct (l' s ph) as [[s' [|]]| |]; [|done..]. cbn [obind negb]. apply IH. intros s2 ph2 Hin. apply He. by right.
Qed.

Lemma buf_agree over1 over2 b n : n <= Z.of_nat (length b) -> agree (buf_at over1 b) (buf_at over2 b) n.
Proof. intros Hn i Hi. unfold buf_at. zcase; zcase; cbn [andb]; try lia; done. Qed.

End bounds.

(** ** The image *)

(** The byte a segment puts at [va]. *)
Definition seg_at (f : Z -> Z) (ph : phdr) (va : Z) : option Z :=
  if (ph.(p_type) =? PT_LOAD) && (ph.(p_vaddr) <=? va) && (va <? ph.(p_vaddr) + ph.(p_memsz)) then
    Some (if va <? ph.(p_vaddr) + ph.(p_filesz) then f (ph.(p_offset) + (va - ph.(p_vaddr))) else 0)
  else None.

(** The image of the program headers: a later segment covers an earlier one. *)
Fixpoint image (f : Z -> Z) (phs : list phdr) (va : Z) : option Z :=
  match phs with
  | [] => None
  | ph :: phs => match image f phs va with Some b => Some b | None => seg_at f ph va end
  end.

Definition STACK_BOTTOM : Z := USER_STACK_TOP - USER_STACK_SIZE.

(** A segment in the user half, off the stack, whose page loop ends within
    [fuel] turns. *)
Definition seg_ok (fuel : nat) (ph : phdr) : Prop :=
  ph.(p_type) = PT_LOAD ->
  0 <= ph.(p_vaddr) /\ 0 <= ph.(p_filesz) <= ph.(p_memsz) /\ ph.(p_memsz) < 2 ^ 32 /\
  ph.(p_vaddr) + ph.(p_memsz) <= 2 ^ 47 /\ ph.(p_memsz) / 4096 + 3 <= Z.of_nat fuel /\
  (ph.(p_vaddr) + ph.(p_memsz) <= STACK_BOTTOM \/ USER_STACK_TOP <= ph.(p_vaddr)).

Section load.
Context {A : Type} `{FA : FrameAllocator A} {H : Type} `{BH : ByteHeap H} (R : Z -> Prop) (r : Z).
Abbreviation space := (us (A := A) (K := H)).
Implicit Types (s : space) (P : Z -> Prop).
Abbreviation tr s := (translate (mem (uv s))).
Abbreviation ph_of s := (phys_of (uv s) r).

(** The mapped pages of the user half are those in [P], and CR3 is this space. *)
Record space_ok s P : Prop := {
  so_pages : pages_ok R r s P;
  so_only : forall va, user_page va -> P va \/ tr s r va = Unmapped;
  so_cr3 : s.(uv).(cr3) = r;
}.

Lemma page_of_user va : 0 <= va < 2 ^ 47 -> user_page (page_of va).
Proof. unfold user_page, page_of. intros Hva. split; divlia. Qed.

(** *** Mapping *)

Definition map_seg_post s s' P P' (page seg_end : Z) (ok : bool) : Prop :=
  space_ok s' P' /\ udata s' = udata s /\ unodes s' = unodes s /\
  (forall x, P x -> P' x /\ kept R r s s' x) /\
  (forall x, P' x -> P x \/ page <= x < seg_end) /\
  (ok = true -> forall x, user_page x -> page <= x < seg_end -> P' x) /\
  (forall x pa, P' x -> ~ P x -> upage R r s' x pa -> fa_avail (frames (uv s)) pa = true) /\
  (forall pa, fa_avail (frames (uv s)) pa = false -> fa_avail (frames (uv s')) pa = false).

(** One page of the loop that is not mapped yet. *)
Lemma alloc_page_step s P page v ok :
  space_ok s P -> user_page page -> ~ P page -> vmm_alloc_page_into (uv s) page 7 r = (v, ok) ->
  map_seg_post s (set_uv s v) P (fun x => P x \/ (ok = true /\ x = page)) page (page + 4096) ok.
Proof.
  intros [HP Ho Hc] Hpg Hn E. set (s' := set_uv s v).
  pose proof (alloc_into_spec R _ _ _ _ _ _ (po_vm _ _ _ _ HP) (po_root _ _ _ _ HP) E) as Hpost.
  destruct (alloc_post_pages R r s s' P page ok HP Hpg Hn Hpost) as (Hoth & Hkeep & Hok & Hf).
  destruct Hpost as (_ & (_ & _ & Hc' & _) & Hav & _).
  assert (pages_ok R r s' (fun x => P x \/ (ok = true /\ x = page))) as HP'.
  { destruct ok; [destruct (Hok eq_refl) as [HP' _]|destruct (Hf eq_refl) as [HP' _]];
      apply (pages_sub _ _ _ _ _ HP'); intros x [?|[? ?]]; auto; discriminate. }
  split; [|split; [done|split; [done|split; [|split; [|split; [|split; [|exact Hav]]]]]]].
  - split; [exact HP'| |by rewrite <- Hc].
    intros va Hva. destruct (Ho va Hva) as [|Hu]; [by left; left|]. destruct ok.
    + destruct (Z.eq_dec va page) as [->|Hne]; [left; by right|]. right.
      rewrite Hoth; [done|apply HP|]. apply page_elsewhere; [done|done|congruence].
    + right. destruct (Hf eq_refl) as [_ ->]; [done|apply HP].
  - intros x Hx. split; [by left|]. intros pa U. split; [by apply Hkeep|done].
  - intros x [Hx|[_ ->]]; [by left|right; lia].
  - intros -> x Hx Hr. right. split; [done|]. destruct Hx as [_ Hx], Hpg as [_ Hpg]. divlia.
  - intros x pa [Hx|[-> ->]] Hnx U; [done|]. destruct (Hok eq_refl) as (_ & pa' & U' & Ha).
    by rewrite (upage_fun R r s' page pa pa' U U').
Qed.

Lemma map_seg_post_trans s s1 s' P P1 P' page seg_end ok :
  user_page page -> page < seg_end ->
  map_seg_post s s1 P P1 page (page + 4096) true -> map_seg_post s1 s' P1 P' (page + 4096) seg_end ok ->
  map_seg_post s s' P P' page seg_end ok.
Proof.
  intros Hpg Hlt (A1 & A2 & A3 & A4 & A5 & A6 & A7 & A8) (B1 & B2 & B3 & B4 & B5 & B6 & B7 & B8).
  split; [exact B1|]. split; [congruence|]. split; [congruence|]. split; [|split; [|split; [|split]]].
  - intros x Hx. destruct (A4 x Hx) as [Hx1 K1]. destruct (B4 x Hx1) as [Hx2 K2]. split; [exact Hx2|].
    exact (kept_trans R r _ _ _ _ K1 K2).
  - intros x Hx. destruct (B5 x Hx) as [Hx1|Hx1]; [|right; lia]. destruct (A5 x Hx1) as [Hx2|Hx2]; [left; exact Hx2|].
    right. pose proof (po_area _ _ _ _ (so_pages _ _ B1) x Hx) as [_ Hm]. destruct Hpg as [_ Hpm].
    destruct (Z.le_gt_cases seg_end x); [|lia]. exfalso. divlia.
  - intros Hok x Hx Hr. destruct (Z.le_gt_cases (page + 4096) x) as [Hge|Hlt']; [apply B6; [done|done|lia]|].
    apply B4, A6; [done|done|lia].
  - intros x pa Hx Hnx U. destruct (B5 x Hx) as [Hx1|Hx1].
    + destruct (po_map _ _ _ _ (so_pages _ _ A1) x Hx1) as [pa1 U1]. destruct (B4 x Hx1) as [_ K].
      destruct (K pa1 U1) as [U2 _]. rewrite (upage_fun R r s' x pa pa1 U U2). by apply (A7 x).
    + destruct (fa_avail (frames (uv s)) pa) eqn:E; [done|]. apply A8 in E.
      destruct (Z.le_gt_cases (page + 4096) x); [|lia].
      assert (~ P1 x) as Hn1. { intros Hx1'. destruct (A5 x Hx1'); [done|lia]. }
      by rewrite (B7 x pa Hx Hn1 U) in E.
  - intros pa Ha. by apply B8, A8.
Qed.

Lemma map_seg_post_refl s P page seg_end ok :
  space_ok s P -> (ok = true -> forall x, user_page x -> page <= x < seg_end -> P x) ->
  map_seg_post s s P P page seg_end ok.
Proof.
  intros Hs Hc. split; [exact Hs|]. split; [done|]. split; [done|]. split; [|split; [|split; [exact Hc|split]]].
  - intros x Hx. split; [exact Hx|]. intros pa U. split; [exact U|done].
  - intros x Hx. by left.
  - done.
  - done.
Qed.

(** The loop maps every page of the segment or reports the first failure, and
    ends. *)
Lemma map_segment_spec fuel : forall s P page seg_end,
  space_ok s P -> 0 <= page -> page mod 4096 = 0 -> seg_end <= 2 ^ 47 ->
  seg_end <= page + (Z.of_nat fuel - 1) * 4096 -> (0 < fuel)%nat ->
  exists s' ok P', map_segment fuel s page seg_end r = Value (s', ok) /\ map_seg_post s s' P P' page seg_end ok.
Proof.
  induction fuel as [|fuel IH]; intros s P page seg_end Hs H0 Hm He Hf Hp; [lia|]. cbn [map_segment].
  destruct (Z.ltb_spec page seg_end) as [Hlt|]; cbn [negb].
  2: { exists s, true, P. split; [done|]. apply map_seg_post_refl; [done|]. intros _ x _ Hx. lia. }
  assert (user_page page) as Hpg by (split; [lia|done]).
  rewrite (is_mapped_translate (uv s) r page) by (apply (root_nonzero R (uv s)); apply Hs).
  rewrite (wrap_small 64) by lia.
  assert ((0 < fuel)%nat) as Hp' by lia.
  assert (P page \/ tr s r page = Unmapped) as Hcase by by apply (so_only _ _ Hs).
  destruct (match tr s r page with Unmapped => false | _ => true end) eqn:Etr; cbn [negb].
  - assert (P page) as HPp. { destruct Hcase as [|E]; [done|]. by rewrite E in Etr. }
    destruct (IH s P (page + 4096) seg_end Hs) as (s' & ok & P' & E & Hpost); [lia|divlia|lia|lia|done|].
    exists s', ok, P'. split; [exact E|]. apply (map_seg_post_trans s s s' P P P'); [done|done| |done].
    apply map_seg_post_refl; [done|]. intros _ x [_ Hx] Hr. assert (x = page) as -> by divlia. done.
  - destruct (vmm_alloc_page_into (uv s) page 7 r) as [v ok] eqn:Ea.
    assert (~ P page) as Hnp.
    { intros Hx. destruct (po_map _ _ _ _ (so_pages _ _ Hs) page Hx) as [pa U].
      rewrite (up_tr _ _ _ _ _ U) in Etr. discriminate. }
    pose proof (alloc_page_step s P page v ok Hs Hpg Hnp Ea) as Hst. destruct ok; cbn [negb].
    + destruct (IH _ _ (page + 4096) seg_end (proj1 Hst)) as (s' & ok' & P' & E & Hpost); [lia|divlia|lia|lia|done|].
      exists s', ok', P'. split; [exact E|]. by eapply map_seg_post_trans.
    + eexists (set_uv s v), false, _. split; [done|].
      destruct Hst as (A1 & A2 & A3 & A4 & A5 & A6 & A7 & A8).
      split; [exact A1|]. split; [done|]. split; [done|]. split; [exact A4|]. split; [|by split; [|split]].
      intros x Hx. destruct (A5 x Hx) as [|Hr]; [by left|]. destruct Hx as [|[? _]]; [by left|discriminate].
Qed.

(** *** Stores *)

Lemma cpu_phys s P va :
  space_ok s P -> P (page_of va) -> cpu_translate (mem (uv s)) (cr3 (uv s)) va = Some (ph_of s va).
Proof.
  intros Hs Hp. rewrite (so_cr3 _ _ Hs). pose proof (so_pages _ _ Hs) as HP.
  pose proof (po_area _ _ _ _ HP _ Hp) as Hu. destruct (page_of_split va) as [Ev Ho].
  destruct (po_map _ _ _ _ HP _ Hp) as [pa U].
  assert (idxs va = idxs (page_of va)) as Ei.
  { destruct Hu. apply idxs_page; [lia..|]. unfold PAGE_SIZE. divlia. }
  pose proof (up_tr _ _ _ _ _ U) as Etr. rewrite <- (tr_same_page R r s _ va (po_vm _ _ _ _ HP) (po_root _ _ _ _ HP) Ei) in Etr.
  assert (canonical va = true) as Hc. { unfold canonical. destruct Hu. zcases; try done. divlia. }
  unfold phys_of, select_pml4, PHYS_NULL.
  rewrite (proj2 (Z.eqb_neq _ _) (root_nonzero R s.(uv) r (po_vm _ _ _ _ HP) (po_root _ _ _ _ HP))). cbn [negb].
  revert Etr. unfold translate, cpu_translate, walk. rewrite Hc. cbn [negb].
  destruct (present (ld _ (slot r _))); [|done]. cbn [negb].
  destruct (present (ld _ (slot _ (PDPT_IDX va)))); [|done]. cbn [negb]. destruct (huge _); [done|].
  destruct (present (ld _ (slot _ (PD_IDX va)))); [|done]. cbn [negb]. destruct (huge _); [done|].
  by destruct (present _).
Qed.

(** A copy to mapped pages does not fault and writes exactly its range. *)
Lemma memcpy_to_spec s P dst src n :
  space_ok s P -> 0 <= n -> 0 <= dst -> dst + n <= 2 ^ 47 -> (forall k, 0 <= k < n -> P (page_of (dst + k))) ->
  exists m, memcpy_to s dst src n = Value (set_udata s m) /\
    (forall k, 0 <= k < n -> ld m (ph_of s (dst + k)) = src k) /\
    (forall a, (forall k, 0 <= k < n -> a <> ph_of s (dst + k)) -> ld m a = ld (udata s) a).
Proof.
  intros Hs Hn Hd He Hp. unfold memcpy_to.
  apply (for_loop_inv (fun i o => exists m, o = Value (set_udata s m) /\
    (forall k, 0 <= k < i -> ld m (ph_of s (dst + k)) = src k) /\
    (forall a, (forall k, 0 <= k < i -> a <> ph_of s (dst + k)) -> ld m a = ld (udata s) a))); [done| |].
  { exists (udata s). split; [by destruct s|]. split; [intros; lia|done]. }
  intros i o Hi (m & -> & I1 & I2). cbn [obind]. unfold cpu_store. rewrite (wrap_small 64) by lia.
  change (uv (set_udata s m)) with (uv s). rewrite (cpu_phys s P) by (done || apply Hp; lia).
  eexists. split; [reflexivity|]. cbn [udata set_udata]. split.
  - intros k Hk. rewrite ld_st. destruct (Z.eqb_spec (ph_of s (dst + i)) (ph_of s (dst + k))) as [E|E].
    + apply (phys_inj R r s P) in E; [|apply Hs|apply Hp; lia..]. f_equal. lia.
    + apply I1. destruct (Z.eq_dec k i) as [->|]; [done|lia].
  - intros a Ha. rewrite ld_st_ne; [|intros E; by apply (Ha i); [lia|]]. apply I2. intros k Hk. apply Ha. lia.
Qed.

Lemma space_ok_data s P m : space_ok s P -> space_ok (set_udata s m) P.
Proof. intros [H1 H2 H3]. split; [by apply set_udata_pages|done|done]. Qed.

(** Filling a mapped segment. *)
Lemma fill_segment_spec s P f ph :
  space_ok s P -> 0 <= ph.(p_vaddr) -> 0 <= ph.(p_filesz) <= ph.(p_memsz) -> ph.(p_memsz) < 2 ^ 32 ->
  ph.(p_vaddr) + ph.(p_memsz) <= 2 ^ 47 ->
  (forall k, 0 <= k < ph.(p_memsz) -> P (page_of (ph.(p_vaddr) + k))) ->
  exists m, fill_segment s f ph = Value (set_udata s m) /\
    (forall k, 0 <= k < ph.(p_memsz) ->
       ld m (ph_of s (ph.(p_vaddr) + k)) = if k <? ph.(p_filesz) then f (ph.(p_offset) + k) else 0) /\
    (forall a, (forall k, 0 <= k < ph.(p_memsz) -> a <> ph_of s (ph.(p_vaddr) + k)) -> ld m a = ld (udata s) a).
Proof.
  intros Hs Hv Hf Hm He Hp. unfold fill_segment. rewrite (wrap_small 32 ph.(p_filesz)) by lia.
  destruct (memcpy_to_spec s P ph.(p_vaddr) (fun i => f (ph.(p_offset) + i)) ph.(p_filesz)) as (m1 & -> & C1 & C2);
    [done|lia|lia|lia|intros; apply Hp; lia|].
  cbn [obind]. destruct (Z.ltb_spec ph.(p_filesz) ph.(p_memsz)) as [Hlt|].
  2: { exists m1. split; [done|]. replace ph.(p_memsz) with ph.(p_filesz) by lia. split; [|exact C2].
       intros k Hk. rewrite (proj2 (Z.ltb_lt k _)) by lia. by apply C1. }
  rewrite (wrap_small 64), (wrap_small 32) by lia. unfold memset_to.
  destruct (memcpy_to_spec (set_udata s m1) P (ph.(p_vaddr) + ph.(p_filesz)) (fun _ => 0) (ph.(p_memsz) - ph.(p_filesz)))
    as (m2 & -> & D1 & D2); [by apply space_ok_data|lia|lia|lia| |].
  { intros k Hk. rewrite <- Z.add_assoc. apply Hp. lia. }
  change (uv (set_udata s m1)) with (uv s) in *. cbn [udata set_udata] in D2.
  exists m2. split; [done|]. split.
  - intros k Hk. destruct (Z.ltb_spec k ph.(p_filesz)) as [Hk'|Hk'].
    + rewrite D2; [by apply C1; lia|]. intros j Hj E. apply (phys_inj R r s P) in E; [lia|apply Hs|apply Hp; lia|].
      rewrite <- Z.add_assoc. apply Hp. lia.
    + specialize (D1 (k - ph.(p_filesz)) ltac:(lia)). by replace (ph.(p_vaddr) + ph.(p_filesz) + (k - ph.(p_filesz))) with (ph.(p_vaddr) + k) in D1 by lia.
  - intros a Ha. rewrite D2; [apply C2; intros k Hk; apply Ha; lia|].
    intros k Hk. rewrite <- Z.add_assoc. apply Ha. lia.
Qed.

(** *** Segments *)

Lemma ldiff_page va : Z.ldiff va 0xFFF = page_of va.
Proof.
  change 0xFFF with (Z.ones 12). rewrite Z.ldiff_ones_r, Z.shiftr_div_pow2, Z.shiftl_mul_pow2 by lia.
  unfold page_of. change (2 ^ 12) with 4096. divlia.
Qed.

Definition stack_addr (x : Z) : Prop := STACK_BOTTOM <= x < USER_STACK_TOP.

(** The page at [x] holds bytes of a segment. *)
Definition segment_page (phs : list phdr) (x : Z) : Prop :=
  exists ph, ph ∈ phs /\ ph.(p_type) = PT_LOAD /\ page_of ph.(p_vaddr) <= x < ph.(p_vaddr) + ph.(p_memsz).

Definition seg_post s s' P P' (f : Z -> Z) (phs : list phdr) (ok : bool) : Prop :=
  space_ok s' P' /\ unodes s' = unodes s /\ (forall x, P x -> P' x) /\
  (forall x, P' x -> P x \/ segment_page phs x) /\
  (ok = true -> forall va, match image f phs va with
     | Some b => P' (page_of va) /\ byte r s' va = b
     | None => P (page_of va) -> byte r s' va = byte r s va
     end).

(** The pages of a segment after its page loop. *)
Lemma segment_pages s s' P P' fuel ph :
  seg_ok fuel ph -> ph.(p_type) = PT_LOAD ->
  map_seg_post s s' P P' (page_of ph.(p_vaddr)) (ph.(p_vaddr) + ph.(p_memsz)) true ->
  forall k, 0 <= k < ph.(p_memsz) -> P' (page_of (ph.(p_vaddr) + k)).
Proof.
  intros Hok Ht (_ & _ & _ & _ & _ & Hall & _) k Hk. destruct (Hok Ht) as (S1 & S2 & S3 & S4 & _).
  apply Hall; [done|apply page_of_user; lia|].
  destruct (page_of_split ph.(p_vaddr)), (page_of_split (ph.(p_vaddr) + k)). unfold page_of in *. divlia.
Qed.

Lemma segment_off_stack fuel phs x : Forall (seg_ok fuel) phs -> segment_page phs x -> ~ stack_addr x.
Proof.
  rewrite Forall_forall. intros Hall (ph & Hin & Ht & Hx). destruct (Hall ph Hin Ht) as (_ & _ & _ & _ & _ & Hoff). unfold stack_addr, STACK_BOTTOM, USER_STACK_TOP, USER_STACK_SIZE, page_of in *.
  divlia.
Qed.

(** Bytes outside the segment keep their value. *)
Lemma segment_frame s s1 P P' m ph page seg_end va :
  space_ok s P -> map_seg_post s s1 P P' page seg_end true ->
  (forall k, 0 <= k < ph.(p_memsz) -> P' (page_of (ph.(p_vaddr) + k))) ->
  (forall a, (forall k, 0 <= k < ph.(p_memsz) -> a <> ph_of s1 (ph.(p_vaddr) + k)) -> ld m a = ld (udata s1) a) ->
  P (page_of va) -> (forall k, 0 <= k < ph.(p_memsz) -> va <> ph.(p_vaddr) + k) ->
  byte r (set_udata s1 m) va = byte r s va.
Proof.
  intros Hs (M1 & _ & _ & M4 & _) Hpg F2 Hp Hne. destruct (M4 _ Hp) as [Hp' Hk].
  rewrite <- (byte_kept R r s s1 P P' va); [|apply Hs|apply M1|done|done|done].
  unfold byte. change (uv (set_udata s1 m)) with (uv s1). cbn [udata set_udata]. apply F2.
  intros k Hk' E. apply (phys_inj R r s1 P') in E; [by apply (Hne k)|apply M1|done|by apply Hpg].
Qed.

Lemma load_segment64_spec fuel s P f n ph :
  space_ok s P -> seg_ok fuel ph ->
  exists s' ok P', load_segment64 fuel s f n r ph = Value (s', ok) /\ seg_post s s' P P' f [ph] ok.
Proof.
  intros Hs Hok. unfold load_segment64.
  assert (seg_post s s P P f [ph] false) as Hrej by (split; [done|]; split; [done|]; split; [done|]; split; [by left|done]).
  destruct (Z.eqb_spec ph.(p_type) PT_LOAD) as [Ht|Ht]; cbn [negb].
  2: { exists s, true, P. split; [done|]. split; [done|]. split; [done|]. split; [done|]. split; [by left|].
       intros _ va. cbn [image]. unfold seg_at. by rewrite (proj2 (Z.eqb_neq _ _) Ht). }
  destruct (Hok Ht) as (S1 & S2 & S3 & S4 & S5 & S6).
  destruct (_ <? p_memsz ph); [by exists s, false, P|]. destruct (_ || _); [by exists s, false, P|].
  rewrite ldiff_page.
  destruct (map_segment_spec fuel s P (page_of ph.(p_vaddr)) (ph.(p_vaddr) + ph.(p_memsz))) as (s1 & ok & P' & -> & Hm);
    [done|unfold page_of; divlia|unfold page_of; divlia|lia|unfold page_of; divlia|divlia|].
  cbn [obind]. pose proof Hm as (M1 & M2 & M3 & M4 & M5 & _).
  assert (forall x, P' x -> P x \/ segment_page [ph] x) as Hst.
  { intros x Hx. destruct (M5 x Hx) as [|Hr]; [by left|right]. exists ph. split; [by apply list_elem_of_singleton|done]. }
  destruct ok; cbn [negb].
  2: { exists s1, false, P'. split; [done|]. split; [done|]. split; [done|]. split; [apply M4|]. split; [done|done]. }
  pose proof (segment_pages s s1 P P' fuel ph Hok Ht Hm) as Hpg.
  destruct (fill_segment_spec s1 P' f ph M1 S1 S2 S3 S4 Hpg) as (m & -> & F1 & F2). cbn [obind].
  exists (set_udata s1 m), true, P'. split; [done|]. split; [by apply space_ok_data|]. split; [done|].
  split; [apply M4|]. split; [exact Hst|]. intros _ va. cbn [image]. unfold seg_at. rewrite Ht, Z.eqb_refl. cbn [andb].
  destruct (Z.leb_spec ph.(p_vaddr) va) as [Hle|Hgt]; [destruct (Z.ltb_spec va (ph.(p_vaddr) + ph.(p_memsz))) as [Hlt|Hge]|]; cbn [andb].
  - specialize (F1 (va - ph.(p_vaddr)) ltac:(lia)). specialize (Hpg (va - ph.(p_vaddr)) ltac:(lia)).
    replace (ph.(p_vaddr) + (va - ph.(p_vaddr))) with va in F1, Hpg by lia. split; [exact Hpg|].
    unfold byte. change (uv (set_udata s1 m)) with (uv s1). cbn [udata set_udata]. rewrite F1.
    replace (va - ph.(p_vaddr) <? ph.(p_filesz)) with (va <? ph.(p_vaddr) + ph.(p_filesz)) by (zcases; done). done.
  - intros Hp. apply (segment_frame s s1 P P' m ph _ _ va Hs Hm Hpg F2 Hp). intros k Hk. lia.
  - intros Hp. apply (segment_frame s s1 P P' m ph _ _ va Hs Hm Hpg F2 Hp). intros k Hk. lia.
Qed.

Lemma load_segments_spec fuel f n phs : forall s P,
  space_ok s P -> Forall (seg_ok fuel) phs ->
  exists s' ok P', load_segments (fun s => load_segment64 fuel s f n r) s phs = Value (s', ok) /\
    seg_post s s' P P' f phs ok.
Proof.
  induction phs as [|ph phs IH]; intros s P Hs Hall.
  { exists s, true, P. split; [done|]. split; [done|]. split; [done|]. split; [done|]. split; [by left|done]. }
  apply Forall_cons in Hall as [Hph Hall]. cbn [load_segments].
  destruct (load_segment64_spec fuel s P f n ph Hs Hph) as (s1 & ok1 & P1 & -> & (A1 & A2 & A3 & A4 & A5)). cbn [obind].
  assert (forall x, segment_page [ph] x -> segment_page (ph :: phs) x) as Hseg.
  { intros x (ph' & ->%list_elem_of_singleton & Hx). exists ph. split; [by left|done]. }
  destruct ok1; cbn [negb].
  2: { exists s1, false, P1. split; [done|]. split; [done|]. split; [done|]. split; [done|]. split; [|done].
       intros x Hx. destruct (A4 x Hx); [by left|right; auto]. }
  destruct (IH s1 P1 A1 Hall) as (s' & ok & P' & E & (B1 & B2 & B3 & B4 & B5)). exists s', ok, P'. split; [exact E|].
  split; [exact B1|]. split; [congruence|]. split; [auto|]. split.
  { intros x Hx. destruct (B4 x Hx) as [Hx1|(ph' & Hin & Hx1)].
    - destruct (A4 x Hx1); [by left|right; auto].
    - right. exists ph'. split; [by right|done]. }
  intros Hok va. specialize (A5 eq_refl va). specialize (B5 Hok va). cbn [image] in *.
  destruct (image f phs va) as [b|]; [exact B5|]. destruct (seg_at f ph va) as [b|].
  - destruct A5 as [Hp Eb]. split; [by apply B3|]. by rewrite B5.
  - intros Hp. rewrite B5 by by apply A3. by apply A5.
Qed.

(** *** The stack *)

(** No page of the user half is mapped outside [P]. *)
Definition only s P : Prop := forall va, user_page va -> P va \/ tr s r va = Unmapped.

Lemma map_one_only s P page s1 ok :
  pages_ok R r s P -> only s P -> user_page page -> ~ P page -> map_one s r page = (s1, ok) ->
  only s1 (fun x => P x \/ (ok = true /\ x = page)).
Proof.
  intros HP Ho Hu Hn E va Hva. destruct (map_one_spec R r s P page s1 ok HP Hu Hn E) as (Hoth & _ & _ & _ & Hf).
  destruct (Ho va Hva) as [|Hun]; [by left; left|]. destruct ok.
  - destruct (Z.eq_dec va page) as [->|Hne]; [left; by right|]. right.
    rewrite Hoth; [done|apply HP|]. apply page_elsewhere; [done|done|congruence].
  - right. destruct (Hf eq_refl) as (_ & _ & ->); [done|apply HP].
Qed.

Lemma map_stack_spec n : forall s P page,
  pages_ok R r s P -> only s P -> (forall x, span page (Z.of_nat n) x -> user_page x /\ ~ P x) ->
  exists s' ok P', map_stack n s page r = (s', ok) /\ unodes s' = unodes s /\ pages_ok R r s' P' /\
    (forall x, P x -> P' x /\ kept R r s s' x) /\
    (ok = true -> only s' P' /\ (forall x, P' x -> P x \/ span page (Z.of_nat n) x) /\
       forall x, span page (Z.of_nat n) x -> P' x /\ zeroed R r s' x).
Proof.
  induction n as [|n IH]; intros s P page HP Ho Hun; cbn [map_stack].
  { exists s, true, P. split; [done|]. split; [done|]. split; [done|]. split.
    - intros x Hx. split; [done|]. by intros pa U.
    - intros _. split; [done|]. split; [by left|]. intros x (i & Hi & _). lia. }
  assert (span page (Z.of_nat (S n)) page) as H0 by (exists 0; lia). destruct (Hun page H0) as [Hu Hn].
  destruct (map_one s r page) as [s1 ok] eqn:E.
  destruct (map_one_spec R r s P page s1 ok HP Hu Hn E) as (_ & En & _ & Hok & Hf).
  destruct (map_one_kept R r s P page s1 ok HP Hu Hn E) as (Hk & Hz).
  pose proof (map_one_only s P page s1 ok HP Ho Hu Hn E) as Ho1.
  destruct ok; cbn [negb].
  - destruct (Hok eq_refl) as [HP1 _].
    destruct (IH s1 (fun x => P x \/ x = page) (page + 4096) HP1) as (s' & ok & P' & E' & En' & HP' & Hk' & Hz').
    { intros va Hva. destruct (Ho1 va Hva) as [[|[_ ?]]|]; auto. }
    { intros x (i & Hi & ->). destruct (Hun (page + 4096 + i * 4096)) as [Hu' Hn']; [exists (i + 1); lia|].
      split; [done|]. intros [Hx|Hx]; [done|lia]. }
    exists s', ok, P'. split; [exact E'|]. split; [congruence|]. split; [done|]. split.
    + intros x Hx. destruct (Hk' x (or_introl Hx)) as [Hx' K]. split; [done|]. exact (kept_trans R r _ _ _ _ (Hk x Hx) K).
    + intros Hok'. destruct (Hz' Hok') as (Z1 & Z2 & Z3). split; [exact Z1|]. split.
      { intros x Hx. destruct (Z2 x Hx) as [[?| ->]|(i & Hi & ->)]; [by left|by right|right; exists (i + 1); lia]. }
      intros x (i & Hi & ->). destruct (Z.eq_dec i 0) as [->|Hi0].
      * rewrite Z.add_0_r. destruct (Hk' page (or_intror eq_refl)) as [Hx' K]. split; [done|].
        exact (kept_zeroed R r _ _ _ K (Hz eq_refl)).
      * apply Z3. exists (i - 1). lia.
  - destruct (Hf eq_refl) as (HP1 & _). exists s1, false, P. split; [done|]. split; [done|]. split; [done|]. split; [|done].
    intros x Hx. split; [done|by apply Hk].
Qed.

(** *** The whole file *)

(** A loaded program: the entry point; the pages of the user half that are mapped
    are those of the segments and of the stack, no others; the bytes of the image;
    the zeroed stack.  The rest of the first and last page of a segment is not
    determined ([elf_segment_residue]). *)
Definition loaded s' (f : Z -> Z) (ret top : Z) : Prop :=
  let hdr := elf64_ehdr_t f in
  ret = hdr.(e_entry) /\ top = USER_STACK_TOP /\
  exists P', pages_ok R r s' P' /\
    (forall x, user_page x -> tr s' r x <> Unmapped ->
       segment_page (phdrs64 f hdr) x \/ span STACK_BOTTOM (USER_STACK_SIZE / 4096) x) /\
    (forall va b, image f (phdrs64 f hdr) va = Some b -> P' (page_of va) /\ byte r s' va = b) /\
    (forall x, span STACK_BOTTOM (USER_STACK_SIZE / 4096) x -> P' x /\ zeroed R r s' x).

Lemma load_elf64_spec over fuel s b n :
  let f := buf_at over b in
  space_ok s (fun _ => False) -> Forall (seg_ok fuel) (phdrs64 f (elf64_ehdr_t f)) ->
  exists s' ret top, load_elf64 over fuel s b n true r = Value (s', ret, top) /\
    unodes s' = bh_kfree b (unodes s) /\ (ret = 0 /\ top = 0 \/ loaded s' f ret top).
Proof.
  intros f Hs Hall. unfold load_elf64. fold f.
  assert (r <> 0) as Hr by (apply (root_nonzero R (uv s)); apply Hs).
  unfold PHYS_NULL. rewrite (proj2 (Z.eqb_neq _ _) Hr).
  destruct (phdrs_outside _ _ _); [eexists _, _, _; split; [done|]; split; [done|by left]|].
  destruct (load_segments_spec fuel f n _ s _ Hs Hall) as (s1 & ok & P1 & -> & (A1 & A2 & _ & A4 & A5)). cbn [obind].
  destruct ok; cbn [negb]; [|eexists _, _, _; split; [done|]; split; [cbn [unodes free_buffer set_unodes]; by rewrite A2|by left]].
  specialize (A5 eq_refl).
  set (s2 := free_buffer s1 b). assert (pages_ok R r s2 P1) as HP2 by (apply set_unodes_pages, A1).
  destruct (map_stack_spec (Z.to_nat (USER_STACK_SIZE / 4096)) s2 P1 STACK_BOTTOM HP2 (so_only _ _ A1)) as (s3 & ok & P3 & E & En & HP3 & Hk & Hz).
  { intros x (i & Hi & ->). change (Z.of_nat (Z.to_nat (USER_STACK_SIZE / 4096))) with 64 in Hi. split.
    - unfold user_page, STACK_BOTTOM, USER_STACK_TOP, USER_STACK_SIZE. split; [lia|divlia].
    - intros Hx. destruct (A4 _ Hx) as [[]|Hst]. apply (segment_off_stack _ _ _ Hall Hst). unfold stack_addr, STACK_BOTTOM, USER_STACK_TOP, USER_STACK_SIZE. lia. }
  fold STACK_BOTTOM. rewrite E. destruct ok; cbn [negb].
  2: { eexists _, _, _. split; [done|]. split; [rewrite En; cbn; by rewrite A2|by left]. }
  eexists _, _, _. split; [done|]. split; [rewrite En; cbn; by rewrite A2|right]. split; [done|]. split; [done|].
  destruct (Hz eq_refl) as (Z1 & Z2 & Z3). exists P3. split; [done|]. split; [|split; [|exact Z3]].
  { intros x Hx Hm. destruct (Z1 x Hx) as [Hp|]; [|done]. destruct (Z2 x Hp) as [Hp1|]; [left|by right].
    by destruct (A4 x Hp1). }
  intros va c Hi. specialize (A5 va). rewrite Hi in A5. destruct A5 as [Hp Eb]. destruct (Hk _ Hp) as [Hp3 K].
  split; [done|]. rewrite (byte_kept R r s2 s3 P1 P3 va HP2 HP3 Hp Hp3 K). exact Eb.
Qed.

(** C20. Loading an ELF64 file into a fresh address space that CR3 points to, when
    every loadable segment lies in the user half and off the stack range, is shorter
    than 4 GiB and has no more bytes in the file than in memory: the call returns (no
    page fault, no endless loop), and either it returns 0, or it returns the entry
    point with the stack top; then the pages of the user half that are mapped are
    those of the segments and of the stack and no others, every byte of every segment
    is the file's byte or zero behind the file part (a later segment covering an
    earlier one), and the 64 pages of the stack are zero. *)
Theorem elf64_load_correct `{BO : !ByteHeapOk H} over freed fuel fs s filename bytes n :
  kfs_get_file_size fs (elf_path filename) = Some n -> 64 <= n ->
  kfs_read_to_buffer fs (elf_path filename) n = Some (1, bytes) -> Z.of_nat (length bytes) = n ->
  take 5 bytes = [0x7F; 69; 76; 70; ELFCLASS64] ->
  let f := buf_at over bytes in
  space_ok s (fun _ => False) -> Forall (seg_ok fuel) (phdrs64 f (elf64_ehdr_t f)) ->
  exists s' ret top, elf_load_file over freed fuel fs s filename true r = Value (s', ret, top) /\
    (ret = 0 /\ top = 0 \/ loaded s' f ret top).
Proof.
  intros Hsz Hn Hrd Hlen Hmag f Hs Hall. unfold elf_load_file. rewrite Hsz, (proj2 (Z.eqb_neq n 0)) by lia.
  pose proof (bh_malloc_len n s.(unodes)) as Hml. destruct (bh_kmalloc n s.(unodes)) as [h [junk|]].
  2: { eexists _, _, _. split; [done|by left]. }
  rewrite Hrd. specialize (Hml junk ltac:(lia) eq_refl).
  assert (put_bytes junk 0 bytes = bytes) as ->.
  { unfold put_bytes. rewrite drop_ge by (simpl; lia). by rewrite app_nil_r. }
  cbv zeta. fold f.
  assert (forall i, 0 <= i < 5 -> f i = str [0x7F; 69; 76; 70; ELFCLASS64] i) as Hf.
  { intros i Hi. unfold f, buf_at. zcase; zcase; try lia. cbn [andb]. unfold str. rewrite <- Hmag.
    by rewrite lookup_take_lt by lia. }
  rewrite !Hf by lia. cbn [str lookup list_lookup default Z.to_nat]. change (ELFCLASS64 =? ELFCLASS64) with true.
  change (negb _ || _ || _ || _) with false. cbv iota.
  destruct (load_elf64_spec over fuel (set_unodes s h) bytes n) as (s' & ret & top & E & _ & Hl); [|exact Hall|].
  - destruct Hs as [H1 H2 H3]. split; [by apply set_unodes_pages|done|done].
  - exists s', ret, top. split; [exact E|exact Hl].
Qed.

(** The pages of a segment are not cleared: a byte of a newly mapped page
    outside the segment still holds what the frame held while it was free, that
    is, what its previous owner left there. *)
Theorem elf_segment_residue fuel s s' P f n ph va :
  space_ok s P -> seg_ok fuel ph -> ph.(p_type) = PT_LOAD ->
  load_segment64 fuel s f n r ph = Value (s', true) ->
  ~ P (page_of va) -> page_of ph.(p_vaddr) <= page_of va < ph.(p_vaddr) + ph.(p_memsz) ->
  ~ ph.(p_vaddr) <= va < ph.(p_vaddr) + ph.(p_memsz) ->
  exists pa, upage R r s' (page_of va) pa /\ fa_avail (frames (uv s)) pa = true /\
    byte r s' va = ld (udata s) (pa + va mod 4096).
Proof.
  intros Hs Hok Ht. destruct (Hok Ht) as (S1 & S2 & S3 & S4 & S5 & S6). unfold load_segment64.
  rewrite Ht. change (negb (PT_LOAD =? PT_LOAD)) with false. cbv iota.
  destruct (_ <? p_memsz ph); [done|]. destruct (_ || _); [done|]. rewrite ldiff_page.
  destruct (map_segment_spec fuel s P (page_of ph.(p_vaddr)) (ph.(p_vaddr) + ph.(p_memsz))) as (s1 & ok & P' & -> & Hm);
    [done|unfold page_of; divlia|unfold page_of; divlia|lia|unfold page_of; divlia|divlia|].
  cbn [obind]. destruct ok; [|done]. cbn [negb].
  pose proof (segment_pages s s1 P P' fuel ph Hok Ht Hm) as Hpg. pose proof Hm as (M1 & M2 & _ & _ & _ & M6 & M7 & _).
  destruct (fill_segment_spec s1 P' f ph M1 S1 S2 S3 S4 Hpg) as (m & -> & _ & F2). cbn [obind].
  intros E Hn Hr Hout. assert (s' = set_udata s1 m) as -> by congruence. clear E.
  assert (P' (page_of va)) as Hp.
  { apply M6; [done| |lia]. split; [|unfold page_of; divlia]. unfold page_of in *. divlia. }
  destruct (phys_of_page R r s1 P' va (so_pages _ _ M1) Hp) as (pa & U & Ep). exists pa.
  split; [by destruct U|]. split; [by apply (M7 (page_of va))|].
  unfold byte. change (uv (set_udata s1 m)) with (uv s1). cbn [udata set_udata]. rewrite <- M2, <- Ep. apply F2.
  intros k Hk E. apply (phys_inj R r s1 P') in E; [lia|apply M1|done|by apply Hpg].
Qed.
End load.

(** ** Witnesses: a file of 128 bytes with one segment *)

#[local] Existing Instance Pmm.pmm_allocator.

(** The little-endian bytes of a field. *)
Definition le (n : nat) (x : Z) : list Z := map (fun i => x / 2 ^ (8 * i) mod 256) (zrange 0 (Z.of_nat n)).

(** Entry 0x4000010; one segment of 8 bytes at 0x4000010, 5000 bytes in memory. *)
Definition demo_elf : list Z :=
  [0x7F; 69; 76; 70; 2] ++ replicate 19 0 ++ le 8 0x4000010 ++ le 8 64 ++ replicate 16 0 ++ le 2 1 ++ replicate 6 0 ++
  le 4 1 ++ le 4 5 ++ le 8 120 ++ le 8 0x4000010 ++ le 8 0 ++ le 8 8 ++ le 8 5000 ++ le 8 4096 ++
  [1; 2; 3; 4; 5; 6; 7; 8].
Definition elf_fs : kfs := 
  match kfs_create_file KfsBoot.no_junk KfsBoot.demo_fs KfsBoot.demo_path demo_elf with Some (st, _) => st | None => KfsBoot.demo_fs end.
Definition elf_space : us (A := Pmm.pmm) (K := unit) := mk_us demo_vm ∅ tt.
Definition demo_seg : phdr := mk_phdr 1 120 0x4000010 8 5000.

Lemma elf_space_ok : space_ok (eq 0x1000) 0x1000 elf_space (fun _ => False).
Proof.
  split; [|intros va _; right|reflexivity].
  - split; [exact demo_vm_ok|reflexivity|done|done|done].
  - unfold translate, walk. change (mem (uv elf_space)) with (∅ : gmap Z Z). by rewrite ld_empty.
Qed.

Lemma demo_seg_ok : seg_ok 10 demo_seg.
Proof. intros _. repeat split; try (left; vm_compute; discriminate); vm_compute; first [discriminate|reflexivity]. Qed.


(** Entry point and stack top of a load. *)
Definition results (o : outcome (us (A := Pmm.pmm) (K := unit) * Z * Z)) : Z * Z :=
  match o with Value (_, ret, top) => (ret, top) | _ => (-1, -1) end.

Lemma demo_results :
  results (elf_load_file (fun _ => 0) (fun _ _ => 0) 10 elf_fs elf_space KfsBoot.demo_path true 0x1000) = (0x4000010, 0xC000000).
Proof. vm_compute. reflexivity. Qed.
Lemma demo_not_refused s' ret top :
  elf_load_file (fun _ => 0) (fun _ _ => 0) 10 elf_fs elf_space KfsBoot.demo_path true 0x1000 = Value (s', ret, top) -> ret <> 0.
Proof. intros E. pose proof demo_results as X. rewrite E in X. cbn in X. apply pair_equal_spec in X as [-> _]. done. Qed.

Lemma elf64_load_correct_witness :
  exists s' ret top,
    elf_load_file (fun _ => 0) (fun _ _ => 0) 10 elf_fs elf_space KfsBoot.demo_path true 0x1000 = Value (s', ret, top) /\
    loaded (eq 0x1000) 0x1000 s' (buf_at (fun _ => 0) demo_elf) ret top.
Proof.
  destruct (elf64_load_correct (eq 0x1000) 0x1000 (fun _ => 0) (fun _ _ => 0) 10 elf_fs elf_space KfsBoot.demo_path demo_elf 128)
    as (s' & ret & top & E & [[Hr _]|Hl]).
  - vm_compute. reflexivity.
  - lia.
  - vm_compute. reflexivity.
  - vm_compute. reflexivity.
  - vm_compute. reflexivity.
  - exact elf_space_ok.
  - assert (phdrs64 (buf_at (fun _ => 0) demo_elf) (elf64_ehdr_t (buf_at (fun _ => 0) demo_elf)) = [demo_seg]) as ->
      by (vm_compute; reflexivity).
    constructor; [exact demo_seg_ok|constructor].
  - destruct (demo_not_refused s' ret top E Hr).
  - exists s', ret, top. split; [exact E|exact Hl].
Defined.

Definition demo_load : outcome (us (A := Pmm.pmm) (K := unit) * bool) :=
  load_segment64 10 elf_space (buf_at (fun _ => 0) demo_elf) 128 0x1000 demo_seg.
Definition space_of (o : outcome (us (A := Pmm.pmm) (K := unit) * bool)) : us (A := Pmm.pmm) (K := unit) * bool :=
  match o with Value x => x | _ => (elf_space, false) end.
Definition demo_after : us (A := Pmm.pmm) (K := unit) := (space_of demo_load).1.

Lemma demo_load_ok : demo_load = Value (demo_after, true).
Proof.
  assert ((space_of demo_load).2 = true) as E by (vm_compute; reflexivity).
  unfold demo_after. destruct demo_load as [[s [|]]| |]; [reflexivity|discriminate E..].
Qed.

Lemma elf_segment_residue_witness :
  exists pa, upage (eq 0x1000) 0x1000 demo_after 0x4000000 pa /\ fa_avail (frames (uv elf_space)) pa = true /\
    byte 0x1000 demo_after 0x4000003 = ld (udata elf_space) (pa + 3).
Proof.
  exact (elf_segment_residue (eq 0x1000) 0x1000 10 elf_space demo_after (fun _ => False) (buf_at (fun _ => 0) demo_elf) 128
    demo_seg 0x4000003 elf_space_ok demo_seg_ok eq_refl demo_load_ok ltac:(tauto) ltac:(vm_compute; intuition discriminate)
    ltac:(vm_compute; intuition discriminate)).
Defined.

(** The loader does not check that a segment lies in the user half: with a kernel
    page mapped at the address of the segment, it overwrites that page. *)
Definition kernel_page : Z := 0xFFFFFFFF80000000.
Definition kernel_space : us (A := Pmm.pmm) (K := unit) :=
  mk_us (vmm_map_page_into demo_vm kernel_page 0x5000 3 0x1000).1 ∅ tt.

Lemma elf_overwrites_kernel :
  match load_segment64 10 kernel_space (buf_at (fun _ => 0) demo_elf) 128 0x1000 (mk_phdr 1 120 kernel_page 8 8) with
  | Value (s, ok) => (ok, ld (udata kernel_space) 0x5000, ld (udata s) 0x5000) = (true, 0, 1)
  | _ => False
  end.
Proof. vm_compute. reflexivity. Qed.
End ElfThm.
