(* ===== verification/Compositor.v ===== *)
(** * Framebuffer primitives and compositor
      (src/kernel/gfx/fb.c, src/kernel/gfx/compositor.c, src/include/aa_math.h)

    The drawing primitives of fb.c write the screen buffer; the compositor
    rebuilds the damaged rectangles of the back buffer from the screen buffer,
    the windows (in stacking order) and the cursor.

    All pixels live in the cell memory of [Display]; [fb] is the cell of the
    first pixel of the buffer drawn to, [pitch4] its stride.  The glyph bitmaps
    ([font8x16], a data header) are the parameter [font], the arrow
    bitmap ([cursor_bitmap], mouse.c) is the parameter [arrow].  The calls of
    the graphics HAL at the end of a flush are recorded in [hal]. *)

From S2P Require Import Prelude KString Display Sched Event Kwm.
From stdpp Require Import base numbers list gmap.
From Stdlib Require Import ZArith Lia.

#[local] Open Scope Z_scope.

Module Compositor.
Import Display Kwm.

(** ** Colour arithmetic (aa_math.h) *)

Definition chan (c sh : Z) : Z := Z.land (Z.shiftr c sh) 0xFF.

Definition aa_mix (src dst a : Z) : Z :=
  if 255 <=? a then Z.land src 0xFFFFFF
  else if a =? 0 then Z.land dst 0xFFFFFF
  else
    let na := 255 - a in
    let r := (chan src 16 * a + chan dst 16 * na) / 255 in
    let g := (chan src 8 * a + chan dst 8 * na) / 255 in
    let b := (chan src 0 * a + chan dst 0 * na) / 255 in
    Z.lor (Z.lor (Z.shiftl r 16) (Z.shiftl g 8)) b.

Definition aa_shade (c pct : Z) : Z :=
  let r := chan c 16 in
  let g := chan c 8 in
  let b := chan c 0 in
  let f v := if 0 <=? pct then v + cdiv ((255 - v) * pct) 100 else v + cdiv (v * pct) 100 in
  Z.lor (Z.lor (u32 (Z.shiftl (u32 (f r)) 16)) (u32 (Z.shiftl (u32 (f g)) 8))) (u32 (f b)).

(** The four sub-sample positions of a pixel on each axis. *)
Definition samples : list Z := [1; 3; 5; 7].

Definition aa_cov (px py x y w h rt rb : Z) : Z :=
  let corner :=
    if (0 <? rt) && (py <? i32 (y + rt)) then Some (rt, i32 (y + rt))
    else if (0 <? rb) && (i32 (i32 (y + h) - rb) <=? py) then Some (rb, i32 (i32 (y + h) - rb))
    else None in
  match corner with
  | None => 255
  | Some (r, cy) =>
      let side := if px <? i32 (x + r) then Some (i32 (x + r))
                  else if i32 (i32 (x + w) - r) <=? px then Some (i32 (i32 (x + w) - r)) else None in
      match side with
      | None => 255
      | Some cx =>
          let rr := i32 ((r * 8) * (r * 8)) in
          let hit := foldl (fun hit sy => foldl (fun hit sx =>
            let dx := i32 (px * 8 + sx - cx * 8) in
            let dy := i32 (py * 8 + sy - cy * 8) in
            if i32 (dx * dx + dy * dy) <=? rr then hit + 1 else hit) hit samples) 0 samples in
          u32 (cdiv (hit * 255) 16)
      end
  end.

(** ** Clipped drawing (compositor.c) *)

Section draw.
Context (fb pitch4 : Z).
Implicit Types (m : gmap Z Z) (clip area : Rect).

(** The cell of column [px] of row [py], computed in unsigned arithmetic. *)
Definition row_cell (px py : Z) : Z := fb + u32 (u32 py * u32 pitch4) + u32 px.

Definition fill_rect_clip m area color clip : gmap Z Z :=
  match rect_intersect area clip with
  | None => m
  | Some c =>
      for_loop 0 c.(height) (fun yy m =>
        let dst := row_cell c.(x) (u32 c.(y) + yy) in
        for_loop 0 c.(width) (fun xx m => st m (dst + xx) color) m) m
  end.

(** The point is inside the clip rectangle (signed comparisons). *)
Definition in_clip (px py : Z) clip : bool :=
  negb ((px <? clip.(x)) || (i32 (clip.(x) + i32 clip.(width)) <=? px) ||
        (py <? clip.(y)) || (i32 (clip.(y) + i32 clip.(height)) <=? py)).

Definition blend_px m (px py c a : Z) clip : gmap Z Z :=
  if a =? 0 then m
  else if negb (in_clip px py clip) then m
  else
    let d := fb + i32 (i32 (py * pitch4) + px) in
    st m d (aa_mix c (ld m d) a).

Definition blend_rect_clip m area (c a : Z) clip : gmap Z Z :=
  if a =? 0 then m
  else
    match rect_intersect area clip with
    | None => m
    | Some k =>
        for_loop 0 k.(height) (fun yy m =>
          let dst := row_cell k.(x) (u32 k.(y) + yy) in
          for_loop 0 k.(width) (fun xx m => st m (dst + xx) (aa_mix c (ld m (dst + xx)) a)) m) m
    end.

Definition rr_cov (px py : Z) (a : Rect) (rt rb : Z) : Z :=
  aa_cov px py a.(x) a.(y) (i32 a.(width)) (i32 a.(height)) rt rb.

(** One row of [round_grad_fill]. *)
Definition round_row m (a : Rect) (top bot rt rb : Z) clip (iy : Z) : gmap Z Z :=
  let W := i32 a.(width) in
  let Ht := i32 a.(height) in
  let c := if top =? bot then top
           else aa_mix bot top (u32 (cdiv ((iy - a.(y)) * 255) (if 1 <? Ht then Ht - 1 else 1))) in
  let r := if negb (rt =? 0) && (iy <? a.(y) + rt) then rt
           else if negb (rb =? 0) && (a.(y) + Ht - rb <=? iy) then rb else 0 in
  if r =? 0 then fill_rect_clip m (mk_rect a.(x) (i32 iy) a.(width) 1) c clip
  else
    let m := fill_rect_clip m (mk_rect (i32 (a.(x) + r)) (i32 iy) (u32 (W - 2 * r)) 1) c clip in
    for_loop 0 r (fun k m =>
      let m := blend_px m (i32 (a.(x) + k)) iy c (rr_cov (i32 (a.(x) + k)) iy a rt rb) clip in
      blend_px m (i32 (a.(x) + W - 1 - k)) iy c (rr_cov (i32 (a.(x) + W - 1 - k)) iy a rt rb) clip) m.

Definition round_grad_fill m (a : Rect) (top bot rt rb : Z) clip : gmap Z Z :=
  let W := i32 a.(width) in
  let Ht := i32 a.(height) in
  if (W <=? 0) || (Ht <=? 0) then m
  else
    let rt := if cdiv W 2 <? rt then cdiv W 2 else rt in
    let rb := if cdiv W 2 <? rb then cdiv W 2 else rb in
    for_loop a.(y) (a.(y) + Ht) (fun iy m => round_row m a top bot rt rb clip iy) m.

Definition shadow_alpha : list Z := [58; 46; 34; 24; 15; 8].

Definition frame_shadow m (frame : Rect) clip : gmap Z Z :=
  for_loop 1 (KWM_SHADOW_MARGIN + 1) (fun k m =>
    let sx := i32 (frame.(x) - k) in
    let sy := i32 (frame.(y) - k + 3) in
    let sw := u32 (frame.(width) + 2 * k) in
    let sh := u32 (frame.(height) + 2 * k) in
    let a := default 0 (shadow_alpha !! Z.to_nat (k - 1)) in
    let m := blend_rect_clip m (mk_rect sx sy sw 1) 0 a clip in
    let m := blend_rect_clip m (mk_rect sx (i32 (sy + i32 sh - 1)) sw 1) 0 a clip in
    let m := blend_rect_clip m (mk_rect sx (i32 (sy + 1)) 1 (u32 (sh - 2))) 0 a clip in
    blend_rect_clip m (mk_rect (i32 (sx + i32 sw - 1)) (i32 (sy + 1)) 1 (u32 (sh - 2))) 0 a clip) m.

Definition titlebar_line m (x0 y0 x1 y1 color : Z) clip : gmap Z Z :=
  let dx := i32 (x1 - x0) in
  let dy := i32 (y1 - y0) in
  let adx := if dx <? 0 then - dx else dx in
  let ady := if dy <? 0 then - dy else dy in
  let steps := if ady <? adx then adx else ady in
  let steps := if steps <? 1 then 1 else steps in
  for_loop 0 (steps + 1) (fun i m =>
    let px := i32 (x0 + cdiv (dx * i) steps) in
    let py := i32 (y0 + cdiv (dy * i) steps) in
    if in_clip px py clip then st m (fb + i32 (i32 (py * pitch4) + px)) color else m) m.

(** The glyph of character [c] at column [px], row [y]. *)
Definition glyph (font : Z -> Z -> Z) m (c px py color : Z) clip : gmap Z Z :=
  for_loop 0 16 (fun row m =>
    let qy := i32 (py + row) in
    if (qy <? clip.(y)) || (i32 (u32 (clip.(y) + clip.(height))) <=? qy) then m
    else
      for_loop 0 8 (fun col m =>
        if Z.land (font c row) (Z.shiftr 0x80 col) =? 0 then m
        else
          let qx := i32 (px + col) in
          if (qx <? clip.(x)) || (i32 (u32 (clip.(x) + clip.(width))) <=? qx) then m
          else st m (fb + i32 (i32 (qy * pitch4) + qx)) color) m) m.

Fixpoint titlebar_text (font : Z -> Z -> Z) m (px py : Z) (str : list Z) (max_x color : Z) clip : gmap Z Z :=
  match str with
  | [] => m
  | c :: str =>
      if i32 (px + 8) <=? max_x then
        let m := if 127 <? u8 c then m else glyph font m (u8 c) px py color clip in
        titlebar_text font m (i32 (px + 8)) py str max_x color clip
      else m
  end.
End draw.

(** ** Windows *)

Definition KWM_TITLEBAR_COLOR : Z := 0x1F4E8C.
Definition KWM_TITLEBAR_INACT : Z := 0x3A3A3A.
Definition KWM_CLOSE_COLOR : Z := 0xE53935.
Definition KWM_CORNER_R : Z := 8.

Section compositor.
Context {H : Type} `{KAlloc H} (font : Z -> Z -> Z) (arrow : Z -> Z -> Z).
Implicit Types (k : kwm (H := H)) (m : gmap Z Z).

(** The content of a window: the opaque pixels of its canvas inside [r]. *)
Definition draw_content (k : kwm (H := H)) (fb pitch4 : Z) (r : Rect) (w : kwm_window_t) m : gmap Z Z :=
  let tb_h := tb_height w in
  let cty := i32 (w.(wy) + tb_h) in
  let cv := db_at k.(gs) w.(canvas) in
  match rect_intersect (mk_rect w.(wx) cty w.(wwidth) w.(wheight)) r with
  | None => m
  | Some clip =>
      for_loop 0 clip.(height) (fun yy m =>
        let sy := i32 (clip.(y) + yy - cty) in
        let src := cell cv (u32 (u32 sy * cv.(stride)) + u32 (clip.(x) - w.(wx))) in
        let dst := row_cell fb pitch4 clip.(x) (u32 clip.(y) + yy) in
        for_loop 0 clip.(width) (fun xx m =>
          let pixel := ld m (src + xx) in
          if Z.shiftr pixel 24 =? 0 then m else st m (dst + xx) (Z.land pixel 0xFFFFFF)) m) m
  end.

(** The titlebar: gradient, close button with its cross, title. *)
Definition draw_titlebar (k : kwm (H := H)) (fb pitch4 : Z) (r : Rect) (i : Z) (w : kwm_window_t) m : gmap Z Z :=
  let tb := mk_rect w.(wx) w.(wy) w.(wwidth) KWM_TITLEBAR_H in
  match rect_intersect tb r with
  | None => m
  | Some _ =>
      let base := if i =? k.(focused_win_id) then KWM_TITLEBAR_COLOR else KWM_TITLEBAR_INACT in
      let m := round_grad_fill fb pitch4 m tb (aa_shade base 14) (aa_shade base (-12)) KWM_CORNER_R 0 r in
      let cbx := i32 (w.(wx) + i32 w.(wwidth) - KWM_CLOSE_BTN_W / 2 - 11) in
      let cby := i32 (w.(wy) + 3) in
      let m := round_grad_fill fb pitch4 m (mk_rect cbx cby 22 18)
                 (aa_shade KWM_CLOSE_COLOR 12) (aa_shade KWM_CLOSE_COLOR (-10)) 4 4 r in
      let m := titlebar_line fb pitch4 m (i32 (cbx + 7)) (i32 (cby + 5)) (i32 (cbx + 14)) (i32 (cby + 12)) 0xFFFFFF r in
      let m := titlebar_line fb pitch4 m (i32 (cbx + 14)) (i32 (cby + 5)) (i32 (cbx + 7)) (i32 (cby + 12)) 0xFFFFFF r in
      match w.(title) with
      | [] => m
      | _ => titlebar_text fb pitch4 font m (i32 (w.(wx) + 12)) (i32 (w.(wy) + 4)) w.(title)
               (i32 (w.(wx) + i32 w.(wwidth) - KWM_CLOSE_BTN_W - 8)) 0xFFFFFF r
      end
  end.

(** One window. *)
Definition draw_window (k : kwm (H := H)) (fb pitch4 : Z) (r : Rect) (i : Z) m : gmap Z Z :=
  let w := win k i in
  let m := if is_desktop w then m
           else frame_shadow fb pitch4 m
                  (mk_rect w.(wx) w.(wy) w.(wwidth) (u32 (w.(wheight) + tb_height w))) r in
  let m := draw_content k fb pitch4 r w m in
  if is_desktop w then m else draw_titlebar k fb pitch4 r i w m.

(** The window is drawn in the pass for [z]. *)
Definition drawn_at (k : kwm (H := H)) (z i : Z) : bool :=
  (win k i).(active) && ((win k i).(z_index) =? z) && negb ((win k i).(canvas) =? 0).

Definition composite_windows_in_rect (k : kwm (H := H)) (fb pitch4 : Z) (r : Rect) m : gmap Z Z :=
  for_loop 0 (k.(next_z_index) + 1) (fun z m =>
    for_loop 0 MAX_WINDOWS (fun i m =>
      if drawn_at k z i then draw_window k fb pitch4 r i m else m) m) m.

(** ** The framebuffer and the screen buffer (fb.c) *)

Inductive hal_call :=
  | SurfaceUpload (r : Rect)
  | Present (r : Rect).

Record screen := mk_screen {
  sk : kwm (H := H);
  fb_pitch : Z;
  fb_ptr : Z; base_canvas : Z; backbuffer : Z;
  mouse_x : Z; mouse_y : Z;
  g_cursor_kind : Z; g_last_cursor_x : Z; g_last_cursor_y : Z;
  g_main_surface : bool;
  hal : list hal_call;
}.

(** The addresses of the three static buffers. *)
Definition g_screen_db : Z := -1.
Definition g_back_db : Z := -2.
Definition g_fb_db : Z := -3.

Definition set_sk (s : screen) (k : kwm (H := H)) : screen :=
  mk_screen k s.(fb_pitch) s.(fb_ptr) s.(base_canvas) s.(backbuffer) s.(mouse_x) s.(mouse_y)
    s.(g_cursor_kind) s.(g_last_cursor_x) s.(g_last_cursor_y) s.(g_main_surface) s.(hal).
Definition set_hal (s : screen) (l : list hal_call) : screen :=
  mk_screen s.(sk) s.(fb_pitch) s.(fb_ptr) s.(base_canvas) s.(backbuffer) s.(mouse_x) s.(mouse_y)
    s.(g_cursor_kind) s.(g_last_cursor_x) s.(g_last_cursor_y) s.(g_main_surface) l.
Definition set_cursor_pos (s : screen) (cx cy : Z) : screen :=
  mk_screen s.(sk) s.(fb_pitch) s.(fb_ptr) s.(base_canvas) s.(backbuffer) s.(mouse_x) s.(mouse_y)
    s.(g_cursor_kind) cx cy s.(g_main_surface) s.(hal).
Definition set_sgs (s : screen) (g : gfx (H := H)) : screen := set_sk s (set_gs s.(sk) g).
Definition set_spix (s : screen) m : screen := set_sgs s (set_pix s.(sk).(gs) m).
Definition spix (s : screen) : gmap Z Z := s.(sk).(gs).(pix).
Definition set_dirty (s : screen) (d : DirtyRegionList) : screen :=
  let k := s.(sk) in
  set_sk s (mk_kwm k.(kwm_windows) k.(next_z_index) k.(dragged_win_id) k.(drag_offset_x) k.(drag_offset_y)
    k.(focused_win_id) k.(alt_tab_active) k.(gs) k.(fb_width) k.(fb_height) d k.(evs)).

Definition wrap_static (s : screen) (db px : Z) : screen :=
  let k := s.(sk) in
  set_sgs s (set_bufs k.(gs) (<[db := mk_db k.(fb_width) k.(fb_height) (s.(fb_pitch) / 4)
                                      COLOR_FORMAT_XRGB8888 px false 0]> k.(gs).(bufs))).

Definition gfx_buffers_ready (s : screen) : screen * bool :=
  if negb ((db_at s.(sk).(gs) g_screen_db).(pixels) =? 0) then (s, true)
  else if (s.(sk).(fb_width) =? 0) || (s.(fb_pitch) =? 0) then (s, false)
  else (wrap_static (wrap_static (wrap_static s g_screen_db s.(base_canvas)) g_back_db s.(backbuffer))
          g_fb_db s.(fb_ptr), true).

(** The buffer pointer, [0] when the framebuffer is not known yet. *)
Definition gfx_screen_buffer (s : screen) : screen * Z :=
  let '(s, ok) := gfx_buffers_ready s in (s, if ok then g_screen_db else 0).
Definition gfx_back_buffer (s : screen) : screen * Z :=
  let '(s, ok) := gfx_buffers_ready s in (s, if ok then g_back_db else 0).
Definition gfx_fb_buffer (s : screen) : screen * Z :=
  let '(s, ok) := gfx_buffers_ready s in (s, if ok then g_fb_db else 0).

Definition screen_put (s : screen) (px py color : Z) : screen :=
  let b := db_at s.(sk).(gs) g_screen_db in
  if (b.(db_width) <=? px) || (b.(db_height) <=? py) then s
  else set_spix s (st (spix s) (cell b (u32 (u32 (py * b.(stride)) + px))) color).

Definition mark_screen (s : screen) (px py w h : Z) : screen := set_sk s (screen_mark_dirty s.(sk) px py w h).

Definition draw_pixel (s : screen) (px py color : Z) : screen :=
  let '(s, ok) := gfx_buffers_ready s in
  if negb ok then s else mark_screen (screen_put s px py color) (i32 px) (i32 py) 1 1.

Definition draw_rect (s : screen) (px py w h color : Z) : screen :=
  let '(s, ok) := gfx_buffers_ready s in
  if negb ok then s
  else
    let s := set_sgs s (display_buffer_fill_rect s.(sk).(gs) g_screen_db (mk_rect (i32 px) (i32 py) w h) color) in
    mark_screen s (i32 px) (i32 py) w h.

(** [buffer i] is the [i]-th pixel of the image. *)
Definition draw_image (s : screen) (sx sy w h : Z) (buffer : Z -> Z) : screen :=
  let '(s, ok) := gfx_buffers_ready s in
  if negb ok then s
  else
    let s := for_loop 0 h (fun py s => for_loop 0 w (fun px s =>
      let pixel := buffer (py * w + px) in
      if 0 <? Z.land (Z.shiftr pixel 24) 0xFF
      then screen_put s (u32 (sx + px)) (u32 (sy + py)) (Z.land pixel 0xFFFFFF) else s) s) s in
    mark_screen s sx sy (u32 w) (u32 h).

(** [c] is a [char], signed. *)
Definition draw_char (s : screen) (c px py color : Z) : screen :=
  if (c <? 0) || (127 <? c) then s
  else
    let '(s, ok) := gfx_buffers_ready s in
    if negb ok then s
    else
      let s := for_loop 0 16 (fun row s => for_loop 0 8 (fun col s =>
        if Z.land (font c row) (Z.shiftr 0x80 col) =? 0 then s
        else screen_put s (u32 (px + col)) (u32 (py + row)) color) s) s in
      mark_screen s (i32 px) (i32 py) 8 16.

(** The loop over the characters, at the current column and row. *)
Fixpoint draw_string_from (s : screen) (str : list Z) (x0 cx cy color : Z) : screen :=
  match str with
  | [] => s
  | c :: str =>
      if c =? 10 then draw_string_from s str x0 x0 (u32 (cy + 16)) color
      else draw_string_from (draw_char s (i8 c) cx cy color) str x0 (u32 (cx + 8)) cy color
  end.

Definition draw_string (s : screen) (str : list Z) (px py color : Z) : screen :=
  draw_string_from s str px px py color.

(** ** Flushing *)

Definition CURSOR_WIDTH : Z := 12.
Definition CURSOR_HEIGHT : Z := 16.

Definition kwm_set_cursor (s : screen) (kind : Z) : screen :=
  if (kind <? 0) || (3 <=? kind) then s
  else
    mark_screen (mk_screen s.(sk) s.(fb_pitch) s.(fb_ptr) s.(base_canvas) s.(backbuffer) s.(mouse_x) s.(mouse_y)
      kind s.(g_last_cursor_x) s.(g_last_cursor_y) s.(g_main_surface) s.(hal))
      s.(mouse_x) s.(mouse_y) CURSOR_WIDTH CURSOR_HEIGHT.

(** [created] is whether the HAL returned a surface. *)
Definition compositor_ghal_init (s : screen) (created : bool) : screen :=
  if s.(g_main_surface) || (s.(sk).(fb_width) =? 0) then s
  else
    mk_screen s.(sk) s.(fb_pitch) s.(fb_ptr) s.(base_canvas) s.(backbuffer) s.(mouse_x) s.(mouse_y)
      s.(g_cursor_kind) s.(g_last_cursor_x) s.(g_last_cursor_y) created s.(hal).

Definition blit_rect_db (g : gfx (H := H)) (dst src : Z) (r : Rect) : gfx (H := H) :=
  viewport_render g (mk_vp r r.(x) r.(y) src) dst.

Definition g_ibeam_bitmap : list (list Z) :=
  [[0;1;1;1;1;1;1;1;1;1;1;0]; [1;2;2;2;2;2;2;2;2;2;2;1]; [0;1;1;1;1;1;1;1;1;1;1;0];
   [0;0;0;0;1;1;1;1;0;0;0;0]; [0;0;0;0;1;2;2;1;0;0;0;0]; [0;0;0;0;1;2;2;1;0;0;0;0];
   [0;0;0;0;1;2;2;1;0;0;0;0]; [0;0;0;0;1;2;2;1;0;0;0;0]; [0;0;0;0;1;2;2;1;0;0;0;0];
   [0;0;0;0;1;2;2;1;0;0;0;0]; [0;0;0;0;1;2;2;1;0;0;0;0]; [0;0;0;0;1;2;2;1;0;0;0;0];
   [0;0;0;0;1;2;2;1;0;0;0;0]; [0;0;0;0;1;1;1;1;0;0;0;0]; [0;1;1;1;1;1;1;1;1;1;1;0];
   [1;2;2;2;2;2;2;2;2;2;2;1]].

Definition g_hand_bitmap : list (list Z) :=
  [[0;0;0;0;0;0;0;1;1;0;0;0]; [0;0;0;0;0;1;1;2;1;0;0;0]; [0;0;0;0;1;1;2;2;1;0;0;0];
   [0;0;0;1;1;2;2;2;1;0;0;0]; [0;0;0;1;2;2;2;2;1;0;0;0]; [0;0;0;1;2;2;2;2;2;1;0;0];
   [0;0;1;1;2;2;2;2;2;1;0;0]; [0;1;1;2;2;2;2;2;2;1;0;0]; [0;1;2;2;2;2;2;2;2;1;0;0];
   [1;1;2;2;2;2;2;2;2;2;1;0]; [1;2;2;2;2;2;2;2;2;2;1;0]; [1;2;2;2;2;2;2;2;2;2;1;0];
   [1;2;2;2;2;2;2;2;2;2;1;0]; [0;1;2;2;2;2;2;2;2;1;0;0]; [0;1;1;2;2;2;2;2;1;1;0;0];
   [0;0;1;1;1;1;1;1;1;0;0;0]].

Definition bitmap_at (b : list (list Z)) (py px : Z) : Z :=
  default 0 ((default [] (b !! Z.to_nat py)) !! Z.to_nat px).

Definition cursor_shape (s : screen) : Z -> Z -> Z :=
  if s.(g_cursor_kind) =? 0 then arrow
  else if s.(g_cursor_kind) =? 1 then bitmap_at g_ibeam_bitmap else bitmap_at g_hand_bitmap.

Definition draw_cursor (s : screen) (cx cy : Z) : screen :=
  let pitch4 := i32 (s.(fb_pitch) / 4) in
  let back := s.(backbuffer) / 4 in
  let cbm := cursor_shape s in
  set_spix s (for_loop 0 CURSOR_HEIGHT (fun py m => for_loop 0 CURSOR_WIDTH (fun px m =>
    if (i32 (cy + py) <? 0) || (i32 (cx + px) <? 0) ||
       (i32 s.(sk).(fb_height) <=? i32 (cy + py)) || (i32 s.(sk).(fb_width) <=? i32 (cx + px)) then m
    else
      let offset := u32 (i32 (i32 (i32 (cy + py) * pitch4) + i32 (cx + px))) in
      if cbm py px =? 1 then st m (back + offset) 0xFFFFFF
      else if cbm py px =? 2 then st m (back + offset) 0 else m) m) (spix s)).

(** The damage handed to the HAL: one upload per visible region, then one
    present of their bounding box. *)
Definition hal_union (u gr : Rect) : Rect :=
  let x1 := u32 (u.(x) + u.(width)) in
  let y1 := u32 (u.(y) + u.(height)) in
  let rx1 := u32 (gr.(x) + gr.(width)) in
  let ry1 := u32 (gr.(y) + gr.(height)) in
  let ux := if gr.(x) <? u.(x) then gr.(x) else u.(x) in
  let uy := if gr.(y) <? u.(y) then gr.(y) else u.(y) in
  let x1 := if x1 <? rx1 then rx1 else x1 in
  let y1 := if y1 <? ry1 then ry1 else y1 in
  mk_rect ux uy (u32 (x1 - ux)) (u32 (y1 - uy)).

Definition present_hal (s : screen) (dirty : DirtyRegionList) (scr : Rect) : screen :=
  let '(calls, u) := for_loop 0 dirty.(count) (fun i '(calls, u) =>
    match rect_intersect (region dirty i) scr with
    | None => (calls, u)
    | Some r =>
        let gr := mk_rect (u32 r.(x)) (u32 r.(y)) r.(width) r.(height) in
        (calls ++ [SurfaceUpload gr], Some (match u with None => gr | Some u => hal_union u gr end))
    end) ([], None) in
  set_hal s (s.(hal) ++ calls ++ match u with Some u => [Present u] | None => [] end).

Definition present_fb (s : screen) (dirty : DirtyRegionList) (scr : Rect) : screen :=
  let '(s, fb_db) := gfx_fb_buffer s in
  if fb_db =? 0 then s
  else
    for_loop 0 dirty.(count) (fun i s =>
      match rect_intersect (region dirty i) scr with
      | None => s
      | Some r => set_sgs s (blit_rect_db s.(sk).(gs) fb_db g_back_db r)
      end) s.

(** Rebuilding one damaged rectangle of the back buffer. *)
Definition compose_rect (s : screen) (r : Rect) : screen :=
  let s := set_sgs s (blit_rect_db s.(sk).(gs) g_back_db g_screen_db r) in
  set_spix s (composite_windows_in_rect s.(sk) (s.(backbuffer) / 4) (i32 (s.(fb_pitch) / 4)) r (spix s)).

Definition compositor_flush (s : screen) : screen :=
  if s.(sk).(fb_width) =? 0 then s
  else
    let '(s, screen_db) := gfx_screen_buffer s in
    let '(s, back_db) := gfx_back_buffer s in
    if (screen_db =? 0) || (back_db =? 0) then s
    else
      let scr := mk_rect 0 0 s.(sk).(fb_width) s.(sk).(fb_height) in
      let dirty := s.(sk).(g_screen_dirty) in
      let s := set_dirty s (dirty_region_clear dirty) in
      let cx := s.(mouse_x) in
      let cy := s.(mouse_y) in
      let dirty := if 0 <=? s.(g_last_cursor_x)
                   then dirty_region_mark dirty (mk_rect s.(g_last_cursor_x) s.(g_last_cursor_y) CURSOR_WIDTH CURSOR_HEIGHT)
                   else dirty in
      let dirty := dirty_region_mark dirty (mk_rect cx cy CURSOR_WIDTH CURSOR_HEIGHT) in
      if dirty.(count) =? 0 then s
      else
        let s := for_loop 0 dirty.(count) (fun i s =>
          match rect_intersect (region dirty i) scr with
          | None => s
          | Some r => compose_rect s r
          end) s in
        let s := set_cursor_pos (draw_cursor s cx cy) cx cy in
        if s.(g_main_surface) then present_hal s dirty scr else present_fb s dirty scr.
End compositor.
End Compositor.
