(* ===== verification/CompositorThm.v ===== *)
(** * Properties of the compositor

    Compositing a rectangle changes no pixel outside it; windows are drawn once
    each, in stacking order, if their numbers do not exceed [next_z_index]. *)

From S2P Require Import Prelude KString Display Sched Event Kwm KwmOrder KwmInv KwmThm Compositor.
From stdpp Require Import base numbers list gmap sorting.
From Stdlib Require Import ZArith Lia.

#[local] Open Scope Z_scope.

Module CompositorThm.
Import Display Kwm KwmOrder Compositor.

(** ** Confinement *)

Section confined.
Context (fb pitch4 : Z) (r : Rect).

(** The rectangle lies in an image of [pitch4] pixels per row. *)
Definition clip_ok : Prop :=
  rect_ok r /\ 0 <= r.(x) /\ 0 <= r.(y) /\ r.(x) + r.(width) <= pitch4 /\
  (r.(y) + r.(height)) * pitch4 < 2 ^ 31 /\ r.(y) + r.(height) < 2 ^ 31 /\ 0 <= pitch4 < 2 ^ 31.

(** [m'] differs from [m] in pixels of the rectangle only. *)
Definition confined (m m' : gmap Z Z) : Prop :=
  forall a, (forall px py, in_rect r px py -> a <> fb + py * pitch4 + px) -> ld m' a = ld m a.

Context (Hclip : clip_ok).

Lemma confined_refl m : confined m m.
Proof. done. Qed.

Lemma confined_trans m1 m2 m3 : confined m1 m2 -> confined m2 m3 -> confined m1 m3.
Proof. intros H1 H2 a Ha. rewrite H2 by done. by apply H1. Qed.

Lemma confined_st m a v px py : in_rect r px py -> a = fb + py * pitch4 + px -> confined m (st m a v).
Proof.
  intros Hin -> b Hb. apply ld_st_ne. intros E. by apply (Hb px py).
Qed.

Lemma confined_loop lo hi body m :
  (forall i m, lo <= i < hi -> confined m (body i m)) -> confined m (for_loop lo hi body m).
Proof.
  intros Hb. apply for_loop_pres; [apply confined_refl|]. intros i m' Hi Hc.
  eapply confined_trans; [done|by apply Hb].
Qed.

Lemma row_bound py : 0 <= py < y r + height r -> 0 <= py * pitch4 < 2 ^ 31.
Proof. destruct Hclip as (_ & _ & _ & _ & H1 & _ & H2). nia. Qed.

(** Cells computed in signed arithmetic. *)
Lemma signed_cell px py : in_rect r px py -> i32 (i32 (py * pitch4) + px) = py * pitch4 + px.
Proof.
  intros [Hx Hy]. destruct Hclip as ((_ & _ & _ & _) & Hx0 & Hy0 & H1 & H2 & H3 & H4).
  pose proof (row_bound py ltac:(lia)). assert (py * pitch4 + px < 2 ^ 31) by nia.
  rewrite (sx_small 32 (py * pitch4)) by lia. apply sx_small; lia.
Qed.

(** Cells computed in unsigned arithmetic, along a row of the rectangle. *)
Lemma unsigned_cell px py yy xx :
  in_rect r px (py + yy) -> 0 <= yy -> 0 <= py ->
  row_cell fb pitch4 px (u32 py + yy) + xx = fb + (py + yy) * pitch4 + (px + xx).
Proof.
  intros [Hx Hy] Hyy Hpy. destruct Hclip as ((_ & _ & _ & _) & Hx0 & Hy0 & H1 & H2 & H3 & H4).
  pose proof (row_bound (py + yy) ltac:(lia)). unfold row_cell.
  rewrite (wrap_small 32 py) by lia. rewrite (wrap_small 32 (py + yy)), (wrap_small 32 pitch4) by lia.
  rewrite (wrap_small 32 (_ * _)), (wrap_small 32 px) by lia. lia.
Qed.

(** Painting a sub-rectangle row by row. *)
Lemma confined_rows c (v : Z -> Z -> gmap Z Z -> gmap Z Z) m :
  (forall px py, in_rect c px py -> in_rect r px py) ->
  (forall yy xx m, 0 <= yy < height c -> 0 <= xx < width c ->
     v yy xx m = m \/ exists u, v yy xx m = st m (row_cell fb pitch4 (x c) (u32 (y c) + yy) + xx) u) ->
  confined m (for_loop 0 (height c) (fun yy m => for_loop 0 (width c) (fun xx m => v yy xx m) m) m).
Proof.
  intros Hsub Hv. apply confined_loop. intros yy m1 Hyy. apply confined_loop. intros xx m2 Hxx.
  assert (in_rect r (x c) (y c + yy)) as H1 by (apply Hsub; unfold in_rect; lia).
  assert (in_rect r (x c + xx) (y c + yy)) as H2 by (apply Hsub; unfold in_rect; lia).
  assert (0 <= y c).
  { assert (in_rect r (x c) (y c)) as [_ ?] by (apply Hsub; unfold in_rect; lia). destruct Hclip as (_ & _ & ? & _). lia. }
  destruct (Hv yy xx m2 Hyy Hxx) as [->|[u ->]]; [apply confined_refl|].
  apply (confined_st _ _ _ (x c + xx) (y c + yy)); [done|]. apply unsigned_cell; [done|lia|done].
Qed.

Lemma clip_sub area c :
  rect_ok area -> rect_intersect area r = Some c ->
  forall px py, in_rect c px py -> in_rect r px py.
Proof.
  intros Ha E. pose proof (rect_intersect_spec area r Ha (proj1 Hclip)) as Hs. rewrite E in Hs.
  intros px py Hin. by apply Hs in Hin as [_ ?]; destruct Hs as (_ & _ & _ & Hs).
Qed.

Lemma fill_confined m area color : rect_ok area -> confined m (fill_rect_clip fb pitch4 m area color r).
Proof.
  intros Ha. unfold fill_rect_clip. destruct (rect_intersect area r) as [c|] eqn:E; [|apply confined_refl].
  apply (confined_rows c (fun yy xx m => st m (row_cell fb pitch4 (x c) (u32 (y c) + yy) + xx) color));
    [by eapply clip_sub|]. intros. right. by eexists.
Qed.

Lemma blend_rect_confined m area c a : rect_ok area -> confined m (blend_rect_clip fb pitch4 m area c a r).
Proof.
  intros Ha. unfold blend_rect_clip. destruct (a =? 0); [apply confined_refl|].
  destruct (rect_intersect area r) as [k|] eqn:E; [|apply confined_refl].
  apply (confined_rows k (fun yy xx m => let d := row_cell fb pitch4 (x k) (u32 (y k) + yy) + xx in
    st m d (aa_mix c (ld m d) a))); [by eapply clip_sub|]. intros. right. by eexists.
Qed.

Lemma in_clip_in px py : in_clip px py r = true -> in_rect r px py.
Proof.
  unfold in_clip, in_rect. destruct Hclip as ((Rx & Ry & Rw & Rh) & Hx0 & Hy0 & H1 & H2 & H3 & H4).
  rewrite (sx_small 32 (width r)), (sx_small 32 (height r)) by lia.
  rewrite !(sx_small 32 (_ + _)) by lia. rewrite negb_true_iff, !orb_false_iff. intros (((? & ?) & ?) & ?). zprop. lia.
Qed.

Lemma blend_px_confined m px py c a : confined m (blend_px fb pitch4 m px py c a r).
Proof.
  unfold blend_px. destruct (a =? 0); [apply confined_refl|].
  destruct (in_clip px py r) eqn:E; cbn [negb]; [|apply confined_refl]. apply in_clip_in in E.
  apply (confined_st _ _ _ px py); [done|]. rewrite signed_cell by done. lia.
Qed.

Lemma i32_range v : - 2 ^ 31 <= i32 v < 2 ^ 31.
Proof.
  unfold sx. pose proof (wrap_bound 32 v ltac:(lia)). change (2 ^ (32 - 1)) with (2 ^ 31). zcase; lia.
Qed.

Lemma mk_rect_ok px py w h :
  - 2 ^ 31 <= px < 2 ^ 31 -> - 2 ^ 31 <= py < 2 ^ 31 -> 0 <= w < 2 ^ 32 -> 0 <= h < 2 ^ 32 ->
  rect_ok (mk_rect px py w h).
Proof. done. Qed.

Lemma u32_range v : 0 <= u32 v < 2 ^ 32.
Proof. by apply wrap_bound. Qed.

#[local] Hint Resolve i32_range u32_range mk_rect_ok confined_refl fill_confined blend_rect_confined
  blend_px_confined : core.

Lemma round_row_confined m a top bot rt rb iy :
  rect_ok a -> confined m (round_row fb pitch4 m a top bot rt rb r iy).
Proof.
  intros (Ax & Ay & Aw & Ah). unfold round_row. cbv zeta.
  match goal with |- context [if ?e =? 0 then fill_rect_clip _ _ _ _ _ _ else _] => destruct (e =? 0) end.
  { apply fill_confined, mk_rect_ok; auto; lia. }
  eapply confined_trans; [|apply confined_loop; intros k m1 _; eapply confined_trans; apply blend_px_confined].
  apply fill_confined, mk_rect_ok; auto; lia.
Qed.

Lemma round_grad_confined m a top bot rt rb :
  rect_ok a -> confined m (round_grad_fill fb pitch4 m a top bot rt rb r).
Proof.
  intros Ha. unfold round_grad_fill. cbv zeta. destruct (_ || _); [done|].
  apply confined_loop. intros. by apply round_row_confined.
Qed.

Lemma shadow_confined m frame : confined m (frame_shadow fb pitch4 m frame r).
Proof.
  unfold frame_shadow. apply confined_loop. intros k m1 _. cbv zeta.
  repeat (eapply confined_trans; [|apply blend_rect_confined, mk_rect_ok; auto; lia]). done.
Qed.

Lemma line_confined m x0 y0 x1 y1 color : confined m (titlebar_line fb pitch4 m x0 y0 x1 y1 color r).
Proof.
  unfold titlebar_line. cbv zeta. apply confined_loop. intros i m1 _.
  destruct (in_clip _ _ _) eqn:E; [|done]. pose proof (in_clip_in _ _ E) as Hin.
  eapply (confined_st _ _ _ _ _ Hin). rewrite signed_cell by done. lia.
Qed.

Lemma glyph_confined font m c px py color : confined m (glyph fb pitch4 font m c px py color r).
Proof.
  unfold glyph. destruct Hclip as ((Rx & Ry & Rw & Rh) & Hx0 & Hy0 & H1 & H2 & H3 & H4).
  apply confined_loop. intros row m1 _. cbv zeta. set (qy := i32 (py + row)). clearbody qy.
  rewrite (wrap_small 32 (y r + height r)), (sx_small 32 (y r + height r)) by lia.
  destruct (Z.ltb_spec qy (y r)), (Z.leb_spec (y r + height r) qy); cbn [orb]; try done.
  apply confined_loop. intros col m2 _. destruct (_ =? 0); [done|].
  set (qx := i32 (px + col)). clearbody qx.
  rewrite (wrap_small 32 (x r + width r)), (sx_small 32 (x r + width r)) by lia.
  destruct (Z.ltb_spec qx (x r)), (Z.leb_spec (x r + width r) qx); cbn [orb]; try done.
  assert (in_rect r qx qy) as Hin by (unfold in_rect; lia).
  eapply (confined_st _ _ _ _ _ Hin). rewrite signed_cell by done. lia.
Qed.

Lemma text_confined font str m px py max_x color :
  confined m (titlebar_text fb pitch4 font m px py str max_x color r).
Proof.
  revert m px. induction str as [|c str IH]; intros m px; cbn [titlebar_text]; [done|].
  destruct (_ <=? max_x); [|done]. eapply confined_trans; [|apply IH].
  destruct (_ <? _); [done|apply glyph_confined].
Qed.

(** ** Windows *)

Context {H : Type} `{KAlloc H} (font : Z -> Z -> Z).
Implicit Types (k : kwm (H := H)).

(** The fields of a window have their machine ranges. *)
Definition win_ok (w : kwm_window_t) : Prop :=
  - 2 ^ 31 <= wx w < 2 ^ 31 /\ - 2 ^ 31 <= wy w < 2 ^ 31 /\
  0 <= wwidth w < 2 ^ 32 /\ 0 <= wheight w < 2 ^ 32.

Lemma content_confined k w m : win_ok w -> confined m (draw_content k fb pitch4 r w m).
Proof.
  intros (W1 & W2 & W3 & W4). unfold draw_content. cbv zeta.
  destruct (rect_intersect _ r) as [c|] eqn:E; [|done].
  apply (confined_rows c (fun yy xx m =>
    let pixel := ld m (cell (db_at (gs k) (canvas w))
       (u32 (u32 (i32 (y c + yy - i32 (wy w + tb_height w))) * stride (db_at (gs k) (canvas w)))
        + u32 (x c - wx w)) + xx) in
    if Z.shiftr pixel 24 =? 0 then m
    else st m (row_cell fb pitch4 (x c) (u32 (y c) + yy) + xx) (Z.land pixel 0xFFFFFF))).
  - eapply clip_sub; [|done]. apply mk_rect_ok; auto.
  - intros yy xx m1 _ _. cbv zeta. destruct (_ =? 0); [by left|right]. by eexists.
Qed.

Lemma titlebar_confined k i w m : win_ok w -> confined m (draw_titlebar font k fb pitch4 r i w m).
Proof.
  intros (W1 & W2 & W3 & W4). unfold draw_titlebar. cbv zeta. destruct (rect_intersect _ r); [|done].
  assert (rect_ok (mk_rect (wx w) (wy w) (wwidth w) KWM_TITLEBAR_H)) by (apply mk_rect_ok; auto; done).
  set (m1 := round_grad_fill _ _ m _ _ _ _ _ _). set (m2 := round_grad_fill _ _ m1 _ _ _ _ _ _).
  assert (confined m m2) as H2.
  { eapply confined_trans; [by apply round_grad_confined|]. apply round_grad_confined.
    apply mk_rect_ok; auto; lia. }
  set (m3 := titlebar_line _ _ m2 _ _ _ _ _ _). set (m4 := titlebar_line _ _ m3 _ _ _ _ _ _).
  assert (confined m2 m4) as H4 by (eapply confined_trans; by apply line_confined).
  assert (confined m m4) as H5 by by eapply confined_trans.
  destruct (title w); [done|]. eapply confined_trans; [exact H5|by apply text_confined].
Qed.

Lemma window_confined k i m : win_ok (win k i) -> confined m (draw_window font k fb pitch4 r i m).
Proof.
  intros Hw. unfold draw_window. cbv zeta. destruct (is_desktop _).
  - by apply content_confined.
  - eapply confined_trans; [|by apply titlebar_confined]. eapply confined_trans; [|by apply content_confined].
    by apply shadow_confined.
Qed.
End confined.

Section compositor.
Context {H : Type} `{KAlloc H} (font : Z -> Z -> Z).
Implicit Types (k : kwm (H := H)).

Lemma composite_within k fb pitch4 r m :
  clip_ok pitch4 r -> (forall i, 0 <= i < MAX_WINDOWS -> win_ok (win k i)) ->
  confined fb pitch4 r m (composite_windows_in_rect font k fb pitch4 r m).
Proof.
  intros Hr Hw. unfold composite_windows_in_rect. apply confined_loop. intros z m1 _.
  apply confined_loop. intros i m2 Hi. destruct (drawn_at k z i); [|apply confined_refl].
  apply window_confined; auto.
Qed.

(** C17. Compositing a damaged rectangle writes only pixels of that rectangle: for
    windows at any position and of any size, with titles and canvases of any
    contents, shadows, gradients, rounded corners and text included, every
    memory cell that is not a pixel of the rectangle keeps its value. *)
Theorem composite_confined k fb pitch4 r m :
  clip_ok pitch4 r -> (forall i, 0 <= i < MAX_WINDOWS -> win_ok (win k i)) ->
  forall a, (forall px py, in_rect r px py -> a <> fb + py * pitch4 + px) ->
    ld (composite_windows_in_rect font k fb pitch4 r m) a = ld m a.
Proof. intros Hr Hw. by apply composite_within. Qed.

(** ** Drawing order *)

(** The windows drawn, bottom first. *)
Definition draw_list k : list Z :=
  zrange 0 (next_z_index k + 1) ≫= fun z => filter (fun i => drawn_at k z i = true) (zrange 0 MAX_WINDOWS).

Lemma foldl_filter {S : Type} (p : Z -> bool) (f : Z -> S -> S) l s :
  foldl (fun s i => if p i then f i s else s) s l = foldl (fun s i => f i s) s (filter (fun i => p i = true) l).
Proof.
  revert s. induction l as [|i l IH]; intros s; [done|]. cbn [foldl]. rewrite filter_cons.
  destruct (p i) eqn:E; case_decide; try congruence; by rewrite IH.
Qed.

Lemma foldl_bind {S : Type} (g : Z -> list Z) (f : S -> Z -> S) l s :
  foldl (fun s z => foldl f s (g z)) s l = foldl f s (l ≫= g).
Proof.
  revert s. induction l as [|z l IH]; intros s; [done|]. cbn [foldl]. rewrite bind_cons, foldl_app. apply IH.
Qed.

Lemma composite_draw_list k fb pitch4 r m :
  composite_windows_in_rect font k fb pitch4 r m
  = foldl (fun m i => draw_window font k fb pitch4 r i m) m (draw_list k).
Proof.
  unfold composite_windows_in_rect, draw_list, for_loop. rewrite <- foldl_bind.
  generalize (zrange 0 (next_z_index k + 1)) as zs. intros zs. revert m.
  induction zs as [|z zs IH]; intros m; [done|]. cbn [foldl]. by rewrite foldl_filter, IH.
Qed.

Lemma elem_of_draw_list k i :
  i ∈ draw_list k <->
  0 <= i < MAX_WINDOWS /\ active (win k i) = true /\ canvas (win k i) <> 0 /\
  0 <= z_index (win k i) <= next_z_index k.
Proof.
  unfold draw_list. rewrite list_elem_of_bind. split.
  - intros (z & Hi & Hz%elem_of_zrange). apply list_elem_of_filter in Hi as [Hd Hi%elem_of_zrange].
    unfold drawn_at in Hd. zprop. splits.
  - intros (Hi & Ha & Hc & Hz). exists (z_index (win k i)). split; [|apply elem_of_zrange; lia].
    apply list_elem_of_filter. split; [|by apply elem_of_zrange]. unfold drawn_at.
    rewrite Ha, Z.eqb_refl, (proj2 (Z.eqb_neq _ _) Hc). done.
Qed.

(** [i] is drawn before [j]. *)
Definition below k (i j : Z) : Prop :=
  z_index (win k i) < z_index (win k j) \/ (z_index (win k i) = z_index (win k j) /\ i < j).

Lemma zrange_sorted lo hi : StronglySorted Z.lt (zrange lo hi).
Proof.
  unfold zrange. generalize (Z.to_nat (hi - lo)) as n. intros n. revert lo.
  induction n as [|n IH]; intros lo; cbn [zseq]; constructor; [apply IH|].
  apply Forall_forall. intros j. rewrite zseq_seqZ, elem_of_seqZ. lia.
Qed.

Lemma filter_sorted (R : relation Z) (P : Z -> Prop) `{forall i, Decision (P i)} l :
  StronglySorted R l -> StronglySorted R (filter P l).
Proof.
  induction 1 as [|i l Hl IH Hi]; [constructor|]. rewrite filter_cons. case_decide; [|done].
  constructor; [done|]. apply Forall_forall. intros j [_ Hj]%list_elem_of_filter.
  by apply (proj1 (Forall_forall _ _) Hi).
Qed.

Lemma sorted_weaken (R R' : relation Z) l :
  (forall i j, i ∈ l -> j ∈ l -> R i j -> R' i j) -> StronglySorted R l -> StronglySorted R' l.
Proof.
  intros HR. induction 1 as [|i l Hl IH Hi]; constructor.
  - apply IH. intros a b Ha Hb. apply HR; by right.
  - apply Forall_forall. intros j Hj. apply HR; [by left|by right|]. by apply (proj1 (Forall_forall _ _) Hi).
Qed.

Lemma pass_elem k z i : i ∈ filter (fun i => drawn_at k z i = true) (zrange 0 MAX_WINDOWS) -> z_index (win k i) = z.
Proof. intros [Hd _]%list_elem_of_filter. unfold drawn_at in Hd. zprop. done. Qed.

Lemma draw_list_sorted k : StronglySorted (below k) (draw_list k).
Proof.
  unfold draw_list. pose proof (zrange_sorted 0 (next_z_index k + 1)) as Hs.
  induction Hs as [|z zs Hzs IH Hz]; [constructor|]. rewrite bind_cons.
  apply StronglySorted_app. split; [|split; [|exact IH]].
  - intros i j Hi%pass_elem (z' & Hj%pass_elem & Hz')%list_elem_of_bind.
    left. apply (proj1 (Forall_forall _ _) Hz) in Hz'. lia.
  - eapply sorted_weaken; [|apply filter_sorted, zrange_sorted].
    intros i j Hi%pass_elem Hj%pass_elem Hlt. right. split; [congruence|done].
Qed.

(** The compositor paints the window stack: it draws exactly the active
    windows with a canvas whose number is at most [next_z_index], each once, one
    after another in the order of their numbers (slots of equal number in slot
    order), so that of two overlapping windows the one that hit-testing
    prefers is painted last. *)
Theorem composite_stack k fb pitch4 r m :
  composite_windows_in_rect font k fb pitch4 r m
    = foldl (fun m i => draw_window font k fb pitch4 r i m) m (draw_list k) /\
  StronglySorted (below k) (draw_list k) /\ NoDup (draw_list k) /\
  (forall i, i ∈ draw_list k <->
     0 <= i < MAX_WINDOWS /\ active (win k i) = true /\ canvas (win k i) <> 0 /\
     0 <= z_index (win k i) <= next_z_index k).
Proof.
  split; [apply composite_draw_list|]. pose proof (draw_list_sorted k) as Hs. split; [done|].
  split; [|intros i; apply elem_of_draw_list].
  induction Hs as [|i l _ IH Hi]; [constructor|]. constructor; [|done].
  intros Hin. apply (proj1 (Forall_forall _ _) Hi) in Hin. unfold below in Hin. lia.
Qed.

(** ** A window that is not drawn *)

(** [kwm_create_window] renumbers the other windows before the new one takes
    part: once the counter has passed 17 (every click on a window advances it),
    the next window that is created gets the focus but a number above
    [next_z_index], and the compositor does not draw it. *)
Theorem kwm_create_window_hidden k tid px py w h k' i :
  17 < next_z_index k < 2 ^ 32 - 1 -> (forall j, active (win k j) = false -> is_desktop (win k j) = false) ->
  kwm_create_window k tid px py w h = (k', i) -> i <> -1 ->
  active (win k' i) = true /\ focused_win_id k' = i /\ z_index (win k' i) = next_z_index k /\
  next_z_index k' < z_index (win k' i) /\ i ∉ draw_list k'.
Proof.
  intros Hz Hfree. unfold kwm_create_window.
  destruct (_ || _); [by intros [= <- <-]|]. destruct (_ <? _); [by intros [= <- <-]|].
  destruct (free_slot k) as [s|] eqn:Ef; [|by intros [= <- <-]].
  apply KwmThm.free_slot_Some in Ef as [Hr Ha].
  destruct (display_buffer_create _ _ _ _) as [g c]. destruct (c =? 0); [by intros [= <- <-]|].
  change (win (set_gs k g) s) with (win k s). rewrite Ha.
  set (nw := mk_win false px py w h c _ tid _ _).
  destruct (KwmThm.create_shape (set_gs k g) s nw eq_refl (Hfree s Ha)) as (_ & Ez & Hn & _).
  set (k1 := maybe_normalize _) in *. clearbody k1. rewrite Ez. cbv zeta.
  change (next_z_index (set_gs k g)) with (next_z_index k) in *.
  rewrite wrap_small in Hn by lia. unfold MAX_WINDOWS in Hn. specialize (Hn ltac:(lia)).
  set (w1 := mk_win true _ _ _ _ _ _ _ 0 []).
  set (k2 := kwm_frame_dirty (set_focus (set_win k1 s w1) s) s).
  assert (forall k', kwm_windows k' = <[s := w1]> (kwm_windows k1) -> next_z_index k' = next_z_index k1 ->
    focused_win_id k' = s -> active (win k' s) = true /\ focused_win_id k' = s /\
    z_index (win k' s) = next_z_index k /\ next_z_index k' < z_index (win k' s) /\ s ∉ draw_list k') as Hgoal.
  { intros k3 E1 E2 E3. assert (win k3 s = w1) as E by (unfold win; by rewrite E1, lookup_insert_eq).
    rewrite E, E2, elem_of_draw_list, E. cbn [active z_index w1 with_z]. splits; lia. }
  assert (forall k3 j, kwm_windows (kwm_frame_dirty k3 j) = kwm_windows k3 /\
    next_z_index (kwm_frame_dirty k3 j) = next_z_index k3 /\
    focused_win_id (kwm_frame_dirty k3 j) = focused_win_id k3) as Hfd.
  { intros k3 j. unfold kwm_frame_dirty. destruct (_ || _); [done|]. by destruct (negb _). }
  destruct (Hfd (set_focus (set_win k1 s w1) s) s) as (F1 & F2 & F3). fold k2 in F1, F2, F3.
  intros [= <- <-] _. destruct (_ && _); [|by apply Hgoal].
  match goal with |- context [kwm_frame_dirty k2 ?j] => destruct (Hfd k2 j) as (G1 & G2 & G3) end.
  apply Hgoal; [by rewrite G1, F1|by rewrite G2, F2|by rewrite G3, F3].
Qed.
End compositor.

(** ** Witnesses *)

Import KwmThm.

Lemma composite_confined_witness :
  ld (composite_windows_in_rect (fun _ _ => 255) kwm4 1000 640 (mk_rect 12 12 4 4) {[ 1000 := 5 ]}) 1000 = 5.
Proof.
  rewrite (composite_confined (fun _ _ => 255) kwm4 1000 640 (mk_rect 12 12 4 4) {[ 1000 := 5 ]}).
  - vm_compute. reflexivity.
  - unfold clip_ok, rect_ok. cbn [x y width height]. lia.
  - intros i Hi.
    assert (forallb (fun i => let w := win kwm4 i in (-1000 <=? wx w) && (wx w <=? 1000) && (-1000 <=? wy w) &&
      (wy w <=? 1000) && (0 <=? wwidth w) && (wwidth w <=? 1000) && (0 <=? wheight w) && (wheight w <=? 1000))
      (zrange 0 16) = true) as Hf by (vm_compute; reflexivity).
    rewrite forallb_forall in Hf. specialize (Hf i). cbv zeta in Hf.
    rewrite !andb_true_iff, !Z.leb_le in Hf. unfold win_ok.
    assert (In i (zrange 0 16)) as Hin by (apply list_elem_of_In, elem_of_zrange; unfold MAX_WINDOWS in Hi; lia).
    specialize (Hf Hin). lia.
  - intros px py Hin. unfold in_rect in Hin. cbn [x y width height] in Hin. lia.
Defined.

(** A window clicked seventeen times. *)
Definition clicked : kwm (H := gmap Z Z) :=
  Nat.iter 17 (fun k => (kwm_process_mouse (kwm_process_mouse k 12 40 true false).1 12 40 false true).1) kwm1.

Lemma kwm_create_window_hidden_witness :
  let r := kwm_create_window clicked 5 60 60 30 30 in r.2 = 1 /\ 1 ∉ draw_list (r.1).
Proof.
  intros r. assert (r.2 = 1) as E by (vm_compute; reflexivity). split; [exact E|].
  assert (r = (r.1, 1)) as Er by (rewrite <- E; apply surjective_pairing).
  apply (kwm_create_window_hidden clicked 5 60 60 30 30 r.1 1); [| |exact Er|lia].
  - assert ((17 <? next_z_index clicked) && (next_z_index clicked <? 2 ^ 32 - 1) = true) as Hz
      by (vm_compute; reflexivity).
    apply andb_true_iff in Hz as [H1 H2]. apply Z.ltb_lt in H1, H2. split; assumption.
  - intros j Ha. assert (kwm_windows clicked !! 0 <> None /\ delete 0 (kwm_windows clicked) = ∅) as [_ Hw]
      by (vm_compute; split; [discriminate|reflexivity]).
    destruct (Z.eq_dec j 0) as [->|Hne]; [vm_compute; reflexivity|].
    assert (win clicked j = no_win) as -> ; [|reflexivity].
    unfold win. rewrite <- (lookup_delete_ne (kwm_windows clicked) 0 j) by congruence. rewrite Hw. reflexivity.
Defined.
End CompositorThm.
