(* ===== verification/Syscall.v ===== *)
(** * System calls (src/kernel/syscall.c)

    [syscall_handler] is a program over the kernel functions it calls.  [call]
    lists those functions, each with its arguments and the type of its answer;
    a program [prog] is a tree of calls.  The answers are left open here: the
    properties of [SyscallThm] hold for every answer the callee's contract
    allows, and [SyscallRun] answers the calls with the models of the components.

    Buffers of the kernel are byte lists.  A block of the kernel heap is its
    address together with the bytes it holds when it is handed out ([Kmalloc]);
    what a callee does not write keeps those bytes.  The diagnostic output under
    [HEAP_WATCH_DEBUG] is left out. *)

From S2P Require Import Prelude KString Kfs Event Display Kwm.
From stdpp Require Import base numbers list gmap.
From Stdlib Require Import ZArith Lia.

#[local] Open Scope Z_scope.

Module Syscall.

Definition UC_MAX_STR : Z := 1024.
Definition UC_MAX_FNAME : Z := 64.
Definition UC_MAX_HOST : Z := 128.
Definition UC_MAX_KBD : Z := 512.
Definition UC_MAX_FILE : Z := 8 * 1024 * 1024.
Definition UC_MAX_IO : Z := 1024 * 1024.
Definition UC_MAX_SOCK : Z := 64 * 1024.
Definition UC_MAX_ENTRIES : Z := 128.
Definition SIZEOF_FILE_INFO : Z := 32.
Definition SIZEOF_WINDOW_INFO : Z := 68.
Definition SIZEOF_EVENT : Z := 20.
Definition TASK_KIND_SPAWNED : Z := 1.

(** The fields of [registers_t] the handler reads or writes. *)
Record registers_t := mk_regs {
  rax : Z; rbx : Z; rcx : Z; rdx : Z; rsi : Z; rdi : Z; rip : Z; cs : Z; rsp : Z; ss : Z;
}.

Definition set_rax (r : registers_t) (v : Z) : registers_t :=
  mk_regs v r.(rbx) r.(rcx) r.(rdx) r.(rsi) r.(rdi) r.(rip) r.(cs) r.(rsp) r.(ss).
(** The frame through which the return enters a new ring-3 program. *)
Definition enter_user (r : registers_t) (ip sp : Z) : registers_t :=
  mk_regs r.(rax) r.(rbx) r.(rcx) r.(rdx) r.(rsi) r.(rdi) ip 0x1B sp 0x23.

(** ** Calls *)

(** A task is named by its index; [None] is the null pointer.  Functions with an
    out-buffer answer with the bytes they write. *)
Inductive call : Type -> Type :=
(* user-memory boundary *)
| StrncpyFromUser (usrc cap : Z) : call (option (list Z))
| UserRangeOk (uaddr len : Z) : call bool
| CopyFromUser (usrc len : Z) : call (option (list Z))
| CopyToUser (udst : Z) (bytes : list Z) : call bool
| UserAccessBegin : call unit
| UserAccessEnd : call unit
(* kernel heap *)
| Kmalloc (n : Z) : call (option (Z * list Z))
| Kfree (p : Z) : call unit
| KmallocRing0 (n : Z) : call Z
| KfreeRing0 (p : Z) : call unit
| KreallocRing0 (p old new : Z) : call Z
(* user heap *)
| UheapAlloc (t : option Z) (n : Z) : call Z
| UheapFree (t : option Z) (a : Z) : call Z
| UheapRealloc (t : option Z) (a n : Z) : call Z
| UheapReset (t : option Z) : call unit
(* terminal and input *)
| TtyWrite (bytes : list Z) : call unit
| TtyRead (n : Z) : call (list Z)
| TtyClear : call unit
| FlushKbdBuffer : call unit
| FlushEventQueue (tid : Z) : call unit
| PopEvent (tid : Z) : call (option Event.kyuzen_event_t)
(* KyuzenFS *)
| KfsFormat : call unit
| KfsListFiles : call unit
| KfsReadFile (name : list Z) : call unit
| KfsDeleteFile (name : list Z) : call unit
| KfsExists (name : list Z) : call Z
| KfsGetFileSize (name : list Z) : call Z
| KfsReadToBuffer (name : list Z) (cap : Z) : call (Z * list Z)
| KfsCreateFile (name data : list Z) : call Z
| KfsGetFileList (path : list Z) (max : Z) : call (list Kfs.file_info_t)
| KfsCreateFolder (path : list Z) : call Z
| KfsTotalSpace : call Z
| KfsUsedSpace : call Z
(* descriptors *)
| VfsOpen (path : list Z) (flags : Z) : call Z
| VfsRead (fd count : Z) : call (Z * list Z)
| VfsWrite (fd : Z) (data : list Z) : call Z
| VfsLseek (fd off whence : Z) : call Z
| VfsClose (fd : Z) : call Z
(* sockets and network *)
| KsockSocket : call Z
| KsockConnect (s ip port : Z) : call Z
| KsockSend (s : Z) (data : option (list Z)) : call Z
| KsockRecv (s len : Z) : call (Z * list Z)
| KsockClose (s : Z) : call Z
| KernelPing (host : list Z) : call Z
(* screen and windows *)
| DrawPixel (x y color : Z) : call unit
| DrawImage (x y w h ptr : Z) : call unit
| DrawString (s : list Z) (x y color : Z) : call unit
| ScreenSize : call (Z * Z)
| KwmCreateWindow (x y w h : Z) : call Z
| KwmCanvasBytes (win : Z) : call Z
| KwmUpdateWindow (win ptr : Z) : call unit
| KwmWindowOwner (win : Z) : call Z
| KwmDestroyWindow (win : Z) : call unit
| KwmDestroyWindowsOf (tid : Z) : call unit
| KwmSetCursor (kind : Z) : call unit
| KwmCreateDesktop : call Z
| KwmSetTitle (win : Z) (title : list Z) : call Z
| KwmGetWindows (max : Z) : call (list Kwm.kwm_window_info_t)
| KwmActivateWindow (win : Z) : call Z
(* tasks and address spaces *)
| SmpCurrentTaskId : call Z
| TaskCount : call Z
| GetPml4 (t : Z) : call Z
| SetPml4 (t pml4 : Z) : call unit
| GetCookie (t : Z) : call Z
| SetCookie (t cookie : Z) : call unit
| GetKind (t : Z) : call Z
| AsCookieNext : call Z
| TaskSleepMs (ms : Z) : call unit
| TaskExit : call unit
| CreateUserTask (entry stack pml4 cookie : Z) (name : list Z) : call Z
| VmmCreateAddressSpace : call Z
| VmmDestroyTaskAs (pml4 : Z) : call unit
| VmmSwitchPml4 (pml4 : Z) : call unit
| VmmReadCr3 : call Z
| IsMappedInto (va pml4 : Z) : call bool
| ElfLoadFile (name : list Z) (pml4 : Z) : call (Z * Z)
| ShellReturnRsp : call Z
| JumpToShell (rsp : Z) : call unit
| HaltForever : call unit
(* the rest *)
| YieldHlt : call unit
| TimerGetMs : call Z
| PmmTotalRam : call Z
| PmmUsedRam : call Z
| GetCpuUsage : call Z
| GetCpuString : call (list Z)
| RtcReadTime : call (list Z)
| GetUid : call Z
| SetUid (uid : Z) : call unit
| AcpiPoweroff : call unit
| SystemReboot : call unit.

(** A program returns, or ends in a call that does not return. *)
Inductive prog (X : Type) : Type :=
| Done (x : X)
| NoReturn
| Do {Y : Type} (c : call Y) (k : Y -> prog X).
Arguments Done {X}.
Arguments NoReturn {X}.
Arguments Do {X Y}.

Fixpoint bind {X Y} (p : prog X) (f : X -> prog Y) : prog Y :=
  match p with
  | Done x => f x
  | NoReturn => NoReturn
  | Do c k => Do c (fun y => bind (k y) f)
  end.

Declare Scope prog_scope.
Delimit Scope prog_scope with prog.
Notation "x <- c ;; k" := (Do c (fun x => k%prog)) (at level 100, c at next level, right associativity) : prog_scope.
Notation "' p <- c ;; k" := (Do c (fun x => match x with p => k%prog end))
  (at level 100, p pattern, c at next level, right associativity) : prog_scope.
Notation "c ;;; k" := (Do c (fun _ => k%prog)) (at level 100, right associativity) : prog_scope.
#[local] Open Scope prog_scope.

(** ** Buffers *)

Definition le32_bytes (x : Z) : list Z := map (fun i => u8 (x / 2 ^ (8 * i))) (zrange 0 4).

(** A C string in a field that held [old]: the bytes behind the terminator stay. *)
Definition str_field (old s : list Z) : list Z := Kfs.put_bytes old 0 (s ++ [0]).
Definition title_field (old s : list Z) : list Z := take 32 (Kfs.put_bytes old 0 (s ++ [0])).

(** [file_info_t] over the 32 bytes [old] of a block; the three bytes of padding
    are not written. *)
Definition file_info_bytes (old : list Z) (i : Kfs.file_info_t) : list Z :=
  str_field (take 24 old) i.(Kfs.fi_name) ++ le32_bytes i.(Kfs.fi_size) ++
  [if i.(Kfs.fi_is_folder) then 1 else 0] ++ drop 29 old.

Definition b2z (b : bool) : Z := if b then 1 else 0.

(** [kwm_window_info_t] over the 68 bytes [old]; two bytes of padding. *)
Definition window_info_bytes (old : list Z) (i : Kwm.kwm_window_info_t) : list Z :=
  le32_bytes i.(Kwm.i_win_id) ++ [b2z i.(Kwm.i_active); b2z i.(Kwm.i_focused)] ++ take 2 (drop 6 old) ++
  mjoin (le32_bytes <$> [i.(Kwm.i_x); i.(Kwm.i_y); i.(Kwm.i_width); i.(Kwm.i_height);
                         i.(Kwm.i_z_index); i.(Kwm.i_owner_task); i.(Kwm.i_flags)]) ++
  title_field (drop 36 old) i.(Kwm.i_title).

(** An array of records written into a block from its start. *)
Fixpoint fill_records {T} (size : Z) (enc : list Z -> T -> list Z) (block : list Z) (l : list T) : list Z :=
  match l with
  | [] => []
  | x :: l => enc (take (Z.to_nat size) block) x ++ fill_records size enc (drop (Z.to_nat size) block) l
  end.

Definition event_bytes (e : Event.kyuzen_event_t) : list Z :=
  mjoin (le32_bytes <$> [e.(Event.type); e.(Event.param1); e.(Event.param2); e.(Event.param3); e.(Event.win_id)]).

(** ** Helpers of the handler *)

(** [syscall_current_task]: the index of the calling task, if it is valid. *)
Definition syscall_current_task {X} (k : option Z -> prog X) : prog X :=
  t <- SmpCurrentTaskId;; n <- TaskCount;;
  k (if (t <? 0) || (n <=? t) then None else Some t).

(** [r->rax = v; return] *)
Definition ret (r : registers_t) (v : Z) : prog registers_t := Done (set_rax r (u64 v)).

(** A name copied in, or [otherwise] when the copy fails. *)
Definition with_name (r : registers_t) (otherwise : Z) (k : list Z -> prog registers_t) : prog registers_t :=
  s <- StrncpyFromUser r.(rbx) UC_MAX_FNAME;;
  match s with Some kf => k kf | None => ret r otherwise end.

(** ** The branches *)

Section handler.
Variable r : registers_t.
Variable from_user : bool.

Definition sys_print : prog registers_t :=
  s <- StrncpyFromUser r.(rbx) UC_MAX_STR;;
  match s with
  | Some (c :: l) => TtyWrite (c :: l);;; ret r 0
  | _ => ret r 0
  end.

Definition sys_read_keyboard : prog registers_t :=
  let want := u32 r.(rcx) in
  let want := if UC_MAX_KBD <? want then UC_MAX_KBD else want in
  if 0 <? want then
    ok <- UserRangeOk r.(rbx) want;;
    if (ok : bool) then
      kbuf <- TtyRead want;;
      match kbuf with
      | [] => ret r 0
      | _ => _ <- CopyToUser r.(rbx) kbuf;; ret r (Z.of_nat (length kbuf))
      end
    else ret r 0
  else ret r 0.

Definition sys_alloc (t : option Z) : prog registers_t :=
  if from_user then a <- UheapAlloc t r.(rbx);; ret r a
  else p <- KmallocRing0 (u32 r.(rbx));; ret r p.

Definition sys_free (t : option Z) : prog registers_t :=
  if from_user then UheapFree t r.(rbx);;; ret r 0 else KfreeRing0 r.(rbx);;; ret r 0.

Definition sys_realloc (t : option Z) : prog registers_t :=
  if from_user then a <- UheapRealloc t r.(rbx) r.(rdx);; ret r a
  else p <- KreallocRing0 r.(rbx) (u32 r.(rcx)) (u32 r.(rdx));; ret r p.

Definition sys_file_exists : prog registers_t := with_name r 0 (fun kf => v <- KfsExists kf;; ret r v).
Definition sys_file_size : prog registers_t := with_name r 0 (fun kf => v <- KfsGetFileSize kf;; ret r v).
Definition sys_fs_read : prog registers_t := with_name r 0 (fun kf => KfsReadFile kf;;; ret r 0).
Definition sys_fs_delete : prog registers_t := with_name r 0 (fun kf => KfsDeleteFile kf;;; ret r 0).

Definition sys_read_file_to_buffer : prog registers_t :=
  with_name r 0 (fun kf =>
    let cap := u32 r.(rdx) in
    fsize <- KfsGetFileSize kf;;
    if fsize =? 0 then e <- KfsExists kf;; ret r (if e =? 0 then 0 else 1)
    else if (fsize <=? cap) && (fsize <=? UC_MAX_FILE) then
      ok <- UserRangeOk r.(rcx) fsize;;
      if (ok : bool) then
        b <- Kmalloc fsize;;
        match b with
        | None => ret r 0
        | Some (p, block) =>
            ' (ok, bytes) <- KfsReadToBuffer kf fsize;;
            if ok =? 0 then Kfree p;;; ret r 0
            else
              c <- CopyToUser r.(rcx) (Kfs.put_bytes block 0 bytes);;
              Kfree p;;; ret r (b2z c)
        end
      else ret r 0
    else ret r 0).

Definition sys_get_cpu_string : prog registers_t :=
  s <- GetCpuString;; _ <- CopyToUser r.(rbx) s;; ret r 0.

Definition sys_create_file : prog registers_t :=
  with_name r 0 (fun kf =>
    let size := u32 r.(rdx) in
    if UC_MAX_FILE <? size then ret r 0
    else if size =? 0 then v <- KfsCreateFile kf [];; ret r v
    else
      b <- Kmalloc size;;
      match b with
      | None => ret r 0
      | Some (p, _) =>
          d <- CopyFromUser r.(rcx) size;;
          match d with
          | Some data => v <- KfsCreateFile kf data;; Kfree p;;; ret r v
          | None => Kfree p;;; ret r 0
          end
      end).

Definition sys_get_time : prog registers_t :=
  t <- RtcReadTime;; _ <- CopyToUser r.(rbx) (mjoin (le32_bytes <$> t));; ret r 0.

Definition sys_draw_image : prog registers_t :=
  let w := i32 r.(rdx) in
  let h := i32 r.(rsi) in
  if (0 <? w) && (0 <? h) && (w <=? 4096) && (h <=? 4096) then
    ok <- UserRangeOk r.(rdi) (w * h * 4);;
    if (ok : bool) then
      if from_user then
        UserAccessBegin;;; DrawImage (i32 r.(rbx)) (i32 r.(rcx)) w h r.(rdi);;; UserAccessEnd;;; ret r 0
      else DrawImage (i32 r.(rbx)) (i32 r.(rcx)) w h r.(rdi);;; ret r 0
    else ret r 0
  else ret r 0.

Definition sys_get_file_list : prog registers_t :=
  with_name r 0 (fun kpath =>
    let maxn := i32 r.(rdx) in
    let maxn := if UC_MAX_ENTRIES <? maxn then UC_MAX_ENTRIES else maxn in
    if 0 <? maxn then
      ok <- UserRangeOk r.(rcx) (maxn * SIZEOF_FILE_INFO);;
      if (ok : bool) then
        b <- Kmalloc (maxn * SIZEOF_FILE_INFO);;
        match b with
        | None => ret r 0
        | Some (p, block) =>
            l <- KfsGetFileList kpath maxn;;
            match l with
            | [] => Kfree p;;; ret r 0
            | _ =>
                c <- CopyToUser r.(rcx) (fill_records SIZEOF_FILE_INFO file_info_bytes block l);;
                Kfree p;;; ret r (if (c : bool) then Z.of_nat (length l) else 0)
            end
        end
      else ret r 0
    else ret r 0).

(** The new address space becomes the caller's, and CR3 points to it. *)
Definition adopt_space (t : option Z) (pml4 : Z) {X} (k : prog X) : prog X :=
  match t with
  | Some i => SetPml4 i pml4;;; c <- AsCookieNext;; SetCookie i c;;; VmmSwitchPml4 pml4;;; k
  | None => VmmSwitchPml4 pml4;;; k
  end.

Definition sys_load_elf : prog registers_t :=
  with_name r 0 (fun kfname =>
    me <- SmpCurrentTaskId;; FlushEventQueue me;;; FlushKbdBuffer;;;
    new_pml4 <- VmmCreateAddressSpace;;
    let load := ' (entry, _) <- ElfLoadFile kfname new_pml4;; ret r entry in
    if new_pml4 =? 0 then load
    else
      syscall_current_task (fun self =>
        match self with
        | None => adopt_space None new_pml4 load
        | Some i =>
            old <- GetPml4 i;;
            let rest := UheapReset (Some i);;; adopt_space (Some i) new_pml4 load in
            if old =? 0 then rest else VmmDestroyTaskAs old;;; rest
        end)).

Definition sys_draw_string : prog registers_t :=
  s <- StrncpyFromUser r.(rbx) UC_MAX_STR;;
  match s with
  | Some l => DrawString l (u32 (i32 r.(rcx))) (u32 (i32 r.(rdx))) (u32 r.(rsi));;; ret r 0
  | None => ret r 0
  end.

Definition sys_get_event : prog registers_t :=
  ok <- UserRangeOk r.(rbx) SIZEOF_EVENT;;
  if (ok : bool) then
    me <- SmpCurrentTaskId;; e <- PopEvent me;;
    match e with
    | Some ev => _ <- CopyToUser r.(rbx) (event_bytes ev);; ret r 1
    | None => ret r 0
    end
  else ret r 0.

Definition sys_kwm_create_window : prog registers_t :=
  v <- KwmCreateWindow (i32 r.(rbx)) (i32 r.(rcx)) (u32 r.(rdx)) (u32 r.(rsi));; ret r v.

Definition sys_kwm_update_window : prog registers_t :=
  n <- KwmCanvasBytes (i32 r.(rbx));;
  if 0 <? n then
    ok <- UserRangeOk r.(rcx) n;;
    if (ok : bool) then KwmUpdateWindow (i32 r.(rbx)) r.(rcx);;; ret r 0 else ret r 0
  else ret r 0.

Definition sys_kwm_destroy_window : prog registers_t :=
  let wid := i32 r.(rbx) in
  o <- KwmWindowOwner wid;; me <- SmpCurrentTaskId;;
  if o =? me then KwmDestroyWindow wid;;; ret r 0 else ret r 0.

(** Leaving the current address space, shared by [sys_exec] and [sys_exit]. *)
Definition drop_space {X} (t : option Z) (k : prog X) : prog X :=
  match t with
  | Some i => old <- GetPml4 i;; if old =? 0 then k else VmmDestroyTaskAs old;;; SetPml4 i 0;;; k
  | None => k
  end.

Definition sys_exec : prog registers_t :=
  with_name r 0 (fun kfname =>
    me <- SmpCurrentTaskId;; KwmDestroyWindowsOf me;;;
    syscall_current_task (fun self =>
    drop_space self (
    UheapReset self;;;
    me <- SmpCurrentTaskId;; FlushEventQueue me;;; FlushKbdBuffer;;;
    new_pml4 <- VmmCreateAddressSpace;;
    let load :=
      ' (entry, top) <- ElfLoadFile kfname new_pml4;;
      if entry =? 0 then ret r 0
      else if top =? 0 then rsp <- ShellReturnRsp;; ret (enter_user r entry rsp) 1
      else ret (enter_user r entry top) 1 in
    if new_pml4 =? 0 then load
    else syscall_current_task (fun self => adopt_space self new_pml4 load)))).

Definition sys_exit : prog registers_t :=
  me <- SmpCurrentTaskId;; KwmDestroyWindowsOf me;;;
  syscall_current_task (fun self =>
    let leave :=
      syscall_current_task (fun self =>
        UheapReset self;;;
        drop_space self (
          safe_rsp <- ShellReturnRsp;;
          if safe_rsp =? 0 then HaltForever;;; NoReturn else JumpToShell safe_rsp;;; NoReturn)) in
    match self with
    | Some i => kind <- GetKind i;; if kind =? TASK_KIND_SPAWNED then TaskExit;;; NoReturn else leave
    | None => leave
    end).

Definition sys_ping : prog registers_t :=
  s <- StrncpyFromUser r.(rbx) UC_MAX_HOST;;
  match s with
  | Some (c :: l) => rtt <- KernelPing (c :: l);; ret r rtt
  | _ => ret r (-1)
  end.

Definition sys_is_mapped : prog registers_t :=
  syscall_current_task (fun self =>
    match self with
    | Some i => p <- GetPml4 i;; b <- IsMappedInto r.(rbx) p;; ret r (b2z b)
    | None => b <- IsMappedInto r.(rbx) 0;; ret r (b2z b)
    end).

Definition sys_get_pid : prog registers_t :=
  syscall_current_task (fun self =>
    match self with Some i => c <- GetCookie i;; ret r c | None => ret r 0 end).

Definition sys_open : prog registers_t :=
  s <- StrncpyFromUser r.(rbx) UC_MAX_FNAME;;
  match s with
  | Some (c :: l) => fd <- VfsOpen (c :: l) (u32 r.(rcx));; ret r fd
  | _ => ret r (-1)
  end.

Definition sys_read : prog registers_t :=
  let count := u32 r.(rdx) in
  let count := if UC_MAX_IO <? count then UC_MAX_IO else count in
  if count =? 0 then ' (n, _) <- VfsRead (i32 r.(rbx)) 0;; ret r n
  else
    ok <- UserRangeOk r.(rcx) count;;
    if (ok : bool) then
      b <- Kmalloc count;;
      match b with
      | None => ret r (-1)
      | Some (p, block) =>
          ' (n, bytes) <- VfsRead (i32 r.(rbx)) count;;
          if 0 <? n then
            _ <- CopyToUser r.(rcx) (take (Z.to_nat n) (Kfs.put_bytes block 0 bytes));; Kfree p;;; ret r n
          else Kfree p;;; ret r n
      end
    else ret r (-1).

(** The bytes of a block after a copy that may have failed. *)
Definition filled (block : list Z) (d : option (list Z)) : list Z :=
  match d with Some data => Kfs.put_bytes block 0 data | None => block end.

Definition sys_write : prog registers_t :=
  let count := u32 r.(rdx) in
  if count =? 0 then n <- VfsWrite (i32 r.(rbx)) [];; ret r n
  else if count <=? UC_MAX_IO then
    ok <- UserRangeOk r.(rcx) count;;
    if (ok : bool) then
      b <- Kmalloc count;;
      match b with
      | None => ret r (-1)
      | Some (p, block) =>
          d <- CopyFromUser r.(rcx) count;;
          n <- VfsWrite (i32 r.(rbx)) (filled block d);;
          Kfree p;;; ret r n
      end
    else ret r (-1)
  else ret r (-1).

Definition sys_sock_send : prog registers_t :=
  let len := u32 r.(rdx) in
  if len =? 0 then n <- KsockSend (i32 r.(rbx)) None;; ret r n
  else if len <=? UC_MAX_SOCK then
    ok <- UserRangeOk r.(rcx) len;;
    if (ok : bool) then
      b <- Kmalloc len;;
      match b with
      | None => ret r (-1)
      | Some (p, block) =>
          d <- CopyFromUser r.(rcx) len;;
          n <- KsockSend (i32 r.(rbx)) (Some (filled block d));;
          Kfree p;;; ret r n
      end
    else ret r (-1)
  else ret r (-1).

Definition sys_sock_recv : prog registers_t :=
  let len := u32 r.(rdx) in
  if len =? 0 then ' (n, _) <- KsockRecv (i32 r.(rbx)) 0;; ret r n
  else
    let len := if UC_MAX_SOCK <? len then UC_MAX_SOCK else len in
    ok <- UserRangeOk r.(rcx) len;;
    if (ok : bool) then
      b <- Kmalloc len;;
      match b with
      | None => ret r (-1)
      | Some (p, block) =>
          ' (n, bytes) <- KsockRecv (i32 r.(rbx)) len;;
          if 0 <? n then
            _ <- CopyToUser r.(rcx) (take (Z.to_nat n) (Kfs.put_bytes block 0 bytes));; Kfree p;;; ret r n
          else Kfree p;;; ret r n
      end
    else ret r (-1).

Definition sys_spawn : prog registers_t :=
  with_name r (-1) (fun kfname =>
    child_pml4 <- VmmCreateAddressSpace;;
    if child_pml4 =? 0 then ret r (-1)
    else
      syscall_current_task (fun self =>
        let load (saved_as : Z) : prog registers_t :=
          saved_cr3 <- VmmReadCr3;;
          let restore (entry top : Z) : prog registers_t :=
            if (entry =? 0) || (top =? 0) then VmmDestroyTaskAs child_pml4;;; ret r (-1)
            else
              cookie <- AsCookieNext;;
              tid <- CreateUserTask entry top child_pml4 cookie kfname;;
              if 0 <=? tid then ret r tid else VmmDestroyTaskAs child_pml4;;; ret r (-1) in
          match self with
          | Some i =>
              SetPml4 i child_pml4;;; VmmSwitchPml4 child_pml4;;;
              ' (entry, top) <- ElfLoadFile kfname child_pml4;;
              VmmSwitchPml4 saved_cr3;;; SetPml4 i saved_as;;; restore entry top
          | None =>
              VmmSwitchPml4 child_pml4;;;
              ' (entry, top) <- ElfLoadFile kfname child_pml4;;
              VmmSwitchPml4 saved_cr3;;; restore entry top
          end in
        match self with Some i => a <- GetPml4 i;; load a | None => load 0 end)).

Definition sys_kwm_set_cursor : prog registers_t :=
  let kind := i32 r.(rbx) in
  if (kind <? 0) || (2 <? kind) then ret r (-1) else KwmSetCursor kind;;; ret r 0.

Definition sys_kwm_set_title : prog registers_t :=
  s <- StrncpyFromUser r.(rcx) 32;;
  match s with
  | Some t => v <- KwmSetTitle (i32 r.(rbx)) t;; ret r v
  | None => ret r (-1)
  end.

Definition sys_kwm_get_windows : prog registers_t :=
  let maxn := i32 r.(rcx) in
  let maxn := if 16 <? maxn then 16 else maxn in
  if 0 <? maxn then
    ok <- UserRangeOk r.(rbx) (maxn * SIZEOF_WINDOW_INFO);;
    if (ok : bool) then
      b <- Kmalloc (maxn * SIZEOF_WINDOW_INFO);;
      match b with
      | None => ret r 0
      | Some (p, block) =>
          l <- KwmGetWindows maxn;;
          match l with
          | [] => Kfree p;;; ret r 0
          | _ =>
              c <- CopyToUser r.(rbx) (fill_records SIZEOF_WINDOW_INFO window_info_bytes block l);;
              Kfree p;;; ret r (if (c : bool) then Z.of_nat (length l) else 0)
          end
      end
    else ret r 0
  else ret r 0.

Definition sys_get_screen_size : prog registers_t :=
  ' (w, h) <- ScreenSize;;
  a <- CopyToUser r.(rbx) (le32_bytes w);;
  if (a : bool) then b <- CopyToUser r.(rcx) (le32_bytes h);; ret r (if (b : bool) then 0 else -1)
  else ret r (-1).

Definition sys_mkdir : prog registers_t := with_name r 0 (fun kf => v <- KfsCreateFolder kf;; ret r v).

(** ** The dispatcher *)

Definition dispatch (task : option Z) (n : Z) : prog registers_t :=
  match n with
  | 1 => sys_print
  | 2 => TtyClear;;; ret r 0
  | 3 => sys_read_keyboard
  | 4 => YieldHlt;;; ret r 0
  | 5 => KfsFormat;;; ret r 0
  | 6 => KfsListFiles;;; ret r 0
  | 7 => sys_fs_read
  | 8 => sys_fs_delete
  | 9 => sys_alloc task
  | 10 => sys_free task
  | 11 => sys_file_exists
  | 12 => sys_file_size
  | 13 => sys_read_file_to_buffer
  | 14 => v <- TimerGetMs;; ret r v
  | 15 => v <- PmmTotalRam;; ret r v
  | 16 => v <- PmmUsedRam;; ret r v
  | 17 => sys_get_cpu_string
  | 18 => sys_create_file
  | 19 => sys_realloc task
  | 20 => sys_get_time
  | 22 => DrawPixel (u32 r.(rbx)) (u32 r.(rcx)) (u32 r.(rdx));;; ret r 0
  | 23 => sys_draw_image
  | 24 => sys_get_file_list
  | 25 => sys_load_elf
  | 26 => sys_draw_string
  | 27 => SetUid (i32 r.(rbx));;; ret r 0
  | 28 => v <- GetUid;; ret r v
  | 29 => sys_get_event
  | 30 => sys_kwm_create_window
  | 31 => sys_kwm_update_window
  | 32 => sys_kwm_destroy_window
  | 33 => sys_exec
  | 34 => sys_exit
  | 35 => v <- KfsTotalSpace;; ret r v
  | 36 => v <- KfsUsedSpace;; ret r v
  | 37 => v <- GetCpuUsage;; ret r v
  | 38 => AcpiPoweroff;;; ret r 0
  | 39 => SystemReboot;;; ret r 0
  | 41 => sys_ping
  | 42 => v <- VmmReadCr3;; ret r v
  | 43 => v <- SmpCurrentTaskId;; ret r v
  | 44 => sys_is_mapped
  | 45 => sys_get_pid
  | 46 => TaskSleepMs (u32 r.(rbx));;; ret r 0
  | 47 => sys_open
  | 48 => sys_read
  | 49 => sys_write
  | 50 => v <- VfsLseek (i32 r.(rbx)) (i32 r.(rcx)) (i32 r.(rdx));; ret r v
  | 51 => v <- VfsClose (i32 r.(rbx));; ret r v
  | 52 => v <- KsockSocket;; ret r v
  | 53 => v <- KsockConnect (i32 r.(rbx)) (u32 r.(rcx)) (u16 r.(rdx));; ret r v
  | 54 => sys_sock_send
  | 55 => sys_sock_recv
  | 56 => v <- KsockClose (i32 r.(rbx));; ret r v
  | 57 => sys_spawn
  | 58 => sys_kwm_set_cursor
  | 59 => v <- KwmCreateDesktop;; ret r v
  | 60 => sys_kwm_set_title
  | 61 => sys_kwm_get_windows
  | 62 => v <- KwmActivateWindow (i32 r.(rbx));; ret r v
  | 63 => sys_get_screen_size
  | 64 => sys_mkdir
  | _ => ret r 0
  end.
End handler.

Definition syscall_handler (r : registers_t) : prog registers_t :=
  syscall_current_task (fun task => dispatch r (Z.land r.(cs) 3 =? 3) task r.(rax)).
End Syscall.
