(* ===== verification/SyscallThm.v ===== *)
(** * Discipline of the system-call handler

    A program over [call] is run against arbitrary answers that respect the
    contracts of the callees, with a ghost record of what the handler has
    validated, allocated and opened.  Every branch of [syscall_handler] meets
    the preconditions of every call it makes. *)

From S2P Require Import Prelude KString Kfs Event Display Kwm Syscall.
From stdpp Require Import base numbers list gmap.
From Stdlib Require Import ZArith Lia.

#[local] Open Scope Z_scope.

Module SyscallThm.
Import Syscall.

Abbreviation len l := (Z.of_nat (length l)).

(** What the handler has established so far: accepted user ranges, canvas sizes
    and owners of windows it asked for, its own task id, heap blocks it holds,
    and whether user memory is open to the kernel. *)
Record ghost := mk_ghost {
  validated : list (Z * Z); canvas : list (Z * Z); owners : list (Z * Z); me : list Z;
  live : list Z; smap_open : bool;
}.
Definition ghost0 : ghost := mk_ghost [] [] [] [] [] false.

(** ** Contracts *)

(** Some accepted range of [n] bytes. *)
Definition has_range (g : ghost) (n : Z) : Prop := exists a, (a, n) ∈ g.(validated).
Definition name_ok (s : list Z) : Prop := len s < UC_MAX_FNAME.
Definition at_rest (g : ghost) : Prop := g.(live) = [] /\ g.(smap_open) = false.

(** What the handler owes a callee.  A name fits its buffer; sizes are within
    the limits; a pointer of ring 3 is dereferenced by the callee only in an
    accepted range, with user memory open; input is taken only when there is an
    accepted range to deliver it to; blocks are freed while they are held; the
    kernel allocator is never called with a pointer of ring 3; a window is
    destroyed by its owner. *)
Definition requires (from_user : bool) {Y} (c : call Y) (g : ghost) : Prop :=
  match c with
  | StrncpyFromUser _ cap => 0 < cap
  | CopyFromUser _ n => 0 < n <= UC_MAX_FILE
  | CopyToUser _ d => len d <= UC_MAX_FILE
  | UserAccessBegin => g.(smap_open) = false
  | UserAccessEnd => g.(smap_open) = true
  | Kmalloc n => 0 < n <= UC_MAX_FILE
  | Kfree p => p ∈ g.(live)
  | KmallocRing0 _ => from_user = false
  | KfreeRing0 _ => from_user = false
  | KreallocRing0 _ _ _ => from_user = false
  | TtyWrite s => 0 < len s < UC_MAX_STR
  | TtyRead n => 0 < n <= UC_MAX_KBD /\ has_range g n
  | PopEvent t => t ∈ g.(me) /\ has_range g SIZEOF_EVENT
  | KfsReadFile s => name_ok s
  | KfsDeleteFile s => name_ok s
  | KfsExists s => name_ok s
  | KfsGetFileSize s => name_ok s
  | KfsReadToBuffer s cap => name_ok s /\ 0 < cap <= UC_MAX_FILE /\ has_range g cap
  | KfsCreateFile s d => name_ok s /\ len d <= UC_MAX_FILE
  | KfsGetFileList s n => name_ok s /\ 0 < n <= UC_MAX_ENTRIES /\ has_range g (n * SIZEOF_FILE_INFO)
  | KfsCreateFolder s => name_ok s
  | VfsOpen s _ => name_ok s /\ 0 < len s
  | VfsRead _ n => n = 0 \/ 0 < n <= UC_MAX_IO /\ has_range g n
  | VfsWrite _ d => len d <= UC_MAX_IO
  | KsockSend _ (Some d) => 0 < len d <= UC_MAX_SOCK
  | KsockRecv _ n => n = 0 \/ 0 < n <= UC_MAX_SOCK /\ has_range g n
  | KernelPing h => 0 < len h < UC_MAX_HOST
  | DrawString s _ _ _ => len s < UC_MAX_STR
  | DrawImage _ _ w h p =>
      0 < w <= 4096 /\ 0 < h <= 4096 /\ (p, w * h * 4) ∈ g.(validated) /\ (from_user = true -> g.(smap_open) = true)
  | KwmUpdateWindow w p => exists n, (w, n) ∈ g.(canvas) /\ (p, n) ∈ g.(validated)
  | KwmDestroyWindow w => exists t, (w, t) ∈ g.(owners) /\ t ∈ g.(me)
  | KwmSetCursor k => 0 <= k <= 2
  | KwmSetTitle _ t => len t < 32
  | KwmGetWindows n => 0 < n <= 16 /\ has_range g (n * SIZEOF_WINDOW_INFO)
  | ElfLoadFile s _ => name_ok s
  | CreateUserTask entry sp pml4 _ s => entry <> 0 /\ sp <> 0 /\ pml4 <> 0 /\ name_ok s
  | VmmDestroyTaskAs p => p <> 0
  | TaskExit => at_rest g
  | JumpToShell sp => sp <> 0 /\ at_rest g
  | HaltForever => at_rest g
  | _ => True
  end.

(** What a callee guarantees of its answer. *)
Definition answers {Y} (c : call Y) (g : ghost) : Y -> Prop :=
  match c in call Y return Y -> Prop with
  | StrncpyFromUser _ cap => fun y => match y with Some s => len s < cap | None => True end
  | CopyFromUser a n => fun y => match y with Some d => len d = n | None => (a, n) ∉ g.(validated) end
  | Kmalloc n => fun y => match y with Some (p, b) => p ∉ g.(live) /\ len b = n | None => True end
  | TtyRead n => fun y => len y <= n
  | KfsGetFileSize _ => fun y => 0 <= y < 2 ^ 32
  | KfsReadToBuffer _ cap => fun y => len y.2 <= cap
  | KfsGetFileList _ n => fun y => len y <= n /\ Forall (fun i => (length (Kfs.fi_name i) <= 22)%nat) y
  | VfsRead _ n => fun y => y.1 <= n /\ (0 < y.1 -> len y.2 = y.1)
  | KsockRecv _ n => fun y => y.1 <= n /\ (0 < y.1 -> len y.2 = y.1)
  | KwmGetWindows n => fun y => len y <= n
  | GetCpuString => fun y => len y = 49
  | RtcReadTime => fun y => len y = 6
  | _ => fun _ => True
  end.

Definition upd_validated (g : ghost) (x : Z * Z) : ghost := mk_ghost (x :: g.(validated)) g.(canvas) g.(owners) g.(me) g.(live) g.(smap_open).
Definition upd_live (g : ghost) (l : list Z) : ghost := mk_ghost g.(validated) g.(canvas) g.(owners) g.(me) l g.(smap_open).
Definition upd_smap (g : ghost) (b : bool) : ghost := mk_ghost g.(validated) g.(canvas) g.(owners) g.(me) g.(live) b.

(** What the handler knows afterwards. *)
Definition learns {Y} (c : call Y) (g : ghost) : Y -> ghost :=
  match c in call Y return Y -> ghost with
  | UserRangeOk a n => fun y => if (y : bool) then upd_validated g (a, n) else g
  | UserAccessBegin => fun _ => upd_smap g true
  | UserAccessEnd => fun _ => upd_smap g false
  | Kmalloc _ => fun y => match y with Some (p, _) => upd_live g (p :: g.(live)) | None => g end
  | Kfree p => fun _ => upd_live g (List.remove Z.eq_dec p g.(live))
  | KwmCanvasBytes w => fun y => mk_ghost g.(validated) ((w, y) :: g.(canvas)) g.(owners) g.(me) g.(live) g.(smap_open)
  | KwmWindowOwner w => fun y => mk_ghost g.(validated) g.(canvas) ((w, y) :: g.(owners)) g.(me) g.(live) g.(smap_open)
  | SmpCurrentTaskId => fun y => mk_ghost g.(validated) g.(canvas) g.(owners) (y :: g.(me)) g.(live) g.(smap_open)
  | _ => fun _ => g
  end.

(** Every call meets its precondition, whatever the earlier answers were, and
    [Q] holds of the result. *)
Fixpoint safe {X} (from_user : bool) (p : prog X) (g : ghost) (Q : X -> ghost -> Prop) : Prop :=
  match p with
  | Done x => Q x g
  | NoReturn => True
  | Do c k => requires from_user c g /\ forall y, answers c g y -> safe from_user (k y) (learns c g y) Q
  end.

(** ** Lengths of the buffers *)

Lemma len_put block l : len l <= len block -> len (Kfs.put_bytes block 0 l) = len block.
Proof. intros. unfold Kfs.put_bytes. rewrite !length_app, length_take, length_drop. lia. Qed.

Lemma len_le32 x : length (le32_bytes x) = 4%nat.
Proof. reflexivity. Qed.

Lemma len_file_info old i :
  length old = 32%nat -> (length (Kfs.fi_name i) <= 22)%nat -> length (file_info_bytes old i) = 32%nat.
Proof.
  intros Ho Hn. unfold file_info_bytes, str_field, Kfs.put_bytes.
  repeat (rewrite length_app || rewrite length_drop || rewrite length_take). rewrite len_le32, Ho. cbn [length]. lia.
Qed.

Lemma len_window_info old i : length old = 68%nat -> (length (window_info_bytes old i) <= 68)%nat.
Proof.
  intros Ho. unfold window_info_bytes, title_field. rewrite !length_app, !length_take, !length_drop, len_le32, Ho.
  change (length (mjoin _)) with 28%nat. cbn [length]. lia.
Qed.

Lemma len_join_le32 l : len (mjoin (le32_bytes <$> l)) = 4 * len l.
Proof.
  induction l as [|x l IH]; [done|].
  change (mjoin (le32_bytes <$> x :: l)) with (le32_bytes x ++ mjoin (le32_bytes <$> l)).
  rewrite length_app, len_le32. cbn [length]. lia.
Qed.

Lemma len_fill {T} size (enc : list Z -> T -> list Z) block l :
  0 <= size -> len l * size <= len block ->
  (forall old x, x ∈ l -> len old = size -> len (enc old x) <= size) ->
  len (fill_records size enc block l) <= len l * size.
Proof.
  intros Hs. revert block. induction l as [|x l IH]; intros block Hb He; cbn [fill_records]; [cbn; lia|].
  cbn [length] in *. rewrite length_app. rewrite Nat2Z.inj_add.
  assert (len (take (Z.to_nat size) block) = size) as Ht by (rewrite length_take; lia).
  pose proof (He _ x ltac:(by left) Ht).
  assert (len (fill_records size enc (drop (Z.to_nat size) block) l) <= len l * size).
  { apply IH; [rewrite length_drop; lia|]. intros old y Hy. apply He. by right. }
  lia.
Qed.

(** ** Automation *)

Lemma i32_bounds x : - 2 ^ 31 <= i32 x < 2 ^ 31.
Proof. unfold sx. pose proof (wrap_bound 32 x ltac:(lia)). cbv zeta. zcase; lia. Qed.

Lemma u32_bounds x : 0 <= u32 x < 2 ^ 32.
Proof. apply wrap_bound. lia. Qed.

Lemma remove_head p (l : list Z) : p ∉ l -> List.remove Z.eq_dec p (p :: l) = l.
Proof.
  intros Hp. cbn [List.remove]. destruct (Z.eq_dec p p); [|done]. apply notin_remove. by rewrite <- list_elem_of_In.
Qed.

Ltac limits := unfold name_ok, UC_MAX_STR, UC_MAX_FNAME, UC_MAX_HOST, UC_MAX_KBD, UC_MAX_FILE, UC_MAX_IO, UC_MAX_SOCK,
  UC_MAX_ENTRIES, SIZEOF_FILE_INFO, SIZEOF_WINDOW_INFO, SIZEOF_EVENT in *.

(** Preconditions that follow from the last answers. *)
Ltac tidy := cbn [requires learns answers fst snd validated canvas owners me live smap_open upd_validated upd_live upd_smap] in *.
Ltac owe1 := first [done | lia | (try match goal with |- context [filled _ ?d] => destruct d end; unfold filled, Kfs.put_bytes in *; repeat (rewrite length_app || rewrite length_take || rewrite length_drop); cbn [length] in *; lia) | congruence | (unfold has_range; eexists; by left) | by left | by (eexists; split; left) ].
Ltac owe := tidy; limits; unfold at_rest; repeat match goal with |- _ /\ _ => split end;
  first [owe1 | (left; owe1) | (right; repeat match goal with |- _ /\ _ => split end; owe1) | idtac].

(** One call. *)
Lemma safe_do {X Y} from_user (c : call Y) (k : Y -> prog X) g Q :
  requires from_user c g -> (forall y, answers c g y -> safe from_user (k y) (learns c g y) Q) ->
  safe from_user (Do c k) g Q.
Proof. intros H1 H2. split; assumption. Qed.
Ltac call_step := apply safe_do; [owe|intros ? ?].

(** ** The handler *)

Section handler.
Variables (r : registers_t) (from_user : bool).

Abbreviation ends := (fun (_ : registers_t) g => at_rest g).

Lemma with_name_safe otherwise k g :
  at_rest g -> (forall s, name_ok s -> safe from_user (k s) g ends) ->
  safe from_user (with_name r otherwise k) g ends.
Proof. intros Hg Hk. unfold with_name. call_step. destruct y as [s|]; [by apply Hk|done]. Qed.

Ltac finish := unfold ret; cbn [safe]; tidy; unfold at_rest; cbn [List.remove live smap_open];
  repeat (match goal with |- context [Z.eq_dec ?p ?p] => destruct (Z.eq_dec p p) end); done.
Ltac branch := repeat match goal with
  | |- safe _ (with_name _ _ _) _ _ => apply with_name_safe; [done|intros ? ?]
  | |- safe _ (Do _ _) _ _ => call_step
  | |- safe _ (ret _ _) _ _ => finish
  | |- safe _ NoReturn _ _ => exact Logic.I
  | |- safe _ (if ?b then _ else _) _ _ => let E := fresh "E" in destruct b eqn:E; zprop
  | |- safe _ (match ?y with _ => _ end) _ _ => destruct y
  end.

Ltac enter Hg := destruct Hg as [? ?]; match goal with g : ghost |- _ => destruct g end; cbn [live smap_open] in *; subst.

Lemma sys_read_safe g : at_rest g -> safe from_user (sys_read r) g ends.
Proof.
  intros Hg. enter Hg. pose proof (u32_bounds r.(rdx)). unfold sys_read. set (count := if _ <? _ then _ else _).
  assert (0 <= count <= UC_MAX_IO) by (unfold count; limits; zcases). branch.
Qed.

Lemma sys_write_safe g : at_rest g -> safe from_user (sys_write r) g ends.
Proof. intros Hg. enter Hg. pose proof (u32_bounds r.(rdx)). unfold sys_write. branch. Qed.

Lemma sys_sock_send_safe g : at_rest g -> safe from_user (sys_sock_send r) g ends.
Proof. intros Hg. enter Hg. pose proof (u32_bounds r.(rdx)). unfold sys_sock_send. branch. Qed.

Lemma sys_sock_recv_safe g : at_rest g -> safe from_user (sys_sock_recv r) g ends.
Proof.
  intros Hg. enter Hg. pose proof (u32_bounds r.(rdx)). unfold sys_sock_recv. cbv zeta.
  destruct (Z.eqb_spec (u32 r.(rdx)) 0); [branch|]. set (count := if UC_MAX_SOCK <? _ then _ else _).
  assert (0 < count <= UC_MAX_SOCK) by (unfold count; limits; zcases). branch.
Qed.

Lemma sys_read_file_to_buffer_safe g : at_rest g -> safe from_user (sys_read_file_to_buffer r) g ends.
Proof. intros Hg. enter Hg. pose proof (u32_bounds r.(rdx)). unfold sys_read_file_to_buffer. branch. Qed.

Lemma sys_create_file_safe g : at_rest g -> safe from_user (sys_create_file r) g ends.
Proof. intros Hg. enter Hg. pose proof (u32_bounds r.(rdx)). unfold sys_create_file. branch. Qed.

Lemma sys_read_keyboard_safe g : at_rest g -> safe from_user (sys_read_keyboard r) g ends.
Proof.
  intros Hg. enter Hg. pose proof (u32_bounds r.(rcx)). unfold sys_read_keyboard. cbv zeta. set (want := if UC_MAX_KBD <? _ then _ else _).
  assert (0 <= want <= UC_MAX_KBD) by (unfold want; limits; zcases). branch.
Qed.

Lemma sys_draw_image_safe g : at_rest g -> safe from_user (sys_draw_image r from_user) g ends.
Proof. intros Hg. enter Hg. unfold sys_draw_image. branch. Qed.

Lemma sys_get_file_list_safe g : at_rest g -> safe from_user (sys_get_file_list r) g ends.
Proof.
  intros Hg. enter Hg. unfold sys_get_file_list. apply with_name_safe; [done|]. intros kpath Hn. cbv zeta.
  set (maxn := if UC_MAX_ENTRIES <? _ then _ else _). assert (maxn <= UC_MAX_ENTRIES) by (unfold maxn; limits; zcases). branch.
  destruct_and!. eapply Z.le_trans; [apply len_fill|]; [lia|lia| |lia]. intros old i Hi Ho.
  match goal with F : Forall _ _ |- _ => rewrite Forall_forall in F; pose proof (len_file_info old i ltac:(lia) (F i Hi)) end. lia.
Qed.

Lemma sys_kwm_get_windows_safe g : at_rest g -> safe from_user (sys_kwm_get_windows r) g ends.
Proof.
  intros Hg. enter Hg. unfold sys_kwm_get_windows. cbv zeta. set (maxn := if 16 <? _ then _ else _).
  assert (maxn <= 16) by (unfold maxn; zcases). branch.
  destruct_and!. eapply Z.le_trans; [apply len_fill|]; [lia|lia| |lia]. intros old i Hi Ho.
  pose proof (len_window_info old i ltac:(lia)). lia.
Qed.

Lemma drop_space_safe {X} t (p : prog X) g Q : safe from_user p g Q -> safe from_user (drop_space t p) g Q.
Proof. intros Hp. destruct t; cbn [drop_space]; [|done]. branch; exact Hp. Qed.

Lemma adopt_space_safe {X} t pml4 (p : prog X) g Q : safe from_user p g Q -> safe from_user (adopt_space t pml4 p) g Q.
Proof. intros Hp. destruct t; cbn [adopt_space]; branch; exact Hp. Qed.

Lemma current_task_safe {X} (k : option Z -> prog X) g Q :
  (forall t x, safe from_user (k t) (learns SmpCurrentTaskId g x) Q) -> safe from_user (syscall_current_task k) g Q.
Proof. intros Hk. unfold syscall_current_task. call_step. call_step. apply Hk. Qed.

Lemma sys_exec_safe g : at_rest g -> safe from_user (sys_exec r) g ends.
Proof.
  intros Hg. enter Hg. unfold sys_exec. apply with_name_safe; [done|]. intros kf Hn. call_step. call_step.
  apply current_task_safe. intros t x. apply drop_space_safe. branch. apply current_task_safe. intros t' x'.
  apply adopt_space_safe. branch.
Qed.

Lemma sys_exit_safe g : at_rest g -> safe from_user sys_exit g ends.
Proof.
  intros Hg. enter Hg. unfold sys_exit. call_step. call_step. apply current_task_safe. intros t x. branch.
  all: apply current_task_safe; intros; call_step; apply drop_space_safe; branch.
Qed.

Lemma sys_load_elf_safe g : at_rest g -> safe from_user (sys_load_elf r) g ends.
Proof.
  intros Hg. enter Hg. unfold sys_load_elf. branch. apply current_task_safe. intros t x. branch.
  all: apply adopt_space_safe; branch.
Qed.

Lemma sys_spawn_safe g : at_rest g -> safe from_user (sys_spawn r) g ends.
Proof. intros Hg. enter Hg. unfold sys_spawn. branch. apply current_task_safe. intros t x. branch. Qed.

#[local] Hint Resolve sys_read_safe sys_write_safe sys_sock_send_safe sys_sock_recv_safe sys_read_file_to_buffer_safe
  sys_create_file_safe sys_read_keyboard_safe sys_draw_image_safe sys_get_file_list_safe sys_kwm_get_windows_safe
  sys_exec_safe sys_exit_safe sys_load_elf_safe sys_spawn_safe : kyuzen.

Ltac unfold_call := unfold sys_print, sys_fs_read, sys_fs_delete, sys_file_exists, sys_file_size, sys_get_cpu_string,
  sys_get_time, sys_draw_string, sys_get_event, sys_kwm_create_window, sys_kwm_update_window, sys_kwm_destroy_window,
  sys_ping, sys_open, sys_kwm_set_cursor, sys_kwm_set_title, sys_get_screen_size, sys_mkdir, sys_alloc, sys_free,
  sys_realloc, sys_is_mapped, sys_get_pid.

Lemma dispatch_safe t n g : at_rest g -> safe from_user (dispatch r from_user t n) g ends.
Proof.
  intros Hg. unfold dispatch.
  repeat match goal with |- safe _ (match ?p with _ => _ end) _ _ => destruct p end; try (by eauto with kyuzen).
  all: enter Hg; unfold_call; branch.
  all: try (apply current_task_safe; intros; branch).
  - rewrite len_join_le32. lia.
  - subst. eexists. split; by left.
Qed.
End handler.

(** ** Properties *)

(** C22. Whatever the registers of the caller and whatever the callees answer within
    their contracts, the handler keeps the discipline of the boundary: names and
    sizes are within the limits, a callee is given a user pointer to dereference
    only after its range was accepted and with user memory open, input is taken
    from the keyboard, an event queue, a file or a socket only when there is an
    accepted range to deliver it to, ring 3 never reaches the kernel allocator,
    windows are destroyed by their owner only, and on return every heap block
    taken has been freed once and user memory is closed. *)
Theorem syscall_boundary_discipline r :
  safe (Z.land r.(cs) 3 =? 3) (syscall_handler r) ghost0 (fun _ g => at_rest g).
Proof. unfold syscall_handler. apply current_task_safe. intros t x. by apply dispatch_safe. Qed.
End SyscallThm.
