(* ===== verification/SyscallRun.v ===== *)
(** * System calls over the components

    [handle] answers the calls of [syscall_handler] with the models of the
    components: user copies ([Usercopy]), descriptors and files ([Vfs], [Kfs]),
    tasks ([Sched]), address spaces ([Paging]), events ([Event]) and the program
    loader ([Elf]).  The remaining calls are answered by the argument [other],
    about which nothing is assumed.  [syscall] runs the whole handler.

    A kernel buffer (a stack array or a heap block) lies at [KBUF], above the
    user half; the handler uses one at a time.  The bytes the CPU sees are those
    of the address space in which the call began; the calls that change the
    address space copy the file name before and touch no user memory after. *)

From S2P Require Import Prelude Pmm Paging PagingSpec PagingOps KString Bytes Kfs Event Sched Display Vfs VfsThm Usercopy Kwm Uheap Elf Syscall.
From stdpp Require Import base numbers list gmap.
From Stdlib Require Import ZArith Lia.

#[local] Open Scope Z_scope.

Module SyscallRun.
Import Pmm Paging Uheap Syscall Bytes.

(** ** Running a program *)

(** [None]: a call does not return, or a loop of a component has not ended
    within its fuel.  [Some (s, None)]: the program ended in a call that leaves
    the handler for good. *)
Fixpoint run {S X : Type} (h : forall Y, call Y -> S -> option (S * Y)) (p : prog X) (s : S) : option (S * option X) :=
  match p with
  | Done x => Some (s, Some x)
  | NoReturn => Some (s, None)
  | Do c k => match h _ c s with Some (s, y) => run h (k y) s | None => None end
  end.

(** ** State *)

Section run.
Context {A : Type} `{FA : FrameAllocator A} {H : Type} `{BH : ByteHeap H}.

(** [pid] is the executing CPU; [block] the heap block in use. *)
Record ks := mk_ks {
  kcpu : Usercopy.cpu; kvm : vm A; kdata : gmap Z Z; kvfs : Vfs.vfs H; ksched : Sched.sched; kevents : gmap Z Event.queue;
  pid : Z; kctx : Usercopy.ucopy_ctx_t; block : list Z; as_cookie_counter : Z;
}.

Definition set_cpu s c := mk_ks c s.(kvm) s.(kdata) s.(kvfs) s.(ksched) s.(kevents) s.(pid) s.(kctx) s.(block) s.(as_cookie_counter).
Definition set_vm s v := mk_ks s.(kcpu) v s.(kdata) s.(kvfs) s.(ksched) s.(kevents) s.(pid) s.(kctx) s.(block) s.(as_cookie_counter).
Definition set_data s d := mk_ks s.(kcpu) s.(kvm) d s.(kvfs) s.(ksched) s.(kevents) s.(pid) s.(kctx) s.(block) s.(as_cookie_counter).
Definition set_vfs s f := mk_ks s.(kcpu) s.(kvm) s.(kdata) f s.(ksched) s.(kevents) s.(pid) s.(kctx) s.(block) s.(as_cookie_counter).
Definition set_sched s t := mk_ks s.(kcpu) s.(kvm) s.(kdata) s.(kvfs) t s.(kevents) s.(pid) s.(kctx) s.(block) s.(as_cookie_counter).
Definition set_events s e := mk_ks s.(kcpu) s.(kvm) s.(kdata) s.(kvfs) s.(ksched) e s.(pid) s.(kctx) s.(block) s.(as_cookie_counter).
Definition set_ctx s c := mk_ks s.(kcpu) s.(kvm) s.(kdata) s.(kvfs) s.(ksched) s.(kevents) s.(pid) c s.(block) s.(as_cookie_counter).
Definition set_block s b := mk_ks s.(kcpu) s.(kvm) s.(kdata) s.(kvfs) s.(ksched) s.(kevents) s.(pid) s.(kctx) b s.(as_cookie_counter).
Definition set_cookies s n := mk_ks s.(kcpu) s.(kvm) s.(kdata) s.(kvfs) s.(ksched) s.(kevents) s.(pid) s.(kctx) s.(block) n.

(** [with_cookie]: the cookie of a task. *)
Definition with_cookie (c : Z) (x : Sched.task_t) : Sched.task_t :=
  Sched.mk_task x.(Sched.id) x.(Sched.rsp) x.(Sched.stack_base) x.(Sched.state) x.(Sched.name) x.(Sched.pml4_phys) c
    x.(Sched.wake_at_ms) x.(Sched.priority) x.(Sched.enqueue_ms) x.(Sched.kind).

(** ** Answering the calls *)

(** [KBUF]: address of the kernel buffer.  [junk], [over], [freed]: what
    KyuzenFS and the loader read of memory nobody wrote.  [kstack]: the address
    [kmalloc] returns for the stack of a new task. *)
Variable KBUF : Z.
Variables (junk : Z -> Z) (over : Z -> Z) (freed : list Z -> Z -> Z) (elf_fuel : nat) (kstack : ks -> Z).
Variable other : forall Y, call Y -> ks -> option (ks * Y).

Definition tid (s : ks) : Z := Sched.smp_current_task_id s.(ksched) s.(pid).
Definition kkfs (s : ks) : Kfs.kfs := s.(kvfs).(Vfs.vkfs).
Definition kheap (s : ks) : H := s.(kvfs).(Vfs.vheap).
Definition set_heap (s : ks) (h : H) : ks := set_vfs s (Vfs.set_heap h s.(kvfs)).
Definition set_kfs (s : ks) (k : Kfs.kfs) : ks := set_vfs s (Vfs.set_kfs k s.(kvfs)).
Definition put_buffer (s : ks) (l : list Z) : ks :=
  set_cpu s (Usercopy.set_vmem s.(kcpu) (store_bytes s.(kcpu).(Usercopy.vmem) KBUF l)).

Definition elf_load (s : ks) (name : list Z) (pml4 : Z) : option (ks * (Z * Z)) :=
  match Elf.elf_load_file over freed elf_fuel (kkfs s) (mk_us s.(kvm) s.(kdata) (kheap s)) name true pml4 with
  | Elf.Value (u, entry, top) => Some (set_heap (set_data (set_vm s u.(uv)) u.(udata)) u.(unodes), (entry, top))
  | _ => None
  end.

Definition on_task (s : ks) (t : Z) (f : Sched.task_t -> Sched.task_t) : ks := set_sched s (Sched.upd_task s.(ksched) t f).

Definition handle (Y : Type) (c : call Y) (s : ks) : option (ks * Y) :=
  match c in call Y return option (ks * Y) with
  | StrncpyFromUser usrc cap =>
      let (c, n) := Usercopy.strncpy_from_user s.(kvm) s.(kctx) s.(kcpu) KBUF usrc cap in
      Some (set_cpu s c, if n <? 0 then None else Some (load_bytes c.(Usercopy.vmem) KBUF n))
  | UserRangeOk a n => Some (s, Usercopy.range_ok s.(kvm) s.(kctx) a n)
  | CopyFromUser usrc n =>
      let (c, r) := Usercopy.copy_from_user s.(kvm) s.(kctx) s.(kcpu) KBUF usrc n in
      Some (set_cpu s c, if r =? 0 then Some (load_bytes c.(Usercopy.vmem) KBUF n) else None)
  | CopyToUser udst l =>
      let s := put_buffer s l in
      let (c, r) := Usercopy.copy_to_user s.(kvm) s.(kctx) s.(kcpu) udst KBUF (Z.of_nat (length l)) in
      Some (set_cpu s c, r =? 0)
  | Kmalloc n =>
      let (h, b) := bh_kmalloc n (kheap s) in
      match b with
      | Some b => Some (set_block (set_heap s h) b, Some (KBUF, b))
      | None => Some (set_heap s h, None)
      end
  | Kfree _ => Some (set_heap s (bh_kfree s.(block) (kheap s)), tt)
  | FlushEventQueue t => Some (set_events s (Event.flush_event_queue s.(kevents) t), tt)
  | PopEvent t => let (e, x) := Event.pop_event s.(kevents) t in Some (set_events s e, x)
  | KfsFormat => Some (set_kfs s (Kfs.kfs_format (kkfs s)), tt)
  | KfsListFiles => option_map (fun k => (set_kfs s k, tt)) (Kfs.kfs_list_files (kkfs s))
  | KfsReadFile name => option_map (fun k => (set_kfs s k, tt)) (Kfs.kfs_read_file (kkfs s) name)
  | KfsDeleteFile name => option_map (fun k => (set_kfs s k, tt)) (Kfs.kfs_delete_file (kkfs s) name)
  | KfsExists name => option_map (fun v => (s, v)) (Kfs.kfs_exists (kkfs s) name)
  | KfsGetFileSize name => option_map (fun v => (s, v)) (Kfs.kfs_get_file_size (kkfs s) name)
  | KfsReadToBuffer name cap => option_map (fun v => (s, v)) (Kfs.kfs_read_to_buffer (kkfs s) name cap)
  | KfsCreateFile name d => option_map (fun '(k, v) => (set_kfs s k, v)) (Kfs.kfs_create_file junk (kkfs s) name d)
  | KfsGetFileList path n => option_map (fun l => (s, l)) (Kfs.kfs_get_file_list (kkfs s) path n)
  | KfsCreateFolder path => option_map (fun '(k, v) => (set_kfs s k, v)) (Kfs.kfs_create_folder junk (kkfs s) path)
  | KfsTotalSpace => Some (s, Kfs.kfs_get_total_space (kkfs s))
  | KfsUsedSpace => Some (s, Kfs.kfs_get_used_space (kkfs s))
  | VfsOpen path fl => option_map (fun '(f, fd) => (set_vfs s f, fd)) (Vfs.vfs_open s.(kvfs) (tid s) path fl)
  | VfsRead fd n => let '(f, r, l) := Vfs.vfs_read s.(kvfs) (tid s) fd n in Some (set_vfs s f, (r, l))
  | VfsWrite fd d => let '(f, r) := Vfs.vfs_write s.(kvfs) (tid s) fd d in Some (set_vfs s f, r)
  | VfsLseek fd o w => let '(f, r) := Vfs.vfs_lseek s.(kvfs) (tid s) fd o w in Some (set_vfs s f, r)
  | VfsClose fd => option_map (fun '(f, r) => (set_vfs s f, r)) (Vfs.vfs_close junk s.(kvfs) (tid s) fd)
  | SmpCurrentTaskId => Some (s, tid s)
  | TaskCount => Some (s, s.(ksched).(Sched.task_count))
  | GetPml4 t => Some (s, (Sched.task s.(ksched) t).(Sched.pml4_phys))
  | SetPml4 t p => Some (on_task s t (Sched.with_pml4 p), tt)
  | GetCookie t => Some (s, (Sched.task s.(ksched) t).(Sched.cookie))
  | SetCookie t c => Some (on_task s t (with_cookie c), tt)
  | AsCookieNext => let n := u32 (s.(as_cookie_counter) + 1) in Some (set_cookies s n, n)
  | CreateUserTask entry sp p c name =>
      let (t, r) := Sched.create_user_task s.(ksched) (kstack s) entry sp p c (Some name) s.(pid) in
      Some (set_sched s t, r)
  | VmmCreateAddressSpace => let (v, p) := vmm_create_address_space s.(kvm) in Some (set_vm s v, p)
  | VmmDestroyTaskAs p => Some (set_vm s (vmm_destroy_task_as s.(kvm) p), tt)
  | VmmSwitchPml4 p => Some (set_vm s (vmm_switch_pml4 s.(kvm) p), tt)
  | VmmReadCr3 => Some (s, vmm_read_cr3 s.(kvm))
  | IsMappedInto va p => Some (s, paging_is_mapped_into s.(kvm) va p)
  | ElfLoadFile name p => elf_load s name p
  | c => other _ c s
  end.

(** The whole handler, entered with the frame [r]. *)
Definition syscall (r : registers_t) (s : ks) : option (ks * option registers_t) :=
  run handle (syscall_handler r) (set_ctx s (Usercopy.ucopy_ctx_init s.(ksched) s.(pid) r.(cs))).
End run.
#[global] Arguments ks : clear implicits.
End SyscallRun.
