(* ===== verification/SyscallIo.v ===== *)
(** * Reading and writing files through system calls

    [sys_read], [sys_write] and [sys_lseek] of a task in ring 3, with the copies
    across the boundary, the bounce buffer of the kernel heap and the descriptor
    layer composed. *)

From S2P Require Import Prelude Pmm Paging PagingSpec PagingOps KString Bytes Kfs KfsData Sched Vfs VfsThm Usercopy Uheap Syscall SyscallRun.
From stdpp Require Import base numbers list gmap.
From Stdlib Require Import ZArith Lia.

#[local] Open Scope Z_scope.

Module SyscallIo.
Import KString Bytes Pmm Paging Syscall SyscallRun Usercopy VfsThm.

(** ** Bytes *)

Lemma put_bytes_all b l : length l = length b -> Kfs.put_bytes b 0 l = l.
Proof.
  intros E. unfold Kfs.put_bytes. simpl. rewrite drop_ge by lia. by rewrite app_nil_r.
Qed.

Lemma take_put b l : (length l <= length b)%nat -> take (length l) (Kfs.put_bytes b 0 l) = l.
Proof. intros E. unfold Kfs.put_bytes. simpl. by rewrite take_app_length. Qed.

(** Memories that agree on the user half. *)
Definition same_user (m m' : gmap Z Z) : Prop := forall a, a < UC_USER_VA_MAX -> ld m' a = ld m a.

#[global] Instance same_user_pre : PreOrder same_user.
Proof. split; [by intros m a|]. intros m1 m2 m3 H1 H2 a Ha. by rewrite H2, H1. Qed.

Section io.
Context {A : Type} `{FA : FrameAllocator A} {H : Type} `{BH : ByteHeap H} `{!ByteHeapOk H}.
Variables (KBUF : Z) (junk over : Z -> Z) (freed : list Z -> Z -> Z) (elf_fuel : nat) (kstack : ks A H -> Z).
Variable other : forall Y, call Y -> ks A H -> option (ks A H * Y).
Hypothesis KBUF_kernel : UC_USER_VA_MAX <= KBUF.

Abbreviation sys := (syscall KBUF junk over freed elf_fuel kstack other).
Abbreviation umem s := (vmem (kcpu s)).
Abbreviation answer r v := (Some (set_rax r v)).

Definition entry_ctx (s : ks A H) (r : registers_t) : ucopy_ctx_t := ucopy_ctx_init (ksched s) (pid s) (cs r).

(** What these calls never change. *)
Definition kept (s s' : ks A H) : Prop :=
  kvm s' = kvm s /\ kdata s' = kdata s /\ ksched s' = ksched s /\ kevents s' = kevents s /\ pid s' = pid s /\
  as_cookie_counter s' = as_cookie_counter s /\ Vfs.vkfs (kvfs s') = Vfs.vkfs (kvfs s).

(** ** The boundary, with bytes as lists *)

Abbreviation hd := (handle KBUF junk over freed elf_fuel kstack other).

Lemma handle_copy_to s udst l :
  0 <= udst < 2 ^ 64 -> Z.of_nat (length l) < 2 ^ 64 -> from_user (kctx s) = true ->
  range_spec (kvm s) (kctx s) udst (Z.of_nat (length l)) ->
  exists c, hd _ (CopyToUser udst l) s = Some (set_cpu s c, true) /\
    extends (kvm s) (pml4 (kctx s)) (kcpu s) c /\ (g_smap_enabled (kcpu s) = true -> ac c = false) /\
    forall a, a < UC_USER_VA_MAX ->
      ld (vmem c) a = if (udst <=? a) && (a <? udst + Z.of_nat (length l)) then str l (a - udst) else ld (umem s) a.
Proof using KBUF_kernel.
  intros Hu Hl Hf Hr. cbn [handle]. set (s1 := put_buffer KBUF s l).
  destruct (copy_to_user (kvm s1) (kctx s1) (kcpu s1) udst KBUF (Z.of_nat (length l))) as [c r] eqn:Ec.
  destruct (proj2 (user_copies_spec (kvm s1) (kctx s1) (kcpu s1) udst KBUF (Z.of_nat (length l)) Hu ltac:(lia) Hf KBUF_kernel) c r Ec)
    as [(-> & _ & Hm & He & Ha)|(_ & Hn & _)]; [|by destruct Hn].
  exists c. split; [reflexivity|]. split.
  { destruct He as [He1 He2]. by split. }
  split; [done|]. intros a Ha'. rewrite Hm. unfold s1. cbn [put_buffer kcpu set_cpu vmem set_vmem].
  destruct ((udst <=? a) && (a <? udst + Z.of_nat (length l))) eqn:E; zprop; rewrite ld_store_bytes.
  - rewrite (proj2 (Z.leb_le _ _)), (proj2 (Z.ltb_lt _ _)) by lia. cbn [andb]. f_equal. lia.
  - destruct (Z.leb_spec KBUF a); [lia|done].
Qed.

Lemma handle_copy_from s usrc n :
  0 <= usrc < 2 ^ 64 -> 0 <= n < 2 ^ 64 -> from_user (kctx s) = true ->
  range_spec (kvm s) (kctx s) usrc n ->
  exists c, hd _ (CopyFromUser usrc n) s = Some (set_cpu s c, Some (load_bytes (umem s) usrc n)) /\
    extends (kvm s) (pml4 (kctx s)) (kcpu s) c /\
    (g_smap_enabled (kcpu s) = true -> ac c = false) /\ same_user (umem s) (vmem c).
Proof using KBUF_kernel.
  intros Hu Hn Hf Hr. cbn [handle].
  destruct (copy_from_user (kvm s) (kctx s) (kcpu s) KBUF usrc n) as [c r] eqn:Ec.
  destruct (proj1 (user_copies_spec (kvm s) (kctx s) (kcpu s) usrc KBUF n Hu Hn Hf KBUF_kernel) c r Ec)
    as [(-> & _ & Hm & He & Ha)|(_ & Hx & _)]; [|by destruct Hx].
  exists c. split.
  - cbn [Z.eqb]. do 3 f_equal. apply load_bytes_ext. intros i Hi. rewrite Hm.
    rewrite (proj2 (Z.leb_le _ _)), (proj2 (Z.ltb_lt _ _)) by lia. cbn [andb]. f_equal. lia.
  - splits. intros a Ha'. rewrite Hm. destruct (Z.leb_spec KBUF a); [lia|done].
Qed.

(** ** The calls *)

Section call.
Variables (s : ks A H) (r : registers_t).
Hypothesis ring3 : Z.land (cs r) 3 = 3.

Abbreviation s0 := (set_ctx s (entry_ctx s r)).
Abbreviation nbuf n := (bh_kmalloc n (kheap s)).

Lemma entry_from_user : from_user (entry_ctx s r) = true.
Proof using ring3. unfold entry_ctx, ucopy_ctx_init. cbn [from_user]. by rewrite ring3. Qed.

(** Entering the branch of one call. *)
Lemma syscall_enter n :
  rax r = n -> exists t, sys r s = run (handle KBUF junk over freed elf_fuel kstack other) (dispatch r true t n) s0.
Proof using ring3.
  intros <-. eexists. unfold syscall, syscall_handler, syscall_current_task. rewrite ring3. cbn [run handle]. reflexivity.
Qed.

Lemma range_spec_le u n m : range_spec (kvm s) (entry_ctx s r) u n -> 0 < m <= n -> range_spec (kvm s) (entry_ctx s r) u m.
Proof using Type.
  intros (Hu & [->|(Hn & Hw & Hb)]) Hm; [lia|]. split; [done|]. right. splits. intros Hf a Ha. apply Hb; [done|lia].
Qed.

(** [sys_read] on an open, readable descriptor. *)
Lemma sys_read_spec sl vf :
  rax r = 48 -> 0 <= rcx r < 2 ^ 64 -> table_ok (kvfs s) ->
  Vfs.resolve (kvfs s) (tid s) (i32 (rbx r)) = Some (sl, vf) -> Vfs.has_flag (Vfs.flags vf) Vfs.VFS_O_WRONLY = false ->
  let count := Z.min (u32 (rdx r)) UC_MAX_IO in
  let n := Z.min count (Z.max 0 (Vfs.size vf - Vfs.pos vf)) in
  exists s' v, sys r s = Some (s', answer r v) /\ kept s s' /\ table_ok (kvfs s') /\
    ((v = u64 (-1) /\ count <> 0 /\ (~ range_spec (kvm s) (entry_ctx s r) (rcx r) count \/ (nbuf count).2 = None) /\
      kcpu s' = kcpu s /\ Vfs.fds (kvfs s') = Vfs.fds (kvfs s)) \/
     (v = n /\ (count = 0 \/ range_spec (kvm s) (entry_ctx s r) (rcx r) count) /\
      Vfs.fds (kvfs s') = <[sl := Vfs.set_pos (Vfs.pos vf + n) vf]> (Vfs.fds (kvfs s)) /\
      extends (kvm s) (pml4 (entry_ctx s r)) (kcpu s) (kcpu s') /\
      (0 < n -> g_smap_enabled (kcpu s) = true -> ac (kcpu s') = false) /\
      forall a, a < UC_USER_VA_MAX -> ld (umem s') a =
        if (rcx r <=? a) && (a <? rcx r + n) then str (contents vf) (Vfs.pos vf + (a - rcx r)) else ld (umem s) a)).
Proof.
  intros Hax Hcx Ht Hres Hfl count n.
  pose proof (wrap_bound 32 (rdx r) ltac:(lia)) as Hdx.
  assert (0 <= count <= UC_MAX_IO) as Hcount by (unfold count, UC_MAX_IO; lia).
  destruct (resolve_spec _ _ _ _ _ Hres) as (_ & _ & _ & Hsl & Evf & Hu & Ho).
  destruct (Ht sl) as [Hf _]. rewrite <- Evf in Hf. destruct (Hf Hu) as (bb & _ & _ & Hsz & Hcap & Hpos & _).
  assert (forall h, Vfs.vfs_read (Vfs.set_heap h (kvfs s)) (tid s) (i32 (rbx r)) count =
    (Vfs.set_fd sl (Vfs.set_pos (Vfs.pos vf + n) vf) (Vfs.set_heap h (kvfs s)), n,
     map (fun i => str (contents vf) (Vfs.pos vf + i)) (zrange 0 n))) as Hread.
  { intros h. rewrite (read_spec (Vfs.set_heap h (kvfs s)) _ _ count sl vf Ht Hres Hfl ltac:(lia)).
    fold n. rewrite sx_small by (unfold UC_MAX_IO in *; lia). done. }
  assert (forall h, table_ok (Vfs.set_fd sl (Vfs.set_pos (Vfs.pos vf + n) vf) (Vfs.set_heap h (kvfs s)))) as Ht'.
  { intros h. apply table_ok_set; [exact Ht|apply file_ok_pos; [lia|done]|]. intros _. cbn. congruence. }
  destruct (syscall_enter 48 Hax) as [t ->]. cbn [dispatch]. unfold sys_read.
  replace (if UC_MAX_IO <? u32 (rdx r) then UC_MAX_IO else u32 (rdx r)) with count by (unfold count; zcase; lia).
  assert (Vfs.set_heap (kheap s) (kvfs s) = kvfs s) as Eh by (unfold kheap; by destruct (kvfs s)).
  destruct (Z.eqb_spec count 0) as [Hc0|Hc0].
  { assert (n = 0) as Hn0 by lia. cbn [run handle kvfs set_ctx].
    specialize (Hread (kheap s)). specialize (Ht' (kheap s)). rewrite Eh in Hread, Ht'. rewrite Hc0 in Hread.
    change (tid s0) with (tid s). rewrite Hread. cbv beta iota zeta. unfold ret. cbn [run].
    eexists _, _. split; [reflexivity|]. split; [done|]. split; [exact Ht'|]. right.
    rewrite wrap_small by lia. splits; [apply extends_refl|]. intros a _. rewrite Hn0. zcase; zcase; simpl; try done; lia. }
  cbn [run handle]. change (kvm s0) with (kvm s). change (kctx s0) with (entry_ctx s r).
  destruct (range_ok (kvm s) (entry_ctx s r) (rcx r) count) eqn:Er.
  2:{ eexists _, _. split; [reflexivity|]. split; [done|]. split; [exact Ht|]. left. splits. left.
      intros HH. apply range_ok_spec in HH; [congruence|lia|unfold UC_MAX_IO in *; lia]. }
  apply range_ok_spec in Er; [|lia|unfold UC_MAX_IO in *; lia].
  cbn [run handle]. change (kheap s0) with (kheap s).
  destruct (nbuf count) as [h [b|]] eqn:Eb; cbn [run handle].
  2:{ eexists _, _. split; [reflexivity|]. split; [done|]. split; [exact Ht|]. left. splits. by right. }
  change (tid (set_block (set_heap s0 h) b)) with (tid s). cbn [kvfs set_block set_heap set_vfs set_ctx].
  rewrite (Hread h). cbv beta iota zeta.
  set (l := map _ (zrange 0 n)). set (f := Vfs.set_fd _ _ _).
  assert (Z.of_nat (length l) = n) as Hll by (unfold l; rewrite length_map, length_zrange; lia).
  pose proof (bh_malloc_len count (kheap s) b ltac:(lia) ltac:(by rewrite Eb)) as Hbl.
  destruct (Z.ltb_spec 0 n) as [Hn|Hn].
  - replace (take (Z.to_nat n) (Kfs.put_bytes b 0 l)) with l by (rewrite <- Hll, Nat2Z.id, take_put by lia; done).
    cbn [run].
    match goal with |- context [hd _ (CopyToUser _ _) ?x] => set (s1 := x) end.
    destruct (handle_copy_to s1 (rcx r) l) as (c & -> & He & Ha & Hm);
      [lia|unfold UC_MAX_IO in *; lia|exact entry_from_user|rewrite Hll; apply (range_spec_le _ count); [done|lia]|].
    cbn [run handle]. unfold ret. cbn [run]. eexists _, _. split; [reflexivity|]. split; [done|]. split; [exact (Ht' h)|]. right.
    rewrite wrap_small by (unfold UC_MAX_IO in *; lia). splits; [by right|]. intros a Hmax. rewrite Hll in Hm.
    cbn [kcpu set_heap set_vfs set_cpu]. rewrite (Hm a Hmax). cbn [s1 kcpu set_vfs set_block set_heap set_ctx].
    destruct ((rcx r <=? a) && (a <? rcx r + n)) eqn:E; [|done]. zprop. unfold l. by rewrite KfsData.str_map_zrange by lia.
  - cbn [run handle]. unfold ret. cbn [run]. eexists _, _. split; [reflexivity|]. split; [done|]. split; [exact (Ht' h)|]. right.
    rewrite wrap_small by (unfold UC_MAX_IO in *; lia). splits; [by right|apply extends_refl|].
    intros a _. zcase; zcase; simpl; try done; lia.
Qed.
(** A write that ends before anything is written. *)
Ltac write_refused Ht Evf Hsame why := solve [unfold ret; cbn [run]; eexists _, _; split; [reflexivity|]; split; [done|]; split; [exact Ht|];
  split; [by intros a _|]; split; [apply extends_refl|]; split; [done|]; split; [exact Hsame|left; split; [done|]; split; [why|left; exact (eq_sym Evf)]]].

(** [sys_write] on an open, writable descriptor. *)
Definition written (sl : Z) (vf : Vfs.vfs_file_t) (data : list Z) (st' : Vfs.vfs H) : Prop :=
  let p := write_pos vf in let n := Z.of_nat (length data) in let vf' := Vfs.fd_at st' sl in
  p + n < 2 ^ 32 /\ Vfs.size vf' = Z.max (Vfs.size vf) (p + n) /\ Vfs.pos vf' = p + n /\ Vfs.dirty vf' = true /\
  (forall i, 0 <= i < n -> str (contents vf') (p + i) = str data i) /\
  (forall i, 0 <= i < Vfs.size vf -> i < p \/ p + n <= i -> str (contents vf') i = str (contents vf) i).

Definition same_file (vf vf' : Vfs.vfs_file_t) : Prop :=
  Vfs.path vf' = Vfs.path vf /\ Vfs.flags vf' = Vfs.flags vf /\ Vfs.owner vf' = Vfs.owner vf /\ Vfs.used vf' = true.

(** The heap that [vfs_write] finds: with the bounce buffer allocated, if there is one. *)
Definition write_heap (count : Z) : H := if count =? 0 then kheap s else (nbuf count).1.

(** Why a write answers -1: too long, a range that is not the caller's, no
    memory for the bounce buffer, or [vfs_write] refuses with what is left of the
    heap. *)
Definition write_refusal (count : Z) (data : list Z) : Prop :=
  UC_MAX_IO < count \/ ~ range_spec (kvm s) (entry_ctx s r) (rcx r) count \/ (nbuf count).2 = None \/
  (Vfs.vfs_write (Vfs.set_heap (write_heap count) (kvfs s)) (tid s) (i32 (rbx r)) data).2 = -1.

Lemma sys_write_spec sl vf :
  rax r = 49 -> 0 <= rcx r < 2 ^ 64 -> table_ok (kvfs s) ->
  Vfs.resolve (kvfs s) (tid s) (i32 (rbx r)) = Some (sl, vf) -> Z.land (Vfs.flags vf) 3 <> 0 ->
  let count := u32 (rdx r) in
  let data := load_bytes (umem s) (rcx r) count in
  exists s' v, sys r s = Some (s', answer r v) /\ kept s s' /\ table_ok (kvfs s') /\
    same_user (umem s) (umem s') /\ extends (kvm s) (pml4 (entry_ctx s r)) (kcpu s) (kcpu s') /\
    (forall sl', sl' <> sl -> Vfs.fd_at (kvfs s') sl' = Vfs.fd_at (kvfs s) sl') /\
    same_file vf (Vfs.fd_at (kvfs s') sl) /\
    ((v = u64 (-1) /\ write_refusal count data /\
      (Vfs.fd_at (kvfs s') sl = vf \/ Vfs.fd_at (kvfs s') sl = Vfs.set_pos (write_pos vf) vf)) \/
     (v = count /\ count <= UC_MAX_IO /\ written sl vf data (kvfs s'))).
Proof.
  intros Hax Hcx Ht Hres Hfl count data.
  pose proof (wrap_bound 32 (rdx r) ltac:(lia)) as Hdx. fold count in Hdx.
  destruct (resolve_spec _ _ _ _ _ Hres) as (_ & _ & _ & Hsl & Evf & Hu & Ho).
  pose proof (length_load_bytes (umem s) (rcx r) count ltac:(lia)) as Hlen. fold data in Hlen.
  assert (forall h, exists f v, Vfs.vfs_write (Vfs.set_heap h (kvfs s)) (tid s) (i32 (rbx r)) data = (f, v) /\
    table_ok f /\ Vfs.vkfs f = Vfs.vkfs (kvfs s) /\ (forall sl', sl' <> sl -> Vfs.fd_at f sl' = Vfs.fd_at (kvfs s) sl') /\
    same_file vf (Vfs.fd_at f sl) /\
    ((v = -1 /\ Vfs.fd_at f sl = Vfs.set_pos (write_pos vf) vf) \/ (v = i32 count /\ written sl vf data f))) as Hwrite.
  { intros h. destruct (write_spec (Vfs.set_heap h (kvfs s)) (tid s) (i32 (rbx r)) data sl vf Ht Hres Hfl)
      as (f & v & E & T & K & O & P1 & P2 & P3 & P4 & HC). rewrite Hlen in HC.
    exists f, v. unfold same_file, written. rewrite Hlen. splits. }
  assert (same_file vf (Vfs.fd_at (kvfs s) sl)) as Hsame by (by rewrite <- Evf).
  destruct (syscall_enter 49 Hax) as [t ->]. cbn [dispatch]. unfold sys_write. fold count.
  assert (Vfs.set_heap (kheap s) (kvfs s) = kvfs s) as Eh by (unfold kheap; by destruct (kvfs s)).
  destruct (Z.eqb_spec count 0) as [Hc0|Hc0].
  { assert (data = []) as Ed by (apply nil_length_inv; lia).
    destruct (Hwrite (kheap s)) as (f & v & E & T & K & O & P & HC). rewrite Eh, Ed in E.
    cbn [run handle]. change (tid s0) with (tid s). change (kvfs s0) with (kvfs s). rewrite E. cbv beta iota zeta.
    unfold ret. cbn [run]. eexists _, _. split; [reflexivity|]. split; [done|]. split; [exact T|].
    split; [by intros a _|]. split; [apply extends_refl|]. split; [exact O|]. split; [exact P|].
    destruct HC as [(-> & HC)|(-> & HC)].
    { left. split; [done|]. split; [|by right]. right; right; right. unfold write_heap.
      destruct (Z.eqb_spec count 0); [|done]. by rewrite Eh, Ed, E. }
    right. rewrite Hc0. split; [done|]. split; [done|exact HC]. }
  destruct (Z.leb_spec count UC_MAX_IO) as [Hio|Hio].
  2: write_refused Ht Evf Hsame ltac:(by left).
  cbn [run handle]. change (kvm s0) with (kvm s). change (kctx s0) with (entry_ctx s r).
  destruct (range_ok (kvm s) (entry_ctx s r) (rcx r) count) eqn:Er.
  2: { assert (~ range_spec (kvm s) (entry_ctx s r) (rcx r) count) as Hno
       by (intros HH; apply range_ok_spec in HH; [congruence|lia|unfold UC_MAX_IO in *; lia]).
       write_refused Ht Evf Hsame ltac:(right; by left). }
  apply range_ok_spec in Er; [|lia|unfold UC_MAX_IO in *; lia].
  cbn [run handle]. change (kheap s0) with (kheap s).
  destruct (nbuf count) as [h [b|]] eqn:Eb; cbn [run].
  2: write_refused Ht Evf Hsame ltac:(right; right; left; by rewrite Eb).
  pose proof (bh_malloc_len count (kheap s) b ltac:(lia) ltac:(by rewrite Eb)) as Hbl.
  set (s1 := set_block (set_heap s0 h) b).
  destruct (handle_copy_from s1 (rcx r) count) as (c & -> & He & Ha & Hm);
    [lia|unfold UC_MAX_IO in *; lia|exact entry_from_user|exact Er|].
  change (umem s1) with (umem s). fold data. cbn [filled]. rewrite put_bytes_all by lia. cbn [run handle].
  destruct (Hwrite h) as (f & v & E & T & K & O & P & HC).
  change (tid (set_cpu s1 c)) with (tid s). change (kvfs (set_cpu s1 c)) with (Vfs.set_heap h (kvfs s)). rewrite E.
  cbv beta iota zeta. cbn [run handle]. unfold ret. cbn [run]. eexists _, _. split; [reflexivity|].
  split; [unfold kept; splits|]. split; [exact T|]. split; [exact Hm|]. split; [exact He|]. split; [exact O|]. split; [exact P|].
  destruct HC as [(-> & HC)|(-> & HC)].
  { left. split; [done|]. split; [|by right]. right; right; right. unfold write_heap.
    rewrite (proj2 (Z.eqb_neq _ _) Hc0), Eb. cbn [fst]. by rewrite E. }
  right. rewrite sx_small by (unfold UC_MAX_IO in *; lia). rewrite wrap_small by lia. splits.
Qed.

Lemma sys_lseek_spec sl vf off :
  rax r = 50 -> Vfs.resolve (kvfs s) (tid s) (i32 (rbx r)) = Some (sl, vf) ->
  rcx r = off -> 0 <= off < 2 ^ 31 -> rdx r = 0 ->
  sys r s = Some (set_vfs s0 (Vfs.set_fd sl (Vfs.set_pos off vf) (kvfs s)), answer r off).
Proof using ring3.
  intros Hax Hres Ecx Hoff Edx. destruct (syscall_enter 50 Hax) as [t ->]. cbn [dispatch run handle].
  change (tid s0) with (tid s). change (kvfs s0) with (kvfs s). rewrite Ecx, Edx.
  rewrite (sx_small 32 off) by lia. change (i32 0) with 0.
  rewrite (lseek_spec (kvfs s) (tid s) (i32 (rbx r)) off sl vf Hres Hoff). unfold ret. cbn [run].
  by rewrite wrap_small by lia.
Qed.
End call.

(** ** Properties *)

(** [sys_read] of a task in ring 3 on a readable descriptor always returns.  It
    answers -1, with the memory of the task and the descriptor unchanged, exactly
    when the buffer is not memory of the task or the kernel has no bounce
    buffer; otherwise it answers the number of bytes left up to the requested
    count (at most 1 MiB), the buffer of the task holds those bytes of the file,
    no other byte of the task's memory has changed, the position has advanced by
    that number, every user address touched is mapped for the task and was
    touched with the SMAP window open, and the window is closed. *)
Theorem sys_read_delivers s r sl vf :
  Z.land (cs r) 3 = 3 -> rax r = 48 -> 0 <= rcx r < 2 ^ 64 -> table_ok (kvfs s) ->
  Vfs.resolve (kvfs s) (tid s) (i32 (rbx r)) = Some (sl, vf) -> Vfs.has_flag (Vfs.flags vf) Vfs.VFS_O_WRONLY = false ->
  let count := Z.min (u32 (rdx r)) UC_MAX_IO in
  let n := Z.min count (Z.max 0 (Vfs.size vf - Vfs.pos vf)) in
  exists s' v, sys r s = Some (s', answer r v) /\ kept s s' /\ table_ok (kvfs s') /\
    ((v = u64 (-1) /\ count <> 0 /\
      (~ range_spec (kvm s) (entry_ctx s r) (rcx r) count \/ (bh_kmalloc count (kheap s)).2 = None) /\
      kcpu s' = kcpu s /\ Vfs.fds (kvfs s') = Vfs.fds (kvfs s)) \/
     (v = n /\ (count = 0 \/ range_spec (kvm s) (entry_ctx s r) (rcx r) count) /\
      Vfs.fds (kvfs s') = <[sl := Vfs.set_pos (Vfs.pos vf + n) vf]> (Vfs.fds (kvfs s)) /\
      extends (kvm s) (pml4 (entry_ctx s r)) (kcpu s) (kcpu s') /\
      (0 < n -> g_smap_enabled (kcpu s) = true -> ac (kcpu s') = false) /\
      forall a, a < UC_USER_VA_MAX -> ld (umem s') a =
        if (rcx r <=? a) && (a <? rcx r + n) then str (contents vf) (Vfs.pos vf + (a - rcx r)) else ld (umem s) a)).
Proof. intros Hr. exact (sys_read_spec s r Hr sl vf). Qed.

(** C23. Three system calls of a task in ring 3 on a descriptor open for reading and
    writing: writing [n] bytes from one buffer, seeking back to where the write
    began and reading [n] bytes into another buffer.  Each call returns; unless
    the write or the read was refused for one of the named reasons, the second
    buffer holds the bytes the first one held and nothing else in the memory of
    the task has changed. *)
Theorem syscall_write_read_roundtrip s rw rs rr sl vf n :
  Z.land (cs rw) 3 = 3 -> Z.land (cs rs) 3 = 3 -> Z.land (cs rr) 3 = 3 ->
  rax rw = 49 -> rax rs = 50 -> rax rr = 48 -> rbx rs = rbx rw -> rbx rr = rbx rw ->
  0 <= rcx rw < 2 ^ 64 -> 0 <= rcx rr < 2 ^ 64 -> rdx rw = n -> rdx rr = n -> 0 < n <= UC_MAX_IO ->
  rcx rs = write_pos vf -> rdx rs = 0 -> write_pos vf + n < 2 ^ 31 -> table_ok (kvfs s) ->
  Vfs.resolve (kvfs s) (tid s) (i32 (rbx rw)) = Some (sl, vf) ->
  Z.land (Vfs.flags vf) 3 <> 0 -> Vfs.has_flag (Vfs.flags vf) Vfs.VFS_O_WRONLY = false ->
  exists s1 v1, sys rw s = Some (s1, answer rw v1) /\
    ((v1 = u64 (-1) /\ write_refusal s rw n (load_bytes (umem s) (rcx rw) n)) \/
     (v1 = n /\ exists s2 s3 v3, sys rs s1 = Some (s2, answer rs (write_pos vf)) /\ sys rr s2 = Some (s3, answer rr v3) /\
      ((v3 = u64 (-1) /\ (~ range_spec (kvm s2) (entry_ctx s2 rr) (rcx rr) n \/ (bh_kmalloc n (kheap s2)).2 = None)) \/
       (v3 = n /\ kept s s3 /\
        forall a, a < UC_USER_VA_MAX -> ld (umem s3) a =
          if (rcx rr <=? a) && (a <? rcx rr + n) then ld (umem s) (rcx rw + (a - rcx rr)) else ld (umem s) a)))).
Proof.
  intros Cw Cs Cr Aw As Ar Bs Br Uw Ur Nw Nr Hn Xs Ws Hp Ht Hres Hfl Hrd.
  assert (u32 n = n) as Hu32 by (apply wrap_small; unfold UC_MAX_IO in *; lia).
  destruct (resolve_spec _ _ _ _ _ Hres) as (Htid & Hfd & Esl & _ & Evf & Hu & Ho).
  destruct (Ht sl) as [Hfo _]. rewrite <- Evf in Hfo. destruct (Hfo Hu) as (? & _ & _ & Hsz & _ & Hpos & _).
  assert (0 <= write_pos vf) as Hwp by (clear - Hsz Hpos; unfold write_pos; destruct (Vfs.has_flag (Vfs.flags vf) Vfs.VFS_O_APPEND); lia).
  destruct (sys_write_spec s rw Cw sl vf Aw Uw Ht Hres Hfl) as (s1 & v1 & E1 & K1 & T1 & M1 & _ & _ & F1 & HC).
  rewrite Nw, Hu32 in HC. exists s1, v1. split; [exact E1|].
  destruct HC as [(-> & Hwhy & _)|(-> & _ & Hw)]; [left; by split|right]. split; [done|].
  unfold written in Hw. rewrite length_load_bytes in Hw by lia. cbv zeta in Hw.
  destruct K1 as (Kv & Kd & Ks & Ke & Kp & Kc & Kf). destruct F1 as (_ & Ffl & Fo & Fu).
  set (vf1 := Vfs.fd_at (kvfs s1) sl) in *. destruct Hw as (_ & Wsz & _ & _ & Wd & _).
  assert (tid s1 = tid s) as Et1 by (unfold tid; by rewrite Ks, Kp).
  assert (Vfs.resolve (kvfs s1) (tid s1) (i32 (rbx rs)) = Some (sl, vf1)) as Hr1.
  { rewrite Et1, Bs, Esl. unfold vf1. rewrite Esl. apply resolve_intro; [done|done|by rewrite <- Esl|].
    rewrite <- Esl. fold vf1. congruence. }
  pose proof (sys_lseek_spec s1 rs Cs sl vf1 (write_pos vf) As Hr1 Xs ltac:(lia) Ws) as E2.
  set (s2 := set_vfs _ _) in E2. set (vf2 := Vfs.set_pos (write_pos vf) vf1) in *.
  assert (Vfs.resolve (kvfs s2) (tid s2) (i32 (rbx rr)) = Some (sl, vf2)) as Hr2.
  { change (tid s2) with (tid s1). change (kvfs s2) with (Vfs.set_fd sl vf2 (kvfs s1)). rewrite Br, <- Bs.
    by apply (resolve_set _ _ _ sl vf1). }
  assert (table_ok (kvfs s2)) as T2.
  { destruct (T1 sl) as [Hf1 Hs1]. fold vf1 in Hf1, Hs1. apply table_ok_set; [done|apply file_ok_pos; [lia|done]|].
    intros _. by apply Hs1. }
  destruct (sys_read_spec s2 rr Cr sl vf2 Ar Ur T2 Hr2) as (s3 & v3 & E3 & K3 & _ & HC); [cbn; by rewrite Ffl|].
  rewrite Nr, Hu32, Z.min_l in HC by lia.
  replace (Z.min n (Z.max 0 (Vfs.size vf2 - Vfs.pos vf2))) with n in HC by (change (Vfs.size vf2) with (Vfs.size vf1); change (Vfs.pos vf2) with (write_pos vf); lia).
  exists s2, s3, v3. split; [exact E2|]. split; [exact E3|].
  destruct HC as [(-> & _ & Hwhy & _)|(-> & _ & _ & _ & _ & HM)]; [left; by split|right]. split; [done|].
  destruct K3 as (? & ? & ? & ? & ? & ? & ?). split; [unfold kept; cbn in *; splits; congruence|].
  intros a Ha. rewrite (HM a Ha). destruct ((rcx rr <=? a) && (a <? rcx rr + n)) eqn:E; [|exact (M1 a Ha)].
  zprop. change (contents vf2) with (contents vf1). change (Vfs.pos vf2) with (write_pos vf). rewrite Wd by lia. by rewrite str_load_bytes by lia.
Qed.
End io.

(** ** Witnesses *)

(** Task 1 runs on CPU 0 in the address space of [demo_as] with the two bytes 7, 8
    at [0x400FF0] and the new file of [demo_open] as descriptor 0. *)
Definition demo_sched : Sched.sched :=
  Sched.mk_sched {[1 := Sched.mk_task 1 0 0 Sched.RUNNING [] 0x1000 1 0 1 0 Sched.KIND_SPAWNED]} 2 0 {[0 := 1]}
    ∅ ∅ 1 ∅ ∅ ∅ 0 0x1000 [].
Definition demo_ks : ks Pmm.pmm unit :=
  mk_ks demo_cpu demo_as ∅ demo_open demo_sched ∅ 0 demo_ctx [] 0.
Definition demo_frame (nr a b c : Z) : registers_t := mk_regs nr a b c 0 0 0x400000 0x1B 0x8000000 0x23.
Definition demo_sys : registers_t -> ks Pmm.pmm unit -> option (ks Pmm.pmm unit * option registers_t) :=
  syscall KBUF (fun _ => 0) (fun _ => 0) (fun _ _ => 0) 0 (fun _ => 0) (fun _ _ _ => None).

Definition rax_of (o : option (ks Pmm.pmm unit * option registers_t)) : Z :=
  match o with Some (_, Some r) => rax r | _ => 0 end.
Definition after (o : option (ks Pmm.pmm unit * option registers_t)) : ks Pmm.pmm unit :=
  match o with Some (s, _) => s | None => demo_ks end.

Definition demo_w : registers_t := demo_frame 49 0 0x400FF0 2.
Definition demo_s : registers_t := demo_frame 50 0 0 0.
Definition demo_r : registers_t := demo_frame 48 0 0x400100 2.
Definition demo_ks1 : ks Pmm.pmm unit := after (demo_sys demo_w demo_ks).
Definition demo_ks2 : ks Pmm.pmm unit := after (demo_sys demo_s demo_ks1).
Definition demo_ks3 : ks Pmm.pmm unit := after (demo_sys demo_r demo_ks2).

Lemma demo_answers : (rax_of (demo_sys demo_w demo_ks), rax_of (demo_sys demo_r demo_ks2)) = (2, 2).
Proof. vm_compute. reflexivity. Qed.

Lemma demo_ks_resolve : Vfs.resolve (kvfs demo_ks) (tid demo_ks) (i32 (rbx demo_w)) = Some (16, Vfs.fd_at demo_open 16).
Proof. exact demo_resolve. Qed.

Lemma demo_fd :
  Z.land (Vfs.flags (Vfs.fd_at demo_open 16)) 3 <> 0 /\
  Vfs.has_flag (Vfs.flags (Vfs.fd_at demo_open 16)) Vfs.VFS_O_WRONLY = false /\ write_pos (Vfs.fd_at demo_open 16) = 0.
Proof. vm_compute. split; [discriminate|]. split; reflexivity. Qed.

Lemma answered_state r s s' x : demo_sys r s = Some (s', x) -> after (demo_sys r s) = s'.
Proof. by intros ->. Qed.
Lemma answered_rax r s s' x : demo_sys r s = Some (s', Some x) -> rax_of (demo_sys r s) = rax x.
Proof. by intros ->. Qed.

Lemma sys_read_delivers_witness :
  exists s' v, demo_sys demo_r demo_ks = Some (s', Some (set_rax demo_r v)) /\ table_ok (kvfs s').
Proof.
  destruct demo_fd as (_ & Hrd & _).
  destruct (sys_read_delivers (A := Pmm.pmm) KBUF (fun _ => 0) (fun _ => 0) (fun _ _ => 0) 0 (fun _ => 0) (fun _ _ _ => None)
    ltac:(vm_compute; discriminate) demo_ks demo_r 16 (Vfs.fd_at demo_open 16) eq_refl eq_refl ltac:(cbn; lia) demo_open_ok
    demo_ks_resolve Hrd) as (s' & v & E & _ & T & _).
  exists s', v. split; [exact E|exact T].
Defined.

Lemma syscall_write_read_roundtrip_witness :
  ld (vmem (kcpu demo_ks3)) 0x400100 = 7 /\ ld (vmem (kcpu demo_ks3)) 0x400101 = 8.
Proof.
  pose proof demo_answers as D. apply pair_equal_spec in D as [D1 D3].
  destruct demo_fd as (Hfl & Hrd & Hp).
  destruct (syscall_write_read_roundtrip (A := Pmm.pmm) KBUF (fun _ => 0) (fun _ => 0) (fun _ _ => 0) 0 (fun _ => 0) (fun _ _ _ => None)
    ltac:(vm_compute; discriminate) demo_ks demo_w demo_s demo_r 16 (Vfs.fd_at demo_open 16) 2
    eq_refl eq_refl eq_refl eq_refl eq_refl eq_refl eq_refl eq_refl ltac:(cbn; lia) ltac:(cbn; lia) eq_refl eq_refl
    ltac:(unfold UC_MAX_IO; lia) (eq_sym Hp) eq_refl ltac:(rewrite Hp; lia) demo_open_ok demo_ks_resolve Hfl Hrd) as (s1 & v1 & E1 & HC).
  pose proof (answered_rax _ _ _ _ E1) as R1. rewrite D1 in R1.
  destruct HC as [(-> & _)|(_ & s2 & s3 & v3 & E2 & E3 & HC)]; [discriminate R1|].
  assert (demo_ks1 = s1) as F1 by exact (answered_state _ _ _ _ E1).
  assert (demo_ks2 = s2) as F2 by (unfold demo_ks2; rewrite F1; exact (answered_state _ _ _ _ E2)).
  assert (demo_ks3 = s3) as F3 by (unfold demo_ks3; rewrite F2; exact (answered_state _ _ _ _ E3)).
  pose proof (answered_rax _ _ _ _ E3) as R3. rewrite <- F2, D3 in R3.
  destruct HC as [(-> & _)|(_ & _ & HM)]; [discriminate R3|].
  rewrite F3. split; (rewrite HM by (vm_compute; reflexivity); vm_compute; reflexivity).
Defined.
End SyscallIo.
