(* ===== verification/SyscallSpawn.v ===== *)
(** * The address space across [sys_spawn]

    [sys_spawn] loads the program with CR3 pointing to the child's page tables
    and restores the caller's CR3 afterwards; on failure it then destroys the
    child's address space.  The theorem says what CR3 is when the call returns. *)

From S2P Require Import Prelude Pmm Paging PagingSpec PagingOps KString Bytes Kfs Sched Vfs VfsThm Usercopy Uheap Elf Syscall SyscallRun SyscallIo.
From stdpp Require Import base numbers list gmap.
From Stdlib Require Import ZArith Lia.

#[local] Open Scope Z_scope.

Module SyscallSpawn.
Import Pmm Paging PagingSpec Uheap Syscall SyscallRun SyscallIo Bytes.

Section regs.
Context {A : Type} `{FA : FrameAllocator A} {H : Type} `{BH : ByteHeap H}.
Implicit Types v : vm A.

(** The roots and registers of two states are the same. *)
#[local] Instance same_regs_equiv : Equivalence (same_regs (A := A)).
Proof. split; [by intros v|intros ?? (? & ? & ? & ?)|intros ??? (? & ? & ? & ?) (? & ? & ? & ?)]; unfold same_regs; splits; congruence. Qed.

Lemma alloc_page_virt_regs v : same_regs v (alloc_page_virt v).1.
Proof. unfold alloc_page_virt. destruct (fa_alloc _) as [f p]. by destruct (p =? PHYS_NULL). Qed.

Lemma ensure_table_regs v c : same_regs v (ensure_table v c).1.
Proof.
  unfold ensure_table. destruct (present _); [done|]. pose proof (alloc_page_virt_regs v).
  destruct (alloc_page_virt v) as [v1 t]. by destruct (t =? 0).
Qed.

Lemma map_walk_regs v pml4 va pa fl : same_regs v (map_walk v pml4 va pa fl).1.
Proof.
  unfold map_walk. cbv zeta.
  pose proof (ensure_table_regs v (slot pml4 (PML4_IDX va))) as H4. destruct (ensure_table v _) as [v4 [|]]; cbn [negb]; [|done].
  destruct (huge _); [done|]. set (c3 := slot (frame_of _) (PDPT_IDX va)).
  pose proof (ensure_table_regs v4 c3) as H3. destruct (ensure_table v4 c3) as [v3 [|]]; cbn [negb fst] in *; [|by etrans].
  destruct (huge _); [by etrans|]. set (c2 := slot (frame_of _) (PD_IDX va)).
  pose proof (ensure_table_regs v3 c2) as H2. destruct (ensure_table v3 c2) as [v2 [|]]; cbn [negb fst] in *; by do 2 (etrans; [done|]).
Qed.

Lemma map_page_into_regs v va pa fl p : same_regs v (vmm_map_page_into v va pa fl p).1.
Proof. unfold vmm_map_page_into. destruct (p =? PHYS_NULL); [done|apply map_walk_regs]. Qed.

Lemma alloc_page_into_regs v va fl p : same_regs v (vmm_alloc_page_into v va fl p).1.
Proof.
  unfold vmm_alloc_page_into. destruct (fa_alloc _) as [f pa]. destruct (pa =? PHYS_NULL); [done|].
  set (v1 := set_frames v f). set (m := if negb (p =? PHYS_NULL) then _ else _).
  assert (same_regs v1 m.1) as Hm.
  { unfold m. destruct (negb _); [apply map_page_into_regs|]. unfold vmm_map_page.
    destruct (current_pml4 v1 =? 0); [done|apply map_walk_regs]. }
  by destruct m as [v2 [|]].
Qed.

Lemma create_space_regs v : same_regs v (vmm_create_address_space v).1.
Proof.
  unfold vmm_create_address_space. destruct (current_pml4 v =? 0); [done|]. pose proof (alloc_page_virt_regs v).
  destruct (alloc_page_virt v) as [v1 t]. by destruct (t =? 0).
Qed.

Lemma release_regs v p : same_regs v (release_frame v p).
Proof. unfold release_frame. by destruct (fa_owns _ _). Qed.

Lemma destroy_level_regs n below t v :
  (forall t v, same_regs v (below t v)) -> same_regs v (destroy_level n below t v).
Proof.
  intros Hb. unfold destroy_level. apply (for_loop_pres (fun v' => same_regs v v')); [done|].
  intros i v' _ Hv. etrans; [exact Hv|]. destruct (negb _); [done|]. destruct (huge _); [done|].
  etrans; [apply (Hb (frame_of (ld (mem v') (slot t i))))|]. by etrans; [apply release_regs|].
Qed.

Lemma destroy_space_regs v p b : same_regs v (vmm_destroy_address_space v p b).
Proof.
  unfold vmm_destroy_address_space. destruct (p =? PHYS_NULL); [done|]. etrans; [|destruct b; [apply release_regs|done]].
  apply destroy_level_regs. intros. apply destroy_level_regs. intros. apply destroy_level_regs. intros.
  unfold destroy_pt. apply (for_loop_pres (fun v' => same_regs _ v')); [done|].
  intros i v' _ Hv. etrans; [exact Hv|]. destruct (negb _); [done|]. by etrans; [apply release_regs|].
Qed.

(** ** The loader *)

Abbreviation space := (us (A := A) (K := H)).
Definition keeps {X} (s : space) (o : Elf.outcome X) (get : X -> space) : Prop :=
  match o with Elf.Value x => same_regs s.(uv) (get x).(uv) | _ => True end.

Lemma keeps_bind {X Y} s (o : Elf.outcome X) (k : X -> Elf.outcome Y) get get' :
  keeps s o get -> (forall x, keeps (get x) (k x) get') -> keeps s (Elf.obind o k) get'.
Proof.
  intros Ho Hk. destruct o as [x| |]; [|done|done]. cbn [Elf.obind keeps] in *. specialize (Hk x).
  unfold keeps in *. destruct (k x); [by etrans|done|done].
Qed.

Lemma memcpy_keeps (s : space) dst src n : keeps s (Elf.memcpy_to s dst src n) id.
Proof.
  unfold Elf.memcpy_to. apply (for_loop_pres (fun o => keeps s o id)); [by cbn|].
  intros i o _ Ho. eapply keeps_bind; [exact Ho|]. intros x. unfold Elf.cpu_store. by destruct (Elf.cpu_translate _ _ _).
Qed.

Lemma map_segment_keeps fuel (s : space) page e p : keeps s (Elf.map_segment fuel s page e p) fst.
Proof.
  revert s page. induction fuel as [|fuel IH]; intros s page; cbn [Elf.map_segment]; [done|].
  destruct (negb (page <? e)); [by cbn|]. destruct (negb (paging_is_mapped_into _ _ _)); [|apply IH].
  pose proof (alloc_page_into_regs s.(uv) page 7 p) as Hr. destruct (vmm_alloc_page_into _ _ _ _) as [v [|]]; cbn [negb fst] in *; [|done].
  specialize (IH (set_uv s v) (u64 (page + 4096))). unfold keeps in *. destruct (Elf.map_segment _ _ _ _ _); [by etrans|done|done].
Qed.

Lemma map_blocks_keeps fuel (s : space) page e p : keeps s (Elf.map_blocks fuel s page e p) fst.
Proof.
  revert s page. induction fuel as [|fuel IH]; intros s page; cbn [Elf.map_blocks]; [done|].
  destruct (negb (page <? e)); [by cbn|].
  pose proof (alloc_page_into_regs s.(uv) page 7 p) as Hr. destruct (vmm_alloc_page_into _ _ _ _) as [v [|]]; cbn [negb fst] in *; [|done].
  specialize (IH (set_uv s v) (u32 (page + 0x400000))). unfold keeps in *. destruct (Elf.map_blocks _ _ _ _ _); [by etrans|done|done].
Qed.

Lemma fill_segment_keeps (s : space) f ph : keeps s (Elf.fill_segment s f ph) id.
Proof.
  unfold Elf.fill_segment. eapply keeps_bind; [apply memcpy_keeps|]. intros x. cbn [id].
  destruct (_ <? _); [apply memcpy_keeps|by cbn].
Qed.

Lemma filled_keeps (s : space) f ph (o : Elf.outcome (space * bool)) :
  keeps s o fst ->
  keeps s (Elf.obind o (fun '(s, ok) => if negb ok then Elf.Value (s, false)
                                        else Elf.obind (Elf.fill_segment s f ph) (fun s => Elf.Value (s, true)))) fst.
Proof.
  intros Ho. eapply keeps_bind; [exact Ho|]. intros [x ok]. destruct (negb ok); [by cbn|].
  eapply keeps_bind; [apply fill_segment_keeps|]. by cbn.
Qed.

Lemma load_segments_keeps load (s : space) phs :
  (forall s ph, keeps s (load s ph) fst) -> keeps s (Elf.load_segments load s phs) fst.
Proof.
  intros Hl. revert s. induction phs as [|ph phs IH]; intros s; cbn [Elf.load_segments]; [by cbn|].
  eapply keeps_bind; [apply Hl|]. intros [x ok]. destruct (negb ok); [by cbn|apply IH].
Qed.

Lemma map_stack_keeps n (s : space) page p : same_regs s.(uv) (Elf.map_stack n s page p).1.(uv).
Proof.
  revert s page. induction n as [|n IH]; intros s page; cbn [Elf.map_stack]; [done|].
  assert (same_regs s.(uv) (map_one s p page).1.(uv)) as Hone.
  { unfold map_one. destruct (fa_alloc _) as [f pa]. destruct (pa =? PHYS_NULL); [done|].
    pose proof (map_page_into_regs (set_frames s.(uv) f) page pa 7 p) as Hr.
    by destruct (vmm_map_page_into _ _ _ _ _) as [v [|]]. }
  destruct (map_one s p page) as [s1 [|]]; cbn [negb fst] in *; [|done]. etrans; [exact Hone|apply IH].
Qed.

Lemma elf_load_keeps over freed fuel fs (s : space) name p :
  keeps s (Elf.elf_load_file over freed fuel fs s name true p) (fun x => x.1.1).
Proof.
  unfold Elf.elf_load_file. destruct (Kfs.kfs_get_file_size _ _) as [size|]; [|done].
  destruct (size =? 0); [by cbn|]. destruct (bh_kmalloc _ _) as [h [b|]]; [|by cbn].
  destruct (Kfs.kfs_read_to_buffer _ _ _) as [[? bytes]|]; [|done]. cbv zeta.
  destruct (_ || _); [by cbn|]. set (s1 := set_unodes s h). set (file := Kfs.put_bytes b 0 bytes).
  enough (keeps s1 (Elf.load_elf64 over fuel s1 file size true p) (fun x => x.1.1) /\
          keeps s1 (Elf.load_elf32 over freed fuel s1 file size p) (fun x => x.1.1)) as [K64 K32].
  { destruct (_ =? _); [exact K64|]. destruct (_ =? _); [exact K32|by cbn]. }
  split; [unfold Elf.load_elf64|unfold Elf.load_elf32]; (destruct (p =? PHYS_NULL); [by cbn|]); cbv zeta;
    (destruct (Elf.phdrs_outside _ _ _); [by cbn|]);
    (eapply keeps_bind; [apply load_segments_keeps; intros s2 ph|intros [s2 ok]; destruct (negb ok); [by cbn|]]).
  - unfold Elf.load_segment64. destruct (negb _); [by cbn|]. destruct (_ <? _); [by cbn|]. cbv zeta.
    destruct (_ || _); [by cbn|]. apply filled_keeps, map_segment_keeps.
  - pose proof (map_stack_keeps (Z.to_nat (Elf.USER_STACK_SIZE / 4096)) (Elf.free_buffer s2 file)
      (Elf.USER_STACK_TOP - Elf.USER_STACK_SIZE) p) as Hs.
    destruct (Elf.map_stack _ _ _ _) as [s3 [|]]; cbn [negb]; exact Hs.
  - unfold Elf.load_segment32. destruct (negb _); [by cbn|]. cbv zeta. destruct (_ || _); [by cbn|].
    apply filled_keeps, map_blocks_keeps.
  - by cbn.
Qed.
End regs.

(** ** The call *)

Section spawn.
Context {A : Type} `{FA : FrameAllocator A} {H : Type} `{BH : ByteHeap H}.
Variables (KBUF : Z) (junk over : Z -> Z) (freed : list Z -> Z -> Z) (elf_fuel : nat) (kstack : ks A H -> Z).
Variable other : forall Y, call Y -> ks A H -> option (ks A H * Y).

Abbreviation sys := (syscall KBUF junk over freed elf_fuel kstack other).
Abbreviation hd := (handle KBUF junk over freed elf_fuel kstack other).

Lemma destroy_task_as_cr3 (v : vm A) p :
  p <> 0 -> kernel_pml4_phys v <> 0 -> cr3 (vmm_destroy_task_as v p) = kernel_pml4_phys v.
Proof.
  intros Hp Hk. unfold vmm_destroy_task_as, vmm_switch_to_kernel_as, PHYS_NULL.
  rewrite (proj2 (Z.eqb_neq p 0) Hp), (proj2 (Z.eqb_neq _ 0) Hk).
  by destruct (destroy_space_regs (set_cr3 v (kernel_pml4_phys v)) p true) as (_ & _ & -> & _).
Qed.

Lemma elf_load_regs (s s' : ks A H) name p r :
  elf_load over freed elf_fuel s name p = Some (s', r) -> same_regs (kvm s) (kvm s') /\ ksched s' = ksched s.
Proof.
  unfold elf_load. pose proof (elf_load_keeps over freed elf_fuel (kkfs s) (mk_us (kvm s) (kdata s) (kheap s)) name p) as Hk.
  destruct (Elf.elf_load_file _ _ _ _ _ _ _ _) as [[[u e] t]| |]; [|done|done]. intros [= <- _]. by split.
Qed.

(** C24. What [sys_spawn] leaves in CR3, for a calling task [i] whatever the ring.
    If the name cannot be copied or no address space can be created, CR3 is as
    before.  If the program was started, CR3 is the caller's again.  If the
    program could not be loaded or the task not created, CR3 is the kernel's
    own page table and not the caller's, because the child's address space is
    destroyed after the caller's CR3 was restored, and destroying one switches to
    the kernel's. *)
Theorem sys_spawn_cr3 s r s' r' i :
  rax r = 57 -> tid s = i -> 0 <= i < Sched.task_count (ksched s) ->
  kernel_pml4_phys (kvm s) <> 0 -> vmm_read_cr3 (kvm s) <> 0 ->
  sys r s = Some (s', Some r') ->
  let copied := 0 <=? (Usercopy.strncpy_from_user (kvm s) (entry_ctx s r) (kcpu s) KBUF (rbx r) UC_MAX_FNAME).2 in
  let child := (vmm_create_address_space (kvm s)).2 in
  if copied && negb (child =? 0) then
    (rax r' = u64 (-1) /\ cr3 (kvm s') = kernel_pml4_phys (kvm s)) \/
    ((exists t, 0 <= t /\ rax r' = u64 t) /\ cr3 (kvm s') = vmm_read_cr3 (kvm s))
  else rax r' = u64 (-1) /\ cr3 (kvm s') = cr3 (kvm s) /\ ksched s' = ksched s.
Proof.
  intros Hax Hi Hcnt Hk Hr E copied child.
  unfold syscall, syscall_handler, syscall_current_task in E. cbn [run handle] in E. rewrite Hax in E.
  fold (entry_ctx s r) in E. set (s0 := set_ctx s (entry_ctx s r)) in E.
  cbn [dispatch] in E. unfold sys_spawn, with_name in E. cbn [run handle] in E.
  change (kvm s0) with (kvm s) in E. change (kctx s0) with (entry_ctx s r) in E. change (kcpu s0) with (kcpu s) in E.
  unfold copied. destruct (Usercopy.strncpy_from_user _ _ _ _ _ _) as [c n]. cbn [snd].
  destruct (Z.ltb_spec n 0) as [Hn|Hn].
  { rewrite (proj2 (Z.leb_gt _ _)) by lia. cbn [andb]. unfold ret in E. cbn [run] in E. by injection E as <- <-. }
  rewrite (proj2 (Z.leb_le _ _)) by lia. cbn [andb]. cbn [run handle] in E. set (s1 := set_cpu s0 c) in E.
  change (kvm s1) with (kvm s) in E. pose proof (create_space_regs (kvm s)) as HR. unfold child.
  destruct (vmm_create_address_space (kvm s)) as [v p]. cbn [fst snd] in *.
  destruct (Z.eqb_spec p 0) as [Hp|Hp]; cbn [negb].
  { unfold ret in E. cbn [run] in E. injection E as <- <-. split; [done|]. split; [by apply HR|done]. }
  unfold syscall_current_task in E. cbn [run handle] in E. change (tid (set_vm s1 v)) with (tid s) in E.
  change (ksched (set_vm s1 v)) with (ksched s) in E. rewrite Hi in E.
  rewrite (proj2 (Z.ltb_ge i 0)), (proj2 (Z.leb_gt _ i)) in E by lia. cbn [orb run handle] in E.
  destruct HR as (_ & HRk & HRc & _). change (kvm (set_vm s1 v)) with v in E.
  replace (vmm_read_cr3 v) with (vmm_read_cr3 (kvm s)) in E by (unfold vmm_read_cr3; by rewrite HRc).
  match type of E with context [elf_load _ _ _ ?x _ _] => set (s2 := x) in E end.
  assert (kernel_pml4_phys (kvm s2) = kernel_pml4_phys (kvm s)) as K2.
  { unfold s2. cbn [kvm set_vm]. unfold vmm_switch_pml4. rewrite <- HRk. by destruct (p =? PHYS_NULL). }
  destruct (elf_load over freed elf_fuel s2 _ p) as [[s3 [entry top]]|] eqn:EL; [|done].
  destruct (elf_load_regs _ _ _ _ _ EL) as [(_ & HLk & _) _]. cbn [run handle] in E.
  set (s4 := on_task (set_vm s3 _) i _) in E.
  assert (cr3 (kvm s4) = vmm_read_cr3 (kvm s) /\ kernel_pml4_phys (kvm s4) = kernel_pml4_phys (kvm s)) as [C4 K4].
  { unfold s4. cbn [on_task set_sched kvm set_vm]. unfold vmm_switch_pml4, PHYS_NULL.
    rewrite (proj2 (Z.eqb_neq _ 0) Hr). split; [done|]. cbn [kernel_pml4_phys set_cr3]. congruence. }
  destruct ((entry =? 0) || (top =? 0)); cbn [run handle] in E.
  { unfold ret in E. cbn [run] in E. injection E as <- <-. left. split; [done|].
    change (cr3 (vmm_destroy_task_as (kvm s4) p) = kernel_pml4_phys (kvm s)). rewrite destroy_task_as_cr3 by congruence. exact K4. }
  destruct (Sched.create_user_task _ _ _ _ _ _ _ _) as [t res]. destruct (Z.leb_spec 0 res).
  - unfold ret in E. cbn [run] in E. injection E as <- <-. right. split; [by exists res|exact C4].
  - cbn [run handle] in E. unfold ret in E. cbn [run] in E. injection E as <- <-. left. split; [done|].
    change (cr3 (vmm_destroy_task_as (kvm s4) p) = kernel_pml4_phys (kvm s)). rewrite destroy_task_as_cr3 by congruence. exact K4.
Qed.
End spawn.

(** ** Witness *)

(** Task 1 in its own address space [0x1000], the kernel's page table at [0x2000];
    the name at [0x400FF0] names no file. *)
Definition demo_as : vm Pmm.pmm :=
  mk_vm (frames Usercopy.demo_as) (mem Usercopy.demo_as) 0x2000 0x2000 0x1000 0x1000.
Definition demo_caller : ks Pmm.pmm unit :=
  mk_ks Usercopy.demo_cpu demo_as ∅ VfsThm.demo_vfs demo_sched ∅ 0 Usercopy.demo_ctx [] 0.
Definition demo_spawn : registers_t := demo_frame 57 0x400FF0 0 0.

Lemma demo_sys_eq r s :
  demo_sys r s = syscall Usercopy.KBUF (fun _ => 0) (fun _ => 0) (fun _ _ => 0) 0 (fun _ => 0) (fun _ _ _ => None) r s.
Proof. reflexivity. Qed.

Lemma sys_spawn_cr3_witness :
  rax_of (demo_sys demo_spawn demo_caller) = u64 (-1) /\ cr3 (kvm (after (demo_sys demo_spawn demo_caller))) = 0x2000 /\
  Elf.cpu_translate (mem (kvm demo_caller)) 0x1000 (rip demo_spawn) = Some 0x5000 /\
  Elf.cpu_translate (mem (kvm (after (demo_sys demo_spawn demo_caller)))) 0x2000 (rip demo_spawn) = None.
Proof.
  assert (rax_of (demo_sys demo_spawn demo_caller) = u64 (-1)) as D by (vm_compute; reflexivity).
  destruct (demo_sys demo_spawn demo_caller) as [[s' [r'|]]|] eqn:E; [|discriminate D|discriminate D].
  pose proof E as E'. rewrite demo_sys_eq in E'.
  pose proof (sys_spawn_cr3 (A := Pmm.pmm) Usercopy.KBUF (fun _ => 0) (fun _ => 0) (fun _ _ => 0) 0 (fun _ => 0) (fun _ _ _ => None)
    demo_caller demo_spawn s' r' 1 eq_refl eq_refl ltac:(vm_compute; split; congruence) ltac:(vm_compute; discriminate)
    ltac:(vm_compute; discriminate) E') as HS.
  cbv zeta in HS.
  match type of HS with if ?b then _ else _ => assert (b = true) as B by (vm_compute; reflexivity); rewrite B in HS end.
  split; [exact D|]. split.
  - destruct HS as [[_ HS]|[(t & Ht & HS) _]]; [exact HS|]. cbn [rax_of] in D.
    assert (cr3 (kvm (after (demo_sys demo_spawn demo_caller))) = 0x2000) as F by (vm_compute; reflexivity).
    rewrite E in F. exact F.
  - split; [vm_compute; reflexivity|]. rewrite <- E. vm_compute. reflexivity.
Defined.
End SyscallSpawn.
