(* ===== verification/Ring.v ===== *)
(** * Circular byte buffers

    The keyboard buffer and the receive buffers of sockets are arrays used as
    rings.  [ring_list] is the sequence a ring holds; storing behind the last
    byte appends to it and advancing the start drops its head. *)

From S2P Require Import Prelude.
From stdpp Require Import base numbers list gmap.
From Stdlib Require Import ZArith Lia.

#[local] Open Scope Z_scope.

Module Ring.
Section ring.
Variable N : Z.
Hypothesis N_pos : 0 < N.

(** The [n] bytes from index [t] on. *)
Definition ring_list (b : gmap Z Z) (t n : Z) : list Z := map (fun i => ld b ((t + i) mod N)) (zrange 0 n).

Lemma ring_length b t n : 0 <= n -> Z.of_nat (length (ring_list b t n)) = n.
Proof using Type. intros. unfold ring_list. rewrite length_map, length_zrange. lia. Qed.

Lemma ring_nil b t : ring_list b t 0 = [].
Proof using Type. reflexivity. Qed.

Lemma mod_inj t i j : 0 <= i < N -> 0 <= j < N -> (t + i) mod N = (t + j) mod N -> i = j.
Proof using N_pos.
  intros Hi Hj E. pose proof (Z.div_mod (t + i) N ltac:(lia)). pose proof (Z.div_mod (t + j) N ltac:(lia)).
  assert (i - j = N * ((t + i) / N - (t + j) / N)) by lia.
  assert ((t + i) / N - (t + j) / N = 0) by nia. nia.
Qed.

(** A store behind the last byte. *)
Lemma ring_push b t n x :
  0 <= n < N -> ring_list (st b ((t + n) mod N) x) t (n + 1) = ring_list b t n ++ [x].
Proof using N_pos.
  intros Hn. unfold ring_list. rewrite zrange_snoc, map_app by lia. f_equal.
  - apply map_ext_in. intros i Hi%list_elem_of_In%elem_of_zrange. apply ld_st_ne.
    intros E. apply mod_inj in E; lia.
  - cbn [map]. by rewrite ld_st_eq.
Qed.

(** Advancing the start by [k]. *)
Lemma ring_drop b t n k :
  0 <= k <= n -> ring_list b ((t + k) mod N) (n - k) = drop (Z.to_nat k) (ring_list b t n).
Proof using N_pos.
  intros Hk. apply list_eq. intros i. rewrite lookup_drop. unfold ring_list. change (@map Z Z) with (@fmap list _ Z Z).
  rewrite !list_lookup_fmap, !zrange_seqZ, !Z.sub_0_r.
  destruct (decide (Z.of_nat i < n - k)) as [Hi|Hi].
  - rewrite !lookup_seqZ_lt by lia. cbn. f_equal. f_equal. rewrite Zplus_mod_idemp_l. f_equal. lia.
  - rewrite !lookup_seqZ_ge by lia. done.
Qed.

Lemma ring_take b t n k : 0 <= k <= n -> ring_list b t k = take (Z.to_nat k) (ring_list b t n).
Proof using Type.
  intros Hk. unfold ring_list. rewrite <- fmap_take, !zrange_seqZ, !Z.sub_0_r.
  replace n with (k + (n - k)) by lia. rewrite seqZ_app, take_app_length' by (rewrite ?length_seqZ; lia). done.
Qed.
End ring.
End Ring.
