(* ===== verification/Keyboard.v ===== *)
(** * Keyboard driver (src/drivers/keyboard.c)

    One interrupt delivers the status byte of port 0x64 and, when it is read,
    the byte of port 0x60; both are arguments of [keyboard_handler].  The window
    manager decides whether a key is a shortcut and who has the focus; its state
    (with the event queues) is the one of [Kwm].  [kbd_lock] makes each access to
    the text buffer atomic; [pic_remap] only programs the interrupt controller
    and is left out. *)

From S2P Require Import Prelude KString Display Event Kwm KwmThm Ring.
From stdpp Require Import base numbers list gmap.
From Stdlib Require Import ZArith Lia.

#[local] Open Scope Z_scope.

Module Keyboard.
Import Kwm Ring.

Definition EVENT_KEY_PRESS : Z := 1.
Definition EVENT_KEY_RELEASE : Z := 5.
Definition KEY_MOD_SHIFT : Z := 1.
Definition KEY_MOD_CTRL : Z := 2.
Definition KEY_MOD_CAPS : Z := 8.
Definition HELD_LSHIFT : Z := 1.
Definition HELD_RSHIFT : Z := 2.
Definition HELD_LCTRL : Z := 4.
Definition HELD_RCTRL : Z := 8.
Definition HELD_LALT : Z := 16.
Definition HELD_RALT : Z := 32.
Definition HELD_CAPS : Z := 64.
Definition KBD_BUFFER_SIZE : Z := 256.

(** The two scancode tables; entries behind the listed ones are 0. *)
Definition kbdus : list Z :=
  [0; 27; 49; 50; 51; 52; 53; 54; 55; 56; 57; 48; 45; 61; 8; 9; 113; 119; 101; 114; 116; 121; 117; 105; 111; 112; 91; 93; 10;
   0; 97; 115; 100; 102; 103; 104; 106; 107; 108; 59; 39; 96; 0; 92; 122; 120; 99; 118; 98; 110; 109; 44; 46; 47; 0;
   42; 0; 32; 0; 0; 0; 0; 0; 0; 0; 0; 0; 0; 0; 0; 0; 0; 0; 0; 45; 0; 0; 0; 43].
Definition kbdus_shift : list Z :=
  [0; 27; 33; 64; 35; 36; 37; 94; 38; 42; 40; 41; 95; 43; 8; 9; 81; 87; 69; 82; 84; 89; 85; 73; 79; 80; 123; 125; 10;
   0; 65; 83; 68; 70; 71; 72; 74; 75; 76; 58; 34; 126; 0; 124; 90; 88; 67; 86; 66; 78; 77; 60; 62; 63; 0;
   42; 0; 32; 0; 0; 0; 0; 0; 0; 0; 0; 0; 0; 0; 0; 0; 0; 0; 0; 45; 0; 0; 0; 43].

Record kbd := mk_kbd {
  kbd_buffer : gmap Z Z; kbd_head : Z; kbd_tail : Z;
  kbd_held : Z; kbd_mods : Z; kbd_extended : bool;
}.

Definition init_keyboard (s : kbd) : kbd := mk_kbd s.(kbd_buffer) 0 0 0 0 false.
Definition flush_kbd_buffer (s : kbd) : kbd := mk_kbd s.(kbd_buffer) 0 0 s.(kbd_held) s.(kbd_mods) s.(kbd_extended).

(** [if (released) h &= ~bit; else h |= bit] *)
Definition hold (released : bool) (bit h : Z) : Z := if released then Z.ldiff h bit else Z.lor h bit.

(** The switch over the modifier keys: the new [kbd_held] and [kbd_mods]. *)
Definition track (held mods key_id : Z) (released : bool) : Z * Z :=
  if key_id =? 0x2A then (hold released HELD_LSHIFT held, mods)
  else if key_id =? 0x36 then (hold released HELD_RSHIFT held, mods)
  else if key_id =? 0x1D then (hold released HELD_LCTRL held, mods)
  else if key_id =? 0x11D then (hold released HELD_RCTRL held, mods)
  else if key_id =? 0x38 then (hold released HELD_LALT held, mods)
  else if key_id =? 0x138 then (hold released HELD_RALT held, mods)
  else if key_id =? 0x3A then
    if released then (Z.ldiff held HELD_CAPS, mods)
    else if Z.land held HELD_CAPS =? 0 then (Z.lor held HELD_CAPS, Z.lxor mods KEY_MOD_CAPS)
    else (held, mods)
  else (held, mods).

(** The public modifier mask, from the keys held. *)
Definition derive_mods (held mods : Z) : Z :=
  let mods := Z.land mods KEY_MOD_CAPS in
  let mods := if Z.land held (Z.lor HELD_LSHIFT HELD_RSHIFT) =? 0 then mods else Z.lor mods KEY_MOD_SHIFT in
  let mods := if Z.land held (Z.lor HELD_LCTRL HELD_RCTRL) =? 0 then mods else Z.lor mods KEY_MOD_CTRL in
  if Z.land held (Z.lor HELD_LALT HELD_RALT) =? 0 then mods else Z.lor mods KEY_MOD_ALT.

(** The character of a key. *)
Definition to_ascii (mods code : Z) (released : bool) : Z :=
  let ascii := KString.str kbdus code in
  if released then ascii
  else
    let upper := negb (Z.land mods KEY_MOD_SHIFT =? 0) in
    let upper := if negb (Z.land mods KEY_MOD_CAPS =? 0) && (97 <=? ascii) && (ascii <=? 122) then negb upper else upper in
    if upper then KString.str kbdus_shift code else ascii.

Definition push_char (s : kbd) (c : Z) : kbd :=
  let next_head := (s.(kbd_head) + 1) mod KBD_BUFFER_SIZE in
  if next_head =? s.(kbd_tail) then s
  else mk_kbd (st s.(kbd_buffer) s.(kbd_head) c) next_head s.(kbd_tail) s.(kbd_held) s.(kbd_mods) s.(kbd_extended).

Section keyboard.
Context {H : Type} `{KAlloc H}.

Definition keyboard_handler (s : kbd) (k : kwm (H := H)) (status scancode : Z) : kbd * kwm (H := H) :=
  if negb (Z.land status 0x01 =? 0) && (Z.land status 0x20 =? 0) then
    if scancode =? 0xE0 then (mk_kbd s.(kbd_buffer) s.(kbd_head) s.(kbd_tail) s.(kbd_held) s.(kbd_mods) true, k)
    else
      let released := negb (Z.land scancode 0x80 =? 0) in
      let code := Z.land scancode 0x7F in
      let key_id := Z.lor code (if s.(kbd_extended) then 0x100 else 0) in
      let '(held, mods) := track s.(kbd_held) s.(kbd_mods) key_id released in
      let mods := derive_mods held mods in
      let s := mk_kbd s.(kbd_buffer) s.(kbd_head) s.(kbd_tail) held mods false in
      let ascii := to_ascii mods code released in
      let '(k, shortcut) := kwm_handle_shortcut k mods released key_id in
      if negb (shortcut =? 0) then (s, k)
      else
        let '(kbd_target, kbd_win) := kwm_route_keyboard k in
        if 0 <=? kbd_target then
          (s, set_evs k (Event.push_event_to k.(evs) kbd_target (if released then EVENT_KEY_RELEASE else EVENT_KEY_PRESS)
                           ascii mods key_id kbd_win))
        else if negb released && negb (ascii =? 0) && (Z.land mods (Z.lor KEY_MOD_CTRL KEY_MOD_ALT) =? 0)
        then (push_char s ascii, k)
        else (s, k)
  else (s, k).
End keyboard.

(** The loop of [keyboard_read], with [n] bytes of room left. *)
Fixpoint keyboard_read (n : nat) (s : kbd) : kbd * list Z :=
  match n with
  | O => (s, [])
  | S n =>
      if s.(kbd_head) =? s.(kbd_tail) then (s, [])
      else
        let c := ld s.(kbd_buffer) s.(kbd_tail) in
        let s := mk_kbd s.(kbd_buffer) s.(kbd_head) ((s.(kbd_tail) + 1) mod KBD_BUFFER_SIZE)
                   s.(kbd_held) s.(kbd_mods) s.(kbd_extended) in
        let '(s, l) := keyboard_read n s in (s, c :: l)
  end.

(** ** The keyboard as its user sees it *)

(** Which keys are down, whether CapsLock is on, whether a prefix was seen, and
    the text waiting to be read. *)
Record keys := mk_keys { down : Z -> bool; caps : bool; prefix : bool; text : list Z }.
Definition keys0 : keys := mk_keys (fun _ => false) false false [].

Definition shift_down (a : keys) : bool := a.(down) 0x2A || a.(down) 0x36.
Definition ctrl_down (a : keys) : bool := a.(down) 0x1D || a.(down) 0x11D.
Definition alt_down (a : keys) : bool := a.(down) 0x38 || a.(down) 0x138.

Definition modifiers (a : keys) : Z :=
  (if shift_down a then 1 else 0) + (if ctrl_down a then 2 else 0) + (if alt_down a then 4 else 0) + (if a.(caps) then 8 else 0).

(** The character a press types: shift selects the second table, CapsLock
    inverts that choice for letters. *)
Definition typed (a : keys) (code : Z) : Z :=
  let base := KString.str kbdus code in
  let letter := (97 <=? base) && (base <=? 122) in
  if xorb (shift_down a) (a.(caps) && letter) then KString.str kbdus_shift code else base.

(** A key goes down or up; CapsLock toggles when it goes down and was up. *)
Definition move_key (a : keys) (key : Z) (released : bool) : keys :=
  mk_keys (fun x => if x =? key then negb released else a.(down) x)
    (xorb a.(caps) ((key =? 0x3A) && negb released && negb (a.(down) 0x3A))) false a.(text).

(** At most 255 characters wait; further ones are dropped. *)
Definition type_char (a : keys) (c : Z) : keys :=
  mk_keys a.(down) a.(caps) a.(prefix) (if (length a.(text) <? 255)%nat then a.(text) ++ [c] else a.(text)).

Section spec.
Context {H : Type} `{KAlloc H}.

(** A byte of the keyboard.  A shortcut is consumed by the window manager; else
    the key is an event of the task that owns the focused window; else, with no
    window in focus, a press without Ctrl and Alt types its character. *)
Definition key_byte (a : keys) (k : kwm (H := H)) (scancode : Z) : keys * kwm (H := H) :=
  if scancode =? 0xE0 then (mk_keys a.(down) a.(caps) true a.(text), k)
  else
    let released := 128 <=? scancode in
    let code := scancode mod 128 in
    let key := code + (if a.(prefix) then 256 else 0) in
    let a := move_key a key released in
    let '(k, shortcut) := kwm_handle_shortcut k (modifiers a) released key in
    if negb (shortcut =? 0) then (a, k)
    else
      let '(task, w) := kwm_route_keyboard k in
      if 0 <=? task then
        (a, set_evs k (Event.push_event_to k.(evs) task (if released then EVENT_KEY_RELEASE else EVENT_KEY_PRESS)
                         (if released then KString.str kbdus code else typed a code) (modifiers a) key w))
      else if negb released && negb (typed a code =? 0) && negb (ctrl_down a) && negb (alt_down a)
      then (type_char a (typed a code), k) else (a, k).

(** What happens to the keyboard: an interrupt, a read, a flush, or a change of
    the window manager's state by another path. *)
Inductive kop :=
  | Irq (status scancode : Z)
  | Read (n : nat)
  | Flush
  | Wm (k : kwm (H := H)).

(** One operation of the driver and of the specification: the new states and
    the characters read. *)
Definition kbd_op (s : kbd) (k : kwm (H := H)) (o : kop) : kbd * kwm (H := H) * list Z :=
  match o with
  | Irq status b => let '(s, k) := keyboard_handler s k status b in (s, k, [])
  | Read n => let '(s, l) := keyboard_read n s in (s, k, l)
  | Flush => (flush_kbd_buffer s, k, [])
  | Wm k => (s, k, [])
  end.
Definition key_op (a : keys) (k : kwm (H := H)) (o : kop) : keys * kwm (H := H) * list Z :=
  match o with
  | Irq status b =>
      if negb (Z.land status 0x01 =? 0) && (Z.land status 0x20 =? 0)
      then let '(a, k) := key_byte a k b in (a, k, []) else (a, k, [])
  | Read n => (mk_keys a.(down) a.(caps) a.(prefix) (drop n a.(text)), k, take n a.(text))
  | Flush => (mk_keys a.(down) a.(caps) a.(prefix) [], k, [])
  | Wm k => (a, k, [])
  end.

Fixpoint kbd_run (s : kbd) (k : kwm (H := H)) (l : list kop) : kbd * kwm (H := H) * list (list Z) :=
  match l with
  | [] => (s, k, [])
  | o :: l => let '(s, k, x) := kbd_op s k o in let '(s, k, r) := kbd_run s k l in (s, k, x :: r)
  end.
Fixpoint key_run (a : keys) (k : kwm (H := H)) (l : list kop) : keys * kwm (H := H) * list (list Z) :=
  match l with
  | [] => (a, k, [])
  | o :: l => let '(a, k, x) := key_op a k o in let '(a, k, r) := key_run a k l in (a, k, x :: r)
  end.

(** ** Refinement *)

(** The mask of the modifier keys that are down. *)
Definition held_mask (d : Z -> bool) : Z :=
  (if d 0x2A then 1 else 0) + (if d 0x36 then 2 else 0) + (if d 0x1D then 4 else 0) + (if d 0x11D then 8 else 0) +
  (if d 0x38 then 16 else 0) + (if d 0x138 then 32 else 0) + (if d 0x3A then 64 else 0).

Definition waiting (s : kbd) : Z := (s.(kbd_head) - s.(kbd_tail)) mod KBD_BUFFER_SIZE.

Record refines (s : kbd) (a : keys) : Prop := {
  rf_held : s.(kbd_held) = held_mask a.(down);
  rf_mods : s.(kbd_mods) = modifiers a;
  rf_ext : s.(kbd_extended) = a.(prefix);
  rf_head : 0 <= s.(kbd_head) < 256;
  rf_tail : 0 <= s.(kbd_tail) < 256;
  rf_text : ring_list 256 s.(kbd_buffer) s.(kbd_tail) (waiting s) = a.(text);
}.

(** The masks follow the keys. *)
Lemma track_spec a key released :
  let t := track (held_mask a.(down)) (modifiers a) key released in
  let a' := move_key a key released in
  t.1 = held_mask a'.(down) /\ derive_mods t.1 t.2 = modifiers a'.
Proof.
  destruct a as [d c p t]. unfold move_key, track, modifiers, shift_down, ctrl_down, alt_down, held_mask.
  cbn [down caps fst snd]. rewrite !(Z.eqb_sym _ key).
  repeat match goal with |- context [key =? ?x] => destruct (Z.eqb_spec key x) as [->|]; cbn [Z.eqb Pos.eqb andb] end.
  all: destruct released, c, (d 0x2A), (d 0x36), (d 0x1D), (d 0x11D), (d 0x38), (d 0x138), (d 0x3A); split; reflexivity.
Qed.

Lemma to_ascii_spec a code released :
  to_ascii (modifiers a) code released = if released then KString.str kbdus code else typed a code.
Proof.
  unfold to_ascii, typed, modifiers, shift_down. set (base := KString.str kbdus code).
  destruct released; [done|]. destruct a as [d c p t]. cbn [down caps].
  destruct c, (d 0x2A), (d 0x36), (ctrl_down _), (alt_down _), ((97 <=? base) && (base <=? 122)) eqn:E;
    rewrite <- andb_assoc, ?E; cbn; rewrite ?E; reflexivity.
Qed.

Lemma plain_spec a : (Z.land (modifiers a) (Z.lor KEY_MOD_CTRL KEY_MOD_ALT) =? 0) = negb (ctrl_down a) && negb (alt_down a).
Proof. unfold modifiers. destruct (shift_down a), (ctrl_down a), (alt_down a), a.(caps); reflexivity. Qed.

(** The bits of a scancode. *)
Lemma scancode_bits b :
  0 <= b < 256 -> negb (Z.land b 0x80 =? 0) = (128 <=? b) /\ Z.land b 0x7F = b mod 128 /\
    forall e : bool, Z.lor (b mod 128) (if e then 0x100 else 0) = b mod 128 + (if e then 256 else 0).
Proof.
  intros Hb.
  assert (forallb (fun b => (Bool.eqb (negb (Z.land b 0x80 =? 0)) (128 <=? b)) && (Z.land b 0x7F =? b mod 128) &&
    (Z.lor (b mod 128) 0x100 =? b mod 128 + 256)) (zrange 0 256) = true) as F by (vm_compute; reflexivity).
  rewrite forallb_forall in F. specialize (F b (proj1 (list_elem_of_In _ _) (proj2 (elem_of_zrange 0 256 b) Hb))).
  apply andb_true_iff in F as [F F3]. apply andb_true_iff in F as [F1 F2].
  apply Bool.eqb_prop in F1. apply Z.eqb_eq in F2, F3. split; [done|]. split; [done|].
  intros [|]; [done|]. by rewrite Z.lor_0_r, Z.add_0_r.
Qed.

(** The ring of the driver. *)
Lemma push_char_spec s a c :
  refines s a -> refines (push_char s c) (type_char a c).
Proof.
  intros [Hh Hm He Hhd Htl Ht]. unfold push_char, KBD_BUFFER_SIZE. unfold waiting, KBD_BUFFER_SIZE in Ht.
  assert (Z.of_nat (length a.(text)) = (kbd_head s - kbd_tail s) mod 256) as Hl by (rewrite <- Ht; apply ring_length; divlia).
  destruct (Z.eqb_spec ((kbd_head s + 1) mod 256) (kbd_tail s)) as [E|E].
  - split; try done. cbn [type_char text]. assert (length a.(text) = 255%nat) as El by divlia.
    rewrite (proj2 (Nat.ltb_ge _ _)) by lia. exact Ht.
  - assert ((length a.(text) < 255)%nat) as El by divlia.
    split; cbn [kbd_held kbd_mods kbd_extended kbd_head kbd_tail kbd_buffer type_char down caps prefix text]; try done; try divlia.
    rewrite (proj2 (Nat.ltb_lt _ _)) by lia. unfold waiting, KBD_BUFFER_SIZE. cbn [kbd_head kbd_tail].
    replace (((kbd_head s + 1) mod 256 - kbd_tail s) mod 256) with ((kbd_head s - kbd_tail s) mod 256 + 1) by divlia.
    rewrite <- Ht. rewrite <- (ring_push 256 ltac:(lia)) by divlia. do 2 f_equal. divlia.
Qed.

Lemma keyboard_read_spec n s a :
  refines s a -> let '(s', l) := keyboard_read n s in
  l = take n a.(text) /\ refines s' (mk_keys a.(down) a.(caps) a.(prefix) (drop n a.(text))).
Proof.
  revert s a. induction n as [|n IH]; intros s a Hr; cbn [keyboard_read].
  { split; [done|]. by destruct a. }
  destruct Hr as [Hh Hm He Hhd Htl Ht]. unfold waiting, KBD_BUFFER_SIZE in Ht.
  destruct (Z.eqb_spec (kbd_head s) (kbd_tail s)) as [E|E].
  - assert (a.(text) = []) as -> by (rewrite <- Ht, E, Z.sub_diag; done).
    split; [done|]. split; try done. by unfold waiting; rewrite E, Z.sub_diag.
  - set (n' := (kbd_head s - kbd_tail s) mod 256) in *. assert (0 < n' < 256) as Hn' by (unfold n'; divlia).
    set (s1 := mk_kbd _ _ _ _ _ _).
    assert (ring_list 256 (kbd_buffer s) (kbd_tail s) n' = ld (kbd_buffer s) (kbd_tail s) :: drop 1 a.(text)) as Hc.
    { rewrite <- Ht. unfold ring_list at 1 2. rewrite zrange_cons by lia. cbn [map drop]. f_equal.
      rewrite Z.add_0_r. by rewrite Z.mod_small by lia. }
    specialize (IH s1 (mk_keys a.(down) a.(caps) a.(prefix) (drop 1 a.(text)))). destruct (keyboard_read n s1) as [s2 l].
    destruct IH as [-> HR].
    + unfold s1. change KBD_BUFFER_SIZE with 256. split; cbn [kbd_held kbd_mods kbd_extended kbd_head kbd_tail kbd_buffer down caps prefix text]; try done; try divlia.
      unfold waiting, KBD_BUFFER_SIZE. cbn [kbd_head kbd_tail].
      replace ((kbd_head s - (kbd_tail s + 1) mod 256) mod 256) with (n' - 1) by (unfold n'; divlia).
      rewrite (ring_drop 256 ltac:(lia)) by lia. by rewrite Ht.
    + cbn [text down caps prefix] in *. rewrite Ht in Hc. split.
      * rewrite Hc. reflexivity.
      * by rewrite drop_drop in HR.
Qed.

Lemma keyboard_handler_spec s a k status b :
  refines s a -> 0 <= b < 256 ->
  let '(s', k', x) := kbd_op s k (Irq status b) in
  let '(a', k'', y) := key_op a k (Irq status b) in
  refines s' a' /\ k' = k'' /\ x = y.
Proof.
  intros Hr Hb. cbn [kbd_op key_op]. unfold keyboard_handler, key_byte.
  destruct (negb _ && _); [|done]. destruct (b =? 0xE0); [split; [destruct Hr; split; assumption || done|done]|].
  destruct (scancode_bits b Hb) as (-> & -> & Hlor). cbv zeta. rewrite (rf_held _ _ Hr), (rf_mods _ _ Hr), (rf_ext _ _ Hr), Hlor.
  set (code := b mod 128). set (key := code + _). set (released := 128 <=? b).
  destruct (track_spec a key released) as [Eh Em]. destruct (track _ _ key released) as [held mods]. cbn [fst snd] in Eh, Em.
  rewrite Em. set (a1 := move_key a key released) in *. set (s1 := mk_kbd _ _ _ _ _ _).
  assert (refines s1 a1) as H1 by (destruct Hr; split; assumption || done).
  rewrite to_ascii_spec, plain_spec.
  destruct (kwm_handle_shortcut k (modifiers a1) released key) as [k1 sc]. destruct (negb (sc =? 0)); [done|].
  destruct (kwm_route_keyboard k1) as [t w]. destruct (0 <=? t); [done|].
  destruct released; cbn [negb andb]; [done|]. rewrite andb_assoc.
  destruct (negb (typed a1 code =? 0) && negb (ctrl_down a1) && negb (alt_down a1)); [|done].
  split; [by apply push_char_spec|done].
Qed.

Lemma kbd_run_refines l s a k :
  refines s a -> Forall (fun o => match o with Irq _ b => 0 <= b < 256 | _ => True end) l ->
  let '(s', k', x) := kbd_run s k l in let '(a', k'', y) := key_run a k l in
  refines s' a' /\ k' = k'' /\ x = y.
Proof.
  revert s a k. induction l as [|o l IH]; intros s a k Hr Hl; cbn [kbd_run key_run]; [done|].
  apply Forall_cons in Hl as [Ho Hl].
  assert (let '(s', k', x) := kbd_op s k o in let '(a', k'', y) := key_op a k o in refines s' a' /\ k' = k'' /\ x = y) as Hop.
  { destruct o as [status b|n| |k1]; [by apply keyboard_handler_spec| | |by cbn].
    - cbn [kbd_op key_op]. pose proof (keyboard_read_spec n s a Hr) as HR. destruct (keyboard_read n s). by destruct HR as [-> HR].
    - cbn [kbd_op key_op]. split; [destruct Hr; split; assumption || done|done]. }
  destruct (kbd_op s k o) as [[s1 k1] x1], (key_op a k o) as [[a1 k2] y1]. destruct Hop as (H1 & <- & <-).
  specialize (IH s1 a1 k1 H1 Hl). destruct (kbd_run s1 k1 l) as [[s2 k2] x2], (key_run a1 k1 l) as [[a2 k3] y2].
  destruct IH as (H2 & <- & <-). done.
Qed.

(** C26. For every history of interrupts, reads, flushes and changes of the window
    manager, from the initialised driver: the characters every read returns and
    the state of the window manager with all event queues are those of the
    abstract keyboard, in which Shift, Ctrl and Alt are active exactly while one
    of their two keys is down, CapsLock toggles once per press however long the
    key is held, a shortcut of the window manager is delivered to nobody, any
    other key goes to the owner of the focused window only, or, with no window
    in focus, its character joins a queue of at most 255 characters. *)
Theorem keyboard_refines s0 k l :
  Forall (fun o => match o with Irq _ b => 0 <= b < 256 | _ => True end) l ->
  let '(s, k', x) := kbd_run (init_keyboard s0) k l in
  let '(a, k'', y) := key_run keys0 k l in
  x = y /\ k' = k'' /\ s.(kbd_mods) = modifiers a /\
  ring_list 256 s.(kbd_buffer) s.(kbd_tail) (waiting s) = a.(text) /\ (length a.(text) <= 255)%nat.
Proof.
  intros Hl. assert (refines (init_keyboard s0) keys0) as H0' by (split; done).
  pose proof (kbd_run_refines l _ _ k H0' Hl) as HR.
  destruct (kbd_run _ k l) as [[s k1] x], (key_run _ k l) as [[a k2] y]. destruct HR as (HR & <- & <-).
  destruct HR as [_ Hm _ Hhd Htl Ht]. splits.
  pose proof (ring_length 256 (kbd_buffer s) (kbd_tail s) (waiting s)) as HL. rewrite Ht in HL.
  unfold waiting, KBD_BUFFER_SIZE in HL. specialize (HL ltac:(divlia)). divlia.
Qed.
End spec.

(** ** Witness *)

(** Shift down, [a], Shift up, CapsLock held (three bytes), [b], [1] with no window:
    the text is [AB1]. *)
Definition demo_kwm : kwm (H := KwmThm.demo_heap) := KwmThm.kwm0.
Definition demo_keys : list (kop (H := KwmThm.demo_heap)) :=
  Irq 1 <$> [0x2A; 0x1E; 0x9E; 0xAA; 0x3A; 0x3A; 0x3A; 0xBA; 0x30; 0xB0; 0x02; 0x82].

Lemma keyboard_refines_witness :
  let '(s, _, x) := kbd_run (init_keyboard (mk_kbd ∅ 3 4 5 6 true)) demo_kwm (demo_keys ++ [Read 8]) in
  last x = Some [65; 66; 49] /\ kbd_mods s = 8.
Proof.
  pose proof (keyboard_refines (mk_kbd ∅ 3 4 5 6 true) demo_kwm (demo_keys ++ [Read 8])
    ltac:(repeat constructor; cbn; lia)) as HR.
  assert (let '(a, _, y) := key_run keys0 demo_kwm (demo_keys ++ [Read 8]) in
    last y = Some [65; 66; 49] /\ modifiers a = 8) as HA by (vm_compute; split; reflexivity).
  destruct (kbd_run _ _ _) as [[s k'] x], (key_run _ _ _) as [[a k''] y].
  destruct HR as (-> & _ & -> & _). exact HA.
Defined.
End Keyboard.
