(* ===== verification/Mouse.v ===== *)
(** * Mouse driver (src/drivers/mouse.c)

    One interrupt delivers the status byte and, when it is read, the data byte;
    both are arguments.  The window manager (with the event queues) is the one
    of [Kwm]; [fb_width] and [fb_height] are arguments.  The last component of
    the result is the argument of [tty_scroll_view] when it is called.  The
    programming of the PS/2 controller is left out; [init_mouse] keeps what it
    learns, the device id.  [mouse_state_lock] makes the update atomic. *)

From S2P Require Import Prelude KString Display Event Kwm KwmThm.
From stdpp Require Import base numbers list gmap.
From Stdlib Require Import ZArith Lia.

#[local] Open Scope Z_scope.

Module Mouse.
Import Kwm.

(** [mouse_byte] holds signed bytes. *)
Record mouse := mk_mouse {
  mouse_x : Z; mouse_y : Z; mouse_has_wheel : bool;
  mouse_cycle : Z; mouse_byte : gmap Z Z;
  last_left_click : Z; last_right_click : Z;
}.
Definition mouse0 : mouse := mk_mouse 512 384 false 0 ∅ 0 0.

Definition init_mouse (s : mouse) (device_id : Z) : mouse :=
  mk_mouse s.(mouse_x) s.(mouse_y) (if device_id =? 3 then true else s.(mouse_has_wheel)) s.(mouse_cycle) s.(mouse_byte)
    s.(last_left_click) s.(last_right_click).

Section mouse.
Context {H : Type} `{KAlloc H}.
Variables (fb_width fb_height : Z).

(** [if (target >= 0) push_event_to(target, ...)], with the local coordinates
    when the event carries them. *)
Definition send_mouse (k : kwm (H := H)) (x y : Z) (ty : Z) (params : Z -> Z -> Z * Z * Z) : kwm (H := H) * bool :=
  let '(target, win, local) := kwm_route_mouse k x y in
  if 0 <=? target then
    let '(lx, ly) := default (0, 0) local in
    let '(p1, p2, p3) := params lx ly in
    (set_evs k (Event.push_event_to k.(evs) target ty p1 p2 p3 win), true)
  else (k, false).

(** The position after a displacement, kept on the screen. *)
Definition clamp_x (x : Z) : Z :=
  let x := if x <? 0 then 0 else x in
  if i32 (u32 (fb_width - 12)) <? x then i32 (u32 (fb_width - 12)) else x.
Definition clamp_y (y : Z) : Z :=
  let y := if y <? 0 then 0 else y in
  if i32 (u32 (fb_height - 16)) <? y then i32 (u32 (fb_height - 16)) else y.

(** A complete packet without overflow bits. *)
Definition packet (s : mouse) (k : kwm (H := H)) : mouse * kwm (H := H) * option Z :=
  let b i := ld s.(mouse_byte) i in
  let wheel_z := if s.(mouse_has_wheel) then b 3 else 0 in
  let x := clamp_x (i32 (s.(mouse_x) + b 1)) in
  let y := clamp_y (i32 (s.(mouse_y) - b 2)) in
  let left_click := Z.land (b 0) 0x01 in
  let right_click := Z.shiftr (Z.land (b 0) 0x02) 1 in
  let left_down := negb (left_click =? 0) && (s.(last_left_click) =? 0) in
  let left_up := (left_click =? 0) && negb (s.(last_left_click) =? 0) in
  let '(k, kwm_consumed) := kwm_process_mouse k x y left_down left_up in
  let k :=
    if kwm_consumed =? 0 then
      if left_click =? s.(last_left_click) then k else (send_mouse k x y 3 (fun _ _ => (0, left_click, 0))).1
    else if left_up then (send_mouse k x y 3 (fun _ _ => (0, 0, 0))).1
    else k in
  let k := if right_click =? s.(last_right_click) then k else (send_mouse k x y 3 (fun _ _ => (1, right_click, 0))).1 in
  let k := (send_mouse k x y 2 (fun lx ly => (lx, ly, 0))).1 in
  let s := mk_mouse x y s.(mouse_has_wheel) s.(mouse_cycle) s.(mouse_byte) left_click right_click in
  if wheel_z =? 0 then (s, k, None)
  else
    let '(k, sent) := send_mouse k x y 4 (fun lx ly => (wheel_z, lx, ly)) in
    (s, k, if sent then None else Some (- wheel_z * 3)).

Definition set_cycle (s : mouse) (c : Z) (m : gmap Z Z) : mouse :=
  mk_mouse s.(mouse_x) s.(mouse_y) s.(mouse_has_wheel) c m s.(last_left_click) s.(last_right_click).

(** [data] is the byte of port 0x60. *)
Definition mouse_handler (s : mouse) (k : kwm (H := H)) (status data : Z) : mouse * kwm (H := H) * option Z :=
  let packet_size := if s.(mouse_has_wheel) then 4 else 3 in
  if negb (Z.land status 0x01 =? 0) && negb (Z.land status 0x20 =? 0) then
    let cycle := if 4 <=? s.(mouse_cycle) then 0 else s.(mouse_cycle) in
    let s := set_cycle s (u8 (cycle + 1)) (st s.(mouse_byte) cycle (sx 8 data)) in
    if packet_size <=? s.(mouse_cycle) then
      let s := set_cycle s 0 s.(mouse_byte) in
      if negb (Z.land (ld s.(mouse_byte) 0) 0x80 =? 0) || negb (Z.land (ld s.(mouse_byte) 0) 0x40 =? 0)
      then (s, k, None) else packet s k
    else (s, k, None)
  else (s, k, None).

(** A sequence of interrupts, with the bytes stored by each ([mouse_byte] index). *)
Fixpoint mouse_run (s : mouse) (k : kwm (H := H)) (l : list (Z * Z)) : mouse * kwm (H := H) :=
  match l with
  | [] => (s, k)
  | (status, data) :: l => let '(s, k, _) := mouse_handler s k status data in mouse_run s k l
  end.

(** ** Bounds *)

Definition on_screen (s : mouse) : Prop :=
  0 <= s.(mouse_x) <= fb_width - 12 /\ 0 <= s.(mouse_y) <= fb_height - 16.

(** The next byte goes to one of the four cells, and the last packet's cells are
    signed bytes. *)
Definition mouse_ok (s : mouse) : Prop :=
  on_screen s /\ 0 <= s.(mouse_cycle) < 4 /\ (forall i, -128 <= ld s.(mouse_byte) i < 128) /\
  (forall i, s.(mouse_byte) !! i <> None -> 0 <= i < 4) /\
  s.(last_left_click) ∈ [0; 1] /\ s.(last_right_click) ∈ [0; 1].

Hypothesis screen : 12 <= fb_width < 2 ^ 30 /\ 16 <= fb_height < 2 ^ 30.

Lemma clamp_x_ok x : 0 <= clamp_x x <= fb_width - 12.
Proof using screen. unfold clamp_x. rewrite wrap_small, sx_small by lia. cbv zeta. destruct (Z.ltb_spec x 0); zcase; lia. Qed.
Lemma clamp_y_ok y : 0 <= clamp_y y <= fb_height - 16.
Proof using screen. unfold clamp_y. rewrite wrap_small, sx_small by lia. cbv zeta. destruct (Z.ltb_spec y 0); zcase; lia. Qed.

Lemma sx8_bounds d : -128 <= sx 8 d < 128.
Proof using Type. clear screen. unfold sx. pose proof (wrap_bound 8 d ltac:(lia)). cbv zeta. zcase; lia. Qed.

Lemma land1 b : Z.land b 0x01 ∈ [0; 1].
Proof using Type. clear screen.
  pose proof (Z.land_ones b 1 ltac:(lia)) as E. change (Z.ones 1) with 1 in E. rewrite E. change (2 ^ 1) with 2.
  pose proof (Z.mod_pos_bound b 2 ltac:(lia)). assert (b mod 2 = 0 \/ b mod 2 = 1) as [-> | ->] by lia; set_solver.
Qed.

Lemma land2 b : Z.shiftr (Z.land b 0x02) 1 ∈ [0; 1].
Proof using Type. clear screen.
  rewrite Z.shiftr_land. change (Z.shiftr 0x02 1) with 1. apply land1.
Qed.

Lemma packet_ok s k : mouse_ok s -> let '(s', _, _) := packet s k in
  mouse_ok s' /\ mouse_x s' = clamp_x (i32 (mouse_x s + ld (mouse_byte s) 1)) /\
  mouse_y s' = clamp_y (i32 (mouse_y s - ld (mouse_byte s) 2)) /\ mouse_cycle s' = mouse_cycle s.
Proof using screen.
  intros (_ & Hc & Hb & Hi & _ & _). unfold packet. cbv zeta.
  destruct (kwm_process_mouse _ _ _ _ _) as [k1 consumed].
  set (x := clamp_x _). set (y := clamp_y _).
  set (s1 := mk_mouse x y _ _ _ _ _).
  assert (mouse_ok s1) as H1.
  { unfold mouse_ok, on_screen, s1. cbn [mouse_x mouse_y mouse_cycle mouse_byte last_left_click last_right_click].
    pose proof (clamp_x_ok (i32 (mouse_x s + ld (mouse_byte s) 1))). pose proof (clamp_y_ok (i32 (mouse_y s - ld (mouse_byte s) 2))).
    splits; [apply land1|apply land2]. }
  destruct (_ =? 0) at 1; [by splits|]. destruct (send_mouse _ _ _ 4 _) as [k2 sent]. by splits.
Qed.

Lemma handler_ok s k status data : mouse_ok s -> mouse_ok (mouse_handler s k status data).1.1.
Proof using screen.
  intros Hs. pose proof Hs as (Ho & Hc & Hb & Hi & Hl & Hr). unfold mouse_handler. cbv zeta.
  destruct (negb _ && negb _); [|done].
  rewrite (proj2 (Z.leb_gt 4 _)) by lia. rewrite (wrap_small 8 (mouse_cycle s + 1)) by lia.
  set (m := st (mouse_byte s) (mouse_cycle s) (sx 8 data)).
  assert (forall c, 0 <= c < 4 -> mouse_ok (set_cycle s c m)) as Hset.
  { intros c Hc'. unfold mouse_ok, on_screen. cbn [set_cycle mouse_x mouse_y mouse_cycle mouse_byte last_left_click last_right_click].
    split; [done|]. split; [done|]. split; [|split; [|done]].
    - intros i. unfold m. rewrite ld_st. zcase; [apply sx8_bounds|apply Hb].
    - intros i. unfold m, st. destruct (decide (mouse_cycle s = i)) as [<-|]; [done|]. rewrite lookup_insert_ne by done. apply Hi. }
  cbn [set_cycle mouse_cycle mouse_byte mouse_has_wheel].
  destruct (Z.leb_spec (if mouse_has_wheel s then 4 else 3) (mouse_cycle s + 1)) as [Hfull|Hpart].
  - destruct (_ || _); [apply Hset; lia|].
    pose proof (packet_ok (set_cycle s 0 m) k (Hset 0 ltac:(lia))) as HP.
    change (set_cycle (set_cycle s (mouse_cycle s + 1) m) 0 m) with (set_cycle s 0 m).
    destruct (packet (set_cycle s 0 m) k) as [[s1 k1] z]. apply HP.
  - apply Hset. destruct (mouse_has_wheel s); lia.
Qed.

(** Whatever bytes arrive, in any number and with lost or spurious ones among
    them: the bytes are stored in the four cells of the packet buffer only, and
    the cursor stays on the screen, leaving room for its 12 by 16 image. *)
Theorem mouse_stays_in_bounds s k l :
  mouse_ok s -> mouse_ok (mouse_run s k l).1.
Proof using screen.
  revert s k. induction l as [|[status data] l IH]; intros s k Hs; cbn [mouse_run]; [done|].
  pose proof (handler_ok s k status data Hs) as H1. destruct (mouse_handler s k status data) as [[s1 k1] z]. by apply IH.
Qed.

(** ** Displacements *)

(** The displacement a PS/2 packet means: nine bits, the sign in the first byte. *)
Definition ps2_dx (b0 b1 : Z) : Z := b1 - (if Z.testbit b0 4 then 256 else 0).
Definition ps2_dy (b0 b2 : Z) : Z := b2 - (if Z.testbit b0 5 then 256 else 0).

Lemma sx8_ps2 (sign : bool) b :
  0 <= b < 256 -> let d := b - (if sign then 256 else 0) in
  sx 8 b = if (-128 <=? d) && (d <? 128) then d else if d <? 0 then d + 256 else d - 256.
Proof using Type.
  clear screen. intros Hb. unfold sx. rewrite wrap_small by lia. cbv zeta. change (2 ^ (8 - 1)) with 128. change (2 ^ 8) with 256.
  destruct sign; repeat (zcase; cbn [andb]); lia.
Qed.

(** One byte of a packet. *)
Lemma handler_byte s k data :
  0 <= mouse_cycle s < 4 ->
  mouse_handler s k 0x21 data =
    let m := st (mouse_byte s) (mouse_cycle s) (sx 8 data) in
    if (if mouse_has_wheel s then 4 else 3) <=? mouse_cycle s + 1 then
      if negb (Z.land (ld m 0) 0x80 =? 0) || negb (Z.land (ld m 0) 0x40 =? 0) then (set_cycle s 0 m, k, None)
      else packet (set_cycle s 0 m) k
    else (set_cycle s (mouse_cycle s + 1) m, k, None).
Proof using Type.
  clear screen. intros Hc. unfold mouse_handler. cbv zeta. change (negb (Z.land 0x21 0x01 =? 0) && negb (Z.land 0x21 0x20 =? 0)) with true.
  cbv iota. rewrite (proj2 (Z.leb_gt 4 _)) by lia. rewrite (wrap_small 8 (mouse_cycle s + 1)) by lia. reflexivity.
Qed.

Lemma no_overflow b : 0 <= b < 256 -> Z.land b 0xC0 = 0 -> b < 64 /\ Z.land b 0x80 = 0 /\ Z.land b 0x40 = 0.
Proof using Type.
  clear screen. intros Hb E.
  assert (forallb (fun b => negb (Z.land b 0xC0 =? 0) || (b <? 64) && (Z.land b 0x80 =? 0) && (Z.land b 0x40 =? 0)) (zrange 0 256) = true)
    as F by (vm_compute; reflexivity).
  rewrite forallb_forall in F. specialize (F b (proj1 (list_elem_of_In _ _) (proj2 (elem_of_zrange 0 256 b) Hb))).
  rewrite E in F. cbn [Z.eqb negb orb] in F. zprop. done.
Qed.

(** A complete three-byte packet without overflow bits moves the cursor by its
    displacement, clamped to the screen, when the displacement in each direction
    is between -128 and 127.  A displacement outside that range (PS/2 sends nine
    bits, the sign in the first byte) is off by 256 and so has the wrong sign,
    because only the low eight bits are read, as a signed byte. *)
Theorem mouse_displacement s k b0 b1 b2 :
  mouse_ok s -> mouse_cycle s = 0 -> mouse_has_wheel s = false ->
  0 <= b0 < 256 -> 0 <= b1 < 256 -> 0 <= b2 < 256 -> Z.land b0 0xC0 = 0 ->
  let s' := (mouse_run s k [(0x21, b0); (0x21, b1); (0x21, b2)]).1 in
  let seen d := if (-128 <=? d) && (d <? 128) then d else if d <? 0 then d + 256 else d - 256 in
  mouse_x s' = clamp_x (mouse_x s + seen (ps2_dx b0 b1)) /\ mouse_y s' = clamp_y (mouse_y s - seen (ps2_dy b0 b2)) /\
  mouse_cycle s' = 0.
Proof using screen.
  intros Hs Ec Ew B0 B1 B2 Hov s' seen.
  set (m := st (st (st (mouse_byte s) 0 (sx 8 b0)) 1 (sx 8 b1)) 2 (sx 8 b2)).
  assert (s' = (packet (set_cycle s 0 m) k).1.1) as ->.
  { unfold s'. cbn [mouse_run]. rewrite handler_byte by lia. cbv zeta. rewrite Ew, Ec. change (3 <=? 0 + 1) with false. cbv iota.
    rewrite handler_byte by (cbn; lia). cbv zeta. cbn [set_cycle mouse_has_wheel mouse_cycle mouse_byte]. rewrite Ew.
    change (3 <=? 0 + 1 + 1) with false. cbv iota.
    rewrite handler_byte by (cbn; lia). cbv zeta. cbn [set_cycle mouse_has_wheel mouse_cycle mouse_byte]. rewrite Ew.
    change (3 <=? 0 + 1 + 1 + 1) with true. cbv iota.
    change (0 + 1 + 1) with 2. change (0 + 1) with 1. fold m.
    assert (ld m 0 = b0) as ->.
    { destruct (no_overflow b0 B0 Hov) as [Hlt _]. unfold m. rewrite !ld_st. cbn [Z.eqb Pos.eqb]. unfold sx. rewrite wrap_small by lia. cbv zeta. zcase; lia. }
    destruct (no_overflow b0 B0 Hov) as (_ & -> & ->). cbn [negb orb].
    change (set_cycle (set_cycle (set_cycle s 1 _) 2 _) 0 m) with (set_cycle s 0 m).
    by destruct (packet (set_cycle s 0 m) k) as [[? ?] ?]. }
  assert (forall i, -128 <= ld m i < 128) as Hb.
  { destruct Hs as (_ & _ & Hb & _). intros i. unfold m. rewrite !ld_st. repeat (zcase; [apply sx8_bounds|]). apply Hb. }
  assert (mouse_ok (set_cycle s 0 m)) as Hok.
  { destruct Hs as (Ho & _ & _ & Hi & Hl & Hr). unfold mouse_ok, on_screen in *.
    cbn [set_cycle mouse_x mouse_y mouse_cycle mouse_byte last_left_click last_right_click].
    split; [done|]. split; [lia|]. split; [done|]. split; [|done].
    intros i. unfold m, st. destruct (decide (i = 2)) as [->|]; [lia|]. destruct (decide (i = 1)) as [->|]; [lia|].
    destruct (decide (i = 0)) as [->|]; [lia|]. rewrite !lookup_insert_ne by done. apply Hi. }
  pose proof (packet_ok (set_cycle s 0 m) k Hok) as HP. destruct (packet (set_cycle s 0 m) k) as [[s1 k1] z].
  cbn [fst]. destruct HP as (_ & -> & -> & ->). cbn [set_cycle mouse_x mouse_y mouse_cycle mouse_byte].
  destruct Hs as ([Hx Hy] & _).
  assert (ld m 1 = seen (ps2_dx b0 b1) /\ ld m 2 = seen (ps2_dy b0 b2)) as [E1 E2].
  { unfold m, seen, ps2_dx, ps2_dy. rewrite !ld_st. cbn [Z.eqb Pos.eqb]. by rewrite (sx8_ps2 (Z.testbit b0 4) b1 B1), (sx8_ps2 (Z.testbit b0 5) b2 B2). }
  pose proof (Hb 1). pose proof (Hb 2). rewrite !sx_small by lia. by rewrite E1, E2.
Qed.
End mouse.

(** ** Witnesses *)

Lemma mouse_stays_in_bounds_witness :
  mouse_ok 640 480 (mouse_run 640 480 (mk_mouse 512 384 false 0 ∅ 0 0) KwmThm.kwm3 [(0x21, 0x19); (0x21, 0xF0); (0x21, 0x7F); (1, 5); (0x21, 9)]).1.
Proof.
  apply (mouse_stays_in_bounds 640 480 ltac:(lia)).
  unfold mouse_ok, on_screen. cbn. splits; try lia; try set_solver; intros; by rewrite lookup_empty in *.
Defined.

(** A movement of 200 to the right moves the cursor 56 to the left. *)
Lemma mouse_displacement_witness :
  mouse_x (mouse_run 640 480 (mk_mouse 512 384 false 0 ∅ 0 0) KwmThm.kwm3 [(0x21, 0x08); (0x21, 200); (0x21, 0)]).1 = 456.
Proof.
  refine (eq_trans (proj1 (mouse_displacement 640 480 ltac:(lia) (mk_mouse 512 384 false 0 ∅ 0 0) KwmThm.kwm3 0x08 200 0 _ eq_refl eq_refl
    ltac:(lia) ltac:(lia) ltac:(lia) eq_refl)) _); [|vm_compute; reflexivity].
  unfold mouse_ok, on_screen. cbn. splits; try lia; try set_solver; intros; by rewrite lookup_empty in *.
Defined.
End Mouse.
