(* ===== verification/Tty.v ===== *)
(** * Terminal (src/drivers/tty.c) and device nodes (src/fs/vfs.c, src/include/fs.h)

    The text terminal keeps the position of the cursor, the last 512 lines as
    text, and a scroll offset.  What it draws on the base canvas is a list of
    drawing calls, in order.  [fb_width] and [fb_height] are arguments.  Reading
    the terminal is reading the keyboard buffer ([Keyboard]). *)

From S2P Require Import Prelude KString Keyboard.
From stdpp Require Import base numbers list gmap.
From Stdlib Require Import ZArith Lia.

#[local] Open Scope Z_scope.

Module Tty.
Import KString.

Definition FONT_WIDTH : Z := 8.
Definition FONT_HEIGHT : Z := 16.
Definition BG_COLOR : Z := 0x1E1E1E.
Definition FG_COLOR : Z := 0xFFFFFF.
Definition TTY_HISTORY_LINES : Z := 512.
Definition TTY_MAX_COLS : Z := 256.

(** Calls of the framebuffer primitives; [ShiftUp] is the copy loop of
    [tty_scroll] on the base canvas. *)
Inductive draw :=
  | Rect (x y w h color : Z)
  | Char (c x y color : Z)
  | ShiftUp (lines : Z)
  | MarkDirty (x y w h : Z).

(** The character in column [c] of line [l] of the history is at [l * 256 + c]. *)
Record tty := mk_tty {
  terminal_row : Z; terminal_column : Z;
  tty_history : gmap Z Z; tty_line_count : Z; tty_view_offset : Z;
  cursor_state : bool; canvas : list draw;
}.
Definition tty0 : tty := mk_tty 0 0 ∅ 0 0 true [].

Section tty.
Variables (fb_width fb_height : Z).

Definition tty_cols : Z := fb_width / FONT_WIDTH.
Definition tty_rows : Z := fb_height / FONT_HEIGHT.

Definition emit (s : tty) (d : draw) : tty :=
  mk_tty s.(terminal_row) s.(terminal_column) s.(tty_history) s.(tty_line_count) s.(tty_view_offset) s.(cursor_state) (s.(canvas) ++ [d]).
Definition set_pos (s : tty) (r c : Z) : tty :=
  mk_tty r c s.(tty_history) s.(tty_line_count) s.(tty_view_offset) s.(cursor_state) s.(canvas).
Definition set_history (s : tty) (h : gmap Z Z) : tty :=
  mk_tty s.(terminal_row) s.(terminal_column) h s.(tty_line_count) s.(tty_view_offset) s.(cursor_state) s.(canvas).
Definition set_count (s : tty) (n : Z) : tty :=
  mk_tty s.(terminal_row) s.(terminal_column) s.(tty_history) n s.(tty_view_offset) s.(cursor_state) s.(canvas).
Definition set_offset (s : tty) (n : Z) : tty :=
  mk_tty s.(terminal_row) s.(terminal_column) s.(tty_history) s.(tty_line_count) n s.(cursor_state) s.(canvas).
Definition set_cursor (s : tty) (b : bool) : tty :=
  mk_tty s.(terminal_row) s.(terminal_column) s.(tty_history) s.(tty_line_count) s.(tty_view_offset) b s.(canvas).

(** Address of a line in the ring. *)
Definition tty_hist_line (logical : Z) : Z := logical mod TTY_HISTORY_LINES * TTY_MAX_COLS.
Definition tty_hist_clear_line (s : tty) (logical : Z) : tty := set_history s (st s.(tty_history) (tty_hist_line logical) 0).

Definition cursor_rect (s : tty) (color : Z) : draw :=
  Rect (s.(terminal_column) * FONT_WIDTH) (s.(terminal_row) * FONT_HEIGHT + 14) FONT_WIDTH 2 color.

Definition tty_draw_cursor (s : tty) : tty :=
  let s := set_cursor s true in
  if s.(tty_view_offset) =? 0 then emit s (cursor_rect s FG_COLOR) else s.

Definition tty_blink_cursor (s : tty) : tty :=
  if s.(tty_view_offset) =? 0 then
    let s := set_cursor s (negb s.(cursor_state)) in
    emit s (cursor_rect s (if s.(cursor_state) then FG_COLOR else BG_COLOR))
  else s.

Definition tty_erase_cursor (s : tty) : tty :=
  if s.(tty_view_offset) =? 0 then emit s (cursor_rect s BG_COLOR) else s.

Definition tty_scroll (s : tty) : tty :=
  let s := emit s (ShiftUp FONT_HEIGHT) in
  let s := emit s (Rect 0 (fb_height - FONT_HEIGHT) fb_width FONT_HEIGHT BG_COLOR) in
  let s := emit s (MarkDirty 0 0 fb_width fb_height) in
  set_pos s (s.(terminal_row) - 1) s.(terminal_column).

(** The text of a line: [for (col = 0; text[col] != 0 && col < 256; col++)]. *)
Fixpoint line_text (fuel : nat) (h : gmap Z Z) (a : Z) : list Z :=
  match fuel with
  | O => []
  | S fuel => if ld h a =? 0 then [] else ld h a :: line_text fuel h (a + 1)
  end.

Fixpoint draw_text (l : list Z) (col y : Z) : list draw :=
  match l with
  | [] => []
  | c :: l => Char c (col * FONT_WIDTH) y FG_COLOR :: draw_text l (col + 1) y
  end.

(** Whether the view shows the logical line. *)
Definition shown (s : tty) (logical : Z) : bool :=
  (0 <=? logical) && (logical <=? s.(tty_line_count)) &&
  negb ((TTY_HISTORY_LINES <=? s.(tty_line_count)) && (logical <=? s.(tty_line_count) - TTY_HISTORY_LINES)).

Definition tty_render_view (s : tty) : tty :=
  let first := s.(tty_line_count) - s.(terminal_row) - s.(tty_view_offset) in
  for_loop 0 tty_rows (fun sr s =>
    let s := emit s (Rect 0 (sr * FONT_HEIGHT) fb_width FONT_HEIGHT BG_COLOR) in
    let logical := first + sr in
    if shown s logical then
      foldl emit s (draw_text (line_text 256 s.(tty_history) (tty_hist_line logical)) 0 (sr * FONT_HEIGHT))
    else s) s.

Definition tty_max_scrollback (s : tty) : Z :=
  let top_live := s.(tty_line_count) - s.(terminal_row) in
  let oldest := if TTY_HISTORY_LINES <=? s.(tty_line_count) then s.(tty_line_count) - TTY_HISTORY_LINES + 1 else 0 in
  let max := top_live - oldest in
  if max <? 0 then 0 else max.

Definition tty_scroll_view (s : tty) (delta_lines : Z) : tty :=
  let next := s.(tty_view_offset) + delta_lines in
  let max := tty_max_scrollback s in
  let next := if next <? 0 then 0 else next in
  let next := if max <? next then max else next in
  if next =? s.(tty_view_offset) then s
  else
    let s := tty_render_view (set_offset s next) in
    if s.(tty_view_offset) =? 0 then tty_draw_cursor s else s.

Definition tty_newline (s : tty) : tty :=
  let n := u32 (s.(tty_line_count) + 1) in
  let s := tty_hist_clear_line (set_count (set_pos s s.(terminal_row) 0) n) n in
  let s := set_pos s (s.(terminal_row) + 1) s.(terminal_column) in
  if tty_rows <=? s.(terminal_row) then tty_scroll s else s.

Definition cell_rect (s : tty) : draw :=
  Rect (s.(terminal_column) * FONT_WIDTH) (s.(terminal_row) * FONT_HEIGHT) FONT_WIDTH FONT_HEIGHT BG_COLOR.

(** [c] is not a control character. *)
Definition put_glyph (s : tty) (c : Z) : tty :=
  let s := emit s (cell_rect s) in
  let s := emit s (Char c (s.(terminal_column) * FONT_WIDTH) (s.(terminal_row) * FONT_HEIGHT) FG_COLOR) in
  let col := s.(terminal_column) in
  let s := if col <? TTY_MAX_COLS - 1 then
             let line := tty_hist_line s.(tty_line_count) in
             set_history s (st (st s.(tty_history) (line + col) c) (line + col + 1) 0)
           else s in
  let s := set_pos s s.(terminal_row) (col + 1) in
  if tty_cols <=? s.(terminal_column) then tty_newline s else s.

Definition back_space (s : tty) : tty :=
  let s :=
    if 0 <? s.(terminal_column) then
      let s := set_pos s s.(terminal_row) (s.(terminal_column) - 1) in
      set_history s (st s.(tty_history) (tty_hist_line s.(tty_line_count) + s.(terminal_column)) 0)
    else if 0 <? s.(terminal_row) then set_pos s (s.(terminal_row) - 1) (tty_cols - 1)
    else s in
  emit s (cell_rect s).

Definition terminal_putchar (s : tty) (c : Z) : tty :=
  let s := if s.(tty_view_offset) =? 0 then s else tty_render_view (set_offset s 0) in
  let s := tty_erase_cursor s in
  let s := if c =? 10 then tty_newline s else if c =? 8 then back_space s else put_glyph s c in
  tty_draw_cursor s.

Definition tty_clear (s : tty) : tty :=
  let s := emit s (Rect 0 0 fb_width fb_height BG_COLOR) in
  let s := set_offset (set_count (set_pos s 0 0) 0) 0 in
  tty_draw_cursor (tty_hist_clear_line s 0).

Definition tty_write (s : tty) (buffer : list Z) : tty * Z :=
  (foldl terminal_putchar s buffer, Z.of_nat (length buffer)).
End tty.

Definition tty_read (s : Keyboard.kbd) (size : Z) : Keyboard.kbd * list Z := Keyboard.keyboard_read (Z.to_nat size) s.

(** ** Device nodes *)

Definition FS_CHARDEVICE : Z := 3.

(** A node over a device state [D]; [None] is a null function pointer. *)
Record fs_node_t (D : Type) := mk_node {
  name : list Z; nflags : Z;
  read : option (D -> Z -> Z -> D * list Z);
  write : option (D -> Z -> list Z -> D * Z);
  open : option (D -> D);
  close : option (D -> D);
}.
Arguments mk_node {D}.
Arguments read {D}.
Arguments write {D}.
Arguments open {D}.
Arguments close {D}.

Definition read_fs {D} (n : fs_node_t D) (d : D) (offset size : Z) : D * list Z :=
  match n.(read) with Some f => f d offset size | None => (d, []) end.
Definition write_fs {D} (n : fs_node_t D) (d : D) (offset : Z) (buffer : list Z) : D * Z :=
  match n.(write) with Some f => f d offset buffer | None => (d, 0) end.
Definition open_fs {D} (n : fs_node_t D) (d : D) : D := match n.(open) with Some f => f d | None => d end.
Definition close_fs {D} (n : fs_node_t D) (d : D) : D := match n.(close) with Some f => f d | None => d end.

(** The node of the terminal, over the terminal and the keyboard. *)
Definition tty_node (w h : Z) : fs_node_t (tty * Keyboard.kbd) :=
  mk_node [116; 116; 121; 48] FS_CHARDEVICE
    (Some (fun '(t, k) _ size => let '(k, l) := tty_read k size in ((t, k), l)))
    (Some (fun '(t, k) _ buffer => let '(t, n) := tty_write w h t buffer in ((t, k), n)))
    None None.

Definition init_tty (w h : Z) (s : tty) : tty := tty_clear w h s.

(** ** The text the terminal holds *)

(** Finished lines, oldest first, and the line being written. *)
Definition type_char (cols : Z) (t : list (list Z) * list Z) (c : Z) : list (list Z) * list Z :=
  let '(past, cur) := t in
  if c =? 10 then (past ++ [cur], [])
  else if c =? 8 then (past, removelast cur)
  else if cols <=? Z.of_nat (length (cur ++ [c])) then (past ++ [cur ++ [c]], [])
  else (past, cur ++ [c]).

(** Characters that can be typed: none is NUL, and a backspace finds a character
    on the line. *)
Fixpoint typable (cols : Z) (t : list (list Z) * list Z) (l : list Z) : Prop :=
  match l with
  | [] => True
  | c :: l => c <> 0 /\ (c = 8 -> t.2 <> []) /\ typable cols (type_char cols t c) l
  end.

(** The cells from [a] on hold the characters [l] and a terminator. *)
Definition holds (h : gmap Z Z) (a : Z) (l : list Z) : Prop :=
  (forall i, 0 <= i < Z.of_nat (length l) -> ld h (a + i) = str l i /\ str l i <> 0) /\ ld h (a + Z.of_nat (length l)) = 0.

Lemma str_cons x l i : 0 <= i -> str (x :: l) (i + 1) = str l i.
Proof. intros. unfold str. by replace (Z.to_nat (i + 1)) with (S (Z.to_nat i)) by lia. Qed.

Lemma holds_text h l a fuel : holds h a l -> (length l < fuel)%nat -> line_text fuel h a = l.
Proof.
  revert a fuel. induction l as [|x l IH]; intros a [|fuel] [Hc Hz] Hf; cbn [length] in *; try lia; cbn [line_text].
  - rewrite Z.add_0_r in Hz. by rewrite Hz.
  - destruct (Hc 0 ltac:(lia)) as [E0 N0]. rewrite Z.add_0_r in E0. change (str (x :: l) 0) with x in *.
    rewrite E0, (proj2 (Z.eqb_neq x 0) N0). f_equal. apply IH; [|lia]. split.
    + intros i Hi. destruct (Hc (i + 1) ltac:(lia)) as [E N]. rewrite str_cons in E, N by lia.
      by replace (a + 1 + i) with (a + (i + 1)) by lia.
    + by replace (a + 1 + Z.of_nat (length l)) with (a + Z.of_nat (S (length l))) by lia.
Qed.

(** Stores outside the cells of a text. *)
Lemma holds_st h a l b v : b < a \/ a + Z.of_nat (length l) < b -> holds h a l -> holds (st h b v) a l.
Proof.
  intros Hb [Hc Hz]. split; [|rewrite ld_st_ne by lia; done].
  intros i Hi. rewrite ld_st_ne by lia. by apply Hc.
Qed.

Lemma holds_push h a l c :
  c <> 0 -> holds h a l ->
  holds (st (st h (a + Z.of_nat (length l)) c) (a + Z.of_nat (length l) + 1) 0) a (l ++ [c]).
Proof.
  intros Hn [Hc Hz]. split.
  - intros i Hi. rewrite length_app in Hi. cbn [length] in Hi. rewrite ld_st_ne by lia.
    destruct (decide (i = Z.of_nat (length l))) as [->|Hne].
    + rewrite ld_st_eq. unfold str. by rewrite Nat2Z.id, list_lookup_middle.
    + rewrite ld_st_ne by lia. unfold str. rewrite lookup_app_l by lia. by apply Hc; lia.
  - rewrite length_app. cbn [length]. replace (a + Z.of_nat (length l + 1)) with (a + Z.of_nat (length l) + 1) by lia.
    by rewrite ld_st_eq.
Qed.

Lemma holds_pop h a l : l <> [] -> holds h a l -> holds (st h (a + (Z.of_nat (length l) - 1)) 0) a (removelast l).
Proof.
  intros Hne [Hc Hz]. destruct (exists_last Hne) as (l' & x & ->). rewrite removelast_last.
  rewrite length_app in *. cbn [length] in *.
  replace (Z.of_nat (length l' + 1) - 1) with (Z.of_nat (length l')) by lia. split; [|by rewrite ld_st_eq].
  intros i Hi. rewrite ld_st_ne by lia. destruct (Hc i ltac:(lia)) as [E N].
  unfold str in *. rewrite lookup_app_l in E, N by lia. done.
Qed.

Lemma holds_nil h a : holds (st h a 0) a [].
Proof. split; [cbn; lia|]. cbn. by rewrite Z.add_0_r, ld_st_eq. Qed.

(** Lines of the ring that are less than 512 apart do not overlap. *)
Lemma line_apart j n k :
  j <> n -> - 512 < j - n < 512 -> 0 <= k < 256 ->
  tty_hist_line n + k < tty_hist_line j \/ tty_hist_line j + 255 < tty_hist_line n + k.
Proof. intros Hne Hd Hk. unfold tty_hist_line, TTY_HISTORY_LINES, TTY_MAX_COLS. divlia. Qed.

Section refine.
Variables (w h : Z).
Hypothesis dims : 8 <= w < 2048 /\ 16 <= h.

Lemma cols_bounds : 1 <= tty_cols w <= 255.
Proof using dims. unfold tty_cols, FONT_WIDTH. divlia. Qed.
Lemma rows_bounds : 1 <= tty_rows h.
Proof using dims. unfold tty_rows, FONT_HEIGHT. divlia. Qed.

(** The ring holds the line being written and the 511 lines before it. *)
Record stores (s : tty) (past : list (list Z)) (cur : list Z) : Prop := {
  st_count : tty_line_count s = Z.of_nat (length past);
  st_row : 0 <= terminal_row s < tty_rows h;
  st_cur : holds (tty_history s) (tty_hist_line (tty_line_count s)) cur;
  st_past : forall j, 0 <= j < tty_line_count s -> tty_line_count s - 512 < j ->
    exists l, past !! Z.to_nat j = Some l /\ holds (tty_history s) (tty_hist_line j) l /\ Z.of_nat (length l) <= 255;
}.
(** The cursor is behind the text of its line. *)
Definition represents (s : tty) (t : list (list Z) * list Z) : Prop :=
  stores s t.1 t.2 /\ terminal_column s = Z.of_nat (length t.2) /\ Z.of_nat (length t.2) < tty_cols w.

(** Drawing changes neither. *)
Definition same_text (s s' : tty) : Prop :=
  terminal_row s' = terminal_row s /\ terminal_column s' = terminal_column s /\
  tty_history s' = tty_history s /\ tty_line_count s' = tty_line_count s.

Lemma stores_same s s' past cur : same_text s s' -> stores s past cur -> stores s' past cur.
Proof using Type. clear dims. intros (Er & Ec & Eh & En) [Hc Hr Hu Hp]. split; rewrite ?Er, ?Eh, ?En; done. Qed.

Lemma represents_same s s' t : same_text s s' -> represents s t -> represents s' t.
Proof using Type. clear dims. intros Hs [H1 H2]. split; [by apply (stores_same s)|]. by destruct Hs as (_ & -> & _). Qed.

Lemma same_text_trans s1 s2 s3 : same_text s1 s2 -> same_text s2 s3 -> same_text s1 s3.
Proof using Type. clear dims. unfold same_text. intros (?&?&?&?) (?&?&?&?). splits; congruence. Qed.

Lemma foldl_emit_same l s : same_text s (foldl emit s l).
Proof using Type. clear dims. revert s. induction l as [|d l IH]; intros s; cbn [foldl]; [done|]. apply (same_text_trans _ (emit s d)); [done|apply IH]. Qed.

Lemma render_same s : same_text s (tty_render_view w h s).
Proof using Type.
  clear dims. unfold tty_render_view. apply (for_loop_pres (fun x => same_text s x)); [done|]. intros sr x _ Hx.
  eapply same_text_trans; [exact Hx|]. destruct (shown _ _); [|done].
  eapply same_text_trans; [|apply foldl_emit_same]. done.
Qed.

Lemma draw_cursor_same s : same_text s (tty_draw_cursor s).
Proof using Type. clear dims. unfold tty_draw_cursor. cbv zeta. by destruct (tty_view_offset (set_cursor s true) =? 0). Qed.

Lemma newline_stores s past cur :
  stores s past cur -> Z.of_nat (length cur) <= 255 -> tty_line_count s + 1 < 2 ^ 32 ->
  represents (tty_newline w h s) (past ++ [cur], []).
Proof using dims.
  intros [Hc Hr Hu Hp] Hl Hn. pose proof cols_bounds. pose proof rows_bounds.
  unfold tty_newline. rewrite (wrap_small 32 (tty_line_count s + 1)) by lia. set (n := tty_line_count s) in *.
  set (h1 := st (tty_history s) (tty_hist_line (n + 1)) 0).
  set (s1 := set_pos _ _ _).
  assert (forall s2, tty_history s2 = h1 -> tty_line_count s2 = n + 1 -> terminal_column s2 = 0 -> 0 <= terminal_row s2 < tty_rows h ->
    represents s2 (past ++ [cur], [])) as Hgoal.
  { intros s2 Eh En Ec Er. unfold represents. cbn [fst snd length]. split; [|lia]. split.
    - rewrite En, length_app. cbn [length]. lia.
    - done.
    - rewrite Eh, En. apply holds_nil.
    - rewrite Eh, En. intros j Hj Hw. destruct (decide (j = n)) as [->|Hne].
      + exists cur. rewrite Hc, Nat2Z.id, list_lookup_middle by done. splits. apply holds_st; [|by rewrite <- Hc].
        rewrite <- Hc. pose proof (line_apart n (n + 1) 0 ltac:(lia) ltac:(lia) ltac:(lia)). lia.
      + destruct (Hp j ltac:(lia) ltac:(lia)) as (l & El & HL & Hll). exists l. rewrite lookup_app_l by lia. splits.
        apply holds_st; [|done]. pose proof (line_apart j (n + 1) 0 ltac:(lia) ltac:(lia) ltac:(lia)). lia. }
  destruct (Z.leb_spec (tty_rows h) (terminal_row s1)) as [Hs|Hs].
  - apply Hgoal; try done. unfold s1 in *. cbn in *. lia.
  - apply Hgoal; try done. unfold s1 in *. cbn in *. lia.
Qed.

Lemma put_glyph_represents s t c :
  represents s t -> c <> 0 -> c <> 10 -> c <> 8 -> tty_line_count s + 1 < 2 ^ 32 ->
  represents (put_glyph w h s c) (type_char (tty_cols w) t c).
Proof using dims.
  intros [[Hc Hr Hu Hp] [Ec Hl]] H0 H10 H8 Hn. destruct t as [past cur]. cbn [fst snd] in *. pose proof cols_bounds.
  unfold put_glyph, type_char. rewrite (proj2 (Z.eqb_neq c 10) H10), (proj2 (Z.eqb_neq c 8) H8). cbv zeta.
  cbn [emit terminal_column terminal_row tty_history tty_line_count set_pos]. rewrite Ec.
  rewrite (proj2 (Z.ltb_lt _ (TTY_MAX_COLS - 1))) by (unfold TTY_MAX_COLS; lia). rewrite length_app. cbn [length].
  set (n := tty_line_count s) in *. set (len := Z.of_nat (length cur)) in *.
  set (h1 := st (st (tty_history s) (tty_hist_line n + len) c) (tty_hist_line n + len + 1) 0).
  match goal with |- context [tty_newline w h ?x] => set (s1 := x) end.
  assert (stores s1 past (cur ++ [c])) as H1.
  { split; [done|done| |].
    - apply (holds_push (tty_history s)); done.
    - change (tty_line_count s1) with n. intros j Hj Hw. destruct (Hp j Hj Hw) as (l & El & HL & Hll). exists l. splits.
      pose proof (line_apart j n len ltac:(lia) ltac:(unfold n in *; lia) ltac:(lia)).
      pose proof (line_apart j n (len + 1) ltac:(lia) ltac:(unfold n in *; lia) ltac:(lia)).
      apply holds_st; [lia|]. apply holds_st; [lia|done]. }
  replace (Z.of_nat (length cur + 1)) with (len + 1) by (unfold len; lia).
  change (terminal_column s1) with (len + 1). 
  destruct (Z.leb_spec (tty_cols w) (len + 1)).
  - apply newline_stores; [done|rewrite length_app; cbn [length]; lia|done].
  - split; [done|]. cbn [fst snd]. rewrite length_app. cbn [length]. split; [change (terminal_column s1) with (len + 1)|]; lia.
Qed.

Lemma back_space_represents s t :
  represents s t -> t.2 <> [] -> represents (back_space w s) (type_char (tty_cols w) t 8).
Proof using dims.
  intros [[Hc Hr Hu Hp] [Ec Hl]] Hne. destruct t as [past cur]. cbn [fst snd] in *.
  pose proof cols_bounds. assert (0 < Z.of_nat (length cur)) as Hpos by (destruct cur; [done|cbn; lia]).
  unfold back_space, type_char. cbn [Z.eqb Pos.eqb]. rewrite Ec, (proj2 (Z.ltb_lt 0 _) Hpos).
  assert (length (removelast cur) = (length cur - 1)%nat) as Hrl.
  { destruct (exists_last Hne) as (l' & x & ->). rewrite removelast_last, length_app. cbn [length]. lia. }
  split; cbn [fst snd]; [|rewrite Hrl; cbn [emit set_history set_pos terminal_column]; lia].
  split; cbn [emit set_history set_pos terminal_row terminal_column tty_history tty_line_count]; [done|done| |].
  - by apply holds_pop.
  - intros j Hj Hw. destruct (Hp j Hj Hw) as (l & El & HL & Hll). exists l. splits. apply holds_st; [|done].
    pose proof (line_apart j (tty_line_count s) (Z.of_nat (length cur) - 1) ltac:(lia) ltac:(lia) ltac:(lia)). lia.
Qed.

Lemma putchar_represents s t c :
  represents s t -> c <> 0 -> (c = 8 -> t.2 <> []) -> tty_line_count s + 1 < 2 ^ 32 ->
  represents (terminal_putchar w h s c) (type_char (tty_cols w) t c).
Proof using dims.
  intros Hs H0 H8 Hn. unfold terminal_putchar. cbv zeta.
  set (s1 := tty_erase_cursor _).
  assert (same_text s s1) as E1.
  { unfold s1. destruct (tty_view_offset s =? 0); [unfold tty_erase_cursor; by destruct (_ =? 0)|].
    eapply same_text_trans; [apply (render_same (set_offset s 0))|]. unfold tty_erase_cursor. by destruct (_ =? 0). }
  pose proof (represents_same _ _ _ E1 Hs) as H1. assert (tty_line_count s1 = tty_line_count s) as En by apply E1.
  set (s2 := if c =? 10 then _ else _).
  assert (represents s2 (type_char (tty_cols w) t c)) as H2.
  { unfold s2. destruct (Z.eqb_spec c 10) as [->|H10].
    - destruct t as [past cur]. destruct H1 as [H1 [_ Hl]]. cbn [fst snd] in *. pose proof cols_bounds.
      apply newline_stores; [done|lia|lia].
    - destruct (Z.eqb_spec c 8) as [->|Hn8]; [apply back_space_represents; [done|by apply H8]|].
      apply put_glyph_represents; [done|done|done|done|lia]. }
  apply (represents_same s2); [apply draw_cursor_same|done].
Qed.

Lemma type_char_length cols t c : (length (type_char cols t c).1 <= length t.1 + 1)%nat.
Proof using Type. clear dims. destruct t as [past cur]. unfold type_char. repeat case_match; cbn [fst]; rewrite ?length_app; cbn [length]; lia. Qed.

Lemma write_represents l s t :
  represents s t -> typable (tty_cols w) t l -> Z.of_nat (length t.1) + Z.of_nat (length l) < 2 ^ 32 ->
  represents (foldl (terminal_putchar w h) s l) (foldl (type_char (tty_cols w)) t l).
Proof using dims.
  revert s t. induction l as [|c l IH]; intros s t Hs Ht Hn; cbn [foldl]; [done|]. destruct Ht as (H0 & H8 & Ht).
  cbn [length] in Hn. pose proof (type_char_length (tty_cols w) t c). apply IH; [|done|lia].
  apply putchar_represents; [done|done|done|]. destruct Hs as [[-> _ _ _] _]. lia.
Qed.

Lemma clear_represents s : represents (tty_clear w h s) ([], []).
Proof using dims.
  pose proof cols_bounds. pose proof rows_bounds. unfold tty_clear.
  set (s1 := tty_hist_clear_line _ _).
  apply (represents_same s1); [apply draw_cursor_same|].
  split; [|cbn; lia]. split; cbn; [done|lia|apply holds_nil|lia].
Qed.

(** After the terminal was cleared, writing any text (of up to 2^32 - 1 characters,
    in which no character is NUL and no backspace is typed at the start of a
    line): the ring holds, as terminated strings, the line being written and the
    511 lines before it exactly as typed, with newlines, backspaces and the
    breaking of long lines applied; the cursor is behind the current line and on
    the screen. *)
Theorem tty_history_faithful s l :
  typable (tty_cols w) ([], []) l -> Z.of_nat (length l) < 2 ^ 32 ->
  let s' := (tty_write w h (tty_clear w h s) l).1 in
  let '(past, cur) := foldl (type_char (tty_cols w)) ([], []) l in
  let n := Z.of_nat (length past) in
  tty_line_count s' = n /\ line_text 256 (tty_history s') (tty_hist_line n) = cur /\
  (forall j, 0 <= j < n -> n - 512 < j -> past !! Z.to_nat j = Some (line_text 256 (tty_history s') (tty_hist_line j))) /\
  terminal_column s' = Z.of_nat (length cur) /\ terminal_column s' < tty_cols w /\ 0 <= terminal_row s' < tty_rows h.
Proof using dims.
  intros Ht Hn s'. pose proof (write_represents l _ _ (clear_represents s) Ht ltac:(cbn; lia)) as HW.
  change (foldl (terminal_putchar w h) (tty_clear w h s) l) with s' in HW. clearbody s'. pose proof cols_bounds.
  destruct (foldl (type_char (tty_cols w)) ([], []) l) as [past cur]. destruct HW as [[Hc Hr Hu Hp] [Ec Hl]]. cbn [fst snd] in *.
  rewrite Hc in *. splits.
  - apply holds_text; [done|lia].
  - intros j Hj Hw. destruct (Hp j Hj Hw) as (x & Ex & HL & Hx). rewrite Ex. f_equal. symmetry. apply holds_text; [done|lia].
Qed.
End refine.

(** ** Witness *)

(** [ab], backspace, [c], newline, [xy] on a terminal of four columns. *)
Definition demo_text : list Z := [97; 98; 8; 99; 10; 120; 121].
Definition demo_tty : tty := (tty_write 32 64 (tty_clear 32 64 tty0) demo_text).1.

Lemma demo_typable : typable (tty_cols 32) ([], []) demo_text.
Proof. vm_compute. repeat split; congruence. Qed.

Lemma demo_typed : foldl (type_char (tty_cols 32)) ([], []) demo_text = ([[97; 99]], [120; 121]).
Proof. vm_compute. reflexivity. Qed.

Lemma tty_history_faithful_witness :
  tty_line_count demo_tty = 1 /\ line_text 256 (tty_history demo_tty) (tty_hist_line 1) = [120; 121] /\
  Some [97; 99] = Some (line_text 256 (tty_history demo_tty) (tty_hist_line 0)).
Proof.
  pose proof (tty_history_faithful 32 64 ltac:(vm_compute; intuition congruence) tty0 demo_text demo_typable ltac:(vm_compute; reflexivity)) as HH.
  rewrite demo_typed in HH. destruct HH as (E1 & E2 & E3 & _). split; [exact E1|]. split; [exact E2|].
  exact (E3 0 (conj (Z.le_refl 0) eq_refl) eq_refl).
Defined.
End Tty.
