(* ===== verification/NetSocket.v ===== *)
(** * Sockets (src/kernel/net_socket.c, src/include/net_socket.h)

    Eight TCP client sockets over the raw interface of lwIP.  lwIP is third-party
    code: its control blocks are numbers, and what it answers ([tcp_new],
    [tcp_connect], [tcp_sndbuf], [tcp_write]) are arguments.  The state keeps, on
    behalf of lwIP, the callback argument registered for each control block
    ([args]) and which blocks exist ([live]).  [net_lock] makes every section
    between acquiring and releasing it atomic; a blocking call is a sequence of
    sections, with an arbitrary list of other steps between them ([round]). *)

From S2P Require Import Prelude KString Ring.
From stdpp Require Import base numbers list gmap.
From Stdlib Require Import ZArith Lia.

#[local] Open Scope Z_scope.

Module NetSocket.
Import Ring.

Definition KSOCK_MAX : Z := 8.
Definition KSOCK_RXBUF : Z := 4096.

Inductive sstate := S_FREE | S_ALLOC | S_CONNECTING | S_CONNECTED | S_CLOSED | S_ERR.
#[global] Instance sstate_eq_dec : EqDecision sstate.
Proof. solve_decision. Defined.

(** [pcb = 0] is the null pointer. *)
Record ksock_t := mk_sock {
  state : sstate; gen : Z; pcb : Z; rx : gmap Z Z; rx_head : Z; rx_len : Z; peer_closed : bool;
}.
Definition sock0 : ksock_t := mk_sock S_FREE 0 0 ∅ 0 0 false.

Record net := mk_net { socks : gmap Z ksock_t; args : gmap Z Z; live : gset Z }.

Definition sock (n : net) (i : Z) : ksock_t := default sock0 (n.(socks) !! i).
Definition set_sock (n : net) (i : Z) (s : ksock_t) : net := mk_net (<[i := s]> n.(socks)) n.(args) n.(live).
Definition set_state (s : ksock_t) (t : sstate) : ksock_t :=
  mk_sock t s.(gen) s.(pcb) s.(rx) s.(rx_head) s.(rx_len) s.(peer_closed).

Definition ksock_init (n : net) : net :=
  for_loop 0 KSOCK_MAX (fun i n =>
    let s := sock n i in
    set_sock n i (mk_sock S_FREE 0 0 s.(rx) s.(rx_head) s.(rx_len) s.(peer_closed))) n.

(** ** The receive ring *)

(** [for (i = 0; i < n && rx_len < KSOCK_RXBUF; i++)] *)
Fixpoint rx_push (s : ksock_t) (data : list Z) : ksock_t :=
  match data with
  | [] => s
  | x :: data =>
      if s.(rx_len) <? KSOCK_RXBUF then
        let tail := (s.(rx_head) + s.(rx_len)) mod KSOCK_RXBUF in
        rx_push (mk_sock s.(state) s.(gen) s.(pcb) (st s.(rx) tail x) s.(rx_head) (s.(rx_len) + 1) s.(peer_closed)) data
      else s
  end.

Definition rx_pop (s : ksock_t) (max : Z) : ksock_t * list Z :=
  let n := if max <? s.(rx_len) then max else s.(rx_len) in
  (mk_sock s.(state) s.(gen) s.(pcb) s.(rx) ((s.(rx_head) + n) mod KSOCK_RXBUF) (s.(rx_len) - n) s.(peer_closed),
   map (fun i => ld s.(rx) ((s.(rx_head) + i) mod KSOCK_RXBUF)) (zrange 0 n)).

(** ** Callbacks of lwIP *)

(** [arg] is what lwIP passes back.  A packet is the list of its buffers; the
    last component is the number given to [tcp_recved]. *)
Definition cb_recv (n : net) (arg : option Z) (packet : option (list (list Z))) (ok : bool) : net * Z :=
  if negb ok then (n, 0)
  else match packet, arg with
  | None, Some i =>
      let s := sock n i in
      (set_sock n i (mk_sock s.(state) s.(gen) s.(pcb) s.(rx) s.(rx_head) s.(rx_len) true), 0)
  | None, None => (n, 0)
  | Some chunks, Some i => (set_sock n i (foldl rx_push (sock n i) chunks), Z.of_nat (length (mjoin chunks)))
  | Some _, None => (n, 0)
  end.

Definition cb_connected (n : net) (arg : option Z) (ok : bool) : net :=
  match arg with
  | Some i => set_sock n i (set_state (sock n i) (if ok then S_CONNECTED else S_ERR))
  | None => n
  end.

Definition cb_err (n : net) (arg : option Z) : net :=
  match arg with
  | Some i =>
      let s := sock n i in
      set_sock n i (mk_sock S_ERR s.(gen) 0 s.(rx) s.(rx_head) s.(rx_len) s.(peer_closed))
  | None => n
  end.

(** ** The interface *)

(** [new] is the answer of [tcp_new]. *)
Definition ksock_socket (n : net) (new : Z) : net * Z :=
  match find_loop 0 KSOCK_MAX (fun i => bool_decide ((sock n i).(state) = S_FREE)) with
  | None => (n, -1)
  | Some fd =>
      if new =? 0 then (n, -1)
      else
        let s := sock n fd in
        let n := set_sock n fd (mk_sock S_ALLOC (i32 (s.(gen) + 1)) new s.(rx) 0 0 false) in
        (mk_net n.(socks) (<[new := fd]> n.(args)) ({[new]} ∪ n.(live)), fd)
  end.

Definition get (n : net) (fd : Z) : option ksock_t :=
  if (fd <? 0) || (KSOCK_MAX <=? fd) then None else Some (sock n fd).

(** The first section of [ksock_connect]; [ok] is the answer of [tcp_connect].
    [None]: it returned -1 before calling lwIP. *)
Definition connect_start (n : net) (fd : Z) : net * option Z :=
  match get n fd with
  | Some s =>
      if negb (bool_decide (s.(state) = S_ALLOC)) || (s.(pcb) =? 0) then (n, None)
      else (set_sock n fd (set_state s S_CONNECTING), Some s.(gen))
  | None => (n, None)
  end.

(** The state a poll sees. *)
Definition connect_poll (n : net) (fd g : Z) : sstate :=
  match get n fd with Some s => if s.(gen) =? g then s.(state) else S_ERR | None => S_ERR end.

Definition ksock_close (n : net) (fd : Z) : net * Z :=
  match get n fd with
  | None => (n, -1)
  | Some s =>
      if bool_decide (s.(state) = S_FREE) then (n, -1)
      else
        let n := if s.(pcb) =? 0 then n else mk_net n.(socks) (delete s.(pcb) n.(args)) (n.(live) ∖ {[s.(pcb)]}) in
        (set_sock n fd (mk_sock S_FREE (i32 (s.(gen) + 1)) 0 s.(rx) s.(rx_head) s.(rx_len) s.(peer_closed)), 0)
  end.

(** ** Blocking calls *)

(** What happens while a call waits: steps of other tasks and of lwIP, with the
    time at which the call looks at the clock before it. *)
Record round := mk_round { now : Z; between : net -> net }.

(** The polling loop of [ksock_connect]; [None]: the rounds are used up. *)
Fixpoint connect_loop (n : net) (fd g deadline : Z) (rs : list round) : net * option Z :=
  match connect_poll n fd g with
  | S_CONNECTED => (n, Some 0)
  | S_ERR => (n, Some (-1))
  | _ =>
      match rs with
      | [] => (n, None)
      | r :: rs => if deadline <=? r.(now) then (n, Some (-1)) else connect_loop (r.(between) n) fd g deadline rs
      end
  end.

Definition ksock_connect (n : net) (fd : Z) (ok : bool) (start : Z) (rs : list round) : net * option Z :=
  match connect_start n fd with
  | (n, None) => (n, Some (-1))
  | (n, Some g) => if negb ok then (n, Some (-1)) else connect_loop n fd g (start + 5000) rs
  end.

(** The answers of lwIP to one turn of [ksock_send]: the free send buffer and
    the result of [tcp_write]. *)
Inductive write_result := WriteOk | WriteMem | WriteFail.
Record send_turn := mk_turn { sndbuf : Z; write : write_result; at_ms : Z; pause : round }.

(** [if (s && gen < 0) gen = s->gen;] *)
Definition capture (g : Z) (s : ksock_t) : Z := if g <? 0 then s.(gen) else g.

(** The result and the chunks handed to [tcp_write], in order. *)
Fixpoint send_loop (n : net) (fd : Z) (g : Z) (buf : list Z) (sent deadline : Z) (ts : list send_turn)
  : net * option Z * list (Z * list Z) :=
  let len := Z.of_nat (length buf) in
  let stop := if 0 <? sent then sent else -1 in
  if negb (sent <? len) then (n, Some sent, [])
  else
    match ts with
    | [] => (n, None, [])
    | t :: ts =>
        match get n fd with
        | None => (n, Some stop, [])
        | Some s =>
            let g := capture g s in
            if negb (s.(gen) =? g) || negb (bool_decide (s.(state) = S_CONNECTED)) || (s.(pcb) =? 0) then (n, Some stop, [])
            else
              let chunk := Z.min (Z.min (len - sent) t.(sndbuf)) 65535 in
              let wait sent deadline :=
                if sent <? len then
                  if deadline <=? t.(pause).(now) then (n, Some (if 0 <? sent then sent else -1), [])
                  else send_loop (t.(pause).(between) n) fd g buf sent deadline ts
                else (n, Some sent, []) in
              if 0 <? t.(sndbuf) then
                match t.(write) with
                | WriteOk =>
                    let '(n, r, cs) := wait (sent + chunk) (t.(at_ms) + 5000) in
                    (n, r, (s.(pcb), take (Z.to_nat chunk) (drop (Z.to_nat sent) buf)) :: cs)
                | WriteMem => wait sent deadline
                | WriteFail => (n, Some stop, [])
                end
              else wait sent deadline
        end
    end.

Definition ksock_send (n : net) (fd : Z) (buf : option (list Z)) (start : Z) (ts : list send_turn)
  : net * option Z * list (Z * list Z) :=
  match buf with
  | None => (n, Some 0, [])
  | Some [] => (n, Some 0, [])
  | Some buf => send_loop n fd (-1) buf 0 (start + 5000) ts
  end.

Fixpoint recv_loop (n : net) (fd : Z) (g : Z) (len deadline : Z) (rs : list round) : net * option (Z * list Z) :=
  match get n fd with
  | None => (n, Some (-1, []))
  | Some s =>
      let g := capture g s in
      if negb (s.(gen) =? g) || (negb (bool_decide (s.(state) = S_CONNECTED)) && negb (bool_decide (s.(state) = S_CLOSED)))
      then (n, Some (-1, []))
      else if 0 <? s.(rx_len) then
        let '(s, l) := rx_pop s len in (set_sock n fd s, Some (Z.of_nat (length l), l))
      else if s.(peer_closed) then (n, Some (0, []))
      else
        match rs with
        | [] => (n, None)
        | r :: rs => if deadline <=? r.(now) then (n, Some (-1, [])) else recv_loop (r.(between) n) fd g len deadline rs
        end
  end.

Definition ksock_recv (n : net) (fd len start : Z) (rs : list round) : net * option (Z * list Z) :=
  if len =? 0 then (n, Some (0, [])) else recv_loop n fd (-1) len (start + 10000) rs.

(** ** The receive ring as a queue *)

Definition ring_ok (s : ksock_t) : Prop := 0 <= s.(rx_head) < KSOCK_RXBUF /\ 0 <= s.(rx_len) <= KSOCK_RXBUF.

(** The bytes waiting, oldest first. *)
Definition pending (s : ksock_t) : list Z := ring_list KSOCK_RXBUF s.(rx) s.(rx_head) s.(rx_len).

Lemma pending_length s : ring_ok s -> Z.of_nat (length (pending s)) = s.(rx_len).
Proof. intros [_ Hl]. apply ring_length. lia. Qed.

(** Everything but the ring. *)
Definition same_socket (s s' : ksock_t) : Prop :=
  state s' = state s /\ gen s' = gen s /\ pcb s' = pcb s /\ peer_closed s' = peer_closed s.

Lemma rx_push_spec data s :
  ring_ok s -> ring_ok (rx_push s data) /\ same_socket s (rx_push s data) /\
    pending (rx_push s data) = take 4096 (pending s ++ data).
Proof.
  revert s. induction data as [|x data IH]; intros s Hs; cbn [rx_push].
  { splits. rewrite app_nil_r, take_ge; [done|]. pose proof (pending_length s Hs). destruct Hs. unfold KSOCK_RXBUF in *. lia. }
  pose proof (pending_length s Hs) as Hl. destruct Hs as [Hh Hr]. unfold KSOCK_RXBUF in *.
  destruct (Z.ltb_spec (rx_len s) 4096) as [Hlt|Hge].
  - set (s1 := mk_sock _ _ _ _ _ _ _).
    assert (ring_ok s1) as H1 by (unfold ring_ok, s1, KSOCK_RXBUF; cbn; lia).
    destruct (IH s1 H1) as (H2 & (E1 & E2 & E3 & E4) & E). split; [done|]. split; [done|]. rewrite E. f_equal.
    unfold pending, s1. cbn [rx rx_head rx_len]. unfold KSOCK_RXBUF. rewrite ring_push by lia. by rewrite <- app_assoc.
  - splits. rewrite take_app_le by lia. by rewrite take_ge by lia.
Qed.

Lemma rx_push_chunks chunks s :
  ring_ok s -> ring_ok (foldl rx_push s chunks) /\ same_socket s (foldl rx_push s chunks) /\
    pending (foldl rx_push s chunks) = take 4096 (pending s ++ mjoin chunks).
Proof.
  revert s. induction chunks as [|c chunks IH]; intros s Hs; cbn [foldl].
  { splits. cbn. rewrite app_nil_r, take_ge; [done|]. pose proof (pending_length s Hs). destruct Hs. unfold KSOCK_RXBUF in *. lia. }
  destruct (rx_push_spec c s Hs) as (H1 & (E1 & E2 & E3 & E4) & E). destruct (IH _ H1) as (H2 & (F1 & F2 & F3 & F4) & F).
  split; [done|]. split; [unfold same_socket; splits; congruence|]. rewrite F, E.
  change (mjoin (c :: chunks)) with (c ++ mjoin chunks). rewrite app_assoc. set (l := pending s ++ c).
  destruct (decide (length l <= 4096)%nat).
  - by rewrite (take_ge l) by lia.
  - rewrite take_app_le by (rewrite length_take; lia). rewrite take_take, take_app_le by lia. f_equal.
Qed.

Lemma rx_pop_spec s max :
  ring_ok s -> 0 <= max -> let '(s', l) := rx_pop s max in
  ring_ok s' /\ same_socket s s' /\ l = take (Z.to_nat max) (pending s) /\ pending s' = drop (Z.to_nat max) (pending s).
Proof.
  intros Hs Hm. pose proof (pending_length s Hs) as Hl. destruct Hs as [Hh Hr]. unfold rx_pop.
  set (n := if max <? rx_len s then max else rx_len s).
  assert (n = Z.min max (rx_len s)) as En by (unfold n; zcase; lia).
  split; [unfold ring_ok; cbn; pose proof (Z.mod_pos_bound (rx_head s + n) KSOCK_RXBUF ltac:(unfold KSOCK_RXBUF; lia)); lia|].
  split; [done|]. change (map _ (zrange 0 n)) with (ring_list KSOCK_RXBUF (rx s) (rx_head s) n).
  unfold pending at 2. cbn [rx rx_head rx_len].
  rewrite (ring_take KSOCK_RXBUF _ _ (rx_len s) n), (ring_drop KSOCK_RXBUF ltac:(unfold KSOCK_RXBUF; lia)) by lia.
  fold (pending s). destruct (decide (max <= rx_len s)).
  - by replace n with max by lia.
  - replace n with (rx_len s) by lia. rewrite !take_ge, !drop_ge by lia. done.
Qed.

(** ** Steps *)

(** Atomic sections of the interface and calls of lwIP into the layer.  lwIP
    hands out a control block that does not exist yet, calls back for blocks
    that exist and with the argument registered for them, and frees the block
    when it reports an error. *)
Inductive nstep : net -> net -> Prop :=
  | step_socket n new : new ∉ n.(live) -> nstep n (ksock_socket n new).1
  | step_connect n fd : nstep n (connect_start n fd).1
  | step_close n fd : nstep n (ksock_close n fd).1
  | step_pop n fd max s : get n fd = Some s -> 0 <= max -> nstep n (set_sock n fd (rx_pop s max).1)
  | step_recv n p packet ok : p ∈ n.(live) -> nstep n (cb_recv n (n.(args) !! p) packet ok).1
  | step_connected n p ok : p ∈ n.(live) -> nstep n (cb_connected n (n.(args) !! p) ok)
  | step_err n p : p ∈ n.(live) ->
      nstep n (mk_net (cb_err n (n.(args) !! p)).(socks) (delete p n.(args)) (n.(live) ∖ {[p]})).

(** The callback arguments and the control blocks of the sockets match. *)
Record wf (n : net) : Prop := {
  wf_args : forall p i, n.(args) !! p = Some i -> 0 <= i < KSOCK_MAX /\ p <> 0 /\ (sock n i).(pcb) = p /\ p ∈ n.(live);
  wf_pcb : forall i, 0 <= i < KSOCK_MAX -> (sock n i).(pcb) <> 0 -> n.(args) !! (sock n i).(pcb) = Some i;
  wf_free : forall i, 0 <= i < KSOCK_MAX -> (sock n i).(state) = S_FREE -> (sock n i).(pcb) = 0;
  wf_ring : forall i, 0 <= i < KSOCK_MAX -> ring_ok (sock n i);
}.

Lemma sock_set n i s j : sock (set_sock n i s) j = if i =? j then s else sock n j.
Proof.
  unfold sock, set_sock. cbn [socks]. destruct (Z.eqb_spec i j) as [->|]; [by rewrite lookup_insert_eq|by rewrite lookup_insert_ne].
Qed.

Lemma sock_mk n a l i : sock (mk_net n.(socks) a l) i = sock n i.
Proof. done. Qed.

(** A socket changes, keeping its control block; it does not become free with one. *)
Lemma wf_set n i s :
  wf n -> 0 <= i < KSOCK_MAX -> pcb s = pcb (sock n i) -> (state s = S_FREE -> pcb s = 0) -> ring_ok s -> wf (set_sock n i s).
Proof.
  intros [Wa Wp Wf Wr] Hi Hp Hf Hr. split; cbn [args live set_sock].
  - intros p j E. destruct (Wa p j E) as (? & ? & ? & ?). rewrite sock_set. destruct (Z.eqb_spec i j) as [<-|]; splits; congruence.
  - intros j Hj. rewrite sock_set. destruct (Z.eqb_spec i j) as [<-|]; [rewrite Hp|]; by apply Wp.
  - intros j Hj. rewrite sock_set. destruct (Z.eqb_spec i j) as [<-|]; [done|by apply Wf].
  - intros j Hj. rewrite sock_set. destruct (Z.eqb_spec i j) as [<-|]; [done|by apply Wr].
Qed.

(** A socket gives up its control block. *)
Lemma wf_detach n i s l :
  wf n -> 0 <= i < KSOCK_MAX -> pcb s = 0 -> ring_ok s -> (forall p, p ∈ l <-> p ∈ live n /\ (p <> pcb (sock n i) \/ pcb (sock n i) = 0)) ->
  wf (mk_net (<[i := s]> (socks n)) (delete (pcb (sock n i)) (args n)) l).
Proof.
  intros W Hi Hp Hr Hl. pose proof W as [Wa Wp Wf Wr]. split; cbn [args live].
  - intros p j [Hne E]%lookup_delete_Some. destruct (Wa p j E) as (? & ? & Ej & ?).
    change (sock (mk_net _ _ _) j) with (sock (set_sock n i s) j). rewrite sock_set.
    destruct (Z.eqb_spec i j) as [<-|]; [congruence|]. splits. apply Hl. split; [done|]. left. congruence.
  - intros j Hj. change (sock (mk_net _ _ _) j) with (sock (set_sock n i s) j). rewrite sock_set.
    destruct (Z.eqb_spec i j) as [<-|Hij]; [congruence|]. intros Hq. rewrite lookup_delete_ne; [by apply Wp|].
    intros E. apply Hij. pose proof (Wp j Hj Hq) as E1. rewrite <- E in E1. destruct (Wa _ _ E1) as (_ & Hn & _ & _).
    pose proof (Wp i Hi Hn) as E2. congruence.
  - intros j Hj. change (sock (mk_net _ _ _) j) with (sock (set_sock n i s) j). rewrite sock_set.
    destruct (Z.eqb_spec i j) as [<-|]; [done|by apply Wf].
  - intros j Hj. change (sock (mk_net _ _ _) j) with (sock (set_sock n i s) j). rewrite sock_set.
    destruct (Z.eqb_spec i j) as [<-|]; [done|by apply Wr].
Qed.

Lemma get_spec n fd s : get n fd = Some s -> 0 <= fd < KSOCK_MAX /\ s = sock n fd.
Proof. unfold get. zcase; zcase; simpl; try done. intros [= <-]. split; [lia|done]. Qed.

Lemma wf_socket n new : wf n -> new ∉ live n -> wf (ksock_socket n new).1.
Proof.
  intros W Hnew. unfold ksock_socket. destruct (find_loop _ _ _) as [fd|] eqn:E; [|done].
  destruct (Z.eqb_spec new 0); [done|]. cbn [fst]. apply List.find_some in E as [Hin Hfree].
  apply list_elem_of_In, elem_of_zrange in Hin. apply bool_decide_eq_true in Hfree.
  pose proof W as [Wa Wp Wf Wr]. set (s := mk_sock _ _ _ _ _ _ _).
  split; cbn [args live].
  - intros p j [[<- <-]|[Hne E]]%lookup_insert_Some; rewrite sock_mk, sock_set.
    + rewrite Z.eqb_refl. splits. set_solver.
    + destruct (Wa p j E) as (? & ? & Ej & ?). destruct (Z.eqb_spec fd j) as [<-|]; [|splits; set_solver].
      rewrite (Wf fd Hin Hfree) in Ej. congruence.
  - intros j Hj. rewrite sock_mk, sock_set. destruct (Z.eqb_spec fd j) as [<-|]; [intros _; by rewrite lookup_insert_eq|].
    intros Hq. rewrite lookup_insert_ne; [by apply Wp|]. intros ->. destruct (Wa _ _ (Wp j Hj Hq)) as (_ & _ & _ & ?). done.
  - intros j Hj. rewrite sock_mk, sock_set. destruct (Z.eqb_spec fd j) as [<-|]; [done|by apply Wf].
  - intros j Hj. rewrite sock_mk, sock_set. destruct (Z.eqb_spec fd j) as [<-|]; [|by apply Wr].
    unfold ring_ok, s, KSOCK_RXBUF. cbn. lia.
Qed.

Lemma wf_step n n' : wf n -> nstep n n' -> wf n'.
Proof.
  intros W Hs. destruct Hs as [n new Hnew|n fd|n fd|n fd max s Hg Hm|n p packet ok Hp|n p ok Hp|n p Hp].
  - by apply wf_socket.
  - unfold connect_start. destruct (get n fd) as [s|] eqn:Hg; [|done]. apply get_spec in Hg as [Hi ->].
    destruct (_ || _); [done|]. apply wf_set; [done|done|done|done|by apply (wf_ring n W)].
  - unfold ksock_close. destruct (get n fd) as [s|] eqn:Hg; [|done]. apply get_spec in Hg as [Hi ->].
    case_bool_decide as Hf; [done|]. cbn [fst]. set (s' := mk_sock _ _ _ _ _ _ _).
    assert (ring_ok s') as Hr by exact (wf_ring n W fd Hi).
    destruct (Z.eqb_spec (pcb (sock n fd)) 0) as [E|E].
    + apply wf_set; [done|done|by rewrite E|done|done].
    + apply (wf_detach n fd s' _ W Hi eq_refl Hr). intros q. set_solver.
  - apply get_spec in Hg as [Hi ->]. pose proof (rx_pop_spec (sock n fd) max (wf_ring n W fd Hi) Hm) as HP.
    destruct (rx_pop (sock n fd) max) as [s' l]. destruct HP as (Hr & (Es & _ & Ep & _) & _). cbn [fst].
    apply wf_set; [done|done|done| |done]. rewrite Es, Ep. by apply (wf_free n W).
  - unfold cb_recv. destruct (negb ok); [done|]. destruct (args n !! p) as [i|] eqn:Ea; [|by destruct packet].
    destruct (wf_args n W p i Ea) as (Hi & _). destruct packet as [chunks|]; cbn [fst].
    + destruct (rx_push_chunks chunks (sock n i) (wf_ring n W i Hi)) as (Hr & (Es & _ & Ep & _) & _).
      apply wf_set; [done|done|done| |done]. rewrite Es, Ep. by apply (wf_free n W).
    + apply wf_set; [done|done|done|by apply (wf_free n W)|exact (wf_ring n W i Hi)].
  - unfold cb_connected. destruct (args n !! p) as [i|] eqn:Ea; [|done]. destruct (wf_args n W p i Ea) as (Hi & _).
    apply wf_set; [done|done|done|by destruct ok|exact (wf_ring n W i Hi)].
  - unfold cb_err. destruct (args n !! p) as [i|] eqn:Ea.
    + destruct (wf_args n W p i Ea) as (Hi & Hp0 & Ei & _). cbn [set_sock socks]. rewrite <- Ei at 1 2.
      apply wf_detach; [done|done|done|exact (wf_ring n W i Hi)|]. intros q. rewrite Ei. set_solver.
    + rewrite (delete_id _ _ Ea). destruct W as [Wa Wp Wf Wr]. split; cbn [args live]; try done.
      intros q j E. destruct (Wa q j E) as (? & ? & ? & ?). splits. apply elem_of_difference. split; [done|].
      intros ->%elem_of_singleton. congruence.
Qed.

(** The static state at boot; [l] are the control blocks of other users of lwIP. *)
Definition net0 (l : gset Z) : net := mk_net ∅ ∅ l.

Lemma init_wf l : wf (ksock_init (net0 l)).
Proof.
  assert (args (ksock_init (net0 l)) = ∅ /\ forall i, pcb (sock (ksock_init (net0 l)) i) = 0 /\ ring_ok (sock (ksock_init (net0 l)) i))
    as [Ea Hs].
  { unfold ksock_init. apply (for_loop_pres (fun n => args n = ∅ /\ forall i, pcb (sock n i) = 0 /\ ring_ok (sock n i))).
    - split; [done|]. intros i. unfold sock. cbn [net0 socks]. rewrite lookup_empty. split; [done|].
      unfold ring_ok, KSOCK_RXBUF. cbn. lia.
    - intros i n _ [Ea Hn]. split; [done|]. intros j. rewrite sock_set. destruct (Z.eqb_spec i j) as [<-|]; [|apply Hn].
      split; [done|]. apply (Hn i). }
  split.
  - intros p i. by rewrite Ea.
  - intros i _ Hq. by destruct (Hs i).
  - intros i _ _. apply Hs.
  - intros i _. apply Hs.
Qed.

(** C27. In every state reachable by any interleaving of socket calls and callbacks:
    a socket's control block exists (lwIP is never called with one that was
    freed or closed), is registered with that socket, and belongs to no other
    socket; a callback for a control block changes no socket but the one that
    owns it, and none after the socket was closed. *)
Theorem socket_callbacks_confined l n :
  rtc nstep (ksock_init (net0 l)) n ->
  (forall i, 0 <= i < KSOCK_MAX -> (sock n i).(pcb) <> 0 ->
     (sock n i).(pcb) ∈ n.(live) /\ n.(args) !! (sock n i).(pcb) = Some i /\
     forall j, 0 <= j < KSOCK_MAX -> (sock n j).(pcb) = (sock n i).(pcb) -> j = i) /\
  (forall p packet ok j, 0 <= j < KSOCK_MAX -> (sock n j).(pcb) <> p ->
     sock (cb_recv n (n.(args) !! p) packet ok).1 j = sock n j /\
     sock (cb_connected n (n.(args) !! p) ok) j = sock n j /\ sock (cb_err n (n.(args) !! p)) j = sock n j).
Proof.
  intros Hr.
  assert (wf n) as W.
  { pose proof (init_wf l) as W0. induction Hr as [n|n1 n2 n3 H12 _ IH]; [done|]. apply IH. by apply (wf_step n1). }
  pose proof W as [Wa Wp _ _]. split.
  - intros i Hi Hq. pose proof (Wp i Hi Hq) as E. destruct (Wa _ _ E) as (_ & _ & _ & Hl). splits.
    intros j Hj Ej. rewrite <- Ej in Hq, E. pose proof (Wp j Hj Hq). congruence.
  - intros p packet ok j Hj Hne. destruct (args n !! p) as [i|] eqn:E; [|unfold cb_recv; by destruct (negb ok), packet].
    destruct (Wa p i E) as (_ & _ & Ei & _). assert (i <> j) as Hij by congruence.
    unfold cb_recv, cb_connected, cb_err. destruct (negb ok), packet; cbn [fst];
      rewrite ?sock_set, (proj2 (Z.eqb_neq i j) Hij); done.
Qed.

(** ** Sending *)

(** A call that had handed over [sent] bytes ends with the result [r] after
    handing over the chunks [cs]: they are the bytes from [sent] to [r]. *)
Definition handed (buf : list Z) (sent r : Z) (cs : list (Z * list Z)) : Prop :=
  (r = -1 /\ sent = 0 /\ cs = []) \/
  (sent <= r <= Z.of_nat (length buf) /\ mjoin (snd <$> cs) = take (Z.to_nat (r - sent)) (drop (Z.to_nat sent) buf) /\
   Forall (fun c => 0 < Z.of_nat (length c.2) <= 65535) cs).

Lemma handed_stop buf sent : 0 <= sent <= Z.of_nat (length buf) -> handed buf sent (if 0 <? sent then sent else -1) [].
Proof. intros Hs. unfold handed. destruct (Z.ltb_spec 0 sent); [right|left; splits]. rewrite Z.sub_diag. splits; constructor. Qed.

Lemma handed_chunk buf sent chunk p r cs :
  0 <= sent -> 0 < chunk <= 65535 -> sent + chunk <= Z.of_nat (length buf) -> handed buf (sent + chunk) r cs ->
  handed buf sent r ((p, take (Z.to_nat chunk) (drop (Z.to_nat sent) buf)) :: cs).
Proof.
  intros Hs Hc Hb [(_ & ? & _)|(Hr & HJ & HF)]; [lia|]. right. split; [lia|].
  set (c := take _ (drop _ buf)). change (mjoin (snd <$> (p, c) :: cs)) with (c ++ mjoin (snd <$> cs)). split.
  - rewrite HJ. replace (Z.to_nat (sent + chunk)) with (Z.to_nat sent + Z.to_nat chunk)%nat by lia.
    rewrite <- drop_drop. unfold c. rewrite take_take_drop. f_equal. lia.
  - constructor; [|done]. unfold c. cbn. rewrite length_take, length_drop. lia.
Qed.

Lemma send_loop_prefix ts n fd g buf sent deadline n' r cs :
  0 <= sent <= Z.of_nat (length buf) -> send_loop n fd g buf sent deadline ts = (n', Some r, cs) -> handed buf sent r cs.
Proof.
  revert n g sent deadline n' r cs. induction ts as [|t ts IH]; intros n g sent deadline n' r cs Hs; cbn [send_loop].
  - destruct (Z.ltb_spec sent (Z.of_nat (length buf))); cbn [negb]; [done|]. intros [= <- <- <-]. right.
    rewrite Z.sub_diag. splits; constructor.
  - pose proof (handed_stop buf sent Hs) as Hstop.
    destruct (Z.ltb_spec sent (Z.of_nat (length buf))) as [Hlt|]; cbn [negb].
    2:{ intros [= <- <- <-]. right. rewrite Z.sub_diag. splits; constructor. }
    destruct (get n fd) as [s|]; [|by intros [= <- <- <-]].
    destruct (_ || _); [by intros [= <- <- <-]|]. cbv zeta. set (chunk := Z.min (Z.min _ _) _).
    assert (forall d n' r cs, (if d <=? now (pause t) then (n, Some (if 0 <? sent then sent else -1), [])
       else send_loop (between (pause t) n) fd (capture g s) buf sent d ts) = (n', Some r, cs) -> handed buf sent r cs) as Hwait.
    { intros d n1 r1 cs1. destruct (d <=? _); [by intros [= <- <- <-]|]. apply IH. lia. }
    destruct (Z.ltb_spec 0 (sndbuf t)) as [Hb|]; [|apply Hwait]. destruct (write t); [|apply Hwait|by intros [= <- <- <-]].
    assert (0 < chunk <= 65535 /\ sent + chunk <= Z.of_nat (length buf)) as [Hc Hc'] by (unfold chunk; lia).
    pose proof (handed_stop buf (sent + chunk) ltac:(lia)) as Hs2. rewrite (proj2 (Z.ltb_lt 0 (sent + chunk))) in Hs2 |- * by lia.
    destruct (Z.ltb_spec (sent + chunk) (Z.of_nat (length buf))); [|intros [= <- <- <-]; by apply handed_chunk; [lia| | |]].
    destruct (_ <=? now (pause t)); [intros [= <- <- <-]; by apply handed_chunk; [lia| | |]|].
    destruct (send_loop _ _ _ _ (sent + chunk) _ _) as [[n1 r1] cs1] eqn:E. intros [= <- -> <-].
    apply handed_chunk; [lia|done|done|]. eapply IH; [|exact E]. lia.
Qed.

(** ** Receiving *)

Lemma recv_loop_spec rs n fd g len deadline n' k l :
  wf n -> 0 < len -> Forall (fun r => forall m, wf m -> wf (between r m)) rs ->
  recv_loop n fd g len deadline rs = (n', Some (k, l)) ->
  (k = -1 /\ l = []) \/
  (k = 0 /\ l = [] /\ pending (sock n' fd) = [] /\ peer_closed (sock n' fd) = true) \/
  (0 < k /\ k = Z.of_nat (length l) /\ exists m, wf m /\ 0 <= fd < KSOCK_MAX /\
     l = take (Z.to_nat len) (pending (sock m fd)) /\ n' = set_sock m fd (rx_pop (sock m fd) len).1 /\
     pending (sock n' fd) = drop (Z.to_nat len) (pending (sock m fd))).
Proof.
  intros W Hlen Hrs. revert n g n' k l W. induction rs as [|r rs IH]; intros n g n' k l W.
  all: cbn [recv_loop]; destruct (get n fd) as [s|] eqn:Hg; [|intros [= <- <- <-]; by left].
  all: apply get_spec in Hg as [Hi ->]; cbv zeta; destruct (_ || _); [intros [= <- <- <-]; by left|].
  all: pose proof (wf_ring n W fd Hi) as Hr; pose proof (pending_length _ Hr) as Hp.
  all: destruct (Z.ltb_spec 0 (rx_len (sock n fd))) as [Hl|Hl].
  1, 3: pose proof (rx_pop_spec (sock n fd) len Hr ltac:(lia)) as HP;
    destruct (rx_pop (sock n fd) len) as [s' x] eqn:Ex; destruct HP as (_ & _ & -> & Hd); intros [= <- <- <-]; right; right;
    (split; [rewrite length_take; lia|]); (split; [done|]); exists n; rewrite sock_set, Z.eqb_refl, Ex; splits.
  all: destruct (peer_closed (sock n fd)) eqn:Epc;
    [intros [= <- <- <-]; right; left; splits; apply nil_length_inv; destruct Hr; lia|].
  - done.
  - apply Forall_cons in Hrs as [Hr1 Hrs]. destruct (_ <=? now r); [intros [= <- <- <-]; by left|].
    intros E. apply (IH Hrs _ _ _ _ _ (Hr1 n W) E).
Qed.

(** The wait ends when the clock has passed the deadline. *)
Lemma recv_loop_ends rs n fd g len deadline :
  Exists (fun r => deadline <= now r) rs -> exists res, (recv_loop n fd g len deadline rs).2 = Some res.
Proof.
  intros HE. revert n g. induction HE as [r rs Hr|r rs HE IH]; intros n g.
  all: cbn [recv_loop]; destruct (get n fd) as [s|]; [|by eexists]; cbv zeta; destruct (_ || _); [by eexists|];
    destruct (0 <? _); [destruct (rx_pop s len); by eexists|]; destruct (peer_closed s); [by eexists|].
  - rewrite (proj2 (Z.leb_le _ _) Hr). by eexists.
  - destruct (_ <=? now r); [by eexists|apply IH].
Qed.

(** ** Properties *)

(** [ksock_send] hands to lwIP exactly the first [r] bytes of the buffer, in order
    and in chunks of at most 65535 bytes, when it answers [r >= 0], and nothing
    when it answers -1, whatever lwIP answers and whatever happens to the socket
    while the call waits. *)
Theorem ksock_send_prefix n fd buf start ts n' r cs :
  ksock_send n fd (Some buf) start ts = (n', Some r, cs) ->
  (r = -1 /\ cs = []) \/
  (0 <= r <= Z.of_nat (length buf) /\ mjoin (snd <$> cs) = take (Z.to_nat r) buf /\
   Forall (fun c => 0 < Z.of_nat (length c.2) <= 65535) cs).
Proof.
  unfold ksock_send. destruct buf as [|x buf].
  - intros [= <- <- <-]. right. splits; constructor.
  - intros E. apply send_loop_prefix in E; [|cbn [length]; lia]. destruct E as [(-> & _ & ->)|(Hr & HJ & HF)]; [by left|right].
    by rewrite Z.sub_0_r in HJ.
Qed.

(** [ksock_recv] with a positive length: it returns once the clock passes its
    deadline, however the socket behaves; it answers -1 without data, 0 when the
    peer has closed and nothing is waiting, or the first waiting bytes, up to the
    requested length, which leave the buffer while the bytes behind them stay. *)
Theorem ksock_recv_correct n fd len start rs :
  wf n -> 0 < len -> Forall (fun r => forall m, wf m -> wf (between r m)) rs ->
  Exists (fun r => start + 10000 <= now r) rs ->
  exists n' k l, ksock_recv n fd len start rs = (n', Some (k, l)) /\
    ((k = -1 /\ l = []) \/
     (k = 0 /\ l = [] /\ pending (sock n' fd) = [] /\ peer_closed (sock n' fd) = true) \/
     (0 < k /\ k = Z.of_nat (length l) /\ exists m, wf m /\ 0 <= fd < KSOCK_MAX /\
        l = take (Z.to_nat len) (pending (sock m fd)) /\ n' = set_sock m fd (rx_pop (sock m fd) len).1 /\
        pending (sock n' fd) = drop (Z.to_nat len) (pending (sock m fd)))).
Proof.
  intros W Hlen Hrs HE. unfold ksock_recv. rewrite (proj2 (Z.eqb_neq len 0)) by lia.
  destruct (recv_loop_ends rs n fd (-1) len (start + 10000) HE) as [[k l] E].
  destruct (recv_loop n fd (-1) len (start + 10000) rs) as [n' res] eqn:ER. cbn [snd] in E. subst res.
  exists n', k, l. split; [done|]. by apply (recv_loop_spec rs n fd (-1) len (start + 10000)).
Qed.

(** A packet appends to the bytes waiting until the buffer of 4096 bytes is full;
    the rest of the packet is dropped, but all of it is acknowledged, so that the
    peer does not send it again: the bytes behind the first 4096 are lost
    exactly when waiting bytes and packet do not fit together. *)
Theorem cb_recv_overrun n i chunks :
  wf n -> 0 <= i < KSOCK_MAX ->
  let '(n', acked) := cb_recv n (Some i) (Some chunks) true in
  let all := pending (sock n i) ++ mjoin chunks in
  pending (sock n' i) = take 4096 all /\ acked = Z.of_nat (length (mjoin chunks)) /\
  (4096 < length all -> exists lost, lost <> [] /\ all = pending (sock n' i) ++ lost)%nat.
Proof.
  intros W Hi. cbn [cb_recv negb]. destruct (rx_push_chunks chunks (sock n i) (wf_ring n W i Hi)) as (_ & _ & E).
  rewrite sock_set, Z.eqb_refl, E. split; [done|]. split; [done|]. intros Hlong.
  exists (drop 4096 (pending (sock n i) ++ mjoin chunks)). split; [|by rewrite take_drop].
  intros E0%(f_equal length). rewrite length_drop in E0. cbn in E0. lia.
Qed.

(** ** Witnesses *)

(** A socket is opened and connected, and 4000 bytes arrive. *)
Definition demo_open : net := (ksock_socket (ksock_init (net0 ∅)) 77).1.
Definition demo_conn : net := (connect_start demo_open 0).1.
Definition demo_up : net := cb_connected demo_conn (args demo_conn !! 77) true.
Definition demo_data : net := (cb_recv demo_up (args demo_up !! 77) (Some [replicate 4000 5]) true).1.

Lemma demo_live : 77 ∈ live demo_conn /\ 77 ∈ live demo_up.
Proof. split; vm_compute; reflexivity. Qed.

Lemma demo_data_reach : rtc nstep (ksock_init (net0 ∅)) demo_data.
Proof.
  destruct demo_live as [L1 L2].
  apply (rtc_l _ _ demo_open); [apply (step_socket _ 77); vm_compute; intros Hx; inversion Hx|].
  apply (rtc_l _ _ demo_conn); [exact (step_connect demo_open 0)|].
  apply (rtc_l _ _ demo_up); [exact (step_connected demo_conn 77 true L1)|].
  apply (rtc_l _ _ demo_data); [exact (step_recv demo_up 77 (Some [replicate 4000 5]) true L2)|].
  apply rtc_refl.
Qed.

Lemma demo_data_wf : wf demo_data.
Proof.
  pose proof (init_wf ∅) as W0. pose proof demo_data_reach as Hr.
  induction Hr as [n|n1 n2 n3 H12 _ IH]; [done|]. apply IH. by apply (wf_step n1).
Qed.

Lemma socket_callbacks_confined_witness : args demo_data !! 77 = Some 0.
Proof.
  exact (proj1 (proj2 (proj1 (socket_callbacks_confined ∅ demo_data demo_data_reach) 0
    ltac:(vm_compute; split; congruence) ltac:(vm_compute; discriminate)))).
Defined.

Lemma ksock_send_prefix_witness :
  mjoin (snd <$> [(77, [1; 2]); (77, [3])]) = take 3 [1; 2; 3].
Proof.
  destruct (ksock_send_prefix demo_up 0 [1; 2; 3] 0
    [mk_turn 2 WriteOk 10 (mk_round 20 id); mk_turn 0 WriteOk 20 (mk_round 30 id); mk_turn 9 WriteOk 40 (mk_round 50 id)]
    demo_up 3 [(77, [1; 2]); (77, [3])] ltac:(vm_compute; reflexivity)) as [[? _]|(_ & E & _)]; [discriminate|exact E].
Defined.

Lemma ksock_recv_correct_witness :
  exists n' k l, ksock_recv demo_data 0 100 0 [mk_round 10000 id] = (n', Some (k, l)) /\ k <> 0.
Proof.
  destruct (ksock_recv_correct demo_data 0 100 0 [mk_round 10000 id] demo_data_wf ltac:(lia)
    ltac:(constructor; [by intros|constructor]) ltac:(constructor; cbn; lia)) as (n' & k & l & E & _).
  exists n', k, l. split; [exact E|]. intros ->.
  assert (fst <$> (ksock_recv demo_data 0 100 0 [mk_round 10000 id]).2 = Some 100) as E1 by (vm_compute; reflexivity).
  rewrite E in E1. discriminate E1.
Defined.

Lemma cb_recv_overrun_witness :
  pending (sock (cb_recv demo_data (Some 0) (Some [replicate 1460 6]) true).1 0)
  = take 4096 (pending (sock demo_data 0) ++ mjoin [replicate 1460 6]).
Proof.
  exact (proj1 (cb_recv_overrun demo_data 0 [replicate 1460 6] demo_data_wf ltac:(vm_compute; split; congruence))).
Defined.
End NetSocket.
