(* ===== verification/Timer.v ===== *)
(** * Timer and clock (src/drivers/timer.c, src/kernel/timer_callbacks.c, src/drivers/rtc.c)

    The tick handler with its millisecond accumulator, the registry of eight
    callbacks, the four callbacks the kernel registers, and the conversion of the
    clock chip's registers.  What a tick does to other components (drawing,
    polling the network card, waking sleepers, scheduling) is a list of effects
    in the order the source makes the calls; the scheduler's own steps are in
    [Sched].  Programming the PIT and the port reads are not modelled. *)

From S2P Require Import Prelude.
From Stdlib Require Import String.
From stdpp Require Import base numbers list gmap.
From Stdlib Require Import ZArith Lia Sorted.

#[local] Open Scope list_scope.
#[local] Open Scope Z_scope.

Module Timer.

Definition TIMER_DEFAULT_HZ : Z := 60.
Definition TIMER_MAX_CALLBACKS : Z := 8.

(** The callbacks of timer_callbacks.c, and those of others. *)
Inductive callback := cb_visual | cb_cursor | cb_flush | cb_network | cb_other (n : Z).
#[global] Instance callback_eq_dec : EqDecision callback.
Proof. solve_decision. Defined.

Inductive effect :=
  | DrawRect (x y w h color : Z)
  | DrawChar (c x y color : Z)
  | DrawString (s : list Z) (x y color : Z)
  | BlinkCursor
  | CompositorFlush
  | E1000Poll
  | CheckTimeouts
  | CallOther (n tick : Z)
  | Eoi
  | CheckWakeups (now : Z)
  | Schedule.
#[global] Instance effect_eq_dec : EqDecision effect.
Proof. solve_decision. Defined.

Record timer := mk_timer {
  timer_ticks : Z; timer_ms : Z; timer_current_hz : Z; timer_ms_remainder : Z;
  cpu_idle_ticks : Z; cpu_total_ticks : Z; current_cpu_usage : Z; prev_yield_snapshot : Z;
  timer_callbacks : list (option callback);
  next_schedule_ms : Z;
  (* statics of timer_callbacks.c *)
  next_spinner_update : Z; next_uptime_update : Z; spin_frame : Z; next_cursor_blink : Z; next_lwip_tick : Z;
}.

Definition timer0 : timer := mk_timer 0 0 TIMER_DEFAULT_HZ 0 0 0 0 0 (replicate 8 None) 0 0 0 0 0 0.

(** ** Time *)

Definition timer_get_ms (s : timer) : Z := s.(timer_ms).
Definition timer_get_ticks (s : timer) : Z := s.(timer_ticks).
Definition timer_get_seconds (s : timer) : Z := timer_get_ms s / 1000.
Definition timer_get_cpu_usage (s : timer) : Z := s.(current_cpu_usage).
Definition timer_get_refresh_rate (s : timer) : Z := s.(timer_current_hz).

Definition timer_is_supported_refresh_rate (hz : Z) : bool := (hz =? 60) || (hz =? 100) || (hz =? 144).

Definition set_clock (s : timer) (ticks ms rem : Z) : timer :=
  mk_timer ticks ms s.(timer_current_hz) rem s.(cpu_idle_ticks) s.(cpu_total_ticks) s.(current_cpu_usage)
    s.(prev_yield_snapshot) s.(timer_callbacks) s.(next_schedule_ms) s.(next_spinner_update) s.(next_uptime_update)
    s.(spin_frame) s.(next_cursor_blink) s.(next_lwip_tick).
Definition set_usage (s : timer) (idle total usage snap : Z) : timer :=
  mk_timer s.(timer_ticks) s.(timer_ms) s.(timer_current_hz) s.(timer_ms_remainder) idle total usage snap
    s.(timer_callbacks) s.(next_schedule_ms) s.(next_spinner_update) s.(next_uptime_update)
    s.(spin_frame) s.(next_cursor_blink) s.(next_lwip_tick).
Definition set_rate (s : timer) (hz : Z) : timer :=
  mk_timer s.(timer_ticks) s.(timer_ms) hz 0 s.(cpu_idle_ticks) s.(cpu_total_ticks) s.(current_cpu_usage)
    s.(prev_yield_snapshot) s.(timer_callbacks) s.(next_schedule_ms) s.(next_spinner_update) s.(next_uptime_update)
    s.(spin_frame) s.(next_cursor_blink) s.(next_lwip_tick).
Definition set_callbacks (s : timer) (l : list (option callback)) : timer :=
  mk_timer s.(timer_ticks) s.(timer_ms) s.(timer_current_hz) s.(timer_ms_remainder) s.(cpu_idle_ticks) s.(cpu_total_ticks)
    s.(current_cpu_usage) s.(prev_yield_snapshot) l s.(next_schedule_ms) s.(next_spinner_update) s.(next_uptime_update)
    s.(spin_frame) s.(next_cursor_blink) s.(next_lwip_tick).
Definition set_next_schedule (s : timer) (t : Z) : timer :=
  mk_timer s.(timer_ticks) s.(timer_ms) s.(timer_current_hz) s.(timer_ms_remainder) s.(cpu_idle_ticks) s.(cpu_total_ticks)
    s.(current_cpu_usage) s.(prev_yield_snapshot) s.(timer_callbacks) t s.(next_spinner_update) s.(next_uptime_update)
    s.(spin_frame) s.(next_cursor_blink) s.(next_lwip_tick).
Definition set_statics (s : timer) (spinner uptime frame cursor lwip : Z) : timer :=
  mk_timer s.(timer_ticks) s.(timer_ms) s.(timer_current_hz) s.(timer_ms_remainder) s.(cpu_idle_ticks) s.(cpu_total_ticks)
    s.(current_cpu_usage) s.(prev_yield_snapshot) s.(timer_callbacks) s.(next_schedule_ms) spinner uptime frame cursor lwip.

(** [yield_counter] is an argument. *)
Definition timer_set_refresh_rate (s : timer) (yield_counter hz : Z) : timer * Z :=
  if negb (timer_is_supported_refresh_rate hz) then (s, -1)
  else (set_usage (set_rate s hz) 0 0 s.(current_cpu_usage) yield_counter, 0).

Definition init_timer (s : timer) (freq : Z) : timer :=
  set_rate s (if timer_is_supported_refresh_rate freq then freq else TIMER_DEFAULT_HZ).

Definition timer_accumulate_ms (s : timer) : timer :=
  let hz := s.(timer_current_hz) in
  let ms := u64 (s.(timer_ms) + 1000 / hz) in
  let rem := u32 (s.(timer_ms_remainder) + 1000 mod hz) in
  if hz <=? rem then set_clock s s.(timer_ticks) (u64 (ms + 1)) (rem - hz)
  else set_clock s s.(timer_ticks) ms rem.

(** ** Callbacks *)

(** The first free slot. *)
Definition timer_register (s : timer) (cb : callback) : timer * Z :=
  match find_loop 0 TIMER_MAX_CALLBACKS (fun i => negb (bool_decide (is_Some (mjoin (s.(timer_callbacks) !! Z.to_nat i))))) with
  | Some i => (set_callbacks s (<[Z.to_nat i := Some cb]> s.(timer_callbacks)), i)
  | None => (s, -1)
  end.

Definition timer_unregister (s : timer) (cb : callback) : timer :=
  set_callbacks s (map (fun o => if bool_decide (o = Some cb) then None else o) s.(timer_callbacks)).

Definition timer_callbacks_init (s : timer) : timer :=
  foldl (fun s cb => (timer_register s cb).1) s [cb_visual; cb_cursor; cb_flush; cb_network].

(** The characters of [UPTIME: hh:mm:ss]; each digit is computed as a [char]. *)
Definition uptime_string (total_sec : Z) : list Z :=
  let sec := total_sec mod 60 in
  let min := (total_sec / 60) mod 60 in
  let hour := u32 (total_sec / 3600) in
  [85; 80; 84; 73; 77; 69; 58; 32; u8 (hour / 10 + 48); hour mod 10 + 48; 58; min / 10 + 48; min mod 10 + 48; 58;
   sec / 10 + 48; sec mod 10 + 48].

Definition frames : list Z := [124; 47; 45; 92].

(** [fb_width] is an argument. *)
Definition run_callback (s : timer) (fb_width : Z) (cb : callback) : timer * list effect :=
  let now := timer_get_ms s in
  match cb with
  | cb_visual =>
      if fb_width =? 0 then (s, [])
      else
        let '(s, e1) :=
          if s.(next_spinner_update) <=? now then
            let frame := (s.(spin_frame) + 1) mod 4 in
            (set_statics s (u64 (now + 200)) s.(next_uptime_update) frame s.(next_cursor_blink) s.(next_lwip_tick),
             [DrawRect (u32 (fb_width - 18)) 3 10 16 0x1E1E1E;
              DrawChar (default 0 (frames !! Z.to_nat frame)) (u32 (fb_width - 18)) 3 0xFFFF00])
          else (s, []) in
        let '(s, e2) :=
          if s.(next_uptime_update) <=? now then
            (set_statics s s.(next_spinner_update) (u64 (now + 1000)) s.(spin_frame) s.(next_cursor_blink) s.(next_lwip_tick),
             [DrawRect (u32 (fb_width - 155)) 3 136 16 0x1E1E1E;
              DrawString (uptime_string (timer_get_seconds s)) (u32 (fb_width - 155)) 3 0x00FF00])
          else (s, []) in
        (s, e1 ++ e2)
  | cb_cursor =>
      if s.(next_cursor_blink) <=? now then
        (set_statics s s.(next_spinner_update) s.(next_uptime_update) s.(spin_frame) (u64 (now + 500)) s.(next_lwip_tick), [BlinkCursor])
      else (s, [])
  | cb_flush => (s, [CompositorFlush])
  | cb_network =>
      if s.(next_lwip_tick) <=? now then
        (set_statics s s.(next_spinner_update) s.(next_uptime_update) s.(spin_frame) s.(next_cursor_blink) (u64 (now + 1)),
         [E1000Poll; CheckTimeouts])
      else (s, [E1000Poll])
  | cb_other n => (s, [CallOther n (u32 s.(timer_ticks))])
  end.

Fixpoint run_callbacks (s : timer) (fb_width : Z) (l : list (option callback)) : timer * list effect :=
  match l with
  | [] => (s, [])
  | None :: l => run_callbacks s fb_width l
  | Some cb :: l =>
      let '(s, e) := run_callback s fb_width cb in
      let '(s, es) := run_callbacks s fb_width l in (s, e ++ es)
  end.

(** ** The interrupt *)

Definition track_usage (s : timer) (yield_counter : Z) : timer :=
  let total := u32 (s.(cpu_total_ticks) + 1) in
  let idle := if yield_counter =? s.(prev_yield_snapshot) then s.(cpu_idle_ticks) else u32 (s.(cpu_idle_ticks) + 1) in
  if s.(timer_current_hz) <=? total
  then set_usage s 0 0 (u32 (100 - u32 (idle * 100) / total)) yield_counter
  else set_usage s idle total s.(current_cpu_usage) yield_counter.

Definition timer_handler (s : timer) (yield_counter fb_width : Z) : timer * list effect :=
  let s := set_clock s (u64 (s.(timer_ticks) + 1)) s.(timer_ms) s.(timer_ms_remainder) in
  let s := timer_accumulate_ms s in
  let s := track_usage s yield_counter in
  let '(s, e) := run_callbacks s fb_width s.(timer_callbacks) in
  let now := timer_get_ms s in
  let e := e ++ [Eoi; CheckWakeups now] in
  if s.(next_schedule_ms) <=? now then (set_next_schedule s (u64 (now + 20)), e ++ [Schedule])
  else (s, e).

(** A sequence of ticks, each with the yield counter it finds. *)
Fixpoint ticks (s : timer) (fb_width : Z) (l : list Z) : timer * list (list effect) :=
  match l with
  | [] => (s, [])
  | y :: l => let '(s, e) := timer_handler s y fb_width in let '(s, es) := ticks s fb_width l in (s, e :: es)
  end.

(** ** The clock chip *)

Definition bcd_to_bin (bcd : Z) : Z := u8 (Z.land bcd 0x0F + bcd / 16 * 10).

(** The six registers: second, minute, hour, day, month, year. *)
Definition read_rtc (sec min hour day month year : Z) : list Z :=
  let wib_hour := bcd_to_bin hour + 7 in
  [bcd_to_bin year + 2000; bcd_to_bin month; bcd_to_bin day;
   if 24 <=? wib_hour then wib_hour mod 24 else wib_hour; bcd_to_bin min; bcd_to_bin sec].

(** ** Correctness *)

(** The callbacks change only their own statics and never reschedule. *)
Definition same_clock (s s' : timer) : Prop :=
  timer_ticks s' = timer_ticks s /\ timer_ms s' = timer_ms s /\ timer_current_hz s' = timer_current_hz s /\
  timer_ms_remainder s' = timer_ms_remainder s /\ cpu_idle_ticks s' = cpu_idle_ticks s /\
  cpu_total_ticks s' = cpu_total_ticks s /\ current_cpu_usage s' = current_cpu_usage s /\
  next_schedule_ms s' = next_schedule_ms s /\ timer_callbacks s' = timer_callbacks s.

#[local] Instance same_clock_pre : PreOrder same_clock.
Proof. split; [by intros s|]. intros ??? (?&?&?&?&?&?&?&?&?) (?&?&?&?&?&?&?&?&?). unfold same_clock. splits; congruence. Qed.

Lemma run_callback_clock s w cb : same_clock s (run_callback s w cb).1 /\ Schedule ∉ (run_callback s w cb).2.
Proof.
  unfold run_callback. destruct cb; repeat (case_match; simplify_eq; cbn [fst snd app]);
    (split; [done|]); intros Hin; set_unfold; naive_solver.
Qed.

Lemma run_callbacks_clock l s w : same_clock s (run_callbacks s w l).1 /\ Schedule ∉ (run_callbacks s w l).2.
Proof.
  revert s. induction l as [|[cb|] l IH]; intros s; cbn [run_callbacks]; [|  |apply IH].
  - split; [done|]. set_solver.
  - destruct (run_callback_clock s w cb) as [C1 N1]. destruct (run_callback s w cb) as [s1 e1].
    destruct (IH s1) as [C2 N2]. destruct (run_callbacks s1 w l) as [s2 e2]. cbn [fst snd] in *.
    split; [by etrans|]. rewrite elem_of_app. tauto.
Qed.

Definition supported (hz : Z) : Prop := hz = 60 \/ hz = 100 \/ hz = 144.

(** The accumulator after [n] ticks from [ms0]. *)
Definition clock_at (s : timer) (hz ms0 n : Z) : Prop :=
  timer_current_hz s = hz /\ hz * (timer_ms s - ms0) + timer_ms_remainder s = 1000 * n /\ 0 <= timer_ms_remainder s < hz.

Lemma clock_value s hz ms0 n : supported hz -> clock_at s hz ms0 n -> timer_ms s = ms0 + 1000 * n / hz.
Proof.
  intros Hhz (_ & E & Hr). assert (0 < hz) by (unfold supported in *; lia).
  replace (1000 * n) with ((timer_ms s - ms0) * hz + timer_ms_remainder s) by lia.
  rewrite Z.div_add_l, Z.div_small by lia. lia.
Qed.

(** The idle counter never exceeds the tick counter. *)
Definition usage_ok (s : timer) : Prop :=
  0 <= cpu_idle_ticks s <= cpu_total_ticks s /\ cpu_total_ticks s < timer_current_hz s /\ 0 <= current_cpu_usage s <= 100.

Lemma track_usage_ok s y : supported (timer_current_hz s) -> usage_ok s ->
  let s' := track_usage s y in
  usage_ok s' /\ timer_ms s' = timer_ms s /\ timer_current_hz s' = timer_current_hz s /\
  timer_ms_remainder s' = timer_ms_remainder s /\ next_schedule_ms s' = next_schedule_ms s /\ timer_ticks s' = timer_ticks s.
Proof.
  intros Hhz (Hi & Ht & Hu). unfold track_usage. assert (timer_current_hz s <= 144) by (unfold supported in *; lia).
  rewrite (wrap_small 32 (cpu_total_ticks s + 1)) by lia.
  set (idle := if _ =? _ then _ else _).
  assert (0 <= idle <= cpu_total_ticks s + 1) as Hidle by (unfold idle; zcase; rewrite ?wrap_small by lia; lia).
  destruct (Z.leb_spec (timer_current_hz s) (cpu_total_ticks s + 1)); unfold usage_ok;
    cbn [set_usage cpu_idle_ticks cpu_total_ticks current_cpu_usage timer_ms timer_current_hz timer_ms_remainder next_schedule_ms timer_ticks].
  - assert (0 <= u32 (idle * 100) / (cpu_total_ticks s + 1) <= 100) as Hq.
    { rewrite wrap_small by lia. split; [apply Z.div_pos; lia|]. apply Z.div_le_upper_bound; lia. }
    rewrite (wrap_small 32 (100 - _)) by lia. unfold supported in *. splits.
  - splits.
Qed.

Lemma accumulate_at s hz ms0 n :
  supported hz -> clock_at s hz ms0 n -> 0 <= timer_ms s -> timer_ms s + 18 < 2 ^ 64 ->
  let s' := timer_accumulate_ms s in
  clock_at s' hz ms0 (n + 1) /\ timer_ms s <= timer_ms s' <= timer_ms s + 1000 / hz + 1 /\
  timer_ticks s' = timer_ticks s /\ next_schedule_ms s' = next_schedule_ms s /\ (usage_ok s -> usage_ok s').
Proof.
  intros Hhz (E & Ec & Hr) Hms Hb. unfold timer_accumulate_ms. rewrite E.
  assert (1000 / hz + 1 <= 17 /\ 1000 = hz * (1000 / hz) + 1000 mod hz /\ 0 <= 1000 mod hz < hz /\ 0 <= 1000 / hz) as (B1 & B2 & B3 & B4).
  { destruct Hhz as [->|[->| ->]]; clear; repeat split; vm_compute; congruence. }
  assert (hz <= 144) by (unfold supported in *; lia).
  rewrite (wrap_small 64 (timer_ms s + _)), (wrap_small 32 _) by lia.
  destruct (Z.leb_spec hz (timer_ms_remainder s + 1000 mod hz)); unfold clock_at, usage_ok;
    cbn [set_clock timer_ms timer_current_hz timer_ms_remainder timer_ticks next_schedule_ms cpu_idle_ticks cpu_total_ticks current_cpu_usage].
  - rewrite (wrap_small 64 _) by lia. splits; nia.
  - splits; nia.
Qed.

(** One tick. *)
Lemma tick_spec s hz ms0 n y w :
  supported hz -> clock_at s hz ms0 n -> usage_ok s -> 0 <= timer_ms s -> timer_ms s + 38 < 2 ^ 64 -> 0 <= timer_ticks s < 2 ^ 64 - 1 ->
  let '(s', e) := timer_handler s y w in
  clock_at s' hz ms0 (n + 1) /\ usage_ok s' /\ timer_ticks s' = timer_ticks s + 1 /\
  timer_ms s <= timer_ms s' <= timer_ms s + 1000 / hz + 1 /\
  (Schedule ∈ e <-> next_schedule_ms s <= timer_ms s') /\
  next_schedule_ms s' = if next_schedule_ms s <=? timer_ms s' then timer_ms s' + 20 else next_schedule_ms s.
Proof.
  intros Hhz Hc Hu Hms Hb Ht. unfold timer_handler. rewrite (wrap_small 64 (timer_ticks s + 1)) by lia.
  set (s1 := set_clock s _ _ _).
  destruct (accumulate_at s1 hz ms0 n Hhz Hc Hms ltac:(cbn; lia)) as (C2 & M2 & T2 & N2 & U2). specialize (U2 Hu).
  set (s2 := timer_accumulate_ms s1) in *.
  assert (supported (timer_current_hz s2)) as Hhz2 by (destruct C2 as [-> _]; done).
  destruct (track_usage_ok s2 y Hhz2 U2) as (U3 & M3 & H3 & R3 & N3 & T3). set (s3 := track_usage s2 y) in *.
  destruct (run_callbacks_clock (timer_callbacks s3) s3 w) as [(CT & CM & CH & CR & CI & CO & CU & CN & _) NS].
  destruct (run_callbacks s3 w (timer_callbacks s3)) as [s4 e]. cbn [fst snd] in *.
  assert (timer_ms s4 = timer_ms s2) as M4 by congruence.
  assert (1000 / hz + 1 <= 17) as B by (destruct Hhz as [->|[->| ->]]; clear; vm_compute; congruence).
  change (timer_ms s1) with (timer_ms s) in M2. change (next_schedule_ms s1) with (next_schedule_ms s) in N2.
  change (timer_ticks s1) with (timer_ticks s + 1) in T2.
  assert (next_schedule_ms s4 = next_schedule_ms s) as N4 by congruence. unfold timer_get_ms. rewrite N4.
  assert (clock_at s4 hz ms0 (n + 1)) as C4 by (unfold clock_at in *; rewrite CH, CR, H3, R3, M4; done).
  assert (usage_ok s4) as U4 by (unfold usage_ok in *; rewrite CI, CO, CU, CH; done).
  assert (timer_ticks s4 = timer_ticks s + 1) as T4 by congruence.
  destruct (Z.leb_spec (next_schedule_ms s) (timer_ms s4)).
  - rewrite (wrap_small 64 (timer_ms s4 + 20)) by lia.
    change (clock_at (set_next_schedule s4 _) hz ms0 (n + 1)) with (clock_at s4 hz ms0 (n + 1)).
    change (usage_ok (set_next_schedule s4 _)) with (usage_ok s4). cbn [set_next_schedule timer_ticks timer_ms next_schedule_ms].
    rewrite (proj2 (Z.leb_le _ _)) by lia. splits. split; [lia|]. intros _. set_solver.
  - splits.
    + split; [|lia]. intros Hin. rewrite !elem_of_app in Hin. set_unfold. naive_solver.
    + rewrite (proj2 (Z.leb_gt _ _)) by lia. exact N4.
Qed.

(** The times of the ticks that entered the scheduler. *)
Fixpoint pass_times (s : timer) (w : Z) (l : list Z) : list Z :=
  match l with
  | [] => []
  | y :: l =>
      let '(s', e) := timer_handler s y w in
      (if bool_decide (Schedule ∈ e) then [timer_ms s'] else []) ++ pass_times s' w l
  end.

(** Two consecutive passes are a quantum apart, and the second is late by less
    than a tick. *)
Definition quantum (hz a b : Z) : Prop := 20 <= b - a <= 20 + 1000 / hz.

Lemma ticks_spec l s hz ms0 n w :
  supported hz -> clock_at s hz ms0 n -> usage_ok s -> 0 <= timer_ms s ->
  timer_ms s + 38 + 17 * Z.of_nat (length l) < 2 ^ 64 -> 0 <= timer_ticks s -> timer_ticks s + Z.of_nat (length l) < 2 ^ 64 ->
  let s' := (ticks s w l).1 in
  clock_at s' hz ms0 (n + Z.of_nat (length l)) /\ usage_ok s' /\ timer_ticks s' = timer_ticks s + Z.of_nat (length l) /\
  Sorted (quantum hz) (pass_times s w l) /\
  (timer_ms s < next_schedule_ms s -> HdRel (quantum hz) (next_schedule_ms s - 20) (pass_times s w l)).
Proof.
  intros Hhz. assert (1000 / hz + 1 <= 17) as B by (destruct Hhz as [->|[->| ->]]; clear; vm_compute; congruence).
  revert s n. induction l as [|y l IH]; intros s n Hc Hu Hms Hb Ht0 Ht; cbn [ticks pass_times length].
  { change (Z.of_nat 0) with 0. rewrite !Z.add_0_r. splits. }
  cbn [length] in Hb, Ht. rewrite Nat2Z.inj_succ in *.
  pose proof (tick_spec s hz ms0 n y w Hhz Hc Hu Hms ltac:(lia) ltac:(lia)) as HT.
  destruct (timer_handler s y w) as [s1 e]. destruct HT as (C1 & U1 & T1 & M1 & S1 & N1).
  specialize (IH s1 (n + 1) C1 U1 ltac:(lia) ltac:(lia) ltac:(lia) ltac:(lia)). cbv zeta in IH.
  destruct (ticks s1 w l) as [s2 es]. cbn [fst] in *. destruct IH as (C2 & U2 & T2 & S2 & Q2).
  replace (n + 1 + Z.of_nat (length l)) with (n + Z.succ (Z.of_nat (length l))) in C2 by lia.
  split; [done|]. split; [done|]. split; [lia|].
  destruct (Z.leb_spec (next_schedule_ms s) (timer_ms s1)) as [Hp|Hp].
  - rewrite bool_decide_true by (by apply S1). rewrite N1 in Q2. cbn [app]. split.
    + constructor; [done|]. replace (timer_ms s1 + 20 - 20) with (timer_ms s1) in Q2 by lia. apply Q2. lia.
    + intros Hlt. constructor. unfold quantum. lia.
  - rewrite bool_decide_false by (rewrite S1; lia). rewrite N1 in Q2. cbn [app]. split; [done|].
    intros _. apply Q2. lia.
Qed.

(** C28. Time keeping, after any sequence of ticks at one of the three supported rates,
    from a state in which the rate was just set: the millisecond count is exactly
    the number of ticks times 1000 divided by the rate, rounded down (the
    accumulator never drifts); the processor usage is a percentage; and any two
    consecutive passes of the scheduler are at least the 20 ms quantum apart,
    the later one late by less than one tick. *)
Theorem timer_keeps_time s w l :
  supported (timer_current_hz s) -> timer_ms_remainder s = 0 -> usage_ok s -> 0 <= timer_ms s -> 0 <= timer_ticks s ->
  timer_ms s + 38 + 17 * Z.of_nat (length l) < 2 ^ 64 -> timer_ticks s + Z.of_nat (length l) < 2 ^ 64 ->
  let s' := (ticks s w l).1 in
  timer_get_ms s' = timer_get_ms s + 1000 * Z.of_nat (length l) / timer_current_hz s /\
  timer_get_ticks s' = timer_get_ticks s + Z.of_nat (length l) /\
  0 <= timer_get_cpu_usage s' <= 100 /\
  Sorted (quantum (timer_current_hz s)) (pass_times s w l).
Proof.
  intros Hhz Hr Hu Hms Ht0 Hb Ht.
  destruct (ticks_spec l s (timer_current_hz s) (timer_ms s) 0 w Hhz) as (C & U & T & S & _); try done.
  { unfold clock_at. rewrite Hr. unfold supported in Hhz. splits. }
  rewrite Z.add_0_l in C. split; [exact (clock_value _ _ _ _ Hhz C)|]. split; [exact T|]. split; [|exact S].
  apply U.
Qed.

(** ** Registry *)

(** A callback registered in a free slot is called on every tick until it is
    unregistered; unregistering removes no other callback. *)
Lemma unregister_spec s cb x :
  Some x ∈ timer_callbacks (timer_unregister s cb) <-> Some x ∈ timer_callbacks s /\ x <> cb.
Proof.
  unfold timer_unregister. cbn [timer_callbacks set_callbacks]. rewrite !list_elem_of_In, in_map_iff. split.
  - intros (o & E & Hin). case_bool_decide; [done|]. subst. split; [done|]. congruence.
  - intros [Hin Hne]. exists (Some x). split; [|done]. rewrite bool_decide_false; congruence.
Qed.

(** ** The clock chip *)

(** Two decimal digits in BCD. *)
Lemma bcd_to_bin_digits d u : 0 <= d <= 9 -> 0 <= u <= 9 -> bcd_to_bin (16 * d + u) = 10 * d + u.
Proof.
  intros Hd Hu. unfold bcd_to_bin. change 0x0F with (Z.ones 4). rewrite Z.land_ones by lia.
  change (2 ^ 4) with 16. rewrite wrap_small by divlia. divlia.
Qed.

(** The hour is moved to UTC+7, the date is not: from 17:00 UTC on the day shown
    is the one before the local day. *)
Lemma read_rtc_date_lags :
  read_rtc 0 0 0x17 0x31 0x12 0x24 = [2024; 12; 31; 0; 0; 0].
Proof. reflexivity. Qed.

(** ** Witness *)

Lemma timer_keeps_time_witness :
  timer_get_ms (ticks (timer_callbacks_init (init_timer timer0 60)) 1024 (replicate 6 7)).1 = 100 /\
  pass_times (timer_callbacks_init (init_timer timer0 60)) 1024 (replicate 6 7) = [16; 50; 83].
Proof.
  destruct (timer_keeps_time (timer_callbacks_init (init_timer timer0 60)) 1024 (replicate 6 7)
    (or_introl eq_refl) eq_refl ltac:(vm_compute; intuition congruence) ltac:(vm_compute; congruence) ltac:(vm_compute; congruence)
    ltac:(vm_compute; congruence) ltac:(vm_compute; congruence)) as (E & _).
  split; [rewrite E; reflexivity|vm_compute; reflexivity].
Defined.
End Timer.
