(* ===== verification/Ghal.v ===== *)
(** * Graphics HAL (src/graphics/ghal.h, ghal.c)

    The registry of backends, the selection at [ghal_init] and the dispatch of
    every call to the backend that is active.  The device state [S] of the
    backends is a parameter; a backend is the record [ghal_backend_ops_t] of the
    C vtable, a [NULL] entry being [None].  Pointers to vtables are addresses,
    [0] is [NULL], and [ops_at] is what a vtable pointer points to.  A spinlock
    covers each function of the registry. *)

From S2P Require Import Prelude.
From stdpp Require Import base numbers list gmap strings.
From Stdlib Require Import ZArith Lia.

#[local] Open Scope list_scope.
#[local] Open Scope Z_scope.

Module Ghal.

Definition GHAL_MAX_BACKENDS : Z := 8.
Definition GHAL_FMT_XRGB8888 : Z := 0.
Definition GHAL_FMT_ARGB8888 : Z := 1.
Definition GHAL_CAP_PARTIAL_FLUSH : Z := 4.

Record ghal_rect_t := mk_grect { gx : Z; gy : Z; gw : Z; gh : Z }.

(** Surfaces, pixel arrays and vtables are pointers. *)
Record ghal_backend_ops_t (S : Type) := mk_ops {
  name : string;
  capabilities : Z;
  init : option (S -> S * Z);
  shutdown : option (S -> S);
  surface_create : option (S -> Z -> Z -> Z -> S * Z);
  surface_destroy : option (S -> Z -> S);
  surface_upload : option (S -> Z -> Z -> Z -> ghal_rect_t -> S);
  fill_rect : option (S -> Z -> ghal_rect_t -> Z -> S);
  blit : option (S -> Z -> ghal_rect_t -> Z -> ghal_rect_t -> S);
  present : option (S -> Z -> option ghal_rect_t -> S);
}.
#[global] Arguments name {S}. #[global] Arguments capabilities {S}.
#[global] Arguments init {S}. #[global] Arguments shutdown {S}.
#[global] Arguments surface_create {S}. #[global] Arguments surface_destroy {S}.
#[global] Arguments surface_upload {S}. #[global] Arguments fill_rect {S}.
#[global] Arguments blit {S}. #[global] Arguments present {S}.

(** The static variables of ghal.c, and the state of the backends. *)
Record hal (S : Type) := mk_hal {
  g_backends : gmap Z Z;
  g_active : Z;
  g_last_error : string;
  dev : S;
}.
#[global] Arguments mk_hal {S}. #[global] Arguments g_backends {S}.
#[global] Arguments g_active {S}. #[global] Arguments g_last_error {S}. #[global] Arguments dev {S}.

(** [&virtio_gpu_backend_ops] and [&software_backend_ops]. *)
Definition virtio_gpu_backend : Z := 1.
Definition software_backend : Z := 2.

Section hal.
Context {S : Type} (ops_at : Z -> ghal_backend_ops_t S).

Definition set_error (h : hal S) (e : string) : hal S := mk_hal h.(g_backends) h.(g_active) e h.(dev).
Definition set_dev (h : hal S) (d : S) : hal S := mk_hal h.(g_backends) h.(g_active) h.(g_last_error) d.
Definition set_active (h : hal S) (a : Z) : hal S := mk_hal h.(g_backends) a h.(g_last_error) h.(dev).

(** An entry that is not [NULL]. *)
Definition present_entry {T : Type} (f : option T) : bool := match f with Some _ => true | None => false end.

Definition complete (o : ghal_backend_ops_t S) : bool :=
  present_entry o.(init) && present_entry o.(surface_create) && present_entry o.(surface_destroy) &&
  present_entry o.(surface_upload) && present_entry o.(fill_rect) && present_entry o.(blit) &&
  present_entry o.(present).

Definition backend (h : hal S) (i : Z) : Z := default 0 (h.(g_backends) !! i).

(** The search for an empty slot. *)
Definition empty_slot (h : hal S) : option Z :=
  for_loop 0 GHAL_MAX_BACKENDS (fun i r =>
    match r with Some _ => r | None => if backend h i =? 0 then Some i else None end) None.

Definition ghal_register_backend (h : hal S) (ops : Z) : hal S * Z :=
  if (ops =? 0) || negb (complete (ops_at ops)) then (set_error h "ghal_register_backend: incomplete ops", -1)
  else
    match empty_slot h with
    | Some i => (mk_hal (<[i := ops]> h.(g_backends)) h.(g_active) h.(g_last_error) h.(dev), 0)
    | None => (set_error h "ghal_register_backend: table full", -1)
    end.

(** The candidates in order; the state of a backend that failed stays changed. *)
Fixpoint try_backends (h : hal S) (order : list Z) : hal S * Z :=
  match order with
  | [] => (set_error (set_active h 0) "ghal_init: no backend initialized", -1)
  | ops :: order =>
      match (ops_at ops).(init) with
      | None => try_backends h order
      | Some f =>
          let '(d, r) := f h.(dev) in
          let h := set_dev h d in
          if r =? 0 then (set_error (set_active h ops) "", 0) else try_backends h order
      end
  end.

Definition ghal_init (h : hal S) : hal S * Z :=
  if negb (h.(g_active) =? 0) then (h, 0) else try_backends h [virtio_gpu_backend; software_backend].

Definition ghal_shutdown (h : hal S) : hal S :=
  let h := if negb (h.(g_active) =? 0)
           then match (ops_at h.(g_active)).(shutdown) with Some f => set_dev h (f h.(dev)) | None => h end
           else h in
  set_active h 0.

Definition ghal_active_backend_name (h : hal S) : string :=
  if negb (h.(g_active) =? 0) then (ops_at h.(g_active)).(name) else "(none)".

Definition ghal_capabilities (h : hal S) : Z :=
  if negb (h.(g_active) =? 0) then (ops_at h.(g_active)).(capabilities) else 0.

Definition ghal_last_error (h : hal S) : string := h.(g_last_error).

(** [virtio_backend_get_size] and [software_backend_get_size] are the two
    arguments. *)
Definition ghal_scanout_size (virtio_size software_size : S -> Z * Z) (h : hal S) : Z * Z :=
  if h.(g_active) =? virtio_gpu_backend then virtio_size h.(dev) else software_size h.(dev).

(** A call through a vtable entry; an entry that is [NULL] is not called by any
    backend that passed [complete]. *)
Definition call {T : Type} (f : option T) (h : hal S) (k : T -> S) : hal S :=
  match f with Some f => set_dev h (k f) | None => h end.

Definition ghal_surface_create (h : hal S) (w ht fmt : Z) : hal S * Z :=
  if h.(g_active) =? 0 then (set_error h "no active backend", 0)
  else
    match (ops_at h.(g_active)).(surface_create) with
    | Some f => let '(d, s) := f h.(dev) w ht fmt in (set_dev h d, s)
    | None => (h, 0)
    end.

Definition ghal_surface_destroy (h : hal S) (s : Z) : hal S :=
  if (h.(g_active) =? 0) || (s =? 0) then h
  else call (ops_at h.(g_active)).(surface_destroy) h (fun f => f h.(dev) s).

Definition ghal_surface_upload (h : hal S) (s src src_pitch : Z) (rect : ghal_rect_t) : hal S :=
  if (h.(g_active) =? 0) || (s =? 0) || (src =? 0) then h
  else call (ops_at h.(g_active)).(surface_upload) h (fun f => f h.(dev) s src src_pitch rect).

Definition ghal_fill_rect (h : hal S) (dst : Z) (rect : ghal_rect_t) (argb : Z) : hal S :=
  if (h.(g_active) =? 0) || (dst =? 0) then h
  else call (ops_at h.(g_active)).(fill_rect) h (fun f => f h.(dev) dst rect argb).

Definition ghal_blit (h : hal S) (dst : Z) (dst_rect : ghal_rect_t) (src : Z) (src_rect : ghal_rect_t) : hal S :=
  if (h.(g_active) =? 0) || (dst =? 0) || (src =? 0) then h
  else call (ops_at h.(g_active)).(blit) h (fun f => f h.(dev) dst dst_rect src src_rect).

Definition ghal_present (h : hal S) (s : Z) (rect : option ghal_rect_t) : hal S :=
  if (h.(g_active) =? 0) || (s =? 0) then h
  else call (ops_at h.(g_active)).(present) h (fun f => f h.(dev) s rect).

(** ** Registry and selection *)

(** [empty_slot] finds the first empty slot. *)
Lemma empty_slot_first h :
  match empty_slot h with
  | Some i => 0 <= i < GHAL_MAX_BACKENDS /\ backend h i = 0 /\ forall j, 0 <= j < i -> backend h j <> 0
  | None => forall j, 0 <= j < GHAL_MAX_BACKENDS -> backend h j <> 0
  end.
Proof.
  unfold empty_slot.
  apply (for_loop_inv (fun i r => match r with
    | Some k => 0 <= k < i /\ backend h k = 0 /\ forall j, 0 <= j < k -> backend h j <> 0
    | None => forall j, 0 <= j < i -> backend h j <> 0 end)); [done|lia|].
  intros i [k|] Hi HI; cbn.
  - naive_solver lia.
  - destruct (Z.eqb_spec (backend h i) 0); [naive_solver lia|].
    intros j Hj. destruct (Z.eq_dec j i) as [->|]; [done|]. apply HI; lia.
Qed.

(** A backend is active after [try_backends] exactly when its initialisation
    reported success, and it is the first such one of the list. *)
Lemma try_backends_active h order h' r :
  Forall (fun o => o <> 0) order -> try_backends h order = (h', r) ->
  (r = 0 /\ exists before ops after f d d', order = before ++ ops :: after /\ g_active h' = ops /\
     (ops_at ops).(init) = Some f /\ f d = (d', 0) /\ dev h' = d') \/
  (r = -1 /\ g_active h' = 0).
Proof.
  revert h. induction order as [|o order IH]; intros h Hne E; cbn [try_backends] in E.
  - right. by inversion E.
  - inversion Hne as [|? ? Ho Hne']; subst.
    destruct ((ops_at o).(init)) as [f|] eqn:Ef.
    + destruct (f (dev h)) as [d r'] eqn:Ed. destruct (Z.eqb_spec r' 0) as [->|].
      * inversion E; subst. left. split; [done|]. exists [], o, order, f, (dev h), d. by cbn.
      * destruct (IH _ Hne' E) as [(-> & b & ops & a & f' & d1 & d2 & -> & H)|?]; [|by right].
        left. split; [done|]. by exists (o :: b), ops, a, f', d1, d2.
    + destruct (IH _ Hne' E) as [(-> & b & ops & a & f' & d1 & d2 & -> & H)|?]; [|by right].
      left. split; [done|]. by exists (o :: b), ops, a, f', d1, d2.
Qed.

(** With a software backend that cannot fail, [ghal_init] always leaves a backend
    active; virtio-gpu is preferred. *)
Lemma ghal_init_selects h fv fs :
  g_active h = 0 -> (ops_at virtio_gpu_backend).(init) = Some fv -> (ops_at software_backend).(init) = Some fs ->
  (forall d, fs d = (d, 0)) ->
  ghal_init h =
    let '(d, r) := fv (dev h) in
    (mk_hal (g_backends h) (if r =? 0 then virtio_gpu_backend else software_backend) "" d, 0).
Proof.
  intros Ha Hv Hs Hok. unfold ghal_init. rewrite Ha. cbn [negb Z.eqb try_backends].
  rewrite Hv. destruct (fv (dev h)) as [d r]. destruct (r =? 0); [done|].
  rewrite Hs. cbn [dev set_dev]. by rewrite Hok.
Qed.
End hal.
End Ghal.
