(* ===== verification/Software.v ===== *)
(** * Software backend (src/graphics/backend/software.c)

    Surfaces in system memory, tightly packed, and the copy of a damaged
    rectangle to the hardware framebuffer.  Pixel memory is a map of 32-bit
    cells as in [Display]: the cell of pixel [i] of an array at address [p] is
    [p / 4 + i].  The rows that a loop reaches by adding the pitch to a pointer
    are written as base plus row times pitch. *)

From S2P Require Import Prelude KString Display Ghal.
From stdpp Require Import base numbers list gmap strings.
From Stdlib Require Import ZArith Lia.
Import Ghal.

#[local] Open Scope Z_scope.

Module Software.

(** [struct ghal_surface] of this backend. *)
Record surface := mk_surface { s_width : Z; s_height : Z; s_format : Z; s_pixels : Z }.
Definition surface0 : surface := mk_surface 0 0 0 0.
Definition SIZEOF_SURFACE : Z := 24.

(** Copying [h] rows of [w] cells; [w] is the row length after the clamp, of
    which [memcpy] sees the byte count [w * 4] in 32 bits. *)
Definition copy_rows (m : gmap Z Z) (d dpitch s spitch w h : Z) : gmap Z Z :=
  for_loop 0 h (fun y m => KString.memcpy m (d + y * dpitch) (s + y * spitch) (u32 (w * 4) / 4)) m.

(** [if (v > max) v = max]. *)
Definition clamp (v mx : Z) : Z := if mx <? v then mx else v.

Section software.
Context {H : Type} `{KAlloc H}.

(** The pixels of all memory, the kernel heap, the surfaces by address, and the
    framebuffer of [software_backend_set_fb]. *)
Record sw := mk_sw {
  mem : gmap Z Z; kheap : H; surfs : gmap Z surface;
  g_fb : Z; g_fb_w : Z; g_fb_h : Z; g_fb_pitch4 : Z;
}.

Definition set_mem (g : sw) (m : gmap Z Z) : sw :=
  mk_sw m g.(kheap) g.(surfs) g.(g_fb) g.(g_fb_w) g.(g_fb_h) g.(g_fb_pitch4).
Definition set_kheap (g : sw) (h : H) : sw :=
  mk_sw g.(mem) h g.(surfs) g.(g_fb) g.(g_fb_w) g.(g_fb_h) g.(g_fb_pitch4).
Definition set_surfs (g : sw) (l : gmap Z surface) : sw :=
  mk_sw g.(mem) g.(kheap) l g.(g_fb) g.(g_fb_w) g.(g_fb_h) g.(g_fb_pitch4).

Definition surf (g : sw) (s : Z) : surface := default surface0 (g.(surfs) !! s).

Definition software_backend_set_fb (g : sw) (fb w h pitch_bytes : Z) : sw :=
  mk_sw g.(mem) g.(kheap) g.(surfs) fb w h (pitch_bytes / 4).

Definition software_backend_get_size (g : sw) : Z * Z := (g.(g_fb_w), g.(g_fb_h)).

Definition sw_surface_create (g : sw) (w h fmt : Z) : sw * Z :=
  if (w =? 0) || (h =? 0) then (g, 0)
  else
    let bytes := u64 (w * h * 4) in
    if negb (w =? 0) && negb (bytes / 4 / w =? h) then (g, 0)
    else
      let '(k, s) := ka_kmalloc SIZEOF_SURFACE g.(kheap) in
      if s =? 0 then (set_kheap g k, 0)
      else
        let '(k, p) := ka_kmalloc bytes k in
        if p =? 0 then (set_kheap g (ka_kfree s k), 0)
        else
          let g := set_mem (set_kheap g k) (KString.memset g.(mem) (p / 4) 0 (bytes / 4)) in
          (set_surfs g (<[s := mk_surface w h fmt p]> g.(surfs)), s).

Definition sw_surface_destroy (g : sw) (s : Z) : sw :=
  if s =? 0 then g
  else
    let p := (surf g s).(s_pixels) in
    let g := if negb (p =? 0) then set_kheap g (ka_kfree p g.(kheap)) else g in
    set_surfs (set_kheap g (ka_kfree s g.(kheap))) (delete s g.(surfs)).

Definition sw_surface_upload (g : sw) (s src src_pitch : Z) (rect : ghal_rect_t) : sw :=
  if (s =? 0) || (src =? 0) then g
  else
    let o := surf g s in
    if (o.(s_width) <=? rect.(gx)) || (o.(s_height) <=? rect.(gy)) then g
    else if (rect.(gw) =? 0) || (rect.(gh) =? 0) then g
    else
      let w := clamp rect.(gw) (o.(s_width) - rect.(gx)) in
      let h := clamp rect.(gh) (o.(s_height) - rect.(gy)) in
      let src_row := src / 4 + (rect.(gy) * src_pitch + rect.(gx)) in
      let dst_row := o.(s_pixels) / 4 + (rect.(gy) * o.(s_width) + rect.(gx)) in
      set_mem g (copy_rows g.(mem) dst_row o.(s_width) src_row src_pitch w h).

Definition sw_fill_rect (g : sw) (dst : Z) (rect : ghal_rect_t) (argb : Z) : sw :=
  if dst =? 0 then g
  else
    let o := surf g dst in
    if (o.(s_width) <=? rect.(gx)) || (o.(s_height) <=? rect.(gy)) then g
    else
      let w := clamp rect.(gw) (o.(s_width) - rect.(gx)) in
      let h := clamp rect.(gh) (o.(s_height) - rect.(gy)) in
      let color := Z.land argb 0xFFFFFF in
      set_mem g (for_loop 0 h (fun y m =>
        let row := o.(s_pixels) / 4 + (u32 (rect.(gy) + y) * o.(s_width) + rect.(gx)) in
        for_loop 0 w (fun x m => st m (row + x) color) m) g.(mem)).

Definition sw_blit (g : sw) (dst : Z) (dr : ghal_rect_t) (src : Z) (sr : ghal_rect_t) : sw :=
  if (dst =? 0) || (src =? 0) then g
  else if negb (dr.(gw) =? sr.(gw)) || negb (dr.(gh) =? sr.(gh)) then g
  else
    let d := surf g dst in
    if (d.(s_width) <=? dr.(gx)) || (d.(s_height) <=? dr.(gy)) then g
    else
      let dw := clamp dr.(gw) (d.(s_width) - dr.(gx)) in
      let dh := clamp dr.(gh) (d.(s_height) - dr.(gy)) in
      let s := surf g src in
      if (s.(s_width) <=? sr.(gx)) || (s.(s_height) <=? sr.(gy)) then g
      else
        let sw := clamp sr.(gw) (s.(s_width) - sr.(gx)) in
        let sh := clamp sr.(gh) (s.(s_height) - sr.(gy)) in
        let w := if dw <? sw then dw else sw in
        let h := if dh <? sh then dh else sh in
        let srow := s.(s_pixels) / 4 + (sr.(gy) * s.(s_width) + sr.(gx)) in
        let drow := d.(s_pixels) / 4 + (dr.(gy) * d.(s_width) + dr.(gx)) in
        set_mem g (copy_rows g.(mem) drow d.(s_width) srow s.(s_width) w h).

Definition sw_present (g : sw) (s : Z) (rect : option ghal_rect_t) : sw :=
  if (s =? 0) || ((surf g s).(s_pixels) =? 0) || (g.(g_fb) =? 0) then g
  else
    let o := surf g s in
    let r := match rect with Some r => r | None => mk_grect 0 0 o.(s_width) o.(s_height) end in
    if (o.(s_width) <=? r.(gx)) || (o.(s_height) <=? r.(gy)) then g
    else if (g.(g_fb_w) <=? r.(gx)) || (g.(g_fb_h) <=? r.(gy)) then g
    else
      let w := clamp r.(gw) (o.(s_width) - r.(gx)) in
      let h := clamp r.(gh) (o.(s_height) - r.(gy)) in
      let w := clamp w (g.(g_fb_w) - r.(gx)) in
      let h := clamp h (g.(g_fb_h) - r.(gy)) in
      set_mem g (for_loop 0 h (fun y m =>
        KString.memcpy m (g.(g_fb) / 4 + (u32 (r.(gy) + y) * g.(g_fb_pitch4) + r.(gx)))
          (o.(s_pixels) / 4 + (u32 (r.(gy) + y) * o.(s_width) + r.(gx))) (u32 (w * 4) / 4)) g.(mem)).

Definition software_init (g : sw) : sw * Z := (g, 0).
Definition software_shutdown (g : sw) : sw := g.

Definition software_backend_ops : ghal_backend_ops_t sw :=
  mk_ops sw "software" GHAL_CAP_PARTIAL_FLUSH (Some software_init) (Some software_shutdown)
    (Some sw_surface_create) (Some sw_surface_destroy) (Some sw_surface_upload) (Some sw_fill_rect)
    (Some sw_blit) (Some sw_present).

Definition ghal_set_framebuffer (h : hal sw) (fb width height pitch_bytes : Z) : hal sw :=
  set_dev h (software_backend_set_fb h.(dev) fb width height pitch_bytes).
End software.
#[global] Arguments sw H : clear implicits.
End Software.
