(* ===== verification/SoftwareThm.v ===== *)
(** * The software backend: what its operations write

    Each operation of [Software] changes exactly the pixels of the clamped
    rectangle: nothing outside the destination array is written, and the pixels
    inside become the source pixels.  [hal_flush] composes the compositor with
    the backend. *)

From S2P Require Import Prelude KString Display Ghal Software.
From stdpp Require Import base numbers list gmap strings.
From Stdlib Require Import ZArith Lia.
Import Ghal Software.

#[local] Open Scope Z_scope.

Module SoftwareThm.

Lemma clamp_min v mx : clamp v mx = Z.min v mx.
Proof. unfold clamp. zcases. Qed.

Lemma row_cells w : 0 <= w < 2 ^ 30 -> u32 (w * 4) / 4 = w.
Proof. intros. rewrite wrap_small by lia. divlia. Qed.

(** Copying rows between places whose rows do not overlap. *)
Lemma rows_spec (n h : Z) (d s : Z -> Z) m :
  0 <= n -> 0 <= h ->
  (forall y y', 0 <= y < h -> 0 <= y' < h -> d y + n <= s y' \/ s y' + n <= d y) ->
  (forall y y', 0 <= y < y' -> y' < h -> d y + n <= d y' ) ->
  let m' := for_loop 0 h (fun y m => KString.memcpy m (d y) (s y) n) m in
  (forall y k, 0 <= y < h -> 0 <= k < n -> ld m' (d y + k) = ld m (s y + k)) /\
  (forall a, (forall y k, 0 <= y < h -> 0 <= k < n -> a <> d y + k) -> ld m' a = ld m a).
Proof.
  intros Hn Hh Hds Hdd.
  apply (for_loop_inv (fun i m' =>
    (forall y k, 0 <= y < i -> 0 <= k < n -> ld m' (d y + k) = ld m (s y + k)) /\
    (forall a, (forall y k, 0 <= y < i -> 0 <= k < n -> a <> d y + k) -> ld m' a = ld m a))); [done| |].
  { split; [intros; lia|done]. }
  intros i m1 Hi [HA HB].
  assert (forall a, ld (KString.memcpy m1 (d i) (s i) n) a =
    if (d i <=? a) && (a <? d i + n) then ld m1 (s i + (a - d i)) else ld m1 a) as E.
  { intros a. apply KString.copy_up; [done|]. specialize (Hds i i). lia. }
  split.
  - intros y k Hy Hk. rewrite E. destruct (Z.eq_dec y i) as [->|].
    + rewrite (proj2 (Z.leb_le _ _)), (proj2 (Z.ltb_lt _ _)) by lia. cbn [andb].
      replace (d i + k - d i) with k by lia. apply HB. intros y' k' Hy' Hk'. specialize (Hds y' i). lia.
    + specialize (Hdd y i ltac:(lia) ltac:(lia)). rewrite (proj2 (Z.leb_gt _ _)) by lia. cbn [andb].
      apply HA; lia.
  - intros a Ha. rewrite E. zcase; zcase; cbn [andb]; try (apply HB; intros; apply Ha; lia).
    exfalso. apply (Ha i (a - d i)); lia.
Qed.

(** A pixel array of [w] by [h] pixels with row length [pitch] at [base]. *)
Record grid := mk_grid { gbase : Z; gpitch : Z; gwid : Z; ghgt : Z }.
Definition gcell (g : grid) (px py : Z) : Z := g.(gbase) + (py * g.(gpitch) + px).
Definition grid_ok (g : grid) : Prop := 0 <= g.(gwid) <= g.(gpitch) /\ 0 <= g.(ghgt) < 2 ^ 32 /\ g.(gwid) < 2 ^ 30.
Definition grid_end (g : grid) : Z := g.(gbase) + g.(ghgt) * g.(gpitch).
(** The memories of two arrays do not overlap. *)
Definition apart (a b : grid) : Prop := grid_end a <= b.(gbase) \/ grid_end b <= a.(gbase).

Lemma gcell_in g px py :
  grid_ok g -> 0 <= px < gwid g -> 0 <= py < ghgt g -> g.(gbase) <= gcell g px py < grid_end g.
Proof.
  intros (Hw & Hh & _) Hx Hy. unfold gcell, grid_end.
  pose proof (Display.grid_in (gpitch g) (ghgt g) py px). lia.
Qed.

Lemma gcell_inj g px py qx qy :
  grid_ok g -> 0 <= px < gwid g -> 0 <= qx < gwid g -> gcell g px py = gcell g qx qy -> px = qx /\ py = qy.
Proof.
  intros (Hw & _) Hx Hq E. unfold gcell in E.
  destruct (Display.grid_inj (gpitch g) py px qy qx); lia.
Qed.

Lemma gcell_apart a b px py qx qy :
  grid_ok a -> grid_ok b -> apart a b ->
  0 <= px < gwid a -> 0 <= py < ghgt a -> 0 <= qx < gwid b -> 0 <= qy < ghgt b ->
  gcell a px py <> gcell b qx qy.
Proof.
  intros Ha Hb Hab Hx Hy Hqx Hqy. pose proof (gcell_in a px py Ha). pose proof (gcell_in b qx qy Hb).
  unfold apart in Hab. lia.
Qed.

(** A cell is a pixel of the array or it is not. *)
Lemma gcell_dec g c :
  grid_ok g ->
  (exists px py, 0 <= px < gwid g /\ 0 <= py < ghgt g /\ c = gcell g px py) \/
  (forall px py, 0 <= px < gwid g -> 0 <= py < ghgt g -> c <> gcell g px py).
Proof.
  intros Hg. pose proof Hg as (Hw & Hh & _). destruct (Z.eq_dec (gwid g) 0) as [E|E]; [right; intros; lia|].
  pose proof (Z.div_mod (c - gbase g) (gpitch g) ltac:(lia)) as Ed.
  pose proof (Z.mod_pos_bound (c - gbase g) (gpitch g) ltac:(lia)) as Hm.
  set (q := (c - gbase g) / gpitch g) in *. set (r := (c - gbase g) mod gpitch g) in *. clearbody q r.
  destruct (decide (r < gwid g /\ 0 <= q < ghgt g)) as [Hin|Hout].
  - left. exists r, q. unfold gcell. splits; lia.
  - right. intros px py Hx Hy Ec. apply Hout. unfold gcell in Ec.
    destruct (Display.grid_inj (gpitch g) q r py px); lia.
Qed.

(** Copying a rectangle of [w] by [h] pixels at [(sx, sy)] of [b] to [(dx, dy)] of
    [a]. *)
Lemma grid_copy a b dx dy sx sy w h m :
  grid_ok a -> grid_ok b -> apart a b -> 0 <= w -> 0 <= h ->
  0 <= dx -> dx + w <= gwid a -> 0 <= dy -> dy + h <= ghgt a ->
  0 <= sx -> sx + w <= gwid b -> 0 <= sy -> sy + h <= ghgt b ->
  let m' := for_loop 0 h (fun y m => KString.memcpy m (gcell a dx (dy + y)) (gcell b sx (sy + y)) w) m in
  (forall i j, 0 <= i < w -> 0 <= j < h -> ld m' (gcell a (dx + i) (dy + j)) = ld m (gcell b (sx + i) (sy + j))) /\
  (forall c, (forall i j, 0 <= i < w -> 0 <= j < h -> c <> gcell a (dx + i) (dy + j)) -> ld m' c = ld m c).
Proof.
  intros Ha Hb Hab Hw Hh Hdx Hdx' Hdy Hdy' Hsx Hsx' Hsy Hsy'.
  assert (forall g px py i, gcell g (px + i) py = gcell g px py + i) as Eg by (intros; unfold gcell; lia).
  destruct (Z.eq_dec w 0) as [->|].
  { cbv zeta. split; [intros; lia|]. intros c _.
    apply (for_loop_pres (fun m' => ld m' c = ld m c)); [done|]. intros i m1 Hi <-.
    unfold KString.memcpy. by rewrite for_loop_nil. }
  destruct (rows_spec w h (fun y => gcell a dx (dy + y)) (fun y => gcell b sx (sy + y)) m) as [HA HB]; [lia..| | |].
  { intros y y' Hy Hy'.
    pose proof (gcell_in a dx (dy + y) Ha). pose proof (gcell_in a (dx + (w - 1)) (dy + y) Ha).
    pose proof (gcell_in b sx (sy + y') Hb). pose proof (gcell_in b (sx + (w - 1)) (sy + y') Hb).
    rewrite Eg in *. unfold apart in Hab. lia. }
  { intros y y' Hy Hy'. unfold gcell. destruct Ha as (Ha & _). nia. }
  split.
  - intros i j Hi Hj. rewrite !Eg. by apply HA.
  - intros c Hc. apply HB. intros y k Hy Hk. rewrite <- Eg. by apply Hc.
Qed.

(** The pixel array of a surface. *)
Definition surface_grid (o : surface) : grid := mk_grid (o.(s_pixels) / 4) o.(s_width) o.(s_width) o.(s_height).

(** The pixels of [r] inside an array of [w] by [h]. *)
Definition hit (r : ghal_rect_t) (w h px py : Z) : Prop :=
  r.(gx) <= px < r.(gx) + r.(gw) /\ px < w /\ r.(gy) <= py < r.(gy) + r.(gh) /\ py < h.

Definition grect_ok (r : ghal_rect_t) : Prop :=
  0 <= r.(gx) < 2 ^ 32 /\ 0 <= r.(gy) < 2 ^ 32 /\ 0 <= r.(gw) < 2 ^ 32 /\ 0 <= r.(gh) < 2 ^ 32.

(** [copies a b P dx dy m m']: each pixel [P] of [a] is the pixel of [b] that lies
    [(dx, dy)] before it, and no other cell has changed. *)
Definition copies (a b : grid) (P : Z -> Z -> Prop) (dx dy : Z) (m m' : gmap Z Z) : Prop :=
  (forall px py, P px py -> ld m' (gcell a px py) = ld m (gcell b (px - dx) (py - dy))) /\
  (forall c, (forall px py, P px py -> c <> gcell a px py) -> ld m' c = ld m c).

Lemma copies_none a b P dx dy m : (forall px py, ~ P px py) -> copies a b P dx dy m m.
Proof. intros Hno. split; [|done]. intros px py Hp. by destruct (Hno px py). Qed.

Lemma copies_rect a b dx dy sx sy ox oy w h body m (P : Z -> Z -> Prop) :
  grid_ok a -> grid_ok b -> apart a b -> 0 <= w -> 0 <= h ->
  0 <= dx -> dx + w <= gwid a -> 0 <= dy -> dy + h <= ghgt a ->
  0 <= sx -> sx + w <= gwid b -> 0 <= sy -> sy + h <= ghgt b ->
  (forall y m, 0 <= y < h -> body y m = KString.memcpy m (gcell a dx (dy + y)) (gcell b sx (sy + y)) w) ->
  (forall px py, P px py <-> dx <= px < dx + w /\ dy <= py < dy + h) ->
  ox = dx - sx -> oy = dy - sy -> copies a b P ox oy m (for_loop 0 h body m).
Proof.
  intros Ha Hb Hab Hw Hh Hdx Hdx' Hdy Hdy' Hsx Hsx' Hsy Hsy' Hbody HP -> ->.
  rewrite (for_loop_ext 0 h _ _ m Hbody).
  destruct (grid_copy a b dx dy sx sy w h m) as [HA HB]; [done..|]. split.
  - intros px py Hp%HP. specialize (HA (px - dx) (py - dy) ltac:(lia) ltac:(lia)).
    replace (dx + (px - dx)) with px in HA by lia. replace (dy + (py - dy)) with py in HA by lia.
    rewrite HA. do 2 f_equal; lia.
  - intros c Hc. apply HB. intros i j Hi Hj. apply Hc, HP. lia.
Qed.

(** One copy after another between the same two arrays. *)
Lemma copies_then a b (P Q : Z -> Z -> Prop) `{forall px py, Decision (Q px py)} m m1 m2 :
  grid_ok a -> grid_ok b -> apart a b ->
  (forall px py, P px py \/ Q px py ->
     0 <= px < gwid a /\ 0 <= py < ghgt a /\ px < gwid b /\ py < ghgt b) ->
  copies a b P 0 0 m m1 -> copies a b Q 0 0 m1 m2 -> copies a b (fun px py => P px py \/ Q px py) 0 0 m m2.
Proof.
  intros Ha Hb Hab Hin [P1 P2] [Q1 Q2].
  assert (forall px py, P px py \/ Q px py -> ld m1 (gcell b (px - 0) (py - 0)) = ld m (gcell b (px - 0) (py - 0))) as Hsrc.
  { intros px py Hp. apply P2. intros qx qy Hq E. pose proof (Hin _ _ Hp). pose proof (Hin qx qy (or_introl Hq)).
    by eapply (gcell_apart a b qx qy (px - 0) (py - 0)); try done; try lia. }
  split.
  - intros px py Hp. destruct (decide (Q px py)) as [Hq|Hq].
    + rewrite Q1 by done. auto.
    + rewrite Q2; [apply P1; tauto|]. intros qx qy Hqq E. pose proof (Hin _ _ Hp). pose proof (Hin qx qy (or_intror Hqq)).
      apply gcell_inj in E as [-> ->]; [done|done|lia|lia].
  - intros c Hc. rewrite Q2 by (intros; apply Hc; tauto). apply P2. intros. apply Hc. tauto.
Qed.

Lemma copies_iff a b (P Q : Z -> Z -> Prop) dx dy m m' :
  (forall px py, P px py <-> Q px py) -> copies a b P dx dy m m' -> copies a b Q dx dy m m'.
Proof.
  intros E [H1 H2]. split; [intros px py Hp; by apply H1, E|]. intros c Hc. apply H2. intros px py Hp. by apply Hc, E.
Qed.

(** Rows of which the code computes the address from base, row and column. *)
Ltac row_body := intros; rewrite ?row_cells by lia; rewrite ?wrap_small by lia; f_equal; unfold gcell; cbn; lia.

Section ops.
Context {H : Type} `{KAlloc H}.
Implicit Types g : sw H.

Lemma same_mem g : g = set_mem g (mem g).
Proof. by destruct g. Qed.

(** Nothing is hit: the operation returns early. *)
Ltac nothing := eexists; split; [apply same_mem|]; apply copies_none; unfold hit; intros; lia.

Lemma upload_spec g s src pitch r bw bh :
  let o := surf g s in
  let a := surface_grid o in
  let b := mk_grid (src / 4) pitch bw bh in
  s <> 0 -> src <> 0 -> grect_ok r -> grid_ok a -> grid_ok b -> apart a b ->
  s_width o <= bw -> s_height o <= bh ->
  exists m', sw_surface_upload g s src pitch r = set_mem g m' /\
    copies a b (hit r (s_width o) (s_height o)) 0 0 (mem g) m'.
Proof.
  intros o a b Hs Hsrc (R1 & R2 & R3 & R4) Ha Hb Hab Hw Hh. unfold sw_surface_upload.
  rewrite !(proj2 (Z.eqb_neq _ _)) by done. cbn [orb]. fold o.
  assert (grid_ok a) as (A1 & A2 & A3) by done. cbn [gwid gpitch ghgt a surface_grid] in A1, A2, A3.
  destruct (Z.leb_spec (s_width o) (gx r)); [nothing|].
  destruct (Z.leb_spec (s_height o) (gy r)); [nothing|]. cbn [orb].
  destruct (Z.eqb_spec (gw r) 0); [nothing|]. destruct (Z.eqb_spec (gh r) 0); [nothing|]. cbn [orb].
  eexists; split; [reflexivity|]. rewrite !clamp_min. unfold copy_rows.
  eapply copies_rect with (dx := gx r) (dy := gy r) (sx := gx r) (sy := gy r) (w := Z.min (gw r) (s_width o - gx r)); try done; cbn; try lia; [row_body|].
  unfold hit. intros; lia.
Qed.

Definition fb_grid g : grid := mk_grid (g_fb g / 4) (g_fb_pitch4 g) (g_fb_w g) (g_fb_h g).

Lemma present_spec g s ro :
  let o := surf g s in
  let a := fb_grid g in
  let b := surface_grid o in
  let r := default (mk_grect 0 0 (s_width o) (s_height o)) ro in
  s <> 0 -> s_pixels o <> 0 -> g_fb g <> 0 -> grect_ok r -> grid_ok a -> grid_ok b -> apart a b ->
  exists m', sw_present g s ro = set_mem g m' /\
    copies a b (hit r (Z.min (s_width o) (g_fb_w g)) (Z.min (s_height o) (g_fb_h g))) 0 0 (mem g) m'.
Proof.
  intros o a b r Hs Hp Hf (R1 & R2 & R3 & R4) Ha Hb Hab. unfold sw_present. fold o.
  rewrite !(proj2 (Z.eqb_neq _ _)) by done. cbn [orb]. cbv zeta.
  change (match ro with Some r => r | None => mk_grect 0 0 (s_width o) (s_height o) end) with r.
  assert (grid_ok a) as (A1 & A2 & A3) by done. cbn [gwid gpitch ghgt a fb_grid] in A1, A2, A3.
  assert (grid_ok b) as (B1 & B2 & B3) by done. cbn [gwid gpitch ghgt b surface_grid] in B1, B2, B3.
  destruct (Z.leb_spec (s_width o) (gx r)); [nothing|]. destruct (Z.leb_spec (s_height o) (gy r)); [nothing|].
  destruct (Z.leb_spec (g_fb_w g) (gx r)); [nothing|]. destruct (Z.leb_spec (g_fb_h g) (gy r)); [nothing|].
  cbn [orb]. eexists; split; [reflexivity|]. rewrite !clamp_min.
  eapply copies_rect with (dx := gx r) (dy := gy r) (sx := gx r) (sy := gy r) (w := Z.min (Z.min (gw r) (s_width o - gx r)) (g_fb_w g - gx r)); try done; cbn; try lia.
  - row_body.
  - unfold hit. intros; lia.
Qed.

Lemma blit_spec g dst dr src sr :
  let d := surf g dst in
  let o := surf g src in
  let a := surface_grid d in
  let b := surface_grid o in
  let w := Z.min (gw dr) (Z.min (s_width d - gx dr) (s_width o - gx sr)) in
  let h := Z.min (gh dr) (Z.min (s_height d - gy dr) (s_height o - gy sr)) in
  dst <> 0 -> src <> 0 -> gw dr = gw sr -> gh dr = gh sr ->
  grect_ok dr -> grect_ok sr -> grid_ok a -> grid_ok b -> apart a b ->
  exists m', sw_blit g dst dr src sr = set_mem g m' /\
    copies a b (fun px py => gx dr <= px < gx dr + w /\ gy dr <= py < gy dr + h)
      (gx dr - gx sr) (gy dr - gy sr) (mem g) m'.
Proof.
  intros d o a b w h Hd Hs Ew Eh (R1 & R2 & R3 & R4) (S1 & S2 & S3 & S4) Ha Hb Hab. unfold sw_blit. fold d o.
  rewrite !(proj2 (Z.eqb_neq _ _)) by done. rewrite !(proj2 (Z.eqb_eq _ _)) by done. cbn [orb negb]. cbv zeta.
  assert (grid_ok a) as (A1 & A2 & A3) by done. cbn [gwid gpitch ghgt a surface_grid] in A1, A2, A3.
  assert (grid_ok b) as (B1 & B2 & B3) by done. cbn [gwid gpitch ghgt b surface_grid] in B1, B2, B3.
  destruct (Z.leb_spec (s_width d) (gx dr)); [nothing|]. destruct (Z.leb_spec (s_height d) (gy dr)); [nothing|].
  destruct (Z.leb_spec (s_width o) (gx sr)); [nothing|]. destruct (Z.leb_spec (s_height o) (gy sr)); [nothing|].
  cbn [orb]. rewrite !clamp_min. unfold copy_rows.
  replace (if Z.min (gw dr) (s_width d - gx dr) <? Z.min (gw sr) (s_width o - gx sr) then _ else _)
    with w by (zcase; lia).
  replace (if Z.min (gh dr) (s_height d - gy dr) <? Z.min (gh sr) (s_height o - gy sr) then _ else _)
    with h by (zcase; lia).
  eexists; split; [reflexivity|].
  eapply copies_rect with (dx := gx dr) (dy := gy dr) (sx := gx sr) (sy := gy sr) (w := w); try done; cbn; try lia. row_body.
Qed.
End ops.
End SoftwareThm.
