(* ===== verification/HalFlush.v ===== *)
(** * From the compositor to the screen

    [compositor_flush] hands the damage of a frame to the graphics HAL; here its
    calls are executed by the HAL with the software backend, on the memory the
    compositor has drawn into.  The result is that the screen shows the back
    buffer. *)

From S2P Require Import Prelude KString Display Kwm Compositor CompositorThm Ghal Software SoftwareThm.
From stdpp Require Import base numbers list gmap strings.
From Stdlib Require Import ZArith Lia.
Import Display Kwm Compositor CompositorThm Ghal Software SoftwareThm.

#[local] Open Scope list_scope.
#[local] Open Scope Z_scope.

Module HalFlush.
Section flush.
Context {H : Type} `{KAlloc H} (font : Z -> Z -> Z) (arrow : Z -> Z -> Z).
Notation screen := (screen (H := H)).
Implicit Types (s : screen) (m : gmap Z Z).

(** ** The HAL calls of a frame, executed *)

Context (ops_at : Z -> ghal_backend_ops_t (sw H)).

Definition grect (r : Rect) : ghal_rect_t := mk_grect r.(x) r.(y) r.(width) r.(height).

(** One call of the compositor, for the main surface [surf]. *)
Definition hal_do (surf back pitch : Z) (h : hal (sw H)) (c : hal_call) : hal (sw H) :=
  match c with
  | SurfaceUpload r => ghal_surface_upload ops_at h surf back pitch (grect r)
  | Present r => ghal_present ops_at h surf (Some (grect r))
  end.

(** A frame: the compositor draws, then the HAL executes the new calls on the
    same memory. *)
Definition hal_flush (surf : Z) (h : hal (sw H)) (s : screen) : hal (sw H) * screen :=
  let s' := compositor_flush font arrow s in
  let calls := drop (length s.(Compositor.hal)) s'.(Compositor.hal) in
  let h := set_dev h (set_mem h.(dev) (spix s')) in
  let h := foldl (hal_do surf s.(backbuffer) (u32 (i32 (s.(fb_pitch) / 4)))) h calls in
  (h, set_spix s' h.(dev).(mem)).

(** ** The calls cover the damage *)

(** A non-empty rectangle on a screen of [W] by [Ht] pixels. *)
Definition on_screen (W Ht : Z) (r : Rect) : Prop :=
  0 <= r.(x) /\ 0 < r.(width) /\ r.(x) + r.(width) <= W /\ 0 <= r.(y) /\ 0 < r.(height) /\ r.(y) + r.(height) <= Ht.

Lemma hal_union_spec W Ht u r :
  W < 2 ^ 31 -> Ht < 2 ^ 31 -> on_screen W Ht u -> on_screen W Ht r ->
  on_screen W Ht (hal_union u r) /\
  forall px py, in_rect u px py \/ in_rect r px py -> in_rect (hal_union u r) px py.
Proof.
  intros HW HH (U1 & U2 & U3 & U4 & U5 & U6) (R1 & R2 & R3 & R4 & R5 & R6). unfold hal_union. cbv zeta.
  rewrite (wrap_small 32 (x u + width u)), (wrap_small 32 (y u + height u)),
    (wrap_small 32 (x r + width r)), (wrap_small 32 (y r + height r)) by lia.
  unfold on_screen, in_rect. cbn [x y width height].
  destruct (Z.ltb_spec (x r) (x u)), (Z.ltb_spec (y r) (y u)), (Z.ltb_spec (x u + width u) (x r + width r)),
    (Z.ltb_spec (y u + height u) (y r + height r)); rewrite !wrap_small by lia; splits; intros; lia.
Qed.

(** The visible part of region [i] of the damage. *)
Definition visible_region (W Ht : Z) (d : DirtyRegionList) (i : Z) : option Rect :=
  rect_intersect (region d i) (mk_rect 0 0 W Ht).

Lemma visible_region_spec W Ht d i :
  0 <= W < 2 ^ 31 -> 0 <= Ht < 2 ^ 31 -> rect_near (region d i) ->
  match visible_region W Ht d i with
  | Some r => on_screen W Ht r /\
      forall px py, in_rect r px py <-> in_rect (region d i) px py /\ 0 <= px < W /\ 0 <= py < Ht
  | None => forall px py, ~ (in_rect (region d i) px py /\ 0 <= px < W /\ 0 <= py < Ht)
  end.
Proof.
  intros HW HH (N1 & N2 & N3 & N4 & N5 & N6). unfold visible_region.
  pose proof (rect_intersect_spec (region d i) (mk_rect 0 0 W Ht)) as E.
  destruct (rect_intersect _ _) as [r|]; specialize (E ltac:(unfold rect_ok; lia) ltac:(unfold rect_ok; cbn; lia)).
  - destruct E as (Ro & Hw & Hh & E).
    assert (forall px py, in_rect r px py <-> in_rect (region d i) px py /\ 0 <= px < W /\ 0 <= py < Ht) as E'.
    { intros. rewrite E. unfold in_rect. cbn. lia. }
    split; [|done]. pose proof (E' (x r) (y r)) as E1.
    pose proof (E' (x r + width r - 1) (y r + height r - 1)) as E2. unfold in_rect, on_screen in *. lia.
  - intros px py Hp. apply (E px py). unfold in_rect in *. cbn. lia.
Qed.

(** What the uploads [rs] of a frame are for the damage [d] up to region [n]. *)
Definition uploads_for (W Ht : Z) (d : DirtyRegionList) (n : Z) (rs : list Rect) : Prop :=
  Forall (on_screen W Ht) rs /\
  forall px py, (exists r, r ∈ rs /\ in_rect r px py) <->
    (exists i, 0 <= i < n /\ in_rect (region d i) px py) /\ 0 <= px < W /\ 0 <= py < Ht.

Lemma present_hal_calls s d W Ht :
  0 <= W < 2 ^ 31 -> 0 <= Ht < 2 ^ 31 -> dirty_ok d ->
  exists rs u, present_hal s d (mk_rect 0 0 W Ht) =
      set_hal s (s.(Compositor.hal) ++ (SurfaceUpload <$> rs) ++ match u with Some u => [Present u] | None => [] end) /\
    uploads_for W Ht d (count d) rs /\
    match u with
    | None => rs = []
    | Some u => on_screen W Ht u /\ forall r px py, r ∈ rs -> in_rect r px py -> in_rect u px py
    end.
Proof.
  intros HW HH (Hc & _ & Hd). unfold present_hal.
  pose (I := fun (n : Z) (p : list hal_call * option Rect) => exists rs, p.1 = SurfaceUpload <$> rs /\
    uploads_for W Ht d n rs /\
    match p.2 with
    | None => rs = []
    | Some u => on_screen W Ht u /\ forall r px py, r ∈ rs -> in_rect r px py -> in_rect u px py
    end).
  match goal with |- context [for_loop 0 (count d) ?f ?p] =>
    assert (I (count d) (for_loop 0 (count d) f p)) as HI end.
  { apply for_loop_inv; [lia| |].
    - exists []. split; [done|]. split; [|done]. split; [constructor|]. intros px py.
      split; [intros (r & Hr & _); by apply not_elem_of_nil in Hr|]. intros ((i & ? & _) & _). lia.
    - intros i [calls u] Hi (rs & E & [HF HU] & Hu). cbn [fst snd] in E, Hu.
      pose proof (visible_region_spec W Ht d i HW HH (Hd i Hi)) as Hv. unfold visible_region in Hv.
      destruct (rect_intersect _ _) as [r|].
      + destruct Hv as [Hr Hin].
        replace (mk_rect (u32 (x r)) (u32 (y r)) (width r) (height r)) with r.
        2:{ destruct r, Hr as (? & ? & ? & ? & ? & ?). cbn in *. by rewrite !wrap_small by lia. }
        exists (rs ++ [r]). cbn [fst snd]. split; [by rewrite E, fmap_app|]. split; [split|].
        * apply Forall_app. split; [done|]. by constructor.
        * intros px py. split.
          -- intros (r' & [Hr'| ->%list_elem_of_singleton]%elem_of_app & Hp).
             ++ destruct (proj1 (HU px py)) as ((j & ? & ?) & ?); [by exists r'|]. split; [|done]. exists j. split; [lia|done].
             ++ apply Hin in Hp as [? ?]. split; [|done]. exists i. split; [lia|done].
          -- intros ((j & Hj & Hp) & Hs). destruct (Z.eq_dec j i) as [->|].
             ++ exists r. split; [set_solver|]. by apply Hin.
             ++ destruct (proj2 (HU px py)) as (r' & ? & ?); [split; [exists j; split; [lia|done]|done]|].
                exists r'. split; [set_solver|done].
        * destruct u as [u|].
          -- destruct Hu as [Hu1 Hu2]. destruct (hal_union_spec W Ht u r) as [U1 U2]; [lia|lia|done..|].
             split; [done|]. intros r' px py [Hr'| ->%list_elem_of_singleton]%elem_of_app Hp; apply U2; [left; eauto|by right].
          -- split; [done|]. subst rs. by intros r' px py ->%list_elem_of_singleton.
      + exists rs. split; [done|]. split; [|done]. split; [done|]. intros px py. rewrite HU. split.
        * intros ((j & ? & ?) & ?). split; [exists j; split; [lia|done]|done].
        * intros ((j & Hj & Hp) & Hs). split; [|done]. exists j. split; [|done].
          destruct (Z.eq_dec j i) as [->|]; [|lia]. by destruct (Hv px py). }
  destruct (for_loop 0 (count d) _ _) as [calls u]. destruct HI as (rs & E & HU & Hu). cbn [fst snd] in E, Hu.
  exists rs, u. by rewrite E.
Qed.

(** ** The software backend executes them *)

Context (Hops : ops_at software_backend = software_backend_ops).

#[local] Instance in_rect_dec r px py : Decision (in_rect r px py).
Proof. unfold in_rect. apply _. Defined.

Section run.
Context (srf back pitch W Ht : Z).
Notation back_grid := (mk_grid (back / 4) pitch W Ht).

(** The main surface [srf] has the size of the screen, and its pixels are not in
    the back buffer. *)
Record surface_ready (g : sw H) : Prop := {
  sr_ptr : srf <> 0;
  sr_back : back <> 0;
  sr_pixels : s_pixels (surf g srf) <> 0;
  sr_width : s_width (surf g srf) = W;
  sr_height : s_height (surf g srf) = Ht;
  sr_grid : grid_ok (surface_grid (surf g srf));
  sr_src : grid_ok back_grid;
  sr_apart : apart (surface_grid (surf g srf)) back_grid;
}.

Lemma surface_ready_mem g m : surface_ready g -> surface_ready (set_mem g m).
Proof. intros []. by constructor. Qed.

Lemma surf_set_mem (g : sw H) m : surf (set_mem g m) srf = surf g srf.
Proof. done. Qed.

Lemma grect_screen r : on_screen W Ht r -> W < 2 ^ 31 -> Ht < 2 ^ 31 ->
  grect_ok (grect r) /\ forall px py, hit (grect r) W Ht px py <-> in_rect r px py.
Proof.
  intros (R1 & R2 & R3 & R4 & R5 & R6) HW HH. unfold grect_ok, hit, in_rect. cbn. splits; intros; lia.
Qed.

Lemma in_screen r px py : on_screen W Ht r -> in_rect r px py -> 0 <= px < W /\ 0 <= py < Ht.
Proof. unfold on_screen, in_rect. lia. Qed.

Lemma uploads_run h rs :
  W < 2 ^ 31 -> Ht < 2 ^ 31 -> g_active h = software_backend -> surface_ready (dev h) -> Forall (on_screen W Ht) rs ->
  exists m', foldl (hal_do srf back pitch) h (SurfaceUpload <$> rs) = set_dev h (set_mem (dev h) m') /\
    copies (surface_grid (surf (dev h) srf)) back_grid (fun px py => exists r, r ∈ rs /\ in_rect r px py) 0 0
      (mem (dev h)) m'.
Proof.
  intros HW HH Ha Hr Hrs. revert h Ha Hr. induction Hrs as [|r rs Hon Hrs IH]; intros h Ha Hr.
  { exists (mem (dev h)). split; [by destruct h as [? ? ? []]|]. apply copies_none.
    intros px py (r & Hin & _). by apply not_elem_of_nil in Hin. }
  cbn [fmap list_fmap foldl]. destruct (grect_screen r Hon HW HH) as [Hg Hhit].
  destruct Hr as [R1 R2 R3 R4 R5 R6 R7 R8] eqn:E; clear E.
  destruct (upload_spec (dev h) srf back pitch (grect r) W Ht) as (m1 & E1 & C1); try done; try lia.
  assert (hal_do srf back pitch h (SurfaceUpload r) = set_dev h (set_mem (dev h) m1)) as ->.
  { cbn [hal_do]. unfold ghal_surface_upload. rewrite Ha, Hops, !(proj2 (Z.eqb_neq _ _)) by done.
    cbn [orb Ghal.call software_backend_ops surface_upload]. by rewrite E1. }
  destruct (IH (set_dev h (set_mem (dev h) m1)) Ha (surface_ready_mem _ m1 Hr)) as (m2 & E2 & C2).
  exists m2. split; [exact E2|]. cbn [dev set_dev mem set_mem] in C2. rewrite surf_set_mem in C2.
  rewrite R4, R5 in C1. eapply copies_iff in C1; [|exact Hhit].
  assert (forall px py, Decision (exists r, r ∈ rs /\ in_rect r px py)) as Hdec.
  { intros px py. destruct (decide (Exists (fun r => in_rect r px py) rs)) as [Hx|Hx]; rewrite Exists_exists in Hx; [by left|by right]. }
  eapply copies_iff; [|eapply copies_then; [..|exact C1|exact C2]]; try done.
  - intros px py. split; [intros [?|(r' & ? & ?)]; [exists r; set_solver|exists r'; set_solver]|].
    intros (r' & [->|?]%elem_of_cons & ?); eauto.
  - intros px py Hp. assert (0 <= px < W /\ 0 <= py < Ht) as Hs.
    { destruct Hp as [Hp|(r' & Hin & Hp)]; [by eapply in_screen|].
      eapply in_screen; [|exact Hp]. by eapply Forall_forall in Hrs. }
    cbn [gwid ghgt surface_grid]. rewrite R4, R5. cbn. lia.
Qed.

(** The framebuffer has the size of the screen and overlaps neither array. *)
Record fb_ready (g : sw H) : Prop := {
  fr_ptr : g_fb g <> 0;
  fr_width : g_fb_w g = W;
  fr_height : g_fb_h g = Ht;
  fr_grid : grid_ok (fb_grid g);
  fr_apart : apart (fb_grid g) (surface_grid (surf g srf));
  fr_back : apart (fb_grid g) back_grid;
}.

Lemma fb_ready_mem g m : fb_ready g -> fb_ready (set_mem g m).
Proof. intros []. by constructor. Qed.

(** The pixel is the same in the back buffer, on the surface and on the screen. *)
Definition synced (g : sw H) (m : gmap Z Z) (px py : Z) : Prop :=
  ld m (gcell (surface_grid (surf g srf)) px py) = ld m (gcell back_grid px py) /\
  ld m (gcell (fb_grid g) px py) = ld m (gcell back_grid px py).

Lemma present_run h u :
  W < 2 ^ 31 -> Ht < 2 ^ 31 -> g_active h = software_backend ->
  surface_ready (dev h) -> fb_ready (dev h) -> on_screen W Ht u ->
  exists m', hal_do srf back pitch h (Present u) = set_dev h (set_mem (dev h) m') /\
    copies (fb_grid (dev h)) (surface_grid (surf (dev h) srf)) (in_rect u) 0 0 (mem (dev h)) m'.
Proof.
  intros HW HH Ha [R1 R2 R3 R4 R5 R6 R7 R8] [F1 F2 F3 F4 F5 F6] Hon.
  destruct (grect_screen u Hon HW HH) as [Hg Hhit].
  destruct (present_spec (dev h) srf (Some (grect u))) as (m1 & E1 & C1); try done.
  exists m1. split.
  - cbn [hal_do]. unfold ghal_present. rewrite Ha, Hops, !(proj2 (Z.eqb_neq _ _)) by done.
    cbn [orb Ghal.call software_backend_ops present]. by rewrite E1.
  - rewrite R4, R5, F2, F3, !Z.min_id in C1. eapply copies_iff; [exact Hhit|exact C1].
Qed.

(** After the uploads [rs], from memory [m] to [m1]: the back buffer and the screen
    are unchanged, and the surface agrees with the back buffer wherever it did
    before and wherever something was uploaded. *)
Definition uploaded (g : sw H) (rs : list Rect) m m1 : Prop :=
  forall px py, 0 <= px < W -> 0 <= py < Ht ->
    ld m1 (gcell back_grid px py) = ld m (gcell back_grid px py) /\
    ld m1 (gcell (fb_grid g) px py) = ld m (gcell (fb_grid g) px py) /\
    ((exists r, r ∈ rs /\ in_rect r px py) \/ synced g m px py ->
     ld m1 (gcell (surface_grid (surf g srf)) px py) = ld m1 (gcell back_grid px py)).

Lemma uploads_keep g (rs : list Rect) m m1 :
  surface_ready g -> fb_ready g -> Forall (on_screen W Ht) rs ->
  copies (surface_grid (surf g srf)) back_grid (fun px py => exists r, r ∈ rs /\ in_rect r px py) 0 0 m m1 ->
  uploaded g rs m m1.
Proof.
  intros [R1 R2 R3 R4 R5 R6 R7 R8] [F1 F2 F3 F4 F5 F6] Hrs [U1 U2] px py Hx Hy.
  set (S := surface_grid (surf g srf)) in *. set (F := fb_grid g) in *.
  assert (gwid S = W /\ ghgt S = Ht /\ gwid F = W /\ ghgt F = Ht) as (ES1 & ES2 & EF1 & EF2) by done.
  assert (forall px py, (exists r, r ∈ rs /\ in_rect r px py) -> 0 <= px < W /\ 0 <= py < Ht) as Hins.
  { intros qx qy (r & Hin & Hp). eapply in_screen; [|exact Hp]. by eapply Forall_forall in Hrs. }
  assert (ld m1 (gcell back_grid px py) = ld m (gcell back_grid px py)) as HB1.
  { apply U2. intros qx qy Hq%Hins. apply not_eq_sym, (gcell_apart S back_grid); try done; cbn; lia. }
  split; [done|]. split.
  - apply U2. intros qx qy Hq%Hins. apply (gcell_apart F S); try done; lia.
  - intros Hp. destruct (decide (Exists (fun r => in_rect r px py) rs)) as [Hd|Hd]; rewrite Exists_exists in Hd.
    + rewrite U1 by done. by rewrite !Z.sub_0_r, HB1.
    + destruct Hp as [?|[Hs _]]; [done|]. rewrite HB1, <- Hs by done. apply U2. intros qx qy Hq E.
      pose proof (Hins _ _ Hq). apply gcell_inj in E as [-> ->]; [done|done|lia|lia].
Qed.

(** Presenting a rectangle that contains the uploads. *)
Lemma present_keep g (rs : list Rect) u m m1 m2 :
  surface_ready g -> fb_ready g -> on_screen W Ht u ->
  (forall r px py, r ∈ rs -> in_rect r px py -> in_rect u px py) ->
  uploaded g rs m m1 -> copies (fb_grid g) (surface_grid (surf g srf)) (in_rect u) 0 0 m1 m2 ->
  forall px py, 0 <= px < W -> 0 <= py < Ht ->
    ld m2 (gcell back_grid px py) = ld m (gcell back_grid px py) /\
    ((exists r, r ∈ rs /\ in_rect r px py) \/ synced g m px py -> synced g m2 px py).
Proof.
  intros [R1 R2 R3 R4 R5 R6 R7 R8] [F1 F2 F3 F4 F5 F6] Hu1 Hu2 HU [P1 P2] px py Hx Hy.
  destruct (HU px py Hx Hy) as (HB1 & HF1 & HS1). unfold synced in *.
  set (S := surface_grid (surf g srf)) in *. set (F := fb_grid g) in *.
  assert (gwid S = W /\ ghgt S = Ht /\ gwid F = W /\ ghgt F = Ht) as (ES1 & ES2 & EF1 & EF2) by done.
  assert (ld m2 (gcell back_grid px py) = ld m1 (gcell back_grid px py)) as HB2.
  { apply P2. intros qx qy Hq%(in_screen _ _ _ Hu1).
    apply not_eq_sym, (gcell_apart F back_grid); try done; cbn; lia. }
  split; [by rewrite HB2|]. intros Hp. rewrite HB2, <- (HS1 Hp). split.
  - apply P2. intros qx qy Hq%(in_screen _ _ _ Hu1). apply not_eq_sym, (gcell_apart F S); try done; lia.
  - destruct (decide (in_rect u px py)) as [Hd|Hd]; [by rewrite P1, !Z.sub_0_r|].
    rewrite P2. 2:{ intros qx qy Hq E. pose proof (in_screen _ _ _ Hu1 Hq). apply gcell_inj in E as [-> ->]; [done|done|lia|lia]. }
    rewrite HF1, (HS1 Hp), HB1. destruct Hp as [(r & ? & ?)|[_ ?]]; [|done]. destruct Hd. eauto.
Qed.

(** Uploading the rectangles [rs] and presenting a rectangle that contains them. *)
Lemma frame_run h rs u :
  W < 2 ^ 31 -> Ht < 2 ^ 31 -> g_active h = software_backend ->
  surface_ready (dev h) -> fb_ready (dev h) -> Forall (on_screen W Ht) rs ->
  match u with
  | None => rs = []
  | Some u => on_screen W Ht u /\ forall r px py, r ∈ rs -> in_rect r px py -> in_rect u px py
  end ->
  exists m', foldl (hal_do srf back pitch) h
      ((SurfaceUpload <$> rs) ++ match u with Some u => [Present u] | None => [] end)
      = set_dev h (set_mem (dev h) m') /\
    (forall px py, 0 <= px < W -> 0 <= py < Ht ->
       ld m' (gcell back_grid px py) = ld (mem (dev h)) (gcell back_grid px py) /\
       ((exists r, r ∈ rs /\ in_rect r px py) \/ synced (dev h) (mem (dev h)) px py -> synced (dev h) m' px py)).
Proof.
  intros HW HH Ha Hr Hf Hrs Hu. rewrite foldl_app.
  destruct (uploads_run h rs) as (m1 & -> & HU); try done. apply uploads_keep in HU; try done.
  destruct u as [u|].
  - destruct Hu as [Hu1 Hu2]. cbn [foldl].
    destruct (present_run (set_dev h (set_mem (dev h) m1)) u) as (m2 & -> & HP);
      [done|done|done|by apply surface_ready_mem|by apply fb_ready_mem|done|].
    exists m2. split; [done|]. by apply (present_keep (dev h) rs u _ m1).
  - subst rs. exists m1. split; [done|]. intros px py Hx Hy. destruct (HU px py Hx Hy) as (HB & HF & HS).
    split; [done|]. intros Hp. split; [by apply HS|]. rewrite HF, HB.
    destruct Hp as [(r & Hin & _)|[_ ?]]; [by apply not_elem_of_nil in Hin|done].
Qed.
End run.

(** ** What a frame changes in the back buffer *)

Definition screen_grid s (px : Z) : grid :=
  mk_grid (px / 4) (s.(fb_pitch) / 4) s.(sk).(Kwm.fb_width) s.(sk).(Kwm.fb_height).

(** [m'] differs from [m] only in pixels [C] of the back buffer. *)
Definition within s (C : Z -> Z -> Prop) m m' : Prop :=
  forall c, (forall px py, C px py -> c <> gcell (screen_grid s s.(backbuffer)) px py) -> ld m' c = ld m c.

Lemma within_refl s C m : within s C m m.
Proof. done. Qed.

Lemma within_trans s C m1 m2 m3 : within s C m1 m2 -> within s C m2 m3 -> within s C m1 m3.
Proof. intros H1 H2 c Hc. by rewrite H2, H1. Qed.

Lemma within_mono s (C D : Z -> Z -> Prop) m m' :
  (forall px py, C px py -> D px py) -> within s C m m' -> within s D m m'.
Proof. intros Hcd Hw c Hc. apply Hw. auto. Qed.

Definition static_db s (px : Z) : DisplayBuffer :=
  mk_db s.(sk).(Kwm.fb_width) s.(sk).(Kwm.fb_height) (s.(fb_pitch) / 4) COLOR_FORMAT_XRGB8888 px false 0.

(** The static buffers are wrapped and fit a frame; the windows have machine
    coordinates. *)
Record drawable s : Prop := {
  dr_width : 0 < Kwm.fb_width (sk s) <= fb_pitch s / 4;
  dr_height : 0 < Kwm.fb_height (sk s);
  dr_size : Kwm.fb_height (sk s) * (fb_pitch s / 4) < 2 ^ 30;
  dr_screen : db_at (gs (sk s)) g_screen_db = static_db s (base_canvas s);
  dr_back : db_at (gs (sk s)) g_back_db = static_db s (backbuffer s);
  dr_base : base_canvas s <> 0;
  dr_apart : apart (screen_grid s (base_canvas s)) (screen_grid s (backbuffer s));
  dr_windows : forall i, 0 <= i < MAX_WINDOWS -> win_ok (win (sk s) i);
}.

Lemma drawable_bounds s : drawable s -> fb_pitch s / 4 < 2 ^ 30 /\ Kwm.fb_height (sk s) < 2 ^ 30.
Proof. intros [W1 W2 W3 _ _ _ _ _]. nia. Qed.

Lemma drawable_grid s p : drawable s -> grid_ok (screen_grid s p).
Proof. intros Hd. pose proof (drawable_bounds s Hd). destruct Hd. unfold grid_ok. cbn. lia. Qed.

Lemma drawable_spix s m : drawable s -> drawable (set_spix s m).
Proof. intros []. by constructor. Qed.

Lemma render_pix (g : gfx (H := H)) vp t : viewport_render g vp t = set_pix g (pix (viewport_render g vp t)).
Proof.
  unfold viewport_render. destruct g. destruct (_ || _); [done|].
  destruct (clip_range _ _ _ _ _), (clip_range _ _ _ _ _). by repeat destruct (_ <=? _).
Qed.

Lemma blit_within s r :
  drawable s -> on_screen (Kwm.fb_width (sk s)) (Kwm.fb_height (sk s)) r ->
  within s (in_rect r) (spix s) (pix (blit_rect_db (gs (sk s)) g_back_db g_screen_db r)).
Proof.
  intros Hd Hr c Hc. pose proof (drawable_bounds s Hd) as [B1 B2]. pose proof (drawable_grid s (backbuffer s) Hd) as Hg.
  pose proof Hd as [W1 W2 W3 D1 D2 D3 D4 _]. unfold blit_rect_db.
  destruct (viewport_render_equiv (gs (sk s)) (mk_vp r (x r) (y r) g_screen_db) g_back_db) as [E1 E2]; try done.
  { cbn [source]. rewrite D1. unfold db_ok. cbn. lia. }
  { rewrite D2. unfold db_ok. cbn. lia. }
  { cbn [source]. rewrite D1, D2. unfold apart, grid_end in D4. unfold db_disjoint, cell. cbn in *. lia. }
  rewrite D2 in E1, E2. unfold pixel, cell, static_db in E1, E2.
  cbn [source bounds scroll_x scroll_y db_width db_height stride pixels] in E1, E2.
  destruct (gcell_dec _ c Hg) as [(px & py & Hx & Hy & ->)|Hout].
  - unfold gcell, screen_grid. cbn [gbase gpitch]. rewrite (E1 px py Hx Hy). destruct (shows _ _ _ _) eqn:Es; [|done].
    apply shows_iff in Es. cbn [bounds] in Es. exfalso. apply (Hc px py); [|done]. unfold in_rect. lia.
  - apply E2. intros px py Hx Hy. by apply Hout.
Qed.

Lemma compose_within s r :
  drawable s -> on_screen (Kwm.fb_width (sk s)) (Kwm.fb_height (sk s)) r ->
  exists m', compose_rect font s r = set_spix s m' /\ within s (in_rect r) (spix s) m'.
Proof.
  intros Hd Hr. unfold compose_rect. pose proof (blit_within s r Hd Hr) as Hb.
  set (m1 := pix (blit_rect_db _ _ _ _)) in *.
  assert (set_sgs s (blit_rect_db (gs (sk s)) g_back_db g_screen_db r) = set_spix s m1) as ->.
  { unfold set_spix, m1, blit_rect_db. by rewrite <- render_pix. }
  eexists. split; [done|]. pose proof (drawable_bounds s Hd) as [B1 B2]. pose proof Hd as [W1 W2 W3 _ _ _ _ D5].
  change (backbuffer (set_spix s m1)) with (backbuffer s). change (fb_pitch (set_spix s m1)) with (fb_pitch s).
  rewrite sx_small by lia. change (spix (set_spix s m1)) with m1.
  eapply within_trans; [exact Hb|]. intros c Hc.
  refine (composite_within font (sk (set_spix s m1)) (backbuffer s / 4) (fb_pitch s / 4) r m1 _ D5 c _).
  - destruct Hr as (R1 & R2 & R3 & R4 & R5 & R6). unfold clip_ok, rect_ok. nia.
  - intros px py Hp. specialize (Hc px py Hp). unfold gcell, screen_grid in Hc. cbn in Hc. lia.
Qed.

Lemma within_loop s C lo hi body m :
  (forall i m, lo <= i < hi -> within s C m (body i m)) -> within s C m (for_loop lo hi body m).
Proof.
  intros Hb. apply for_loop_pres; [apply within_refl|]. intros i m' Hi Hc. eapply within_trans; [exact Hc|auto].
Qed.

Definition visible_pixel s (px py : Z) : Prop :=
  0 <= px < Kwm.fb_width (sk s) /\ 0 <= py < Kwm.fb_height (sk s).

Definition mouse_rect (cx cy : Z) : Rect := mk_rect cx cy CURSOR_WIDTH CURSOR_HEIGHT.

Lemma cursor_within s cx cy :
  drawable s -> rect_near (mouse_rect cx cy) ->
  exists m', draw_cursor arrow s cx cy = set_spix s m' /\
    within s (fun px py => in_rect (mouse_rect cx cy) px py /\ visible_pixel s px py) (spix s) m'.
Proof.
  intros Hd (N1 & N2 & _ & N4 & N5 & _). pose proof (drawable_bounds s Hd) as [B1 B2].
  pose proof Hd as [W1 W2 W3 _ _ _ _ _]. unfold mouse_rect, CURSOR_WIDTH, CURSOR_HEIGHT in N1, N2, N4, N5. cbn in N1, N2, N4, N5.
  unfold draw_cursor. eexists. split; [reflexivity|].
  rewrite (sx_small 32 (fb_pitch s / 4)), (sx_small 32 (Kwm.fb_width _)), (sx_small 32 (Kwm.fb_height _)) by lia.
  apply within_loop. intros py m1 Hy. apply within_loop. intros px m2 Hx.
  unfold CURSOR_WIDTH, CURSOR_HEIGHT in Hx, Hy.
  rewrite (sx_small 32 (cy + py)), (sx_small 32 (cx + px)) by lia.
  destruct (_ || _) eqn:E; [apply within_refl|].
  rewrite !orb_false_iff, !Z.ltb_ge, !Z.leb_gt in E. destruct E as (((E1 & E2) & E3) & E4).
  assert (0 <= (cy + py) * (fb_pitch s / 4) + (cx + px) < Kwm.fb_height (sk s) * (fb_pitch s / 4)) as Hin
    by (apply grid_in; lia).
  cbv zeta. rewrite (sx_small 32 ((cy + py) * _)) by nia. rewrite sx_small, wrap_small by lia.
  assert (forall v, within s (fun px py => in_rect (mouse_rect cx cy) px py /\ visible_pixel s px py) m2
    (st m2 (backbuffer s / 4 + ((cy + py) * (fb_pitch s / 4) + (cx + px))) v)) as Hst.
  { intros v c Hc. apply ld_st_ne. intros <-. apply (Hc (cx + px) (cy + py)); [|done].
    unfold in_rect, visible_pixel, mouse_rect, CURSOR_WIDTH, CURSOR_HEIGHT. cbn. lia. }
  destruct (_ =? 1); [apply Hst|]. destruct (_ =? 2); [apply Hst|apply within_refl].
Qed.

(** The damage of a frame: what was marked, the old and the new cursor. *)
Definition frame_damage s : DirtyRegionList :=
  let d := g_screen_dirty (sk s) in
  dirty_region_mark
    (if 0 <=? g_last_cursor_x s then dirty_region_mark d (mouse_rect (g_last_cursor_x s) (g_last_cursor_y s)) else d)
    (mouse_rect (mouse_x s) (mouse_y s)).

Record damage_ok s : Prop := {
  dm_dirty : dirty_ok (g_screen_dirty (sk s));
  dm_mouse : rect_near (mouse_rect (mouse_x s) (mouse_y s));
  dm_last : 0 <= g_last_cursor_x s -> rect_near (mouse_rect (g_last_cursor_x s) (g_last_cursor_y s));
}.

Lemma frame_damage_spec s :
  damage_ok s ->
  dirty_ok (frame_damage s) /\
  (forall px py, covered (g_screen_dirty (sk s)) px py \/ in_rect (mouse_rect (mouse_x s) (mouse_y s)) px py ->
     covered (frame_damage s) px py).
Proof.
  intros [D1 D2 D3]. unfold frame_damage. cbv zeta. destruct (Z.leb_spec 0 (g_last_cursor_x s)) as [Hl|_].
  - destruct (dirty_region_mark_spec _ _ D1 (D3 Hl)) as [M1 M2].
    destruct (dirty_region_mark_spec _ _ M1 D2) as [M3 M4]. split; [done|]. intros px py [?|?]; apply M4; eauto.
  - destruct (dirty_region_mark_spec _ _ D1 D2) as [M3 M4]. split; [done|]. intros px py [?|?]; apply M4; eauto.
Qed.

Definition damaged s (d : DirtyRegionList) (px py : Z) : Prop := covered d px py /\ visible_pixel s px py.

Lemma compose_all s d :
  drawable s -> dirty_ok d ->
  exists m', for_loop 0 (count d) (fun i s' =>
      match rect_intersect (region d i) (mk_rect 0 0 (Kwm.fb_width (sk s)) (Kwm.fb_height (sk s))) with
      | None => s'
      | Some r => compose_rect font s' r
      end) s = set_spix s m' /\ within s (damaged s d) (spix s) m'.
Proof.
  intros Hd (_ & _ & Hreg). pose proof (drawable_bounds s Hd) as [B1 B2]. pose proof Hd as [W1 W2 _ _ _ _ _ _].
  apply (for_loop_pres (fun s' => exists m', s' = set_spix s m' /\ within s (damaged s d) (spix s) m')).
  { exists (spix s). split; [|done]. by destruct s as [[? ? ? ? ? ? ? [] ? ? ? ?] ? ? ? ? ? ? ? ? ? ? ?]. }
  intros i s' Hi (m1 & -> & Hw).
  pose proof (visible_region_spec (Kwm.fb_width (sk s)) (Kwm.fb_height (sk s)) d i ltac:(lia) ltac:(lia) (Hreg i Hi)) as Hv.
  unfold visible_region in Hv. destruct (rect_intersect _ _) as [r|]; [|by exists m1].
  destruct Hv as [Hr Hin]. destruct (compose_within (set_spix s m1) r) as (m2 & -> & Hw2); [by apply drawable_spix|done|].
  exists m2. split; [done|]. eapply within_trans; [exact Hw|]. eapply within_mono; [|exact Hw2].
  intros px py [? ?]%Hin. split; [|done]. by exists i.
Qed.

Lemma compositor_flush_frame s :
  drawable s -> damage_ok s -> g_main_surface s = true ->
  exists m',
    compositor_flush font arrow s =
      present_hal (set_cursor_pos (set_spix (set_dirty s (dirty_region_clear (g_screen_dirty (sk s)))) m')
                     (mouse_x s) (mouse_y s))
        (frame_damage s) (mk_rect 0 0 (Kwm.fb_width (sk s)) (Kwm.fb_height (sk s))) /\
    within s (damaged s (frame_damage s)) (spix s) m'.
Proof.
  intros Hd Hdm Hm. destruct (frame_damage_spec s Hdm) as [Hok Hcov]. pose proof Hdm as [_ Hmouse _].
  pose proof Hd as [W1 W2 _ D1 _ D3 _ _].
  assert (gfx_buffers_ready s = (s, true)) as Hrdy.
  { unfold gfx_buffers_ready. rewrite D1. cbn [pixels static_db]. by rewrite (proj2 (Z.eqb_neq _ _) D3). }
  unfold compositor_flush. rewrite (proj2 (Z.eqb_neq _ 0)) by lia. unfold gfx_screen_buffer, gfx_back_buffer.
  rewrite Hrdy. cbn beta iota zeta. rewrite Hrdy. cbn beta iota.
  change ((g_screen_db =? 0) || (g_back_db =? 0)) with false. cbn iota.
  set (s1 := set_dirty s _). change (g_last_cursor_x s1) with (g_last_cursor_x s).
  change (g_last_cursor_y s1) with (g_last_cursor_y s). change (mouse_x s1) with (mouse_x s). change (mouse_y s1) with (mouse_y s).
  match goal with |- context [count ?d =? 0] => change d with (frame_damage s) end.
  assert (covered (frame_damage s) (mouse_x s) (mouse_y s)) as (i0 & Hi0 & _).
  { apply Hcov. right. destruct Hmouse as (_ & _ & ? & _ & _ & ?). unfold in_rect. cbn in *. lia. }
  rewrite (proj2 (Z.eqb_neq _ 0)) by lia.
  assert (drawable s1) as Hd1 by (destruct Hd; by constructor).
  destruct (compose_all s1 (frame_damage s) Hd1 Hok) as (m1 & E1 & C1).
  change (Kwm.fb_width (sk s1)) with (Kwm.fb_width (sk s)) in E1. change (Kwm.fb_height (sk s1)) with (Kwm.fb_height (sk s)) in E1.
  rewrite E1. destruct (cursor_within (set_spix s1 m1) (mouse_x s) (mouse_y s)) as (m2 & E2 & C2); [by apply drawable_spix|done|].
  rewrite E2. exists m2. change (g_main_surface (set_cursor_pos (set_spix (set_spix s1 m1) m2) (mouse_x s) (mouse_y s)))
    with (g_main_surface s). rewrite Hm. split; [done|].
  eapply within_trans; [exact C1|]. eapply within_mono; [|exact C2]. intros px py [? ?]. split; [|done]. apply Hcov. by right.
Qed.

(** ** The screen shows the back buffer *)

(** The state between two frames. *)
Record frame_ready (srf : Z) (h : hal (sw H)) s : Prop := {
  rd_draw : drawable s;
  rd_damage : damage_ok s;
  rd_main : g_main_surface s = true;
  rd_active : g_active h = software_backend;
  rd_surface : surface_ready srf (backbuffer s) (fb_pitch s / 4) (Kwm.fb_width (sk s)) (Kwm.fb_height (sk s)) (dev h);
  rd_fb : fb_ready srf (backbuffer s) (fb_pitch s / 4) (Kwm.fb_width (sk s)) (Kwm.fb_height (sk s)) (dev h);
  rd_mem : mem (dev h) = spix s;
}.

(** The pixel of the back buffer is on the surface and on the screen. *)
Definition on_display (srf : Z) (h : hal (sw H)) s : Z -> Z -> Prop :=
  synced srf (backbuffer s) (fb_pitch s / 4) (Kwm.fb_width (sk s)) (Kwm.fb_height (sk s)) (dev h) (spix s).

(** A pixel that is not damaged stays on the display through the drawing. *)
Lemma undamaged_stays srf (g : sw H) s m px py :
  drawable s ->
  surface_ready srf (backbuffer s) (fb_pitch s / 4) (Kwm.fb_width (sk s)) (Kwm.fb_height (sk s)) g ->
  fb_ready srf (backbuffer s) (fb_pitch s / 4) (Kwm.fb_width (sk s)) (Kwm.fb_height (sk s)) g ->
  within s (damaged s (frame_damage s)) (spix s) m -> ~ covered (frame_damage s) px py -> visible_pixel s px py ->
  synced srf (backbuffer s) (fb_pitch s / 4) (Kwm.fb_width (sk s)) (Kwm.fb_height (sk s)) g (spix s) px py ->
  synced srf (backbuffer s) (fb_pitch s / 4) (Kwm.fb_width (sk s)) (Kwm.fb_height (sk s)) g m px py.
Proof.
  intros Hdr [_ _ _ Uw Uh Ug _ Uap] [_ Fw Fh Fg _ Fap] Hw Hnot [Hx Hy] [S1 S2].
  pose proof (drawable_grid s (backbuffer s) Hdr) as Hg.
  assert (forall g qx qy, apart g (screen_grid s (backbuffer s)) -> grid_ok g -> 0 <= qx < gwid g -> 0 <= qy < ghgt g ->
    ld m (gcell g qx qy) = ld (spix s) (gcell g qx qy)) as Hkeep.
  { intros a qx qy Hap Ha Hqx Hqy. apply Hw. intros rx ry [_ [Hrx Hry]].
    by eapply (gcell_apart a (screen_grid s (backbuffer s))). }
  assert (ld m (gcell (screen_grid s (backbuffer s)) px py) = ld (spix s) (gcell (screen_grid s (backbuffer s)) px py)) as Hb.
  { apply Hw. intros qx qy [Hc [Hqx Hqy]] Eq. by apply gcell_inj in Eq as [-> ->]. }
  unfold synced. unfold screen_grid in Hb. rewrite Hb. split.
  - rewrite Hkeep; [exact S1|done|done|by rewrite <- Uw in Hx|by rewrite <- Uh in Hy].
  - rewrite Hkeep; [exact S2|done|done|by rewrite <- Fw in Hx|by rewrite <- Fh in Hy].
Qed.

(** C18. A frame brings the screen up to date and never out of date.  The compositor
    draws into the back buffer, uploads the damaged rectangles to its surface
    through the HAL and presents their bounding box; with the software backend
    active, every visible pixel that was marked as damaged or lies under the
    mouse cursor, and every pixel that agreed before, then has the same value
    in the back buffer, on the surface and in the hardware framebuffer.  The
    damage is consumed and the state is ready for the next frame. *)
Theorem hal_flush_shows srf h s h' s' :
  frame_ready srf h s -> hal_flush srf h s = (h', s') ->
  frame_ready srf h' s' /\ count (g_screen_dirty (sk s')) = 0 /\
  (forall px py, visible_pixel s px py ->
     covered (g_screen_dirty (sk s)) px py \/ in_rect (mouse_rect (mouse_x s) (mouse_y s)) px py \/
     on_display srf h s px py ->
     on_display srf h' s' px py).
Proof.
  intros [Rd Rm Rs Ra Ru Rf Re]. pose proof (drawable_bounds s Rd) as [B1 B2].
  pose proof Rd as [W1 W2 _ _ _ _ _ _]. destruct (frame_damage_spec s Rm) as [Hok Hcov].
  destruct (compositor_flush_frame s Rd Rm Rs) as (m1 & E & Hw). unfold hal_flush. rewrite E.
  match goal with |- context [present_hal ?t _ _] => set (s1 := t) end.
  destruct (present_hal_calls s1 (frame_damage s) (Kwm.fb_width (sk s)) (Kwm.fb_height (sk s)))
    as (rs & u & E2 & [Hon Hup] & Hu); [lia|lia|done|]. rewrite E2. clear E E2.
  change (Compositor.hal (set_hal s1 ?l)) with l. change (Compositor.hal s1) with (Compositor.hal s).
  rewrite drop_app_length. change (spix (set_hal s1 ?l)) with m1.
  rewrite sx_small, wrap_small by lia.
  set (h1 := set_dev h (set_mem (dev h) m1)).
  destruct (frame_run srf (backbuffer s) (fb_pitch s / 4) (Kwm.fb_width (sk s)) (Kwm.fb_height (sk s)) h1 rs u)
    as (m2 & -> & Hrun); [lia|lia|done|by apply surface_ready_mem|by apply fb_ready_mem|done|done|].
  intros [= <- <-]. split; [|split; [done|]].
  - split; try done.
    + destruct Rd; by constructor.
    + destruct Rm as [[? _] ? _]. split; [|done|done]. split; [done|]. split; [done|]. cbn. lia.
    + by destruct Ru; constructor.
    + by destruct Rf; constructor.
  - intros px py [Hx Hy] Hp. destruct (Hrun px py Hx Hy) as [_ Hsync]. apply Hsync.
    destruct (decide (Exists (fun r => in_rect r px py) rs)) as [Hd|Hd]; rewrite Exists_exists in Hd; [by left|right].
    assert (~ covered (frame_damage s) px py) as Hnot.
    { intros Hc. apply Hd, Hup. split; [exact Hc|by split]. }
    destruct Hp as [Hp|[Hp|Hs]]; [destruct Hnot; apply Hcov; by left|destruct Hnot; apply Hcov; by right|].
    by apply (undamaged_stays srf (dev h) s m1).
Qed.
End flush.

(** ** Witness *)

(** A screen of 4 by 3 pixels; pixel (1, 1) of the base canvas has colour 7, the
    framebuffer is still black. *)
#[local] Instance unit_alloc : KAlloc unit := { ka_kmalloc _ h := (h, 0); ka_kfree _ h := h }.

Definition demo_pix : gmap Z Z := {[ 1005 := 7 ]}.
Definition demo_db (p : Z) : DisplayBuffer := mk_db 4 3 4 0 p false 0.
Definition demo_screen : screen (H := unit) :=
  mk_screen
    (mk_kwm ∅ 1 (-1) 0 0 (-1) false (mk_gfx demo_pix {[ -1 := demo_db 4000; -2 := demo_db 8000 ]} ∅ tt) 4 3
       (mk_dirty {[ 0 := mk_rect 1 1 2 1 ]} 1 false) ∅)
    16 12000 4000 8000 2 2 0 (-1) (-1) true [].
Definition demo_hal : hal (sw unit) :=
  mk_hal ∅ software_backend "" (mk_sw demo_pix tt {[ 1 := mk_surface 4 3 0 16000 ]} 12000 4 3 4).
Definition demo_ops (_ : Z) : ghal_backend_ops_t (sw unit) := software_backend_ops.

Lemma demo_frame_ready : frame_ready 1 demo_hal demo_screen.
Proof.
  split; try done.
  - split; try done. by left; vm_compute.
  - split; [|unfold rect_near, mouse_rect, CURSOR_WIDTH, CURSOR_HEIGHT; cbn; lia|cbn; lia].
    split; [cbn; unfold MAX_DIRTY_REGIONS; lia|]. split; [done|].
    intros i Hi. cbn in Hi. replace i with 0 by lia.
    change (region _ 0) with (mk_rect 1 1 2 1). unfold rect_near. cbn. lia.
  - split; try done; try (by right); by left.
  - split; try done; try (by left); by right.
Qed.

Lemma hal_flush_shows_witness :
  let '(h', s') := hal_flush (fun _ _ => 0) (fun _ _ => 0) demo_ops 1 demo_hal demo_screen in
  on_display 1 h' s' 1 1 /\ ld (spix s') 3005 = 7.
Proof.
  destruct (hal_flush _ _ _ _ _ _) as [h' s'] eqn:E.
  destruct (hal_flush_shows (fun _ _ => 0) (fun _ _ => 0) demo_ops eq_refl 1 demo_hal demo_screen h' s' demo_frame_ready E)
    as (_ & _ & Hs). split.
  - apply Hs; [unfold visible_pixel; cbn; lia|]. left. exists 0. change (region _ 0) with (mk_rect 1 1 2 1). unfold in_rect. cbn. lia.
  - replace s' with (hal_flush (fun _ _ => 0) (fun _ _ => 0) demo_ops 1 demo_hal demo_screen).2 by (by rewrite E).
    vm_compute. reflexivity.
Defined.
End HalFlush.
