(* ===== verification/Virtqueue.v ===== *)
(** * Pages for devices and the split virtqueue
      (src/graphics/memory/gpu_alloc.c, src/drivers/graphics/hw/virtqueue.c)

    [GpuAlloc] allocates zeroed frames through any [FrameAllocator].  [Virtqueue]
    has the descriptor table and the available ring, which the driver writes,
    and reads the used ring, which the device writes: the argument [poll] gives
    what the driver sees of it at each turn of the polling loop.  The registers
    of the device that the code reads are arguments; the ones it writes are
    listed in the order of the writes. *)

From S2P Require Import Prelude KString Pmm.
From stdpp Require Import base numbers list gmap.
From Stdlib Require Import ZArith Lia.

#[local] Open Scope list_scope.
#[local] Open Scope Z_scope.

Module GpuAlloc.

(** [gpu_page_t]; [mem] holds 32-bit cells, as in [Software]. *)
Record gpu_page_t := mk_page { phys : Z; virt : Z }.
Definition page0 : gpu_page_t := mk_page 0 0.
Definition GHAL_MAX_DIM : Z := 8192.

Section alloc.
Context {A : Type} `{FrameAllocator A} (hhdm : Z).

(** The frame allocator and the memory. *)
Record frames := mk_frames { fa : A; fmem : gmap Z Z }.

Definition gpu_alloc_page (g : frames) : frames * option gpu_page_t :=
  let '(a, pa) := fa_alloc g.(fa) in
  if pa =? 0 then (mk_frames a g.(fmem), None)
  else (mk_frames a (KString.memset g.(fmem) ((pa + hhdm) / 4) 0 1024), Some (mk_page pa (pa + hhdm))).

(** The loop with its [break]; the pages are those written to [pages[]]. *)
Fixpoint gpu_alloc_loop (n : nat) (g : frames) (pages : list gpu_page_t) : frames * list gpu_page_t :=
  match n with
  | O => (g, pages)
  | S n =>
      match gpu_alloc_page g with
      | (g, None) => (g, pages)
      | (g, Some p) => gpu_alloc_loop n g (pages ++ [p])
      end
  end.

(** The count that the function returns is the length of the list. *)
Definition gpu_alloc_pages (g : frames) (count : Z) : frames * list gpu_page_t :=
  if count =? 0 then (g, []) else gpu_alloc_loop (Z.to_nat count) g [].

(** One turn of the loop of [gpu_free_pages]; the entry is cleared. *)
Definition gpu_free_page (g : frames) (p : gpu_page_t) : frames :=
  if negb (p.(phys) =? 0) then mk_frames (fa_free g.(fa) p.(phys)) g.(fmem) else g.

Definition gpu_free_pages (g : frames) (pages : list gpu_page_t) : frames * list gpu_page_t :=
  (foldl gpu_free_page g pages, (fun _ => page0) <$> pages).
End alloc.
#[global] Arguments frames A : clear implicits.

(** ** Frames are handed out once and given back whole *)

Section alloc_thm.
Context {A : Type} `{FrameAllocator A} (hhdm : Z).
Implicit Types g : frames A.

(** Every frame of [ps] was available in [a] and is owned in [a']; nothing else
    changed hands. *)
Record taken (a a' : A) (ps : list Z) : Prop := {
  tk_inv : fa_inv a';
  tk_nodup : NoDup ps;
  tk_frame : forall p, p ∈ ps -> 0 < p < 2 ^ 63 /\ p mod PAGE_SIZE = 0 /\ fa_avail a p = true;
  tk_avail : forall p, fa_avail a' p = negb (bool_decide (p ∈ ps)) && fa_avail a p;
  tk_owns : forall p, fa_owns a' p = bool_decide (p ∈ ps) || fa_owns a p;
}.

Lemma taken_nil a : fa_inv a -> taken a a [].
Proof. intros Ha. split; [done|constructor|by intros p Hp%not_elem_of_nil|done|done]. Qed.

Lemma taken_snoc a a' a'' ps p :
  taken a a' ps -> fa_alloc a' = (a'', p) -> p <> 0 -> taken a a'' (ps ++ [p]).
Proof.
  intros [I N F V O] E Hp. destruct (fa_alloc_spec _ _ _ I E) as (I' & [[? _]|(R & M & Va & V' & O')]); [done|].
  rewrite V in Va. apply andb_true_iff in Va as [Hnot Va].
  assert (p ∉ ps) as Hni by (case_bool_decide; done).
  assert (forall q, bool_decide (q ∈ ps ++ [p]) = (q =? p) || bool_decide (q ∈ ps)) as Hmem.
  { intros q. destruct (Z.eqb_spec q p) as [->|]; [apply bool_decide_eq_true; set_solver|].
    cbn [orb]. apply bool_decide_ext. set_solver. }
  split; [done| | | |].
  - apply NoDup_app. split; [done|]. split; [set_solver|apply NoDup_singleton].
  - intros q [Hq| ->%list_elem_of_singleton]%elem_of_app; [by apply F|done].
  - intros q. rewrite V', V, Hmem. by destruct (q =? p).
  - intros q. rewrite O', O, Hmem. by destruct (q =? p).
Qed.

Lemma gpu_alloc_loop_spec n g pages g' l a0 :
  taken a0 (fa g) (phys <$> pages) -> gpu_alloc_loop hhdm n g pages = (g', l) ->
  taken a0 (fa g') (phys <$> l) /\ (length l <= length pages + n)%nat /\
  (exists new, l = pages ++ new /\ Forall (fun p => virt p = phys p + hhdm) new).
Proof.
  revert g pages. induction n as [|n IH]; intros g pages Ht E; cbn [gpu_alloc_loop] in E.
  { inversion E; subst. split; [done|]. split; [lia|]. exists []. by rewrite app_nil_r. }
  unfold gpu_alloc_page in E. destruct (fa_alloc (fa g)) as [a pa] eqn:Ea.
  destruct (Z.eqb_spec pa 0) as [->|Hpa].
  - inversion E; subst. split; [|split; [lia|by exists []; rewrite app_nil_r]].
    destruct (fa_alloc_spec _ _ _ (tk_inv _ _ _ Ht) Ea) as [_ [[_ ->]|(? & _)]]; [done|lia].
  - apply IH in E as (Ht' & Hl & new & -> & Hn).
    + rewrite !length_app in *. cbn in Hl |- *. split; [done|]. split; [lia|].
      exists (mk_page pa (pa + hhdm) :: new). split; [by rewrite <- app_assoc|]. by constructor.
    + rewrite fmap_app. cbn. by eapply taken_snoc.
Qed.

(** Freeing frames that the caller holds makes them available, keeps the rest. *)
Lemma gpu_free_spec g ps :
  fa_inv (fa g) -> NoDup (phys <$> ps) ->
  (forall p, p ∈ phys <$> ps -> fa_owns (fa g) p = true /\ LOW_RESERVED <= p) ->
  let g' := (gpu_free_pages g ps).1 in
  fa_inv (fa g') /\ fmem g' = fmem g /\
  (forall p, fa_avail (fa g') p = bool_decide (p ∈ phys <$> ps) || fa_avail (fa g) p).
Proof.
  cbn [fst gpu_free_pages]. revert g. induction ps as [|p ps IH]; intros g Hi Hn Ho; [done|].
  cbn [foldl fmap list_fmap] in *. inversion Hn as [|? ? Hni Hn']; subst.
  destruct (Ho (phys p) ltac:(set_solver)) as [Hp Hlow].
  destruct (fa_free_spec (fa g) (phys p) Hi) as (Hi' & Hk & Hf). specialize (Hf Hp Hlow).
  assert (gpu_free_page g p = mk_frames (fa_free (fa g) (phys p)) (fmem g)) as ->.
  { unfold gpu_free_page. rewrite (proj2 (Z.eqb_neq _ 0)); [done|]. unfold LOW_RESERVED in Hlow. lia. }
  destruct (IH (mk_frames (fa_free (fa g) (phys p)) (fmem g)) Hi' Hn') as (I & M & V).
  { intros q Hq. cbn [fa]. rewrite (proj2 (Hk q ltac:(set_solver))). apply Ho. set_solver. }
  split; [done|]. split; [done|]. intros q. rewrite V. cbn [fa].
  destruct (Z.eq_dec q (phys p)) as [->|Hq].
  - rewrite Hf, orb_true_r. symmetry. rewrite bool_decide_true by set_solver. done.
  - rewrite (proj1 (Hk q Hq)). f_equal. apply bool_decide_ext. set_solver.
Qed.
End alloc_thm.
End GpuAlloc.

Module Virtqueue.
Import GpuAlloc.

Definition VIRTQ_POLL_MAX_ITER : Z := 10000000.
Definition VIRTQ_DESC_F_NEXT : Z := 1.
Definition VIRTQ_DESC_F_WRITE : Z := 2.

Record virtq_desc_t := mk_desc { d_addr : Z; d_len : Z; d_flags : Z; d_next : Z }.
Definition desc0 : virtq_desc_t := mk_desc 0 0 0 0.

(** [virtq_t] with the descriptor table and the available ring it points to. *)
Record virtq_t := mk_virtq {
  queue_index : Z; queue_size : Z;
  desc : gmap Z virtq_desc_t;
  avail_idx : Z; avail_ring : gmap Z Z;
  desc_phys : Z; avail_phys : Z; used_phys : Z;
  free_head : Z; num_free : Z; last_used_idx : Z; last_count : Z;
  notify_addr : Z;
}.

Definition desc_at (vq : virtq_t) (i : Z) : virtq_desc_t := default desc0 (vq.(desc) !! i).

(** The writes to the common configuration. *)
Inductive cfg_write :=
  | QueueSelect (q : Z) | QueueDesc (a : Z) | QueueDriver (a : Z) | QueueDevice (a : Z) | QueueEnable (v : Z).

(** One buffer of a chain. *)
Record buf := mk_buf { b_addr : Z; b_len : Z; b_flags : Z }.

Section init.
Context {A : Type} `{FrameAllocator A} (hhdm : Z).
(** The registers [queue_size] and [queue_notify_off] of the selected queue. *)
Context (queue_size_reg queue_notify_off_reg : Z -> Z).

(** The pointer arithmetic on the 16-bit register is in units of two bytes.
    [last_count] keeps the value the memory of the structure had. *)
Definition virtq_init (g : frames A) (old_count queue_index queue_size notify_base notify_off_multiplier : Z) :
  frames A * list cfg_write * option virtq_t :=
  if queue_size =? 0 then (g, [], None)
  else
    let writes := [QueueSelect queue_index] in
    let dev_size := queue_size_reg queue_index in
    if dev_size =? 0 then (g, writes, None)
    else
      let queue_size := if dev_size <? queue_size then dev_size else queue_size in
      match gpu_alloc_page hhdm g with
      | (g, None) => (g, writes, None)
      | (g, Some desc_pg) =>
          match gpu_alloc_page hhdm g with
          | (g, None) => ((gpu_free_pages g [desc_pg]).1, writes, None)
          | (g, Some avail_pg) =>
              match gpu_alloc_page hhdm g with
              | (g, None) => ((gpu_free_pages (gpu_free_pages g [desc_pg]).1 [avail_pg]).1, writes, None)
              | (g, Some used_pg) =>
                  let desc := for_loop 0 queue_size (fun i d =>
                    <[i := mk_desc 0 0 0 (u16 ((i + 1) mod queue_size))]> d) ∅ in
                  let writes := writes ++ [QueueDesc desc_pg.(phys); QueueDriver avail_pg.(phys);
                                           QueueDevice used_pg.(phys); QueueEnable 1] in
                  let notify := notify_base + 2 * u32 (queue_notify_off_reg queue_index * notify_off_multiplier) in
                  (g, writes,
                   Some (mk_virtq queue_index queue_size desc 0 ∅ desc_pg.(phys) avail_pg.(phys) used_pg.(phys)
                           0 queue_size 0 old_count notify))
              end
          end
      end.
End init.

(** The loop that fills the descriptors [head], [head + 1], ... *)
Definition fill_chain (vq : virtq_t) (head : Z) (bufs : list buf) : gmap Z virtq_desc_t :=
  let n := Z.of_nat (length bufs) in
  for_loop 0 n (fun i d =>
    let idx := u16 ((head + i) mod vq.(queue_size)) in
    let b := default (mk_buf 0 0 0) (bufs !! Z.to_nat i) in
    let flags := if i <? n - 1 then Z.lor b.(b_flags) VIRTQ_DESC_F_NEXT else b.(b_flags) in
    <[idx := mk_desc b.(b_addr) b.(b_len) flags (u16 ((idx + 1) mod vq.(queue_size)))]> d) vq.(desc).

Definition virtq_submit (vq : virtq_t) (bufs : list buf) : virtq_t * Z :=
  let n := Z.of_nat (length bufs) in
  if n <=? 0 then (vq, -1)
  else if vq.(num_free) <? u16 n then (vq, -1)
  else
    let head := vq.(free_head) in
    let slot := u16 (vq.(avail_idx) mod vq.(queue_size)) in
    (mk_virtq vq.(queue_index) vq.(queue_size) (fill_chain vq head bufs)
       (u16 (vq.(avail_idx) + 1)) (<[slot := head]> vq.(avail_ring))
       vq.(desc_phys) vq.(avail_phys) vq.(used_phys)
       (u16 ((head + n) mod vq.(queue_size))) (u16 (vq.(num_free) - u16 n)) vq.(last_used_idx) (u16 n)
       vq.(notify_addr), head).

(** The value written to the notify register, and its address. *)
Definition virtq_notify (vq : virtq_t) : option (Z * Z) :=
  if vq.(notify_addr) =? 0 then None else Some (vq.(notify_addr), vq.(queue_index)).

(** The used ring at one turn: the index and the elements (id, length). *)
Record used_t := mk_used { u_idx : Z; u_ring : Z -> Z * Z }.

Definition set_last (vq : virtq_t) (l : Z) : virtq_t :=
  mk_virtq vq.(queue_index) vq.(queue_size) vq.(desc) vq.(avail_idx) vq.(avail_ring) vq.(desc_phys)
    vq.(avail_phys) vq.(used_phys) vq.(free_head) vq.(num_free) l vq.(last_count) vq.(notify_addr).

(** Returning the chain of the last submission. *)
Definition return_chain (vq : virtq_t) : virtq_t :=
  let nf := u16 (vq.(num_free) + vq.(last_count)) in
  mk_virtq vq.(queue_index) vq.(queue_size) vq.(desc) vq.(avail_idx) vq.(avail_ring) vq.(desc_phys)
    vq.(avail_phys) vq.(used_phys) 0 (if vq.(queue_size) <? nf then vq.(queue_size) else nf)
    vq.(last_used_idx) vq.(last_count) vq.(notify_addr).

(** The inner loop: the new elements up to [used_idx].  [n] turns are enough when
    it is the distance of the two indices modulo 2^16. *)
Fixpoint scan_elements (n : nat) (vq : virtq_t) (head : Z) (u : used_t) : virtq_t * option Z :=
  match n with
  | O => (vq, None)
  | S n =>
      if vq.(last_used_idx) =? u.(u_idx) then (vq, None)
      else
        let ue := u.(u_ring) (vq.(last_used_idx) mod vq.(queue_size)) in
        let vq := set_last vq (u16 (vq.(last_used_idx) + 1)) in
        if ue.1 =? head then (return_chain vq, Some ue.2) else scan_elements n vq head u
  end.

Definition scan_used (vq : virtq_t) (head : Z) (u : used_t) : virtq_t * option Z :=
  scan_elements (Z.to_nat (u16 (u.(u_idx) - vq.(last_used_idx)))) vq head u.

(** [turns] polls; the result is the length written, or a timeout. *)
Fixpoint wait_loop (turns : nat) (i : Z) (vq : virtq_t) (head : Z) (poll : Z -> used_t) : virtq_t * Z * option Z :=
  match turns with
  | O => (vq, -2, None)
  | S turns =>
      match scan_used vq head (poll i) with
      | (vq, Some len) => (vq, 0, Some len)
      | (vq, None) => wait_loop turns (i + 1) vq head poll
      end
  end.

(** The loop ends after the poll that makes [iter] exceed the maximum. *)
Definition virtq_wait (vq : virtq_t) (head : Z) (poll : Z -> used_t) : virtq_t * Z * option Z :=
  if head <? 0 then (vq, -1, None)
  else wait_loop (Z.to_nat (VIRTQ_POLL_MAX_ITER + 1)) 0 vq head poll.

(** ** A chain as the device reads it *)

(** The buffers of the chain that starts at descriptor [i], at most [n]. *)
Fixpoint chain (n : nat) (vq : virtq_t) (i : Z) : list buf :=
  match n with
  | O => []
  | S n =>
      let d := desc_at vq i in
      mk_buf d.(d_addr) d.(d_len) (Z.ldiff d.(d_flags) VIRTQ_DESC_F_NEXT) ::
      if Z.testbit d.(d_flags) 0 then chain n vq d.(d_next) else []
  end.

Record wf (vq : virtq_t) : Prop := {
  wf_size : 0 < queue_size vq <= 2 ^ 15;
  wf_head : 0 <= free_head vq < queue_size vq;
  wf_free : 0 <= num_free vq <= queue_size vq;
  wf_used : 0 <= last_used_idx vq < 2 ^ 16;
  wf_avail : 0 <= avail_idx vq < 2 ^ 16;
}.

(** The flags a caller passes: [VIRTQ_DESC_F_WRITE] or nothing. *)
Definition buf_ok (b : buf) : Prop := b.(b_flags) = 0 \/ b.(b_flags) = VIRTQ_DESC_F_WRITE.

Lemma mod_shift_inj h s i j : 0 < s -> 0 <= i < s -> 0 <= j < s -> (h + i) mod s = (h + j) mod s -> i = j.
Proof. intros Hs Hi Hj E. rewrite <- (Z.mod_small i s), <- (Z.mod_small j s) by lia.
  apply (f_equal (fun v => (v - h) mod s)) in E. rewrite !Zminus_mod_idemp_l in E.
  by replace (h + i - h) with i in E by lia; replace (h + j - h) with j in E by lia.
Qed.

(** What [fill_chain] writes for buffer [i]. *)
Definition chain_desc (vq : virtq_t) (head : Z) (bufs : list buf) (i : Z) : virtq_desc_t :=
  let b := default (mk_buf 0 0 0) (bufs !! Z.to_nat i) in
  mk_desc b.(b_addr) b.(b_len)
    (if i <? Z.of_nat (length bufs) - 1 then Z.lor b.(b_flags) VIRTQ_DESC_F_NEXT else b.(b_flags))
    ((head + i + 1) mod vq.(queue_size)).

Lemma fill_chain_spec vq head bufs i :
  wf vq -> Z.of_nat (length bufs) <= queue_size vq -> 0 <= i < Z.of_nat (length bufs) ->
  fill_chain vq head bufs !! ((head + i) mod queue_size vq) = Some (chain_desc vq head bufs i).
Proof.
  intros [Hs _ _ _ _] Hn Hi. unfold fill_chain. set (n := Z.of_nat (length bufs)) in *.
  match goal with |- for_loop 0 n ?f ?d !! _ = _ =>
    assert (forall k, 0 <= k < n -> for_loop 0 n f d !! ((head + k) mod queue_size vq) = Some (chain_desc vq head bufs k)) as HI
  end; [|by apply HI].
  apply (for_loop_inv (fun j d => forall k, 0 <= k < j ->
    d !! ((head + k) mod queue_size vq) = Some (chain_desc vq head bufs k))); [lia|intros; lia|].
  intros j d Hj HI k Hk. pose proof (Z.mod_pos_bound (head + j) (queue_size vq) ltac:(lia)).
  cbv zeta. rewrite (wrap_small 16 ((head + j) mod _)) by lia.
  destruct (Z.eq_dec k j) as [->|Hne].
  - rewrite lookup_insert_eq. unfold chain_desc. f_equal. f_equal.
    rewrite Zplus_mod_idemp_l. pose proof (Z.mod_pos_bound (head + j + 1) (queue_size vq) ltac:(lia)). by rewrite wrap_small by lia.
  - rewrite lookup_insert_ne; [apply HI; lia|]. intros E. apply Hne. symmetry.
    eapply (mod_shift_inj head (queue_size vq)); [lia..|exact E].
Qed.

(** The device sees the caller's flags; the added bit says whether to go on. *)
Lemma buf_flags b f :
  buf_ok b -> f = b_flags b \/ f = Z.lor (b_flags b) VIRTQ_DESC_F_NEXT ->
  mk_buf (b_addr b) (b_len b) (Z.ldiff f VIRTQ_DESC_F_NEXT) = b /\
  Z.testbit f 0 = negb (f =? b_flags b).
Proof. destruct b as [a l fl]. unfold buf_ok. cbn. by intros [-> | ->] [-> | ->]. Qed.

Lemma chain_drop vq head bufs k :
  wf vq -> Z.of_nat (length bufs) <= queue_size vq -> Forall buf_ok bufs -> (k <= length bufs)%nat ->
  forall q, desc q = fill_chain vq head bufs -> k <> 0%nat ->
  chain k q ((head + Z.of_nat (length bufs - k)) mod queue_size vq) = drop (length bufs - k) bufs.
Proof.
  intros Hwf Hn Hok. induction k as [|k IH]; intros Hk q Hq Hk0; [done|].
  set (i := (length bufs - S k)%nat). destruct (lookup_lt_is_Some_2 bufs i ltac:(lia)) as [b Hb].
  assert (desc_at q ((head + Z.of_nat i) mod queue_size vq) = chain_desc vq head bufs (Z.of_nat i)) as Ed.
  { unfold desc_at. rewrite Hq, fill_chain_spec by (done || lia). done. }
  cbn [chain]. rewrite Ed. unfold chain_desc. rewrite Nat2Z.id, Hb. cbn [default id d_addr d_len d_flags d_next].
  rewrite (drop_S _ b) by done.
  assert (buf_ok b) as Hbf by (by eapply Forall_lookup in Hok).
  destruct k as [|k].
  - rewrite (proj2 (Z.ltb_ge _ _)) by lia. replace (S i) with (length bufs) by lia. rewrite drop_all.
    destruct (buf_flags b (b_flags b) Hbf) as [-> ->]; [by left|]. by rewrite Z.eqb_refl.
  - rewrite (proj2 (Z.ltb_lt _ _)) by lia.
    destruct (buf_flags b (Z.lor (b_flags b) VIRTQ_DESC_F_NEXT) Hbf) as [-> ->]; [by right|].
    replace (Z.lor (b_flags b) VIRTQ_DESC_F_NEXT =? b_flags b) with false by (by destruct Hbf as [-> | ->]).
    cbn [negb]. f_equal. replace (head + Z.of_nat i + 1) with (head + Z.of_nat (length bufs - S k)) by lia.
    rewrite IH by (done || lia). f_equal. lia.
Qed.

(** ** One command after another *)

Lemma submit_ok vq bufs :
  wf vq -> (0 < length bufs)%nat -> Z.of_nat (length bufs) <= num_free vq ->
  exists vq', virtq_submit vq bufs = (vq', free_head vq) /\ wf vq' /\
    queue_size vq' = queue_size vq /\ desc vq' = fill_chain vq (free_head vq) bufs /\
    avail_ring vq' = <[avail_idx vq mod queue_size vq := free_head vq]> (avail_ring vq) /\
    avail_idx vq' = u16 (avail_idx vq + 1) /\
    num_free vq' = num_free vq - Z.of_nat (length bufs) /\ last_count vq' = Z.of_nat (length bufs) /\
    last_used_idx vq' = last_used_idx vq.
Proof.
  intros Hwf Hpos Hn. pose proof Hwf as [Hs Hh Hf Hu Ha]. unfold virtq_submit.
  rewrite (proj2 (Z.leb_gt _ _)) by lia. rewrite (wrap_small 16 (Z.of_nat _)) by lia.
  rewrite (proj2 (Z.ltb_ge _ _)) by lia.
  pose proof (Z.mod_pos_bound (avail_idx vq) (queue_size vq) ltac:(lia)).
  pose proof (Z.mod_pos_bound (free_head vq + Z.of_nat (length bufs)) (queue_size vq) ltac:(lia)).
  rewrite (wrap_small 16 (avail_idx vq mod _)), (wrap_small 16 (num_free vq - _)),
    (wrap_small 16 ((free_head vq + _) mod _)) by lia.
  eexists. split; [reflexivity|]. split; [|done]. split; cbn; [lia|lia|lia|lia|]. apply wrap_bound. lia.
Qed.

(** The inner loop stops at the first new element with our identifier. *)
Lemma scan_find vq head u j n len :
  (forall t, 0 <= t <= Z.of_nat j -> u16 (last_used_idx vq + t) <> u_idx u) ->
  (forall t, 0 <= t < Z.of_nat j -> (u_ring u (u16 (last_used_idx vq + t) mod queue_size vq)).1 <> head) ->
  u_ring u (u16 (last_used_idx vq + Z.of_nat j) mod queue_size vq) = (head, len) ->
  0 <= last_used_idx vq < 2 ^ 16 -> (j < n)%nat ->
  scan_elements n vq head u = (return_chain (set_last vq (u16 (last_used_idx vq + Z.of_nat j + 1))), Some len).
Proof.
  revert vq n. induction j as [|j IH]; intros vq n Hnew Hids Hid Hl Hn; (destruct n as [|n]; [lia|]); cbn [scan_elements].
  - specialize (Hnew 0 ltac:(lia)). rewrite Z.add_0_r, wrap_small in * by lia.
    rewrite (proj2 (Z.eqb_neq _ _)) by done. cbv zeta. rewrite Hid. cbn [fst snd]. by rewrite Z.eqb_refl.
  - pose proof (Hnew 0 ltac:(lia)) as H0. rewrite Z.add_0_r, wrap_small in H0 by lia.
    rewrite (proj2 (Z.eqb_neq _ _)) by done. cbv zeta.
    pose proof (Hids 0 ltac:(lia)) as H1. rewrite Z.add_0_r, wrap_small in H1 by lia. rewrite (proj2 (Z.eqb_neq _ _) H1).
    assert (forall t, u16 (u16 (last_used_idx vq + 1) + t) = u16 (last_used_idx vq + (t + 1))) as Eu.
    { intros t. unfold wrap. rewrite Zplus_mod_idemp_l. f_equal. lia. }
    rewrite IH; cbn [last_used_idx queue_size set_last]; rewrite ?Eu; try lia.
    + f_equal. f_equal. unfold set_last; cbn. f_equal. rewrite <- Z.add_assoc, Eu. f_equal. lia.
    + intros t Ht. rewrite Eu. apply Hnew. lia.
    + intros t Ht. rewrite Eu. apply Hids. lia.
    + rewrite <- Hid. do 3 f_equal. lia.
    + apply wrap_bound. lia.
Qed.

(** Polls that show nothing new change nothing. *)
Lemma scan_quiet vq head u : u_idx u = last_used_idx vq -> scan_used vq head u = (vq, None).
Proof. intros E. unfold scan_used. by rewrite E, Z.sub_diag. Qed.

Lemma wait_quiet n turns i vq head poll :
  (forall k, i <= k < i + Z.of_nat n -> u_idx (poll k) = last_used_idx vq) ->
  wait_loop (n + turns) i vq head poll = wait_loop turns (i + Z.of_nat n) vq head poll.
Proof.
  revert i. induction n as [|n IH]; intros i Hq; [by rewrite Z.add_0_r|].
  cbn [wait_loop Nat.add]. rewrite scan_quiet by (apply Hq; lia). rewrite IH by (intros; apply Hq; lia). f_equal. lia.
Qed.

(** The device answers at poll [k]: nothing new before it, then [d] new elements of
    which number [j] is the first with identifier [head]. *)
Record answers (vq : virtq_t) (head : Z) (poll : Z -> used_t) (k d : Z) (j : nat) (len : Z) : Prop := {
  an_poll : 0 <= k <= VIRTQ_POLL_MAX_ITER;
  an_quiet : forall i, 0 <= i < k -> u_idx (poll i) = last_used_idx vq;
  an_new : u_idx (poll k) = u16 (last_used_idx vq + d);
  an_count : Z.of_nat j < d < 2 ^ 16;
  an_others : forall t, 0 <= t < Z.of_nat j -> (u_ring (poll k) (u16 (last_used_idx vq + t) mod queue_size vq)).1 <> head;
  an_ours : u_ring (poll k) (u16 (last_used_idx vq + Z.of_nat j) mod queue_size vq) = (head, len);
}.

Lemma wait_answered vq head poll k d j len :
  0 <= head -> 0 <= last_used_idx vq < 2 ^ 16 -> answers vq head poll k d j len ->
  virtq_wait vq head poll = (return_chain (set_last vq (u16 (last_used_idx vq + Z.of_nat j + 1))), 0, Some len).
Proof.
  intros Hh Hl [Hk Hq Hnew Hd Ho Hid]. unfold virtq_wait. rewrite (proj2 (Z.ltb_ge _ _)) by lia.
  replace (Z.to_nat (VIRTQ_POLL_MAX_ITER + 1)) with (Z.to_nat k + S (Z.to_nat (VIRTQ_POLL_MAX_ITER - k)))%nat by lia.
  rewrite wait_quiet by (intros; apply Hq; lia). rewrite Z2Nat.id, Z.add_0_l by lia. cbn [wait_loop].
  assert (forall a b, 0 <= a < 2 ^ 16 -> 0 <= b < 2 ^ 16 -> u16 (last_used_idx vq + a) = u16 (last_used_idx vq + b) -> a = b) as Hinj.
  { intros a b Ha Hb E. unfold wrap in E. eapply (mod_shift_inj (last_used_idx vq) (2 ^ 16)); [lia..|exact E]. }
  unfold scan_used. rewrite Hnew. rewrite (scan_find _ _ _ j _ len); try done.
  - intros t Ht E. rewrite Hnew in E. apply Hinj in E; lia.
  - assert (u16 (u16 (last_used_idx vq + d) - last_used_idx vq) = d) as ->; [|lia].
    unfold wrap. rewrite Zminus_mod_idemp_l. replace (last_used_idx vq + d - last_used_idx vq) with d by lia.
    apply Z.mod_small. lia.
Qed.

Lemma transaction_spec vq bufs poll k d j len :
  wf vq -> (0 < length bufs)%nat -> Z.of_nat (length bufs) <= num_free vq -> Forall buf_ok bufs ->
  let '(vq1, head) := virtq_submit vq bufs in
  answers vq1 head poll k d j len ->
  chain (length bufs) vq1 head = bufs /\
  avail_ring vq1 !! (avail_idx vq mod queue_size vq) = Some head /\ avail_idx vq1 = u16 (avail_idx vq + 1) /\
  exists vq2, virtq_wait vq1 head poll = (vq2, 0, Some len) /\ wf vq2 /\
    num_free vq2 = num_free vq /\ free_head vq2 = 0 /\ queue_size vq2 = queue_size vq.
Proof.
  intros Hwf Hpos Hn Hok. destruct (submit_ok vq bufs Hwf Hpos Hn) as (vq1 & -> & Hwf1 & Es & Ed & Er & Ea & Ef & Ec & El).
  intros Hans. pose proof Hwf as [Hs Hh Hf Hu _]. pose proof Hwf1 as [Hs1 _ _ Hu1 Ha1]. split.
  { pose proof (chain_drop vq (free_head vq) bufs (length bufs) Hwf ltac:(lia) Hok ltac:(lia) vq1 Ed ltac:(lia)) as E.
    rewrite Nat.sub_diag, Z.add_0_r, Z.mod_small, drop_0 in E by lia. exact E. }
  split; [by rewrite Er, lookup_insert_eq|]. split; [done|].
  eexists. split; [apply (wait_answered _ _ _ k d j len); [lia|done|done]|].
  unfold return_chain, set_last. cbn [num_free last_count queue_size free_head last_used_idx avail_idx].
  rewrite Ef, Ec, Es. replace (num_free vq - Z.of_nat (length bufs) + Z.of_nat (length bufs)) with (num_free vq) by lia.
  rewrite (wrap_small 16 (num_free vq)) by lia. rewrite (proj2 (Z.ltb_ge _ _)) by lia.
  split; [|done]. split; cbn; try lia. apply wrap_bound. lia.
Qed.

(** C. A command goes through the queue whole.  With enough free descriptors,
    [virtq_submit] puts a chain into the table that the device reads as exactly
    the caller's buffers, in order and with their flags, and announces it at
    the next place of the available ring.  When the device answers within the
    polling bound, [virtq_wait] finds the answer, also behind answers to other
    chains, returns the length the device reported, and gives all descriptors
    of the command back. *)
Theorem virtq_transaction vq bufs poll k d j len :
  wf vq -> (0 < length bufs)%nat -> Z.of_nat (length bufs) <= num_free vq -> Forall buf_ok bufs ->
  let '(vq1, head) := virtq_submit vq bufs in
  answers vq1 head poll k d j len ->
  chain (length bufs) vq1 head = bufs /\
  avail_ring vq1 !! (avail_idx vq mod queue_size vq) = Some head /\ avail_idx vq1 = u16 (avail_idx vq + 1) /\
  exists vq2, virtq_wait vq1 head poll = (vq2, 0, Some len) /\ wf vq2 /\
    num_free vq2 = num_free vq /\ free_head vq2 = 0 /\ queue_size vq2 = queue_size vq.
Proof. apply transaction_spec. Qed.

(** ** Commands that are not answered *)

Definition silent (vq : virtq_t) (_ : Z) : used_t := mk_used (last_used_idx vq) (fun _ => (0, 0)).

Lemma wait_silent vq head poll :
  0 <= head -> (forall i, u_idx (poll i) = last_used_idx vq) -> virtq_wait vq head poll = (vq, -2, None).
Proof.
  intros Hh Hq. unfold virtq_wait. rewrite (proj2 (Z.ltb_ge _ _)) by lia.
  rewrite <- (Nat.add_0_r (Z.to_nat _)). by rewrite wait_quiet.
Qed.

(** [m] commands of the buffers [bufs], each given up after the polling bound. *)
Fixpoint lost_commands (m : nat) (vq : virtq_t) (bufs : list buf) : virtq_t :=
  match m with
  | O => vq
  | S m => let '(vq, head) := virtq_submit vq bufs in lost_commands m (virtq_wait vq head (silent vq)).1.1 bufs
  end.

(** A timeout costs its descriptors for good: [virtq_wait] gives up without
    returning the chain, so after as many unanswered commands as fit into the
    free descriptors every further command of that length is refused by
    [virtq_submit], which changes nothing; no later answer of the device is
    even looked at. *)
Theorem virtq_timeouts_exhaust vq bufs :
  wf vq -> (0 < length bufs)%nat -> Z.of_nat (length bufs) <= queue_size vq ->
  let n := Z.of_nat (length bufs) in
  let vq' := lost_commands (Z.to_nat (num_free vq / n)) vq bufs in
  wf vq' /\ num_free vq' = num_free vq mod n /\ virtq_submit vq' bufs = (vq', -1).
Proof.
  intros Hwf Hpos Hq n vq'.
  assert (forall m vq0, wf vq0 -> queue_size vq0 = queue_size vq -> Z.of_nat m * n <= num_free vq0 ->
    wf (lost_commands m vq0 bufs) /\ queue_size (lost_commands m vq0 bufs) = queue_size vq /\
    num_free (lost_commands m vq0 bufs) = num_free vq0 - Z.of_nat m * n) as Hl.
  { induction m as [|m IH]; intros vq0 Hw Es Hn; [cbn [lost_commands]; splits; lia|]. cbn [lost_commands].
    assert (n <= num_free vq0 /\ Z.of_nat m * n <= num_free vq0 - n) as [Hn1 Hn2] by (unfold n in *; nia).
    destruct (submit_ok vq0 bufs Hw Hpos Hn1) as (vq1 & -> & Hw1 & Es1 & _ & _ & _ & Ef & _).
    rewrite wait_silent by (done || apply Hw). cbn [fst].
    destruct (IH vq1) as (I1 & I2 & I3); [done|congruence|lia|]. splits. }
  pose proof Hwf as [Hs _ Hf _ _]. assert (0 < n) as Hn0 by lia.
  pose proof (Z.div_mod (num_free vq) n ltac:(lia)) as Ed. pose proof (Z.mod_pos_bound (num_free vq) n Hn0).
  pose proof (Z.div_pos (num_free vq) n ltac:(lia) Hn0).
  destruct (Hl (Z.to_nat (num_free vq / n)) vq Hwf eq_refl) as (W & S & F); [lia|]. fold vq' in W, S, F.
  split; [done|]. assert (num_free vq' = num_free vq mod n) as E by lia. split; [done|].
  unfold virtq_submit. rewrite (proj2 (Z.leb_gt _ _)), (wrap_small 16) by lia.
  fold n. by rewrite (proj2 (Z.ltb_lt _ _)) by lia.
Qed.

(** An answer to a command that was given up can be taken for the answer to a
    later one: when the queue had been reset to descriptor 0 in between, the
    late element carries the identifier the new command uses. *)
Lemma late_answer vq bufs ring poll :
  wf vq -> (0 < length bufs)%nat -> Z.of_nat (length bufs) <= num_free vq -> free_head vq = 0 ->
  (forall i, poll i = mk_used (u16 (last_used_idx vq + 1)) ring) -> (ring (last_used_idx vq mod queue_size vq)).1 = 0 ->
  exists vq1, virtq_submit vq bufs = (vq1, 0) /\ (virtq_wait vq1 0 poll).1.2 = 0.
Proof.
  intros Hwf Hpos Hn Hh Hp Hr. destruct (submit_ok vq bufs Hwf Hpos Hn) as (vq1 & E & Hw1 & Es & _ & _ & _ & _ & _ & El).
  exists vq1. rewrite E, Hh. split; [done|].
  rewrite (wait_answered vq1 0 poll 0 1 0 (ring (last_used_idx vq mod queue_size vq)).2); [done|lia|apply Hw1|].
  pose proof (wf_used _ Hwf). split; cbn.
  - unfold VIRTQ_POLL_MAX_ITER. lia.
  - lia.
  - by rewrite Hp, El.
  - lia.
  - lia.
  - rewrite Hp, El, Es, Z.add_0_r, (wrap_small 16 (last_used_idx vq)) by lia. cbn. rewrite <- Hr at 1. by destruct (ring _).
Qed.

(** ** Witnesses *)

(** A fresh queue of 16 descriptors, and a command with a response buffer. *)
Definition fresh16 : virtq_t := mk_virtq 0 16 ∅ 0 ∅ 4096 8192 12288 0 16 0 0 1000.
Definition two_bufs : list buf := [mk_buf 4096 24 0; mk_buf 8192 32 VIRTQ_DESC_F_WRITE].
(** The device answers at the third poll, after an answer to another chain. *)
Definition demo_poll (i : Z) : used_t :=
  if i <? 2 then mk_used 0 (fun _ => (0, 0)) else mk_used 2 (fun k => if k =? 0 then (7, 1) else (0, 24)).

Lemma fresh16_wf : wf fresh16.
Proof. split; cbn; lia. Qed.

Lemma virtq_transaction_witness :
  let '(vq1, head) := virtq_submit fresh16 two_bufs in
  chain 2 vq1 head = two_bufs /\ exists vq2, virtq_wait vq1 head demo_poll = (vq2, 0, Some 24) /\ num_free vq2 = 16.
Proof.
  pose proof (virtq_transaction fresh16 two_bufs demo_poll 2 2 1 24 fresh16_wf ltac:(cbn; lia) ltac:(cbn; lia)
    ltac:(constructor; [by left|constructor; [by right|constructor]])) as T.
  destruct (submit_ok fresh16 two_bufs fresh16_wf ltac:(cbn; lia) ltac:(cbn; lia)) as (vq1 & E & _ & Es & _ & _ & _ & _ & _ & El).
  rewrite E in *. destruct T as (T1 & _ & _ & vq2 & T2 & _ & T3 & _).
  - split; rewrite ?Es, ?El; cbn.
    + unfold VIRTQ_POLL_MAX_ITER. lia.
    + intros i Hi. unfold demo_poll. by rewrite (proj2 (Z.ltb_lt _ _)) by lia.
    + reflexivity.
    + lia.
    + intros t Ht. replace t with 0 by lia. discriminate.
    + reflexivity.
  - split; [exact T1|]. exists vq2. split; [exact T2|exact T3].
Defined.

Lemma virtq_timeouts_exhaust_witness :
  let vq' := lost_commands 8 fresh16 two_bufs in
  num_free vq' = 0 /\ virtq_submit vq' two_bufs = (vq', -1).
Proof.
  destruct (virtq_timeouts_exhaust fresh16 two_bufs fresh16_wf ltac:(cbn; lia) ltac:(cbn; lia)) as (_ & T1 & T2).
  split; [exact T1|exact T2].
Defined.
End Virtqueue.
