(* ===== verification/VirtioDev.v ===== *)
(** * The virtio-gpu device core
      (src/drivers/graphics/hw/virtio_gpu_cmd.c, virtio_gpu_dev.c, src/drivers/pci.c)

    Discovery on the PCI bus, the capability list, the status protocol, the two
    queues, and the execution of one command.  Configuration space is reached
    through [inl] (the value of port 0xCFC after an address was written to
    0xCF8); the device registers that the code reads are arguments, the ones it
    writes are listed in order.  Memory that the device reads and writes by DMA
    is a map of bytes at physical addresses. *)

From S2P Require Import Prelude KString Bytes Pmm Paging PagingOps Virtqueue.
From stdpp Require Import base numbers list gmap.
From Stdlib Require Import ZArith Lia.

#[local] Open Scope list_scope.
#[local] Open Scope Z_scope.

Module VirtioDev.
Import Bytes GpuAlloc Virtqueue.

(** ** Commands (virtio_gpu_cmd.c); the packed structures as bytes *)

Definition VIRTIO_GPU_CMD_GET_DISPLAY_INFO : Z := 0x0100.
Definition VIRTIO_GPU_CMD_RESOURCE_CREATE_2D : Z := 0x0101.
Definition VIRTIO_GPU_CMD_RESOURCE_UNREF : Z := 0x0102.
Definition VIRTIO_GPU_CMD_SET_SCANOUT : Z := 0x0103.
Definition VIRTIO_GPU_CMD_RESOURCE_FLUSH : Z := 0x0104.
Definition VIRTIO_GPU_CMD_TRANSFER_TO_HOST_2D : Z := 0x0105.
Definition VIRTIO_GPU_CMD_RESOURCE_ATTACH_BACKING : Z := 0x0106.
Definition VIRTIO_GPU_CMD_RESOURCE_DETACH_BACKING : Z := 0x0107.
Definition VIRTIO_GPU_RESP_OK_NODATA : Z := 0x1100.
Definition VIRTIO_GPU_RESP_OK_DISPLAY_INFO : Z := 0x1101.
Definition VIRTIO_GPU_FORMAT_B8G8R8X8_UNORM : Z := 2.

Definition virtio_gpu_cmd_hdr (type : Z) : list Z := b32 type ++ b32 0 ++ b64 0 ++ b32 0 ++ b32 0.

Definition virtio_gpu_cmd_get_display_info : list Z := virtio_gpu_cmd_hdr VIRTIO_GPU_CMD_GET_DISPLAY_INFO.

Definition virtio_gpu_cmd_resource_create_2d (resource_id format width height : Z) : list Z :=
  virtio_gpu_cmd_hdr VIRTIO_GPU_CMD_RESOURCE_CREATE_2D ++
  b32 resource_id ++ b32 format ++ b32 width ++ b32 height.

Definition virtio_gpu_cmd_resource_unref (resource_id : Z) : list Z :=
  virtio_gpu_cmd_hdr VIRTIO_GPU_CMD_RESOURCE_UNREF ++ b32 resource_id ++ b32 0.

(** The header part; the caller appends the entries. *)
Definition virtio_gpu_cmd_attach_backing (resource_id nr_entries : Z) : list Z :=
  virtio_gpu_cmd_hdr VIRTIO_GPU_CMD_RESOURCE_ATTACH_BACKING ++ b32 resource_id ++ b32 nr_entries.

(** The resource is an argument that the code does not use. *)
Definition virtio_gpu_cmd_detach_backing (resource_id : Z) : list Z :=
  virtio_gpu_cmd_hdr VIRTIO_GPU_CMD_RESOURCE_DETACH_BACKING.

Definition rect_bytes (x y w h : Z) : list Z := b32 x ++ b32 y ++ b32 w ++ b32 h.

Definition virtio_gpu_cmd_set_scanout (scanout_id resource_id x y w h : Z) : list Z :=
  virtio_gpu_cmd_hdr VIRTIO_GPU_CMD_SET_SCANOUT ++ rect_bytes x y w h ++ b32 scanout_id ++ b32 resource_id.

Definition virtio_gpu_cmd_resource_flush (resource_id x y w h : Z) : list Z :=
  virtio_gpu_cmd_hdr VIRTIO_GPU_CMD_RESOURCE_FLUSH ++ rect_bytes x y w h ++ b32 resource_id ++ b32 0.

Definition virtio_gpu_cmd_transfer_to_host (resource_id x y w h : Z) : list Z :=
  virtio_gpu_cmd_hdr VIRTIO_GPU_CMD_TRANSFER_TO_HOST_2D ++ rect_bytes x y w h ++ b64 0 ++ b32 resource_id ++ b32 0.

(** ** Configuration space (pci.c) *)

Section pci.
Context (inl : Z -> Z).

Definition pci_address (bus slot func offset : Z) : Z :=
  Z.lor (Z.lor (Z.lor (Z.lor (Z.shiftl bus 16) (Z.shiftl slot 11)) (Z.shiftl func 8)) (Z.land offset 0xFC)) 0x80000000.

Definition pci_read_word (bus slot func offset : Z) : Z :=
  Z.land (Z.shiftr (inl (pci_address bus slot func offset)) (Z.land offset 2 * 8)) 0xFFFF.

Definition pci_cfg_read32 (bus slot func off : Z) : Z :=
  let lo := pci_read_word (u8 bus) (u8 slot) (u8 func) off in
  let hi := pci_read_word (u8 bus) (u8 slot) (u8 func) (u8 (off + 2)) in
  Z.lor lo (u32 (Z.shiftl hi 16)).

Definition pci_cfg_read8 (bus slot func off : Z) : Z :=
  let w := pci_read_word (u8 bus) (u8 slot) (u8 func) (Z.land off 0xFE) in
  if Z.testbit off 0 then u8 (Z.shiftr w 8) else Z.land w 0xFF.

(** What the body of the scan does at one function: it stops the function loop,
    goes on, or has found the device. *)
Inductive probe_step := Stop | Next | Found.

Definition VIRTIO_PCI_VENDOR_ID : Z := 0x1AF4.
Definition VIRTIO_PCI_DEVICE_GPU : Z := 0x1050.

Definition probe_function (bus slot func : Z) : probe_step :=
  let vid := pci_read_word (u8 bus) (u8 slot) (u8 func) 0 in
  if vid =? 0xFFFF then (if func =? 0 then Stop else Next)
  else
    let did := pci_read_word (u8 bus) (u8 slot) (u8 func) 2 in
    if (vid =? VIRTIO_PCI_VENDOR_ID) && (did =? VIRTIO_PCI_DEVICE_GPU) then
      let class_info := pci_read_word (u8 bus) (u8 slot) (u8 func) 0x0A in
      if negb (Z.land (Z.shiftr class_info 8) 0xFF =? 3) then Next else Found
    else if func =? 0 then Stop else Next.

(** The function loop of one slot, from [func] on. *)
Fixpoint scan_functions (bus slot : Z) (funcs : list Z) : option Z :=
  match funcs with
  | [] => None
  | func :: funcs =>
      match probe_function bus slot func with
      | Stop => None
      | Next => scan_functions bus slot funcs
      | Found => Some func
      end
  end.

Fixpoint scan_slots (bus : Z) (slots : list Z) : option (Z * Z) :=
  match slots with
  | [] => None
  | slot :: slots =>
      match scan_functions bus slot (zrange 0 8) with
      | Some func => Some (slot, func)
      | None => scan_slots bus slots
      end
  end.

Fixpoint scan_buses (buses : list Z) : option (Z * Z * Z) :=
  match buses with
  | [] => None
  | bus :: buses =>
      match scan_slots bus (zrange 0 32) with
      | Some (slot, func) => Some (bus, slot, func)
      | None => scan_buses buses
      end
  end.

Definition pci_find_virtio_gpu : option (Z * Z * Z) := scan_buses (zrange 0 256).

(** ** Capabilities *)

Record caps := mk_caps {
  common_cfg_phys : Z; common_cfg_off : Z;
  notify_base_phys : Z; notify_base_off : Z; notify_off_multiplier : Z;
  device_cfg_phys : Z; device_cfg_off : Z;
  found_common : bool; found_notify : bool; found_isr : bool; found_dev : bool;
}.
Definition caps0 : caps := mk_caps 0 0 0 0 0 0 0 false false false false.

(** One capability with vendor 9. *)
Definition parse_capability (bus slot func cap_ptr : Z) (c : caps) : caps :=
  let cfg_type := pci_cfg_read8 bus slot func (u8 (cap_ptr + 3)) in
  let bar := pci_cfg_read8 bus slot func (u8 (cap_ptr + 4)) in
  let bar_off := pci_cfg_read32 bus slot func (u8 (cap_ptr + 8)) in
  let bar_phys := Z.land (pci_cfg_read32 bus slot func (u8 (0x10 + bar * 4))) 0xFFFFFFF0 in
  if cfg_type =? 1 then
    mk_caps bar_phys bar_off c.(notify_base_phys) c.(notify_base_off) c.(notify_off_multiplier)
      c.(device_cfg_phys) c.(device_cfg_off) true c.(found_notify) c.(found_isr) c.(found_dev)
  else if cfg_type =? 2 then
    let mul := pci_cfg_read32 bus slot func (u8 (cap_ptr + 16)) in
    mk_caps c.(common_cfg_phys) c.(common_cfg_off) bar_phys bar_off (if mul =? 0 then 1 else mul)
      c.(device_cfg_phys) c.(device_cfg_off) c.(found_common) true c.(found_isr) c.(found_dev)
  else if cfg_type =? 3 then
    mk_caps c.(common_cfg_phys) c.(common_cfg_off) c.(notify_base_phys) c.(notify_base_off) c.(notify_off_multiplier)
      c.(device_cfg_phys) c.(device_cfg_off) c.(found_common) c.(found_notify) true c.(found_dev)
  else if cfg_type =? 4 then
    mk_caps c.(common_cfg_phys) c.(common_cfg_off) c.(notify_base_phys) c.(notify_base_off) c.(notify_off_multiplier)
      bar_phys bar_off c.(found_common) c.(found_notify) c.(found_isr) true
  else c.

(** The walk along [cap_next]; [None] when the fuel does not suffice. *)
Fixpoint parse_loop (fuel : nat) (bus slot func cap_ptr : Z) (c : caps) : option caps :=
  if cap_ptr =? 0 then Some c
  else
    match fuel with
    | O => None
    | S fuel =>
        let cap_vndr := pci_cfg_read8 bus slot func cap_ptr in
        let cap_next := pci_cfg_read8 bus slot func (u8 (cap_ptr + 1)) in
        if negb (cap_vndr =? 9) then parse_loop fuel bus slot func cap_next c
        else parse_loop fuel bus slot func cap_next (parse_capability bus slot func cap_ptr c)
    end.

(** The capabilities, and whether all four kinds were there. *)
Definition parse_capabilities (fuel : nat) (bus slot func : Z) (c : caps) : option (caps * bool) :=
  match parse_loop fuel bus slot func (pci_cfg_read8 bus slot func 0x34) c with
  | None => None
  | Some c => Some (c, c.(found_common) && c.(found_notify) && c.(found_isr) && c.(found_dev))
  end.
End pci.

(** ** The device structure *)

Definition VGPU_CMD_MAX_PAGES : Z := 16.
Definition VIRTIO_STATUS_ACKNOWLEDGE : Z := 0x01.
Definition VIRTIO_STATUS_DRIVER : Z := 0x02.
Definition VIRTIO_STATUS_DRIVER_OK : Z := 0x04.
Definition VIRTIO_STATUS_FEATURES_OK : Z := 0x08.
Definition VIRTIO_STATUS_DEVICE_NEEDS_RESET : Z := 0x40.

(** [g_vgpu]; a queue that was never set up is [None]. *)
Record virtio_gpu_dev_t := mk_dev {
  location : Z * Z * Z;
  dcaps : caps;
  common : Z; notify_base : Z; device_cfg : Z;
  controlq : option virtq_t; cursorq : option virtq_t;
  cmd_pages : list gpu_page_t; resp_page : gpu_page_t;
  scanout_width : Z; scanout_height : Z; num_scanouts : Z;
  initialized : bool; negotiation_done : bool;
}.
Definition dev0 : virtio_gpu_dev_t := mk_dev (0, 0, 0) caps0 0 0 0 None None [] page0 0 0 0 false false.

(** Register writes of the set-up. *)
Inductive reg_write :=
  | DeviceStatus (v : Z)
  | DeviceFeatureSelect (v : Z)
  | GuestFeatureSelect (v : Z)
  | GuestFeature (v : Z)
  | Queue (w : cfg_write).

Section probe.
Context {A : Type} `{FrameAllocator A} (hhdm : Z).
(** Port and register reads: configuration space, the status that the device
    shows after [v] was written, queue registers and the number of scanouts. *)
Context (inl : Z -> Z) (status_after : Z -> Z) (queue_size_reg queue_notify_off_reg : Z -> Z) (num_scanouts_reg : Z).

(** The address of a register block, [0] when the bar is not known. *)
Definition map_bar (phys off : Z) : Z := if phys =? 0 then 0 else phys + hhdm + off.

Definition map_mmio (g : virtio_gpu_dev_t) : virtio_gpu_dev_t :=
  let c := g.(dcaps) in
  mk_dev g.(location) c (map_bar c.(common_cfg_phys) c.(common_cfg_off))
    (map_bar c.(notify_base_phys) c.(notify_base_off)) (map_bar c.(device_cfg_phys) c.(device_cfg_off))
    g.(controlq) g.(cursorq) g.(cmd_pages) g.(resp_page)
    g.(scanout_width) g.(scanout_height) g.(num_scanouts) g.(initialized) g.(negotiation_done).

Definition STATUS_DRIVER : Z := Z.lor VIRTIO_STATUS_ACKNOWLEDGE VIRTIO_STATUS_DRIVER.
Definition STATUS_FEATURES : Z := Z.lor STATUS_DRIVER VIRTIO_STATUS_FEATURES_OK.
Definition STATUS_OK : Z := Z.lor STATUS_FEATURES VIRTIO_STATUS_DRIVER_OK.

Definition negotiate_features (g : virtio_gpu_dev_t) : list reg_write * Z :=
  if g.(common) =? 0 then ([], -1)
  else
    let writes :=
      [DeviceStatus 0; DeviceStatus VIRTIO_STATUS_ACKNOWLEDGE; DeviceStatus STATUS_DRIVER;
       DeviceFeatureSelect 0; DeviceFeatureSelect 1;
       GuestFeatureSelect 0; GuestFeature 0; GuestFeatureSelect 1; GuestFeature 0;
       DeviceStatus STATUS_FEATURES] in
    if Z.land (status_after STATUS_FEATURES) VIRTIO_STATUS_FEATURES_OK =? 0
    then (writes ++ [DeviceStatus 0], -1) else (writes, 0).

Definition set_queues (g : virtio_gpu_dev_t) (c u : option virtq_t) : virtio_gpu_dev_t :=
  mk_dev g.(location) g.(dcaps) g.(common) g.(notify_base) g.(device_cfg) c u g.(cmd_pages) g.(resp_page)
    g.(scanout_width) g.(scanout_height) g.(num_scanouts) g.(initialized) g.(negotiation_done).

Definition setup_queues (f : frames A) (g : virtio_gpu_dev_t) : frames A * virtio_gpu_dev_t * list reg_write * Z :=
  let mul := g.(dcaps).(notify_off_multiplier) in
  match virtq_init hhdm queue_size_reg queue_notify_off_reg f 0 0 16 g.(notify_base) mul with
  | (f, w, None) => (f, g, Queue <$> w, -1)
  | (f, w, Some c) =>
      let g := set_queues g (Some c) None in
      match virtq_init hhdm queue_size_reg queue_notify_off_reg f 0 1 16 g.(notify_base) mul with
      | (f, w', None) => (f, g, Queue <$> (w ++ w'), -1)
      | (f, w', Some u) => (f, set_queues g (Some c) (Some u), Queue <$> (w ++ w'), 0)
      end
  end.

Definition finalize_driver_ok : list reg_write * Z :=
  ([DeviceStatus STATUS_OK],
   if negb (Z.land (status_after STATUS_OK) VIRTIO_STATUS_DEVICE_NEEDS_RESET =? 0) then -1 else 0).

(** The loop that allocates the command pages, with its [break]. *)
Definition alloc_cmd_pages (f : frames A) : frames A * list gpu_page_t :=
  gpu_alloc_loop hhdm (Z.to_nat VGPU_CMD_MAX_PAGES) f [].

Definition set_buffers (g : virtio_gpu_dev_t) (ps : list gpu_page_t) (r : gpu_page_t) (n : Z) (ready : bool) : virtio_gpu_dev_t :=
  mk_dev g.(location) g.(dcaps) g.(common) g.(notify_base) g.(device_cfg) g.(controlq) g.(cursorq) ps r
    g.(scanout_width) g.(scanout_height) n ready ready.

(** [fuel] bounds the walk along the capability list; [None] when it does not
    suffice. *)
Definition virtio_gpu_dev_probe (fuel : nat) (f : frames A) (g : virtio_gpu_dev_t) :
  option (frames A * virtio_gpu_dev_t * list reg_write * Z) :=
  if g.(initialized) then Some (f, g, [], 0)
  else
    match pci_find_virtio_gpu inl with
    | None => Some (f, dev0, [], -1)
    | Some (bus, slot, func) =>
        match parse_capabilities inl fuel bus slot func caps0 with
        | None => None
        | Some (c, ok) =>
            let g := mk_dev (bus, slot, func) c 0 0 0 None None [] page0 0 0 0 false false in
            if negb ok then Some (f, g, [], -1)
            else
              let g := map_mmio g in
              if (g.(common) =? 0) || (g.(notify_base) =? 0) || (g.(device_cfg) =? 0) then Some (f, g, [], -1)
              else
                let '(w1, r) := negotiate_features g in
                if negb (r =? 0) then Some (f, g, w1, -1)
                else
                  let '(f, g, w2, r) := setup_queues f g in
                  if negb (r =? 0) then Some (f, g, w1 ++ w2, -1)
                  else
                    let '(w3, r) := finalize_driver_ok in
                    if negb (r =? 0) then Some (f, g, w1 ++ w2 ++ w3, -1)
                    else
                      let '(f, ps) := alloc_cmd_pages f in
                      if Z.of_nat (length ps) =? 0 then Some (f, set_buffers g ps page0 0 false, w1 ++ w2 ++ w3, -1)
                      else
                        match gpu_alloc_page hhdm f with
                        | (f, None) => Some (f, set_buffers g ps page0 0 false, w1 ++ w2 ++ w3, -1)
                        | (f, Some r) => Some (f, set_buffers g ps r num_scanouts_reg true, w1 ++ w2 ++ w3, 0)
                        end
        end
    end.
End probe.

(** ** Executing a command *)

(** Copying the command into its pages, chunk by chunk. *)
Fixpoint copy_chunks (m : gmap Z Z) (pages : list gpu_page_t) (cmd : list Z) : gmap Z Z :=
  match pages with
  | [] => m
  | p :: pages => copy_chunks (store_bytes m p.(phys) (take 4096 cmd)) pages (drop 4096 cmd)
  end.

(** The buffers for [n] bytes in the given pages. *)
Fixpoint cmd_bufs (pages : list gpu_page_t) (n : Z) : list buf :=
  match pages with
  | [] => []
  | [p] => [mk_buf p.(phys) n 0]
  | p :: pages => mk_buf p.(phys) 4096 0 :: cmd_bufs pages (n - 4096)
  end.

Definition zero_page : list Z := replicate 4096 0.
#[global] Opaque zero_page.

Lemma length_zero_page : Z.of_nat (length zero_page) = 4096.
Proof. with_strategy transparent [zero_page] (unfold zero_page). by rewrite length_replicate. Qed.

(** What the device does between the notification and the end of the polling: to
    the memory, and to the used ring. *)
Record reaction := mk_reaction { dma_after : gmap Z Z -> gmap Z Z; polls : Z -> used_t }.

Definition set_controlq (g : virtio_gpu_dev_t) (q : virtq_t) : virtio_gpu_dev_t := set_queues g (Some q) g.(cursorq).

(** [out] is not [NULL]; the last component is what was copied to it. *)
Definition virtio_gpu_dev_command (g : virtio_gpu_dev_t) (m : gmap Z Z) (cmd : list Z) (out_len : Z) (r : reaction) :
  virtio_gpu_dev_t * gmap Z Z * Z * list Z :=
  let cmd_len := Z.of_nat (length cmd) in
  match g.(controlq) with
  | None => (g, m, -1, [])
  | Some q =>
      if negb g.(initialized) || (cmd_len =? 0) then (g, m, -1, [])
      else
        let n := u32 (cmd_len + 4095) / 4096 in
        if Z.of_nat (length g.(cmd_pages)) <? n then (g, m, -1, [])
        else
          let pages := take (Z.to_nat n) g.(cmd_pages) in
          let m := copy_chunks m pages cmd in
          let resp := negb (out_len =? 0) in
          let m := if resp then store_bytes m g.(resp_page).(phys) zero_page else m in
          let bufs := cmd_bufs pages cmd_len ++
                      (if resp then [mk_buf g.(resp_page).(phys) (if 4096 <? out_len then 4096 else out_len) VIRTQ_DESC_F_WRITE]
                       else []) in
          let '(q, head) := virtq_submit q bufs in
          if head <? 0 then (set_controlq g q, m, -1, [])
          else
            let m := r.(dma_after) m in
            let '(q, rc, _) := virtq_wait q head r.(polls) in
            if negb (rc =? 0) then (set_controlq g q, m, -1, [])
            else
              (set_controlq g q, m, 0,
               if resp then load_bytes m g.(resp_page).(phys) (if 4096 <? out_len then 4096 else out_len) else [])
  end.

(** [g_resource_counter], and the identifier handed out. *)
Definition virtio_gpu_next_resource_id (counter : Z) : Z * Z := (u32 (counter + 1), counter).

(** ** The device receives the command *)

(** The bytes of the buffers that the device may read. *)
Definition device_reads (m : gmap Z Z) (bufs : list buf) : list Z :=
  concat (map (fun b => load_bytes m (b_addr b) (b_len b)) (filter (fun b => b_flags b = 0) bufs)).

Definition pages_ok (ps : list gpu_page_t) : Prop :=
  NoDup (phys <$> ps) /\ Forall (fun p => phys p mod 4096 = 0) ps.

(** Different pages do not overlap. *)
Lemma page_apart p q : p mod 4096 = 0 -> q mod 4096 = 0 -> p <> q -> p + 4096 <= q \/ q + 4096 <= p.
Proof. intros. pose proof (Z.div_mod p 4096). pose proof (Z.div_mod q 4096). lia. Qed.

Lemma copy_chunks_other m pages cmd a :
  (forall p, p ∈ phys <$> pages -> a < p \/ p + 4096 <= a) -> ld (copy_chunks m pages cmd) a = ld m a.
Proof.
  revert m cmd. induction pages as [|p pages IH]; intros m cmd Ha; [done|]. cbn [copy_chunks].
  rewrite IH by (intros q Hq; apply Ha; set_solver). apply store_bytes_other.
  destruct (Ha (phys p) ltac:(set_solver)); [by left|right]. rewrite length_take. lia.
Qed.

Lemma load_bytes_same m m' a n : (forall i, 0 <= i < n -> ld m (a + i) = ld m' (a + i)) -> load_bytes m a n = load_bytes m' a n.
Proof. apply load_bytes_ext. Qed.

Lemma chunks_read pages cmd m :
  pages_ok pages -> pages <> [] ->
  4096 * (Z.of_nat (length pages) - 1) < Z.of_nat (length cmd) <= 4096 * Z.of_nat (length pages) ->
  device_reads (copy_chunks m pages cmd) (cmd_bufs pages (Z.of_nat (length cmd))) = cmd.
Proof.
  intros [Hn Ha] _. revert m cmd. induction pages as [|p pages IH]; intros m cmd Hl; [destruct cmd; [done|cbn in Hl; lia]|].
  cbn [fmap list_fmap] in Hn. inversion Hn as [|? ? Hni Hn']; inversion Ha as [|? ? Hp Ha']; subst.
  destruct pages as [|q pages].
  - cbn [copy_chunks cmd_bufs length] in *. unfold device_reads. rewrite filter_cons_True, filter_nil by done. cbn [map concat b_addr b_len]. rewrite app_nil_r.
    rewrite take_ge by lia. apply load_store_bytes.
  - set (rest := q :: pages) in *. cbn [copy_chunks].
    change (cmd_bufs (p :: rest) ?n) with (mk_buf (phys p) 4096 0 :: cmd_bufs rest (n - 4096)).
    unfold device_reads. rewrite filter_cons_True by done. cbn [map concat b_addr b_len].
    assert (length (p :: rest) = S (length rest)) as El by done. rewrite El in Hl.
    assert (1 <= Z.of_nat (length rest)) by (cbn; lia).
    transitivity (take 4096 cmd ++ drop 4096 cmd); [f_equal|apply take_drop].
    + assert (Z.of_nat (length (take 4096 cmd)) = 4096) as Et by (rewrite length_take; lia).
      rewrite <- Et. rewrite (load_bytes_ext _ (store_bytes m (phys p) (take 4096 cmd)) _ (phys p)); [apply load_store_bytes|].
      intros i Hi. apply copy_chunks_other. intros r Hr. rewrite Et in Hi.
      apply list_elem_of_fmap in Hr as (r' & -> & Hr). pose proof (proj1 (Forall_forall _ _) Ha' _ Hr) as Hr'. cbn beta in Hr'.
      destruct (page_apart (phys p) (phys r')); [done|done| |lia|lia].
      intros E. apply Hni. rewrite E. by apply list_elem_of_fmap_2.
    + replace (Z.of_nat (length cmd) - 4096) with (Z.of_nat (length (drop 4096 cmd))) by (rewrite length_drop; lia).
      apply IH; [done|done|]. rewrite length_drop. lia.
Qed.

Lemma cmd_bufs_ok pages n : length (cmd_bufs pages n) = length pages /\ Forall (fun b => b_flags b = 0) (cmd_bufs pages n).
Proof.
  revert n. induction pages as [|p pages IH]; intros n; [done|]. destruct pages as [|q pages].
  - split; [done|]. by repeat constructor.
  - change (cmd_bufs (p :: q :: pages) n) with (mk_buf (phys p) 4096 0 :: cmd_bufs (q :: pages) (n - 4096)).
    destruct (IH (n - 4096)) as [IH1 IH2]. split; [cbn [length] in *; by rewrite IH1|by constructor].
Qed.

Lemma no_answer_bufs l : Forall (fun b => b_flags b = 0) l -> filter (fun b => b_flags b <> 0) l = [].
Proof. induction 1 as [|b l Hb _ IH]; [done|]. by rewrite filter_cons_False by (intros E; by apply E). Qed.

Lemma device_reads_app m l k : device_reads m (l ++ k) = device_reads m l ++ device_reads m k.
Proof. unfold device_reads. by rewrite filter_app, map_app, concat_app. Qed.

Lemma device_reads_ext m m' l :
  (forall b i, b ∈ l -> 0 <= i < b_len b -> ld m (b_addr b + i) = ld m' (b_addr b + i)) ->
  device_reads m l = device_reads m' l.
Proof.
  intros Hm. unfold device_reads. f_equal. apply map_ext_in. intros b Hb%list_elem_of_In.
  apply list_elem_of_filter in Hb as [_ Hb]. apply load_bytes_ext. auto.
Qed.

Lemma cmd_bufs_in pages n b :
  b ∈ cmd_bufs pages n -> n <= 4096 * Z.of_nat (length pages) -> b_len b <= 4096 /\ b_addr b ∈ phys <$> pages.
Proof.
  revert n. induction pages as [|p pages IH]; intros n Hb Hn; [by apply not_elem_of_nil in Hb|].
  destruct pages as [|q pages].
  - apply list_elem_of_singleton in Hb as ->. cbn in *. split; [lia|set_solver].
  - change (cmd_bufs (p :: q :: pages) n) with (mk_buf (phys p) 4096 0 :: cmd_bufs (q :: pages) (n - 4096)) in Hb.
    apply elem_of_cons in Hb as [->|Hb]; [cbn; split; [lia|set_solver]|].
    apply IH in Hb as [? ?]; [split; [done|set_solver]|]. cbn [length] in *. lia.
Qed.

(** The number of pages of a command; the memory, the response buffer and the
    queue that [virtio_gpu_dev_command] prepares for it. *)
Definition cmd_count (cmd : list Z) : Z := (Z.of_nat (length cmd) + 4095) / 4096.
Definition prepared (g : virtio_gpu_dev_t) (m : gmap Z Z) (cmd : list Z) : gmap Z Z :=
  store_bytes (copy_chunks m (take (Z.to_nat (cmd_count cmd)) (cmd_pages g)) cmd) (phys (resp_page g)) zero_page.
Definition answer_buf (g : virtio_gpu_dev_t) (out_len : Z) : buf :=
  mk_buf (phys (resp_page g)) (Z.min out_len 4096) VIRTQ_DESC_F_WRITE.

Definition published (g : virtio_gpu_dev_t) (q : virtq_t) (cmd : list Z) (out_len : Z) : virtq_t :=
  (virtq_submit q (cmd_bufs (take (Z.to_nat (cmd_count cmd)) (cmd_pages g)) (Z.of_nat (length cmd)) ++
                   [answer_buf g out_len])).1.

Lemma prepared_reads g m cmd out_len :
  pages_ok (resp_page g :: cmd_pages g) -> (0 < length cmd)%nat -> cmd_count cmd <= Z.of_nat (length (cmd_pages g)) ->
  device_reads (prepared g m cmd)
    (cmd_bufs (take (Z.to_nat (cmd_count cmd)) (cmd_pages g)) (Z.of_nat (length cmd)) ++ [answer_buf g out_len]) = cmd.
Proof.
  intros [Hn Ha] Hpos Hc. pose proof (Z.div_mod (Z.of_nat (length cmd) + 4095) 4096 ltac:(lia)) as Ed.
  pose proof (Z.mod_pos_bound (Z.of_nat (length cmd) + 4095) 4096 ltac:(lia)) as Hm.
  fold (cmd_count cmd) in Ed. set (ps := take _ _). assert (Z.of_nat (length ps) = cmd_count cmd) as Hl.
  { unfold ps. rewrite length_take. lia. }
  cbn [fmap list_fmap] in Hn. inversion Hn as [|? ? Hni Hn']; inversion Ha as [|? ? Hr Ha']; subst.
  assert (pages_ok ps) as Hok.
  { split; [unfold ps; rewrite fmap_take; by apply (sublist_NoDup _ (phys <$> cmd_pages g)), sublist_take|by apply Forall_take]. }
  rewrite device_reads_app. unfold device_reads at 2. rewrite filter_cons_False, filter_nil by done. cbn [map concat].
  rewrite app_nil_r, (device_reads_ext _ (copy_chunks m ps cmd)); [apply chunks_read; [done| |lia]|].
  { intros E. rewrite E in Hl. cbn in Hl. lia. }
  intros b i Hb Hi. apply cmd_bufs_in in Hb as [Hlen Hin]; [|lia]. apply store_bytes_other.
  apply list_elem_of_fmap in Hin as (p & Ep & Hin). rewrite length_zero_page.
  assert (p ∈ cmd_pages g) as Hin'.
  { apply list_elem_of_lookup in Hin as [c Hc']. apply lookup_take_Some in Hc' as [Hc' _]. by eapply list_elem_of_lookup_2. }
  pose proof (proj1 (Forall_forall _ _) Ha' _ Hin') as Hp. cbn beta in Hp.
  destruct (page_apart (phys (resp_page g)) (phys p)); [done|done| |lia|lia].
  intros E. apply Hni. rewrite E. by apply list_elem_of_fmap_2.
Qed.

(** The state between two commands. *)
Record dev_ready (g : virtio_gpu_dev_t) (q : virtq_t) : Prop := {
  dv_init : initialized g = true;
  dv_queue : controlq g = Some q;
  dv_wf : wf q;
  dv_pages : pages_ok (resp_page g :: cmd_pages g);
}.

Lemma command_unfold g q m cmd out_len r :
  dev_ready g q -> (0 < length cmd)%nat -> Z.of_nat (length cmd) + 4095 < 2 ^ 32 -> 0 < out_len ->
  cmd_count cmd <= Z.of_nat (length (cmd_pages g)) ->
  virtio_gpu_dev_command g m cmd out_len r =
    let bufs := cmd_bufs (take (Z.to_nat (cmd_count cmd)) (cmd_pages g)) (Z.of_nat (length cmd)) ++ [answer_buf g out_len] in
    let '(q, head) := virtq_submit q bufs in
    if head <? 0 then (set_controlq g q, prepared g m cmd, -1, [])
    else
      let m := dma_after r (prepared g m cmd) in
      let '(q, rc, _) := virtq_wait q head (polls r) in
      if negb (rc =? 0) then (set_controlq g q, m, -1, [])
      else (set_controlq g q, m, 0, load_bytes m (phys (resp_page g)) (Z.min out_len 4096)).
Proof.
  intros [Hi Hq _ _] Hpos Hlen Hout Hc. unfold virtio_gpu_dev_command. rewrite Hq, Hi. cbn [negb orb].
  rewrite (proj2 (Z.eqb_neq _ 0)) by lia. rewrite wrap_small by lia. fold (cmd_count cmd).
  rewrite (proj2 (Z.ltb_ge _ _)) by done. rewrite (proj2 (Z.eqb_neq out_len 0)) by lia. cbn [negb]. cbv zeta.
  replace (if 4096 <? out_len then 4096 else out_len) with (Z.min out_len 4096) by (zcase; lia).
  unfold prepared, answer_buf. reflexivity.
Qed.

(** C25. A command reaches the device whole and its answer reaches the caller: the
    driver copies the command page by page into its buffers, and the descriptor
    chain that it publishes gives the device exactly the bytes of the command
    to read and one buffer to write, the response page.  When the device
    answers in time, the call succeeds, returns the first bytes of what the
    device left in the response page, and the queue is as free as before. *)
Theorem dev_command_delivers g q m cmd out_len r k d j len :
  dev_ready g q -> (0 < length cmd)%nat -> Z.of_nat (length cmd) + 4095 < 2 ^ 32 -> 0 < out_len ->
  cmd_count cmd <= Z.of_nat (length (cmd_pages g)) -> cmd_count cmd + 1 <= num_free q ->
  let q1 := published g q cmd out_len in
  let bufs := chain (Z.to_nat (cmd_count cmd + 1)) q1 (free_head q) in
  let m' := dma_after r (prepared g m cmd) in
  device_reads (prepared g m cmd) bufs = cmd /\
  filter (fun b => b_flags b <> 0) bufs = [answer_buf g out_len] /\
  (answers q1 (free_head q) (polls r) k d j len ->
   exists q2, virtio_gpu_dev_command g m cmd out_len r =
       (set_controlq g q2, m', 0, load_bytes m' (phys (resp_page g)) (Z.min out_len 4096)) /\
     dev_ready (set_controlq g q2) q2 /\ num_free q2 = num_free q).
Proof.
  intros Hg Hpos Hlen Hout Hc Hn. pose proof Hg as [Hi Hq Hwf Hp].
  rewrite (command_unfold g q) by done. cbv zeta. unfold published.
  set (ps := take (Z.to_nat (cmd_count cmd)) (cmd_pages g)).
  pose proof (cmd_bufs_ok ps (Z.of_nat (length cmd))) as [Hl Hf]. pose proof (prepared_reads g m cmd out_len Hp Hpos Hc) as Hr.
  fold ps in Hr. set (bufs := cmd_bufs ps _ ++ _) in *.
  assert (0 <= cmd_count cmd) by (apply Z.div_pos; lia).
  assert (Z.of_nat (length bufs) = cmd_count cmd + 1) as Hb.
  { unfold bufs. rewrite length_app, Hl. unfold ps. rewrite length_take. cbn. lia. }
  assert (Forall buf_ok bufs) as Hok.
  { apply Forall_app. split; [|by constructor; [right|constructor]]. eapply Forall_impl; [exact Hf|]. by left. }
  pose proof (transaction_spec q bufs (polls r) k d j len Hwf ltac:(lia) ltac:(lia) Hok) as HT.
  destruct (submit_ok q bufs Hwf ltac:(lia) ltac:(lia)) as (q1 & E & Hwf1 & Es & Ed & _ & _ & _ & _ & _).
  rewrite E in *. cbn [fst].
  assert (chain (Z.to_nat (cmd_count cmd + 1)) q1 (free_head q) = bufs) as Hchain.
  { pose proof (chain_drop q (free_head q) bufs (length bufs) Hwf ltac:(pose proof (wf_free q Hwf); lia) Hok ltac:(lia) q1 Ed ltac:(lia)) as C.
    rewrite Nat.sub_diag, Z.add_0_r, Z.mod_small, drop_0 in C by apply Hwf. by replace (Z.to_nat (cmd_count cmd + 1)) with (length bufs) by lia. }
  rewrite Hchain. split; [done|]. split.
  { unfold bufs. rewrite filter_app, filter_cons_True, filter_nil by done.
    by rewrite no_answer_bufs. }
  intros Hans. destruct (HT Hans) as (_ & _ & _ & q2 & -> & Hwf2 & Hn2 & _).
  rewrite (proj2 (Z.ltb_ge _ _)) by apply Hwf. exists q2. split; [done|]. split; [by split|done].
Qed.

(** Sixteen command pages are allocated, but a queue of sixteen descriptors has
    room for fifteen and the response: a longer command is always refused. *)
Lemma dev_command_too_long g q m cmd out_len r :
  dev_ready g q -> (0 < length cmd)%nat -> Z.of_nat (length cmd) + 4095 < 2 ^ 32 -> 0 < out_len ->
  queue_size q = 16 -> 15 < cmd_count cmd <= Z.of_nat (length (cmd_pages g)) -> cmd_count cmd <= 16 ->
  virtio_gpu_dev_command g m cmd out_len r = (set_controlq g q, prepared g m cmd, -1, []).
Proof.
  intros Hg Hpos Hlen Hout Hs Hc Hc16. rewrite (command_unfold g q) by (done || lia). cbv zeta. pose proof (dv_wf _ _ Hg) as [_ _ Hf _ _].
  pose proof (cmd_bufs_ok (take (Z.to_nat (cmd_count cmd)) (cmd_pages g)) (Z.of_nat (length cmd))) as [Hl _].
  unfold virtq_submit. rewrite length_app, Hl, length_take. cbn [length].
  rewrite (proj2 (Z.leb_gt _ _)) by lia. rewrite wrap_small by lia. by rewrite (proj2 (Z.ltb_lt _ _)) by lia.
Qed.

(** ** The walk along the capability list *)

Section walk.
Context (inl : Z -> Z) (bus slot func : Z).
Notation next p := (pci_cfg_read8 inl bus slot func (u8 (p + 1))).

(** The walk from [p] reaches the end after [n] capabilities. *)
Inductive steps : Z -> nat -> Prop :=
  | steps_end : steps 0 0
  | steps_next p n : p <> 0 -> steps (next p) n -> steps p (S n).

Lemma steps_fun p n m : steps p n -> steps p m -> n = m.
Proof.
  intros Hn. revert m. induction Hn as [|p n Hp _ IH]; intros m Hm; inversion Hm; subst; try done. f_equal. auto.
Qed.

Lemma cfg_read8_byte off : 0 <= pci_cfg_read8 inl bus slot func off < 256.
Proof.
  unfold pci_cfg_read8. destruct (Z.testbit off 0); [by apply (wrap_bound 8)|].
  set (w := pci_read_word _ _ _ _ _). replace (Z.land w 0xFF) with (w mod 2 ^ 8); [by apply Z.mod_pos_bound|].
  symmetry. change 0xFF with (Z.ones 8). by apply Z.land_ones.
Qed.

(** A walk that ends visits every capability once. *)
Lemma steps_visited p n :
  steps p n -> 0 <= p < 256 ->
  exists l, length l = n /\ NoDup l /\ forall x, x ∈ l -> 0 < x < 256 /\ exists k, steps x k /\ (k <= n)%nat.
Proof.
  induction 1 as [|p n Hp Hs IH]; intros Hb.
  - exists []. split; [done|]. split; [constructor|]. by intros x Hx%not_elem_of_nil.
  - destruct (IH (cfg_read8_byte _)) as (l & Hl & Hnd & Hin). exists (p :: l). split; [cbn; by rewrite Hl|]. split.
    + constructor; [|done]. intros Hx%Hin. destruct Hx as (_ & k & Hk & Hle).
      assert (k = S n) by (eapply steps_fun; [exact Hk|by constructor]). lia.
    + intros x [->|Hx]%elem_of_cons.
      * split; [lia|]. exists (S n). split; [by constructor|done].
      * destruct (Hin x Hx) as (? & k & ? & ?). split; [done|]. exists k. split; [done|lia].
Qed.

Lemma steps_bound p n : steps p n -> 0 <= p < 256 -> (n <= 255)%nat.
Proof.
  intros Hs Hp. destruct (steps_visited p n Hs Hp) as (l & <- & Hnd & Hin).
  assert (l ⊆ zrange 1 256) as Hsub by (intros x Hx; apply elem_of_zrange; destruct (Hin x Hx); lia).
  pose proof (submseteq_length _ _ (NoDup_submseteq _ _ Hnd Hsub)) as Hle.
  pose proof (length_zrange 1 256). lia.
Qed.

Lemma parse_loop_steps fuel p c :
  (is_Some (parse_loop inl fuel bus slot func p c) <-> exists n, steps p n /\ (n <= fuel)%nat).
Proof.
  revert p c. induction fuel as [|fuel IH]; intros p c; cbn [parse_loop]; destruct (Z.eqb_spec p 0) as [->|Hp].
  1,3: split; [intros _; exists 0%nat; split; [constructor|lia]|done].
  - split; [by intros [? ?]|]. intros (n & Hs & Hn). inversion Hs; subst; [done|lia].
  - cbv zeta. assert (forall c', is_Some (parse_loop inl fuel bus slot func (next p) c') <-> exists n, steps p n /\ (n <= S fuel)%nat) as Hc.
    { intros c'. rewrite IH. split.
      - intros (n & Hs & Hn). exists (S n). split; [by constructor|lia].
      - intros (n & Hs & Hn). inversion Hs; subst; [done|]. eexists; split; [eassumption|lia]. }
    destruct (negb _); apply Hc.
Qed.

(** The capability walk has no bound of its own: [parse_capabilities] follows
    the pointers of the device until it finds a null one.  If it ends at all it
    ends within 255 capabilities, whatever the device holds, so the fuel 255 of
    the model decides whether the kernel gets past the list or stays in it. *)
Theorem capability_walk_bound c :
  (exists fuel, is_Some (parse_capabilities inl fuel bus slot func c)) <->
  is_Some (parse_capabilities inl 255 bus slot func c).
Proof.
  assert (forall fuel, is_Some (parse_capabilities inl fuel bus slot func c) <->
    is_Some (parse_loop inl fuel bus slot func (pci_cfg_read8 inl bus slot func 0x34) c)) as E.
  { intros fuel. unfold parse_capabilities. destruct (parse_loop _ _ _ _ _ _ _); [|done]. by split; eexists. }
  rewrite E. setoid_rewrite E. setoid_rewrite parse_loop_steps. split.
  - intros (fuel & n & Hs & Hn). exists n. split; [done|]. eapply steps_bound; [exact Hs|apply cfg_read8_byte].
  - intros Hx. by exists 255%nat.
Qed.
End walk.

(** ** The status protocol *)

Definition status_of (w : reg_write) : option Z := match w with DeviceStatus v => Some v | _ => None end.

Section protocol.
Context {A : Type} `{FrameAllocator A} (hhdm : Z).
Context (inl : Z -> Z) (status_after : Z -> Z) (queue_size_reg queue_notify_off_reg : Z -> Z) (num_scanouts_reg : Z).

Lemma queue_writes_no_status (l : list cfg_write) : omap status_of (Queue <$> l) = [].
Proof. by induction l. Qed.

(** What [setup_queues] leaves behind. *)
Lemma setup_queues_spec (f : frames A) g f' g' w r :
  setup_queues hhdm queue_size_reg queue_notify_off_reg f g = (f', g', w, r) ->
  omap status_of w = [] /\ initialized g' = initialized g /\
  (r = 0 /\ is_Some (controlq g') /\ is_Some (cursorq g') \/ r = -1).
Proof.
  unfold setup_queues. destruct (virtq_init _ _ _ f _ _ _ _ _) as [[f1 w1] [c|]].
  - destruct (virtq_init _ _ _ f1 _ _ _ _ _) as [[f2 w2] [u|]]; intros [= <- <- <- <-];
      (split; [apply queue_writes_no_status|]; split; [done|]); [left|by right]. split; [done|]. split; by eexists.
  - intros [= <- <- <- <-]. split; [apply queue_writes_no_status|]. split; [done|by right].
Qed.

(** Bringing the device up follows the status protocol of virtio.  Whatever the
    device answers, the values written to its status register are reset,
    ACKNOWLEDGE, DRIVER and FEATURES_OK, in this order and each keeping the
    earlier bits; DRIVER_OK is written only after the device has confirmed
    FEATURES_OK and both queues were set up; a device that refuses the features
    is reset.  The device is marked initialised exactly when the probe
    succeeds, and then all five steps were taken and both queues exist. *)
Theorem probe_status_protocol fuel (f : frames A) g f' g' w r :
  initialized g = false ->
  virtio_gpu_dev_probe hhdm inl status_after queue_size_reg queue_notify_off_reg num_scanouts_reg fuel f g
    = Some (f', g', w, r) ->
  (omap status_of w = [] /\ r = -1 \/
   omap status_of w = [0; 1; 3; 11; 0] /\ r = -1 /\ Z.land (status_after 11) 8 = 0 \/
   omap status_of w = [0; 1; 3; 11] /\ r = -1 /\ Z.land (status_after 11) 8 <> 0 \/
   omap status_of w = [0; 1; 3; 11; 15] /\ Z.land (status_after 11) 8 <> 0 /\
     is_Some (controlq g') /\ is_Some (cursorq g') /\ (r = 0 \/ r = -1)) /\
  (r = 0 <-> initialized g' = true) /\ (r = 0 -> Z.land (status_after 15) 0x40 = 0).
Proof.
  intros Hi. unfold virtio_gpu_dev_probe. rewrite Hi.
  destruct (pci_find_virtio_gpu inl) as [[[bus slot] func]|]; [|intros [= <- <- <- <-]; split; [by left|done]].
  destruct (parse_capabilities _ _ _ _ _ _) as [[c ok]|]; [|done].
  destruct (negb ok); [intros [= <- <- <- <-]; split; [by left|done]|].
  set (g1 := map_mmio _ _).
  destruct (common g1 =? 0) eqn:Ec; cbn [orb]; [intros [= <- <- <- <-]; split; [by left|done]|].
  destruct (_ || _); [intros [= <- <- <- <-]; split; [by left|done]|].
  unfold negotiate_features. rewrite Ec.
  change STATUS_FEATURES with 11. change VIRTIO_STATUS_FEATURES_OK with 8.
  destruct (Z.eqb_spec (Z.land (status_after 11) 8) 0) as [Ef|Ef]; cbn [negb Z.eqb].
  { intros [= <- <- <- <-]. split; [right; left; done|done]. }
  match goal with |- context [DeviceStatus 0 :: ?l] =>
    assert (omap status_of (DeviceStatus 0 :: l) = [0; 1; 3; 11]) as HW by done; set (W := DeviceStatus 0 :: l) in *; clearbody W end.
  destruct (setup_queues _ _ _ f g1) as [[[f2 g2] w2] r2] eqn:Es.
  apply setup_queues_spec in Es as (Hw2 & Hg2 & [(-> & Hq1 & Hq2)| ->]); cbn [negb Z.eqb].
  2:{ intros [= <- <- <- <-]. rewrite omap_app, HW, Hw2. split; [do 2 right; left; done|]. by rewrite Hg2. }
  unfold finalize_driver_ok. change STATUS_OK with 15. change VIRTIO_STATUS_DEVICE_NEEDS_RESET with 0x40.
  destruct (Z.eqb_spec (Z.land (status_after 15) 64) 0) as [Ed|Ed]; cbn [negb Z.eqb].
  2:{ intros [= <- <- <- <-]. rewrite !omap_app, HW, Hw2. split; [do 3 right; naive_solver|]. by rewrite Hg2. }
  destruct (alloc_cmd_pages hhdm f2) as [f3 ps]. destruct (Z.of_nat (length ps) =? 0).
  { intros [= <- <- <- <-]. rewrite !omap_app, HW, Hw2. split; [do 3 right; naive_solver|done]. }
  destruct (gpu_alloc_page hhdm f3) as [f4 [pg|]]; intros [= <- <- <- <-]; rewrite !omap_app, HW, Hw2;
    (split; [do 3 right; naive_solver|done]).
Qed.
End protocol.

(** ** Witnesses *)

(** The configuration space of a virtio-gpu at 00:00.0 with its four capabilities
    in a list at 0x40. *)
Definition demo_config (reg : Z) : Z :=
  if reg =? 0 then 0x10501AF4 else if reg =? 8 then 0x03800000 else if reg =? 0x10 then 0xFE000000
  else if reg =? 0x34 then 0x40
  else if reg =? 0x40 then 0x01105009
  else if reg =? 0x50 then 0x02146409 else if reg =? 0x58 then 0x3000 else if reg =? 0x60 then 4
  else if reg =? 0x64 then 0x03107409 else if reg =? 0x6C then 0x1000
  else if reg =? 0x74 then 0x04100009 else if reg =? 0x7C then 0x2000 else 0.
Definition demo_inl (address : Z) : Z := demo_config (address - 0x80000000).

#[local] Existing Instance Pmm.pmm_allocator.

Definition demo_frames : frames Pmm.pmm := mk_frames (Paging.frames PagingOps.demo_vm) ∅.
Notation demo_probe :=
  (virtio_gpu_dev_probe 0xFFFF800000000000 demo_inl (fun v => v) (fun _ => 16) (fun q => q) 1 255 demo_frames dev0).

Lemma demo_probe_succeeds : match demo_probe with Some (_, _, _, r) => r =? 0 | None => false end = true.
Proof. vm_compute. reflexivity. Qed.

Lemma probe_status_protocol_witness :
  exists f' g' w, demo_probe = Some (f', g', w, 0) /\ initialized g' = true /\ omap status_of w <> [].
Proof.
  pose proof demo_probe_succeeds as Hs. destruct demo_probe as [[[[f' g'] w] r]|] eqn:E; [|discriminate Hs].
  apply Z.eqb_eq in Hs. subst r.
  destruct (probe_status_protocol _ _ _ _ _ _ _ _ dev0 _ _ _ _ eq_refl E) as (Hst & Hi & _).
  exists f', g', w. split; [reflexivity|]. split; [by apply Hi|].
  destruct Hst as [[_ Hr]|[(_ & Hr & _)|[(_ & Hr & _)|(Hw & _)]]]; [discriminate Hr..|]. rewrite Hw. discriminate.
Defined.

(** A command of 5000 bytes in two pages; the device answers OK_NODATA. *)
Definition demo_dev : virtio_gpu_dev_t :=
  mk_dev (0, 0, 0) caps0 1 1 1 (Some fresh16) None [mk_page 0x10000 0; mk_page 0x14000 0] (mk_page 0x12000 0)
    640 480 1 true true.
Definition demo_cmd : list Z := replicate 5000 7.
Definition demo_reaction : reaction :=
  mk_reaction (fun m => store_bytes m 0x12000 (b32 VIRTIO_GPU_RESP_OK_NODATA)) (fun _ => mk_used 1 (fun _ => (0, 4))).

Lemma demo_dev_ready : dev_ready demo_dev fresh16.
Proof.
  split; [done|done|apply fresh16_wf|]. split; [|by repeat constructor].
  cbn. rewrite !NoDup_cons. splits; [set_solver..|constructor].
Qed.

Lemma demo_cmd_small : (0 < length demo_cmd)%nat /\ Z.of_nat (length demo_cmd) + 4095 < 2 ^ 32 /\ cmd_count demo_cmd = 2.
Proof. vm_compute. repeat split; lia. Qed.

Lemma demo_published : last_used_idx (published demo_dev fresh16 demo_cmd 32) = 0.
Proof. vm_compute. reflexivity. Qed.

Lemma dev_command_delivers_witness :
  exists g', virtio_gpu_dev_command demo_dev ∅ demo_cmd 32 demo_reaction =
    (g', dma_after demo_reaction (prepared demo_dev ∅ demo_cmd), 0,
     load_bytes (dma_after demo_reaction (prepared demo_dev ∅ demo_cmd)) 0x12000 32).
Proof.
  destruct demo_cmd_small as (Hpos & Hlen & Hcnt).
  destruct (dev_command_delivers demo_dev fresh16 ∅ demo_cmd 32 demo_reaction 0 1 0 4 demo_dev_ready Hpos Hlen
    ltac:(lia) ltac:(rewrite Hcnt; cbn; lia) ltac:(rewrite Hcnt; cbn; lia)) as (_ & _ & Hans).
  destruct Hans as (q2 & E & _ & _).
  - pose proof demo_published as E. constructor; rewrite ?E.
    + unfold VIRTQ_POLL_MAX_ITER. lia.
    + intros i Hi. lia.
    + reflexivity.
    + cbn. lia.
    + intros t Ht. cbn in Ht. lia.
    + reflexivity.
  - eexists. exact E.
Defined.
End VirtioDev.
