(* ===== verification/VirtioGpu.v ===== *)
(** * virtio-gpu backend (src/graphics/backend/virtio_gpu.c)

    Surfaces whose pixels lie in frames that the device is told about page by
    page.  [command] stands for [virtio_gpu_dev_command] on the device state [D]:
    it returns the new state, the result and the bytes of the response;
    [VirtioDev] shows that the driver core delivers a command and its answer.
    Pixel memory is a map of 32-bit cells as in [Software]. *)

From S2P Require Import Prelude KString Bytes Pmm Display KwmThm Ghal Software SoftwareThm Virtqueue VirtioDev.
From stdpp Require Import base numbers list gmap strings.
From Stdlib Require Import ZArith Lia.

#[local] Open Scope list_scope.
#[local] Open Scope Z_scope.

Module VirtioGpu.
Import Bytes Ghal GpuAlloc VirtioDev.

(** [struct ghal_surface] of this backend; [v_pages] is the array at [v_pages_ptr]. *)
Record vsurface := mk_vsurface {
  resource_id : Z; v_width : Z; v_height : Z; v_format : Z;
  v_pages_ptr : Z; v_pages : list gpu_page_t; num_pages : Z;
  backing_virt : Z; backing_phys : Z; scanout_set : bool;
}.
Definition vsurface0 : vsurface := mk_vsurface 0 0 0 0 0 [] 0 0 0 false.
Definition SIZEOF_VSURFACE : Z := 56.
Definition SIZEOF_GPU_PAGE : Z := 16.
Definition SIZEOF_ATTACH : Z := 32.
Definition SIZEOF_MEM_ENTRY : Z := 16.

Section backend.
Context {A : Type} `{FA : FrameAllocator A} {H : Type} `{KA : KAlloc H} {D : Type} (hhdm : Z).
Context (probe : D -> D * Z) (command : D -> list Z -> Z -> D * Z * list Z).

Record vgpu := mk_vgpu {
  vframes : frames A; vheap : H; vsurfs : gmap Z vsurface;
  g_virtio_active : bool; vdev : D; g_resource_counter : Z;
  scan_w : Z; scan_h : Z;
}.

Definition set_vframes (g : vgpu) (f : frames A) : vgpu :=
  mk_vgpu f g.(vheap) g.(vsurfs) g.(g_virtio_active) g.(vdev) g.(g_resource_counter) g.(scan_w) g.(scan_h).
Definition set_vmem (g : vgpu) (m : gmap Z Z) : vgpu := set_vframes g (mk_frames g.(vframes).(fa) m).
Definition set_vheap (g : vgpu) (h : H) : vgpu :=
  mk_vgpu g.(vframes) h g.(vsurfs) g.(g_virtio_active) g.(vdev) g.(g_resource_counter) g.(scan_w) g.(scan_h).
Definition set_vsurfs (g : vgpu) (l : gmap Z vsurface) : vgpu :=
  mk_vgpu g.(vframes) g.(vheap) l g.(g_virtio_active) g.(vdev) g.(g_resource_counter) g.(scan_w) g.(scan_h).
Definition set_vdev (g : vgpu) (d : D) : vgpu :=
  mk_vgpu g.(vframes) g.(vheap) g.(vsurfs) g.(g_virtio_active) d g.(g_resource_counter) g.(scan_w) g.(scan_h).
Definition set_vactive (g : vgpu) (b : bool) (w h : Z) : vgpu :=
  mk_vgpu g.(vframes) g.(vheap) g.(vsurfs) b g.(vdev) g.(g_resource_counter) w h.
Definition set_counter (g : vgpu) (c : Z) : vgpu :=
  mk_vgpu g.(vframes) g.(vheap) g.(vsurfs) g.(g_virtio_active) g.(vdev) c g.(scan_w) g.(scan_h).

Definition vsurf (g : vgpu) (s : Z) : vsurface := default vsurface0 (g.(vsurfs) !! s).

Definition vfree (g : vgpu) (p : Z) : vgpu := set_vheap g (ka_kfree p g.(vheap)).
Definition vmalloc (g : vgpu) (n : Z) : vgpu * Z := let '(h, p) := ka_kmalloc n g.(vheap) in (set_vheap g h, p).
Definition vfree_pages (g : vgpu) (ps : list gpu_page_t) : vgpu := set_vframes g (gpu_free_pages g.(vframes) ps).1.

Definition vgpu_send_ok (g : vgpu) (cmd : list Z) : vgpu * Z :=
  let '(d, r, resp) := command g.(vdev) cmd 32 in
  let g := set_vdev g d in
  if negb (r =? 0) then (g, -1)
  else if negb (field 4 resp 0 =? VIRTIO_GPU_RESP_OK_NODATA) then (g, -1) else (g, 0).

(** The response has a header of 24 bytes and sixteen modes of 24 bytes. *)
Definition virtio_init (g : vgpu) : vgpu * Z :=
  if g.(g_virtio_active) then (g, 0)
  else
    let '(d, r) := probe g.(vdev) in
    let g := set_vdev g d in
    if negb (r =? 0) then (g, -1)
    else
      let '(d, r, resp) := command g.(vdev) virtio_gpu_cmd_get_display_info 408 in
      let g := set_vdev g d in
      if negb (r =? 0) then (g, -1)
      else if negb (field 4 resp 0 =? VIRTIO_GPU_RESP_OK_DISPLAY_INFO) then (g, -1)
      else if field 4 resp 40 =? 0 then (g, -1)
      else (set_vactive g true (field 4 resp 32) (field 4 resp 36), 0).

Definition virtio_shutdown (g : vgpu) : vgpu := set_vactive g false g.(scan_w) g.(scan_h).

Definition virtio_backend_get_size (g : vgpu) : Z * Z := (g.(scan_w), g.(scan_h)).

(** The attach command with one entry per page. *)
Definition attach_command (id : Z) (ps : list gpu_page_t) : list Z :=
  virtio_gpu_cmd_attach_backing id (Z.of_nat (length ps)) ++
  concat (map (fun p => b64 p.(phys) ++ b32 4096 ++ b32 0) ps).

(** Giving back what a failed creation holds. *)
Definition undo (g : vgpu) (ps : list gpu_page_t) (pages s : Z) : vgpu := vfree (vfree (vfree_pages g ps) pages) s.

Definition virtio_surface_create (g : vgpu) (w h fmt : Z) : vgpu * Z :=
  if (w =? 0) || (h =? 0) || (GHAL_MAX_DIM <? w) || (GHAL_MAX_DIM <? h) then (g, 0)
  else
    let bytes := u64 (w * h * 4) in
    if (bytes =? 0) || (negb (w =? 0) && negb (bytes / 4 / w =? h)) then (g, 0)
    else
      let n := u32 ((bytes + 4095) / 4096) in
      let '(g, pages) := vmalloc g (SIZEOF_GPU_PAGE * n) in
      if pages =? 0 then (g, 0)
      else
        let '(f, ps) := gpu_alloc_pages hhdm g.(vframes) n in
        let g := set_vframes g f in
        if Z.of_nat (length ps) =? 0 then (vfree g pages, 0)
        else if Z.of_nat (length ps) <? n then (vfree (vfree_pages g ps) pages, 0)
        else
          let '(g, s) := vmalloc g SIZEOF_VSURFACE in
          if s =? 0 then (vfree (vfree_pages g ps) pages, 0)
          else
            let '(c, id) := virtio_gpu_next_resource_id g.(g_resource_counter) in
            let g := set_counter g c in
            let p0 := default page0 (ps !! 0%nat) in
            let o := mk_vsurface id w h fmt pages ps n p0.(virt) p0.(phys) false in
            let '(g, r) := vgpu_send_ok g (virtio_gpu_cmd_resource_create_2d id VIRTIO_GPU_FORMAT_B8G8R8X8_UNORM w h) in
            if negb (r =? 0) then (undo g ps pages s, 0)
            else
              let '(g, ac) := vmalloc g (SIZEOF_ATTACH + n * SIZEOF_MEM_ENTRY) in
              if ac =? 0 then (undo g ps pages s, 0)
              else
                let '(g, ok) := vgpu_send_ok g (attach_command id ps) in
                let g := vfree g ac in
                if negb (ok =? 0) then
                  let '(g, _) := vgpu_send_ok g (virtio_gpu_cmd_resource_unref id) in (undo g ps pages s, 0)
                else
                  let g := if (w =? g.(scan_w)) && (h =? g.(scan_h))
                           then (vgpu_send_ok g (virtio_gpu_cmd_set_scanout 0 id 0 0 w h)).1 else g in
                  (set_vsurfs g (<[s := o]> g.(vsurfs)), s).

Definition virtio_surface_destroy (g : vgpu) (s : Z) : vgpu :=
  if s =? 0 then g
  else
    let o := vsurf g s in
    let '(g, _) := vgpu_send_ok g (virtio_gpu_cmd_detach_backing o.(resource_id)) in
    let '(g, _) := vgpu_send_ok g (virtio_gpu_cmd_resource_unref o.(resource_id)) in
    let g := vfree_pages g (take (Z.to_nat o.(num_pages)) o.(v_pages)) in
    let g := vfree (vfree g o.(v_pages_ptr)) s in
    set_vsurfs g (delete s g.(vsurfs)).

Definition virtio_surface_upload (g : vgpu) (s src src_pitch : Z) (rect : ghal_rect_t) : vgpu :=
  if (s =? 0) || (src =? 0) then g
  else
    let o := vsurf g s in
    if (o.(v_width) <=? rect.(gx)) || (o.(v_height) <=? rect.(gy)) then g
    else
      let w := Software.clamp rect.(gw) (o.(v_width) - rect.(gx)) in
      let h := Software.clamp rect.(gh) (o.(v_height) - rect.(gy)) in
      let srow := src / 4 + (rect.(gy) * src_pitch + rect.(gx)) in
      let drow := o.(backing_virt) / 4 + (rect.(gy) * o.(v_width) + rect.(gx)) in
      set_vmem g (Software.copy_rows g.(vframes).(fmem) drow o.(v_width) srow src_pitch w h).

Definition virtio_fill_rect (g : vgpu) (dst : Z) (rect : ghal_rect_t) (argb : Z) : vgpu :=
  if dst =? 0 then g
  else
    let o := vsurf g dst in
    if (o.(v_width) <=? rect.(gx)) || (o.(v_height) <=? rect.(gy)) then g
    else
      let w := Software.clamp rect.(gw) (o.(v_width) - rect.(gx)) in
      let h := Software.clamp rect.(gh) (o.(v_height) - rect.(gy)) in
      let color := Z.land argb 0xFFFFFF in
      set_vmem g (for_loop 0 h (fun y m =>
        let row := o.(backing_virt) / 4 + (u32 (rect.(gy) + y) * o.(v_width) + rect.(gx)) in
        for_loop 0 w (fun x m => st m (row + x) color) m) g.(vframes).(fmem)).

(** The size is clamped to the destination only. *)
Definition virtio_blit (g : vgpu) (dst : Z) (dr : ghal_rect_t) (src : Z) (sr : ghal_rect_t) : vgpu :=
  if (dst =? 0) || (src =? 0) then g
  else if negb (dr.(gw) =? sr.(gw)) || negb (dr.(gh) =? sr.(gh)) then g
  else
    let d := vsurf g dst in
    if (d.(v_width) <=? dr.(gx)) || (d.(v_height) <=? dr.(gy)) then g
    else
      let w := Software.clamp dr.(gw) (d.(v_width) - dr.(gx)) in
      let h := Software.clamp dr.(gh) (d.(v_height) - dr.(gy)) in
      let s := vsurf g src in
      if (s.(v_width) <=? sr.(gx)) || (s.(v_height) <=? sr.(gy)) then g
      else
        let srow := s.(backing_virt) / 4 + (sr.(gy) * s.(v_width) + sr.(gx)) in
        let drow := d.(backing_virt) / 4 + (dr.(gy) * d.(v_width) + dr.(gx)) in
        set_vmem g (Software.copy_rows g.(vframes).(fmem) drow d.(v_width) srow s.(v_width) w h).

Definition set_scanout_done (o : vsurface) : vsurface :=
  mk_vsurface o.(resource_id) o.(v_width) o.(v_height) o.(v_format) o.(v_pages_ptr) o.(v_pages) o.(num_pages)
    o.(backing_virt) o.(backing_phys) true.

Definition virtio_present (g : vgpu) (s : Z) (rect : option ghal_rect_t) : vgpu :=
  if s =? 0 then g
  else
    let o := vsurf g s in
    let r := match rect with Some r => r | None => mk_grect 0 0 o.(v_width) o.(v_height) end in
    let g := if negb o.(scanout_set) && (o.(v_width) =? g.(scan_w)) && (o.(v_height) =? g.(scan_h)) then
               let '(g, ok) := vgpu_send_ok g (virtio_gpu_cmd_set_scanout 0 o.(resource_id) 0 0 o.(v_width) o.(v_height)) in
               if ok =? 0 then set_vsurfs g (<[s := set_scanout_done o]> g.(vsurfs)) else g
             else g in
    let '(g, _) := vgpu_send_ok g (virtio_gpu_cmd_transfer_to_host o.(resource_id) r.(gx) r.(gy) r.(gw) r.(gh)) in
    let '(g, _) := vgpu_send_ok g (virtio_gpu_cmd_resource_flush o.(resource_id) r.(gx) r.(gy) r.(gw) r.(gh)) in
    g.

Definition virtio_gpu_backend_ops : ghal_backend_ops_t vgpu :=
  mk_ops vgpu "virtio-gpu" GHAL_CAP_PARTIAL_FLUSH (Some virtio_init) (Some virtio_shutdown)
    (Some virtio_surface_create) (Some virtio_surface_destroy) (Some virtio_surface_upload) (Some virtio_fill_rect)
    (Some virtio_blit) (Some virtio_present).
End backend.

(** ** Creation holds nothing after a failure *)

Section create.
Context {A : Type} `{FA : FrameAllocator A} {H : Type} `{KA : KAlloc H} `{!KAllocOk H} {D : Type} (hhdm : Z).
Context (command : D -> list Z -> Z -> D * Z * list Z).
Notation vgpu := (vgpu (A := A) (H := H) (D := D)).
Implicit Types g : vgpu.

(** Since [a0] exactly the frames [ps] were taken. *)
Record holds_frames (a0 a : A) (ps : list Z) : Prop := {
  hf_inv : fa_inv a;
  hf_nodup : NoDup ps;
  hf_owned : forall p, p ∈ ps -> fa_avail a0 p = true /\ fa_owns a p = true;
  hf_avail : forall p, fa_avail a p = negb (bool_decide (p ∈ ps)) && fa_avail a0 p;
}.

(** Since [g0] exactly the frames of [ps] and the heap blocks [l] were taken. *)
Record holding g0 g (ps : list gpu_page_t) (l : list Z) : Prop := {
  hd_frames : holds_frames (fa (vframes g0)) (fa (vframes g)) (phys <$> ps);
  hd_nodup : NoDup l;
  hd_fresh : forall p, p ∈ l -> ~ ka_live (vheap g0) p;
  hd_live : forall p, ka_live (vheap g) p <-> ka_live (vheap g0) p \/ p ∈ l;
  hd_surfs : vsurfs g = vsurfs g0;
}.

Lemma holding_refl g : fa_inv (fa (vframes g)) -> holding g g [] [].
Proof.
  intros Hi. split; [|constructor|by intros p Hp%not_elem_of_nil| |done].
  - split; [done|constructor|by intros p Hp%not_elem_of_nil|done].
  - intros p. split; [by left|]. intros [?|Hp]; [done|by apply not_elem_of_nil in Hp].
Qed.

Lemma holding_send g0 g ps l cmd : holding g0 g ps l -> holding g0 (vgpu_send_ok command g cmd).1 ps l.
Proof.
  intros [F N R L S]. unfold vgpu_send_ok. destruct (command _ _ _) as [[d r] resp].
  by destruct (negb (r =? 0)); [|destruct (negb _)].
Qed.

Lemma holding_malloc g0 g ps l n g' p :
  holding g0 g ps l -> vmalloc g n = (g', p) -> holding g0 g' ps (if p =? 0 then l else p :: l).
Proof.
  intros [F N R L S] E. unfold vmalloc in E. destruct (ka_kmalloc n (vheap g)) as [h q] eqn:Em. inversion E; subst; clear E.
  pose proof (ka_malloc_live n (vheap g)) as Hl. pose proof (ka_fresh n (vheap g)) as Hf. rewrite Em in Hl, Hf. cbn [fst snd] in Hl, Hf.
  destruct (Z.eqb_spec p 0) as [->|Hp].
  - split; try done. intros x. cbn [vheap set_vheap]. rewrite Hl, L. naive_solver.
  - specialize (Hf Hp). rewrite L in Hf. split; try done.
    + constructor; [tauto|done].
    + intros x [->|Hx]%elem_of_cons; [tauto|by apply R].
    + intros x. cbn [vheap set_vheap]. rewrite Hl, L, elem_of_cons. naive_solver.
Qed.

Lemma holding_free g0 g ps p l : holding g0 g ps (p :: l) -> holding g0 (vfree g p) ps l.
Proof.
  intros [F N R L S]. inversion N as [|? ? Hp Hl]; subst. split; try done.
  - intros x Hx. apply R. set_solver.
  - intros x. cbn [vheap vfree set_vheap]. rewrite ka_free_live, L, elem_of_cons. split; [naive_solver|].
    intros [Hx|Hx]; (split; [tauto|]); intros ->; [|done]. by destruct (R p); [set_solver|].
Qed.

Lemma holding_perm g0 g ps l l' : l ≡ₚ l' -> holding g0 g ps l -> holding g0 g ps l'.
Proof. intros E [F N R L S]. split; try done; [by rewrite <- E|intros p; rewrite <- E; by apply R|intros p; by rewrite <- E]. Qed.

Lemma holding_alloc g0 g l n f ps :
  holding g0 g [] l -> gpu_alloc_pages hhdm (vframes g) n = (f, ps) -> holding g0 (set_vframes g f) ps l.
Proof.
  intros [[I _ _ V] N R L S] E. split; try done. cbn [vframes set_vframes].
  assert (taken (fa (vframes g)) (fa f) (phys <$> ps)) as [T1 T2 T3 T4 T5].
  { unfold gpu_alloc_pages in E. destruct (n =? 0); [inversion E; subst; by apply taken_nil|].
    eapply gpu_alloc_loop_spec in E as [? _]; [done|]. by apply taken_nil. }
  assert (forall p, fa_avail (fa (vframes g)) p = fa_avail (fa (vframes g0)) p) as V' by (intros p; by rewrite V).
  split; [done|done| |].
  - intros p Hp. rewrite <- V', T5, bool_decide_true by done. split; [by apply T3|done].
  - intros p. by rewrite T4, V'.
Qed.

Lemma holding_free_pages g0 g ps l :
  (forall p, fa_avail (fa (vframes g0)) p = true -> LOW_RESERVED <= p) ->
  holding g0 g ps l -> holding g0 (vfree_pages g ps) [] l.
Proof.
  intros Hlow [[I Nd O V] N R L S]. split; try done. cbn [vframes vfree_pages set_vframes].
  destruct (gpu_free_spec (vframes g) ps I Nd) as (I' & _ & V').
  { intros p Hp. destruct (O p Hp). split; [done|by apply Hlow]. }
  split; [done|constructor|by intros p Hp%not_elem_of_nil|]. intros p. rewrite V', V. cbn.
  case_bool_decide as Hp; [|done]. cbn. symmetry. by apply O.
Qed.

(** A surface that cannot be created costs nothing: whichever step fails (the
    size check, the page array, some of the frames, the structure, a command
    that the device rejects, the attach buffer), the frames that were taken are
    available again, the kernel heap holds the blocks it held before, and the
    table of surfaces is unchanged. *)
Theorem virtio_create_failure_releases g w h fmt g' :
  fa_inv (fa (vframes g)) -> (forall p, fa_avail (fa (vframes g)) p = true -> LOW_RESERVED <= p) ->
  virtio_surface_create hhdm command g w h fmt = (g', 0) ->
  (forall p, fa_avail (fa (vframes g')) p = fa_avail (fa (vframes g)) p) /\
  (forall p, ka_live (vheap g') p <-> ka_live (vheap g) p) /\ vsurfs g' = vsurfs g.
Proof.
  intros Hi Hlow E. enough (holding g g' [] []) as [[_ _ _ V] _ _ L S].
  { split; [intros p; by rewrite V|]. split; [|done]. intros p. rewrite L. split; [|by left].
    intros [?|Hp]; [done|by apply not_elem_of_nil in Hp]. }
  pose proof (holding_refl g Hi) as H0. revert E. unfold virtio_surface_create.
  destruct (_ || _); [by intros [= <-]|]. cbv zeta. destruct (_ || _); [by intros [= <-]|].
  destruct (vmalloc g _) as [g1 pages] eqn:E1. pose proof (holding_malloc _ _ _ _ _ _ _ H0 E1) as H1.
  destruct (Z.eqb_spec pages 0) as [->|Hpages]; [by intros [= <-]|].
  destruct (gpu_alloc_pages _ _ _) as [f ps] eqn:E2. pose proof (holding_alloc _ _ _ _ _ _ H1 E2) as H2.
  destruct (Z.of_nat (length ps) =? 0) eqn:Ez.
  { intros [= <-]. apply holding_free. apply Z.eqb_eq in Ez. destruct ps; [done|]. cbn in Ez. lia. }
  destruct (_ <? _); [intros [= <-]; by apply holding_free, holding_free_pages|].
  destruct (vmalloc _ SIZEOF_VSURFACE) as [g3 s] eqn:E3. pose proof (holding_malloc _ _ _ _ _ _ _ H2 E3) as H3.
  destruct (Z.eqb_spec s 0) as [->|Hs]; [intros [= <-]; by apply holding_free, holding_free_pages|].
  cbn [virtio_gpu_next_resource_id]. set (g4 := set_counter g3 _).
  assert (holding g g4 ps [s; pages]) as H4 by (by destruct H3; constructor).
  destruct (vgpu_send_ok command g4 _) as [g5 r5] eqn:E5. apply (f_equal fst) in E5. cbn in E5.
  assert (holding g g5 ps [s; pages]) as H5 by (rewrite <- E5; by apply holding_send).
  assert (forall g6, holding g g6 ps [s; pages] -> holding g (undo g6 ps pages s) [] []) as Hundo.
  { intros g6 H6. unfold undo. apply holding_free, holding_free.
    apply (holding_perm _ _ _ [s; pages]); [constructor|]. by apply holding_free_pages. }
  destruct (negb (r5 =? 0)); [intros [= <-]; by apply Hundo|].
  destruct (vmalloc g5 _) as [g6 ac] eqn:E6. pose proof (holding_malloc _ _ _ _ _ _ _ H5 E6) as H6.
  destruct (Z.eqb_spec ac 0) as [->|Hac]; [intros [= <-]; by apply Hundo|].
  destruct (vgpu_send_ok command g6 _) as [g7 ok] eqn:E7. apply (f_equal fst) in E7. cbn in E7.
  assert (holding g (vfree g7 ac) ps [s; pages]) as H7 by (apply holding_free; rewrite <- E7; by apply holding_send).
  destruct (negb (ok =? 0)).
  - destruct (vgpu_send_ok command (vfree g7 ac) _) as [g8 r8] eqn:E8. apply (f_equal fst) in E8. cbn in E8.
    intros [= <-]. apply Hundo. rewrite <- E8. by apply holding_send.
  - by intros [= _ Es].
Qed.
End create.

(** ** Where the pixels go *)

Section pixels.
Context {A : Type} `{FA : FrameAllocator A} {H : Type} `{KA : KAlloc H} {D : Type}.
Notation vgpu := (vgpu (A := A) (H := H) (D := D)).
Implicit Types g : vgpu.
Import SoftwareThm.

(** The backing as the code uses it: one array that starts at the first page. *)
Definition backing_grid (o : vsurface) : grid := mk_grid (backing_virt o / 4) (v_width o) (v_width o) (v_height o).

Lemma vupload_spec g s src pitch r bw bh :
  let o := vsurf g s in
  let a := backing_grid o in
  let b := mk_grid (src / 4) pitch bw bh in
  s <> 0 -> src <> 0 -> grect_ok r -> grid_ok a -> grid_ok b -> apart a b ->
  v_width o <= bw -> v_height o <= bh ->
  exists m', virtio_surface_upload g s src pitch r = set_vmem g m' /\
    copies a b (hit r (v_width o) (v_height o)) 0 0 (fmem (vframes g)) m'.
Proof.
  intros o a b Hs Hsrc (R1 & R2 & R3 & R4) Ha Hb Hab Hw Hh. unfold virtio_surface_upload.
  rewrite !(proj2 (Z.eqb_neq _ _)) by done. cbn [orb]. fold o.
  assert (grid_ok a) as (A1 & A2 & A3) by done. cbn [gwid gpitch ghgt a backing_grid] in A1, A2, A3.
  assert (g = set_vmem g (fmem (vframes g))) as Eg by (by destruct g as [[] ? ? ? ? ? ? ?]).
  destruct (Z.leb_spec (v_width o) (gx r)); [eexists; split; [exact Eg|]; apply copies_none; unfold hit; intros; lia|].
  destruct (Z.leb_spec (v_height o) (gy r)); [eexists; split; [exact Eg|]; apply copies_none; unfold hit; intros; lia|].
  cbn [orb]. eexists; split; [reflexivity|]. rewrite !clamp_min. unfold Software.copy_rows.
  eapply copies_rect with (dx := gx r) (dy := gy r) (sx := gx r) (sy := gy r) (w := Z.min (gw r) (v_width o - gx r));
    try done; cbn; try lia; [row_body|]. unfold hit. intros; lia.
Qed.

(** The pages of the surface, as the device was told about them. *)
Definition page_of (o : vsurface) (i : Z) : gpu_page_t := default page0 (v_pages o !! Z.to_nat i).

(** The cell in which the device finds pixel [i]. *)
Definition device_cell (o : vsurface) (i : Z) : Z := virt (page_of o (i / 1024)) / 4 + i mod 1024.

(** The frames of the surface follow one another. *)
Definition contiguous (o : vsurface) : Prop :=
  forall i, 0 <= i < num_pages o -> virt (page_of o i) = backing_virt o + 4096 * i.

(** What the device shows after an upload.  The code writes the pixels of a
    surface as one array from its first page on, while the device reads them
    page by page from the frames it was given.  If the frames follow one
    another, the device finds every uploaded pixel, and only frames of the
    surface are written. *)
Theorem virtio_upload_visible g s src pitch bw bh r :
  let o := vsurf g s in
  s <> 0 -> src <> 0 -> grect_ok r -> grid_ok (backing_grid o) -> grid_ok (mk_grid (src / 4) pitch bw bh) ->
  apart (backing_grid o) (mk_grid (src / 4) pitch bw bh) -> v_width o <= bw -> v_height o <= bh ->
  contiguous o -> v_width o * v_height o <= 1024 * num_pages o ->
  let m' := fmem (vframes (virtio_surface_upload g s src pitch r)) in
  (forall px py, hit r (v_width o) (v_height o) px py ->
     ld m' (device_cell o (py * v_width o + px)) = ld (fmem (vframes g)) (src / 4 + (py * pitch + px))) /\
  (forall c, (forall i k, 0 <= i < num_pages o -> 0 <= k < 1024 -> c <> virt (page_of o i) / 4 + k) ->
     ld m' c = ld (fmem (vframes g)) c).
Proof.
  intros o Hs Hsrc Hr Ha Hb Hab Hw Hh Hc Hn. destruct (vupload_spec g s src pitch r bw bh) as (m1 & -> & C1 & C2); try done.
  fold o in C1, C2. cbn [vframes set_vmem set_vframes fmem].
  pose proof Ha as (A1 & A2 & _). cbn [gwid gpitch ghgt backing_grid] in A1, A2.
  assert (forall px py, hit r (v_width o) (v_height o) px py -> 0 <= py * v_width o + px < v_width o * v_height o) as Hin.
  { intros px py (? & ? & ? & ?). destruct Hr as (? & ? & _). rewrite (Z.mul_comm (v_width o) (v_height o)).
    apply Display.grid_in; lia. }
  assert (forall i, 0 <= i < v_width o * v_height o -> device_cell o i = backing_virt o / 4 + i /\ 0 <= i / 1024 < num_pages o) as Hcell.
  { intros i Hi. assert (0 <= i / 1024 < num_pages o) as Hp by (split; [apply Z.div_pos; lia|apply Z.div_lt_upper_bound; lia]).
    split; [|done]. unfold device_cell. rewrite Hc by done. pose proof (Z.div_mod i 1024).
    replace (backing_virt o + 4096 * (i / 1024)) with (backing_virt o + (1024 * (i / 1024)) * 4) by lia.
    rewrite Z.div_add by lia. lia. }
  split.
  - intros px py Hp. rewrite (proj1 (Hcell _ (Hin _ _ Hp))). specialize (C1 px py Hp).
    unfold gcell in C1. cbn in C1. rewrite !Z.sub_0_r in C1. exact C1.
  - intros c Hout. apply C2. intros px py Hp E. pose proof (Hin _ _ Hp) as Hi. destruct (Hcell _ Hi) as [Ec Hpg].
    apply (Hout ((py * v_width o + px) / 1024) ((py * v_width o + px) mod 1024)); [done|apply Z.mod_pos_bound; lia|].
    rewrite E. unfold device_cell in Ec. rewrite Ec. done.
Qed.

(** Without contiguous frames it is different: a full upload to a surface of more
    than 1024 pixels changes the cell behind the first page, whoever owns it. *)
Lemma virtio_upload_overruns g s src pitch bw bh :
  let o := vsurf g s in
  let r := mk_grect 0 0 (v_width o) (v_height o) in
  s <> 0 -> src <> 0 -> grid_ok (backing_grid o) -> grid_ok (mk_grid (src / 4) pitch bw bh) ->
  apart (backing_grid o) (mk_grid (src / 4) pitch bw bh) -> v_width o <= bw -> v_height o <= bh ->
  0 < v_width o -> 1024 < v_width o * v_height o ->
  ld (fmem (vframes (virtio_surface_upload g s src pitch r))) (backing_virt o / 4 + 1024) =
  ld (fmem (vframes g)) (src / 4 + (1024 / v_width o * pitch + 1024 mod v_width o)).
Proof.
  intros o r Hs Hsrc Ha Hb Hab Hw Hh Hpos Hsz. pose proof Ha as (A1 & A2 & A3). cbn [gwid gpitch ghgt backing_grid] in A1, A2, A3.
  destruct (vupload_spec g s src pitch r bw bh) as (m1 & -> & C1 & _); try done.
  { unfold grect_ok, r. cbn. fold o. lia. }
  cbn [vframes set_vmem set_vframes fmem]. fold o in C1.
  pose proof (Z.div_mod 1024 (v_width o) ltac:(lia)). pose proof (Z.mod_pos_bound 1024 (v_width o) Hpos).
  specialize (C1 (1024 mod v_width o) (1024 / v_width o)). unfold gcell in C1. cbn in C1. rewrite !Z.sub_0_r in C1.
  rewrite <- C1; [f_equal; lia|]. unfold hit, r. cbn. fold o.
  assert (0 <= 1024 / v_width o < v_height o) by (split; [apply Z.div_pos; lia|apply Z.div_lt_upper_bound; lia]). lia.
Qed.
End pixels.

(** ** Witnesses *)

#[local] Existing Instance Pmm.pmm_allocator.
#[local] Existing Instance KwmThm.demo_alloc.
#[local] Existing Instance KwmThm.demo_alloc_ok.

(** A device that rejects every command. *)
Definition demo_vgpu : vgpu (A := Pmm.pmm) (H := gmap Z Z) (D := unit) :=
  mk_vgpu (mk_frames Pmm.demo_pmm ∅) ∅ ∅ true tt 1 640 480.
Definition rejects (d : unit) (_ : list Z) (_ : Z) : unit * Z * list Z := (d, -1, []).

Lemma demo_low p : Pmm.page_avail Pmm.demo_pmm p = true -> LOW_RESERVED <= p.
Proof.
  intros (Hp & Hm & Hb & Hu)%Pmm.page_avail_true. destruct (Z.le_gt_cases LOW_RESERVED p) as [?|Hlt]; [done|].
  rewrite (Pmm.inv_low _ Pmm.demo_inv) in Hu; [done| |done]. unfold LOW_RESERVED, PAGE_SIZE in *.
  split; [apply Z.div_pos; lia|]. apply Z.div_lt_upper_bound; [lia|]. change (4096 * (0x4800000 / 4096)) with 0x4800000. lia.
Qed.

Lemma demo_create_fails : (virtio_surface_create 0xFFFF800000000000 rejects demo_vgpu 4 4 0).2 = 0.
Proof. vm_compute. reflexivity. Qed.

Lemma demo_vgpu_frames :
  fa_inv (fa (vframes demo_vgpu)) /\ forall p, fa_avail (fa (vframes demo_vgpu)) p = true -> LOW_RESERVED <= p.
Proof. split; [exact Pmm.demo_inv|exact demo_low]. Qed.

Lemma virtio_create_failure_releases_witness :
  let g' := (virtio_surface_create 0xFFFF800000000000 rejects demo_vgpu 4 4 0).1 in
  fa_avail (fa (vframes g')) 0x4800000 = fa_avail (fa (vframes demo_vgpu)) 0x4800000.
Proof.
  pose proof demo_create_fails as E. destruct demo_vgpu_frames as [Hi Hl].
  destruct (virtio_surface_create 0xFFFF800000000000 rejects demo_vgpu 4 4 0) as [g' s] eqn:Ec. cbn [snd] in E. subst s.
  cbn [fst]. destruct (virtio_create_failure_releases _ rejects demo_vgpu 4 4 0 g' Hi Hl Ec) as [T _]. exact (T 0x4800000).
Defined.

(** A surface of 4 by 2 pixels in one frame at 0x4800000, and a canvas at 8000. *)
Definition demo_canvas : vgpu (A := Pmm.pmm) (H := gmap Z Z) (D := unit) :=
  mk_vgpu (mk_frames Pmm.demo_pmm {[ 2006 := 9 ]}) ∅
    {[ 16 := mk_vsurface 1 4 2 0 32 [mk_page 0x4800000 0x4800000] 1 0x4800000 0x4800000 false ]} true tt 2 640 480.

Lemma virtio_upload_visible_witness :
  ld (fmem (vframes (virtio_surface_upload demo_canvas 16 8000 4 (mk_grect 1 1 2 1)))) (0x1200000 + 6) = 9.
Proof.
  assert (contiguous (vsurf demo_canvas 16)) as Hc.
  { intros i Hi. change (num_pages (vsurf demo_canvas 16)) with 1 in Hi. by replace i with 0 by lia. }
  pose proof (virtio_upload_visible demo_canvas 16 8000 4 4 2 (mk_grect 1 1 2 1) ltac:(done) ltac:(done) ltac:(done)
    ltac:(done) ltac:(done) ltac:(by right) ltac:(done) ltac:(done) Hc ltac:(done)) as [T _].
  specialize (T 2 1 ltac:(done)). exact T.
Defined.
End VirtioGpu.
