(* ===== verification/E1000.v ===== *)
(** * The Intel 82540EM network driver (src/drivers/net/e1000)

    The driver and the controller share two rings of sixteen descriptors.  The
    driver's structure is split in the transmit and the receive half, each with
    its descriptors, the bytes of its buffer pages and the head and tail
    registers; the rest is in [e1000_t].  What the controller answers to a read
    of a register is a function [dev] of all accesses so far (the last one
    first), so the start-up code runs against an arbitrary controller.  The
    receive callback acts on a state of its own, since nothing it calls touches
    the receive half.  Messages on the console are left out. *)

From S2P Require Import Prelude KString Bytes Pmm.
From stdpp Require Import base numbers list gmap.
From Stdlib Require Import ZArith Lia.

#[local] Open Scope list_scope.
#[local] Open Scope Z_scope.

Module E1000.
Import Bytes.

(** ** Registers and descriptors (e1000.h) *)

Definition E1000_VENDOR_ID : Z := 0x8086.
Definition E1000_DEVICE_82540EM : Z := 0x100E.
Definition E1000_DEVICE_82545EM : Z := 0x100F.
Definition E1000_DEVICE_82574L : Z := 0x10D3.

Definition E1000_REG_CTRL : Z := 0x0000.
Definition E1000_REG_STATUS : Z := 0x0008.
Definition E1000_REG_EERD : Z := 0x0014.
Definition E1000_REG_IMS : Z := 0x00D0.
Definition E1000_REG_IMC : Z := 0x00D8.
Definition E1000_REG_RCTL : Z := 0x0100.
Definition E1000_REG_RDBAL : Z := 0x2800.
Definition E1000_REG_RDBAH : Z := 0x2804.
Definition E1000_REG_RDLEN : Z := 0x2808.
Definition E1000_REG_RDH : Z := 0x2810.
Definition E1000_REG_RDT : Z := 0x2818.
Definition E1000_REG_TCTL : Z := 0x0400.
Definition E1000_REG_TIPG : Z := 0x0410.
Definition E1000_REG_TDBAL : Z := 0x3800.
Definition E1000_REG_TDBAH : Z := 0x3804.
Definition E1000_REG_TDLEN : Z := 0x3808.
Definition E1000_REG_TDH : Z := 0x3810.
Definition E1000_REG_TDT : Z := 0x3818.
Definition E1000_REG_RAL0 : Z := 0x5400.
Definition E1000_REG_RAH0 : Z := 0x5404.

Definition bit (i : Z) : Z := Z.shiftl 1 i.
Definition E1000_CTRL_LRST : Z := bit 3.
Definition E1000_CTRL_ASDE : Z := bit 5.
Definition E1000_CTRL_SLU : Z := bit 6.
Definition E1000_CTRL_ILOS : Z := bit 7.
Definition E1000_CTRL_RST : Z := bit 26.
Definition E1000_CTRL_PHY_RST : Z := bit 31.
Definition E1000_RCTL_EN : Z := bit 1.
Definition E1000_RCTL_UPE : Z := bit 3.
Definition E1000_RCTL_MPE : Z := bit 4.
Definition E1000_RCTL_BAM : Z := bit 15.
Definition E1000_RCTL_BSIZE_2048 : Z := Z.shiftl 0 16.
Definition E1000_RCTL_SECRC : Z := bit 26.
Definition E1000_TCTL_EN : Z := bit 1.
Definition E1000_TCTL_PSP : Z := bit 3.
Definition E1000_TCTL_CT_SHIFT : Z := 4.
Definition E1000_TCTL_COLD_SHIFT : Z := 12.
Definition E1000_ICR_LSC : Z := bit 2.
Definition E1000_ICR_RXDMT0 : Z := bit 4.
Definition E1000_ICR_RXT0 : Z := bit 7.
Definition E1000_EERD_START : Z := bit 0.
Definition E1000_EERD_DONE : Z := bit 4.
Definition E1000_EERD_ADDR_SHIFT : Z := 8.
Definition E1000_EERD_DATA_SHIFT : Z := 16.
Definition E1000_TXCMD_EOP : Z := bit 0.
Definition E1000_TXCMD_IFCS : Z := bit 1.
Definition E1000_TXCMD_RS : Z := bit 3.
Definition E1000_TXSTA_DD : Z := bit 0.
Definition E1000_RXSTA_DD : Z := bit 0.
Definition E1000_RXSTA_EOP : Z := bit 1.
Definition E1000_NUM_TX_DESC : Z := 16.
Definition E1000_NUM_RX_DESC : Z := 16.
Definition E1000_DMA_PAGE_SIZE : Z := 4096.
(** [sizeof] of both descriptors, which are packed. *)
Definition desc_size : Z := 16.

Record e1000_tx_desc_t := mk_tx_desc {
  t_addr : Z; t_length : Z; cso : Z; cmd : Z; t_status : Z; css : Z; t_special : Z
}.
Record e1000_rx_desc_t := mk_rx_desc {
  r_addr : Z; r_length : Z; checksum : Z; r_status : Z; errors : Z; r_special : Z
}.
(** A descriptor of the zeroed ring page. *)
Definition tx_desc0 : e1000_tx_desc_t := mk_tx_desc 0 0 0 0 0 0 0.
Definition rx_desc0 : e1000_rx_desc_t := mk_rx_desc 0 0 0 0 0 0.

(** ** Driver state *)

(** The transmit fields of the structure, with [tdh] and [tdt] the registers
    and [tmem] the bytes of the buffer pages by virtual address. *)
Record tx_half := mk_tx {
  txd : gmap Z e1000_tx_desc_t; tx_bufs : gmap Z Z; tx_tail : Z; tdh : Z; tdt : Z; tmem : gmap Z Z
}.
Record rx_half := mk_rx {
  rxd : gmap Z e1000_rx_desc_t; rx_bufs : gmap Z Z; rx_tail : Z; rdh : Z; rdt : Z; rmem : gmap Z Z
}.
Record e1000_t := mk_e1000 {
  mmio : Z; mac : list Z; bus : Z; slot : Z; func : Z;
  tx_descs : Z; tx : tx_half; rx_descs : Z; rx : rx_half; initialized : bool
}.
Definition tx0 : tx_half := mk_tx ∅ ∅ 0 0 0 ∅.
Definition rx0 : rx_half := mk_rx ∅ ∅ 0 0 0 ∅.
(** [= {0}] *)
Definition e1000_0 : e1000_t := mk_e1000 0 (replicate 6 0) 0 0 0 0 tx0 0 rx0 false.

Definition tx_at (t : tx_half) (i : Z) : e1000_tx_desc_t := default tx_desc0 (t.(txd) !! i).
Definition rx_at (r : rx_half) (i : Z) : e1000_rx_desc_t := default rx_desc0 (r.(rxd) !! i).

(** ** Transmission *)

(** [e1000_send] on a driver that is initialised. *)
Definition send_frame (t : tx_half) (data : list Z) (len : Z) : tx_half * Z :=
  if (len =? 0) || (1522 <? len) then (t, -1)
  else
    let idx := t.(tx_tail) in
    let desc := tx_at t idx in
    if Z.land desc.(t_status) E1000_TXSTA_DD =? 0 then (t, -1)
    else
      let m := store_bytes t.(tmem) (ld t.(tx_bufs) idx) (take (Z.to_nat len) data) in
      let desc := mk_tx_desc desc.(t_addr) len desc.(cso)
                    (Z.lor (Z.lor E1000_TXCMD_EOP E1000_TXCMD_IFCS) E1000_TXCMD_RS) 0 desc.(css) desc.(t_special) in
      let tail := u16 ((idx + 1) mod E1000_NUM_TX_DESC) in
      (mk_tx (<[idx := desc]> t.(txd)) t.(tx_bufs) tail t.(tdh) tail m, 0).

Definition set_tx (e : e1000_t) (t : tx_half) : e1000_t :=
  mk_e1000 e.(mmio) e.(mac) e.(bus) e.(slot) e.(func) e.(tx_descs) t e.(rx_descs) e.(rx) e.(initialized).
Definition set_rx (e : e1000_t) (r : rx_half) : e1000_t :=
  mk_e1000 e.(mmio) e.(mac) e.(bus) e.(slot) e.(func) e.(tx_descs) e.(tx) e.(rx_descs) r e.(initialized).

Definition e1000_send (e : e1000_t) (data : list Z) (len : Z) : e1000_t * Z :=
  if negb e.(initialized) then (e, -1)
  else let '(t, r) := send_frame e.(tx) data len in (set_tx e t, r).

(** ** Reception *)

Definition set_tail (r : rx_half) (tail : Z) : rx_half := mk_rx r.(rxd) r.(rx_bufs) tail r.(rdh) r.(rdt) r.(rmem).

(** The frame in a descriptor is complete, free of errors and not empty. *)
Definition rx_complete (d : e1000_rx_desc_t) : bool :=
  negb (Z.land d.(r_status) E1000_RXSTA_EOP =? 0) && (d.(errors) =? 0) && (0 <? d.(r_length)).

(** The descriptor goes back to the controller and the tail register moves. *)
Definition give_back (r : rx_half) (next : Z) : rx_half :=
  let d := rx_at r next in
  mk_rx (<[next := mk_rx_desc d.(r_addr) 0 d.(checksum) 0 0 d.(r_special)]> r.(rxd))
    r.(rx_bufs) r.(rx_tail) r.(rdh) next r.(rmem).

Section poll.
Context {W : Type} (rx_callback : W -> list Z -> W) (device : nat -> rx_half -> rx_half).

(** The [while (1)] of [e1000_poll]; [device i] is what the controller did since
    the last turn.  [None]: the loop is still running after [fuel] turns. *)
Fixpoint poll_loop (fuel i : nat) (tail : Z) (r : rx_half) (w : W) : option (rx_half * W) :=
  match fuel with
  | O => None
  | S fuel =>
      let r := device i r in
      let next := u16 ((tail + 1) mod E1000_NUM_RX_DESC) in
      let d := rx_at r next in
      if Z.land d.(r_status) E1000_RXSTA_DD =? 0 then Some (set_tail r tail, w)
      else
        let w := if rx_complete d then rx_callback w (load_bytes r.(rmem) (ld r.(rx_bufs) next) d.(r_length)) else w in
        poll_loop fuel (S i) next (give_back r next) w
  end.

Definition e1000_poll (fuel : nat) (e : e1000_t) (w : W) : option (e1000_t * W) :=
  if negb e.(initialized) then Some (e, w)
  else match poll_loop fuel 0 e.(rx).(rx_tail) e.(rx) w with
       | None => None
       | Some (r, w) => Some (set_rx e r, w)
       end.
End poll.

(** ** Registers and configuration space *)

Inductive access := CfgRd (address : Z) | CfgWr (address v : Z) | Rd (reg : Z) | Wr (reg v : Z) | Delay.

(** The accesses so far, the last one first. *)
Abbreviation io := (list access).

Section registers.
Context (dev : io -> Z).

Definition e1000_reg_read (t : io) (offset : Z) : io * Z := let t := Rd offset :: t in (t, u32 (dev t)).
Definition e1000_reg_write (t : io) (offset val : Z) : io := Wr offset (u32 val) :: t.

Definition cfg_address (bus slot func offset : Z) : Z :=
  Z.lor (Z.lor (Z.lor (Z.lor (bit 31) (Z.shiftl bus 16)) (Z.shiftl slot 11)) (Z.shiftl func 8)) (Z.land offset 0xFC).
Definition pci_read32 (t : io) (bus slot func offset : Z) : io * Z :=
  let t := CfgRd (cfg_address bus slot func offset) :: t in (t, u32 (dev t)).
Definition pci_write32 (t : io) (bus slot func offset value : Z) : io :=
  CfgWr (cfg_address bus slot func offset) (u32 value) :: t.

Definition pci_enable_bus_master (t : io) (bus slot func : Z) : io :=
  let '(t, c) := pci_read32 t bus slot func 0x04 in
  pci_write32 t bus slot func 0x04 (Z.lor c (Z.lor (bit 1) (bit 2))).

Fixpoint wait_bits_loop (n : nat) (t : io) (reg mask expected : Z) : io * Z :=
  match n with
  | O => (t, -1)
  | S n => let '(t, v) := e1000_reg_read t reg in
           if Z.land v mask =? expected then (t, 0) else wait_bits_loop n (Delay :: t) reg mask expected
  end.
Definition e1000_wait_bits (t : io) (reg mask expected : Z) : io * Z :=
  wait_bits_loop (Z.to_nat 100000) t reg mask expected.

(** ** The MAC address *)

Fixpoint has_eeprom_loop (n : nat) (t : io) : io * bool :=
  match n with
  | O => (t, false)
  | S n => let '(t, eerd) := e1000_reg_read t E1000_REG_EERD in
           if negb (Z.land eerd E1000_EERD_DONE =? 0) then (t, true) else has_eeprom_loop n (Delay :: t)
  end.
Definition e1000_has_eeprom (t : io) : io * bool :=
  has_eeprom_loop 1000 (e1000_reg_write t E1000_REG_EERD E1000_EERD_START).

(** The loop keeps the last value it read. *)
Fixpoint eeprom_loop (n : nat) (t : io) (val : Z) : io * Z :=
  match n with
  | O => (t, val)
  | S n => let '(t, val) := e1000_reg_read t E1000_REG_EERD in
           if negb (Z.land val E1000_EERD_DONE =? 0) then (t, val) else eeprom_loop n (Delay :: t) val
  end.
Definition e1000_eeprom_read (t : io) (addr : Z) : io * Z :=
  let eerd := Z.lor E1000_EERD_START (Z.shiftl addr E1000_EERD_ADDR_SHIFT) in
  let '(t, val) := eeprom_loop (Z.to_nat 100000) (e1000_reg_write t E1000_REG_EERD eerd) 0 in
  (t, u16 (Z.shiftr val E1000_EERD_DATA_SHIFT)).

Definition mac_of_words (w0 w1 w2 : Z) : list Z :=
  [u8 (Z.land w0 0xFF); u8 (Z.shiftr w0 8); u8 (Z.land w1 0xFF); u8 (Z.shiftr w1 8);
   u8 (Z.land w2 0xFF); u8 (Z.shiftr w2 8)].
Definition mac_of_ra (ral rah : Z) : list Z :=
  [u8 (Z.land ral 0xFF); u8 (Z.shiftr ral 8); u8 (Z.shiftr ral 16); u8 (Z.shiftr ral 24);
   u8 (Z.land rah 0xFF); u8 (Z.shiftr rah 8)].

Definition e1000_read_mac (t : io) : io * list Z :=
  let '(t, present) := e1000_has_eeprom t in
  if present : bool then
    let '(t, w0) := e1000_eeprom_read t 0 in
    let '(t, w1) := e1000_eeprom_read t 1 in
    let '(t, w2) := e1000_eeprom_read t 2 in
    (t, mac_of_words w0 w1 w2)
  else
    let '(t, ral) := e1000_reg_read t E1000_REG_RAL0 in
    let '(t, rah) := e1000_reg_read t E1000_REG_RAH0 in
    (t, mac_of_ra ral rah).

(** The two digits of a byte, as they are printed. *)
Definition hex_digit (v : Z) : Z := if v <? 10 then 48 + v else 97 + v - 10.
Definition mac_text (mac : list Z) : list Z :=
  let byte i := let b := KString.str mac i in [hex_digit (Z.land (Z.shiftr b 4) 0xF); hex_digit (Z.land b 0xF)] in
  concat (map (fun i => byte i ++ (if i <? 5 then [58] else [])) (zrange 0 6)).

(** ** Ring set-up *)

Section rings.
Context {A : Type} `{FrameAllocator A} (hhdm : Z).

(** Allocator, memory and the physical address; [None] when no frame is left. *)
Definition e1000_dma_alloc_page (f : A) (m : gmap Z Z) : A * gmap Z Z * option Z :=
  let '(f, paddr) := fa_alloc f in
  if paddr =? 0 then (f, m, None)
  else (f, KString.memset m (paddr + hhdm) 0 E1000_DMA_PAGE_SIZE, Some paddr).

Definition put_tx (t : tx_half) (i phys_buf : Z) (m : gmap Z Z) : tx_half :=
  mk_tx (<[i := mk_tx_desc phys_buf 0 0 0 E1000_TXSTA_DD 0 0]> t.(txd)) (st t.(tx_bufs) i (phys_buf + hhdm))
    t.(tx_tail) t.(tdh) t.(tdt) m.
Definition put_rx (r : rx_half) (i phys_buf : Z) (m : gmap Z Z) : rx_half :=
  mk_rx (<[i := mk_rx_desc phys_buf 0 0 0 0 0]> r.(rxd)) (st r.(rx_bufs) i (phys_buf + hhdm))
    r.(rx_tail) r.(rdh) r.(rdt) m.

(** The loops over the buffers; [false]: an allocation failed, the entry is NULL. *)
Fixpoint tx_buffers (ixs : list Z) (f : A) (t : tx_half) : A * tx_half * bool :=
  match ixs with
  | [] => (f, t, true)
  | i :: ixs =>
      match e1000_dma_alloc_page f t.(tmem) with
      | (f, m, None) => (f, mk_tx t.(txd) (st t.(tx_bufs) i 0) t.(tx_tail) t.(tdh) t.(tdt) m, false)
      | (f, m, Some p) => tx_buffers ixs f (put_tx t i p m)
      end
  end.
Fixpoint rx_buffers (ixs : list Z) (f : A) (r : rx_half) : A * rx_half * bool :=
  match ixs with
  | [] => (f, r, true)
  | i :: ixs =>
      match e1000_dma_alloc_page f r.(rmem) with
      | (f, m, None) => (f, mk_rx r.(rxd) (st r.(rx_bufs) i 0) r.(rx_tail) r.(rdh) r.(rdt) m, false)
      | (f, m, Some p) => rx_buffers ixs f (put_rx r i p m)
      end
  end.

Definition set_tx_descs (e : e1000_t) (d : Z) (t : tx_half) : e1000_t :=
  mk_e1000 e.(mmio) e.(mac) e.(bus) e.(slot) e.(func) d t e.(rx_descs) e.(rx) e.(initialized).
Definition set_rx_descs (e : e1000_t) (d : Z) (r : rx_half) : e1000_t :=
  mk_e1000 e.(mmio) e.(mac) e.(bus) e.(slot) e.(func) e.(tx_descs) e.(tx) d r e.(initialized).

(** The register writes of a sequence, in order. *)
Definition reg_writes (t : io) (l : list (Z * Z)) : io := foldl (fun t w => e1000_reg_write t w.1 w.2) t l.

Definition tctl_value : Z :=
  Z.lor (Z.lor (Z.lor E1000_TCTL_EN E1000_TCTL_PSP) (Z.shiftl 15 E1000_TCTL_CT_SHIFT))
    (Z.shiftl 63 E1000_TCTL_COLD_SHIFT).

Definition e1000_tx_init (f : A) (e : e1000_t) (t : io) : A * e1000_t * io * Z :=
  match e1000_dma_alloc_page f ∅ with
  | (f, _, None) => (f, set_tx_descs e 0 e.(tx), t, -1)
  | (f, _, Some ring) =>
      let h := e.(tx) in
      match tx_buffers (zrange 0 E1000_NUM_TX_DESC) f (mk_tx ∅ h.(tx_bufs) h.(tx_tail) h.(tdh) h.(tdt) h.(tmem)) with
      | (f, h, false) => (f, set_tx_descs e (ring + hhdm) h, t, -1)
      | (f, h, true) =>
          let h := mk_tx h.(txd) h.(tx_bufs) 0 0 0 h.(tmem) in
          (f, set_tx_descs e (ring + hhdm) h,
           reg_writes t [(E1000_REG_TDBAL, Z.land ring 0xFFFFFFFF); (E1000_REG_TDBAH, Z.shiftr ring 32);
                         (E1000_REG_TDLEN, E1000_NUM_TX_DESC * desc_size); (E1000_REG_TDH, 0); (E1000_REG_TDT, 0);
                         (E1000_REG_TCTL, tctl_value); (E1000_REG_TIPG, 0x0060200A)], 0)
      end
  end.

(** The address filter; bit 31 is the valid bit. *)
Definition ral_of (mac : list Z) : Z :=
  Z.lor (Z.lor (Z.lor (KString.str mac 0) (Z.shiftl (KString.str mac 1) 8)) (Z.shiftl (KString.str mac 2) 16))
    (Z.shiftl (KString.str mac 3) 24).
Definition rah_of (mac : list Z) : Z :=
  Z.lor (Z.lor (KString.str mac 4) (Z.shiftl (KString.str mac 5) 8)) (bit 31).

Definition rctl_value : Z :=
  Z.lor (Z.lor (Z.lor (Z.lor (Z.lor E1000_RCTL_EN E1000_RCTL_BAM) E1000_RCTL_SECRC) E1000_RCTL_UPE) E1000_RCTL_MPE)
    E1000_RCTL_BSIZE_2048.

Definition e1000_rx_init (f : A) (e : e1000_t) (t : io) : A * e1000_t * io * Z :=
  let t := reg_writes t [(E1000_REG_RAL0, ral_of e.(mac)); (E1000_REG_RAH0, rah_of e.(mac))] in
  match e1000_dma_alloc_page f ∅ with
  | (f, _, None) => (f, set_rx_descs e 0 e.(rx), t, -1)
  | (f, _, Some ring) =>
      let h := e.(rx) in
      match rx_buffers (zrange 0 E1000_NUM_RX_DESC) f (mk_rx ∅ h.(rx_bufs) h.(rx_tail) h.(rdh) h.(rdt) h.(rmem)) with
      | (f, h, false) => (f, set_rx_descs e (ring + hhdm) h, t, -1)
      | (f, h, true) =>
          let tail := E1000_NUM_RX_DESC - 1 in
          let h := mk_rx h.(rxd) h.(rx_bufs) tail 0 tail h.(rmem) in
          (f, set_rx_descs e (ring + hhdm) h,
           reg_writes t [(E1000_REG_RDBAL, Z.land ring 0xFFFFFFFF); (E1000_REG_RDBAH, Z.shiftr ring 32);
                         (E1000_REG_RDLEN, E1000_NUM_RX_DESC * desc_size); (E1000_REG_RDH, 0); (E1000_REG_RDT, tail);
                         (E1000_REG_RCTL, rctl_value)], 0)
      end
  end.

(** ** Discovery and start-up *)

Definition is_e1000 (id : Z) : bool :=
  let vendor := u16 (Z.land id 0xFFFF) in
  let device := u16 (Z.shiftr id 16) in
  (vendor =? E1000_VENDOR_ID) &&
  ((device =? E1000_DEVICE_82540EM) || (device =? E1000_DEVICE_82545EM) || (device =? E1000_DEVICE_82574L)).

Fixpoint find_slots (t : io) (b : Z) (slots : list Z) : io * option Z :=
  match slots with
  | [] => (t, None)
  | s :: slots => let '(t, id) := pci_read32 t b s 0 0x00 in
                  if is_e1000 id then (t, Some s) else find_slots t b slots
  end.
Fixpoint find_buses (t : io) (buses : list Z) : io * option (Z * Z) :=
  match buses with
  | [] => (t, None)
  | b :: buses => match find_slots t b (zrange 0 32) with
                  | (t, Some s) => (t, Some (b, s))
                  | (t, None) => find_buses t buses
                  end
  end.
Definition e1000_pci_find (t : io) : io * option (Z * Z) := find_buses t (zrange 0 8).

Definition bar0_phys (bar0_low bar0_high : Z) : Z :=
  if Z.land bar0_low 0x6 =? 0x4 then Z.lor (Z.shiftl bar0_high 32) (Z.ldiff bar0_low 0xF)
  else Z.ldiff bar0_low 0xF.

Fixpoint reset_loop (n : nat) (t : io) : io :=
  match n with
  | O => t
  | S n => let '(t, c) := e1000_reg_read (Delay :: t) E1000_REG_CTRL in
           if Z.land c E1000_CTRL_RST =? 0 then t else reset_loop n t
  end.

(** Software reset, then link up with automatic speed detection. *)
Definition e1000_reset (t : io) : io :=
  let '(t, c) := e1000_reg_read t E1000_REG_CTRL in
  let t := reset_loop (Z.to_nat 100000) (e1000_reg_write t E1000_REG_CTRL (Z.lor c E1000_CTRL_RST)) in
  let '(t, c) := e1000_reg_read t E1000_REG_CTRL in
  let c := Z.lor c (Z.lor E1000_CTRL_SLU E1000_CTRL_ASDE) in
  e1000_reg_write t E1000_REG_CTRL (Z.ldiff (Z.ldiff (Z.ldiff c E1000_CTRL_LRST) E1000_CTRL_ILOS) E1000_CTRL_PHY_RST).

Definition e1000_init (f : A) (e : e1000_t) (t : io) : A * e1000_t * io * Z :=
  match e1000_pci_find t with
  | (t, None) => (f, e, t, -1)
  | (t, Some (b, s)) =>
      let t := pci_enable_bus_master t b s 0 in
      let '(t, low) := pci_read32 t b s 0 0x10 in
      let '(t, high) := pci_read32 t b s 0 0x14 in
      let t := e1000_reset t in
      let '(t, m) := e1000_read_mac t in
      let e := mk_e1000 (u64 (bar0_phys low high + hhdm)) m b s 0 e.(tx_descs) e.(tx) e.(rx_descs) e.(rx) e.(initialized) in
      let '(f, e, t, r) := e1000_tx_init f e t in
      if negb (r =? 0) then (f, e, t, -1)
      else
        let '(f, e, t, r) := e1000_rx_init f e t in
        if negb (r =? 0) then (f, e, t, -1)
        else
          let t := reg_writes t [(E1000_REG_IMC, 0xFFFFFFFF);
                                 (E1000_REG_IMS, Z.lor (Z.lor E1000_ICR_RXT0 E1000_ICR_LSC) E1000_ICR_RXDMT0)] in
          (f, mk_e1000 e.(mmio) e.(mac) e.(bus) e.(slot) e.(func) e.(tx_descs) e.(tx) e.(rx_descs) e.(rx) true, t, 0)
  end.
End rings.

(** ** Public helpers *)

Definition e1000_get_mac (e : e1000_t) : list Z :=
  if negb e.(initialized) then replicate 6 0 else e.(mac).

Definition e1000_link_up (e : e1000_t) (t : io) : io * Z :=
  if negb e.(initialized) then (t, 0)
  else let '(t, status) := e1000_reg_read t E1000_REG_STATUS in
       (t, if negb (Z.land status (bit 1) =? 0) then 1 else 0).
End registers.
End E1000.
