(* ===== verification/E1000Thm.v ===== *)
(** * The descriptor rings of the network driver are queues of frames

    The controller acts on the rings between any two steps of the driver, as
    its manual says (the relations [receives] and [transmits]).  The receive
    ring is a queue of fifteen frames and [e1000_poll] drains it; the transmit
    ring hands the frames to the wire in the order of the calls as long as at
    most fifteen are outstanding, and stops for good at the sixteenth. *)

From S2P Require Import Prelude KString Bytes Pmm Virtqueue PagingOps E1000.
From stdpp Require Import base numbers list gmap.
From Stdlib Require Import ZArith Lia.

#[local] Open Scope list_scope.
#[local] Open Scope Z_scope.

Module E1000Thm.
Import Bytes E1000.

(** The descriptor [k] places behind [base]. *)
Definition pos (base k : Z) : Z := (base + k) mod 16.

Lemma pos_bound base k : 0 <= pos base k < 16.
Proof. unfold pos. divlia. Qed.

Lemma pos_inj base j k : Z.abs (j - k) < 16 -> pos base j = pos base k -> j = k.
Proof. unfold pos. intros. divlia. Qed.

Lemma pos_pos base j k : pos (pos base j) k = pos base (j + k).
Proof. unfold pos. rewrite Zplus_mod_idemp_l. f_equal. lia. Qed.

Lemma pos_surj base i : 0 <= i < 16 -> exists k, 0 <= k < 16 /\ i = pos base k.
Proof. intros. exists ((i - base) mod 16). unfold pos. split; [divlia|]. rewrite Zplus_mod_idemp_r. divlia. Qed.

Lemma next_pos base : u16 ((base + 1) mod 16) = pos base 1.
Proof. apply wrap_small. pose proof (pos_bound base 1). unfold pos in *. lia. Qed.

(** The pages of the sixteen buffers do not overlap. *)
Definition apart (bufs : gmap Z Z) : Prop :=
  forall i j, 0 <= i < 16 -> 0 <= j < 16 -> i <> j -> 4096 <= Z.abs (ld bufs i - ld bufs j).

Lemma load_bytes_apart m m' a b n len :
  (forall c, c < a \/ a + len <= c -> ld m' c = ld m c) -> 0 <= len <= 4096 -> 0 <= n <= 4096 ->
  4096 <= Z.abs (a - b) -> load_bytes m' b n = load_bytes m b n.
Proof. intros Ho Hl Hn Hd. apply load_bytes_ext. intros i Hi. apply Ho. lia. Qed.

(** ** Reception *)

(** A frame as the controller reports it. *)
Record frame := mk_frame { f_bytes : list Z; f_status : Z; f_errors : Z }.
Definition f_len (f : frame) : Z := Z.of_nat (length f.(f_bytes)).
(** The buffers are programmed to 2048 bytes; a reported descriptor is done. *)
Definition frame_ok (f : frame) : Prop := Z.land f.(f_status) E1000_RXSTA_DD <> 0 /\ f_len f <= 2048.

Section rings.
Context (hhdm : Z).

(** The controller stores a frame: into the buffer of the descriptor at the
    head, unless the head has reached the tail. *)
Record receives (r : rx_half) (f : frame) (r' : rx_half) : Prop := {
  rc_rdt : rdt r' = rdt r;
  rc_bufs : rx_bufs r' = rx_bufs r;
  rc_tail : rx_tail r' = rx_tail r;
  rc_rdh : rdh r' = (rdh r + 1) mod 16;
  rc_addr : r_addr (rx_at r' (rdh r)) = r_addr (rx_at r (rdh r));
  rc_status : r_status (rx_at r' (rdh r)) = f.(f_status);
  rc_errors : errors (rx_at r' (rdh r)) = f.(f_errors);
  rc_length : r_length (rx_at r' (rdh r)) = f_len f;
  rc_descs : forall i, i <> rdh r -> rx_at r' i = rx_at r i;
  rc_data : load_bytes (rmem r') (r_addr (rx_at r (rdh r)) + hhdm) (f_len f) = f.(f_bytes);
  rc_mem : forall a, a < r_addr (rx_at r (rdh r)) + hhdm \/ r_addr (rx_at r (rdh r)) + hhdm + 2048 <= a ->
    ld (rmem r') a = ld (rmem r) a;
}.

(** Descriptor [i] reports the frame [f]. *)
Definition reports (r : rx_half) (i : Z) (f : frame) : Prop :=
  r_status (rx_at r i) = f.(f_status) /\ errors (rx_at r i) = f.(f_errors) /\ r_length (rx_at r i) = f_len f /\
  load_bytes (rmem r) (ld (rx_bufs r) i) (f_len f) = f.(f_bytes).

(** The ring holds the frames [q], the oldest behind the tail register. *)
Record rx_inv (r : rx_half) (q : list frame) : Prop := {
  ri_rdt : 0 <= rdt r < 16;
  ri_rdh : rdh r = pos (rdt r) (1 + Z.of_nat (length q));
  ri_len : (length q <= 15)%nat;
  ri_ok : Forall frame_ok q;
  ri_apart : apart (rx_bufs r);
  ri_addr : forall i, 0 <= i < 16 -> ld (rx_bufs r) i = r_addr (rx_at r i) + hhdm;
  ri_full : forall k f, q !! k = Some f -> reports r (pos (rdt r) (1 + Z.of_nat k)) f;
  ri_free : forall k, Z.of_nat (length q) <= k < 16 ->
    Z.land (r_status (rx_at r (pos (rdt r) (1 + k)))) E1000_RXSTA_DD = 0;
}.

Lemma reports_other r f r' i g :
  receives r f r' -> 0 <= i < 16 -> i <> rdh r -> 0 <= rdh r < 16 -> apart (rx_bufs r) ->
  ld (rx_bufs r) (rdh r) = r_addr (rx_at r (rdh r)) + hhdm -> frame_ok g -> reports r i g -> reports r' i g.
Proof.
  intros [] Hi Hne Hh Ha Hb [_ Hg] (S & E & L & D). unfold reports. rewrite rc_descs0 by done. splits.
  rewrite rc_bufs0, <- D. apply (load_bytes_apart _ _ (ld (rx_bufs r) (rdh r)) _ _ 2048).
  - intros c Hc. apply rc_mem0. rewrite <- Hb. lia.
  - lia.
  - unfold f_len in *. lia.
  - apply Ha; done.
Qed.

(** A frame that arrives goes to the end of the queue. *)
Lemma rx_inv_receive r q f r' :
  rx_inv r q -> rdh r <> rdt r -> frame_ok f -> receives r f r' -> rx_inv r' (q ++ [f]) /\ (length q < 15)%nat.
Proof.
  intros [] Hne Hf Hr. pose proof Hr as [].
  assert (length q < 15)%nat as Hlt.
  { assert (length q <> 15)%nat; [|lia]. intros E. rewrite E in ri_rdh0. apply Hne. rewrite ri_rdh0. unfold pos. divlia. }
  assert (0 <= rdh r < 16) as Hh by (rewrite ri_rdh0; apply pos_bound).
  split; [|done]. split; rewrite ?rc_rdt0, ?rc_bufs0; try done.
  - rewrite rc_rdh0, ri_rdh0, length_app. change ((pos (rdt r) (1 + Z.of_nat (length q)) + 1) mod 16)
      with (pos (pos (rdt r) (1 + Z.of_nat (length q))) 1). rewrite pos_pos. f_equal. cbn. lia.
  - rewrite length_app. cbn. lia.
  - apply Forall_app. split; [done|]. by constructor.
  - intros i Hi. destruct (Z.eq_dec i (rdh r)) as [->|Hn]; [rewrite rc_addr0|rewrite rc_descs0 by done]; by apply ri_addr0.
  - intros k g Hk. apply lookup_app_Some in Hk as [Hk|[Hge Hk]].
    + pose proof (lookup_lt_Some _ _ _ Hk). apply (reports_other r f); try done.
      * apply pos_bound.
      * rewrite ri_rdh0. intros E%pos_inj; lia.
      * by apply ri_addr0.
      * by eapply Forall_lookup_1.
      * by apply ri_full0.
    + apply list_lookup_singleton_Some in Hk as [Hk <-]. replace (pos (rdt r) (1 + Z.of_nat k)) with (rdh r).
      * unfold reports. rewrite rc_bufs0, ri_addr0 by done. splits.
      * rewrite ri_rdh0. f_equal. lia.
  - rewrite length_app. cbn. intros k Hk. rewrite rc_descs0.
    + apply ri_free0. lia.
    + rewrite ri_rdh0. intros E%pos_inj; lia.
Qed.

Lemma rx_at_give r n i :
  rx_at (give_back r n) i =
  if bool_decide (n = i) then let d := rx_at r n in mk_rx_desc (r_addr d) 0 (checksum d) 0 0 (r_special d) else rx_at r i.
Proof.
  unfold give_back, rx_at at 1. cbn [rxd]. case_bool_decide as E; [subst; by rewrite lookup_insert_eq|].
  by rewrite lookup_insert_ne.
Qed.

(** A turn of the loop takes the oldest frame from the queue. *)
Lemma rx_inv_give r f q : rx_inv r (f :: q) -> rx_inv (give_back r (pos (rdt r) 1)) q.
Proof.
  intros []. set (n := pos (rdt r) 1).
  assert (forall k, 1 <= k < 16 -> pos (rdt r) (1 + k) <> n) as Hne.
  { intros k Hk E%pos_inj; lia. }
  split; cbn [rdt rdh rx_bufs give_back].
  - apply pos_bound.
  - rewrite ri_rdh0. unfold n. rewrite pos_pos. f_equal. cbn. lia.
  - cbn in ri_len0. lia.
  - by inversion ri_ok0.
  - done.
  - intros i Hi. rewrite rx_at_give. case_bool_decide; subst; cbn [r_addr]; by apply ri_addr0.
  - intros k g Hk. specialize (ri_full0 (S k) g Hk). pose proof (lookup_lt_Some _ _ _ Hk). cbn in ri_len0.
    unfold n. rewrite pos_pos. replace (1 + (1 + Z.of_nat k)) with (1 + Z.of_nat (S k)) by lia.
    unfold reports in *. rewrite rx_at_give, bool_decide_false; [done|]. intros E. symmetry in E. revert E. apply Hne. lia.
  - intros k Hk. unfold n. rewrite pos_pos, rx_at_give. case_bool_decide as E; [done|].
    apply (ri_free0 (1 + k)). cbn. destruct (Z.eq_dec k 15) as [->|]; [|lia].
    exfalso. apply E. unfold n, pos. divlia.
Qed.

Lemma rx_inv_dd r q :
  rx_inv r q -> Z.land (r_status (rx_at r (pos (rdt r) 1))) E1000_RXSTA_DD = 0 <-> q = [].
Proof.
  intros []. split; intros Hq.
  - destruct q as [|f q]; [done|]. destruct (ri_full0 0%nat f eq_refl) as (S & _). inversion ri_ok0 as [|? ? [Hd _]]; subst.
    destruct Hd. by rewrite <- S.
  - subst. apply (ri_free0 0). cbn. lia.
Qed.

(** *** The abstract receiver: a queue of at most fifteen frames *)

Definition deliverable (f : frame) : bool :=
  negb (Z.land f.(f_status) E1000_RXSTA_EOP =? 0) && (f.(f_errors) =? 0) && (0 <? f_len f).
(** A frame that does not fit is lost. *)
Definition push (q : list frame) (f : frame) : list frame := if decide (length q < 15)%nat then q ++ [f] else q.
Definition deliver {W} (cb : W -> list Z -> W) (w : W) (f : frame) : W := if deliverable f then cb w f.(f_bytes) else w.

(** Turn [i] first takes the frames [arrivals i] in, then delivers the oldest. *)
Fixpoint fifo_poll {W} (cb : W -> list Z -> W) (arrivals : nat -> list frame) (fuel i : nat) (q : list frame) (w : W) : option W :=
  match fuel with
  | O => None
  | S fuel =>
      match foldl push q (arrivals i) with
      | [] => Some w
      | f :: q => fifo_poll cb arrivals fuel (S i) q (deliver cb w f)
      end
  end.

Lemma push_length q f : (length q <= 15)%nat -> (length (push q f) <= 15)%nat.
Proof. unfold push. case_decide; rewrite ?length_app; cbn; lia. Qed.
Lemma pushes_length fs q : (length q <= 15)%nat -> (length (foldl push q fs) <= 15)%nat.
Proof. revert q. induction fs as [|f fs IH]; intros q Hq; [done|]. apply IH. by apply push_length. Qed.

Section receiver.
Context {W : Type} (cb : W -> list Z -> W).
(** The controller's transfer of a frame, when there is room and when not. *)
Context (dma : frame -> rx_half -> rx_half).
Hypothesis dma_room : forall r f, frame_ok f -> rdh r <> rdt r -> receives r f (dma f r).
Hypothesis dma_full : forall r f, rdh r = rdt r -> dma f r = r.
Context (arrivals : nat -> list frame).
Hypothesis arrivals_ok : forall i, Forall frame_ok (arrivals i).

Definition device (i : nat) (r : rx_half) : rx_half := foldl (fun r f => dma f r) r (arrivals i).

Lemma rx_inv_push r q f :
  rx_inv r q -> frame_ok f -> rx_inv (dma f r) (push q f) /\ rdt (dma f r) = rdt r.
Proof.
  intros Hi Hf. destruct (Z.eq_dec (rdh r) (rdt r)) as [E|E].
  - rewrite dma_full by done. split; [|done]. unfold push. case_decide as Hl; [|done]. exfalso. destruct Hi.
    rewrite ri_rdh0 in E. unfold pos in E. divlia.
  - destruct (rx_inv_receive _ _ _ _ Hi E Hf (dma_room _ _ Hf E)) as [Hi' Hl]. split; [|by apply dma_room].
    unfold push. by rewrite decide_True.
Qed.

Lemma rx_inv_pushes fs r q :
  rx_inv r q -> Forall frame_ok fs ->
  rx_inv (foldl (fun r f => dma f r) r fs) (foldl push q fs) /\ rdt (foldl (fun r f => dma f r) r fs) = rdt r.
Proof.
  revert r q. induction fs as [|f fs IH]; intros r q Hi Hf; [done|]. inversion Hf; subst.
  destruct (rx_inv_push _ _ _ Hi H1) as [Hi' E]. cbn [foldl]. rewrite <- E. by apply IH.
Qed.

Lemma rx_complete_reports r i f : reports r i f -> rx_complete (rx_at r i) = deliverable f.
Proof. intros (S & E & L & _). unfold rx_complete, deliverable. by rewrite S, E, L. Qed.

Lemma poll_loop_refines fuel i r q w :
  rx_inv r q ->
  match poll_loop cb device fuel i (rdt r) r w, fifo_poll cb arrivals fuel i q w with
  | Some (r', w'), Some w'' => w' = w'' /\ rx_inv r' [] /\ rx_tail r' = rdt r'
  | None, None => True
  | _, _ => False
  end.
Proof.
  revert i r q w. induction fuel as [|fuel IH]; intros i r q w Hi; [done|]. cbn [poll_loop fifo_poll].
  destruct (rx_inv_pushes (arrivals i) r q Hi (arrivals_ok i)) as [Hi' Et]. fold (device i r) in Hi', Et.
  generalize dependent (foldl push q (arrivals i)). intros q' Hi'. rewrite next_pos, <- Et.
  destruct (Z.eqb_spec (Z.land (r_status (rx_at (device i r) (pos (rdt (device i r)) 1))) E1000_RXSTA_DD) 0) as [E|E].
  - apply (rx_inv_dd _ _ Hi') in E as ->. splits. by destruct Hi'.
  - destruct q' as [|f q']; [by destruct E; apply (rx_inv_dd _ _ Hi')|].
    pose proof (ri_full _ _ Hi' 0%nat f eq_refl) as Hf. change (1 + Z.of_nat 0) with 1 in Hf. rewrite (rx_complete_reports _ _ _ Hf).
    replace (if deliverable f then _ else w) with (deliver cb w f).
    + apply (IH (S i) (give_back (device i r) (pos (rdt (device i r)) 1))). by apply rx_inv_give with f.
    + unfold deliver. destruct Hf as (_ & _ & -> & ->). done.
Qed.
End receiver.

(** Once nothing arrives any more, the receiver stops. *)
Lemma fifo_poll_stops {W} (cb : W -> list Z -> W) arrivals n fuel i q w :
  (forall j, (n <= j)%nat -> arrivals j = []) -> (length q <= 15)%nat ->
  (n - i + (if decide (i < n)%nat then 15 else length q) < fuel)%nat ->
  exists w', fifo_poll cb arrivals fuel i q w = Some w'.
Proof.
  intros Hn. revert i q w. induction fuel as [|fuel IH]; intros i q w Hq Hf; [lia|]. cbn [fifo_poll].
  pose proof (pushes_length (arrivals i) q Hq) as Hl.
  destruct (foldl push q (arrivals i)) as [|f q'] eqn:E; [by eexists|]. cbn in Hl. apply IH; [lia|].
  destruct (decide (i < n)%nat) as [Hi|Hi].
  - case_decide; lia.
  - rewrite (Hn i) in E by lia. cbn in E. subst q. rewrite decide_False by lia. cbn in Hf. lia.
Qed.

(** Without arrivals the frames in the queue are delivered, in order. *)
Lemma fifo_poll_quiet {W} (cb : W -> list Z -> W) fuel i q w :
  (length q < fuel)%nat -> fifo_poll cb (fun _ => []) fuel i q w = Some (foldl (deliver cb) w q).
Proof.
  revert i q w. induction fuel as [|fuel IH]; intros i q w Hl; [lia|]. destruct q as [|f q]; [done|].
  cbn [fifo_poll foldl]. apply IH. cbn in Hl. lia.
Qed.

(** ** Transmission *)

Definition TX_CMD : Z := Z.lor (Z.lor E1000_TXCMD_EOP E1000_TXCMD_IFCS) E1000_TXCMD_RS.

(** The controller sends the frame of the descriptor at the head, unless the
    head has reached the tail, and reports it done, as the command asks. *)
Record transmits (t : tx_half) (f : list Z) (t' : tx_half) : Prop := {
  tr_some : tdh t <> tdt t;
  tr_cmd : cmd (tx_at t (tdh t)) = TX_CMD;
  tr_data : f = load_bytes (tmem t) (t_addr (tx_at t (tdh t)) + hhdm) (t_length (tx_at t (tdh t)));
  tr_tdt : tdt t' = tdt t;
  tr_tail : tx_tail t' = tx_tail t;
  tr_bufs : tx_bufs t' = tx_bufs t;
  tr_mem : tmem t' = tmem t;
  tr_tdh : tdh t' = (tdh t + 1) mod 16;
  tr_done : Z.land (t_status (tx_at t' (tdh t))) E1000_TXSTA_DD <> 0;
  tr_addr : t_addr (tx_at t' (tdh t)) = t_addr (tx_at t (tdh t));
  tr_descs : forall i, i <> tdh t -> tx_at t' i = tx_at t i;
}.

(** Descriptor [i] asks for the frame [f]. *)
Definition asks (t : tx_half) (i : Z) (f : list Z) : Prop :=
  Z.land (t_status (tx_at t i)) E1000_TXSTA_DD = 0 /\ cmd (tx_at t i) = TX_CMD /\
  t_length (tx_at t i) = Z.of_nat (length f) /\
  load_bytes (tmem t) (ld (tx_bufs t) i) (Z.of_nat (length f)) = f.

(** The frames [q] wait in the ring, the oldest at the head. *)
Record tx_inv (t : tx_half) (q : list (list Z)) : Prop := {
  ti_tdh : 0 <= tdh t < 16;
  ti_tdt : tdt t = tx_tail t;
  ti_tail : tx_tail t = pos (tdh t) (Z.of_nat (length q));
  ti_len : (length q <= 16)%nat;
  ti_size : Forall (fun f => (0 < length f <= 1522)%nat) q;
  ti_apart : apart (tx_bufs t);
  ti_addr : forall i, 0 <= i < 16 -> ld (tx_bufs t) i = t_addr (tx_at t i) + hhdm;
  ti_full : forall k f, q !! k = Some f -> asks t (pos (tdh t) (Z.of_nat k)) f;
  ti_free : forall k, Z.of_nat (length q) <= k < 16 ->
    Z.land (t_status (tx_at t (pos (tdh t) k))) E1000_TXSTA_DD <> 0;
}.

Lemma tx_inv_transmit t f t' q :
  tx_inv t q -> transmits t f t' -> exists q', q = f :: q' /\ tx_inv t' q'.
Proof.
  intros [] []. destruct q as [|g q].
  { destruct tr_some0. rewrite ti_tdt0, ti_tail0. unfold pos. cbn. rewrite Z.add_0_r. symmetry. by apply Z.mod_small. }
  assert (pos (tdh t) 0 = tdh t) as E0 by (unfold pos; rewrite Z.add_0_r; by apply Z.mod_small).
  destruct (ti_full0 0%nat g eq_refl) as (S & C & L & D). change (Z.of_nat 0) with 0 in *. rewrite E0 in *.
  exists q. split; [f_equal; rewrite tr_data0, L, <- ti_addr0 by done; by rewrite D|].
  cbn [length] in *. change (tdh t' = pos (tdh t) 1) in tr_tdh0.
  assert (forall k, 0 <= k -> k + 1 < 16 -> pos (tdh t') k <> tdh t) as Hne.
  { intros k ? ? E. rewrite tr_tdh0, pos_pos in E. rewrite <- E0 in E at 2. apply pos_inj in E; lia. }
  split; rewrite ?tr_tdt0, ?tr_tail0, ?tr_bufs0; try done.
  - rewrite tr_tdh0. apply pos_bound.
  - rewrite ti_tail0, tr_tdh0, pos_pos. f_equal. lia.
  - lia.
  - by inversion ti_size0.
  - intros i Hi. destruct (Z.eq_dec i (tdh t)) as [->|Hn]; [rewrite tr_addr0|rewrite tr_descs0 by done]; by apply ti_addr0.
  - intros k h Hk. pose proof (lookup_lt_Some _ _ _ Hk). unfold asks. rewrite tr_descs0, tr_bufs0, tr_mem0 by (apply Hne; lia).
    rewrite tr_tdh0, pos_pos. replace (1 + Z.of_nat k) with (Z.of_nat (Datatypes.S k)) by lia. by apply ti_full0.
  - intros k Hk. destruct (Z.eq_dec k 15) as [->|].
    + replace (pos (tdh t') 15) with (tdh t); [done|]. rewrite tr_tdh0, pos_pos. unfold pos. divlia.
    + rewrite tr_descs0 by (apply Hne; lia). rewrite tr_tdh0, pos_pos. apply ti_free0. lia.
Qed.

Lemma tx_at_insert d b ta h tt m i j e : tx_at (mk_tx (<[i := e]> d) b ta h tt m) j = if bool_decide (i = j) then e else default tx_desc0 (d !! j).
Proof. unfold tx_at. cbn [txd]. case_bool_decide; [subst; by rewrite lookup_insert_eq|by rewrite lookup_insert_ne]. Qed.

(** A frame that is accepted goes to the end of the queue; the sixteenth is
    accepted too. *)
Lemma send_frame_spec t f q :
  tx_inv t q -> (0 < length f <= 1522)%nat ->
  if decide (length q < 16)%nat
  then exists t', send_frame t f (Z.of_nat (length f)) = (t', 0) /\ tx_inv t' (q ++ [f])
  else send_frame t f (Z.of_nat (length f)) = (t, -1).
Proof.
  intros Hi Hf. pose proof Hi as []. unfold send_frame.
  rewrite (proj2 (Z.eqb_neq (Z.of_nat (length f)) 0)), (proj2 (Z.ltb_ge 1522 _)) by lia. cbn [orb].
  case_decide as Hlt.
  - rewrite (proj2 (Z.eqb_neq _ 0)); [|rewrite ti_tail0; apply ti_free0; lia].
    rewrite Nat2Z.id, take_ge by lia. eexists. split; [done|].
    assert (forall k, 0 <= k < 16 -> k <> Z.of_nat (length q) -> tx_tail t <> pos (tdh t) k) as Hne.
    { intros k ? ? E. rewrite ti_tail0 in E. apply pos_inj in E; lia. }
    split; cbn [tdh tdt tx_tail tx_bufs].
    + done.
    + done.
    + change E1000_NUM_TX_DESC with 16. rewrite next_pos, ti_tail0, pos_pos, length_app. f_equal. cbn. lia.
    + rewrite length_app. cbn. lia.
    + apply Forall_app. by split; [|constructor].
    + done.
    + intros i Hb. rewrite tx_at_insert. case_bool_decide; subst; cbn [t_addr]; by apply ti_addr0.
    + intros k g Hk. apply lookup_app_Some in Hk as [Hk|[Hge Hk]]; unfold asks; rewrite tx_at_insert; cbn [tmem tx_bufs].
      * pose proof (lookup_lt_Some _ _ _ Hk). rewrite bool_decide_false by (apply Hne; lia).
        destruct (ti_full0 k g Hk) as (S & C & L & D). splits.
        pose proof (Forall_lookup_1 _ _ _ _ ti_size0 Hk) as Hg. cbn in Hg. rewrite <- D at 2.
        apply (load_bytes_apart _ _ (ld (tx_bufs t) (tx_tail t)) _ _ (Z.of_nat (length f))); try lia.
        -- intros c Hc. by apply store_bytes_other.
        -- apply ti_apart0; [rewrite ti_tail0; apply pos_bound|apply pos_bound|apply Hne; lia].
      * apply list_lookup_singleton_Some in Hk as [Hk <-]. assert (k = length q) as -> by lia.
        rewrite <- ti_tail0, bool_decide_true by done. splits. apply load_store_bytes.
    + rewrite length_app. cbn. intros k Hk. rewrite tx_at_insert, bool_decide_false by (apply Hne; lia). apply ti_free0. lia.
  - assert (length q = 16)%nat as Hq by lia. destruct (lookup_lt_is_Some_2 q 0%nat ltac:(lia)) as [g Hg].
    destruct (ti_full0 0%nat g Hg) as (S & _). rewrite (proj2 (Z.eqb_eq _ 0)); [done|].
    replace (tx_tail t) with (pos (tdh t) (Z.of_nat 0)); [done|]. rewrite ti_tail0, Hq. unfold pos. divlia.
Qed.

(** *** Runs of the driver and the controller *)

Inductive tx_event := Accepted (f : list Z) | Refused (f : list Z) | OnWire (f : list Z).

Inductive tx_run : tx_half -> list tx_event -> tx_half -> Prop :=
| run_nil t : tx_run t [] t
| run_accept t f t1 evs t' : (0 < length f <= 1522)%nat ->
    send_frame t f (Z.of_nat (length f)) = (t1, 0) -> tx_run t1 evs t' -> tx_run t (Accepted f :: evs) t'
| run_refuse t f t1 evs t' : (0 < length f <= 1522)%nat ->
    send_frame t f (Z.of_nat (length f)) = (t1, -1) -> tx_run t1 evs t' -> tx_run t (Refused f :: evs) t'
| run_wire t f t1 evs t' : transmits t f t1 -> tx_run t1 evs t' -> tx_run t (OnWire f :: evs) t'.

Definition accepted (evs : list tx_event) : list (list Z) :=
  omap (fun e => match e with Accepted f => Some f | _ => None end) evs.
Definition on_wire (evs : list tx_event) : list (list Z) :=
  omap (fun e => match e with OnWire f => Some f | _ => None end) evs.

Lemma tx_run_queue t q evs t' :
  tx_inv t q -> tx_run t evs t' -> exists q', tx_inv t' q' /\ q ++ accepted evs = on_wire evs ++ q'.
Proof.
  intros Hi Hr. revert q Hi. induction Hr as [t|t f t1 evs t' Hf Es Hr IH|t f t1 evs t' Hf Es Hr IH|t f t1 evs t' Ht Hr IH];
    intros q Hi.
  - exists q. by rewrite app_nil_r.
  - pose proof (send_frame_spec t f q Hi Hf) as Hs. rewrite Es in Hs. case_decide; [|done].
    destruct Hs as (? & [= <-] & Hi'). destruct (IH _ Hi') as (q' & ? & E). exists q'. split; [done|].
    cbn. by rewrite cons_middle, app_assoc.
  - pose proof (send_frame_spec t f q Hi Hf) as Hs. rewrite Es in Hs. case_decide; [by destruct Hs as (? & [=] & _)|].
    simplify_eq. by apply IH.
  - destruct (tx_inv_transmit _ _ _ _ Hi Ht) as (q1 & -> & Hi'). destruct (IH _ Hi') as (q' & ? & E).
    exists q'. split; [done|]. cbn. f_equal. done.
Qed.
End rings.

(** ** Start-up *)

(** The last value written to a register. *)
Definition last_write (t : io) (reg : Z) : option Z :=
  list_find (fun a => match a with Wr r _ => bool_decide (r = reg) | _ => false end = true) t ≫=
  fun ia => match ia.2 with Wr _ v => Some v | _ => None end.

Section start.
Context {A : Type} {FA : FrameAllocator A} (hhdm : Z) (dev : io -> Z).
Implicit Types f : A.
#[local] Abbreviation taken := GpuAlloc.taken.
#[local] Opaque KString.memset.

Lemma dma_alloc_taken a0 f ps m f' m' p :
  taken a0 f ps -> e1000_dma_alloc_page hhdm f m = (f', m', p) ->
  taken a0 f' (ps ++ option_list p).
Proof.
  intros Ht. unfold e1000_dma_alloc_page. destruct (fa_alloc f) as [f1 pa] eqn:E. destruct (Z.eqb_spec pa 0) as [->|Hp].
  - intros [= <- <- <-]. cbn. rewrite app_nil_r.
    by destruct (fa_alloc_spec _ _ _ (GpuAlloc.tk_inv _ _ _ Ht) E) as [_ [[_ ->]|(? & _)]]; [|lia].
  - intros [[<- _]%pair_equal_spec <-]%pair_equal_spec. by eapply GpuAlloc.taken_snoc.
Qed.

Lemma tx_buffers_spec ixs a0 f ps t f' t' b :
  taken a0 f ps -> NoDup ixs -> tx_buffers hhdm ixs f t = (f', t', b) ->
  exists new, taken a0 f' (ps ++ new) /\
    (b = true -> length new = length ixs /\
     (forall i, i ∉ ixs -> tx_at t' i = tx_at t i /\ ld (tx_bufs t') i = ld (tx_bufs t) i) /\
     (forall j i p, ixs !! j = Some i -> new !! j = Some p ->
        tx_at t' i = mk_tx_desc p 0 0 0 E1000_TXSTA_DD 0 0 /\ ld (tx_bufs t') i = p + hhdm)).
Proof.
  revert f t ps. induction ixs as [|i ixs IH]; intros f t ps Ht Hn E; cbn [tx_buffers] in E.
  { simplify_eq. exists []. by rewrite app_nil_r. }
  apply NoDup_cons in Hn as [Hni Hn]. destruct (e1000_dma_alloc_page hhdm f (tmem t)) as [[f1 m] [p|]] eqn:Ea;
    pose proof (dma_alloc_taken _ _ _ _ _ _ _ Ht Ea) as Ht'; [|simplify_eq; by exists []].
  destruct (IH _ _ _ Ht' Hn E) as (new & Hnew & Hb). exists (p :: new). split.
  { cbn in Hnew. by rewrite <- app_assoc in Hnew. }
  intros ->. destruct (Hb eq_refl) as (Hl & Ho & Hp). splits; [cbn; lia| |].
  - intros k Hk. destruct (Ho k ltac:(set_solver)) as [-> ->]. unfold put_tx. cbn [tx_bufs].
    rewrite tx_at_insert, bool_decide_false, ld_st_ne by set_solver. done.
  - intros [|j] k q Hk Hq; cbn in Hk, Hq; [|by eapply Hp]. simplify_eq. destruct (Ho k Hni) as [-> ->].
    unfold put_tx. cbn [tx_bufs]. by rewrite tx_at_insert, bool_decide_true, ld_st_eq.
Qed.

Lemma rx_at_insert d b ta h tt m i j e :
  rx_at (mk_rx (<[i := e]> d) b ta h tt m) j = if bool_decide (i = j) then e else default rx_desc0 (d !! j).
Proof. unfold rx_at. cbn [rxd]. case_bool_decide; [subst; by rewrite lookup_insert_eq|by rewrite lookup_insert_ne]. Qed.

Lemma rx_buffers_spec ixs a0 f ps t f' t' b :
  taken a0 f ps -> NoDup ixs -> rx_buffers hhdm ixs f t = (f', t', b) ->
  exists new, taken a0 f' (ps ++ new) /\
    (b = true -> length new = length ixs /\
     (forall i, i ∉ ixs -> rx_at t' i = rx_at t i /\ ld (rx_bufs t') i = ld (rx_bufs t) i) /\
     (forall j i p, ixs !! j = Some i -> new !! j = Some p ->
        rx_at t' i = mk_rx_desc p 0 0 0 0 0 /\ ld (rx_bufs t') i = p + hhdm)).
Proof.
  revert f t ps. induction ixs as [|i ixs IH]; intros f t ps Ht Hn E; cbn [rx_buffers] in E.
  { simplify_eq. exists []. by rewrite app_nil_r. }
  apply NoDup_cons in Hn as [Hni Hn]. destruct (e1000_dma_alloc_page hhdm f (rmem t)) as [[f1 m] [p|]] eqn:Ea;
    pose proof (dma_alloc_taken _ _ _ _ _ _ _ Ht Ea) as Ht'; [|simplify_eq; by exists []].
  destruct (IH _ _ _ Ht' Hn E) as (new & Hnew & Hb). exists (p :: new). split.
  { cbn in Hnew. by rewrite <- app_assoc in Hnew. }
  intros ->. destruct (Hb eq_refl) as (Hl & Ho & Hp). splits; [cbn; lia| |].
  - intros k Hk. destruct (Ho k ltac:(set_solver)) as [-> ->]. unfold put_rx. cbn [rx_bufs].
    rewrite rx_at_insert, bool_decide_false, ld_st_ne by set_solver. done.
  - intros [|j] k q Hk Hq; cbn in Hk, Hq; [|by eapply Hp]. simplify_eq. destruct (Ho k Hni) as [-> ->].
    unfold put_rx. cbn [rx_bufs]. by rewrite rx_at_insert, bool_decide_true, ld_st_eq.
Qed.

(** Sixteen frames that were taken give sixteen buffers that do not overlap. *)
Lemma taken_apart a0 f ps new bufs :
  taken a0 f (ps ++ new) -> length new = 16%nat ->
  (forall j p, new !! j = Some p -> ld bufs (Z.of_nat j) = p + hhdm) -> apart bufs.
Proof.
  intros Ht Hl Hb i j Hi Hj Hne.
  destruct (lookup_lt_is_Some_2 new (Z.to_nat i) ltac:(lia)) as [p Hp].
  destruct (lookup_lt_is_Some_2 new (Z.to_nat j) ltac:(lia)) as [q Hq].
  pose proof (Hb _ _ Hp) as Ep. pose proof (Hb _ _ Hq) as Eq. rewrite Z2Nat.id in Ep, Eq by lia. rewrite Ep, Eq.
  assert (p <> q) as Hpq.
  { intros <-. pose proof (GpuAlloc.tk_nodup _ _ _ Ht) as Hn. apply NoDup_app in Hn as (_ & _ & Hn).
    pose proof (NoDup_lookup _ _ _ _ Hn Hp Hq). lia. }
  pose proof (GpuAlloc.tk_frame _ _ _ Ht p ltac:(apply elem_of_app; right; by eapply list_elem_of_lookup_2)) as (_ & Mp & _).
  pose proof (GpuAlloc.tk_frame _ _ _ Ht q ltac:(apply elem_of_app; right; by eapply list_elem_of_lookup_2)) as (_ & Mq & _).
  unfold PAGE_SIZE in *. divlia.
Qed.

Lemma zrange16 i : 0 <= i < 16 -> zrange 0 16 !! Z.to_nat i = Some i.
Proof. intros. rewrite zrange_seqZ, lookup_seqZ_lt by lia. f_equal. lia. Qed.

Lemma e1000_tx_init_spec a0 f ps e t f' e' t' r :
  taken a0 f ps -> e1000_tx_init hhdm f e t = (f', e', t', r) ->
  rx e' = rx e /\ initialized e' = initialized e /\
  exists new, taken a0 f' (ps ++ new) /\
  (r = -1 \/
   r = 0 /\ tx_inv hhdm (tx e') [] /\ rx_descs e' = rx_descs e /\
   exists ring bufs, new = ring :: bufs /\ length bufs = 16%nat /\ tx_descs e' = ring + hhdm /\
     (forall j p, bufs !! j = Some p -> t_addr (tx_at (tx e') (Z.of_nat j)) = p) /\
     t' = reg_writes t [(E1000_REG_TDBAL, Z.land ring 0xFFFFFFFF); (E1000_REG_TDBAH, Z.shiftr ring 32);
                        (E1000_REG_TDLEN, 256); (E1000_REG_TDH, 0); (E1000_REG_TDT, 0);
                        (E1000_REG_TCTL, tctl_value); (E1000_REG_TIPG, 0x0060200A)]).
Proof.
  intros Ht. unfold e1000_tx_init. destruct (e1000_dma_alloc_page hhdm f ∅) as [[f1 m] [ring|]] eqn:Ea;
    pose proof (dma_alloc_taken _ _ _ _ _ _ _ Ht Ea) as Ht1; [|intros ?; simplify_eq; splits; eexists; by eauto].
  destruct (tx_buffers _ _ _ _) as [[f2 h] b] eqn:Eb. destruct (tx_buffers_spec _ _ _ _ _ _ _ _ Ht1 (NoDup_zrange _ _) Eb)
    as (new & Hn & Hb). cbn in Hn. rewrite <- app_assoc in Hn.
  destruct b; intros E; simplify_eq; splits; eexists; (split; [exact Hn|]); [|by left].
  right. destruct (Hb eq_refl) as (Hl & _ & Hp). change (length (zrange 0 _)) with 16%nat in Hl.
  assert (forall j p, new !! j = Some p ->
    tx_at h (Z.of_nat j) = mk_tx_desc p 0 0 0 E1000_TXSTA_DD 0 0 /\ ld (tx_bufs h) (Z.of_nat j) = p + hhdm) as Hbuf.
  { intros j p Hj. pose proof (lookup_lt_Some _ _ _ Hj). apply (Hp j); [|done].
    rewrite <- (zrange16 (Z.of_nat j)) by lia. by rewrite Nat2Z.id. }
  assert (forall i, 0 <= i < 16 -> exists p, tx_at h i = mk_tx_desc p 0 0 0 E1000_TXSTA_DD 0 0 /\ ld (tx_bufs h) i = p + hhdm) as Hi.
  { intros i Hi. destruct (lookup_lt_is_Some_2 new (Z.to_nat i) ltac:(lia)) as [p Hj].
    exists p. rewrite <- (Z2Nat.id i) by lia. by apply Hbuf. }
  split; [done|]. split; [|split; [done|]].
  - split; cbn [tx set_tx_descs tdh tdt tx_tail tx_bufs length]; try done; try lia.
    + rewrite app_assoc in Hn. apply (taken_apart _ _ _ _ _ Hn Hl). intros j p Hj. by apply Hbuf.
    + intros i Hx. unfold tx_at. cbn [txd]. fold (tx_at h i). by destruct (Hi i Hx) as (p & -> & ->).
    + intros k Hk. unfold tx_at. cbn [txd]. fold (tx_at h (pos 0 k)). by destruct (Hi (pos 0 k) (pos_bound 0 k)) as (p & -> & _).
  - exists ring, new. splits. intros j p Hj. unfold tx_at. cbn [txd tx set_tx_descs]. fold (tx_at h (Z.of_nat j)). by destruct (Hbuf j p Hj) as [-> _].
Qed.

Lemma e1000_rx_init_spec a0 f ps e t f' e' t' r :
  taken a0 f ps -> e1000_rx_init hhdm f e t = (f', e', t', r) ->
  tx e' = tx e /\ tx_descs e' = tx_descs e /\ initialized e' = initialized e /\
  exists new, taken a0 f' (ps ++ new) /\
  (r = -1 \/
   r = 0 /\ rx_inv hhdm (rx e') [] /\ rx_tail (rx e') = rdt (rx e') /\
   exists ring bufs, new = ring :: bufs /\ length bufs = 16%nat /\ rx_descs e' = ring + hhdm /\
     (forall j p, bufs !! j = Some p -> r_addr (rx_at (rx e') (Z.of_nat j)) = p) /\
     t' = reg_writes t [(E1000_REG_RAL0, ral_of (mac e)); (E1000_REG_RAH0, rah_of (mac e));
                        (E1000_REG_RDBAL, Z.land ring 0xFFFFFFFF); (E1000_REG_RDBAH, Z.shiftr ring 32);
                        (E1000_REG_RDLEN, 256); (E1000_REG_RDH, 0); (E1000_REG_RDT, 15);
                        (E1000_REG_RCTL, rctl_value)]).
Proof.
  intros Ht. unfold e1000_rx_init. destruct (e1000_dma_alloc_page hhdm f ∅) as [[f1 m] [ring|]] eqn:Ea;
    pose proof (dma_alloc_taken _ _ _ _ _ _ _ Ht Ea) as Ht1; [|intros ?; simplify_eq; splits; eexists; by eauto].
  destruct (rx_buffers _ _ _ _) as [[f2 h] b] eqn:Eb. destruct (rx_buffers_spec _ _ _ _ _ _ _ _ Ht1 (NoDup_zrange _ _) Eb)
    as (new & Hn & Hb). cbn in Hn. rewrite <- app_assoc in Hn.
  destruct b; intros E; simplify_eq; splits; eexists; (split; [exact Hn|]); [|by left].
  right. destruct (Hb eq_refl) as (Hl & _ & Hp). change (length (zrange 0 _)) with 16%nat in Hl.
  assert (forall j p, new !! j = Some p ->
    rx_at h (Z.of_nat j) = mk_rx_desc p 0 0 0 0 0 /\ ld (rx_bufs h) (Z.of_nat j) = p + hhdm) as Hbuf.
  { intros j p Hj. pose proof (lookup_lt_Some _ _ _ Hj). apply (Hp j); [|done].
    rewrite <- (zrange16 (Z.of_nat j)) by lia. by rewrite Nat2Z.id. }
  assert (forall i, 0 <= i < 16 -> exists p, rx_at h i = mk_rx_desc p 0 0 0 0 0 /\ ld (rx_bufs h) i = p + hhdm) as Hi.
  { intros i Hi. destruct (lookup_lt_is_Some_2 new (Z.to_nat i) ltac:(lia)) as [p Hj].
    exists p. rewrite <- (Z2Nat.id i) by lia. by apply Hbuf. }
  split; [done|]. split; [|split; [done|]].
  - split; cbn [rx set_rx_descs rdh rdt rx_tail rx_bufs length]; try done; try lia.
    + rewrite app_assoc in Hn. apply (taken_apart _ _ _ _ _ Hn Hl). intros j p Hj. by apply Hbuf.
    + intros i Hx. unfold rx_at. cbn [rxd]. fold (rx_at h i). by destruct (Hi i Hx) as (p & -> & ->).
    + intros k Hk. set (i := pos _ _). destruct (Hi i (pos_bound _ _)) as (p & E & _).
      unfold rx_at in *. cbn [rxd]. by rewrite E.
  - exists ring, new. splits. intros j p Hj. unfold rx_at. cbn [rxd rx set_rx_descs]. fold (rx_at h (Z.of_nat j)). by destruct (Hbuf j p Hj) as [-> _].
Qed.

Lemma reg_writes_app t l1 l2 : reg_writes t (l1 ++ l2) = reg_writes (reg_writes t l1) l2.
Proof. apply foldl_app. Qed.

(** What the controller has been told about the rings. *)
Definition programmed (t : io) (txring rxring : Z) : Prop :=
  last_write t E1000_REG_TDBAL = Some (u32 txring) /\ last_write t E1000_REG_TDBAH = Some (u32 (Z.shiftr txring 32)) /\
  last_write t E1000_REG_RDBAL = Some (u32 rxring) /\ last_write t E1000_REG_RDBAH = Some (u32 (Z.shiftr rxring 32)) /\
  last_write t E1000_REG_TDLEN = Some 256 /\ last_write t E1000_REG_RDLEN = Some 256 /\
  last_write t E1000_REG_TDH = Some 0 /\ last_write t E1000_REG_TDT = Some 0 /\
  last_write t E1000_REG_RDH = Some 0 /\ last_write t E1000_REG_RDT = Some 15.

Lemma last_write_cons t reg v reg' :
  last_write (e1000_reg_write t reg v) reg' = if bool_decide (reg = reg') then Some (u32 v) else last_write t reg'.
Proof.
  unfold last_write, e1000_reg_write. cbn [list_find]. case_bool_decide as E.
  - by rewrite decide_True by done.
  - rewrite decide_False by done. by destruct (list_find _ t) as [[? ?]|].
Qed.

Lemma u32_low x : u32 (Z.land x 0xFFFFFFFF) = u32 x.
Proof. change 0xFFFFFFFF with (2 ^ 32 - 1). rewrite land_ones_mod by done. unfold wrap. apply Z.mod_mod. done. Qed.
End start.

(** When [e1000_init] returns 0 the driver is ready: 34 distinct frames were
    taken from the allocator, one for each ring and one for each buffer; the
    controller's ring registers hold the addresses, lengths and positions; both
    rings are empty queues.  When it returns anything else, the driver is as
    little initialised as before.  The controller may answer the reads of its
    registers with anything. *)
Theorem e1000_init_ready {A : Type} {FA : FrameAllocator A} hhdm dev (f : A) e t f' e' t' r :
  fa_inv f -> e1000_init dev hhdm f e t = (f', e', t', r) ->
  (r = -1 /\ initialized e' = initialized e) \/
  (r = 0 /\ initialized e' = true /\ tx_inv hhdm (tx e') [] /\ rx_inv hhdm (rx e') [] /\ rx_tail (rx e') = rdt (rx e') /\
   exists txring txbufs rxring rxbufs,
     GpuAlloc.taken f f' (txring :: txbufs ++ rxring :: rxbufs) /\ length txbufs = 16%nat /\ length rxbufs = 16%nat /\
     tx_descs e' = txring + hhdm /\ rx_descs e' = rxring + hhdm /\
     (forall j p, txbufs !! j = Some p -> t_addr (tx_at (tx e') (Z.of_nat j)) = p) /\
     (forall j p, rxbufs !! j = Some p -> r_addr (rx_at (rx e') (Z.of_nat j)) = p) /\
     programmed t' txring rxring).
Proof.
  intros Hf. unfold e1000_init. destruct (e1000_pci_find dev t) as [t1 [[b s]|]]; [|intros ?; simplify_eq; by left].
  destruct (pci_read32 dev _ b s 0 0x10) as [t2 low]. destruct (pci_read32 dev t2 b s 0 0x14) as [t3 high].
  destruct (e1000_read_mac dev _) as [t4 m]. set (e0 := mk_e1000 _ m _ _ _ _ _ _ _ _).
  destruct (e1000_tx_init hhdm f e0 t4) as [[[f1 e1] t5] r1] eqn:Et.
  destruct (e1000_tx_init_spec _ _ _ _ _ _ _ _ _ _ (GpuAlloc.taken_nil _ Hf) Et)
    as (Er & Ei & new & Hn & [->|(-> & Hti & _ & ring & bufs & -> & Hl & Hd & Hb & ->)]);
    cbn [negb Z.eqb]; [intros ?; simplify_eq; by left|].
  set (t6 := reg_writes t4 _) in *.
  destruct (e1000_rx_init hhdm f1 e1 t6) as [[[f2 e2] t7] r2] eqn:Ex.
  destruct (e1000_rx_init_spec _ _ _ _ _ _ _ _ _ _ Hn Ex)
    as (Etx & Etd & Ei2 & new & Hn2 & [->|(-> & Hri & Htl & rring & rbufs & -> & Hrl & Hrd & Hrb & ->)]);
    cbn [negb Z.eqb]; intros ?; simplify_eq; [left; split; [done|by rewrite Ei2, Ei]|right].
  cbn [initialized tx rx tx_descs rx_descs]. rewrite Etx, Etd. splits. exists ring, bufs, rring, rbufs. splits.
  unfold programmed, t6, reg_writes. cbn [foldl fst snd]. rewrite !last_write_cons, !u32_low. splits.
Qed.

(** ** The rings as queues *)

(** A controller that transfers every frame it has room for. *)
Definition demo_dma (hhdm : Z) (f : frame) (r : rx_half) : rx_half :=
  if rdh r =? rdt r then r
  else let d := rx_at r (rdh r) in
       mk_rx (<[rdh r := mk_rx_desc (r_addr d) (f_len f) 0 (f_status f) (f_errors f) 0]> (rxd r))
         (rx_bufs r) (rx_tail r) ((rdh r + 1) mod 16) (rdt r) (store_bytes (rmem r) (r_addr d + hhdm) (f_bytes f)).
Lemma demo_dma_full hhdm r f : rdh r = rdt r -> demo_dma hhdm f r = r.
Proof. intros E. unfold demo_dma. by rewrite (proj2 (Z.eqb_eq _ _) E). Qed.
Lemma demo_dma_room hhdm r f : frame_ok f -> rdh r <> rdt r -> receives hhdm r f (demo_dma hhdm f r).
Proof.
  intros [_ Hl] E. unfold demo_dma. rewrite (proj2 (Z.eqb_neq _ _) E).
  split; cbn [rdh rdt rx_bufs rx_tail rmem]; rewrite ?rx_at_insert, ?bool_decide_true by done; try done.
  - intros i Hi. by rewrite rx_at_insert, bool_decide_false.
  - apply load_store_bytes.
  - intros a Ha. apply store_bytes_other. unfold f_len in Hl. lia.
Qed.

(** On a controller that is quiet the frames of the ring are delivered. *)
Lemma poll_quiet {W} (cb : W -> list Z -> W) hhdm e w q :
  initialized e = true -> rx_inv hhdm (rx e) q -> rx_tail (rx e) = rdt (rx e) ->
  exists e', e1000_poll cb (fun _ r => r) 16 e w = Some (e', foldl (deliver cb) w q) /\ rx_inv hhdm (rx e') [].
Proof.
  intros Hi Hr Ht. pose proof (ri_len _ _ _ Hr) as Hl. unfold e1000_poll. rewrite Hi, Ht. cbn [negb].
  pose proof (poll_loop_refines hhdm cb (demo_dma hhdm) (demo_dma_room hhdm) (demo_dma_full hhdm) (fun _ => []) ltac:(done)
    16 0 (rx e) q w Hr) as H.
  rewrite fifo_poll_quiet in H by lia. change (device _ (fun _ => [])) with (fun (_ : nat) (r : rx_half) => r) in H.
  destruct (poll_loop _ _ _ _ _ _ _) as [[r' w'']|]; [|done]. destruct H as (-> & Hr' & _). by eexists.
Qed.

(** C31. [e1000_poll] on the descriptor ring does what the abstract receiver does
    on a queue of fifteen frames, whatever frames arrive between its turns: the
    same complete and error-free frames reach the network stack in the order of
    their arrival, one that finds the queue full is lost, and when it returns
    the ring is empty and the driver's tail agrees with the controller's. *)
Theorem e1000_poll_refines {W} (cb : W -> list Z -> W) hhdm dma arrivals fuel e w q :
  (forall r f, frame_ok f -> rdh r <> rdt r -> receives hhdm r f (dma f r)) ->
  (forall r f, rdh r = rdt r -> dma f r = r) ->
  (forall i, Forall frame_ok (arrivals i)) ->
  initialized e = true -> rx_inv hhdm (rx e) q -> rx_tail (rx e) = rdt (rx e) ->
  match e1000_poll cb (device dma arrivals) fuel e w, fifo_poll cb arrivals fuel 0 q w with
  | Some (e', w'), Some w'' =>
      w' = w'' /\ rx_inv hhdm (rx e') [] /\ rx_tail (rx e') = rdt (rx e') /\ tx e' = tx e /\ initialized e' = true
  | None, None => True
  | _, _ => False
  end.
Proof.
  intros Hroom Hfull Hok Hi Hr Ht. unfold e1000_poll. rewrite Hi, Ht. cbn [negb].
  pose proof (poll_loop_refines hhdm cb dma Hroom Hfull arrivals Hok fuel 0 (rx e) q w Hr) as H.
  destruct (poll_loop _ _ _ _ _ _ _) as [[r' w']|]; destruct (fifo_poll _ _ _ _ _ _); try done.
  destruct H as (-> & Hr' & Ht'). splits.
Qed.

(** When no frame arrives after turn [n], [e1000_poll] returns within [n + 16]
    turns; when none arrives at all, it returns within 16 turns and has handed
    over exactly the deliverable frames of the ring, in order. *)
Theorem e1000_poll_returns {W} (cb : W -> list Z -> W) hhdm dma arrivals n e w q :
  (forall r f, frame_ok f -> rdh r <> rdt r -> receives hhdm r f (dma f r)) ->
  (forall r f, rdh r = rdt r -> dma f r = r) ->
  (forall i, Forall frame_ok (arrivals i)) -> (forall j, (n <= j)%nat -> arrivals j = []) ->
  initialized e = true -> rx_inv hhdm (rx e) q -> rx_tail (rx e) = rdt (rx e) ->
  (exists e' w', e1000_poll cb (device dma arrivals) (n + 16) e w = Some (e', w')) /\
  (exists e', e1000_poll cb (fun _ r => r) 16 e w = Some (e', foldl (deliver cb) w q)).
Proof.
  intros Hroom Hfull Hok Hn Hi Hr Ht. pose proof (ri_len _ _ _ Hr) as Hl. unfold e1000_poll. rewrite Hi, Ht. cbn [negb]. split.
  - pose proof (poll_loop_refines hhdm cb dma Hroom Hfull arrivals Hok (n + 16) 0 (rx e) q w Hr) as H.
    destruct (fifo_poll_stops cb arrivals n (n + 16) 0 q w Hn Hl) as [w' E]; [case_decide; lia|].
    rewrite E in H. destruct (poll_loop _ _ _ _ _ _ _) as [[r' w'']|]; [|done]. by eexists _, _.
  - destruct (poll_quiet cb hhdm e w q Hi Hr Ht) as (e' & E & _). unfold e1000_poll in E. rewrite Hi, Ht in E. by exists e'.
Qed.

(** C32. In every run of [e1000_send] and the controller from an empty transmit
    ring, the frames on the wire are the first of the accepted ones, unchanged
    and in the order of the calls; the at most sixteen others are still in the
    ring. *)
Theorem tx_in_order hhdm t evs t' :
  tx_inv hhdm t [] -> tx_run hhdm t evs t' ->
  exists q, accepted evs = on_wire evs ++ q /\ tx_inv hhdm t' q /\ (length q <= 16)%nat.
Proof.
  intros Hi Hr. destruct (tx_run_queue _ _ _ _ _ Hi Hr) as (q & Hq & E). exists q. split; [done|]. split; [done|].
  by apply (ti_len _ _ _ Hq).
Qed.

(** The ring has no reserved descriptor: when sixteen frames wait, the tail
    register equals the head, to the controller the ring is empty, and from then
    on nothing is sent and no frame is accepted, for ever. *)
Theorem tx_ring_wedges hhdm t q evs t' :
  tx_inv hhdm t q -> length q = 16%nat -> tx_run hhdm t evs t' ->
  t' = t /\ accepted evs = [] /\ on_wire evs = [].
Proof.
  intros Hi Hq Hr. induction Hr as [t|t f t1 evs t' Hf Es Hr IH|t f t1 evs t' Hf Es Hr IH|t f t1 evs t' Ht Hr IH]; [done| | |].
  - pose proof (send_frame_spec _ _ _ _ Hi Hf) as Hs. rewrite decide_False in Hs by lia. congruence.
  - pose proof (send_frame_spec _ _ _ _ Hi Hf) as Hs. rewrite decide_False in Hs by lia. rewrite Es in Hs.
    injection Hs as ->. by apply IH.
  - destruct (tr_some _ _ _ _ Ht). rewrite (ti_tdt _ _ _ Hi), (ti_tail _ _ _ Hi), Hq. pose proof (ti_tdh _ _ _ Hi).
    unfold pos. divlia.
Qed.

(** The address that [e1000_rx_init] programs into the receive filter is the
    one that [e1000_read_mac] reads back from it, byte by byte. *)
Theorem mac_filter_roundtrip m0 m1 m2 m3 m4 m5 :
  Forall (fun b => 0 <= b < 256) [m0; m1; m2; m3; m4; m5] ->
  mac_of_ra (ral_of [m0; m1; m2; m3; m4; m5]) (rah_of [m0; m1; m2; m3; m4; m5]) = [m0; m1; m2; m3; m4; m5].
Proof.
  intros Hb. repeat match goal with H : Forall _ (_ :: _) |- _ => inversion H; clear H; subst end.
  change (mac_of_ra (Z.lor (Z.lor (Z.lor m0 (Z.shiftl m1 8)) (Z.shiftl m2 16)) (Z.shiftl m3 24))
    (Z.lor (Z.lor m4 (Z.shiftl m5 8)) (Z.shiftl 1 31)) = [m0; m1; m2; m3; m4; m5]).
  rewrite (lor_shiftl_add m0), (lor_shiftl_add m4), (lor_shiftl_add (m0 + _)), (lor_shiftl_add (m4 + _)),
    (lor_shiftl_add (_ + _ + _)) by lia. unfold mac_of_ra, wrap. change 0xFF with (2 ^ 8 - 1). rewrite !land_ones_mod by done.
  rewrite !Z.shiftr_div_pow2 by done. repeat f_equal; divlia.
Qed.

(** ** Concrete rings and a concrete controller *)

Lemma ring_forall (P : Z -> Prop) : Forall P (zrange 0 16) -> forall i, 0 <= i < 16 -> P i.
Proof. intros HP i Hi. rewrite Forall_forall in HP. apply HP. by apply elem_of_zrange. Qed.

Definition demo_bufs : gmap Z Z := list_to_map ((fun i => (i, 4096 * (i + 1))) <$> zrange 0 16).
Definition demo_rx : rx_half :=
  mk_rx (list_to_map ((fun i => (i, mk_rx_desc (4096 * (i + 1)) 0 0 0 0 0)) <$> zrange 0 16)) demo_bufs 15 0 15 ∅.
Definition demo_tx : tx_half :=
  mk_tx (list_to_map ((fun i => (i, mk_tx_desc (4096 * (i + 1)) 0 0 0 E1000_TXSTA_DD 0 0)) <$> zrange 0 16)) demo_bufs 0 0 0 ∅.
Definition demo_nic : e1000_t := mk_e1000 0 [2; 0; 0; 0; 0; 1] 0 3 0 0 demo_tx 0 demo_rx true.

Lemma demo_bufs_at i : 0 <= i < 16 -> ld demo_bufs i = 4096 * (i + 1).
Proof. revert i. apply ring_forall. repeat (constructor; [reflexivity|]). constructor. Qed.
Lemma demo_apart : apart demo_bufs.
Proof. intros i j Hi Hj Hne. rewrite !demo_bufs_at by done. lia. Qed.

Lemma demo_rx_inv : rx_inv 0 demo_rx [].
Proof.
  split; try done; try (cbn; lia).
  - apply demo_apart.
  - apply ring_forall. repeat (constructor; [reflexivity|]). constructor.
  - cbn [length rdt demo_rx]. change (Z.of_nat 0) with 0. apply ring_forall. repeat (constructor; [reflexivity|]). constructor.
Qed.
Lemma demo_tx_inv : tx_inv 0 demo_tx [].
Proof.
  split; try done; try (cbn; lia).
  - apply demo_apart.
  - apply ring_forall. repeat (constructor; [reflexivity|]). constructor.
  - cbn [length tdh demo_tx]. change (Z.of_nat 0) with 0. apply ring_forall. repeat (constructor; [discriminate|]). constructor.
Qed.

(** Two frames in the first turn, one of them with an error, and one in the
    third. *)
Definition demo_arrivals (i : nat) : list frame :=
  match i with
  | O => [mk_frame [1; 2; 3] 3 0; mk_frame [9] 3 1]
  | 2%nat => [mk_frame [4; 5] 3 0]
  | _ => []
  end.
Lemma demo_arrivals_ok i : Forall frame_ok (demo_arrivals i).
Proof. destruct i as [|[|[|i]]]; repeat constructor; discriminate || (unfold f_len; cbn; lia). Qed.

Lemma e1000_poll_refines_witness :
  fifo_poll (fun w d => w ++ [d]) demo_arrivals 19 0 [] [] = Some [[1; 2; 3]; [4; 5]] /\
  match e1000_poll (fun w d => w ++ [d]) (device (demo_dma 0) demo_arrivals) 19 demo_nic [] with
  | Some (e', w') => w' = [[1; 2; 3]; [4; 5]] /\ rx_inv 0 (rx e') []
  | None => False
  end.
Proof.
  assert (fifo_poll (fun w d => w ++ [d]) demo_arrivals 19 0 [] [] = Some [[1; 2; 3]; [4; 5]]) as E by reflexivity.
  split; [exact E|].
  pose proof (e1000_poll_refines (fun w d => w ++ [d]) 0 (demo_dma 0) demo_arrivals 19 demo_nic [] []
    (demo_dma_room 0) (demo_dma_full 0) demo_arrivals_ok eq_refl demo_rx_inv eq_refl) as H. rewrite E in H.
  destruct (e1000_poll _ _ _ _ _) as [[e' w']|]; [|exact H]. split; apply H.
Defined.

Lemma e1000_poll_returns_witness :
  exists e' w', e1000_poll (fun w d => w ++ [d]) (device (demo_dma 0) demo_arrivals) 19 demo_nic [] = Some (e', w').
Proof.
  apply (e1000_poll_returns (fun w d => w ++ [d]) 0 (demo_dma 0) demo_arrivals 3 demo_nic [] []).
  - exact (demo_dma_room 0).
  - exact (demo_dma_full 0).
  - exact demo_arrivals_ok.
  - intros [|[|[|j]]] Hj; [lia|lia|lia|reflexivity].
  - reflexivity.
  - exact demo_rx_inv.
  - reflexivity.
Defined.

(** Two frames are accepted before the controller sends the first. *)
Definition demo_tx1 : tx_half := (send_frame demo_tx [1; 2; 3] 3).1.
Definition demo_tx2 : tx_half := (send_frame demo_tx1 [4; 5] 2).1.
Definition demo_tx3 : tx_half :=
  mk_tx (<[0 := mk_tx_desc 4096 3 0 TX_CMD 1 0 0]> (txd demo_tx2)) demo_bufs 2 1 2 (tmem demo_tx2).
Lemma demo_transmits : transmits 0 demo_tx2 [1; 2; 3] demo_tx3.
Proof.
  split; try reflexivity; try discriminate.
  intros i Hi. change (tdh demo_tx2) with 0 in Hi. unfold demo_tx3. rewrite tx_at_insert, bool_decide_false by done. reflexivity.
Qed.
Lemma demo_tx_run : tx_run 0 demo_tx [Accepted [1; 2; 3]; Accepted [4; 5]; OnWire [1; 2; 3]] demo_tx3.
Proof.
  apply run_accept with demo_tx1; [cbn; lia|reflexivity|]. apply run_accept with demo_tx2; [cbn; lia|reflexivity|].
  apply run_wire with demo_tx3; [exact demo_transmits|]. apply run_nil.
Qed.

Lemma tx_in_order_witness : exists q, [[1; 2; 3]; [4; 5]] = [1; 2; 3] :: q /\ tx_inv 0 demo_tx3 q.
Proof.
  destruct (tx_in_order 0 demo_tx _ demo_tx3 demo_tx_inv demo_tx_run) as (q & E & Hq & _). exists q. split; assumption.
Defined.

(** Sixteen calls without progress of the controller. *)
Definition sends (n : nat) (t : tx_half) : tx_half := Nat.iter n (fun t => (send_frame t [7] 1).1) t.
Lemma sends_inv n : (n <= 16)%nat -> tx_inv 0 (sends n demo_tx) (replicate n [7]).
Proof.
  induction n as [|n IH]; intros Hn; [exact demo_tx_inv|]. specialize (IH ltac:(lia)).
  pose proof (send_frame_spec 0 _ [7] _ IH ltac:(cbn; lia)) as Hs. rewrite length_replicate, decide_True in Hs by lia.
  destruct Hs as (t' & E & Hi). change (sends (S n) demo_tx) with (send_frame (sends n demo_tx) [7] 1).1.
  change (Z.of_nat (length [7])) with 1 in E. rewrite E. by rewrite replicate_S_end.
Qed.

Lemma tx_ring_wedges_witness :
  tdt (sends 16 demo_tx) = tdh (sends 16 demo_tx) /\
  forall evs t', tx_run 0 (sends 16 demo_tx) evs t' -> t' = sends 16 demo_tx.
Proof.
  split; [vm_compute; reflexivity|]. intros evs t' Hr.
  apply (tx_ring_wedges 0 (sends 16 demo_tx) (replicate 16 [7]) evs t' (sends_inv 16 ltac:(lia)) ltac:(reflexivity) Hr).
Defined.

Lemma mac_filter_roundtrip_witness : mac_of_ra (ral_of [0x52; 0x54; 0; 0x12; 0x34; 0xFE]) (rah_of [0x52; 0x54; 0; 0x12; 0x34; 0xFE]) = [0x52; 0x54; 0; 0x12; 0x34; 0xFE].
Proof. apply mac_filter_roundtrip. repeat (constructor; [lia|]). constructor. Defined.

(** A controller at bus 0, slot 3 whose EEPROM answers at once. *)
Definition demo_controller (t : io) : Z :=
  match t with
  | CfgRd a :: _ => if a =? cfg_address 0 3 0 0 then 0x100E8086 else 0
  | Rd reg :: _ => if reg =? E1000_REG_EERD then Z.lor E1000_EERD_DONE (Z.shiftl 0x1234 16) else 0
  | _ => 0
  end.
#[local] Existing Instance Pmm.pmm_allocator.

Lemma demo_start : (e1000_init demo_controller 0 Pmm.demo_pmm e1000_0 []).2 = 0.
Proof. vm_compute. reflexivity. Qed.

Lemma e1000_init_ready_witness :
  let e := (e1000_init demo_controller 0 Pmm.demo_pmm e1000_0 []).1.1.2 in
  initialized e = true /\ tx_inv 0 (tx e) [] /\ rx_inv 0 (rx e) [].
Proof.
  cbv zeta. pose proof demo_start as Hr.
  destruct (e1000_init demo_controller 0 Pmm.demo_pmm e1000_0 []) as [[[f' e'] t'] r] eqn:E. cbn [snd] in Hr.
  destruct (e1000_init_ready (FA := Pmm.pmm_allocator) 0 demo_controller Pmm.demo_pmm e1000_0 [] f' e' t' r Pmm.demo_inv E)
    as [H|H]; [|split; [apply H|split; apply H]]. exfalso. rewrite Hr in H. discriminate (proj1 H).
Defined.
End E1000Thm.
