(* ===== verification/Netif.v ===== *)
(** * The network interface between lwIP and the driver
      (src/drivers/net/port/kyuzen_netif.c, sys_arch.c)

    lwIP is third-party code: its packet buffers and its input function are the
    class [Lwip], whose laws are the ownership rules of its documentation.  A
    chain of packet buffers that goes out is the list of its payloads.  The
    statistics macros are compiled out (LWIP_STATS is 0). *)

From S2P Require Import Prelude KString Bytes Pmm Timer E1000 E1000Thm.
From stdpp Require Import base numbers list gmap.
From Stdlib Require Import ZArith Lia.

#[local] Open Scope list_scope.
#[local] Open Scope Z_scope.

(** [lw_owned] lists the buffers that the driver has to free, [lw_content] what
    a buffer holds, [lw_inputs] the frames that were handed to the stack. *)
Class Lwip (S P : Type) := {
  pbuf_alloc : S -> Z -> S * option P;
  pbuf_take : S -> P -> list Z -> S * Z;
  pbuf_free : S -> P -> S;
  netif_input : S -> P -> S * Z;
  lw_owned : S -> list P;
  lw_content : S -> P -> list Z;
  lw_inputs : S -> list (list Z);
  lw_alloc : forall s n, let '(s', r) := pbuf_alloc s n in
    lw_owned s' = option_list r ++ lw_owned s /\ lw_inputs s' = lw_inputs s;
  lw_take : forall s p d, let '(s', r) := pbuf_take s p d in
    lw_owned s' = lw_owned s /\ lw_inputs s' = lw_inputs s /\ (r = 0 -> lw_content s' p = d);
  lw_free : forall s p l, lw_owned s = p :: l -> lw_owned (pbuf_free s p) = l /\ lw_inputs (pbuf_free s p) = lw_inputs s;
  lw_input : forall s p l, lw_owned s = p :: l ->
    lw_owned (netif_input s p).1 = l /\ lw_inputs (netif_input s p).1 = lw_inputs s ++ [lw_content s p];
}.

Module Netif.
Import E1000.

Definition KYUZEN_NETIF_MTU : Z := 1500.
Definition KYUZEN_MAX_FRAME : Z := 1518.
Definition ERR_OK : Z := 0.
Definition ERR_IF : Z := -12.
Definition NETIF_FLAG_UP : Z := 0x01.
Definition NETIF_FLAG_BROADCAST : Z := 0x02.
Definition NETIF_FLAG_LINK_UP : Z := 0x04.
Definition NETIF_FLAG_ETHARP : Z := 0x08.
Definition NETIF_FLAG_ETHERNET : Z := 0x10.

(** ** Output *)

(** The loop over the chain: [frame] has the bytes assembled so far. *)
Fixpoint assemble (frame : list Z) (p : list (list Z)) : option (list Z) :=
  match p with
  | [] => Some frame
  | q :: p =>
      if KYUZEN_MAX_FRAME <? Z.of_nat (length frame) + Z.of_nat (length q) then None
      else assemble (frame ++ q) p
  end.

Definition pad60 (frame : list Z) : list Z :=
  if Z.of_nat (length frame) <? 60 then frame ++ replicate (60 - length frame) 0 else frame.

Definition low_level_output (e : e1000_t) (p : list (list Z)) : e1000_t * Z :=
  match assemble [] p with
  | None => (e, ERR_IF)
  | Some frame =>
      let frame := pad60 frame in
      let '(e, r) := e1000_send e frame (u16 (Z.of_nat (length frame))) in
      (e, if negb (r =? 0) then ERR_IF else ERR_OK)
  end.

(** ** Input *)

Section input.
Context {S P : Type} `{Lwip S P}.

(** [data] is not NULL: the driver passes the address of a buffer page. *)
Definition kyuzen_netif_input (s : S) (data : list Z) (length : Z) : S :=
  if (length =? 0) || (KYUZEN_MAX_FRAME <? length) then s
  else
    let '(s, p) := pbuf_alloc s length in
    match p with
    | None => s
    | Some p =>
        let '(s, r) := pbuf_take s p data in
        if negb (r =? ERR_OK) then pbuf_free s p else (netif_input s p).1
    end.

Definition e1000_rx_callback (flags : Z) (s : S) (data : list Z) : S :=
  if Z.land flags NETIF_FLAG_UP =? 0 then s else kyuzen_netif_input s data (Z.of_nat (length data)).
End input.

(** ** Start-up *)

(** The fields of [struct netif] that the port sets; the callbacks are names. *)
Inductive netif_fn := no_fn | etharp_output | low_level_output_fn.
Record netif := mk_netif {
  name : list Z; output : netif_fn; linkoutput : netif_fn;
  hwaddr_len : Z; hwaddr : list Z; mtu : Z; flags : Z
}.

Section start.
Context (dev : io -> Z) {A : Type} `{FrameAllocator A} (hhdm : Z).

Definition low_level_init (f : A) (e : e1000_t) (t : io) (n : netif) : A * e1000_t * io * netif * Z :=
  let '(f, e, t, r) := e1000_init dev hhdm f e t in
  if negb (r =? 0) then (f, e, t, n, ERR_IF)
  else (f, e, t,
        mk_netif n.(name) n.(output) n.(linkoutput) 6 (e1000_get_mac e) KYUZEN_NETIF_MTU
          (Z.lor (Z.lor (Z.lor NETIF_FLAG_BROADCAST NETIF_FLAG_ETHARP) NETIF_FLAG_ETHERNET) NETIF_FLAG_LINK_UP), ERR_OK).

Definition kyuzen_netif_init (f : A) (e : e1000_t) (t : io) (n : netif) : A * e1000_t * io * netif * Z :=
  low_level_init f e t
    (mk_netif [107; 122] etharp_output low_level_output_fn n.(hwaddr_len) n.(hwaddr) n.(mtu) n.(flags)).
End start.

(** [sys_now]: the clock that lwIP sees is the low half of the counter. *)
Definition sys_now (ms : Z) : Z := u32 ms.

(** ** The way out *)

Import E1000Thm.

Lemma assemble_spec p frame :
  assemble frame p =
  if decide (Z.of_nat (length (frame ++ concat p)) <= KYUZEN_MAX_FRAME \/ p = []) then Some (frame ++ concat p) else None.
Proof.
  revert frame. induction p as [|q p IH]; intros frame; cbn [assemble concat].
  { rewrite decide_True by (by right). by rewrite app_nil_r. }
  rewrite !length_app. destruct (Z.ltb_spec KYUZEN_MAX_FRAME (Z.of_nat (length frame) + Z.of_nat (length q))).
  - rewrite decide_False; [done|]. intros [?|?]; [lia|done].
  - rewrite IH, !length_app, <- app_assoc. destruct p as [|q' p].
    + rewrite !decide_True; [done|left; cbn; lia|by right].
    + apply decide_ext. split; (intros [?|?]; [left; lia|done]).
Qed.

Lemma pad60_length f : (length f <= 1518)%nat -> (60 <= length (pad60 f) <= 1518)%nat.
Proof. intros. unfold pad60. destruct (Z.ltb_spec (Z.of_nat (length f)) 60); rewrite ?length_app, ?length_replicate; lia. Qed.

(** A chain of packet buffers that lwIP sends becomes one frame, the payloads
    one after the other, filled with zeros to 60 bytes: it is refused when it
    is longer than 1518 bytes or sixteen frames are waiting, with nothing sent,
    and is otherwise the next frame of the transmit queue. *)
Theorem low_level_output_correct hhdm e p q :
  initialized e = true -> tx_inv hhdm (tx e) q ->
  if decide (length (concat p) <= 1518 /\ length q < 16)%nat
  then exists e', low_level_output e p = (e', ERR_OK) /\ tx_inv hhdm (tx e') (q ++ [pad60 (concat p)]) /\ rx e' = rx e
  else exists e', low_level_output e p = (e', ERR_IF) /\ tx e' = tx e /\ rx e' = rx e.
Proof.
  intros Hi Hq. unfold low_level_output. rewrite assemble_spec. cbn [app]. unfold KYUZEN_MAX_FRAME.
  destruct (decide (length (concat p) <= 1518)%nat) as [Hl|Hl].
  - rewrite (decide_True (P := _ \/ _)) by (left; lia). pose proof (pad60_length _ Hl) as Hp.
    rewrite wrap_small by lia. unfold e1000_send. rewrite Hi. cbn [negb].
    pose proof (send_frame_spec hhdm (tx e) (pad60 (concat p)) q Hq ltac:(lia)) as Hs.
    destruct (decide (length q < 16)%nat) as [Hn|Hn].
    + rewrite decide_True by done. destruct Hs as (t & -> & Ht). by eexists.
    + rewrite decide_False by tauto. rewrite Hs. by eexists.
  - rewrite (decide_False (P := (_ /\ _)%nat)) by tauto. rewrite decide_False; [by eexists|].
    intros [?| ->]; [lia|]. cbn in Hl. lia.
Qed.

(** ** The way in *)

Section receive.
Context {S P : Type} {L : Lwip S P}.
Implicit Types s : S.

(** Whether lwIP takes a frame when the interface is up. *)
Definition takes (s : S) (data : list Z) : Prop :=
  exists s1 p s2, pbuf_alloc s (Z.of_nat (length data)) = (s1, Some p) /\ pbuf_take s1 p data = (s2, 0).

Lemma input_spec fl s data :
  let s' := e1000_rx_callback fl s data in
  lw_owned s' = lw_owned s /\
  (lw_inputs s' = lw_inputs s \/ lw_inputs s' = lw_inputs s ++ [data]) /\
  (Z.land fl NETIF_FLAG_UP <> 0 -> (0 < length data <= 1518)%nat -> takes s data -> lw_inputs s' = lw_inputs s ++ [data]) /\
  ((1518 < length data)%nat -> s' = s).
Proof.
  cbv zeta. unfold e1000_rx_callback, kyuzen_netif_input, KYUZEN_MAX_FRAME.
  destruct (Z.eqb_spec (Z.land fl NETIF_FLAG_UP) 0) as [E|E]; [splits; solve [by left|intros; lia]|].
  destruct (Z.eqb_spec (Z.of_nat (length data)) 0); cbn [orb]; [splits; solve [by left|intros; lia]|].
  destruct (Z.ltb_spec 1518 (Z.of_nat (length data))); [splits; solve [by left|intros; lia]|].
  pose proof (lw_alloc s (Z.of_nat (length data))) as Ha. destruct (pbuf_alloc s _) as [s1 [p|]] eqn:Ea; destruct Ha as [Ho Hin].
  2: { splits; [by left|]. intros _ _ (? & ? & ? & ? & _). congruence. }
  pose proof (lw_take s1 p data) as Ht. destruct (pbuf_take s1 p data) as [s2 r] eqn:Et. destruct Ht as (Ho2 & Hin2 & Hd).
  cbn [option_list app] in Ho. rewrite Ho in Ho2. unfold ERR_OK. destruct (Z.eqb_spec r 0) as [->|Hr]; cbn [negb].
  - destruct (lw_input s2 p _ Ho2) as [Ho3 Hin3]. rewrite Ho3, Hin3, Hin2, Hin, Hd by done. splits; by right.
  - destruct (lw_free s2 p _ Ho2) as [Ho3 Hin3]. rewrite Ho3, Hin3, Hin2, Hin. splits; [by left|].
    intros _ _ (? & ? & ? & E1 & E2). congruence.
Qed.

Lemma deliver_spec fl fs s :
  let s' := foldl (deliver (e1000_rx_callback fl)) s fs in
  lw_owned s' = lw_owned s /\
  exists l, sublist l (f_bytes <$> filter (fun f => deliverable f = true /\ (length (f_bytes f) <= 1518)%nat) fs) /\
    lw_inputs s' = lw_inputs s ++ l.
Proof.
  cbv zeta. revert s. induction fs as [|f fs IH]; intros s; [split; [done|]; exists []; by rewrite app_nil_r|].
  cbn [foldl]. destruct (IH (deliver (e1000_rx_callback fl) s f)) as (Ho & l & Hl & Hi). rewrite Ho, Hi. clear IH Ho Hi.
  unfold deliver. rewrite filter_cons. destruct (deliverable f) eqn:Ed.
  - destruct (input_spec fl s (f_bytes f)) as (Ho & Hi & _ & Hbig). rewrite Ho. split; [done|].
    destruct (decide (length (f_bytes f) <= 1518)%nat) as [Hs|Hs].
    + rewrite decide_True by done. destruct Hi as [->| ->]; [exists l|exists (f_bytes f :: l)].
      * split; [|done]. cbn. by apply sublist_cons.
      * split; [|by rewrite <- app_assoc]. cbn. by apply sublist_skip.
    + rewrite decide_False by tauto. rewrite Hbig by lia. by exists l.
  - rewrite decide_False by (intros [? _]; done). by split; [|exists l].
Qed.

(** With buffers to spare every frame of acceptable size is handed over. *)
Lemma deliver_all fl fs s :
  Z.land fl NETIF_FLAG_UP <> 0 -> (forall s d, (0 < length d <= 1518)%nat -> takes s d) ->
  lw_inputs (foldl (deliver (e1000_rx_callback fl)) s fs) =
  lw_inputs s ++ (f_bytes <$> filter (fun f => deliverable f = true /\ (length (f_bytes f) <= 1518)%nat) fs).
Proof.
  intros Hu Ht. revert s. induction fs as [|f fs IH]; intros s; [by rewrite app_nil_r|]. cbn [foldl]. rewrite IH. clear IH.
  unfold deliver. rewrite filter_cons. destruct (deliverable f) eqn:Ed.
  - assert (0 < length (f_bytes f))%nat by (unfold deliverable, f_len in Ed; zprop; lia).
    destruct (input_spec fl s (f_bytes f)) as (_ & _ & Hin & Hbig). destruct (decide (length (f_bytes f) <= 1518)%nat) as [Hs|Hs].
    + rewrite decide_True, Hin by auto with lia. cbn. by rewrite <- app_assoc.
    + rewrite decide_False by tauto. by rewrite Hbig by lia.
  - by rewrite decide_False by (intros [? _]; done).
Qed.
End receive.

(** C33. From the ring to the stack: when [e1000_poll] with the port's callback
    returns, every packet buffer it allocated has been freed or handed over, and
    lwIP's input function got, in the order of arrival, only complete and
    error-free frames of at most 1518 bytes; all of them when the interface is
    up and lwIP has buffers. *)
Theorem frames_reach_lwip {S P} {L : Lwip S P} hhdm e (s : S) q fl :
  initialized e = true -> rx_inv hhdm (rx e) q -> rx_tail (rx e) = rdt (rx e) ->
  let wanted := f_bytes <$> filter (fun f => deliverable f = true /\ (length (f_bytes f) <= 1518)%nat) q in
  exists e' s', e1000_poll (e1000_rx_callback fl) (fun _ r => r) 16 e s = Some (e', s') /\
    rx_inv hhdm (rx e') [] /\ lw_owned s' = lw_owned s /\
    (exists l, sublist l wanted /\ lw_inputs s' = lw_inputs s ++ l) /\
    (Z.land fl NETIF_FLAG_UP <> 0 -> (forall s d, (0 < length d <= 1518)%nat -> takes s d) ->
     lw_inputs s' = lw_inputs s ++ wanted).
Proof.
  intros Hi Hr Ht wanted. destruct (poll_quiet (e1000_rx_callback fl) hhdm e s q Hi Hr Ht) as (e' & E & Hr').
  exists e', (foldl (deliver (e1000_rx_callback fl)) s q). split; [done|]. split; [done|].
  destruct (deliver_spec fl q s) as [Ho Hl]. split; [done|]. split; [done|]. apply deliver_all.
Qed.

(** ** A small stack *)

Record stack := mk_stack { next_buf : nat; own : list nat; cont : nat -> list Z; ins : list (list Z) }.
#[export] Program Instance demo_lwip : Lwip stack nat := {|
  pbuf_alloc s n := (mk_stack (S s.(next_buf)) (s.(next_buf) :: s.(own)) s.(cont) s.(ins), Some s.(next_buf));
  pbuf_take s p d := (mk_stack s.(next_buf) s.(own) (fun p' => if decide (p' = p) then d else s.(cont) p') s.(ins), 0);
  pbuf_free s p := mk_stack s.(next_buf) (tail s.(own)) s.(cont) s.(ins);
  netif_input s p := (mk_stack s.(next_buf) (tail s.(own)) s.(cont) (s.(ins) ++ [s.(cont) p]), 0);
  lw_owned := own; lw_content := cont; lw_inputs := ins
|}.
Next Obligation. done. Qed.
Next Obligation. intros s p d. cbn. by rewrite decide_True. Qed.
Next Obligation. intros s p l E. cbn. by rewrite E. Qed.
Next Obligation. intros s p l E. cbn. by rewrite E. Qed.
Definition stack0 : stack := mk_stack 0 [] (fun _ => []) [].

Definition demo_frame : frame := mk_frame [1; 2; 3] 3 0.
Lemma demo_frame_ok : frame_ok demo_frame.
Proof. split; [discriminate|]. change (f_len demo_frame) with 3. lia. Qed.
Definition demo_full : e1000_t := set_rx demo_nic (demo_dma 0 demo_frame demo_rx).
Lemma demo_full_inv : rx_inv 0 (rx demo_full) [demo_frame].
Proof.
  exact (proj1 (rx_inv_push 0 (demo_dma 0) (demo_dma_room 0) (demo_dma_full 0) _ [] _ demo_rx_inv demo_frame_ok)).
Qed.

Lemma frames_reach_lwip_witness :
  exists e' s', e1000_poll (e1000_rx_callback 1) (fun _ r => r) 16 demo_full stack0 = Some (e', s') /\
    lw_owned s' = [] /\ lw_inputs s' = [[1; 2; 3]].
Proof.
  destruct (frames_reach_lwip 0 demo_full stack0 [demo_frame] 1 eq_refl demo_full_inv eq_refl)
    as (e' & s' & E & _ & Ho & _ & Hall).
  exists e', s'. split; [exact E|]. split; [exact Ho|]. apply Hall; [discriminate|].
  intros s d _. eexists _, _, _. split; reflexivity.
Defined.

Lemma low_level_output_correct_witness :
  exists e', low_level_output demo_nic [[1; 2]; [3]] = (e', ERR_OK) /\
    tx_inv 0 (tx e') [[1; 2; 3] ++ replicate 57 0].
Proof.
  destruct (low_level_output_correct 0 demo_nic [[1; 2]; [3]] [] eq_refl demo_tx_inv) as (e' & E & Ht & _).
  exists e'. split; [exact E|exact Ht].
Defined.
End Netif.
