(* ===== verification/Ping.v ===== *)
(** * Ping (src/kernel/net_ping.c)

    The receive callback reads a packet buffer through [peek], which fails
    outside the first segment.  [kernel_ping] is a sequence of sections under
    the network lock and of waits: [idle] is what happens while the processor
    halts (the interrupts may run the two callbacks), [spin] what the other
    processors do while this one spins for [ping_busy] with interrupts disabled;
    the operations of lwIP are arguments as well.  The calls that matter for locking and for the
    control block are recorded in order.  Messages on the console are left
    out. *)

From S2P Require Import Prelude KString Bytes.
From stdpp Require Import base numbers list gmap.
From Stdlib Require Import ZArith Lia.

#[local] Open Scope list_scope.
#[local] Open Scope Z_scope.

Module Ping.

(** ** State *)

Record ping := mk_ping {
  ping_done : bool; ping_rtt_ms : Z; ping_seq : Z; ping_send_time : Z; dns_done : bool; dns_result : Z
}.
Definition ping0 : ping := mk_ping false 0 0 0 false 0.

(** ** Callbacks *)

(** [ipaddr] is [None] for NULL. *)
Definition dns_found_cb (s : ping) (ipaddr : option Z) : ping :=
  mk_ping s.(ping_done) s.(ping_rtt_ms) s.(ping_seq) s.(ping_send_time) true (default 0 ipaddr).

(** A received chain: its total length and the bytes of its first segment. *)
Record pbuf := mk_pbuf { tot_len : Z; payload : list Z }.
Definition len (p : pbuf) : Z := Z.of_nat (length p.(payload)).
Definition peek (p : pbuf) (i : Z) : option Z := if (0 <=? i) && (i <? len p) then p.(payload) !! Z.to_nat i else None.

Definition ICMP_ECHO : Z := 8.
Definition ICMP_ER : Z := 0.
(** [sizeof(struct icmp_echo_hdr)] *)
Definition ICMP_HDR : Z := 8.

(** Whether the callback freed the buffer, and its result. *)
Record verdict := mk_verdict { freed : bool; eaten : Z }.

(** [None]: a read outside the first segment. *)
Definition ping_recv_cb (s : ping) (now : Z) (p : pbuf) : option (ping * verdict) :=
  if (p.(tot_len) <? 20 + ICMP_HDR) || (len p <? 20 + ICMP_HDR) then Some (s, mk_verdict true 0)
  else
    b0 ← peek p 0;
    let ip_hdr_len := u8 (Z.land b0 0x0F * 4) in
    if (ip_hdr_len <? 20) || (p.(tot_len) <? ip_hdr_len + ICMP_HDR) || (len p <? ip_hdr_len + ICMP_HDR)
    then Some (s, mk_verdict true 0)
    else
      type ← peek p ip_hdr_len;
      if type =? ICMP_ER then
        s0 ← peek p (ip_hdr_len + 6);
        s1 ← peek p (ip_hdr_len + 7);
        if s0 * 256 + s1 =? s.(ping_seq)
        then Some (mk_ping true (u64 (now - s.(ping_send_time))) s.(ping_seq) s.(ping_send_time) s.(dns_done) s.(dns_result),
                   mk_verdict true 1)
        else Some (s, mk_verdict true 0)
      else Some (s, mk_verdict true 0).

(** ** The echo request *)

Definition DATA_SIZE : Z := 32.
Definition be16 (v : Z) : list Z := [Z.shiftr (u16 v) 8; Z.land v 0xFF].
(** The checksum is stored as lwIP computes it, low byte first. *)
Definition echo_request (chksum seq : Z) : list Z :=
  [ICMP_ECHO; 0] ++ [Z.land chksum 0xFF; Z.shiftr (u16 chksum) 8] ++ be16 0x4B5A ++ be16 seq ++ map u8 (zrange 0 DATA_SIZE).

Section ping.
(** [E] is the rest of the system. *)
Context {E : Type} (clock : E -> Z) (idle : E -> ping -> E * ping).
(** Whether another caller holds [ping_busy], and the time in which it may release it. *)
Context (busy_held : E -> bool) (spin : E -> E).
Context (raw_new : E -> E * bool) (raw_remove : E -> E).
(** [pbuf_alloc] with the send and [pbuf_free]; the result is [err == ERR_OK]. *)
Context (pbuf_ok : E -> bool) (inet_chksum : list Z -> Z) (raw_send : E -> list Z -> E * bool).
Context (ip_addr : E -> Z) (dns_gethostbyname : E -> list Z -> E * Z * Z).

(** [timer_get_ms] is a [uint64_t]. *)
Definition timer_get_ms (e : E) : Z := u64 (clock e).
#[local] Abbreviation now := timer_get_ms.

Inductive event := BusyLock | BusyUnlock | Sti | NetLock | NetUnlock | Halt | RawNew | RawRemove | Send (packet : list Z).

Record world := mk_world { env : E; pg : ping; log : list event }.
Definition note (e : event) (w : world) : world := mk_world w.(env) w.(pg) (w.(log) ++ [e]).
Definition set_env (w : world) (e : E) : world := mk_world e w.(pg) w.(log).
Definition set_pg (w : world) (p : ping) : world := mk_world w.(env) p w.(log).

Definition sti_hlt (w : world) : world :=
  let '(e, p) := idle w.(env) w.(pg) in mk_world e p (w.(log) ++ [Halt]).

(** [spinlock_lock_irqsave(&ping_busy)] *)
Fixpoint lock_ping_busy (fuel : nat) (w : world) : option world :=
  match fuel with
  | O => None
  | S fuel => if busy_held w.(env) then lock_ping_busy fuel (set_env w (spin w.(env))) else Some (note BusyLock w)
  end.

(** [while (!done && timer_get_ms() < deadline) sti_hlt();] *)
Fixpoint wait_until (fuel : nat) (done : ping -> bool) (deadline : Z) (w : world) : option world :=
  match fuel with
  | O => None
  | S fuel => if negb (done w.(pg)) && (now w.(env) <? deadline) then wait_until fuel done deadline (sti_hlt w) else Some w
  end.

Definition ping_send (w : world) (seq : Z) : world * Z :=
  if negb (pbuf_ok w.(env)) then (w, -1)
  else
    let packet := echo_request (inet_chksum (echo_request 0 seq)) seq in
    let '(e, ok) := raw_send w.(env) packet in
    (note (Send packet) (set_env w e), if ok : bool then 0 else -1).

(** [raw_remove] under the lock. *)
Definition drop_pcb (w : world) : world :=
  let w := note NetLock w in
  let w := note RawRemove (set_env w (raw_remove w.(env))) in
  note NetUnlock w.

Definition net_ping_once (fuel : nat) (w : world) (timeout_ms : Z) : option (world * Z) :=
  let w := note NetLock w in
  let '(e, ok) := raw_new w.(env) in
  if negb ok then Some (note NetUnlock (set_env w e), -1)
  else
    let w := note RawNew (set_env w e) in
    let t := now w.(env) in
    let w := set_pg w (mk_ping false 0 (u16 (Z.land t 0xFFFF)) t w.(pg).(dns_done) w.(pg).(dns_result)) in
    let '(w, r) := ping_send w w.(pg).(ping_seq) in
    let w := note NetUnlock w in
    if negb (r =? 0) then Some (drop_pcb w, -1)
    else
      let deadline := u64 (now w.(env) + timeout_ms) in
      w ← wait_until fuel ping_done deadline w;
      let w := drop_pcb w in
      Some (w, if w.(pg).(ping_done) then i32 w.(pg).(ping_rtt_ms) else -1).

(** The four requests with a second between them; sum of the times and count. *)
Fixpoint ping_rounds (fuel : nat) (is_last : list bool) (w : world) (total_rtt success : Z) : option (world * Z * Z) :=
  match is_last with
  | [] => Some (w, total_rtt, success)
  | last :: is_last =>
      '(w, rtt) ← net_ping_once fuel w 4000;
      let '(total_rtt, success) := if 0 <=? rtt then (i32 (total_rtt + rtt), success + 1) else (total_rtt, success) in
      w ← (if last then Some w else wait_until fuel (fun _ => false) (u64 (now w.(env) + 1000)) w);
      ping_rounds fuel is_last w total_rtt success
  end.

Definition ERR_INPROGRESS : Z := -5.

(** With [ping_busy] held and interrupts enabled. *)
Definition ping_locked (fuel : nat) (w : world) (host : list Z) : option (world * Z) :=
  let w := note NetUnlock (note NetLock w) in
  if ip_addr w.(env) =? 0 then Some (note BusyUnlock w, -1)
  else
    let p := w.(pg) in
    let w := set_pg w (mk_ping p.(ping_done) p.(ping_rtt_ms) p.(ping_seq) p.(ping_send_time) false 0) in
    let w := note NetLock w in
    let '(e, err, addr) := dns_gethostbyname w.(env) host in
    let w := set_env w e in
    let w := if err =? 0 then set_pg w (dns_found_cb w.(pg) (Some addr)) else w in
    let w := note NetUnlock w in
    w ← (if err =? ERR_INPROGRESS then wait_until fuel dns_done (u64 (now w.(env) + 5000)) w else Some w);
    if negb w.(pg).(dns_done) || (w.(pg).(dns_result) =? 0) then Some (note BusyUnlock w, -1)
    else
      let w := note NetUnlock (note NetLock w) in
      '(w, total, success) ← ping_rounds fuel [false; false; false; true] w 0 0;
      Some (note BusyUnlock w, if 0 <? success then cdiv total success else -1).

Definition kernel_ping (fuel : nat) (w : world) (host : list Z) : option (world * Z) :=
  if KString.str host 0 =? 0 then Some (w, -1)
  else
    w ← lock_ping_busy fuel w;
    ping_locked fuel (note Sti w) host.
End ping.

(** ** The receive callback *)

Definition bytes (l : list Z) : Prop := Forall (fun b => 0 <= b < 256) l.
Definition at_ (p : pbuf) (i : Z) : Z := KString.str p.(payload) i.
Definition hdr_len (p : pbuf) : Z := Z.land (at_ p 0) 0x0F * 4.

(** The packet is the reply that the sender waits for: after a plausible IP
    header, all in the first segment, an echo reply with the sequence number. *)
Definition awaited (s : ping) (p : pbuf) : Prop :=
  20 <= hdr_len p /\ hdr_len p + ICMP_HDR <= len p /\ at_ p (hdr_len p) = ICMP_ER /\
  at_ p (hdr_len p + 6) * 256 + at_ p (hdr_len p + 7) = s.(ping_seq).

(** raw.h: 1 when the packet was eaten (deleted), 0 when it lives on. *)
Definition raw_recv_contract (v : verdict) : Prop := v.(freed) = true <-> v.(eaten) = 1.

Lemma peek_in p i : 0 <= i < len p -> peek p i = Some (at_ p i).
Proof.
  intros Hi. unfold peek, at_, KString.str, len in *. rewrite (proj2 (Z.leb_le _ _)), (proj2 (Z.ltb_lt _ _)) by lia. cbn [andb].
  destruct (lookup_lt_is_Some_2 (payload p) (Z.to_nat i) ltac:(lia)) as [b ->]. done.
Qed.

Lemma hdr_len_bound p : 0 <= hdr_len p <= 60 /\ u8 (hdr_len p) = hdr_len p.
Proof.
  assert (0 <= hdr_len p <= 60) as Hb.
  { unfold hdr_len. change 0x0F with (2 ^ 4 - 1). rewrite Bytes.land_ones_mod by done. divlia. }
  split; [done|]. apply wrap_small. lia.
Qed.

Lemma ping_recv_spec s now p :
  len p <= tot_len p ->
  exists s' v, ping_recv_cb s now p = Some (s', v) /\ v.(freed) = true /\
    (awaited s p /\ v.(eaten) = 1 /\ s'.(ping_done) = true /\ s'.(ping_rtt_ms) = u64 (now - s.(ping_send_time)) \/
     ~ awaited s p /\ v.(eaten) = 0 /\ s' = s).
Proof.
  intros Hlen. pose proof (hdr_len_bound p) as [Hb Hu]. unfold ping_recv_cb, awaited, ICMP_HDR in *.
  destruct (Z.ltb_spec (tot_len p) (20 + 8)); cbn [orb]; [eexists _, _; split; [done|]; split; [done|right; split; [lia|done]]|].
  destruct (Z.ltb_spec (len p) (20 + 8)); [eexists _, _; split; [done|]; split; [done|right; split; [lia|done]]|].
  rewrite (peek_in p 0) by lia. cbn [mbind option_bind]. fold (hdr_len p). rewrite Hu.
  destruct (Z.ltb_spec (hdr_len p) 20); cbn [orb]; [eexists _, _; split; [done|]; split; [done|right; split; [lia|done]]|].
  destruct (Z.ltb_spec (tot_len p) (hdr_len p + 8)); cbn [orb]; [eexists _, _; split; [done|]; split; [done|right; split; [lia|done]]|].
  destruct (Z.ltb_spec (len p) (hdr_len p + 8)); [eexists _, _; split; [done|]; split; [done|right; split; [lia|done]]|].
  rewrite !peek_in by lia. cbn [mbind option_bind].
  destruct (Z.eqb_spec (at_ p (hdr_len p)) ICMP_ER) as [Et|Et]; [|eexists _, _; split; [done|]; split; [done|right; split; [tauto|done]]].
  destruct (Z.eqb_spec (at_ p (hdr_len p + 6) * 256 + at_ p (hdr_len p + 7)) (ping_seq s)) as [Es|Es];
    eexists _, _; (split; [done|]; split; [done|]).
  - left. splits.
  - right. split; [tauto|done].
Qed.

(** C34. The receive callback never reads outside the first segment of the packet,
    and takes exactly the awaited reply for its own; but it frees the packet in
    every case, while the contract of lwIP leaves a packet that was not eaten
    with the caller: the contract is kept for the awaited reply only, any other
    ICMP packet that arrives during a ping is used and freed again. *)
Theorem ping_recv_contract_broken s now p :
  len p <= tot_len p ->
  exists s' v, ping_recv_cb s now p = Some (s', v) /\ (v.(eaten) = 1 <-> awaited s p) /\
    (raw_recv_contract v <-> awaited s p) /\ (~ awaited s p -> v.(freed) = true /\ v.(eaten) = 0 /\ s' = s).
Proof.
  intros Hl. destruct (ping_recv_spec s now p Hl) as (s' & v & E & Hf & H). exists s', v. split; [done|].
  unfold raw_recv_contract. destruct H as [(Ha & He & _)|(Ha & He & Es)]; rewrite He, Hf; naive_solver.
Qed.

(** The answer to an echo request, its bytes behind a 20-byte IP header with
    the type set to echo reply, is recognised for every sequence number. *)
Theorem echo_reply_recognised s now hdr chksum :
  length hdr = 19%nat -> 0 <= s.(ping_seq) < 2 ^ 16 ->
  let reply := 0x45 :: hdr ++ ICMP_ER :: tail (echo_request chksum s.(ping_seq)) in
  exists s', ping_recv_cb s now (mk_pbuf (Z.of_nat (length reply)) reply) = Some (s', mk_verdict true 1) /\
    s'.(ping_done) = true /\ s'.(ping_rtt_ms) = u64 (now - s.(ping_send_time)).
Proof.
  intros Hh Hs reply. do 20 (destruct hdr as [|? hdr]; try discriminate Hh). clear Hh.
  destruct (ping_recv_spec s now (mk_pbuf (Z.of_nat (length reply)) reply) ltac:(done)) as (s' & v & E & Hf & H).
  assert (awaited s (mk_pbuf (Z.of_nat (length reply)) reply)) as Ha.
  { unfold awaited. change (hdr_len (mk_pbuf (Z.of_nat (length reply)) reply)) with 20. split; [lia|].
    change (len (mk_pbuf (Z.of_nat (length reply)) reply)) with 60. split; [done|]. split; [done|].
    change (Z.shiftr (u16 (ping_seq s)) 8 * 256 + Z.land (ping_seq s) 0xFF = ping_seq s).
    rewrite wrap_small by exact Hs.
    rewrite Z.shiftr_div_pow2 by lia. change 0xFF with (2 ^ 8 - 1). rewrite Bytes.land_ones_mod by done. divlia. }
  destruct H as [(_ & He & Hd & Hr)|(Hn & _)]; [|done]. exists s'. destruct v. cbn in Hf, He. subst. done.
Qed.

(** ** The locks and the control block *)

Inductive mode := Mode (busy net pcb : bool).
(** What an event may do: no halt and no nested section under the network lock,
    and a control block is created, used and removed under it. *)
Definition mode_step (m : mode) (ev : event) : option mode :=
  match m, ev with
  | Mode false false false, BusyLock => Some (Mode true false false)
  | Mode true false false, BusyUnlock => Some (Mode false false false)
  | Mode true false c, Sti => Some (Mode true false c)
  | Mode true false c, NetLock => Some (Mode true true c)
  | Mode true true c, NetUnlock => Some (Mode true false c)
  | Mode true false c, Halt => Some (Mode true false c)
  | Mode true true false, RawNew => Some (Mode true true true)
  | Mode true true true, RawRemove => Some (Mode true true false)
  | Mode true true true, Send _ => Some (Mode true true true)
  | _, _ => None
  end.
Fixpoint modes (m : mode) (l : list event) : option mode :=
  match l with
  | [] => Some m
  | ev :: l => m ← mode_step m ev; modes m l
  end.

Lemma modes_app m l k : modes m (l ++ k) = (m' ← modes m l; modes m' k).
Proof. revert m. induction l as [|ev l IH]; intros m; [done|]. cbn [app modes]. destruct (mode_step m ev); [apply IH|done]. Qed.

Section discipline.
Context {E : Type} (clock : E -> Z) (idle : E -> ping -> E * ping) (busy_held : E -> bool) (spin : E -> E).
Context (raw_new : E -> E * bool) (raw_remove : E -> E).
Context (pbuf_ok : E -> bool) (inet_chksum : list Z -> Z) (raw_send : E -> list Z -> E * bool).
Context (ip_addr : E -> Z) (dns_gethostbyname : E -> list Z -> E * Z * Z).
#[local] Abbreviation once := (net_ping_once clock idle raw_new raw_remove pbuf_ok inet_chksum raw_send).
#[local] Abbreviation rounds := (ping_rounds clock idle raw_new raw_remove pbuf_ok inet_chksum raw_send).
#[local] Abbreviation plocked := (ping_locked clock idle raw_new raw_remove pbuf_ok inet_chksum raw_send ip_addr dns_gethostbyname).
#[local] Abbreviation kping := (kernel_ping clock idle busy_held spin raw_new raw_remove pbuf_ok inet_chksum raw_send ip_addr dns_gethostbyname).
#[local] Abbreviation world := (@world E).
#[local] Abbreviation now := (timer_get_ms clock).

(** From mode [m] the events between two states lead to mode [m']. *)
Definition goes (m : mode) (w : world) (m' : mode) (w' : world) : Prop :=
  exists l, log w' = log w ++ l /\ modes m l = Some m'.

Lemma goes_refl m w w' : log w' = log w -> goes m w m w'.
Proof. intros Hl. exists []. by rewrite app_nil_r. Qed.
Lemma goes_trans m1 w1 m2 w2 m3 w3 : goes m1 w1 m2 w2 -> goes m2 w2 m3 w3 -> goes m1 w1 m3 w3.
Proof.
  intros (l & E1 & M1) (k & E2 & M2). exists (l ++ k). split; [by rewrite E2, E1, app_assoc|]. rewrite modes_app, M1. done.
Qed.
Lemma goes_evs m w l m' w' : log w' = log w ++ l -> modes m l = Some m' -> goes m w m' w'.
Proof. by exists l. Qed.

Lemma wait_goes fuel d dl c w w' :
  wait_until clock idle fuel d dl w = Some w' -> goes (Mode true false c) w (Mode true false c) w'.
Proof.
  revert w. induction fuel as [|fuel IH]; intros w Hw; [done|]. cbn [wait_until] in Hw. case_match.
  - eapply goes_trans; [|by apply IH]. unfold sti_hlt. destruct (idle (env w) (pg w)).
    by eapply goes_evs with (l := [Halt]); [|destruct c].
  - simplify_eq. by apply goes_refl.
Qed.

Lemma once_goes fuel w t w' r : once fuel w t = Some (w', r) -> goes (Mode true false false) w (Mode true false false) w'.
Proof.
  unfold net_ping_once. destruct (raw_new _) as [e ok]. destruct ok; cbn [negb]; intros Hw.
  2: { simplify_eq. eapply goes_evs with (l := [NetLock; NetUnlock]); [cbn; by rewrite <- !app_assoc|done]. }
  destruct (ping_send _ _ _ _ _) as [w1 r1] eqn:Es.
  assert (goes (Mode true false false) w (Mode true false true) (note NetUnlock w1)) as G1.
  { unfold ping_send in Es. destruct (pbuf_ok _); cbn [negb] in Es.
    - destruct (raw_send _ _) as [e2 ok2]. simplify_eq.
      eapply goes_evs with (l := [NetLock; RawNew; Send _; NetUnlock]); [cbn; by rewrite <- !app_assoc|done].
    - simplify_eq. eapply goes_evs with (l := [NetLock; RawNew; NetUnlock]); [cbn; by rewrite <- !app_assoc|done]. }
  assert (forall w, goes (Mode true false true) w (Mode true false false) (drop_pcb raw_remove w)) as G3.
  { intros w2. eapply goes_evs with (l := [NetLock; RawRemove; NetUnlock]); [cbn; by rewrite <- !app_assoc|done]. }
  case_match; [simplify_eq; by eapply goes_trans|]. apply bind_Some in Hw as (w2 & Hw2 & Hw). simplify_eq.
  eapply goes_trans; [exact G1|]. eapply goes_trans; [by eapply wait_goes|]. apply G3.
Qed.

Lemma rounds_goes fuel ls w t n w' t' n' :
  rounds fuel ls w t n = Some (w', t', n') -> goes (Mode true false false) w (Mode true false false) w'.
Proof.
  revert w t n. induction ls as [|last ls IH]; intros w t n Hw; cbn [ping_rounds] in Hw; [simplify_eq; by apply goes_refl|].
  apply bind_Some in Hw as ([w1 rtt] & H1 & Hw). apply once_goes in H1. eapply goes_trans; [exact H1|].
  destruct (if 0 <=? rtt then _ else _) as [t1 n1]. apply bind_Some in Hw as (w2 & H2 & Hw). apply IH in Hw.
  destruct last; [by simplify_eq|]. eapply goes_trans; [by eapply wait_goes|done].
Qed.

Lemma lock_goes fuel w w' : lock_ping_busy busy_held spin fuel w = Some w' -> goes (Mode false false false) w (Mode true false false) w'.
Proof.
  revert w. induction fuel as [|fuel IH]; intros w Hw; [done|]. cbn [lock_ping_busy] in Hw. case_match.
  - eapply goes_trans; [|by apply IH]. by apply goes_refl.
  - simplify_eq. by eapply goes_evs with (l := [BusyLock]).
Qed.

Lemma locked_goes fuel w host w' r :
  plocked fuel w host = Some (w', r) -> goes (Mode true false false) w (Mode false false false) w'.
Proof.
  unfold ping_locked. intros Hw. set (w1 := note NetUnlock (note NetLock w)) in Hw.
  assert (goes (Mode true false false) w (Mode true false false) w1) as G1.
  { eapply goes_evs with (l := [NetLock; NetUnlock]); [cbn; by rewrite <- !app_assoc|done]. }
  assert (forall u, goes (Mode true false false) u (Mode false false false) (note BusyUnlock u)) as G4.
  { intros u. by eapply goes_evs with (l := [BusyUnlock]). }
  case_match; [simplify_eq; eapply goes_trans; [exact G1|apply G4]|].
  destruct (dns_gethostbyname _ _) as [[e err] addr]. apply bind_Some in Hw as (w2 & H2 & Hw).
  assert (goes (Mode true false false) w1 (Mode true false false) w2) as G2.
  { revert H2. set (u := note NetUnlock _). intros H2.
    assert (goes (Mode true false false) w1 (Mode true false false) u) as G.
    { eapply goes_evs with (l := [NetLock; NetUnlock]); [|done]. unfold u. by destruct (err =? 0); cbn; rewrite <- !app_assoc. }
    case_match; [eapply goes_trans; [exact G|by eapply wait_goes]|by simplify_eq]. }
  case_match; [simplify_eq; eapply goes_trans; [exact G1|]; eapply goes_trans; [exact G2|apply G4]|].
  apply bind_Some in Hw as ([[w3 t] n] & Hr3 & Hw). simplify_eq.
  eapply goes_trans; [exact G1|]. eapply goes_trans; [exact G2|].
  eapply goes_trans; [|eapply goes_trans; [by eapply rounds_goes|apply G4]].
  eapply goes_evs with (l := [NetLock; NetUnlock]); [cbn; by rewrite <- app_assoc|done].
Qed.

Lemma kping_goes fuel w host w' r :
  kping fuel w host = Some (w', r) -> goes (Mode false false false) w (Mode false false false) w'.
Proof.
  unfold kernel_ping. case_match; intros Hw; [simplify_eq; by apply goes_refl|].
  apply bind_Some in Hw as (w0 & H0 & Hw). eapply goes_trans; [by eapply lock_goes|].
  eapply goes_trans; [|by eapply locked_goes]. by eapply goes_evs with (l := [Sti]).
Qed.

(** *** Termination *)

(** A processor that halts again and again sees the clock reach each point of the
    next five seconds; the clock is a 64-bit counter and may wrap around. *)
Hypothesis clock_advances : forall e p t, 0 <= t <= 5000 ->
  exists n, u64 (now e + t) <= now (Nat.iter n (fun ep => idle ep.1 ep.2) (e, p)).1.

Lemma wait_mono fuel fuel' d dl w w' :
  (fuel <= fuel')%nat -> wait_until clock idle fuel d dl w = Some w' -> wait_until clock idle fuel' d dl w = Some w'.
Proof.
  revert fuel' w. induction fuel as [|fuel IH]; intros [|fuel'] w Hf Hw; [done|done|lia|]. cbn [wait_until] in *.
  case_match; [apply IH; [lia|done]|done].
Qed.

Lemma wait_ends d t w : 0 <= t <= 5000 -> exists fuel w', wait_until clock idle fuel d (u64 (now w.(env) + t)) w = Some w'.
Proof.
  intros Ht. destruct (clock_advances (env w) (pg w) t Ht) as [n Hn]. revert Hn. generalize (u64 (now w.(env) + t)). intros dl Hn.
  exists (S n). revert w Hn. induction n as [|n IH]; intros w Hn.
  - exists w. cbn [wait_until]. cbn in Hn. rewrite (proj2 (Z.ltb_ge _ _)) by lia. by rewrite andb_false_r.
  - cbn [wait_until]. destruct (negb (d (pg w)) && (now (env w) <? dl)); [|by eexists]. apply IH.
    rewrite <- Nat.iter_succ_r in Hn || rewrite Nat.iter_succ_r in Hn. cbn [fst snd] in Hn. unfold sti_hlt.
    by destruct (idle (env w) (pg w)).
Qed.

Lemma once_ends w t : 0 <= t <= 5000 -> exists fuel, forall fuel', (fuel <= fuel')%nat -> exists x, once fuel' w t = Some x.
Proof.
  intros Ht. unfold net_ping_once. destruct (raw_new _) as [e ok]. destruct ok; cbn [negb]; [|exists 0%nat; intros; by eexists].
  destruct (ping_send _ _ _ _ _) as [w1 r1]. case_match; [exists 0%nat; intros; by eexists|].
  match goal with |- context [wait_until clock idle _ ?d _ ?w] => destruct (wait_ends d t w Ht) as (fuel & w' & Hw) end.
  exists fuel. intros fuel' Hf. rewrite (wait_mono _ _ _ _ _ _ Hf Hw). by eexists.
Qed.

Lemma once_mono fuel fuel' w t x : (fuel <= fuel')%nat -> once fuel w t = Some x -> once fuel' w t = Some x.
Proof.
  intros Hf. unfold net_ping_once. destruct (raw_new _) as [e ok]. destruct ok; cbn [negb]; [|done].
  destruct (ping_send _ _ _ _ _) as [w1 r1]. case_match; [done|].
  intros (w2 & Hw & Hx)%bind_Some. by rewrite (wait_mono _ _ _ _ _ _ Hf Hw).
Qed.

Lemma rounds_ends ls w t n : exists fuel, forall fuel', (fuel <= fuel')%nat -> exists x, rounds fuel' ls w t n = Some x.
Proof.
  revert w t n. induction ls as [|last ls IH]; intros w t n; [exists 0%nat; intros; by eexists|].
  destruct (once_ends w 4000 ltac:(lia)) as [f1 H1]. destruct (H1 f1 ltac:(lia)) as [[w1 rtt] E1].
  set (tn := if 0 <=? rtt then (i32 (t + rtt), n + 1) else (t, n)).
  assert (exists f2 w2, forall f, (f2 <= f)%nat ->
    (if last then Some w1 else wait_until clock idle f (fun _ => false) (u64 (now w1.(env) + 1000)) w1) = Some w2) as (f2 & w2 & H2).
  { destruct last; [by exists 0%nat, w1|]. destruct (wait_ends (fun _ => false) 1000 w1 ltac:(lia)) as (f & w2 & Hw).
    exists f, w2. intros g Hg. by apply wait_mono with f. }
  destruct (IH w2 tn.1 tn.2) as [f3 H3]. exists (Nat.max f1 (Nat.max f2 f3)). intros f Hf. cbn [ping_rounds].
  rewrite (once_mono f1 f _ _ _ ltac:(lia) E1). cbn [mbind option_bind]. fold tn. rewrite (surjective_pairing tn).
  rewrite H2 by lia. cbn [mbind option_bind]. apply H3. lia.
Qed.

(** [ping_busy] gets free while the processor spins for it. *)
Definition busy_released (e : E) : Prop := exists n, busy_held (Nat.iter n spin e) = false.

Lemma lock_mono fuel fuel' w w' :
  (fuel <= fuel')%nat -> lock_ping_busy busy_held spin fuel w = Some w' -> lock_ping_busy busy_held spin fuel' w = Some w'.
Proof.
  revert fuel' w. induction fuel as [|fuel IH]; intros [|fuel'] w Hf Hw; [done|done|lia|]. cbn [lock_ping_busy] in *.
  case_match; [apply IH; [lia|done]|done].
Qed.
Lemma lock_ends w : busy_released (env w) -> exists fuel w', lock_ping_busy busy_held spin fuel w = Some w'.
Proof.
  intros [n Hn]. exists (S n). revert w Hn. induction n as [|n IH]; intros w Hn.
  - cbn in *. rewrite Hn. by eexists.
  - cbn [lock_ping_busy]. destruct (busy_held (env w)) eqn:Eb; [|by eexists]. apply IH. rewrite Nat.iter_succ_r in Hn. exact Hn.
Qed.
Lemma lock_stuck fuel w : ~ busy_released (env w) -> lock_ping_busy busy_held spin fuel w = None.
Proof.
  revert w. induction fuel as [|fuel IH]; intros w Hn; [done|]. cbn [lock_ping_busy].
  destruct (busy_held (env w)) eqn:Eb; [|by destruct Hn; exists 0%nat].
  apply IH. intros [n Hr]. apply Hn. exists (S n). by rewrite Nat.iter_succ_r.
Qed.

Lemma locked_ends w host : exists fuel, forall fuel', (fuel <= fuel')%nat -> exists x, plocked fuel' w host = Some x.
Proof.
  unfold ping_locked. case_match; [exists 0%nat; intros; by eexists|].
  destruct (dns_gethostbyname _ _) as [[e err] addr]. set (u := note NetUnlock _).
  assert (exists f2 w2, forall f, (f2 <= f)%nat ->
    (if err =? ERR_INPROGRESS then wait_until clock idle f dns_done (u64 (now u.(env) + 5000)) u else Some u) = Some w2) as (f2 & w2 & H2).
  { case_match; [|by exists 0%nat, u]. destruct (wait_ends dns_done 5000 u ltac:(lia)) as (f & w2 & Hw).
    exists f, w2. intros g Hg. by apply wait_mono with f. }
  destruct (rounds_ends [false; false; false; true] (note NetUnlock (note NetLock w2)) 0 0) as [f3 H3].
  exists (Nat.max f2 f3). intros f Hf. rewrite H2 by lia. cbn [mbind option_bind].
  destruct (negb _ || _); [by eexists|]. destruct (H3 f ltac:(lia)) as [[[w3 t] n] ->]. by eexists.
Qed.

Lemma kping_ends w host : KString.str host 0 = 0 \/ busy_released (env w) -> exists fuel w' r, kping fuel w host = Some (w', r).
Proof.
  intros Hw. unfold kernel_ping. destruct (Z.eqb_spec (KString.str host 0) 0); [exists 0%nat; by eexists _, _|].
  destruct Hw as [?|Hw]; [done|]. destruct (lock_ends w Hw) as (f0 & w0 & E0), (locked_ends (note Sti w0) host) as [f1 H1].
  exists (Nat.max f0 f1). rewrite (lock_mono f0 (Nat.max f0 f1) _ _ ltac:(lia) E0). cbn [mbind option_bind].
  destruct (H1 (Nat.max f0 f1) ltac:(lia)) as [[w' r] E1]. by exists w', r.
Qed.

(** C35. Whatever lwIP answers, [kernel_ping] returns if the host name is empty or
    the spinlock [ping_busy] gets free while it spins for it, and the clock, a
    64-bit counter, goes on while the processor halts; on every way out the network
    lock was never held over a halt and never taken twice, every control block was
    created, used and removed under it, exactly once, and the ping lock was released
    last. If [ping_busy] does not get free, as when its holder was preempted on the
    same processor, [kernel_ping] never returns. *)
Theorem kernel_ping_disciplined w host :
  log w = [] ->
  (KString.str host 0 = 0 \/ busy_released (env w) ->
   exists fuel w' r, kping fuel w host = Some (w', r) /\ modes (Mode false false false) (log w') = Some (Mode false false false)) /\
  (KString.str host 0 <> 0 -> ~ busy_released (env w) -> forall fuel, kping fuel w host = None).
Proof.
  intros Hl. split.
  - intros Hr. destruct (kping_ends w host Hr) as (fuel & w' & r & Hw). exists fuel, w', r. split; [done|].
    destruct (kping_goes _ _ _ _ _ Hw) as (l & El & Hm). by rewrite El, Hl.
  - intros Hh Hn fuel. unfold kernel_ping. rewrite (proj2 (Z.eqb_neq _ _) Hh). by rewrite lock_stuck.
Qed.
End discipline.

(** ** Concrete instances *)

(** An echo request of another host, 28 bytes of it. *)
Definition other_request : pbuf := mk_pbuf 28 (0x45 :: replicate 19 0 ++ [8; 0; 0; 0; 0; 0; 0; 7]).

Lemma ping_recv_contract_broken_witness :
  ~ awaited ping0 other_request /\
  exists s' v, ping_recv_cb ping0 5 other_request = Some (s', v) /\ ~ raw_recv_contract v.
Proof.
  assert (~ awaited ping0 other_request) as Hn by (intros (_ & _ & H & _); vm_compute in H; discriminate H).
  split; [exact Hn|]. destruct (ping_recv_contract_broken ping0 5 other_request ltac:(vm_compute; discriminate))
    as (s' & v & E & _ & Hc & _). exists s', v. split; [exact E|]. intros H. apply Hn. apply Hc. exact H.
Defined.

Lemma echo_reply_recognised_witness :
  exists s', ping_recv_cb (mk_ping false 0 0x1234 100 true 1) 140
    (mk_pbuf 60 (0x45 :: replicate 19 0 ++ ICMP_ER :: tail (echo_request 0xABCD 0x1234))) = Some (s', mk_verdict true 1) /\
    s'.(ping_rtt_ms) = 40.
Proof.
  destruct (echo_reply_recognised (mk_ping false 0 0x1234 100 true 1) 140 (replicate 19 0) 0xABCD eq_refl)
    as (s' & E & _ & Hr); [cbn; lia|]. exists s'. split; [exact E|]. rewrite Hr. reflexivity.
Defined.

(** The clock counts the halts, and the lock is free after three turns of the spin;
    lwIP answers at once, but no reply comes. *)
Lemma demo_clock (e : Z * Z) (p : ping) t : 0 <= t <= 5000 ->
  exists n, u64 (timer_get_ms fst e + t) <=
    timer_get_ms fst (Nat.iter n (fun ep : Z * Z * ping => ((ep.1.1 + 1, ep.1.2), ep.2)) (e, p)).1.
Proof.
  intros Ht. exists (Z.to_nat t).
  assert (forall n, (Nat.iter n (fun ep : Z * Z * ping => ((ep.1.1 + 1, ep.1.2), ep.2)) (e, p)).1.1 = e.1 + Z.of_nat n) as En.
  { induction n as [|n IH]; [cbn; lia|]. rewrite Nat.iter_succ. cbn [fst]. rewrite IH. lia. }
  unfold timer_get_ms. rewrite En, Z2Nat.id by lia. unfold wrap. rewrite Zplus_mod_idemp_l. lia.
Qed.

Definition demo_ping (fuel : nat) : world -> list Z -> option (world * Z) :=
  kernel_ping fst (fun e p => ((e.1 + 1, e.2), p)) (fun e => 0 <? e.2) (fun e => (e.1, e.2 - 1)) (fun e => (e, true)) (fun e => e)
    (fun _ => true) (fun _ => 0) (fun e _ => (e, true)) (fun _ => 1) (fun e _ => (e, 0, 1)) fuel.

Lemma kernel_ping_disciplined_witness :
  (exists fuel w' r, demo_ping fuel (mk_world (0, 3) ping0 []) [97] = Some (w', r) /\
    modes (Mode false false false) (log w') = Some (Mode false false false)).
Proof.
  apply (kernel_ping_disciplined fst (fun e p => ((e.1 + 1, e.2), p)) (fun e => 0 <? e.2) (fun e => (e.1, e.2 - 1))
    (fun e => (e, true)) (fun e => e) (fun _ => true) (fun _ => 0) (fun e _ => (e, true)) (fun _ => 1) (fun e _ => (e, 0, 1))
    demo_clock (mk_world (0, 3) ping0 []) [97]).
  - reflexivity.
  - right. exists 3%nat. reflexivity.
Defined.
End Ping.
