(* ===== verification/NetInit.v ===== *)
(** * Start of the network stack (src/kernel/net_init.c)

    The calls of lwIP are arguments and are recorded in order, as are the waits;
    [idle] is what the interrupts do while the processor halts (the DHCP client
    runs there).  Messages on the console are left out, except for the octets of
    the address that is printed. *)

From S2P Require Import Prelude Bytes.
From stdpp Require Import base numbers list.
From Stdlib Require Import ZArith Lia.

#[local] Open Scope list_scope.
#[local] Open Scope Z_scope.

Module NetInit.

(** lwIP keeps an address in network order, read as a little-endian word. *)
Definition IP4_ADDR (a b c d : Z) : Z :=
  Z.lor (Z.lor (Z.lor a (Z.shiftl b 8)) (Z.shiftl c 16)) (Z.shiftl d 24).

(** The numbers that [net_print_ip] prints, with a point between them. *)
Definition net_print_ip (addr : Z) : list Z :=
  [u8 (Z.land addr 0xFF); u8 (Z.land (Z.shiftr addr 8) 0xFF);
   u8 (Z.land (Z.shiftr addr 16) 0xFF); u8 (Z.land (Z.shiftr addr 24) 0xFF)].

Inductive call :=
  LwipInit | NetifAdd | SetDefault | SetUp | SetHostname | DhcpStart | DhcpStop |
  SetAddr (ip mask gw : Z) | SetLinkUp | DnsServer (i addr : Z) | Idle.

Section init.
Context {E : Type} (now : E -> Z) (idle : E -> E) (ip_addr : E -> Z).
(** [effect] is what a call does to lwIP; two of them have a result. *)
Context (effect : call -> E -> E) (netif_added : E -> bool) (dhcp_err : E -> Z).

Record net := mk_net { env : E; calls : list call }.
Definition invoke (c : call) (n : net) : net := mk_net (effect c n.(env)) (n.(calls) ++ [c]).
Definition halt (n : net) : net := mk_net (idle n.(env)) (n.(calls) ++ [Idle]).

Definition fallback : call := SetAddr (IP4_ADDR 10 0 2 15) (IP4_ADDR 255 255 255 0) (IP4_ADDR 10 0 2 2).

(** The waiting loop with its [break]. *)
Fixpoint dhcp_wait (fuel : nat) (deadline : Z) (n : net) : option net :=
  match fuel with
  | O => None
  | S fuel =>
      if now n.(env) <? deadline
      then if negb (ip_addr n.(env) =? 0) then Some n else dhcp_wait fuel deadline (halt n)
      else Some n
  end.

Definition net_init (fuel : nat) (n : net) : option net :=
  let n := invoke NetifAdd (invoke LwipInit n) in
  if negb (netif_added n.(env)) then Some n
  else
    let n := invoke SetHostname (invoke SetUp (invoke SetDefault n)) in
    let n := invoke DhcpStart n in
    n ← (if negb (dhcp_err n.(env) =? 0) then Some (invoke SetLinkUp (invoke fallback n))
         else
           n ← dhcp_wait fuel (u64 (now n.(env) + 8000)) n;
           Some (if ip_addr n.(env) =? 0 then invoke fallback (invoke DhcpStop n) else n));
    Some (invoke (DnsServer 1 (IP4_ADDR 1 1 1 1)) (invoke (DnsServer 0 (IP4_ADDR 8 8 8 8)) n)).

(** ** The interface gets an address *)

Hypothesis clock_goes_on : forall e d, exists n, d <= now (Nat.iter n idle e).
(** [netif_set_addr] sets the address; the link and the name servers leave it. *)
Hypothesis set_addr_sets : forall e ip m g, ip_addr (effect (SetAddr ip m g) e) = ip.
Hypothesis link_keeps : forall e, ip_addr (effect SetLinkUp e) = ip_addr e.
Hypothesis dns_keeps : forall e i a, ip_addr (effect (DnsServer i a) e) = ip_addr e.

Lemma dhcp_wait_ends deadline n :
  exists fuel n', dhcp_wait fuel deadline n = Some n' /\ exists k, calls n' = calls n ++ replicate k Idle.
Proof.
  destruct (clock_goes_on (env n) deadline) as [k Hk]. exists (S k). revert n Hk. induction k as [|k IH]; intros n Hk; cbn [dhcp_wait].
  - cbn in Hk. rewrite (proj2 (Z.ltb_ge _ _)) by lia. exists n. split; [done|]. exists 0%nat. by rewrite app_nil_r.
  - destruct (now (env n) <? deadline); [|exists n; split; [done|]; exists 0%nat; by rewrite app_nil_r].
    destruct (negb _); [exists n; split; [done|]; exists 0%nat; by rewrite app_nil_r|].
    rewrite Nat.iter_succ_r in Hk. destruct (IH (halt n) Hk) as (n' & E' & j & Hj). exists n'. split; [done|].
    exists (S j). rewrite Hj. cbn. by rewrite <- app_assoc.
Qed.

(** [net_init] returns, and if the interface could be added it has an address
    then, from DHCP or the fallback 10.0.2.15; the two name servers are set
    last. *)
Theorem net_init_configures n :
  exists fuel n', net_init fuel n = Some n' /\
    (netif_added (effect NetifAdd (effect LwipInit (env n))) = true ->
     ip_addr (env n') <> 0 /\
     exists l, calls n' = l ++ [DnsServer 0 (IP4_ADDR 8 8 8 8); DnsServer 1 (IP4_ADDR 1 1 1 1)]).
Proof.
  unfold net_init. cbn [invoke env]. destruct (netif_added _); cbn [negb]; [|exists 0%nat; eexists; split; [reflexivity|done]].
  match goal with |- context [dhcp_err ?e] => destruct (dhcp_err e =? 0) end; cbn [negb].
  - match goal with |- context [dhcp_wait _ ?d ?m] => destruct (dhcp_wait_ends d m) as (fuel & n' & Hw & _) end.
    exists fuel. cbn [invoke env] in Hw |- *. rewrite Hw. cbn [mbind option_bind]. eexists. split; [reflexivity|]. intros _.
    cbn [invoke env calls]. rewrite !dns_keeps. split; [|eexists; by rewrite <- app_assoc].
    destruct (Z.eqb_spec (ip_addr (env n')) 0) as [Ez|Ez]; [|done]. cbn [invoke env]. unfold fallback. by rewrite set_addr_sets.
  - exists 0%nat. cbn [mbind option_bind]. eexists. split; [reflexivity|]. intros _. cbn [invoke env calls].
    rewrite !dns_keeps, link_keeps. unfold fallback. rewrite set_addr_sets. split; [done|]. eexists. by rewrite <- app_assoc.
Qed.
End init.

(** The four octets of an address are printed in the order in which it is
    written. *)
Lemma net_print_ip_octets a b c d :
  0 <= a < 256 -> 0 <= b < 256 -> 0 <= c < 256 -> 0 <= d < 256 -> net_print_ip (IP4_ADDR a b c d) = [a; b; c; d].
Proof.
  intros. unfold net_print_ip, IP4_ADDR.
  rewrite (Bytes.lor_shiftl_add a), (Bytes.lor_shiftl_add (a + _)), (Bytes.lor_shiftl_add (_ + _ + _)) by lia.
  change 0xFF with (2 ^ 8 - 1). rewrite !Bytes.land_ones_mod, !Z.shiftr_div_pow2 by lia. unfold wrap. repeat f_equal; divlia.
Qed.

(** A stack in which DHCP never answers: clock and address. *)
Definition demo_effect (c : call) (e : Z * Z) : Z * Z := match c with SetAddr ip _ _ => (e.1, ip) | _ => e end.
Lemma second_clock (e : Z * Z) d : exists n, d <= (Nat.iter n (fun e : Z * Z => (e.1 + 1000, e.2)) e).1.
Proof.
  exists (Z.to_nat (d - e.1)). assert (forall n, (Nat.iter n (fun e : Z * Z => (e.1 + 1000, e.2)) e).1 = e.1 + 1000 * Z.of_nat n) as ->.
  { induction n as [|n IH]; [cbn; lia|]. rewrite Nat.iter_succ. cbn [fst]. rewrite IH. lia. }
  lia.
Qed.

Lemma net_init_configures_witness :
  exists fuel n', net_init fst (fun e => (e.1 + 1000, e.2)) snd demo_effect (fun _ => true) (fun _ => 0) fuel (mk_net (0, 0) []) = Some n' /\
    (true = true -> snd (env n') <> 0 /\ exists l, calls n' = l ++ [DnsServer 0 (IP4_ADDR 8 8 8 8); DnsServer 1 (IP4_ADDR 1 1 1 1)]).
Proof.
  exact (net_init_configures fst (fun e => (e.1 + 1000, e.2)) snd demo_effect (fun _ => true) (fun _ => 0) second_clock
    (fun _ _ _ _ => eq_refl) (fun _ => eq_refl) (fun _ _ _ => eq_refl) (mk_net (0, 0) [])).
Defined.
End NetInit.
