(* ===== verification/Spinlock.v ===== *)
(** * Spinlocks (src/include/spinlock.h)

    One lock word and any number of processors, each of which runs the two
    pairs of functions again and again; a step is one access to the lock word or
    one change of the interrupt flag, and the processors take turns in any
    order.  The theorems justify that the other models treat a section under a
    lock as one step. *)

From S2P Require Import Prelude.
From stdpp Require Import base numbers list gmap.
From Stdlib Require Import ZArith Lia.

#[local] Open Scope list_scope.
#[local] Open Scope Z_scope.

Module Spinlock.

(** ** The functions, on the flags register and the lock word *)

Definition IF : Z := 9.

(** [pushfq; pop; cli]: the saved flags and the new ones. *)
Definition spinlock_irq_save (rflags : Z) : Z * Z := (rflags, Z.clearbit rflags IF).
Definition spinlock_irq_restore (rflags saved : Z) : Z :=
  if negb (Z.land saved (Z.shiftl 1 IF) =? 0) then Z.setbit rflags IF else rflags.

(** [lock xchg]: the new word, and whether the lock was free. *)
Definition spinlock_xchg (locked : Z) : Z * bool := (1, locked =? 0).
Definition spinlock_unlock (_ : Z) : Z := 0.

(** [spinlock_lock] alone: [word k] is the word at its [k]-th access.  The
    result is the number of accesses. *)
Fixpoint spinlock_lock (fuel : nat) (spinning : bool) (k : nat) (word : nat -> Z) : option nat :=
  match fuel with
  | O => None
  | S fuel =>
      if spinning then spinlock_lock fuel (negb (word k =? 0)) (S k) word
      else if (spinlock_xchg (word k)).2 then Some (S k) else spinlock_lock fuel true (S k) word
  end.

(** ** The processors *)

(** Before the call, at the exchange, in the inner loop, in the section, and
    behind [spinlock_unlock]. *)
Inductive pc := Out | Xchg | Spin | Held | Restore.
(** [saved] is the result of [spinlock_lock_irqsave], [None] for the plain pair. *)
Record cpu := mk_cpu { at_ : pc; rflags : Z; saved : option Z }.
Record machine := mk_machine { locked : Z; cpus : gmap nat cpu }.

Definition put (m : machine) (w : Z) (i : nat) (c : cpu) : machine := mk_machine w (<[i := c]> m.(cpus)).

Inductive event := Acquire (i : nat) | Release (i : nat).

(** The steps of processor [i]; an acquisition and a release are visible. *)
Inductive lock_step (m : machine) (i : nat) : list event -> machine -> Prop :=
| lock_irqsave c : m.(cpus) !! i = Some c -> c.(at_) = Out ->
    let '(old, new) := spinlock_irq_save c.(rflags) in
    lock_step m i [] (put m m.(locked) i (mk_cpu Xchg new (Some old)))
| lock_plain c : m.(cpus) !! i = Some c -> c.(at_) = Out ->
    lock_step m i [] (put m m.(locked) i (mk_cpu Xchg c.(rflags) None))
| exchange c : m.(cpus) !! i = Some c -> c.(at_) = Xchg ->
    let '(w, free) := spinlock_xchg m.(locked) in
    lock_step m i (if free then [Acquire i] else []) (put m w i (mk_cpu (if free then Held else Spin) c.(rflags) c.(saved)))
| spin c : m.(cpus) !! i = Some c -> c.(at_) = Spin ->
    lock_step m i [] (put m m.(locked) i (mk_cpu (if negb (m.(locked) =? 0) then Spin else Xchg) c.(rflags) c.(saved)))
| unlock c : m.(cpus) !! i = Some c -> c.(at_) = Held ->
    lock_step m i [Release i] (put m (spinlock_unlock m.(locked)) i (mk_cpu Restore c.(rflags) c.(saved)))
| restore c : m.(cpus) !! i = Some c -> c.(at_) = Restore ->
    lock_step m i [] (put m m.(locked) i
      (mk_cpu Out (match c.(saved) with Some s => spinlock_irq_restore c.(rflags) s | None => c.(rflags) end) None)).

Inductive run (m0 : machine) : list event -> machine -> Prop :=
| run_start : run m0 [] m0
| run_step evs m i ev m' : run m0 evs m -> lock_step m i ev m' -> run m0 (evs ++ ev) m'.

(** [SPINLOCK_INIT], all processors outside. *)
Definition initial (m : machine) : Prop := m.(locked) = 0 /\ map_Forall (fun _ c => c.(at_) = Out /\ c.(saved) = None) m.(cpus).

(** ** Mutual exclusion *)

(** The sections are entered and left one after the other, each by one
    processor; the result is the processor that is inside. *)
Fixpoint serial (inside : option nat) (evs : list event) : option (option nat) :=
  match evs with
  | [] => Some inside
  | Acquire i :: evs => if inside is None then serial (Some i) evs else None
  | Release i :: evs => if decide (inside = Some i) then serial None evs else None
  end.

Lemma serial_app inside l k : serial inside (l ++ k) = (o ← serial inside l; serial o k).
Proof.
  revert inside. induction l as [|[i|i] l IH]; intros inside; [done| |]; cbn [app serial].
  - destruct inside; [done|apply IH].
  - case_decide; [apply IH|done].
Qed.

Record inv (m : machine) (inside : option nat) : Prop := {
  inv_word : m.(locked) = match inside with Some _ => 1 | None => 0 end;
  inv_held : forall i c, m.(cpus) !! i = Some c -> c.(at_) = Held <-> inside = Some i;
}.

Ltac put_cpu j i := unfold put; cbn [locked cpus];
  destruct (decide (j = i)) as [->|?]; [rewrite lookup_insert_eq|rewrite lookup_insert_ne by done].

Lemma inv_step m inside i ev m' :
  inv m inside -> lock_step m i ev m' -> exists inside', serial inside ev = Some inside' /\ inv m' inside'.
Proof.
  intros [W Hd] Hs. inversion Hs as [c Hc Ha|c Hc Ha|c Hc Ha|c Hc Ha|c Hc Ha|c Hc Ha]; subst; clear Hs;
    pose proof (Hd i c Hc) as Hi; rewrite Ha in Hi.
  1,2,6: exists inside; split; [done|]; split; [done|]; intros j d; put_cpu j i; [intros [= <-]; cbn; naive_solver|apply Hd].
  - destruct inside as [k|]; rewrite W; cbn [spinlock_xchg snd Z.eqb] in *.
    + exists (Some k). split; [done|]. split; [done|]. intros j d. put_cpu j i; [intros [= <-]; cbn; naive_solver|apply Hd].
    + exists (Some i). split; [done|]. split; [done|]. intros j d. put_cpu j i; [intros [= <-]; cbn; naive_solver|].
      intros Hj. rewrite (Hd j d Hj). naive_solver.
  - exists inside. split; [done|]. split; [done|]. intros j d. put_cpu j i; [intros [= <-]; cbn|apply Hd].
    destruct (negb _); naive_solver.
  - destruct Hi as [Hi _]. specialize (Hi eq_refl). subst inside. exists None. cbn [serial]. rewrite decide_True by done.
    split; [done|]. split; [done|]. intros j d. put_cpu j i; [intros [= <-]; cbn; naive_solver|].
    intros Hj. rewrite (Hd j d Hj). naive_solver.
Qed.

(** C36. In every interleaving of any number of processors the sections under a
    lock are entered and left one after the other: at most one processor is
    inside, the word is 1 exactly then, and only that processor leaves. *)
Theorem spinlock_sections_serial m0 evs m :
  initial m0 -> run m0 evs m ->
  exists inside, serial None evs = Some inside /\ m.(locked) = (match inside with Some _ => 1 | None => 0 end) /\
    (forall i c, m.(cpus) !! i = Some c -> c.(at_) = Held <-> inside = Some i).
Proof.
  intros [W H0] Hr. assert (exists inside, serial None evs = Some inside /\ inv m inside) as (x & E & [Wx Hx]); [|by exists x].
  induction Hr as [|evs m i ev m' _ (x & E & Hi) Hs].
  - exists None. split; [done|]. split; [done|]. intros i c Hc. destruct (H0 i c Hc) as [Ha _]. rewrite Ha. done.
  - destruct (inv_step _ _ _ _ _ Hi Hs) as (y & Ey & Hy). exists y. split; [|done]. by rewrite serial_app, E.
Qed.

(** ** Interrupts *)

(** The flags of a processor against the ones it had outside the section. *)
Definition flags_inv (f0 : Z) (c : cpu) : Prop :=
  match c.(at_) with
  | Out => c.(rflags) = f0
  | _ => match c.(saved) with
         | Some s => s = f0 /\ c.(rflags) = Z.clearbit f0 IF
         | None => c.(rflags) = f0
         end
  end.

Lemma restore_flags f : 0 <= f -> spinlock_irq_restore (Z.clearbit f IF) f = f.
Proof.
  intros Hf. unfold spinlock_irq_restore, IF. assert (Z.land f (Z.shiftl 1 9) = if Z.testbit f 9 then 2 ^ 9 else 0) as ->.
  { apply Z.bits_inj'. intros k Hk. rewrite Z.land_spec. change (Z.shiftl 1 9) with (2 ^ 9). rewrite Z.pow2_bits_eqb by done.
    destruct (Z.testbit f 9) eqn:E; rewrite ?Z.pow2_bits_eqb, ?Z.bits_0 by done;
      (destruct (Z.eqb_spec 9 k) as [<-|Hn]; [by rewrite E|by rewrite andb_false_r]). }
  destruct (Z.testbit f 9) eqn:E; cbn [negb Z.eqb Z.pow]; apply Z.bits_inj'; intros k Hk.
  - change (negb (2 ^ 9 =? 0)) with true. cbv iota. rewrite Z.setbit_eqb, Z.clearbit_eqb by done.
    destruct (Z.eqb_spec 9 k) as [<-|]; [done|]. cbn. by rewrite andb_true_r.
  - rewrite Z.clearbit_eqb by done. destruct (Z.eqb_spec 9 k) as [<-|]; cbn [negb]; [by rewrite E|by rewrite andb_true_r].
Qed.

(** [spinlock_lock_irqsave] keeps interrupts off until the matching
    [spinlock_unlock_irqrestore], while spinning too, and the flags are then
    what they were before the call, on every processor and in every
    interleaving. *)
Theorem spinlock_irq_discipline m0 evs m i c0 :
  initial m0 -> run m0 evs m -> m0.(cpus) !! i = Some c0 -> 0 <= c0.(rflags) ->
  exists c, m.(cpus) !! i = Some c /\
    (c.(at_) = Out -> c.(rflags) = c0.(rflags)) /\
    (c.(at_) <> Out -> c.(saved) <> None -> c.(saved) = Some c0.(rflags) /\ Z.testbit c.(rflags) IF = false).
Proof.
  intros [_ H0] Hr H0i Hf.
  assert (exists c, m.(cpus) !! i = Some c /\ flags_inv c0.(rflags) c) as (c & Hc & Hi).
  { induction Hr as [|evs m j ev m' _ (c & Hc & Hi) Hs].
    - exists c0. split; [done|]. unfold flags_inv. by destruct (H0 i c0 H0i) as [-> _].
    - inversion Hs as [d Hd Ha|d Hd Ha|d Hd Ha|d Hd Ha|d Hd Ha|d Hd Ha]; subst; clear Hs;
        (put_cpu i j; [|by exists c]); eexists; (split; [reflexivity|]); unfold flags_inv in *; cbn [at_ saved rflags];
        assert (c = d) as -> by congruence; rewrite Ha in Hi; cbn [at_ saved rflags] in *.
      + by rewrite Hi.
      + done.
      + by destruct (locked m =? 0).
      + by destruct (negb _).
      + done.
      + destruct (saved d) as [s|]; [|done]. destruct Hi as [-> ->]. by apply restore_flags. }
  exists c. split; [done|]. unfold flags_inv in Hi. split.
  - intros E. by rewrite E in Hi.
  - intros E Hs. destruct (saved c) as [s|] eqn:Es; [|done]. destruct (at_ c); [done|..];
      destruct Hi as [-> ->]; (split; [done|]); unfold IF; by rewrite Z.clearbit_eq.
Qed.

(** A free lock is taken by the first exchange, and a processor that spins sees
    that it is free: nobody waits for a lock that no one holds. *)
Lemma spinlock_lock_free k word : word k = 0 -> word (S k) = 0 -> spinlock_lock 2 true k word = Some (S (S k)) /\ spinlock_lock 1 false k word = Some (S k).
Proof. intros E1 E2. cbn. by rewrite E1, E2. Qed.

(** Two processors with interrupts on; the first takes the lock. *)
Definition demo0 : machine := mk_machine 0 {[0%nat := mk_cpu Out 0x202 None; 1%nat := mk_cpu Out 0x202 None]}.
Definition demo1 : machine := put demo0 0 0 (mk_cpu Xchg 2 (Some 0x202)).
Definition demo2 : machine := put demo1 1 0 (mk_cpu Held 2 (Some 0x202)).
Lemma demo_initial : initial demo0.
Proof.
  split; [done|]. apply map_Forall_insert_2; [done|]. apply map_Forall_singleton. done.
Qed.
Lemma demo_lock_run : run demo0 [Acquire 0] demo2.
Proof.
  apply (run_step demo0 [] demo1 0 [Acquire 0] demo2).
  - apply (run_step demo0 [] demo0 0 [] demo1); [apply run_start|]. exact (lock_irqsave demo0 0 (mk_cpu Out 0x202 None) eq_refl eq_refl).
  - exact (exchange demo1 0 (mk_cpu Xchg 2 (Some 0x202)) eq_refl eq_refl).
Qed.

Lemma spinlock_sections_serial_witness : exists inside, serial None [Acquire 0] = Some inside /\ inside = Some 0%nat.
Proof.
  destruct (spinlock_sections_serial demo0 [Acquire 0] demo2 demo_initial demo_lock_run) as (x & E & _).
  exists x. split; [exact E|]. vm_compute in E. injection E as <-. reflexivity.
Defined.

Lemma spinlock_irq_discipline_witness :
  exists c, demo2.(cpus) !! 0%nat = Some c /\ Z.testbit c.(rflags) IF = false.
Proof.
  destruct (spinlock_irq_discipline demo0 [Acquire 0] demo2 0 (mk_cpu Out 0x202 None) demo_initial demo_lock_run eq_refl)
    as (c & Hc & _ & Hs); [cbn; lia|]. exists c. split; [exact Hc|]. vm_compute in Hc. injection Hc as <-. reflexivity.
Defined.
End Spinlock.
