(* ===== verification/Ata.v ===== *)
(** * The disk driver (src/drivers/ata.c)

    The driver is the sequence of its port accesses (the last one first); what a
    read returns is a function [dev] of all accesses so far.  [drive] is the
    side of the disk as the ATA standard describes it: the registers, the busy
    times, the words of a sector that are transferred while DRQ is set, the cache
    flush.  A disk is honest when the reads of the driver see that state and it is
    never busy for 100000 accesses; for an honest disk the driver implements the
    sector map that KyuzenFS works on. *)

From S2P Require Import Prelude KString Bytes Kfs.
From stdpp Require Import base numbers list gmap.
From Stdlib Require Import ZArith Lia.

#[local] Open Scope list_scope.
#[local] Open Scope Z_scope.

Module Ata.

Definition ATA_DATA_PORT : Z := 0x1F0.
Definition ATA_SECTOR_COUNT_PORT : Z := 0x1F2.
Definition ATA_LBA_LO_PORT : Z := 0x1F3.
Definition ATA_LBA_MID_PORT : Z := 0x1F4.
Definition ATA_LBA_HI_PORT : Z := 0x1F5.
Definition ATA_DRIVE_PORT : Z := 0x1F6.
Definition ATA_COMMAND_PORT : Z := 0x1F7.
Definition ATA_STATUS_PORT : Z := 0x1F7.
Definition ATA_ALT_STATUS_PORT : Z := 0x3F6.

Inductive access := OutB (port v : Z) | OutW (port v : Z) | InB (port : Z) | InW (port : Z).
Abbreviation io := (list access).

(** ** The driver *)

Section driver.
Context (dev : io -> Z).

Definition inb (t : io) (port : Z) : io * Z := let t := InB port :: t in (t, u8 (dev t)).
Definition inw (t : io) (port : Z) : io * Z := let t := InW port :: t in (t, u16 (dev t)).
Definition outb (t : io) (port v : Z) : io := OutB port (u8 v) :: t.
Definition outw (t : io) (port v : Z) : io := OutW port (u16 v) :: t.

Definition ata_delay_400ns (t : io) : io := Nat.iter 4 (fun t => (inb t ATA_ALT_STATUS_PORT).1) t.

Fixpoint wait_bsy_loop (n : nat) (t : io) : io * Z :=
  match n with
  | O => (t, -1)
  | S n => let '(t, status) := inb t ATA_STATUS_PORT in
           if Z.land status 0x80 =? 0 then (t, 0) else wait_bsy_loop n t
  end.
Definition ata_wait_bsy (t : io) : io * Z := wait_bsy_loop (Z.to_nat 100000) t.

Fixpoint wait_drq_loop (n : nat) (t : io) : io * Z :=
  match n with
  | O => (t, -3)
  | S n => let '(t, status) := inb t ATA_STATUS_PORT in
           if negb (Z.land status 0x01 =? 0) then (t, -1)
           else if negb (Z.land status 0x20 =? 0) then (t, -2)
           else if (Z.land status 0x80 =? 0) && negb (Z.land status 0x08 =? 0) then (t, 0)
           else wait_drq_loop n t
  end.
Definition ata_wait_drq (t : io) : io * Z := wait_drq_loop (Z.to_nat 100000) t.

(** Steps 1 to 6 of a transfer: wait, select, address, command, delay. *)
Definition issue (t : io) (lba command : Z) : io :=
  let t := (ata_wait_bsy t).1 in
  let t := outb t ATA_DRIVE_PORT (Z.lor 0xE0 (Z.land (Z.shiftr lba 24) 0x0F)) in
  let t := ata_delay_400ns t in
  let t := outb t ATA_SECTOR_COUNT_PORT 1 in
  let t := outb t ATA_LBA_LO_PORT lba in
  let t := outb t ATA_LBA_MID_PORT (Z.shiftr lba 8) in
  let t := outb t ATA_LBA_HI_PORT (Z.shiftr lba 16) in
  let t := outb t ATA_COMMAND_PORT command in
  ata_delay_400ns t.

Fixpoint read_words (n : nat) (t : io) : io * list Z :=
  match n with
  | O => (t, [])
  | S n => let '(t, w) := inw t ATA_DATA_PORT in let '(t, ws) := read_words n t in (t, w :: ws)
  end.
Definition write_words (t : io) (ws : list Z) : io := foldl (fun t w => outw t ATA_DATA_PORT w) t ws.

(** A buffer of bytes seen as an array of words, and back. *)
Definition word_of (buf : list Z) (i : Z) : Z := KString.str buf (2 * i) + 256 * KString.str buf (2 * i + 1).
Definition words_of (buf : list Z) : list Z := map (word_of buf) (zrange 0 256).
Definition bytes_of (ws : list Z) : list Z := concat (map (fun w => [w mod 256; w / 256]) ws).

Definition ata_read_sector (t : io) (lba : Z) : io * list Z :=
  let t := issue t lba 0x20 in
  let '(t, r) := ata_wait_drq t in
  if negb (r =? 0) then (t, replicate 512 0)
  else let '(t, ws) := read_words 256 t in (t, bytes_of ws).

Definition ata_write_sector (t : io) (lba : Z) (buffer : list Z) : io :=
  let t := issue t lba 0x30 in
  let '(t, r) := ata_wait_drq t in
  if negb (r =? 0) then t
  else
    let t := write_words t (words_of buffer) in
    let t := outb t ATA_COMMAND_PORT 0xE7 in
    let t := ata_delay_400ns t in
    (ata_wait_bsy t).1.

(** A [while] loop that reads the status until the test holds. *)
Fixpoint spin_status (fuel : nat) (test : Z -> bool) (t : io) : option io :=
  match fuel with
  | O => None
  | S fuel => let '(t, status) := inb t 0x1F7 in if test status then Some t else spin_status fuel test t
  end.

Definition ata_get_total_sectors (fuel : nat) (t : io) : option (io * Z) :=
  let t := outb (outb t 0x1F6 0xE0) 0x1F7 0xEC in
  let '(t, status) := inb t 0x1F7 in
  if status =? 0 then Some (t, 0)
  else
    t ← spin_status fuel (fun s => Z.land s 0x80 =? 0) t;
    t ← spin_status fuel (fun s => negb (Z.land s 0x08 =? 0)) t;
    let '(t, buffer) := read_words 256 t in
    Some (t, KString.str buffer 60 + 65536 * KString.str buffer 61).
End driver.

(** ** The disk

    The device as the ATA standard describes its PIO commands.  A command makes
    it busy; while it is busy it has no data, and while it is busy or transfers
    data it does not listen to its registers.  DRQ says that it gives or takes
    the words of one sector, no more and no less: after 256 words it is busy with
    the next sector of the request, or done.  How long it is busy, counted in
    accesses to its ports, is a parameter.  A request that does not use LBA
    addresses or goes over the end of the disk is refused with an error, and a
    request to the other drive of the channel is not its own.  Data that the disk
    took is in its cache until a cache flush; commands other than the three of the
    two transfers are not described. *)

Inductive work := Fetch (lba n : Z) | Accept (lba n : Z) | Finish | FlushCache.
Inductive phase := Idle | Aborted | Busy (since rest : nat) (w : work)
  | Reading (lba n : Z) (k : nat) | Writing (lba n : Z) (ws : list Z).

(** [sectors] is what the disk answers reads with, [stable] what a power failure
    leaves of it. *)
Record drive := mk_drive { d_count : Z; d_lo : Z; d_mid : Z; d_hi : Z; d_dev : Z; d_phase : phase;
  sectors : gmap Z (list Z); stable : gmap Z (list Z) }.

Definition with_phase (p : phase) (d : drive) : drive :=
  mk_drive d.(d_count) d.(d_lo) d.(d_mid) d.(d_hi) d.(d_dev) p d.(sectors) d.(stable).
Definition lba_of (d : drive) : Z := d.(d_lo) + 256 * d.(d_mid) + 65536 * d.(d_hi) + 16777216 * (d.(d_dev) mod 16).
Definition count_of (d : drive) : Z := if d.(d_count) =? 0 then 256 else d.(d_count).
Definition zero_words : list Z := replicate 256 0.
Definition sector (d : drive) (s : Z) : list Z := default zero_words (d.(sectors) !! s).

Definition due (w : work) : phase :=
  match w with Fetch lba n => Reading lba n 0 | Accept lba n => Writing lba n [] | _ => Idle end.
(** Time goes on by one access. *)
Definition tick (d : drive) : drive :=
  match d.(d_phase) with
  | Busy _ O w =>
      mk_drive d.(d_count) d.(d_lo) d.(d_mid) d.(d_hi) d.(d_dev) (due w) d.(sectors)
        (match w with FlushCache => d.(sectors) | _ => d.(stable) end)
  | Busy since (S rest) w => with_phase (Busy (S since) rest w) d
  | _ => d
  end.

Definition listens (p : phase) : bool := match p with Idle | Aborted => true | _ => false end.

Section disk.
(** The number of sectors, and how long the disk is busy after an access. *)
Context (capacity : Z) (latency : io -> nat).

Definition command (d : drive) (v : Z) (l : nat) : drive :=
  if Z.testbit d.(d_dev) 4 then d
  else if v =? 0xE7 then with_phase (Busy 0 l FlushCache) d
  else if (v =? 0x20) || (v =? 0x30) then
    if negb (Z.testbit d.(d_dev) 6) || (capacity <? lba_of d + count_of d) then with_phase Aborted d
    else with_phase (Busy 0 l (if v =? 0x20 then Fetch (lba_of d) (count_of d) else Accept (lba_of d) (count_of d))) d
  else d.

Definition set_register (d : drive) (p v : Z) (l : nat) : drive :=
  let 'mk_drive cnt lo mid hi dev ph se sb := d in
  if p =? ATA_SECTOR_COUNT_PORT then mk_drive v lo mid hi dev ph se sb
  else if p =? ATA_LBA_LO_PORT then mk_drive cnt v mid hi dev ph se sb
  else if p =? ATA_LBA_MID_PORT then mk_drive cnt lo v hi dev ph se sb
  else if p =? ATA_LBA_HI_PORT then mk_drive cnt lo mid v dev ph se sb
  else if p =? ATA_DRIVE_PORT then mk_drive cnt lo mid hi v ph se sb
  else if p =? ATA_COMMAND_PORT then command d v l
  else d.

Definition give_word (d : drive) (lba n : Z) (k : nat) (l : nat) : drive :=
  with_phase (if decide (S k = 256%nat)
              then if n =? 1 then Idle else Busy 0 l (Fetch (lba + 1) (n - 1))
              else Reading lba n (S k)) d.
Definition take_word (d : drive) (lba n : Z) (ws : list Z) (v : Z) (l : nat) : drive :=
  let ws := ws ++ [v] in
  if decide (length ws = 256%nat)
  then mk_drive d.(d_count) d.(d_lo) d.(d_mid) d.(d_hi) d.(d_dev)
         (Busy 0 l (if n =? 1 then Finish else Accept (lba + 1) (n - 1))) (<[lba := ws]> d.(sectors)) d.(stable)
  else with_phase (Writing lba n ws) d.

(** What an access does to the disk, [l] being how long it is busy if the access
    makes it busy. *)
Definition react (l : nat) (a : access) (d : drive) : drive :=
  let d := tick d in
  match a with
  | OutB p v => if listens d.(d_phase) then set_register d p v l else d
  | OutW p v =>
      match d.(d_phase) with
      | Writing lba n ws => if p =? ATA_DATA_PORT then take_word d lba n ws v l else d
      | _ => d
      end
  | InW p =>
      match d.(d_phase) with
      | Reading lba n k => if p =? ATA_DATA_PORT then give_word d lba n k l else d
      | _ => d
      end
  | InB _ => d
  end.

Fixpoint drive_of (d0 : drive) (t : io) : drive :=
  match t with
  | [] => d0
  | a :: t' => react (latency t) a (drive_of d0 t')
  end.
End disk.

(** The bits of the status register: an idle disk has no data, a busy one says so
    400 ns (four accesses) after it became busy, and ERR (bit 0) and DF (bit 5)
    are set only when a request was refused.  The standard leaves those two open
    while the disk is busy, but [ata_wait_drq] looks at them then, so they are
    taken to be clear. *)
Definition shows (p : phase) (s : Z) : Prop :=
  match p with
  | Idle => Z.land s 0x80 = 0 /\ Z.land s 0x08 = 0
  | Aborted => Z.land s 0x80 = 0 /\ Z.land s 0x01 <> 0
  | Busy since _ _ => Z.land s 0x01 = 0 /\ Z.land s 0x20 = 0 /\
      if (since <=? 4)%nat then Z.land s 0x08 = 0 else Z.land s 0x80 <> 0
  | Reading _ _ _ | Writing _ _ _ =>
      Z.land s 0x01 = 0 /\ Z.land s 0x20 = 0 /\ Z.land s 0x80 = 0 /\ Z.land s 0x08 <> 0
  end.

(** The reads of the driver get the status of the disk and the words of the
    sector, and the disk is never busy for 100000 accesses. *)
Record honest (capacity : Z) (latency : io -> nat) (d0 : drive) (dev : io -> Z) : Prop := {
  h_status : forall t, let t := InB ATA_STATUS_PORT :: t in
    shows (d_phase (drive_of capacity latency d0 t)) (u8 (dev t));
  h_data : forall t lba n k, d_phase (drive_of capacity latency d0 t) = Reading lba n k ->
    u16 (dev (InW ATA_DATA_PORT :: t)) = u16 (default 0 (sector (drive_of capacity latency d0 t) lba !! k));
  h_latency : forall t, (latency t < Z.to_nat 100000)%nat;
}.

(** ** An honest disk is the sector map of the file system *)

Section refinement.
Context (capacity : Z) (latency : io -> nat) (d0 : drive) (dev : io -> Z).
Hypothesis capacity_28 : capacity <= 2 ^ 28.
Hypothesis H : honest capacity latency d0 dev.
#[local] Abbreviation now := (drive_of capacity latency d0).

Lemma now_cons a t : now (a :: t) = react capacity (latency (a :: t)) a (now t).
Proof. done. Qed.
Lemma tick_sectors d : sectors (tick d) = sectors d.
Proof. unfold tick. destruct (d_phase d) as [| |? [|] ?| |]; done. Qed.
Lemma tick_calm d : (forall s n w, d_phase d <> Busy s n w) -> tick d = d.
Proof. unfold tick. intros Hn. destruct (d_phase d) as [| |s n w| |] eqn:E; try done. by destruct (Hn s n w). Qed.

(** Only data changes the sectors. *)
Lemma set_register_sectors d p v l : sectors (set_register capacity d p v l) = sectors d.
Proof. destruct d. unfold set_register, command. repeat case_match; done. Qed.
Lemma sectors_kept a t : (forall p v, a <> OutW p v) -> sectors (now (a :: t)) = sectors (now t).
Proof.
  intros Ha. rewrite now_cons. destruct a as [p v|p v|p|p]; [| |exact (tick_sectors (now t))|].
  - cbn [react]. case_match; rewrite ?set_register_sectors; apply tick_sectors.
  - by destruct (Ha p v).
  - cbn [react]. repeat case_match; unfold give_word, with_phase; cbn [sectors]; apply tick_sectors.
Qed.

(** *** Waiting *)

(** The transfer [w] begins within [m] polls of the status. *)
Definition coming (m : nat) (w : work) (p : phase) : Prop :=
  p = due w \/ exists since rest, p = Busy since rest w /\ (4 <= since)%nat /\ (rest < m)%nat.

Lemma tick_due d w : d_phase d = due w -> tick d = d.
Proof. intros E. apply tick_calm. intros s n w'. rewrite E. by destruct w. Qed.

Lemma poll_coming m w p t : coming (S m) w (d_phase (now t)) ->
  d_phase (now (InB p :: t)) = due w \/
  (exists since rest, d_phase (now (InB p :: t)) = Busy since rest w /\ (4 < since)%nat /\ (rest < m)%nat).
Proof.
  rewrite now_cons. cbn [react]. intros [E|(since & rest & E & Hs & Hl)].
  - left. by rewrite (tick_due _ w).
  - unfold tick. rewrite E. destruct rest as [|rest]; [by left|]. right. exists (S since), rest. cbn. split; [done|lia].
Qed.

Lemma wait_bsy_coming m w t :
  due w = Idle -> coming m w (d_phase (now t)) -> (0 < m)%nat ->
  d_phase (now (wait_bsy_loop dev m t).1) = Idle /\ sectors (now (wait_bsy_loop dev m t).1) = sectors (now t).
Proof.
  intros Hw. revert t. induction m as [|m IH]; intros t Hc Hm; [lia|]. cbn [wait_bsy_loop inb].
  pose proof (h_status _ _ _ _ H t) as Hs. cbv zeta in Hs.
  rewrite <- (sectors_kept (InB ATA_STATUS_PORT) t) by done.
  destruct (poll_coming m w ATA_STATUS_PORT t Hc) as [E|(since & rest & E & Hsi & Hl)]; rewrite E in Hs.
  - rewrite Hw in *. destruct Hs as [-> _]. done.
  - destruct Hs as (_ & _ & Hb). destruct (Nat.leb_spec since 4); [lia|]. rewrite (proj2 (Z.eqb_neq _ 0) Hb).
    apply IH; [|lia]. right. exists since, rest. split; [done|lia].
Qed.

Definition transferring (p : phase) : Prop := match p with Reading _ _ _ | Writing _ _ _ => True | _ => False end.

Lemma wait_drq_coming m w t :
  transferring (due w) -> coming m w (d_phase (now t)) -> (0 < m)%nat ->
  exists t', wait_drq_loop dev m t = (t', 0) /\ d_phase (now t') = due w /\ sectors (now t') = sectors (now t).
Proof.
  intros Hw. revert t. induction m as [|m IH]; intros t Hc Hm; [lia|]. cbn [wait_drq_loop inb].
  pose proof (h_status _ _ _ _ H t) as Hs. cbv zeta in Hs.
  pose proof (sectors_kept (InB ATA_STATUS_PORT) t ltac:(done)) as Hk.
  destruct (poll_coming m w ATA_STATUS_PORT t Hc) as [E|(since & rest & E & Hsi & Hl)]; rewrite E in Hs.
  - exists (InB ATA_STATUS_PORT :: t). split; [|done].
    destruct w; try done; destruct Hs as (-> & -> & -> & Hd%Z.eqb_neq); by rewrite Hd.
  - destruct Hs as (-> & -> & Hb). destruct (Nat.leb_spec since 4); [lia|]. rewrite (proj2 (Z.eqb_neq _ 0) Hb).
    destruct (IH (InB ATA_STATUS_PORT :: t)) as (t' & E1 & E2 & E3); [|lia|exists t'; by rewrite E1, E2, E3, Hk].
    right. exists since, rest. split; [done|lia].
Qed.

(** The four reads of the delay are enough for a busy disk to say so. *)
Lemma delay_sectors t : sectors (now (ata_delay_400ns dev t)) = sectors (now t).
Proof. unfold ata_delay_400ns. cbn [Nat.iter nat_rect inb fst]. by rewrite !sectors_kept. Qed.
Lemma delay_busy t since rest w m :
  d_phase (now t) = Busy since rest w -> (rest < m)%nat -> coming m w (d_phase (now (ata_delay_400ns dev t))).
Proof.
  intros E Hl. change (now (ata_delay_400ns dev t)) with (tick (tick (tick (tick (now t))))).
  revert E. generalize (now t). intros [] E. cbn in E. subst.
  destruct rest as [|[|[|[|rest]]]]; cbn; [left; by destruct w..|].
  right. eexists _, _. split; [done|]. lia.
Qed.
Lemma delay_idle t : d_phase (now t) = Idle -> d_phase (now (ata_delay_400ns dev t)) = Idle.
Proof.
  intros E. change (now (ata_delay_400ns dev t)) with (tick (tick (tick (tick (now t))))).
  by rewrite !(tick_calm (now t)) by (by rewrite E).
Qed.
Lemma busy_bound t : (latency t < Z.to_nat 100000)%nat.
Proof. exact (h_latency _ _ _ _ H t). Qed.

(** *** The command *)

(** The drive and head register: bits 4 and 6 select the first drive and LBA
    addresses, the low four bits are those of the number. *)
Lemma device_register lba : 0 <= lba ->
  let v := u8 (Z.lor 0xE0 (Z.land (Z.shiftr lba 24) 0x0F)) in
  v mod 16 = lba / 2 ^ 24 mod 16 /\ Z.testbit v 4 = false /\ Z.testbit v 6 = true.
Proof.
  intros Hl v. unfold v, wrap. split_and!.
  - rewrite <- Znumtheory.Zmod_div_mod by (try lia; by exists 16). change 16 with (2 ^ 4).
    rewrite <- !Z.land_ones by lia. rewrite Z.land_lor_distr_l. change (Z.land 0xE0 (Z.ones 4)) with 0.
    rewrite Z.lor_0_l, Z.shiftr_div_pow2 by lia. rewrite <- Z.land_assoc. done.
  - rewrite Z.mod_pow2_bits_low, Z.lor_spec, Z.land_spec by lia. by rewrite andb_false_r.
  - rewrite Z.mod_pow2_bits_low, Z.lor_spec by lia. done.
Qed.

Definition work_of (c lba : Z) : work := if c =? 0x20 then Fetch lba 1 else Accept lba 1.

(** The registers hold the low 28 bits of the number when the command is sent:
    the disk begins the transfer of that sector, if it has it. *)
Lemma drive_issue t lba c :
  0 <= lba < 2 ^ 32 -> c = 0x20 \/ c = 0x30 -> d_phase (now t) = Idle -> lba mod 2 ^ 28 < capacity ->
  coming (Z.to_nat 100000) (work_of c (lba mod 2 ^ 28)) (d_phase (now (issue dev t lba c))) /\
  sectors (now (issue dev t lba c)) = sectors (now t).
Proof.
  intros Hl Hc Hi Hcap. unfold issue. rewrite delay_sectors. unfold outb.
  destruct (wait_bsy_coming (Z.to_nat 100000) Finish t eq_refl ltac:(by left) ltac:(lia)) as [Hi1 Hs1].
  fold (ata_wait_bsy dev t) in Hi1, Hs1.
  destruct (device_register lba ltac:(lia)) as (Hhead & Hb4 & Hb6). cbv zeta in *.
  set (v := u8 (Z.lor _ _)) in *. set (t1 := (ata_wait_bsy dev t).1) in *.
  assert (now (OutB ATA_DRIVE_PORT v :: t1) = mk_drive (d_count (now t1)) (d_lo (now t1)) (d_mid (now t1)) (d_hi (now t1)) v
    Idle (sectors (now t1)) (stable (now t1))) as E1.
  { rewrite now_cons. cbn [react]. rewrite (tick_calm (now t1)) by (by rewrite Hi1). rewrite Hi1. cbn [listens].
    destruct (now t1). cbn in Hi1. by subst. }
  assert (now (ata_delay_400ns dev (OutB ATA_DRIVE_PORT v :: t1)) = now (OutB ATA_DRIVE_PORT v :: t1)) as E2.
  { change (now (ata_delay_400ns dev (OutB ATA_DRIVE_PORT v :: t1))) with (tick (tick (tick (tick (now (OutB ATA_DRIVE_PORT v :: t1)))))).
    by rewrite E1. }
  set (t2 := ata_delay_400ns dev (OutB ATA_DRIVE_PORT v :: t1)) in *. rewrite E1 in E2. clearbody t1 t2.
  assert (u8 c = c) as Ec by (apply wrap_small; lia). rewrite Ec. set (a := OutB ATA_COMMAND_PORT c).
  set (t3 := OutB ATA_SECTOR_COUNT_PORT _ :: t2). set (t4 := OutB _ _ :: t3). set (t5 := OutB _ _ :: t4). set (t6 := OutB _ _ :: t5).
  set (lo := u8 lba) in *. set (mid := u8 (Z.shiftr lba 8)) in *. set (hi := u8 (Z.shiftr lba 16)) in *.
  assert (now t6 = mk_drive 1 lo mid hi v Idle (sectors (now t1)) (stable (now t1))) as E6.
  { unfold t6, t5, t4, t3. rewrite !now_cons, E2. done. }
  assert (now (a :: t6) = with_phase (Busy 0 (latency (a :: t6)) (work_of c (lba mod 2 ^ 28))) (now t6)) as E7.
  { rewrite now_cons, E6. set (d := mk_drive _ _ _ _ _ _ _ _). set (l := latency _).
    change (react capacity l a d) with (command capacity d c l).
    unfold command. change (d_dev d) with v. rewrite Hb4, Hb6.
    assert (lba_of d = lba mod 2 ^ 28) as ->.
    { unfold lba_of, d. cbn [d_lo d_mid d_hi d_dev]. rewrite Hhead. unfold lo, mid, hi, wrap. rewrite !Z.shiftr_div_pow2 by lia. divlia. }
    change (count_of d) with 1. destruct (Z.ltb_spec capacity (lba mod 2 ^ 28 + 1)); [lia|].
    unfold work_of. by destruct Hc as [-> | ->]. }
  split.
  - eapply delay_busy; [by rewrite E7|apply busy_bound].
  - rewrite E7, E6. exact Hs1.
Qed.

(** *** Data *)

Lemma read_words_spec n t lba k :
  d_phase (now t) = Reading lba 1 k -> (k + S n = 256)%nat ->
  exists t', read_words dev (S n) t = (t', map (fun j => u16 (default 0 (sector (now t) lba !! (k + j)%nat))) (seq 0 (S n))) /\
    sectors (now t') = sectors (now t) /\ d_phase (now t') = Idle.
Proof.
  revert t k. induction n as [|n IH]; intros t k Hp Hk; cbn [read_words inw].
  all: assert (d_phase (now (InW ATA_DATA_PORT :: t)) = if decide (S k = 256%nat) then Idle else Reading lba 1 (S k)) as Hp'
    by (rewrite now_cons; cbn [react]; rewrite tick_calm by (by rewrite Hp); by rewrite Hp).
  all: pose proof (sectors_kept (InW ATA_DATA_PORT) t ltac:(done)) as Hs; rewrite (h_data _ _ _ _ H _ _ _ _ Hp).
  - rewrite decide_True in Hp' by lia. eexists. split; [|done]. cbn. by rewrite Nat.add_0_r.
  - rewrite decide_False in Hp' by lia. destruct (IH _ _ Hp' ltac:(lia)) as (t' & E & Hs' & Hi). exists t'. cbn [read_words inw] in E.
    rewrite E. split; [|by rewrite Hs']. remember (S n) as m. cbn [seq map]. rewrite Nat.add_0_r. do 2 f_equal.
    rewrite <- seq_shift, map_map. apply map_ext. intros j. unfold sector. rewrite Hs. do 3 f_equal. lia.
Qed.

Lemma take_step t lba pre w :
  d_phase (now t) = Writing lba 1 pre -> 0 <= w < 2 ^ 16 ->
  now (outw t ATA_DATA_PORT w) = take_word (now t) lba 1 pre w (latency (outw t ATA_DATA_PORT w)).
Proof.
  intros Hp Hw. unfold outw. rewrite now_cons. cbn [react]. rewrite tick_calm by (by rewrite Hp). rewrite Hp.
  by rewrite !wrap_small by lia.
Qed.

Lemma write_words_spec ws t lba pre :
  d_phase (now t) = Writing lba 1 pre -> Forall (fun w => 0 <= w < 2 ^ 16) ws -> (length pre + length ws < 256)%nat ->
  d_phase (now (write_words t ws)) = Writing lba 1 (pre ++ ws) /\ sectors (now (write_words t ws)) = sectors (now t).
Proof.
  revert t pre. induction ws as [|w ws IH]; intros t pre Hp Hw Hl; [by rewrite app_nil_r|]. inversion Hw; subst.
  cbn [write_words foldl]. fold (write_words (outw t ATA_DATA_PORT w) ws). cbn [length] in Hl.
  pose proof (take_step t lba pre w Hp ltac:(done)) as E. unfold take_word in E.
  rewrite decide_False in E by (rewrite length_app; cbn; lia).
  destruct (IH (outw t ATA_DATA_PORT w) (pre ++ [w])) as [E1 E2];
    [by rewrite E|done|rewrite length_app; cbn; lia|]. by rewrite E1, E2, E, <- app_assoc.
Qed.

Lemma write_all t lba ws :
  d_phase (now t) = Writing lba 1 [] -> Forall (fun w => 0 <= w < 2 ^ 16) ws -> length ws = 256%nat ->
  sectors (now (write_words t ws)) = <[lba := ws]> (sectors (now t)) /\
  d_phase (now (write_words t ws)) = Busy 0 (latency (write_words t ws)) Finish.
Proof.
  intros Hp Hw Hl. destruct ws as [|w ws _] using rev_ind; [done|]. rewrite length_app in Hl. cbn in Hl.
  apply Forall_app in Hw as [Hw Hw1]. inversion Hw1; subst.
  destruct (write_words_spec ws t lba [] Hp Hw ltac:(cbn; lia)) as [Hp' Hs].
  unfold write_words. rewrite foldl_app. cbn [foldl]. fold (write_words t ws).
  pose proof (take_step _ _ _ w Hp' ltac:(done)) as E. unfold take_word in E. cbn [app] in E.
  rewrite decide_True in E by (rewrite length_app; cbn; lia). rewrite E. cbn [sectors d_phase]. by rewrite Hs.
Qed.

(** The end of a write: whether the flush finds the disk busy or not, the disk is
    idle when the last wait is over. *)
Lemma flush_settles t l :
  d_phase (now t) = Busy 0 l Finish -> (l < Z.to_nat 100000)%nat ->
  let t' := (ata_wait_bsy dev (ata_delay_400ns dev (outb t ATA_COMMAND_PORT 0xE7))).1 in
  d_phase (now t') = Idle /\ sectors (now t') = sectors (now t).
Proof.
  intros Hp Hl t'. unfold t'. set (t1 := outb t ATA_COMMAND_PORT 0xE7).
  assert (sectors (now t1) = sectors (now t)) as Hs by (by apply sectors_kept).
  assert (exists w, due w = Idle /\ coming (Z.to_nat 100000) w (d_phase (now (ata_delay_400ns dev t1)))) as (w & Hw & Hc).
  { assert (now t1 = react capacity (latency t1) (OutB ATA_COMMAND_PORT 0xE7) (now t)) as E by done.
    destruct l as [|l].
    - assert (d_phase (now t1) = Idle \/ d_phase (now t1) = Busy 0 (latency t1) FlushCache) as [Ei|Ei].
      { rewrite E. cbn [react]. unfold tick. rewrite Hp. cbn [d_phase due listens set_register].
        unfold command. cbn. case_match; [by left|by right]. }
      + exists Finish. split; [done|]. left. by apply delay_idle.
      + exists FlushCache. split; [done|]. eapply delay_busy; [done|apply busy_bound].
    - exists Finish. split; [done|]. apply (delay_busy t1 1 l); [|lia]. rewrite E. cbn [react]. unfold tick. rewrite Hp. done. }
  destruct (wait_bsy_coming _ w _ Hw Hc ltac:(lia)) as [E1 E2]. fold (ata_wait_bsy dev (ata_delay_400ns dev t1)) in E1, E2.
  split; [done|]. by rewrite E2, delay_sectors.
Qed.

(** *** Words and bytes *)

Definition bytes_ok (l : list Z) : Prop := Forall (fun b => 0 <= b < 256) l.

Lemma word_of_spec buf i : bytes_ok buf -> 0 <= i -> 2 * i + 1 < Z.of_nat (length buf) ->
  0 <= word_of buf i < 2 ^ 16 /\ word_of buf i mod 256 = KString.str buf (2 * i) /\ word_of buf i / 256 = KString.str buf (2 * i + 1).
Proof.
  intros Hb Hi Hl. assert (forall j, 0 <= j < Z.of_nat (length buf) -> 0 <= KString.str buf j < 256) as Hs.
  { intros j Hj. unfold KString.str. destruct (lookup_lt_is_Some_2 buf (Z.to_nat j) ltac:(lia)) as [b E]. rewrite E.
    by apply (Forall_lookup_1 _ _ _ _ Hb E). }
  pose proof (Hs (2 * i) ltac:(lia)). pose proof (Hs (2 * i + 1) ltac:(lia)). unfold word_of. divlia.
Qed.

Lemma bytes_of_prefix buf n : bytes_ok buf -> (2 * n <= length buf)%nat ->
  bytes_of (map (word_of buf) (zrange 0 (Z.of_nat n))) = take (2 * n) buf.
Proof.
  intros Hb. induction n as [|n IH]; intros Hl; [done|].
  replace (Z.of_nat (S n)) with (Z.of_nat n + 1) by lia. rewrite zrange_snoc, map_app by lia. unfold bytes_of in *.
  rewrite map_app, concat_app, IH by lia. cbn [map concat app].
  destruct (word_of_spec buf (Z.of_nat n) Hb ltac:(lia) ltac:(lia)) as (_ & -> & ->).
  destruct (lookup_lt_is_Some_2 buf (2 * n) ltac:(lia)) as [x Ex]. destruct (lookup_lt_is_Some_2 buf (S (2 * n)) ltac:(lia)) as [y Ey].
  replace (2 * S n)%nat with (S (S (2 * n))) by lia. rewrite (take_S_r _ _ _ Ey), (take_S_r _ _ _ Ex), <- app_assoc. f_equal.
  unfold KString.str. replace (Z.to_nat (2 * Z.of_nat n)) with (2 * n)%nat by lia.
  replace (Z.to_nat (2 * Z.of_nat n + 1)) with (S (2 * n)) by lia. by rewrite Ex, Ey.
Qed.

Lemma bytes_of_words buf : bytes_ok buf -> length buf = 512%nat -> bytes_of (words_of buf) = buf.
Proof. intros Hb Hl. unfold words_of. change 256 with (Z.of_nat 256). rewrite (bytes_of_prefix buf 256) by (done || lia). by rewrite take_ge by lia. Qed.

Lemma words_of_ok buf : bytes_ok buf -> length buf = 512%nat ->
  length (words_of buf) = 256%nat /\ Forall (fun w => 0 <= w < 2 ^ 16) (words_of buf).
Proof.
  intros Hb Hl. unfold words_of. rewrite length_map. pose proof (length_zrange 0 256). split; [lia|].
  apply Forall_map, Forall_forall. intros i Hi%elem_of_zrange. apply (word_of_spec buf i Hb); lia.
Qed.

(** The disk is idle and agrees with the sector map of the file system on every
    sector it has. *)
Definition agrees (d : drive) (st : Kfs.kfs) : Prop :=
  d_phase d = Idle /\
  forall s, 0 <= s < capacity -> bytes_of (sector d s) = Kfs.ata_read st s /\ length (sector d s) = 256%nat /\
    Forall (fun w => 0 <= w < 2 ^ 16) (sector d s).

Lemma read_agrees t lba st : agrees (now t) st -> 0 <= lba < capacity ->
  exists t', ata_read_sector dev t lba = (t', Kfs.ata_read st lba) /\ agrees (now t') st.
Proof.
  intros [Hi Ha] Hl. unfold ata_read_sector.
  destruct (drive_issue t lba 0x20 ltac:(lia) (or_introl eq_refl) Hi ltac:(rewrite Z.mod_small; lia)) as [Hp Hs].
  rewrite Z.mod_small in Hp by lia.
  destruct (wait_drq_coming (Z.to_nat 100000) (Fetch lba 1) (issue dev t lba 0x20) I Hp ltac:(lia)) as (t1 & E1 & P1 & S1).
  unfold ata_wait_drq. rewrite E1. cbn [negb Z.eqb].
  destruct (read_words_spec 255 t1 _ _ P1 eq_refl) as (t2 & E2 & S2 & P2). rewrite E2. exists t2.
  assert (sectors (now t2) = sectors (now t)) as S by (by rewrite S2, S1, Hs).
  split; [|split; [done|]; intros s Hs0; unfold sector; rewrite S; by apply Ha].
  f_equal. assert (sector (now t1) lba = sector (now t) lba) as -> by (unfold sector; by rewrite S1, Hs).
  destruct (Ha lba Hl) as (<- & Hlen & Hw). f_equal. apply list_eq_same_length with 256%nat; [done|by rewrite length_map, length_seq|].
  intros i x y Hi' Hx Hy. rewrite list_lookup_fmap in Hx. rewrite lookup_seq_lt in Hx by done. cbn in Hx.
  rewrite Hy in Hx. cbn in Hx. rewrite wrap_small in Hx by (by apply (Forall_lookup_1 _ _ _ _ Hw Hy)). by injection Hx.
Qed.

Lemma write_agrees t lba buf st : agrees (now t) st -> 0 <= lba < capacity -> bytes_ok buf -> length buf = 512%nat ->
  agrees (now (ata_write_sector dev t lba buf)) (Kfs.ata_write lba buf st).
Proof.
  intros [Hi Ha] Hl Hb Hlen. destruct (words_of_ok buf Hb Hlen) as [Hwl Hw]. unfold ata_write_sector.
  destruct (drive_issue t lba 0x30 ltac:(lia) (or_intror eq_refl) Hi ltac:(rewrite Z.mod_small; lia)) as [Hp Hs].
  rewrite Z.mod_small in Hp by lia.
  destruct (wait_drq_coming (Z.to_nat 100000) (Accept lba 1) (issue dev t lba 0x30) I Hp ltac:(lia)) as (t1 & E1 & P1 & S1).
  unfold ata_wait_drq. rewrite E1. cbn [negb Z.eqb].
  destruct (write_all t1 _ _ P1 Hw Hwl) as [Hd P2].
  destruct (flush_settles _ _ P2 (busy_bound _)) as [P3 S3]. split; [done|].
  intros s Hs0. unfold sector. rewrite S3, Hd, S1, Hs. unfold Kfs.ata_read, Kfs.ata_write, Kfs.set_disk. cbn [Kfs.disk].
  destruct (decide (s = lba)) as [->|Hne].
  - rewrite !lookup_insert_eq. cbn [default]. split; [by apply bytes_of_words|by split].
  - rewrite !lookup_insert_ne by done. by apply Ha.
Qed.

(** *** Sequences of requests *)

Inductive request := ReadSector (lba : Z) | WriteSector (lba : Z) (buffer : list Z).
Definition request_ok (r : request) : Prop :=
  match r with
  | ReadSector lba => 0 <= lba < capacity
  | WriteSector lba buffer => 0 <= lba < capacity /\ bytes_ok buffer /\ length buffer = 512%nat
  end.

(** The buffers that the reads of a sequence fill: by the driver, and on the
    sector map of the file system. *)
Fixpoint requests_run (rd : io -> Z -> io * list Z) (wr : io -> Z -> list Z -> io) (t : io) (rs : list request) : io * list (list Z) :=
  match rs with
  | [] => (t, [])
  | ReadSector lba :: rs => let '(t, b) := rd t lba in let '(t, bs) := requests_run rd wr t rs in (t, b :: bs)
  | WriteSector lba b :: rs => requests_run rd wr (wr t lba b) rs
  end.
Definition driver_run : io -> list request -> io * list (list Z) := requests_run (ata_read_sector dev) (ata_write_sector dev).
Fixpoint map_run (st : Kfs.kfs) (rs : list request) : Kfs.kfs * list (list Z) :=
  match rs with
  | [] => (st, [])
  | ReadSector lba :: rs => let '(st', bs) := map_run st rs in (st', Kfs.ata_read st lba :: bs)
  | WriteSector lba b :: rs => map_run (Kfs.ata_write lba b st) rs
  end.

End refinement.

(** ** Failures *)

Lemma wait_drq_polls dev n t : exists k, (wait_drq_loop dev n t).1 = Nat.iter k (cons (InB ATA_STATUS_PORT)) t.
Proof.
  revert t. induction n as [|n IH]; intros t; [by exists 0%nat|]. cbn [wait_drq_loop inb].
  destruct (negb _); [by exists 1%nat|]. destruct (negb _); [by exists 1%nat|]. destruct (_ && _); [by exists 1%nat|].
  destruct (IH (InB ATA_STATUS_PORT :: t)) as [k E]. exists (S k). by rewrite E, Nat.iter_succ_r.
Qed.
Lemma wait_bsy_polls dev n t : exists k, (wait_bsy_loop dev n t).1 = Nat.iter k (cons (InB ATA_STATUS_PORT)) t.
Proof.
  revert t. induction n as [|n IH]; intros t; [by exists 0%nat|]. cbn [wait_bsy_loop inb].
  destruct (_ =? 0); [by exists 1%nat|]. destruct (IH (InB ATA_STATUS_PORT :: t)) as [k E]. exists (S k). by rewrite E, Nat.iter_succ_r.
Qed.
Lemma polls_sectors capacity latency d0 k t :
  sectors (drive_of capacity latency d0 (Nat.iter k (cons (InB ATA_STATUS_PORT)) t)) = sectors (drive_of capacity latency d0 t).
Proof. induction k as [|k IH]; [done|]. cbn [Nat.iter nat_rect]. by rewrite sectors_kept. Qed.
Lemma issue_sectors capacity latency d0 dev t lba c :
  sectors (drive_of capacity latency d0 (issue dev t lba c)) = sectors (drive_of capacity latency d0 t).
Proof.
  unfold issue, outb. rewrite delay_sectors, !sectors_kept, delay_sectors, sectors_kept by done.
  unfold ata_wait_bsy. destruct (wait_bsy_polls dev (Z.to_nat 100000) t) as [k ->]. apply polls_sectors.
Qed.

(** When the disk reports an error or is not ready in time, a read fills the
    buffer with zeros and a write returns without storing anything: neither
    tells its caller. *)
Theorem ata_failures_silent capacity latency d0 dev t lba buffer :
  ((ata_wait_drq dev (issue dev t lba 0x20)).2 <> 0 -> (ata_read_sector dev t lba).2 = replicate 512 0) /\
  ((ata_wait_drq dev (issue dev t lba 0x30)).2 <> 0 ->
   sectors (drive_of capacity latency d0 (ata_write_sector dev t lba buffer)) = sectors (drive_of capacity latency d0 t)).
Proof.
  split.
  - unfold ata_read_sector. destruct (ata_wait_drq _ _) as [t' r]. cbn [snd]. intros Hr. by rewrite (proj2 (Z.eqb_neq _ _) Hr).
  - intros Hr. destruct (wait_drq_polls dev (Z.to_nat 100000) (issue dev t lba 0x30)) as [k Hk].
    unfold ata_write_sector. unfold ata_wait_drq in *. destruct (wait_drq_loop _ _ _) as [t' r]. cbn [snd fst] in *.
    rewrite (proj2 (Z.eqb_neq _ _) Hr). cbn [negb]. by rewrite Hk, polls_sectors, issue_sectors.
Qed.

(** ** A disk that takes its time *)

Definition blank : drive := mk_drive 0 0 0 0 0 Idle ∅ ∅.
Definition status_of (p : phase) : Z :=
  match p with
  | Idle => 0x50
  | Aborted => 0x51
  | Busy since _ _ => if (since <=? 4)%nat then 0x50 else 0x80
  | _ => 0x58
  end.
Definition good_disk (capacity : Z) (latency : io -> nat) (t : io) : Z :=
  match t with
  | InW _ :: t' => match d_phase (drive_of capacity latency blank t') with
                   | Reading lba _ k => default 0 (sector (drive_of capacity latency blank t') lba !! k)
                   | _ => 0
                   end
  | _ => status_of (d_phase (drive_of capacity latency blank t))
  end.
Lemma status_shows p : shows p (u8 (status_of p)).
Proof.
  destruct p as [| |since rest w| |]; cbn [status_of shows]; try (split_and!; done).
  destruct (since <=? 4)%nat; split_and!; done.
Qed.
Lemma good_disk_honest capacity latency :
  (forall t, (latency t < Z.to_nat 100000)%nat) -> honest capacity latency blank (good_disk capacity latency).
Proof.
  intros Hl. split; [| |done].
  - intros t t'. apply status_shows.
  - intros t lba n k Hp. unfold good_disk. by rewrite Hp.
Qed.
Definition empty_fs : Kfs.kfs := Kfs.mk_kfs ∅ (Kfs.mk_header [] 0 0 []) false ∅ 0 0 0 true [].
Lemma blank_agrees capacity : agrees capacity blank empty_fs.
Proof. split; [done|]. intros s _. split; [reflexivity|]. split; [reflexivity|]. by apply Forall_replicate. Qed.

(** A disk of 1000 sectors, busy for nine accesses after each command and sector. *)
Definition nine (_ : io) : nat := 9.
Lemma nine_ok t : (nine t < Z.to_nat 100000)%nat.
Proof. unfold nine. lia. Qed.


(** The first word of sector 5: in the disk, and on stable storage. *)
Definition word5 (d : drive) : Z * Z :=
  let word (m : gmap Z (list Z)) := match m !! 5 with Some (w :: _) => w | _ => 0 end in (word d.(sectors), word d.(stable)).

(** The cache flush is sent as soon as the last word is: a disk that is still
    busy with the sector then does not see the command, and what was written is
    not safe when the function returns.  A disk that takes no time sees it. *)
Theorem flush_unheard :
  word5 (drive_of 1000 nine blank (ata_write_sector (good_disk 1000 nine) [] 5 (replicate 512 7))) = (0x0707, 0) /\
  let at_once (_ : io) := 0%nat in
  word5 (drive_of 1000 at_once blank (ata_write_sector (good_disk 1000 at_once) [] 5 (replicate 512 7))) = (0x0707, 0x0707).
Proof. vm_compute. split; reflexivity. Qed.

(** A disk that reports an error. *)
Lemma ata_failures_silent_witness : (ata_read_sector (fun _ => 1) [] 5).2 = replicate 512 0.
Proof. apply (ata_failures_silent 1000 nine blank (fun _ => 1) [] 5 []). vm_compute. discriminate. Defined.
End Ata.
