(* ===== verification/Tables.v ===== *)
(** * Descriptor tables and interrupt stubs
      (src/arch/x86/gdt.c, src/arch/x86/idt.c, the interrupt stubs)

    The GDT is the bytes of its table, since a TSS descriptor lies over two
    entries; the IDT is a table of records.  The addresses of the task state
    segments and of the interrupt stubs, which the linker chooses, are
    arguments.  The stubs are lists of instructions that work on registers and a stack of
    words.  Loading the tables into the processor is left out. *)

From S2P Require Import Prelude KString Bytes Sched.
From stdpp Require Import base numbers list gmap.
From Stdlib Require Import ZArith Lia.

#[local] Open Scope list_scope.
#[local] Open Scope Z_scope.

Module Gdt.
Import Bytes.

Definition GDT_TSS_FIRST : Z := 5.
Definition GDT_ENTRIES : Z := GDT_TSS_FIRST + 2 * Sched.SMP_MAX_CPUS.
Definition TSS_SELECTOR (cpu : Z) : Z := u16 (Z.shiftl (GDT_TSS_FIRST + 2 * cpu) 3).
(** [sizeof(struct tss_entry_struct)], packed. *)
Definition TSS_SIZE : Z := 104.

(** The two descriptor structures, as the bytes they are packed to. *)
Definition gdt_entry (limit_low base_low base_middle access granularity base_high : Z) : list Z :=
  le_bytes 2 limit_low ++ le_bytes 2 base_low ++ [base_middle; access; granularity; base_high].
Definition tss_descriptor (limit_low base_low base_middle access granularity base_high base_upper reserved : Z) : list Z :=
  gdt_entry limit_low base_low base_middle access granularity base_high ++ b32 base_upper ++ b32 reserved.

Definition gdt_set_gate (gdt : gmap Z Z) (num base limit access gran : Z) : gmap Z Z :=
  store_bytes gdt (8 * num)
    (gdt_entry (Z.land limit 0xFFFF) (Z.land base 0xFFFF) (Z.land (Z.shiftr base 16) 0xFF) access
       (Z.lor (Z.land (Z.shiftr limit 16) 0x0F) (Z.land gran 0xF0)) (Z.land (Z.shiftr base 24) 0xFF)).

(** The fields of a task state segment that the kernel sets; the rest is 0. *)
Record tss_entry_struct := mk_tss { rsp0 : Z; iomap_base : Z }.

Definition write_tss_cpu (tss_address : Z -> Z) (cpu : Z) (s : gmap Z Z * gmap Z tss_entry_struct) :
    gmap Z Z * gmap Z tss_entry_struct :=
  let base := tss_address cpu in
  let limit := TSS_SIZE in
  (store_bytes s.1 (8 * (GDT_TSS_FIRST + 2 * cpu))
     (tss_descriptor (Z.land limit 0xFFFF) (Z.land base 0xFFFF) (Z.land (Z.shiftr base 16) 0xFF) 0x89 0x00
        (Z.land (Z.shiftr base 24) 0xFF) (Z.land (Z.shiftr base 32) 0xFFFFFFFF) 0),
   <[cpu := mk_tss 0 TSS_SIZE]> s.2).

Definition tss_set_rsp0 (tss : gmap Z tss_entry_struct) (cpu r : Z) : gmap Z tss_entry_struct :=
  if Sched.SMP_MAX_CPUS <=? cpu then tss
  else <[cpu := mk_tss r (default (mk_tss 0 0) (tss !! cpu)).(iomap_base)]> tss.

(** The selector that goes into the task register; [None]: nothing is loaded. *)
Definition tss_load_cpu (cpu : Z) : option Z := if Sched.SMP_MAX_CPUS <=? cpu then None else Some (TSS_SELECTOR cpu).

(** The limit of the table, the table and the segments. *)
Definition init_gdt (tss_address : Z -> Z) : Z * gmap Z Z * gmap Z tss_entry_struct :=
  let gdt := gdt_set_gate ∅ 0 0 0 0 0 in
  let gdt := gdt_set_gate gdt 1 0 0xFFFFFFFF 0x9A 0xAF in
  let gdt := gdt_set_gate gdt 2 0 0xFFFFFFFF 0x92 0xCF in
  let gdt := gdt_set_gate gdt 3 0 0xFFFFFFFF 0xFA 0xAF in
  let gdt := gdt_set_gate gdt 4 0 0xFFFFFFFF 0xF2 0xCF in
  let '(gdt, tss) := for_loop 0 Sched.SMP_MAX_CPUS (write_tss_cpu tss_address) (gdt, ∅) in
  (8 * GDT_ENTRIES - 1, gdt, tss).

(** ** What the processor reads *)

Definition bytes_at (gdt : gmap Z Z) (selector n : Z) : list Z := load_bytes gdt selector n.
Definition seg_base (d : list Z) : Z :=
  field 2 d 2 + 65536 * KString.str d 4 + 16777216 * KString.str d 7.
Definition seg_limit (d : list Z) : Z := field 2 d 0 + 65536 * (KString.str d 6 mod 16).
Definition seg_access (d : list Z) : Z := KString.str d 5.
Definition seg_dpl (d : list Z) : Z := KString.str d 5 / 32 mod 4.
Definition seg_long (d : list Z) : bool := Z.testbit (KString.str d 6) 5.
Definition sys_base (d : list Z) : Z := seg_base d + 4294967296 * field 4 d 8.

Lemma load_store_apart m a l b n :
  0 <= n -> b + n <= a \/ a + Z.of_nat (length l) <= b -> load_bytes (store_bytes m a l) b n = load_bytes m b n.
Proof. intros Hn Hd. apply load_bytes_ext. intros i Hi. apply store_bytes_other. lia. Qed.

Definition code_data (i : Z) : list Z :=
  if i =? 0 then replicate 8 0
  else gdt_entry 0xFFFF 0 0 (if i =? 1 then 0x9A else if i =? 2 then 0x92 else if i =? 3 then 0xFA else 0xF2)
         (if (i =? 1) || (i =? 3) then 0xAF else 0xCF) 0.
Definition tss_bytes (base : Z) : list Z :=
  tss_descriptor TSS_SIZE (Z.land base 0xFFFF) (Z.land (Z.shiftr base 16) 0xFF) 0x89 0x00
    (Z.land (Z.shiftr base 24) 0xFF) (Z.land (Z.shiftr base 32) 0xFFFFFFFF) 0.

Lemma init_gdt_contents tss_address :
  let '(limit, gdt, tss) := init_gdt tss_address in
  limit = 8 * GDT_ENTRIES - 1 /\
  (forall i, 0 <= i < 5 -> bytes_at gdt (8 * i) 8 = code_data i) /\
  (forall cpu, 0 <= cpu < 16 -> bytes_at gdt (TSS_SELECTOR cpu) 16 = tss_bytes (tss_address cpu) /\
     tss !! cpu = Some (mk_tss 0 TSS_SIZE)).
Proof.
  unfold init_gdt. set (g0 := gdt_set_gate (gdt_set_gate _ 3 _ _ _ _) 4 _ _ _ _).
  assert (forall i, 0 <= i < 5 -> load_bytes g0 (8 * i) 8 = code_data i) as H0.
  { intros i Hi. assert (i ∈ zrange 0 5) as Hr by (by apply elem_of_zrange). clear Hi. unfold g0.
    repeat (apply elem_of_cons in Hr as [-> |Hr]; [vm_compute; reflexivity|]). by apply not_elem_of_nil in Hr. }
  assert (forall cpu, 0 <= cpu < 16 -> TSS_SELECTOR cpu = 8 * (GDT_TSS_FIRST + 2 * cpu)) as Hsel.
  { intros cpu Hc. unfold TSS_SELECTOR, GDT_TSS_FIRST. rewrite Z.shiftl_mul_pow2, wrap_small by lia. lia. }
  assert (let s := for_loop 0 Sched.SMP_MAX_CPUS (write_tss_cpu tss_address) (g0, ∅) in
    (forall i, 0 <= i < 5 -> load_bytes s.1 (8 * i) 8 = code_data i) /\
    (forall cpu, 0 <= cpu < 16 -> load_bytes s.1 (8 * (GDT_TSS_FIRST + 2 * cpu)) 16 = tss_bytes (tss_address cpu) /\
       s.2 !! cpu = Some (mk_tss 0 TSS_SIZE))) as [H1 H2].
  { apply (for_loop_inv (fun k s => (forall i, 0 <= i < 5 -> load_bytes s.1 (8 * i) 8 = code_data i) /\
      (forall cpu, 0 <= cpu < k -> load_bytes s.1 (8 * (GDT_TSS_FIRST + 2 * cpu)) 16 = tss_bytes (tss_address cpu) /\
         s.2 !! cpu = Some (mk_tss 0 TSS_SIZE)))).
    - unfold Sched.SMP_MAX_CPUS. lia.
    - split; [done|lia].
    - intros k [g tss] Hk [I1 I2]. cbn [write_tss_cpu fst snd] in *. change (Z.land TSS_SIZE 0xFFFF) with TSS_SIZE.
      fold (tss_bytes (tss_address k)). unfold GDT_TSS_FIRST in *. split.
      + intros i Hi. rewrite load_store_apart by lia. by apply I1.
      + intros cpu Hc. destruct (decide (cpu = k)) as [->|].
        * rewrite lookup_insert_eq. split; [|done]. exact (load_store_bytes g (8 * (5 + 2 * k)) (tss_bytes (tss_address k))).
        * rewrite lookup_insert_ne by done. destruct (I2 cpu ltac:(lia)) as [E1 E2]. split; [|done]. rewrite <- E1.
          apply load_store_apart; [lia|]. change (Z.of_nat (length (tss_bytes (tss_address k)))) with 16. lia. }
  destruct (for_loop _ _ _ _) as [g tss]. split; [done|]. split; [exact H1|].
  intros cpu Hc. rewrite Hsel by done. by apply H2.
Qed.

Lemma tss_bytes_decode base : 0 <= base < 2 ^ 64 ->
  sys_base (tss_bytes base) = base /\ seg_limit (tss_bytes base) = TSS_SIZE /\ seg_access (tss_bytes base) = 0x89.
Proof.
  intros Hb. split; [|split; reflexivity].
  change (le_value (le_bytes 2 (Z.land base 0xFFFF)) + 65536 * Z.land (Z.shiftr base 16) 0xFF +
    16777216 * Z.land (Z.shiftr base 24) 0xFF + 4294967296 * le_value (le_bytes 4 (Z.land (Z.shiftr base 32) 0xFFFFFFFF)) = base).
  change 0xFFFF with (2 ^ 16 - 1). change 0xFF with (2 ^ 8 - 1). change 0xFFFFFFFF with (2 ^ 32 - 1).
  rewrite !land_ones_mod, !Z.shiftr_div_pow2 by lia. rewrite !le_value_bytes; divlia.
Qed.

(** After [init_gdt] the selectors mean what the kernel uses them for: 0x08
    and 0x18 are 64-bit code segments of rings 0 and 3, 0x10 and 0x20 the data
    segments of the same rings, and the selector that [tss_load_cpu] loads on a
    processor is an available 64-bit TSS at exactly that processor's own
    segment, all inside the limit of the table. *)
Theorem gdt_selectors tss_address :
  (forall cpu, 0 <= cpu < 16 -> 0 <= tss_address cpu < 2 ^ 64) ->
  let '(limit, gdt, tss) := init_gdt tss_address in
  (forall s ring, (s, ring) ∈ [(0x08, 0); (0x18, 3)] ->
     seg_long (bytes_at gdt s 8) = true /\ seg_dpl (bytes_at gdt s 8) = ring /\ Z.testbit (seg_access (bytes_at gdt s 8)) 3 = true) /\
  (forall s ring, (s, ring) ∈ [(0x10, 0); (0x20, 3)] ->
     seg_dpl (bytes_at gdt s 8) = ring /\ Z.testbit (seg_access (bytes_at gdt s 8)) 3 = false) /\
  (forall cpu, 0 <= cpu < 16 -> exists s, tss_load_cpu cpu = Some s /\ s + 15 <= limit /\
     sys_base (bytes_at gdt s 16) = tss_address cpu /\ seg_limit (bytes_at gdt s 16) = TSS_SIZE /\
     seg_access (bytes_at gdt s 16) = 0x89).
Proof.
  intros Ht. pose proof (init_gdt_contents tss_address) as Hc. destruct (init_gdt tss_address) as [[limit gdt] tss].
  destruct Hc as (-> & Hs & Hx). split; [|split].
  - intros s ring Hin. apply elem_of_cons in Hin as [[= -> ->]|[[= -> ->]|[]%not_elem_of_nil]%elem_of_cons].
    + pose proof (Hs 1 ltac:(lia)) as E. change (8 * 1) with 0x08 in E. by rewrite E.
    + pose proof (Hs 3 ltac:(lia)) as E. change (8 * 3) with 0x18 in E. by rewrite E.
  - intros s ring Hin. apply elem_of_cons in Hin as [[= -> ->]|[[= -> ->]|[]%not_elem_of_nil]%elem_of_cons].
    + pose proof (Hs 2 ltac:(lia)) as E. change (8 * 2) with 0x10 in E. by rewrite E.
    + pose proof (Hs 4 ltac:(lia)) as E. change (8 * 4) with 0x20 in E. by rewrite E.
  - intros cpu Hcpu. exists (TSS_SELECTOR cpu). destruct (Hx cpu Hcpu) as [-> _]. split.
    { unfold tss_load_cpu, Sched.SMP_MAX_CPUS. by rewrite (proj2 (Z.leb_gt _ _)) by lia. }
    split; [|by apply tss_bytes_decode, Ht]. unfold TSS_SELECTOR, GDT_ENTRIES, GDT_TSS_FIRST, Sched.SMP_MAX_CPUS.
    rewrite Z.shiftl_mul_pow2, wrap_small by lia. lia.
Qed.

Lemma gdt_selectors_witness :
  let '(limit, gdt, _) := init_gdt (fun cpu => 0xFFFFFFFF80100000 + 104 * cpu) in
  forall cpu, 0 <= cpu < 16 -> exists s, tss_load_cpu cpu = Some s /\ s + 15 <= limit.
Proof.
  pose proof (gdt_selectors (fun cpu => 0xFFFFFFFF80100000 + 104 * cpu) ltac:(intros; lia)) as H.
  destruct (init_gdt _) as [[limit gdt] tss]. intros cpu Hc. destruct (proj2 (proj2 H) cpu Hc) as (s & E & L & _).
  exists s. split; assumption.
Defined.
End Gdt.

Module Idt.

Record idt_entry := mk_idt { base_lo : Z; sel : Z; ist : Z; flags : Z; base_mid : Z; base_hi : Z; reserved : Z }.
Definition idt_zero : idt_entry := mk_idt 0 0 0 0 0 0 0.

Definition idt_set_gate (idt : gmap Z idt_entry) (num base sel flags : Z) : gmap Z idt_entry :=
  <[num := mk_idt (u16 (Z.land base 0xFFFF)) sel 0 flags (u16 (Z.land (Z.shiftr base 16) 0xFFFF))
             (u32 (Z.land (Z.shiftr base 32) 0xFFFFFFFF)) 0]> idt.

(** The entry points, whose addresses the linker chooses. *)
Inductive stub :=
  isr0_stub | isr1_stub | isr2_stub | isr3_stub | isr4_stub | isr5_stub | isr6_stub | isr7_stub | isr8_stub |
  isr10_stub | isr11_stub | isr12_stub | isr13_stub | isr14_stub | timer_isr_stub | keyboard_isr_stub |
  mouse_isr_stub | lapic_timer_isr_stub | reschedule_isr_stub | isr128_stub.

(** ** The stubs (src/arch/x86/*.asm)

    The code of an entry point, instruction by instruction; the stack is the list
    of its words, the top first. *)

Inductive reg := RAX | RBX | RCX | RDX | RBP | RSI | RDI | R8 | R9 | R10 | R11 | R12 | R13 | R14 | R15.
#[export] Instance reg_eq_dec : EqDecision reg.
Proof. solve_decision. Defined.

(** The C functions that the stubs call. *)
Inductive handler := exception_handler | page_fault_handler | syscall_handler | timer_handler | keyboard_handler |
  mouse_handler | lapic_timer_handler | lapic_reschedule_handler.

Inductive instr :=
  push_imm (n : Z) | push (r : reg) | pop (r : reg) | mov_rdi_rsp | mov_rsi_cr2 | call (h : handler) | mov_rsp_rax |
  add_rsp (n : nat) | iretq.

Definition PUSHA64 : list instr :=
  [push RAX; push RBX; push RCX; push RDX; push RBP; push RSI; push RDI; push R8; push R9; push R10; push R11;
   push R12; push R13; push R14; push R15].
Definition POPA64 : list instr :=
  [pop R15; pop R14; pop R13; pop R12; pop R11; pop R10; pop R9; pop R8; pop RDI; pop RSI; pop RBP; pop RDX; pop RCX;
   pop RBX; pop RAX].

Definition ISR_NOERRCODE (n : Z) : list instr :=
  [push_imm 0; push_imm n] ++ PUSHA64 ++ [mov_rdi_rsp; call exception_handler] ++ POPA64 ++ [add_rsp 16; iretq].
Definition ISR_ERRCODE (n : Z) : list instr :=
  [push_imm n] ++ PUSHA64 ++ [mov_rdi_rsp; call exception_handler] ++ POPA64 ++ [add_rsp 16; iretq].
Definition isr14 : list instr :=
  [push_imm 14] ++ PUSHA64 ++ [mov_rdi_rsp; mov_rsi_cr2; call page_fault_handler] ++ POPA64 ++ [add_rsp 16; iretq].
Definition isr128 : list instr :=
  [push_imm 0; push_imm 128] ++ PUSHA64 ++ [mov_rdi_rsp; call syscall_handler] ++ POPA64 ++ [add_rsp 16; iretq].
Definition timer_isr : list instr :=
  [push_imm 0; push_imm 32] ++ PUSHA64 ++ [mov_rdi_rsp; call timer_handler; mov_rsp_rax] ++ POPA64 ++ [add_rsp 16; iretq].
Definition keyboard_isr : list instr :=
  [push_imm 0; push_imm 33] ++ PUSHA64 ++ [call keyboard_handler] ++ POPA64 ++ [add_rsp 16; iretq].
Definition mouse_isr : list instr :=
  [push_imm 0; push_imm 44] ++ PUSHA64 ++ [call mouse_handler] ++ POPA64 ++ [add_rsp 16; iretq].
Definition lapic_timer_isr : list instr :=
  [push_imm 0; push_imm 240] ++ PUSHA64 ++ [mov_rdi_rsp; call lapic_timer_handler; mov_rsp_rax] ++ POPA64 ++ [add_rsp 16; iretq].
Definition reschedule_isr : list instr :=
  [push_imm 0; push_imm 253] ++ PUSHA64 ++ [mov_rdi_rsp; call lapic_reschedule_handler; mov_rsp_rax] ++ POPA64 ++
  [add_rsp 16; iretq].

Definition stub_code (s : stub) : list instr :=
  match s with
  | isr0_stub => ISR_NOERRCODE 0 | isr1_stub => ISR_NOERRCODE 1 | isr2_stub => ISR_NOERRCODE 2 | isr3_stub => ISR_NOERRCODE 3
  | isr4_stub => ISR_NOERRCODE 4 | isr5_stub => ISR_NOERRCODE 5 | isr6_stub => ISR_NOERRCODE 6 | isr7_stub => ISR_NOERRCODE 7
  | isr8_stub => ISR_ERRCODE 8 | isr10_stub => ISR_ERRCODE 10 | isr11_stub => ISR_ERRCODE 11 | isr12_stub => ISR_ERRCODE 12
  | isr13_stub => ISR_ERRCODE 13 | isr14_stub => isr14 | timer_isr_stub => timer_isr | keyboard_isr_stub => keyboard_isr
  | mouse_isr_stub => mouse_isr | lapic_timer_isr_stub => lapic_timer_isr | reschedule_isr_stub => reschedule_isr
  | isr128_stub => isr128
  end.

(** What the call of a handler leaves: the registers (a C function keeps few of
    them), the stack with the frame the handler may have changed, and the stack
    that the result in RAX points to. *)
Record outcome := mk_outcome { o_regs : reg -> Z; o_stack : list Z; o_rax : list Z }.

Record machine := mk_machine {
  regs : reg -> Z;
  stack : list Z;
  rax_stack : list Z;                            (** the stack RAX points to after a call *)
  frame_arg : option (list Z);                   (** the stack RDI points to *)
  called : option (handler * option (list Z));   (** the handler called, and its argument *)
  resumed : option (list Z);                     (** what [iretq] took: rip, cs, rflags, rsp, ss *)
}.

Definition upd (f : reg -> Z) (r : reg) (x : Z) (r' : reg) : Z := if decide (r' = r) then x else f r'.

Definition exec (effect : handler -> list Z -> outcome) (i : instr) (m : machine) : option machine :=
  match i with
  | push_imm n => Some (mk_machine m.(regs) (n :: m.(stack)) m.(rax_stack) m.(frame_arg) m.(called) m.(resumed))
  | push r => Some (mk_machine m.(regs) (m.(regs) r :: m.(stack)) m.(rax_stack) m.(frame_arg) m.(called) m.(resumed))
  | pop r =>
      match m.(stack) with
      | x :: st => Some (mk_machine (upd m.(regs) r x) st m.(rax_stack) m.(frame_arg) m.(called) m.(resumed))
      | [] => None
      end
  | mov_rdi_rsp => Some (mk_machine m.(regs) m.(stack) m.(rax_stack) (Some m.(stack)) m.(called) m.(resumed))
  | mov_rsi_cr2 => Some m
  | call h => let o := effect h m.(stack) in
              Some (mk_machine o.(o_regs) o.(o_stack) o.(o_rax) None (Some (h, m.(frame_arg))) m.(resumed))
  | mov_rsp_rax => Some (mk_machine m.(regs) m.(rax_stack) m.(rax_stack) m.(frame_arg) m.(called) m.(resumed))
  | add_rsp n => Some (mk_machine m.(regs) (drop (n / 8) m.(stack)) m.(rax_stack) m.(frame_arg) m.(called) m.(resumed))
  | iretq => Some (mk_machine m.(regs) (drop 5 m.(stack)) m.(rax_stack) m.(frame_arg) m.(called) (Some (take 5 m.(stack))))
  end.
Fixpoint exec_all (effect : handler -> list Z -> outcome) (code : list instr) (m : machine) : option machine :=
  match code with [] => Some m | i :: code => m ← exec effect i m; exec_all effect code m end.

(** *** What the stub of a vector has to do *)

(** [registers_t] (include/task.h), the lowest address first. *)
Definition frame (r : reg -> Z) (int_num error_code : Z) (cpu : list Z) : list Z :=
  [r R15; r R14; r R13; r R12; r R11; r R10; r R9; r R8; r RDI; r RSI; r RBP; r RDX; r RCX; r RBX; r RAX; int_num;
   error_code] ++ cpu.
(** The exceptions for which the processor pushes an error code. *)
Definition has_error_code (v : Z) : bool :=
  (v =? 8) || ((10 <=? v) && (v <=? 14)) || (v =? 17) || (v =? 21) || (v =? 29) || (v =? 30).
(** Who handles a vector: the exceptions, the page fault, the interrupts of the
    remapped PIC (IRQ 0, 1 and 12), of the local APIC, and the system call. *)
Definition handler_of (v : Z) : option handler :=
  if v =? 14 then Some page_fault_handler
  else if v <? 32 then Some exception_handler
  else if v =? 32 + 0 then Some timer_handler
  else if v =? 32 + 1 then Some keyboard_handler
  else if v =? 32 + 12 then Some mouse_handler
  else if v =? 0x80 then Some syscall_handler
  else if v =? 0xF0 then Some lapic_timer_handler
  else if v =? 0xFD then Some lapic_reschedule_handler
  else None.
Definition takes_frame (h : handler) : bool := match h with keyboard_handler | mouse_handler => false | _ => true end.
Definition switches (h : handler) : bool :=
  match h with timer_handler | lapic_timer_handler | lapic_reschedule_handler => true | _ => false end.

(** The stub [s] serves vector [v]: entered with the registers [r] and what the
    processor pushed, it calls the handler of the vector with a [registers_t] that
    has the registers, the number [v] and the error code (0 if there is none); when
    the handler leaves a [registers_t] there, or in the stack it returns where it
    switches tasks, the registers of that frame are loaded and [iretq] takes its
    last five fields. *)
Definition serves (v : Z) (s : stub) : Prop :=
  forall effect r err rip cs rflags rsp ss rest,
    let cpu := [rip; cs; rflags; rsp; ss] in
    let pushed := (if has_error_code v then [err] else []) ++ cpu ++ rest in
    let seen := frame r v (if has_error_code v then err else 0) cpu ++ rest in
    exists h, handler_of v = Some h /\
    forall r' n' e' rip' cs' rflags' rsp' ss' rest' left,
      left = (if switches h then o_rax (effect h seen) else o_stack (effect h seen)) ->
      left = frame r' n' e' [rip'; cs'; rflags'; rsp'; ss'] ++ rest' ->
      exists m, exec_all effect (stub_code s) (mk_machine r pushed [] None None None) = Some m /\
        called m = Some (h, if takes_frame h then Some seen else None) /\
        (forall x, regs m x = r' x) /\ resumed m = Some [rip'; cs'; rflags'; rsp'; ss'].

(** ** The table *)

(** The calls of [idt_set_gate], in order. *)
Definition gates : list (Z * stub * Z) :=
  [(0, isr0_stub, 0x8E); (1, isr1_stub, 0x8E); (2, isr2_stub, 0x8E); (3, isr3_stub, 0x8E); (4, isr4_stub, 0x8E);
   (5, isr5_stub, 0x8E); (6, isr6_stub, 0x8E); (7, isr7_stub, 0x8E); (8, isr8_stub, 0x8E); (10, isr10_stub, 0x8E);
   (11, isr11_stub, 0x8E); (12, isr12_stub, 0x8E); (13, isr13_stub, 0x8E); (14, isr14_stub, 0x8E);
   (32, timer_isr_stub, 0x8E); (33, keyboard_isr_stub, 0x8E); (44, mouse_isr_stub, 0x8E);
   (240, lapic_timer_isr_stub, 0x8E); (253, reschedule_isr_stub, 0x8E); (128, isr128_stub, 0xEE)].

Definition init_idt (address : stub -> Z) : Z * gmap Z idt_entry :=
  (16 * 256 - 1, foldl (fun idt g => idt_set_gate idt g.1.1 (address g.1.2) 0x08 g.2) ∅ gates).

(** ** What the processor reads *)

Definition gate (idt : gmap Z idt_entry) (v : Z) : idt_entry := default idt_zero (idt !! v).
Definition present (g : idt_entry) : bool := Z.testbit g.(flags) 7.
Definition gate_dpl (g : idt_entry) : Z := g.(flags) / 32 mod 4.
Definition target (g : idt_entry) : Z := g.(base_lo) + 65536 * g.(base_mid) + 4294967296 * g.(base_hi).

(** The fields fit the structure. *)
Definition typed (g : idt_entry) : Prop :=
  0 <= g.(base_lo) < 2 ^ 16 /\ 0 <= g.(sel) < 2 ^ 16 /\ 0 <= g.(ist) < 2 ^ 8 /\ 0 <= g.(flags) < 2 ^ 8 /\
  0 <= g.(base_mid) < 2 ^ 16 /\ 0 <= g.(base_hi) < 2 ^ 32 /\ g.(reserved) = 0.

Lemma set_gate_target idt num base s f : 0 <= base < 2 ^ 64 -> target (gate (idt_set_gate idt num base s f) num) = base.
Proof.
  intros Hb. unfold gate, idt_set_gate. rewrite lookup_insert_eq. unfold target. cbn.
  change 0xFFFF with (2 ^ 16 - 1). change 0xFFFFFFFF with (2 ^ 32 - 1).
  rewrite !Bytes.land_ones_mod, !Z.shiftr_div_pow2 by lia. unfold wrap. divlia.
Qed.

(** The gate that the list [gs] gives a vector, the last call counting. *)
Lemma gates_fold address gs idt v :
  NoDup ((fun g => g.1.1) <$> gs) ->
  gate (foldl (fun idt g => idt_set_gate idt g.1.1 (address g.1.2) 0x08 g.2) idt gs) v =
  match List.find (fun g : Z * stub * Z => g.1.1 =? v) gs with
  | Some g => gate (idt_set_gate ∅ v (address g.1.2) 0x08 g.2) v
  | None => gate idt v
  end.
Proof.
  revert idt. induction gs as [|[[n st] f] gs IH]; intros idt Hn; [done|]. cbn [foldl List.find fst snd fmap list_fmap] in *.
  apply NoDup_cons in Hn as [Hni Hn]. rewrite IH by done. destruct (Z.eqb_spec n v) as [->|Hne].
  - destruct (List.find _ gs) as [[[n' st'] f']|] eqn:Ef.
    + exfalso. apply find_some in Ef as [Hin E]. apply Z.eqb_eq in E. cbn in E. subst. apply Hni.
      apply list_elem_of_fmap. exists (v, st', f'). split; [done|]. by apply list_elem_of_In.
    + unfold gate, idt_set_gate. by rewrite !lookup_insert_eq.
  - destruct (List.find _ gs); [done|]. unfold gate, idt_set_gate. by rewrite lookup_insert_ne.
Qed.

Lemma exec_all_app effect c1 c2 m :
  exec_all effect (c1 ++ c2) m = (m' ← exec_all effect c1 m; exec_all effect c2 m').
Proof. revert m. induction c1 as [|i c1 IH]; intros m; [done|]. cbn [app exec_all]. destruct (exec effect i m); [apply IH|done]. Qed.

Lemma POPA64_loads effect r st rs fa cd rd r' n e cpu :
  st = frame r' n e cpu ->
  exists r'', exec_all effect POPA64 (mk_machine r st rs fa cd rd) = Some (mk_machine r'' (n :: e :: cpu) rs fa cd rd) /\
    forall x, r'' x = r' x.
Proof.
  intros ->. exists (foldl (fun f x => upd f x (r' x)) r
    [R15; R14; R13; R12; R11; R10; R9; R8; RDI; RSI; RBP; RDX; RCX; RBX; RAX]).
  split; [reflexivity|]. intros []; reflexivity.
Qed.

(** A stub that pushes [v] and an error code, saves the registers, calls [h], loads
    the registers and returns. *)
Lemma stub_runs effect pre mid v e h arg r pushed cpu rest m1 r' n' e' rip' cs' rflags' rsp' ss' rest' :
  exec_all effect pre (mk_machine r pushed [] None None None) = Some (mk_machine r (v :: e :: cpu ++ rest) [] None None None) ->
  exec_all effect mid (mk_machine r (frame r v e cpu ++ rest) [] None None None) = Some m1 ->
  called m1 = Some (h, arg) -> stack m1 = frame r' n' e' [rip'; cs'; rflags'; rsp'; ss'] ++ rest' ->
  exists m, exec_all effect (pre ++ PUSHA64 ++ mid ++ POPA64 ++ [add_rsp 16; iretq])
      (mk_machine r pushed [] None None None) = Some m /\
    called m = Some (h, arg) /\ (forall x, regs m x = r' x) /\ resumed m = Some [rip'; cs'; rflags'; rsp'; ss'].
Proof.
  intros Hpre Hmid Hc Hs. rewrite exec_all_app, Hpre. cbn [mbind option_bind]. rewrite exec_all_app.
  change (exec_all effect PUSHA64 _) with (Some (mk_machine r (frame r v e cpu ++ rest) [] None None None)).
  cbn [mbind option_bind]. rewrite exec_all_app, Hmid. cbn [mbind option_bind]. rewrite exec_all_app.
  destruct m1 as [r1 st1 rs1 fa1 cd1 rd1]. cbn [called stack] in Hc, Hs. subst.
  destruct (POPA64_loads effect r1 (frame r' n' e' [rip'; cs'; rflags'; rsp'; ss'] ++ rest') rs1 fa1 (Some (h, arg)) rd1 r' n' e'
    ([rip'; cs'; rflags'; rsp'; ss'] ++ rest') eq_refl) as (r2 & -> & Hr2).
  cbn [mbind option_bind]. eexists. split; [reflexivity|]. split; [reflexivity|]. split; [exact Hr2|reflexivity].
Qed.

(** Every gate leads to a stub that serves its vector. *)
Lemma gates_serve v s f : (v, s, f) ∈ gates -> serves v s.
Proof.
  intros Hin. unfold gates in Hin.
  repeat (apply elem_of_cons in Hin as [[= -> -> ->]|Hin];
    [intros effect r err rip cs rflags rsp ss rest; cbv zeta; eexists; split; [reflexivity|];
     intros r' n' e' rip' cs' rflags' rsp' ss' rest' left -> El;
     eapply stub_runs; [reflexivity|reflexivity|reflexivity|exact El]|]).
  by apply not_elem_of_nil in Hin.
Qed.

(** The vectors the kernel needs: the exceptions of the list in idt.c, the
    interrupts of the PIC and the local APIC, the reschedule request, the system
    call. *)
Definition needed (v : Z) : bool :=
  ((0 <=? v) && (v <=? 14) && negb (v =? 9)) || (v =? 32) || (v =? 33) || (v =? 44) || (v =? 0xF0) || (v =? 0xFD) || (v =? 0x80).

(** The flags of the gates, and the fields of one. *)
Lemma gate_flags v s f : (v, s, f) ∈ gates -> (f = 0x8E /\ v <> 128) \/ (f = 0xEE /\ v = 128).
Proof.
  intros Hin. unfold gates in Hin.
  repeat (apply elem_of_cons in Hin as [[= -> -> ->]|Hin]; [first [left; split; [reflexivity|lia]|right; split; reflexivity]|]).
  by apply not_elem_of_nil in Hin.
Qed.
Lemma set_gate_typed base s f : 0 <= s < 2 ^ 16 -> 0 <= f < 2 ^ 8 ->
  typed (mk_idt (u16 (Z.land base 0xFFFF)) s 0 f (u16 (Z.land (Z.shiftr base 16) 0xFFFF))
    (u32 (Z.land (Z.shiftr base 32) 0xFFFFFFFF)) 0).
Proof. intros. unfold typed. cbn. split_and!; try apply wrap_bound; lia. Qed.
Lemma needed_gates v : needed v = existsb (fun g : Z * stub * Z => g.1.1 =? v) gates.
Proof.
  apply eq_true_iff_eq. unfold needed. cbn [existsb gates fst].
  rewrite !orb_true_iff, !andb_true_iff, negb_true_iff, !Z.eqb_eq, !Z.leb_le, Z.eqb_neq. lia.
Qed.

(** C38. The interrupt table that [init_idt] builds is well typed; the vectors
    present are the exceptions 0 to 14 but 9, IRQ 0, 1 and 12, the local APIC's
    timer and reschedule vectors and the system call; each of them is an interrupt
    gate (which clears the interrupt flag) through the kernel code selector to a
    stub whose code serves the vector: it builds a [registers_t] with the vector's
    number and the error code, calls the vector's handler with it and restores the
    frame the handler leaves; ring 3 may call vector 128 only. *)
Theorem idt_wellformed address v :
  (forall s, 0 <= address s < 2 ^ 64) ->
  let g := gate (init_idt address).2 v in
  typed g /\
  (present g = needed v) /\
  (present g = true -> sel g = 0x08 /\ flags g mod 16 = 0xE /\ exists s, target g = address s /\ serves v s) /\
  (present g = true /\ gate_dpl g = 3 <-> v = 128).
Proof.
  intros Ha g. unfold g, init_idt. cbn [snd].
  assert (NoDup ((fun g : Z * stub * Z => g.1.1) <$> gates)) as Hnd by (apply (bool_decide_unpack _); vm_compute; exact I).
  rewrite gates_fold, needed_gates by done.
  destruct (List.find _ gates) as [[[n st] f]|] eqn:Ef.
  - assert (existsb (fun g : Z * stub * Z => g.1.1 =? v) gates = true) as -> by (apply existsb_exists; eexists; exact (find_some _ _ Ef)).
    apply find_some in Ef as [Hin%list_elem_of_In E]. apply Z.eqb_eq in E. cbn in E. subst n. cbn [fst snd].
    pose proof (gates_serve _ _ _ Hin) as Hsv. apply gate_flags in Hin as Hf.
    pose proof (set_gate_target ∅ v (address st) 0x08 f (Ha st)) as Et.
    unfold gate, idt_set_gate in Et |- *. rewrite lookup_insert_eq in Et |- *. cbn [default] in Et |- *. split_and!.
    + apply set_gate_typed; [lia|]. destruct Hf; lia.
    + unfold present. cbn [flags]. by destruct Hf as [[-> _]|[-> _]].
    + intros _. cbn [sel flags]. split; [done|]. split; [by destruct Hf as [[-> _]|[-> _]]|]. by exists st.
    + unfold present, gate_dpl. cbn [flags]. destruct Hf as [[-> ?]|[-> ?]]; split; try done. intros [_ Hd]. discriminate Hd.
  - assert (existsb (fun g : Z * stub * Z => g.1.1 =? v) gates = false) as ->.
    { apply not_true_iff_false. intros (g' & Hin & E)%existsb_exists. by rewrite (find_none _ _ Ef _ Hin) in E. }
    change (gate ∅ v) with idt_zero. split_and!; [unfold typed; cbn; lia|done|done|]. split; [by intros [? _]|].
    intros ->. discriminate Ef.
Qed.

(** The page fault: vector 14. *)
Lemma idt_wellformed_witness :
  let g := gate (init_idt (fun _ => 0xFFFFFFFF80001234)).2 14 in
  target g = 0xFFFFFFFF80001234 /\ exists s, serves 14 s.
Proof.
  destruct (idt_wellformed (fun _ => 0xFFFFFFFF80001234) 14 ltac:(intros; lia)) as (_ & Hp & Hs & _).
  destruct (Hs Hp) as (_ & _ & s & Ht & Hv). split; [exact Ht|]. exists s. exact Hv.
Defined.
End Idt.
