(* ===== verification/Smp.v ===== *)
(** * Local APIC, start of the other processors and processor features
      (src/arch/x86/lapic.c, src/kernel/smp/smp.c, src/kernel/cpu.c)

    The per-processor records are part of the scheduler's state ([Sched]).  The
    registers of a local APIC that the code reads, the answers of [cpuid] and
    the control registers are arguments; what is written is recorded in order.
    Messages on the console are left out. *)

From S2P Require Import Prelude KString Bytes Sched SchedSpec SchedOps SchedThm Tables.
From stdpp Require Import base numbers list gmap.
From Stdlib Require Import ZArith Lia.

#[local] Open Scope list_scope.
#[local] Open Scope Z_scope.

Module Lapic.
Import Sched SchedOps.

Definition IA32_APIC_BASE_ENABLE : Z := Z.shiftl 1 11.
Definition LAPIC_REG_EOI : Z := 0x0B0.
Definition LAPIC_REG_SVR : Z := 0x0F0.
Definition LAPIC_REG_LVT_TIMER : Z := 0x320.
Definition LAPIC_REG_TIMER_INIT : Z := 0x380.
Definition LAPIC_REG_TIMER_DIVIDE : Z := 0x3E0.
Definition LAPIC_REG_ICR_LOW : Z := 0x300.
Definition LAPIC_REG_ICR_HIGH : Z := 0x310.
Definition LAPIC_ICR_FIXED : Z := 0.
Definition LAPIC_ICR_DELIVERY_PEND : Z := Z.shiftl 1 12.
Definition LAPIC_SVR_ENABLE : Z := 0x100.
Definition LAPIC_TIMER_PERIODIC : Z := Z.shiftl 1 17.
Definition LAPIC_SPURIOUS_VECTOR : Z := 0xFF.
Definition LAPIC_TIMER_INIT_COUNT : Z := 1000000.
Definition LAPIC_TIMER_VECTOR : Z := 0xF0.
Definition LAPIC_RESCHEDULE_VECTOR : Z := 0xFD.

(** [writes] are the registers written, in order; the read that follows every
    write has no effect. *)
Record lapic := mk_lapic { lapic_mmio : Z; lapic_ticks : Z; writes : list (Z * Z) }.

Definition lapic_write (l : lapic) (reg value : Z) : lapic :=
  mk_lapic l.(lapic_mmio) l.(lapic_ticks) (l.(writes) ++ [(reg, u32 value)]).

(** The new state and the value written back to the base register. *)
Definition lapic_enable (hhdm : Z) (l : lapic) (apic_base : Z) : lapic * Z :=
  let phys := Z.land apic_base 0xFFFFFFFFFFFFF000 in
  let l := mk_lapic (if l.(lapic_mmio) =? 0 then u64 (phys + hhdm) else l.(lapic_mmio)) l.(lapic_ticks) l.(writes) in
  (lapic_write l LAPIC_REG_SVR (Z.lor LAPIC_SVR_ENABLE LAPIC_SPURIOUS_VECTOR), Z.lor apic_base IA32_APIC_BASE_ENABLE).

Definition lapic_timer_start (l : lapic) : lapic :=
  let l := lapic_write l LAPIC_REG_TIMER_DIVIDE 0x3 in
  let l := lapic_write l LAPIC_REG_LVT_TIMER (Z.lor LAPIC_TIMER_PERIODIC LAPIC_TIMER_VECTOR) in
  lapic_write l LAPIC_REG_TIMER_INIT LAPIC_TIMER_INIT_COUNT.

Definition lapic_init_bsp (hhdm : Z) (l : lapic) (apic_base : Z) : lapic * Z :=
  let '(l, msr) := lapic_enable hhdm l apic_base in (lapic_timer_start l, msr).
Definition lapic_init_ap (hhdm : Z) (l : lapic) (apic_base : Z) : lapic * Z :=
  let '(l, msr) := lapic_enable hhdm l apic_base in (lapic_timer_start l, msr).

Definition lapic_eoi (l : lapic) : lapic := if l.(lapic_mmio) =? 0 then l else lapic_write l LAPIC_REG_EOI 0.

(** [id_reg] is the identification register of the executing processor. *)
Definition read_lapic_id (l : lapic) (id_reg : Z) : Z := if l.(lapic_mmio) =? 0 then 0 else Z.shiftr (u32 id_reg) 24.
Definition lapic_timer_ticks (l : lapic) : Z := l.(lapic_ticks).

(** The wait for an earlier interrupt; [icr k] is the [k]-th value read.  The
    result is the number of turns. *)
Fixpoint icr_wait (timeout : nat) (k : nat) (icr : nat -> Z) : nat :=
  match timeout with
  | O => k
  | S timeout => if Z.land (icr k) LAPIC_ICR_DELIVERY_PEND =? 0 then k else icr_wait timeout (S k) icr
  end.

(** [smp_get_cpu]: [None] is NULL. *)
Definition smp_get_cpu (s : sched) (c : Z) : option percpu_t := if SMP_MAX_CPUS <=? c then None else Some (percpu s c).

Definition lapic_send_reschedule (l : lapic) (s : sched) (c : Z) : lapic :=
  match smp_get_cpu s c with
  | None => l
  | Some target =>
      if target.(online) =? 0 then l
      else if l.(lapic_mmio) =? 0 then l
      else
        let l := lapic_write l LAPIC_REG_ICR_HIGH (Z.shiftl target.(Sched.lapic_id) 24) in
        lapic_write l LAPIC_REG_ICR_LOW (Z.lor LAPIC_ICR_FIXED LAPIC_RESCHEDULE_VECTOR)
  end.

Definition lapic_timer_handler (l : lapic) (s : sched) (id_reg regs : Z) : lapic * sched * Z :=
  let l := lapic_eoi (mk_lapic l.(lapic_mmio) (u64 (l.(lapic_ticks) + 1)) l.(writes)) in
  let c := smp_current_cpu_index s (read_lapic_id l id_reg) in
  if c =? 0 then (l, s, regs) else let '(s, r) := schedule_on_cpu s c regs in (l, s, r).

Definition lapic_reschedule_handler (l : lapic) (s : sched) (id_reg regs : Z) : lapic * sched * Z :=
  let l := lapic_eoi l in
  let c := smp_current_cpu_index s (read_lapic_id l id_reg) in
  if negb (smp_reschedule_pending s c) then (l, s, regs) else let '(s, r) := schedule_on_cpu s c regs in (l, s, r).

(** ** The interrupts keep the scheduler's invariant *)

Lemma current_index_ok s lapic : cpu_ok (smp_current_cpu_index s lapic).
Proof.
  unfold smp_current_cpu_index, cpu_ok. destruct (find_loop _ _ _) as [i|] eqn:E; [|cbn; unfold SMP_MAX_CPUS; lia].
  apply find_loop_Some in E as (Hi & _). cbn. exact Hi.
Qed.

(** Both interrupt handlers keep the invariant of the scheduler and
    acknowledge the interrupt exactly once; the timer of the boot processor does
    not schedule, and a reschedule interrupt without a request changes
    nothing. *)
Theorem lapic_interrupts_safe l s pend id_reg regs :
  sched_inv s pend -> l.(lapic_mmio) <> 0 ->
  let c := smp_current_cpu_index s (Z.shiftr (u32 id_reg) 24) in
  (let '(l', s', _) := lapic_timer_handler l s id_reg regs in
   sched_inv s' pend /\ writes l' = writes l ++ [(LAPIC_REG_EOI, 0)] /\ (c = 0 -> s' = s)) /\
  (let '(l', s', r) := lapic_reschedule_handler l s id_reg regs in
   sched_inv s' pend /\ writes l' = writes l ++ [(LAPIC_REG_EOI, 0)] /\
   (smp_reschedule_pending s c = false -> s' = s /\ r = regs)).
Proof.
  intros Hi Hm c. pose proof (current_index_ok s (Z.shiftr (u32 id_reg) 24)) as Hc. fold c in Hc.
  unfold lapic_timer_handler, lapic_reschedule_handler, lapic_eoi, read_lapic_id, lapic_write. cbn [lapic_mmio writes lapic_ticks].
  rewrite (proj2 (Z.eqb_neq _ _) Hm). cbn [lapic_mmio writes lapic_ticks]. rewrite (proj2 (Z.eqb_neq _ _) Hm). fold c.
  pose proof (schedule_inv s c regs pend Hi Hc) as Hs. split.
  - destruct (Z.eqb_spec c 0) as [E|E]; [splits|]. destruct (schedule_on_cpu s c regs) as [s' r]. splits.
  - destruct (smp_reschedule_pending s c) eqn:E; cbn [negb]; [|splits].
    destruct (schedule_on_cpu s c regs) as [s' r]. splits.
Qed.

Lemma lapic_interrupts_safe_witness :
  let '(_, s', _) := lapic_timer_handler (mk_lapic 0xFEE00000 0 []) SchedThm.demo_boot 0 0x5000 in sched_inv s' [].
Proof.
  pose proof (lapic_interrupts_safe (mk_lapic 0xFEE00000 0 []) SchedThm.demo_boot [] 0 0x5000 SchedThm.demo_boot_inv ltac:(discriminate))
    as [H _]. destruct (lapic_timer_handler _ _ _ _) as [[l' s'] r]. apply H.
Defined.

(** The interrupt goes to the target's own local APIC and, there, to the stub
    that schedules; a processor that is not online gets none. *)
Lemma send_reschedule_reaches l s c :
  cpu_ok c -> l.(lapic_mmio) <> 0 -> 0 <= (percpu s c).(Sched.lapic_id) < 256 ->
  writes (lapic_send_reschedule l s c) =
    (if (percpu s c).(online) =? 0 then writes l
     else writes l ++ [(LAPIC_REG_ICR_HIGH, (percpu s c).(Sched.lapic_id) * 2 ^ 24); (LAPIC_REG_ICR_LOW, LAPIC_RESCHEDULE_VECTOR)]) /\
  (LAPIC_RESCHEDULE_VECTOR, Idt.reschedule_isr_stub, 0x8E) ∈ Idt.gates /\
  (LAPIC_TIMER_VECTOR, Idt.lapic_timer_isr_stub, 0x8E) ∈ Idt.gates.
Proof.
  intros [Hc0 Hc] Hm Hid. split; [|split; apply list_elem_of_In; cbn; tauto].
  unfold lapic_send_reschedule, smp_get_cpu. rewrite (proj2 (Z.leb_gt _ _) Hc). destruct (_ =? 0); [done|].
  rewrite (proj2 (Z.eqb_neq _ _) Hm). cbn [lapic_write writes]. rewrite <- app_assoc. cbn [app].
  rewrite Z.shiftl_mul_pow2, wrap_small by lia. done.
Qed.

(** No gate is installed for the vector that spurious interrupts use. *)
Lemma spurious_vector_absent address : Idt.present (Idt.gate (Idt.init_idt address).2 LAPIC_SPURIOUS_VECTOR) = false.
Proof. reflexivity. Qed.
End Lapic.

Module Smp.
Import Sched SchedOps.

(** What the boot loader reports of a processor. *)
Record mp_info := mk_mp { mp_processor_id : Z; mp_lapic_id : Z }.

(** One turn of the loop of [smp_init]: the scheduler's state, the number of
    processors started so far and the list of (slot, processor) handed to the
    entry code. *)
Definition smp_start_one (bsp : Z) (cpu : option mp_info) (x : sched * Z * list (Z * mp_info)) : sched * Z * list (Z * mp_info) :=
  let '(s, ap_slot, started) := x in
  match cpu with
  | None => x
  | Some cpu =>
      if cpu.(mp_lapic_id) =? bsp then (smp_register_cpu s 0 cpu.(mp_processor_id) cpu.(mp_lapic_id) 1, ap_slot, started)
      else
        let ap_slot := u32 (ap_slot + 1) in
        (smp_register_cpu s ap_slot cpu.(mp_processor_id) cpu.(mp_lapic_id) 0, ap_slot, started ++ [(ap_slot, cpu)])
  end.

Fixpoint smp_start_loop (bsp : Z) (cpus : list (option mp_info)) (x : sched * Z * list (Z * mp_info)) : sched * Z * list (Z * mp_info) :=
  match cpus with
  | [] => x
  | cpu :: cpus => if x.1.2 + 1 <? SMP_MAX_CPUS then smp_start_loop bsp cpus (smp_start_one bsp cpu x) else x
  end.

(** [mp] is [None] for a missing response; [bsp_id] is the id that the boot
    processor reads from its own local APIC.  The final wait has no effect. *)
Definition smp_init (s : sched) (bsp_id : Z) (mp : option (Z * list (option mp_info))) : sched * list (Z * mp_info) :=
  let s := smp_register_cpu s 0 0 bsp_id 1 in
  match mp with
  | None => (s, [])
  | Some (bsp, cpus) => let '(s, _, started) := smp_start_loop bsp cpus (s, 0, []) in (s, started)
  end.

(** The part of [smp_ap_main] that other processors see. *)
Definition smp_ap_main (s : sched) (cpu_index cr3 : Z) : sched :=
  smp_set_cpu_online (set_cr3 s cpu_index (Z.land cr3 0xFFFFFFFFFFFFF000)) cpu_index.

(** The task state segment that the processor loads before. *)
Definition ap_tss (s : sched) (tss : gmap Z Gdt.tss_entry_struct) (cpu_index : Z) : gmap Z Gdt.tss_entry_struct * option Z :=
  (Gdt.tss_set_rsp0 tss cpu_index (task_syscall_stack_top s cpu_index), Gdt.tss_load_cpu cpu_index).

(** ** Every processor finds its own record *)

Lemma percpu_upd s c f c' : cpu_ok c -> percpu (upd_percpu s c f) c' = if c' =? c then f (percpu s c) else percpu s c'.
Proof.
  intros [_ Hc]. unfold upd_percpu. rewrite (proj2 (Z.leb_gt _ _) Hc). unfold percpu, set_percpu. cbn [smp_percpu].
  destruct (Z.eqb_spec c' c) as [->|]; [by rewrite lookup_insert_eq|by rewrite lookup_insert_ne].
Qed.

(** The records of the processors started so far, before any is online. *)
Record started_inv (bsp : Z) (s : sched) (n : Z) (l : list (Z * mp_info)) : Prop := {
  si_n : n = Z.of_nat (length l) /\ n < 16;
  si_bsp : Sched.lapic_id (percpu s 0) = bsp /\ online (percpu s 0) = 1;
  si_slot : forall k x, l !! k = Some x -> x.1 = Z.of_nat k + 1 /\ Sched.lapic_id (percpu s x.1) = mp_lapic_id x.2 /\ mp_lapic_id x.2 <> bsp;
  si_off : forall c, 0 < c < 16 -> online (percpu s c) = 0;
  si_count : smp_cpu_online_count s = 1;
}.

Lemma upd_percpu_count s c f : smp_cpu_online_count (upd_percpu s c f) = smp_cpu_online_count s.
Proof. unfold upd_percpu. by destruct (SMP_MAX_CPUS <=? c). Qed.

Lemma start_one_inv bsp cpu s n l :
  started_inv bsp s n l -> n + 1 < 16 ->
  let '(s', n', l') := smp_start_one bsp cpu (s, n, l) in
  started_inv bsp s' n' l' /\
  l'.*2 = l.*2 ++ filter (fun i => mp_lapic_id i <> bsp) (option_list cpu).
Proof.
  intros [[En Hn] [B1 B2] Hs Ho Hc] Hlt. unfold smp_start_one. destruct cpu as [cpu|]; [|by rewrite app_nil_r].
  change (option_list (Some cpu)) with [cpu]. rewrite filter_cons. destruct (Z.eqb_spec (mp_lapic_id cpu) bsp) as [Eb|Eb].
  - rewrite decide_False by tauto. rewrite app_nil_r. split; [|done]. unfold smp_register_cpu.
    assert (cpu_ok 0) as H0 by (unfold cpu_ok, SMP_MAX_CPUS; lia). split; [done| | | |by rewrite upd_percpu_count].
    + by rewrite percpu_upd.
    + intros k x Hk. destruct (Hs k x Hk) as (E1 & E2 & E3). rewrite percpu_upd, (proj2 (Z.eqb_neq _ 0)) by (done || lia). done.
    + intros c Hr. rewrite percpu_upd, (proj2 (Z.eqb_neq _ 0)) by (done || lia). by apply Ho.
  - rewrite decide_True by done. split; [|by rewrite fmap_app]. rewrite wrap_small by lia. unfold smp_register_cpu.
    assert (cpu_ok (n + 1)) as H1 by (unfold cpu_ok, SMP_MAX_CPUS; lia). split; [| | | |by rewrite upd_percpu_count].
    + rewrite length_app. cbn. lia.
    + rewrite percpu_upd by done. rewrite (proj2 (Z.eqb_neq 0 _)) by lia. done.
    + intros k x Hk. rewrite percpu_upd by done. apply lookup_app_Some in Hk as [Hk|[Hge Hk]].
      * destruct (Hs k x Hk) as (E1 & E2 & E3). pose proof (lookup_lt_Some _ _ _ Hk).
        rewrite (proj2 (Z.eqb_neq _ (n + 1))) by lia. done.
      * apply list_lookup_singleton_Some in Hk as [Hk <-]. cbn [fst snd]. rewrite Z.eqb_refl. cbn. splits.
    + intros c Hr. rewrite percpu_upd by done. destruct (Z.eqb_spec c (n + 1)); [done|by apply Ho].
Qed.

Lemma start_loop_inv bsp cpus s n l :
  started_inv bsp s n l ->
  let '(s', n', l') := smp_start_loop bsp cpus (s, n, l) in
  started_inv bsp s' n' l' /\ exists k, l'.*2 = l.*2 ++ take k (filter (fun i => mp_lapic_id i <> bsp) (omap (fun x => x) cpus)).
Proof.
  revert s n l. induction cpus as [|cpu cpus IH]; intros s n l Hi; [split; [done|]; exists 0%nat; by rewrite take_0, app_nil_r|].
  cbn [smp_start_loop fst snd]. unfold SMP_MAX_CPUS. destruct (Z.ltb_spec (n + 1) 16); [|split; [done|]; exists 0%nat; by rewrite take_0, app_nil_r].
  pose proof (start_one_inv bsp cpu s n l Hi ltac:(done)) as H1. destruct (smp_start_one bsp cpu (s, n, l)) as [[s1 n1] l1].
  destruct H1 as [Hi1 E1]. specialize (IH s1 n1 l1 Hi1). destruct (smp_start_loop bsp cpus (s1, n1, l1)) as [[s2 n2] l2].
  destruct IH as [Hi2 [k Ek]]. split; [done|]. rewrite E1 in Ek.
  assert (filter (fun i => mp_lapic_id i <> bsp) (omap (fun x => x) (cpu :: cpus)) =
    filter (fun i => mp_lapic_id i <> bsp) (option_list cpu) ++ filter (fun i => mp_lapic_id i <> bsp) (omap (fun x => x) cpus)) as ->.
  { destruct cpu as [c|]; [exact (list.filter_app _ [c] _)|done]. }
  exists (length (filter (fun i => mp_lapic_id i <> bsp) (option_list cpu)) + k)%nat.
  rewrite Ek, <- app_assoc. f_equal. by rewrite take_app_add.
Qed.

(** The records once the processors [on] have run [smp_ap_main]. *)
Record running_inv (bsp : Z) (s : sched) (l : list (Z * mp_info)) (on : list Z) : Prop := {
  rn_bsp : Sched.lapic_id (percpu s 0) = bsp /\ online (percpu s 0) = 1;
  rn_slot : forall x, x ∈ l -> Sched.lapic_id (percpu s x.1) = mp_lapic_id x.2;
  rn_on : forall c, 0 < c < 16 -> online (percpu s c) = if bool_decide (c ∈ on) then 1 else 0;
  rn_count : smp_cpu_online_count s = 1 + Z.of_nat (length on);
}.

Lemma ap_main_inv bsp s l on c cr3 :
  running_inv bsp s l on -> 0 < c < 16 -> c ∉ on -> (length on < 16)%nat -> running_inv bsp (smp_ap_main s c cr3) l (on ++ [c]).
Proof.
  intros [[B1 B2] Hs Ho Hn] Hc Hnot Hl. assert (cpu_ok c) as Hok by (unfold cpu_ok, SMP_MAX_CPUS; lia).
  unfold smp_ap_main, set_cr3. set (s1 := upd_percpu s c _).
  assert (forall c', percpu s1 c' = if c' =? c then mk_percpu (processor_id (percpu s c)) (Sched.lapic_id (percpu s c)) (online (percpu s c))
    (reschedule_pending (percpu s c)) (idle_ticks (percpu s c)) (scheduler_ticks (percpu s c)) (Z.land cr3 0xFFFFFFFFFFFFF000) else percpu s c') as E1
    by (intros c'; unfold s1; by rewrite percpu_upd).
  assert (online (percpu s1 c) = 0) as Eoff.
  { rewrite E1, Z.eqb_refl. cbn. rewrite Ho by done. by rewrite bool_decide_false. }
  assert (smp_cpu_online_count s1 = 1 + Z.of_nat (length on)) as Ec by (unfold s1; by rewrite upd_percpu_count).
  unfold smp_set_cpu_online. unfold SMP_MAX_CPUS. rewrite (proj2 (Z.leb_gt 16 c)) by lia. rewrite Eoff. cbn [Z.eqb].
  assert (forall c' t, percpu (mk_sched (tasks s1) (task_count s1) (current_task s1) (cpu_current_task s1) (cpu_runqueues s1)
    (<[c := t]> (smp_percpu s1)) (u32 (smp_cpu_online_count s1 + 1)) (idle_stack_tops s1) (syscall_stack_tops s1) (kmem s1) (now_ms s1)
    (kernel_pml4_phys s1) (log s1)) c' = if c' =? c then t else percpu s1 c') as E2.
  { intros c' t. unfold percpu at 1. cbn [smp_percpu]. destruct (Z.eqb_spec c' c) as [->|]; [by rewrite lookup_insert_eq|by rewrite lookup_insert_ne]. }
  cbn [tasks task_count current_task cpu_current_task cpu_runqueues smp_percpu smp_cpu_online_count idle_stack_tops syscall_stack_tops
    kmem now_ms kernel_pml4_phys log set_percpu].
  split.
  - rewrite E2, (proj2 (Z.eqb_neq 0 c)), E1, (proj2 (Z.eqb_neq 0 c)) by lia. done.
  - intros x Hx. rewrite E2. destruct (Z.eqb_spec (fst x) c) as [E|E]; cbn [Sched.lapic_id]; rewrite E1, ?Z.eqb_refl; cbn.
    + rewrite <- E. by apply Hs.
    + rewrite (proj2 (Z.eqb_neq _ _) E). by apply Hs.
  - intros c' Hc'. rewrite E2. destruct (Z.eqb_spec c' c) as [->|Hne]; cbn [online].
    + rewrite bool_decide_true by set_solver. done.
    + rewrite E1, (proj2 (Z.eqb_neq _ _) Hne), Ho by done. erewrite bool_decide_ext; [reflexivity|]. set_solver.
  - cbn [smp_cpu_online_count]. rewrite Ec, wrap_small by lia. rewrite length_app. cbn. lia.
Qed.

Lemma ap_mains_inv bsp cr3 order s l on :
  running_inv bsp s l on -> Forall (fun c => 0 < c < 16) order -> NoDup (on ++ order) -> (length (on ++ order) <= 16)%nat ->
  running_inv bsp (foldl (fun s c => smp_ap_main s c (cr3 c)) s order) l (on ++ order).
Proof.
  revert s on. induction order as [|c order IH]; intros s on Hi Hc Hn Hl; [by rewrite app_nil_r|]. inversion Hc; subst.
  cbn [foldl]. rewrite cons_middle, app_assoc in Hn, Hl |- *. apply IH; [|done..].
  rewrite !length_app in Hl. cbn in Hl. apply ap_main_inv; [done|done| |lia].
  apply NoDup_app in Hn as (Hn & _ & _). apply NoDup_app in Hn as (_ & Hn & _). intros Hin. apply (Hn c Hin). set_solver.
Qed.

(** A processor whose id is in one online record gets the index of it. *)
Lemma current_index_unique s c lapic :
  cpu_ok c -> online (percpu s c) <> 0 -> Sched.lapic_id (percpu s c) = lapic ->
  (forall c', cpu_ok c' -> online (percpu s c') <> 0 -> Sched.lapic_id (percpu s c') = lapic -> c' = c) ->
  smp_current_cpu_index s lapic = c.
Proof.
  intros Hc Ho Hl Hu. unfold smp_current_cpu_index. destruct (find_loop _ _ _) as [i|] eqn:E; cbn.
  - apply find_loop_Some in E as (Hi & Hp & _). apply andb_true_iff in Hp as [Hp1 Hp2]. apply Hu; [done| |by apply Z.eqb_eq].
    by apply negb_true_iff, Z.eqb_neq in Hp1.
  - exfalso. rewrite find_loop_None in E. specialize (E c Hc). rewrite (proj2 (Z.eqb_neq _ _) Ho), (proj2 (Z.eqb_eq _ _) Hl) in E. done.
Qed.

(** After [smp_init] has started the processors that the boot loader reports
    and any of them have run [smp_ap_main], in any order, the number of online
    processors is right and [smp_current_cpu_index] gives the boot processor 0
    and every other one the index it was started with, provided that no two
    have the same local APIC id. *)
Theorem smp_identity s bsp cpus order cr3 s' started :
  smp_init s bsp (Some (bsp, cpus)) = (s', started) ->
  let s'' := foldl (fun s c => smp_ap_main s c (cr3 c)) s' order in
  smp_cpu_online_count s = 1 -> (forall c, 0 < c < 16 -> online (percpu s c) = 0) ->
  NoDup (mp_lapic_id <$> omap (fun x => x) cpus) -> NoDup order -> (forall c, c ∈ order -> c ∈ started.*1) ->
  smp_cpu_online_count s'' = 1 + Z.of_nat (length order) /\
  smp_current_cpu_index s'' bsp = 0 /\
  (forall c i, (c, i) ∈ started -> c ∈ order -> smp_current_cpu_index s'' (mp_lapic_id i) = c).
Proof.
  unfold smp_init. set (s0 := smp_register_cpu s 0 0 bsp 1).
  destruct (smp_start_loop bsp cpus (s0, 0, [])) as [[s1 n] l] eqn:El. intros [= <- <-]. intros Hcnt Hoff Hnd Ho Hin.
  assert (started_inv bsp s0 0 []) as H0.
  { assert (cpu_ok 0) as H0 by (unfold cpu_ok, SMP_MAX_CPUS; lia). unfold s0, smp_register_cpu.
    split; [done| |done| |by rewrite upd_percpu_count].
    - by rewrite percpu_upd.
    - intros c Hc. rewrite percpu_upd, (proj2 (Z.eqb_neq c 0)) by (done || lia). by apply Hoff. }
  pose proof (start_loop_inv bsp cpus s0 0 [] H0) as Hl. rewrite El in Hl. destruct Hl as [[[En Hn] B Hs Hx Hc1] [k Ek]]. cbn in Ek.
  assert (forall x, x ∈ l -> 0 < x.1 < 16) as Hrange.
  { intros x Hx'. apply list_elem_of_lookup in Hx' as [j Hj]. destruct (Hs j x Hj) as (-> & _). pose proof (lookup_lt_Some _ _ _ Hj). lia. }
  assert (NoDup (mp_lapic_id <$> l.*2)) as Hndl.
  { rewrite Ek. apply (sublist_NoDup _ _ Hnd). apply fmap_sublist. etrans; [apply sublist_take|apply sublist_filter]. }
  assert (forall x, x ∈ l -> mp_lapic_id x.2 <> bsp) as Hnb.
  { intros x Hx'. apply list_elem_of_lookup in Hx' as [j Hj]. by destruct (Hs j x Hj) as (_ & _ & ?). }
  assert (Forall (fun c => 0 < c < 16) order) as Hor.
  { apply Forall_forall. intros c Hc. apply Hin, list_elem_of_fmap in Hc as (x & -> & Hx'). by apply Hrange. }
  assert (running_inv bsp s1 l []) as R0.
  { split; [done| | |by rewrite Hc1].
    - intros x Hx'. apply list_elem_of_lookup in Hx' as [j Hj]. by destruct (Hs j x Hj) as (_ & ? & _).
    - intros c Hc. by apply Hx. }
  assert (length order <= 16)%nat as Hlo.
  { assert (order ⊆+ l.*1) as Hsub by (by apply NoDup_submseteq). apply submseteq_length in Hsub. rewrite length_fmap in Hsub. lia. }
  destruct (ap_mains_inv bsp cr3 order s1 l [] R0 Hor Ho Hlo) as [[B1 B2] Rs Ron Rc]. cbn [app] in *. split; [done|].
  assert (forall c, cpu_ok c -> online (percpu (foldl (fun s c => smp_ap_main s c (cr3 c)) s1 order) c) <> 0 -> c = 0 \/ exists i, (c, i) ∈ l /\ c ∈ order) as Hon.
  { intros c [Hc0 Hc] Hne. unfold SMP_MAX_CPUS in Hc. destruct (Z.eq_dec c 0) as [->|]; [by left|right].
    rewrite Ron in Hne by lia. case_bool_decide as Hco; [|done]. pose proof (Hin c Hco) as Hf.
    apply list_elem_of_fmap in Hf as ([c' i] & -> & Hx'). by exists i. }
  split.
  - apply current_index_unique; [unfold cpu_ok, SMP_MAX_CPUS; lia|by rewrite B2|done|].
    intros c Hc Hne Hid. destruct (Hon c Hc Hne) as [->|(i & Hi & _)]; [done|]. exfalso. pose proof (Rs _ Hi) as E. cbn in E.
    apply (Hnb _ Hi). cbn. congruence.
  - intros c i Hi Hco. pose proof (Hrange _ Hi) as Hr. cbn in Hr. pose proof (Rs _ Hi) as Ei. cbn in Ei.
    apply current_index_unique; [unfold cpu_ok, SMP_MAX_CPUS; lia| |done|].
    { rewrite Ron by done. by rewrite bool_decide_true. }
    intros c' Hc' Hne Hid. destruct (Hon c' Hc' Hne) as [->|(i' & Hi' & _)].
    + exfalso. apply (Hnb _ Hi). cbn. congruence.
    + pose proof (Rs _ Hi') as Ei'. cbn in Ei'. assert (mp_lapic_id i' = mp_lapic_id i) as E by congruence.
      apply list_elem_of_lookup in Hi as [j Hj]. apply list_elem_of_lookup in Hi' as [j' Hj'].
      assert (j' = j) as -> by (apply (NoDup_lookup _ j' j (mp_lapic_id i) Hndl); rewrite !list_lookup_fmap; [rewrite Hj'; cbn; by rewrite E|by rewrite Hj]).
      congruence.
Qed.

(** Three processors, the boot processor second in the list, and an empty
    entry; the last one is online first. *)
Definition demo_machine : sched := mk_sched ∅ 0 0 ∅ ∅ ∅ 1 ∅ ∅ ∅ 0 0 [].
Definition demo_cpus : list (option mp_info) := [Some (mk_mp 1 4); Some (mk_mp 0 2); None; Some (mk_mp 2 6)].

Lemma smp_identity_witness :
  let s := foldl (fun s c => smp_ap_main s c 0x1000) (smp_init demo_machine 2 (Some (2, demo_cpus))).1 [2; 1] in
  smp_cpu_online_count s = 3 /\ smp_current_cpu_index s 2 = 0 /\ smp_current_cpu_index s 6 = 2.
Proof.
  destruct (smp_identity demo_machine 2 demo_cpus [2; 1] (fun _ => 0x1000) (smp_init demo_machine 2 (Some (2, demo_cpus))).1
    [(1, mk_mp 1 4); (2, mk_mp 2 6)]) as (E1 & E2 & E3).
  - reflexivity.
  - reflexivity.
  - intros c _. reflexivity.
  - apply (bool_decide_unpack _). vm_compute. exact I.
  - apply (bool_decide_unpack _). vm_compute. exact I.
  - intros c Hc. apply list_elem_of_In in Hc. apply list_elem_of_In. cbn in *. tauto.
  - split; [exact E1|]. split; [exact E2|]. apply (E3 2 (mk_mp 2 6)); apply list_elem_of_In; cbn; tauto.
Defined.
End Smp.

Module Cpu.

Definition CR4_SMEP : Z := Z.shiftl 1 20.
Definition CR4_SMAP : Z := Z.shiftl 1 21.
Definition CR0_WP : Z := Z.shiftl 1 16.

(** [max_leaf] is EAX of leaf 0, [ebx] EBX of leaf 7.  The result: CR4 and the
    two flags. *)
Definition cpu_enable_smap_smep (max_leaf ebx cr4 g_smep g_smap : Z) : Z * Z * Z :=
  if max_leaf <? 7 then (cr4, g_smep, g_smap)
  else
    let cr4 := if negb (Z.land ebx (Z.shiftl 1 7) =? 0) then Z.lor cr4 CR4_SMEP else cr4 in
    let cr4 := if negb (Z.land ebx (Z.shiftl 1 20) =? 0) then Z.lor cr4 CR4_SMAP else cr4 in
    (cr4, Z.land (Z.shiftr ebx 7) 1, Z.land (Z.shiftr ebx 20) 1).

(** [wp_sticks]: the register keeps the bit that is written. *)
Definition cpu_verify_wp (cr0 : Z) (wp_sticks : bool) : Z * Z :=
  let cr0 := if Z.land cr0 CR0_WP =? 0 then (if wp_sticks then Z.lor cr0 CR0_WP else cr0) else cr0 in
  (cr0, if negb (Z.land cr0 CR0_WP =? 0) then 1 else 0).

(** [cpuid leaf] is (EAX, EBX, ECX, EDX). *)
Definition get_cpu_string (cpuid : Z -> Z * Z * Z * Z) (buffer : list Z) : list Z :=
  let put (buffer : list Z) (i : Z) (w : Z) := list_inserts (Z.to_nat (4 * i)) (Bytes.b32 w) buffer in
  let '(_, ebx, ecx, edx) := cpuid 0 in
  let buffer := put (put (put buffer 0 ebx) 1 edx) 2 ecx in
  let max_ext := (cpuid 0x80000000).1.1.1 in
  let buffer :=
    if 0x80000004 <=? max_ext then
      foldl (fun b i => let '(eax, ebx, ecx, edx) := cpuid (0x80000002 + i) in
                        put (put (put (put b (4 * i) eax) (4 * i + 1) ebx) (4 * i + 2) ecx) (4 * i + 3) edx) buffer (zrange 0 3)
    else <[12%nat := 0]> buffer in
  <[48%nat := 0]> buffer.

Lemma land_pow2_bit x i : 0 <= i -> negb (Z.land x (Z.shiftl 1 i) =? 0) = Z.testbit x i.
Proof.
  intros Hi. rewrite Z.shiftl_1_l. destruct (Z.testbit x i) eqn:E.
  - apply negb_true_iff, Z.eqb_neq. intros H. assert (Z.testbit (Z.land x (2 ^ i)) i = false) as Hf by (rewrite H; apply Z.bits_0).
    rewrite Z.land_spec, E, Z.pow2_bits_true in Hf by lia. done.
  - apply negb_false_iff, Z.eqb_eq. apply Z.bits_inj'. intros k Hk. rewrite Z.land_spec, Z.bits_0, Z.pow2_bits_eqb by lia.
    destruct (Z.eqb_spec i k) as [<-|]; [by rewrite E|by rewrite andb_false_r].
Qed.

Lemma lor_bit_on x i j : 0 <= i -> 0 <= j -> Z.testbit (Z.lor x (Z.shiftl 1 i)) j = Z.testbit x j || (i =? j).
Proof. intros. by rewrite Z.lor_spec, Z.shiftl_1_l, Z.pow2_bits_eqb. Qed.

(** The flags that the user-copy code tests say the truth: after
    [cpu_enable_smap_smep] on a processor whose two bits in CR4 were clear and
    that reports leaf 7, [g_smap_enabled] is 1 exactly when CR4.SMAP is on,
    [g_smep_enabled] exactly when CR4.SMEP is, no other bit of CR4 changes, and
    write protection is on when [cpu_verify_wp] returns 1. *)
Theorem cpu_features_truthful max_leaf ebx cr4 g1 g2 cr0 sticks :
  7 <= max_leaf -> Z.testbit cr4 20 = false -> Z.testbit cr4 21 = false ->
  let '(cr4', smep, smap) := cpu_enable_smap_smep max_leaf ebx cr4 g1 g2 in
  (smep = 1 <-> Z.testbit cr4' 20 = true) /\ (smap = 1 <-> Z.testbit cr4' 21 = true) /\
  (forall i, 0 <= i -> i <> 20 -> i <> 21 -> Z.testbit cr4' i = Z.testbit cr4 i) /\
  ((cpu_verify_wp cr0 sticks).2 = 1 <-> Z.testbit (cpu_verify_wp cr0 sticks).1 16 = true).
Proof.
  intros Hm H20 H21. unfold cpu_enable_smap_smep. rewrite (proj2 (Z.ltb_ge _ _)) by lia. unfold CR4_SMEP, CR4_SMAP.
  rewrite !land_pow2_bit by done.
  assert (forall k, 0 <= k -> Z.land (Z.shiftr ebx k) 1 = Z.b2z (Z.testbit ebx k)) as Hb.
  { intros k Hk. change 1 with (2 ^ 1 - 1) at 1. rewrite Bytes.land_ones_mod by lia. rewrite Z.shiftr_div_pow2 by done. symmetry. by apply Z.testbit_spec'. }
  rewrite !Hb by done. split; [|split; [|split]].
  - destruct (Z.testbit ebx 7), (Z.testbit ebx 20); cbn [Z.b2z]; rewrite ?lor_bit_on, ?H20 by done; cbn; split; (done || lia).
  - destruct (Z.testbit ebx 7), (Z.testbit ebx 20); cbn [Z.b2z]; rewrite ?lor_bit_on, ?H21 by done; cbn; split; (done || lia).
  - intros i Hi Hn1 Hn2. destruct (Z.testbit ebx 7), (Z.testbit ebx 20); rewrite ?lor_bit_on by done;
      rewrite ?(proj2 (Z.eqb_neq 20 i)), ?(proj2 (Z.eqb_neq 21 i)), ?orb_false_r by lia; done.
  - unfold cpu_verify_wp. cbn [fst snd]. unfold CR0_WP. rewrite land_pow2_bit by done. by destruct (Z.testbit _ 16).
Qed.

Lemma cpu_features_truthful_witness :
  let '(cr4', _, smap) := cpu_enable_smap_smep 13 (Z.lor (Z.shiftl 1 7) (Z.shiftl 1 20)) 0x6A0 0 0 in
  smap = 1 <-> Z.testbit cr4' 21 = true.
Proof.
  pose proof (cpu_features_truthful 13 (Z.lor (Z.shiftl 1 7) (Z.shiftl 1 20)) 0x6A0 0 0 0 true ltac:(lia) eq_refl eq_refl) as H.
  destruct (cpu_enable_smap_smep _ _ _ _ _) as [[cr4' smep] smap]. apply H.
Defined.

(** Without the brand string the bytes behind the vendor name keep what the
    caller's buffer held. *)
Lemma cpu_string_stale cpuid buffer i :
  length buffer = 64%nat -> (cpuid 0x80000000).1.1.1 < 0x80000004 -> (13 <= i < 48)%nat ->
  get_cpu_string cpuid buffer !! i = buffer !! i.
Proof.
  intros Hl Hm Hi. unfold get_cpu_string. destruct (cpuid 0) as [[[eax ebx] ecx] edx].
  rewrite (proj2 (Z.leb_gt _ _)) by lia. rewrite !list_lookup_insert_ne by lia.
  change (Z.to_nat (4 * 0)) with 0%nat. change (Z.to_nat (4 * 1)) with 4%nat. change (Z.to_nat (4 * 2)) with 8%nat.
  rewrite !list_lookup_inserts_ge by (unfold Bytes.b32; rewrite Bytes.length_le_bytes; lia). done.
Qed.
End Cpu.
