(* ===== verification/Login.v ===== *)
(** * Accounts: login and the user database
      (src/apps/login.c, and adduser, num_to_str, parse_uint and parse_ipv4 of
      src/apps/shell.c)

    Characters are [char] values; a string is the list before its terminator
    ([cstr] of the bytes of an array).  A field that does not fit its array,
    and a byte written behind the 1024-byte buffer, is [None].  [users.sys] is
    its bytes, [None] when there is no such file.

    [accounts_refine]: the file is a list of accounts; the first boot writes the
    one of root, [adduser] appends one, and a login finds the first account with
    that name and password.  [colon_locks_root_out]: what becomes of a root
    password with the separator in it. *)

From S2P Require Import Prelude KString Bytes.
From stdpp Require Import base numbers list.
From Stdlib Require Import ZArith Lia.

#[local] Open Scope list_scope.
#[local] Open Scope Z_scope.

Module Login.

Definition COLON : Z := 58.
Definition NEWLINE : Z := 10.
Definition BUFFER_SIZE : nat := 1024.

(** ** Strings and numbers *)

Fixpoint cstr (l : list Z) : list Z :=
  match l with
  | [] => []
  | c :: l => if c =? 0 then [] else c :: cstr l
  end.

Fixpoint str_match (s1 s2 : list Z) : bool :=
  match s1, s2 with
  | [], [] => true
  | a :: s1, b :: s2 => (a =? b) && str_match s1 s2
  | _, _ => false
  end.

(** [str_concat] and [str_append]. *)
Definition str_concat (dest src : list Z) : list Z := cstr dest ++ cstr src.

(** The digits as the loop stores them in [temp], the last one first; ten turns
    are enough for 32 bits. *)
Fixpoint temp_digits (fuel : nat) (num : Z) : list Z :=
  match fuel with
  | O => []
  | S fuel => if num <=? 0 then [] else (num mod 10 + 48) :: temp_digits fuel (num / 10)
  end.
Definition num_to_str (num : Z) : list Z := if num =? 0 then [48] else rev (temp_digits 10 num).

Definition digit (c : Z) : bool := (48 <=? c) && (c <=? 57).

(** The loop of [parse_uint] behind the blanks. *)
Fixpoint uint_loop (str : list Z) (value : Z) : option Z :=
  match str with
  | [] => Some value
  | c :: str => if negb (digit c) then None else uint_loop str (u32 (value * 10 + (c - 48)))
  end.
Fixpoint skip_blanks (str : list Z) : list Z :=
  match str with
  | c :: rest => if c =? 32 then skip_blanks rest else str
  | [] => []
  end.
Definition parse_uint (str : list Z) : option Z :=
  match skip_blanks str with
  | [] => None
  | str => uint_loop str 0
  end.

(** The digits of an octet; the value wraps at 32 bits. *)
Fixpoint octet_loop (p : list Z) (v : Z) : list Z * Z :=
  match p with
  | c :: rest => if digit c then octet_loop rest (u32 (v * 10 + (c - 48))) else (p, v)
  | [] => ([], v)
  end.
Fixpoint octets (n : nat) (p : list Z) : option (list Z * list Z) :=
  match n with
  | O => Some (p, [])
  | S n =>
      if negb (match p with c :: _ => digit c | [] => false end) then None
      else
        let '(p, v) := octet_loop p 0 in
        if 255 <? v then None
        else
          match n with
          | O => Some (p, [v])
          | _ => match p with
                 | c :: p => if c =? 46 then '(p, vs) ← octets n p; Some (p, v :: vs) else None
                 | [] => None
                 end
          end
  end.
(** The address in network order, and what follows it. *)
Definition parse_ipv4 (str : list Z) : option (Z * list Z) :=
  '(p, vs) ← octets 4 str;
  Some (Z.lor (Z.lor (Z.lor (KString.str vs 0) (Z.shiftl (KString.str vs 1) 8)) (Z.shiftl (KString.str vs 2) 16))
          (Z.shiftl (KString.str vs 3) 24), p).

(** ** Reading the database *)

(** The characters up to [stop] or the end. *)
Fixpoint scan_field (stop : Z) (l : list Z) : list Z * list Z :=
  match l with
  | [] => ([], [])
  | c :: rest => if (c =? stop) || (c =? 0) then ([], l) else let '(f, r) := scan_field stop rest in (c :: f, r)
  end.
Definition skip (stop : Z) (l : list Z) : list Z := match l with c :: rest => if c =? stop then rest else l | [] => [] end.
(** A field of an array of [size] bytes. *)
Definition get_field (stop : Z) (size : nat) (l : list Z) : option (list Z * list Z) :=
  let '(f, r) := scan_field stop l in if decide (length f < size)%nat then Some (f, skip stop r) else None.

Definition uid_value (f_uid : list Z) : Z := foldl (fun uid c => u32 (uid * 10 + (c - 48))) 0 f_uid.

(** The loop over the lines: the uid of the first match. *)
Fixpoint auth_loop (fuel : nat) (buffer input_user input_pass : list Z) : option (option Z) :=
  match fuel with
  | O => None
  | S fuel =>
      match buffer with
      | [] => Some None
      | c :: _ =>
          if c =? 0 then Some None
          else
            '(f_user, buffer) ← get_field COLON 32 buffer;
            '(f_pass, buffer) ← get_field COLON 32 buffer;
            '(f_uid, buffer) ← get_field NEWLINE 16 buffer;
            if str_match input_user f_user && str_match input_pass f_pass then Some (Some (uid_value f_uid))
            else auth_loop fuel buffer input_user input_pass
      end
  end.

Definition parse_auth (users_sys : option (list Z)) (input_user input_pass : list Z) : option (option Z) :=
  match users_sys with
  | None => Some None
  | Some file =>
      if decide (length file < BUFFER_SIZE)%nat then auth_loop (S (length file)) file input_user input_pass else None
  end.

(** ** Writing the database *)

Definition text_root : list Z := [114; 111; 111; 116; COLON].
(** What [first_time_setup] stores. *)
Definition setup_data (password : list Z) : list Z := str_concat (str_concat text_root password) [COLON; 48; NEWLINE].

Definition count_lines (buffer : list Z) : Z := Z.of_nat (length (filter (fun c => c = NEWLINE) (cstr buffer))).

(** [adduser]: the new contents of the file. *)
Definition add_user (file argument new_pass : list Z) : option (list Z) :=
  if decide (length file < BUFFER_SIZE)%nat then
    let new_uid := u32 (1000 + (count_lines file - 1)) in
    let buffer := str_concat (str_concat (str_concat file argument) [COLON]) new_pass in
    let buffer := str_concat (str_concat (str_concat buffer [COLON]) (num_to_str new_uid)) [NEWLINE] in
    if decide (length buffer < BUFFER_SIZE)%nat then Some buffer else None
  else None.

(** ** The input line *)

(** The loops that read a name, a password ([limit] 31) or a command ([limit]
    255): [typed] is what was typed so far.  The result is the line and the keys
    that follow; [None] without a newline. *)
Fixpoint read_line (limit : nat) (keys typed : list Z) : option (list Z * list Z) :=
  match keys with
  | [] => None
  | c :: keys =>
      if c =? NEWLINE then Some (cstr typed, keys)
      else if c =? 8 then read_line limit keys (take (pred (length typed)) typed)
      else if decide (length typed < limit)%nat then read_line limit keys (typed ++ [c])
      else read_line limit keys typed
  end.

(** ** The command line *)

(** The command is cut off at the first blank; the rest is the argument. *)
Fixpoint split_command (line : list Z) : list Z * option (list Z) :=
  match line with
  | [] => ([], None)
  | c :: line => if c =? 32 then ([], Some line) else let '(command, argument) := split_command line in (c :: command, argument)
  end.

Definition text_elf : list Z := [46; 101; 108; 102].
Definition NAME_MAX : nat := 27.
(** The file of a command that is not built in. *)
Definition elf_of_command (command : list Z) : list Z := take NAME_MAX command ++ text_elf.
(** The file of [start]: the ending is added unless it is there. *)
Definition elf_of_start (argument : list Z) : list Z :=
  let elf_filename := take NAME_MAX argument in
  let i := length elf_filename in
  let has_ext := bool_decide (4 <= i)%nat && str_match (drop (i - 4) elf_filename) text_elf in
  if negb has_ext && bool_decide (i < 28)%nat then elf_filename ++ text_elf else elf_filename.

Definition KYUZEN_APPS_DIR : list Z := [47; 97; 112; 112; 115; 47].
Definition build_app_path (out_cap : nat) (elf_name : list Z) : list Z := take (out_cap - 1) (KYUZEN_APPS_DIR ++ elf_name).

(** The port of [nettest], behind the address [p] has passed. *)
Definition nettest_target (argument : list Z) : option (Z * Z) :=
  '(ip_be, p) ← parse_ipv4 argument;
  port ← parse_uint (skip_blanks p);
  if (port =? 0) || (65535 <? port) then None else Some (ip_be, port).

(** [adduser] of the shell: only for root, with an argument. *)
Definition cmd_adduser (uid : Z) (file : list Z) (argument : option (list Z)) (keys : list Z) : option (list Z) :=
  if negb (uid =? 0) then Some file
  else
    match argument with
    | None => Some file
    | Some argument => '(new_pass, _) ← read_line 31 keys []; add_user file argument new_pass
    end.

(** ** Numbers are read as they were written *)

Lemma temp_digits_value fuel n : 0 <= n < 10 ^ Z.of_nat fuel ->
  foldr (fun c v => v * 10 + (c - 48)) 0 (temp_digits fuel n) = n /\ Forall (fun c => digit c = true) (temp_digits fuel n).
Proof.
  revert n. induction fuel as [|fuel IH]; intros n Hn; [cbn in *; split; [lia|done]|]. cbn [temp_digits].
  destruct (Z.leb_spec n 0); [split; [cbn; lia|done]|].
  replace (Z.of_nat (S fuel)) with (Z.succ (Z.of_nat fuel)) in Hn by lia. rewrite Z.pow_succ_r in Hn by lia.
  destruct (IH (n / 10)) as [E F]; [divlia|]. cbn [foldr]. rewrite E. split; [divlia|]. constructor; [|done].
  unfold digit. apply andb_true_iff. split; apply Z.leb_le; divlia.
Qed.

Lemma uid_foldl l v : 0 <= v -> Forall (fun c => digit c = true) l ->
  foldl (fun uid c => u32 (uid * 10 + (c - 48))) v l = u32 (foldl (fun uid c => uid * 10 + (c - 48)) v l) \/ l = [].
Proof.
  revert v. induction l as [|c l IH]; intros v Hv Hd; [by right|left]. inversion Hd as [|? ? Hc Hd']; subst. cbn [foldl].
  assert (forall l u w, u32 u = u32 w -> u32 (foldl (fun uid c => uid * 10 + (c - 48)) u l) = u32 (foldl (fun uid c => uid * 10 + (c - 48)) w l)) as Hcong.
  { clear. induction l as [|c l IH]; intros u w E; [done|]. cbn [foldl]. apply IH. unfold wrap in *.
    rewrite (Zplus_mod (u * 10)), (Zmult_mod u), E, <- Zmult_mod, <- Zplus_mod. done. }
  unfold digit in Hc. zprop. destruct (IH (u32 (v * 10 + (c - 48)))) as [E|E]; [apply wrap_bound; lia|done| |].
  - rewrite E. apply Hcong. apply wrap_wrap. lia.
  - by subst.
Qed.

Lemma foldl_rev {A B} (f : B -> A -> B) (l : list A) b : foldl f b (rev l) = foldr (fun a v => f v a) b l.
Proof. induction l as [|a l IH]; [done|]. cbn [rev foldr]. by rewrite foldl_app, IH. Qed.

Lemma num_to_str_value n : 0 <= n < 2 ^ 32 ->
  uid_value (num_to_str n) = n /\ Forall (fun c => digit c = true) (num_to_str n) /\ (0 < length (num_to_str n) <= 10)%nat.
Proof.
  intros Hn. unfold num_to_str. destruct (Z.eqb_spec n 0) as [->|Hz]; [split; [done|]; split; [by repeat constructor|cbn; lia]|].
  destruct (temp_digits_value 10 n ltac:(cbn; lia)) as [E F].
  assert (forall fuel m, (length (temp_digits fuel m) <= fuel)%nat) as Hlen.
  { induction fuel as [|fuel IH]; intros m; [done|]. cbn [temp_digits]. destruct (m <=? 0); cbn; [lia|]. specialize (IH (m / 10)). lia. }
  assert (Forall (fun c => digit c = true) (rev (temp_digits 10 n))) as Fr by (by apply Forall_rev).
  split; [|split; [done|]].
  - unfold uid_value. destruct (uid_foldl (rev (temp_digits 10 n)) 0 ltac:(lia) Fr) as [-> | E0].
    + rewrite foldl_rev, E. by apply wrap_small.
    + exfalso. apply (f_equal (@rev Z)) in E0. rewrite rev_involutive in E0. rewrite E0 in E. cbn in E. lia.
  - rewrite length_rev. split; [|apply Hlen]. destruct (temp_digits 10 n); [cbn in E; lia|cbn; lia].
Qed.

(** ** The database as a list of accounts *)

Record account := Account { a_name : list Z; a_pass : list Z; a_uid : Z }.

Definition render (a : account) : list Z := a_name a ++ [COLON] ++ a_pass a ++ [COLON] ++ num_to_str (a_uid a) ++ [NEWLINE].
Definition database (accounts : list account) : list Z := concat (render <$> accounts).

(** A name or a password that the file can hold. *)
Definition storable (s : list Z) : Prop := Forall (fun c => c <> COLON /\ c <> NEWLINE /\ c <> 0) s /\ (length s < 32)%nat.
Definition account_ok (a : account) : Prop := storable (a_name a) /\ storable (a_pass a) /\ 0 <= a_uid a < 2 ^ 32.

Definition first_match (accounts : list account) (user pass : list Z) : option Z :=
  a_uid <$> head (filter (fun a => a_name a = user /\ a_pass a = pass) accounts).

(** The accounts after the first boot and the [adduser]s [users]. *)
Definition accounts_of (root_pass : list Z) (users : list (list Z * list Z)) : list account :=
  Account [114; 111; 111; 116] root_pass 0 :: imap (fun i u => Account u.1 u.2 (1000 + Z.of_nat i)) users.

Definition add_users (file : list Z) (users : list (list Z * list Z)) : option (list Z) :=
  foldl (fun file u => file ← file; add_user file u.1 u.2) (Some file) users.

Lemma str_match_spec s1 s2 : str_match s1 s2 = bool_decide (s1 = s2).
Proof.
  revert s2. induction s1 as [|a s1 IH]; intros [|b s2]; cbn [str_match]; try done. rewrite IH.
  destruct (Z.eqb_spec a b) as [->|]; cbn [andb]; repeat case_bool_decide; congruence.
Qed.

Lemma cstr_id l : Forall (fun c => c <> 0) l -> cstr l = l.
Proof. induction 1 as [|c l Hc _ IH]; [done|]. cbn [cstr]. rewrite IH. by destruct (Z.eqb_spec c 0). Qed.

Lemma str_concat_id d s : Forall (fun c => c <> 0) d -> Forall (fun c => c <> 0) s -> str_concat d s = d ++ s.
Proof. intros Hd Hs. unfold str_concat. by rewrite !cstr_id. Qed.

Lemma get_field_spec stop size f l : stop <> 0 -> Forall (fun c => c <> stop /\ c <> 0) f -> (length f < size)%nat ->
  get_field stop size (f ++ stop :: l) = Some (f, l).
Proof.
  intros Hstop Hf Hlen. unfold get_field.
  assert (scan_field stop (f ++ stop :: l) = (f, stop :: l)) as ->.
  { clear Hlen. induction Hf as [|c f [Hc H0] _ IH]; cbn [app scan_field]; [by rewrite Z.eqb_refl|].
    rewrite IH. by destruct (Z.eqb_spec c stop), (Z.eqb_spec c 0). }
  rewrite decide_True by done. unfold skip. by rewrite Z.eqb_refl.
Qed.

Lemma num_to_str_plain n : 0 <= n < 2 ^ 32 -> Forall (fun c => c <> COLON /\ c <> NEWLINE /\ c <> 0) (num_to_str n).
Proof.
  intros Hn. destruct (num_to_str_value n Hn) as (_ & Hd & _). eapply Forall_impl; [done|].
  intros c Hc. unfold digit in Hc. zprop. unfold COLON, NEWLINE. lia.
Qed.

Lemma render_app a l : render a ++ l = a_name a ++ COLON :: a_pass a ++ COLON :: num_to_str (a_uid a) ++ NEWLINE :: l.
Proof. unfold render. by rewrite <- !app_assoc. Qed.

Lemma render_plain a : account_ok a -> Forall (fun c => c <> 0) (render a).
Proof.
  intros ([Hn _] & [Hp _] & Hu). pose proof (num_to_str_plain _ Hu) as Hd. unfold render.
  repeat (apply Forall_app; split); try (repeat constructor; done); (eapply Forall_impl; [done|]; naive_solver).
Qed.

Lemma auth_loop_spec accounts user pass fuel : Forall account_ok accounts -> (length accounts < fuel)%nat ->
  auth_loop fuel (database accounts) user pass = Some (first_match accounts user pass).
Proof.
  intros Hok. revert fuel. induction Hok as [|a accounts Ha Hok IH]; intros [|fuel] Hf; cbn [length] in Hf; try lia; [done|].
  assert (exists c l, database (a :: accounts) = c :: l /\ c <> 0) as (c & l & Hc & Hc0).
  { pose proof (render_plain a Ha) as Hp. change (database (a :: accounts)) with (render a ++ database accounts).
    destruct (render a) as [|c r] eqn:Er; [exfalso; unfold render in Er; by destruct (a_name a)|].
    inversion Hp; subst. by exists c, (r ++ database accounts). }
  cbn [auth_loop]. rewrite Hc. destruct (Z.eqb_spec c 0); [done|]. rewrite <- Hc. clear c l Hc Hc0 n.
  change (database (a :: accounts)) with (render a ++ database accounts). rewrite render_app.
  destruct Ha as ([Hn Hnl] & [Hp Hpl] & Hu). pose proof (num_to_str_plain _ Hu) as Hd.
  destruct (num_to_str_value _ Hu) as (Hv & _ & Hl).
  rewrite get_field_spec by (done || (eapply Forall_impl; [done|]; naive_solver)). cbn [mbind option_bind].
  rewrite get_field_spec by (done || (eapply Forall_impl; [done|]; naive_solver)). cbn [mbind option_bind].
  rewrite get_field_spec by (done || lia || (eapply Forall_impl; [done|]; naive_solver)). cbn [mbind option_bind].
  rewrite !str_match_spec, Hv, IH by lia. unfold first_match. rewrite filter_cons.
  repeat case_bool_decide; case_decide; naive_solver.
Qed.

Lemma database_length accounts : (length accounts <= length (database accounts))%nat.
Proof.
  induction accounts as [|a accounts IH]; [done|]. change (database (a :: accounts)) with (render a ++ database accounts).
  rewrite length_app. unfold render at 1. rewrite !length_app. cbn [length]. lia.
Qed.

Lemma database_plain accounts : Forall account_ok accounts -> Forall (fun c => c <> 0) (database accounts).
Proof.
  induction 1 as [|a accounts Ha _ IH]; [done|]. change (database (a :: accounts)) with (render a ++ database accounts).
  apply Forall_app. split; [by apply render_plain|done].
Qed.

Lemma parse_auth_spec accounts user pass : Forall account_ok accounts -> (length (database accounts) < BUFFER_SIZE)%nat ->
  parse_auth (Some (database accounts)) user pass = Some (first_match accounts user pass).
Proof.
  intros Hok Hlen. unfold parse_auth. rewrite decide_True by done. apply auth_loop_spec; [done|].
  pose proof (database_length accounts). lia.
Qed.

(** ** One line per account *)

Lemma no_lines l : Forall (fun c => c <> COLON /\ c <> NEWLINE /\ c <> 0) l -> filter (fun c => c = NEWLINE) l = [].
Proof. induction 1 as [|c l Hc _ IH]; [done|]. rewrite filter_cons_False; naive_solver. Qed.

Lemma count_lines_database accounts : Forall account_ok accounts -> count_lines (database accounts) = Z.of_nat (length accounts).
Proof.
  intros Hok. unfold count_lines. rewrite cstr_id by (by apply database_plain). f_equal.
  induction Hok as [|a accounts ([Hn _] & [Hp _] & Hu) _ IH]; [done|].
  change (database (a :: accounts)) with (render a ++ database accounts). rewrite filter_app, length_app, IH.
  unfold render. rewrite !filter_app, (no_lines _ Hn), (no_lines _ Hp), (no_lines _ (num_to_str_plain _ Hu)). done.
Qed.

Lemma add_user_spec accounts name pass : Forall account_ok accounts -> accounts <> [] -> storable name -> storable pass ->
  (length (database (accounts ++ [Account name pass (1000 + Z.of_nat (length accounts - 1))])) < BUFFER_SIZE)%nat ->
  add_user (database accounts) name pass = Some (database (accounts ++ [Account name pass (1000 + Z.of_nat (length accounts - 1))])).
Proof.
  intros Hok Hne [Hn Hnl] [Hp Hpl] Hlen.
  set (a := Account name pass _) in *.
  assert (database (accounts ++ [a]) = database accounts ++ render a) as E
    by (unfold database; rewrite fmap_app, concat_app; cbn; by rewrite app_nil_r).
  rewrite E in *. rewrite length_app in Hlen. pose proof (database_length accounts) as Hdb. unfold BUFFER_SIZE in Hlen.
  assert (0 <= a_uid a < 2 ^ 32) as Hu by (unfold a; cbn [a_uid]; lia).
  assert (account_ok a) as Ha by done.
  unfold add_user. rewrite decide_True by (unfold BUFFER_SIZE; lia). rewrite count_lines_database by done.
  replace (u32 (1000 + (Z.of_nat (length accounts) - 1))) with (a_uid a)
    by (unfold a; cbn [a_uid]; destruct accounts; [done|]; cbn [length]; rewrite wrap_small; cbn [length] in *; lia).
  pose proof (database_plain _ Hok) as Hdp. pose proof (render_plain a Ha) as Hrp.
  assert (forall l, Forall (fun c => c <> COLON /\ c <> NEWLINE /\ c <> 0) l -> Forall (fun c => c <> 0) l) as Hz
    by (intros; eapply Forall_impl; [done|]; naive_solver).
  pose proof (Hz _ (num_to_str_plain _ Hu)). pose proof (Hz _ Hn). pose proof (Hz _ Hp).
  repeat match goal with
    | |- context [str_concat ?d ?s] =>
        lazymatch d with
        | context [str_concat] => fail
        | _ => rewrite (str_concat_id d s) by (repeat (apply Forall_app; split); try done; repeat constructor; done)
        end
    end.
  rewrite decide_True; [by unfold render, a; cbn [a_name a_pass]; rewrite <- !app_assoc|].
  unfold render in Hlen. change (a_name a) with name in Hlen. change (a_pass a) with pass in Hlen.
  rewrite !length_app in Hlen |- *. rewrite ?length_app. cbn [length] in *. unfold BUFFER_SIZE. lia.
Qed.

Lemma accounts_of_ok root_pass users : storable root_pass -> Forall (fun u => storable u.1 /\ storable u.2) users ->
  (length users < 1024)%nat -> Forall account_ok (accounts_of root_pass users).
Proof.
  intros Hr Hu Hl. constructor; [split; [|split; [done|cbn; lia]]; split; [repeat constructor; done|cbn; lia]|].
  apply Forall_lookup. intros i a Ha. rewrite list_lookup_imap in Ha. destruct (users !! i) as [u|] eqn:E; [|done].
  injection Ha as <-. apply lookup_lt_Some in E as Hi. rewrite Forall_lookup in Hu. destruct (Hu i u E). split; [done|].
  split; [done|]. cbn [a_uid]. lia.
Qed.

Lemma accounts_of_app root_pass users u :
  accounts_of root_pass (users ++ [u]) = accounts_of root_pass users ++ [Account u.1 u.2 (1000 + Z.of_nat (length users))].
Proof. unfold accounts_of. rewrite imap_app. cbn. by rewrite Nat.add_0_r. Qed.

Lemma accounts_of_length root_pass users : length (accounts_of root_pass users) = S (length users).
Proof. cbn. by rewrite length_imap. Qed.

Lemma setup_data_spec root_pass : storable root_pass -> setup_data root_pass = database (accounts_of root_pass []).
Proof.
  intros [Hr _]. assert (Forall (fun c => c <> 0) root_pass) as Hz by (eapply Forall_impl; [done|]; naive_solver).
  unfold setup_data, str_concat. rewrite (cstr_id root_pass) by done. rewrite cstr_id.
  - unfold database. cbn. by rewrite ?app_nil_r, <- ?app_assoc.
  - apply Forall_app. split; [repeat constructor; done|done].
Qed.

Lemma add_users_spec root_pass users : storable root_pass -> Forall (fun u => storable u.1 /\ storable u.2) users ->
  (length (database (accounts_of root_pass users)) < BUFFER_SIZE)%nat ->
  add_users (setup_data root_pass) users = Some (database (accounts_of root_pass users)).
Proof.
  intros Hr. rewrite setup_data_spec by done. unfold add_users.
  induction users as [|u users IH] using rev_ind; intros Hu Hlen; [done|].
  apply Forall_app in Hu as [Hu Hlast]. inversion Hlast as [|? ? [Hn Hp] _]; subst.
  pose proof (database_length (accounts_of root_pass (users ++ [u]))) as Hd.
  rewrite accounts_of_length, length_app in Hd. unfold BUFFER_SIZE in *.
  rewrite accounts_of_app in *. rewrite foldl_app, IH; [|done|].
  - cbn [foldl mbind option_bind]. pose proof (add_user_spec (accounts_of root_pass users) u.1 u.2) as H.
    rewrite accounts_of_length in H. cbn [Nat.sub] in H. rewrite Nat.sub_0_r in H.
    apply H; try done. apply accounts_of_ok; [done|done|lia].
  - unfold database in Hlen |- *. rewrite fmap_app, concat_app, length_app in Hlen. lia.
Qed.

(** C39. The account file is a list of accounts.  With a root password and names
    and passwords under 32 bytes that hold no colon, line break or NUL, and as long
    as the file fits the programs' 1024-byte buffers: the first boot and the
    [adduser]s leave exactly the accounts, root with uid 0 and the others with
    1000, 1001, ... in order; and a login succeeds precisely for a name and
    password of one of them, with the uid of the first such account. *)
Theorem accounts_refine root_pass users :
  storable root_pass -> Forall (fun u => storable u.1 /\ storable u.2) users ->
  (length (database (accounts_of root_pass users)) < BUFFER_SIZE)%nat ->
  exists file, add_users (setup_data root_pass) users = Some file /\
    forall user pass, parse_auth (Some file) user pass = Some (first_match (accounts_of root_pass users) user pass).
Proof.
  intros Hr Hu Hlen. exists (database (accounts_of root_pass users)). split; [by apply add_users_spec|].
  intros user pass. apply parse_auth_spec; [|done]. apply accounts_of_ok; [done|done|].
  pose proof (database_length (accounts_of root_pass users)) as Hd. rewrite accounts_of_length in Hd. unfold BUFFER_SIZE in Hlen. lia.
Qed.

(** Root sets the password "kyu" and adds "adi" with "ab" and "budi" with "c". *)
Definition demo_users : list (list Z * list Z) := [([97; 100; 105], [97; 98]); ([98; 117; 100; 105], [99])].
Lemma accounts_refine_witness :
  exists file, add_users (setup_data [107; 121; 117]) demo_users = Some file /\
    forall user pass, parse_auth (Some file) user pass = Some (first_match (accounts_of [107; 121; 117] demo_users) user pass).
Proof.
  apply (accounts_refine [107; 121; 117] demo_users).
  - split; [repeat constructor; done|cbn; lia].
  - repeat constructor; try done; cbn; lia.
  - vm_compute. lia.
Defined.

Example demo_login : first_match (accounts_of [107; 121; 117] demo_users) [98; 117; 100; 105] [99] = Some 1001.
Proof. reflexivity. Qed.

(** ** What a field cannot hold *)

Lemma field_stops stop l : (scan_field stop l).1 ++ (scan_field stop l).2 = l /\ Forall (fun c => c <> stop) (scan_field stop l).1.
Proof.
  induction l as [|c l [IH F]]; [done|]. cbn [scan_field].
  destruct (Z.eqb_spec c stop), (Z.eqb_spec c 0); cbn [orb]; try done.
  destruct (scan_field stop l) as [f r]. cbn in *. split; [by rewrite IH|by constructor].
Qed.

(** A login that succeeds gave a password without the separator: the password
    field ends at it. *)
Lemma login_without_colon fuel buffer user pass uid : auth_loop fuel buffer user pass = Some (Some uid) -> COLON ∉ pass /\ COLON ∉ user.
Proof.
  revert buffer. induction fuel as [|fuel IH]; intros buffer H; [done|]. cbn [auth_loop] in H.
  destruct buffer as [|c b]; [done|]. destruct (c =? 0); [done|].
  assert (forall size l f r, get_field COLON size l = Some (f, r) -> COLON ∉ f) as Hfree.
  { intros size l f r. unfold get_field. destruct (field_stops COLON l) as [_ F]. destruct (scan_field COLON l) as [f' r'].
    case_decide; [|done]. intros [= -> _]. intros Hin. rewrite Forall_forall in F. by apply (F _ Hin). }
  destruct (get_field COLON 32 (c :: b)) as [[f_user b1]|] eqn:E1; [|done]. cbn [mbind option_bind] in H.
  destruct (get_field COLON 32 b1) as [[f_pass b2]|] eqn:E2; [|done]. cbn [mbind option_bind] in H.
  destruct (get_field NEWLINE 16 b2) as [[f_uid b3]|] eqn:E3; [|done]. cbn [mbind option_bind] in H.
  rewrite !str_match_spec in H. repeat case_bool_decide; cbn [andb] in H; try by apply IH in H. subst. eauto.
Qed.

(** The first boot accepts a root password with a colon in it, and no login with
    that password ever succeeds, whatever the file becomes. *)
Theorem colon_locks_root_out file user pass uid : COLON ∈ pass -> parse_auth file user pass <> Some (Some uid).
Proof.
  intros Hin H. destruct file as [file|]; [|done]. unfold parse_auth in H. case_decide; [|done].
  apply login_without_colon in H. tauto.
Qed.

(** A line that was read fits its 32-byte array, terminator included. *)
Lemma read_line_fits limit keys typed line rest : (length typed <= limit)%nat ->
  read_line limit keys typed = Some (line, rest) -> (length line <= limit)%nat.
Proof.
  revert typed. induction keys as [|c keys IH]; intros typed Hl H; [done|]. cbn [read_line] in H.
  destruct (c =? NEWLINE).
  - injection H as <- _. transitivity (length typed); [|done]. clear. induction typed as [|c l IH]; [done|]. cbn. destruct (c =? 0); cbn; lia.
  - destruct (c =? 8); [|case_decide]; (eapply IH; [|exact H]); rewrite ?length_take, ?length_app; cbn [length]; lia.
Qed.

(** ** Numbers and addresses of the command line *)

(** [parse_uint] reads back every number [num_to_str] writes. *)
Theorem parse_uint_num_to_str n : 0 <= n < 2 ^ 32 -> parse_uint (num_to_str n) = Some n.
Proof.
  intros Hn. destruct (num_to_str_value n Hn) as (Hv & Hd & Hl).
  assert (forall l v, Forall (fun c => digit c = true) l -> uint_loop l v = Some (foldl (fun uid c => u32 (uid * 10 + (c - 48))) v l)) as Hloop.
  { induction l as [|c l IH]; intros v F; [done|]. inversion F as [|? ? Hc F']; subst. cbn [uint_loop foldl]. rewrite Hc. by apply IH. }
  unfold parse_uint. destruct (num_to_str n) as [|c l] eqn:E; [cbn in Hl; lia|].
  inversion Hd as [|? ? Hc Hd']; subst. cbn [skip_blanks]. destruct (Z.eqb_spec c 32) as [->|]; [done|].
  rewrite Hloop by done. by f_equal.
Qed.

Definition dotted (a b c d : Z) : list Z := num_to_str a ++ 46 :: num_to_str b ++ 46 :: num_to_str c ++ 46 :: num_to_str d.

Lemma octet_loop_digits l rest v : Forall (fun c => digit c = true) l ->
  (match rest with c :: _ => digit c | [] => false end) = false ->
  octet_loop (l ++ rest) v = (rest, foldl (fun uid c => u32 (uid * 10 + (c - 48))) v l).
Proof.
  intros Hl Hr. revert v. induction Hl as [|c l Hc _ IH]; intros v; [|cbn [app octet_loop foldl]; by rewrite Hc, IH].
  destruct rest as [|c rest]; [done|]. cbn [app octet_loop foldl]. by rewrite Hr.
Qed.

Lemma octets_step n a rest : 0 <= a < 256 -> (match rest with c :: _ => digit c | [] => false end) = false ->
  octets (S n) (num_to_str a ++ rest) =
  match n with
  | O => Some (rest, [a])
  | _ => match rest with
         | c :: p => if c =? 46 then '(p, vs) ← octets n p; Some (p, a :: vs) else None
         | [] => None
         end
  end.
Proof.
  intros Ha Hr. destruct (num_to_str_value a ltac:(lia)) as (Hv & Hd & Hl). cbn [octets].
  rewrite octet_loop_digits by done. fold (uid_value (num_to_str a)). rewrite Hv.
  destruct (num_to_str a) as [|c l]; [cbn in Hl; lia|]. apply Forall_cons in Hd as [Hc _]. cbn [app]. rewrite Hc. cbn [negb].
  destruct (Z.ltb_spec 255 a); [lia|done].
Qed.

(** An address in dotted notation is read as the four bytes in network order, and
    reading stops behind it. *)
Theorem parse_ipv4_dotted a b c d rest : 0 <= a < 256 -> 0 <= b < 256 -> 0 <= c < 256 -> 0 <= d < 256 ->
  (match rest with x :: _ => digit x | [] => false end) = false ->
  parse_ipv4 (dotted a b c d ++ rest) = Some (a + b * 256 + c * 65536 + d * 16777216, rest).
Proof.
  intros Ha Hb Hc Hd Hr. unfold parse_ipv4, dotted. repeat (rewrite <- app_assoc; cbn [app]).
  rewrite octets_step by done. cbn [Z.eqb Pos.eqb]. rewrite octets_step by done. cbn [Z.eqb Pos.eqb].
  rewrite octets_step by done. cbn [Z.eqb Pos.eqb]. rewrite octets_step by done. cbn [mbind option_bind].
  change (KString.str [a; b; c; d] 0) with a. change (KString.str [a; b; c; d] 1) with b.
  change (KString.str [a; b; c; d] 2) with c. change (KString.str [a; b; c; d] 3) with d.
  rewrite (Bytes.lor_shiftl_add a b 8), (Bytes.lor_shiftl_add _ c 16), (Bytes.lor_shiftl_add _ d 24) by lia. done.
Qed.

(** ** Names of programs *)

(** The names fit their arrays of 32 and 40 bytes, so the path is never cut. *)
Theorem app_paths_fit command argument :
  (length (elf_of_command command) < 32)%nat /\ (length (elf_of_start argument) < 32)%nat /\
  build_app_path 40 (elf_of_command command) = KYUZEN_APPS_DIR ++ elf_of_command command /\
  build_app_path 40 (elf_of_start argument) = KYUZEN_APPS_DIR ++ elf_of_start argument.
Proof.
  assert (length (elf_of_command command) < 32)%nat as H1
    by (unfold elf_of_command, NAME_MAX; rewrite length_app, length_take; cbn [text_elf length]; lia).
  assert (length (elf_of_start argument) < 32)%nat as H2.
  { unfold elf_of_start, NAME_MAX. pose proof (length_take argument 27) as E. destruct (_ && _); rewrite ?length_app; cbn [text_elf length]; lia. }
  repeat split; try done; unfold build_app_path; rewrite take_ge; rewrite ?length_app; cbn [KYUZEN_APPS_DIR length]; lia || done.
Qed.

(** [start clock] and [start clock.elf] name the same program, [clock] too. *)
Theorem start_adds_ending name : (length name <= 23)%nat -> elf_of_start (name ++ text_elf) = elf_of_command name.
Proof.
  intros H. unfold elf_of_start, elf_of_command, NAME_MAX.
  rewrite (take_ge (name ++ text_elf)), (take_ge name) by (rewrite ?length_app; cbn [text_elf length]; lia).
  rewrite length_app. cbn [text_elf length]. rewrite bool_decide_eq_true_2 by lia.
  replace (length name + 4 - 4)%nat with (length name) by lia. fold text_elf. by rewrite drop_app_length.
Qed.

(** Only root changes the accounts. *)
Theorem adduser_needs_root uid file argument keys : uid <> 0 -> cmd_adduser uid file argument keys = Some file.
Proof. intros H. unfold cmd_adduser. by destruct (Z.eqb_spec uid 0). Qed.
End Login.
