(* ===== verification/Zen.v ===== *)
(** * The text editor of the kernel shell (src/apps/zen.c)

    The buffer is the list of its bytes; [fresh] are the bytes [sys_realloc]
    hands out behind the old contents at each growth ([None] when it fails).
    Reading a string that is not terminated inside the buffer is [None].  The
    first [sys_alloc] is taken to succeed; otherwise the editor returns at once.

    [zen_saves_text]: as long as the buffer does not grow, the file that is
    written is the text on the screen.  [zen_saves_stale_bytes]: after a growth
    it is the text followed by what the new memory held. *)

From S2P Require Import Prelude Login.
From stdpp Require Import base numbers list.
From Stdlib Require Import ZArith Lia.

#[local] Open Scope list_scope.
#[local] Open Scope Z_scope.

Module Zen.
Import Login.

Definition ESC : Z := 27.
Definition BACKSPACE : Z := 8.

(** The bytes before the terminator. *)
Fixpoint zen_strlen (l : list Z) : option nat :=
  match l with
  | [] => None
  | c :: l => if c =? 0 then Some O else S <$> zen_strlen l
  end.

Record zen := mk_zen { text_buffer : list Z; cursor : nat; growths : list (option (list Z)) }.

Definition current_capacity (z : zen) : nat := length z.(text_buffer).

Definition store (z : zen) (c : Z) : zen := mk_zen (<[z.(cursor) := c]> z.(text_buffer)) (S z.(cursor)) z.(growths).

(** The first capacity: room for the file that exists. *)
Definition capacity_for (file : option (list Z)) : nat :=
  match file with Some file => if decide (32 <= length file)%nat then (length file + 32)%nat else 32%nat | None => 32%nat end.

(** Start: [None] when the file cannot be read as a string. *)
Definition zen_open (file : option (list Z)) (growths : list (option (list Z))) : option zen :=
  match file with
  | None => Some (mk_zen (replicate 32 0) 0 growths)
  | Some file =>
      let text_buffer := file ++ replicate (capacity_for (Some file) - length file) 0 in
      n ← zen_strlen text_buffer; Some (mk_zen text_buffer n growths)
  end.

(** A key other than ESC; [inr] leaves the loop because memory ran out. *)
Definition zen_key (z : zen) (c : Z) : zen + zen :=
  if c =? BACKSPACE then
    match z.(cursor) with
    | O => inl z
    | S n => inl (mk_zen (<[n := 0]> z.(text_buffer)) n z.(growths))
    end
  else if decide (current_capacity z - 1 <= z.(cursor))%nat then
    match z.(growths) with
    | Some fresh :: growths => inl (store (mk_zen (z.(text_buffer) ++ fresh) z.(cursor) growths) c)
    | _ => inr z
    end
  else inl (store z c).

(** The loop; [None] when no ESC was typed yet. *)
Fixpoint zen_loop (keys : list Z) (z : zen) : option zen :=
  match keys with
  | [] => None
  | c :: keys =>
      if c =? ESC then Some z
      else match zen_key z c with inl z => zen_loop keys z | inr z => Some z end
  end.

(** What is written to the file. *)
Definition zen_save (z : zen) : option (list Z) := n ← zen_strlen z.(text_buffer); Some (take n z.(text_buffer)).

Definition zen_main (file : option (list Z)) (keys : list Z) (growths : list (option (list Z))) : option (list Z) :=
  z ← zen_open file growths; z ← zen_loop keys z; zen_save z.

(** ** The text as it is shown *)

Fixpoint edit (keys text : list Z) : option (list Z) :=
  match keys with
  | [] => None
  | c :: keys =>
      if c =? ESC then Some text
      else if c =? BACKSPACE then edit keys (take (pred (length text)) text)
      else edit keys (text ++ [c])
  end.

(** [text] is before the cursor, [rest] behind it. *)
Definition buffer_shows (z : zen) (text rest : list Z) : Prop :=
  z.(text_buffer) = text ++ rest /\ z.(cursor) = length text /\ Forall (fun c => c <> 0) text.

Lemma zen_strlen_app text rest : Forall (fun c => c <> 0) text -> zen_strlen (text ++ rest) = Nat.add (length text) <$> zen_strlen rest.
Proof.
  induction 1 as [|c text Hc _ IH]; [cbn; by destruct (zen_strlen rest)|]. cbn [app zen_strlen length].
  destruct (Z.eqb_spec c 0); [done|]. rewrite IH. by destruct (zen_strlen rest).
Qed.

Lemma zen_save_shows z text rest : buffer_shows z text rest -> zen_save z = n ← zen_strlen rest; Some (text ++ take n rest).
Proof.
  intros (Hb & Hc & Hz). unfold zen_save. rewrite Hb, zen_strlen_app by done. destruct (zen_strlen rest) as [n|]; [|done].
  cbn. by rewrite take_app_add.
Qed.

Lemma store_shows z text r rest c : buffer_shows z text (r :: rest) -> c <> 0 -> buffer_shows (store z c) (text ++ [c]) rest.
Proof.
  intros (Hb & Hc & Hz) Hne. unfold store. split; [|split]; cbn.
  - rewrite Hb, Hc, insert_app_r_alt, Nat.sub_diag by lia. by rewrite <- app_assoc.
  - rewrite length_app, Hc. cbn. lia.
  - apply Forall_app. split; [done|by repeat constructor].
Qed.

Lemma zen_erase z text rest : buffer_shows z text rest -> exists rest',
  zen_key z BACKSPACE = inl (mk_zen (take (pred (length text)) text ++ rest') (pred (length text)) z.(growths)) /\
  (length text + length rest = pred (length text) + length rest')%nat /\
  buffer_shows (mk_zen (take (pred (length text)) text ++ rest') (pred (length text)) z.(growths)) (take (pred (length text)) text) rest' /\
  (rest' = rest \/ rest' = 0 :: rest).
Proof.
  intros (Hb & Hc & Hz). unfold zen_key. rewrite Z.eqb_refl, Hc.
  destruct (length text) as [|n] eqn:Hl.
  - apply nil_length_inv in Hl. subst text. exists rest. cbn. split; [|split; [done|split; [|by left]]].
    + destruct z as [b cu g]. cbn in *. by subst.
    + split; [done|]. split; [done|constructor].
  - exists (0 :: rest). cbn [pred]. rewrite Hb.
    assert (take n text ++ drop n text = text) as E by apply take_drop.
    assert (exists x, drop n text = [x]) as [x Hx].
    { assert (length (drop n text) = 1%nat) as L by (rewrite length_drop; lia). destruct (drop n text) as [|x [|]]; try done. by exists x. }
    rewrite Hx in E. split; [|split; [cbn; lia|split; [|by right]]].
    + f_equal. f_equal. rewrite <- E at 1. rewrite <- app_assoc, insert_app_r_alt by (rewrite length_take; lia).
      rewrite length_take. replace (n - n `min` length text)%nat with 0%nat by lia. done.
    + split; [done|]. split; [cbn; rewrite length_take; lia|by apply Forall_take].
Qed.

(** Nothing but zeros behind the cursor, and more of them than keys. *)
Lemma zen_loop_plain keys : Forall (fun c => c <> 0) keys -> forall z text k,
  buffer_shows z text (replicate k 0) -> (length keys < k)%nat ->
  match zen_loop keys z, edit keys text with
  | Some z', Some text' => exists k', buffer_shows z' text' (replicate (S k') 0)
  | None, None => True
  | _, _ => False
  end.
Proof.
  induction 1 as [|c keys Hc _ IH]; intros z text k Hs Hk; [done|]. cbn [zen_loop edit].
  destruct (c =? ESC); [destruct k as [|k]; [cbn in Hk; lia|by exists k]|].
  destruct (Z.eqb_spec c BACKSPACE) as [->|Hb].
  - destruct (zen_erase z text (replicate k 0) Hs) as (rest' & -> & Hlen & Hs' & [E|E]); subst rest'.
    + apply (IH _ _ k Hs'). cbn in Hk. lia.
    + apply (IH _ _ (S k) Hs'). cbn in Hk. lia.
  - destruct k as [|k]; [cbn in Hk; lia|]. unfold zen_key. destruct (Z.eqb_spec c BACKSPACE); [done|].
    pose proof Hs as (Hbuf & Hcur & _). rewrite decide_False.
    + apply (IH _ _ k); [by apply (store_shows _ _ 0)|cbn in Hk; lia].
    + unfold current_capacity. rewrite Hbuf, Hcur, length_app, length_replicate. cbn in Hk. lia.
Qed.

Lemma zen_open_shows file growths : Forall (fun c => c <> 0) (default [] file) -> exists z,
  zen_open file growths = Some z /\ z.(Zen.growths) = growths /\
  buffer_shows z (default [] file) (replicate (capacity_for file - length (default [] file)) 0).
Proof.
  intros Hz. unfold zen_open. destruct file as [file|]; [change (default [] (Some file)) with file in *|eexists; split; [done|]; split; [done|]; split; [done|]; split; [done|constructor]].
  cbv zeta.
  rewrite zen_strlen_app by done. assert (length file < capacity_for (Some file))%nat by (unfold capacity_for; case_decide; lia).
  destruct (capacity_for (Some file) - length file)%nat as [|k] eqn:E; [lia|]. cbn [replicate zen_strlen fmap option_fmap option_map mbind option_bind].
  eexists. split; [done|]. split; [done|]. split; [done|]. split; [cbn; lia|done].
Qed.

(** As long as the keys that are typed fit the buffer, the editor writes exactly
    the text that is on the screen. *)
Theorem zen_saves_text file keys growths :
  Forall (fun c => c <> 0) (default [] file) -> Forall (fun c => c <> 0) keys ->
  (length (default [] file) + length keys < capacity_for file)%nat ->
  zen_main file keys growths = edit keys (default [] file).
Proof.
  intros Hf Hk Hlen. unfold zen_main. destruct (zen_open_shows file growths Hf) as (z & -> & _ & Hs). cbn [mbind option_bind].
  pose proof (zen_loop_plain keys Hk z _ _ Hs ltac:(lia)) as H.
  destruct (zen_loop keys z) as [z'|], (edit keys _) as [text'|]; try done. destruct H as [k' H].
  cbn [mbind option_bind]. rewrite (zen_save_shows _ _ _ H). cbn. by rewrite app_nil_r.
Qed.

(** ** After the buffer has grown *)

Lemma zen_loop_typed typed : Forall (fun c => c <> 0 /\ c <> ESC /\ c <> BACKSPACE) typed -> forall z text rest keys,
  buffer_shows z text (rest) -> (length typed < length rest)%nat ->
  exists z', zen_loop (typed ++ keys) z = zen_loop keys z' /\ buffer_shows z' (text ++ typed) (drop (length typed) rest) /\ z'.(growths) = z.(growths).
Proof.
  induction 1 as [|c typed (Hz & He & Hb) _ IH]; intros z text rest keys Hs Hlen.
  - exists z. by rewrite app_nil_r.
  - destruct rest as [|r rest]; [cbn in Hlen; lia|]. cbn [app zen_loop]. destruct (Z.eqb_spec c ESC); [done|].
    unfold zen_key. destruct (Z.eqb_spec c BACKSPACE); [done|]. pose proof Hs as (Hbuf & Hcur & _). cbn in Hlen.
    rewrite decide_False by (unfold current_capacity; rewrite Hbuf, Hcur, length_app; cbn; lia).
    destruct (IH (store z c) (text ++ [c]) rest keys) as (z' & E & Hs' & Hg); [by apply (store_shows _ _ r)|lia|].
    exists z'. split; [done|]. split; [by rewrite <- app_assoc in Hs'|done].
Qed.

(** Thirty-two characters typed into a new file make the buffer grow; the file
    that is written goes on with the bytes of the new memory up to the first
    zero, and the read leaves the buffer when there is none. *)
Theorem zen_saves_stale_bytes typed fresh growths :
  Forall (fun c => c <> 0 /\ c <> ESC /\ c <> BACKSPACE) typed -> length typed = 32%nat ->
  zen_main None (typed ++ [ESC]) (Some fresh :: growths) = n ← zen_strlen fresh; Some (typed ++ take n fresh).
Proof.
  intros Ht Hl. destruct (exists_last (l := typed)) as (front & c & ->); [by destruct typed|].
  apply Forall_app in Ht as [Hf Hc]. apply Forall_cons in Hc as [(Hz & He & Hb) _].
  rewrite length_app in Hl. cbn in Hl. unfold zen_main. cbn [zen_open mbind option_bind].
  rewrite <- app_assoc. cbn [app].
  destruct (zen_loop_typed front Hf (mk_zen (replicate 32 0) 0 (Some fresh :: growths)) [] (replicate 32 0) (c :: [ESC]))
    as (z' & -> & Hs & Hg); [by split; [|split; [|constructor]]|rewrite length_replicate; lia|].
  replace (length front) with 31%nat in Hs by lia. cbn [drop replicate app] in Hs. cbn [zen_loop].
  destruct (Z.eqb_spec c ESC); [done|]. unfold zen_key. destruct (Z.eqb_spec c BACKSPACE); [done|].
  destruct Hs as (Hbuf & Hcur & Hnz). rewrite decide_True by (unfold current_capacity; rewrite Hbuf, Hcur, length_app; cbn; lia).
  rewrite Hg. cbn [Zen.growths]. rewrite Z.eqb_refl. cbn [mbind option_bind].
  apply zen_save_shows. apply (store_shows _ front 0); [|done]. split; [|done]. cbn. by rewrite Hbuf, <- app_assoc.
Qed.

Example zen_demo_stale : zen_main None (replicate 32 97 ++ [ESC]) [Some [55; 66; 0; 1]] = Some (replicate 32 97 ++ [55; 66]).
Proof. reflexivity. Qed.
End Zen.
