(* ===== verification/Libgui.v ===== *)
(** * The drawing library of the applications (src/apps/libgui.c, libgui.h)

    The canvas of a window is the finite map of its 32-bit pixels, by index from
    its start; its block has [4 * cells] bytes.  System calls are recorded, their
    answers are arguments: the addresses of the two blocks, the number of the
    window, and for each turn of [gui_mainloop] the event that was waiting, if
    any, and the canvas as the application's callback leaves it ([gui_set_render]
    only stores the callback, which is an argument of [gui_mainloop]).

    [drawing_in_canvas]: on a window the kernel accepted no drawing routine
    writes outside the block that [gui_create_window] allocated.  The theorems
    before it give the pixels exactly; [bar_wraps] is a bar that is wrong. *)

From S2P Require Import Prelude Event Display Kwm Login.
From stdpp Require Import base numbers list gmap.
From Stdlib Require Import ZArith Lia.

#[local] Open Scope list_scope.
#[local] Open Scope Z_scope.

Module Libgui.

Record gui_window_t := mk_window {
  win_id : Z; width : Z; height : Z; inner_w : Z; inner_h : Z;
  block : Z; (* the address in [canvas] *)
  canvas : gmap Z Z;
  is_running : bool; mouse_x : Z; mouse_y : Z; rel_x : Z; rel_y : Z;
}.
Definition set_canvas (win : gui_window_t) (m : gmap Z Z) : gui_window_t :=
  mk_window win.(win_id) win.(width) win.(height) win.(inner_w) win.(inner_h) win.(block) m
    win.(is_running) win.(mouse_x) win.(mouse_y) win.(rel_x) win.(rel_y).
Definition set_mouse (win : gui_window_t) (x y rx ry : Z) : gui_window_t :=
  mk_window win.(win_id) win.(width) win.(height) win.(inner_w) win.(inner_h) win.(block) win.(canvas)
    win.(is_running) x y rx ry.
Definition stop (win : gui_window_t) : gui_window_t :=
  mk_window win.(win_id) win.(width) win.(height) win.(inner_w) win.(inner_h) win.(block) win.(canvas)
    false win.(mouse_x) win.(mouse_y) win.(rel_x) win.(rel_y).

(** ** Strings *)

Definition lgui_strncpy (src : list Z) (n : nat) : list Z := take (n - 1) src.
Definition lgui_itoa (n : Z) : list Z := Login.num_to_str n.
Definition lgui_strcat (dst src : list Z) : list Z := dst ++ src.

(** ** Drawing *)

Definition solid (color : Z) : Z := Z.lor color 0xFF000000.

(** A pixel that is written only inside the window. *)
Definition plot (W H : Z) (m : gmap Z Z) (px py v : Z) : gmap Z Z :=
  if (0 <=? px) && (px <? W) && (0 <=? py) && (py <? H) then st m (i32 (i32 (py * W) + px)) v else m.

Definition lgui_fill_rect (win : gui_window_t) (x y w h color : Z) : gui_window_t :=
  let W := i32 win.(width) in
  let H := i32 win.(height) in
  set_canvas win
    (for_loop y (i32 (y + h)) (fun py m =>
       for_loop x (i32 (x + w)) (fun px m => plot W H m px py (solid color)) m) win.(canvas)).

Definition lgui_draw_char_abs (font : Z -> Z -> Z) (win : gui_window_t) (c x y color : Z) : gui_window_t :=
  if (c <? 0) || (127 <? c) then win
  else
    let W := i32 win.(width) in
    let H := i32 win.(height) in
    set_canvas win
      (for_loop 0 16 (fun row m =>
         for_loop 0 8 (fun col m =>
           if Z.land (font c row) (Z.shiftr 0x80 col) =? 0 then m
           else plot W H m (i32 (x + col)) (i32 (y + row)) (solid color)) m) win.(canvas)).

Fixpoint draw_chars (font : Z -> Z -> Z) (win : gui_window_t) (str : list Z) (x cx cy color : Z) : gui_window_t :=
  match str with
  | [] => win
  | c :: str =>
      if c =? Login.NEWLINE then draw_chars font win str x x (i32 (cy + 16)) color
      else draw_chars font (lgui_draw_char_abs font win c cx cy color) str x (i32 (cx + 8)) cy color
  end.
Definition lgui_draw_string_abs (font : Z -> Z -> Z) (win : gui_window_t) (str : list Z) (x y color : Z) : gui_window_t :=
  draw_chars font win str x x y color.

Definition gui_draw_rect := lgui_fill_rect.
Definition gui_draw_char := lgui_draw_char_abs.
Definition gui_draw_text := lgui_draw_string_abs.

(** The text of a label; [None] when it does not fit the array of 128 bytes. *)
Definition label_text (label : list Z) (num : Z) (suffix : list Z) : option (list Z) :=
  let buf := lgui_strcat (lgui_strcat (lgui_strncpy label 80) (lgui_itoa num)) suffix in
  if decide (length buf < 128)%nat then Some buf else None.
Definition gui_draw_label_num (font : Z -> Z -> Z) (win : gui_window_t) (label : list Z) (num : Z) (suffix : list Z)
    (x y color : Z) : option gui_window_t :=
  buf ← label_text label num suffix; Some (gui_draw_text font win buf x y color).

(** The width of the filled part, at 32 bits as the code has it. *)
Definition bar_filled (w value max_value : Z) : Z :=
  let filled := i32 (u32 (value * u32 w) / max_value) in if w <? filled then w else filled.
Definition gui_draw_bar (win : gui_window_t) (x y w h value max_value bar_color : Z) : gui_window_t :=
  if max_value =? 0 then win
  else
    let win := gui_draw_rect win x y w h 0x333333 in
    let filled := bar_filled w value max_value in
    if 0 <? filled then gui_draw_rect win x y filled h bar_color else win.

(** ** Windows *)

Inductive gcall :=
| SysAlloc (size : Z)
| SysFree (p : Z)
| CreateWindow (x y w h : Z)
| CreateDesktop
| UpdateWindow (id : Z) (m : gmap Z Z)
| SetTitle (id : Z) (title : list Z)
| DestroyWindow (id : Z).

Definition SIZEOF_WINDOW : Z := 64.
Definition new_window (w h addr : Z) (m : gmap Z Z) (id : Z) : gui_window_t := mk_window id w h w h addr m true 0 0 0 0.

(** The common part: [a_win] and [a_canvas] are the blocks [sys_alloc] returns,
    [id] the answer of the window manager to [create], [m] the contents of the
    fresh canvas. *)
Definition open_window (create : gcall) (w h color a_win a_canvas id : Z) (m : gmap Z Z) : option gui_window_t * list gcall :=
  if a_win =? 0 then (None, [SysAlloc SIZEOF_WINDOW])
  else if a_canvas =? 0 then (None, [SysAlloc SIZEOF_WINDOW; SysAlloc (u32 (u32 (w * h) * 4)); SysFree a_win])
  else
    let calls := [SysAlloc SIZEOF_WINDOW; SysAlloc (u32 (u32 (w * h) * 4)); create] in
    if id <? 0 then (None, calls ++ [SysFree a_canvas; SysFree a_win])
    else
      let win := lgui_fill_rect (new_window w h a_canvas m id) 0 0 (i32 w) (i32 h) color in
      (Some win, calls ++ [UpdateWindow id win.(canvas)]).

Definition gui_create_window (w h a_win a_canvas id : Z) (m : gmap Z Z) : option gui_window_t * list gcall :=
  open_window (CreateWindow 100 80 w h) w h 0xF5F5F5 a_win a_canvas id m.

(** [screen]: the answer of [sys_get_screen_size]. *)
Definition gui_create_desktop (screen : option (Z * Z)) (a_win a_canvas id : Z) (m : gmap Z Z) : option gui_window_t * list gcall :=
  match screen with
  | None => (None, [])
  | Some (sw, sh) =>
      if (sw =? 0) || (sh =? 0) then (None, []) else open_window CreateDesktop sw sh 0x1E293B a_win a_canvas id m
  end.

Definition gui_set_window_title (win : gui_window_t) (title : list Z) : list gcall := [SetTitle win.(win_id) title].
Definition gui_flush (win : gui_window_t) : list gcall := [UpdateWindow win.(win_id) win.(canvas)].
Definition gui_destroy (win : gui_window_t) (a_win : Z) : list gcall :=
  [DestroyWindow win.(win_id); SysFree win.(block); SysFree a_win].

(** ** The event loop *)

Definition EV_KEY_PRESS : Z := 1.
Definition EV_MOUSE_MOVE : Z := 2.
Definition EV_MOUSE_CLICK : Z := 3.
Definition EV_WIN_CLOSE : Z := 6.

Definition on_mouse (ev : Event.kyuzen_event_t) (win : gui_window_t) : gui_window_t :=
  let p1 := ev.(Event.param1) in
  let win := if ev.(Event.type) =? EV_MOUSE_MOVE then set_mouse win p1 ev.(Event.param2) p1 ev.(Event.param2) else win in
  if (ev.(Event.type) =? EV_MOUSE_CLICK) && (p1 =? 0) && (ev.(Event.param2) =? 1) then
    let mx := if negb (ev.(Event.param3) =? 0) then ev.(Event.param3) else win.(mouse_x) in
    set_mouse win mx win.(mouse_y) mx win.(mouse_y)
  else win.

(** The WM asks to close, or ESC. *)
Definition closes (ev : Event.kyuzen_event_t) : bool :=
  (ev.(Event.type) =? EV_WIN_CLOSE) || ((ev.(Event.type) =? EV_KEY_PRESS) && (ev.(Event.param1) =? 27)).

(** [turns]: the event of each turn.  [on_render] is the application's callback;
    the second result are the canvases that were shown. *)
Fixpoint gui_mainloop (on_render : option (gui_window_t -> gmap Z Z)) (turns : list (option Event.kyuzen_event_t))
    (win : gui_window_t) : gui_window_t * list gcall :=
  if negb win.(is_running) then (win, [])
  else
    match turns with
    | [] => (win, [])
    | ev :: turns =>
        let win := match ev with Some ev => on_mouse ev win | None => win end in
        if (match ev with Some ev => closes ev | None => false end) then (stop win, [])
        else
          let '(win, calls) :=
            match on_render with
            | Some fn => let win := set_canvas win (fn win) in (win, gui_flush win)
            | None => (win, [])
            end in
          let '(win, rest) := gui_mainloop on_render turns win in (win, calls ++ rest)
    end.

(** ** The pixels *)

(** A window size the kernel accepts; coordinates that do not overflow. *)
Definition window_ok (win : gui_window_t) : Prop :=
  1 <= win.(width) <= Kwm.KWM_MAX_DIMENSION /\ 1 <= win.(height) <= Kwm.KWM_MAX_DIMENSION.
Definition coord (x : Z) : Prop := - 2 ^ 30 <= x < 2 ^ 30.

Definition canvas_pixel (win : gui_window_t) (qx qy : Z) : Z := ld win.(canvas) (qy * win.(width) + qx).
Definition on_canvas (win : gui_window_t) (qx qy : Z) : Prop := 0 <= qx < win.(width) /\ 0 <= qy < win.(height).
Definition in_box (x y w h qx qy : Z) : bool := (x <=? qx) && (qx <? x + w) && (y <=? qy) && (qy <? y + h).

Lemma i32_size v : 1 <= v <= Kwm.KWM_MAX_DIMENSION -> i32 v = v.
Proof. unfold Kwm.KWM_MAX_DIMENSION. intros H. apply sx_small; lia. Qed.

Lemma plot_index W H px py : 1 <= W <= Kwm.KWM_MAX_DIMENSION -> 1 <= H <= Kwm.KWM_MAX_DIMENSION -> 0 <= px < W -> 0 <= py < H ->
  i32 (i32 (py * W) + px) = py * W + px.
Proof.
  unfold Kwm.KWM_MAX_DIMENSION. intros HW HH Hx Hy. assert (0 <= py * W <= 4096 * 4096) by nia.
  rewrite (sx_small 32 (py * W)) by lia. apply sx_small; lia.
Qed.

Lemma plot_pixel W H m px py v qx qy :
  1 <= W <= Kwm.KWM_MAX_DIMENSION -> 1 <= H <= Kwm.KWM_MAX_DIMENSION -> 0 <= qx < W -> 0 <= qy < H ->
  ld (plot W H m px py v) (qy * W + qx) = if (px =? qx) && (py =? qy) then v else ld m (qy * W + qx).
Proof.
  intros HW HH Hx Hy. unfold plot. destruct (_ && _ && _ && _) eqn:E.
  - zprop. rewrite (plot_index W H) by lia. rewrite ld_st.
    assert (py * W + px = qy * W + qx <-> px = qx /\ py = qy) as Hinj.
    { split; [|by intros [-> ->]]. intros Heq. assert (py = qy) by (destruct (Z.lt_trichotomy py qy) as [|[|]]; nia). subst. lia. }
    destruct (Z.eqb_spec px qx), (Z.eqb_spec py qy), (Z.eqb_spec (py * W + px) (qy * W + qx)); cbn [andb]; try done; tauto.
  - destruct (Z.eqb_spec px qx), (Z.eqb_spec py qy); cbn [andb]; try done. subst.
    exfalso. apply not_true_iff_false in E. apply E. rewrite !andb_true_iff. repeat split; (apply Z.leb_le || apply Z.ltb_lt); lia.
Qed.

Lemma plot_outside W H m px py v i :
  1 <= W <= Kwm.KWM_MAX_DIMENSION -> 1 <= H <= Kwm.KWM_MAX_DIMENSION -> ~ 0 <= i < W * H -> ld (plot W H m px py v) i = ld m i.
Proof.
  intros HW HH Hi. unfold plot. destruct (_ && _ && _ && _) eqn:E; [|done].
  zprop. rewrite (plot_index W H) by lia. apply ld_st_ne. nia.
Qed.

(** A row of a rectangle. *)
Lemma fill_row W H m x xe py v qx qy :
  1 <= W <= Kwm.KWM_MAX_DIMENSION -> 1 <= H <= Kwm.KWM_MAX_DIMENSION -> 0 <= qx < W -> 0 <= qy < H ->
  ld (for_loop x xe (fun px m => plot W H m px py v) m) (qy * W + qx) =
  if (x <=? qx) && (qx <? xe) && (py =? qy) then v else ld m (qy * W + qx).
Proof.
  intros HW HH Hx Hy. destruct (Z.le_gt_cases x xe).
  - apply (for_loop_inv (fun i m' => ld m' (qy * W + qx) = if (x <=? qx) && (qx <? i) && (py =? qy) then v else ld m (qy * W + qx))); [done| |].
    + destruct (Z.leb_spec x qx), (Z.ltb_spec qx x); (lia || done).
    + intros i m' Hi IH. rewrite plot_pixel, IH by done.
      destruct (Z.eqb_spec i qx), (Z.eqb_spec py qy), (Z.leb_spec x qx), (Z.ltb_spec qx i), (Z.ltb_spec qx (i + 1)); cbn [andb]; (lia || done).
  - rewrite for_loop_nil by lia. destruct (Z.leb_spec x qx), (Z.ltb_spec qx xe); (lia || done).
Qed.

(** [gui_draw_rect] colours exactly the pixels of the rectangle that are on the canvas. *)
Theorem fill_rect_pixels win x y w h color qx qy :
  window_ok win -> coord x -> coord y -> coord w -> coord h -> on_canvas win qx qy ->
  canvas_pixel (lgui_fill_rect win x y w h color) qx qy = if in_box x y w h qx qy then solid color else canvas_pixel win qx qy.
Proof.
  intros [HW HH] Hx Hy Hw Hh [Hqx Hqy]. unfold coord in *. unfold canvas_pixel, lgui_fill_rect, in_box. cbn [canvas set_canvas width].
  rewrite (i32_size (width win)), (i32_size (height win)) by done.
  rewrite (sx_small 32 (x + w)), (sx_small 32 (y + h)) by lia. set (W := width win) in *. set (H := height win) in *.
  destruct (Z.le_gt_cases y (y + h)).
  - apply (for_loop_inv (fun i m' => ld m' (qy * W + qx) =
      if (x <=? qx) && (qx <? x + w) && (y <=? qy) && (qy <? i) then solid color else ld (canvas win) (qy * W + qx))); [done| |].
    + destruct (Z.leb_spec y qy), (Z.ltb_spec qy y); rewrite ?andb_false_r; (lia || done).
    + intros i m' Hi IH. rewrite fill_row, IH by done.
      destruct (Z.eqb_spec i qy), (Z.leb_spec y qy), (Z.ltb_spec qy i), (Z.ltb_spec qy (i + 1)); try lia;
        destruct ((x <=? qx) && (qx <? x + w)); done.
  - rewrite for_loop_nil by lia. destruct (Z.leb_spec y qy), (Z.ltb_spec qy (y + h)); rewrite ?andb_false_r; (lia || done).
Qed.

(** ** Nothing outside the canvas *)

Definition canvas_confined (win win' : gui_window_t) : Prop :=
  width win' = width win /\ height win' = height win /\ block win' = block win /\ win_id win' = win_id win /\
  forall i, ~ 0 <= i < width win * height win -> ld win'.(canvas) i = ld win.(canvas) i.

Lemma canvas_confined_refl win : canvas_confined win win.
Proof. by repeat split. Qed.
Lemma canvas_confined_trans a b c : canvas_confined a b -> canvas_confined b c -> canvas_confined a c.
Proof.
  intros (W1 & H1 & B1 & I1 & M1) (W2 & H2 & B2 & I2 & M2). repeat split; try congruence.
  intros i Hi. rewrite M2, M1; [done|done|congruence].
Qed.
Lemma canvas_confined_ok a b : canvas_confined a b -> window_ok a -> window_ok b.
Proof. intros (W & H & _) Hok. unfold window_ok. by rewrite W, H. Qed.

Lemma fill_rect_confined win x y w h color : window_ok win -> canvas_confined win (lgui_fill_rect win x y w h color).
Proof.
  intros [HW HH]. repeat split. intros i Hi. unfold lgui_fill_rect. cbn [canvas set_canvas]. rewrite (i32_size (width win)), (i32_size (height win)) by done.
  apply (for_loop_pres (fun m => ld m i = ld (canvas win) i)); [done|]. intros py m _ IH.
  apply (for_loop_pres (fun m => ld m i = ld (canvas win) i)); [done|]. intros px m' _ IH'. by rewrite plot_outside.
Qed.

Lemma draw_char_confined font win c x y color : window_ok win -> canvas_confined win (lgui_draw_char_abs font win c x y color).
Proof.
  intros [HW HH]. unfold lgui_draw_char_abs. destruct (_ || _); [apply canvas_confined_refl|]. repeat split. intros i Hi.
  cbn [canvas set_canvas]. rewrite (i32_size (width win)), (i32_size (height win)) by done.
  apply (for_loop_pres (fun m => ld m i = ld (canvas win) i)); [done|]. intros py m _ IH.
  apply (for_loop_pres (fun m => ld m i = ld (canvas win) i)); [done|]. intros px m' _ IH'.
  destruct (_ =? 0); [done|]. by rewrite plot_outside.
Qed.

Lemma draw_text_confined font str win x y color : window_ok win -> canvas_confined win (lgui_draw_string_abs font win str x y color).
Proof.
  unfold lgui_draw_string_abs. generalize x at 2 as cx. intros cx. revert win cx y.
  induction str as [|c str IH]; intros win cx cy Hok; [apply canvas_confined_refl|]. cbn [draw_chars].
  destruct (c =? Login.NEWLINE); [by apply IH|]. pose proof (draw_char_confined font win c cx cy color Hok) as Hc.
  eapply canvas_confined_trans; [done|]. apply IH. by eapply canvas_confined_ok.
Qed.

Lemma draw_bar_confined win x y w h value max_value color : window_ok win -> canvas_confined win (gui_draw_bar win x y w h value max_value color).
Proof.
  intros Hok. unfold gui_draw_bar, gui_draw_rect. destruct (max_value =? 0); [apply canvas_confined_refl|]. cbv zeta.
  pose proof (fill_rect_confined win x y w h 0x333333 Hok) as H1. destruct (0 <? _); [|done].
  eapply canvas_confined_trans; [done|]. apply fill_rect_confined. by eapply canvas_confined_ok.
Qed.

(** The calls of an application's callback. *)
Inductive drawing :=
| Rect (x y w h color : Z)
| Char (c x y color : Z)
| Text (text : list Z) (x y color : Z)
| Bar (x y w h value max_value color : Z).
Definition draw_call (font : Z -> Z -> Z) (win : gui_window_t) (d : drawing) : gui_window_t :=
  match d with
  | Rect x y w h color => gui_draw_rect win x y w h color
  | Char c x y color => gui_draw_char font win c x y color
  | Text text x y color => gui_draw_text font win text x y color
  | Bar x y w h value max_value color => gui_draw_bar win x y w h value max_value color
  end.

Lemma draw_confined font ds win : window_ok win -> canvas_confined win (foldl (draw_call font) win ds).
Proof.
  revert win. induction ds as [|d ds IH]; intros win Hok; [apply canvas_confined_refl|]. cbn [foldl].
  assert (canvas_confined win (draw_call font win d)) as Hd.
  { destruct d; [by apply fill_rect_confined|by apply draw_char_confined|by apply draw_text_confined|by apply draw_bar_confined]. }
  eapply canvas_confined_trans; [done|]. apply IH. by eapply canvas_confined_ok.
Qed.

Lemma kwm_accepts_size {H : Type} `{Display.KAlloc H} (k k' : Kwm.kwm) tid px py w h id :
  Kwm.kwm_create_window k tid px py w h = (k', id) -> 0 <= id -> 0 <= w -> 0 <= h ->
  1 <= w <= Kwm.KWM_MAX_DIMENSION /\ 1 <= h <= Kwm.KWM_MAX_DIMENSION.
Proof.
  unfold Kwm.kwm_create_window. destruct (Z.eqb_spec w 0), (Z.eqb_spec h 0), (Z.ltb_spec Kwm.KWM_MAX_DIMENSION w),
    (Z.ltb_spec Kwm.KWM_MAX_DIMENSION h); cbn [orb]; intros E Hid; try (injection E as _ <-; lia). lia.
Qed.

(** A window that the window manager accepts has a canvas block of exactly its
    size, and no sequence of drawing calls changes anything outside it. *)
Theorem drawing_in_canvas {H : Type} `{Display.KAlloc H} font (k k' : Kwm.kwm) tid w h id a_win a_canvas m ds :
  Kwm.kwm_create_window k tid 100 80 w h = (k', id) -> 0 <= id -> 0 <= w -> 0 <= h -> a_win <> 0 -> a_canvas <> 0 ->
  exists win calls, gui_create_window w h a_win a_canvas id m = (Some win, calls) /\ SysAlloc (4 * (w * h)) ∈ calls /\
    forall i, ~ 0 <= i < w * h -> ld (foldl (draw_call font) win ds).(canvas) i = ld m i.
Proof.
  intros E Hid Hw0 Hh0 Ha Hc. destruct (kwm_accepts_size k k' tid 100 80 w h id E Hid Hw0 Hh0) as [Hw Hh].
  unfold gui_create_window, open_window. destruct (Z.eqb_spec a_win 0), (Z.eqb_spec a_canvas 0), (Z.ltb_spec id 0); try (lia || done).
  eexists _, _. split; [reflexivity|]. split.
  - unfold Kwm.KWM_MAX_DIMENSION in *. rewrite (wrap_small 32 (w * h)), wrap_small by nia. rewrite (Z.mul_comm 4). set_solver.
  - intros i Hi. set (win0 := new_window w h a_canvas m id).
    assert (window_ok win0) as Hok by done. pose proof (fill_rect_confined win0 0 0 (i32 w) (i32 h) 0xF5F5F5 Hok) as Hf.
    pose proof (draw_confined font ds _ (canvas_confined_ok _ _ Hf Hok)) as Hd.
    destruct (canvas_confined_trans _ _ _ Hf Hd) as (_ & _ & _ & _ & Hm). by apply Hm.
Qed.

(** ** Failures give everything back *)

Definition frees (p : Z) (c : gcall) : bool := match c with SysFree q => q =? p | _ => false end.

Theorem failed_window_frees w h a_win a_canvas id m calls : a_win <> a_canvas ->
  gui_create_window w h a_win a_canvas id m = (None, calls) ->
  (a_win <> 0 -> length (List.filter (frees a_win) calls) = 1%nat) /\
  (a_win <> 0 -> a_canvas <> 0 -> length (List.filter (frees a_canvas) calls) = 1%nat).
Proof.
  intros Hne. unfold gui_create_window, open_window.
  destruct (Z.eqb_spec a_win 0), (Z.eqb_spec a_canvas 0), (Z.ltb_spec id 0); intros E; try discriminate; injection E as <-;
    split; intros; try done; cbn [List.filter frees app];
    rewrite ?Z.eqb_refl; destruct (Z.eqb_spec a_canvas a_win), (Z.eqb_spec a_win a_canvas); try congruence; done.
Qed.

(** ** Bars *)

(** The filled part is the fraction of the width, as long as the product fits 32 bits. *)
Theorem bar_filled_exact w value max_value : 0 <= w < 2 ^ 31 -> 0 <= value <= max_value -> 0 < max_value -> value * w < 2 ^ 32 ->
  bar_filled w value max_value = value * w / max_value.
Proof.
  intros Hw Hv Hm Hp. unfold bar_filled. rewrite (wrap_small 32 w), (wrap_small 32 (value * w)) by nia.
  assert (0 <= value * w / max_value <= w) as Hq.
  { split; [apply Z.div_pos; nia|]. apply Z.div_le_upper_bound; nia. }
  rewrite sx_small by lia. destruct (Z.ltb_spec w (value * w / max_value)); lia.
Qed.

(** A bar of 200 pixels that is half full, 32 MiB of 64: the product wraps and 36
    pixels are drawn instead of 100. *)
Example bar_wraps : bar_filled 200 (32 * 2 ^ 20) (64 * 2 ^ 20) = 36 /\ 32 * 2 ^ 20 * 200 / (64 * 2 ^ 20) = 100.
Proof. vm_compute. done. Qed.

(** A label fits its array when the suffix has at most 38 characters. *)
Theorem label_fits label num suffix : 0 <= num < 2 ^ 32 -> (length suffix <= 38)%nat ->
  label_text label num suffix = Some (take 79 label ++ Login.num_to_str num ++ suffix).
Proof.
  intros Hn Hs. destruct (Login.num_to_str_value num Hn) as (_ & _ & Hl).
  unfold label_text, lgui_strcat, lgui_strncpy, lgui_itoa. rewrite decide_True; [by rewrite <- app_assoc|].
  rewrite !length_app, length_take. lia.
Qed.

(** ** The event loop ends at the first request to close *)

Definition closing (ev : option Event.kyuzen_event_t) : bool := match ev with Some ev => closes ev | None => false end.

Lemma on_mouse_running ev win : is_running (on_mouse ev win) = is_running win.
Proof. unfold on_mouse. repeat case_match; done. Qed.

Theorem mainloop_ends fn pre ev post win : is_running win = true ->
  Forall (fun e => closing e = false) pre -> closing ev = true ->
  exists win' calls, gui_mainloop (Some fn) (pre ++ ev :: post) win = (win', calls) /\
    is_running win' = false /\ length calls = length pre.
Proof.
  intros Hr Hpre Hev. revert win Hr. induction Hpre as [|e pre He _ IH]; intros win Hr; cbn [app gui_mainloop]; rewrite Hr; cbn [negb].
  - fold (closing ev). rewrite Hev. by eexists _, _.
  - fold (closing e). rewrite He.
    set (win1 := set_canvas _ _). destruct (IH win1) as (win' & calls & E & Hr' & Hl).
    { unfold win1. cbn. destruct e; [by rewrite on_mouse_running|done]. }
    rewrite E. exists win', (gui_flush win1 ++ calls). split; [done|]. split; [done|]. cbn. by rewrite Hl.
Qed.
End Libgui.
