(* ===== verification/Userlib.v ===== *)
(** * The system-call wrappers of the applications (src/apps/userlib.c)

    [api] has one constructor for each wrapper, with its C arguments; [enter]
    are the registers at the [int $0x80], given those before the call, and
    [result] is what the wrapper makes of the returned [rax].  An [int] that is
    passed in a register without a cast ([sys_kwm_create_window] and its
    neighbours) leaves the upper half of the register open: [hi] stands for it.

    [userlib_abi]: the kernel does exactly what the arguments say, whatever the
    other registers and the open halves hold; [scalar_arguments_arrive] names
    the kernel function for the calls with plain arguments. *)

From S2P Require Import Prelude KString Kfs Event Display Kwm Syscall.
From stdpp Require Import base numbers list gmap.
From Stdlib Require Import ZArith Lia.

#[local] Open Scope Z_scope.

Module Userlib.
Import Syscall.

Inductive api :=
| Print (text : Z) | ClearScreen | ReadKeyboard (buffer size : Z) | SysYield
| FsFormat | FsList | FsRead (filename : Z) | FsDelete (filename : Z)
| SysAlloc (size : Z) | SysFree (ptr : Z) | SysRealloc (ptr old_size new_size : Z)
| SysFileExists (filename : Z) | SysFileSize (filename : Z) | SysReadFileToBuffer (filename buffer capacity : Z)
| SysUptime | SysTotalRam | SysUsedRam | GetCpuStringOf (buffer : Z)
| SysCreateFile (filename data size : Z) | SysGetTime (time_array : Z)
| SysDrawPixel (x y color : Z) | SysDrawImage (x y width height buffer : Z)
| SysGetFileList (path buffer max_entries : Z) | SysMkdir (path : Z) | SysLoadElf (filename : Z)
| SysDrawString (str x y color : Z) | SysSetUid (uid : Z) | SysGetUid | SysGetEvent (event_out : Z)
| SysCreateWindow (x y width height : Z) | SysUpdateWindow (win_id buffer : Z) | SysDestroyWindow (win_id : Z)
| SysKwmCreateWindow (x y width height : Z) | SysKwmUpdateWindow (win_id buffer : Z) | SysKwmDestroyWindow (win_id : Z)
| SysExec (filename : Z) | SysSpawn (filename : Z) | SysKwmSetCursor (kind : Z) | SysKwmCreateDesktop
| SysKwmSetTitle (win_id title : Z) | SysKwmGetWindows (buffer max : Z) | SysKwmActivateWindow (win_id : Z)
| SysGetScreenSize (w h : Z) | SysExit | SysShutdown | SysReboot
| SysGetTotalDisk | SysGetUsedDisk | SysGetCpuUsage | SysPing (host : Z) | SysGetCr3 | SysGetTaskId
| SysIsMapped (addr : Z) | SysGetPid | SysSleep (ms : Z)
| SysOpen (path flags : Z) | SysReadFd (fd buf count : Z) | SysWriteFd (fd buf count : Z)
| SysLseek (fd offset whence : Z) | SysClose (fd : Z)
| SysSocket | SysConnect (sock ip_be port : Z) | SysSend (sock buf len : Z) | SysRecv (sock buf len : Z) | SysSockClose (sock : Z).

(** ** Entry *)

(** [rax] and the argument registers in their order; the others stay. *)
Definition int80 (r : registers_t) (ax : Z) (args : list Z) : registers_t :=
  let arg i old := default old (args !! i) in
  mk_regs ax (arg 0%nat r.(rbx)) (arg 1%nat r.(rcx)) (arg 2%nat r.(rdx)) (arg 3%nat r.(rsi)) (arg 4%nat r.(rdi))
    r.(rip) r.(cs) r.(rsp) r.(ss).

(** A 32-bit operand of a 64-bit register. *)
Definition operand32 (hi v : Z) : Z := u32 v + 2 ^ 32 * u32 hi.

Definition enter (hi : Z) (r : registers_t) (a : api) : registers_t :=
  let lo := operand32 hi in
  match a with
  | Print text => int80 r 1 [text]
  | ClearScreen => int80 r 2 []
  | ReadKeyboard buffer size => int80 r 3 [buffer; size]
  | SysYield => int80 r 4 []
  | FsFormat => int80 r 5 []
  | FsList => int80 r 6 []
  | FsRead filename => int80 r 7 [filename]
  | FsDelete filename => int80 r 8 [filename]
  | SysAlloc size => int80 r 9 [size]
  | SysFree ptr => int80 r 10 [ptr]
  | SysFileExists filename => int80 r 11 [filename]
  | SysFileSize filename => int80 r 12 [filename]
  | SysReadFileToBuffer filename buffer capacity => int80 r 13 [filename; buffer; capacity]
  | SysUptime => int80 r 14 []
  | SysTotalRam => int80 r 15 []
  | SysUsedRam => int80 r 16 []
  | GetCpuStringOf buffer => int80 r 17 [buffer]
  | SysCreateFile filename data size => int80 r 18 [filename; data; size]
  | SysRealloc ptr old_size new_size => int80 r 19 [ptr; old_size; new_size]
  | SysGetTime time_array => int80 r 20 [time_array]
  | SysDrawPixel x y color => int80 r 22 [u64 x; u64 y; color]
  | SysDrawImage x y width height buffer => int80 r 23 [u64 x; u64 y; u64 width; u64 height; buffer]
  | SysGetFileList path buffer max_entries => int80 r 24 [path; buffer; u64 max_entries]
  | SysMkdir path => int80 r 64 [path]
  | SysLoadElf filename => int80 r 25 [filename]
  | SysDrawString str x y color => int80 r 26 [str; u64 x; u64 y; color]
  | SysSetUid uid => int80 r 27 [uid]
  | SysGetUid => int80 r 28 []
  | SysGetEvent event_out => int80 r 29 [event_out]
  | SysCreateWindow x y width height => int80 r 30 [u64 x; u64 y; width; height]
  | SysUpdateWindow win_id buffer => int80 r 31 [u64 win_id; buffer]
  | SysDestroyWindow win_id => int80 r 32 [u64 win_id]
  | SysKwmCreateWindow x y width height => int80 r 30 [lo x; lo y; lo width; lo height]
  | SysKwmUpdateWindow win_id buffer => int80 r 31 [lo win_id; buffer]
  | SysKwmDestroyWindow win_id => int80 r 32 [lo win_id]
  | SysExec filename => int80 r 33 [filename]
  | SysSpawn filename => int80 r 57 [filename]
  | SysKwmSetCursor kind => int80 r 58 [u64 kind]
  | SysKwmCreateDesktop => int80 r 59 []
  | SysKwmSetTitle win_id title => int80 r 60 [u64 win_id; title]
  | SysKwmGetWindows buffer max => int80 r 61 [buffer; u64 max]
  | SysKwmActivateWindow win_id => int80 r 62 [u64 win_id]
  | SysGetScreenSize w h => int80 r 63 [w; h]
  | SysExit => int80 r 34 []
  | SysShutdown => int80 r 38 []
  | SysReboot => int80 r 39 []
  | SysGetTotalDisk => int80 r 35 []
  | SysGetUsedDisk => int80 r 36 []
  | SysGetCpuUsage => int80 r 37 []
  | SysPing host => int80 r 41 [host]
  | SysGetCr3 => int80 r 42 []
  | SysGetTaskId => int80 r 43 []
  | SysIsMapped addr => int80 r 44 [addr]
  | SysGetPid => int80 r 45 []
  | SysSleep ms => int80 r 46 [ms]
  | SysOpen path flags => int80 r 47 [path; flags]
  | SysReadFd fd buf count => int80 r 48 [u64 fd; buf; count]
  | SysWriteFd fd buf count => int80 r 49 [u64 fd; buf; count]
  | SysLseek fd offset whence => int80 r 50 [u64 fd; u64 offset; u64 whence]
  | SysClose fd => int80 r 51 [u64 fd]
  | SysSocket => int80 r 52 []
  | SysConnect sock ip_be port => int80 r 53 [u64 sock; ip_be; port]
  | SysSend sock buf len => int80 r 54 [u64 sock; buf; len]
  | SysRecv sock buf len => int80 r 55 [u64 sock; buf; len]
  | SysSockClose sock => int80 r 56 [u64 sock]
  end.

(** ** Return *)

(** The value of the call; [None] for a wrapper without one. *)
Definition result (a : api) (rax : Z) : option Z :=
  match a with
  | ReadKeyboard _ _ | SysFileSize _ | SysGetUid | SysGetTotalDisk | SysGetUsedDisk | SysGetCpuUsage | SysGetPid => Some (u32 rax)
  | SysAlloc _ | SysRealloc _ _ _ | SysUptime | SysTotalRam | SysUsedRam | SysLoadElf _ | SysGetCr3 => Some rax
  | Print _ | ClearScreen | SysYield | FsFormat | FsList | FsRead _ | FsDelete _ | SysFree _ | GetCpuStringOf _ | SysGetTime _
  | SysDrawPixel _ _ _ | SysDrawImage _ _ _ _ _ | SysDrawString _ _ _ _ | SysSetUid _ | SysUpdateWindow _ _ | SysDestroyWindow _
  | SysKwmUpdateWindow _ _ | SysKwmDestroyWindow _ | SysExec _ | SysExit | SysShutdown | SysReboot | SysSleep _ => None
  | _ => Some (i32 rax)
  end.

(** A call of an application: what the kernel does, and what the wrapper returns. *)
Definition invoke_api (hi : Z) (r : registers_t) (a : api) : prog (option Z) :=
  bind (syscall_handler (enter hi r a)) (fun r' => Done (result a r'.(rax))).

(** ** The kernel sees the arguments only *)

(** Two programs that make the same calls and return the same values. *)
Inductive same : prog registers_t -> prog registers_t -> Prop :=
| same_done r1 r2 : rax r1 = rax r2 -> rip r1 = rip r2 -> cs r1 = cs r2 -> rsp r1 = rsp r2 -> ss r1 = ss r2 -> same (Done r1) (Done r2)
| same_noreturn : same NoReturn NoReturn
| same_do {Y} (c : call Y) k1 k2 : (forall y, same (k1 y) (k2 y)) -> same (Do c k1) (Do c k2).

(** Registers that agree where the hardware saves the return state. *)
Definition same_frame (r1 r2 : registers_t) : Prop := rip r1 = rip r2 /\ cs r1 = cs r2 /\ rsp r1 = rsp r2 /\ ss r1 = ss r2.

Lemma i32_operand hi v : i32 (operand32 hi v) = i32 v.
Proof.
  unfold operand32, sx. replace (wrap 32 (u32 v + 2 ^ 32 * u32 hi)) with (u32 v); [done|].
  unfold wrap at 2. rewrite Z.mul_comm, Z.mod_add by lia. symmetry. apply wrap_wrap. lia.
Qed.
Lemma u32_operand hi v : u32 (operand32 hi v) = u32 v.
Proof. unfold operand32. unfold wrap at 1. rewrite Z.mul_comm, Z.mod_add by lia. apply wrap_wrap. lia. Qed.

Lemma same_ret r1 r2 v : same_frame r1 r2 -> same (ret r1 v) (ret r2 v).
Proof. intros (? & ? & ? & ?). by apply same_done. Qed.

Lemma same_ret_user r1 r2 ip sp v : same_frame r1 r2 -> same (ret (enter_user r1 ip sp) v) (ret (enter_user r2 ip sp) v).
Proof. intros (? & ? & ? & ?). by apply same_done. Qed.

(** One step of both programs: the same call, the same branch, or the end. *)
Ltac same_step :=
  lazymatch goal with
  | |- same (Do _ _) (Do _ _) => rewrite ?i32_operand, ?u32_operand; apply same_do; intros ?
  | |- same NoReturn NoReturn => apply same_noreturn
  | |- same (ret _ _) (ret _ _) => first [apply same_ret_user; by repeat split | apply same_ret; by repeat split]
  | |- same (if ?b then _ else _) _ => destruct b
  | |- same (match ?x with _ => _ end) _ => destruct x
  end.
Ltac open_handler :=
  unfold sys_print, sys_read_keyboard, sys_alloc, sys_free, sys_realloc, sys_file_exists, sys_file_size, sys_fs_read, sys_fs_delete,
    sys_read_file_to_buffer, sys_get_cpu_string, sys_create_file, sys_get_time, sys_draw_image, sys_get_file_list, sys_load_elf,
    sys_draw_string, sys_get_event, sys_kwm_create_window, sys_kwm_update_window, sys_kwm_destroy_window, sys_exec, sys_exit, sys_ping,
    sys_is_mapped, sys_get_pid, sys_open, sys_read, sys_write, sys_sock_send, sys_sock_recv, sys_spawn, sys_kwm_set_cursor,
    sys_kwm_set_title, sys_kwm_get_windows, sys_get_screen_size, sys_mkdir;
  unfold with_name; unfold syscall_current_task; unfold drop_space, adopt_space; cbv zeta.

(** C40. The wrappers and the kernel agree on the calling convention: for every
    system call of the library the kernel makes the same calls and returns the
    same value whatever the registers that the wrapper does not set, and the
    upper halves that it leaves open, contain. *)
Theorem userlib_abi a hi1 hi2 r1 r2 : same_frame r1 r2 ->
  same (syscall_handler (enter hi1 r1 a)) (syscall_handler (enter hi2 r2 a)).
Proof.
  destruct r1 as [a1 b1 c1 d1 s1 i1 p1 k1 t1 z1], r2 as [a2 b2 c2 d2 s2 i2 p2 k2 t2 z2].
  intros (? & ? & ? & ?). cbn in *. subst. destruct a; unfold enter, int80; cbn [lookup list_lookup default from_option id].
  all: unfold syscall_handler, dispatch; cbn [rax cs]; open_handler; cbn [rbx rcx rdx rsi rdi].
  all: repeat same_step.
Qed.

Definition demo_regs (x : Z) : registers_t := mk_regs x x x x x x 0x400000 0x1B 0x7FF0000 0x23.
Lemma userlib_abi_witness :
  same (syscall_handler (enter 0 (demo_regs 0) (SysLseek 3 (-5) 2))) (syscall_handler (enter 1 (demo_regs 77) (SysLseek 3 (-5) 2))).
Proof. apply (userlib_abi (SysLseek 3 (-5) 2) 0 1 (demo_regs 0) (demo_regs 77)). repeat split. Defined.

(** ** Plain arguments arrive as they were passed *)

Definition is_int (v : Z) : Prop := - 2 ^ 31 <= v < 2 ^ 31.
Definition is_u32 (v : Z) : Prop := 0 <= v < 2 ^ 32.

(** The program of a system call that is one kernel function. *)
Definition served {Y} (c : call Y) (k : Y -> option Z) : prog (option Z) :=
  syscall_current_task (fun _ => Do c (fun y => Done (k y))).

Lemma i32_u64 v : is_int v -> i32 (u64 v) = v.
Proof.
  intros Hv. unfold is_int in Hv. unfold sx.
  assert (u32 (u64 v) = u32 v) as ->.
  { unfold wrap. change (2 ^ 64) with (2 ^ 32 * 2 ^ 32). rewrite Z.rem_mul_r by lia.
    rewrite Z.mul_comm, Z.mod_add by lia. apply Z.mod_mod. lia. }
  fold (sx 32 v). apply sx_small; lia.
Qed.
Lemma i32_i32 v : is_int v -> i32 v = v.
Proof. unfold is_int. intros. apply sx_small; lia. Qed.
Lemma u32_u32 v : is_u32 v -> u32 v = v.
Proof. intros. by apply wrap_small. Qed.

(** For the calls whose arguments are numbers the kernel calls one function with
    exactly these arguments, and an [int] it answers comes back unchanged, the
    negative ones too. *)
Theorem scalar_arguments_arrive hi r fd offset whence ip port uid ms win x y w h :
  is_int fd -> is_int offset -> is_int whence -> is_u32 ip -> 0 <= port < 2 ^ 16 -> is_u32 uid -> is_u32 ms ->
  is_int win -> is_int x -> is_int y -> is_u32 w -> is_u32 h ->
  invoke_api hi r (SysLseek fd offset whence) = served (VfsLseek fd offset whence) (fun v => Some (i32 (u64 v))) /\
  invoke_api hi r (SysClose fd) = served (VfsClose fd) (fun v => Some (i32 (u64 v))) /\
  invoke_api hi r (SysConnect fd ip port) = served (KsockConnect fd ip port) (fun v => Some (i32 (u64 v))) /\
  invoke_api hi r (SysSockClose fd) = served (KsockClose fd) (fun v => Some (i32 (u64 v))) /\
  invoke_api hi r (SysKwmActivateWindow win) = served (KwmActivateWindow win) (fun v => Some (i32 (u64 v))) /\
  invoke_api hi r (SysKwmCreateWindow x y w h) = served (KwmCreateWindow x y w h) (fun v => Some (i32 (u64 v))) /\
  invoke_api hi r (SysCreateWindow x y w h) = served (KwmCreateWindow x y w h) (fun v => Some (i32 (u64 v))) /\
  invoke_api hi r (SysSleep ms) = served (TaskSleepMs ms) (fun _ => None) /\
  forall v, is_int v -> i32 (u64 v) = v.
Proof.
  intros. unfold invoke_api, enter, int80, syscall_handler, dispatch, served, syscall_current_task, sys_kwm_create_window.
  cbn [lookup list_lookup default from_option id rax cs rbx rcx rdx rsi bind ret set_rax result].
  rewrite !i32_u64, !i32_operand, !u32_operand, !i32_i32 by done. rewrite !u32_u32 by done. rewrite (wrap_small 16) by done.
  repeat split. intros. by apply i32_u64.
Qed.
End Userlib.
