(* ===== verification/Boot.v ===== *)
(** * Start-up: the modules of the boot loader (src/kernel/kernel.c)

    [kernel_main] copies the files the boot loader hands over into KyuzenFS.
    Modelled are the name and the place of each file, the loop over the modules
    as the calls of the file system it makes, and [kprint_num].  The calls that
    initialise the other components are listed in their order.

    [modules_found_by_shell]: an application is stored exactly where the shell
    and the desktop look for it.  [install_calls]: every module with a name is
    written once, after an older file of that name is removed. *)

From S2P Require Import Prelude Login.
From stdpp Require Import base numbers sets list.
From Stdlib Require Import ZArith Lia.

#[local] Open Scope list_scope.
#[local] Open Scope Z_scope.

Module Boot.
Import Login.

Definition PATH_SLASH : Z := 47.
Definition SPACE : Z := 32.
Definition CLEAN_MAX : nat := 22.

(** ** Names *)

(** The part behind the last slash. *)
Fixpoint last_slash (raw_name : list Z) : list Z :=
  match raw_name with
  | [] => []
  | c :: rest => if bool_decide (PATH_SLASH ∈ rest) then last_slash rest else if c =? PATH_SLASH then rest else raw_name
  end.

(** Up to a blank or a line break, at most 22 characters. *)
Fixpoint clean (k : nat) (l : list Z) : list Z :=
  match k, l with
  | S k, c :: l => if (c =? SPACE) || (c =? NEWLINE) then [] else c :: clean k l
  | _, _ => []
  end.
Definition clean_name (raw_name : list Z) : list Z := clean CLEAN_MAX (last_slash raw_name).

Definition ending (name : list Z) : list Z := drop (length name - 3) name.
Definition is_app (name : list Z) : bool :=
  bool_decide (4 < length name)%nat && (str_match (ending name) [101; 108; 102] || str_match (ending name) [97; 112; 112]).

(** The path in an array of 32 bytes. *)
Definition dest_of (name : list Z) : list Z := take 31 ((if is_app name then KYUZEN_APPS_DIR else []) ++ name).

(** ** The loop *)

Inductive fscall :=
| CreateFolder (path : list Z)
| DeleteFile (path : list Z)
| CreateFile (path data : list Z).

Record limine_file := mk_file { path : option (list Z); contents : list Z }.

Definition APPS_FOLDER : list Z := [47; 97; 112; 112; 115].

(** [kfs_exists done p]: whether the path exists after the calls [done]. *)
Definition install_one (kfs_exists : list fscall -> list Z -> bool) (done : list fscall) (f : limine_file) : list fscall :=
  match f.(path) with
  | None => []
  | Some raw_name =>
      let name := clean_name raw_name in
      match name with
      | [] => []
      | _ =>
          let dest := dest_of name in
          (if kfs_exists done dest then [DeleteFile dest] else []) ++ [CreateFile dest f.(contents)]
      end
  end.

Fixpoint install_loop (kfs_exists : list fscall -> list Z -> bool) (done : list fscall) (mods : list limine_file) : list fscall :=
  match mods with
  | [] => done
  | f :: mods => install_loop kfs_exists (done ++ install_one kfs_exists done f) mods
  end.

Definition install_modules (kfs_exists : list fscall -> list Z -> bool) (mods : list limine_file) : list fscall :=
  match mods with
  | [] => []
  | _ => install_loop kfs_exists (if kfs_exists [] APPS_FOLDER then [] else [CreateFolder APPS_FOLDER]) mods
  end.

(** [kprint_num]: the digits in an array of 20 bytes whose last is the
    terminator; [None] when a digit is written before it. *)
Definition kprint_num (num : Z) : option (list Z) :=
  let digits := if num =? 0 then [48] else rev (temp_digits 20 num) in
  if decide (length digits <= 19)%nat then Some digits else None.

(** ** The order of initialisation *)

Inductive init_call :=
| InitGdt | InitIdt | PmmInit | InitPaging | InitHeap | CpuFeatures | PicRemap | LapicInitBsp | PciProbe | InitTimer
| GhalInit | TimerCallbacksInit | TaskingInit | InitMouse | InitKeyboard | InitTty | KfsInit | SerialInit | VfsInit | SmpInit
| InstallModules | Sti | NetInit | KsockInit | UserLogin.
#[export] Instance init_call_eq : EqDecision init_call.
Proof. solve_decision. Defined.

Definition kernel_main : list init_call :=
  [InitGdt; InitIdt; PmmInit; InitPaging; InitHeap; CpuFeatures; PicRemap; LapicInitBsp; PciProbe; InitTimer; GhalInit;
   TimerCallbacksInit; TaskingInit; InitMouse; InitKeyboard; InitTty; KfsInit; SerialInit; VfsInit; SmpInit; InstallModules;
   Sti; NetInit; KsockInit; UserLogin].

(** ** Lemmas *)

Lemma last_slash_spec dir name : PATH_SLASH ∉ name -> last_slash (dir ++ PATH_SLASH :: name) = name.
Proof.
  intros Hn. induction dir as [|c dir IH]; cbn [app last_slash].
  - rewrite bool_decide_eq_false_2 by done. by rewrite Z.eqb_refl.
  - rewrite bool_decide_eq_true_2 by set_solver. done.
Qed.

Lemma clean_spec k name : Forall (fun c => c <> SPACE /\ c <> NEWLINE) name -> (length name <= k)%nat -> clean k name = name.
Proof.
  intros Hf. revert k. induction Hf as [|c name [Hs Hn] _ IH]; intros [|k] Hk; cbn in *; try done; [lia|].
  destruct (Z.eqb_spec c SPACE), (Z.eqb_spec c NEWLINE); try done. cbn. rewrite IH by lia. done.
Qed.

Lemma clean_length k l : (length (clean k l) <= k)%nat.
Proof. revert l. induction k as [|k IH]; intros [|c l]; cbn; try lia. destruct (_ || _); cbn; [lia|]. specialize (IH l). lia. Qed.

(** The array of 32 bytes never cuts a path. *)
Lemma dest_of_full raw : dest_of (clean_name raw) = (if is_app (clean_name raw) then KYUZEN_APPS_DIR else []) ++ clean_name raw.
Proof.
  unfold dest_of. apply take_ge. pose proof (clean_length CLEAN_MAX (last_slash raw)) as H. fold (clean_name raw) in H.
  unfold CLEAN_MAX in H. destruct (is_app _); rewrite ?length_app; cbn [KYUZEN_APPS_DIR length app]; lia.
Qed.

(** A program that the boot loader passes as ".../name.elf" is stored where the
    shell looks for the command [name]. *)
Theorem modules_found_by_shell dir name :
  Forall (fun c => c <> SPACE /\ c <> NEWLINE /\ c <> PATH_SLASH) name -> (0 < length name <= 18)%nat ->
  dest_of (clean_name (dir ++ PATH_SLASH :: name ++ text_elf)) = build_app_path 40 (elf_of_command name).
Proof.
  intros Hn Hl.
  assert (clean_name (dir ++ PATH_SLASH :: name ++ text_elf) = name ++ text_elf) as E.
  { unfold clean_name. rewrite last_slash_spec.
    - apply clean_spec; [|rewrite length_app; unfold CLEAN_MAX; cbn; lia]. apply Forall_app. split; [|by repeat constructor].
      eapply Forall_impl; [done|]. naive_solver.
    - intros Hin. apply elem_of_app in Hin as [Hin|Hin]; [|revert Hin; unfold text_elf, PATH_SLASH; set_solver].
      rewrite Forall_forall in Hn. by apply (Hn _ Hin). }
  rewrite dest_of_full, E.
  assert (is_app (name ++ text_elf) = true) as ->.
  { unfold is_app, ending. rewrite length_app. cbn [text_elf length]. rewrite bool_decide_eq_true_2 by lia.
    replace (length name + 4 - 3)%nat with (length name + 1)%nat by lia. rewrite drop_app_add. done. }
  unfold build_app_path, elf_of_command, NAME_MAX. rewrite (take_ge name) by lia.
  symmetry. apply take_ge. rewrite !length_app. cbn [KYUZEN_APPS_DIR text_elf length]. lia.
Qed.

(** Letters that only end like an application go there too: the dot is not tested. *)
Example shelf_is_app : is_app [115; 104; 101; 108; 102] = true.
Proof. reflexivity. Qed.

Definition writes (p : list Z) (c : fscall) : bool := match c with CreateFile q _ => bool_decide (q = p) | _ => false end.
Definition place (f : limine_file) : option (list Z) :=
  raw ← path f; match clean_name raw with [] => None | name => Some (dest_of name) end.

Lemma install_one_writes e calls f p :
  List.filter (writes p) (install_one e calls f) = if bool_decide (place f = Some p) then [CreateFile p f.(contents)] else [].
Proof.
  unfold install_one, place. destruct (path f) as [raw|]; [|done]. cbn [mbind option_bind].
  destruct (clean_name raw) as [|c name]; [done|]. set (d := dest_of (c :: name)).
  destruct (e calls d); cbn [app List.filter writes]; repeat case_bool_decide; congruence.
Qed.

Lemma install_loop_writes mods e calls p :
  List.filter (writes p) (install_loop e calls mods) =
  List.filter (writes p) calls ++ ((fun f => CreateFile p f.(contents)) <$> List.filter (fun f => bool_decide (place f = Some p)) mods).
Proof.
  revert calls. induction mods as [|f mods IH]; intros calls; cbn [install_loop List.filter]; [by rewrite app_nil_r|].
  rewrite IH, List.filter_app, install_one_writes, <- app_assoc. by case_bool_decide.
Qed.

(** Whatever the file system answers: the files that are written to a path are
    those of the modules with that place, in order, so the last one stays. *)
Theorem install_calls e mods p :
  List.filter (writes p) (install_modules e mods) =
  (fun f => CreateFile p f.(contents)) <$> List.filter (fun f => bool_decide (place f = Some p)) mods.
Proof.
  unfold install_modules. destruct mods as [|f mods]; [done|]. rewrite install_loop_writes. by destruct (e [] APPS_FOLDER).
Qed.

(** ** Order *)

Definition before (a b : init_call) : bool :=
  match list_find (eq a) kernel_main, list_find (eq b) kernel_main with
  | Some (i, _), Some (j, _) => bool_decide (i < j)%nat
  | _, _ => false
  end.

(** What a component uses when it is initialised is initialised before: the
    frame allocator, the tables and the heap before their users, the surface of
    the screen before the timer callbacks that flush it, the file system before
    the modules, and interrupts before the waits of the network. *)
Theorem kernel_main_order : forallb (fun d => before d.1 d.2)
  [(InitGdt, InitIdt); (PmmInit, InitPaging); (InitPaging, InitHeap); (InitHeap, GhalInit); (InitTimer, TimerCallbacksInit);
   (GhalInit, TimerCallbacksInit); (PicRemap, Sti); (LapicInitBsp, SmpInit); (TaskingInit, SmpInit); (KfsInit, VfsInit);
   (KfsInit, InstallModules); (InstallModules, UserLogin); (TimerCallbacksInit, Sti); (InitIdt, Sti); (Sti, NetInit); (NetInit, KsockInit);
   (KsockInit, UserLogin)] = true.
Proof. vm_compute. reflexivity. Qed.

(** ** Numbers *)

(** [kprint_num] has room for 19 digits: it prints every number below 10^19 and
    writes before its array above. *)
Theorem kprint_num_range num : 0 <= num < 2 ^ 64 -> (exists d, kprint_num num = Some d) <-> num < 10 ^ 19.
Proof.
  intros Hn. unfold kprint_num. destruct (Z.eqb_spec num 0) as [->|Hz]; [split; [lia|by eexists]|].
  rewrite length_rev.
  assert (forall fuel n k, 0 < n -> (length (temp_digits fuel n) <= k)%nat <-> (n < 10 ^ Z.of_nat k \/ (fuel <= k)%nat)) as H.
  { induction fuel as [|fuel IH]; intros n k Hp; cbn [temp_digits length]; [split; [right; lia|lia]|].
    destruct (Z.leb_spec n 0); [lia|]. cbn [length]. destruct k as [|k]; [split; [lia|]; intros [?|?]; [cbn in *; lia|lia]|].
    replace (10 ^ Z.of_nat (S k)) with (10 * 10 ^ Z.of_nat k) by (rewrite Nat2Z.inj_succ, Z.pow_succ_r by lia; done).
    destruct (Z.lt_ge_cases n 10) as [Hs|Hs].
    - rewrite Z.div_small by lia. split; [intros _; left; pose proof (Z.pow_pos_nonneg 10 (Z.of_nat k)); lia|]. intros _.
      destruct fuel; cbn; lia.
    - specialize (IH (n / 10) k ltac:(divlia)). rewrite <- Nat.succ_le_mono, IH, <- Nat.succ_le_mono.
      assert (n / 10 < 10 ^ Z.of_nat k <-> n < 10 * 10 ^ Z.of_nat k) by divlia. tauto. }
  specialize (H 20%nat num 19%nat ltac:(lia)). case_decide as Hd.
  - split; [|by eexists]. intros _. apply H in Hd. change (Z.of_nat 19) with 19 in Hd. destruct Hd; [done|lia].
  - split; [intros [? ?]; done|]. intros Hlt. exfalso. apply Hd, H. by left.
Qed.
End Boot.
