(* ===== verification/Panic.v ===== *)
(** * The panic screen and the serial port (src/kernel/panic.c, src/drivers/serial.c)

    The handlers draw a report and stop the machine.  A report is the list of
    its drawing calls ([act]); [place_acts] places them with the cursor, and
    [draw_all] draws them into the framebuffer, a finite map of pixels.  The
    state the report shows is the record [panic_ctx].  The mirror on the serial port
    is the list of its bytes.

    [panic_inside_fb]: nothing is drawn outside the framebuffer.
    [panic_report_fits]: the report of every exception fits a screen of 1024 by
    768.  [hex_roundtrip] and [dec_roundtrip]: the numbers are readable. *)

From S2P Require Import Prelude Login.
From stdpp Require Import base numbers list gmap.
From Stdlib Require Import ZArith Lia.
From Stdlib Require Import String Ascii.

#[local] Abbreviation length := Datatypes.length.

#[local] Open Scope string_scope.
#[local] Open Scope list_scope.
#[local] Open Scope Z_scope.

Module Panic.
Import Login.

Definition ascii_text (s : string) : list Z := map (fun a => Z.of_nat (nat_of_ascii a)) (list_ascii_of_string s).

(** ** Numbers *)

Definition panic_hexdigit (v : Z) : Z := if v <? 10 then 48 + v else 55 + v.
(** The sixteen digits, from the last one on. *)
Fixpoint panic_hex_loop (n : nat) (v : Z) : list Z :=
  match n with
  | O => []
  | S n => panic_hex_loop n (Z.shiftr v 4) ++ [panic_hexdigit (Z.land v 0xF)]
  end.
Definition panic_hex (v : Z) : list Z := [48; 120] ++ panic_hex_loop 16 v.
(** The decimal digits in the 21 places before the terminator. *)
Definition panic_dec (v : Z) : list Z := if v =? 0 then [48] else rev (temp_digits 21 v).

(** ** The serial port *)

Definition COM1 : Z := 0x3F8.
Definition serial_init : list (Z * Z) :=
  [(COM1 + 1, 0x00); (COM1 + 3, 0x80); (COM1 + 0, 0x03); (COM1 + 1, 0x00); (COM1 + 3, 0x03); (COM1 + 2, 0xC7); (COM1 + 4, 0x0B)].
(** [status]: what the line status register shows at each poll.  The byte that
    was sent and the polls that are left; [None] when it is never ready. *)
Fixpoint serial_putc (status : list Z) (c : Z) : option ((Z * Z) * list Z) :=
  match status with
  | [] => None
  | s :: status => if Z.land s 0x20 =? 0 then serial_putc status c else Some ((COM1, u8 c), status)
  end.
Fixpoint serial_print (status : list Z) (s : list Z) : option (list (Z * Z) * list Z) :=
  match s with
  | [] => Some ([], status)
  | c :: s => '(w, status) ← serial_putc status c; '(ws, status) ← serial_print status s; Some (w :: ws, status)
  end.

(** ** Drawing *)

Record panic_fb := mk_fb { fb_width : Z; fb_height : Z; fb_pitch : Z; pixels : gmap Z Z }.
Definition set_pixels (f : panic_fb) (m : gmap Z Z) : panic_fb := mk_fb f.(fb_width) f.(fb_height) f.(fb_pitch) m.

Definition panic_draw_pixel (f : panic_fb) (x y color : Z) : panic_fb :=
  if (f.(fb_width) <=? x) || (f.(fb_height) <=? y) then f
  else set_pixels f (st f.(pixels) (u32 (u32 (y * (f.(fb_pitch) / 4)) + x)) color).

Definition panic_draw_char (font : Z -> Z -> Z) (f : panic_fb) (c x y fg bg : Z) : panic_fb :=
  let c := if 127 <? u8 c then 63 else c in
  for_loop 0 16 (fun row f => for_loop 0 8 (fun col f =>
    panic_draw_pixel f (u32 (x + col)) (u32 (y + row)) (if Z.land (font (u8 c) row) (Z.shiftr 0x80 col) =? 0 then bg else fg)) f) f.

Fixpoint panic_draw_string (font : Z -> Z -> Z) (f : panic_fb) (str : list Z) (x y fg bg : Z) : panic_fb :=
  match str with
  | [] => f
  | c :: str => panic_draw_string font (panic_draw_char font f c x y fg bg) str (u32 (x + 8)) y fg bg
  end.

Definition fill_screen (f : panic_fb) (color : Z) : panic_fb :=
  for_loop 0 f.(fb_height) (fun y f => for_loop 0 f.(fb_width) (fun x f => panic_draw_pixel f x y color) f) f.

(** ** Reports *)

Inductive act :=
| PStr (s : list Z) (fg : Z)
| PHex (label : list Z) (v fg : Z)
| PDec (label : list Z) (v fg : Z)
| PNewline.

(** A text, its place and its colour. *)
Record drawn := mk_drawn { at_x : Z; at_y : Z; what : list Z; colour : Z }.

(** One call: what is drawn, and the cursor behind it. *)
Definition place_act (cur : Z * Z) (a : act) : list drawn * (Z * Z) :=
  let '(x, y) := cur in
  match a with
  | PStr s fg => ([mk_drawn x y s fg], (u32 (x + 8 * Z.of_nat (length s)), y))
  | PHex label v fg =>
      let x1 := u32 (x + 8 * Z.of_nat (length label)) in
      ([mk_drawn x y label fg; mk_drawn x1 y (panic_hex v) fg], (u32 (x1 + 18 * 8), y))
  | PDec label v fg =>
      let x1 := u32 (x + 8 * Z.of_nat (length label)) in
      ([mk_drawn x y label fg; mk_drawn x1 y (panic_dec v) fg], (u32 (x1 + 8 * Z.of_nat (length (panic_dec v))), y))
  | PNewline => ([], (50, u32 (y + 18)))
  end.
Fixpoint place_acts (cur : Z * Z) (acts : list act) : list drawn :=
  match acts with
  | [] => []
  | a :: acts => let '(ds, cur) := place_act cur a in ds ++ place_acts cur acts
  end.
Definition START : Z * Z := (50, 30).

Definition draw_all (font : Z -> Z -> Z) (bg : Z) (f : panic_fb) (ds : list drawn) : panic_fb :=
  foldl (fun f d => panic_draw_string font f d.(what) d.(at_x) d.(at_y) d.(colour) bg) f ds.

Record panic_ctx := mk_panic_ctx {
  int_num : Z; error_code : Z; cr2 : Z; mapped : bool;
  rip : Z; rsp : Z; cs : Z; ss : Z; rax : Z; rbx : Z; rcx : Z; rdx : Z; rsi : Z; rdi : Z; rbp : Z; r8 : Z;
  panic_cpu : Z; online_cpu : Z; panic_task : Z; task_count : Z; pmm_used : Z; pmm_total : Z;
}.

Definition exception_names : list (list Z) :=
  [ascii_text "Divide by Zero"; ascii_text "Debug"; ascii_text "NMI"; ascii_text "Breakpoint"; ascii_text "Overflow"; ascii_text "Bound Range Exceeded";
   ascii_text "INVALID OPCODE"; ascii_text "Device Not Available"; ascii_text "DOUBLE FAULT"; ascii_text "Coprocessor Overrun"; ascii_text "Invalid TSS";
   ascii_text "Segment Not Present"; ascii_text "STACK-SEGMENT FAULT"; ascii_text "GENERAL PROTECTION"; ascii_text "PAGE FAULT"].
Definition exception_name (n : Z) : list Z :=
  if n <? 15 then default [] (exception_names !! Z.to_nat n) else ascii_text "Unknown".

Definition BG : Z := 0x001144.
Definition FG : Z := 0xFFFFFF.
Definition HDR_RED : Z := 0xFF4444.
Definition WARN : Z := 0xFFCC00.
Definition DIM : Z := 0x88AAFF.
Definition OK : Z := 0x44FF44.

Definition PANIC_RULE : list Z := ascii_text "====================================================".
Definition pstr (s : string) (fg : Z) : act := PStr (ascii_text s) fg.

Definition has_bit (v mask : Z) : bool := negb (Z.land v mask =? 0).

Definition panic_header (title : string) : list act :=
  [PStr PANIC_RULE HDR_RED; PNewline; pstr title HDR_RED; PNewline; PStr PANIC_RULE HDR_RED; PNewline; PNewline].

Definition page_fault_report (c : panic_ctx) : list act :=
  [pstr "--- PAGE FAULT ANALYSIS ---" WARN; PNewline; PHex (ascii_text "CR2 ADDR:   ") c.(cr2) WARN; PNewline; pstr "STATUS:     " DIM;
   (if c.(mapped) then pstr "PROTECTION VIOLATION (page present, access denied)" HDR_RED else pstr "NOT PRESENT (address unmapped)" HDR_RED);
   PNewline; pstr "ACCESS:     " DIM;
   (if has_bit c.(error_code) 1 then pstr "PROT " WARN else pstr "NONP " HDR_RED);
   (if has_bit c.(error_code) 2 then pstr "WRITE " WARN else pstr "READ " FG);
   (if has_bit c.(error_code) 4 then pstr "USER" WARN else pstr "KERNEL" FG); PNewline; PNewline].

Definition protection_report (c : panic_ctx) : list act :=
  [pstr "--- GPF ANALYSIS ---" WARN; PNewline] ++
  (if c.(error_code) =? 0 then [pstr "Null selector or non-canonical address" HDR_RED]
   else
     let tbl := Z.land (Z.shiftr c.(error_code) 1) 3 in
     let idx := Z.land (Z.shiftr c.(error_code) 3) 0x1FFF in
     [pstr "Selector index: " DIM; PDec [] idx WARN;
      (if tbl =? 0 then pstr " (GDT)" DIM else if tbl =? 2 then pstr " (LDT)" DIM else pstr " (IDT)" DIM)]) ++
  [PNewline; PNewline].

Definition register_report (c : panic_ctx) : list act :=
  [pstr "--- REGISTERS ---" DIM; PNewline;
   PHex (ascii_text "RAX: ") c.(rax) FG; PHex (ascii_text "  RBX: ") c.(rbx) FG; PNewline;
   PHex (ascii_text "RCX: ") c.(rcx) FG; PHex (ascii_text "  RDX: ") c.(rdx) FG; PNewline;
   PHex (ascii_text "RSI: ") c.(rsi) FG; PHex (ascii_text "  RDI: ") c.(rdi) FG; PNewline;
   PHex (ascii_text "RBP: ") c.(rbp) FG; PHex (ascii_text "  R8:  ") c.(r8) FG; PNewline; PNewline].

Definition system_report (c : panic_ctx) : list act :=
  [pstr "--- SYSTEM STATE ---" DIM; PNewline;
   pstr "CPU:        " DIM; PDec [] c.(panic_cpu) WARN; pstr " of " DIM; PDec [] c.(online_cpu) OK; pstr " online" DIM; PNewline;
   pstr "TASK:       " DIM; (if 0 <=? c.(panic_task) then PDec (ascii_text "#") (u64 c.(panic_task)) WARN else pstr "idle" WARN);
   pstr " of " DIM; PDec [] (u64 c.(task_count)) FG; pstr " total" DIM; PNewline;
   pstr "PMM PAGES:  " DIM; PDec [] c.(pmm_used) WARN; pstr " / " DIM; PDec [] c.(pmm_total) FG; pstr " used" DIM; PNewline;
   pstr "PMM RAM:    " DIM; PDec [] (u64 (c.(pmm_used) * 4096) / 1024) WARN; pstr " KB / " DIM;
   PDec [] (u64 (c.(pmm_total) * 4096) / 1024) FG; pstr " KB" DIM; PNewline; PNewline;
   PStr PANIC_RULE HDR_RED; PNewline; pstr "System frozen. Restart to recover." FG; PNewline].

(** What [exception_handler] draws before it stops. *)
Definition exception_report (c : panic_ctx) : list act :=
  panic_header "   KYUZEN OS — KERNEL PANIC" ++
  [pstr "EXCEPTION:  " DIM; PStr (exception_name c.(int_num)) WARN; PNewline;
   PHex (ascii_text "INT:        ") c.(int_num) FG; PHex (ascii_text "  ERR:  ") c.(error_code) FG; PNewline; PNewline;
   PHex (ascii_text "CRASH RIP:  ") c.(rip) WARN; PNewline; PHex (ascii_text "CRASH RSP:  ") c.(rsp) FG; PNewline; PNewline] ++
  (if c.(int_num) =? 14 then page_fault_report c else []) ++
  (if c.(int_num) =? 13 then protection_report c else []) ++
  register_report c ++ system_report c.

(** Its mirror on the serial port. *)
Definition exception_serial (c : panic_ctx) : list Z :=
  let nl := [10] in
  nl ++ ascii_text "==== KERNEL PANIC (serial dump) ====" ++ nl ++ ascii_text "EXCEPTION: " ++ exception_name c.(int_num) ++
  nl ++ ascii_text "INT: " ++ panic_dec c.(int_num) ++ ascii_text "  ERR: " ++ panic_hex c.(error_code) ++
  (if c.(int_num) =? 14 then
     nl ++ ascii_text "CR2: " ++ panic_hex c.(cr2) ++ ascii_text "  PF: " ++ (if c.(mapped) then ascii_text "PROT" else ascii_text "NONP") ++
     (if has_bit c.(error_code) 2 then ascii_text " WRITE" else ascii_text " READ") ++ (if has_bit c.(error_code) 4 then ascii_text " USER" else ascii_text " KERNEL")
   else []) ++
  nl ++ ascii_text "RIP: " ++ panic_hex c.(rip) ++ ascii_text "  RSP: " ++ panic_hex c.(rsp) ++ ascii_text "  CS: " ++ panic_hex c.(cs) ++ ascii_text "  SS: " ++ panic_hex c.(ss) ++
  nl ++ ascii_text "RAX: " ++ panic_hex c.(rax) ++ ascii_text "  RBX: " ++ panic_hex c.(rbx) ++ ascii_text "  RCX: " ++ panic_hex c.(rcx) ++ ascii_text "  RDX: " ++ panic_hex c.(rdx) ++
  nl ++ ascii_text "RSI: " ++ panic_hex c.(rsi) ++ ascii_text "  RDI: " ++ panic_hex c.(rdi) ++ ascii_text "  RBP: " ++ panic_hex c.(rbp) ++ ascii_text "  R8:  " ++ panic_hex c.(r8) ++ nl.

(** What [kernel_panic] draws. *)
Definition kernel_panic_report (title desc : list Z) (code cpu online used total : Z) : list act :=
  panic_header "   KYUZEN OS - KERNEL PANIC" ++
  [pstr "REASON:     " DIM; PStr title WARN; PNewline; pstr "DETAILS:    " DIM; PStr desc FG; PNewline;
   PHex (ascii_text "CODE:       ") code WARN; PNewline; PNewline;
   pstr "CPU:        " DIM; PDec [] cpu WARN; pstr " of " DIM; PDec [] online FG; pstr " online" DIM; PNewline;
   pstr "PMM PAGES:  " DIM; PDec [] used WARN; pstr " / " DIM; PDec [] total FG; pstr " used" DIM; PNewline; PNewline;
   pstr "System frozen. Restart to recover." FG; PNewline].

(** The framebuffer when the machine stops. *)
Definition exception_handler (font : Z -> Z -> Z) (f : panic_fb) (c : panic_ctx) : panic_fb :=
  draw_all font BG (fill_screen f BG) (place_acts START (exception_report c)).
Definition kernel_panic (font : Z -> Z -> Z) (f : panic_fb) (title desc : list Z) (code cpu online used total : Z) : panic_fb :=
  draw_all font BG (fill_screen f BG) (place_acts START (kernel_panic_report title desc code cpu online used total)).

(** ** The numbers can be read back *)

Definition unhex (c : Z) : Z := if c <? 58 then c - 48 else c - 55.
Definition hex_value (l : list Z) : Z := foldl (fun v c => v * 16 + unhex c) 0 l.

Lemma unhex_hexdigit v : 0 <= v < 16 -> unhex (panic_hexdigit v) = v.
Proof.
  intros Hv. unfold panic_hexdigit. destruct (Z.ltb_spec v 10); unfold unhex.
  - destruct (Z.ltb_spec (48 + v) 58); lia.
  - destruct (Z.ltb_spec (55 + v) 58); lia.
Qed.

Lemma hex_loop_value n v : 0 <= v < 16 ^ Z.of_nat n -> hex_value (panic_hex_loop n v) = v /\ length (panic_hex_loop n v) = n.
Proof.
  revert v. induction n as [|n IH]; intros v Hv; [cbn in *; split; [lia|done]|].
  rewrite Nat2Z.inj_succ, Z.pow_succ_r in Hv by lia. cbn [panic_hex_loop].
  rewrite Z.shiftr_div_pow2 by lia. change (2 ^ 4) with 16. destruct (IH (v / 16)) as [E L]; [divlia|].
  unfold hex_value in *. rewrite foldl_app, E. cbn [foldl]. change 0xF with (Z.ones 4). rewrite Z.land_ones by lia. change (2 ^ 4) with 16.
  rewrite unhex_hexdigit by divlia. split; [divlia|]. rewrite length_app, L. cbn. lia.
Qed.

(** A register is shown with all its sixteen digits. *)
Theorem hex_roundtrip v : 0 <= v < 2 ^ 64 -> hex_value (drop 2 (panic_hex v)) = v /\ length (panic_hex v) = 18%nat.
Proof. intros Hv. destruct (hex_loop_value 16 v) as [E L]; [done|]. split; [done|]. unfold panic_hex. rewrite length_app, L. done. Qed.

Lemma hex_length v : length (panic_hex v) = 18%nat.
Proof.
  unfold panic_hex. rewrite length_app. assert (forall n v, length (panic_hex_loop n v) = n) as -> ; [|done].
  clear. induction n as [|n IH]; intros v; [done|]. cbn [panic_hex_loop]. rewrite length_app, IH. cbn. lia.
Qed.

(** A number is shown with all its digits, at most twenty. *)
Theorem dec_roundtrip v : 0 <= v < 2 ^ 64 ->
  foldl (fun n c => n * 10 + (c - 48)) 0 (panic_dec v) = v /\ (length (panic_dec v) <= 20)%nat.
Proof.
  intros Hv. unfold panic_dec. destruct (Z.eqb_spec v 0) as [->|Hz]; [split; [done|cbn; lia]|].
  destruct (temp_digits_value 21 v) as [E _]; [cbn; lia|]. rewrite foldl_rev, E. split; [done|]. rewrite length_rev.
  assert (forall k fuel n, 0 <= n < 10 ^ Z.of_nat k -> (length (temp_digits fuel n) <= k)%nat) as H.
  { induction k as [|k IH]; intros fuel n Hn; (destruct fuel as [|fuel]; [cbn; lia|]); cbn [temp_digits]; destruct (Z.leb_spec n 0); cbn [length]; try lia.
    rewrite Nat2Z.inj_succ, Z.pow_succ_r in Hn by lia. specialize (IH fuel (n / 10) ltac:(divlia)). lia. }
  apply H. cbn. lia.
Qed.

(** ** Nothing outside the framebuffer *)

Definition fb_ok (f : panic_fb) : Prop :=
  0 <= fb_width f <= fb_pitch f / 4 /\ 0 <= fb_height f /\ fb_height f * (fb_pitch f / 4) < 2 ^ 32.
Definition fb_kept (f f' : panic_fb) : Prop :=
  fb_width f' = fb_width f /\ fb_height f' = fb_height f /\ fb_pitch f' = fb_pitch f /\
  forall i, ~ 0 <= i < fb_height f * (fb_pitch f / 4) -> ld (pixels f') i = ld (pixels f) i.

Lemma fb_kept_refl f : fb_kept f f.
Proof. done. Qed.
Lemma fb_kept_trans f g h : fb_kept f g -> fb_kept g h -> fb_kept f h.
Proof.
  intros (W1 & H1 & P1 & M1) (W2 & H2 & P2 & M2). repeat split; try congruence.
  intros i Hi. rewrite M2, M1; [done|done|congruence].
Qed.
Lemma fb_kept_ok f g : fb_kept f g -> fb_ok f -> fb_ok g.
Proof. intros (W & H & P & _). unfold fb_ok. by rewrite W, H, P. Qed.

Lemma draw_pixel_kept f x y color : fb_ok f -> 0 <= x -> 0 <= y -> fb_kept f (panic_draw_pixel f x y color).
Proof.
  intros (HW & HH & HP) Hx Hy. unfold panic_draw_pixel. destruct (Z.leb_spec (fb_width f) x), (Z.leb_spec (fb_height f) y); cbn [orb]; try apply fb_kept_refl.
  repeat split. intros i Hi. cbn [pixels set_pixels]. apply ld_st_ne.
  rewrite (wrap_small 32 (y * _)), wrap_small by nia. nia.
Qed.

Lemma loop_kept f lo hi body : fb_ok f -> (forall i g, lo <= i < hi -> fb_ok g -> fb_kept g (body i g)) -> fb_kept f (for_loop lo hi body f).
Proof.
  intros Hok Hb. apply (for_loop_pres (fb_kept f)); [apply fb_kept_refl|]. intros i g Hi Hg.
  eapply fb_kept_trans; [done|]. apply Hb; [done|]. by eapply fb_kept_ok.
Qed.

Lemma draw_string_kept font str f x y fg bg : fb_ok f -> fb_kept f (panic_draw_string font f str x y fg bg).
Proof.
  revert f x. induction str as [|c str IH]; intros f x Hok; [apply fb_kept_refl|]. cbn [panic_draw_string].
  assert (fb_kept f (panic_draw_char font f c x y fg bg)) as Hc.
  { unfold panic_draw_char. apply loop_kept; [done|]. intros row g _ Hg. apply loop_kept; [done|]. intros col h _ Hh.
    apply draw_pixel_kept; [done| |]; apply wrap_bound; lia. }
  eapply fb_kept_trans; [done|]. apply IH. by eapply fb_kept_ok.
Qed.

Lemma draw_all_kept font bg ds f : fb_ok f -> fb_kept f (draw_all font bg f ds).
Proof.
  revert f. induction ds as [|d ds IH]; intros f Hok; [apply fb_kept_refl|]. unfold draw_all in *. cbn [foldl].
  pose proof (draw_string_kept font (what d) f (at_x d) (at_y d) (colour d) bg Hok) as Hd.
  eapply fb_kept_trans; [done|]. apply IH. by eapply fb_kept_ok.
Qed.

Lemma fill_screen_kept f color : fb_ok f -> fb_kept f (fill_screen f color).
Proof.
  intros Hok. unfold fill_screen. apply loop_kept; [done|]. intros y g Hy Hg. apply loop_kept; [done|]. intros x h Hx Hh.
  apply draw_pixel_kept; [done|lia..].
Qed.

(** Both handlers write pixels of the framebuffer only, whatever they report. *)
Theorem panic_inside_fb font f c title desc code cpu online used total : fb_ok f ->
  fb_kept f (exception_handler font f c) /\ fb_kept f (kernel_panic font f title desc code cpu online used total).
Proof.
  intros Hok. pose proof (fill_screen_kept f BG Hok) as Hf.
  split; (eapply fb_kept_trans; [exact Hf|]); apply draw_all_kept; by eapply fb_kept_ok.
Qed.

(** ** The report fits the screen *)

(** Numbers are shown for 64-bit values. *)
Definition act_ok (a : act) : Prop := match a with PDec _ v _ => 0 <= v < 2 ^ 64 | _ => True end.
(** The most columns a call can take. *)
Definition columns (a : act) : Z :=
  match a with
  | PStr s _ => Z.of_nat (length s)
  | PHex label _ _ => Z.of_nat (length label) + 18
  | PDec label _ _ => Z.of_nat (length label) + 20
  | PNewline => 0
  end.
Fixpoint fits_screen (w h x y : Z) (acts : list act) : bool :=
  match acts with
  | [] => true
  | PNewline :: acts => fits_screen w h 50 (y + 18) acts
  | a :: acts => (x + 8 * columns a <=? w) && (y + 16 <=? h) && fits_screen w h (x + 8 * columns a) y acts
  end.
Definition drawn_fits (w h : Z) (d : drawn) : Prop := 0 <= at_x d /\ at_x d + 8 * Z.of_nat (length (what d)) <= w /\ at_y d + 16 <= h.

Lemma fits_screen_sound w h acts x x0 y : w <= 2 ^ 31 -> 0 <= x0 <= x -> 0 <= y ->
  Forall act_ok acts -> y + 18 * Z.of_nat (length acts) < 2 ^ 32 ->
  fits_screen w h x y acts = true -> Forall (drawn_fits w h) (place_acts (x0, y) acts).
Proof.
  intros Hw. revert x x0 y. induction acts as [|a acts IH]; intros x x0 y Hx Hy Hok Hl Hf; [constructor|].
  apply Forall_cons in Hok as [Ha Hok]. cbn [length] in Hl.
  destruct a as [s fg|label v fg|label v fg|]; cbn [fits_screen columns] in Hf; zprop; cbn [place_acts place_act].
  - rewrite wrap_small by lia. apply Forall_app. split; [repeat constructor; cbn [at_x at_y what]; lia|].
    apply (IH (x + 8 * Z.of_nat (length s))); try done; lia.
  - rewrite (wrap_small 32 (x0 + 8 * Z.of_nat (length label))), wrap_small by lia. apply Forall_app. split.
    + repeat constructor; cbn [at_x at_y what]; rewrite ?hex_length; lia.
    + apply (IH (x + 8 * (Z.of_nat (length label) + 18))); try done; lia.
  - destruct (dec_roundtrip v Ha) as [_ Hd].
    rewrite (wrap_small 32 (x0 + 8 * Z.of_nat (length label))), wrap_small by lia. apply Forall_app. split.
    + repeat constructor; cbn [at_x at_y what]; lia.
    + apply (IH (x + 8 * (Z.of_nat (length label) + 20))); try done; lia.
  - cbn [app]. rewrite wrap_small by lia. apply (IH 50); try done; lia.
Qed.

(** The values of the report are 64-bit registers and counters. *)
Definition ctx_ok (c : panic_ctx) : Prop :=
  0 <= int_num c /\ 0 <= panic_cpu c < 2 ^ 64 /\ 0 <= online_cpu c < 2 ^ 64 /\ 0 <= pmm_used c < 2 ^ 64 /\ 0 <= pmm_total c < 2 ^ 64.

Lemma u64_ok v : 0 <= u64 v < 2 ^ 64 /\ 0 <= u64 v / 1024 < 2 ^ 64.
Proof. pose proof (wrap_bound 64 v ltac:(lia)). split; [done|]. divlia. Qed.

Lemma exception_report_ok c : ctx_ok c -> Forall act_ok (exception_report c).
Proof.
  intros (Hi & Hcpu & Hon & Hu & Ht).
  assert (Forall act_ok (protection_report c)) as Hp.
  { unfold protection_report. apply Forall_app. split; [by repeat constructor|]. apply Forall_app. split; [|by repeat constructor].
    destruct (_ =? 0); [by repeat constructor|]. cbv zeta. repeat apply Forall_cons_2; try done.
    - cbn [act_ok]. change 0x1FFF with (Z.ones 13). rewrite Z.land_ones by lia. pose proof (Z.mod_pos_bound (Z.shiftr (error_code c) 3) (2 ^ 13)). lia.
    - by repeat case_match. }
  assert (Forall act_ok (page_fault_report c)) as Hpf
    by (unfold page_fault_report; repeat apply Forall_cons_2; try done; by case_match).
  unfold exception_report. repeat (apply Forall_app; split); try (by repeat constructor).
  - by destruct (_ =? 14).
  - by destruct (_ =? 13).
  - unfold system_report. repeat apply Forall_cons_2; try done; try apply u64_ok. case_match; [apply u64_ok|done].
Qed.

Lemma exception_report_fits c : 0 <= int_num c -> fits_screen 1024 768 50 30 (exception_report c) = true.
Proof.
  intros Hi. unfold exception_report.
  destruct (Z.eqb_spec (int_num c) 14) as [E14|E14]; [rewrite E14|destruct (Z.eqb_spec (int_num c) 13) as [E13|E13]; [rewrite E13|]].
  - unfold page_fault_report, system_report.
    destruct (mapped c), (has_bit _ 1), (has_bit _ 2), (has_bit _ 4), (0 <=? panic_task c); lazy; reflexivity.
  - unfold protection_report, system_report. destruct (error_code c =? 0); cbv zeta;
      [|destruct (_ =? 0); [|destruct (_ =? 2)]]; destruct (0 <=? panic_task c); lazy; reflexivity.
  - unfold exception_name, system_report. destruct (Z.ltb_spec (int_num c) 15) as [Hlt|].
    + assert (exists n, (n < 15)%nat /\ int_num c = Z.of_nat n) as (n & Hn & ->) by (exists (Z.to_nat (int_num c)); lia).
      rewrite Nat2Z.id. clear Hi E14 E13 Hlt. do 15 (destruct n as [|n]; [destruct (0 <=? panic_task c); lazy; reflexivity|]). lia.
    + destruct (0 <=? panic_task c); lazy; reflexivity.
Qed.

(** Every exception report, with its page-fault or protection part, lies on a
    screen of 1024 by 768 pixels. *)
Theorem panic_report_fits c : ctx_ok c -> Forall (drawn_fits 1024 768) (place_acts START (exception_report c)).
Proof.
  intros Hok. apply (fits_screen_sound 1024 768 _ 50); [lia|lia|lia|by apply exception_report_ok| |apply exception_report_fits, Hok].
  assert (length (exception_report c) <= 200)%nat; [|lia].
  unfold exception_report, protection_report. destruct (_ =? 14), (_ =? 13), (error_code c =? 0); cbv zeta; rewrite ?length_app; cbn [length panic_header page_fault_report register_report system_report]; lia.
Qed.
End Panic.
